(* ===== verification/_CoqProject ===== *)
-Q . S2P
Prelude.v
Balloc.v
Blob.v
BlobCodec.v
Ctype.v
Version.v
Digest.v
Hash.v
Dep.v
Package.v
PackageRules.v
Path.v
Solver.v
SolverFacts.v
SolverChangeset.v
SolverTermination.v
SolverLoop.v
SolverChoice.v
Catalog.v
CatalogFacts.v
CatalogSolver.v
Dirs.v
DirsFacts.v
Installed.v
InstalledFacts.v
Owner.v
Fdb.v
FdbText.v
FdbRead.v
FdbPackage.v
FdbRoundTrip.v
Stream.v
StreamFacts.v
FdbStream.v
InstallFile.v
InstallFacts.v
Fs.v
FsFacts.v
Install.v
UnpackFacts.v
SearchFacts.v
PurgeFacts.v
Deploy.v
DeployFacts.v
Commit.v
CommitFacts.v
ErrorReport.v
Tar.v
TarFacts.v
Json.v
JsonFacts.v
Adb.v
AdbFacts.v
AdbWrite.v
AdbTree.v
AdbBuild.v
AdbCache.v
AdbBlock.v
AdbBlockFacts.v
AdbSchema.v
ApkAdb.v
ApkAdbFacts.v
Repo.v
RepoFacts.v
