(* ===== verification/Prelude.v ===== *)
(** * The Alpine package keeper: a verification library

    The repository bundles a macOS build of Alpine Linux; its own core logic is the package
    manager apk-tools (src/apk-tools/src).  This library translates the parts of apk that
    decide something into executable definitions and proves what they promise.  Names are
    those of the C source; every file says which source file it models.

    ** The program and where it is modelled

    - Text.  [apk_blob_t] is a pointer and a length.  Blob.v (blob.c, apk_blob.h: comparing,
      searching, splitting, hashing), BlobCodec.v (numbers, hex, base64, bounded output
      buffers), Ctype.v (ctype.c), Digest.v (crypto.c, digest values).
    - Versions.  Version.v (version.c): the tokenizer, validation, comparison, matching.
    - Containers.  Hash.v (hash.c, atom.c): hash tables behind the operations record
      [HashOps], interned strings.  Balloc.v (balloc.c): the block allocator, over the class
      [Malloc].  Path.v (pathbuilder.c): paths in an array.
    - Dependencies and packages.  Dep.v and Package.v (package.c: parsing, printing and
      evaluating dependencies, index entries), PackageRules.v (package.c: who owns a file or
      a directory, file name patterns, walks over reverse dependencies).
    - The solver.  Solver.v (solver.c, complete): the state of names and packages as records
      in maps, constraints, choice, and the change set.  SolverFacts.v, SolverChangeset.v,
      SolverTermination.v, SolverLoop.v and SolverChoice.v hold its proofs.
    - The database.  Catalog.v (database.c: names, packages, reverse dependencies,
      repositories) with CatalogFacts.v and CatalogSolver.v; Dirs.v (directories and their
      reference counts) with DirsFacts.v; Installed.v (directory instances and files of
      installed packages, and their searches) with InstalledFacts.v; Owner.v (owners and
      permissions of directories).
    - Repositories.  Repo.v (repoparser.c: lines, variables and options of the repositories
      file) with RepoFacts.v.
    - Files on their way to disk.  InstallFile.v (database.c: migrating and purging the files
      of a package) over the class [FileSystem], with InstallFacts.v and PurgeFacts.v; Fs.v
      (fs_fsys.c, fs_uvol.c: the backends, over system calls of the class [Kernel]) with
      FsFacts.v; Install.v (database.c: [apk_db_install_file]) with UnpackFacts.v and
      SearchFacts.v (the searches of Installed.v while packages are read and unpacked).
    - Changing the system.  Deploy.v (database.c: [apk_db_install_pkg] over the class
      [Machine], and the machine that InstallFile.v and a file system make) with
      DeployFacts.v; Commit.v (commit.c: a change set is counted, confirmed, downloaded and
      carried out, hooks and triggers run; database.c: [apk_cache_download] of a package) with
      CommitFacts.v; ErrorReport.v (commit.c: the search behind
      the report of the solver's errors, and [apk_solver_commit]).
    - Archives.  Tar.v (tar.c: reading and writing) with TarFacts.v.
    - Output.  Json.v (serialize_json.c) with JsonFacts.v.
    - The installed database as text.  Fdb.v (database.c: [apk_db_fdb_read],
      [apk_db_fdb_write]) with FdbText.v, FdbRead.v, FdbPackage.v and FdbRoundTrip.v.
    - Input.  Stream.v (io.c: buffered streams over files, memory and segments of other
      streams) with StreamFacts.v; FdbStream.v reads the installed database through it.
    - ADB, the binary format.  Adb.v (adb.c, adb.h: values, reading, writing, the cache of
      written data) with AdbFacts.v (reading), AdbWrite.v, AdbTree.v, AdbBuild.v (what words
      stand for, and what writing builds) and AdbCache.v; AdbBlock.v (blocks, signatures and
      the parser of files) with AdbBlockFacts.v; AdbSchema.v (adb.c: comparing, searching,
      sorting and text conversion by schema); ApkAdb.v (apk_adb.c: the schemas of packages)
      with ApkAdbFacts.v.

    The solver reads the database through the record [solver_view]; the database uses the
    hash tables through [HashOps] and its laws, and deletes only from tables of the class
    [ItemCompared], which states the assertion in [apk_hash_delete_hashed]; streams read through the class [Reader];
    signatures and digests come from the class [Crypto], whose laws are [CryptoLaws];
    the files of packages use [FileSystem] and [FileSystemLaws], which the backends implement
    over [Kernel] and [KernelLaws]; the block allocator uses [Malloc] and [MallocLaws]; a
    commit uses [Machine], which [disk_machine] implements; everything uses blobs.  FsFacts.v
    has a kernel in memory on which the examples run.

    ** Conventions

    A byte is a [Z], a buffer a list of bytes, a blob an optional buffer ([None] is a NULL
    pointer).  Machine integers are [Z] with their wrap-around written out ([u8], [u16],
    [u32], [u64], [s32]).  Objects with identity live in finite maps under addresses.  An
    access outside an object, or an assertion that fails, is the value [Fault] of the type
    [outcome]; a loop whose
    recursion is not structural takes fuel and gives [None] without it.  Every use of fuel
    has a theorem or lemma that bounds it: the length of the input for parsers, the length
    of the name for directories, the depth of a value for copies of ADB values, three rounds
    for the priorities of migrating, the length of the stream for archives, the length of the
    extended header for its records, three visits of every package for the report of errors,
    and for the solver a measure of its state.  The reader of JSON texts is a reference: the
    theorem gives it the fuel it needs.  Tar.v reads the bytes a stream delivers, which are
    those of StreamFacts.v.  The theorems on the result of a commit ask for fewer than 2^28 changes
    and 2^30 directories that could not be updated, so that their errors are an [int]; the
    counters themselves wrap.

    ** What is shown

    - Text: round trips of numbers, hex, base64, digests and dependencies; bounds of the
      decoders; substitution terminates.
    - Versions: comparison is the lexicographic order of token keys and a total preorder;
      validation accepts exactly the grammar; the operators on versions have their meaning
      ([><], which is about identities, is not one of them).
    - Containers: a hash table is a map from keys to stacks; atoms are unique; the blocks of
      the allocator are isolated, and only [malloc] fails.
    - Packages: index entries round trip; ownership rules are consistent.
    - Solver: a run without errors satisfies the world; the change set meets all
      dependencies, names no package twice and counts its changes; the solver terminates.
    - Repositories: a line without variables registers exactly what it names; variables are a map.
    - Files: a file that was changed in a protected directory stays; migrating makes the
      package the owner of its files and purging gives them up; a file is put in place
      atomically; unpacking an entry changes nothing outside, and refuses the names the
      code means to refuse but for a last component [..].
    - Installing and committing: a package is replaced by one that is not installed completely
      or not at all (a failed reinstallation loses it); a commit without errors realises its
      change set, it returns -1 exactly when it is refused, a refused or simulated one changes
      nothing, and the lines it shows are numbered without gaps; the report of errors ends and
      tells missing names from those that are there.
    - Archives: what is written is read back, but for long names that fill their records;
      reading ends on any input, extended headers included; two extended headers in a row can
      make the reader use a buffer after it moved.
    - JSON: a JSON reader gets back what was serialized, as far as the writer escapes it.
    - Database: reverse dependencies are exact; directory references are exact; the partly
      sorted searches of the installed database are linear searches, in all states that
      reading and unpacking go through; the installed packages survive being written to a
      file and read through a stream.
    - Streams: they are the sequence of bytes they stand for; segments are isolated.
    - ADB: reading stays inside any file; what is built reads back, copied values keep their
      meaning and data is stored once; no database or data is accepted without trust, and
      what was signed is accepted; dependencies survive the conversion from and to text.
    - The theorems about errors state deviations of the code from what it means to do; the
      manifest lists them as findings.

    ** Not modelled

    - The formats YAML and the one of queries, terminal output and the texts of messages: what
      is printed is not read back by the program.
    - Queries, option parsing and the applets: they select and print with the parts above.
    - Opening a package (extract_v2.c, extract_v3.c) and most metadata callbacks, the trust
      store, processes and the network (libfetch, vendored): they are the operations of the
      classes [Machine], [Outside], [Kernel] and [Crypto], and parameters of the theorems.
    - The crypto backends and compression: wrappers around libraries.
    - The walk over ADB files for output, and parsing them from a stream.
    - The language bindings and the replacements for missing library functions.
    - Other programs of the repository: the tools of abuild, nlplug-findfs and uniso work with
      system calls, kernel events and threads; the package recipes are third-party code. *)

From Stdlib Require Export ZArith Lia Ascii.
From Stdlib Require String.
From stdpp Require Export base tactics option list gmap strings.

#[global] Open Scope Z_scope.
#[global] Set Default Goal Selector "!".

(** ** Bytes, characters and byte strings *)

(** A byte is a [Z] in [0, 256); a C buffer is a list of them. *)
Abbreviation bytes := (list Z).

Definition byte_ok (x : Z) : Prop := 0 <= x < 256.

Definition ascii_code (c : ascii) : Z := Z.of_N (N_of_ascii c).

Definition codes_of_string (s : string) : bytes :=
  ascii_code <$> String.list_ascii_of_string s.

Declare Scope apk_scope.
Delimit Scope apk_scope with apk.

(** [chr "x"] and [lit "text"] are the C character and string literals; they are
    evaluated when they are parsed, so that [lia] sees numerals. *)
Abbreviation chr c :=
  ltac:(let v := eval vm_compute in (ascii_code c%char) in exact v) (only parsing).
Abbreviation lit s :=
  ltac:(let v := eval vm_compute in (codes_of_string s%string) in exact v) (only parsing).

(** ** Machine integers *)

Definition u8 (x : Z) : Z := x mod 2 ^ 8.
Definition u16 (x : Z) : Z := x mod 2 ^ 16.
Definition u32 (x : Z) : Z := x mod 2 ^ 32.
Definition u64 (x : Z) : Z := x mod 2 ^ 64.
(** Conversion of a value to the C type [int]. *)
Definition s32 (x : Z) : Z := (x + 2 ^ 31) mod 2 ^ 32 - 2 ^ 31.

Lemma s32_small x : - 2 ^ 31 <= x < 2 ^ 31 -> s32 x = x.
Proof. unfold s32. intros Hx. rewrite Z.mod_small by lia. lia. Qed.

Lemma s32_idem x : s32 (s32 x) = s32 x.
Proof. apply s32_small. unfold s32. pose proof (Z.mod_pos_bound (x + 2 ^ 31) (2 ^ 32)). lia. Qed.

Lemma s32_add x y : s32 (s32 x + y) = s32 (x + y).
Proof.
  unfold s32. f_equal. replace ((x + 2 ^ 31) mod 2 ^ 32 - 2 ^ 31 + y + 2 ^ 31) with ((x + 2 ^ 31) mod 2 ^ 32 + y) by lia.
  rewrite Zplus_mod_idemp_l. f_equal. lia.
Qed.

(** [BIT(x)] of apk_defines.h. *)
Definition BIT (x : Z) : Z := Z.shiftl 1 x.

(** [ROUND_UP(x,a)] of apk_defines.h at 64 bits, and the alignments it is used with. *)
Definition ROUND_UP (x a : Z) : Z := Z.land (u64 (x + a - 1)) (Z.lnot (a - 1)).

Definition alignment (a : Z) : Prop := a = 1 \/ a = 2 \/ a = 4 \/ a = 8.

Lemma alignment_pow a : alignment a -> exists j, 0 <= j <= 3 /\ a = 2 ^ j.
Proof. intros [->|[->|[->| ->]]]; [exists 0 | exists 1 | exists 2 | exists 3]; lia. Qed.

Lemma round_up_div x a : alignment a -> 0 <= x < 2 ^ 63 -> ROUND_UP x a = (x + a - 1) / a * a.
Proof.
  intros (j & Hj & ->)%alignment_pow Hx. unfold ROUND_UP, u64.
  assert (2 ^ j <= 2 ^ 3) by (apply Z.pow_le_mono_r; lia).
  rewrite Z.mod_small by lia. replace (2 ^ j - 1) with (Z.ones j) by (rewrite Z.ones_equiv; lia).
  rewrite <- Z.ldiff_land, Z.ldiff_ones_r by lia.
  by rewrite Z.shiftr_div_pow2, Z.shiftl_mul_pow2 by lia.
Qed.

Lemma round_up_spec x a : alignment a -> 0 <= x < 2 ^ 63 ->
  x <= ROUND_UP x a <= x + a - 1 /\ (a | ROUND_UP x a).
Proof.
  intros Ha Hx. rewrite round_up_div by done. split; [| by eexists].
  assert (0 < a) by (destruct Ha as [->|[->|[->| ->]]]; lia).
  pose proof (Z.mul_div_le (x + a - 1) a). pose proof (Z.mul_succ_div_gt (x + a - 1) a). nia.
Qed.

(** A C truth value: any bit of the mask is set. *)
Definition testmask (x m : Z) : bool := negb (Z.land x m =? 0).
Definition b2z (b : bool) : Z := if b then 1 else 0.

(** ** Loops over arrays *)

(** [each f l st] runs the body [f] on the elements of [l] in order; [each_opt] stops
    when a body runs out of fuel. *)
Fixpoint each {A S : Type} (f : A -> S -> S) (l : list A) (st : S) : S :=
  match l with
  | [] => st
  | x :: l' => each f l' (f x st)
  end.

Fixpoint each_opt {A S : Type} (f : A -> S -> option S) (l : list A) (st : S) : option S :=
  match l with
  | [] => Some st
  | x :: l' => st' ← f x st; each_opt f l' st'
  end.

Lemma each_app {A S} (f : A -> S -> S) (l k : list A) st : each f (l ++ k) st = each f k (each f l st).
Proof. revert st. induction l as [|x l IH]; intros st; simpl; [done | apply IH]. Qed.

Lemma each_fmap {A B S} (g : B -> A) (f : A -> S -> S) (l : list B) st :
  each f (g <$> l) st = each (fun x => f (g x)) l st.
Proof. revert st. induction l as [|x l IH]; intros st; simpl; [done | apply IH]. Qed.

(** A loop inside a loop is one loop over the concatenation. *)
Lemma each_bind {A B S} (g : B -> list A) (f : A -> S -> S) (l : list B) st :
  each f (l ≫= g) st = each (fun x => each f (g x)) l st.
Proof. revert st. induction l as [|x l IH]; intros st; simpl; [done |]. by rewrite each_app, IH. Qed.

(** A loop invariant that depends on the elements done so far. *)
Lemma each_prefix_inv {A S} (P : list A -> S -> Prop) (f : A -> S -> S) (l : list A) st :
  P [] st -> (forall done x s, x ∈ l -> P done s -> P (done ++ [x]) (f x s)) -> P l (each f l st).
Proof.
  intros H0 Hf. assert (forall l2 l1 s, l = l1 ++ l2 -> P l1 s -> P l (each f l2 s)) as H.
  { intros l2. induction l2 as [|x l2 IH]; intros l1 s Hl Hs; simpl.
    - by rewrite Hl, app_nil_r.
    - apply (IH (l1 ++ [x])); [by rewrite <- app_assoc |]. apply Hf; [| done]. subst l. set_solver. }
  by apply (H l []).
Qed.

Lemma each_opt_rel {A S} (R : S -> S -> Prop) `{!Reflexive R} `{!Transitive R}
    (f : A -> S -> option S) (l : list A) st st' :
  (forall x s s', x ∈ l -> f x s = Some s' -> R s s') -> each_opt f l st = Some st' -> R st st'.
Proof.
  revert st. induction l as [|x l IH]; intros st Hf; simpl; [by intros [= <-] |].
  destruct (f x st) as [st1|] eqn:E; [| done]. intros H. transitivity st1.
  - apply (Hf x); [by left | done].
  - apply IH; [| done]. intros y s s' Hy. apply Hf. by right.
Qed.

Lemma each_opt_inv {A S} (P : S -> Prop) (f : A -> S -> option S) (l : list A) st st' :
  (forall x s s', x ∈ l -> f x s = Some s' -> P s -> P s') -> each_opt f l st = Some st' -> P st -> P st'.
Proof.
  intros Hf. revert st. induction l as [|x l IH]; intros st; simpl; [by intros [= <-] |].
  destruct (f x st) as [st1|] eqn:E; [| done]. intros H Hst. apply (IH (fun y s s' Hy => Hf y s s' ltac:(by right)) st1 H).
  by apply (Hf x st); [left | |].
Qed.

(** A loop whose bodies are defined on the states that satisfy [P] is defined. *)
Lemma each_opt_total {A S} (P : S -> Prop) (f : A -> S -> option S) (l : list A) st :
  (forall x s, x ∈ l -> P s -> exists s', f x s = Some s' /\ P s') -> P st ->
  exists st', each_opt f l st = Some st' /\ P st'.
Proof.
  revert st. induction l as [|x l IH]; intros st Hf HP; simpl; [by exists st |].
  destruct (Hf x st) as (s' & -> & Hs'); [left | done |]. simpl. apply IH; [| done].
  intros y s Hy. apply Hf. by right.
Qed.

Lemma bind_total {S T} (P : S -> Prop) (Q : T -> Prop) (a : option S) (k : S -> option T) :
  (exists s, a = Some s /\ P s) -> (forall s, P s -> exists s', k s = Some s' /\ Q s') ->
  exists s', (a ≫= k) = Some s' /\ Q s'.
Proof. intros (s & -> & Hs) Hk. by apply Hk. Qed.

(** More fuel for the bodies gives the same result. *)
Lemma each_opt_mono {A S} (f g : A -> S -> option S) (l : list A) st st' :
  (forall x s s', f x s = Some s' -> g x s = Some s') -> each_opt f l st = Some st' -> each_opt g l st = Some st'.
Proof.
  intros Hfg. revert st. induction l as [|x l IH]; intros st; simpl; [done |].
  destruct (f x st) as [s|] eqn:E; simpl; [| done]. rewrite (Hfg _ _ _ E). apply IH.
Qed.

(** The number of elements with a property falls when one of them loses it. *)
Definition count_if {A} (f : A -> bool) (l : list A) : nat := length (List.filter f l).

Lemma count_if_le {A} (f g : A -> bool) (l : list A) :
  (forall x, x ∈ l -> g x = true -> f x = true) -> (count_if g l <= count_if f l)%nat.
Proof.
  unfold count_if. induction l as [|x l IH]; intros H; simpl; [done |].
  assert (length (List.filter g l) <= length (List.filter f l))%nat by (apply IH; intros; apply H; [by right | done]).
  destruct (g x) eqn:E; [rewrite (H x) by (done || left); simpl; lia | destruct (f x); simpl; lia].
Qed.

Lemma count_if_lt {A} (f g : A -> bool) (l : list A) x :
  (forall x, x ∈ l -> g x = true -> f x = true) -> x ∈ l -> f x = true -> g x = false ->
  (count_if g l < count_if f l)%nat.
Proof.
  induction l as [|y l IH]; intros H Hx Hf Hg; [by apply elem_of_nil in Hx |].
  assert (forall z, z ∈ l -> g z = true -> f z = true) as H' by (intros; apply H; [by right | done]).
  pose proof (count_if_le f g l H') as Hle. unfold count_if in *. simpl.
  apply elem_of_cons in Hx as [<-|Hx].
  - rewrite Hf, Hg. simpl. lia.
  - specialize (IH H' Hx Hf Hg). destruct (g y) eqn:E; [rewrite (H y) by (done || left) | destruct (f y)]; simpl; lia.
Qed.

(** ** Results that may leave the defined behaviour of C *)

(** [Fault] marks an access outside the object it was derived from. *)
Inductive outcome (A : Type) : Type :=
| Ok (a : A)
| Fault.
Arguments Ok {A} a.
Arguments Fault {A}.

#[global] Instance outcome_eq_dec {A} `{EqDecision A} : EqDecision (outcome A).
Proof. solve_decision. Defined.

Definition obind {A B} (x : outcome A) (f : A -> outcome B) : outcome B :=
  match x with
  | Ok a => f a
  | Fault => Fault
  end.
Notation "'let!' x ':=' c1 'in' c2" := (obind c1 (fun x => c2))
  (at level 10, x pattern, c1 at level 100, c2 at level 200) : apk_scope.
#[global] Open Scope apk_scope.

(** A loop whose body may fault; the body is a parameter outside of the recursion, so that functions on
    trees can call themselves through it. *)
Definition oeach {A S : Type} (f : A -> S -> outcome S) : list A -> S -> outcome S :=
  fix go l st := match l with [] => Ok st | x :: l => let! st := f x st in go l st end.

Lemma oeach_app {A S : Type} (f : A -> S -> outcome S) l1 l2 st :
  oeach f (l1 ++ l2) st = let! st := oeach f l1 st in oeach f l2 st.
Proof. revert st. induction l1 as [|x l1 IH]; intros st; [done |]. simpl. destruct (f x st); simpl; [apply IH | done]. Qed.

(** What every step keeps, the loop keeps. *)
Lemma oeach_ind {A S : Type} (P : S -> Prop) (f : A -> S -> outcome S) l st st' :
  (forall x s s', x ∈ l -> P s -> f x s = Ok s' -> P s') -> P st -> oeach f l st = Ok st' -> P st'.
Proof.
  revert st. induction l as [|x l IH]; intros st Hf Hst; simpl; [by intros [= <-] |].
  destruct (f x st) as [s1|] eqn:E; simpl; [| done]. apply IH; [intros y s s' Hy; apply Hf; by right |]. eapply Hf; [left | done..].
Qed.

(** ** Tactics *)

(** Turns boolean tests in the context into propositions. *)
Ltac bool_prop :=
  repeat match goal with
  | H : _ && _ = true |- _ => apply andb_true_iff in H as [? ?]
  | H : _ || _ = false |- _ => apply orb_false_iff in H as [? ?]
  | H : negb _ = true |- _ => apply negb_true_iff in H
  | H : negb _ = false |- _ => apply negb_false_iff in H
  | H : (_ =? _) = true |- _ => apply Z.eqb_eq in H
  | H : (_ =? _) = false |- _ => apply Z.eqb_neq in H
  | H : (_ <? _) = true |- _ => apply Z.ltb_lt in H
  | H : (_ <? _) = false |- _ => apply Z.ltb_ge in H
  | H : (_ <=? _) = true |- _ => apply Z.leb_le in H
  | H : (_ <=? _) = false |- _ => apply Z.leb_gt in H
  | H : (_ =? _)%nat = true |- _ => apply Nat.eqb_eq in H
  | H : (_ =? _)%nat = false |- _ => apply Nat.eqb_neq in H
  | H : (_ <? _)%nat = true |- _ => apply Nat.ltb_lt in H
  | H : (_ <? _)%nat = false |- _ => apply Nat.ltb_ge in H
  | H : bool_decide _ = true |- _ => apply bool_decide_eq_true in H
  | H : bool_decide _ = false |- _ => apply bool_decide_eq_false in H
  end.

(** Case analysis on the first test of an [if] or scrutinee of a [match]. *)
Ltac case_if :=
  match goal with
  | |- context [if ?b then _ else _] => destruct b eqn:?
  end.

(** Closes [Forall byte_ok l] for a literal list. *)
Ltac bytes_ok :=
  repeat (apply List.Forall_cons; [unfold byte_ok; lia |]); apply List.Forall_nil.

(** The body of a record update: [eta] spells out the eta-expansion of the record,
    [proj] is the field that receives [v]. *)
Ltac record_set eta proj s v :=
  let e := eval cbv delta [eta] beta in (eta s) in
  let e' := eval pattern (proj s) in e in
  match e' with
  | ?f _ => let r := eval cbv beta in (f v) in exact r
  end.

Create HintDb apk.
#[export] Hint Extern 2 => lia : apk.

(** ** Comparison functions that are total preorders *)

(** What the sorting and version code promises of a three-way comparison. *)
Class CmpLaws {A : Type} (cmp : A -> A -> comparison) : Prop := {
  cmp_opp : forall x y, cmp y x = CompOpp (cmp x y);
  cmp_le_trans : forall x y z, cmp x y <> Gt -> cmp y z <> Gt -> cmp x z <> Gt;
}.

Arguments cmp_opp {A} cmp {_} x y.
Arguments cmp_le_trans {A} cmp {_} x y z.

Section CmpFacts.
Context {A : Type} (cmp : A -> A -> comparison) `{!CmpLaws cmp}.

Lemma cmp_refl x : cmp x x = Eq.
Proof. pose proof (cmp_opp cmp x x) as H. destruct (cmp x x); simpl in H; congruence. Qed.

Lemma cmp_eq_l x y z : cmp x y = Eq -> cmp x z = cmp y z.
Proof.
  intros Hxy. pose proof (cmp_opp cmp x y) as Hyx. rewrite Hxy in Hyx. simpl in Hyx.
  pose proof (cmp_le_trans cmp x y z) as H1. pose proof (cmp_le_trans cmp y x z) as H2.
  pose proof (cmp_le_trans cmp z y x) as H3. pose proof (cmp_le_trans cmp z x y) as H4.
  rewrite (cmp_opp cmp x z), (cmp_opp cmp y z) in H3, H4.
  rewrite Hxy in H1, H4. rewrite Hyx in H2, H3.
  destruct (cmp x z), (cmp y z); simpl in *; naive_solver.
Qed.

Lemma cmp_eq_r x y z : cmp y z = Eq -> cmp x y = cmp x z.
Proof.
  intros Hyz. rewrite (cmp_opp cmp y x), (cmp_opp cmp z x). by rewrite (cmp_eq_l y z x Hyz).
Qed.

Lemma cmp_lt_le_trans x y z : cmp x y = Lt -> cmp y z <> Gt -> cmp x z = Lt.
Proof.
  intros Hxy Hyz. destruct (cmp x z) eqn:Hxz; [| done |].
  - rewrite (cmp_eq_l x z y Hxz), (cmp_opp cmp y z) in Hxy. by destruct (cmp y z).
  - exfalso. apply (cmp_le_trans cmp x y z); [congruence | done | done].
Qed.

Lemma cmp_le_lt_trans x y z : cmp x y <> Gt -> cmp y z = Lt -> cmp x z = Lt.
Proof.
  intros Hxy Hyz. destruct (cmp x y) eqn:E; [| | done].
  - by rewrite (cmp_eq_l x y z E).
  - apply (cmp_lt_le_trans x y z); [done | congruence].
Qed.
End CmpFacts.

#[global] Instance Zcompare_laws : CmpLaws Z.compare.
Proof.
  split.
  - intros x y. by rewrite Z.compare_antisym.
  - intros x y z. rewrite !Z.compare_le_iff. lia.
Qed.

(** Compare through a key. *)
Definition cmp_on {A B} (f : A -> B) (cmp : B -> B -> comparison) (x y : A) : comparison :=
  cmp (f x) (f y).

#[global] Instance cmp_on_laws {A B} (f : A -> B) cmp `{!CmpLaws cmp} : CmpLaws (cmp_on f cmp).
Proof.
  split; unfold cmp_on; intros; [apply (cmp_opp cmp) | by eapply (cmp_le_trans cmp)].
Qed.

(** The second comparison decides what the first leaves equal. *)
Definition cmp_then (c d : comparison) : comparison :=
  match c with Eq => d | _ => c end.

Definition cmp_lex {A} (c1 c2 : A -> A -> comparison) (x y : A) : comparison :=
  cmp_then (c1 x y) (c2 x y).

#[global] Instance cmp_lex_laws {A} (c1 c2 : A -> A -> comparison)
  `{!CmpLaws c1} `{!CmpLaws c2} : CmpLaws (cmp_lex c1 c2).
Proof.
  split; unfold cmp_lex, cmp_then.
  - intros x y. rewrite (cmp_opp c1 x y), (cmp_opp c2 x y).
    by destruct (c1 x y), (c2 x y).
  - intros x y z. destruct (c1 x y) eqn:E1; [| | done].
    + rewrite (cmp_eq_l c1 x y z E1). destruct (c1 y z); [| done | done].
      apply (cmp_le_trans c2).
    + destruct (c1 y z) eqn:E2; [| | done]; intros _ _.
      * by rewrite <- (cmp_eq_r c1 x y z E2), E1.
      * rewrite (cmp_lt_le_trans c1 x y z E1); [done | congruence].
Qed.

(** Lexicographic comparison of lists; a proper prefix is smaller. *)
Fixpoint cmp_list {A} (cmp : A -> A -> comparison) (l k : list A) : comparison :=
  match l, k with
  | [], [] => Eq
  | [], _ :: _ => Lt
  | _ :: _, [] => Gt
  | x :: l', y :: k' => cmp_then (cmp x y) (cmp_list cmp l' k')
  end.

#[global] Instance cmp_list_laws {A} (cmp : A -> A -> comparison) `{!CmpLaws cmp} :
  CmpLaws (cmp_list cmp).
Proof.
  split.
  - induction x as [|x l IH]; intros [|y k]; simpl; try done.
    rewrite (cmp_opp cmp x y), IH. by destruct (cmp x y).
  - induction x as [|x l IH]; intros [|y k] [|z m]; simpl; try done.
    destruct (cmp x y) eqn:E1; simpl; [| | done].
    + rewrite (cmp_eq_l cmp x y z E1). destruct (cmp y z); simpl; [apply IH | done | done].
    + destruct (cmp y z) eqn:E2; simpl; [| | done]; intros _ _.
      * by rewrite <- (cmp_eq_r cmp x y z E2), E1.
      * rewrite (cmp_lt_le_trans cmp x y z E1); [done | congruence].
Qed.

Lemma cmp_list_Zcompare_eq (l k : list Z) : cmp_list Z.compare l k = Eq <-> l = k.
Proof.
  revert k. induction l as [|x l IH]; intros [|y k]; simpl; try done.
  destruct (Z.compare_spec x y) as [->| |]; simpl.
  - rewrite IH. split; congruence.
  - split; [done | intros [= -> ->]; lia].
  - split; [done | intros [= -> ->]; lia].
Qed.

(** ** Shared list and integer lemmas *)

Lemma u32_range x : 0 <= u32 x < 2 ^ 32.
Proof. apply Z.mod_pos_bound. lia. Qed.
Lemma u64_range x : 0 <= u64 x < 2 ^ 64.
Proof. apply Z.mod_pos_bound. lia. Qed.
Lemma u64_small x : 0 <= x < 2 ^ 64 -> u64 x = x.
Proof. apply Z.mod_small. Qed.
Lemma u32_small x : 0 <= x < 2 ^ 32 -> u32 x = x.
Proof. apply Z.mod_small. Qed.
Lemma u8_small x : byte_ok x -> u8 x = x.
Proof. apply Z.mod_small. Qed.
Lemma u8_range x : byte_ok (u8 x).
Proof. apply Z.mod_pos_bound. lia. Qed.

#[export] Hint Resolve u32_range u64_range u8_range : apk.

(** A value below a power of two has no bits from there on; bitwise operations
    therefore stay in range. *)
Lemma bits_high n x i : 0 <= n -> 0 <= x < 2 ^ n -> n <= i -> Z.testbit x i = false.
Proof. intros Hn [Hx Hlt]. by apply (Z.bounded_iff_bits_nonneg n x). Qed.

Lemma lxor_range n x y : 0 <= n -> 0 <= x < 2 ^ n -> 0 <= y < 2 ^ n -> 0 <= Z.lxor x y < 2 ^ n.
Proof.
  intros Hn Hx Hy. assert (0 <= Z.lxor x y) by (apply Z.lxor_nonneg; lia).
  split; [done |]. apply (Z.bounded_iff_bits_nonneg n); [done.. |].
  intros i Hi. rewrite Z.lxor_spec, (bits_high n x i), (bits_high n y i) by done. done.
Qed.

Lemma lor_range n x y : 0 <= n -> 0 <= x < 2 ^ n -> 0 <= y < 2 ^ n -> 0 <= Z.lor x y < 2 ^ n.
Proof.
  intros Hn Hx Hy. assert (0 <= Z.lor x y) by (apply Z.lor_nonneg; lia).
  split; [done |]. apply (Z.bounded_iff_bits_nonneg n); [done.. |].
  intros i Hi. rewrite Z.lor_spec, (bits_high n x i), (bits_high n y i) by done. done.
Qed.

Lemma shiftr_range n x k : 0 <= k -> 0 <= x < n -> 0 <= Z.shiftr x k < n.
Proof.
  intros Hk Hx. rewrite Z.shiftr_div_pow2 by done.
  split; [apply Z.div_pos; lia |].
  eapply Z.le_lt_trans; [apply (Z.div_le_upper_bound x (2 ^ k) x); nia | lia].
Qed.

Lemma of_nat_ltb0 n : (Z.of_nat n <? 0) = false.
Proof. apply Z.ltb_ge. lia. Qed.

Lemma list_filter_all {A} (P : A -> Prop) `{!forall x, Decision (P x)} (l : list A) :
  (forall x, x ∈ l -> P x) -> filter P l = l.
Proof.
  induction l as [|x l IH]; intros Hl; [done |].
  rewrite filter_cons, decide_True by (apply Hl; set_solver). f_equal. apply IH. set_solver.
Qed.

(** Removing an element of an array by moving the last one into its place. *)
Lemma swap_remove_permutation {A} (l : list A) i x z :
  l !! i = Some x -> last l = Some z -> x :: take (length l - 1) (<[i := z]> l) ≡ₚ l.
Proof.
  intros Hi (ds & ->)%last_Some. rewrite length_app. simpl. rewrite Nat.add_sub.
  destruct (decide (i < length ds)%nat).
  - rewrite lookup_app_l in Hi by done.
    rewrite insert_app_l, take_app_length' by (rewrite ?length_insert; lia).
    rewrite insert_take_drop by done. rewrite <- (take_drop_middle ds i x Hi) at 3.
    rewrite <- Permutation_middle, (Permutation_app_comm _ [z]). simpl.
    rewrite <- Permutation_middle. apply Permutation_swap.
  - assert (i = length ds) as ->.
    { apply lookup_lt_Some in Hi. rewrite length_app in Hi. simpl in Hi. lia. }
    rewrite lookup_app_r, Nat.sub_diag in Hi by lia. simplify_eq/=.
    rewrite insert_app_r_alt, Nat.sub_diag by lia. simpl. rewrite take_app_length.
    by rewrite Permutation_app_comm.
Qed.

(** Finite case analysis by evaluation. *)
Lemma check_range (n : nat) (P : Z -> bool) (x : Z) :
  0 <= x < Z.of_nat n -> forallb (fun i => P (Z.of_nat i)) (seq 0 n) = true -> P x = true.
Proof.
  intros Hx H. rewrite forallb_forall in H. specialize (H (Z.to_nat x)).
  rewrite Z2Nat.id in H by lia. apply H, in_seq. lia.
Qed.

Lemma check_range2 (n m : nat) (P : Z -> Z -> bool) (x y : Z) :
  0 <= x < Z.of_nat n -> 0 <= y < Z.of_nat m ->
  forallb (fun i => forallb (fun j => P (Z.of_nat i) (Z.of_nat j)) (seq 0 m)) (seq 0 n) = true ->
  P x y = true.
Proof.
  intros Hx Hy H. apply (check_range m (P x) y Hy).
  by apply (check_range n (fun x => forallb (fun j => P x (Z.of_nat j)) (seq 0 m)) x Hx).
Qed.
