(* ===== verification/Balloc.v ===== *)
(** * The block allocator (balloc.c, apk_balloc.h)

    Objects that live as long as the database are cut from pages, one after the other.  The
    pages come from [malloc], which is a parameter with the laws of the C library; the bytes in
    memory are a map.  Writing outside the pages is a [Fault], and so is the use of the NULL
    pointer that a failing [malloc] returns: the code does not test for it. *)

From S2P Require Import Prelude.

(** ** Memory *)

(** A region of memory: its first address and its size. *)
Abbreviation region := (Z * Z)%type.

(** [malloc live n]: a new region of [n] bytes while those of [live] are in use. *)
Class Malloc := { malloc : list region -> Z -> option Z }.

Definition apart (p q : region) : Prop := p.1 + p.2 <= q.1 \/ q.1 + q.2 <= p.1.

Class MallocLaws `{Malloc} : Prop := {
  malloc_fresh : forall live n p, malloc live n = Some p ->
    0 < p /\ p + n < 2 ^ 63 /\ (16 | p) /\ Forall (apart (p, n)) live;
}.

Abbreviation memory := (gmap Z Z).

(** ** The allocator *)

Record apk_balloc := mk_balloc {
  pages_head : list region;  (** the newest page first, with the bytes that were requested *)
  page_size : Z;
  ba_cur : Z;
  ba_end : Z;
}.

(** [sizeof (struct apk_balloc_page)]: the link of the list of pages. *)
Definition PAGE_HEADER : Z := 8.

Definition apk_balloc_init (page_size : Z) : apk_balloc := mk_balloc [] page_size 0 0.

(** The pages that are freed, and the allocator after it. *)
Definition apk_balloc_destroy (ba : apk_balloc) : list region * apk_balloc := (pages_head ba, apk_balloc_init 0).

Section allocator.
Context `{Malloc}.

Definition apk_balloc_aligned (ba : apk_balloc) (size align : Z) : outcome (Z * apk_balloc) :=
  let cut ptr ba := Ok (ptr, mk_balloc (pages_head ba) (page_size ba) (u64 (ptr + size)) (ba_end ba)) in
  let ptr := ROUND_UP (ba_cur ba) align in
  if ba_end ba <? u64 (ptr + size) then
    let psize := Z.max (page_size ba) size in
    let n := u64 (psize + PAGE_HEADER) in
    match malloc (pages_head ba) n with
    | None => Fault
    | Some bp =>
        let ba := mk_balloc ((bp, n) :: pages_head ba) (page_size ba) (u64 (bp + PAGE_HEADER)) (u64 (bp + psize)) in
        cut (ROUND_UP (ba_cur ba) align) ba
    end
  else cut ptr ba.

(** The region is in a page, behind its header. *)
Definition in_page (r page : region) : bool := (page.1 + PAGE_HEADER <=? r.1) && (r.1 + r.2 <=? page.1 + page.2).

Definition store (ba : apk_balloc) (ptr : Z) (b : bytes) (mem : memory) : outcome memory :=
  if (length b =? 0)%nat || existsb (in_page (ptr, Z.of_nat (length b))) (pages_head ba)
  then Ok (map_seqZ ptr b ∪ mem) else Fault.

Definition apk_balloc_aligned0 (ba : apk_balloc) (mem : memory) (size align : Z) : outcome (Z * apk_balloc * memory) :=
  let! (ptr, ba) := apk_balloc_aligned ba size align in
  let! mem := store ba ptr (replicate (Z.to_nat size) 0) mem in
  Ok (ptr, ba, mem).

(** A copy of the bytes; the result is a blob at [ptr]. *)
Definition apk_balloc_dup (ba : apk_balloc) (mem : memory) (b : bytes) : outcome (Z * apk_balloc * memory) :=
  let! (ptr, ba) := apk_balloc_aligned ba (Z.of_nat (length b)) 1 in
  let! mem := store ba ptr b mem in
  Ok (ptr, ba, mem).

Definition apk_balloc_cstr (ba : apk_balloc) (mem : memory) (b : bytes) : outcome (Z * apk_balloc * memory) :=
  let! (ptr, ba) := apk_balloc_aligned ba (Z.of_nat (length b) + 1) 1 in
  let! mem := store ba ptr (b ++ [0]) mem in
  Ok (ptr, ba, mem).

(** ** Sequences of requests *)

Inductive request := Aligned0 (size align : Z) | Dup (b : bytes) | Cstr (b : bytes).

(** The bytes that a request leaves at the address it gets, and their alignment. *)
Definition contents (q : request) : bytes :=
  match q with Aligned0 size _ => replicate (Z.to_nat size) 0 | Dup b => b | Cstr b => b ++ [0] end.
Definition align_of (q : request) : Z := match q with Aligned0 _ align => align | _ => 1 end.

Definition serve (q : request) (ba : apk_balloc) (mem : memory) : outcome (Z * apk_balloc * memory) :=
  match q with
  | Aligned0 size align => apk_balloc_aligned0 ba mem size align
  | Dup b => apk_balloc_dup ba mem b
  | Cstr b => apk_balloc_cstr ba mem b
  end.

Fixpoint serve_all (qs : list request) (ba : apk_balloc) (mem : memory) : outcome (list Z * apk_balloc * memory) :=
  match qs with
  | [] => Ok ([], ba, mem)
  | q :: qs =>
      let! (ptr, ba, mem) := serve q ba mem in
      let! (ptrs, ba, mem) := serve_all qs ba mem in
      Ok (ptr :: ptrs, ba, mem)
  end.
End allocator.

(** ** What a sequence of requests gets *)

Section facts.
Context `{MallocLaws}.

Abbreviation block := (Z * bytes)%type.

Definition region_of (x : block) : region := (x.1, Z.of_nat (length x.2)).

(** A block is in a page; empty ones may also be at NULL. *)
Definition block_ok (pages : list region) (x : block) : Prop :=
  region_of x = (0, 0) \/ Exists (fun page => in_page (region_of x) page = true) pages.

(** The rest of the newest page is free. *)
Definition free_ok (ba : apk_balloc) (blocks : list block) : Prop :=
  match pages_head ba with
  | [] => ba_cur ba = 0 /\ ba_end ba = 0
  | (bp, n) :: _ =>
      0 < bp /\ bp + n < 2 ^ 63 /\ bp + PAGE_HEADER <= ba_cur ba <= bp + n /\ ba_end ba = bp + n - PAGE_HEADER /\
      Forall (fun x => apart (region_of x) (ba_cur ba, bp + n - ba_cur ba)) blocks
  end.

Record balloc_inv (ba : apk_balloc) (blocks : list block) (mem : memory) : Prop := {
  bi_size : 0 <= page_size ba < 2 ^ 62;
  bi_free : free_ok ba blocks;
  bi_blocks : Forall (block_ok (pages_head ba)) blocks;
  bi_apart : forall i j x y, (i < j)%nat -> blocks !! i = Some x -> blocks !! j = Some y -> apart (region_of x) (region_of y);
  bi_mem : Forall (fun x => map_seqZ x.1 x.2 ⊆ mem) blocks;
}.

(** A request of a size and an alignment that the callers use. *)
Definition valid (q : request) : Prop :=
  alignment (align_of q) /\ Z.of_nat (length (contents q)) < 2 ^ 62 /\
  match q with Aligned0 size _ => 0 <= size | _ => True end.

Lemma serve_contents q ba mem : valid q ->
  serve q ba mem =
    (let! (ptr, ba) := apk_balloc_aligned ba (Z.of_nat (length (contents q))) (align_of q) in
     let! mem := store ba ptr (contents q) mem in Ok (ptr, ba, mem)).
Proof.
  intros (_ & _ & Hq). destruct q as [size align|b|b]; cbn [serve contents align_of].
  - unfold apk_balloc_aligned0. by rewrite length_replicate, Z2Nat.id.
  - done.
  - unfold apk_balloc_cstr. by rewrite length_app, Nat2Z.inj_add.
Qed.

Lemma in_page_apart r page q : in_page r page = true -> 0 <= r.2 -> apart q page -> apart r q.
Proof. unfold in_page, apart, PAGE_HEADER. intros Hi Hr Hq. bool_prop. lia. Qed.

Lemma block_ok_apart pages x q : block_ok pages x -> 0 <= q.1 -> Forall (apart q) pages -> apart (region_of x) q.
Proof.
  intros [->|Hx] Hq Ha; [left; simpl; lia |]. apply Exists_exists in Hx as (page & Hin & Hp).
  rewrite Forall_forall in Ha. eapply in_page_apart; [done | simpl; lia | by apply Ha].
Qed.

Lemma block_ok_more page pages x : block_ok pages x -> block_ok (page :: pages) x.
Proof. intros [?|?]; [by left | right; by apply Exists_cons_tl]. Qed.

Lemma round_up_aligned x a : alignment a -> 0 <= x < 2 ^ 63 -> (8 | x) -> ROUND_UP x a = x.
Proof.
  intros Ha Hx [k ->]. destruct (round_up_spec (k * 8) a Ha Hx) as [[H1 H2] [m Hm]]. rewrite Hm in *.
  destruct Ha as [->|[->|[->| ->]]]; lia.
Qed.

(** [malloc] has no page for a request of this size. *)
Definition no_page (ba : apk_balloc) (size : Z) : Prop := malloc (pages_head ba) (Z.max (page_size ba) size + PAGE_HEADER) = None.

(** What cutting a region gives: it is aligned, in a page, and apart from all blocks, and the
    rest of the newest page is still free. *)
Record cut_ok (ba : apk_balloc) (blocks : list block) (size align ptr : Z) (ba' : apk_balloc) : Prop := {
  co_aligned : (align | ptr);
  co_size : page_size ba' = page_size ba;
  co_pages : exists more, pages_head ba' = more ++ pages_head ba;
  co_inside : ptr = 0 /\ size = 0 \/ Exists (fun page => in_page (ptr, size) page = true) (pages_head ba');
  co_apart : Forall (fun x => apart (region_of x) (ptr, size)) blocks;
  co_free : free_ok ba' blocks;
  co_cur : ba_cur ba' = ptr + size;
}.

Lemma free_ok_shrink pages psize cur cur' e blocks :
  free_ok (mk_balloc pages psize cur e) blocks -> cur <= cur' ->
  match pages with [] => cur' = 0 | (bp, n) :: _ => cur' <= bp + n end ->
  free_ok (mk_balloc pages psize cur' e) blocks.
Proof.
  unfold free_ok. simpl. destruct pages as [|[bp n] pages]; [intuition lia |].
  intros (H1 & H2 & H3 & H4 & H5) Hc Hn. split_and!; try lia. eapply Forall_impl; [done |].
  intros x. unfold apart. simpl. lia.
Qed.

Lemma aligned_spec ba blocks mem size align : balloc_inv ba blocks mem -> alignment align -> 0 <= size < 2 ^ 62 ->
  match apk_balloc_aligned ba size align with
  | Fault => no_page ba size
  | Ok (ptr, ba') => cut_ok ba blocks size align ptr ba'
  end.
Proof.
  intros [Hps Hfree Hblocks Hap _] Ha Hs. destruct ba as [pages psize cur e]. cbn [page_size pages_head] in *.
  unfold apk_balloc_aligned. cbn [ba_cur ba_end page_size pages_head].
  assert (0 <= cur < 2 ^ 63 /\ 0 <= e < 2 ^ 63) as [Hcur He].
  { unfold free_ok, PAGE_HEADER in Hfree. cbn in Hfree. destruct pages as [|[bp n] pages]; lia. }
  destruct (round_up_spec cur align Ha Hcur) as [Hr Hdiv].
  assert (1 <= align <= 8) by (destruct Ha as [->|[->|[->| ->]]]; lia).
  assert (u64 (ROUND_UP cur align + size) = ROUND_UP cur align + size) as -> by (apply Z.mod_small; lia).
  destruct (Z.ltb_spec e (ROUND_UP cur align + size)) as [Hfull|Hfits].
  - assert (u64 (psize `max` size + PAGE_HEADER) = psize `max` size + PAGE_HEADER) as -> by (unfold PAGE_HEADER; apply Z.mod_small; lia).
    destruct (malloc pages (psize `max` size + PAGE_HEADER)) as [bp|] eqn:Em; [| exact Em].
    apply malloc_fresh in Em as (Hp & Hend & [k ->] & Hnew). unfold PAGE_HEADER in *.
    assert (u64 (k * 16 + 8) = k * 16 + 8) as -> by (apply Z.mod_small; lia).
    assert (u64 (k * 16 + psize `max` size) = k * 16 + psize `max` size) as -> by (apply Z.mod_small; lia).
    rewrite round_up_aligned; [| done | lia | exists (k * 2 + 1); lia].
    assert (u64 (k * 16 + 8 + size) = k * 16 + 8 + size) as -> by (apply Z.mod_small; lia).
    assert (Forall (fun x => apart (region_of x) (k * 16, psize `max` size + 8)) blocks) as Hapart.
    { eapply Forall_impl; [exact Hblocks |]. intros x Hx. eapply block_ok_apart; [done | simpl; lia | done]. }
    split; cbn [page_size pages_head ba_cur]; try done.
    + destruct Ha as [->|[->|[->| ->]]]; [exists (k * 16 + 8) | exists (k * 8 + 4) | exists (k * 4 + 2) | exists (k * 2 + 1)]; lia.
    + by exists [(k * 16, psize `max` size + 8)].
    + right. apply Exists_cons_hd. unfold in_page, PAGE_HEADER. cbn [fst snd]. apply andb_true_intro. rewrite !Z.leb_le. lia.
    + eapply Forall_impl; [exact Hapart |]. intros x. unfold apart. simpl. lia.
    + unfold free_ok, PAGE_HEADER. cbn. split_and!; try lia. eapply Forall_impl; [exact Hapart |]. intros x. unfold apart. simpl. lia.
  - split; cbn [page_size pages_head ba_cur]; try done.
    + by exists [].
    + unfold free_ok, PAGE_HEADER in Hfree. cbn in Hfree. destruct pages as [|[bp n] pages].
      * left. destruct Hfree as [-> ->]. lia.
      * right. apply Exists_cons_hd. unfold in_page, PAGE_HEADER. cbn [fst snd]. apply andb_true_intro. rewrite !Z.leb_le. lia.
    + unfold free_ok, PAGE_HEADER in Hfree. cbn in Hfree. destruct pages as [|[bp n] pages].
      * destruct Hfree as [-> ->]. assert (ROUND_UP 0 align = 0 /\ size = 0) as [-> ->] by lia.
        eapply Forall_impl; [exact Hblocks |]. intros x [-> |Hx]; [left; simpl; lia | by inversion Hx].
      * destruct Hfree as (F1 & F2 & F3 & F4 & Hf). eapply Forall_impl; [exact Hf |]. intros x. unfold apart. simpl. lia.
    + eapply free_ok_shrink; [done | lia |]. unfold free_ok, PAGE_HEADER in Hfree. cbn in Hfree. destruct pages as [|[bp n] pages]; lia.
Qed.

Lemma seqZ_apart x y : apart (region_of x) (region_of y) -> map_seqZ x.1 x.2 ##ₘ (map_seqZ y.1 y.2 : memory).
Proof.
  intros Ha. apply map_disjoint_spec. intros i a b Hx Hy. apply lookup_map_seqZ_Some in Hx as [Hx1 Hx2], Hy as [Hy1 Hy2].
  apply lookup_lt_Some in Hx2, Hy2. unfold apart, region_of in Ha. simpl in Ha. lia.
Qed.

(** One request: its block is added to those that are there, whose contents do not change. *)
Lemma serve_spec q ba blocks mem : balloc_inv ba blocks mem -> valid q ->
  match serve q ba mem with
  | Fault => no_page ba (Z.of_nat (length (contents q)))
  | Ok (ptr, ba', mem') => balloc_inv ba' (blocks ++ [(ptr, contents q)]) mem' /\ (align_of q | ptr) /\ page_size ba' = page_size ba
  end.
Proof.
  intros Hi Hq. rewrite serve_contents by done. destruct Hq as (Ha & Hl & _).
  pose proof (aligned_spec ba blocks mem (Z.of_nat (length (contents q))) (align_of q) Hi Ha ltac:(lia)) as Hc.
  destruct (apk_balloc_aligned _ _ _) as [[ptr ba']|]; [| done]. destruct Hi as [Hps _ Hblocks Hap Hmem].
  destruct Hc as [C1 C2 [more C3] C4 C5 C6 C7]. cbn [obind]. unfold store.
  assert ((length (contents q) =? 0)%nat || existsb (in_page (ptr, Z.of_nat (length (contents q)))) (pages_head ba') = true) as ->.
  { apply orb_true_intro. destruct C4 as [[_ Hz]|C4]; [left; apply Nat.eqb_eq; lia |]. right. apply existsb_exists.
    apply Exists_exists in C4 as (page & Hin & Hp). exists page. by rewrite <- list_elem_of_In. }
  cbn [obind]. split; [| done]. split.
  - by rewrite C2.
  - unfold free_ok in *. destruct (pages_head ba') as [|[bp n] pages]; [done |]. destruct C6 as (F1 & F2 & F3 & F4 & F5).
    split_and!; try lia. apply Forall_app. split; [done |]. constructor; [| constructor]. left. unfold region_of. simpl. lia.
  - apply Forall_app. split.
    + eapply Forall_impl; [exact Hblocks |]. rewrite C3. intros x. clear -more. induction more as [|page more IH]; [done |]. intros Hx. by apply block_ok_more, IH.
    + constructor; [| constructor]. destruct C4 as [[-> Hz]|C4]; [left; unfold region_of; simpl; by rewrite Hz | by right].
  - intros i j x y Hij Hx Hy. assert (j < length blocks + 1)%nat as Hj by (apply lookup_lt_Some in Hy; rewrite length_app in Hy; simpl in Hy; lia).
    rewrite lookup_app_l in Hx by lia. destruct (decide (j < length blocks)%nat) as [Hlt|Hge]; [rewrite lookup_app_l in Hy by lia; by apply (Hap i j) |].
    rewrite lookup_app_r in Hy by lia. replace (j - length blocks)%nat with 0%nat in Hy by lia. injection Hy as <-.
    rewrite Forall_forall in C5. apply C5. by apply list_elem_of_lookup_2 with i.
  - apply Forall_app. split; [| constructor; [apply map_union_subseteq_l | constructor]].
    apply Forall_forall. intros x Hx. rewrite Forall_forall in Hmem, C5.
    apply map_subseteq_spec. intros k v Hk. rewrite lookup_union_r; [by eapply lookup_weaken; [| apply Hmem] |].
    apply eq_None_not_Some. intros [w Hw]. eapply map_disjoint_spec; [| exact Hk | exact Hw]. apply (seqZ_apart x (ptr, contents q)). by apply C5.
Qed.

(** The first request that is not served, and why: [malloc] has no page for it. *)
Definition out_of_memory (qs : list request) (ba : apk_balloc) (mem : memory) : Prop :=
  exists qs1 q qs2 ptrs ba1 mem1, qs = qs1 ++ q :: qs2 /\ serve_all qs1 ba mem = Ok (ptrs, ba1, mem1) /\
    malloc (pages_head ba1) (Z.max (page_size ba) (Z.of_nat (length (contents q))) + PAGE_HEADER) = None.

Lemma serve_all_spec qs ba blocks mem : balloc_inv ba blocks mem -> Forall valid qs ->
  match serve_all qs ba mem with
  | Fault => out_of_memory qs ba mem
  | Ok (ptrs, ba', mem') =>
      balloc_inv ba' (blocks ++ zip ptrs (contents <$> qs)) mem' /\ Forall2 (fun q ptr => (align_of q | ptr)) qs ptrs
  end.
Proof.
  intros Hi Hv. revert ba blocks mem Hi. induction Hv as [|q qs Hq Hv IH]; intros ba blocks mem Hi; cbn [serve_all].
  { by rewrite app_nil_r. }
  pose proof (serve_spec q ba blocks mem Hi Hq) as Hs. destruct (serve q ba mem) as [[[ptr ba1] mem1]|] eqn:Es; [| by exists [], q, qs, [], ba, mem].
  destruct Hs as (Hi1 & Hal & Hps). cbn [obind]. specialize (IH _ _ _ Hi1).
  destruct (serve_all qs ba1 mem1) as [[[ptrs ba2] mem2]|] eqn:Ea; cbn [obind].
  2:{ destruct IH as (qs1 & q1 & qs2 & ptrs & ba3 & mem3 & -> & E & Hm). exists (q :: qs1), q1, qs2, (ptr :: ptrs), ba3, mem3. rewrite Hps in Hm.
      split; [done |]. split; [| done]. cbn [serve_all]. rewrite Es. cbn [obind]. by rewrite E. }
  destruct IH as [IH1 IH2].
  split; [| by constructor]. by rewrite <- app_assoc in IH1.
Qed.

(** C28: However many objects are requested from the block allocator, every one of them is at an
    aligned address inside a page, no two overlap, and each still has the bytes that were put
    there, however many requests followed.  The only failure is one of [malloc]: it has no page of the size of
    the allocator, or of the request if this is larger, for the first request that is not served. *)
Theorem balloc_blocks_isolated qs psize : 0 <= psize < 2 ^ 62 -> Forall valid qs ->
  match serve_all qs (apk_balloc_init psize) ∅ with
  | Fault => out_of_memory qs (apk_balloc_init psize) ∅
  | Ok (ptrs, ba, mem) =>
      length ptrs = length qs /\
      (forall i q p, qs !! i = Some q -> ptrs !! i = Some p ->
        (align_of q | p) /\ map_seqZ p (contents q) ⊆ mem /\
        (contents q <> [] -> Exists (fun page => in_page (p, Z.of_nat (length (contents q))) page = true) (pages_head ba))) /\
      (forall i j q r p p', (i < j)%nat -> qs !! i = Some q -> qs !! j = Some r -> ptrs !! i = Some p -> ptrs !! j = Some p' ->
        apart (p, Z.of_nat (length (contents q))) (p', Z.of_nat (length (contents r))))
  end.
Proof.
  intros Hs Hv. assert (balloc_inv (apk_balloc_init psize) [] ∅) as Hi by (by split).
  pose proof (serve_all_spec qs _ _ _ Hi Hv) as Hr. destruct (serve_all qs _ _) as [[[ptrs ba] mem]|]; [| done].
  destruct Hr as [[_ _ Hb Ha Hm] Hal]. rewrite app_nil_l in *. pose proof (Forall2_length _ _ _ Hal) as Hlen.
  assert (forall i q p, qs !! i = Some q -> ptrs !! i = Some p -> zip ptrs (contents <$> qs) !! i = Some (p, contents q)) as Hz.
  { intros i q p Hq Hp. apply lookup_zip_with_Some. exists p, (contents q). by rewrite list_lookup_fmap, Hq. }
  split; [done |]. split.
  - intros i q p Hq Hp. specialize (Hz i q p Hq Hp). rewrite Forall_lookup in Hb, Hm. split; [by eapply Forall2_lookup_lr in Hal |].
    split; [by apply (Hm i) in Hz |]. intros Hne. destruct (Hb i _ Hz) as [He|He]; [| done]. unfold region_of in He. simpl in He.
    injection He as _ He. by destruct (contents q).
  - intros i j q r p p' Hij Hq Hr Hp Hp'. by apply (Ha i j _ _ Hij (Hz i q p Hq Hp) (Hz j r p' Hr Hp')).
Qed.
End facts.

(** A [malloc] that hands out ever higher addresses. *)
#[local] Instance bump_malloc : Malloc := {|
  malloc live n :=
    let p := foldr (fun r m => Z.max m (ROUND_UP (r.1 + r.2) 8 + 8)) 4096 live in
    let p := (p + 15) / 16 * 16 in
    if (p + n <? 2 ^ 62) && (0 <=? n) && forallb (fun r => r.1 + r.2 <=? p) live then Some p else None |}.

#[local] Instance bump_malloc_laws : MallocLaws.
Proof.
  split. intros live n p. cbn [malloc bump_malloc]. set (q := foldr _ _ _). destruct (_ && _ && _) eqn:E; [| done]. intros [= <-].
  assert (4096 <= q) as Hq. { unfold q. clear. induction live as [|r live IH]; simpl; lia. }
  apply andb_prop in E as [E Ef]. bool_prop. pose proof (Z.mul_div_le (q + 15) 16). pose proof (Z.mul_succ_div_gt (q + 15) 16). split_and!; [lia | lia | by eexists |].
  apply Forall_forall. intros r Hr. rewrite forallb_forall in Ef. apply list_elem_of_In in Hr. specialize (Ef r Hr). right. cbn in *. lia.
Qed.

Definition ex_requests : list request := [Dup (lit "musl"); Aligned0 24 8; Cstr (lit "a string that needs another page"); Dup []; Dup (lit "x")].

Definition page_count (x : outcome (list Z * apk_balloc * memory)) : option nat :=
  match x with Ok (_, ba, _) => Some (length (pages_head ba)) | Fault => None end.

Lemma balloc_blocks_isolated_witness :
  exists ptrs ba mem, serve_all ex_requests (apk_balloc_init 32) ∅ = Ok (ptrs, ba, mem) /\ length (pages_head ba) = 4%nat /\
    forall p, ptrs !! 0%nat = Some p -> map_seqZ p (lit "musl") ⊆ mem.
Proof.
  assert (Forall valid ex_requests) as Hv.
  { repeat (constructor; [split_and!; [unfold alignment; simpl; lia | simpl; lia | simpl; try lia; done] |]). constructor. }
  pose proof (balloc_blocks_isolated ex_requests 32 ltac:(lia) Hv) as Ht.
  assert (page_count (serve_all ex_requests (apk_balloc_init 32) ∅) = Some 4%nat) as Hp by (by vm_compute).
  destruct (serve_all ex_requests (apk_balloc_init 32) ∅) as [[[ptrs ba] mem]|]; [| done]. cbn in Hp. injection Hp as Hp.
  destruct Ht as (_ & Ht & _). exists ptrs, ba, mem. split; [done |]. split; [done |].
  intros p H0. by apply (Ht 0%nat (Dup (lit "musl")) p eq_refl H0).
Defined.
