(* ===== verification/Blob.v ===== *)
(** * Blobs: comparison, searching, splitting, hashing (blob.c, apk_blob.h)

    A blob [{ len; ptr }] is read as the bytes it covers: [None] when [ptr] is
    NULL and [Some data] otherwise.  Functions that never test for NULL take the
    bytes directly.  The file holds the value-level operations of blob.c
    (comparison, search, split, tokenise, trim, hash, template substitution);
    the push/pull codecs are in BlobCodec. *)

From S2P Require Import Prelude.

(** ** Data *)

Abbreviation blob := (option bytes).

(** [APK_BLOB_IS_NULL]. *)
Definition blob_is_null (b : blob) : bool := bool_decide (b = None).

(** The bytes of a blob; the NULL blob has length zero. *)
Definition bdata (b : blob) : bytes := default [] b.

(** ** Comparison *)

(** [memcmp] over the common prefix; only its sign is specified by C. *)
Fixpoint memcmp (a b : bytes) : Z :=
  match a, b with
  | x :: a', y :: b' => if x =? y then memcmp a' b' else if x <? y then -1 else 1
  | _, _ => 0
  end.

Definition apk_blob_compare (a b : bytes) : Z :=
  if (length a =? length b)%nat then memcmp a b
  else if (length a <? length b)%nat then -1 else 1.

Definition apk_blob_sort (a b : bytes) : Z :=
  let n := Nat.min (length a) (length b) in
  let s := memcmp (take n a) (take n b) in
  if negb (s =? 0) then s else Z.of_nat (length a) - Z.of_nat (length b).

Definition apk_blob_starts_with (a b : bytes) : bool :=
  if (length a <? length b)%nat then false
  else memcmp (take (length b) a) b =? 0.

Definition apk_blob_ends_with (a b : bytes) : bool :=
  if (length a <? length b)%nat then false
  else memcmp (drop (length a - length b) a) b =? 0.

(** ** Searching and splitting *)

Fixpoint is_prefix (p l : bytes) : bool :=
  match p, l with
  | [], _ => true
  | x :: p', y :: l' => (x =? y) && is_prefix p' l'
  | _ :: _, [] => false
  end.

(** [memmem]: the offset of the first occurrence of [needle]. *)
Fixpoint memmem (hay needle : bytes) : option nat :=
  if is_prefix needle hay then Some 0%nat
  else match hay with
       | [] => None
       | _ :: t => S <$> memmem t needle
       end.

Definition apk_blob_contains (b needle : bytes) : Z :=
  match memmem b needle with
  | None => -1
  | Some i => Z.of_nat i
  end.

Definition apk_blob_split (b split : bytes) : option (bytes * bytes) :=
  let offs := apk_blob_contains b split in
  if offs <? 0 then None
  else Some (take (Z.to_nat offs) b, drop (Z.to_nat offs + length split) b).

(** [memrchr]: the offset of the last occurrence of a character. *)
Fixpoint memrchr (l : bytes) (c : Z) : option nat :=
  match l with
  | [] => None
  | x :: t =>
      match memrchr t c with
      | Some i => Some (S i)
      | None => if x =? c then Some 0%nat else None
      end
  end.

Definition apk_blob_rsplit (b : bytes) (split : Z) : option (bytes * bytes) :=
  match memrchr b split with
  | None => None
  | Some i => Some (take i b, drop (S i) b)
  end.

(** ** Copies and trimming *)

(** The bytes up to the first NUL: what [strlen] and [strdup] see. *)
Fixpoint cstr_prefix (l : bytes) : bytes :=
  match l with
  | [] => []
  | x :: t => if x =? 0 then [] else x :: cstr_prefix t
  end.

(** The NUL-terminated buffer [apk_blob_cstr] returns. *)
Definition apk_blob_cstr (b : bytes) : bytes :=
  match last b with
  | None => [0]
  | Some c => if c =? 0 then cstr_prefix b ++ [0] else b ++ [0]
  end.

(** [isspace] in the C locale. *)
Definition isspace (c : Z) : bool := (c =? 32) || ((9 <=? c) && (c <=? 13)).

(** Drops the trailing bytes for which [f] holds. *)
Fixpoint trim_end_while (f : Z -> bool) (l : bytes) : bytes :=
  match l with
  | [] => []
  | x :: t =>
      match trim_end_while f t with
      | [] => if f x then [] else [x]
      | t' => x :: t'
      end
  end.

Definition apk_blob_trim (b : bytes) : bytes := trim_end_while isspace b.
Definition apk_blob_trim_end (b : bytes) (ch : Z) : bytes :=
  trim_end_while (fun c => c =? ch) b.

Fixpoint apk_blob_trim_start (b : bytes) (ch : Z) : bytes :=
  match b with
  | x :: t => if x =? ch then apk_blob_trim_start t ch else b
  | [] => []
  end.

Definition apk_blob_truncate (b : bytes) (maxlen : nat) : bytes :=
  take (Nat.min (length b) maxlen) b.

(** ** Tokenising *)

(** One call of [apk_blob_tokenize]: the next token and what is left, or [None]
    at the end.  The do-while loop runs once per empty token, so at most once
    per byte of the input; [tokenize_fuel] bounds it. *)
Fixpoint tokenize_loop (fuel : nat) (b : blob) (token : bytes) : option (bytes * blob) :=
  match fuel with
  | O => None
  | S fuel =>
      match b with
      | None => None
      | Some s =>
          let '(iter, b') :=
            match apk_blob_split s token with
            | Some (l, r) => (l, Some r)
            | None => (s, None)
            end in
          match iter with
          | [] => tokenize_loop fuel b' token
          | _ => Some (iter, b')
          end
      end
  end.

Definition tokenize_fuel (b : blob) : nat := S (S (length (bdata b))).

Definition apk_blob_tokenize (b : blob) (token : bytes) : option (bytes * blob) :=
  tokenize_loop (tokenize_fuel b) b token.

(** The iterations of [apk_blob_foreach_token]. *)
Fixpoint foreach_token_loop (fuel : nat) (b : blob) (token : bytes) : list bytes :=
  match fuel with
  | O => []
  | S fuel =>
      match apk_blob_tokenize b token with
      | None => []
      | Some (iter, b') => iter :: foreach_token_loop fuel b' token
      end
  end.

Definition apk_blob_foreach_token (b : blob) (token : bytes) : list bytes :=
  foreach_token_loop (tokenize_fuel b) b token.

Definition apk_blob_foreach_word (b : blob) : list bytes :=
  apk_blob_foreach_token b (lit " ").

(** ** Hashing *)

Definition rotl32 (x r : Z) : Z :=
  Z.lor (u32 (Z.shiftl x r)) (Z.shiftr x (32 - r)).

(** [apk_unaligned_le32] of four bytes. *)
Definition apk_unaligned_le32 (b0 b1 b2 b3 : Z) : Z :=
  b0 + b1 * 2 ^ 8 + b2 * 2 ^ 16 + b3 * 2 ^ 24.

Definition murmur_c1 : Z := 0xcc9e2d51.
Definition murmur_c2 : Z := 0x1b873593.

Definition murmur_mix_k (k : Z) : Z :=
  u32 (rotl32 (u32 (k * murmur_c1)) 15 * murmur_c2).

(** The block loop followed by the [switch (len & 3)] tail. *)
Fixpoint murmur_blocks (key : bytes) (h : Z) : Z :=
  match key with
  | b0 :: b1 :: b2 :: b3 :: key' =>
      let h := Z.lxor h (murmur_mix_k (apk_unaligned_le32 b0 b1 b2 b3)) in
      murmur_blocks key' (u32 (rotl32 h 13 * 5 + 0xe6546b64))
  | [b0; b1; b2] =>
      Z.lxor h (murmur_mix_k (Z.lxor (Z.lxor (Z.shiftl b2 16) (Z.shiftl b1 8)) b0))
  | [b0; b1] => Z.lxor h (murmur_mix_k (Z.lxor (Z.shiftl b1 8) b0))
  | [b0] => Z.lxor h (murmur_mix_k b0)
  | [] => h
  end.

Definition murmur3_32 (key : bytes) (seed : Z) : Z :=
  let h := murmur_blocks key (u32 seed) in
  let h := Z.lxor h (u32 (Z.of_nat (length key))) in
  let h := Z.lxor h (Z.shiftr h 16) in
  let h := u32 (h * 0x85ebca6b) in
  let h := Z.lxor h (Z.shiftr h 13) in
  let h := u32 (h * 0xc2b2ae35) in
  Z.lxor h (Z.shiftr h 16).

Definition apk_blob_hash_seed (b : bytes) (seed : Z) : Z := murmur3_32 b seed.
Definition apk_blob_hash (b : bytes) : Z := apk_blob_hash_seed b 5381.

(** ** Comparison: [apk_blob_sort] is the lexicographic order *)

Lemma memcmp_eq0 a b : length a = length b -> memcmp a b = 0 <-> a = b.
Proof.
  revert b. induction a as [|x a IH]; intros [|y b] Hl; simpl in *; try done.
  destruct (x =? y) eqn:E; bool_prop.
  - rewrite IH by lia. subst. split; congruence.
  - split; [destruct (x <? y); lia | congruence].
Qed.

Lemma apk_blob_compare_eq0 a b : apk_blob_compare a b = 0 <-> a = b.
Proof.
  unfold apk_blob_compare. destruct (length a =? length b)%nat eqn:E; bool_prop.
  - by apply memcmp_eq0.
  - split; [destruct (length a <? length b)%nat; lia | congruence].
Qed.

Lemma memcmp_refl a : memcmp a a = 0.
Proof. by apply memcmp_eq0. Qed.

Lemma apk_blob_sort_lex a b : (apk_blob_sort a b ?= 0) = cmp_list Z.compare a b.
Proof.
  unfold apk_blob_sort. revert b. induction a as [|x a IH]; intros [|y b];
    [done | apply Z.compare_lt_iff; simpl; lia | apply Z.compare_gt_iff; simpl; lia |].
  specialize (IH b). simpl length in *. simpl Nat.min. rewrite !firstn_cons. simpl.
  destruct (Z.compare_spec x y) as [->|Hlt|Hgt]; simpl.
  - rewrite Z.eqb_refl. rewrite <- IH. case_if; [done |].
    f_equal. lia.
  - assert ((x =? y) = false) as -> by lia. by assert ((x <? y) = true) as -> by lia.
  - assert ((x =? y) = false) as -> by lia. by assert ((x <? y) = false) as -> by lia.
Qed.

Lemma apk_blob_sort_eq0 a b : apk_blob_sort a b = 0 <-> a = b.
Proof.
  rewrite <- cmp_list_Zcompare_eq, <- apk_blob_sort_lex.
  by rewrite Z.compare_eq_iff.
Qed.

(** ** Searching *)

Lemma is_prefix_spec p l : is_prefix p l = true <-> exists r, l = p ++ r.
Proof.
  revert l. induction p as [|x p IH]; intros l; simpl; [naive_solver |].
  destruct l as [|y l]; [split; [done | by intros [? ?]] |].
  rewrite andb_true_iff, IH, Z.eqb_eq. split.
  - intros [-> [r ->]]. by exists r.
  - intros [r [= -> ->]]. eauto.
Qed.

Lemma is_prefix_app p r : is_prefix p (p ++ r) = true.
Proof. apply is_prefix_spec. eauto. Qed.

Lemma memmem_Some hay needle i :
  memmem hay needle = Some i <->
  (exists r, hay = take i hay ++ needle ++ r) /\ (i <= length hay)%nat /\
  forall j r, (j < i)%nat -> hay <> take j hay ++ needle ++ r.
Proof.
  revert i. induction hay as [|x t IH]; intros i; simpl.
  - destruct (is_prefix needle []) eqn:E.
    + apply is_prefix_spec in E as [r Hr]. split.
      * intros [= <-]. simpl. eauto with lia.
      * intros (_ & Hi & _). f_equal. lia.
    + split; [done |]. intros ([r Hr] & _ & _). rewrite firstn_nil in Hr. simpl in Hr.
      assert (is_prefix needle [] = true) by (apply is_prefix_spec; eauto). congruence.
  - destruct (is_prefix needle (x :: t)) eqn:E.
    + apply is_prefix_spec in E as [r Hr]. split.
      * intros [= <-]. simpl. split; [eauto | split; [lia |]]. intros; lia.
      * intros (_ & _ & Hmin). destruct i as [|i]; [done |].
        exfalso. by apply (Hmin 0%nat r); [lia |].
    + assert (Hno : forall r, x :: t <> needle ++ r).
      { intros r Hr. assert (is_prefix needle (x :: t) = true) by (apply is_prefix_spec; eauto).
        congruence. }
      destruct (memmem t needle) as [k|] eqn:Ek; simpl.
      * destruct (proj1 (IH k) eq_refl) as ([r Hr] & Hk & Hmin). split.
        -- intros [= <-]. simpl. split; [exists r; by rewrite Hr at 1 |].
           split; [lia |]. intros [|j] r' Hj; simpl; [apply Hno |].
           intros [= Heq]. by apply (Hmin j r'); [lia |].
        -- intros ([r' Hr'] & Hi & Hmin'). destruct i as [|i]; [by apply Hno in Hr' |].
           do 2 f_equal. simpl in Hr'. injection Hr' as Hr'.
           destruct (Nat.lt_trichotomy k i) as [?|[?|?]]; [| done |].
           ++ exfalso. apply (Hmin' (S k) r); [lia |]. simpl. by rewrite <- Hr.
           ++ exfalso. by apply (Hmin i r').
      * split; [done |]. intros ([r' Hr'] & Hi & Hmin').
        destruct i as [|i]; [by apply Hno in Hr' |]. simpl in Hr', Hi. injection Hr' as Hr'.
        assert (None = Some i); [| done]. apply IH. split; [eauto | split; [lia |]].
        intros j r Hj Heq. apply (Hmin' (S j) r); [lia |]. simpl. by rewrite <- Heq.
Qed.

Lemma memmem_None hay needle :
  memmem hay needle = None <-> forall l r, hay <> l ++ needle ++ r.
Proof.
  induction hay as [|x t IH]; simpl; destruct (is_prefix needle _) eqn:E.
  - apply is_prefix_spec in E as [r Hr]. split; [done |]. intros H. by destruct (H [] r).
  - split; [| done]. intros _ l r Hlr. symmetry in Hlr.
    apply app_eq_nil in Hlr as [-> Hlr]. symmetry in Hlr.
    assert (is_prefix needle [] = true) by (apply is_prefix_spec; eauto). congruence.
  - apply is_prefix_spec in E as [r Hr]. split; [done |]. intros H. by destruct (H [] r).
  - split.
    + intros H [|y l] r; simpl.
      * intros Hr. assert (is_prefix needle (x :: t) = true) by (apply is_prefix_spec; eauto).
        congruence.
      * intros [= -> Heq]. destruct (memmem t needle); [done |].
        by apply (proj1 IH eq_refl l r).
    + intros H. apply fmap_None, IH. intros l r ->. by apply (H (x :: l) r).
Qed.

(** [apk_blob_split] cuts at the first occurrence of the separator. *)
Lemma apk_blob_split_Some b t l r :
  apk_blob_split b t = Some (l, r) <->
  b = l ++ t ++ r /\ forall l' r', b = l' ++ t ++ r' -> (length l <= length l')%nat.
Proof.
  unfold apk_blob_split, apk_blob_contains.
  destruct (memmem b t) as [i|] eqn:E.
  - pose proof E as E'. apply memmem_Some in E' as ([r0 Hr0] & Hi & Hmin).
    rewrite of_nat_ltb0, Nat2Z.id.
    assert (length (take i b) = i) as Hti by (rewrite length_take; lia).
    assert (drop (i + length t) b = r0) as Hd.
    { rewrite Hr0, drop_app_ge by lia. rewrite drop_app_ge by lia.
      rewrite Hti. replace (i + length t - i - length t)%nat with 0%nat by lia. done. }
    rewrite Hd. split.
    + intros [= <- <-]. split; [done |]. intros l' r' Hb'.
      rewrite Hti. destruct (decide (length l' < i)%nat) as [Hlt|]; [| lia].
      exfalso. apply (Hmin (length l') r' Hlt). rewrite Hb' at 2.
      rewrite take_app_length. done.
    + intros [Hb Hmin']. specialize (Hmin' _ _ Hr0). rewrite Hti in Hmin'.
      assert (length l = i) as Hl.
      { destruct (decide (length l < i)%nat) as [Hlt|]; [| lia]. exfalso.
        apply (Hmin (length l) r Hlt). rewrite Hb at 2. by rewrite take_app_length. }
      rewrite Hb at 1. rewrite <- Hl, take_app_length. do 2 f_equal.
      rewrite Hr0 in Hb. apply app_inj_1 in Hb as [_ Hb]; [| lia].
      by apply app_inv_head in Hb.
  - simpl. split; [done |]. intros [Hb _]. by apply memmem_None in Hb.
Qed.

Lemma apk_blob_split_None b t :
  apk_blob_split b t = None <-> forall l r, b <> l ++ t ++ r.
Proof.
  unfold apk_blob_split, apk_blob_contains. rewrite <- memmem_None.
  destruct (memmem b t) as [i|]; [| done].
  by rewrite of_nat_ltb0.
Qed.

Lemma memrchr_spec l c :
  match memrchr l c with
  | Some i => l = take i l ++ c :: drop (S i) l /\ c ∉ drop (S i) l
  | None => c ∉ l
  end.
Proof.
  induction l as [|x l IH]; simpl; [apply not_elem_of_nil |].
  destruct (memrchr l c) as [i|].
  - destruct IH as [IH1 IH2]. split; [simpl; by f_equal | done].
  - destruct (x =? c) eqn:E; bool_prop; simpl.
    + subst. by rewrite drop_0.
    + apply not_elem_of_cons. split; [congruence | done].
Qed.

(** [apk_blob_rsplit] cuts at the last occurrence of the character. *)
Lemma apk_blob_rsplit_Some b c l r :
  apk_blob_rsplit b c = Some (l, r) <-> b = l ++ c :: r /\ c ∉ r.
Proof.
  unfold apk_blob_rsplit. pose proof (memrchr_spec b c) as H.
  destruct (memrchr b c) as [i|].
  - destruct H as [H1 H2]. split; [intros [= <- <-]; done |]. intros [Hb Hr].
    assert (take i b = l /\ drop (S i) b = r) as [-> ->]; [| done].
    rewrite Hb in H1 at 1. revert H1 H2. generalize (take i b), (drop (S i) b). clear Hb.
    induction l as [|x l IH]; intros [|y k] m; simpl.
    + by intros [= ->].
    + intros [= -> ->] ?. set_solver.
    + intros [= -> <-] ?. set_solver.
    + intros [= -> Heq] Hm. by destruct (IH k m Heq Hm) as [-> ->].
  - split; [done |]. intros [-> _]. set_solver.
Qed.

(** ** Tokenising visits the non-empty fields of the input *)

(** Reference: all fields between separators, empty ones included. *)
Fixpoint split_on (c : Z) (s : bytes) : list bytes :=
  match s with
  | [] => [[]]
  | x :: t =>
      if x =? c then [] :: split_on c t
      else match split_on c t with
           | [] => [[x]]
           | w :: ws => (x :: w) :: ws
           end
  end.

Definition fields_of (c : Z) (b : blob) : list bytes :=
  match b with
  | None => []
  | Some s => filter (fun w => w ≠ []) (split_on c s)
  end.

Lemma split_on_app c l r : c ∉ l -> split_on c (l ++ c :: r) = l :: split_on c r.
Proof.
  induction l as [|x l IH]; intros Hl; simpl; [by rewrite Z.eqb_refl |].
  apply not_elem_of_cons in Hl as [Hx Hl]. apply Z.eqb_neq in Hx.
  by rewrite Z.eqb_sym, Hx, IH.
Qed.

Lemma split_on_none c s : c ∉ s -> split_on c s = [s].
Proof.
  induction s as [|x s IH]; intros Hs; simpl; [done |].
  apply not_elem_of_cons in Hs as [Hx Hs]. apply Z.eqb_neq in Hx.
  by rewrite Z.eqb_sym, Hx, IH.
Qed.

Lemma apk_blob_split_char s c :
  match apk_blob_split s [c] with
  | Some (l, r) => split_on c s = l :: split_on c r /\ (length r < length s)%nat
  | None => split_on c s = [s]
  end.
Proof.
  destruct (apk_blob_split s [c]) as [[l r]|] eqn:E.
  - apply apk_blob_split_Some in E as [-> Hmin]. simpl. split.
    + apply split_on_app. intros Hin. apply list_elem_of_split in Hin as (l1 & l2 & ->).
      specialize (Hmin l1 (l2 ++ c :: r)). simpl in Hmin.
      rewrite <- !app_assoc, !length_app in Hmin. simpl in Hmin. specialize (Hmin eq_refl). lia.
    + rewrite !length_app. simpl. lia.
  - apply split_on_none. intros Hin. apply list_elem_of_split in Hin as (l1 & l2 & ->).
    by eapply (proj1 (apk_blob_split_None _ _) E).
Qed.

Definition token_measure (b : blob) : nat :=
  match b with None => 0 | Some s => S (length s) end.

Lemma tokenize_loop_spec c fuel b :
  (token_measure b < fuel)%nat ->
  match tokenize_loop fuel b [c] with
  | None => fields_of c b = []
  | Some (w, b') =>
      w ≠ [] /\ fields_of c b = w :: fields_of c b' /\ (token_measure b' < token_measure b)%nat
  end.
Proof.
  revert b. induction fuel as [|fuel IH]; intros b Hf; [lia |]. simpl.
  destruct b as [s|]; [| done]. simpl in Hf.
  pose proof (apk_blob_split_char s c) as H.
  destruct (apk_blob_split s [c]) as [[[|x l] r]|]; simpl.
  - destruct H as [H1 H2]. specialize (IH (Some r)). simpl in IH. specialize (IH ltac:(lia)).
    rewrite H1. rewrite filter_cons_False by naive_solver.
    destruct (tokenize_loop fuel (Some r) [c]) as [[w b']|]; [| done].
    destruct IH as (? & ? & ?). split_and!; [done | done | lia].
  - destruct H as [H1 H2]. rewrite H1, filter_cons_True by done. split_and!; [done | done | lia].
  - rewrite H. destruct s as [|x s]; simpl.
    + specialize (IH None). simpl in IH. specialize (IH ltac:(lia)).
      destruct (tokenize_loop fuel None [c]) as [[w b']|]; [naive_solver |].
      by rewrite filter_cons_False by naive_solver.
    + rewrite filter_cons_True by done. split_and!; [done | done | lia].
Qed.

Lemma apk_blob_foreach_token_fields c b : apk_blob_foreach_token b [c] = fields_of c b.
Proof.
  unfold apk_blob_foreach_token.
  assert (Hf : (token_measure b < tokenize_fuel b)%nat).
  { unfold tokenize_fuel. destruct b; simpl; lia. }
  revert Hf. generalize (tokenize_fuel b). intros fuel. revert b.
  induction fuel as [|fuel IH]; intros b Hf; simpl; [lia |].
  pose proof (tokenize_loop_spec c (tokenize_fuel b) b) as H.
  unfold apk_blob_tokenize. unfold tokenize_fuel in *.
  specialize (H ltac:(destruct b; simpl; lia)).
  destruct (tokenize_loop _ b [c]) as [[w b']|]; [| done].
  destruct H as (_ & -> & ?). by rewrite IH by lia.
Qed.

(** ** The hash is a 32-bit value *)

Lemma rotl32_range x r : 0 <= r <= 32 -> 0 <= x < 2 ^ 32 -> 0 <= rotl32 x r < 2 ^ 32.
Proof.
  intros Hr Hx. apply lor_range; [lia | apply u32_range |]. by apply shiftr_range; [lia |].
Qed.

Lemma murmur_mix_k_range k : 0 <= murmur_mix_k k < 2 ^ 32.
Proof. apply u32_range. Qed.

Lemma murmur_blocks_range key h : 0 <= h < 2 ^ 32 -> 0 <= murmur_blocks key h < 2 ^ 32.
Proof.
  assert (H : forall n key h, (length key <= n)%nat -> 0 <= h < 2 ^ 32 ->
    0 <= murmur_blocks key h < 2 ^ 32).
  { induction n as [|n IH]; intros [|b0 [|b1 [|b2 [|b3 k]]]] h' Hn Hh; simpl in *; try lia;
      try (apply lxor_range; [lia | done | apply murmur_mix_k_range]).
    apply IH; [lia | apply u32_range]. }
  by apply (H (length key)).
Qed.

Lemma apk_blob_hash_range b : 0 <= apk_blob_hash b < 2 ^ 32.
Proof.
  unfold apk_blob_hash, apk_blob_hash_seed, murmur3_32.
  repeat first
    [ apply lxor_range; [lia | |] | apply shiftr_range; [lia |] | apply u32_range
    | apply murmur_blocks_range ].
Qed.
