(* ===== verification/BlobCodec.v ===== *)
(** * Blob codecs: the push and pull functions of blob.c

    A blob that is being written to ([apk_blob_push_*]) is the pair of what was
    already written and the room that is left; [None] is the NULL blob the code
    uses to record an overflow.  A blob that is being read ([apk_blob_pull_*]) is
    the bytes left to read, [None] after a parse error.  Reading past the end of
    the source is [Fault]. *)

From S2P Require Import Prelude Blob.

(** ** Write side *)

Abbreviation pushbuf := (option (bytes * nat)).

(** A blob over a whole buffer of [n] bytes ([APK_BLOB_BUF]). *)
Definition pushbuf_new (n : nat) : pushbuf := Some ([], n).

(** [apk_blob_pushed (APK_BLOB_BUF (buf)) left]. *)
Definition apk_blob_pushed (left : pushbuf) : blob := fst <$> left.

Definition apk_blob_push_blob (to : pushbuf) (literal : bytes) : pushbuf :=
  match to with
  | None => None
  | Some (w, n) =>
      if (n <? length literal)%nat then None
      else Some (w ++ literal, n - length literal)%nat
  end.

(** [apk_blob_fmt]: NULL when the text and its NUL do not fit. *)
Definition apk_blob_fmt (bufsz : nat) (text : bytes) : blob := if (bufsz <=? length text)%nat then None else Some text.
(** A blob printed with ["%.*s"]. *)
Definition fmt_blob (b : bytes) : bytes := cstr_prefix b.

(** The table [xd]. *)
Definition xd_table : bytes := lit "0123456789abcdefghijklmnopqrstuvwxyz".
Definition xd (i : Z) : Z := nth (Z.to_nat i) xd_table 0.

(** The digit loop of [apk_blob_push_uint], filling [buf] backwards.  The fuel is
    the size of [buf]: one more digit would be written before its start. *)
Fixpoint uint_digits (fuel : nat) (value radix : Z) (acc : bytes) : bytes * Z :=
  match fuel with
  | O => (acc, value)
  | S fuel =>
      if value =? 0 then (acc, value)
      else uint_digits fuel (value / radix) radix (xd (value mod radix) :: acc)
  end.

Definition push_uint_bufsize : nat := 64.

Definition apk_blob_push_uint (to : pushbuf) (value radix : Z) : pushbuf :=
  if value =? 0 then apk_blob_push_blob to (lit "0")
  else apk_blob_push_blob to (fst (uint_digits push_uint_bufsize value radix [])).

Definition b64encode : bytes :=
  lit "ABCDEFGHIJKLMNOPQRSTUVWXYZabcdefghijklmnopqrstuvwxyz0123456789+/".
Definition b64e (i : Z) : Z := nth (Z.to_nat i) b64encode 0.

Definition push_b64_tail (from : bytes) : bytes :=
  let f0 := nth 0 from 0 in
  let '(f1, t2) :=
    if (length from =? 2)%nat
    then (nth 1 from 0, b64e (Z.shiftl (Z.land (nth 1 from 0) 0x0f) 2))
    else (0, chr "=") in
  [ b64e (Z.shiftr f0 2);
    b64e (Z.lor (Z.shiftl (Z.land f0 0x03) 4) (Z.shiftr (Z.land f1 0xf0) 4));
    t2; chr "=" ].

(** The group loop of [apk_blob_push_base64] and its tail call. *)
Fixpoint push_b64_groups (src : bytes) : bytes :=
  match src with
  | s0 :: s1 :: s2 :: src' =>
      b64e (Z.shiftr s0 2)
      :: b64e (Z.lor (Z.shiftl (Z.land s0 0x03) 4) (Z.shiftr (Z.land s1 0xf0) 4))
      :: b64e (Z.lor (Z.shiftl (Z.land s1 0x0f) 2) (Z.shiftr (Z.land s2 0xc0) 6))
      :: b64e (Z.land s2 0x3f)
      :: push_b64_groups src'
  | [] => []
  | tail => push_b64_tail tail
  end.

Definition b64_needed (len : nat) : nat := ((len + 2) / 3 * 4)%nat.

Definition apk_blob_push_base64 (to : pushbuf) (binary : bytes) : pushbuf :=
  match to with
  | None => None
  | Some (w, n) =>
      let needed := b64_needed (length binary) in
      if (n <? needed)%nat then None
      else Some (w ++ push_b64_groups binary, n - needed)%nat
  end.

Fixpoint hexdump (binary : bytes) : bytes :=
  match binary with
  | [] => []
  | x :: t => xd (Z.land (Z.shiftr x 4) 0xf) :: xd (Z.land x 0xf) :: hexdump t
  end.

Definition apk_blob_push_hexdump (to : pushbuf) (binary : bytes) : pushbuf :=
  match to with
  | None => None
  | Some (w, n) =>
      if (n <? length binary * 2)%nat then None
      else Some (w ++ hexdump binary, n - length binary * 2)%nat
  end.

Definition APK_DIGEST_LENGTH_SHA1 : nat := 20.

Definition apk_blob_push_hash_hex (to : pushbuf) (hash : bytes) : pushbuf :=
  if (length hash =? APK_DIGEST_LENGTH_SHA1)%nat
  then apk_blob_push_hexdump (apk_blob_push_blob to (lit "X1")) hash
  else None.

Definition apk_blob_push_hash (to : pushbuf) (hash : bytes) : pushbuf :=
  if (length hash =? APK_DIGEST_LENGTH_SHA1)%nat
  then apk_blob_push_base64 (apk_blob_push_blob to (lit "Q1")) hash
  else None.

(** ** Read side *)

Definition digitdecode : list Z :=
  replicate 43 0xff ++ [0x3e] ++ replicate 4 0xff
  ++ [0; 1; 2; 3; 4; 5; 6; 7; 8; 9] ++ replicate 7 0xff
  ++ [0xa; 0xb; 0xc; 0xd; 0xe; 0xf] ++ replicate 26 0xff
  ++ [0xa; 0xb; 0xc; 0xd; 0xe; 0xf] ++ replicate 153 0xff.

Definition dx (c : Z) : Z := nth (Z.to_nat c) digitdecode 0xff.

Definition apk_blob_pull_char (b : blob) (expected : Z) : blob :=
  match b with
  | Some (x :: t) => if x =? expected then Some t else None
  | _ => None
  end.

Fixpoint pull_uint_loop (b : bytes) (radix val : Z) : Z * bytes :=
  match b with
  | [] => (val, [])
  | x :: t =>
      if x =? 0 then (val, b)
      else if radix <=? dx x then (val, b)
      else pull_uint_loop t radix (u64 (u64 (val * radix) + dx x))
  end.

Definition apk_blob_pull_uint (b : blob) (radix : Z) : Z * blob :=
  match b with
  | None => (0, None)
  | Some s => let '(v, s') := pull_uint_loop s radix 0 in (v, Some s')
  end.

Definition apk_blob_pull_blob_match (b : blob) (m : bytes) : bool * blob :=
  let s := bdata b in
  if (length s <? length m)%nat then (false, b)
  else if negb (memcmp (take (length m) s) m =? 0) then (false, b)
  else (true, (fun s => drop (length m) s) <$> b).

(** The loop of [apk_blob_pull_hexdump]: reads [n] pairs of digits; returns the
    decoded bytes, the disjunction [r] of all digit values and the source left. *)
Fixpoint hexdump_loop (n : nat) (s : bytes) (r : Z) : outcome (bytes * Z * bytes) :=
  match n with
  | O => Ok ([], r, s)
  | S n =>
      match s with
      | x :: y :: s' =>
          let r1 := dx x in
          let r2 := dx y in
          let! (d, r', rest) := hexdump_loop n s' (Z.lor (Z.lor r r1) r2) in
          Ok (u8 (Z.shiftl r1 4 + r2) :: d, r', rest)
      | _ => Fault
      end
  end.

(** [dst] is the old content of the destination, which is kept when nothing is
    written. *)
Definition apk_blob_pull_hexdump (b : blob) (dst : bytes) : outcome (blob * bytes) :=
  match b with
  | None => Ok (None, dst)
  | Some s =>
      if (length s * 2 <? length dst)%nat then Ok (None, dst)
      else
        let! (d, r, rest) := hexdump_loop (length dst) s 0 in
        if r =? 0xff then Ok (None, d) else Ok (Some rest, d)
  end.

Definition b64decode : list Z :=
  replicate 43 0xff ++ [0x3e] ++ replicate 3 0xff ++ [0x3f]
  ++ [0x34; 0x35; 0x36; 0x37; 0x38; 0x39; 0x3a; 0x3b; 0x3c; 0x3d]
  ++ replicate 3 0xff ++ [0x00] ++ replicate 3 0xff
  ++ [0x00; 0x01; 0x02; 0x03; 0x04; 0x05; 0x06; 0x07; 0x08; 0x09; 0x0a; 0x0b; 0x0c;
      0x0d; 0x0e; 0x0f; 0x10; 0x11; 0x12; 0x13; 0x14; 0x15; 0x16; 0x17; 0x18; 0x19]
  ++ replicate 6 0xff
  ++ [0x1a; 0x1b; 0x1c; 0x1d; 0x1e; 0x1f; 0x20; 0x21; 0x22; 0x23; 0x24; 0x25; 0x26;
      0x27; 0x28; 0x29; 0x2a; 0x2b; 0x2c; 0x2d; 0x2e; 0x2f; 0x30; 0x31; 0x32; 0x33]
  ++ replicate 133 0xff.

Definition b64d (c : Z) : Z := nth (Z.to_nat c) b64decode 0xff.

(** The three bytes a group of four sextets stands for. *)
Definition b64_byte0 (t0 t1 : Z) : Z := u8 (Z.lor (Z.shiftl t0 2) (Z.shiftr t1 4)).
Definition b64_byte1 (t1 t2 : Z) : Z := u8 (Z.lor (Z.shiftl t1 4) (Z.shiftr t2 2)).
Definition b64_byte2 (t2 t3 : Z) : Z := u8 (Z.lor (Z.land (Z.shiftl t2 6) 0xc0) t3).

(** [pull_b64_tail]: whether the last group was accepted, and the bytes of [to]
    (one or two) that were assigned. *)
Definition pull_b64_tail (from : bytes) (len : nat) : bool * bytes :=
  let c i := nth i from 0 in
  let t i := b64d (c i) in
  if Z.lor (Z.lor (Z.lor (t 0%nat) (t 1%nat)) (t 2%nat)) (t 3%nat) =? 0xff then (false, [])
  else
    let to0 := [b64_byte0 (t 0%nat) (t 1%nat)] in
    let to1 := if (1 <? len)%nat then to0 ++ [b64_byte1 (t 1%nat) (t 2%nat)] else to0 in
    if negb (1 <? len)%nat && negb (c 2%nat =? chr "=") then (false, to1)
    else
      let to2 := if (2 <? len)%nat then to1 ++ [b64_byte2 (t 2%nat) (t 3%nat)] else to1 in
      if negb (2 <? len)%nat && negb (c 3%nat =? chr "=") then (false, to2)
      else (true, to2).

(** The group loop of [apk_blob_pull_base64]: [n] groups of four characters. *)
Fixpoint pull_b64_groups (n : nat) (s : bytes) (r : Z) : outcome (bytes * Z * bytes) :=
  match n with
  | O => Ok ([], r, s)
  | S n =>
      match s with
      | c0 :: c1 :: c2 :: c3 :: s' =>
          let t0 := b64d c0 in
          let t1 := b64d c1 in
          let t2 := b64d c2 in
          let t3 := b64d c3 in
          let! (d, r', rest) :=
            pull_b64_groups n s' (Z.lor (Z.lor (Z.lor (Z.lor r t0) t1) t2) t3) in
          Ok (b64_byte0 t0 t1 :: b64_byte1 t1 t2 :: b64_byte2 t2 t3 :: d, r', rest)
      | _ => Fault
      end
  end.

Definition apk_blob_pull_base64 (b : blob) (dst : bytes) : outcome (blob * bytes) :=
  match b with
  | None => Ok (None, dst)
  | Some s =>
      let needed := b64_needed (length dst) in
      if (length s <? needed)%nat then Ok (None, dst)
      else
        let groups := (length dst / 3)%nat in
        let! (d, r, src) := pull_b64_groups groups s 0 in
        let written d := d ++ drop (length d) dst in
        let tail_len := (length dst - groups * 3)%nat in
        if r =? 0xff then Ok (None, written d)
        else if (tail_len =? 0)%nat then Ok (Some (drop needed s), written d)
        else
          let '(ok, d') := pull_b64_tail (take 4 src) tail_len in
          Ok (if ok then Some (drop needed s) else None, written (d ++ d'))
  end.

(** ** Decimal, octal and hexadecimal integers *)

Lemma dx_xd i : 0 <= i < 16 -> dx (xd i) = i /\ xd i <> 0.
Proof.
  intros Hi. apply (check_range 16 (fun i => (dx (xd i) =? i) && negb (xd i =? 0))) in Hi; simpl in Hi.
  - simpl in Hi. bool_prop. done.
  - by vm_compute.
Qed.

Lemma pull_uint_digit d k radix w :
  0 <= d < radix -> radix <= 16 ->
  pull_uint_loop (xd d :: k) radix w = pull_uint_loop k radix (u64 (u64 (w * radix) + d)).
Proof.
  intros Hd Hr. destruct (dx_xd d) as [Hdx Hne]; [lia |]. simpl.
  apply Z.eqb_neq in Hne. rewrite Hne, Hdx.
  by assert ((radix <=? d) = false) as -> by lia.
Qed.

(** The digits the push loop writes, and what the pull loop makes of them. *)
Lemma uint_digits_spec radix fuel v acc :
  2 <= radix <= 16 -> 0 <= v < radix ^ Z.of_nat fuel ->
  exists ds, uint_digits fuel v radix acc = (ds ++ acc, 0) /\ (length ds <= fuel)%nat /\
    forall k w, 0 <= w -> w * radix ^ Z.of_nat (length ds) + v < 2 ^ 64 ->
      pull_uint_loop (ds ++ k) radix w =
      pull_uint_loop k radix (w * radix ^ Z.of_nat (length ds) + v).
Proof.
  intros Hr. revert v acc. induction fuel as [|fuel IH]; intros v acc Hv; simpl uint_digits.
  - assert (v = 0) as -> by (simpl in Hv; lia). exists []. split_and!; [done | done |].
    intros k w Hw Hb. simpl. f_equal. lia.
  - destruct (v =? 0) eqn:E; bool_prop.
    + subst. exists []. split_and!; [done | simpl; lia |]. intros k w Hw Hb. simpl. f_equal. lia.
    + rewrite Nat2Z.inj_succ, Z.pow_succ_r in Hv by lia.
      assert (0 <= v / radix < radix ^ Z.of_nat fuel) as Hv'.
      { split; [apply Z.div_pos; lia | apply Z.div_lt_upper_bound; lia]. }
      pose proof (Z.mod_pos_bound v radix) as Hm.
      pose proof (Z.div_mod v radix) as Hdm.
      destruct (IH (v / radix) (xd (v mod radix) :: acc) Hv') as (ds & -> & Hl & Hk).
      exists (ds ++ [xd (v mod radix)]). rewrite <- app_assoc, length_app. simpl.
      split_and!; [done | lia |]. intros k w Hw Hb.
      rewrite Nat2Z.inj_add, Z.pow_add_r in * by lia. simpl in Hb.
      rewrite Z.pow_1_r in *. set (p := radix ^ Z.of_nat (length ds)) in *.
      assert (0 < p) by (apply Z.pow_pos_nonneg; lia).
      rewrite <- app_assoc. simpl. rewrite Hk by nia.
      rewrite pull_uint_digit by lia. f_equal.
      rewrite (u64_small (_ * radix)) by nia. rewrite u64_small by nia. nia.
Qed.

(** What may follow an integer: end of input, NUL, or no digit of the radix. *)
Definition stops_uint (radix : Z) (k : bytes) : bool :=
  match k with
  | [] => true
  | x :: _ => (x =? 0) || (radix <=? dx x)
  end.

Lemma pull_uint_stop radix k v : stops_uint radix k = true -> pull_uint_loop k radix v = (v, k).
Proof.
  destruct k as [|x k]; simpl; [done |]. destruct (x =? 0); [done |]. simpl. by intros ->.
Qed.

Lemma push_uint_digits v radix :
  2 <= radix <= 16 -> 0 < v < 2 ^ 64 ->
  exists ds, uint_digits push_uint_bufsize v radix [] = (ds, 0) /\
    (length ds <= push_uint_bufsize)%nat /\
    forall k, pull_uint_loop (ds ++ k) radix 0 = pull_uint_loop k radix v.
Proof.
  intros Hr Hv.
  assert (v < radix ^ Z.of_nat push_uint_bufsize).
  { eapply Z.lt_le_trans; [apply Hv |]. apply (Z.pow_le_mono_l 2 radix 64). lia. }
  destruct (uint_digits_spec radix push_uint_bufsize v []) as (ds & -> & Hl & Hk); [done | lia |].
  rewrite app_nil_r. exists ds. split_and!; [done | done |]. intros k. rewrite Hk by lia.
  f_equal.
Qed.

(** ** Hexadecimal dumps *)

Lemma hexdump_byte x :
  byte_ok x -> u8 (Z.shiftl (dx (xd (Z.land (Z.shiftr x 4) 0xf))) 4 + dx (xd (Z.land x 0xf))) = x
    /\ dx (xd (Z.land (Z.shiftr x 4) 0xf)) < 16 /\ dx (xd (Z.land x 0xf)) < 16
    /\ 0 <= dx (xd (Z.land (Z.shiftr x 4) 0xf)) /\ 0 <= dx (xd (Z.land x 0xf)).
Proof.
  intros Hx. apply (check_range 256 (fun x =>
    (u8 (Z.shiftl (dx (xd (Z.land (Z.shiftr x 4) 0xf))) 4 + dx (xd (Z.land x 0xf))) =? x)
    && (dx (xd (Z.land (Z.shiftr x 4) 0xf)) <? 16) && (dx (xd (Z.land x 0xf)) <? 16)
    && (0 <=? dx (xd (Z.land (Z.shiftr x 4) 0xf))) && (0 <=? dx (xd (Z.land x 0xf))))) in Hx;
    [bool_prop; done | by vm_compute].
Qed.

Lemma length_hexdump bin : length (hexdump bin) = (length bin * 2)%nat.
Proof. induction bin; simpl; lia. Qed.

Lemma hexdump_loop_roundtrip bin k r :
  Forall byte_ok bin -> 0 <= r < 16 ->
  exists r', hexdump_loop (length bin) (hexdump bin ++ k) r = Ok (bin, r', k) /\ 0 <= r' < 16.
Proof.
  intros Hb. revert r. induction Hb as [|x bin Hx Hb IH]; intros r Hr; simpl; [eauto |].
  destruct (hexdump_byte x Hx) as (Hv & H1 & H2 & H3 & H4).
  set (r1 := dx (xd (Z.land (Z.shiftr x 4) 0xf))) in *. set (r2 := dx (xd (Z.land x 0xf))) in *.
  destruct (IH (Z.lor (Z.lor r r1) r2)) as (r' & -> & Hr').
  { apply (lor_range 4); [lia | apply (lor_range 4); lia | lia]. }
  exists r'. simpl. by rewrite Hv.
Qed.

Lemma pull_push_hexdump bin k dst :
  Forall byte_ok bin -> length dst = length bin ->
  apk_blob_pull_hexdump (Some (hexdump bin ++ k)) dst = Ok (Some k, bin).
Proof.
  intros Hb Hl. unfold apk_blob_pull_hexdump.
  assert ((length (hexdump bin ++ k) * 2 <? length dst)%nat = false) as ->.
  { apply Nat.ltb_ge. rewrite length_app, length_hexdump. lia. }
  rewrite Hl. destruct (hexdump_loop_roundtrip bin k 0 Hb) as (r' & -> & Hr'); [lia |]. simpl.
  by assert ((r' =? 0xff) = false) as -> by lia.
Qed.

(** ** Base64 *)

Lemma b64_sextet i : 0 <= i < 64 -> b64d (b64e i) = i.
Proof.
  intros Hi. apply (check_range 64 (fun i => b64d (b64e i) =? i)) in Hi;
    [bool_prop; done | by vm_compute].
Qed.

Lemma land3_range x : 0 <= Z.land x 0x03 < 4.
Proof. change 0x03 with (Z.ones 2). rewrite Z.land_ones by lia. apply Z.mod_pos_bound. lia. Qed.

(** The four sextets of a group decode to its three bytes. *)
Definition sextet0 (x : Z) : Z := Z.shiftr x 2.
Definition sextet1 (x y : Z) : Z := Z.lor (Z.shiftl (Z.land x 0x03) 4) (Z.shiftr (Z.land y 0xf0) 4).
Definition sextet2 (y z : Z) : Z := Z.lor (Z.shiftl (Z.land y 0x0f) 2) (Z.shiftr (Z.land z 0xc0) 6).
Definition sextet3 (z : Z) : Z := Z.land z 0x3f.

Lemma sextet_range x y z :
  byte_ok x -> byte_ok y -> byte_ok z ->
  0 <= sextet0 x < 64 /\ 0 <= sextet1 x y < 64 /\ 0 <= sextet2 y z < 64 /\ 0 <= sextet3 z < 64.
Proof.
  intros Hx Hy Hz. unfold byte_ok in *.
  apply (check_range2 256 256 (fun x y => (0 <=? sextet0 x) && (sextet0 x <? 64)
    && (0 <=? sextet1 x y) && (sextet1 x y <? 64)
    && (0 <=? sextet2 x y) && (sextet2 x y <? 64) && (0 <=? sextet3 y) && (sextet3 y <? 64))
    x y) in Hx as H1; [| done | by vm_compute].
  apply (check_range2 256 256 (fun x y => (0 <=? sextet2 x y) && (sextet2 x y <? 64)
     && (0 <=? sextet3 y) && (sextet3 y <? 64)) y z) in Hy as H2; [| done | by vm_compute].
  bool_prop. done.
Qed.

Lemma b64_group x y z :
  byte_ok x -> byte_ok y -> byte_ok z ->
  b64_byte0 (sextet0 x) (sextet1 x y) = x /\ b64_byte1 (sextet1 x y) (sextet2 y z) = y /\
  b64_byte2 (sextet2 y z) (sextet3 z) = z.
Proof.
  intros Hx Hy Hz. unfold byte_ok in *.
  pose proof (check_range2 256 256 (fun x y => b64_byte0 (sextet0 x) (sextet1 x y) =? x)
    x y Hx Hy ltac:(by vm_compute)) as H1.
  pose proof (check_range2 256 256 (fun y z => b64_byte2 (sextet2 y z) (sextet3 z) =? z)
    y z Hy Hz ltac:(by vm_compute)) as H3.
  assert (Hb : forall a c, 0 <= a < 4 -> 0 <= c < 4 -> b64_byte1
    (Z.lor (Z.shiftl a 4) (Z.shiftr (Z.land y 0xf0) 4)) (Z.lor (Z.shiftl (Z.land y 0x0f) 2) c) = y).
  { intros a c Ha Hc.
    pose proof (check_range2 256 16 (fun y i => let a := i / 4 in let c := i mod 4 in b64_byte1
      (Z.lor (Z.shiftl a 4) (Z.shiftr (Z.land y 0xf0) 4))
      (Z.lor (Z.shiftl (Z.land y 0x0f) 2) c) =? y)
      y (a * 4 + c) Hy ltac:(lia) ltac:(by vm_compute)) as H. simpl in H.
    rewrite Z.div_add_l, (Z.div_small c), Z.add_0_r in H by lia.
    rewrite Z.add_comm, Z.mod_add, (Z.mod_small c) in H by lia. by bool_prop. }
  cbv beta in H1, H3. bool_prop. split_and!; [done | | done]. apply Hb; [apply land3_range |].
  pose proof (check_range 256 (fun z => (0 <=? Z.shiftr (Z.land z 0xc0) 6)
    && (Z.shiftr (Z.land z 0xc0) 6 <? 4)) z Hz ltac:(by vm_compute)). simpl in *. bool_prop. done.
Qed.

(** A pushed sextet never turns the error indicator [r] into [0xff]. *)
Lemma lor4_range r a b c d :
  0 <= r < 64 -> 0 <= a < 64 -> 0 <= b < 64 -> 0 <= c < 64 -> 0 <= d < 64 ->
  0 <= Z.lor (Z.lor (Z.lor (Z.lor r a) b) c) d < 64.
Proof. intros. repeat apply (lor_range 6); lia. Qed.

(** The encoded text of [bin]: whole groups, then a padded tail. *)
Lemma b64_groups_roundtrip n g tl k r :
  Forall byte_ok g -> length g = (n * 3)%nat -> (length tl < 3)%nat -> 0 <= r < 64 ->
  exists r', pull_b64_groups n (push_b64_groups (g ++ tl) ++ k) r
             = Ok (g, r', push_b64_groups tl ++ k) /\ 0 <= r' < 64.
Proof.
  revert g r. induction n as [|n IH]; intros g r Hg Hl Htl Hr.
  { destruct g; [| done]. simpl. eauto. }
  destruct g as [|x [|y [|z g]]]; simpl in Hl; try lia.
  apply Forall_cons in Hg as [Hx Hg]. apply Forall_cons in Hg as [Hy Hg].
  apply Forall_cons in Hg as [Hz Hg].
  destruct (sextet_range x y z Hx Hy Hz) as (H0 & H1 & H2 & H3).
  destruct (b64_group x y z Hx Hy Hz) as (G0 & G1 & G2).
  unfold sextet0, sextet1, sextet2, sextet3 in *. simpl.
  rewrite !b64_sextet by done.
  edestruct (IH g) as (r' & -> & Hr'); [done | lia | done | by apply lor4_range |].
  exists r'. simpl. by rewrite G0, G1, G2.
Qed.

Lemma push_b64_groups_length bin : length (push_b64_groups bin) = b64_needed (length bin).
Proof.
  assert (forall n bin, (length bin <= n)%nat ->
    length (push_b64_groups bin) = b64_needed (length bin)) as H; [| by eapply H].
  clear bin. induction n as [|n IH]; intros [|x [|y [|z bin]]] Hl; simpl in Hl; try lia; try done.
  simpl. rewrite IH by lia. unfold b64_needed.
  replace (S (S (S (length bin))) + 2)%nat with (1 * 3 + (length bin + 2))%nat by lia.
  rewrite Nat.div_add_l by lia. lia.
Qed.

(** A padded tail of one or two bytes: its last group, with zero bytes for padding. *)
Lemma b64_tail_roundtrip tl k :
  Forall byte_ok tl -> (0 < length tl < 3)%nat ->
  pull_b64_tail (take 4 (push_b64_groups tl ++ k)) (length tl) = (true, tl).
Proof.
  assert (byte_ok 0) as H0 by done. assert (b64d 61 = 0) as Heq by done.
  intros Hb Hl. destruct tl as [|x [|y [|]]]; simpl in Hl; try lia.
  - apply Forall_cons in Hb as [Hx _].
    destruct (sextet_range x 0 0 Hx H0 H0) as (R0 & R1 & _).
    destruct (b64_group x 0 0 Hx H0 H0) as (G0 & _).
    unfold sextet0, sextet1 in *. change (Z.shiftr (Z.land 0 0xf0) 4) with 0 in *.
    rewrite Z.lor_0_r in *. cbn -[Z.lor Z.land Z.shiftl Z.shiftr b64e b64d b64_byte0] in *.
    unfold pull_b64_tail. cbn -[Z.lor Z.land Z.shiftl Z.shiftr b64e b64d b64_byte0].
    rewrite ?Heq, ?Z.lor_0_r, !b64_sextet, ?Z.lor_0_r by done.
    pose proof (lor_range 6 _ _ ltac:(lia) R0 R1).
    case_if; bool_prop; [lia |]. by rewrite G0.
  - apply Forall_cons in Hb as [Hx Hb]. apply Forall_cons in Hb as [Hy _].
    destruct (sextet_range x y 0 Hx Hy H0) as (R0 & R1 & R2 & _).
    destruct (b64_group x y 0 Hx Hy H0) as (G0 & G1 & _).
    unfold sextet0, sextet1, sextet2 in *. change (Z.shiftr (Z.land 0 0xc0) 6) with 0 in *.
    rewrite Z.lor_0_r in *.
    cbn -[Z.lor Z.land Z.shiftl Z.shiftr b64e b64d b64_byte0 b64_byte1].
    unfold pull_b64_tail. cbn -[Z.lor Z.land Z.shiftl Z.shiftr b64e b64d b64_byte0 b64_byte1].
    rewrite ?Heq, ?Z.lor_0_r, !b64_sextet, ?Z.lor_0_r by done.
    pose proof (lor_range 6 _ _ ltac:(lia) (lor_range 6 _ _ ltac:(lia) R0 R1) R2).
    case_if; bool_prop; [lia |]. by rewrite G0, G1.
Qed.

Lemma pull_push_base64 bin k dst :
  Forall byte_ok bin -> length dst = length bin ->
  apk_blob_pull_base64 (Some (push_b64_groups bin ++ k)) dst = Ok (Some k, bin).
Proof.
  intros Hb Hl. unfold apk_blob_pull_base64. rewrite Hl, <- push_b64_groups_length, length_app.
  assert ((length (push_b64_groups bin) + length k <? length (push_b64_groups bin))%nat = false)
    as -> by (apply Nat.ltb_ge; lia).
  rewrite drop_app_length. set (n := (length bin / 3)%nat).
  pose proof (Nat.div_mod (length bin) 3) as Hdm.
  pose proof (Nat.mod_upper_bound (length bin) 3) as Hm. fold n in Hdm.
  assert (length (take (n * 3) bin) = n * 3)%nat as Htk by (rewrite length_take; lia).
  assert (length (drop (n * 3) bin) = length bin - n * 3)%nat as Hdr by (rewrite length_drop; lia).
  rewrite <- (take_drop (n * 3) bin) at 1.
  destruct (b64_groups_roundtrip n (take (n * 3) bin) (drop (n * 3) bin) k 0) as (r' & -> & Hr');
    [by apply Forall_take | done | lia | lia |].
  simpl. assert ((r' =? 0xff) = false) as -> by lia.
  destruct (length bin - n * 3 =? 0)%nat eqn:E; bool_prop.
  - rewrite Htk, drop_ge, app_nil_r by lia. by rewrite take_ge by lia.
  - rewrite <- Hdr. rewrite b64_tail_roundtrip; [| by apply Forall_drop | lia].
    rewrite take_drop, drop_ge, app_nil_r by lia. done.
Qed.

(** ** Theorems about the codecs *)

Lemma push_blob_room w n l :
  (length l <= n)%nat -> apk_blob_push_blob (Some (w, n)) l = Some (w ++ l, n - length l)%nat.
Proof.
  intros Hl. simpl. by assert ((n <? length l)%nat = false) as -> by (apply Nat.ltb_ge; lia).
Qed.

(** The characters [apk_blob_push_uint] writes. *)
Definition uint_text (value radix : Z) : bytes :=
  if value =? 0 then lit "0" else fst (uint_digits push_uint_bufsize value radix []).

Lemma push_uint_text to value radix :
  apk_blob_push_uint to value radix = apk_blob_push_blob to (uint_text value radix).
Proof. unfold apk_blob_push_uint, uint_text. by destruct (value =? 0). Qed.

Lemma uint_text_pull value radix k :
  2 <= radix <= 16 -> 0 <= value < 2 ^ 64 -> stops_uint radix k = true ->
  (0 < length (uint_text value radix) <= push_uint_bufsize)%nat /\
  apk_blob_pull_uint (Some (uint_text value radix ++ k)) radix = (value, Some k).
Proof.
  intros Hr Hv Hk. unfold uint_text, apk_blob_pull_uint.
  destruct (value =? 0) eqn:E; bool_prop.
  - subst. split; [unfold push_uint_bufsize; simpl; lia |]. simpl app.
    change 48 with (xd 0). rewrite pull_uint_digit by lia.
    rewrite Z.mul_0_l. by rewrite (pull_uint_stop radix k _ Hk).
  - destruct (push_uint_digits value radix) as (ds & Hd & Hl & Hpull); [lia | lia |].
    rewrite Hd. simpl fst. split.
    + split; [| done]. destruct ds; simpl; [| lia]. specialize (Hpull []). simpl in Hpull.
      inversion Hpull. lia.
    + by rewrite Hpull, pull_uint_stop.
Qed.

Lemma push_blob_push_blob to a b :
  apk_blob_push_blob (apk_blob_push_blob to a) b = apk_blob_push_blob to (a ++ b).
Proof.
  destruct to as [[w n]|]; [| done]. simpl. rewrite length_app.
  destruct (n <? length a)%nat eqn:E1; bool_prop.
  - by assert ((n <? length a + length b)%nat = true) as -> by (apply Nat.ltb_lt; lia).
  - simpl. destruct (n - length a <? length b)%nat eqn:E2; bool_prop.
    + by assert ((n <? length a + length b)%nat = true) as -> by (apply Nat.ltb_lt; lia).
    + assert ((n <? length a + length b)%nat = false) as -> by (apply Nat.ltb_ge; lia).
      rewrite app_assoc. do 2 f_equal. lia.
Qed.

Lemma push_blob_nil to : apk_blob_push_blob to [] = to.
Proof. destruct to as [[w n]|]; [| done]. simpl. by rewrite app_nil_r, Nat.sub_0_r. Qed.

(** What [apk_blob_push_uint] writes in any radix from 2 to 16 for a 64-bit
    value is read back by [apk_blob_pull_uint], which stops where the digits end;
    at least one and at most 64 characters are written, so the local buffer of
    the digit loop is never overrun. *)
Theorem push_pull_uint w n value radix k :
  2 <= radix <= 16 -> 0 <= value < 2 ^ 64 -> (push_uint_bufsize <= n)%nat ->
  stops_uint radix k = true ->
  exists ds, apk_blob_push_uint (Some (w, n)) value radix = Some (w ++ ds, n - length ds)%nat /\
    (0 < length ds <= push_uint_bufsize)%nat /\
    apk_blob_pull_uint (Some (ds ++ k)) radix = (value, Some k).
Proof.
  intros Hr Hv Hn Hk. destruct (uint_text_pull value radix k Hr Hv Hk) as [Hl Hpull].
  exists (uint_text value radix). rewrite push_uint_text, push_blob_room by lia. done.
Qed.

Lemma push_pull_uint_witness :
  exists ds, apk_blob_push_uint (Some ([], 64%nat)) 755 8 = Some ([] ++ ds, 64 - length ds)%nat /\
    (0 < length ds <= push_uint_bufsize)%nat /\
    apk_blob_pull_uint (Some (ds ++ [chr " "])) 8 = (755, Some [chr " "]).
Proof. apply (push_pull_uint [] 64 755 8 [chr " "]); [lia | lia | by vm_compute | done]. Defined.

(** Hexadecimal dumps round trip: when there is room for two digits per
    byte the dump is written, and reading it back into a destination of the same
    size yields the binary data and the text that followed. *)
Theorem push_pull_hexdump w n bin k dst :
  Forall byte_ok bin -> (length bin * 2 <= n)%nat -> length dst = length bin ->
  exists txt, apk_blob_push_hexdump (Some (w, n)) bin = Some (w ++ txt, n - length bin * 2)%nat /\
    length txt = (length bin * 2)%nat /\
    apk_blob_pull_hexdump (Some (txt ++ k)) dst = Ok (Some k, bin).
Proof.
  intros Hb Hn Hd. exists (hexdump bin). split_and!.
  - simpl. by assert ((n <? length bin * 2)%nat = false) as -> by (apply Nat.ltb_ge; lia).
  - apply length_hexdump.
  - by apply pull_push_hexdump.
Qed.

Lemma push_pull_hexdump_witness :
  exists txt, apk_blob_push_hexdump (Some ([], 6%nat)) [0; 171; 255] = Some ([] ++ txt, 6 - 3 * 2)%nat /\
    length txt = 6%nat /\
    apk_blob_pull_hexdump (Some (txt ++ [0])) [0; 0; 0] = Ok (Some [0], [0; 171; 255]).
Proof.
  apply (push_pull_hexdump [] 6 [0; 171; 255] [0] [0; 0; 0]); [| simpl; lia | done].
  bytes_ok.
Defined.

(** Base64 round trips for data of every length, with its padding. *)
Theorem push_pull_base64 w n bin k dst :
  Forall byte_ok bin -> (b64_needed (length bin) <= n)%nat -> length dst = length bin ->
  exists txt, apk_blob_push_base64 (Some (w, n)) bin
              = Some (w ++ txt, n - b64_needed (length bin))%nat /\
    length txt = b64_needed (length bin) /\
    apk_blob_pull_base64 (Some (txt ++ k)) dst = Ok (Some k, bin).
Proof.
  intros Hb Hn Hd. exists (push_b64_groups bin). split_and!.
  - simpl. by assert ((n <? b64_needed (length bin))%nat = false) as -> by (apply Nat.ltb_ge; lia).
  - apply push_b64_groups_length.
  - by apply pull_push_base64.
Qed.

Lemma push_pull_base64_witness :
  exists txt, apk_blob_push_base64 (Some ([], 8%nat)) [1; 2; 3; 4; 255]
              = Some ([] ++ txt, 8 - b64_needed 5)%nat /\
    length txt = b64_needed 5 /\
    apk_blob_pull_base64 (Some (txt ++ [7])) [0; 0; 0; 0; 0] = Ok (Some [7], [1; 2; 3; 4; 255]).
Proof.
  apply (push_pull_base64 [] 8 [1; 2; 3; 4; 255] [7] [0; 0; 0; 0; 0]);
    [| vm_compute; lia | done].
  bytes_ok.
Defined.

Lemma hexdump_loop_fault n s r :
  hexdump_loop n s r = Fault <-> (length s < n * 2)%nat.
Proof.
  revert s r. induction n as [|n IH]; intros [|x [|y s]] r; simpl; try (split; [done | lia]);
    try (split; [lia | done]).
  specialize (IH s (Z.lor (Z.lor r (dx x)) (dx y))).
  destruct (hexdump_loop n s _) as [[[d r'] rest]|]; simpl; split; try done.
  - intros H. assert (length s < n * 2)%nat as H' by lia. by apply IH in H'.
  - intros _. assert (length s < n * 2)%nat by by apply IH. lia.
Qed.

(** [apk_blob_pull_hexdump] reads past the end of its source exactly
    when the source is shorter than two digits per byte of destination and yet
    passes the guard, which compares the destination length with twice the
    source length. *)
Theorem pull_hexdump_overread s dst :
  apk_blob_pull_hexdump (Some s) dst = Fault <->
  (length dst <= length s * 2 /\ length s < length dst * 2)%nat.
Proof.
  unfold apk_blob_pull_hexdump. destruct (length s * 2 <? length dst)%nat eqn:E; bool_prop.
  { split; [done | lia]. }
  pose proof (hexdump_loop_fault (length dst) s 0) as H.
  destruct (hexdump_loop (length dst) s 0) as [[[d r] rest]|]; simpl.
  - assert (~ (length s < length dst * 2)%nat) by (intros ?; by assert (Ok (d, r, rest) = Fault) by by apply H).
    destruct (r =? 0xff); split; try done; lia.
  - split; [intros _ | done]. split; [lia | by apply H].
Qed.

Lemma pull_b64_groups_total n s r :
  (n * 4 <= length s)%nat ->
  exists d r', pull_b64_groups n s r = Ok (d, r', drop (n * 4) s) /\ length d = (n * 3)%nat.
Proof.
  revert s r. induction n as [|n IH]; intros s r Hs; [by exists [], r |].
  destruct s as [|c0 [|c1 [|c2 [|c3 s]]]]; simpl in Hs; try lia. simpl.
  edestruct (IH s) as (d & r' & -> & Hd); [lia |]. simpl. do 2 eexists. split; [done |].
  simpl. lia.
Qed.

(** [apk_blob_pull_base64] never reads past its source and never writes
    past its destination, whatever the two lengths and contents are. *)
Theorem pull_base64_safe s dst :
  exists b d, apk_blob_pull_base64 (Some s) dst = Ok (b, d) /\ length d = length dst.
Proof.
  unfold apk_blob_pull_base64, b64_needed.
  set (n := (length dst / 3)%nat).
  pose proof (Nat.div_mod (length dst) 3) as Hdm. fold n in Hdm.
  pose proof (Nat.mod_upper_bound (length dst) 3) as Hm.
  assert (n <= (length dst + 2) / 3)%nat as Hn.
  { apply Nat.Div0.div_le_mono. lia. }
  case_if; bool_prop; [eauto |].
  destruct (pull_b64_groups_total n s 0) as (d & r & -> & Hd); [lia |]. simpl.
  case_if; [eexists _, _; split; [done | rewrite length_app, length_drop; lia] |].
  case_if; [eexists _, _; split; [done | rewrite length_app, length_drop; lia] |].
  bool_prop. destruct (pull_b64_tail _ _) as [ok d'] eqn:Ht.
  assert (length d' <= length dst - n * 3)%nat as Hd'.
  { unfold pull_b64_tail in Ht. repeat case_match; simplify_eq; bool_prop; simpl;
      rewrite ?length_app; simpl; try lia. }
  eexists _, _. split; [done |]. rewrite length_app, length_drop, length_app. lia.
Qed.
