(* ===== verification/Ctype.v ===== *)
(** * Character classes (ctype.c, apk_ctype.h) *)

From S2P Require Import Prelude.

Definition APK_CTYPE_HEXDIGIT : Z := 0.
Definition APK_CTYPE_PACKAGE_NAME : Z := 1.
Definition APK_CTYPE_VERSION_SUFFIX : Z := 2.
Definition APK_CTYPE_DEPENDENCY_NAME : Z := 3.
Definition APK_CTYPE_DEPENDENCY_COMPARER : Z := 4.
Definition APK_CTYPE_VARIABLE_NAME : Z := 5.
Definition APK_CTYPE_TAG_NAME : Z := 6.
Definition APK_CTYPE_DEPENDENCY_SEPARATOR : Z := 8.
Definition APK_CTYPE_REPOSITORY_SEPARATOR : Z := 9.

Definition HEXDGT : Z := BIT APK_CTYPE_HEXDIGIT.
Definition PKGNAME : Z := Z.lor (BIT APK_CTYPE_PACKAGE_NAME) (BIT APK_CTYPE_DEPENDENCY_NAME).
Definition VERSUF : Z := BIT APK_CTYPE_VERSION_SUFFIX.
Definition DEPNAME : Z := BIT APK_CTYPE_DEPENDENCY_NAME.
Definition DEPCOMP : Z := BIT APK_CTYPE_DEPENDENCY_COMPARER.
Definition VARNAME : Z := Z.lor (BIT APK_CTYPE_VARIABLE_NAME) (BIT APK_CTYPE_TAG_NAME).
Definition TAGNAME : Z := BIT APK_CTYPE_TAG_NAME.
Definition DEPSEP : Z := BIT (APK_CTYPE_DEPENDENCY_SEPARATOR - 8).
Definition REPOSEP : Z := BIT (APK_CTYPE_REPOSITORY_SEPARATOR - 8).

Definition lor_all (ms : list Z) : Z := foldr Z.lor 0 ms.

(** One run of consecutive designators of the tables: characters and their mask. *)
Definition ctype1_init : list (bytes * Z) := [
  (lit "+-.", lor_all [PKGNAME; TAGNAME]);
  (lit ",:/[]", lor_all [DEPNAME; TAGNAME]);
  (lit "<>~", DEPCOMP);
  (lit "=", lor_all [DEPCOMP; TAGNAME]);
  (lit "0123456789", lor_all [HEXDGT; PKGNAME; VARNAME]);
  (lit "ABCDEFGHIJKLMNOPQRSTUVWXYZ_", lor_all [PKGNAME; VARNAME]);
  (lit "abcdef", lor_all [HEXDGT; VERSUF; PKGNAME; VARNAME]);
  (lit "ghijklmnopqrstuvwxyz", lor_all [VERSUF; PKGNAME; VARNAME]) ].

Definition ctype2_init : list (bytes * Z) := [
  ([9], REPOSEP); ([10], DEPSEP); (lit " ", lor_all [REPOSEP; DEPSEP]) ].

(** An array of [sz] bytes, zero where there is no designator. *)
Definition table_of (sz : nat) (init : list (bytes * Z)) : list Z :=
  (fun ch => lor_all (snd <$> filter (fun e => Z.of_nat ch ∈ fst e) init)) <$> seq 0 sz.

Definition apk_ctype1 : list Z := Eval vm_compute in table_of 127 ctype1_init.
Definition apk_ctype2 : list Z := Eval vm_compute in table_of 33 ctype2_init.

Definition get_array (ctype : Z) : list Z * Z :=
  if 8 <=? ctype then (apk_ctype2, BIT (ctype - 8)) else (apk_ctype1, BIT ctype).

(** [ch < ctype_sz && (ctype_data[ch] & mask)]. *)
Definition ctype_has (ctype ch : Z) : bool :=
  let '(data, mask) := get_array ctype in
  match data !! Z.to_nat ch with
  | Some m => testmask m mask
  | None => false
  end.

(** The scanning loop: whether it stopped early, and the two sides of the stop. *)
Fixpoint spn_loop (stop : Z -> bool) (s : bytes) : bool * bytes * bytes :=
  match s with
  | [] => (false, [], [])
  | ch :: s' =>
      if stop ch then (true, [], s)
      else let '(ret, l, r) := spn_loop stop s' in (ret, ch :: l, r)
  end.

Definition apk_blob_spn (s : bytes) (ctype : Z) : bool * bytes * bytes :=
  spn_loop (fun ch => negb (ctype_has ctype ch)) s.

Definition apk_blob_cspn (s : bytes) (ctype : Z) : bool * bytes * bytes :=
  spn_loop (fun ch => ctype_has ctype ch) s.

(** ** Lemmas *)

(** The first byte of [r], if any, stops the scan. *)
Definition stopped (stop : Z -> bool) (r : bytes) : bool :=
  match r with [] => true | ch :: _ => stop ch end.

Lemma spn_loop_spec stop s ret l r :
  spn_loop stop s = (ret, l, r) ->
  s = l ++ r /\ Forall (fun ch => stop ch = false) l /\ stopped stop r = true
  /\ ret = negb (bool_decide (r = [])).
Proof.
  revert ret l r. induction s as [|ch s IH]; intros ret l r; simpl.
  { intros [= <- <- <-]. done. }
  destruct (stop ch) eqn:E.
  - intros [= <- <- <-]. done.
  - destruct (spn_loop stop s) as [[ret' l'] r'] eqn:Es. intros [= <- <- <-].
    destruct (IH _ _ _ eq_refl) as (-> & Hl & Hr & ->). split_and!; [done | | done | done].
    by constructor.
Qed.

Lemma spn_loop_app stop l r :
  Forall (fun ch => stop ch = false) l -> stopped stop r = true ->
  spn_loop stop (l ++ r) = (negb (bool_decide (r = [])), l, r).
Proof.
  intros Hl Hr. induction Hl as [|ch l Hch Hl IH]; simpl.
  - destruct r as [|ch r]; simpl in *; [done |]. by rewrite Hr.
  - by rewrite Hch, IH.
Qed.

(** The classes as predicates on characters. *)
Definition is_digit (c : Z) : bool := (48 <=? c) && (c <=? 57).
Definition is_lower (c : Z) : bool := (97 <=? c) && (c <=? 122).
Definition is_hex (c : Z) : bool := is_digit c || ((97 <=? c) && (c <=? 102)).

Lemma ctype_has_range ctype (P : Z -> bool) ch :
  (forall c, c <= 0 \/ 127 <= c -> P c = false) -> 0 <= ctype < 8 ->
  forallb (fun i => Bool.eqb (ctype_has ctype (Z.of_nat i)) (P (Z.of_nat i))) (seq 0 127) = true ->
  ctype_has ctype ch = P ch.
Proof.
  intros HP Hc H.
  assert (forall c, 0 <= c < 127 -> ctype_has ctype c = P c) as Hin.
  { intros c Hr. apply Bool.eqb_prop.
    by apply (check_range 127 (fun i => Bool.eqb (ctype_has ctype i) (P i)) c ltac:(lia)). }
  destruct (decide (0 <= ch < 127)); [by apply Hin |].
  rewrite (HP ch) by lia. destruct (decide (ch < 0)).
  - rewrite <- (HP 0), <- (Hin 0) by lia. unfold ctype_has.
    by assert (Z.to_nat ch = Z.to_nat 0) as -> by lia.
  - unfold ctype_has, get_array. assert ((8 <=? ctype) = false) as -> by lia.
    rewrite lookup_ge_None_2; [done |]. simpl. lia.
Qed.

Lemma ctype_version_suffix ch : ctype_has APK_CTYPE_VERSION_SUFFIX ch = is_lower ch.
Proof.
  apply ctype_has_range; [| by vm_compute | by vm_compute]. unfold is_lower. lia.
Qed.

Lemma ctype_hexdigit ch : ctype_has APK_CTYPE_HEXDIGIT ch = is_hex ch.
Proof.
  apply ctype_has_range; [| by vm_compute | by vm_compute]. unfold is_hex, is_digit. lia.
Qed.

Lemma spn_loop_ext f g s : (forall c, f c = g c) -> spn_loop f s = spn_loop g s.
Proof. intros H. induction s as [|c s IH]; simpl; [done |]. by rewrite H, IH. Qed.

(** A split of [s] where the left part scans and the right part, in the language
    [L], stops the scan, is the split the scan finds. *)
Lemma span_split stop (P L : bytes -> Prop) s :
  (forall r, L r -> stopped stop r = true) ->
  (exists d r, s = d ++ r /\ Forall (fun c => stop c = false) d /\ P d /\ L r) <->
  P (spn_loop stop s).1.2 /\ L (spn_loop stop s).2.
Proof.
  intros HL. split.
  - intros (d & r & -> & Hd & HP & Hr). rewrite spn_loop_app by auto. done.
  - destruct (spn_loop stop s) as [[ret d] r] eqn:E. simpl.
    apply spn_loop_spec in E as (-> & Hd & _). intros [HP Hr]. by exists d, r.
Qed.
