(* ===== verification/Version.v ===== *)
(** * Package versions (version.c, apk_version.h)

    The tokenizer ([token_first], [token_next]), validation, comparison and
    matching of version strings.  [apk_version_compare] is shown to be the
    lexicographic comparison of token keys, hence a total preorder, and
    [apk_version_validate] to accept exactly the documented grammar
    [digit{.digit}...{letter}{_suf{#}}...{~hash}{-r#}]. *)

From S2P Require Import Prelude Blob BlobCodec Ctype.

Definition APK_VERSION_UNKNOWN : Z := 0.
Definition APK_VERSION_EQUAL : Z := 1.
Definition APK_VERSION_LESS : Z := 2.
Definition APK_VERSION_GREATER : Z := 4.
Definition APK_VERSION_FUZZY : Z := 8.
Definition APK_VERSION_CONFLICT : Z := 16.
Definition APK_DEPMASK_ANY : Z := 7.
Definition APK_DEPMASK_CHECKSUM : Z := 6.

(** [enum PARTS]. *)
Definition TOKEN_INITIAL_DIGIT : Z := 0.
Definition TOKEN_DIGIT : Z := 1.
Definition TOKEN_LETTER : Z := 2.
Definition TOKEN_SUFFIX : Z := 3.
Definition TOKEN_SUFFIX_NO : Z := 4.
Definition TOKEN_COMMIT_HASH : Z := 5.
Definition TOKEN_REVISION_NO : Z := 6.
Definition TOKEN_END : Z := 7.
Definition TOKEN_INVALID : Z := 8.

(** [DECLARE_SUFFIXES]: the literal of each suffix value. *)
Definition suffix_literals : list bytes := [
  []; lit "alpha"; lit "beta"; lit "pre"; lit "rc"; []; lit "cvs"; lit "svn"; lit "git";
  lit "hg"; lit "p" ].
Definition SUFFIX_INVALID : Z := 0.
Definition SUFFIX_ALPHA : Z := 1.
Definition SUFFIX_BETA : Z := 2.
Definition SUFFIX_PRE : Z := 3.
Definition SUFFIX_RC : Z := 4.
Definition SUFFIX_NONE : Z := 5.
Definition SUFFIX_CVS : Z := 6.
Definition SUFFIX_SVN : Z := 7.
Definition SUFFIX_GIT : Z := 8.
Definition SUFFIX_HG : Z := 9.
Definition SUFFIX_P : Z := 10.

Record token_state := mk_token {
  token : Z;
  suffix : Z;
  number : Z;
  value : bytes;
}.

#[global] Instance token_state_eq_dec : EqDecision token_state.
Proof. solve_decision. Defined.

Definition set_token (t : token_state) (k : Z) : token_state :=
  mk_token k (suffix t) (number t) (value t).

Definition suffix_value (suf : bytes) : Z :=
  match suf with
  | [] => SUFFIX_INVALID
  | c :: _ =>
      let val :=
        if c =? chr "a" then SUFFIX_ALPHA
        else if c =? chr "b" then SUFFIX_BETA
        else if c =? chr "c" then SUFFIX_CVS
        else if c =? chr "g" then SUFFIX_GIT
        else if c =? chr "h" then SUFFIX_HG
        else if c =? chr "p" then if (1 <? length suf)%nat then SUFFIX_PRE else SUFFIX_P
        else if c =? chr "r" then SUFFIX_RC
        else if c =? chr "s" then SUFFIX_SVN
        else SUFFIX_INVALID in
      if val =? SUFFIX_INVALID then SUFFIX_INVALID
      else if negb (apk_blob_compare suf (nth (Z.to_nat val) suffix_literals []) =? 0)
      then SUFFIX_INVALID
      else val
  end.

(** The result of comparing two [uint64_t]. *)
Definition cmp_u64 (a b : Z) : Z :=
  if a <? b then APK_VERSION_LESS else if b <? a then APK_VERSION_GREATER else APK_VERSION_EQUAL.

Definition first_char (s : bytes) : Z := nth 0 s 0.

Definition token_cmp (ta tb : token_state) : Z :=
  let string_sort :=
    let r := apk_blob_sort (value ta) (value tb) in
    if r <? 0 then APK_VERSION_LESS else if 0 <? r then APK_VERSION_GREATER
    else APK_VERSION_EQUAL in
  let numeric := cmp_u64 (number ta) (number tb) in
  if token ta =? TOKEN_DIGIT then
    if (first_char (value ta) =? chr "0") || (first_char (value tb) =? chr "0")
    then string_sort else numeric
  else if (token ta =? TOKEN_INITIAL_DIGIT) || (token ta =? TOKEN_SUFFIX_NO)
          || (token ta =? TOKEN_REVISION_NO) then numeric
  else if token ta =? TOKEN_LETTER then cmp_u64 (first_char (value ta)) (first_char (value tb))
  else if token ta =? TOKEN_SUFFIX then cmp_u64 (suffix ta) (suffix tb)
  else string_sort.

(** The bytes consumed when the rest of [b] is [b']. *)
Definition consumed (b b' : bytes) : bytes := take (length b - length b') b.

Definition token_parse_digits (t : token_state) (b : bytes) : token_state * bytes :=
  let '(n, b') := pull_uint_loop b 10 0 in
  let v := consumed b b' in
  (mk_token (if (length v =? 0)%nat then TOKEN_INVALID else token t) (suffix t) n v, b').

Definition token_first (t : token_state) (b : bytes) : token_state * bytes :=
  token_parse_digits (set_token t TOKEN_INITIAL_DIGIT) b.

Definition token_next (t : token_state) (b : bytes) : token_state * bytes :=
  match b with
  | [] => (set_token t TOKEN_END, [])
  | c :: b' =>
      let invalid rest := (set_token t TOKEN_INVALID, rest) in
      let digits rest :=
        if (token t =? TOKEN_INITIAL_DIGIT) || (token t =? TOKEN_DIGIT)
        then token_parse_digits (set_token t TOKEN_DIGIT) rest
        else if token t =? TOKEN_SUFFIX
        then token_parse_digits (set_token t TOKEN_SUFFIX_NO) rest
        else invalid rest in
      if is_lower c then
        if TOKEN_DIGIT <? token t then invalid b
        else (mk_token TOKEN_LETTER (suffix t) (number t) [c], b')
      else if c =? chr "." then
        if TOKEN_DIGIT <? token t then invalid b else digits b'
      else if is_digit c then digits b
      else if c =? chr "_" then
        if TOKEN_SUFFIX_NO <? token t then invalid b
        else
          let '(_, v, rest) := apk_blob_spn b' APK_CTYPE_VERSION_SUFFIX in
          let s := suffix_value v in
          (mk_token (if s =? SUFFIX_INVALID then TOKEN_INVALID else TOKEN_SUFFIX)
             s (number t) v, rest)
      else if c =? chr "~" then
        if TOKEN_COMMIT_HASH <=? token t then invalid b
        else
          let '(_, v, rest) := apk_blob_spn b' APK_CTYPE_HEXDIGIT in
          (mk_token (if (length v =? 0)%nat then TOKEN_INVALID else TOKEN_COMMIT_HASH)
             (suffix t) (number t) v, rest)
      else if c =? chr "-" then
        if TOKEN_REVISION_NO <=? token t then invalid b
        else
          let '(ok, rest) := apk_blob_pull_blob_match (Some b) (lit "-r") in
          if ok then token_parse_digits (set_token t TOKEN_REVISION_NO) (bdata rest)
          else invalid b
      else invalid b
  end.

Definition apk_version_op_string (op : Z) : bytes :=
  let m := Z.land op (Z.lnot APK_VERSION_CONFLICT) in
  if m =? 2 then lit "<"
  else if m =? 3 then lit "<="
  else if m =? 11 then lit "<~"
  else if (m =? 9) || (m =? 8) then lit "~"
  else if m =? 1 then lit "="
  else if m =? 5 then lit ">="
  else if m =? 13 then lit ">~"
  else if m =? 4 then lit ">"
  else if m =? APK_DEPMASK_CHECKSUM then lit "><"
  else if m =? APK_DEPMASK_ANY then []
  else lit "?".

Fixpoint result_mask_loop (op : bytes) (r : Z) : Z :=
  match op with
  | [] => r
  | c :: op' =>
      if c =? chr "<" then result_mask_loop op' (Z.lor r APK_VERSION_LESS)
      else if c =? chr ">" then result_mask_loop op' (Z.lor r APK_VERSION_GREATER)
      else if c =? chr "=" then result_mask_loop op' (Z.lor r APK_VERSION_EQUAL)
      else if c =? chr "~" then
        result_mask_loop op' (Z.lor r (Z.lor APK_VERSION_FUZZY APK_VERSION_EQUAL))
      else 0
  end.

Definition apk_version_result_mask_blob (op : bytes) : Z := result_mask_loop op 0.
Definition apk_version_result_mask (op : bytes) : Z := apk_version_result_mask_blob (cstr_prefix op).

(** The loops of validation and comparison; [None] when the fuel runs out, which
    the lemmas below exclude for fuel above the length of the string. *)
Fixpoint validate_loop (fuel : nat) (t : token_state) (b : bytes) : option Z :=
  if token t <? TOKEN_END then
    match fuel with
    | O => None
    | S fuel => let '(t', b') := token_next t b in validate_loop fuel t' b'
    end
  else Some (token t).

(** The value of an uninitialised [struct token_state]: no field is read before
    it is assigned. *)
Definition token_garbage : token_state := mk_token 0 0 0 [].

Definition apk_version_validate_opt (ver : blob) : option bool :=
  let '(t, b) := token_first token_garbage (bdata ver) in
  (fun k => k =? TOKEN_END) <$> validate_loop (S (length (bdata ver))) t b.

Definition apk_version_validate (ver : blob) : bool :=
  default false (apk_version_validate_opt ver).

(** What [apk_version_compare_fuzzy] returns once its loop has ended. *)
Definition compare_end (ta tb : token_state) (fuzzy : bool) : Z :=
  if token ta =? token tb then APK_VERSION_EQUAL
  else if (token tb =? TOKEN_END) && fuzzy then APK_VERSION_EQUAL
  else if (token ta =? TOKEN_SUFFIX) && (suffix ta <? SUFFIX_NONE) then APK_VERSION_LESS
  else if (token tb =? TOKEN_SUFFIX) && (suffix tb <? SUFFIX_NONE) then APK_VERSION_GREATER
  else if token tb <? token ta then APK_VERSION_LESS
  else if token ta <? token tb then APK_VERSION_GREATER
  else APK_VERSION_EQUAL.

Fixpoint compare_loop (fuel : nat) (ta : token_state) (a : bytes) (tb : token_state) (b : bytes)
    (fuzzy : bool) : option Z :=
  if (token ta =? token tb) && (token ta <? TOKEN_END) then
    let r := token_cmp ta tb in
    if negb (r =? APK_VERSION_EQUAL) then Some r
    else
      match fuel with
      | O => None
      | S fuel =>
          let '(ta', a') := token_next ta a in
          let '(tb', b') := token_next tb b in
          compare_loop fuel ta' a' tb' b' fuzzy
      end
  else Some (compare_end ta tb fuzzy).

Definition compare_fuzzy_opt (a b : blob) (fuzzy : bool) : option Z :=
  match a, b with
  | None, None => Some APK_VERSION_EQUAL
  | None, _ | _, None =>
      Some (Z.lor APK_VERSION_EQUAL (Z.lor APK_VERSION_GREATER APK_VERSION_LESS))
  | Some a, Some b =>
      let '(ta, a') := token_first token_garbage a in
      let '(tb, b') := token_first token_garbage b in
      compare_loop (S (length a)) ta a' tb b' fuzzy
  end.

Definition apk_version_compare_fuzzy (a b : blob) (fuzzy : bool) : Z :=
  default APK_VERSION_UNKNOWN (compare_fuzzy_opt a b fuzzy).

Definition apk_version_compare (a b : blob) : Z := apk_version_compare_fuzzy a b false.

Definition apk_version_match (a : blob) (op : Z) (b : blob) : bool :=
  let ok :=
    (Z.land op APK_DEPMASK_ANY =? APK_DEPMASK_ANY)
    || testmask (apk_version_compare_fuzzy a b (testmask op APK_VERSION_FUZZY)) op in
  if testmask op APK_VERSION_CONFLICT then negb ok else ok.

(** ** The tokenizer *)

(** Evaluates comparisons of token constants in goal and context. *)
Ltac unfold_tokens :=
  unfold TOKEN_INITIAL_DIGIT, TOKEN_DIGIT, TOKEN_LETTER, TOKEN_SUFFIX, TOKEN_SUFFIX_NO,
    TOKEN_COMMIT_HASH, TOKEN_REVISION_NO, TOKEN_END, TOKEN_INVALID in *.

Lemma dx_digit c : (c =? 0) || (10 <=? dx c) = negb (is_digit c).
Proof.
  destruct (decide (0 <= c < 256)) as [Hc|Hc].
  - apply Bool.eqb_prop. by apply (check_range 256
      (fun c => Bool.eqb ((c =? 0) || (10 <=? dx c)) (negb (is_digit c))) c Hc).
  - assert (dx c = 0xff) as ->.
    { unfold dx. destruct (decide (c < 0)) as [Hn|].
      - by assert (Z.to_nat c = 0%nat) as -> by lia.
      - apply nth_overflow. replace (length digitdecode) with 256%nat by done. lia. }
    unfold is_digit. lia.
Qed.

Definition not_digit (c : Z) : bool := negb (is_digit c).

(** The value of a string of digits, modulo [2^64]. *)
Definition digits_value (d : bytes) : Z := fst (pull_uint_loop d 10 0).

Lemma pull_uint_split b v :
  let '(_, d, r) := spn_loop not_digit b in
  pull_uint_loop b 10 v = (fst (pull_uint_loop d 10 v), r).
Proof.
  revert v. induction b as [|c b IH]; intros v; simpl; [done |].
  pose proof (dx_digit c) as Hc. unfold not_digit at 1.
  destruct (is_digit c); simpl in *.
  - apply orb_false_iff in Hc as [H1 H2]. rewrite H1, H2.
    specialize (IH (u64 (u64 (v * 10) + dx c))).
    destruct (spn_loop not_digit b) as [[ret d] r]. simpl. by rewrite H1, H2.
  - apply orb_true_iff in Hc. destruct (c =? 0); [done |].
    destruct Hc as [|Hc]; [done |]. by rewrite Hc.
Qed.

Lemma token_parse_digits_spec t b :
  token_parse_digits t b =
  let '(_, d, r) := spn_loop not_digit b in
  (mk_token (if (length d =? 0)%nat then TOKEN_INVALID else token t)
     (suffix t) (digits_value d) d, r).
Proof.
  unfold token_parse_digits. pose proof (pull_uint_split b 0) as H.
  destruct (spn_loop not_digit b) as [[ret d] r] eqn:E. rewrite H.
  apply spn_loop_spec in E as (-> & _ & _ & _). unfold consumed.
  rewrite length_app, Nat.add_sub, take_app_length. done.
Qed.

Lemma pull_uint_nonneg b v : 0 <= v -> 0 <= fst (pull_uint_loop b 10 v).
Proof.
  revert v. induction b as [|c b IH]; intros v Hv; simpl; [done |].
  repeat case_if; simpl; [done | done |]. apply IH. apply u64_range.
Qed.

(** A token as the tokenizer leaves it. *)
Record token_wf (t : token_state) : Prop := {
  wf_token : 0 <= token t <= TOKEN_INVALID;
  wf_digit : token t = TOKEN_DIGIT -> exists c v, value t = c :: v /\ is_digit c = true;
  wf_number : 0 <= number t;
}.

Lemma token_parse_digits_wf t b :
  0 <= token t <= TOKEN_INVALID ->
  token_wf (fst (token_parse_digits t b)).
Proof.
  intros Ht. rewrite token_parse_digits_spec.
  destruct (spn_loop not_digit b) as [[ret d] r] eqn:E.
  apply spn_loop_spec in E as (-> & Hd & _ & _). split; simpl.
  - case_if; unfold_tokens; lia.
  - destruct d as [|c d]; simpl; [done |]. intros _. exists c, d. split; [done |].
    apply Forall_cons in Hd as [Hc _]. unfold not_digit in Hc. by bool_prop.
  - apply pull_uint_nonneg. lia.
Qed.

Lemma token_parse_digits_length t b t' b' :
  token_parse_digits t b = (t', b') -> token t' < TOKEN_END -> (length b' < length b)%nat.
Proof.
  rewrite token_parse_digits_spec. destruct (spn_loop not_digit b) as [[ret d] r] eqn:E.
  apply spn_loop_spec in E as (-> & _ & _ & _). intros [= <- <-]. simpl.
  destruct d; simpl; [done |]. rewrite length_app. lia.
Qed.

Lemma pull_match_dash_r c b :
  apk_blob_pull_blob_match (Some (c :: b)) (lit "-r") =
  match b with
  | c' :: r => if (c =? chr "-") && (c' =? chr "r") then (true, Some r) else (false, Some (c :: b))
  | [] => (false, Some (c :: b))
  end.
Proof.
  destruct b as [|c' r]; [done |]. unfold apk_blob_pull_blob_match. simpl.
  rewrite ?take_0, ?drop_0. destruct (c =? 45); simpl; [| by destruct (c <? 45)].
  destruct (c' =? 114); simpl; [done | by destruct (c' <? 114)].
Qed.

Lemma token_first_wf t b : token_wf (fst (token_first t b)).
Proof. apply token_parse_digits_wf. simpl. unfold_tokens. lia. Qed.

Lemma set_token_wf t k :
  0 <= number t -> 0 <= k <= TOKEN_INVALID -> k <> TOKEN_DIGIT -> token_wf (set_token t k).
Proof. by split. Qed.

(** What [token_next] yields: a well-formed token, and less input unless it ends
    the version. *)
Lemma token_next_spec t b :
  token_wf t ->
  token_wf (fst (token_next t b)) /\
  (token (fst (token_next t b)) < TOKEN_END -> (length (snd (token_next t b)) < length b)%nat).
Proof.
  intros [Ht Hd Hn]. destruct b as [|c b]; simpl.
  { split; [| done]. by apply set_token_wf. }
  assert (forall r : bytes, token_wf (fst (set_token t TOKEN_INVALID, r)) /\
    (TOKEN_INVALID < TOKEN_END -> (length r < S (length b))%nat)) as Hinv.
  { intros r. split; [by apply set_token_wf | done]. }
  assert (forall k r, 0 <= k <= TOKEN_INVALID -> (length r <= S (length b))%nat ->
    token_wf (fst (token_parse_digits (set_token t k) r)) /\
    (token (fst (token_parse_digits (set_token t k) r)) < TOKEN_END ->
     (length (snd (token_parse_digits (set_token t k) r)) < S (length b))%nat)) as Hdig.
  { intros k r Hk Hl. split; [by apply token_parse_digits_wf |].
    destruct (token_parse_digits (set_token t k) r) as [t' b'] eqn:E. intros Hlt.
    pose proof (token_parse_digits_length _ _ _ _ E Hlt). simpl in *. lia. }
  assert (forall p, (let '(_, v, r) := spn_loop p b in (length r <= length b)%nat)) as Hspn.
  { intros p. destruct (spn_loop p b) as [[ret v] r] eqn:E.
    apply spn_loop_spec in E as (-> & _). rewrite length_app. lia. }
  rewrite pull_match_dash_r. unfold apk_blob_spn.
  pose proof (Hspn (fun ch => negb (ctype_has APK_CTYPE_VERSION_SUFFIX ch))) as Hs1.
  pose proof (Hspn (fun ch => negb (ctype_has APK_CTYPE_HEXDIGIT ch))) as Hs2.
  repeat case_match; simplify_eq/=; try done;
    try (by apply Hinv); try (apply Hdig; unfold_tokens; simpl; lia);
    (split; [split; simpl; [unfold_tokens; lia | by unfold_tokens | done] | unfold_tokens; lia]).
Qed.

(** ** Comparison *)

#[local] Arguments Z.compare : simpl never.

(** The key of a token: a pre-release suffix sorts below everything, otherwise a
    later kind of token sorts below an earlier one; then the number, then the
    text.  A digit token with a leading zero sorts as text, below all others. *)
Definition leading_zero (t : token_state) : bool :=
  (token t =? TOKEN_DIGIT) && (first_char (value t) =? chr "0").

Definition tok_rank (t : token_state) : Z :=
  if (token t =? TOKEN_SUFFIX) && (suffix t <? SUFFIX_NONE) then -9 else - token t.

Definition tok_num (t : token_state) : Z :=
  if leading_zero t then -1
  else if (token t <=? TOKEN_DIGIT) || (token t =? TOKEN_SUFFIX_NO)
          || (token t =? TOKEN_REVISION_NO) then number t
  else if token t =? TOKEN_LETTER then first_char (value t)
  else if token t =? TOKEN_SUFFIX then suffix t
  else 0.

Definition tok_text (t : token_state) : bytes :=
  if leading_zero t || (token t =? TOKEN_COMMIT_HASH) then value t else [].

Definition tok_cmp : token_state -> token_state -> comparison :=
  cmp_lex (cmp_on tok_rank Z.compare)
    (cmp_lex (cmp_on tok_num Z.compare) (cmp_on tok_text (cmp_list Z.compare))).

#[global] Instance tok_cmp_laws : CmpLaws tok_cmp.
Proof. apply _. Qed.

(** The tokens of a version, up to and including [TOKEN_END] or [TOKEN_INVALID]. *)
Fixpoint token_list (fuel : nat) (t : token_state) (b : bytes) : list token_state :=
  t :: (if token t <? TOKEN_END then
          match fuel with
          | O => []
          | S fuel => let '(t', b') := token_next t b in token_list fuel t' b'
          end
        else []).

Definition version_tokens (v : bytes) : list token_state :=
  let '(t, b) := token_first token_garbage v in token_list (S (length v)) t b.

Definition version_cmp (a b : bytes) : comparison :=
  cmp_list tok_cmp (version_tokens a) (version_tokens b).

(** A three-way result as the bit [apk_version_compare] returns. *)
Definition cmp_result (c : comparison) : Z :=
  match c with
  | Eq => APK_VERSION_EQUAL
  | Lt => APK_VERSION_LESS
  | Gt => APK_VERSION_GREATER
  end.

Lemma cmp_u64_result a b : cmp_u64 a b = cmp_result (a ?= b).
Proof.
  unfold cmp_u64. destruct (Z.compare_spec a b); repeat case_if; bool_prop; try lia; done.
Qed.

Lemma sort_result a b :
  (if apk_blob_sort a b <? 0 then APK_VERSION_LESS
   else if 0 <? apk_blob_sort a b then APK_VERSION_GREATER else APK_VERSION_EQUAL)
  = cmp_result (cmp_list Z.compare a b).
Proof.
  rewrite <- apk_blob_sort_lex. destruct (Z.compare_spec (apk_blob_sort a b) 0);
    repeat case_if; bool_prop; try lia; done.
Qed.

Lemma cmp_then_eq_r c : cmp_then c Eq = c.
Proof. by destruct c. Qed.

(** The digit case: text comparison when either side has a leading zero. *)
Lemma digit_cmp_key ta tb :
  token_wf ta -> token_wf tb -> token ta = TOKEN_DIGIT -> token tb = TOKEN_DIGIT ->
  token_cmp ta tb = cmp_result (tok_cmp ta tb).
Proof.
  intros [_ Ha Hna] [_ Hb Hnb] Ea Eb. specialize (Ha Ea). specialize (Hb Eb).
  destruct Ha as (ca & va & Hva & Hca). destruct Hb as (cb & vb & Hvb & Hcb).
  unfold token_cmp, tok_cmp, cmp_lex, cmp_on, tok_rank, tok_num, tok_text, leading_zero.
  rewrite Ea, Eb, sort_result, cmp_u64_result, Hva, Hvb. unfold_tokens.
  unfold is_digit, first_char in *. simpl. rewrite ?Z.compare_refl. bool_prop.
  destruct (ca =? 48) eqn:E1, (cb =? 48) eqn:E2; bool_prop; subst; simpl.
  - done.
  - assert ((48 ?= cb) = Lt) as -> by (apply Z.compare_lt_iff; lia).
    by assert ((-1 ?= number tb) = Lt) as -> by (apply Z.compare_lt_iff; lia).
  - assert ((ca ?= 48) = Gt) as -> by (apply Z.compare_gt_iff; lia).
    by assert ((number ta ?= -1) = Gt) as -> by (apply Z.compare_gt_iff; lia).
  - by rewrite cmp_then_eq_r.
Qed.

Lemma token_cmp_key ta tb :
  token_wf ta -> token_wf tb -> token ta = token tb -> token ta < TOKEN_END ->
  token_cmp ta tb = cmp_result (tok_cmp ta tb).
Proof.
  intros Ha Hb E Hlt. destruct (decide (token ta = TOKEN_DIGIT)) as [Hd|Hd].
  { apply digit_cmp_key; congruence. }
  unfold token_cmp, tok_cmp, cmp_lex, cmp_on, tok_rank, tok_num, tok_text, leading_zero.
  rewrite <- E. rewrite sort_result, !cmp_u64_result.
  pose proof (wf_token _ Ha). unfold_tokens.
  assert (token ta = 0 \/ token ta = 2 \/ token ta = 3 \/ token ta = 4 \/ token ta = 5
          \/ token ta = 6) as Hcases by lia.
  destruct Hcases as [->|[->|[->|[->|[->| ->]]]]]; simpl; rewrite ?cmp_then_eq_r; try done.
  unfold SUFFIX_NONE. destruct (suffix ta <? 5) eqn:E1, (suffix tb <? 5) eqn:E2; bool_prop;
    simpl; rewrite ?cmp_then_eq_r; try done.
  - by assert ((suffix ta ?= suffix tb) = Lt) as -> by (apply Z.compare_lt_iff; lia).
  - by assert ((suffix ta ?= suffix tb) = Gt) as -> by (apply Z.compare_gt_iff; lia).
Qed.

Lemma compare_end_key ta tb :
  token_wf ta -> token_wf tb -> token ta <> token tb \/ TOKEN_END <= token ta ->
  compare_end ta tb false = cmp_result (tok_cmp ta tb)
  /\ (token ta <> token tb -> tok_cmp ta tb <> Eq).
Proof.
  intros Ha Hb Hor. pose proof (wf_token _ Ha). pose proof (wf_token _ Hb).
  unfold compare_end, tok_cmp, cmp_lex, cmp_on, tok_rank.
  destruct (token ta =? token tb) eqn:E; bool_prop.
  - split; [| done]. unfold tok_num, tok_text, leading_zero. rewrite <- E. unfold_tokens.
    destruct Hor as [|Hor]; [done |]. assert (token ta = 7 \/ token ta = 8) as [->| ->] by lia; done.
  - rewrite andb_false_r. unfold_tokens. unfold SUFFIX_NONE.
    destruct ((token ta =? 3) && (suffix ta <? 5)) eqn:Ea.
    + assert (((token tb =? 3) && (suffix tb <? 5)) = false) as ->.
      { apply andb_true_iff in Ea as [Ea _]. bool_prop. apply andb_false_iff. left. lia. }
      by assert ((-9 ?= - token tb) = Lt) as -> by (apply Z.compare_lt_iff; lia).
    + destruct ((token tb =? 3) && (suffix tb <? 5)).
      { by assert ((- token ta ?= -9) = Gt) as -> by (apply Z.compare_gt_iff; lia). }
      destruct (Z.compare_spec (- token ta) (- token tb)); [lia | |]; repeat case_if; bool_prop;
        try lia; done.
Qed.

(** The fuel covers the input that is left, unless the token already ends it. *)
Definition enough (fuel : nat) (t : token_state) (b : bytes) : Prop :=
  token t < TOKEN_END -> (length b < fuel)%nat.

Lemma enough_next n t b :
  token_wf t -> token t < TOKEN_END -> enough (S n) t b ->
  token_wf (fst (token_next t b)) /\ enough n (fst (token_next t b)) (snd (token_next t b)).
Proof.
  intros Hw Hlt He. destruct (token_next_spec t b Hw) as [Hw' Hl]. split; [done |].
  intros Hlt'. specialize (Hl Hlt'). specialize (He Hlt). lia.
Qed.

Lemma token_list_cons n t b :
  token_list n t b = t :: tail (token_list n t b).
Proof. by destruct n. Qed.

Lemma token_first_enough v :
  token_wf (fst (token_first token_garbage v)) /\
  enough (S (length v)) (fst (token_first token_garbage v)) (snd (token_first token_garbage v)).
Proof.
  split; [apply token_first_wf |]. intros Hlt.
  destruct (token_first token_garbage v) as [t b] eqn:E.
  pose proof (token_parse_digits_length _ _ _ _ E Hlt). simpl. lia.
Qed.

(** [b]'s tokens before [TOKEN_END] agree with the first tokens of [a]. *)
Fixpoint fuzzy_prefix (la lb : list token_state) : bool :=
  match la, lb with
  | ta :: la', tb :: lb' =>
      (token tb =? TOKEN_END)
      || match tok_cmp ta tb with Eq => fuzzy_prefix la' lb' | _ => false end
  | _, _ => false
  end.

Definition fuzzy_cmp (fuzzy : bool) (la lb : list token_state) : Z :=
  if fuzzy && fuzzy_prefix la lb then APK_VERSION_EQUAL else cmp_result (cmp_list tok_cmp la lb).

Lemma tok_cmp_rank_eq ta tb :
  token_wf ta -> token_wf tb -> token ta <> token tb -> tok_cmp ta tb <> Eq.
Proof. intros. apply (compare_end_key ta tb); auto. Qed.

(** The loop ended on [ta] and [tb]; the rest of the token lists is not looked at. *)
Lemma compare_end_fuzzy fuzzy ta tb la lb :
  token_wf ta -> token_wf tb ->
  token ta <> token tb \/ (token ta = token tb /\ TOKEN_END <= token ta /\ la = [] /\ lb = []) ->
  compare_end ta tb fuzzy = fuzzy_cmp fuzzy (ta :: la) (tb :: lb).
Proof.
  intros Ha Hb Hor. unfold fuzzy_cmp. simpl fuzzy_prefix.
  destruct (fuzzy && _) eqn:Ef.
  - apply andb_true_iff in Ef as [-> Ef]. unfold compare_end.
    destruct (token ta =? token tb) eqn:E; bool_prop; [done |].
    apply orb_true_iff in Ef as [->|Ef]; [done |].
    pose proof (tok_cmp_rank_eq ta tb Ha Hb E). by destruct (tok_cmp ta tb).
  - assert (compare_end ta tb fuzzy = compare_end ta tb false) as ->.
    { unfold compare_end. destruct fuzzy; [| done]. simpl in Ef.
      apply orb_false_iff in Ef as [-> _]. done. }
    destruct (compare_end_key ta tb Ha Hb) as [-> Hne]; [by destruct Hor as [|(?&?&?)]; auto |].
    simpl. destruct Hor as [Hor|(_ & _ & -> & ->)]; [| by rewrite cmp_then_eq_r].
    specialize (Hne Hor). by destruct (tok_cmp ta tb).
Qed.

Lemma token_list_end n t b : TOKEN_END <= token t -> token_list n t b = [t].
Proof.
  intros H. apply Z.ltb_ge in H. destruct n; simpl; by rewrite H.
Qed.

Lemma compare_loop_end n m fuzzy ta a tb b :
  token_wf ta -> token_wf tb -> (token ta =? token tb) && (token ta <? TOKEN_END) = false ->
  compare_end ta tb fuzzy = fuzzy_cmp fuzzy (token_list n ta a) (token_list m tb b).
Proof.
  intros Ha Hb E. rewrite (token_list_cons n), (token_list_cons m).
  apply compare_end_fuzzy; [done | done |]. apply andb_false_iff in E as [E|E]; bool_prop; auto.
  destruct (decide (token ta = token tb)) as [Heq|]; [right | by left].
  rewrite !token_list_end by lia. done.
Qed.

(** One more pair of tokens of the same kind. *)
Lemma fuzzy_cmp_cons fuzzy ta tb la lb :
  token_wf ta -> token_wf tb -> token ta = token tb -> token ta < TOKEN_END ->
  fuzzy_cmp fuzzy (ta :: la) (tb :: lb) =
  if token_cmp ta tb =? APK_VERSION_EQUAL then fuzzy_cmp fuzzy la lb else token_cmp ta tb.
Proof.
  intros Ha Hb E Hlt. rewrite token_cmp_key by done. unfold fuzzy_cmp. simpl.
  assert ((token tb =? TOKEN_END) = false) as -> by lia. simpl.
  by destruct (tok_cmp ta tb); rewrite ?andb_false_r.
Qed.

Lemma compare_loop_spec n m fuzzy ta a tb b :
  token_wf ta -> token_wf tb -> enough n ta a -> enough m tb b ->
  compare_loop n ta a tb b fuzzy = Some (fuzzy_cmp fuzzy (token_list n ta a) (token_list m tb b)).
Proof.
  revert m ta a tb b. induction n as [|n IH]; intros m ta a tb b Ha Hb Hea Heb; simpl compare_loop;
    destruct ((token ta =? token tb) && (token ta <? TOKEN_END)) eqn:E.
  2, 4: by rewrite <- (compare_loop_end _ m fuzzy ta a tb b).
  - bool_prop. specialize (Hea ltac:(done)). lia.
  - bool_prop. destruct m as [|m]; [specialize (Heb ltac:(lia)); lia |]. simpl token_list.
    rewrite <- H. assert ((token ta <? TOKEN_END) = true) as -> by lia.
    rewrite fuzzy_cmp_cons by done. destruct (token_cmp ta tb =? APK_VERSION_EQUAL); [| done].
    simpl. destruct (enough_next n ta a) as [Hwa Hna]; [done.. |].
    destruct (enough_next m tb b) as [Hwb Hnb]; [done | congruence | done |].
    destruct (token_next ta a) as [ta' a'], (token_next tb b) as [tb' b']. by apply IH.
Qed.

(** Comparison always terminates and is the order on token keys. *)
Lemma compare_fuzzy_spec a b fuzzy :
  compare_fuzzy_opt (Some a) (Some b) fuzzy =
  Some (fuzzy_cmp fuzzy (version_tokens a) (version_tokens b)).
Proof.
  unfold compare_fuzzy_opt, version_tokens.
  destruct (token_first_enough a) as [Hwa Hea]. destruct (token_first_enough b) as [Hwb Heb].
  destruct (token_first token_garbage a) as [ta a'], (token_first token_garbage b) as [tb b'].
  by apply compare_loop_spec.
Qed.

#[global] Instance version_cmp_laws : CmpLaws version_cmp.
Proof. apply (cmp_on_laws version_tokens (cmp_list tok_cmp)). Qed.

Lemma apk_version_compare_spec a b :
  apk_version_compare (Some a) (Some b) = cmp_result (version_cmp a b).
Proof.
  unfold apk_version_compare, apk_version_compare_fuzzy. by rewrite compare_fuzzy_spec.
Qed.

(** C34: [apk_version_compare] terminates on every pair of versions, valid or not, and
    is the lexicographic comparison of their token sequences under the token order
    (a pre-release suffix first, then the later kinds of token, then numbers, with
    leading zeros compared as text). *)
Theorem version_compare_lexicographic a b :
  compare_fuzzy_opt (Some a) (Some b) false =
  Some (cmp_result (cmp_list tok_cmp (version_tokens a) (version_tokens b))).
Proof. by rewrite compare_fuzzy_spec. Qed.

(** The mirror image of a comparison result. *)
Definition cmp_mirror (r : Z) : Z :=
  if r =? APK_VERSION_LESS then APK_VERSION_GREATER
  else if r =? APK_VERSION_GREATER then APK_VERSION_LESS else r.

(** C35: [apk_version_compare] is a total preorder on version strings: exactly one of
    the three results is returned, swapping the arguments mirrors it, and "less or
    equal" is transitive. *)
Theorem version_compare_preorder a b c :
  apk_version_compare (Some a) (Some b) ∈ [APK_VERSION_EQUAL; APK_VERSION_LESS; APK_VERSION_GREATER]
  /\ apk_version_compare (Some b) (Some a) = cmp_mirror (apk_version_compare (Some a) (Some b))
  /\ (testmask (apk_version_compare (Some a) (Some b)) 3 = true ->
      testmask (apk_version_compare (Some b) (Some c)) 3 = true ->
      testmask (apk_version_compare (Some a) (Some c)) 3 = true).
Proof.
  rewrite !apk_version_compare_spec. rewrite (cmp_opp version_cmp a b).
  pose proof (cmp_le_trans version_cmp a b c) as Ht.
  split_and!; [destruct (version_cmp a b); set_solver | by destruct (version_cmp a b) |].
  destruct (version_cmp a b), (version_cmp b c), (version_cmp a c); naive_solver.
Qed.

(** ** Matching *)

(** The fuzzy comparison ([~]) answers "equal" when the tokens of the second
    version are a prefix of those of the first, and is the ordinary comparison
    otherwise. *)
Theorem version_fuzzy_is_prefix a b :
  apk_version_compare_fuzzy (Some a) (Some b) true =
  if fuzzy_prefix (version_tokens a) (version_tokens b) then APK_VERSION_EQUAL
  else apk_version_compare (Some a) (Some b).
Proof.
  unfold apk_version_compare, apk_version_compare_fuzzy. rewrite !compare_fuzzy_spec.
  unfold fuzzy_cmp. by destruct (fuzzy_prefix _ _).
Qed.

(** The operators of dependencies, without the conflict flag. 6 is [><], which apk-world(5) has as a
    constraint on the identity of a package. *)
Definition dependency_ops : list Z := [1; 2; 3; 4; 5; 6; 7; 9; 11; 13].

(** Printing an operator and parsing it again gives the operator back, with or
    without the conflict flag (which is not printed here); only "any version", which
    prints as nothing, reads back as no operator. *)
Theorem op_string_roundtrip op :
  op ∈ dependency_ops ->
  apk_version_result_mask (apk_version_op_string op) = (if op =? APK_DEPMASK_ANY then 0 else op)
  /\ apk_version_op_string (Z.lor op APK_VERSION_CONFLICT) = apk_version_op_string op.
Proof.
  intros Hop. unfold dependency_ops in Hop.
  repeat (apply elem_of_cons in Hop as [->|Hop]; [by vm_compute |]).
  by apply elem_of_nil in Hop.
Qed.

Lemma op_string_roundtrip_witness :
  apk_version_result_mask (apk_version_op_string 13) = (if 13 =? APK_DEPMASK_ANY then 0 else 13)
  /\ apk_version_op_string (Z.lor 13 APK_VERSION_CONFLICT) = apk_version_op_string 13.
Proof. apply (op_string_roundtrip 13). unfold dependency_ops. set_solver. Defined.

(** The operators that constrain the version of a package: all but [><]. *)
Definition version_ops : list Z := [1; 2; 3; 4; 5; 7; 9; 11; 13].

(** What a match means for each of them, on two versions. *)
Definition match_spec (op : Z) (c : comparison) (fuzzy : bool) : bool :=
  let less := match c with Lt => true | _ => false end in
  let eq := match c with Eq => true | _ => fuzzy end in
  let greater := match c with Gt => true | _ => false end in
  if op =? 1 then match c with Eq => true | _ => false end
  else if op =? 2 then less
  else if op =? 3 then negb greater
  else if op =? 4 then greater
  else if op =? 5 then negb less
  else if op =? 7 then true
  else if op =? 9 then eq
  else if op =? 11 then less || eq
  else greater || eq.

(** C36: [apk_version_match] gives every operator on versions its meaning: [=], [<], [<=], [>],
    [>=] and "any" follow the order of versions, [~], [<~] and [>~] also accept
    a fuzzy prefix, and the conflict flag negates the answer.  The operator [><], which is about the identity of a
    package and not its version, is not among them. *)
Theorem version_match_meaning a b op :
  op ∈ version_ops ->
  apk_version_match (Some a) op (Some b)
  = match_spec op (version_cmp a b) (fuzzy_prefix (version_tokens a) (version_tokens b))
  /\ apk_version_match (Some a) (Z.lor op APK_VERSION_CONFLICT) (Some b)
     = negb (apk_version_match (Some a) op (Some b)).
Proof.
  intros Hop. unfold apk_version_match, apk_version_compare_fuzzy. rewrite !compare_fuzzy_spec.
  unfold fuzzy_cmp, version_cmp. unfold version_ops in Hop.
  set (f := fuzzy_prefix _ _). set (c := cmp_list _ _ _).
  repeat (apply elem_of_cons in Hop as [->|Hop]; [by destruct f, c |]).
  by apply elem_of_nil in Hop.
Qed.

Lemma version_match_meaning_witness :
  apk_version_match (Some (lit "1.2.3-r0")) 9 (Some (lit "1.2"))
  = match_spec 9 (version_cmp (lit "1.2.3-r0") (lit "1.2"))
      (fuzzy_prefix (version_tokens (lit "1.2.3-r0")) (version_tokens (lit "1.2")))
  /\ apk_version_match (Some (lit "1.2.3-r0")) (Z.lor 9 APK_VERSION_CONFLICT) (Some (lit "1.2"))
     = negb (apk_version_match (Some (lit "1.2.3-r0")) 9 (Some (lit "1.2"))).
Proof. apply version_match_meaning. unfold version_ops. set_solver. Defined.

(** ** Validation *)

(** The documented grammar, independent of the tokenizer:
    [digit{.digit}...{letter}{_suf{#}}...{~hash}{-r#}]. *)
Definition all_digits (d : bytes) : Prop := Forall (fun c => is_digit c = true) d.

Inductive g_rev : bytes -> Prop :=
| g_rev_none : g_rev []
| g_rev_some d : all_digits d -> d <> [] -> g_rev (lit "-r" ++ d).

Inductive g_hash : bytes -> Prop :=
| g_hash_none s : g_rev s -> g_hash s
| g_hash_some h s : Forall (fun c => is_hex c = true) h -> h <> [] -> g_rev s ->
    g_hash (chr "~" :: h ++ s).

Definition suffix_names : list bytes :=
  [lit "alpha"; lit "beta"; lit "pre"; lit "rc"; lit "cvs"; lit "svn"; lit "git"; lit "hg"; lit "p"].

Inductive g_suffixes : bytes -> Prop :=
| g_suffixes_none s : g_hash s -> g_suffixes s
| g_suffixes_some name d s : name ∈ suffix_names -> all_digits d -> g_suffixes s ->
    g_suffixes (chr "_" :: name ++ d ++ s).

Inductive g_letter : bytes -> Prop :=
| g_letter_none s : g_suffixes s -> g_letter s
| g_letter_some c s : is_lower c = true -> g_suffixes s -> g_letter (c :: s).

Inductive g_dotted : bytes -> Prop :=
| g_dotted_none s : g_letter s -> g_dotted s
| g_dotted_some d s : all_digits d -> d <> [] -> g_dotted s -> g_dotted (chr "." :: d ++ s).

Inductive g_version : bytes -> Prop :=
| g_version_intro d s : all_digits d -> d <> [] -> g_dotted s -> g_version (d ++ s).

Inductive g_sufno : bytes -> Prop :=
| g_sufno_intro d s : all_digits d -> g_suffixes s -> g_sufno (d ++ s).

(** What may still follow a token of kind [k]. *)
Definition lang (k : Z) (s : bytes) : Prop :=
  if k <=? TOKEN_DIGIT then g_dotted s
  else if k =? TOKEN_SUFFIX then g_sufno s
  else if k <=? TOKEN_SUFFIX_NO then g_suffixes s
  else if k =? TOKEN_COMMIT_HASH then g_rev s
  else if k =? TOKEN_REVISION_NO then s = []
  else k = TOKEN_END.

Lemma g_rev_cons c s : g_rev (c :: s) <-> c = 45 /\ exists d, s = 114 :: d /\ all_digits d /\ d <> [].
Proof.
  split; [inversion 1; subst; eauto 6 |]. intros (-> & d & -> & Hd & Hne). by apply (g_rev_some d).
Qed.

Lemma g_hash_cons c s :
  g_hash (c :: s) <-> g_rev (c :: s) \/
  c = 126 /\ exists h r, s = h ++ r /\ Forall (fun c => negb (is_hex c) = false) h /\ h <> [] /\ g_rev r.
Proof.
  split.
  - inversion 1 as [|h r Hh]; subst; [by left | right]. split; [done |]. exists h, r.
    split_and!; try done. eapply Forall_impl; [exact Hh |]. simpl. intros x Hx. by rewrite Hx.
  - intros [H|(-> & h & r & -> & Hh & Hne & Hr)]; [by constructor |]. apply g_hash_some; try done.
    eapply Forall_impl; [exact Hh |]. simpl. intros x Hx. by bool_prop.
Qed.

Lemma g_suffixes_cons c s :
  g_suffixes (c :: s) <-> g_hash (c :: s) \/
  c = 95 /\ exists n r, s = n ++ r /\ Forall (fun c => negb (is_lower c) = false) n
                        /\ n ∈ suffix_names /\ g_sufno r.
Proof.
  split.
  - inversion 1 as [|n d r Hn Hd Hr]; subst; [by left | right]. split; [done |].
    exists n, (d ++ r). split_and!; [done | | done | by constructor].
    unfold suffix_names in Hn. repeat (apply elem_of_cons in Hn as [->|Hn]; [by repeat constructor |]).
    by apply elem_of_nil in Hn.
  - intros [H|(-> & n & r & -> & _ & Hn & Hr)]; [by constructor |].
    destruct Hr as [d r Hd Hr]. by apply g_suffixes_some.
Qed.

Lemma g_letter_cons c s :
  g_letter (c :: s) <-> g_suffixes (c :: s) \/ is_lower c = true /\ g_suffixes s.
Proof.
  split; [inversion 1; subst; auto |]. intros [H|[H1 H2]]; [by constructor | by apply g_letter_some].
Qed.

Lemma all_digits_stop d : all_digits d <-> Forall (fun c => not_digit c = false) d.
Proof.
  unfold all_digits, not_digit. split; intros H; (eapply Forall_impl; [exact H |]); simpl;
    intros x Hx; [by rewrite Hx | by bool_prop].
Qed.

Lemma g_dotted_cons c s :
  g_dotted (c :: s) <-> g_letter (c :: s) \/
  c = 46 /\ exists d r, s = d ++ r /\ Forall (fun c => not_digit c = false) d /\ d <> [] /\ g_dotted r.
Proof.
  split.
  - inversion 1 as [|d r Hd]; subst; [by left | right]. split; [done |]. exists d, r.
    rewrite <- all_digits_stop. done.
  - intros [H|(-> & d & r & -> & Hd & Hne & Hr)]; [by constructor |].
    apply g_dotted_some; try done. by apply all_digits_stop.
Qed.

Lemma g_nil : g_rev [] /\ g_hash [] /\ g_suffixes [] /\ g_letter [] /\ g_dotted [] /\ g_sufno [].
Proof.
  assert (g_rev []) by constructor. assert (g_hash []) by by constructor.
  assert (g_suffixes []) by by constructor. assert (g_letter []) by by constructor.
  assert (g_dotted []) by by apply g_dotted_none.
  assert (g_sufno []) by (apply (g_sufno_intro [] []); [constructor | done]). done.
Qed.

(** No version goes on with a digit, and nothing after a suffix with a letter. *)
Lemma g_dotted_stop s : g_dotted s -> stopped not_digit s = true.
Proof.
  destruct s as [|c s]; [done |]. rewrite g_dotted_cons, g_letter_cons, g_suffixes_cons, g_hash_cons,
    g_rev_cons. unfold not_digit, is_lower, is_digit. simpl. intros H.
  assert (c = 45 \/ c = 126 \/ c = 95 \/ c = 46 \/ 97 <= c).
  { destruct H as [[[[H|H]|H]|[H _]]|H]; try (destruct H; lia). bool_prop. lia. }
  lia.
Qed.

Lemma g_suffixes_stop s : g_suffixes s -> stopped not_digit s = true.
Proof. intros H. by apply g_dotted_stop, g_dotted_none, g_letter_none. Qed.

Lemma suffix_value_names n : suffix_value n <> SUFFIX_INVALID <-> n ∈ suffix_names.
Proof.
  split.
  - unfold suffix_value. destruct n as [|c n]; [done |]. set (val := if c =? _ then _ else _).
    destruct (val =? SUFFIX_INVALID) eqn:Ev; [done |]. case_if; [done |]. intros _.
    bool_prop. apply apk_blob_compare_eq0 in Heqb. rewrite Heqb. subst val.
    repeat case_if; unfold suffix_names; try set_solver; done.
  - intros Hn. unfold suffix_names in Hn.
    repeat (apply elem_of_cons in Hn as [->|Hn]; [by vm_compute |]). by apply elem_of_nil in Hn.
Qed.

Lemma g_sufno_split s :
  g_sufno s <-> g_suffixes (spn_loop not_digit s).2.
Proof.
  pose proof (span_split not_digit (fun _ => True) g_suffixes s g_suffixes_stop) as H.
  split.
  - intros Hs. apply H. destruct Hs as [d r Hd Hr]. rewrite all_digits_stop in Hd. by exists d, r.
  - intros Hr. destruct H as [_ H]. destruct H as (d & r & -> & Hd & _ & Hr'); [done |].
    constructor; [by apply all_digits_stop | done].
Qed.

Lemma g_sufno_stop_lower r : g_sufno r -> stopped (fun c => negb (is_lower c)) r = true.
Proof.
  intros [d s Hd Hs]. destruct d as [|c d]; simpl.
  - destruct s as [|c s]; simpl; [done |].
    rewrite g_suffixes_cons, g_hash_cons, g_rev_cons in Hs. unfold is_lower.
    assert (c = 45 \/ c = 126 \/ c = 95) by (destruct Hs as [[H|H]|H]; destruct H; lia). lia.
  - apply Forall_cons in Hd as [Hc _]. unfold is_digit, is_lower in *. bool_prop. lia.
Qed.

Lemma g_rev_stop_hex r : g_rev r -> stopped (fun c => negb (is_hex c)) r = true.
Proof.
  destruct r as [|c r]; [done |]. rewrite g_rev_cons. intros [-> _]. done.
Qed.

Lemma all_digits_split s :
  (exists d, s = d /\ all_digits d /\ d <> []) <->
  (spn_loop not_digit s).1.2 <> [] /\ (spn_loop not_digit s).2 = [].
Proof.
  rewrite <- (span_split not_digit (fun d => d <> []) (fun r => r = []) s) by (by intros ? ->).
  split.
  - intros (d & -> & Hd & Hne). exists d, []. rewrite app_nil_r, <- all_digits_stop. done.
  - intros (d & r & -> & Hd & Hne & ->). exists d. rewrite app_nil_r, all_digits_stop. done.
Qed.

Lemma parse_digits_lang t k r :
  lang (token (token_parse_digits (set_token t k) r).1) (token_parse_digits (set_token t k) r).2 <->
  (spn_loop not_digit r).1.2 <> [] /\ lang k (spn_loop not_digit r).2.
Proof.
  rewrite token_parse_digits_spec. destruct (spn_loop not_digit r) as [[ret d] r']. simpl.
  destruct d; simpl; [| naive_solver]. unfold lang. simpl. naive_solver.
Qed.

Lemma lang_invalid s : lang TOKEN_INVALID s <-> False.
Proof. by unfold lang. Qed.

Ltac first_char_cases :=
  let H := fresh in
  assert (H : is_lower 46 = false /\ is_lower 95 = false /\ is_lower 126 = false
              /\ is_lower 45 = false) by done;
  intuition congruence.

(** The rest of a version by its first character. *)
Lemma g_cons_lower c s :
  is_lower c = true ->
  ~ g_rev (c :: s) /\ ~ g_hash (c :: s) /\ ~ g_suffixes (c :: s) /\
  (g_dotted (c :: s) <-> g_suffixes s).
Proof.
  rewrite g_dotted_cons, g_letter_cons, g_suffixes_cons, g_hash_cons, g_rev_cons.
  unfold is_lower. intros H.
  assert (c <> 45 /\ c <> 126 /\ c <> 95 /\ c <> 46) by (bool_prop; lia). intuition congruence.
Qed.

Lemma g_cons_dot s :
  ~ g_rev (46 :: s) /\ ~ g_hash (46 :: s) /\ ~ g_suffixes (46 :: s) /\
  (g_dotted (46 :: s) <-> (spn_loop not_digit s).1.2 <> [] /\ g_dotted (spn_loop not_digit s).2).
Proof.
  rewrite g_dotted_cons, g_letter_cons, g_suffixes_cons, g_hash_cons, g_rev_cons.
  rewrite (span_split not_digit (fun d => d <> []) g_dotted s g_dotted_stop). first_char_cases.
Qed.

Lemma g_cons_underscore s :
  ~ g_rev (95 :: s) /\ ~ g_hash (95 :: s) /\ (g_dotted (95 :: s) <-> g_suffixes (95 :: s)) /\
  (g_suffixes (95 :: s) <->
   (spn_loop (fun c => negb (is_lower c)) s).1.2 ∈ suffix_names /\
   g_sufno (spn_loop (fun c => negb (is_lower c)) s).2).
Proof.
  rewrite g_dotted_cons, g_letter_cons, g_suffixes_cons, g_hash_cons, g_rev_cons.
  rewrite (span_split _ (fun n => n ∈ suffix_names) g_sufno s g_sufno_stop_lower). first_char_cases.
Qed.

Lemma g_cons_tilde s :
  ~ g_rev (126 :: s) /\ (g_dotted (126 :: s) <-> g_hash (126 :: s)) /\
  (g_suffixes (126 :: s) <-> g_hash (126 :: s)) /\
  (g_hash (126 :: s) <->
   (spn_loop (fun c => negb (is_hex c)) s).1.2 <> [] /\
   g_rev (spn_loop (fun c => negb (is_hex c)) s).2).
Proof.
  rewrite g_dotted_cons, g_letter_cons, g_suffixes_cons, g_hash_cons, g_rev_cons.
  rewrite (span_split _ (fun h => h <> []) g_rev s g_rev_stop_hex). first_char_cases.
Qed.

Lemma g_cons_dash s :
  (g_dotted (45 :: s) <-> g_rev (45 :: s)) /\ (g_suffixes (45 :: s) <-> g_rev (45 :: s)) /\
  (g_rev (45 :: s) <-> exists r, s = 114 :: r /\
     (spn_loop not_digit r).1.2 <> [] /\ (spn_loop not_digit r).2 = []).
Proof.
  assert ((exists d, s = 114 :: d /\ all_digits d /\ d <> []) <-> exists r, s = 114 :: r /\
     (spn_loop not_digit r).1.2 <> [] /\ (spn_loop not_digit r).2 = []).
  { setoid_rewrite <- all_digits_split. split; [intros (d & ? & ? & ?); eauto 6 |].
    intros (? & ? & d & -> & ? & ?). eauto. }
  rewrite g_dotted_cons, g_letter_cons, g_suffixes_cons, g_hash_cons, g_rev_cons. first_char_cases.
Qed.

Lemma g_cons_other c s :
  is_lower c = false -> c <> 46 -> c <> 95 -> c <> 126 -> c <> 45 ->
  ~ g_rev (c :: s) /\ ~ g_suffixes (c :: s) /\ ~ g_dotted (c :: s).
Proof.
  intros. rewrite g_dotted_cons, g_letter_cons, g_suffixes_cons, g_hash_cons, g_rev_cons.
  intuition congruence.
Qed.

(** [g_sufno] begins with a digit or is [g_suffixes]. *)
Lemma g_sufno_cons c s :
  g_sufno (c :: s) <->
  if is_digit c then g_suffixes (spn_loop not_digit (c :: s)).2 else g_suffixes (c :: s).
Proof.
  rewrite g_sufno_split. simpl. unfold not_digit. by destruct (is_digit c).
Qed.

Lemma lang_cons_other t c s :
  0 <= token t < TOKEN_END -> is_lower c = false -> is_digit c = false ->
  c <> 46 -> c <> 95 -> c <> 126 -> c <> 45 -> ~ lang (token t) (c :: s).
Proof.
  intros Ht Hl Hd H1 H2 H3 H4. destruct (g_cons_other c s Hl H1 H2 H3 H4) as (? & ? & ?).
  pose proof (g_sufno_cons c s) as Hs. rewrite Hd in Hs.
  unfold lang. unfold_tokens. repeat case_if; bool_prop; try tauto; [done | lia].
Qed.

Lemma token_next_lang t b :
  token_wf t -> token t < TOKEN_END -> (token t <= TOKEN_DIGIT -> stopped not_digit b = true) ->
  (lang (token t) b <-> lang (token (token_next t b).1) (token_next t b).2).
Proof.
  intros [Ht _ _] Hlt Hstop. destruct b as [|c s].
  { destruct g_nil as (? & ? & ? & ? & ? & ?). unfold lang, token_next. simpl. unfold_tokens.
    repeat case_if; bool_prop; try done; lia. }
  assert (token t = 0 \/ token t = 1 \/ token t = 2 \/ token t = 3 \/ token t = 4 \/ token t = 5
          \/ token t = 6) as Hk by (unfold_tokens; lia).
  unfold token_next. rewrite pull_match_dash_r. unfold apk_blob_spn.
  rewrite !(spn_loop_ext _ _ _ (fun c => f_equal negb (ctype_version_suffix c))).
  rewrite !(spn_loop_ext _ _ _ (fun c => f_equal negb (ctype_hexdigit c))).
  pose proof (g_sufno_cons c s) as Hs.
  destruct (is_lower c) eqn:El.
  { destruct (g_cons_lower c s El) as (? & ? & ? & ?).
    assert (is_digit c = false) as Hd by (unfold is_digit, is_lower in *; bool_prop; lia).
    rewrite Hd in Hs. unfold lang. unfold_tokens.
    destruct Hk as [E|[E|[E|[E|[E|[E|E]]]]]]; rewrite E; simpl; intuition congruence. }
  destruct (c =? 46) eqn:E46; bool_prop.
  { subst c. destruct (g_cons_dot s) as (? & ? & ? & ?). simpl in Hs.
    destruct Hk as [E|[E|[E|[E|[E|[E|E]]]]]]; rewrite E; simpl; rewrite ?parse_digits_lang;
      unfold lang; unfold_tokens; simpl; intuition congruence. }
  destruct (is_digit c) eqn:Ed.
  { assert (token t <= 1 -> False) as Hnd.
    { intros Hle. specialize (Hstop Hle). simpl in Hstop. unfold not_digit in Hstop. bool_prop.
      congruence. }
    assert (c <> 95 /\ c <> 126 /\ c <> 45) as (? & ? & ?) by (unfold is_digit in *; bool_prop; lia).
    destruct (g_cons_other c s) as (? & ? & ?); [done.. |].
    rewrite ?Ed in Hs.
    destruct Hk as [E|[E|[E|[E|[E|[E|E]]]]]]; rewrite E in *; simpl; try (exfalso; lia);
      rewrite ?parse_digits_lang; unfold lang; unfold_tokens; simpl; simpl in Hs;
      unfold not_digit in *; rewrite ?Ed in *; simpl in *;
      destruct (spn_loop _ s) as [[ret d] r]; simpl in *; intuition congruence. }
  rewrite ?Ed in Hs.
  destruct (c =? 95) eqn:E95; bool_prop.
  { subst c. destruct (g_cons_underscore s) as (? & ? & Hdot & Hsuf).
    destruct (spn_loop (fun c => negb (is_lower c)) s) as [[ret v] r]. simpl in Hsuf.
    rewrite <- suffix_value_names in Hsuf. unfold lang. unfold_tokens.
    destruct Hk as [E|[E|[E|[E|[E|[E|E]]]]]]; rewrite E in *; simpl;
      destruct (suffix_value v =? SUFFIX_INVALID) eqn:Ev; bool_prop; simpl; intuition congruence. }
  destruct (c =? 126) eqn:E126; bool_prop.
  { subst c. destruct (g_cons_tilde s) as (? & ? & ? & Hh).
    destruct (spn_loop (fun c => negb (is_hex c)) s) as [[ret v] r]. simpl in Hh.
    unfold lang. unfold_tokens.
    destruct Hk as [E|[E|[E|[E|[E|[E|E]]]]]]; rewrite E in *; simpl; destruct v; simpl;
      intuition congruence. }
  destruct (c =? 45) eqn:E45; bool_prop.
  { subst c. destruct (g_cons_dash s) as (? & ? & Hr).
    assert (g_rev (45 :: s) <-> match s with
      | c :: r => c = 114 /\ (spn_loop not_digit r).1.2 <> [] /\ (spn_loop not_digit r).2 = []
      | [] => False end) as Hr'.
    { rewrite Hr. destruct s as [|c r]; split; [by intros (? & ? & _) | done | |].
      - intros (? & [= -> <-] & ?). done.
      - intros (-> & ?). eauto. }
    clear Hr. unfold lang at 1. unfold_tokens. destruct s as [|c r].
    { destruct Hk as [E|[E|[E|[E|[E|[E|E]]]]]]; rewrite E in *; simpl; unfold lang; unfold_tokens;
        simpl; intuition congruence. }
    destruct (c =? 114) eqn:Ec; bool_prop;
      destruct Hk as [E|[E|[E|[E|[E|[E|E]]]]]]; rewrite E in *; simpl;
      rewrite ?parse_digits_lang; unfold lang; unfold_tokens; simpl; intuition congruence. }
  transitivity False; [| by rewrite lang_invalid]. split; [| done].
  apply lang_cons_other; try done. unfold_tokens. lia.
Qed.

Lemma token_parse_digits_stop t b : stopped not_digit (token_parse_digits t b).2 = true.
Proof.
  rewrite token_parse_digits_spec. destruct (spn_loop not_digit b) as [[ret d] r] eqn:E.
  by apply spn_loop_spec in E as (_ & _ & ? & _).
Qed.

(** After a number, the rest of the input does not start with a digit. *)
Lemma token_next_stop t b :
  token (token_next t b).1 <= TOKEN_DIGIT -> stopped not_digit (token_next t b).2 = true.
Proof.
  unfold token_next. destruct b as [|c b]; [done |].
  repeat case_match; simpl; try (intros _; apply token_parse_digits_stop); unfold_tokens; lia.
Qed.

Lemma validate_loop_spec n t b :
  token_wf t -> enough n t b -> (token t <= TOKEN_DIGIT -> stopped not_digit b = true) ->
  exists k, validate_loop n t b = Some k /\ (k = TOKEN_END <-> lang (token t) b).
Proof.
  revert t b. induction n as [|n IH]; intros t b Hw He Hs; simpl;
    destruct (token t <? TOKEN_END) eqn:E; bool_prop.
  1: by specialize (He E); lia.
  1, 3: exists (token t); split; [done |]; pose proof (wf_token _ Hw); unfold lang; unfold_tokens;
    repeat case_if; bool_prop; try lia.
  pose proof (token_next_lang t b Hw E Hs) as Hl. destruct (enough_next n t b Hw E He) as [Hw' He'].
  pose proof (token_next_stop t b) as Hst. destruct (token_next t b) as [t' b'].
  setoid_rewrite Hl. by apply IH.
Qed.

(** C37: [apk_version_validate] terminates on every string and accepts exactly the
    versions of the documented grammar
    [digit{.digit}...{letter}{_suf{#}}...{~hash}{-r#}]; the NULL blob is not a version. *)
Theorem version_validate_grammar v :
  (exists r, apk_version_validate_opt v = Some r) /\
  (apk_version_validate v = true <-> exists s, v = Some s /\ g_version s).
Proof.
  assert (forall s, g_version s <->
    (spn_loop not_digit s).1.2 <> [] /\ g_dotted (spn_loop not_digit s).2) as Hg.
  { intros s. rewrite <- (span_split not_digit (fun d => d <> []) g_dotted s g_dotted_stop). split.
    - intros [d r Hd Hne Hr]. exists d, r. by rewrite <- all_digits_stop.
    - intros (d & r & -> & Hd & Hne & Hr). constructor; [by apply all_digits_stop | done | done]. }
  destruct v as [s|]; [| split; [by eexists | split; [done | by intros (? & ? & _)]]].
  unfold apk_version_validate, apk_version_validate_opt. simpl bdata.
  destruct (token_first_enough s) as [Hw He].
  pose proof (token_parse_digits_stop (set_token token_garbage TOKEN_INITIAL_DIGIT) s) as Hst.
  pose proof (parse_digits_lang token_garbage TOKEN_INITIAL_DIGIT s) as Hl.
  unfold token_first in *. destruct (token_parse_digits _ s) as [t b]. simpl in *.
  destruct (validate_loop_spec (S (length s)) t b Hw He) as (k & Hk & Hiff); [done |].
  simpl in Hk. rewrite Hk. split; [by eexists |]. simpl. rewrite Z.eqb_eq, Hiff, Hl.
  change (lang TOKEN_INITIAL_DIGIT) with g_dotted. rewrite <- Hg. naive_solver.
Qed.
