(* ===== verification/Digest.v ===== *)
(** * Digests (crypto.c, the digest part of apk_crypto.h, apk_blob_pull_digest of blob.c)

    The hash functions themselves come from the crypto library and are not part of
    the sources; what is modelled here is the bookkeeping around them: algorithm
    names and lengths, [struct apk_digest], and the textual forms [Q1...] and
    [X1...] of a digest. *)

From S2P Require Import Prelude Blob BlobCodec.

Definition APK_DIGEST_NONE : Z := 0x00.
Definition APK_DIGEST_SHA1 : Z := 0x02.
Definition APK_DIGEST_SHA256 : Z := 0x03.
Definition APK_DIGEST_SHA512 : Z := 0x04.
Definition APK_DIGEST_SHA256_160 : Z := 0x05.
Definition APK_DIGEST_LENGTH_SHA256 : nat := 32.
Definition APK_DIGEST_LENGTH_SHA512 : nat := 64.
Definition APK_DIGEST_LENGTH_MAX : nat := APK_DIGEST_LENGTH_SHA512.

(** The array [apk_digest_str]; a hole is a NULL pointer. *)
Definition apk_digest_str : list (option bytes) :=
  [Some (lit "none"); None; Some (lit "sha1"); Some (lit "sha256"); Some (lit "sha512");
   Some (lit "sha256-160")].

Definition apk_digest_alg_str (alg : Z) : option bytes :=
  match apk_digest_str !! Z.to_nat alg with
  | Some s => s
  | None => Some (lit "unknown")
  end.

(** The search loop from entry [alg] on. *)
Fixpoint alg_by_str_loop (tbl : list (option bytes)) (alg : Z) (algstr : bytes) : Z :=
  match tbl with
  | [] => APK_DIGEST_NONE
  | Some s :: tbl' => if bool_decide (s = algstr) then alg else alg_by_str_loop tbl' (alg + 1) algstr
  | None :: tbl' => alg_by_str_loop tbl' (alg + 1) algstr
  end.

Definition apk_digest_alg_by_str (algstr : bytes) : Z := alg_by_str_loop apk_digest_str 0 algstr.

Definition apk_digest_alg_len (alg : Z) : nat :=
  if alg =? APK_DIGEST_SHA1 then 20
  else if alg =? APK_DIGEST_SHA256_160 then 20
  else if alg =? APK_DIGEST_SHA256 then 32
  else if alg =? APK_DIGEST_SHA512 then 64
  else 0.

Definition apk_digest_alg_by_len (len : nat) : Z :=
  if (len =? 20)%nat then APK_DIGEST_SHA1
  else if (len =? 32)%nat then APK_DIGEST_SHA256
  else if (len =? 64)%nat then APK_DIGEST_SHA512
  else APK_DIGEST_NONE.

(** [struct apk_digest]; [d_data] is the array of [APK_DIGEST_LENGTH_MAX] bytes. *)
Record apk_digest := mk_digest { d_alg : Z; d_len : nat; d_data : bytes }.

(** [APK_DIGEST_BLOB]. *)
Definition digest_blob (d : apk_digest) : bytes := take (d_len d) (d_data d).

(** Stores [b] at offset [off] of the data array. *)
Definition digest_store (d : apk_digest) (off : nat) (b : bytes) : apk_digest :=
  mk_digest (d_alg d) (d_len d) (take off (d_data d) ++ b ++ drop (off + length b) (d_data d)).

Definition apk_digest_reset (d : apk_digest) : apk_digest := mk_digest APK_DIGEST_NONE 0 (d_data d).

Definition apk_digest_set (d : apk_digest) (alg : Z) : apk_digest :=
  mk_digest alg (apk_digest_alg_len alg) (d_data d).

Definition apk_digest_cmp (a b : apk_digest) : Z :=
  if negb (d_alg a =? d_alg b) then d_alg b - d_alg a
  else memcmp (take (d_len a) (d_data a)) (take (d_len a) (d_data b)).

Definition apk_digest_cmp_blob (d : apk_digest) (alg : Z) (b : bytes) : Z :=
  if negb (d_alg d =? alg) then alg - d_alg d else apk_blob_compare (digest_blob d) b.

Definition apk_digest_from_blob (d : apk_digest) (b : bytes) : apk_digest :=
  let alg := apk_digest_alg_by_len (length b) in
  if negb (alg =? APK_DIGEST_NONE)
  then digest_store (mk_digest alg (length b) (d_data d)) 0 b
  else mk_digest alg 0 (d_data d).

Definition apk_digest_push (to : pushbuf) (d : apk_digest) : pushbuf :=
  apk_blob_push_hash to (digest_blob d).
Definition apk_digest_push_hex (to : pushbuf) (d : apk_digest) : pushbuf :=
  apk_blob_push_hash_hex to (digest_blob d).

(** One [pull] into the data array at [off]. *)
Definition pull_into (pull : blob -> bytes -> outcome (blob * bytes)) (b : blob) (d : apk_digest)
    (off len : nat) : outcome (blob * apk_digest) :=
  let! (b', dst) := pull b (take len (drop off (d_data d))) in
  Ok (b', digest_store d off dst).

(** The second half of a digest that was announced as SHA1 but is followed by the
    [extra] characters a SHA256 has more. *)
Definition pull_extension (pull : blob -> bytes -> outcome (blob * bytes)) (extra : nat)
    (decode : Z -> Z) (b : blob) (d : apk_digest) : outcome (blob * apk_digest) :=
  if (d_alg d =? APK_DIGEST_SHA1) && (length (bdata b) =? extra)%nat
     && negb (decode (nth 0 (bdata b) 0) =? 0xff)
  then pull_into pull b (apk_digest_set d APK_DIGEST_SHA256) APK_DIGEST_LENGTH_SHA1
         (APK_DIGEST_LENGTH_SHA256 - APK_DIGEST_LENGTH_SHA1)
  else Ok (b, d).

Definition apk_blob_pull_digest (b : blob) (d : apk_digest) : outcome (blob * apk_digest) :=
  match b with
  | Some (encoding :: kind :: rest) =>
      let fail d := Ok (None, apk_digest_reset d) in
      if negb ((kind =? chr "1") || (kind =? chr "2")) then fail d
      else
        let d := apk_digest_set d (if kind =? chr "1" then APK_DIGEST_SHA1 else APK_DIGEST_SHA256) in
        if encoding =? chr "X" then
          let! (b1, d1) := pull_into apk_blob_pull_hexdump (Some rest) d 0 (d_len d) in
          pull_extension apk_blob_pull_hexdump 24 dx b1 d1
        else if encoding =? chr "Q" then
          let! (b1, d1) := pull_into apk_blob_pull_base64 (Some rest) d 0 (d_len d) in
          pull_extension apk_blob_pull_base64 16 b64d b1 d1
        else fail d
  | _ => Ok (None, apk_digest_reset d)
  end.

(** ** Theorems *)

(** Algorithm names and digest lengths are inverted by their lookups. *)
Theorem digest_alg_roundtrip alg :
  alg ∈ [APK_DIGEST_SHA1; APK_DIGEST_SHA256; APK_DIGEST_SHA512; APK_DIGEST_SHA256_160] ->
  apk_digest_alg_by_str <$> apk_digest_alg_str alg = Some alg /\
  (alg <> APK_DIGEST_SHA256_160 -> apk_digest_alg_by_len (apk_digest_alg_len alg) = alg).
Proof.
  intros H. repeat (apply elem_of_cons in H as [->|H]; [by vm_compute |]).
  by apply elem_of_nil in H.
Qed.

Lemma digest_alg_roundtrip_witness : apk_digest_alg_by_str <$> apk_digest_alg_str APK_DIGEST_SHA256 = Some APK_DIGEST_SHA256.
Proof. apply (digest_alg_roundtrip APK_DIGEST_SHA256). right; left. Defined.

Lemma digest_store_blob d alg (b : bytes) :
  length b = apk_digest_alg_len alg ->
  digest_blob (digest_store (apk_digest_set d alg) 0 b) = b.
Proof.
  intros Hl. unfold digest_blob, digest_store, apk_digest_set. simpl.
  by rewrite <- Hl, take_app_length.
Qed.

(** What follows a digest must not look like the rest of a longer one. *)
Definition not_extension (extra : nat) (decode : Z -> Z) (k : bytes) : Prop :=
  length k <> extra \/ decode (nth 0 k 0) = 0xff.

Lemma pull_extension_none pull extra decode k d :
  not_extension extra decode k -> pull_extension pull extra decode (Some k) d = Ok (Some k, d).
Proof.
  intros H. unfold pull_extension. simpl bdata. case_if; [| done]. exfalso.
  bool_prop. destruct H; congruence.
Qed.

Lemma length_data_window d :
  length (d_data d) = APK_DIGEST_LENGTH_MAX ->
  length (take 20 (drop 0 (d_data d))) = 20%nat.
Proof. intros H. rewrite drop_0, length_take, H. done. Qed.

(** The text of a SHA1 digest. *)
Definition hash_text (hash : bytes) : bytes := lit "Q1" ++ push_b64_groups hash.

Lemma push_base64_text to bin :
  apk_blob_push_base64 to bin = apk_blob_push_blob to (push_b64_groups bin).
Proof.
  destruct to as [[w n]|]; [| done]. unfold apk_blob_push_base64, apk_blob_push_blob.
  by rewrite push_b64_groups_length.
Qed.

Lemma push_hash_text to hash :
  length hash = APK_DIGEST_LENGTH_SHA1 ->
  apk_blob_push_hash to hash = apk_blob_push_blob to (hash_text hash).
Proof.
  intros Hl. unfold apk_blob_push_hash, hash_text. rewrite Hl.
  rewrite push_base64_text. apply push_blob_push_blob.
Qed.

Lemma length_hash_text hash :
  length hash = APK_DIGEST_LENGTH_SHA1 -> length (hash_text hash) = 30%nat.
Proof. intros Hl. unfold hash_text. rewrite length_app, push_b64_groups_length, Hl. done. Qed.

Lemma pull_hash_text hash k d :
  Forall byte_ok hash -> length hash = APK_DIGEST_LENGTH_SHA1 ->
  length (d_data d) = APK_DIGEST_LENGTH_MAX -> not_extension 16 b64d k ->
  exists d', apk_blob_pull_digest (Some (hash_text hash ++ k)) d = Ok (Some k, d') /\
    d_alg d' = APK_DIGEST_SHA1 /\ digest_blob d' = hash.
Proof.
  intros Hb Hl Hd Hk.
  exists (digest_store (apk_digest_set d APK_DIGEST_SHA1) 0 hash).
  split_and!; [| done | by apply digest_store_blob].
  simpl. unfold pull_into.
  change (take 20 (d_data d)) with (take 20 (drop 0 (d_data d))).
  rewrite pull_push_base64; [| done |].
  - simpl. by apply pull_extension_none.
  - rewrite length_data_window by done. by rewrite Hl.
Qed.

(** The identity of a package survives being written to an index: pushing a
    SHA1 digest in its base64 form and pulling it back yields the same digest and
    leaves the text that followed. *)
Theorem push_pull_hash w n hash k d :
  Forall byte_ok hash -> length hash = APK_DIGEST_LENGTH_SHA1 -> (30 <= n)%nat ->
  length (d_data d) = APK_DIGEST_LENGTH_MAX -> not_extension 16 b64d k ->
  exists txt d', apk_blob_push_hash (Some (w, n)) hash = Some (w ++ txt, n - 30)%nat /\
    apk_blob_pull_digest (Some (txt ++ k)) d = Ok (Some k, d') /\
    d_alg d' = APK_DIGEST_SHA1 /\ digest_blob d' = hash.
Proof.
  intros Hb Hl Hn Hd Hk. destruct (pull_hash_text hash k d Hb Hl Hd Hk) as (d' & Hp & Ha & Hh).
  exists (hash_text hash), d'. rewrite push_hash_text by done.
  rewrite push_blob_room; rewrite length_hash_text by done; [done | lia].
Qed.

Lemma push_pull_hash_witness :
  exists txt d', apk_blob_push_hash (Some ([], 64%nat)) (replicate 20 171) = Some ([] ++ txt, 34)%nat /\
    apk_blob_pull_digest (Some (txt ++ [10])) (mk_digest 0 0 (replicate 64 0)) = Ok (Some [10], d') /\
    d_alg d' = APK_DIGEST_SHA1 /\ digest_blob d' = replicate 20 171.
Proof.
  apply (push_pull_hash [] 64 (replicate 20 171) [10] (mk_digest 0 0 (replicate 64 0)));
    [simpl; bytes_ok | done | lia | done | left; done].
Defined.
