(* ===== verification/Hash.v ===== *)
(** * Hash tables and atoms (hash.c, apk_hash.h, atom.c)

    [HashOps] is [struct apk_hash_ops]: how items are hashed and compared with a
    key.  A table is its array of buckets; the newest item of a bucket comes first
    ([hlist_add_head]).  What other components rely on is the class [KeyedTable],
    which [apk_hash] implements; the atom pool is proved against the class. *)

From S2P Require Import Prelude Blob.

(** ** The table *)

Class HashOps (V : Type) := {
  (** The key of an item.  A table with [compare_item] and [hash_item] leaves the pointer unset: there it is
      the key these two functions stand for. *)
  get_key : V -> bytes;
  hash_key : bytes -> Z;
  hash_item : option (V -> Z);
  compare : option (bytes -> bytes -> Z);
  compare_item : option (V -> bytes -> Z);
  (** Whether [delete_item] is set. *)
  delete_item : bool;
}.

(** [compare_item (item, key) == 0] where it is set, else [compare (key, get_key (item)) == 0]. *)
Definition item_matches {V : Type} `{HashOps V} (item : V) (key : bytes) : bool :=
  match compare_item with
  | Some compare_item => compare_item item key =? 0
  | None => match compare with Some compare => compare key (get_key item) =? 0 | None => false end
  end.

(** [assert (h->ops->compare_item != NULL)] of [apk_hash_delete_hashed]: only tables with such operations can
    be deleted from. *)
Class ItemCompared (V : Type) `{HashOps V} : Prop := compare_item_set : is_Some (compare_item (V := V)).

Class HashOpsLaws (V : Type) `{HashOps V} : Prop := {
  hash_key_nonneg : forall k, 0 <= hash_key k;
  hash_item_spec : forall f v, hash_item = Some f -> f v = hash_key (get_key v);
  item_matches_spec : forall v k, item_matches v k = true <-> get_key v = k;
}.

Record apk_hash (V : Type) := mk_hash { buckets : list (list V); num_items : Z }.
Arguments mk_hash {V} buckets num_items.
Arguments buckets {V} h : rename.
Arguments num_items {V} h : rename.

Section Table.
Context {V : Type} `{HashOps V}.
Implicit Types (h : apk_hash V) (v : V) (k : bytes).

Definition apk_hash_init (num_buckets : Z) : apk_hash V :=
  mk_hash (replicate (Z.to_nat num_buckets) []) 0.

(** [hash %= apk_array_len (h->buckets)]. *)
Definition bucket_index h (hash : Z) : nat := Z.to_nat (hash mod Z.of_nat (length (buckets h))).

Definition bucket h (hash : Z) : list V := default [] (buckets h !! bucket_index h hash).

Fixpoint bucket_find k (l : list V) : option V :=
  match l with
  | [] => None
  | item :: l' => if item_matches item k then Some item else bucket_find k l'
  end.

Definition apk_hash_get_hashed h k (hash : Z) : option V := bucket_find k (bucket h hash).

Definition apk_hash_insert_hashed h v (hash : Z) : apk_hash V :=
  mk_hash (<[bucket_index h hash := v :: bucket h hash]> (buckets h)) (s32 (num_items h + 1)).

Fixpoint bucket_remove k (l : list V) : option (V * list V) :=
  match l with
  | [] => None
  | item :: l' =>
      if item_matches item k then Some (item, l') else prod_map id (cons item) <$> bucket_remove k l'
  end.

(** The table, and the item that [delete_item] is called with. *)
Definition apk_hash_delete_hashed `{!ItemCompared V} h k (hash : Z) : apk_hash V * option V :=
  match bucket_remove k (bucket h hash) with
  | Some (item, l) =>
      (mk_hash (<[bucket_index h hash := l]> (buckets h)) (s32 (num_items h - 1)), if delete_item (V := V) then Some item else None)
  | None => (h, None)
  end.

Definition apk_hash_from_key h k : Z := hash_key k.
Definition apk_hash_from_item h v : Z :=
  match hash_item with
  | Some hash_item => hash_item v
  | None => apk_hash_from_key h (get_key v)
  end.
Definition apk_hash_get h k : option V := apk_hash_get_hashed h k (apk_hash_from_key h k).
Definition apk_hash_insert h v : apk_hash V :=
  apk_hash_insert_hashed h v (apk_hash_from_item h v).
Definition apk_hash_delete `{!ItemCompared V} h k : apk_hash V * option V :=
  apk_hash_delete_hashed h k (apk_hash_from_key h k).

(** [apk_hash_foreach]: calls [e] on every item, bucket by bucket, until it returns
    a non-zero value; [S] is the state the callback updates. *)
Fixpoint foreach_items {S : Type} (e : V -> S -> Z * S) (l : list V) (s : S) : Z * S :=
  match l with
  | [] => (0, s)
  | v :: l' => let '(r, s') := e v s in if negb (r =? 0) then (r, s') else foreach_items e l' s'
  end.

Definition apk_hash_foreach {S : Type} h (e : V -> S -> Z * S) (s : S) : Z * S :=
  foreach_items e (concat (buckets h)) s.

(** The items that [delete_item] is called with, in their order. *)
Definition apk_hash_free h : list V :=
  if delete_item (V := V) then snd (apk_hash_foreach h (fun item freed => (0, freed ++ [item])) []) else [].
End Table.

(** ** The items of a table *)

Section Items.
Context {V : Type} `{HashOps V}.
Implicit Types (h : apk_hash V) (v : V) (k : bytes).

Lemma elem_of_concat (bs : list (list V)) v : v ∈ concat bs <-> exists l, l ∈ bs /\ v ∈ l.
Proof.
  induction bs as [|l bs IH]; simpl; [split; [by intros ?%elem_of_nil | by intros (l & ?%elem_of_nil & _)] |].
  rewrite elem_of_app, IH. split; [intros [?|(l' & ? & ?)]; eauto using list_elem_of_here, list_elem_of_further |].
  intros (l' & [->|?]%elem_of_cons & ?); eauto.
Qed.

Lemma bucket_elem h hash v : v ∈ bucket h hash -> v ∈ concat (buckets h).
Proof.
  unfold bucket. destruct (buckets h !! _) as [l|] eqn:E; [| by intros ?%elem_of_nil]. intros Hv. apply elem_of_concat.
  exists l. split; [by eapply list_elem_of_lookup_2 | done].
Qed.

Lemma set_bucket_elem (bs : list (list V)) i l v : v ∈ concat (<[i := l]> bs) -> v ∈ l \/ v ∈ concat bs.
Proof.
  rewrite !elem_of_concat. intros (l' & [j Hj]%list_elem_of_lookup & Hv).
  apply list_lookup_insert_Some in Hj as [(_ & -> & _)|[_ Hj]]; [by left | right]. exists l'. split; [by eapply list_elem_of_lookup_2 | done].
Qed.

Lemma get_hashed_elem h k hash v : apk_hash_get_hashed h k hash = Some v -> v ∈ concat (buckets h).
Proof.
  unfold apk_hash_get_hashed. intros Hf. apply (bucket_elem h hash). revert Hf. generalize (bucket h hash) as l.
  induction l as [|w l IH]; simpl; [done |]. destruct (item_matches w k); [intros [= ->]; by left | intros ?; right; auto].
Qed.

Lemma insert_hashed_elem h v hash w : w ∈ concat (buckets (apk_hash_insert_hashed h v hash)) -> w = v \/ w ∈ concat (buckets h).
Proof. intros [[->|Hw%bucket_elem]%elem_of_cons|Hw]%set_bucket_elem; eauto. Qed.

Lemma delete_hashed_elem `{!ItemCompared V} h k hash w :
  w ∈ concat (buckets (apk_hash_delete_hashed h k hash).1) -> w ∈ concat (buckets h).
Proof.
  unfold apk_hash_delete_hashed. destruct (bucket_remove k (bucket h hash)) as [[item l]|] eqn:E; [| done].
  intros [Hw|Hw]%set_bucket_elem; [| done]. apply (bucket_elem h hash). revert item l E Hw. generalize (bucket h hash) as b.
  induction b as [|x b IH]; simpl; [done |]. intros item l. destruct (item_matches x k); [intros [= _ <-] Hw; by right |].
  destruct (bucket_remove k b) as [[y r]|] eqn:E; [| done]. simpl. intros [= _ <-] [->|Hw]%elem_of_cons; [by left | right; by apply (IH y r)].
Qed.
End Items.

(** ** The table as a finite map of stacks *)

Section TableFacts.
Context {V : Type} `{HashOpsLaws V}.
Implicit Types (h : apk_hash V) (v : V) (k : bytes).

(** Every item is in the bucket of its hash, and the counter, an [int], counts the items. *)
Record hash_wf (h : apk_hash V) : Prop := {
  wf_buckets : (0 < length (buckets h))%nat;
  wf_placed : forall i l v, buckets h !! i = Some l -> v ∈ l ->
    i = bucket_index h (hash_key (get_key v));
  wf_count : num_items h = s32 (Z.of_nat (length (concat (buckets h))));
}.

(** The items under a key, newest first. *)
Definition items_of h k : list V := filter (fun v => get_key v = k) (concat (buckets h)).

Lemma bucket_index_lt h hash :
  (0 < length (buckets h))%nat -> (bucket_index h hash < length (buckets h))%nat.
Proof.
  intros Hl. unfold bucket_index.
  pose proof (Z.mod_pos_bound hash (Z.of_nat (length (buckets h)))). lia.
Qed.

Lemma bucket_lookup h hash :
  (0 < length (buckets h))%nat -> buckets h !! bucket_index h hash = Some (bucket h hash).
Proof.
  intros Hl. unfold bucket. destruct (lookup_lt_is_Some_2 (buckets h) (bucket_index h hash)) as [l E].
  - by apply bucket_index_lt.
  - by rewrite E.
Qed.

(** All items under a key are in one bucket. *)
Lemma items_of_bucket h k :
  hash_wf h -> items_of h k = filter (fun v => get_key v = k) (bucket h (hash_key k)).
Proof.
  intros [Hn Hp _]. unfold items_of. pose proof (bucket_lookup h (hash_key k) Hn) as Hb.
  apply take_drop_middle in Hb. rewrite <- Hb at 1. rewrite concat_app, filter_app. simpl.
  rewrite filter_app.
  assert (forall bs, (forall l, l ∈ bs -> exists i, buckets h !! i = Some l
    /\ i <> bucket_index h (hash_key k)) -> filter (fun v => get_key v = k) (concat bs) = []) as Hno.
  { intros bs Hbs. induction bs as [|l bs IH]; [done |]. simpl. rewrite filter_app, IH.
    - rewrite app_nil_r. destruct (Hbs l) as (i & Hi & Hne); [set_solver |].
      destruct (filter _ l) as [|v r] eqn:E; [done |]. exfalso. apply Hne.
      assert (v ∈ filter (fun v => get_key v = k) l) as Hv by (rewrite E; set_solver).
      apply list_elem_of_filter in Hv as [<- Hv]. by apply (Hp i l v).
    - set_solver. }
  rewrite (Hno (take _ _)), (Hno (drop _ _)), app_nil_r; [done | |].
  - intros l Hl. apply list_elem_of_lookup in Hl as [j Hj]. rewrite lookup_drop in Hj.
    eexists. split; [done |]. lia.
  - intros l Hl. apply list_elem_of_lookup in Hl as [j Hj]. apply lookup_take_Some in Hj as [Hj ?].
    eexists. split; [done |]. lia.
Qed.

Lemma bucket_find_filter k l : bucket_find k l = head (filter (fun v => get_key v = k) l).
Proof.
  induction l as [|v l IH]; [done |]. simpl. rewrite filter_cons.
  destruct (item_matches v k) eqn:E.
  - apply item_matches_spec in E. by rewrite decide_True by done.
  - rewrite decide_False; [done |]. intros Hk. apply item_matches_spec in Hk. congruence.
Qed.

Lemma apk_hash_get_items h k : hash_wf h -> apk_hash_get h k = head (items_of h k).
Proof.
  intros Hw. rewrite items_of_bucket by done. apply bucket_find_filter.
Qed.

Lemma length_concat_insert (bs : list (list V)) i l l' :
  bs !! i = Some l ->
  (length (concat (<[i := l']> bs)) + length l = length (concat bs) + length l')%nat.
Proof.
  revert i. induction bs as [|b bs IH]; intros [|i] Hi; simplify_eq/=; rewrite ?length_app; [lia |].
  specialize (IH i Hi). lia.
Qed.

(** Replacing the bucket of [k0] by [l], which holds only items of that bucket. *)
Definition with_bucket h (hash : Z) (l : list V) (n : Z) : apk_hash V :=
  mk_hash (<[bucket_index h hash := l]> (buckets h)) n.

Lemma with_bucket_index h hash l n x : bucket_index (with_bucket h hash l n) x = bucket_index h x.
Proof. unfold bucket_index, with_bucket. simpl. by rewrite length_insert. Qed.

Lemma with_bucket_wf h hash l n :
  hash_wf h ->
  (forall v, v ∈ l -> bucket_index h (hash_key (get_key v)) = bucket_index h hash) ->
  n = s32 (num_items h + (Z.of_nat (length l) - Z.of_nat (length (bucket h hash)))) ->
  hash_wf (with_bucket h hash l n).
Proof.
  intros [Hn Hp Hc] Hl Hnum. split.
  - simpl. by rewrite length_insert.
  - intros i l' v Hi Hv. rewrite with_bucket_index. simpl in Hi.
    apply list_lookup_insert_Some in Hi as [(<- & <- & _)|[Hne Hi]]; [by symmetry; apply Hl |].
    by apply (Hp i l').
  - simpl. pose proof (length_concat_insert _ _ _ l (bucket_lookup h hash Hn)) as Hlen. rewrite Hnum, Hc, s32_add. f_equal. lia.
Qed.

Lemma with_bucket_items h k0 l n k :
  hash_wf h -> hash_wf (with_bucket h (hash_key k0) l n) ->
  (k <> k0 -> filter (fun v => get_key v = k) l
              = filter (fun v => get_key v = k) (bucket h (hash_key k0))) ->
  items_of (with_bucket h (hash_key k0) l n) k =
  if decide (k = k0) then filter (fun v => get_key v = k) l else items_of h k.
Proof.
  intros Hw Hw' Hf. rewrite !items_of_bucket by done.
  assert (bucket (with_bucket h (hash_key k0) l n) (hash_key k) =
    if decide (bucket_index h (hash_key k) = bucket_index h (hash_key k0)) then l
    else bucket h (hash_key k)) as ->.
  { unfold bucket. rewrite with_bucket_index. simpl. case_decide as E.
    - rewrite E, list_lookup_insert_eq by (apply bucket_index_lt, Hw). done.
    - by rewrite list_lookup_insert_ne by done. }
  destruct (decide (k = k0)) as [->|Hne]; [by rewrite decide_True by done |].
  case_decide as E; [| done]. rewrite Hf by done. unfold bucket. by rewrite E.
Qed.

Lemma insert_with_bucket h v :
  apk_hash_insert h v =
  with_bucket h (hash_key (get_key v)) (v :: bucket h (hash_key (get_key v))) (s32 (num_items h + 1)).
Proof.
  unfold apk_hash_insert, apk_hash_from_item. destruct hash_item as [f|] eqn:E; [| done]. by rewrite (hash_item_spec f v E).
Qed.

Lemma bucket_members h hash v :
  hash_wf h -> v ∈ bucket h hash -> bucket_index h (hash_key (get_key v)) = bucket_index h hash.
Proof.
  intros Hw Hv. symmetry. eapply (wf_placed h Hw); [| done]. apply bucket_lookup, Hw.
Qed.

Lemma apk_hash_insert_wf h v : hash_wf h -> hash_wf (apk_hash_insert h v).
Proof.
  intros Hw. rewrite insert_with_bucket. apply with_bucket_wf; [done | | f_equal; simpl; lia].
  intros v' [->|Hv]%elem_of_cons; [done |]. by apply bucket_members.
Qed.

Lemma apk_hash_insert_items h v k :
  hash_wf h ->
  items_of (apk_hash_insert h v) k =
  if decide (k = get_key v) then v :: items_of h k else items_of h k.
Proof.
  intros Hw. pose proof (apk_hash_insert_wf h v Hw) as Hw'. rewrite insert_with_bucket in *.
  rewrite with_bucket_items; [| done | done |].
  - case_decide; [| done]. subst. rewrite filter_cons, decide_True by done.
    by rewrite items_of_bucket.
  - intros Hne. rewrite filter_cons, decide_False by done. done.
Qed.

Lemma bucket_remove_spec k l :
  match bucket_remove k l with
  | None => filter (fun v => get_key v = k) l = []
  | Some (item, l') => (forall v, v ∈ l' -> v ∈ l) /\ length l = S (length l')
      /\ filter (fun v => get_key v = k) l = item :: filter (fun v => get_key v = k) l'
      /\ forall k', k' <> k -> filter (fun v => get_key v = k') l' = filter (fun v => get_key v = k') l
  end.
Proof.
  induction l as [|v l IH]; simpl; [done |]. destruct (item_matches v k) eqn:E.
  - apply item_matches_spec in E. split_and!; [set_solver | done | |].
    + by rewrite filter_cons, decide_True by done.
    + intros k' Hne. rewrite filter_cons, decide_False by congruence. done.
  - assert (get_key v <> k) as Hk by (intros ?%item_matches_spec; congruence).
    destruct (bucket_remove k l) as [[item l']|]; simpl.
    + destruct IH as (H1 & H2 & H3 & H4). split_and!; [set_solver | lia | |].
      * by rewrite !filter_cons, !decide_False by done.
      * intros k' Hne. rewrite !filter_cons. case_decide; [f_equal |]; by apply H4.
    + by rewrite filter_cons, decide_False by done.
Qed.

Lemma apk_hash_delete_spec `{!ItemCompared V} h k :
  hash_wf h -> hash_wf (apk_hash_delete h k).1 /\
  (apk_hash_delete h k).2 = (if delete_item (V := V) then head (items_of h k) else None) /\
  forall k', items_of (apk_hash_delete h k).1 k' =
    if decide (k' = k) then tail (items_of h k') else items_of h k'.
Proof.
  intros Hw. unfold apk_hash_delete, apk_hash_delete_hashed, apk_hash_from_key.
  pose proof (bucket_remove_spec k (bucket h (hash_key k))) as Hr. rewrite (items_of_bucket h k) by done.
  destruct (bucket_remove k _) as [[item l]|]; cbn [fst snd].
  - destruct Hr as (H1 & H2 & H3 & H4).
    assert (hash_wf (with_bucket h (hash_key k) l (s32 (num_items h - 1)))) as Hw'.
    { apply with_bucket_wf; [done | | f_equal; lia]. intros v Hv. apply bucket_members; auto. }
    split_and!; [done | by rewrite H3 |]. intros k'.
    etransitivity; [apply (with_bucket_items h k l (s32 (num_items h - 1)) k' Hw Hw'); by auto |].
    case_decide; [| done]. subst. rewrite (items_of_bucket h) by done. by rewrite H3.
  - split_and!; [done | rewrite Hr; by case_match |]. intros k'. case_decide; [| done]. subst.
    rewrite items_of_bucket by done. by rewrite Hr.
Qed.

Lemma apk_hash_init_wf n : 0 < n -> hash_wf (apk_hash_init n).
Proof.
  intros Hn. split; simpl.
  - rewrite length_replicate. lia.
  - intros i l v [-> _]%lookup_replicate Hv. set_solver.
  - generalize (Z.to_nat n) as m. induction m as [|m IH]; simpl; [done | exact IH].
Qed.

Lemma apk_hash_init_items n k : items_of (apk_hash_init n) k = [].
Proof. unfold items_of. simpl. generalize (Z.to_nat n) as m. induction m; simpl; done. Qed.

Lemma foreach_collect (l acc : list V) : foreach_items (fun item freed => (0, freed ++ [item])) l acc = (0, acc ++ l).
Proof.
  revert acc. induction l as [|v l IH]; intros acc; simpl; [by rewrite app_nil_r |]. by rewrite IH, <- app_assoc.
Qed.

(** C40: a hash table behaves as a map from keys to stacks of items.  On every
    well-formed table lookup and insertion keep it well formed (each item in the
    bucket of its hash, the item counter exact as an [int]); lookup returns the newest item of
    the key and insertion pushes onto the stack of its key.  Where the operations have
    [compare_item], as deletion asserts, deletion pops the stack of its key and gives the item that
    was removed, and no other, to [delete_item].  No other key is affected, and freeing the table gives
    every item to [delete_item]. *)
Theorem hash_refines_stacks h v k k' :
  hash_wf h ->
  apk_hash_get h k = head (items_of h k) /\
  hash_wf (apk_hash_insert h v) /\
  items_of (apk_hash_insert h v) k
    = (if decide (k = get_key v) then v :: items_of h k else items_of h k) /\
  (forall IC : ItemCompared V,
    hash_wf (apk_hash_delete h k).1 /\
    (apk_hash_delete h k).2 = (if delete_item (V := V) then head (items_of h k) else None) /\
    items_of (apk_hash_delete h k).1 k'
      = (if decide (k' = k) then tail (items_of h k') else items_of h k')) /\
  (delete_item (V := V) = true -> apk_hash_free h = concat (buckets h)).
Proof.
  intros Hw. split_and!; auto using apk_hash_get_items, apk_hash_insert_wf, apk_hash_insert_items.
  - intros Hc. by destruct (apk_hash_delete_spec h k Hw) as (? & ? & ?).
  - intros Hd. unfold apk_hash_free, apk_hash_foreach. by rewrite Hd, foreach_collect.
Qed.
End TableFacts.

(** ** The interface other components use *)

(** A table of items found by their key, as the atom pool and the name table of the
    database use it. *)
Class KeyedTable (T V : Type) := {
  kt_key : V -> bytes;
  kt_inv : T -> Prop;
  kt_get : T -> bytes -> option V;
  kt_insert : T -> V -> T;
  kt_insert_inv : forall t v, kt_inv t -> kt_inv (kt_insert t v);
  kt_get_insert : forall t v k, kt_inv t ->
    kt_get (kt_insert t v) k = if decide (k = kt_key v) then Some v else kt_get t k;
  kt_get_key : forall t k v, kt_inv t -> kt_get t k = Some v -> kt_key v = k;
}.

#[global] Program Instance hash_keyed_table {V} `{HashOpsLaws V} : KeyedTable (apk_hash V) V := {|
  kt_key := get_key;
  kt_inv := hash_wf;
  kt_get := apk_hash_get;
  kt_insert := apk_hash_insert;
|}.
Next Obligation. intros. by apply apk_hash_insert_wf. Qed.
Next Obligation.
  intros V H0 H1 t v k Hw. simpl. rewrite !apk_hash_get_items by auto using apk_hash_insert_wf.
  rewrite apk_hash_insert_items by done. by case_decide.
Qed.
Next Obligation.
  intros V H0 H1 t k v Hw. rewrite apk_hash_get_items by done. intros Hh.
  assert (v ∈ items_of t k) as Hv by (destruct (items_of t k); simplify_eq/=; set_solver).
  by apply list_elem_of_filter in Hv as [? _].
Qed.

Lemma apk_hash_get_insert {V} `{HashOpsLaws V} (h : apk_hash V) v k :
  hash_wf h -> apk_hash_get (apk_hash_insert h v) k = if decide (k = get_key v) then Some v else apk_hash_get h k.
Proof. apply (kt_get_insert (KeyedTable := hash_keyed_table)). Qed.

(** ** Atoms *)

(** An interned string: its storage address and its bytes. *)
Record atom := mk_atom { atom_addr : nat; atom_blob : bytes }.

(** [apk_atom_null], at an address of its own. *)
Definition apk_atom_null : atom := mk_atom 0 [].

#[global] Instance atom_ops : HashOps atom := {|
  get_key := atom_blob;
  hash_key := apk_blob_hash;
  hash_item := None;
  compare := Some apk_blob_compare;
  compare_item := None;
  delete_item := false;
|}.

#[global] Instance atom_ops_laws : HashOpsLaws atom.
Proof.
  split.
  - intros k. apply apk_blob_hash_range.
  - done.
  - intros v k. unfold item_matches. simpl. rewrite Z.eqb_eq, apk_blob_compare_eq0. naive_solver.
Qed.

Section Atoms.
Context {T : Type} `{!KeyedTable T atom}.

(** [struct apk_atom_pool]: the table and the next free address of the allocator. *)
Record apk_atom_pool := mk_pool { pool_hash : T; pool_next : nat }.

Definition apk_atomize_dup (atoms : apk_atom_pool) (b : blob) : apk_atom_pool * atom :=
  match b with
  | None | Some [] => (atoms, apk_atom_null)
  | Some s =>
      match kt_get (pool_hash atoms) s with
      | Some a => (atoms, a)
      | None =>
          let a := mk_atom (pool_next atoms) s in
          (mk_pool (kt_insert (pool_hash atoms) a) (S (pool_next atoms)), a)
      end
  end.

(** Any number of further strings interned. *)
Definition atomize_all (atoms : apk_atom_pool) (bs : list blob) : apk_atom_pool :=
  foldl (fun p b => fst (apk_atomize_dup p b)) atoms bs.

(** Atoms are found by their bytes, and no two share an address. *)
Record pool_ok (p : apk_atom_pool) : Prop := {
  pool_inv : kt_inv (pool_hash p);
  pool_next_pos : (0 < pool_next p)%nat;
  pool_addr : forall k a, kt_get (pool_hash p) k = Some a ->
    atom_blob a = k /\ (0 < atom_addr a < pool_next p)%nat;
  pool_inj : forall k k' a a', kt_get (pool_hash p) k = Some a -> kt_get (pool_hash p) k' = Some a' ->
    atom_addr a = atom_addr a' -> a = a';
}.

Hypothesis kt_key_atom : forall a, kt_key a = atom_blob a.

(** Where a string is found once it was interned; the empty string is [apk_atom_null]. *)
Definition interned (p : apk_atom_pool) (a : atom) : Prop :=
  if decide (atom_blob a = []) then a = apk_atom_null
  else kt_get (pool_hash p) (atom_blob a) = Some a.

Lemma atomize_spec p b :
  pool_ok p ->
  pool_ok (apk_atomize_dup p b).1 /\
  atom_blob (apk_atomize_dup p b).2 = bdata b /\
  interned (apk_atomize_dup p b).1 (apk_atomize_dup p b).2 /\
  forall a, interned p a -> interned (apk_atomize_dup p b).1 a.
Proof.
  intros [Hinv Hpos Haddr Hinj]. destruct b as [[|c s]|]; try (by split_and!).
  set (k := c :: s). simpl. fold k. destruct (kt_get (pool_hash p) k) as [a|] eqn:E; simpl.
  { destruct (Haddr _ _ E) as [Hb _]. split_and!; try done.
    unfold interned. by rewrite Hb, decide_False. }
  set (a0 := mk_atom (pool_next p) k).
  assert (forall k', kt_get (kt_insert (pool_hash p) a0) k' =
    if decide (k' = k) then Some a0 else kt_get (pool_hash p) k') as Hget.
  { intros k'. rewrite kt_get_insert by done. by rewrite kt_key_atom. }
  split_and!; [| done | |].
  - split; simpl; [by apply kt_insert_inv | lia | |].
    + intros k' a. rewrite Hget. case_decide as Hk; [| intros [? ?]%Haddr; split; [done | lia]].
      intros [= <-]. simpl. split; [done | lia].
    + intros k1 k2 a1 a2. rewrite !Hget. repeat case_decide; subst.
      * congruence.
      * intros [= <-] [_ Ha]%Haddr. simpl. lia.
      * intros [_ Ha]%Haddr [= <-]. simpl. lia.
      * by apply Hinj.
  - unfold interned. simpl. rewrite Hget, decide_True by done. done.
  - intros a. unfold interned. case_decide as Hb; [done |]. simpl. rewrite Hget.
    case_decide as Hk; [| done]. rewrite Hk. congruence.
Qed.

Lemma atomize_all_spec bs p :
  pool_ok p -> pool_ok (atomize_all p bs) /\ forall a, interned p a -> interned (atomize_all p bs) a.
Proof.
  revert p. induction bs as [|b bs IH]; intros p Hp; [done |]. simpl.
  destruct (atomize_spec p b Hp) as (Hp' & _ & _ & Hi).
  destruct (IH _ Hp') as [H1 H2]. split; [done |]. auto.
Qed.

Lemma interned_addr p a1 a2 :
  pool_ok p -> interned p a1 -> interned p a2 ->
  atom_addr a1 = atom_addr a2 <-> atom_blob a1 = atom_blob a2.
Proof.
  intros Hp. unfold interned. repeat case_decide; intros H1 H2; subst.
  - done.
  - apply (pool_addr p Hp) in H2 as [_ Ha]. split; simpl in *; [lia | congruence].
  - apply (pool_addr p Hp) in H1 as [_ Ha]. split; simpl in *; [lia | congruence].
  - split; [intros Ha; by rewrite (pool_inj p Hp _ _ _ _ H1 H2 Ha) |]. intros Hb. congruence.
Qed.

Lemma atom_identity p b1 bs b2 :
  pool_ok p ->
  let '(p1, a1) := apk_atomize_dup p b1 in
  let '(_, a2) := apk_atomize_dup (atomize_all p1 bs) b2 in
  atom_blob a1 = bdata b1 /\ atom_blob a2 = bdata b2 /\
  (atom_addr a1 = atom_addr a2 <-> bdata b1 = bdata b2).
Proof.
  intros Hp. destruct (atomize_spec p b1 Hp) as (Hp1 & Hb1 & Hi1 & _).
  destruct (apk_atomize_dup p b1) as [p1 a1]. simpl in *.
  destruct (atomize_all_spec bs p1 Hp1) as [Hp2 Hk].
  destruct (atomize_spec (atomize_all p1 bs) b2 Hp2) as (Hp3 & Hb2 & Hi2 & Hk2).
  destruct (apk_atomize_dup (atomize_all p1 bs) b2) as [p3 a2]. simpl in *.
  split_and!; [done | done |]. rewrite <- Hb1, <- Hb2. apply (interned_addr p3); auto.
Qed.
End Atoms.
Arguments apk_atom_pool T : clear implicits.

(** The pool as [apk_atom_init] makes it: a hash table of 10000 buckets. *)
Definition apk_atom_init : apk_atom_pool (apk_hash atom) := mk_pool (apk_hash_init 10000) 1.

Lemma apk_atom_init_ok : pool_ok apk_atom_init.
Proof.
  assert (hash_wf (apk_hash_init (V := atom) 10000)) as Hw by (apply apk_hash_init_wf; lia).
  assert (forall k, kt_get (apk_hash_init (V := atom) 10000) k = None) as Hn.
  { intros k. cbn -[apk_hash_init apk_hash_get]. rewrite apk_hash_get_items by done.
    by rewrite apk_hash_init_items. }
  split; cbn -[apk_hash_init kt_get]; [done | lia | |]; intros *; rewrite Hn; done.
Qed.

(** Interning makes string equality pointer equality: whatever else is interned
    before, after or in between, the two atoms of two blobs hold their bytes, and
    are the same object exactly when the bytes are the same (the NULL blob counts as
    the empty string). *)
Theorem atoms_interned before b1 bs b2 :
  let p := atomize_all apk_atom_init before in
  let '(p1, a1) := apk_atomize_dup p b1 in
  let '(_, a2) := apk_atomize_dup (atomize_all p1 bs) b2 in
  atom_blob a1 = bdata b1 /\ atom_blob a2 = bdata b2 /\
  (atom_addr a1 = atom_addr a2 <-> bdata b1 = bdata b2).
Proof.
  apply atom_identity; [done |]. apply atomize_all_spec; [done |]. apply apk_atom_init_ok.
Qed.
