(* ===== verification/Dep.v ===== *)
(** * Packages and dependencies (apk_package.h, the dependency part of package.c)

    [apk_dependency], [apk_package] and [apk_provider] are the structures of
    apk_package.h and apk_provider_data.h.  A name is represented by its string and
    a version by the bytes of its atom: names and versions are interned (see
    Hash.v), so comparing their pointers is comparing those bytes.  The atom of the
    NULL blob is the empty string, whose pointer is not NULL.  A package is
    identified by its address [pkg_addr]. *)

From S2P Require Import Prelude Blob BlobCodec Ctype Version Digest.

Definition APKE_PKGVERSION_FORMAT : Z := 1061.
Definition APKE_DEPENDENCY_FORMAT : Z := 1062.

Record apk_dependency := mk_dep {
  dep_name : bytes;
  dep_version : bytes;
  dep_op : Z;
  dep_broken : bool;
  dep_tag : Z;      (* repository_tag : 6 *)
  dep_layer : Z;    (* layer : 4 *)
}.

#[global] Instance apk_dependency_eq_dec : EqDecision apk_dependency.
Proof. solve_decision. Defined.

Record apk_installed_package := mk_ipkg {
  ip_replaces : list apk_dependency;
  ip_replaces_priority : Z;
  ip_repository_tag : Z;
  ip_broken_files : bool;
  ip_broken_script : bool;
  ip_broken_xattr : bool;
  ip_sha256_160 : bool;
  ip_to_be_removed : bool;
}.

#[global] Instance apk_installed_package_eq_dec : EqDecision apk_installed_package.
Proof. solve_decision. Defined.

Record apk_package := mk_pkg {
  pkg_addr : nat;
  pkg_name : bytes;
  pkg_version : bytes;
  pkg_depends : list apk_dependency;
  pkg_install_if : list apk_dependency;
  pkg_provides : list apk_dependency;
  pkg_recommends : list apk_dependency;
  pkg_tags : list bytes;
  pkg_arch : bytes;
  pkg_license : bytes;
  pkg_origin : bytes;
  pkg_maintainer : bytes;
  pkg_url : bytes;
  pkg_description : bytes;
  pkg_commit : bytes;
  pkg_installed_size : Z;
  pkg_size : Z;
  pkg_build_time : Z;
  pkg_repos : Z;
  pkg_provider_priority : Z;
  pkg_filename_ndx : Z;
  pkg_uninstallable : bool;
  pkg_cached_non_repository : bool;
  pkg_layer : Z;
  pkg_digest_alg : Z;
  pkg_digest : bytes;
  pkg_ipkg : option apk_installed_package;
}.

#[global] Instance apk_package_eq_dec : EqDecision apk_package.
Proof. solve_decision. Defined.

(** [apk_pkg_hash_blob]: the first 20 bytes of the digest. *)
Definition apk_pkg_hash_blob (pkg : apk_package) : bytes :=
  take APK_DIGEST_LENGTH_SHA1 (pkg_digest pkg).
Definition apk_pkg_digest_blob (pkg : apk_package) : bytes :=
  take (apk_digest_alg_len (pkg_digest_alg pkg)) (pkg_digest pkg).

(** [struct apk_provider]: a NULL package stands for "no package". *)
Record apk_provider := mk_provider { prov_pkg : option apk_package; prov_version : bytes }.

#[global] Instance apk_provider_eq_dec : EqDecision apk_provider.
Proof. solve_decision. Defined.

Definition APK_PROVIDER_FROM_PACKAGE (pkg : apk_package) : apk_provider :=
  mk_provider (Some pkg) (pkg_version pkg).
Definition APK_PROVIDER_FROM_PROVIDES (pkg : apk_package) (p : apk_dependency) : apk_provider :=
  mk_provider (Some pkg) (dep_version p).

(** Pointer equality of packages. *)
Definition same_pkg (a b : option apk_package) : bool :=
  match a, b with
  | Some a, Some b => (pkg_addr a =? pkg_addr b)%nat
  | None, None => true
  | _, _ => false
  end.

(** ** Repository tags (apk_db_get_tag_id of database.c) *)

Definition APK_MAX_TAGS : nat := 16.

Record repo_tag := mk_tag { tag_text : bytes; tag_plain : bytes }.

(** The first [num_repo_tags] entries of [db->repo_tags]; entry 0 is the default tag. *)
Abbreviation repo_tags := (list repo_tag).

Fixpoint find_tag (field : repo_tag -> bytes) (tag : bytes) (tags : repo_tags) (i : Z) : option Z :=
  match tags with
  | [] => None
  | t :: tags' =>
      if apk_blob_compare (field t) tag =? 0 then Some i else find_tag field tag tags' (i + 1)
  end.

(** [after] is the byte behind the tag, which is read when the tag is empty. *)
Definition apk_db_get_tag_id (tags : repo_tags) (tag : bytes) (after : Z) : Z * repo_tags :=
  let marked := nth 0 tag after =? chr "@" in
  match find_tag (if marked then tag_text else tag_plain) tag (tail tags) 1 with
  | Some i => (i, tags)
  | None =>
      if (APK_MAX_TAGS <=? length tags)%nat then (-1, tags)
      else
        let text := if marked then tag else chr "@" :: tag in
        (Z.of_nat (length tags),
         tags ++ [mk_tag text (bdata (apk_blob_pull_char (Some text) (chr "@")))])
  end.

(** ** Parsing *)

(** The name, operator and version (NULL when there is none) of a specification;
    [None] for a format error. *)
Definition apk_dep_parse (spec : blob) : option (bytes * Z * blob) :=
  match spec with
  | None => None
  | Some _ =>
      let '(conflict, spec') := apk_blob_pull_blob_match spec (lit "!") in
      let op := if conflict then APK_VERSION_CONFLICT else 0 in
      let s := bdata spec' in
      let '(found, name, bop) := apk_blob_cspn s APK_CTYPE_DEPENDENCY_COMPARER in
      if found then
        let '(more, bop', version) := apk_blob_spn bop APK_CTYPE_DEPENDENCY_COMPARER in
        if negb more then None
        else
          let op := Z.lor op (apk_version_result_mask_blob bop') in
          if Z.land op (Z.lnot APK_VERSION_CONFLICT) =? 0 then None
          else Some (name, op, Some version)
      else Some (s, Z.lor op APK_DEPMASK_ANY, None)
  end.

(** [apk_blob_pull_dep]: the rest of the input, the tags, and the dependency, [None]
    when [dep->name] is NULL.  The bit field of the tag keeps its low six bits. *)
Definition apk_blob_pull_dep (b : blob) (tags : repo_tags) (allow_tag : bool) (after : Z) :
    blob * repo_tags * option apk_dependency :=
  match b with
  | None => (None, tags, None)
  | Some s =>
      let '(_, bdep, rest) := apk_blob_cspn s APK_CTYPE_DEPENDENCY_SEPARATOR in
      let '(_, _, rest) := apk_blob_spn rest APK_CTYPE_DEPENDENCY_SEPARATOR in
      match apk_dep_parse (Some bdep) with
      | None => (None, tags, None)
      | Some (bname, op, bver) =>
          let broken :=
            negb (Z.land op APK_DEPMASK_CHECKSUM =? APK_DEPMASK_CHECKSUM)
            && negb (apk_version_validate bver) in
          let finish name tag tags :=
            (Some rest, tags,
             Some (mk_dep name (bdata bver) op broken (Z.land tag 0x3f) 0)) in
          match apk_blob_split bname (lit "@") with
          | Some (name, btag) =>
              if negb allow_tag then (None, tags, None)
              else
                let behind := ((if testmask op APK_VERSION_CONFLICT then 1 else 0)
                               + length bname)%nat in
                let '(tag, tags') := apk_db_get_tag_id tags btag (nth behind s after) in
                finish name tag tags'
          | None => finish bname 0 tags
          end
      end
  end.

(** [apk_blob_pull_deps]: [None] when the fuel runs out, which
    [pull_deps_total] excludes for fuel above the length of the input. *)
Fixpoint pull_deps_loop (fuel : nat) (b : blob) (tags : repo_tags) (allow_tag : bool) (after rc : Z)
    (deps : list apk_dependency) : option (Z * repo_tags * list apk_dependency) :=
  match bdata b with
  | [] => Some (rc, tags, deps)
  | _ :: _ =>
      match fuel with
      | O => None
      | S fuel =>
          match apk_blob_pull_dep b tags allow_tag after with
          | (Some b', tags', Some dep) =>
              pull_deps_loop fuel (Some b') tags' allow_tag after
                (if dep_broken dep then - APKE_PKGVERSION_FORMAT else rc) (deps ++ [dep])
          | (b', tags', _) =>
              pull_deps_loop fuel b' tags' allow_tag after (- APKE_DEPENDENCY_FORMAT) deps
          end
      end
  end.

Definition apk_blob_pull_deps (b : blob) (tags : repo_tags) (allow_tag : bool) (after : Z)
    (deps : list apk_dependency) : option (Z * repo_tags * list apk_dependency) :=
  pull_deps_loop (S (length (bdata b))) b tags allow_tag after 0 deps.

(** ** Dependency arrays *)

Fixpoint apk_deps_add (deps : list apk_dependency) (dep : apk_dependency) : list apk_dependency :=
  match deps with
  | [] => [dep]
  | d0 :: deps' =>
      if bool_decide (dep_name d0 = dep_name dep) then dep :: deps'
      else d0 :: apk_deps_add deps' dep
  end.

(** The index of the first dependency on [name]. *)
Fixpoint dep_index (deps : list apk_dependency) (name : bytes) : option nat :=
  match deps with
  | [] => None
  | d0 :: deps' => if bool_decide (dep_name d0 = name) then Some 0%nat else S <$> dep_index deps' name
  end.

(** The last item takes the place of the deleted one. *)
Definition apk_deps_del (deps : list apk_dependency) (name : bytes) : list apk_dependency :=
  match dep_index deps name, last deps with
  | Some i, Some l => take (length deps - 1) (<[i := l]> deps)
  | _, _ => deps
  end.

(** ** Matching *)

Definition apk_dep_conflict (dep : apk_dependency) : bool :=
  testmask (dep_op dep) APK_VERSION_CONFLICT.

Definition apk_dep_from_pkg (pkg : apk_package) : apk_dependency :=
  let b := apk_blob_push_hash (pushbuf_new 64) (apk_pkg_hash_blob pkg) in
  mk_dep (pkg_name pkg) (bdata (apk_blob_pushed b)) APK_DEPMASK_CHECKSUM false 0 0.

Section Matching.
(** The digest variable of [apk_dep_match_checksum] is not initialised: [garbage] is
    what the stack holds. *)
Context (garbage : apk_digest).

Definition apk_dep_match_checksum (dep : apk_dependency) (pkg : apk_package) : outcome bool :=
  let! (_, d) := apk_blob_pull_digest (Some (dep_version dep)) garbage in
  Ok (apk_blob_compare (digest_blob d) (apk_pkg_hash_blob pkg) =? 0).

Definition apk_dep_is_provided (deppkg : option apk_package) (dep : apk_dependency)
    (p : option apk_provider) : outcome bool :=
  match p with
  | Some (mk_provider (Some pkg) version) =>
      if apk_dep_conflict dep && same_pkg deppkg (Some pkg) then Ok true
      else if dep_op dep =? APK_DEPMASK_CHECKSUM then apk_dep_match_checksum dep pkg
      else Ok (apk_version_match (Some version) (dep_op dep) (Some (dep_version dep)))
  | _ => Ok (apk_dep_conflict dep)
  end.

Definition apk_dep_is_materialized (dep : apk_dependency) (pkg : option apk_package) : outcome bool :=
  match pkg with
  | None => Ok (apk_dep_conflict dep)
  | Some pkg =>
      if negb (bool_decide (dep_name dep = pkg_name pkg)) then Ok (apk_dep_conflict dep)
      else if dep_op dep =? APK_DEPMASK_CHECKSUM then apk_dep_match_checksum dep pkg
      else Ok (apk_version_match (Some (pkg_version pkg)) (dep_op dep) (Some (dep_version dep)))
  end.

Definition APK_DEP_IRRELEVANT : Z := 0x01.
Definition APK_DEP_SATISFIES : Z := 0x02.
Definition APK_DEP_CONFLICTS : Z := 0x04.

(** The first provides of [name]. *)
Fixpoint find_provides (name : bytes) (provides : list apk_dependency) : option apk_dependency :=
  match provides with
  | [] => None
  | p :: provides' => if bool_decide (dep_name p = name) then Some p else find_provides name provides'
  end.

Definition apk_dep_analyze (deppkg : option apk_package) (dep : apk_dependency)
    (pkg : option apk_package) : outcome Z :=
  match pkg with
  | None => Ok APK_DEP_IRRELEVANT
  | Some p =>
      if bool_decide (dep_name dep = pkg_name p) then
        let! m := apk_dep_is_materialized dep pkg in
        Ok (if m then APK_DEP_SATISFIES else APK_DEP_CONFLICTS)
      else
        match find_provides (dep_name dep) (pkg_provides p) with
        | None => Ok APK_DEP_IRRELEVANT
        | Some pr =>
            let! m := apk_dep_is_provided deppkg dep (Some (APK_PROVIDER_FROM_PROVIDES p pr)) in
            Ok (if m then APK_DEP_SATISFIES else APK_DEP_CONFLICTS)
        end
  end.
End Matching.

(** ** Printing *)

(** [db] is [None] for a NULL database; an index outside [repo_tags] faults. *)
Definition apk_blob_push_dep (to : pushbuf) (db : option repo_tags) (dep : apk_dependency) :
    outcome pushbuf :=
  let to := if apk_dep_conflict dep then apk_blob_push_blob to (lit "!") else to in
  let to := apk_blob_push_blob to (dep_name dep) in
  let! to :=
    match db with
    | Some tags =>
        if dep_tag dep =? 0 then Ok to
        else if (APK_MAX_TAGS <=? Z.to_nat (dep_tag dep))%nat then Fault
        else
          (* an unused entry of the array is zero: the NULL blob of length 0 *)
          Ok (apk_blob_push_blob to
                (default [] (tag_text <$> tags !! Z.to_nat (dep_tag dep))))
    | None => Ok to
    end in
  let to := apk_blob_push_blob to (apk_version_op_string (dep_op dep)) in
  Ok (apk_blob_push_blob to (dep_version dep)).

Fixpoint push_deps_loop (first : bool) (to : pushbuf) (db : option repo_tags)
    (deps : list apk_dependency) : outcome pushbuf :=
  match deps with
  | [] => Ok to
  | dep :: deps' =>
      let to := if first then to else apk_blob_push_blob to (lit " ") in
      let! to := apk_blob_push_dep to db dep in
      push_deps_loop false to db deps'
  end.

Definition apk_blob_push_deps (to : pushbuf) (db : option repo_tags) (deps : list apk_dependency) :
    outcome pushbuf := push_deps_loop true to db deps.

(** [apk_deps_write_layer]: the text written to the stream and the result, with a
    buffer of 256 bytes per dependency; [layer] is [None] for -1. *)
Fixpoint deps_write_loop (db : option repo_tags) (deps : list apk_dependency) (separator : bytes)
    (layer : option Z) (n : Z) (out : bytes) : outcome (Z * bytes) :=
  match deps with
  | [] => Ok (n, out)
  | dep :: deps' =>
      if match layer with Some l => negb (dep_layer dep =? l) | None => false end
      then deps_write_loop db deps' separator layer n out
      else
        let b := pushbuf_new 256 in
        let b := if n =? 0 then b else apk_blob_push_blob b separator in
        let! b := apk_blob_push_dep b db dep in
        match apk_blob_pushed b with
        | None => Ok (-1, out)
        | Some txt =>
            deps_write_loop db deps' separator layer (n + Z.of_nat (length txt)) (out ++ txt)
        end
  end.

Definition apk_deps_write_layer (db : option repo_tags) (deps : list apk_dependency)
    (separator : bytes) (layer : option Z) : outcome (Z * bytes) :=
  deps_write_loop db deps separator layer 0 [].

Definition apk_deps_write (db : option repo_tags) (deps : list apk_dependency) (separator : bytes) :
    outcome (Z * bytes) := apk_deps_write_layer db deps separator None.

(** ** Dependency arrays as maps from names *)

(** What an array says about a name: its first dependency. *)
Definition dep_lookup (deps : list apk_dependency) (name : bytes) : option apk_dependency :=
  i ← dep_index deps name; deps !! i.

Lemma dep_lookup_cons d deps name :
  dep_lookup (d :: deps) name =
  if bool_decide (dep_name d = name) then Some d else dep_lookup deps name.
Proof.
  unfold dep_lookup. simpl. case_bool_decide; [done |]. by destruct (dep_index deps name).
Qed.

Lemma dep_index_Some deps name i :
  dep_index deps name = Some i -> exists d, deps !! i = Some d /\ dep_name d = name.
Proof.
  revert i. induction deps as [|d deps IH]; intros i; simpl; [done |].
  case_bool_decide as E; [intros [= <-]; eauto |].
  intros (j & Hj & ->)%fmap_Some. by apply IH.
Qed.

Lemma dep_index_None deps name : dep_index deps name = None <-> name ∉ dep_name <$> deps.
Proof.
  induction deps as [|d deps IH]; simpl; [set_solver |]. case_bool_decide as E; [set_solver |].
  rewrite fmap_None, IH. set_solver.
Qed.

Lemma deps_add_lookup deps dep name :
  dep_lookup (apk_deps_add deps dep) name =
  if bool_decide (dep_name dep = name) then Some dep else dep_lookup deps name.
Proof.
  induction deps as [|d deps IH]; cbn [apk_deps_add]; [by rewrite dep_lookup_cons |].
  destruct (bool_decide (dep_name d = dep_name dep)) eqn:E; bool_prop; rewrite !dep_lookup_cons.
  - rewrite E. by case_bool_decide.
  - rewrite IH. repeat case_bool_decide; congruence.
Qed.

Lemma deps_add_in deps dep x :
  x ∈ dep_name <$> apk_deps_add deps dep -> x ∈ dep_name <$> deps \/ x = dep_name dep.
Proof.
  induction deps as [|d deps IH]; simpl; [set_solver |]. case_bool_decide; set_solver.
Qed.

Lemma deps_add_names deps dep :
  NoDup (dep_name <$> deps) -> NoDup (dep_name <$> apk_deps_add deps dep).
Proof.
  induction deps as [|d deps IH]; simpl; intros Hnd; [repeat constructor; set_solver |].
  apply NoDup_cons in Hnd as [Hd Hnd]. case_bool_decide as E; simpl; constructor.
  - by rewrite <- E.
  - done.
  - intros [Hx|Hx]%deps_add_in; [done | congruence].
  - by apply IH.
Qed.

Lemma deps_del_permutation deps name :
  NoDup (dep_name <$> deps) ->
  apk_deps_del deps name ≡ₚ filter (fun d => dep_name d <> name) deps.
Proof.
  intros Hnd. unfold apk_deps_del. destruct (dep_index deps name) as [i|] eqn:Ei.
  - destruct (dep_index_Some _ _ _ Ei) as (d & Hd & Hn).
    destruct (last deps) as [l|] eqn:El.
    2: { apply last_None in El. by subst. }
    set (r := take _ _).
    assert (d :: r ≡ₚ deps) as Hp by by apply swap_remove_permutation.
    rewrite <- Hp, filter_cons, decide_False by naive_solver.
    rewrite <- Hp in Hnd. simpl in Hnd. apply NoDup_cons in Hnd as [Hd' _].
    rewrite list_filter_all; [done |]. intros x Hx Hxn. apply Hd'. rewrite Hn, <- Hxn. set_solver.
  - rewrite list_filter_all; [done |]. apply dep_index_None in Ei. intros d Hd <-.
    apply Ei. set_solver.
Qed.

(** On an array with at most one dependency per name (such as the world),
    [apk_deps_add] and [apk_deps_del] are the update and removal of a map from names
    to dependencies: adding replaces the dependency of that name and no other,
    deleting removes exactly it, and names stay unique. *)
Theorem deps_array_is_map deps dep name :
  NoDup (dep_name <$> deps) ->
  NoDup (dep_name <$> apk_deps_add deps dep) /\
  dep_lookup (apk_deps_add deps dep) name
    = (if bool_decide (dep_name dep = name) then Some dep else dep_lookup deps name) /\
  NoDup (dep_name <$> apk_deps_del deps name) /\
  (forall d, d ∈ apk_deps_del deps name <-> d ∈ deps /\ dep_name d <> name).
Proof.
  intros Hnd. pose proof (deps_del_permutation deps name Hnd) as Hp.
  split_and!; [by apply deps_add_names | apply deps_add_lookup | |].
  - rewrite Hp. eapply sublist_NoDup; [exact Hnd |]. apply fmap_sublist, sublist_filter.
  - intros d. rewrite Hp, list_elem_of_filter. tauto.
Qed.

Lemma deps_array_is_map_witness :
  let world := [mk_dep (lit "musl") [] 7 false 0 0; mk_dep (lit "zlib") (lit "1.2") 5 false 0 0;
                mk_dep (lit "abuild") [] 7 false 0 0] in
  let dep := mk_dep (lit "zlib") (lit "1.3") 1 false 0 0 in
  NoDup (dep_name <$> apk_deps_add world dep) /\
  dep_lookup (apk_deps_add world dep) (lit "musl")
    = (if bool_decide (dep_name dep = lit "musl") then Some dep else dep_lookup world (lit "musl")) /\
  NoDup (dep_name <$> apk_deps_del world (lit "musl")) /\
  (forall d, d ∈ apk_deps_del world (lit "musl") <-> d ∈ world /\ dep_name d <> lit "musl").
Proof.
  intros world dep. apply (deps_array_is_map world dep (lit "musl")).
  apply (bool_decide_unpack _). by vm_compute.
Defined.

(** ** Parsing dependency lists *)

Lemma spn_loop_length stop s : let '(_, l, r) := spn_loop stop s in (length l + length r = length s)%nat.
Proof.
  destruct (spn_loop stop s) as [[ret l] r] eqn:E. apply spn_loop_spec in E as (-> & _).
  by rewrite length_app.
Qed.

(** Every dependency that is pulled consumes input. *)
Lemma pull_dep_length s tags allow after b' tags' dep :
  s <> [] -> apk_blob_pull_dep (Some s) tags allow after = (Some b', tags', dep) ->
  (length b' < length s)%nat.
Proof.
  intros Hs. unfold apk_blob_pull_dep, apk_blob_cspn, apk_blob_spn.
  pose proof (spn_loop_length (fun ch => ctype_has APK_CTYPE_DEPENDENCY_SEPARATOR ch) s) as H1.
  destruct (spn_loop _ s) as [[r1 bdep] rest] eqn:E1.
  pose proof (spn_loop_length (fun ch => negb (ctype_has APK_CTYPE_DEPENDENCY_SEPARATOR ch)) rest) as H2.
  destruct (spn_loop (fun ch => negb _) rest) as [[r2 skipped] rest'] eqn:E2.
  assert (length rest' < length s)%nat as Hlt.
  { destruct bdep as [|c bdep]; [| simpl in *; lia].
    apply spn_loop_spec in E1 as (-> & _ & Hst & _). simpl in *.
    destruct rest as [|c rest]; [done |]. simpl in Hst, E2. rewrite Hst in E2. simpl in E2.
    destruct (spn_loop _ rest) as [[r3 l3] r4]. simplify_eq/=. lia. }
  repeat case_match; intros ?; simplify_eq/=; done.
Qed.

Lemma pull_deps_loop_total fuel b tags allow after rc deps :
  (length (bdata b) < fuel)%nat ->
  exists r, pull_deps_loop fuel b tags allow after rc deps = Some r.
Proof.
  revert b tags rc deps. induction fuel as [|fuel IH]; intros b tags rc deps Hf; [lia |].
  cbn [pull_deps_loop]. destruct b as [[|c s]|]; [by eexists | | by eexists].
  change (bdata (Some (c :: s))) with (c :: s) in *. cbv iota.
  destruct (apk_blob_pull_dep (Some (c :: s)) tags allow after) as [[b' tags'] dep] eqn:E.
  destruct b' as [b'|].
  - apply pull_dep_length in E as Hl; [| done]. simpl in Hl, Hf.
    destruct dep; apply IH; simpl; lia.
  - apply IH. simpl in *. lia.
Qed.

(** Parsing a dependency list always terminates: each round of the loop of
    [apk_blob_pull_deps] consumes input or stops it. *)
Theorem pull_deps_total b tags allow after deps :
  exists rc tags' deps', apk_blob_pull_deps b tags allow after deps = Some (rc, tags', deps').
Proof.
  destruct (pull_deps_loop_total (S (length (bdata b))) b tags allow after 0 deps)
    as [[[rc tags'] deps'] H]; [lia |]. eauto.
Qed.

(** ** Printing and parsing again *)

Definition is_comparer (c : Z) : bool := ctype_has APK_CTYPE_DEPENDENCY_COMPARER c.
Definition is_depsep (c : Z) : bool := ctype_has APK_CTYPE_DEPENDENCY_SEPARATOR c.

(** Characters that may not occur in a dependency's name. *)
Definition name_char_ok (c : Z) : bool :=
  negb (is_comparer c) && negb (is_depsep c) && negb (c =? chr "@").

(** A dependency with a printable form: what the index and world formats can hold. *)
Record dep_printable (d : apk_dependency) : Prop := {
  dp_name : Forall (fun c => name_char_ok c = true) (dep_name d);
  dp_name_bang : exists c n, dep_name d = c :: n /\ c <> chr "!";
  dp_op : exists op, op ∈ dependency_ops /\
    dep_op d = (if apk_dep_conflict d then Z.lor op APK_VERSION_CONFLICT else op) /\
    (op = APK_DEPMASK_ANY -> dep_version d = []) /\
    (op <> APK_DEPMASK_ANY -> exists c v, dep_version d = c :: v /\ is_comparer c = false);
  dp_version : Forall (fun c => is_depsep c = false) (dep_version d);
  dp_broken : dep_broken d = negb (Z.land (dep_op d) APK_DEPMASK_CHECKSUM =? APK_DEPMASK_CHECKSUM)
                             && negb (apk_version_validate (Some (dep_version d)));
  dp_plain : dep_tag d = 0 /\ dep_layer d = 0;
}.

(** The text of a dependency without a tag. *)
Definition dep_text (d : apk_dependency) : bytes :=
  (if apk_dep_conflict d then lit "!" else []) ++ dep_name d
  ++ apk_version_op_string (dep_op d) ++ dep_version d.

Lemma push_blob_app w n l :
  apk_blob_push_blob (Some (w, n)) l = if (n <? length l)%nat then None else Some (w ++ l, n - length l)%nat.
Proof. done. Qed.

Lemma push_dep_text w n db d :
  dep_tag d = 0 -> (length (dep_text d) <= n)%nat ->
  apk_blob_push_dep (Some (w, n)) db d = Ok (Some (w ++ dep_text d, n - length (dep_text d))%nat).
Proof.
  intros Ht. unfold dep_text. rewrite !length_app. intros Hn. unfold apk_blob_push_dep. cbv zeta.
  assert (forall l m w', (length l <= m)%nat ->
    apk_blob_push_blob (Some (w', m)) l = Some (w' ++ l, m - length l)%nat) as Hroom.
  { intros. by apply push_blob_room. }
  assert ((if apk_dep_conflict d then apk_blob_push_blob (Some (w, n)) (lit "!") else Some (w, n))
    = Some (w ++ (if apk_dep_conflict d then lit "!" else []),
            n - length (if apk_dep_conflict d then lit "!" else []))%nat) as ->.
  { destruct (apk_dep_conflict d); [apply Hroom; simpl in *; lia | by rewrite app_nil_r, Nat.sub_0_r]. }
  rewrite Hroom by lia.
  assert ((match db with Some tags => if dep_tag d =? 0 then _ else _ | None => _ end) =
    Ok (Some ((w ++ (if apk_dep_conflict d then lit "!" else [])) ++ dep_name d,
      (n - length (if apk_dep_conflict d then lit "!" else []) - length (dep_name d))%nat))) as ->.
  { rewrite Ht. by destruct db. }
  cbn [obind]. rewrite Hroom by lia. rewrite Hroom by lia. do 3 f_equal; [by rewrite !app_assoc | lia].
Qed.

(** What the printed operators look like, by evaluation. *)
Definition op_facts (op : Z) : bool :=
  let txt := apk_version_op_string op in
  forallb is_comparer txt && forallb (fun c => negb (is_depsep c)) txt
  && bool_decide (apk_version_op_string (Z.lor op APK_VERSION_CONFLICT) = txt)
  && bool_decide (Z.lor APK_VERSION_CONFLICT op = Z.lor op APK_VERSION_CONFLICT)
  && negb (Z.land op (Z.lnot APK_VERSION_CONFLICT) =? 0)
  && negb (Z.land (Z.lor op APK_VERSION_CONFLICT) (Z.lnot APK_VERSION_CONFLICT) =? 0)
  && (if op =? APK_DEPMASK_ANY then bool_decide (txt = [])
      else negb (bool_decide (txt = [])) && (apk_version_result_mask_blob txt =? op)).

Lemma forallb_Forall {A} (f : A -> bool) l : forallb f l = true -> Forall (fun x => f x = true) l.
Proof. rewrite forallb_forall, Forall_forall. intros H x Hx. apply H. by apply list_elem_of_In. Qed.

Lemma op_facts_spec op :
  op ∈ dependency_ops ->
  let txt := apk_version_op_string op in
  Forall (fun c => is_comparer c = true) txt /\ Forall (fun c => negb (is_depsep c) = true) txt /\
  apk_version_op_string (Z.lor op APK_VERSION_CONFLICT) = txt /\
  Z.lor APK_VERSION_CONFLICT op = Z.lor op APK_VERSION_CONFLICT /\
  (Z.land op (Z.lnot APK_VERSION_CONFLICT) =? 0) = false /\
  (Z.land (Z.lor op APK_VERSION_CONFLICT) (Z.lnot APK_VERSION_CONFLICT) =? 0) = false /\
  (op = APK_DEPMASK_ANY -> txt = []) /\
  (op <> APK_DEPMASK_ANY -> txt <> [] /\ apk_version_result_mask_blob txt = op).
Proof.
  intros Hop. assert (op_facts op = true) as F.
  { unfold dependency_ops in Hop. repeat (apply elem_of_cons in Hop as [->|Hop]; [by vm_compute |]).
    by apply elem_of_nil in Hop. }
  unfold op_facts in F. apply andb_true_iff in F as [F Hlast].
  repeat (apply andb_true_iff in F as [F ?]). intros txt. subst txt.
  apply forallb_Forall in F. apply forallb_Forall in H3. bool_prop. split_and!; try done.
  - by apply Z.eqb_neq.
  - by apply Z.eqb_neq.
  - intros ->. simpl in Hlast. by bool_prop.
  - intros Hne. apply Z.eqb_neq in Hne. rewrite Hne in Hlast. by bool_prop.
Qed.

(** The part after the name. *)
Lemma parse_op_version (conflict : bool) op name ver :
  op ∈ dependency_ops -> Forall (fun c => is_comparer c = false) name ->
  (op = APK_DEPMASK_ANY -> ver = []) ->
  (op <> APK_DEPMASK_ANY -> exists c v, ver = c :: v /\ is_comparer c = false) ->
  let s := name ++ apk_version_op_string op ++ ver in
  let op0 := if conflict then APK_VERSION_CONFLICT else 0 in
  (let '(found, name, bop) := apk_blob_cspn s APK_CTYPE_DEPENDENCY_COMPARER in
   if found then
     let '(more, bop', version) := apk_blob_spn bop APK_CTYPE_DEPENDENCY_COMPARER in
     if negb more then None
     else
       let op := Z.lor op0 (apk_version_result_mask_blob bop') in
       if Z.land op (Z.lnot APK_VERSION_CONFLICT) =? 0 then None
       else Some (name, op, Some version)
   else Some (s, Z.lor op0 APK_DEPMASK_ANY, None))
  = Some (name, if conflict then Z.lor op APK_VERSION_CONFLICT else op,
          if op =? APK_DEPMASK_ANY then None else Some ver).
Proof.
  intros Hop Hname Hany Hver s op0.
  destruct (op_facts_spec op Hop) as (Hcmp & _ & _ & Hcomm & Hl1 & Hl2 & Hempty & Hne).
  unfold apk_blob_cspn, apk_blob_spn. destruct (op =? APK_DEPMASK_ANY) eqn:E; bool_prop.
  - subst s. rewrite Hany, Hempty, !app_nil_r by done.
    rewrite <- (app_nil_r name) at 1. rewrite spn_loop_app by done. subst op. by destruct conflict.
  - destruct (Hver E) as (c & v & -> & Hc). destruct (Hne E) as [Htxt Hmask].
    subst s. rewrite spn_loop_app; [| done |].
    2: { destruct (apk_version_op_string op) as [|c0 t]; [done |].
         by apply Forall_cons in Hcmp as [? _]. }
    rewrite bool_decide_false by (by destruct (apk_version_op_string op)). cbn [negb].
    rewrite spn_loop_app; [| | simpl; fold (is_comparer c); by rewrite Hc].
    2: { eapply Forall_impl; [exact Hcmp |]. intros x Hx. unfold is_comparer in Hx. simpl.
         by rewrite Hx. }
    cbn [negb]. rewrite Hmask. subst op0. destruct conflict; cbv zeta iota.
    + apply Z.eqb_neq in Hl2. by rewrite Hcomm, Hl2.
    + apply Z.eqb_neq in Hl1. by rewrite Z.lor_0_l, Hl1.
Qed.

Lemma dep_text_no_separator d :
  dep_printable d -> Forall (fun c => is_depsep c = false) (dep_text d).
Proof.
  intros Hd. destruct (dp_op d Hd) as (op & Hop & Hop' & _ & _).
  destruct (op_facts_spec op Hop) as (_ & Hsep & Hconf & _).
  unfold dep_text. rewrite !Forall_app. split_and!.
  - destruct (apk_dep_conflict d); [by repeat constructor | constructor].
  - eapply Forall_impl; [exact (dp_name d Hd) |]. intros x Hx. unfold name_char_ok in Hx. by bool_prop.
  - assert (apk_version_op_string (dep_op d) = apk_version_op_string op) as ->.
    { rewrite Hop'. by destruct (apk_dep_conflict d). }
    eapply Forall_impl; [exact Hsep |]. intros x Hx. simpl in Hx. by bool_prop.
  - apply (dp_version d Hd).
Qed.

(** [!] is recognised only where it was written. *)
Lemma pull_bang (conflict : bool) c n :
  c <> 33 ->
  apk_blob_pull_blob_match (Some ((if conflict then lit "!" else []) ++ c :: n)) (lit "!")
  = (conflict, Some (c :: n)).
Proof.
  intros Hc. unfold apk_blob_pull_blob_match. destruct conflict; simpl.
  - by rewrite ?drop_0.
  - rewrite ?take_0. assert ((c =? 33) = false) as -> by lia. by destruct (c <? 33).
Qed.

Lemma dep_text_parse d :
  dep_printable d ->
  exists ver, apk_dep_parse (Some (dep_text d)) = Some (dep_name d, dep_op d, ver) /\
    bdata ver = dep_version d /\
    (ver = None -> Z.land (dep_op d) APK_DEPMASK_CHECKSUM = APK_DEPMASK_CHECKSUM).
Proof.
  intros Hd. destruct (dp_op d Hd) as (op & Hop & Hop' & Hany & Hver).
  destruct (op_facts_spec op Hop) as (_ & _ & Hconf & _).
  assert (apk_version_op_string (dep_op d) = apk_version_op_string op) as Htxt.
  { rewrite Hop'. by destruct (apk_dep_conflict d). }
  assert (Forall (fun c => is_comparer c = false) (dep_name d)) as Hname.
  { eapply Forall_impl; [exact (dp_name d Hd) |]. intros x Hx. unfold name_char_ok in Hx. by bool_prop. }
  pose proof (parse_op_version (apk_dep_conflict d) op (dep_name d) (dep_version d) Hop Hname Hany Hver)
    as Hp. cbv zeta in Hp. rewrite <- Hop' in Hp.
  unfold apk_dep_parse, dep_text. rewrite Htxt.
  destruct (dp_name_bang d Hd) as (c & n & Hn & Hc).
  pose proof (pull_bang (apk_dep_conflict d) c (n ++ apk_version_op_string op ++ dep_version d) Hc) as Hb.
  rewrite app_comm_cons, <- Hn in Hb. rewrite Hb. cbv zeta. simpl bdata.
  eexists. split; [exact Hp |]. destruct (op =? APK_DEPMASK_ANY) eqn:E; bool_prop; [| done].
  subst. split; [simpl; by rewrite Hany |]. intros _. rewrite Hop'. by destruct (apk_dep_conflict d).
Qed.

Lemma pull_dep_text d k tags allow after :
  dep_printable d -> stopped is_depsep k = true ->
  apk_blob_pull_dep (Some (dep_text d ++ k)) tags allow after
  = (Some (apk_blob_spn k APK_CTYPE_DEPENDENCY_SEPARATOR).2, tags, Some d).
Proof.
  intros Hd Hk.
  unfold apk_blob_pull_dep. unfold apk_blob_cspn at 1.
  pose proof (dep_text_no_separator d Hd) as Hsep. unfold is_depsep in Hsep, Hk.
  rewrite spn_loop_app by done.
  destruct (apk_blob_spn k APK_CTYPE_DEPENDENCY_SEPARATOR) as [[r l] rest].
  destruct (dep_text_parse d Hd) as (ver & -> & Hver & Hnone). cbv zeta. simpl snd.
  assert (apk_blob_split (dep_name d) (lit "@") = None) as ->.
  { apply apk_blob_split_None. intros l0 r0 E. pose proof (dp_name d Hd) as Hname.
    rewrite E, !Forall_app in Hname. destruct Hname as (_ & Hname & _).
    by apply Forall_cons in Hname as [? _]. }
  destruct (dp_plain d Hd) as [Ht Hl]. pose proof (dp_broken d Hd) as Hb.
  assert ((negb (Z.land (dep_op d) APK_DEPMASK_CHECKSUM =? APK_DEPMASK_CHECKSUM)
           && negb (apk_version_validate ver)) = dep_broken d) as ->.
  { rewrite Hb. destruct ver as [v|]; simpl in Hver; [by subst |]. by rewrite Hnone. }
  rewrite Hver. destruct d; simpl in *; subst. done.
Qed.

(** C39: a dependency that the text formats can hold is printed by
    [apk_blob_push_dep] and read back unchanged by [apk_blob_pull_dep], whether it is a
    conflict or not and whatever its operator; the separators that follow it are
    skipped and no tag is allocated. *)
Theorem push_pull_dep w n db d k tags allow after :
  dep_printable d -> (length (dep_text d) <= n)%nat -> stopped is_depsep k = true ->
  exists txt, apk_blob_push_dep (Some (w, n)) db d = Ok (Some (w ++ txt, n - length txt)%nat) /\
    apk_blob_pull_dep (Some (txt ++ k)) tags allow after
    = (Some (apk_blob_spn k APK_CTYPE_DEPENDENCY_SEPARATOR).2, tags, Some d).
Proof.
  intros Hd Hn Hk. exists (dep_text d). split; [apply push_dep_text; [apply Hd | done] |].
  by apply pull_dep_text.
Qed.

Lemma push_pull_dep_witness :
  let d := mk_dep (lit "zlib-dev") (lit "1.2.13-r0") 21 false 0 0 in
  exists txt, apk_blob_push_dep (pushbuf_new 256) None d
              = Ok (Some ([] ++ txt, 256 - length txt)%nat) /\
    apk_blob_pull_dep (Some (txt ++ lit " musl")) [] false 0
    = (Some (apk_blob_spn (lit " musl") APK_CTYPE_DEPENDENCY_SEPARATOR).2, [], Some d).
Proof.
  intros d. apply (push_pull_dep [] 256 None d (lit " musl") [] false 0); [| by vm_compute; lia | done].
  split.
  - by repeat constructor.
  - eexists _, _. split; [done |]. simpl. lia.
  - exists 5. split_and!; [unfold dependency_ops; set_solver | done | done |].
    intros _. eexists _, _. done.
  - by repeat constructor.
  - by vm_compute.
  - done.
Defined.

(** ** Checksum dependencies *)

(** The dependency [apk_dep_from_pkg] makes to pin one package is satisfied by
    a package exactly when the package has the same SHA1 identity, whatever the
    uninitialised digest variable holds. *)
Theorem dep_from_pkg_pins pkg q garbage :
  Forall byte_ok (apk_pkg_hash_blob pkg) ->
  length (apk_pkg_hash_blob pkg) = APK_DIGEST_LENGTH_SHA1 ->
  length (d_data garbage) = APK_DIGEST_LENGTH_MAX ->
  exists b, apk_dep_match_checksum garbage (apk_dep_from_pkg pkg) q = Ok b /\
    (b = true <-> apk_pkg_hash_blob q = apk_pkg_hash_blob pkg).
Proof.
  intros Hb Hl Hg.
  destruct (pull_hash_text (apk_pkg_hash_blob pkg) [] garbage Hb Hl Hg) as (d & Hpull & _ & Hd); [by left |].
  rewrite app_nil_r in Hpull.
  unfold apk_dep_match_checksum, apk_dep_from_pkg, pushbuf_new. rewrite push_hash_text by done.
  rewrite push_blob_room by (rewrite length_hash_text by done; lia).
  cbn [apk_blob_pushed fmap option_fmap option_map fst bdata default from_option id dep_version app].
  rewrite Hpull. cbn [obind]. rewrite Hd.
  eexists. split; [done |]. rewrite Z.eqb_eq, apk_blob_compare_eq0. done.
Qed.

(** A package with the given name, version and digest, for examples. *)
Definition example_pkg (addr : nat) (name version digest : bytes) : apk_package :=
  mk_pkg addr name version [] [] [] [] [] [] [] [] [] [] [] [] 0 0 0 0 0 0 false false 0
    APK_DIGEST_SHA1 digest None.

Lemma dep_from_pkg_pins_witness :
  let pkg := example_pkg 1 (lit "musl") (lit "1.2") (replicate 20 7) in
  exists b, apk_dep_match_checksum (mk_digest 0 0 (replicate 64 255)) (apk_dep_from_pkg pkg) pkg = Ok b /\
    (b = true <-> apk_pkg_hash_blob pkg = apk_pkg_hash_blob pkg).
Proof.
  intros pkg. apply (dep_from_pkg_pins pkg pkg (mk_digest 0 0 (replicate 64 255)));
    [simpl; bytes_ok | done | done].
Defined.

(** The checksum test is skipped for conflicts: [!name><digest] compares the
    package's version with the text of the digest, so its result does not depend on
    the digest of the package. *)
Theorem checksum_conflict_ignores_digest garbage deppkg dep pkg version :
  dep_op dep = Z.lor APK_DEPMASK_CHECKSUM APK_VERSION_CONFLICT ->
  same_pkg deppkg (Some pkg) = false ->
  apk_dep_is_provided garbage deppkg dep (Some (mk_provider (Some pkg) version))
  = Ok (bool_decide (apk_version_compare (Some version) (Some (dep_version dep)) = APK_VERSION_EQUAL)).
Proof.
  intros Hop Hne. unfold apk_dep_is_provided, apk_dep_conflict. rewrite Hop, Hne, andb_false_r. simpl.
  f_equal. unfold apk_version_match. simpl.
  change (testmask (Z.lor APK_DEPMASK_CHECKSUM APK_VERSION_CONFLICT) APK_VERSION_FUZZY) with false.
  change (apk_version_compare_fuzzy (Some version) (Some (dep_version dep)) false)
    with (apk_version_compare (Some version) (Some (dep_version dep))).
  rewrite apk_version_compare_spec. by destruct (version_cmp version (dep_version dep)).
Qed.

Lemma checksum_conflict_ignores_digest_witness :
  let dep := mk_dep (lit "musl") (lit "Q1abcd") 22 false 0 0 in
  let pkg := example_pkg 1 (lit "musl") (lit "1.2") (replicate 20 7) in
  apk_dep_is_provided (mk_digest 0 0 []) None dep (Some (mk_provider (Some pkg) (lit "1.2")))
  = Ok (bool_decide (apk_version_compare (Some (lit "1.2")) (Some (dep_version dep)) = APK_VERSION_EQUAL)).
Proof.
  intros dep pkg. by apply (checksum_conflict_ignores_digest (mk_digest 0 0 []) None dep pkg (lit "1.2")).
Defined.

(** ** Two corner cases of the parser *)

(** When all sixteen entries of the tag table are taken, a dependency with a new
    tag is still accepted: its tag number is -1 truncated to six bits, 63, and printing
    the dependency reads outside the table. *)
Theorem tag_table_overflow tags after w n :
  length tags = APK_MAX_TAGS -> find_tag tag_plain (lit "edge") (tail tags) 1 = None ->
  let dep := mk_dep (lit "foo") [] APK_DEPMASK_ANY false 63 0 in
  apk_blob_pull_dep (Some (lit "foo@edge")) tags true after = (Some [], tags, Some dep) /\
  apk_blob_push_dep (Some (w, n)) (Some tags) dep = Fault.
Proof.
  intros Hl Hf. split.
  - unfold apk_blob_pull_dep. simpl. unfold apk_db_get_tag_id. simpl. rewrite Hf, Hl. done.
  - reflexivity.
Qed.

Lemma tag_table_overflow_witness :
  let tags := replicate 16 (mk_tag (lit "@x") (lit "x")) in
  let dep := mk_dep (lit "foo") [] APK_DEPMASK_ANY false 63 0 in
  apk_blob_pull_dep (Some (lit "foo@edge")) tags true 0 = (Some [], tags, Some dep) /\
  apk_blob_push_dep (Some ([], 256%nat)) (Some tags) dep = Fault.
Proof. intros tags dep. by apply (tag_table_overflow tags 0 [] 256). Defined.

Lemma pull_deps_loop_prefix fuel b tags allow after rc deps rc' tags' deps' :
  pull_deps_loop fuel b tags allow after rc deps = Some (rc', tags', deps') ->
  exists ds, deps' = deps ++ ds.
Proof.
  revert b tags rc deps. induction fuel as [|fuel IH]; intros b tags rc deps; cbn [pull_deps_loop];
    (destruct (bdata b); [intros [= <- <- <-]; exists []; by rewrite app_nil_r |]); [done |].
  destruct (apk_blob_pull_dep b tags allow after) as [[[b'|] t'] [dep|]]; intros H;
    apply IH in H as [ds ->]; eauto. exists (dep :: ds). by rewrite <- app_assoc.
Qed.

(** Separators are skipped after a dependency but not before the first one: a
    list that begins with a separator yields a dependency on the empty name. *)
Theorem pull_deps_leading_separator c s tags allow after :
  is_depsep c = true ->
  exists rc tags' ds, apk_blob_pull_deps (Some (c :: s)) tags allow after []
    = Some (rc, tags', mk_dep [] [] APK_DEPMASK_ANY false 0 0 :: ds).
Proof.
  intros Hc. destruct (pull_deps_loop_total (S (length (c :: s))) (Some (c :: s)) tags allow after 0 [])
    as [[[rc tags'] ds] H]; [simpl; lia |]. change (length (c :: s)) with (length (bdata (Some (c :: s)))) in H.
  fold (apk_blob_pull_deps (Some (c :: s)) tags allow after []) in H.
  exists rc, tags'. rewrite H. unfold apk_blob_pull_deps in H. cbn [pull_deps_loop] in H.
  change (bdata (Some (c :: s))) with (c :: s) in H. cbv iota in H.
  assert (exists r, apk_blob_pull_dep (Some (c :: s)) tags allow after
    = (Some r, tags, Some (mk_dep [] [] APK_DEPMASK_ANY false 0 0))) as [r Hd].
  { unfold apk_blob_pull_dep, apk_blob_cspn. simpl. unfold is_depsep in Hc. rewrite Hc.
    destruct (apk_blob_spn (c :: s) _) as [[? ?] r]. by exists r. }
  rewrite Hd in H. apply pull_deps_loop_prefix in H as [ds' ->]. by exists ds'.
Qed.

Lemma pull_deps_leading_separator_witness :
  exists rc tags' ds, apk_blob_pull_deps (Some (lit " musl")) [] false 0 []
    = Some (rc, tags', mk_dep [] [] APK_DEPMASK_ANY false 0 0 :: ds).
Proof. by apply (pull_deps_leading_separator (chr " ") (lit "musl") [] false 0). Defined.
