(* ===== verification/Package.v ===== *)
(** * Packages (package.c): metadata entries, file ownership, file names

    The index entry of a package ([apk_pkg_write_index_entry]) and the parser of its
    fields ([apk_pkgtmpl_add_info]), the rules that decide which package owns a file
    or directory ([apk_pkg_replaces_file], [apk_pkg_replaces_dir]), and the expansion
    of file name patterns ([apk_blob_subst] of blob.c with [apk_pkg_subst]).

    [apk_package_tmpl] is the package under construction together with the fields of
    the database the parser changes: the [compat_*] flags and the repository tags. *)

From S2P Require Import Prelude Blob BlobCodec Ctype Version Digest Dep.

Definition APKE_FORMAT_INVALID : Z := 1057.
Definition APKE_V2PKG_FORMAT : Z := 1074.
Definition APKE_PACKAGE_NAME_SPEC : Z := 1078.
Definition APKE_BUFFER_SIZE : Z := 1090.

(** ** Package templates *)

Record apk_package_tmpl := mk_tmpl {
  t_name : option bytes;
  t_version : option bytes;
  t_description : bytes;
  t_url : bytes;
  t_license : bytes;
  t_arch : bytes;
  t_origin : bytes;
  t_maintainer : bytes;
  t_commit : bytes;
  t_depends : list apk_dependency;
  t_provides : list apk_dependency;
  t_install_if : list apk_dependency;
  t_size : Z;
  t_installed_size : Z;
  t_build_time : Z;
  t_provider_priority : Z;
  t_uninstallable : bool;
  t_id : apk_digest;
  t_compat_depversions : bool;
  t_compat_notinstallable : bool;
  t_compat_newfeatures : bool;
  t_repo_tags : repo_tags;
}.

Definition set_name (v : option bytes) (t : apk_package_tmpl) : apk_package_tmpl :=
    mk_tmpl v (t_version t) (t_description t) (t_url t) (t_license t) (t_arch t) (t_origin t)
    (t_maintainer t) (t_commit t) (t_depends t) (t_provides t) (t_install_if t) (t_size t)
    (t_installed_size t) (t_build_time t) (t_provider_priority t) (t_uninstallable t) (t_id t)
    (t_compat_depversions t) (t_compat_notinstallable t) (t_compat_newfeatures t) (t_repo_tags
    t).
Definition set_version (v : option bytes) (t : apk_package_tmpl) : apk_package_tmpl :=
    mk_tmpl (t_name t) v (t_description t) (t_url t) (t_license t) (t_arch t) (t_origin t)
    (t_maintainer t) (t_commit t) (t_depends t) (t_provides t) (t_install_if t) (t_size t)
    (t_installed_size t) (t_build_time t) (t_provider_priority t) (t_uninstallable t) (t_id t)
    (t_compat_depversions t) (t_compat_notinstallable t) (t_compat_newfeatures t) (t_repo_tags
    t).
Definition set_description (v : bytes) (t : apk_package_tmpl) : apk_package_tmpl :=
    mk_tmpl (t_name t) (t_version t) v (t_url t) (t_license t) (t_arch t) (t_origin t)
    (t_maintainer t) (t_commit t) (t_depends t) (t_provides t) (t_install_if t) (t_size t)
    (t_installed_size t) (t_build_time t) (t_provider_priority t) (t_uninstallable t) (t_id t)
    (t_compat_depversions t) (t_compat_notinstallable t) (t_compat_newfeatures t) (t_repo_tags
    t).
Definition set_url (v : bytes) (t : apk_package_tmpl) : apk_package_tmpl :=
    mk_tmpl (t_name t) (t_version t) (t_description t) v (t_license t) (t_arch t) (t_origin t)
    (t_maintainer t) (t_commit t) (t_depends t) (t_provides t) (t_install_if t) (t_size t)
    (t_installed_size t) (t_build_time t) (t_provider_priority t) (t_uninstallable t) (t_id t)
    (t_compat_depversions t) (t_compat_notinstallable t) (t_compat_newfeatures t) (t_repo_tags
    t).
Definition set_license (v : bytes) (t : apk_package_tmpl) : apk_package_tmpl :=
    mk_tmpl (t_name t) (t_version t) (t_description t) (t_url t) v (t_arch t) (t_origin t)
    (t_maintainer t) (t_commit t) (t_depends t) (t_provides t) (t_install_if t) (t_size t)
    (t_installed_size t) (t_build_time t) (t_provider_priority t) (t_uninstallable t) (t_id t)
    (t_compat_depversions t) (t_compat_notinstallable t) (t_compat_newfeatures t) (t_repo_tags
    t).
Definition set_arch (v : bytes) (t : apk_package_tmpl) : apk_package_tmpl :=
    mk_tmpl (t_name t) (t_version t) (t_description t) (t_url t) (t_license t) v (t_origin t)
    (t_maintainer t) (t_commit t) (t_depends t) (t_provides t) (t_install_if t) (t_size t)
    (t_installed_size t) (t_build_time t) (t_provider_priority t) (t_uninstallable t) (t_id t)
    (t_compat_depversions t) (t_compat_notinstallable t) (t_compat_newfeatures t) (t_repo_tags
    t).
Definition set_origin (v : bytes) (t : apk_package_tmpl) : apk_package_tmpl :=
    mk_tmpl (t_name t) (t_version t) (t_description t) (t_url t) (t_license t) (t_arch t) v
    (t_maintainer t) (t_commit t) (t_depends t) (t_provides t) (t_install_if t) (t_size t)
    (t_installed_size t) (t_build_time t) (t_provider_priority t) (t_uninstallable t) (t_id t)
    (t_compat_depversions t) (t_compat_notinstallable t) (t_compat_newfeatures t) (t_repo_tags
    t).
Definition set_maintainer (v : bytes) (t : apk_package_tmpl) : apk_package_tmpl :=
    mk_tmpl (t_name t) (t_version t) (t_description t) (t_url t) (t_license t) (t_arch t)
    (t_origin t) v (t_commit t) (t_depends t) (t_provides t) (t_install_if t) (t_size t)
    (t_installed_size t) (t_build_time t) (t_provider_priority t) (t_uninstallable t) (t_id t)
    (t_compat_depversions t) (t_compat_notinstallable t) (t_compat_newfeatures t) (t_repo_tags
    t).
Definition set_commit (v : bytes) (t : apk_package_tmpl) : apk_package_tmpl :=
    mk_tmpl (t_name t) (t_version t) (t_description t) (t_url t) (t_license t) (t_arch t)
    (t_origin t) (t_maintainer t) v (t_depends t) (t_provides t) (t_install_if t) (t_size t)
    (t_installed_size t) (t_build_time t) (t_provider_priority t) (t_uninstallable t) (t_id t)
    (t_compat_depversions t) (t_compat_notinstallable t) (t_compat_newfeatures t) (t_repo_tags
    t).
Definition set_depends (v : list apk_dependency) (t : apk_package_tmpl) : apk_package_tmpl :=
    mk_tmpl (t_name t) (t_version t) (t_description t) (t_url t) (t_license t) (t_arch t)
    (t_origin t) (t_maintainer t) (t_commit t) v (t_provides t) (t_install_if t) (t_size t)
    (t_installed_size t) (t_build_time t) (t_provider_priority t) (t_uninstallable t) (t_id t)
    (t_compat_depversions t) (t_compat_notinstallable t) (t_compat_newfeatures t) (t_repo_tags
    t).
Definition set_provides (v : list apk_dependency) (t : apk_package_tmpl) : apk_package_tmpl :=
    mk_tmpl (t_name t) (t_version t) (t_description t) (t_url t) (t_license t) (t_arch t)
    (t_origin t) (t_maintainer t) (t_commit t) (t_depends t) v (t_install_if t) (t_size t)
    (t_installed_size t) (t_build_time t) (t_provider_priority t) (t_uninstallable t) (t_id t)
    (t_compat_depversions t) (t_compat_notinstallable t) (t_compat_newfeatures t) (t_repo_tags
    t).
Definition set_install_if (v : list apk_dependency) (t : apk_package_tmpl) : apk_package_tmpl :=
    mk_tmpl (t_name t) (t_version t) (t_description t) (t_url t) (t_license t) (t_arch t)
    (t_origin t) (t_maintainer t) (t_commit t) (t_depends t) (t_provides t) v (t_size t)
    (t_installed_size t) (t_build_time t) (t_provider_priority t) (t_uninstallable t) (t_id t)
    (t_compat_depversions t) (t_compat_notinstallable t) (t_compat_newfeatures t) (t_repo_tags
    t).
Definition set_size (v : Z) (t : apk_package_tmpl) : apk_package_tmpl :=
    mk_tmpl (t_name t) (t_version t) (t_description t) (t_url t) (t_license t) (t_arch t)
    (t_origin t) (t_maintainer t) (t_commit t) (t_depends t) (t_provides t) (t_install_if t) v
    (t_installed_size t) (t_build_time t) (t_provider_priority t) (t_uninstallable t) (t_id t)
    (t_compat_depversions t) (t_compat_notinstallable t) (t_compat_newfeatures t) (t_repo_tags
    t).
Definition set_installed_size (v : Z) (t : apk_package_tmpl) : apk_package_tmpl :=
    mk_tmpl (t_name t) (t_version t) (t_description t) (t_url t) (t_license t) (t_arch t)
    (t_origin t) (t_maintainer t) (t_commit t) (t_depends t) (t_provides t) (t_install_if t)
    (t_size t) v (t_build_time t) (t_provider_priority t) (t_uninstallable t) (t_id t)
    (t_compat_depversions t) (t_compat_notinstallable t) (t_compat_newfeatures t) (t_repo_tags
    t).
Definition set_build_time (v : Z) (t : apk_package_tmpl) : apk_package_tmpl :=
    mk_tmpl (t_name t) (t_version t) (t_description t) (t_url t) (t_license t) (t_arch t)
    (t_origin t) (t_maintainer t) (t_commit t) (t_depends t) (t_provides t) (t_install_if t)
    (t_size t) (t_installed_size t) v (t_provider_priority t) (t_uninstallable t) (t_id t)
    (t_compat_depversions t) (t_compat_notinstallable t) (t_compat_newfeatures t) (t_repo_tags
    t).
Definition set_provider_priority (v : Z) (t : apk_package_tmpl) : apk_package_tmpl :=
    mk_tmpl (t_name t) (t_version t) (t_description t) (t_url t) (t_license t) (t_arch t)
    (t_origin t) (t_maintainer t) (t_commit t) (t_depends t) (t_provides t) (t_install_if t)
    (t_size t) (t_installed_size t) (t_build_time t) v (t_uninstallable t) (t_id t)
    (t_compat_depversions t) (t_compat_notinstallable t) (t_compat_newfeatures t) (t_repo_tags
    t).
Definition set_uninstallable (v : bool) (t : apk_package_tmpl) : apk_package_tmpl :=
    mk_tmpl (t_name t) (t_version t) (t_description t) (t_url t) (t_license t) (t_arch t)
    (t_origin t) (t_maintainer t) (t_commit t) (t_depends t) (t_provides t) (t_install_if t)
    (t_size t) (t_installed_size t) (t_build_time t) (t_provider_priority t) v (t_id t)
    (t_compat_depversions t) (t_compat_notinstallable t) (t_compat_newfeatures t) (t_repo_tags
    t).
Definition set_id (v : apk_digest) (t : apk_package_tmpl) : apk_package_tmpl :=
    mk_tmpl (t_name t) (t_version t) (t_description t) (t_url t) (t_license t) (t_arch t)
    (t_origin t) (t_maintainer t) (t_commit t) (t_depends t) (t_provides t) (t_install_if t)
    (t_size t) (t_installed_size t) (t_build_time t) (t_provider_priority t) (t_uninstallable
    t) v (t_compat_depversions t) (t_compat_notinstallable t) (t_compat_newfeatures t)
    (t_repo_tags t).
Definition set_compat_depversions (v : bool) (t : apk_package_tmpl) : apk_package_tmpl :=
    mk_tmpl (t_name t) (t_version t) (t_description t) (t_url t) (t_license t) (t_arch t)
    (t_origin t) (t_maintainer t) (t_commit t) (t_depends t) (t_provides t) (t_install_if t)
    (t_size t) (t_installed_size t) (t_build_time t) (t_provider_priority t) (t_uninstallable
    t) (t_id t) v (t_compat_notinstallable t) (t_compat_newfeatures t) (t_repo_tags t).
Definition set_compat_notinstallable (v : bool) (t : apk_package_tmpl) : apk_package_tmpl :=
    mk_tmpl (t_name t) (t_version t) (t_description t) (t_url t) (t_license t) (t_arch t)
    (t_origin t) (t_maintainer t) (t_commit t) (t_depends t) (t_provides t) (t_install_if t)
    (t_size t) (t_installed_size t) (t_build_time t) (t_provider_priority t) (t_uninstallable
    t) (t_id t) (t_compat_depversions t) v (t_compat_newfeatures t) (t_repo_tags t).
Definition set_compat_newfeatures (v : bool) (t : apk_package_tmpl) : apk_package_tmpl :=
    mk_tmpl (t_name t) (t_version t) (t_description t) (t_url t) (t_license t) (t_arch t)
    (t_origin t) (t_maintainer t) (t_commit t) (t_depends t) (t_provides t) (t_install_if t)
    (t_size t) (t_installed_size t) (t_build_time t) (t_provider_priority t) (t_uninstallable
    t) (t_id t) (t_compat_depversions t) (t_compat_notinstallable t) v (t_repo_tags t).
Definition set_repo_tags (v : repo_tags) (t : apk_package_tmpl) : apk_package_tmpl :=
    mk_tmpl (t_name t) (t_version t) (t_description t) (t_url t) (t_license t) (t_arch t)
    (t_origin t) (t_maintainer t) (t_commit t) (t_depends t) (t_provides t) (t_install_if t)
    (t_size t) (t_installed_size t) (t_build_time t) (t_provider_priority t) (t_uninstallable
    t) (t_id t) (t_compat_depversions t) (t_compat_notinstallable t) (t_compat_newfeatures t)
    v.

(** [apk_pkgtmpl_reset] on an empty template; [id] keeps a zeroed data array. *)
Definition apk_pkgtmpl_reset (db_tags : repo_tags) : apk_package_tmpl :=
  mk_tmpl None None [] [] [] [] [] [] [] [] [] [] 0 0 0 0 false
    (mk_digest APK_DIGEST_NONE 0 (replicate APK_DIGEST_LENGTH_MAX 0)) false false false db_tags.

(** One dependency field: parses [value] onto the end of [deps]. *)
Definition add_deps (t : apk_package_tmpl) (value : bytes) (deps : list apk_dependency) :
    Z * apk_package_tmpl * list apk_dependency :=
  match apk_blob_pull_deps (Some value) (t_repo_tags t) false 0 deps with
  | Some (rc, tags, deps') => (rc, set_repo_tags tags t, deps')
  | None => (0, t, deps)   (* excluded: [pull_deps_total] *)
  end.

(** [islower] in the C locale. *)
Definition islower (c : Z) : bool := (97 <=? c) && (c <=? 122).

Definition apk_pkgtmpl_add_info (t : apk_package_tmpl) (field : Z) (value : bytes) :
    outcome (Z * apk_package_tmpl) :=
  (* [*b] is NULL after the field's parser: a format error *)
  let uint (set : Z -> apk_package_tmpl -> apk_package_tmpl) :=
    Ok (0, set (fst (apk_blob_pull_uint (Some value) 10)) t) in
  if field =? chr "P" then Ok (0, set_name (Some value) t)
  else if field =? chr "V" then Ok (0, set_version (Some value) t)
  else if field =? chr "T" then Ok (0, set_description value t)
  else if field =? chr "U" then Ok (0, set_url value t)
  else if field =? chr "L" then Ok (0, set_license value t)
  else if field =? chr "A" then Ok (0, set_arch value t)
  else if field =? chr "D" then
    let '(rc, t, deps) := add_deps t value (t_depends t) in
    let t := set_depends deps t in
    if negb (rc =? 0)
    then Ok (2, set_compat_depversions true (set_compat_notinstallable true (set_uninstallable true t)))
    else Ok (0, t)
  else if field =? chr "C" then
    let! (b, d) := apk_blob_pull_digest (Some value) (t_id t) in
    Ok (match b with None => - APKE_V2PKG_FORMAT | Some _ => 0 end, set_id d t)
  else if field =? chr "S" then uint set_size
  else if field =? chr "I" then uint set_installed_size
  else if field =? chr "p" then
    let '(rc, t, deps) := add_deps t value (t_provides t) in
    let t := set_provides deps t in
    if negb (rc =? 0) then Ok (2, set_compat_depversions true t) else Ok (0, t)
  else if field =? chr "i" then
    let '(rc, t, deps) := add_deps t value (t_install_if t) in
    if negb (rc =? 0) then Ok (2, set_compat_depversions true (set_install_if [] t))
    else Ok (0, set_install_if deps t)
  else if field =? chr "o" then Ok (0, set_origin value t)
  else if field =? chr "m" then Ok (0, set_maintainer value t)
  else if field =? chr "t" then uint set_build_time
  else if field =? chr "c" then Ok (0, set_commit value t)
  else if field =? chr "k" then uint (fun v => set_provider_priority (u16 v))
  else if bool_decide (field ∈ lit "FMRZrqasfg") then Ok (1, t)
  else
    let t := if islower field then t else set_compat_notinstallable true (set_uninstallable true t) in
    Ok (2, set_compat_newfeatures true t).

(** ** Index entries *)

(** The text written and the result of [write_depends]. *)
Definition write_depends (field : bytes) (deps : list apk_dependency) : outcome (Z * bytes) :=
  match deps with
  | [] => Ok (0, [])
  | _ :: _ =>
      let! (r, txt) := apk_deps_write None deps (lit " ") in
      if r <? 0 then Ok (r, field ++ txt) else Ok (0, field ++ txt ++ [10])
  end.

Definition APK_INDEX_BUFSIZE : nat := 2048.

(** Pushes [key] and [v] when [v] is not empty. *)
Definition push_nonempty (to : pushbuf) (key v : bytes) : pushbuf :=
  if (length v =? 0)%nat then to else apk_blob_push_blob (apk_blob_push_blob to key) v.
Definition push_nonzero (to : pushbuf) (key : bytes) (v : Z) : pushbuf :=
  if v =? 0 then to else apk_blob_push_uint (apk_blob_push_blob to key) v 10.

Definition EIO : Z := 5.

(** [apk_pkg_write_index_header]: the result and the text handed to the stream.  The
    stream itself accepts everything. *)
Definition apk_pkg_write_index_header (info : apk_package) : outcome (Z * bytes) :=
  let b := pushbuf_new APK_INDEX_BUFSIZE in
  let b := apk_blob_push_blob b (lit "C:") in
  let b := apk_blob_push_hash b (apk_pkg_hash_blob info) in
  let b := apk_blob_push_blob b (10 :: lit "P:") in
  let b := apk_blob_push_blob b (pkg_name info) in
  let b := apk_blob_push_blob b (10 :: lit "V:") in
  let b := apk_blob_push_blob b (pkg_version info) in
  let b := push_nonempty b (10 :: lit "A:") (pkg_arch info) in
  let b := apk_blob_push_blob b (10 :: lit "S:") in
  let b := apk_blob_push_uint b (pkg_size info) 10 in
  let b := apk_blob_push_blob b (10 :: lit "I:") in
  let b := apk_blob_push_uint b (pkg_installed_size info) 10 in
  let b := apk_blob_push_blob b (10 :: lit "T:") in
  let b := apk_blob_push_blob b (pkg_description info) in
  let b := apk_blob_push_blob b (10 :: lit "U:") in
  let b := apk_blob_push_blob b (pkg_url info) in
  let b := apk_blob_push_blob b (10 :: lit "L:") in
  let b := apk_blob_push_blob b (pkg_license info) in
  let b := push_nonempty b (10 :: lit "o:") (pkg_origin info) in
  let b := push_nonempty b (10 :: lit "m:") (pkg_maintainer info) in
  let b := push_nonzero b (10 :: lit "t:") (pkg_build_time info) in
  let b := push_nonempty b (10 :: lit "c:") (pkg_commit info) in
  let b := push_nonzero b (10 :: lit "k:") (pkg_provider_priority info) in
  let b := apk_blob_push_blob b [10] in
  match apk_blob_pushed b with
  | None => Ok (- APKE_BUFFER_SIZE, [])
  | Some txt =>
      let! (r1, d) := write_depends (lit "D:") (pkg_depends info) in
      if negb (r1 =? 0) then Ok (- EIO, txt ++ d)
      else
        let! (r2, p) := write_depends (lit "p:") (pkg_provides info) in
        if negb (r2 =? 0) then Ok (- EIO, txt ++ d ++ p)
        else
          let! (r3, i) := write_depends (lit "i:") (pkg_install_if info) in
          if negb (r3 =? 0) then Ok (- EIO, txt ++ d ++ p ++ i)
          else Ok (0, txt ++ d ++ p ++ i)
  end.

Definition apk_pkg_write_index_entry (info : apk_package) : outcome (Z * bytes) :=
  let! (r, txt) := apk_pkg_write_index_header info in
  if r <? 0 then Ok (r, txt) else Ok (0, txt ++ [10]).

(** One line of an index, as the loop of [apk_db_fdb_read] handles it before the
    entries of the installed database: [None] for a format error. *)
Definition index_line (t : apk_package_tmpl) (l : bytes) : outcome (option (Z * apk_package_tmpl)) :=
  match l with
  | field :: colon :: value =>
      if negb (colon =? chr ":") then Ok None
      else let! r := apk_pkgtmpl_add_info t field value in Ok (Some r)
  | _ => Ok (Some (0, t))
  end.

(** The lines of one entry in order; an ignored or unsupported field does not stop it. *)
Fixpoint index_lines (t : apk_package_tmpl) (ls : list bytes) : outcome (option apk_package_tmpl) :=
  match ls with
  | [] => Ok (Some t)
  | l :: ls' =>
      let! r := index_line t l in
      match r with
      | None => Ok None
      | Some (_, t') => index_lines t' ls'
      end
  end.

(** ** The index format round trips *)

Definition opt_line (key v : bytes) : list bytes := if (length v =? 0)%nat then [] else [key ++ v].
Definition opt_num_line (key : bytes) (v : Z) : list bytes :=
  if v =? 0 then [] else [key ++ uint_text v 10].

(** The lines of the fixed part of an entry. *)
Definition header_lines (p : apk_package) : list bytes :=
  [lit "C:" ++ hash_text (apk_pkg_hash_blob p); lit "P:" ++ pkg_name p; lit "V:" ++ pkg_version p]
  ++ opt_line (lit "A:") (pkg_arch p)
  ++ [lit "S:" ++ uint_text (pkg_size p) 10; lit "I:" ++ uint_text (pkg_installed_size p) 10;
      lit "T:" ++ pkg_description p; lit "U:" ++ pkg_url p; lit "L:" ++ pkg_license p]
  ++ opt_line (lit "o:") (pkg_origin p) ++ opt_line (lit "m:") (pkg_maintainer p)
  ++ opt_num_line (lit "t:") (pkg_build_time p) ++ opt_line (lit "c:") (pkg_commit p)
  ++ opt_num_line (lit "k:") (pkg_provider_priority p).

Fixpoint deps_text (ds : list apk_dependency) : bytes :=
  match ds with
  | [] => []
  | [d] => dep_text d
  | d :: ds' => dep_text d ++ 32 :: deps_text ds'
  end.

Definition deps_lines (key : bytes) (ds : list apk_dependency) : list bytes :=
  match ds with [] => [] | _ => [key ++ deps_text ds] end.

Definition entry_lines (p : apk_package) : list bytes :=
  header_lines p ++ deps_lines (lit "D:") (pkg_depends p) ++ deps_lines (lit "p:") (pkg_provides p)
  ++ deps_lines (lit "i:") (pkg_install_if p).

Definition unlines (ls : list bytes) : bytes := concat ((fun l => l ++ [10]) <$> ls).

Definition text_ok (v : bytes) : Prop := 10 ∉ v.

Record deps_ok (ds : list apk_dependency) : Prop := {
  do_printable : Forall dep_printable ds;
  do_valid : Forall (fun d => dep_broken d = false) ds;
  do_short : Forall (fun d => (length (dep_text d) <= 255)%nat) ds;
}.

(** A package whose metadata the text format can hold. *)
Record pkg_printable (p : apk_package) : Prop := {
  pp_hash : Forall byte_ok (apk_pkg_hash_blob p) /\ length (apk_pkg_hash_blob p) = APK_DIGEST_LENGTH_SHA1;
  pp_text : Forall text_ok [pkg_name p; pkg_version p; pkg_arch p; pkg_description p; pkg_url p;
              pkg_license p; pkg_origin p; pkg_maintainer p; pkg_commit p];
  pp_num : Forall (fun n => 0 <= n < 2 ^ 64) [pkg_size p; pkg_installed_size p; pkg_build_time p];
  pp_prio : 0 <= pkg_provider_priority p < 2 ^ 16;
  pp_deps : deps_ok (pkg_depends p) /\ deps_ok (pkg_provides p) /\ deps_ok (pkg_install_if p);
  pp_size : (length (unlines (header_lines p)) <= APK_INDEX_BUFSIZE)%nat;
}.

(** *** Writing *)

Lemma push_nonempty_text to key v :
  push_nonempty to key v = apk_blob_push_blob to (if (length v =? 0)%nat then [] else key ++ v).
Proof.
  unfold push_nonempty. destruct (length v =? 0)%nat; [by rewrite push_blob_nil |].
  by rewrite push_blob_push_blob.
Qed.

Lemma push_nonzero_text to key v :
  push_nonzero to key v = apk_blob_push_blob to (if v =? 0 then [] else key ++ uint_text v 10).
Proof.
  unfold push_nonzero. destruct (v =? 0); [by rewrite push_blob_nil |].
  by rewrite push_uint_text, push_blob_push_blob.
Qed.

Lemma unlines_app a b : unlines (a ++ b) = unlines a ++ unlines b.
Proof. unfold unlines. by rewrite fmap_app, concat_app. Qed.

(** A newline pushed before an optional line is the one that ends the previous line. *)
Lemma nl_opt_line key v r :
  (if (length v =? 0)%nat then [] else (10 :: key) ++ v) ++ 10 :: r
  = 10 :: unlines (opt_line key v) ++ r.
Proof.
  unfold opt_line, unlines. destruct (length v =? 0)%nat; simpl; [done |].
  by rewrite app_nil_r, <- !app_assoc.
Qed.

Lemma nl_opt_num key v r :
  (if v =? 0 then [] else (10 :: key) ++ uint_text v 10) ++ 10 :: r
  = 10 :: unlines (opt_num_line key v) ++ r.
Proof.
  unfold opt_num_line, unlines. destruct (v =? 0); simpl; [done |].
  by rewrite app_nil_r, <- !app_assoc.
Qed.

Lemma unlines_cons l ls : unlines (l :: ls) = l ++ 10 :: unlines ls.
Proof. unfold unlines. simpl. by rewrite <- app_assoc. Qed.

Lemma unlines_nil : unlines [] = [].
Proof. done. Qed.

(** All the pushes of the header are one push of its text. *)
Lemma header_pushed p b :
  length (apk_pkg_hash_blob p) = APK_DIGEST_LENGTH_SHA1 ->
  apk_blob_push_blob (push_nonzero (push_nonempty (push_nonzero (push_nonempty (push_nonempty
    (apk_blob_push_blob (apk_blob_push_blob (apk_blob_push_blob (apk_blob_push_blob
    (apk_blob_push_blob (apk_blob_push_blob (apk_blob_push_uint (apk_blob_push_blob
    (apk_blob_push_uint (apk_blob_push_blob (push_nonempty (apk_blob_push_blob (apk_blob_push_blob
    (apk_blob_push_blob (apk_blob_push_blob (apk_blob_push_hash (apk_blob_push_blob b (lit "C:"))
      (apk_pkg_hash_blob p)) (10 :: lit "P:")) (pkg_name p)) (10 :: lit "V:")) (pkg_version p))
      (10 :: lit "A:") (pkg_arch p)) (10 :: lit "S:")) (pkg_size p) 10) (10 :: lit "I:"))
      (pkg_installed_size p) 10) (10 :: lit "T:")) (pkg_description p)) (10 :: lit "U:"))
      (pkg_url p)) (10 :: lit "L:")) (pkg_license p)) (10 :: lit "o:") (pkg_origin p))
      (10 :: lit "m:") (pkg_maintainer p)) (10 :: lit "t:") (pkg_build_time p))
      (10 :: lit "c:") (pkg_commit p)) (10 :: lit "k:") (pkg_provider_priority p)) [10]
  = apk_blob_push_blob b (unlines (header_lines p)).
Proof.
  intros Hh. rewrite push_hash_text by done.
  rewrite !push_uint_text. repeat (rewrite push_nonzero_text || rewrite push_nonempty_text).
  rewrite !push_blob_push_blob, <- ?app_assoc. f_equal.
  rewrite (nl_opt_num (lit "k:")), (nl_opt_line (lit "c:")), (nl_opt_num (lit "t:")),
    (nl_opt_line (lit "m:")), (nl_opt_line (lit "o:")).
  unfold header_lines. rewrite !unlines_app, !unlines_cons, unlines_nil.
  pose proof (nl_opt_line (lit "A:") (pkg_arch p)) as HA. simpl app in HA. simpl app.
  rewrite HA. rewrite <- !app_assoc. simpl app. rewrite <- !app_assoc. simpl app.
  rewrite app_nil_r. repeat (rewrite <- !app_assoc; simpl app). reflexivity.
Qed.

Definition tail_text (ds : list apk_dependency) : bytes := concat ((fun d => 32 :: dep_text d) <$> ds).

Lemma deps_text_cons d ds : deps_text (d :: ds) = dep_text d ++ tail_text ds.
Proof.
  revert d. induction ds as [|d' ds IH]; intros d; [by rewrite app_nil_r |].
  change (deps_text (d :: d' :: ds)) with (dep_text d ++ 32 :: deps_text (d' :: ds)).
  by rewrite IH.
Qed.

Lemma dep_text_nonempty d : dep_printable d -> (0 < length (dep_text d))%nat.
Proof.
  intros Hd. destruct (dp_name_bang d Hd) as (c & n & Hn & _). unfold dep_text.
  rewrite Hn, !length_app. simpl. lia.
Qed.

Lemma deps_ok_cons d ds :
  deps_ok (d :: ds) -> dep_printable d /\ dep_broken d = false /\ (length (dep_text d) <= 255)%nat /\ deps_ok ds.
Proof.
  intros [[H1 H2]%Forall_cons [H3 H4]%Forall_cons [H5 H6]%Forall_cons]. done.
Qed.

Lemma deps_write_tail ds n out :
  deps_ok ds -> 0 < n ->
  exists n', 0 < n' /\ deps_write_loop None ds (lit " ") None n out = Ok (n', out ++ tail_text ds).
Proof.
  revert n out. induction ds as [|d ds IH]; intros n out Hd Hn; cbn [deps_write_loop].
  { exists n. split; [done |]. by rewrite app_nil_r. }
  apply deps_ok_cons in Hd as (Hp & _ & Hs & Hd). assert ((n =? 0) = false) as -> by lia.
  assert (apk_blob_push_blob (pushbuf_new 256) (lit " ") = Some (lit " ", 255%nat)) as -> by done.
  rewrite push_dep_text by (by destruct Hp as [? ? ? ? ? []]). cbn [obind apk_blob_pushed fmap option_fmap option_map fst].
  destruct (IH (n + Z.of_nat (length (lit " " ++ dep_text d))) (out ++ lit " " ++ dep_text d) Hd)
    as (n' & Hn' & ->); [lia |].
  exists n'. split; [done |]. simpl. by rewrite <- app_assoc.
Qed.

Lemma write_depends_text key ds :
  deps_ok ds -> write_depends key ds = Ok (0, unlines (deps_lines key ds)).
Proof.
  intros Hd. destruct ds as [|d ds]; [done |]. unfold write_depends, apk_deps_write, apk_deps_write_layer.
  cbn [deps_write_loop]. apply deps_ok_cons in Hd as (Hp & _ & Hs & Hd). simpl Z.eqb. cbv iota.
  unfold pushbuf_new. rewrite push_dep_text; [| by destruct Hp as [? ? ? ? ? []] | lia].
  cbn [obind apk_blob_pushed fmap option_fmap option_map fst]. simpl app.
  pose proof (dep_text_nonempty d Hp).
  destruct (deps_write_tail ds (0 + Z.of_nat (length (dep_text d))) (dep_text d) Hd) as (n' & Hn & ->); [lia |].
  cbn [obind]. assert ((n' <? 0) = false) as -> by lia. do 2 f_equal.
  unfold deps_lines. rewrite deps_text_cons, unlines_cons, unlines_nil. by rewrite !app_assoc.
Qed.

Lemma write_header_text p :
  pkg_printable p -> apk_pkg_write_index_header p = Ok (0, unlines (entry_lines p)).
Proof.
  intros [[Hb Hh] _ _ _ (Hd & Hpr & Hi) Hsz]. unfold apk_pkg_write_index_header. cbv zeta.
  rewrite header_pushed by done. unfold pushbuf_new. rewrite push_blob_room by done.
  cbn [apk_blob_pushed fmap option_fmap option_map fst].
  rewrite !write_depends_text by done. cbn [obind Z.eqb negb Z.ltb Z.compare app].
  unfold entry_lines. rewrite !unlines_app. done.
Qed.

Lemma write_entry_text p :
  pkg_printable p -> apk_pkg_write_index_entry p = Ok (0, unlines (entry_lines p) ++ [10]).
Proof. intros Hp. unfold apk_pkg_write_index_entry. by rewrite write_header_text. Qed.

(** *** Reading *)

(** Lines that are all fields of the index and understood. *)
Fixpoint plain_lines (t : apk_package_tmpl) (ls : list bytes) : outcome (option apk_package_tmpl) :=
  match ls with
  | [] => Ok (Some t)
  | l :: ls' =>
      if (length l <? 2)%nat then Ok None
      else
        let! r := index_line t l in
        match r with
        | Some (r, t') => if r =? 0 then plain_lines t' ls' else Ok None
        | None => Ok None
        end
  end.

Lemma plain_index_lines t ls t' k : plain_lines t ls = Ok (Some t') -> index_lines t (ls ++ k) = index_lines t' k.
Proof.
  revert t. induction ls as [|l ls IH]; intros t; simpl; [by intros [= <-] |]. case_if; [done |].
  destruct (index_line t l) as [[[r t1]|]|]; simpl; [| done..]. case_if; [| done]. apply IH.
Qed.

Lemma plain_lines_cons t l ls t' :
  (2 <= length l)%nat -> index_line t l = Ok (Some (0, t')) -> plain_lines t (l :: ls) = plain_lines t' ls.
Proof. intros Hl H. cbn [plain_lines]. rewrite H. simpl. by rewrite (proj2 (Nat.ltb_ge _ _)). Qed.

Lemma key_length (key v : bytes) : (2 <= length key)%nat -> (2 <= length (key ++ v))%nat.
Proof. rewrite length_app. lia. Qed.

(** An optional line that was left out stands for the value the template starts with. *)
Lemma read_opt_line t key v ls (set : bytes -> apk_package_tmpl -> apk_package_tmpl) :
  (2 <= length key)%nat -> index_line t (key ++ v) = Ok (Some (0, set v t)) -> set [] t = t ->
  plain_lines t (opt_line key v ++ ls) = plain_lines (set v t) ls.
Proof.
  intros Hk Hl Hs. unfold opt_line. destruct v as [|c v]; simpl length; simpl Nat.eqb; cbv iota.
  - by rewrite Hs.
  - cbn [app]. apply plain_lines_cons; [by apply key_length | done].
Qed.

Lemma read_uint v : 0 <= v < 2 ^ 64 -> fst (apk_blob_pull_uint (Some (uint_text v 10)) 10) = v.
Proof.
  intros Hv. destruct (uint_text_pull v 10 []) as [_ H]; [lia | done | done |].
  rewrite app_nil_r in H. by rewrite H.
Qed.

Lemma read_opt_num_line t key v ls (set : Z -> apk_package_tmpl -> apk_package_tmpl) :
  (2 <= length key)%nat -> (v <> 0 -> index_line t (key ++ uint_text v 10) = Ok (Some (0, set v t))) -> set 0 t = t ->
  plain_lines t (opt_num_line key v ++ ls) = plain_lines (set v t) ls.
Proof.
  intros Hk Hl Hs. unfold opt_num_line. destruct (v =? 0) eqn:E; bool_prop.
  - subst. by rewrite Hs.
  - cbn [app]. apply plain_lines_cons; [by apply key_length | auto].
Qed.

Lemma pull_deps_text ds tags allow after fuel acc :
  deps_ok ds -> (length (deps_text ds) < fuel)%nat ->
  pull_deps_loop fuel (Some (deps_text ds)) tags allow after 0 acc = Some (0, tags, acc ++ ds).
Proof.
  revert fuel acc. induction ds as [|d ds IH]; intros fuel acc Hd Hf.
  { rewrite app_nil_r. by destruct fuel. }
  apply deps_ok_cons in Hd as (Hp & Hb & _ & Hd). rewrite deps_text_cons in *.
  pose proof (dep_text_nonempty d Hp) as Hne. destruct fuel as [|fuel]; [lia |].
  cbn [pull_deps_loop]. change (bdata (Some (dep_text d ++ tail_text ds))) with (dep_text d ++ tail_text ds).
  destruct (dep_text d ++ tail_text ds) as [|c s] eqn:E.
  { apply (f_equal length) in E. rewrite length_app in E. simpl in E. lia. }
  rewrite <- E in *. rewrite length_app in Hf. 
  destruct ds as [|d' ds].
  - rewrite pull_dep_text by done. rewrite Hb. by destruct fuel.
  - rewrite pull_dep_text by done. rewrite Hb.
    assert ((apk_blob_spn (tail_text (d' :: ds)) APK_CTYPE_DEPENDENCY_SEPARATOR).2 = deps_text (d' :: ds)) as ->.
    { rewrite deps_text_cons. apply deps_ok_cons in Hd as (Hp' & _).
      pose proof (dep_text_nonempty d' Hp') as Hne'.
      pose proof (dep_text_no_separator d' Hp') as Hsep. unfold apk_blob_spn.
      replace (tail_text (d' :: ds)) with ([32] ++ dep_text d' ++ tail_text ds) by done.
      rewrite (spn_loop_app _ [32]); [done | by repeat constructor |].
      destruct (dep_text d') as [|c' s']; [simpl in Hne'; lia |].
      apply Forall_cons in Hsep as [Hc' _]. simpl. unfold is_depsep in Hc'. by rewrite Hc'. }
    rewrite IH; [by rewrite <- app_assoc | done |].
    rewrite deps_text_cons, length_app.
    assert (length (tail_text (d' :: ds)) = S (length (dep_text d') + length (tail_text ds)))
      by (unfold tail_text; simpl; by rewrite length_app).
    lia.
Qed.

Lemma add_deps_text t ds :
  deps_ok ds -> add_deps t (deps_text ds) [] = (0, t, ds).
Proof.
  intros Hd. unfold add_deps, apk_blob_pull_deps.
  rewrite pull_deps_text; [| done | simpl; lia]. by destruct t.
Qed.

Lemma read_deps_line t key ds ls
    (get : apk_package_tmpl -> list apk_dependency)
    (set : list apk_dependency -> apk_package_tmpl -> apk_package_tmpl) :
  (2 <= length key)%nat -> get t = [] -> set [] t = t ->
  (add_deps t (deps_text ds) (get t) = (0, t, ds) -> index_line t (key ++ deps_text ds) = Ok (Some (0, set ds t))) ->
  deps_ok ds -> plain_lines t (deps_lines key ds ++ ls) = plain_lines (set ds t) ls.
Proof.
  intros Hk Hg Hs Hl Hd. unfold deps_lines. destruct ds as [|d ds]; [by rewrite Hs |].
  cbn [app]. apply plain_lines_cons; [by apply key_length |]. apply Hl. rewrite Hg. by apply add_deps_text.
Qed.

(** The fields that are not simply stored. *)
Lemma line_hash t v b d :
  apk_blob_pull_digest (Some v) (t_id t) = Ok (Some b, d) ->
  index_line t (lit "C:" ++ v) = Ok (Some (0, set_id d t)).
Proof.
  intros H. unfold index_line, apk_pkgtmpl_add_info. cbn -[apk_blob_pull_digest]. by rewrite H.
Qed.

Lemma line_priority t v :
  0 <= v < 2 ^ 16 ->
  index_line t (lit "k:" ++ uint_text v 10) = Ok (Some (0, set_provider_priority v t)).
Proof.
  intros Hv. unfold index_line, apk_pkgtmpl_add_info. cbn -[uint_text apk_blob_pull_uint].
  rewrite read_uint by lia. unfold u16. by rewrite Z.mod_small by lia.
Qed.

Lemma line_uint t key v set :
  0 <= v < 2 ^ 64 ->
  (forall x, index_line t (key ++ x) = Ok (Some (0, set (fst (apk_blob_pull_uint (Some x) 10)) t))) ->
  index_line t (key ++ uint_text v 10) = Ok (Some (0, set v t)).
Proof. intros Hv Hx. rewrite Hx. by rewrite read_uint. Qed.

Ltac line_deps :=
  intros; unfold index_line, apk_pkgtmpl_add_info; cbn -[add_deps deps_text];
  match goal with H : add_deps _ _ _ = _ |- _ => by rewrite H end.

Lemma line_depends t ds :
  add_deps t (deps_text ds) (t_depends t) = (0, t, ds) ->
  index_line t (lit "D:" ++ deps_text ds) = Ok (Some (0, set_depends ds t)).
Proof. line_deps. Qed.

Lemma line_provides t ds :
  add_deps t (deps_text ds) (t_provides t) = (0, t, ds) ->
  index_line t (lit "p:" ++ deps_text ds) = Ok (Some (0, set_provides ds t)).
Proof. line_deps. Qed.

Lemma line_install_if t ds :
  add_deps t (deps_text ds) (t_install_if t) = (0, t, ds) ->
  index_line t (lit "i:" ++ deps_text ds) = Ok (Some (0, set_install_if ds t)).
Proof. line_deps. Qed.

(** The template an entry reads back as. *)
Definition tmpl_from (p : apk_package) (id : apk_digest) (db_tags : repo_tags) : apk_package_tmpl :=
  mk_tmpl (Some (pkg_name p)) (Some (pkg_version p)) (pkg_description p) (pkg_url p) (pkg_license p)
    (pkg_arch p) (pkg_origin p) (pkg_maintainer p) (pkg_commit p) (pkg_depends p) (pkg_provides p)
    (pkg_install_if p) (pkg_size p) (pkg_installed_size p) (pkg_build_time p)
    (pkg_provider_priority p) false id false false false db_tags.

(** Computes the fields of a template after some of them were set. *)
Ltac tmpl_norm :=
  cbv [set_id set_name set_version set_description set_url set_license set_arch set_origin
    set_maintainer set_commit set_depends set_provides set_install_if set_size set_installed_size
    set_build_time set_provider_priority
    t_name t_version t_description t_url t_license t_arch t_origin t_maintainer t_commit t_depends
    t_provides t_install_if t_size t_installed_size t_build_time t_provider_priority t_uninstallable
    t_id t_compat_depversions t_compat_notinstallable t_compat_newfeatures t_repo_tags].

Lemma read_entry_lines p db_tags :
  pkg_printable p ->
  exists id, plain_lines (apk_pkgtmpl_reset db_tags) (entry_lines p) = Ok (Some (tmpl_from p id db_tags))
    /\ d_alg id = APK_DIGEST_SHA1 /\ digest_blob id = apk_pkg_hash_blob p.
Proof.
  intros [[Hb Hh] _ Hnum Hprio (Hd & Hpr & Hi) _].
  apply Forall_cons in Hnum as [Hn1 Hnum]. apply Forall_cons in Hnum as [Hn2 Hnum].
  apply Forall_cons in Hnum as [Hn3 _].
  destruct (pull_hash_text (apk_pkg_hash_blob p) [] (mk_digest APK_DIGEST_NONE 0 (replicate APK_DIGEST_LENGTH_MAX 0))
    Hb Hh) as (id & Hid & Ha & Hblob); [done | by left |]. rewrite app_nil_r in Hid.
  exists id. split; [| done]. assert (2 <= 2)%nat as two by lia.
  rewrite <- (app_nil_r (entry_lines p)). unfold entry_lines, header_lines. rewrite <- !app_assoc.
  set (lC := lit "C:" ++ _). set (lS := lit "S:" ++ _). set (lI := lit "I:" ++ _). cbn [app].
  assert (index_line (apk_pkgtmpl_reset db_tags) lC
          = Ok (Some (0, set_id id (apk_pkgtmpl_reset db_tags)))) as HC.
  { apply line_hash with (b := []). exact Hid. }
  rewrite (plain_lines_cons _ lC _ _ (key_length (lit "C:") _ two) HC). clear HC Hid. unfold apk_pkgtmpl_reset. tmpl_norm.
  do 2 (erewrite plain_lines_cons; [| simpl; lia | reflexivity]). tmpl_norm.
  erewrite (read_opt_line _ (lit "A:")) with (set := set_arch); [| exact two | reflexivity | reflexivity]. tmpl_norm.
  rewrite (plain_lines_cons _ lS _ _ (key_length (lit "S:") _ two) (line_uint _ (lit "S:") _ set_size Hn1 (fun x => eq_refl))). tmpl_norm.
  rewrite (plain_lines_cons _ lI _ _ (key_length (lit "I:") _ two) (line_uint _ (lit "I:") _ set_installed_size Hn2 (fun x => eq_refl))).
  tmpl_norm.
  do 3 (erewrite plain_lines_cons; [| simpl; lia | reflexivity]). tmpl_norm.
  erewrite (read_opt_line _ (lit "o:")) with (set := set_origin); [| exact two | reflexivity | reflexivity]. tmpl_norm.
  erewrite (read_opt_line _ (lit "m:")) with (set := set_maintainer); [| exact two | reflexivity | reflexivity]. tmpl_norm.
  erewrite (read_opt_num_line _ (lit "t:")) with (set := set_build_time);
    [| exact two | intros _; exact (line_uint _ (lit "t:") _ set_build_time Hn3 (fun x => eq_refl)) | reflexivity]. tmpl_norm.
  erewrite (read_opt_line _ (lit "c:")) with (set := set_commit); [| exact two | reflexivity | reflexivity]. tmpl_norm.
  erewrite (read_opt_num_line _ (lit "k:")) with (set := set_provider_priority);
    [| exact two | intros _; by apply line_priority | reflexivity]. tmpl_norm.
  erewrite (read_deps_line _ (lit "D:")) with (get := t_depends) (set := set_depends);
    [| exact two | reflexivity | reflexivity | apply line_depends | done]. tmpl_norm.
  erewrite (read_deps_line _ (lit "p:")) with (get := t_provides) (set := set_provides);
    [| exact two | reflexivity | reflexivity | apply line_provides | done]. tmpl_norm.
  erewrite (read_deps_line _ (lit "i:")) with (get := t_install_if) (set := set_install_if);
    [| exact two | reflexivity | reflexivity | apply line_install_if | done]. reflexivity.
Qed.

(** *** Lines and the text they make *)

Lemma split_unlines ls r :
  Forall text_ok ls -> split_on 10 (unlines ls ++ r) = ls ++ split_on 10 r.
Proof.
  intros H. induction H as [|l ls Hl H IH]; [done |]. rewrite unlines_cons, <- app_assoc. cbn [app].
  rewrite split_on_app by done. by rewrite IH.
Qed.

Lemma nth_text_ok (tbl : bytes) i : text_ok tbl -> nth i tbl 0 <> 10.
Proof.
  intros Ht E. destruct (nth_in_or_default i tbl 0) as [Hin|Hd]; [| congruence].
  rewrite E in Hin. by apply Ht, list_elem_of_In.
Qed.

Lemma push_b64_groups_text_ok bin : text_ok (push_b64_groups bin).
Proof.
  assert (forall i, b64e i <> 10) as Hb.
  { intros i. apply nth_text_ok. unfold text_ok. by apply (bool_decide_unpack _). }
  assert (forall n bin, (length bin <= n)%nat -> text_ok (push_b64_groups bin)) as H; [| by eapply H].
  unfold text_ok. clear bin. induction n as [|n IH]; intros [|x [|y [|z bin]]] Hl; simpl in Hl; try lia;
    try (by apply not_elem_of_nil).
  all: cbn -[b64e]; rewrite !not_elem_of_cons; split_and!; auto; try done; try apply not_elem_of_nil.
  apply IH. lia.
Qed.

Lemma uint_text_ok v base : text_ok (uint_text v base).
Proof.
  unfold uint_text. destruct (v =? 0); [unfold text_ok; by apply (bool_decide_unpack _) |].
  assert (forall n v acc, text_ok acc -> text_ok (fst (uint_digits n v base acc))) as H.
  { induction n as [|n IH]; intros v' acc Ha; simpl; [done |]. destruct (v' =? 0); [done |].
    apply IH. unfold text_ok. rewrite not_elem_of_cons. split; [| done].
    intros E. symmetry in E. revert E. apply nth_text_ok. unfold text_ok. by apply (bool_decide_unpack _). }
  apply H. apply not_elem_of_nil.
Qed.

Lemma dep_text_ok d : dep_printable d -> text_ok (dep_text d).
Proof.
  intros Hd. pose proof (dep_text_no_separator d Hd) as H. intros Hin.
  rewrite Forall_forall in H. by specialize (H _ Hin).
Qed.

Lemma deps_text_ok ds : deps_ok ds -> text_ok (deps_text ds).
Proof.
  intros Hd. destruct ds as [|d ds]; [apply not_elem_of_nil |]. rewrite deps_text_cons.
  apply deps_ok_cons in Hd as (Hp & _ & _ & Hd). unfold text_ok. rewrite not_elem_of_app.
  split; [by apply dep_text_ok |]. unfold tail_text. revert Hd. clear. induction ds as [|d ds IH]; intros Hd.
  - apply not_elem_of_nil.
  - apply deps_ok_cons in Hd as (Hp & _ & _ & Hd). simpl. rewrite not_elem_of_cons, not_elem_of_app.
    split_and!; [done | by apply dep_text_ok | by apply IH].
Qed.

Lemma entry_lines_ok p : pkg_printable p -> Forall text_ok (entry_lines p).
Proof.
  intros [_ Ht _ _ (Hd & Hpr & Hi) _].
  repeat match goal with H : Forall text_ok (_ :: _) |- _ => apply Forall_cons in H as [? H] end.
  assert (forall key v, text_ok key -> text_ok v -> text_ok (key ++ v)) as Happ.
  { intros key v Hk Hv. unfold text_ok. by rewrite not_elem_of_app. }
  assert (forall c, c <> 10 -> text_ok [c; 58]) as Hkey.
  { intros c Hc. unfold text_ok. rewrite !not_elem_of_cons. split_and!; [done | done | apply not_elem_of_nil]. }
  assert (forall key ds, text_ok key -> deps_ok ds -> Forall text_ok (deps_lines key ds)) as Hdeps.
  { intros key ds Hk Hds. destruct ds; [constructor |]. constructor; [| constructor].
    apply Happ; [done |]. by apply deps_text_ok. }
  assert (forall key v, text_ok key -> text_ok v -> Forall text_ok (opt_line key v)) as Hopt.
  { intros key v Hk Hv. unfold opt_line. case_if; repeat constructor. by apply Happ. }
  assert (forall key v, text_ok key -> Forall text_ok (opt_num_line key v)) as Hnum.
  { intros key v Hk. unfold opt_num_line. case_if; repeat constructor. apply Happ; auto using uint_text_ok. }
  assert (text_ok (hash_text (apk_pkg_hash_blob p))) as Hhash.
  { apply (Happ [81; 49]); [| apply push_b64_groups_text_ok]. unfold text_ok. by apply (bool_decide_unpack _). }
  unfold entry_lines, header_lines. rewrite !Forall_app. split_and!;
    try (apply Hdeps; [by apply Hkey | done]); try (apply Hopt; [by apply Hkey | done]);
    try (apply Hnum; by apply Hkey);
    repeat (constructor; [apply Happ; [by apply Hkey | auto using uint_text_ok] |]); constructor.
Qed.

(** C38: a package's index entry reads back as the package: for every package whose
    metadata the format can hold, [apk_pkg_write_index_entry] succeeds, and feeding the
    lines it wrote to the index parser yields a template with the same name, version,
    texts, numbers, identity and dependency lists, not marked as uninstallable and with
    no compatibility flag raised. *)
Theorem index_entry_roundtrip p db_tags :
  pkg_printable p ->
  exists txt id, apk_pkg_write_index_entry p = Ok (0, txt) /\
    index_lines (apk_pkgtmpl_reset db_tags) (split_on 10 txt) = Ok (Some (tmpl_from p id db_tags)) /\
    d_alg id = APK_DIGEST_SHA1 /\ digest_blob id = apk_pkg_hash_blob p.
Proof.
  intros Hp. destruct (read_entry_lines p db_tags Hp) as (id & Hr & Ha & Hb).
  exists (unlines (entry_lines p) ++ [10]), id. split; [by apply write_entry_text |].
  split; [| done]. rewrite split_unlines by by apply entry_lines_ok. exact (plain_index_lines _ _ _ [[]; []] Hr).
Qed.

Definition example_entry : apk_package :=
  mk_pkg 1 (lit "musl") (lit "1.2.5-r0") [mk_dep (lit "zlib") (lit "1.3") 5 false 0 0] []
    [mk_dep (lit "so:libc.musl.so.1") (lit "1") 1 false 0 0] [] [] (lit "x86_64") (lit "MIT") (lit "musl") []
    (lit "https://musl.libc.org/") (lit "the musl c library") [] 634880 400000 1700000000 0 10 0 false
    false 0 2 (replicate 20 7) None.

(** Dependencies with [=] or [>=] and plain texts, checked by evaluation. *)
Lemma deps_ok_example name ver op :
  bool_decide (Forall (fun c => name_char_ok c = true) name) && negb (first_char name =? 33)
  && negb (length name =? 0)%nat && ((op =? 1) || (op =? 5)) && negb (length ver =? 0)%nat
  && negb (is_comparer (first_char ver)) && bool_decide (Forall (fun c => is_depsep c = false) ver)
  && apk_version_validate (Some ver)
  && (length (dep_text (mk_dep name ver op false 0 0)) <=? 255)%nat = true ->
  deps_ok [mk_dep name ver op false 0 0].
Proof.
  intros H. repeat (apply andb_true_iff in H as [H ?]). bool_prop.
  assert (op = 1 \/ op = 5) as Hop by (apply orb_true_iff in H5 as []; bool_prop; lia).
  split; (constructor; [| constructor]); [| done | by apply Nat.leb_le].
  destruct name as [|c n]; [done |]. destruct ver as [|c' v]; [done |].
  split; simpl; [done | eauto | | done | by rewrite H1, andb_false_r | done].
  exists op. destruct Hop as [-> | ->]; split_and!; try done; try (unfold dependency_ops; set_solver); eauto.
Qed.

Lemma example_entry_printable : pkg_printable example_entry.
Proof.
  split.
  - split; [simpl; bytes_ok | done].
  - repeat (constructor; [apply (bool_decide_unpack _); by vm_compute |]). constructor.
  - repeat (constructor; [simpl; lia |]). constructor.
  - simpl. lia.
  - split_and!; [apply deps_ok_example; by vm_compute | apply deps_ok_example; by vm_compute |].
    split; constructor.
  - by vm_compute; lia.
Qed.

Lemma index_entry_roundtrip_witness :
  exists txt id, apk_pkg_write_index_entry example_entry = Ok (0, txt) /\
    index_lines (apk_pkgtmpl_reset []) (split_on 10 txt) = Ok (Some (tmpl_from example_entry id [])) /\
    d_alg id = APK_DIGEST_SHA1 /\ digest_blob id = apk_pkg_hash_blob example_entry.
Proof. apply (index_entry_roundtrip example_entry []). apply example_entry_printable. Defined.
