(* ===== verification/PackageRules.v ===== *)
(** * Package rules (package.c): ownership of files, file names, reverse dependencies

    [apk_pkg_replaces_dir] and [apk_pkg_replaces_file] decide which of two packages
    owns a directory or a file, [apk_blob_subst] (blob.c) with [apk_pkg_subst] expands
    the file name of a package, and [apk_pkg_foreach_reverse_dependency] walks the
    packages that depend on a package, marking them with a generation number. *)

From S2P Require Import Prelude Blob BlobCodec Ctype Version Digest Dep Package.

(** ** Comparing packages *)

(** [strcmp], by its sign. *)
Fixpoint strcmp (a b : bytes) : Z :=
  match a, b with
  | [], [] => 0
  | [], _ :: _ => -1
  | _ :: _, [] => 1
  | x :: a', y :: b' => if x =? y then strcmp a' b' else if x <? y then -1 else 1
  end.

Definition apk_pkg_version_compare (a b : apk_package) : Z :=
  if bool_decide (pkg_version a = pkg_version b) then APK_VERSION_EQUAL
  else apk_version_compare (Some (pkg_version a)) (Some (pkg_version b)).

(** [strcasecmp] in the C locale, by its sign. *)
Definition tolower (c : Z) : Z := if (chr "A" <=? c) && (c <=? chr "Z") then c + 32 else c.
Definition strcasecmp (a b : bytes) : Z := strcmp (tolower <$> a) (tolower <$> b).

Definition apk_name_cmp_display (a b : bytes) : Z :=
  let r := strcasecmp a b in if r =? 0 then strcmp a b else r.

Definition apk_pkg_cmp_display (a b : apk_package) : Z :=
  if negb (bool_decide (pkg_name a = pkg_name b)) then apk_name_cmp_display (pkg_name a) (pkg_name b)
  else
    let r := apk_pkg_version_compare a b in
    if r =? APK_VERSION_LESS then -1 else if r =? APK_VERSION_GREATER then 1 else 0.

(** ** Ownership *)

Inductive replaces_result := APK_PKG_REPLACES_YES | APK_PKG_REPLACES_NO | APK_PKG_REPLACES_CONFLICT.

#[global] Instance replaces_result_eq_dec : EqDecision replaces_result.
Proof. solve_decision. Defined.

(** Whether the new package [b] takes the directory over from its owner [a]; reading
    the [ipkg] of a package that is not installed faults. *)
Definition apk_pkg_replaces_dir (a b : option apk_package) : outcome replaces_result :=
  match a, b with
  | None, _ => Ok APK_PKG_REPLACES_NO
  | _, None => Ok APK_PKG_REPLACES_YES
  | Some a, Some b =>
      if bool_decide (pkg_name a = pkg_name b) then Ok APK_PKG_REPLACES_YES
      else
        match pkg_ipkg a, pkg_ipkg b with
        | Some ai, Some bi =>
            Ok (if ip_to_be_removed ai then APK_PKG_REPLACES_YES
                else if ip_to_be_removed bi then APK_PKG_REPLACES_NO
                else if ip_replaces_priority bi <? ip_replaces_priority ai then APK_PKG_REPLACES_NO
                else if ip_replaces_priority ai <? ip_replaces_priority bi then APK_PKG_REPLACES_YES
                else
                  let same_origin :=
                    negb (length (pkg_origin a) =? 0)%nat && bool_decide (pkg_origin a = pkg_origin b) in
                  if same_origin && (apk_blob_compare (pkg_origin a) (pkg_name a) =? 0)
                  then APK_PKG_REPLACES_NO
                  else if same_origin && (apk_blob_compare (pkg_origin b) (pkg_name b) =? 0)
                  then APK_PKG_REPLACES_YES
                  else if strcmp (pkg_name a) (pkg_name b) <=? 0 then APK_PKG_REPLACES_NO
                  else APK_PKG_REPLACES_YES)
        | _, _ => Fault
        end
  end.

Section Files.
Context (garbage : apk_digest).

(** The first of [deps] that [pkg] materializes gives the priority [prio], none -1. *)
Fixpoint replaces_prio (deps : list apk_dependency) (pkg : apk_package) (prio : Z) : outcome Z :=
  match deps with
  | [] => Ok (-1)
  | dep :: deps' =>
      let! m := apk_dep_is_materialized garbage dep (Some pkg) in
      if m then Ok prio else replaces_prio deps' pkg prio
  end.

Definition apk_pkg_replaces_file (a b : option apk_package) : outcome replaces_result :=
  match a, b with
  | None, _ => Ok APK_PKG_REPLACES_YES
  | _, None => Ok APK_PKG_REPLACES_NO
  | Some a, Some b =>
      if bool_decide (pkg_name a = pkg_name b) then Ok APK_PKG_REPLACES_YES
      else
        match pkg_ipkg a, pkg_ipkg b with
        | Some ai, Some bi =>
            if ip_to_be_removed ai then Ok APK_PKG_REPLACES_YES
            else if ip_to_be_removed bi then Ok APK_PKG_REPLACES_NO
            else
              let! a_prio := replaces_prio (ip_replaces ai) b (ip_replaces_priority ai) in
              let! b_prio := replaces_prio (ip_replaces bi) a (ip_replaces_priority bi) in
              Ok (if b_prio <? a_prio then APK_PKG_REPLACES_NO
                  else if 0 <=? b_prio then APK_PKG_REPLACES_YES
                  else if negb (length (pkg_origin a) =? 0)%nat
                          && bool_decide (pkg_origin a = pkg_origin b) then APK_PKG_REPLACES_YES
                  else APK_PKG_REPLACES_CONFLICT)
        | _, _ => Fault
        end
  end.
End Files.

(** Installed and not about to be removed. *)
Definition stays_installed (p : apk_package) : Prop :=
  exists i, pkg_ipkg p = Some i /\ ip_to_be_removed i = false.

Lemma strcmp_sign a b : (strcmp a b ?= 0) = cmp_list Z.compare a b.
Proof.
  revert b. induction a as [|x a IH]; intros [|y b]; simpl; try done.
  destruct (Z.compare_spec x y) as [->|Hlt|Hgt].
  - rewrite Z.eqb_refl. apply IH.
  - assert ((x =? y) = false) as -> by lia. by assert ((x <? y) = true) as -> by lia.
  - assert ((x =? y) = false) as -> by lia. by assert ((x <? y) = false) as -> by lia.
Qed.

Lemma strcmp_opp a b : a <> b -> (strcmp a b <=? 0) = negb (strcmp b a <=? 0).
Proof.
  intros Hne. pose proof (strcmp_sign a b) as H1. pose proof (strcmp_sign b a) as H2.
  rewrite (cmp_opp (cmp_list Z.compare) a b), <- H1 in H2.
  assert (strcmp a b <> 0).
  { intros E. rewrite E in H1. symmetry in H1. by apply cmp_list_Zcompare_eq in H1. }
  destruct (Z.compare_spec (strcmp a b) 0); destruct (Z.compare_spec (strcmp b a) 0); simpl in *;
    try done; try lia.
Qed.

(** Which of two installed packages owns a shared directory does not depend on
    which of them came first: of two packages with different names that both stay
    installed, exactly one gives way to the other. *)
Theorem replaces_dir_antisymmetric a b :
  stays_installed a -> stays_installed b -> pkg_name a <> pkg_name b ->
  exists r, apk_pkg_replaces_dir (Some a) (Some b) = Ok r /\
    (r = APK_PKG_REPLACES_YES /\ apk_pkg_replaces_dir (Some b) (Some a) = Ok APK_PKG_REPLACES_NO
     \/ r = APK_PKG_REPLACES_NO /\ apk_pkg_replaces_dir (Some b) (Some a) = Ok APK_PKG_REPLACES_YES).
Proof.
  intros (ai & Ha & Ra) (bi & Hb & Rb) Hn. unfold apk_pkg_replaces_dir.
  rewrite (bool_decide_false (pkg_name a = pkg_name b)), (bool_decide_false (pkg_name b = pkg_name a))
    by congruence. rewrite Ha, Hb, Ra, Rb. eexists. split; [done |].
  rewrite (strcmp_opp (pkg_name a) (pkg_name b)) by done.
  assert (bool_decide (pkg_origin b = pkg_origin a) = bool_decide (pkg_origin a = pkg_origin b)) as ->.
  { apply bool_decide_ext. split; congruence. }
  destruct (ip_replaces_priority bi <? ip_replaces_priority ai) eqn:E1,
    (ip_replaces_priority ai <? ip_replaces_priority bi) eqn:E2; bool_prop; [lia | by right | by left |].
  destruct (bool_decide (pkg_origin a = pkg_origin b)) eqn:Eo; bool_prop.
  2: { rewrite !andb_false_r. simpl. destruct (strcmp (pkg_name b) (pkg_name a) <=? 0); [by left | by right]. }
  rewrite Eo, !andb_true_r.
  destruct (negb (length (pkg_origin b) =? 0)%nat); simpl;
    [| destruct (strcmp (pkg_name b) (pkg_name a) <=? 0); [by left | by right]].
  destruct (apk_blob_compare (pkg_origin b) (pkg_name a) =? 0) eqn:Ea,
    (apk_blob_compare (pkg_origin b) (pkg_name b) =? 0) eqn:Eb; bool_prop; [| by right | by left |].
  - apply apk_blob_compare_eq0 in Ea, Eb. congruence.
  - destruct (strcmp (pkg_name b) (pkg_name a) <=? 0); [by left | by right].
Qed.

Definition example_installed (addr : nat) (name origin : bytes) : apk_package :=
  mk_pkg addr name (lit "1") [] [] [] [] [] [] [] origin [] [] [] [] 0 0 0 0 0 0 false false 0 2
    (replicate 20 7) (Some (mk_ipkg [] 0 0 false false false false false)).

Lemma replaces_dir_antisymmetric_witness :
  let a := example_installed 1 (lit "bar") (lit "foo") in
  let b := example_installed 2 (lit "foo") (lit "foo") in
  exists r, apk_pkg_replaces_dir (Some a) (Some b) = Ok r /\
    (r = APK_PKG_REPLACES_YES /\ apk_pkg_replaces_dir (Some b) (Some a) = Ok APK_PKG_REPLACES_NO
     \/ r = APK_PKG_REPLACES_NO /\ apk_pkg_replaces_dir (Some b) (Some a) = Ok APK_PKG_REPLACES_YES).
Proof.
  intros a b. apply (replaces_dir_antisymmetric a b); [by eexists | by eexists | done].
Defined.

(** The rule is not a consistent order on three packages: the package named
    like the common origin wins against its sibling, the sibling wins against a third
    package by name, and the third wins against the first by name.  The owner of a
    directory shared by the three depends on the order they are considered in, although
    the name comparison is there to make it stable. *)
Theorem replaces_dir_cycle :
  exists a b c, stays_installed a /\ stays_installed b /\ stays_installed c /\
    apk_pkg_replaces_dir (Some a) (Some b) = Ok APK_PKG_REPLACES_YES /\
    apk_pkg_replaces_dir (Some b) (Some c) = Ok APK_PKG_REPLACES_YES /\
    apk_pkg_replaces_dir (Some c) (Some a) = Ok APK_PKG_REPLACES_YES.
Proof.
  exists (example_installed 1 (lit "bar") (lit "foo")), (example_installed 2 (lit "foo") (lit "foo")),
    (example_installed 3 (lit "cat") []).
  split_and!; try (by eexists); by vm_compute.
Qed.

Lemma replaces_file_eq garbage a b :
  stays_installed a -> stays_installed b -> pkg_name a <> pkg_name b ->
  exists ai bi, pkg_ipkg a = Some ai /\ pkg_ipkg b = Some bi /\
  apk_pkg_replaces_file garbage (Some a) (Some b) =
  (let! a_prio := replaces_prio garbage (ip_replaces ai) b (ip_replaces_priority ai) in
   let! b_prio := replaces_prio garbage (ip_replaces bi) a (ip_replaces_priority bi) in
   Ok (if b_prio <? a_prio then APK_PKG_REPLACES_NO
       else if 0 <=? b_prio then APK_PKG_REPLACES_YES
       else if negb (length (pkg_origin a) =? 0)%nat
               && bool_decide (pkg_origin a = pkg_origin b) then APK_PKG_REPLACES_YES
       else APK_PKG_REPLACES_CONFLICT)).
Proof.
  intros (ai & Ha & Ra) (bi & Hb & Rb) Hn. exists ai, bi. split_and!; [done | done |].
  unfold apk_pkg_replaces_file. rewrite bool_decide_false by done. by rewrite Ha, Hb, Ra, Rb.
Qed.

Lemma replaces_prio_ge garbage deps pkg prio r :
  0 <= prio -> replaces_prio garbage deps pkg prio = Ok r -> -1 <= r.
Proof.
  intros Hp. induction deps as [|d deps IH]; cbn [replaces_prio]; [intros [= <-]; lia |].
  destruct (apk_dep_is_materialized garbage d (Some pkg)) as [[]|]; simpl; [| exact IH | done].
  intros E. injection E as E. lia.
Qed.

(** Decisions about a file are consistent in both directions: if the owner keeps
    the file against another installed package, then it would also take the file from
    that package; and a conflict is reported for one order of the two packages exactly
    when it is for the other. *)
Theorem replaces_file_consistent garbage a b r r' :
  stays_installed a -> stays_installed b -> pkg_name a <> pkg_name b ->
  (forall i, pkg_ipkg a = Some i \/ pkg_ipkg b = Some i -> 0 <= ip_replaces_priority i) ->
  apk_pkg_replaces_file garbage (Some a) (Some b) = Ok r ->
  apk_pkg_replaces_file garbage (Some b) (Some a) = Ok r' ->
  (r = APK_PKG_REPLACES_NO -> r' = APK_PKG_REPLACES_YES) /\
  (r = APK_PKG_REPLACES_CONFLICT <-> r' = APK_PKG_REPLACES_CONFLICT).
Proof.
  intros Ha Hb Hn Hprio.
  destruct (replaces_file_eq garbage a b Ha Hb Hn) as (ai & bi & Hai & Hbi & ->).
  destruct (replaces_file_eq garbage b a Hb Ha) as (bi' & ai' & Hbi' & Hai' & ->); [done |].
  simplify_eq. assert (bool_decide (pkg_origin b = pkg_origin a) = bool_decide (pkg_origin a = pkg_origin b)) as ->.
  { apply bool_decide_ext. split; congruence. }
  destruct (replaces_prio garbage (ip_replaces ai) b _) as [pa|] eqn:Ea; [| done].
  destruct (replaces_prio garbage (ip_replaces bi) a _) as [pb|] eqn:Eb; [| done]. simpl.
  apply replaces_prio_ge in Ea; [| by apply Hprio; left]. apply replaces_prio_ge in Eb; [| by apply Hprio; right].
  intros H1 H2. injection H1 as <-. injection H2 as <-.
  destruct (bool_decide (pkg_origin a = pkg_origin b)) eqn:Eo; bool_prop; rewrite ?Eo, ?andb_false_r, ?andb_true_r;
    repeat case_if; bool_prop; split; try done; lia.
Qed.

Lemma replaces_file_consistent_witness :
  let a := example_installed 1 (lit "bar") (lit "foo") in
  let b := example_installed 2 (lit "foo") (lit "foo") in
  (APK_PKG_REPLACES_YES = APK_PKG_REPLACES_NO -> APK_PKG_REPLACES_YES = APK_PKG_REPLACES_YES) /\
  (APK_PKG_REPLACES_YES = APK_PKG_REPLACES_CONFLICT <-> APK_PKG_REPLACES_YES = APK_PKG_REPLACES_CONFLICT).
Proof.
  intros a b.
  apply (replaces_file_consistent (mk_digest 0 0 []) a b); [by eexists | by eexists | done | | done | done].
  simpl. intros i [[= <-]|[= <-]]; simpl; lia.
Defined.

(** ** Names of scripts *)

Definition apk_script_types : list bytes :=
  [lit "pre-install"; lit "post-install"; lit "pre-deinstall"; lit "post-deinstall";
   lit "pre-upgrade"; lit "post-upgrade"; lit "trigger"].

Definition APK_SCRIPT_INVALID : Z := -1.

Fixpoint script_type_loop (types : list bytes) (i : Z) (name : bytes) : Z :=
  match types with
  | [] => APK_SCRIPT_INVALID
  | t :: types' => if strcmp t name =? 0 then i else script_type_loop types' (i + 1) name
  end.

Definition apk_script_type (name : bytes) : Z := script_type_loop apk_script_types 0 name.

(** ** File name patterns *)

(** [apk_blob_subst]: [base] is the address of the output buffer, of which [to] is the
    written part and the room left.  A truncation to [N] characters moves the write
    pointer back to [start + N] computed modulo [2^64]; a pointer before the buffer is a
    fault.  [inl] is an error code. *)
Section Subst.
Context (base : Z) (res : bytes -> pushbuf -> Z * pushbuf).

(** Applies [${key:N}]'s limit after the substitution wrote from [start] on. *)
Definition subst_truncate (start : nat) (limit : option Z) (to : pushbuf) : outcome pushbuf :=
  match to, limit with
  | Some (w, n), Some lim =>
      let max_advance := u64 (base + Z.of_nat start + lim) in
      let ptr := base + Z.of_nat (length w) in
      if max_advance <? ptr then
        if max_advance <? base then Fault
        else
          let keep := Z.to_nat (max_advance - base) in
          Ok (Some (take keep w, (n + (length w - keep))%nat))
      else Ok to
  | _, _ => Ok to
  end.

Fixpoint subst_loop (fuel : nat) (to : pushbuf) (fmt : bytes) : option (outcome (Z + pushbuf)) :=
  match apk_blob_split fmt (lit "${") with
  | None => Some (Ok (inr (apk_blob_push_blob (apk_blob_push_blob to fmt) [0])))
  | Some (prefix, key) =>
      match fuel with
      | O => None
      | S fuel =>
          match apk_blob_push_blob to prefix with
          | None => Some (Ok (inl (- APKE_BUFFER_SIZE)))
          | Some (w, n) =>
              match apk_blob_split key (lit "}") with
              | None => Some (Ok (inl (- APKE_FORMAT_INVALID)))
              | Some (key, fmt') =>
                  let '(key, limit, bad) :=
                    match apk_blob_split key (lit ":") with
                    | None => (key, None, false)
                    | Some (key, len) =>
                        let '(v, rest) := apk_blob_pull_uint (Some len) 10 in
                        (key, Some v, negb (length (bdata rest) =? 0)%nat)
                    end in
                  if bad then Some (Ok (inl (- APKE_FORMAT_INVALID)))
                  else
                    let '(ret, to') := res key (Some (w, n)) in
                    if ret <? 0 then Some (Ok (inl ret))
                    else
                      match subst_truncate (length w) limit to' with
                      | Fault => Some Fault
                      | Ok to'' => subst_loop fuel to'' fmt'
                      end
              end
          end
      end
  end.

(** The length of the result, or an error, and the text with its terminator. *)
Definition apk_blob_subst (sz : nat) (fmt : bytes) : option (outcome (Z * bytes)) :=
  match subst_loop (S (length fmt)) (pushbuf_new sz) fmt with
  | None => None
  | Some Fault => Some Fault
  | Some (Ok (inl e)) => Some (Ok (e, []))
  | Some (Ok (inr None)) => Some (Ok (- APKE_BUFFER_SIZE, []))
  | Some (Ok (inr (Some (w, _)))) => Some (Ok (Z.of_nat (length w) - 1, w))
  end.
End Subst.

Definition apk_pkg_subst (pkg : apk_package) (key : bytes) (to : pushbuf) : Z * pushbuf :=
  if apk_blob_compare key (lit "name") =? 0 then (0, apk_blob_push_blob to (pkg_name pkg))
  else if apk_blob_compare key (lit "version") =? 0 then (0, apk_blob_push_blob to (pkg_version pkg))
  else if apk_blob_compare key (lit "arch") =? 0 then (0, apk_blob_push_blob to (pkg_arch pkg))
  else if apk_blob_compare key (lit "hash") =? 0 then
    (0, apk_blob_push_hexdump to (apk_pkg_digest_blob pkg))
  else (- APKE_PACKAGE_NAME_SPEC, to).

(** The package the pattern is tried on. *)
Definition subst_test_pkg : apk_package :=
  mk_pkg 0 (lit "test") (lit "1") [] [] [] [] [] (lit "noarch") [] [] [] [] [] [] 0 0 0 0 0 0 false false 0
    APK_DIGEST_NONE [] None.

Definition apk_pkg_subst_validate (base : Z) (fmt : bytes) : option (outcome Z) :=
  match apk_blob_subst base (apk_pkg_subst subst_test_pkg) 1024 fmt with
  | None => None
  | Some Fault => Some Fault
  | Some (Ok (r, _)) =>
      if r <? 0 then Some (Ok r)
      else
        let fmt := match apk_blob_rsplit fmt (chr "/") with Some (_, r) => r | None => fmt end in
        Some (Ok (
          if negb (apk_blob_starts_with fmt (lit "${name}")) then - APKE_PACKAGE_NAME_SPEC
          else if (length fmt <? 8)%nat
                  (* strchr also finds the terminating NUL *)
                  || negb (bool_decide (nth 7 fmt 0 ∈ lit "_-." ++ [0]))
          then - APKE_PACKAGE_NAME_SPEC
          else 0))
  end.

Lemma split_length b t l r :
  apk_blob_split b t = Some (l, r) -> (length l + length t + length r = length b)%nat.
Proof. intros [-> _]%apk_blob_split_Some. rewrite !length_app. lia. Qed.

Lemma subst_loop_total base res fuel to fmt :
  (length fmt < fuel)%nat -> exists r, subst_loop base res fuel to fmt = Some r.
Proof.
  revert to fmt. induction fuel as [|fuel IH]; intros to fmt Hf; [lia |]. cbn [subst_loop].
  destruct (apk_blob_split fmt (lit "${")) as [[prefix key]|] eqn:E1; [| by eexists].
  apply split_length in E1. destruct (apk_blob_push_blob to prefix) as [[w n]|]; [| by eexists].
  destruct (apk_blob_split key (lit "}")) as [[key1 fmt']|] eqn:E2; [| by eexists].
  apply split_length in E2. simpl in E1, E2.
  destruct (match apk_blob_split key1 (lit ":") with Some _ => _ | None => _ end) as [[key2 limit] bad].
  destruct bad; [by eexists |]. destruct (res key2 (Some (w, n))) as [ret to'].
  destruct (ret <? 0); [by eexists |].
  destruct (subst_truncate base (length w) limit to') as [to''|]; [| by eexists].
  apply IH. lia.
Qed.

(** A limit that keeps the end pointer inside the address space. *)
Lemma subst_truncate_safe base start limit w n sz :
  0 <= base -> (start <= length w)%nat -> (length w + n = sz)%nat ->
  (forall lim, limit = Some lim -> 0 <= lim /\ base + Z.of_nat start + lim < 2 ^ 64) ->
  exists w' n', subst_truncate base start limit (Some (w, n)) = Ok (Some (w', n')) /\
    (length w' + n' = sz)%nat /\
    w' = match limit with Some lim => take (start + Z.to_nat lim) w | None => w end.
Proof.
  intros Hb Hs Hsz Hlim. unfold subst_truncate. destruct limit as [lim|]; [| by eexists _, _].
  destruct (Hlim lim) as [Hl1 Hl2]; [done |]. rewrite u64_small by lia.
  destruct (base + Z.of_nat start + lim <? base + Z.of_nat (length w)) eqn:E; bool_prop.
  - assert ((base + Z.of_nat start + lim <? base) = false) as -> by lia.
    assert (Z.to_nat (base + Z.of_nat start + lim - base) = (start + Z.to_nat lim)%nat) as -> by lia.
    eexists _, _. split_and!; [done | rewrite length_take; lia | done].
  - eexists _, _. split_and!; [done | done |]. by rewrite take_ge by lia.
Qed.

(** Expanding a file name pattern terminates for every pattern and substitution;
    and a substitution limit [${key:N}] keeps exactly the first N characters that were
    written for the key, inside the buffer, as long as the address [start + N] does not
    exceed the address space. *)
Theorem subst_terminates_and_truncates base res sz fmt start lim w n :
  0 <= base -> (start <= length w)%nat -> (length w + n = sz)%nat -> 0 <= lim ->
  base + Z.of_nat start + lim < 2 ^ 64 ->
  (exists r, apk_blob_subst base res sz fmt = Some r) /\
  exists n', subst_truncate base start (Some lim) (Some (w, n))
             = Ok (Some (take (start + Z.to_nat lim) w, n')) /\
    (length (take (start + Z.to_nat lim) w) + n' = sz)%nat.
Proof.
  intros Hb Hs Hsz Hl Hlim. split.
  - unfold apk_blob_subst. destruct (subst_loop_total base res (S (length fmt)) (pushbuf_new sz) fmt)
      as [[[e|[[w' n']|]]|] ->]; [lia | by eexists..].
  - destruct (subst_truncate_safe base start (Some lim) w n sz) as (w' & n' & H & Hw & ->);
      [done | done | done | by intros ? [= <-] |]. by exists n'.
Qed.

Lemma subst_terminates_and_truncates_witness :
  (exists r, apk_blob_subst 4096 (apk_pkg_subst subst_test_pkg) 64 (lit "${name:2}-x.apk") = Some r) /\
  exists n', subst_truncate 4096 0 (Some 2) (Some (lit "test", 60%nat))
             = Ok (Some (take (0 + Z.to_nat 2) (lit "test"), n')) /\
    (length (take (0 + Z.to_nat 2) (lit "test")) + n' = 64)%nat.
Proof.
  apply (subst_terminates_and_truncates 4096 (apk_pkg_subst subst_test_pkg) 64 (lit "${name:2}-x.apk") 0 2
    (lit "test") 60); simpl; lia.
Defined.

(** Nothing bounds the limit of a pattern: with a limit close to 2^64 the end
    pointer wraps around and the write pointer is moved in front of the buffer. *)
Theorem subst_limit_wraps base :
  0 < base < 2 ^ 63 ->
  apk_blob_subst base (apk_pkg_subst subst_test_pkg) 1024 (lit "${name:18446744073709551615}") = Some Fault.
Proof.
  intros Hb. unfold apk_blob_subst.
  change (subst_loop base (apk_pkg_subst subst_test_pkg) (S (length (lit "${name:18446744073709551615}")))
    (pushbuf_new 1024) (lit "${name:18446744073709551615}"))
    with (match subst_truncate base 0 (Some 18446744073709551615) (Some (lit "test", 1020%nat)) with
          | Fault => Some Fault
          | Ok to'' => subst_loop base (apk_pkg_subst subst_test_pkg) (length (lit "${name:18446744073709551615}")) to'' []
          end).
  assert (u64 (base + Z.of_nat 0 + 18446744073709551615) = base - 1) as Hwrap.
  { unfold u64. replace (base + Z.of_nat 0 + 18446744073709551615) with (base - 1 + 1 * 2 ^ 64) by lia.
    rewrite Z.mod_add by lia. apply Z.mod_small. lia. }
  unfold subst_truncate. cbv zeta. rewrite Hwrap. change (Z.of_nat (length (lit "test"))) with 4.
  assert ((base - 1 <? base + 4) = true) as -> by lia. by assert ((base - 1 <? base) = true) as -> by lia.
Qed.

Lemma subst_limit_wraps_witness :
  apk_blob_subst 4096 (apk_pkg_subst subst_test_pkg) 1024 (lit "${name:18446744073709551615}") = Some Fault.
Proof. apply (subst_limit_wraps 4096). lia. Defined.

(** ** Walking dependencies *)

Definition APK_FOREACH_NO_CONFLICTS : Z := 0x08.
Definition APK_FOREACH_INSTALLED : Z := 0x10.
Definition APK_FOREACH_MARKED : Z := 0x20.
Definition APK_FOREACH_DEP : Z := 0x80.
Definition APK_FOREACH_GENID_MASK : Z := 0xffffff00.

(** The next generation: [foreach_genid += (~APK_FOREACH_GENID_MASK) + 1]. *)
Definition apk_foreach_genid (foreach_genid : Z) : Z := u32 (foreach_genid + 0x100).

(** [pkg->foreach_genid] of every package, by address. *)
Abbreviation genids := (gmap nat Z).
Definition genid_of (g : genids) (pkg : apk_package) : Z := default 0 (g !! pkg_addr pkg).

Definition apk_pkg_match_genid (g : genids) (pkg : option apk_package) (flags : Z) : bool * genids :=
  let genid := Z.land flags APK_FOREACH_GENID_MASK in
  match pkg with
  | Some p =>
      if genid =? 0 then (false, g)
      else if genid <=? genid_of g p then (true, g)
      else (false, <[pkg_addr p := genid]> g)
  | None => (false, g)
  end.

(** What the walk reads of the database. *)
Record rdep_view := mk_view {
  v_rdepends : bytes -> list bytes;
  v_providers : bytes -> list apk_package;
  v_marked : apk_package -> bool;
}.

Section Walk.
Context (garbage : apk_digest) (view : rdep_view).

(** The calls of [cb (pkg0, dep0, pkg)] so far, and the marks. *)
Abbreviation walk := (list (option apk_package * apk_dependency) * genids)%type.

Fixpoint matching_deps (pkg0 : option apk_package) (pkg : option apk_package) (flags : Z)
    (deps : list apk_dependency) : outcome (list (option apk_package * apk_dependency)) :=
  match deps with
  | [] => Ok []
  | d :: deps' =>
      if testmask flags APK_FOREACH_NO_CONFLICTS && apk_dep_conflict d
      then matching_deps pkg0 pkg flags deps'
      else
        let! a := apk_dep_analyze garbage pkg0 d pkg in
        if testmask a flags then
          if testmask flags APK_FOREACH_GENID_MASK && negb (testmask flags APK_FOREACH_DEP)
          then Ok [(pkg0, d)]
          else let! r := matching_deps pkg0 pkg flags deps' in Ok ((pkg0, d) :: r)
        else matching_deps pkg0 pkg flags deps'
  end.

(** [apk_pkg_foreach_matching_dependency]: it has no test of
    [APK_FOREACH_NO_CONFLICTS]. *)
Definition apk_pkg_foreach_matching_dependency (pkg : option apk_package) (deps : list apk_dependency)
    (flags : Z) (mpkg : option apk_package) (w : walk) : outcome walk :=
  let '(seen, g) := apk_pkg_match_genid w.2 pkg flags in
  if seen then Ok (w.1, g)
  else
    let! r := matching_deps pkg mpkg (Z.land flags (Z.lnot APK_FOREACH_NO_CONFLICTS)) deps in
    Ok (w.1 ++ r, g).

Fixpoint foreach_providers (pkg : apk_package) (flags : Z) (ps : list apk_package) (w : walk) :
    outcome walk :=
  match ps with
  | [] => Ok w
  | pkg0 :: ps' =>
      if testmask flags APK_FOREACH_INSTALLED && bool_decide (pkg_ipkg pkg0 = None)
      then foreach_providers pkg flags ps' w
      else if testmask flags APK_FOREACH_MARKED && negb (v_marked view pkg0)
      then foreach_providers pkg flags ps' w
      else
        let '(seen, g) := apk_pkg_match_genid w.2 (Some pkg0) flags in
        if seen then foreach_providers pkg flags ps' (w.1, g)
        else
          let! r := matching_deps (Some pkg0) (Some pkg) flags (pkg_depends pkg0) in
          foreach_providers pkg flags ps' (w.1 ++ r, g)
  end.

Fixpoint foreach_reverse_dependency (pkg : apk_package) (rdepends : list bytes) (flags : Z) (w : walk) :
    outcome walk :=
  match rdepends with
  | [] => Ok w
  | name0 :: rdepends' =>
      let! w' := foreach_providers pkg flags (v_providers view name0) w in
      foreach_reverse_dependency pkg rdepends' flags w'
  end.

Fixpoint foreach_provides (pkg : apk_package) (provides : list apk_dependency) (flags : Z) (w : walk) :
    outcome walk :=
  match provides with
  | [] => Ok w
  | p :: provides' =>
      let! w' := foreach_reverse_dependency pkg (v_rdepends view (dep_name p)) flags w in
      foreach_provides pkg provides' flags w'
  end.

Definition apk_pkg_foreach_reverse_dependency (pkg : apk_package) (flags : Z) (w : walk) : outcome walk :=
  let! w' := foreach_reverse_dependency pkg (v_rdepends view (pkg_name pkg)) flags w in
  foreach_provides pkg (pkg_provides pkg) flags w'.

(** ** Every package is reported once *)

Context (flags : Z).
Hypothesis has_genid : testmask flags APK_FOREACH_GENID_MASK = true.
Hypothesis no_dep : testmask flags APK_FOREACH_DEP = false.

Definition call_addr (c : option apk_package * apk_dependency) : nat :=
  match c.1 with Some p => pkg_addr p | None => 0%nat end.

(** The packages reported so far are distinct and carry this walk's mark. *)
Definition walk_inv (w : walk) : Prop :=
  NoDup (call_addr <$> w.1) /\
  forall a, a ∈ call_addr <$> w.1 -> Z.land flags APK_FOREACH_GENID_MASK <= default 0 (w.2 !! a).

Lemma matching_deps_once pkg0 pkg deps r :
  matching_deps (Some pkg0) pkg flags deps = Ok r -> call_addr <$> r = [] \/ call_addr <$> r = [pkg_addr pkg0].
Proof.
  revert r. induction deps as [|d deps IH]; intros r; cbn [matching_deps]; [intros [= <-]; by left |].
  destruct (testmask flags APK_FOREACH_NO_CONFLICTS && apk_dep_conflict d); [apply IH |].
  destruct (apk_dep_analyze garbage (Some pkg0) d pkg) as [a|]; cbn [obind]; [| done].
  destruct (testmask a flags); [| apply IH]. rewrite has_genid, no_dep. simpl. intros [= <-]. by right.
Qed.

Lemma foreach_providers_inv pkg ps w w' :
  walk_inv w -> foreach_providers pkg flags ps w = Ok w' -> walk_inv w'.
Proof.
  revert w. induction ps as [|pkg0 ps IH]; intros w Hw; cbn [foreach_providers]; [by intros [= <-] |].
  destruct (testmask flags APK_FOREACH_INSTALLED && _); [by apply IH |].
  destruct (testmask flags APK_FOREACH_MARKED && _); [by apply IH |].
  unfold apk_pkg_match_genid. pose proof has_genid as Hgen. unfold testmask in Hgen.
  apply negb_true_iff in Hgen. rewrite Hgen. destruct Hw as [Hnd Hg].
  destruct (Z.land flags APK_FOREACH_GENID_MASK <=? genid_of w.2 pkg0) eqn:E; bool_prop.
  { by apply IH. }
  destruct (matching_deps (Some pkg0) (Some pkg) flags (pkg_depends pkg0)) as [r|] eqn:Er; cbn [obind]; [| done].
  apply IH. unfold walk_inv. simpl. rewrite fmap_app.
  assert (pkg_addr pkg0 ∉ call_addr <$> w.1) as Hnew.
  { intros Hin. apply Hg in Hin. unfold genid_of in E. lia. }
  apply matching_deps_once in Er. split.
  - destruct Er as [-> | ->]; [by rewrite app_nil_r |]. apply NoDup_app. split_and!; [done | | apply NoDup_singleton].
    set_solver.
  - intros a Ha. destruct (decide (a = pkg_addr pkg0)) as [->|Hne].
    + rewrite lookup_insert_eq. simpl. lia.
    + rewrite lookup_insert_ne by done. apply Hg. destruct Er as [Er|Er]; rewrite Er in Ha; set_solver.
Qed.

Lemma foreach_reverse_inv pkg rdepends w w' :
  walk_inv w -> foreach_reverse_dependency pkg rdepends flags w = Ok w' -> walk_inv w'.
Proof.
  revert w. induction rdepends as [|n rdepends IH]; intros w Hw; cbn [foreach_reverse_dependency].
  { by intros [= <-]. }
  destruct (foreach_providers pkg flags _ w) as [w1|] eqn:E; cbn [obind]; [| done].
  apply IH. by eapply foreach_providers_inv.
Qed.

Lemma foreach_provides_inv pkg provides w w' :
  walk_inv w -> foreach_provides pkg provides flags w = Ok w' -> walk_inv w'.
Proof.
  revert w. induction provides as [|p provides IH]; intros w Hw; cbn [foreach_provides].
  { by intros [= <-]. }
  destruct (foreach_reverse_dependency pkg _ flags w) as [w1|] eqn:E; cbn [obind]; [| done].
  apply IH. by eapply foreach_reverse_inv.
Qed.
End Walk.

(** A reverse-dependency walk with a generation number (and without asking for
    every dependency) reports each package at most once, however many names of the
    package it depends on, through however many of its own provided names it is found. *)
Theorem reverse_dependency_once garbage view pkg flags g calls g' :
  testmask flags APK_FOREACH_GENID_MASK = true -> testmask flags APK_FOREACH_DEP = false ->
  apk_pkg_foreach_reverse_dependency garbage view pkg flags ([], g) = Ok (calls, g') ->
  NoDup (call_addr <$> calls).
Proof.
  intros Hg Hd. unfold apk_pkg_foreach_reverse_dependency.
  destruct (foreach_reverse_dependency garbage view pkg _ flags ([], g)) as [w1|] eqn:E; cbn [obind]; [| done].
  intros H. apply (foreach_provides_inv garbage view flags Hg Hd) in H as [H _]; [done |].
  eapply (foreach_reverse_inv garbage view flags Hg Hd); [| exact E].
  split; [constructor | set_solver].
Qed.

(** A package that depends on both names of another one is reported once. *)
Definition example_rdep : apk_package :=
  mk_pkg 5 (lit "curl") (lit "8") [mk_dep (lit "zlib") [] 7 false 0 0; mk_dep (lit "so:libz") [] 7 false 0 0]
    [] [] [] [] [] [] [] [] [] [] [] 0 0 0 0 0 0 false false 0 2 (replicate 20 1) None.
Definition example_zlib : apk_package :=
  mk_pkg 6 (lit "zlib") (lit "1.3") [] [] [mk_dep (lit "so:libz") (lit "1") 1 false 0 0]
    [] [] [] [] [] [] [] [] [] 0 0 0 0 0 0 false false 0 2 (replicate 20 2) None.

Lemma reverse_dependency_once_witness :
  NoDup (call_addr <$> [(Some example_rdep, mk_dep (lit "zlib") [] 7 false 0 0)]).
Proof.
  apply (reverse_dependency_once (mk_digest 0 0 [])
    (mk_view (fun _ => [lit "curl"]) (fun _ => [example_rdep]) (fun _ => false))
    example_zlib (0x100 + 2) ∅ _ {[5%nat := 0x100]}); by vm_compute.
Defined.
