(* ===== verification/Path.v ===== *)
(** * Paths (pathbuilder.c, apk_pathbuilder.h)

    A path in an array of [PATH_MAX] bytes, to which components are pushed and from which they are
    popped. *)

From S2P Require Import Prelude Blob.

Definition ENAMETOOLONG : Z := 36.
Definition PATH_MAX : nat := 4096.

(** The array is as long as in C; the bytes from [namelen + 1] on are what was there before. *)
Record apk_pathbuilder := mk_pb { namelen : Z; pb_name : bytes }.

(** [memcpy (&name[i], b, length b)]. *)
Definition blit (name : bytes) (i : nat) (b : bytes) : bytes := take i name ++ b ++ drop (i + length b) name.

Definition apk_pathbuilder_pushb (pb : apk_pathbuilder) (b : bytes) : Z * apk_pathbuilder :=
  let oldlen := namelen pb in
  let i := Z.to_nat oldlen in
  if (PATH_MAX <=? i + length b + 2)%nat then (- ENAMETOOLONG, pb)
  else
    let '(i, name) := if (i =? 0)%nat then (i, pb_name pb) else (S i, <[i := chr "/"]> (pb_name pb)) in
    let name := blit name i b in
    let len := u16 (Z.of_nat (i + length b)) in
    (oldlen, mk_pb len (<[Z.to_nat len := 0]> name)).

Definition apk_pathbuilder_pop (pb : apk_pathbuilder) (pos : Z) : apk_pathbuilder :=
  if pos <? 0 then pb else mk_pb (u16 pos) (<[Z.to_nat (u16 pos) := 0]> (pb_name pb)).

Definition apk_pathbuilder_setb (pb : apk_pathbuilder) (b : bytes) : Z * apk_pathbuilder :=
  apk_pathbuilder_pushb (mk_pb 0 (pb_name pb)) b.

Definition apk_pathbuilder_get (pb : apk_pathbuilder) : bytes := take (Z.to_nat (namelen pb)) (pb_name pb).

(** The C string in the array. *)
Definition apk_pathbuilder_cstr (pb : apk_pathbuilder) : bytes := cstr_prefix (pb_name pb).

Definition path_join (p b : bytes) : bytes := match p with [] => b | _ => p ++ lit "/" ++ b end.

Lemma length_path_join p b : (length (path_join p b) <= length p + length b + 1)%nat.
Proof. unfold path_join. destruct p; rewrite ?length_app; simpl; rewrite ?length_app; simpl; lia. Qed.

(** A path builder that holds the path [p]. *)
Record pb_holds (pb : apk_pathbuilder) (p : bytes) : Prop := {
  ph_len : namelen pb = Z.of_nat (length p);
  ph_room : (length p + 2 < PATH_MAX)%nat;
  ph_array : length (pb_name pb) = PATH_MAX;
  ph_path : take (length p) (pb_name pb) = p;
}.

Lemma pb_get pb p : pb_holds pb p -> apk_pathbuilder_get pb = p.
Proof. intros [H1 H2 H3 H4]. unfold apk_pathbuilder_get. by rewrite H1, Nat2Z.id. Qed.

Lemma blit_take name i b n : (n <= i)%nat -> (i <= length name)%nat -> take n (blit name i b) = take n name.
Proof. intros Hn Hi. unfold blit. rewrite take_app_le by (rewrite length_take; lia). rewrite take_take. f_equal. lia. Qed.

Lemma blit_prefix name i b : (i <= length name)%nat -> take (i + length b) (blit name i b) = take i name ++ b.
Proof.
  intros Hi. unfold blit. rewrite app_assoc, take_app_length'; [done |]. rewrite length_app, length_take. lia.
Qed.

Lemma length_blit name i b : (i + length b <= length name)%nat -> length (blit name i b) = length name.
Proof. intros Hi. unfold blit. rewrite !length_app, length_take, length_drop. lia. Qed.

Lemma u16_small n : (n < PATH_MAX)%nat -> u16 (Z.of_nat n) = Z.of_nat n.
Proof. unfold PATH_MAX. intros Hn. apply Z.mod_small. lia. Qed.

(** Pushing a component appends it; popping takes it away. *)
Lemma pushb_spec pb p b : pb_holds pb p -> (length p + length b + 3 < PATH_MAX)%nat ->
  exists pb', apk_pathbuilder_pushb pb b = (Z.of_nat (length p), pb') /\ pb_holds pb' (path_join p b) /\
    pb_name pb' !! length (path_join p b) = Some 0 /\
    pb_holds (apk_pathbuilder_pop pb' (Z.of_nat (length p))) p.
Proof.
  intros [H1 H2 H3 H4] Hl. unfold apk_pathbuilder_pushb. rewrite H1, Nat2Z.id.
  rewrite (proj2 (Nat.leb_gt _ _)) by lia.
  set (st := if (length p =? 0)%nat then (length p, pb_name pb) else (S (length p), <[length p := chr "/"]> (pb_name pb))).
  assert (exists i name, st = (i, name) /\ (length p <= i <= S (length p))%nat /\ length name = PATH_MAX /\
    take (length p) name = p /\ take i name ++ b = path_join p b) as (i & name & -> & Hi & Hn & Htp & Hti).
  { unfold st. destruct p as [|x p]; cbn [length Nat.eqb]; eexists _, _; (split; [done |]); [by split_and!; try lia |].
    rewrite length_insert. split_and!; [lia | lia | done | by rewrite take_insert_ge |].
    rewrite (take_S_r _ _ (chr "/")) by (apply list_lookup_insert_eq; simpl in *; lia).
    rewrite take_insert_ge by done. cbn [length] in H4. rewrite H4. by rewrite <- app_assoc. }
  rewrite u16_small, Nat2Z.id by lia. eexists. split; [done |].
  assert (length (path_join p b) = i + length b)%nat as Hlen.
  { rewrite <- Hti, length_app, length_take. lia. }
  split_and!; [split; cbn [namelen pb_name] | |].
  - by rewrite Hlen.
  - rewrite Hlen. lia.
  - by rewrite length_insert, length_blit by lia.
  - rewrite Hlen, take_insert_ge, blit_prefix by lia. done.
  - rewrite Hlen. cbn [pb_name]. apply list_lookup_insert_eq. rewrite length_blit; lia.
  - unfold apk_pathbuilder_pop. rewrite (proj2 (Z.ltb_ge _ _)) by lia. rewrite u16_small, Nat2Z.id by lia. split; cbn [namelen pb_name]; try done.
    + by rewrite !length_insert, length_blit by lia.
    + by rewrite !take_insert_ge, blit_take by lia.
Qed.

