(* ===== verification/Solver.v ===== *)
(** * The dependency solver: state and operations (solver.c)

    The solver keeps its state in the [ss] members of names and packages and in
    [struct apk_solver_state].  Here the [ss] members are two finite maps inside the
    solver state, keyed by the name's string and the package's address; a missing
    entry is the zeroed structure.  The four intrusive lists are lists of names, in
    queue order, and the result of [list_hashed] on a name's list node is a flag of the
    name ([list_del_init] and [list_pop] clear it, [list_del] leaves the node poisoned
    and hence "hashed").

    Machine widths that matter are kept: [requirers], [merge_depends] and
    [merge_provides] are 16-bit, [conflicts] is 32-bit, [order_id] is a signed 32-bit
    integer.  [errors] is a plain integer: it counts each package at most once and each
    name at most once.

    [discover_name] and the change set generation are recursive in the code; here they
    take fuel and return [None] when it runs out.  SolverFacts.v and SolverChangeset.v
    hold the theorems. *)

From S2P Require Import Prelude Blob BlobCodec Ctype Version Digest Dep Package PackageRules.

(** ** State *)

Record apk_solver_name_state := mk_ns {
  ns_chosen : apk_provider;
  ns_dirty_hashed : bool;
  ns_unresolved_hashed : bool;
  ns_installed_name : option bytes;
  ns_installed_pkg : option apk_package;
  ns_order_id : Z;
  ns_requirers : Z;
  ns_merge_depends : Z;
  ns_merge_provides : Z;
  ns_seen : bool;
  ns_locked : bool;
  ns_changeset_processed : bool;
  ns_changeset_removed : bool;
  ns_reevaluate_deps : bool;
  ns_reevaluate_iif : bool;
  ns_has_iif : bool;
  ns_no_iif : bool;
  ns_has_options : bool;
  ns_reverse_deps_done : bool;
  ns_has_virtual_provides : bool;
  ns_has_auto_selectable : bool;
  ns_iif_needed : bool;
  ns_resolvenow : bool;
}.

Definition eta_ns (s : apk_solver_name_state) : apk_solver_name_state :=
  mk_ns (ns_chosen s) (ns_dirty_hashed s) (ns_unresolved_hashed s) (ns_installed_name s)
    (ns_installed_pkg s) (ns_order_id s) (ns_requirers s) (ns_merge_depends s)
    (ns_merge_provides s) (ns_seen s) (ns_locked s) (ns_changeset_processed s)
    (ns_changeset_removed s) (ns_reevaluate_deps s) (ns_reevaluate_iif s) (ns_has_iif s)
    (ns_no_iif s) (ns_has_options s) (ns_reverse_deps_done s) (ns_has_virtual_provides s)
    (ns_has_auto_selectable s) (ns_iif_needed s) (ns_resolvenow s).
Definition set_ns_chosen (v : apk_provider) (s : apk_solver_name_state) : apk_solver_name_state :=
  ltac:(record_set eta_ns ns_chosen s v).
Definition set_ns_dirty_hashed (v : bool) (s : apk_solver_name_state) : apk_solver_name_state :=
  ltac:(record_set eta_ns ns_dirty_hashed s v).
Definition set_ns_unresolved_hashed (v : bool) (s : apk_solver_name_state) : apk_solver_name_state :=
  ltac:(record_set eta_ns ns_unresolved_hashed s v).
Definition set_ns_installed_name (v : option bytes) (s : apk_solver_name_state) : apk_solver_name_state :=
  ltac:(record_set eta_ns ns_installed_name s v).
Definition set_ns_installed_pkg (v : option apk_package) (s : apk_solver_name_state) : apk_solver_name_state :=
  ltac:(record_set eta_ns ns_installed_pkg s v).
Definition set_ns_order_id (v : Z) (s : apk_solver_name_state) : apk_solver_name_state :=
  ltac:(record_set eta_ns ns_order_id s v).
Definition set_ns_requirers (v : Z) (s : apk_solver_name_state) : apk_solver_name_state :=
  ltac:(record_set eta_ns ns_requirers s v).
Definition set_ns_merge_depends (v : Z) (s : apk_solver_name_state) : apk_solver_name_state :=
  ltac:(record_set eta_ns ns_merge_depends s v).
Definition set_ns_merge_provides (v : Z) (s : apk_solver_name_state) : apk_solver_name_state :=
  ltac:(record_set eta_ns ns_merge_provides s v).
Definition set_ns_seen (v : bool) (s : apk_solver_name_state) : apk_solver_name_state :=
  ltac:(record_set eta_ns ns_seen s v).
Definition set_ns_locked (v : bool) (s : apk_solver_name_state) : apk_solver_name_state :=
  ltac:(record_set eta_ns ns_locked s v).
Definition set_ns_changeset_processed (v : bool) (s : apk_solver_name_state) : apk_solver_name_state :=
  ltac:(record_set eta_ns ns_changeset_processed s v).
Definition set_ns_changeset_removed (v : bool) (s : apk_solver_name_state) : apk_solver_name_state :=
  ltac:(record_set eta_ns ns_changeset_removed s v).
Definition set_ns_reevaluate_deps (v : bool) (s : apk_solver_name_state) : apk_solver_name_state :=
  ltac:(record_set eta_ns ns_reevaluate_deps s v).
Definition set_ns_reevaluate_iif (v : bool) (s : apk_solver_name_state) : apk_solver_name_state :=
  ltac:(record_set eta_ns ns_reevaluate_iif s v).
Definition set_ns_has_iif (v : bool) (s : apk_solver_name_state) : apk_solver_name_state :=
  ltac:(record_set eta_ns ns_has_iif s v).
Definition set_ns_no_iif (v : bool) (s : apk_solver_name_state) : apk_solver_name_state :=
  ltac:(record_set eta_ns ns_no_iif s v).
Definition set_ns_has_options (v : bool) (s : apk_solver_name_state) : apk_solver_name_state :=
  ltac:(record_set eta_ns ns_has_options s v).
Definition set_ns_reverse_deps_done (v : bool) (s : apk_solver_name_state) : apk_solver_name_state :=
  ltac:(record_set eta_ns ns_reverse_deps_done s v).
Definition set_ns_has_virtual_provides (v : bool) (s : apk_solver_name_state) : apk_solver_name_state :=
  ltac:(record_set eta_ns ns_has_virtual_provides s v).
Definition set_ns_has_auto_selectable (v : bool) (s : apk_solver_name_state) : apk_solver_name_state :=
  ltac:(record_set eta_ns ns_has_auto_selectable s v).
Definition set_ns_iif_needed (v : bool) (s : apk_solver_name_state) : apk_solver_name_state :=
  ltac:(record_set eta_ns ns_iif_needed s v).
Definition set_ns_resolvenow (v : bool) (s : apk_solver_name_state) : apk_solver_name_state :=
  ltac:(record_set eta_ns ns_resolvenow s v).

Definition name_state0 : apk_solver_name_state :=
  mk_ns (mk_provider None []) false false None None 0 0 0 0 false false false false false false false
    false false false false false false false.

Record apk_solver_package_state := mk_ps {
  ps_conflicts : Z;
  ps_pinning_allowed : Z;
  ps_pinning_preferred : Z;
  ps_solver_flags : Z;
  ps_solver_flags_inheritable : Z;
  ps_seen : bool;
  ps_pkg_available : bool;
  ps_pkg_selectable : bool;
  ps_tag_ok : bool;
  ps_tag_preferred : bool;
  ps_dependencies_used : bool;
  ps_dependencies_merged : bool;
  ps_in_changeset : bool;
  ps_iif_triggered : bool;
  ps_iif_failed : bool;
  ps_error : bool;
}.

Definition eta_ps (s : apk_solver_package_state) : apk_solver_package_state :=
  mk_ps (ps_conflicts s) (ps_pinning_allowed s) (ps_pinning_preferred s) (ps_solver_flags s)
    (ps_solver_flags_inheritable s) (ps_seen s) (ps_pkg_available s) (ps_pkg_selectable s)
    (ps_tag_ok s) (ps_tag_preferred s) (ps_dependencies_used s) (ps_dependencies_merged s)
    (ps_in_changeset s) (ps_iif_triggered s) (ps_iif_failed s) (ps_error s).
Definition set_ps_conflicts (v : Z) (s : apk_solver_package_state) : apk_solver_package_state :=
  ltac:(record_set eta_ps ps_conflicts s v).
Definition set_ps_pinning_allowed (v : Z) (s : apk_solver_package_state) : apk_solver_package_state :=
  ltac:(record_set eta_ps ps_pinning_allowed s v).
Definition set_ps_pinning_preferred (v : Z) (s : apk_solver_package_state) : apk_solver_package_state :=
  ltac:(record_set eta_ps ps_pinning_preferred s v).
Definition set_ps_solver_flags (v : Z) (s : apk_solver_package_state) : apk_solver_package_state :=
  ltac:(record_set eta_ps ps_solver_flags s v).
Definition set_ps_solver_flags_inheritable (v : Z) (s : apk_solver_package_state) : apk_solver_package_state :=
  ltac:(record_set eta_ps ps_solver_flags_inheritable s v).
Definition set_ps_seen (v : bool) (s : apk_solver_package_state) : apk_solver_package_state :=
  ltac:(record_set eta_ps ps_seen s v).
Definition set_ps_pkg_available (v : bool) (s : apk_solver_package_state) : apk_solver_package_state :=
  ltac:(record_set eta_ps ps_pkg_available s v).
Definition set_ps_pkg_selectable (v : bool) (s : apk_solver_package_state) : apk_solver_package_state :=
  ltac:(record_set eta_ps ps_pkg_selectable s v).
Definition set_ps_tag_ok (v : bool) (s : apk_solver_package_state) : apk_solver_package_state :=
  ltac:(record_set eta_ps ps_tag_ok s v).
Definition set_ps_tag_preferred (v : bool) (s : apk_solver_package_state) : apk_solver_package_state :=
  ltac:(record_set eta_ps ps_tag_preferred s v).
Definition set_ps_dependencies_used (v : bool) (s : apk_solver_package_state) : apk_solver_package_state :=
  ltac:(record_set eta_ps ps_dependencies_used s v).
Definition set_ps_dependencies_merged (v : bool) (s : apk_solver_package_state) : apk_solver_package_state :=
  ltac:(record_set eta_ps ps_dependencies_merged s v).
Definition set_ps_in_changeset (v : bool) (s : apk_solver_package_state) : apk_solver_package_state :=
  ltac:(record_set eta_ps ps_in_changeset s v).
Definition set_ps_iif_triggered (v : bool) (s : apk_solver_package_state) : apk_solver_package_state :=
  ltac:(record_set eta_ps ps_iif_triggered s v).
Definition set_ps_iif_failed (v : bool) (s : apk_solver_package_state) : apk_solver_package_state :=
  ltac:(record_set eta_ps ps_iif_failed s v).
Definition set_ps_error (v : bool) (s : apk_solver_package_state) : apk_solver_package_state :=
  ltac:(record_set eta_ps ps_error s v).

Definition package_state0 : apk_solver_package_state :=
  mk_ps 0 0 0 0 0 false false false false false false false false false false false.

(** apk_solver.h *)
Record apk_change := mk_change {
  ch_old_pkg : option apk_package;
  ch_new_pkg : option apk_package;
  ch_old_repository_tag : Z;
  ch_new_repository_tag : Z;
  ch_reinstall : bool;
}.

Record apk_changeset := mk_changeset {
  cs_num_install : Z;
  cs_num_remove : Z;
  cs_num_adjust : Z;
  cs_num_total_changes : Z;
  cs_changes : list apk_change;
}.

Definition changeset0 : apk_changeset := mk_changeset 0 0 0 0 [].

Record apk_solver_state := mk_ss {
  ss_names : gmap bytes apk_solver_name_state;
  ss_pkgs : gmap nat apk_solver_package_state;
  ss_changeset : apk_changeset;
  ss_dirty_head : list bytes;
  ss_unresolved_head : list bytes;
  ss_selectable_head : list bytes;
  ss_resolvenow_head : list bytes;
  ss_errors : Z;
  ss_solver_flags_inherit : Z;
  ss_pinning_inherit : Z;
  ss_default_repos : Z;
  ss_order_count : Z;
  ss_ignore_conflict : bool;
}.

Definition eta_ss (s : apk_solver_state) : apk_solver_state :=
  mk_ss (ss_names s) (ss_pkgs s) (ss_changeset s) (ss_dirty_head s) (ss_unresolved_head s)
    (ss_selectable_head s) (ss_resolvenow_head s) (ss_errors s) (ss_solver_flags_inherit s)
    (ss_pinning_inherit s) (ss_default_repos s) (ss_order_count s) (ss_ignore_conflict s).
Definition set_ss_names (v : gmap bytes apk_solver_name_state) (s : apk_solver_state) : apk_solver_state :=
  ltac:(record_set eta_ss ss_names s v).
Definition set_ss_pkgs (v : gmap nat apk_solver_package_state) (s : apk_solver_state) : apk_solver_state :=
  ltac:(record_set eta_ss ss_pkgs s v).
Definition set_ss_changeset (v : apk_changeset) (s : apk_solver_state) : apk_solver_state :=
  ltac:(record_set eta_ss ss_changeset s v).
Definition set_ss_dirty_head (v : list bytes) (s : apk_solver_state) : apk_solver_state :=
  ltac:(record_set eta_ss ss_dirty_head s v).
Definition set_ss_unresolved_head (v : list bytes) (s : apk_solver_state) : apk_solver_state :=
  ltac:(record_set eta_ss ss_unresolved_head s v).
Definition set_ss_selectable_head (v : list bytes) (s : apk_solver_state) : apk_solver_state :=
  ltac:(record_set eta_ss ss_selectable_head s v).
Definition set_ss_resolvenow_head (v : list bytes) (s : apk_solver_state) : apk_solver_state :=
  ltac:(record_set eta_ss ss_resolvenow_head s v).
Definition set_ss_errors (v : Z) (s : apk_solver_state) : apk_solver_state :=
  ltac:(record_set eta_ss ss_errors s v).
Definition set_ss_solver_flags_inherit (v : Z) (s : apk_solver_state) : apk_solver_state :=
  ltac:(record_set eta_ss ss_solver_flags_inherit s v).
Definition set_ss_pinning_inherit (v : Z) (s : apk_solver_state) : apk_solver_state :=
  ltac:(record_set eta_ss ss_pinning_inherit s v).
Definition set_ss_default_repos (v : Z) (s : apk_solver_state) : apk_solver_state :=
  ltac:(record_set eta_ss ss_default_repos s v).
Definition set_ss_order_count (v : Z) (s : apk_solver_state) : apk_solver_state :=
  ltac:(record_set eta_ss ss_order_count s v).
Definition set_ss_ignore_conflict (v : bool) (s : apk_solver_state) : apk_solver_state :=
  ltac:(record_set eta_ss ss_ignore_conflict s v).

(** ** What the solver reads of the database *)

(** An entry of [name->providers]: its package is never NULL. *)
Abbreviation provider_entry := (apk_package * bytes)%type.
Definition entry_provider (e : provider_entry) : apk_provider := mk_provider (Some e.1) e.2.

Record apk_name_info := mk_name_info {
  ni_providers : list provider_entry;
  ni_rdepends : list bytes;
  ni_rinstall_if : list bytes;
}.

Record solver_db := mk_solver_db {
  sdb_name : bytes -> apk_name_info;
  sdb_installed : list apk_package;      (* installed.packages, in order *)
  sdb_allowed_repos : list Z;            (* repo_tags[i].allowed_repos for i < num_repo_tags *)
  sdb_available_repos : Z;
  sdb_active_layers : Z;
  sdb_cached : apk_package -> bool;      (* pkg->cached *)
  sdb_performing_preupgrade : bool;
  sdb_force_broken_world : bool;
}.

Definition APK_DEFAULT_REPOSITORY_TAG : Z := 0.
Definition APK_DEFAULT_PINNING_MASK : Z := BIT APK_DEFAULT_REPOSITORY_TAG.

Definition APK_SOLVERF_UPGRADE : Z := 0x0001.
Definition APK_SOLVERF_AVAILABLE : Z := 0x0002.
Definition APK_SOLVERF_REINSTALL : Z := 0x0004.
Definition APK_SOLVERF_LATEST : Z := 0x0008.
Definition APK_SOLVERF_IGNORE_CONFLICT : Z := 0x0010.
Definition APK_SOLVERF_INSTALLED : Z := 0x0020.
Definition APK_SOLVERF_REMOVE : Z := 0x0040.

Definition provider_none : apk_provider := mk_provider None [].

(** [version == &apk_atom_null]: the atom of the empty blob. *)
Definition is_atom_null (v : bytes) : bool := match v with [] => true | _ => false end.

(** ** Access to the [ss] members *)

Definition nst (st : apk_solver_state) (n : bytes) : apk_solver_name_state :=
  default name_state0 (ss_names st !! n).
Definition pst (st : apk_solver_state) (p : apk_package) : apk_solver_package_state :=
  default package_state0 (ss_pkgs st !! pkg_addr p).
Definition upd_n (n : bytes) (f : apk_solver_name_state -> apk_solver_name_state)
    (st : apk_solver_state) : apk_solver_state :=
  set_ss_names (<[n := f (nst st n)]> (ss_names st)) st.
Definition upd_p (p : apk_package) (f : apk_solver_package_state -> apk_solver_package_state)
    (st : apk_solver_state) : apk_solver_state :=
  set_ss_pkgs (<[pkg_addr p := f (pst st p)]> (ss_pkgs st)) st.

Definition chosen (st : apk_solver_state) (n : bytes) : apk_provider := ns_chosen (nst st n).
Definition chosen_pkg (st : apk_solver_state) (n : bytes) : option apk_package :=
  prov_pkg (chosen st n).

(** The list node's removal from whichever queue holds it. *)
Definition unlink (n : bytes) (l : list bytes) : list bytes :=
  filter (fun m => m <> n) l.
Definition unlink_unresolved (n : bytes) (st : apk_solver_state) : apk_solver_state :=
  set_ss_unresolved_head (unlink n (ss_unresolved_head st))
    (set_ss_selectable_head (unlink n (ss_selectable_head st))
      (set_ss_resolvenow_head (unlink n (ss_resolvenow_head st)) st)).

(** ** Flags set before solving *)

(** The names marked [solver_flags_set] and the packages' solver state. *)
Abbreviation solver_marks := (gset bytes * gmap nat apk_solver_package_state)%type.

Definition apk_solver_set_name_flags (db : solver_db) (name : bytes)
    (solver_flags solver_flags_inheritable : Z) (m : solver_marks) : solver_marks :=
  ({[name]} ∪ m.1,
   each (fun (e : provider_entry) pkgs =>
     let s := default package_state0 (pkgs !! pkg_addr e.1) in
     <[pkg_addr e.1 :=
         set_ps_solver_flags_inheritable (Z.lor (ps_solver_flags_inheritable s) solver_flags_inheritable)
           (set_ps_solver_flags (Z.lor (ps_solver_flags s) solver_flags) s)]> pkgs)
     (ni_providers (sdb_name db name)) m.2).

(** ** Tags and pinning *)

Fixpoint get_tag_loop (allowed : list Z) (i pinning_mask repos : Z) : Z :=
  match allowed with
  | [] => APK_DEFAULT_REPOSITORY_TAG
  | a :: allowed' =>
      if testmask (BIT i) pinning_mask && testmask a repos then i
      else get_tag_loop allowed' (i + 1) pinning_mask repos
  end.

Definition get_tag (db : solver_db) (pinning_mask repos : Z) : Z :=
  get_tag_loop (sdb_allowed_repos db) 0 pinning_mask repos.

(** An unused entry of [repo_tags] allows no repository. *)
Definition get_pkg_repos (db : solver_db) (pkg : apk_package) : Z :=
  Z.lor (pkg_repos pkg)
    (match pkg_ipkg pkg with
     | Some i => default 0 (sdb_allowed_repos db !! Z.to_nat (ip_repository_tag i))
     | None => 0
     end).

Fixpoint pinning_mask_loop (allowed : list Z) (i pinning_mask repository_mask : Z) : Z :=
  match allowed with
  | [] => repository_mask
  | a :: allowed' =>
      if pinning_mask =? 0 then repository_mask
      else if testmask (BIT i) pinning_mask
      then pinning_mask_loop allowed' (i + 1) (Z.land pinning_mask (Z.lnot (BIT i)))
             (Z.lor repository_mask a)
      else pinning_mask_loop allowed' (i + 1) pinning_mask repository_mask
  end.

Definition apk_db_get_pinning_mask_repos (db : solver_db) (pinning_mask : Z) : Z :=
  pinning_mask_loop (sdb_allowed_repos db) 0 (u16 pinning_mask) 0.

Definition apk_db_pkg_available (db : solver_db) (pkg : apk_package) : bool :=
  testmask (pkg_repos pkg) (sdb_available_repos db).

(** The change flags of a package that [mark_error] sets once; NULL is ignored. *)
Definition mark_error (pkg : option apk_package) (st : apk_solver_state) : apk_solver_state :=
  match pkg with
  | None => st
  | Some p =>
      if ps_error (pst st p) then st
      else let st := upd_p p (set_ps_error true) st in set_ss_errors (ss_errors st + 1) st
  end.

(** ** Queues *)

Definition queue_dirty (name : bytes) (st : apk_solver_state) : apk_solver_state :=
  let s := nst st name in
  if ns_dirty_hashed s || ns_locked s || ((ns_requirers s =? 0) && negb (ns_reevaluate_iif s))
  then st
  else
    let st := upd_n name (set_ns_dirty_hashed true) st in
    set_ss_dirty_head (ss_dirty_head st ++ [name]) st.

Definition queue_resolvenow (s : apk_solver_name_state) : bool :=
  ns_reverse_deps_done s && negb (ns_requirers s =? 0) && ns_has_auto_selectable s
  && negb (ns_has_options s).

(** [name] goes before the first entry whose order is not above its own. *)
Fixpoint queue_insert (order_id : bytes -> Z) (name : bytes) (head : list bytes) : list bytes :=
  match head with
  | [] => [name]
  | name0 :: head' =>
      if order_id name <? order_id name0 then name0 :: queue_insert order_id name head'
      else name :: head
  end.

Definition queue_add (name : bytes) (st : apk_solver_state) : apk_solver_state :=
  let order n := ns_order_id (nst st n) in
  let s := nst st name in
  let st := upd_n name (set_ns_unresolved_hashed true) st in
  if ns_resolvenow s then set_ss_resolvenow_head (ss_resolvenow_head st ++ [name]) st
  else if ns_has_auto_selectable s
  then set_ss_selectable_head (queue_insert order name (ss_selectable_head st)) st
  else set_ss_unresolved_head (queue_insert order name (ss_unresolved_head st)) st.

Definition queue_unresolved (name : bytes) (reevaluate : bool) (st : apk_solver_state) : apk_solver_state :=
  let s := nst st name in
  if ns_locked s then st
  else if ns_unresolved_hashed s then
    if ns_resolvenow s then st
    else if queue_resolvenow s then
      queue_add name
        (upd_n name (fun s => set_ns_unresolved_hashed false (set_ns_resolvenow true s))
          (unlink_unresolved name st))
    else if negb reevaluate then st
    else
      queue_add name (upd_n name (set_ns_unresolved_hashed false) (unlink_unresolved name st))
  else if (ns_requirers s =? 0) && negb (ns_has_iif s) && negb (ns_iif_needed s) then st
  else queue_add name (upd_n name (set_ns_resolvenow (queue_resolvenow s)) st).

Section Solver.
(** [garbage] is the uninitialised digest of [apk_dep_match_checksum] (Dep.v);
    [flags_set] are the names whose flags were set before solving. *)
Context (garbage : apk_digest) (db : solver_db) (flags_set : gset bytes).

Definition providers (name : bytes) : list provider_entry := ni_providers (sdb_name db name).
Definition rdepends (name : bytes) : list bytes := ni_rdepends (sdb_name db name).
Definition rinstall_if (name : bytes) : list bytes := ni_rinstall_if (sdb_name db name).

(** [apk_dep_is_provided].  A checksum dependency whose text makes the digest parser read
    out of bounds (Dep.v) counts as not provided. *)
Definition is_provided (deppkg : option apk_package) (dep : apk_dependency) (p : apk_provider) : bool :=
  match apk_dep_is_provided garbage deppkg dep (Some p) with
  | Ok b => b
  | Fault => false
  end.

(** ** Marking names for reconsideration *)

Definition reevaluate_reverse_deps (name : bytes) (st : apk_solver_state) : apk_solver_state :=
  each (fun name0 st =>
    if ns_seen (nst st name0)
    then queue_dirty name0 (upd_n name0 (set_ns_reevaluate_deps true) st)
    else st) (rdepends name) st.

Definition reevaluate_reverse_installif (name : bytes) (st : apk_solver_state) : apk_solver_state :=
  each (fun name0 st =>
    if negb (ns_seen (nst st name0)) then st
    else if ns_no_iif (nst st name0) then st
    else queue_dirty name0 (upd_n name0 (set_ns_reevaluate_iif true) st)) (rinstall_if name) st.

Definition reevaluate_reverse_installif_pkg (pkg : apk_package) (st : apk_solver_state) : apk_solver_state :=
  each (fun d => reevaluate_reverse_installif (dep_name d)) (pkg_provides pkg)
    (reevaluate_reverse_installif (pkg_name pkg) st).

Definition disqualify_package (pkg : apk_package) (st : apk_solver_state) : apk_solver_state :=
  let st := upd_p pkg (set_ps_pkg_selectable false) st in
  let st := reevaluate_reverse_deps (pkg_name pkg) st in
  let st := each (fun p => reevaluate_reverse_deps (dep_name p)) (pkg_provides pkg) st in
  reevaluate_reverse_installif_pkg pkg st.

Definition dependency_satisfiable (dpkg : apk_package) (dep : apk_dependency) (st : apk_solver_state) : bool :=
  let name := dep_name dep in
  if apk_dep_conflict dep && ss_ignore_conflict st then true
  else if ns_locked (nst st name) then is_provided (Some dpkg) dep (chosen st name)
  else if (ns_requirers (nst st name) =? 0) && is_provided (Some dpkg) dep provider_none then true
  else
    existsb (fun e : provider_entry =>
      ps_pkg_selectable (pst st e.1) && is_provided (Some dpkg) dep (entry_provider e)) (providers name).

(** ** Discovery *)

(** The fields set when a package is first seen. *)
Definition discover_package (pkg : apk_package) (st : apk_solver_state) : apk_solver_state :=
  let filename := negb (pkg_filename_ndx pkg =? 0) in
  let installed := bool_decide (is_Some (pkg_ipkg pkg)) in
  let available := filename || apk_db_pkg_available db pkg in
  let repos := get_pkg_repos db pkg in
  let preferred :=
    filename || (pkg_installed_size pkg =? 0) || testmask repos (ss_default_repos st) in
  upd_p pkg (fun s =>
    set_ps_tag_ok (preferred || pkg_cached_non_repository pkg || installed)
      (set_ps_tag_preferred preferred
      (set_ps_iif_failed
        (bool_decide (pkg_install_if pkg = [])
         || (testmask (ss_solver_flags_inherit st) APK_SOLVERF_AVAILABLE && negb available))
      (set_ps_pkg_selectable
        (negb (pkg_uninstallable pkg)
         && testmask (BIT (pkg_layer pkg)) (sdb_active_layers db)
         && (available || sdb_cached db pkg || filename || pkg_cached_non_repository pkg
             || (pkg_installed_size pkg =? 0) || installed))
      (set_ps_pkg_available available
      (set_ps_pinning_preferred APK_DEFAULT_PINNING_MASK
      (set_ps_pinning_allowed APK_DEFAULT_PINNING_MASK
      (set_ps_seen true s)))))))) st.

(** The number of providers that are packages of another name. *)
Definition num_virtual (name : bytes) : nat :=
  length (filter (fun e : provider_entry => pkg_name e.1 <> name) (providers name)).

Definition discover_order (name : bytes) (st : apk_solver_state) : apk_solver_state :=
  let order_flags :=
    Z.lor (if bool_decide (name ∈ flags_set) then 0 else 2 ^ 31)
      (if (length (providers name) =? num_virtual name)%nat then 0 else 2 ^ 30) in
  let count := u32 (ss_order_count st + 1) in
  upd_n name (set_ns_order_id (s32 (Z.lor order_flags count))) (set_ss_order_count count st).

Fixpoint discover_name (fuel : nat) (name : bytes) (st : apk_solver_state) : option apk_solver_state :=
  if ns_seen (nst st name) then Some st
  else
    match fuel with
    | O => None
    | S fuel =>
        let st := upd_n name (fun s => set_ns_no_iif true (set_ns_seen true s)) st in
        st ← each_opt (fun (e : provider_entry) st =>
               let pkg := e.1 in
               st ← (if ps_seen (pst st pkg) then Some st
                     else each_opt (fun dep => discover_name fuel (dep_name dep)) (pkg_depends pkg)
                            (discover_package pkg st));
               Some (upd_n name (fun s =>
                 set_ns_no_iif (ns_no_iif s && ps_iif_failed (pst st pkg)) s) st))
               (providers name) st;
        st ← each_opt (discover_name fuel) (rinstall_if name) st;
        st ← each_opt (fun (e : provider_entry) st =>
               st ← each_opt (discover_name fuel) (rinstall_if (pkg_name e.1)) st;
               each_opt (fun dep => discover_name fuel (dep_name dep)) (pkg_provides e.1) st)
               (providers name) st;
        each_opt (fun e : provider_entry =>
          each_opt (fun dep => discover_name fuel (dep_name dep)) (pkg_install_if e.1))
          (providers name) (discover_order name st)
    end.

(** ** Constraints *)

Definition name_requirers_changed (name : bytes) (st : apk_solver_state) : apk_solver_state :=
  queue_dirty name (reevaluate_reverse_installif name (queue_unresolved name false st)).

Definition inherit_pinning_and_flags (pkg : apk_package) (ppkg : option apk_package)
    (st : apk_solver_state) : apk_solver_state :=
  let repos := get_pkg_repos db pkg in
  let st :=
    match ppkg with
    | Some pp =>
        let ps := pst st pp in
        upd_p pkg (fun s =>
          set_ps_pinning_allowed (Z.lor (ps_pinning_allowed s) (ps_pinning_allowed ps))
            (set_ps_solver_flags_inheritable
              (Z.lor (ps_solver_flags_inheritable s) (ps_solver_flags_inheritable ps))
            (set_ps_solver_flags (Z.lor (ps_solver_flags s) (ps_solver_flags_inheritable ps)) s))) st
    | None =>
        upd_p pkg (fun s =>
          set_ps_tag_preferred
              (testmask repos (apk_db_get_pinning_mask_repos db (u16 (ss_pinning_inherit st))))
            (set_ps_pinning_preferred (u16 (ss_pinning_inherit st))
            (set_ps_pinning_allowed (u16 (Z.lor (ps_pinning_allowed s) (ss_pinning_inherit st)))
            (set_ps_solver_flags_inheritable
              (u16 (Z.lor (ps_solver_flags_inheritable s) (ss_solver_flags_inherit st)))
            (set_ps_solver_flags (u16 (Z.lor (ps_solver_flags s) (ss_solver_flags_inherit st))) s))))) st
    end in
  upd_p pkg (fun s =>
    set_ps_tag_ok
      (ps_tag_ok s || testmask repos (apk_db_get_pinning_mask_repos db (ps_pinning_allowed s))) s) st.

Definition apply_constraint_provider (ppkg : option apk_package) (dep : apk_dependency)
    (e : provider_entry) (st : apk_solver_state) : apk_solver_state :=
  let pkg0 := e.1 in
  let provided := is_provided ppkg dep (entry_provider e) in
  let st := upd_p pkg0 (fun s => set_ps_conflicts (u32 (ps_conflicts s + b2z (negb provided))) s) st in
  let st :=
    if ps_pkg_selectable (pst st pkg0) && negb (ps_conflicts (pst st pkg0) =? 0)
    then disqualify_package pkg0 st else st in
  if provided then inherit_pinning_and_flags pkg0 ppkg st else st.

Definition apply_constraint (ppkg : option apk_package) (dep : apk_dependency) (st : apk_solver_state) :
    apk_solver_state :=
  let name := dep_name dep in
  if apk_dep_conflict dep && ss_ignore_conflict st then st
  else
    let st :=
      if apk_dep_conflict dep then st
      else
        let st := upd_n name (fun s => set_ns_requirers (u16 (ns_requirers s + 1)) s) st in
        if ns_requirers (nst st name) =? 1 then name_requirers_changed name st else st in
    each (apply_constraint_provider ppkg dep) (providers name) st.

Definition exclude_non_providers (name must_provide : bytes) (skip_virtuals : bool)
    (st : apk_solver_state) : apk_solver_state :=
  if bool_decide (name = must_provide) || ss_ignore_conflict st then st
  else
    each (fun (e : provider_entry) st =>
      if bool_decide (pkg_name e.1 = must_provide) || negb (ps_pkg_selectable (pst st e.1))
         || (skip_virtuals && is_atom_null e.2)
      then st
      else if existsb (fun d => bool_decide (dep_name d = must_provide)
                                || (skip_virtuals && is_atom_null (dep_version d))) (pkg_provides e.1)
      then st
      else disqualify_package e.1 st) (providers name) st.

(** ** Reconsidering a name *)

(** The new index and whether it was advanced. *)
Definition merge_index (index num_options : Z) : Z * bool :=
  if index =? num_options then (u16 (num_options + 1), true) else (index, false).

(** The index is cleared; the result says whether every option advanced it. *)
Definition merge_index_complete (index num_options : Z) : Z * bool := (0, index =? num_options).

Definition merge_depends (num_options : Z) (name : bytes) (st : apk_solver_state) : apk_solver_state :=
  upd_n name (fun s => set_ns_merge_depends (merge_index (ns_merge_depends s) num_options).1 s) st.

(** Merging a provided name; [virtual] tells that it is provided without a version. *)
Definition merge_provides (num_options : Z) (name : bytes) (virtual : bool) (st : apk_solver_state) :
    apk_solver_state :=
  upd_n name (fun s =>
    let '(i, merged) := merge_index (ns_merge_provides s) num_options in
    set_ns_merge_provides i
      (if merged then set_ns_has_virtual_provides (ns_has_virtual_provides s || virtual) s else s)) st.

Definition is_provider_auto_selectable (e : provider_entry) (st : apk_solver_state) : bool :=
  if negb (is_atom_null e.2) then true
  else if negb (pkg_provider_priority e.1 =? 0) then true
  else negb (ns_requirers (nst st (pkg_name e.1)) =? 0).

(** The install-if rules of a package, up to the first that decides. *)
Fixpoint check_install_if (pkg : apk_package) (deps : list apk_dependency) (st : apk_solver_state) :
    apk_solver_state :=
  match deps with
  | [] => st
  | dep :: deps' =>
      let n := dep_name dep in
      if negb (ns_locked (nst st n)) then
        let st :=
          if apk_dep_conflict dep
          then queue_unresolved n false (upd_n n (set_ns_iif_needed true) st) else st in
        upd_p pkg (fun s => set_ps_iif_failed false (set_ps_iif_triggered false s)) st
      else if negb (is_provided (Some pkg) dep (chosen st n))
      then upd_p pkg (fun s => set_ps_iif_failed true (set_ps_iif_triggered false s)) st
      else check_install_if pkg deps' st
  end.

(** The local variables of [reconsider_name]. *)
Record reconsider_vars := mk_rv {
  rv_first_candidate : option apk_package;
  rv_num_options : Z;
  rv_num_tag_not_ok : Z;
  rv_has_iif : bool;
  rv_no_iif : bool;
  rv_has_auto_selectable : bool;
}.

Definition check_depends (pkg : apk_package) (st : apk_solver_state) : apk_solver_state :=
  if forallb (fun dep => dependency_satisfiable pkg dep st) (pkg_depends pkg) then st
  else disqualify_package pkg st.

Definition reconsider_iif (pkg : apk_package) (st : apk_solver_state) : apk_solver_state :=
  let s := pst st pkg in
  let st :=
    if negb (ps_iif_triggered s) && negb (ps_iif_failed s)
    then check_install_if pkg (pkg_install_if pkg)
           (upd_p pkg (fun s => set_ps_iif_failed false (set_ps_iif_triggered true s)) st)
    else st in
  if ps_iif_triggered (pst st pkg)
  then each (fun dep st => inherit_pinning_and_flags pkg (chosen_pkg st (dep_name dep)) st)
         (pkg_install_if pkg) st
  else st.

(** One round of the loop over the providers: the first part may disqualify the package, *)
Definition reconsider_refresh (reevaluate_deps : bool) (pkg : apk_package) (st : apk_solver_state) :
    apk_solver_state :=
  let st := upd_p pkg (set_ps_dependencies_merged false) st in
  if reevaluate_deps && ps_pkg_selectable (pst st pkg) then check_depends pkg st else st.

(** the last part merges the names that an option depends on and provides, *)
Definition merge_option (e : provider_entry) (num_options : Z) (st : apk_solver_state) : apk_solver_state :=
  let pkg := e.1 in
  let st := upd_p pkg (set_ps_dependencies_merged true) st in
  let st := each (fun dep st =>
    if apk_dep_conflict dep then st else merge_depends num_options (dep_name dep) st)
    (pkg_depends pkg) st in
  let st := merge_provides num_options (pkg_name pkg) (is_atom_null e.2) st in
  each (fun dep => merge_provides num_options (dep_name dep) (is_atom_null (dep_version dep)))
    (pkg_provides pkg) st.

(** and between them a selectable package is looked at. *)
Definition reconsider_candidate (name : bytes) (reevaluate_iif : bool) (e : provider_entry)
    (v : reconsider_vars) (st : apk_solver_state) : reconsider_vars * apk_solver_state :=
  let pkg := e.1 in
  let st := if reevaluate_iif then reconsider_iif pkg st else st in
  let s := pst st pkg in
  let has_iif := rv_has_iif v || ps_iif_triggered s in
  let no_iif := rv_no_iif v && ps_iif_failed s in
  let auto := rv_has_auto_selectable v || ps_iif_triggered s in
  if ns_requirers (nst st name) =? 0
  then (mk_rv (rv_first_candidate v) (rv_num_options v) (rv_num_tag_not_ok v) has_iif no_iif auto, st)
  else
    let st := merge_option e (rv_num_options v) st in
    (mk_rv (Some (default pkg (rv_first_candidate v))) (rv_num_options v + 1)
       (rv_num_tag_not_ok v + b2z (negb (ps_tag_ok (pst st pkg)))) has_iif no_iif
       (auto || is_provider_auto_selectable e st), st).

Definition reconsider_provider (name : bytes) (reevaluate_deps reevaluate_iif : bool) (e : provider_entry)
    (vst : reconsider_vars * apk_solver_state) : reconsider_vars * apk_solver_state :=
  let st := reconsider_refresh reevaluate_deps e.1 vst.2 in
  if negb (ps_pkg_selectable (pst st e.1)) then (vst.1, st)
  else reconsider_candidate name reevaluate_iif e vst.1 st.

(** The two ways to propagate the common dependencies of the options. *)
Definition propagate_single (pkg : apk_package) (num_options : Z) (st : apk_solver_state) : apk_solver_state :=
  each (fun dep st =>
    let '(i, complete) := merge_index_complete (ns_merge_depends (nst st (dep_name dep))) num_options in
    let st := upd_n (dep_name dep) (set_ns_merge_depends i) st in
    if complete then apply_constraint (Some pkg) dep st else st) (pkg_depends pkg) st.

Definition propagate_common (pkg : apk_package) (num_options : Z) (st : apk_solver_state) : apk_solver_state :=
  each (fun dep st =>
    let name0 := dep_name dep in
    let '(i, complete) := merge_index_complete (ns_merge_depends (nst st name0)) num_options in
    let st := upd_n name0 (set_ns_merge_depends i) st in
    if complete && (ns_requirers (nst st name0) =? 0) then
      let st := upd_n name0 (fun s => set_ns_requirers (u16 (ns_requirers s + 1)) s) st in
      let st := name_requirers_changed name0 st in
      each (fun (e : provider_entry) => inherit_pinning_and_flags e.1 (Some pkg)) (providers name0) st
    else st) (pkg_depends pkg) st.

Definition provides_transitivity (name : bytes) (num_options : Z) (name0 : bytes) (st : apk_solver_state) :
    apk_solver_state :=
  let '(i, complete) := merge_index_complete (ns_merge_provides (nst st name0)) num_options in
  let st := upd_n name0 (set_ns_merge_provides i) st in
  if complete then exclude_non_providers name0 name (ns_has_virtual_provides (nst st name0)) st else st.

Definition propagate (name : bytes) (pkg : apk_package) (num_options : Z) (st : apk_solver_state) :
    apk_solver_state :=
  let st := each (fun (e : provider_entry) st =>
    upd_p e.1 (fun s => set_ps_dependencies_used (ps_dependencies_merged s) s) st) (providers name) st in
  let st := if num_options =? 1 then propagate_single pkg num_options st
            else propagate_common pkg num_options st in
  let st := provides_transitivity name num_options (pkg_name pkg) st in
  let st := each (fun dep => provides_transitivity name num_options (dep_name dep)) (pkg_provides pkg) st in
  let st := upd_n (pkg_name pkg) (set_ns_has_virtual_provides false) st in
  each (fun dep => upd_n (dep_name dep) (set_ns_has_virtual_provides false)) (pkg_provides pkg) st.

Definition reconsider_name (name : bytes) (st : apk_solver_state) : apk_solver_state :=
  let reevaluate_deps := ns_reevaluate_deps (nst st name) in
  let reevaluate_iif := ns_reevaluate_iif (nst st name) in
  let st := upd_n name (fun s => set_ns_reevaluate_iif false (set_ns_reevaluate_deps false s)) st in
  let '(v, st) := each (reconsider_provider name reevaluate_deps reevaluate_iif) (providers name)
    (mk_rv None 0 0 false true false, st) in
  let reevaluate := negb (Bool.eqb (rv_has_auto_selectable v) (ns_has_auto_selectable (nst st name))) in
  let st := upd_n name (fun s =>
    set_ns_has_auto_selectable (rv_has_auto_selectable v)
      (set_ns_no_iif (rv_no_iif v)
      (set_ns_has_iif (rv_has_iif v)
      (set_ns_has_options ((1 <? rv_num_options v) || (0 <? rv_num_tag_not_ok v)) s)))) st in
  let st := match rv_first_candidate v with
            | Some pkg => propagate name pkg (rv_num_options v) st
            | None => st
            end in
  let done := forallb (fun name0 => negb (ns_seen (nst st name0) && negb (ns_locked (nst st name0))))
                (rdepends name) in
  queue_unresolved name reevaluate (upd_n name (set_ns_reverse_deps_done done) st).

(** ** Choosing *)

(** [ffs]: the position of the lowest bit, from 1; 0 for 0. *)
Fixpoint ffs_loop (n : nat) (i x : Z) : Z :=
  match n with
  | O => 0
  | S n => if Z.testbit x i then i + 1 else ffs_loop n (i + 1) x
  end.
Definition ffs (x : Z) : Z := ffs_loop 32 0 x.

(** The first difference that is not 0. *)
Definition first_nonzero (r : Z) (rest : Z) : Z := if r =? 0 then rest else r.

Definition prefer (a b : bool) : Z := b2z a - b2z b.

Definition version_preference (a b : bytes) : Z :=
  let r := apk_version_compare (Some a) (Some b) in
  if r =? APK_VERSION_LESS then -1 else if r =? APK_VERSION_GREATER then 1 else 0.

Definition compare_providers (st : apk_solver_state) (pA pB : apk_provider) : Z :=
  match prov_pkg pA, prov_pkg pB with
  | Some pkgA, Some pkgB =>
      let sA := pst st pkgA in
      let sB := pst st pkgB in
      let solver_flags := Z.lor (ps_solver_flags sA) (ps_solver_flags sB) in
      let flag m := testmask solver_flags m in
      let installed := prefer (bool_decide (is_Some (pkg_ipkg pkgA))) (bool_decide (is_Some (pkg_ipkg pkgB))) in
      let selectable := prefer (ps_pkg_selectable sA) (ps_pkg_selectable sB) in
      let available := prefer (ps_pkg_available sA) (ps_pkg_available sB) in
      let tag_ok := prefer (ps_tag_ok sA) (ps_tag_ok sB) in
      let same_name := bool_decide (pkg_name pkgA = pkg_name pkgB) in
      let by_mode :=
        if flag APK_SOLVERF_LATEST && (ps_pinning_allowed sA =? APK_DEFAULT_PINNING_MASK)
           && (ps_pinning_allowed sB =? APK_DEFAULT_PINNING_MASK)
        then
          first_nonzero tag_ok
            (if flag APK_SOLVERF_AVAILABLE then available
             else if flag APK_SOLVERF_REINSTALL then selectable else 0)
        else
          first_nonzero selectable
          (first_nonzero (prefer (ps_dependencies_used sA) (ps_dependencies_used sB))
          (first_nonzero (s32 (ps_conflicts sB - ps_conflicts sA))
          (first_nonzero
            (if (sdb_performing_preupgrade db && negb (flag APK_SOLVERF_UPGRADE)) || flag APK_SOLVERF_INSTALLED
             then installed else 0)
          (first_nonzero tag_ok
          (first_nonzero (if flag APK_SOLVERF_AVAILABLE then available else 0)
          (first_nonzero (prefer (ps_tag_preferred sA) (ps_tag_preferred sB))
            (if negb (flag (Z.lor APK_SOLVERF_REMOVE APK_SOLVERF_UPGRADE))
                && (same_name || negb (is_atom_null (prov_version pA)) || negb (is_atom_null (prov_version pB)))
             then installed else 0))))))) in
      first_nonzero by_mode
      (first_nonzero (version_preference (prov_version pA) (prov_version pB))
      (first_nonzero (if same_name then version_preference (pkg_version pkgA) (pkg_version pkgB) else 0)
      (first_nonzero (pkg_provider_priority pkgA - pkg_provider_priority pkgB)
      (first_nonzero (if negb (flag APK_SOLVERF_REMOVE) then installed else 0)
      (first_nonzero selectable
        (ffs (pkg_repos pkgB) - ffs (pkg_repos pkgA)))))))
  | a, b => prefer (bool_decide (is_Some a)) (bool_decide (is_Some b))
  end.

(** The name is locked and taken out of the queues; its list nodes stay poisoned. *)
Definition assign_lock (name : bytes) (p : apk_provider) (st : apk_solver_state) : apk_solver_state :=
  let s := nst st name in
  let st := upd_n name (fun s => set_ns_chosen p (set_ns_locked true s)) st in
  let st := if ns_unresolved_hashed s then unlink_unresolved name st else st in
  if ns_dirty_hashed s then set_ss_dirty_head (unlink name (ss_dirty_head st)) st else st.

(** The packages that cannot be selected besides [p] for [name]. *)
Definition disqualify_others (name : bytes) (p : apk_provider) (st : apk_solver_state) : apk_solver_state :=
  if ss_ignore_conflict st then st
  else
    each (fun (e : provider_entry) st =>
      if same_pkg (Some e.1) (prov_pkg p) then st
      else if is_atom_null (prov_version p) && is_atom_null e.2 then st
      else disqualify_package e.1 st) (providers name) st.

Definition assign_name (name : bytes) (p : apk_provider) (st : apk_solver_state) : apk_solver_state :=
  let s := nst st name in
  if ns_locked s then
    if is_atom_null (prov_version p) && is_atom_null (prov_version (ns_chosen s)) then st
    else if ss_ignore_conflict st then st
    else mark_error (prov_pkg (ns_chosen s)) (mark_error (prov_pkg p) st)
  else
    let st := assign_lock name p st in
    let st :=
      match prov_pkg p with
      | Some pkg =>
          if (ns_requirers (nst st name) =? 0) && ps_iif_triggered (pst st pkg)
          then each (fun dep st =>
                 if ns_locked (nst st (dep_name dep)) then st else apply_constraint (Some pkg) dep st)
                 (pkg_install_if pkg) st
          else st
      | None => st
      end in
    let st := disqualify_others name p st in
    let st := reevaluate_reverse_deps name st in
    match prov_pkg p with
    | Some pkg => reevaluate_reverse_installif_pkg pkg st
    | None => reevaluate_reverse_installif name st
    end.

(** One round of the loop over the candidates. *)
Definition consider_provider (name : bytes) (st : apk_solver_state) (e : provider_entry)
    (best : apk_provider) : apk_provider :=
  let s := pst st e.1 in
  if (ns_requirers (nst st name) =? 0)
     && (negb (ps_iif_triggered s) || negb (ps_tag_ok s) || negb (ps_pkg_selectable s))
  then best
  else if negb (is_provider_auto_selectable e st) then best
  else if 0 <? compare_providers st (entry_provider e) best then entry_provider e else best.

Definition choose_provider (name : bytes) (st : apk_solver_state) : apk_provider :=
  if negb (ns_requirers (nst st name) =? 0) || ns_has_iif (nst st name)
  then each (consider_provider name st) (providers name) provider_none
  else provider_none.

Definition select_package (name : bytes) (st : apk_solver_state) : apk_solver_state :=
  match prov_pkg (choose_provider name st) with
  | Some pkg =>
      let s := pst st pkg in
      let st := if negb (ps_pkg_selectable s) || negb (ps_tag_ok s) then mark_error (Some pkg) st else st in
      let st := assign_name (pkg_name pkg) (APK_PROVIDER_FROM_PACKAGE pkg) st in
      let st := each (fun d => assign_name (dep_name d) (APK_PROVIDER_FROM_PROVIDES pkg d))
        (pkg_provides pkg) st in
      each (apply_constraint (Some pkg)) (pkg_depends pkg) st
  | None =>
      let st := assign_name name provider_none st in
      if 0 <? ns_requirers (nst st name) then set_ss_errors (ss_errors st + 1) st else st
  end.

(** ** The main loop *)

Definition dequeue_next_name (st : apk_solver_state) : option (bytes * apk_solver_state) :=
  let popped n st := upd_n n (set_ns_unresolved_hashed false) st in
  match ss_resolvenow_head st, ss_selectable_head st, ss_unresolved_head st with
  | n :: l, _, _ => Some (n, popped n (set_ss_resolvenow_head l st))
  | [], n :: l, _ => Some (n, popped n (set_ss_selectable_head l st))
  | [], [], n :: l => Some (n, popped n (set_ss_unresolved_head l st))
  | [], [], [] => None
  end.

(** One round of the inner or the outer loop; [None] when both are done. *)
Definition solver_round (st : apk_solver_state) : option apk_solver_state :=
  match ss_dirty_head st with
  | n :: l => Some (reconsider_name n (upd_n n (set_ns_dirty_hashed false) (set_ss_dirty_head l st)))
  | [] =>
      match dequeue_next_name st with
      | Some (n, st) => Some (select_package n st)
      | None => None
      end
  end.

(** The two nested loops; [None] when the fuel runs out first. *)
Fixpoint solver_loop (fuel : nat) (st : apk_solver_state) : option apk_solver_state :=
  match solver_round st with
  | None => Some st
  | Some st' =>
      match fuel with
      | O => None
      | S fuel => solver_loop fuel st'
      end
  end.

(** ** The change set *)

Definition make_change (opkg npkg : option apk_package) (st : apk_solver_state) : apk_change :=
  mk_change opkg npkg
    (match opkg with
     | Some o => match pkg_ipkg o with Some i => ip_repository_tag i | None => 0 end
     | None => 0
     end)
    (match npkg with
     | Some n => get_tag db (ps_pinning_allowed (pst st n)) (get_pkg_repos db n)
     | None => 0
     end)
    (match npkg with
     | Some n => testmask (ps_solver_flags (pst st n)) APK_SOLVERF_REINSTALL
     | None => false
     end).

Definition record_change (opkg npkg : option apk_package) (st : apk_solver_state) : apk_solver_state :=
  let cs := ss_changeset st in
  let change := make_change opkg npkg st in
  let counted i r a :=
    set_ss_changeset (mk_changeset (cs_num_install cs + i) (cs_num_remove cs + r) (cs_num_adjust cs + a)
      (cs_num_total_changes cs) (cs_changes cs ++ [change])) st in
  match npkg, opkg with
  | None, _ => counted 0 1 0
  | Some _, None => counted 1 0 0
  | Some _, Some _ =>
      if negb (same_pkg npkg opkg) || ch_reinstall change
         || negb (ch_new_repository_tag change =? ch_old_repository_tag change)
      then counted 0 0 1 else counted 0 0 0
  end.

(** The recursive entry points. *)
Inductive cset_call :=
| cset_gen_name_change (name : bytes)
| cset_gen_name_remove (pkg : apk_package).

(** The requirers of the name that is installed for a dependency change by [by_one]. *)
Definition adjust_installed_requirers (by_one : Z) (d : apk_dependency) (st : apk_solver_state) :
    option (bytes * apk_solver_state) :=
  if apk_dep_conflict d then None
  else
    match ns_installed_name (nst st (dep_name d)) with
    | None => None
    | Some n => Some (n, upd_n n (fun s => set_ns_requirers (u16 (ns_requirers s + by_one)) s) st)
    end.

Definition cset_track_deps_added (pkg : apk_package) (st : apk_solver_state) : apk_solver_state :=
  each (fun d st =>
    match adjust_installed_requirers 1 d st with
    | Some (_, st) => st
    | None => st
    end) (pkg_depends pkg) st.

(** The packages that the reverse dependency walk of [cset_gen_name_remove] reports; the
    walk reads nothing that the callbacks change. *)
Definition installed_rdeps (pkg : apk_package) : list apk_package :=
  let view := mk_view rdepends (fun n => (providers n).*1) (fun _ => false) in
  match apk_pkg_foreach_reverse_dependency garbage view pkg
          (Z.lor APK_FOREACH_INSTALLED APK_DEP_SATISFIES) ([], ∅) with
  | Ok (calls, _) => omap fst calls
  | Fault => []
  end.

Section Changes.
Context (call : cset_call -> apk_solver_state -> option apk_solver_state).

Definition cset_track_deps_removed (pkg : apk_package) (st : apk_solver_state) : option apk_solver_state :=
  each_opt (fun d st =>
    match adjust_installed_requirers (-1) d st with
    | None => Some st
    | Some (n, st) =>
        if 0 <? ns_requirers (nst st n) then Some st
        else
          match ns_installed_pkg (nst st (dep_name d)) with
          | Some pkg0 => call (cset_gen_name_remove pkg0) st
          | None => Some st
          end
    end) (pkg_depends pkg) st.

Definition cset_check_removal_by_deps (pkg : apk_package) (st : apk_solver_state) : option apk_solver_state :=
  let n := pkg_name pkg in
  if (ns_requirers (nst st n) =? 0) && bool_decide (chosen_pkg st n = None)
  then call (cset_gen_name_remove pkg) st else Some st.

Definition cset_check_install_by_iif (name : bytes) (st : apk_solver_state) : option apk_solver_state :=
  match chosen_pkg st name with
  | None => Some st
  | Some pkg =>
      if negb (ns_seen (nst st name)) || ns_changeset_processed (nst st name) then Some st
      else if forallb (fun dep0 =>
                (apk_dep_conflict dep0 || ns_changeset_processed (nst st (dep_name dep0)))
                && is_provided (Some pkg) dep0 (chosen st (dep_name dep0))) (pkg_install_if pkg)
      then call (cset_gen_name_change name) st
      else Some st
  end.

Definition cset_check_removal_by_iif (name : bytes) (st : apk_solver_state) : option apk_solver_state :=
  match ns_installed_pkg (nst st name) with
  | None => Some st
  | Some pkg =>
      if bool_decide (is_Some (chosen_pkg st name)) then Some st
      else if ns_changeset_processed (nst st name) || ns_changeset_removed (nst st name) then Some st
      else if existsb (fun dep0 =>
                ns_changeset_removed (nst st (dep_name dep0))
                && bool_decide (chosen_pkg st (dep_name dep0) = None)) (pkg_install_if pkg)
      then cset_check_removal_by_deps pkg st
      else Some st
  end.

Definition cset_check_by_reverse_iif (pkg : option apk_package)
    (cb : bytes -> apk_solver_state -> option apk_solver_state) (st : apk_solver_state) :
    option apk_solver_state :=
  match pkg with
  | None => Some st
  | Some pkg =>
      st ← each_opt cb (rinstall_if (pkg_name pkg)) st;
      each_opt (fun d => each_opt cb (rinstall_if (dep_name d))) (pkg_provides pkg) st
  end.

Definition cset_gen_name_preprocess (name : bytes) (st : apk_solver_state) : option apk_solver_state :=
  if ns_changeset_processed (nst st name) then Some st
  else
    let st := upd_n name (set_ns_changeset_processed true) st in
    st ← match ns_installed_pkg (nst st name) with
         | Some ipkg =>
             if match chosen_pkg st name with
                | None => true
                | Some c => negb (bool_decide (pkg_name c = name))
                end
             then call (cset_gen_name_remove ipkg) st else Some st
         | None => Some st
         end;
    each_opt (fun (e : provider_entry) st =>
      let name0 := pkg_name e.1 in
      if bool_decide (is_Some (ns_installed_pkg (nst st name0)))
         && same_pkg (ns_installed_pkg (nst st name0)) (Some e.1)
         && bool_decide (chosen_pkg st name0 = None)
      then call (cset_gen_name_remove e.1) st else Some st) (providers name) st.

Definition cset_gen_dep (ppkg : option apk_package) (dep : apk_dependency) (st : apk_solver_state) :
    option apk_solver_state :=
  let name := dep_name dep in
  let pkg := chosen_pkg st name in
  if apk_dep_conflict dep && ss_ignore_conflict st then Some st
  else
    let st := if is_provided ppkg dep (chosen st name) then st else mark_error ppkg st in
    st ← call (cset_gen_name_change name) st;
    Some (match pkg with
          | Some p => if ps_error (pst st p) then mark_error ppkg st else st
          | None => st
          end).

(** [cset_gen_name_change] from the point where its package is known. *)
Definition cset_change_package (pkg : apk_package) (st : apk_solver_state) : option apk_solver_state :=
  let st := upd_p pkg (set_ps_in_changeset true) st in
  st ← cset_gen_name_preprocess (pkg_name pkg) st;
  st ← each_opt (fun d => cset_gen_name_preprocess (dep_name d)) (pkg_provides pkg) st;
  let opkg := ns_installed_pkg (nst st (pkg_name pkg)) in
  st ← cset_check_by_reverse_iif opkg cset_check_removal_by_iif st;
  st ← each_opt (cset_gen_dep (Some pkg)) (pkg_depends pkg) st;
  let st := record_change opkg (Some pkg) st in
  st ← cset_check_by_reverse_iif (Some pkg) cset_check_install_by_iif st;
  let st := cset_track_deps_added pkg st in
  match opkg with
  | Some o => cset_track_deps_removed o st
  | None => Some st
  end.

Definition cset_body (c : cset_call) (st : apk_solver_state) : option apk_solver_state :=
  match c with
  | cset_gen_name_change name =>
      if ns_changeset_processed (nst st name) then Some st
      else
        st ← cset_gen_name_preprocess name st;
        match chosen_pkg st name with
        | None => Some st
        | Some pkg => if ps_in_changeset (pst st pkg) then Some st else cset_change_package pkg st
        end
  | cset_gen_name_remove pkg =>
      let name := pkg_name pkg in
      if ps_in_changeset (pst st pkg)
         || match chosen_pkg st name with
            | Some c => bool_decide (pkg_name c = name)
            | None => false
            end
      then Some st
      else
        let st := upd_n name (set_ns_changeset_removed true) st in
        let st := upd_p pkg (set_ps_in_changeset true) st in
        st ← each_opt (fun pkg0 => call (cset_gen_name_remove pkg0)) (installed_rdeps pkg) st;
        st ← cset_check_by_reverse_iif (Some pkg) cset_check_removal_by_iif st;
        cset_track_deps_removed pkg (record_change (Some pkg) None st)
  end.
End Changes.

Fixpoint cset_run (fuel : nat) (c : cset_call) (st : apk_solver_state) : option apk_solver_state :=
  match fuel with
  | O => None
  | S fuel => cset_body (cset_run fuel) c st
  end.

Definition cset_reset_name (s : apk_solver_name_state) : apk_solver_name_state :=
  set_ns_requirers 0 (set_ns_installed_name None (set_ns_installed_pkg None s)).

(** The names the installed packages have or provide with a version. *)
Definition set_installed (pkg : apk_package) (st : apk_solver_state) : apk_solver_state :=
  let n := pkg_name pkg in
  let st := upd_n n (fun s => set_ns_installed_name (Some n) (set_ns_installed_pkg (Some pkg) s)) st in
  each (fun d st =>
    if is_atom_null (dep_version d) then st else upd_n (dep_name d) (set_ns_installed_name (Some n)) st)
    (pkg_provides pkg) st.

Definition generate_changeset (fuel : nat) (world : list apk_dependency) (st : apk_solver_state) :
    option apk_solver_state :=
  let cs := ss_changeset st in
  let st := set_ss_changeset (mk_changeset (cs_num_install cs) (cs_num_remove cs) (cs_num_adjust cs)
    (cs_num_total_changes cs) []) st in
  let st := set_ss_names (cset_reset_name <$> ss_names st) st in
  let st := each set_installed (sdb_installed db) st in
  let st := each cset_track_deps_added (sdb_installed db) st in
  let call := cset_run fuel in
  st ← each_opt (cset_check_removal_by_deps call) (sdb_installed db) st;
  st ← each_opt (cset_gen_dep call None) world st;
  st ← each_opt (fun pkg => call (cset_gen_name_change (pkg_name pkg))) (sdb_installed db) st;
  let cs := ss_changeset st in
  Some (set_ss_changeset (mk_changeset (cs_num_install cs) (cs_num_remove cs) (cs_num_adjust cs)
    (cs_num_install cs + cs_num_remove cs + cs_num_adjust cs) (cs_changes cs)) st).

(** ** The solver *)

Definition cmp_pkgname (d1 d2 : apk_dependency) : Z := apk_name_cmp_display (dep_name d1) (dep_name d2).

(** [qsort] of the world; the names of a world are distinct, so that the order is
    determined. *)
Fixpoint world_insert (d : apk_dependency) (l : list apk_dependency) : list apk_dependency :=
  match l with
  | [] => [d]
  | d0 :: l' => if cmp_pkgname d d0 <=? 0 then d :: l else d0 :: world_insert d l'
  end.
Definition world_sort (world : list apk_dependency) : list apk_dependency :=
  fold_right world_insert [] world.

(** The state at [restart]: the change set is the caller's, and so are the flags of the
    packages the first time. *)
Definition solver_init (solver_flags : Z) (pkgs : gmap nat apk_solver_package_state) (cs : apk_changeset) :
    apk_solver_state :=
  mk_ss ∅ pkgs cs [] [] [] [] 0 0 0
    (apk_db_get_pinning_mask_repos db APK_DEFAULT_PINNING_MASK) 0
    (testmask solver_flags APK_SOLVERF_IGNORE_CONFLICT).

Definition discover_world (fuel : nat) (world : list apk_dependency) (st : apk_solver_state) :
    option apk_solver_state :=
  each_opt (fun d st => if dep_broken d then Some st else discover_name fuel (dep_name d) st) world st.

Definition apply_world (world : list apk_dependency) (st : apk_solver_state) : apk_solver_state :=
  each (fun d st =>
    if dep_broken d then st
    else apply_constraint None d (set_ss_pinning_inherit (BIT (dep_tag d)) st)) world st.

(** From [restart] up to the end of the main loop. *)
Definition solver_start (fuel : nat) (solver_flags : Z) (pkgs : gmap nat apk_solver_package_state)
    (cs : apk_changeset) (world : list apk_dependency) : option apk_solver_state :=
  st ← discover_world fuel world (set_ss_solver_flags_inherit solver_flags (solver_init solver_flags pkgs cs));
  Some (set_ss_pinning_inherit 0 (set_ss_solver_flags_inherit 0 (apply_world world st))).

Definition solver_attempt (fuel : nat) (solver_flags : Z) (pkgs : gmap nat apk_solver_package_state)
    (cs : apk_changeset) (world : list apk_dependency) : option apk_solver_state :=
  st ← solver_start fuel solver_flags pkgs cs world;
  st ← solver_loop fuel st;
  generate_changeset fuel world st.

(** World dependencies without a package, or with a broken one, are disabled. *)
Definition mark_broken (st : apk_solver_state) (d : apk_dependency) : apk_dependency :=
  let broken := match chosen_pkg st (dep_name d) with
                | None => true
                | Some p => ps_error (pst st p)
                end in
  if broken then mk_dep (dep_name d) (dep_version d) (dep_op d) true (dep_tag d) (dep_layer d) else d.

Definition set_layer (st : apk_solver_state) (d : apk_dependency) : apk_dependency :=
  match chosen_pkg st (dep_name d) with
  | None => d
  | Some p => mk_dep (dep_name d) (dep_version d) (dep_op d) (dep_broken d) (dep_tag d) (pkg_layer p)
  end.

(** The number of errors, the world as the code leaves it, and the change set. *)
Fixpoint solve_loop (restarts fuel : nat) (solver_flags : Z) (pkgs : gmap nat apk_solver_package_state)
    (cs : apk_changeset) (world : list apk_dependency) :
    option (Z * list apk_dependency * apk_changeset) :=
  st ← solver_attempt fuel solver_flags pkgs cs world;
  if negb (ss_errors st =? 0) && sdb_force_broken_world db then
    match restarts with
    | O => None
    | S restarts =>
        solve_loop restarts fuel solver_flags ∅ (ss_changeset st) (mark_broken st <$> world)
    end
  else Some (ss_errors st, set_layer st <$> world, ss_changeset st).

Definition apk_solver_solve (restarts fuel : nat) (solver_flags : Z) (pkgs : gmap nat apk_solver_package_state)
    (cs : apk_changeset) (world : list apk_dependency) :
    option (Z * list apk_dependency * apk_changeset) :=
  solve_loop restarts fuel solver_flags pkgs cs (world_sort world).
End Solver.
