(* ===== verification/SolverFacts.v ===== *)
(** * The solver's choices satisfy the world

    The main loop of the solver (Solver.v) is analysed with two relations between
    states: [adv k] is what every operation guarantees (names stay locked, errors stay
    counted, packages never become selectable again, a name that is required stays
    queued or locked, no requirers counter grows by more than [k]); [soft k] adds what
    the operations other than assignment leave alone.  The loop invariant [solver_inv]
    then gives: when the loop ends without errors, every dependency of the world is
    provided by the chosen package. *)

From S2P Require Import Prelude Blob BlobCodec Ctype Version Digest Dep Package PackageRules Solver.

(** ** Reading an updated state *)

Section Access.
Context (st : apk_solver_state).

Lemma nst_upd_n n f m : nst (upd_n n f st) m = if decide (m = n) then f (nst st n) else nst st m.
Proof.
  unfold nst, upd_n. simpl. destruct (decide (m = n)) as [->|].
  - by rewrite lookup_insert_eq.
  - by rewrite lookup_insert_ne.
Qed.
Lemma pst_upd_p p f q :
  pst (upd_p p f st) q = if decide (pkg_addr q = pkg_addr p) then f (pst st p) else pst st q.
Proof.
  unfold pst, upd_p. simpl. destruct (decide (pkg_addr q = pkg_addr p)) as [->|].
  - by rewrite lookup_insert_eq.
  - by rewrite lookup_insert_ne.
Qed.
Lemma nst_upd_n_eq n f : nst (upd_n n f st) n = f (nst st n).
Proof. rewrite nst_upd_n. by rewrite decide_True. Qed.
Lemma pst_upd_p_eq p f : pst (upd_p p f st) p = f (pst st p).
Proof. rewrite pst_upd_p. by rewrite decide_True. Qed.
Lemma upd_p_upd_p p f g : upd_p p g (upd_p p f st) = upd_p p (fun s => g (f s)) st.
Proof.
  unfold upd_p at 1. rewrite pst_upd_p_eq. unfold upd_p. simpl. by rewrite insert_insert_eq.
Qed.
Lemma nst_upd_p p f n : nst (upd_p p f st) n = nst st n.
Proof. done. Qed.
Lemma pst_upd_n n f p : pst (upd_n n f st) p = pst st p.
Proof. done. Qed.
End Access.

#[global] Opaque upd_n upd_p.

(** The three queues of names that wait for a decision. *)
Definition queue (st : apk_solver_state) : list bytes :=
  ss_resolvenow_head st ++ ss_selectable_head st ++ ss_unresolved_head st.

(** The fields outside the two maps. *)
Lemma ss_upd_n n f st :
  ss_errors (upd_n n f st) = ss_errors st /\ queue (upd_n n f st) = queue st
  /\ ss_ignore_conflict (upd_n n f st) = ss_ignore_conflict st
  /\ ss_dirty_head (upd_n n f st) = ss_dirty_head st.
Proof. done. Qed.
Lemma ss_upd_p p f st :
  ss_errors (upd_p p f st) = ss_errors st /\ queue (upd_p p f st) = queue st
  /\ ss_ignore_conflict (upd_p p f st) = ss_ignore_conflict st
  /\ ss_dirty_head (upd_p p f st) = ss_dirty_head st.
Proof. done. Qed.

(** ** What every operation guarantees *)

Definition locked (st : apk_solver_state) (n : bytes) : bool := ns_locked (nst st n).
Definition requirers (st : apk_solver_state) (n : bytes) : Z := ns_requirers (nst st n).
Definition selectable (st : apk_solver_state) (p : apk_package) : bool := ps_pkg_selectable (pst st p).

(** A name is decided or waits in a queue. *)
Definition covered (st : apk_solver_state) (n : bytes) : Prop := locked st n = true \/ n ∈ queue st.

(** Every required name, and every name whose queue node is linked, is covered, except for
    the names [x] that are being decided. *)
Definition qinv (x : bytes -> Prop) (st : apk_solver_state) : Prop :=
  forall n, ~ x n ->
    requirers st n <> 0 \/ ns_unresolved_hashed (nst st n) = true -> covered st n.

(** Counting up by at most [k], as long as 16 bits suffice. *)
Definition grows (k r r' : Z) : Prop := 0 <= r -> r + k < 2 ^ 16 -> r <= r' <= r + k.

Record adv (k : Z) (st st' : apk_solver_state) : Prop := {
  adv_locked : forall n, locked st n = true -> locked st' n = true /\ chosen st' n = chosen st n;
  adv_errors : ss_errors st <= ss_errors st';
  adv_ignore : ss_ignore_conflict st' = ss_ignore_conflict st;
  adv_changeset : ss_changeset st' = ss_changeset st;
  adv_requirers : forall n, grows k (requirers st n) (requirers st' n);
  adv_covered : forall n, covered st n -> covered st' n;
  adv_qinv : forall x, qinv x st -> qinv x st';
  adv_selectable : forall p, selectable st' p = true -> selectable st p = true;
  adv_conflicts : (forall p, selectable st p = true -> ps_conflicts (pst st p) = 0) ->
                  forall p, selectable st' p = true -> ps_conflicts (pst st' p) = 0;
}.

Record soft (k : Z) (st st' : apk_solver_state) : Prop := {
  soft_adv : adv k st st';
  soft_locked : forall n, locked st' n = locked st n;
  soft_chosen : forall n, chosen st' n = chosen st n;
  soft_errors : ss_errors st' = ss_errors st;
  soft_error : forall p, ps_error (pst st' p) = ps_error (pst st p);
}.

Lemma grows_refl k r : 0 <= k -> grows k r r.
Proof. unfold grows. lia. Qed.
Lemma grows_trans k1 k2 r1 r2 r3 :
  0 <= k1 -> 0 <= k2 -> grows k1 r1 r2 -> grows k2 r2 r3 -> grows (k1 + k2) r1 r3.
Proof. unfold grows. lia. Qed.

Lemma adv_refl k st : 0 <= k -> adv k st st.
Proof. intros. split; [auto | lia | auto | auto | intros; by apply grows_refl | auto..]. Qed.

Lemma adv_trans k1 k2 st1 st2 st3 :
  0 <= k1 -> 0 <= k2 -> adv k1 st1 st2 -> adv k2 st2 st3 -> adv (k1 + k2) st1 st3.
Proof.
  intros ? ? [H1 H2 H3 H9 H4 H5 H6 H7 H8] [H1' H2' H3' H9' H4' H5' H6' H7' H8']. split; eauto using grows_trans.
  - intros n [Hl Hc]%H1. destruct (H1' n Hl) as [??]. split; congruence.
  - lia.
  - congruence.
Qed.

Lemma soft_refl k st : 0 <= k -> soft k st st.
Proof. intros. by split; [apply adv_refl | ..]. Qed.

Lemma soft_trans k1 k2 st1 st2 st3 :
  0 <= k1 -> 0 <= k2 -> soft k1 st1 st2 -> soft k2 st2 st3 -> soft (k1 + k2) st1 st3.
Proof.
  intros ? ? [H1 H2 H3 H4 H5] [H1' H2' H3' H4' H5'].
  split; [by eapply adv_trans | congruence..].
Qed.

Lemma adv_le k k' st st' : 0 <= k <= k' -> adv k st st' -> adv k' st st'.
Proof.
  intros ? H. pose proof (adv_trans k (k' - k) st st' st') as Ht. rewrite Z.add_sub_assoc, Z.add_simpl_l in Ht.
  apply Ht; [lia | lia | done |]. apply adv_refl. lia.
Qed.
Lemma soft_le k k' st st' : 0 <= k <= k' -> soft k st st' -> soft k' st st'.
Proof. intros ? []. split; [by eapply adv_le | done..]. Qed.

Lemma soft_trans0 st1 st2 st3 : soft 0 st1 st2 -> soft 0 st2 st3 -> soft 0 st1 st3.
Proof. by apply (soft_trans 0 0). Qed.

(** ** Primitive updates *)

Lemma soft_upd_n n f st :
  (forall s, ns_locked (f s) = ns_locked s /\ ns_chosen (f s) = ns_chosen s
    /\ ns_requirers (f s) = ns_requirers s /\ ns_unresolved_hashed (f s) = ns_unresolved_hashed s) ->
  soft 0 st (upd_n n f st).
Proof.
  intros Hf.
  assert (forall m, ns_locked (nst (upd_n n f st) m) = ns_locked (nst st m)
    /\ ns_chosen (nst (upd_n n f st) m) = ns_chosen (nst st m)
    /\ ns_requirers (nst (upd_n n f st) m) = ns_requirers (nst st m)
    /\ ns_unresolved_hashed (nst (upd_n n f st) m) = ns_unresolved_hashed (nst st m)) as H.
  { intros m. rewrite nst_upd_n. destruct (decide (m = n)) as [->|]; [apply Hf | done]. }
  split; [split | ..]; unfold qinv, covered, locked, requirers, chosen, selectable; try done.
  - intros m. by destruct (H m) as (-> & -> & _).
  - intros m. destruct (H m) as (_ & _ & -> & _). by apply grows_refl.
  - intros m. by destruct (H m) as (-> & _).
  - intros x Hx m. destruct (H m) as (-> & _ & -> & ->). apply Hx.
  - intros m. by destruct (H m) as (-> & _).
  - intros m. by destruct (H m) as (_ & -> & _).
Qed.

Lemma soft_upd_p_at p f st :
  ps_error (f (pst st p)) = ps_error (pst st p) ->
  (ps_pkg_selectable (f (pst st p)) = true ->
     selectable st p = true /\ (ps_conflicts (pst st p) = 0 -> ps_conflicts (f (pst st p)) = 0)) ->
  soft 0 st (upd_p p f st).
Proof.
  intros He Hs.
  assert (forall q, ps_error (pst (upd_p p f st) q) = ps_error (pst st q)
    /\ (selectable (upd_p p f st) q = true ->
        selectable st q = true /\ (ps_conflicts (pst st q) = 0 -> ps_conflicts (pst (upd_p p f st) q) = 0))) as H.
  { intros q. unfold selectable in *. rewrite pst_upd_p. destruct (decide _) as [Hq|]; [| done].
    by assert (pst st q = pst st p) as -> by (unfold pst; by rewrite Hq). }
  split; [split | ..]; try done.
  - intros m. by apply grows_refl.
  - intros q. apply H.
  - intros Hc q Hq. apply (H q) in Hq as [Hq Hc']. auto.
  - intros q. apply H.
Qed.

Lemma soft_upd_p p f st :
  (forall s, ps_error (f s) = ps_error s /\ ps_conflicts (f s) = ps_conflicts s
    /\ (ps_pkg_selectable (f s) = true -> ps_pkg_selectable s = true)) ->
  soft 0 st (upd_p p f st).
Proof.
  intros Hf. destruct (Hf (pst st p)) as (? & Hc & ?). apply soft_upd_p_at; [done |].
  rewrite Hc. auto.
Qed.

Lemma soft_dirty_head l st : soft 0 st (set_ss_dirty_head l st).
Proof. split; [split | ..]; try done. intros m. by apply grows_refl. Qed.

(** A new queue that lost no name. *)
Lemma soft_queue st st' :
  ss_names st' = ss_names st -> ss_pkgs st' = ss_pkgs st -> ss_errors st' = ss_errors st ->
  ss_ignore_conflict st' = ss_ignore_conflict st -> ss_changeset st' = ss_changeset st ->
  (forall n, n ∈ queue st -> n ∈ queue st') -> soft 0 st st'.
Proof.
  intros Hn Hp He Hi Hcs Hq.
  assert (forall m, nst st' m = nst st m) as Hnst by (intros; unfold nst; by rewrite Hn).
  assert (forall p, pst st' p = pst st p) as Hpst by (intros; unfold pst; by rewrite Hp).
  split; [split | ..]; unfold qinv, covered, locked, requirers, chosen, selectable; try done.
  - intros m. by rewrite Hnst.
  - lia.
  - intros m. rewrite Hnst. by apply grows_refl.
  - intros m. rewrite Hnst. intros [?|?]; [by left | right; auto].
  - intros x Hx m Hm. rewrite Hnst. intros Hr. destruct (Hx m Hm Hr); [by left | right; auto].
  - intros p. by rewrite Hpst.
  - intros Hc p. rewrite Hpst. apply Hc.
  - intros m. by rewrite Hnst.
  - intros m. by rewrite Hnst.
  - intros p. by rewrite Hpst.
Qed.

(** Loops. *)
Lemma soft_each {A} (f : A -> apk_solver_state -> apk_solver_state) k l st :
  0 <= k -> (forall x st, x ∈ l -> soft k st (f x st)) -> soft (k * Z.of_nat (length l)) st (each f l st).
Proof.
  intros Hk. revert st. induction l as [|x l IH]; intros st Hf; simpl; [apply soft_refl; lia |].
  eapply (soft_le (k + k * Z.of_nat (length l))); [lia |].
  apply (soft_trans _ _ _ (f x st)); [lia | lia | apply Hf; left | apply IH].
  intros y st' Hy. apply Hf. by right.
Qed.

Lemma soft_each0 {A} (f : A -> apk_solver_state -> apk_solver_state) l st :
  (forall x st, soft 0 st (f x st)) -> soft 0 st (each f l st).
Proof. intros Hf. apply (soft_each f 0 l st); [done | auto]. Qed.

Create HintDb soft.
#[export] Hint Resolve soft_each0 soft_dirty_head : soft.
#[export] Hint Extern 0 (soft 0 ?st ?st) => apply soft_refl; done : soft.
#[export] Hint Extern 1 (soft 0 _ (upd_n _ _ _)) => apply soft_upd_n; intros []; cbn; done : soft.
#[export] Hint Extern 1 (soft 0 _ (upd_p _ _ _)) => apply soft_upd_p; intros []; cbn; done : soft.
#[export] Hint Extern 2 (soft 0 _ (if _ then _ else _)) => case_if : soft.

(** Splits a composition of updates at its last operation. *)
Ltac soft_step := first [done | eassumption | solve [auto 5 with soft] | eapply soft_trans0; [| solve [auto 5 with soft]]].
Ltac soft_auto := repeat first [progress cbv zeta | case_match | soft_step].

(** ** Queues *)

Lemma elem_of_unlink m n l : m ∈ unlink n l <-> m ∈ l /\ m <> n.
Proof. unfold unlink. rewrite list_elem_of_filter. naive_solver. Qed.

Lemma elem_of_queue_insert order n l m : m ∈ queue_insert order n l <-> m = n \/ m ∈ l.
Proof.
  induction l as [|n0 l IH]; simpl; [set_solver |].
  destruct (_ <? _); rewrite elem_of_cons, ?IH, ?elem_of_cons; tauto.
Qed.

Lemma queue_add_queue n st m : m ∈ queue (queue_add n st) <-> m = n \/ m ∈ queue st.
Proof.
  unfold queue_add, queue. case_if; [| case_if]; simpl;
    rewrite !elem_of_app, ?elem_of_queue_insert, ?list_elem_of_singleton; tauto.
Qed.

(** Taking the node of [n] out of its queue and linking it again, with new values for
    its flags, loses nothing; the name is covered afterwards. *)
Lemma soft_requeue n f st st1 :
  (forall s, ns_locked (f s) = ns_locked s /\ ns_chosen (f s) = ns_chosen s
    /\ ns_requirers (f s) = ns_requirers s) ->
  st1 = st \/ st1 = unlink_unresolved n st ->
  soft 0 st (queue_add n (upd_n n f st1)) /\ covered (queue_add n (upd_n n f st1)) n.
Proof.
  intros Hf Hst1. set (st' := queue_add n (upd_n n f st1)).
  assert (forall m, nst st1 m = nst st m) as Hn1 by (by destruct Hst1 as [-> | ->]).
  assert (forall m, m = n \/ m ∈ queue st -> m ∈ queue st') as Hq.
  { intros m Hm. unfold st'. rewrite queue_add_queue. destruct (decide (m = n)); [by left | right].
    destruct Hm; [done |]. rewrite (proj1 (proj2 (ss_upd_n n f st1))). destruct Hst1 as [-> | ->]; [done |].
    unfold queue, unlink_unresolved in *. simpl. rewrite !elem_of_app, !elem_of_unlink in *. tauto. }
  assert (forall m, nst st' m = if decide (m = n) then set_ns_unresolved_hashed true (f (nst st n)) else nst st m) as Hn.
  { intros m. unfold st', queue_add.
    set (s2 := upd_n n (set_ns_unresolved_hashed true) (upd_n n f st1)).
    assert (nst s2 m = if decide (m = n) then set_ns_unresolved_hashed true (f (nst st n)) else nst st m) as H.
    { unfold s2. rewrite nst_upd_n, !nst_upd_n, !Hn1. destruct (decide (m = n)), (decide (n = n)); try done. }
    case_if; [| case_if]; exact H. }
  assert (forall p, pst st' p = pst st p) as Hp.
  { intros p. unfold st', queue_add. destruct Hst1 as [-> | ->]; case_if; [| case_if | | case_if]; done. }
  assert (ss_errors st' = ss_errors st /\ ss_ignore_conflict st' = ss_ignore_conflict st
    /\ ss_changeset st' = ss_changeset st) as (He & Hi & Hcs).
  { unfold st', queue_add. destruct Hst1 as [-> | ->]; case_if; [| case_if | | case_if]; done. }
  clearbody st'. split; [| right; apply Hq; by left].
  assert (forall m, ns_locked (nst st' m) = ns_locked (nst st m) /\ ns_chosen (nst st' m) = ns_chosen (nst st m)
    /\ ns_requirers (nst st' m) = ns_requirers (nst st m)) as Hnf.
  { intros m. rewrite Hn. destruct (decide (m = n)) as [->|]; [apply Hf | done]. }
  split; [split | ..]; unfold qinv, covered, locked, requirers, chosen, selectable in *; try done.
  - intros m. by destruct (Hnf m) as (-> & -> & _).
  - lia.
  - intros m. destruct (Hnf m) as (_ & _ & ->). by apply grows_refl.
  - intros m. destruct (Hnf m) as (-> & _ & _). intros [?|?]; [by left | right; auto].
  - intros x Hx m Hm Hr. destruct (Hnf m) as (-> & _ & Hr'). rewrite Hr' in Hr.
    destruct (decide (m = n)) as [->|Hne]; [right; apply Hq; by left |].
    rewrite Hn, decide_False in Hr by done. destruct (Hx m Hm Hr); [by left | right; auto].
  - intros p. by rewrite Hp.
  - intros Hc p. rewrite Hp. apply Hc.
  - intros m. apply Hnf.
  - intros m. apply Hnf.
  - intros p. by rewrite Hp.
Qed.


Lemma queue_unresolved_spec n r st :
  soft 0 st (queue_unresolved n r st)
  /\ (requirers st n <> 0 -> (ns_unresolved_hashed (nst st n) = true -> covered st n) ->
      covered (queue_unresolved n r st) n).
Proof.
  assert (forall f st1, (forall s, ns_locked (f s) = ns_locked s /\ ns_chosen (f s) = ns_chosen s
      /\ ns_requirers (f s) = ns_requirers s) -> st1 = st \/ st1 = unlink_unresolved n st ->
    forall P Q : Prop, soft 0 st (queue_add n (upd_n n f st1)) /\ (P -> Q -> covered (queue_add n (upd_n n f st1)) n)) as Hadd.
  { intros f st1 Hf H1 P Q. destruct (soft_requeue n f st st1 Hf H1). by split. }
  unfold queue_unresolved. destruct (ns_locked (nst st n)) eqn:El.
  { split; [by apply soft_refl | intros _ _; by left]. }
  destruct (ns_unresolved_hashed (nst st n)).
  - case_if; [split; [by apply soft_refl | auto] |].
    case_if; [apply Hadd; [by intros [] | by right] |].
    case_if; [split; [by apply soft_refl | auto] |].
    apply Hadd; [by intros [] | by right].
  - case_if; [split; [by apply soft_refl |] | apply Hadd; [by intros [] | by left]].
    unfold requirers. intros ?. bool_prop. lia.
Qed.

Lemma soft_queue_unresolved n r st : soft 0 st (queue_unresolved n r st).
Proof. apply queue_unresolved_spec. Qed.

Lemma soft_queue_dirty n st : soft 0 st (queue_dirty n st).
Proof. unfold queue_dirty. case_if; soft_auto. Qed.
#[export] Hint Resolve soft_queue_unresolved soft_queue_dirty : soft.

Section Facts.
Context (garbage : apk_digest) (db : solver_db) (flags_set : gset bytes).

(** ** Operations that leave the counters alone *)

Lemma soft_reevaluate_reverse_deps n st : soft 0 st (reevaluate_reverse_deps db n st).
Proof. apply soft_each0. intros x st'. soft_auto. Qed.
Lemma soft_reevaluate_reverse_installif n st : soft 0 st (reevaluate_reverse_installif db n st).
Proof. apply soft_each0. intros x st'. soft_auto. Qed.
Hint Resolve soft_reevaluate_reverse_deps soft_reevaluate_reverse_installif : soft.

Lemma soft_reevaluate_reverse_installif_pkg p st : soft 0 st (reevaluate_reverse_installif_pkg db p st).
Proof. unfold reevaluate_reverse_installif_pkg. soft_auto. Qed.
Hint Resolve soft_reevaluate_reverse_installif_pkg : soft.

Lemma soft_disqualify_package p st : soft 0 st (disqualify_package db p st).
Proof. unfold disqualify_package. soft_auto. Qed.
Hint Resolve soft_disqualify_package : soft.

Lemma disqualify_unselectable p st : selectable (disqualify_package db p st) p = false.
Proof.
  set (st1 := upd_p p (set_ps_pkg_selectable false) st).
  assert (soft 0 st1 (disqualify_package db p st)) as [Ha _ _ _ _] by (unfold disqualify_package; fold st1; soft_auto).
  pose proof (adv_selectable _ _ _ Ha p) as H. unfold selectable in *.
  destruct (ps_pkg_selectable (pst (disqualify_package db p st) p)); [| done].
  unfold st1 in H. rewrite pst_upd_p_eq in H. by specialize (H eq_refl).
Qed.

Lemma soft_name_requirers_changed n st : soft 0 st (name_requirers_changed db n st).
Proof. unfold name_requirers_changed. soft_auto. Qed.
Hint Resolve soft_name_requirers_changed : soft.

Lemma soft_inherit p pp st : soft 0 st (inherit_pinning_and_flags db p pp st).
Proof. unfold inherit_pinning_and_flags. soft_auto. Qed.
Hint Resolve soft_inherit : soft.

Lemma soft_exclude n m sv st : soft 0 st (exclude_non_providers db n m sv st).
Proof. unfold exclude_non_providers. soft_auto. Qed.
Lemma soft_merge_depends i n st : soft 0 st (merge_depends i n st).
Proof. unfold merge_depends. soft_auto. Qed.
Lemma soft_merge_provides i n v st : soft 0 st (merge_provides i n v st).
Proof.
  unfold merge_provides. apply soft_upd_n. intros s. destruct (merge_index _ _) as [? []]; by destruct s.
Qed.
Hint Resolve soft_exclude soft_merge_depends soft_merge_provides : soft.

Lemma soft_check_install_if p deps st : soft 0 st (check_install_if garbage p deps st).
Proof. revert st. induction deps as [|d deps IH]; intros st; simpl; soft_auto. Qed.
Lemma soft_check_depends p st : soft 0 st (check_depends garbage db p st).
Proof. unfold check_depends. soft_auto. Qed.
Hint Resolve soft_check_install_if soft_check_depends : soft.
Lemma soft_reconsider_iif p st : soft 0 st (reconsider_iif garbage db p st).
Proof. unfold reconsider_iif. soft_auto. Qed.
Hint Resolve soft_reconsider_iif : soft.

(** ** Constraints *)

Lemma soft_apply_constraint_provider pp d e st : soft 0 st (apply_constraint_provider garbage db pp d e st).
Proof.
  unfold apply_constraint_provider. cbv zeta.
  set (p := e.1). set (b := b2z _). rewrite !pst_upd_p_eq.
  set (st1 := if _ && _ then _ else _). assert (soft 0 st st1) as H1.
  { subst st1. case_if.
    - unfold disqualify_package. rewrite upd_p_upd_p.
      eapply soft_trans0; [| by apply soft_reevaluate_reverse_installif_pkg].
      eapply soft_trans0; [| by auto with soft].
      eapply soft_trans0; [| by apply soft_reevaluate_reverse_deps].
      by apply soft_upd_p_at; destruct (pst st p).
    - apply soft_upd_p_at; [by destruct (pst st p) |]. unfold selectable.
      apply andb_false_iff in Heqb0 as [H|H]; bool_prop; destruct (pst st p); simpl in *; [congruence | auto]. }
  case_if; soft_auto.
Qed.

(** After a provider was looked at, it provides the dependency or cannot be selected. *)
Lemma apply_constraint_provider_effect pp d e st :
  (forall p, selectable st p = true -> ps_conflicts (pst st p) = 0) ->
  selectable (apply_constraint_provider garbage db pp d e st) e.1 = true ->
  is_provided garbage pp d (entry_provider e) = true.
Proof.
  intros Hc Hs. destruct (is_provided garbage pp d (entry_provider e)) eqn:Ep; [done |].
  unfold apply_constraint_provider in Hs. cbv zeta in Hs. rewrite Ep in Hs. simpl b2z in Hs.
  match type of Hs with selectable (if ?b then disqualify_package _ _ _ else _) _ = _ => destruct b eqn:E end.
  { by rewrite disqualify_unselectable in Hs. }
  unfold selectable in Hs. rewrite Hs in E. rewrite pst_upd_p_eq in E, Hs. simpl in E, Hs.
  apply Hc in Hs. rewrite Hs in E. simpl in E. by vm_compute in E.
Qed.

(** One more requirer for a name, which is queued when it is the first one. *)
Definition add_requirer (n : bytes) (st : apk_solver_state) : apk_solver_state :=
  upd_n n (fun s => set_ns_requirers (u16 (ns_requirers s + 1)) s) st.

Lemma add_requirer_nst n st m :
  locked (add_requirer n st) m = locked st m /\ chosen (add_requirer n st) m = chosen st m
  /\ ns_unresolved_hashed (nst (add_requirer n st) m) = ns_unresolved_hashed (nst st m)
  /\ requirers (add_requirer n st) m = (if decide (m = n) then u16 (requirers st n + 1) else requirers st m).
Proof.
  unfold locked, chosen, requirers, add_requirer. rewrite nst_upd_n.
  by destruct (decide (m = n)) as [->|].
Qed.

Lemma covered_add_requirer n st m : covered (add_requirer n st) m <-> covered st m.
Proof. unfold covered. by rewrite (proj1 (add_requirer_nst n st m)). Qed.

Lemma u16_grows r : grows 1 r (u16 (r + 1)).
Proof. unfold grows, u16. intros. rewrite Z.mod_small; lia. Qed.

Lemma u16_step r : u16 (r + 1) <> 0 -> u16 (r + 1) <> 1 -> r <> 0.
Proof. intros ? ? ->. by compute in *. Qed.

Lemma qinv_add_requirer n x st : qinv x st -> qinv (fun m => x m \/ m = n) (add_requirer n st).
Proof.
  intros Hq m Hm. destruct (add_requirer_nst n st m) as (_ & _ & -> & ->).
  rewrite decide_False by tauto. rewrite covered_add_requirer. apply Hq. tauto.
Qed.

Lemma requirer_covered n x st :
  qinv x st -> ~ x n ->
  let st1 := add_requirer n st in
  let st2 := if requirers st1 n =? 1 then name_requirers_changed db n st1 else st1 in
  requirers st2 n <> 0 \/ ns_unresolved_hashed (nst st2 n) = true -> covered st2 n.
Proof.
  intros Hq Hx st1 st2. pose proof (add_requirer_nst n st n) as (_ & _ & Hh & Hr). fold st1 in Hh, Hr.
  rewrite decide_True in Hr by done.
  assert (ns_unresolved_hashed (nst st1 n) = true -> covered st1 n) as Hh'.
  { rewrite Hh. intros. apply covered_add_requirer, Hq; auto. }
  subst st2. destruct (Z.eqb_spec (requirers st1 n) 1) as [E|E].
  - unfold name_requirers_changed.
    intros _. eapply (adv_covered 0); [apply soft_adv; by apply soft_queue_dirty |].
    eapply (adv_covered 0); [apply soft_adv; by apply soft_reevaluate_reverse_installif |].
     apply queue_unresolved_spec; [lia | done].
  - intros [H|H]; [| auto]. apply covered_add_requirer, Hq; [done |]. left.
    apply u16_step; congruence.
Qed.

Lemma soft_require n st :
  let st1 := add_requirer n st in
  soft 1 st (if requirers st1 n =? 1 then name_requirers_changed db n st1 else st1).
Proof.
  intros st1. set (st2 := if requirers st1 n =? 1 then _ else _).
  assert (soft 0 st1 st2) as [Ha Hl Hc He Hp] by (unfold st2; soft_auto).
  pose proof (add_requirer_nst n st) as Hn. fold st1 in Hn.
  split; [split | ..].
  - intros m. destruct (Hn m) as (<- & <- & _). apply (adv_locked _ _ _ Ha).
  - by rewrite He.
  - by rewrite (adv_ignore _ _ _ Ha).
  - by rewrite (adv_changeset _ _ _ Ha).
  - intros m. change 1 with (1 + 0). eapply grows_trans; [done | done | | apply (adv_requirers _ _ _ Ha)].
    destruct (Hn m) as (_ & _ & _ & ->). destruct (decide (m = n)) as [->|]; [apply u16_grows | by apply grows_refl].
  - intros m Hm. by apply (adv_covered _ _ _ Ha), covered_add_requirer.
  - intros x Hx m Hm. destruct (decide (m = n)) as [->|Hne]; [by apply (requirer_covered n x) |].
    apply (adv_qinv _ _ _ Ha (fun m => x m \/ m = n)); [by apply qinv_add_requirer | tauto].
  - apply (adv_selectable _ _ _ Ha).
  - apply (adv_conflicts _ _ _ Ha).
  - intros m. rewrite Hl. apply Hn.
  - intros m. rewrite Hc. apply Hn.
  - by rewrite He.
  - apply Hp.
Qed.

Lemma soft_apply_constraint pp d st : soft 1 st (apply_constraint garbage db pp d st).
Proof.
  unfold apply_constraint. case_if; [by apply soft_refl |]. cbv zeta.
  change 1 with (1 + 0) at 1. eapply soft_trans;
    [lia | lia | | apply soft_each0; intros; apply soft_apply_constraint_provider].
  destruct (apk_dep_conflict d); [by apply soft_refl | apply soft_require].
Qed.

(** After a constraint was applied, every provider that can still be selected satisfies
    it. *)
Lemma apply_constraint_effect pp d st :
  apk_dep_conflict d && ss_ignore_conflict st = false ->
  (forall p, selectable st p = true -> ps_conflicts (pst st p) = 0) ->
  forall e, e ∈ providers db (dep_name d) ->
    selectable (apply_constraint garbage db pp d st) e.1 = true ->
    is_provided garbage pp d (entry_provider e) = true.
Proof.
  intros Hi Hc. unfold apply_constraint. rewrite Hi. cbv zeta.
  set (st1 := if apk_dep_conflict d then _ else _).
  assert (forall p, selectable st1 p = true -> ps_conflicts (pst st1 p) = 0) as Hc1.
  { apply (adv_conflicts 1 st); [| done]. apply soft_adv. unfold st1.
    destruct (apk_dep_conflict d); [by apply soft_refl | apply soft_require]. }
  clearbody st1. clear Hi Hc. revert st1 Hc1.
  induction (providers db (dep_name d)) as [|e0 l IH]; intros st1 Hc1 e He; [by apply elem_of_nil in He |].
  simpl. pose proof (soft_adv _ _ _ (soft_apply_constraint_provider pp d e0 st1)) as Ha.
  apply elem_of_cons in He as [->|He].
  - intros Hs. apply (apply_constraint_provider_effect pp d e0 st1 Hc1).
    eapply (adv_selectable 0); [| exact Hs]. apply soft_adv, soft_each0. intros. apply soft_apply_constraint_provider.
  - apply IH; [by apply (adv_conflicts _ _ _ Ha) | done].
Qed.

(** ** Reconsidering a name *)

Lemma soft_reconsider_refresh rd p st : soft 0 st (reconsider_refresh garbage db rd p st).
Proof. unfold reconsider_refresh. soft_auto. Qed.

Lemma soft_merge_option e i st : soft 0 st (merge_option e i st).
Proof. unfold merge_option. soft_auto. Qed.
Hint Resolve soft_reconsider_refresh soft_merge_option : soft.

Lemma soft_reconsider_candidate n ri e v st : soft 0 st (reconsider_candidate garbage db n ri e v st).2.
Proof.
  unfold reconsider_candidate. cbv zeta. set (st1 := if ri then _ else st).
  assert (soft 0 st st1) by (unfold st1; destruct ri; soft_auto). clearbody st1.
  case_if; simpl; soft_auto.
Qed.

Lemma soft_reconsider_provider n rd ri e vst :
  soft 0 vst.2 (reconsider_provider garbage db n rd ri e vst).2.
Proof.
  unfold reconsider_provider. cbv zeta. case_if; simpl; [soft_auto |].
  eapply soft_trans0; [| apply soft_reconsider_candidate]. soft_auto.
Qed.

Lemma soft_reconsider_providers n rd ri l vst :
  soft 0 vst.2 (each (reconsider_provider garbage db n rd ri) l vst).2.
Proof.
  revert vst. induction l as [|e l IH]; intros vst; simpl; [by apply soft_refl |].
  eapply soft_trans0; [apply soft_reconsider_provider | apply IH].
Qed.

Lemma soft_propagate_single p i st : soft (Z.of_nat (length (pkg_depends p))) st (propagate_single garbage db p i st).
Proof.
  rewrite <- (Z.mul_1_l (Z.of_nat _)). apply soft_each; [done |]. intros d st' _. simpl.
  apply (soft_trans 0 1 _ (upd_n (dep_name d) (set_ns_merge_depends 0) st')); [done | done | soft_auto |].
  case_if; [apply soft_apply_constraint | by apply soft_refl].
Qed.

Lemma soft_propagate_common p i st : soft (Z.of_nat (length (pkg_depends p))) st (propagate_common db p i st).
Proof.
  rewrite <- (Z.mul_1_l (Z.of_nat _)). apply soft_each; [done |]. intros d st' _. simpl.
  apply (soft_trans 0 1 _ (upd_n (dep_name d) (set_ns_merge_depends 0) st')); [done | done | soft_auto |].
  set (st1 := upd_n _ _ st'). case_if; [| by apply soft_refl]. bool_prop. fold (add_requirer (dep_name d) st1).
  eapply (soft_trans 1 0); [done | done | | apply soft_each0; by auto with soft].
  pose proof (soft_require (dep_name d) st1) as Hr. cbv zeta in Hr.
  assert (requirers (add_requirer (dep_name d) st1) (dep_name d) = 1) as E.
  { pose proof (add_requirer_nst (dep_name d) st1 (dep_name d)) as (_ & _ & _ & ->).
    rewrite decide_True by done. unfold requirers. by rewrite H0. }
  by rewrite E in Hr.
Qed.

Lemma soft_provides_transitivity n i m st : soft 0 st (provides_transitivity db n i m st).
Proof. unfold provides_transitivity. simpl. soft_auto. Qed.
Hint Resolve soft_provides_transitivity : soft.

Lemma soft_propagate n p i st : soft (Z.of_nat (length (pkg_depends p))) st (propagate garbage db n p i st).
Proof.
  unfold propagate. cbv zeta. set (k := Z.of_nat _).
  assert (forall s1 s2 s3, soft k s1 s2 -> soft 0 s2 s3 -> soft k s1 s3) as Ht.
  { intros s1 s2 s3 H1 H2. rewrite <- (Z.add_0_r k). eapply soft_trans; [lia | lia | done | done]. }
  eapply Ht; [| apply soft_each0; by auto with soft]. eapply Ht; [| by auto with soft].
  eapply Ht; [| apply soft_each0; by auto with soft]. eapply Ht; [| by auto with soft].
  set (st1 := each _ (providers db n) st). rewrite <- (Z.add_0_l k).
  apply (soft_trans _ _ _ st1); [done | lia | apply soft_each0; by auto with soft |].
  case_if; [apply soft_propagate_single | apply soft_propagate_common].
Qed.

(** The counters grow by at most this much in one round for a package. *)
Definition pkg_weight (p : apk_package) : Z :=
  Z.of_nat (length (pkg_depends p) + (1 + length (pkg_provides p)) * length (pkg_install_if p)).

(** The packages that provide names of the database. *)
Definition known (p : apk_package) : Prop := exists n v, (p, v) ∈ providers db n.

Lemma candidate_known n rd ri l vst p :
  (forall e, e ∈ l -> known e.1) -> (forall q, rv_first_candidate vst.1 = Some q -> known q) ->
  rv_first_candidate (each (reconsider_provider garbage db n rd ri) l vst).1 = Some p -> known p.
Proof.
  revert vst. induction l as [|e l IH]; intros vst Hl Hv; simpl; [apply Hv |].
  apply IH; [set_solver |]. intros q. unfold reconsider_provider, reconsider_candidate. cbv zeta.
  set (st' := if ri then _ else _). case_if; simpl; [apply Hv |]. case_if; simpl; [apply Hv |].
  intros [= <-]. destruct (rv_first_candidate vst.1); simpl; [by apply Hv | apply Hl; set_solver].
Qed.

Lemma soft_reconsider_name_weight n st :
  exists k, 0 <= k /\ (k = 0 \/ exists p, known p /\ k <= pkg_weight p) /\ soft k st (reconsider_name garbage db n st).
Proof.
  unfold reconsider_name. cbv zeta.
  set (st1 := upd_n n _ st). assert (soft 0 st st1) as H1 by (unfold st1; soft_auto). clearbody st1.
  pose proof (soft_reconsider_providers n (ns_reevaluate_deps (nst st n)) (ns_reevaluate_iif (nst st n))
    (providers db n) (mk_rv None 0 0 false true false, st1)) as H2.
  pose proof (candidate_known n (ns_reevaluate_deps (nst st n)) (ns_reevaluate_iif (nst st n))
    (providers db n) (mk_rv None 0 0 false true false, st1)) as Hk.
  destruct (each _ _ _) as [v st2]. cbn [fst snd] in H2, Hk.
  set (st3 := upd_n n _ st2). assert (soft 0 st st3) as H3.
  { eapply soft_trans0; [exact H1 |]. eapply soft_trans0; [exact H2 |]. unfold st3. soft_auto. }
  clearbody st3.
  set (st4 := match rv_first_candidate v with Some _ => _ | None => _ end).
  assert (exists k, 0 <= k /\ (k = 0 \/ exists p, known p /\ k <= pkg_weight p) /\ soft k st st4) as (k & Hk0 & Hw & Hs).
  { unfold st4. destruct (rv_first_candidate v) as [p|]; [| by exists 0; auto using Z.le_refl].
    exists (0 + Z.of_nat (length (pkg_depends p))). split_and!; [lia | right |].
    - exists p. split; [| unfold pkg_weight; lia]. apply Hk; [| done | done]. intros [p' v'] ?. by exists n, v'.
    - apply (soft_trans _ _ _ st3); [done | lia | done | apply soft_propagate]. }
  exists k. split_and!; [done | done |]. rewrite <- (Z.add_0_r k).
  eapply soft_trans; [done | done | exact Hs |]. soft_auto.
Qed.

Context (D : Z).
Hypothesis D_bounds : forall p, known p -> pkg_weight p <= D.
Hypothesis D_pos : 0 <= D.


Lemma soft_reconsider_name n st : soft D st (reconsider_name garbage db n st).
Proof.
  destruct (soft_reconsider_name_weight n st) as (k & Hk & Hw & Hs). eapply soft_le; [| exact Hs].
  split; [done |]. destruct Hw as [-> | (p & Hp & Hw)]; [done |]. specialize (D_bounds p Hp). lia.
Qed.

(** ** Marking and assigning *)

Lemma adv_mark_error p st : adv 0 st (mark_error p st).
Proof.
  destruct p as [p|]; [| by apply adv_refl]. unfold mark_error. case_if; [by apply adv_refl |]. cbv zeta.
  set (st1 := upd_p p (set_ps_error true) st).
  assert (forall q, selectable st1 q = selectable st q /\ ps_conflicts (pst st1 q) = ps_conflicts (pst st q)) as H.
  { intros q. unfold selectable, st1. rewrite pst_upd_p. destruct (decide _) as [Hq|]; [| done].
    by assert (pst st q = pst st p) as -> by (unfold pst; by rewrite Hq). }
  split; try done.
  - simpl. change (ss_errors st1) with (ss_errors st). lia.
  - intros n. by apply grows_refl.
  - intros q. change (selectable st1 q = true -> selectable st q = true). by rewrite (proj1 (H q)).
  - intros Hc q. change (selectable st1 q = true -> ps_conflicts (pst st1 q) = 0).
    destruct (H q) as [-> ->]. apply Hc.
Qed.

Lemma mark_error_counts p st :
  0 <= ss_errors st -> (forall q, ps_error (pst st q) = true -> 0 < ss_errors st) ->
  0 < ss_errors (mark_error (Some p) st).
Proof.
  intros H0 He. unfold mark_error. destruct (ps_error (pst st p)) eqn:E; [by eapply He |].
  simpl. change (ss_errors (upd_p _ _ st)) with (ss_errors st). lia.
Qed.

(** An error flag is set only together with an increment of the count. *)
Definition errors_ok (st : apk_solver_state) : Prop :=
  0 <= ss_errors st /\ forall p, ps_error (pst st p) = true -> 0 < ss_errors st.

Lemma errors_ok_mark_error p st : errors_ok st -> errors_ok (mark_error p st).
Proof.
  intros [H0 He]. destruct p as [p|]; [| done]. pose proof (mark_error_counts p st H0 He).
  split; [lia | done].
Qed.

Lemma errors_ok_soft k st st' : soft k st st' -> errors_ok st -> errors_ok st'.
Proof.
  intros H [H0 He]. split; [by rewrite (soft_errors _ _ _ H) |].
  intros p. rewrite (soft_error _ _ _ H), (soft_errors _ _ _ H). apply He.
Qed.

Lemma assign_lock_facts n p st :
  let st' := assign_lock n p st in
  (forall m, nst st' m = if decide (m = n) then set_ns_chosen p (set_ns_locked true (nst st n)) else nst st m)
  /\ (forall q, pst st' q = pst st q) /\ ss_errors st' = ss_errors st
  /\ ss_ignore_conflict st' = ss_ignore_conflict st /\ ss_changeset st' = ss_changeset st
  /\ (forall m, m <> n -> m ∈ queue st -> m ∈ queue st').
Proof.
  unfold assign_lock. cbv zeta. set (st1 := upd_n n _ st).
  set (st2 := if ns_unresolved_hashed (nst st n) then unlink_unresolved n st1 else st1).
  assert (ss_names st2 = ss_names st1 /\ ss_pkgs st2 = ss_pkgs st /\ ss_errors st2 = ss_errors st
    /\ ss_ignore_conflict st2 = ss_ignore_conflict st /\ ss_changeset st2 = ss_changeset st
    /\ forall m, m <> n -> m ∈ queue st -> m ∈ queue st2) as (Hn & Hp & He & Hi & Hcs & Hq).
  { unfold st2. case_if; [| done]. split_and!; try done. intros m Hm. unfold queue, unlink_unresolved. simpl.
    rewrite !elem_of_app, !elem_of_unlink. change (queue st1) with (queue st). tauto. }
  assert (forall m, nst st2 m = if decide (m = n) then set_ns_chosen p (set_ns_locked true (nst st n)) else nst st m)
    as Hn2.
  { intros m. unfold nst at 1. rewrite Hn. change (default name_state0 (ss_names st1 !! m)) with (nst st1 m).
    unfold st1. apply nst_upd_n. }
  assert (forall q, pst st2 q = pst st q) as Hp2 by (intros q; unfold pst; by rewrite Hp).
  clearbody st2. by case_if.
Qed.

Lemma adv_assign_lock n p st : locked st n = false -> adv 0 st (assign_lock n p st).
Proof.
  intros Hl. destruct (assign_lock_facts n p st) as (Hn & Hp & He & Hi & Hcs & Hq). set (st' := assign_lock n p st) in *.
  assert (forall m, requirers st' m = requirers st m /\ ns_unresolved_hashed (nst st' m) = ns_unresolved_hashed (nst st m))
    as Hsame.
  { intros m. unfold requirers. rewrite Hn. by destruct (decide (m = n)) as [->|]. }
  assert (forall m, covered st m -> covered st' m) as Hcov.
  { intros m [Hm|Hm]; unfold covered, locked in *; rewrite Hn; destruct (decide (m = n)) as [->|];
      [by left | by left | by left | right; auto]. }
  split; unfold selectable; try done; try lia.
  - intros m Hm. unfold locked, chosen in *. rewrite Hn. destruct (decide (m = n)) as [->|]; [congruence | done].
  - intros m. rewrite (proj1 (Hsame m)). by apply grows_refl.
  - intros x Hx m Hm. destruct (Hsame m) as [-> ->]. intros H. by apply Hcov, Hx.
  - intros q. by rewrite Hp.
  - intros Hc q. rewrite Hp. apply Hc.
Qed.

Definition iif_weight (p : apk_provider) : Z :=
  match prov_pkg p with
  | Some pkg => Z.of_nat (length (pkg_install_if pkg))
  | None => 0
  end.

Lemma iif_weight_pos p : 0 <= iif_weight p.
Proof. unfold iif_weight. case_match; lia. Qed.

Lemma soft_disqualify_others n p st : soft 0 st (disqualify_others db n p st).
Proof. unfold disqualify_others. soft_auto. Qed.
Hint Resolve soft_disqualify_others : soft.

(** Everything after the lock is soft. *)
Lemma assign_name_soft n p st :
  locked st n = false -> soft (iif_weight p) (assign_lock n p st) (assign_name garbage db n p st).
Proof.
  intros Hl. unfold assign_name. unfold locked in Hl. rewrite Hl. cbv zeta.
  set (st1 := assign_lock n p st). clearbody st1. clear Hl st.
  match goal with |- context [disqualify_others db n p ?s] => set (st2 := s) end.
  assert (soft (iif_weight p) st1 st2) as H2.
  { unfold st2, iif_weight. destruct (prov_pkg p) as [pkg|]; [| by apply soft_refl].
    case_if; [| apply soft_refl; lia]. rewrite <- (Z.mul_1_l (Z.of_nat _)). apply soft_each; [done |].
    intros d st' _. simpl. case_if; [by apply soft_refl | apply soft_apply_constraint]. }
  clearbody st2. rewrite <- (Z.add_0_r (iif_weight p)).
  eapply soft_trans; [apply iif_weight_pos | done | exact H2 |].
  destruct (prov_pkg p); soft_auto.
Qed.

Lemma adv_assign_name n p st : adv (iif_weight p) st (assign_name garbage db n p st).
Proof.
  destruct (locked st n) eqn:Hl.
  - apply (adv_le 0); [pose proof (iif_weight_pos p); lia |]. unfold assign_name. unfold locked in Hl. rewrite Hl.
    repeat (case_if; [by apply adv_refl |]).
    apply (adv_trans 0 0 _ (mark_error (prov_pkg p) st)); [done | done | apply adv_mark_error..].
  - eapply (adv_le (0 + iif_weight p)); [pose proof (iif_weight_pos p); lia |].
    eapply adv_trans; [done | apply iif_weight_pos | by apply adv_assign_lock |].
    apply soft_adv. by apply assign_name_soft.
Qed.

Lemma assign_name_locks n p st : locked (assign_name garbage db n p st) n = true.
Proof.
  destruct (locked st n) eqn:Hl; [by apply (adv_assign_name n p st) |].
  rewrite (soft_locked _ _ _ (assign_name_soft n p st Hl)). unfold locked.
  destruct (assign_lock_facts n p st) as (-> & _). by rewrite decide_True.
Qed.

Lemma errors_ok_assign_name n p st : errors_ok st -> errors_ok (assign_name garbage db n p st).
Proof.
  intros He. destruct (locked st n) eqn:Hl.
  - unfold assign_name. unfold locked in Hl. rewrite Hl.
    repeat (case_if; [done |]). by do 2 apply errors_ok_mark_error.
  - eapply errors_ok_soft; [by apply assign_name_soft |].
    destruct (assign_lock_facts n p st) as (_ & Hp & Her & _). destruct He as [H0 He].
    split; [by rewrite Her |]. intros q. rewrite Hp, Her. apply He.
Qed.

(** What [assign_name] does to the chosen providers. *)
Lemma assign_name_chosen n p st m :
  chosen (assign_name garbage db n p st) m
  = (if decide (m = n) then if locked st n then chosen st n else p else chosen st m)
  /\ (locked (assign_name garbage db n p st) m = true -> m = n \/ locked st m = true).
Proof.
  destruct (locked st n) eqn:Hl.
  - assert (forall q st' k, chosen (mark_error q st') k = chosen st' k /\ locked (mark_error q st') k = locked st' k) as H.
    { intros [q|] st' k; [| done]. unfold mark_error. by case_if. }
    assert (chosen (assign_name garbage db n p st) m = chosen st m
      /\ locked (assign_name garbage db n p st) m = locked st m) as [-> ->].
    { unfold assign_name. unfold locked in Hl. rewrite Hl. repeat (case_if; [done |]).
      split; [by rewrite !(proj1 (H _ _ _)) | by rewrite !(proj2 (H _ _ _))]. }
    split; [by destruct (decide (m = n)) as [->|] | auto].
  - pose proof (assign_name_soft n p st Hl) as Hs.
    rewrite (soft_chosen _ _ _ Hs), (soft_locked _ _ _ Hs). unfold chosen, locked in *.
    destruct (assign_lock_facts n p st) as (-> & _). destruct (decide (m = n)); auto.
Qed.

(** ** The loop invariant *)

Context (world : list apk_dependency) (ign : bool).

(** The world dependencies that count: not disabled, and not a conflict that is ignored. *)
Definition active (d : apk_dependency) : Prop :=
  d ∈ world /\ dep_broken d = false /\ apk_dep_conflict d && ign = false.

(** [p] satisfies what the world says about [n]. *)
Definition good (n : bytes) (p : apk_provider) : Prop :=
  forall d, active d -> dep_name d = n -> is_provided garbage None d p = true.

Record inv0 (x : bytes -> Prop) (st : apk_solver_state) : Prop := {
  inv_ignore : ss_ignore_conflict st = ign;
  inv_unlocked : forall n, locked st n = false -> chosen st n = provider_none;
  inv_providers : forall n e, e ∈ providers db n -> selectable st e.1 = true -> good n (entry_provider e);
  inv_nonneg : forall n, 0 <= requirers st n;
  inv_required : forall d, active d -> apk_dep_conflict d = false -> requirers st (dep_name d) <> 0;
  inv_queue : qinv x st;
  inv_errors : errors_ok st;
}.

(** Every decided name has a provider that satisfies the world, or an error was counted. *)
Definition decided (st : apk_solver_state) : Prop :=
  forall n, locked st n = true -> 0 < ss_errors st \/ good n (chosen st n).

(** The counters have room for [k] more. *)
Definition room (k : Z) (st : apk_solver_state) : Prop := forall n, requirers st n + k < 2 ^ 16.

Lemma room_adv k1 k2 st st' :
  0 <= k2 -> (forall n, 0 <= requirers st n) -> adv k1 st st' -> room (k1 + k2) st -> room k2 st'.
Proof.
  intros Hk H0 Ha Hr n. specialize (Hr n). pose proof (adv_requirers _ _ _ Ha n (H0 n)). lia.
Qed.

Lemma inv0_adv k x st st' :
  0 <= k -> adv k st st' -> room k st -> errors_ok st' ->
  (forall n, locked st' n = false -> chosen st' n = chosen st n) ->
  inv0 x st -> inv0 x st'.
Proof.
  intros Hk Ha Hr He Hc [H1 H2 H3 H4 H5 H6 H7].
  assert (forall n, requirers st n <= requirers st' n) as Hmono.
  { intros n. pose proof (adv_requirers _ _ _ Ha n (H4 n)). specialize (Hr n). lia. }
  split; [by rewrite (adv_ignore _ _ _ Ha) | | | | | by apply (adv_qinv _ _ _ Ha) | done].
  - intros n Hn. rewrite Hc by done. apply H2. destruct (locked st n) eqn:E; [| done].
    apply (adv_locked _ _ _ Ha) in E as [E _]. congruence.
  - intros n e Hin Hs. apply H3; [done |]. by apply (adv_selectable _ _ _ Ha).
  - intros n. specialize (H4 n). specialize (Hmono n). lia.
  - intros d Hd Hnc. specialize (H5 d Hd Hnc). specialize (H4 (dep_name d)). specialize (Hmono (dep_name d)). lia.
Qed.

Lemma inv0_soft k x st st' : 0 <= k -> soft k st st' -> room k st -> inv0 x st -> inv0 x st'.
Proof.
  intros Hk Hs Hr Hi. apply (inv0_adv k x st st'); [done | by apply soft_adv | done | | | done].
  - eapply errors_ok_soft; [done | apply Hi].
  - intros n _. apply (soft_chosen _ _ _ Hs).
Qed.

Lemma decided_soft k st st' : soft k st st' -> decided st -> decided st'.
Proof.
  intros Hs Hd n. rewrite (soft_locked _ _ _ Hs), (soft_chosen _ _ _ Hs), (soft_errors _ _ _ Hs). apply Hd.
Qed.

Lemma inv0_mark_error x p st : room 0 st -> inv0 x st -> inv0 x (mark_error p st).
Proof.
  intros Hr Hi. apply (inv0_adv 0 x st); [done | apply adv_mark_error | done | | | done].
  - apply errors_ok_mark_error, Hi.
  - intros n _. destruct p; [| done]. unfold mark_error. by case_if.
Qed.

Lemma inv0_assign_name x n p st :
  room (iif_weight p) st -> inv0 x st -> inv0 x (assign_name garbage db n p st).
Proof.
  intros Hr Hi. apply (inv0_adv (iif_weight p) x st);
    [apply iif_weight_pos | apply adv_assign_name | done | | | done].
  - apply errors_ok_assign_name, Hi.
  - intros m Hm. rewrite (proj1 (assign_name_chosen n p st m)). destruct (decide (m = n)) as [->|]; [| done].
    by rewrite assign_name_locks in Hm.
Qed.

Lemma decided_assign_name n p st :
  0 < ss_errors st \/ good n p -> decided st -> decided (assign_name garbage db n p st).
Proof.
  intros Hp Hd m Hm. pose proof (adv_errors _ _ _ (adv_assign_name n p st)) as He.
  destruct (assign_name_chosen n p st m) as [-> Hl]. apply Hl in Hm.
  destruct (decide (m = n)) as [->|Hne].
  - destruct (locked st n) eqn:E; [destruct (Hd n E); [left; lia | by right] |].
    destruct Hp; [left; lia | by right].
  - destruct Hm; [done |]. destruct (Hd m); [done | left; lia | by right].
Qed.

(** ** Selecting a package *)

(** What the solver relies on of the provider lists of the database (Database.v
    establishes it): every entry comes from the package's own name or from one of its
    provides, and every package is listed under all of those. *)
Definition providers_consistent : Prop :=
  (forall n p v, (p, v) ∈ providers db n ->
     n = pkg_name p \/ exists d, d ∈ pkg_provides p /\ dep_name d = n)
  /\ (forall p, known p -> (p, pkg_version p) ∈ providers db (pkg_name p))
  /\ (forall p d, known p -> d ∈ pkg_provides p -> (p, dep_version d) ∈ providers db (dep_name d)).
Hypothesis consistent : providers_consistent.

Lemma consider_provider_cases n st e best :
  consider_provider db n st e best = best \/ consider_provider db n st e best = entry_provider e.
Proof. unfold consider_provider. repeat case_if; auto. Qed.

Lemma choose_provider_entry n st :
  choose_provider db n st = provider_none
  \/ exists e, e ∈ providers db n /\ choose_provider db n st = entry_provider e.
Proof using.
  clear consistent D_pos D_bounds D.
  unfold choose_provider. case_if; [| by left].
  assert (forall l best, each (consider_provider db n st) l best = best
    \/ exists e, e ∈ l /\ each (consider_provider db n st) l best = entry_provider e) as H; [| apply H].
  induction l as [|e l IH]; intros best; simpl; [by left |].
  destruct (IH (consider_provider db n st e best)) as [-> | (e' & ? & ->)].
  - destruct (consider_provider_cases n st e best) as [-> | ->]; [by left | right; exists e; set_solver].
  - right. exists e'. set_solver.
Qed.

Lemma assign_provides x p st l :
  (forall d, d ∈ l -> 0 < ss_errors st \/ good (dep_name d) (APK_PROVIDER_FROM_PROVIDES p d)) ->
  room (Z.of_nat (length l) * Z.of_nat (length (pkg_install_if p))) st -> inv0 x st -> decided st ->
  let st' := each (fun d => assign_name garbage db (dep_name d) (APK_PROVIDER_FROM_PROVIDES p d)) l st in
  adv (Z.of_nat (length l) * Z.of_nat (length (pkg_install_if p))) st st' /\ inv0 x st' /\ decided st'
  /\ forall d, d ∈ l -> locked st' (dep_name d) = true.
Proof.
  revert st. induction l as [|d l IH]; intros st Hg Hr Hi Hd; simpl.
  { split_and!; [by apply adv_refl | done | done | by intros ? ?%elem_of_nil]. }
  set (p' := APK_PROVIDER_FROM_PROVIDES p d). set (st1 := assign_name garbage db (dep_name d) p' st).
  pose proof (adv_assign_name (dep_name d) p' st) as Ha. fold st1 in Ha.
  set (w := Z.of_nat (length (pkg_install_if p))) in *. change (iif_weight p') with w in Ha.
  set (k := Z.of_nat (length l) * w) in *.
  assert (0 <= w) by lia. assert (0 <= k) by nia.
  replace (Z.of_nat (length (d :: l)) * w) with (w + k) in * by (simpl length; lia).
  replace (Z.of_nat (S (length l)) * w) with (w + k) by lia.
  destruct (IH st1) as (Ha' & Hi' & Hd' & Hl').
  - intros d' Hd'. destruct (Hg d'); [by right | left | by right]. pose proof (adv_errors _ _ _ Ha). lia.
  - eapply room_adv; [done | apply Hi | exact Ha | done].
  - apply inv0_assign_name; [| done]. change (iif_weight p') with w. intros n. specialize (Hr n). lia.
  - apply decided_assign_name; [| done]. apply Hg. by left.
  - split_and!; [| done | done |].
    + eapply adv_trans; [done | done | exact Ha | exact Ha'].
    + intros d' [->|Hin]%elem_of_cons; [| by apply Hl'].
      apply (adv_locked _ _ _ Ha'). apply assign_name_locks.
Qed.

Definition solver_inv (st : apk_solver_state) : Prop := inv0 (fun _ => False) st /\ decided st.

Lemma decided_mark_error p st : decided st -> decided (mark_error p st).
Proof.
  intros Hd n Hl. pose proof (adv_errors _ _ _ (adv_mark_error p st)).
  assert (locked (mark_error p st) n = locked st n /\ chosen (mark_error p st) n = chosen st n) as [E ->].
  { destruct p; [| done]. unfold mark_error. by case_if. }
  rewrite E in Hl. destruct (Hd n Hl); [left; lia | by right].
Qed.

Lemma inv0_locked n st : locked st n = true -> inv0 (fun m => m = n) st -> inv0 (fun _ => False) st.
Proof.
  intros Hl [H1 H2 H3 H4 H5 H6 H7]. split; try done. intros m _ Hm.
  destruct (decide (m = n)) as [->|]; [by left | by apply H6].
Qed.

(** A selected package satisfies the world under every name it has, or is an error. *)
Lemma selected_good x p st :
  inv0 x st ->
  let s := pst st p in
  let st1 := if negb (ps_pkg_selectable s) || negb (ps_tag_ok s) then mark_error (Some p) st else st in
  forall n v, (p, v) ∈ providers db n -> 0 < ss_errors st1 \/ good n (mk_provider (Some p) v).
Proof.
  intros Hi s st1 n v Hin. subst st1. case_if.
  - left. apply mark_error_counts; apply Hi.
  - right. bool_prop. by apply (inv_providers _ _ Hi n (p, v) Hin).
Qed.

Lemma select_none_inv n st :
  room 0 st -> inv0 (fun m => m = n) st -> decided st ->
  let st1 := assign_name garbage db n provider_none st in
  solver_inv (if 0 <? ns_requirers (nst st1 n) then set_ss_errors (ss_errors st1 + 1) st1 else st1).
Proof.
  intros Hr Hi Hd st1.
  pose proof (adv_assign_name n provider_none st) as Ha. fold st1 in Ha.
  assert (inv0 (fun _ => False) st1) as Hi1.
  { apply (inv0_locked n); [apply assign_name_locks | by apply inv0_assign_name]. }
  assert (requirers st1 n = requirers st n) as Er.
  { pose proof (adv_requirers _ _ _ Ha n (inv_nonneg _ _ Hi n) (Hr n)). change (iif_weight provider_none) with 0 in *. lia. }
  fold (requirers st1 n). rewrite Er. case_if; bool_prop.
  - assert (0 < ss_errors st1 + 1) by (destruct (inv_errors _ _ Hi1); lia).
    split; [| intros m _; by left]. destruct Hi1 as [H1 H2 H3 H4 H5 H6 H7]. split; try done.
    by split; [apply Z.lt_le_incl |].
  - split; [done |]. apply decided_assign_name; [| done]. right. intros d Hact Hname.
    destruct (apk_dep_conflict d) eqn:Ec; [by unfold is_provided; simpl |].
    pose proof (inv_required _ _ Hi d Hact Ec). pose proof (inv_nonneg _ _ Hi n). rewrite Hname in *. lia.
Qed.

Lemma select_package_inv n st :
  room D st -> inv0 (fun m => m = n) st -> decided st -> solver_inv (select_package garbage db n st).
Proof.
  intros Hr Hi Hd. assert (room 0 st) as Hr0 by (intros m; specialize (Hr m); lia).
  unfold select_package. destruct (choose_provider_entry n st) as [-> | ([p v] & Hin & ->)]; [by apply select_none_inv |].
  simpl. assert (known p) as Hk by (by exists n, v).
  pose proof (selected_good _ p st Hi) as Hg. cbv zeta in Hg.
  set (st1 := if _ || _ then _ else _) in *.
  assert (inv0 (fun m => m = n) st1 /\ decided st1 /\ adv 0 st st1) as (Hi1 & Hd1 & Ha1).
  { unfold st1. case_if; [| split_and!; [done | done | by apply adv_refl]].
    split_and!; [by apply inv0_mark_error | by apply decided_mark_error | apply adv_mark_error]. }
  assert (room D st1) as Hr1 by (by apply (room_adv 0 D st); [| apply Hi | |]).
  destruct consistent as (Hc1 & Hc2 & Hc3). pose proof (D_bounds p Hk) as HD. unfold pkg_weight in HD.
  set (w := Z.of_nat (length (pkg_install_if p))) in *.
  set (l := Z.of_nat (length (pkg_provides p))) in *. set (k := Z.of_nat (length (pkg_depends p))) in *.
  assert (k + (1 + l) * w <= D) by lia. assert (0 <= w /\ 0 <= l /\ 0 <= k /\ 0 <= l * w) by nia.
  set (st2 := assign_name garbage db (pkg_name p) (APK_PROVIDER_FROM_PACKAGE p) st1).
  pose proof (adv_assign_name (pkg_name p) (APK_PROVIDER_FROM_PACKAGE p) st1 : adv w st1 st2) as Ha2.
  assert (room (l * w + k) st2) as Hr2.
  { apply (room_adv w _ st1); [lia | apply Hi1 | done |]. intros m. specialize (Hr1 m). lia. }
  assert (inv0 (fun m => m = n) st2 /\ decided st2) as [Hi2 Hd2].
  { split; [apply inv0_assign_name; [intros m; specialize (Hr1 m); change (iif_weight _) with w; lia | done] |].
    apply decided_assign_name; [by apply Hg, Hc2 | done]. }
  destruct (assign_provides (fun m => m = n) p st2 (pkg_provides p)) as (Ha3 & Hi3 & Hd3 & Hl3); [| | done | done |].
  { intros d Hd'. destruct (Hg _ _ (Hc3 p d Hk Hd')); [left | by right]. pose proof (adv_errors _ _ _ Ha2). lia. }
  { intros m. specialize (Hr2 m). fold w l. lia. }
  set (st3 := each _ (pkg_provides p) st2) in *. fold w l in Ha3.
  assert (locked st3 n = true) as Hln.
  { destruct (Hc1 n p v Hin) as [-> | (d & Hd' & <-)]; [| by apply Hl3].
    apply (adv_locked _ _ _ Ha3), assign_name_locks. }
  assert (soft k st3 (each (apply_constraint garbage db (Some p)) (pkg_depends p) st3)) as Hs.
  { unfold k. rewrite <- (Z.mul_1_l (Z.of_nat _)). apply soft_each; [done |]. intros. apply soft_apply_constraint. }
  split; [| by eapply decided_soft].
  eapply inv0_soft; [| exact Hs | | by apply (inv0_locked n)]; [lia |].
  by apply (room_adv (l * w) _ st2); [lia | apply Hi2 | |].
Qed.

(** ** The main loop *)

Lemma dequeue_inv st n st' :
  dequeue_next_name st = Some (n, st') -> solver_inv st ->
  inv0 (fun m => m = n) st' /\ decided st' /\ forall m, requirers st' m = requirers st m.
Proof.
  intros Hdq [[H1 H2 H3 H4 H5 H6 H7] Hd].
  assert (exists st0, st' = upd_n n (set_ns_unresolved_hashed false) st0 /\ ss_names st0 = ss_names st
    /\ ss_pkgs st0 = ss_pkgs st /\ ss_errors st0 = ss_errors st /\ ss_ignore_conflict st0 = ss_ignore_conflict st
    /\ forall m, m <> n -> m ∈ queue st -> m ∈ queue st0) as (st0 & -> & Hn & Hp & He & Hig & Hq).
  { unfold dequeue_next_name in Hdq.
    destruct (ss_resolvenow_head st) eqn:E1; [destruct (ss_selectable_head st) eqn:E2; [destruct (ss_unresolved_head st) eqn:E3|]|];
      simplify_eq; eexists; (split; [reflexivity |]); split_and!; try done;
      intros m Hm; unfold queue; simpl; rewrite ?E1, ?E2, ?E3; set_solver. }
  assert (forall m, nst st0 m = nst st m) as Hns by (intros; unfold nst; by rewrite Hn).
  assert (forall q, pst st0 q = pst st q) as Hps by (intros; unfold pst; by rewrite Hp).
  assert (forall m, locked (upd_n n (set_ns_unresolved_hashed false) st0) m = locked st m
    /\ chosen (upd_n n (set_ns_unresolved_hashed false) st0) m = chosen st m
    /\ requirers (upd_n n (set_ns_unresolved_hashed false) st0) m = requirers st m) as Hm.
  { intros m. unfold locked, chosen, requirers. rewrite nst_upd_n, !Hns. by destruct (decide (m = n)) as [->|]. }
  split_and!; [split | |].
  - change (ss_ignore_conflict st0 = ign). congruence.
  - intros m. destruct (Hm m) as (-> & -> & _). apply H2.
  - intros m e Hin. unfold selectable. rewrite pst_upd_n, Hps. by apply H3.
  - intros m. by rewrite (proj2 (proj2 (Hm m))).
  - intros d. rewrite (proj2 (proj2 (Hm (dep_name d)))). apply H5.
  - intros m Hne. unfold covered. rewrite (proj2 (proj2 (Hm m))), (proj1 (Hm m)), nst_upd_n, !Hns, decide_False by done.
    intros H. destruct (H6 m (fun F => F) H); [by left | right]. change (queue (upd_n n _ st0)) with (queue st0). auto.
  - destruct H7 as [H0 H7]. split; [change (0 <= ss_errors st0); lia |]. intros q. rewrite pst_upd_n, Hps.
    change (ss_errors (upd_n n _ st0)) with (ss_errors st0). rewrite He. apply H7.
  - intros m. destruct (Hm m) as (-> & -> & _). change (ss_errors (upd_n n _ st0)) with (ss_errors st0).
    rewrite He. apply Hd.
  - intros m. apply Hm.
Qed.

Lemma solver_round_inv st st' :
  solver_round garbage db st = Some st' -> room D st -> solver_inv st -> solver_inv st'.
Proof.
  unfold solver_round. intros H Hr Hi. destruct (ss_dirty_head st) as [|n l].
  - destruct (dequeue_next_name st) as [[n st1]|] eqn:E; [| done]. injection H as <-.
    destruct (dequeue_inv st n st1 E Hi) as (Hi1 & Hd1 & Hq). apply select_package_inv; [| done | done].
    intros m. by rewrite Hq.
  - injection H as <-. set (st1 := upd_n n _ _).
    assert (soft (0 + D) st (reconsider_name garbage db n st1)) as Hs.
    { eapply soft_trans; [done | done | | apply soft_reconsider_name]. unfold st1. soft_auto. }
    destruct Hi as [Hi Hd]. split; [by apply (inv0_soft (0 + D) _ st) | by eapply decided_soft].
Qed.

(** The states at the heads of the rounds. *)
Fixpoint solver_trace (fuel : nat) (st : apk_solver_state) : list apk_solver_state :=
  st :: match fuel, solver_round garbage db st with
        | S fuel, Some st' => solver_trace fuel st'
        | _, _ => []
        end.

Lemma solver_round_done st : solver_round garbage db st = None -> queue st = [].
Proof.
  unfold solver_round, dequeue_next_name, queue. destruct (ss_dirty_head st); [| done].
  by destruct (ss_resolvenow_head st), (ss_selectable_head st), (ss_unresolved_head st).
Qed.

Lemma solver_loop_inv fuel st st' :
  solver_loop garbage db fuel st = Some st' -> Forall (room D) (solver_trace fuel st) -> solver_inv st ->
  solver_inv st' /\ queue st' = [].
Proof.
  revert st. induction fuel as [|fuel IH]; intros st; simpl;
    destruct (solver_round garbage db st) as [st1|] eqn:E; try done.
  - intros [= <-] _ Hi. split; [done | by apply solver_round_done].
  - intros Hl [Hr Ht]%List.Forall_cons_iff Hi. apply (IH st1); [done | done |]. by apply (solver_round_inv st).
  - intros [= <-] _ Hi. split; [done | by apply solver_round_done].
Qed.

Lemma solver_inv_final st d :
  solver_inv st -> queue st = [] -> ss_errors st = 0 -> active d ->
  is_provided garbage None d (chosen st (dep_name d)) = true.
Proof.
  intros [Hi Hd] Hq He Hact. destruct (locked st (dep_name d)) eqn:Hl.
  { destruct (Hd _ Hl) as [?|Hg]; [lia | by apply Hg]. }
  rewrite (inv_unlocked _ _ Hi _ Hl). unfold is_provided. simpl.
  destruct (apk_dep_conflict d) eqn:Ec; [done |].
  pose proof (inv_required _ _ Hi d Hact Ec) as Hr.
  destruct (inv_queue _ _ Hi (dep_name d)) as [?|Hin]; [tauto | by left | congruence |].
  rewrite Hq in Hin. by apply elem_of_nil in Hin.
Qed.

(** ** Before the loop *)

(** Discovery sets flags that none of the above depends on, and which packages are
    selectable. *)
Record discovery (st st' : apk_solver_state) : Prop := {
  disc_name : forall n, locked st' n = locked st n /\ chosen st' n = chosen st n
    /\ requirers st' n = requirers st n /\ ns_unresolved_hashed (nst st' n) = ns_unresolved_hashed (nst st n);
  disc_pkg : forall p, ps_error (pst st' p) = ps_error (pst st p)
    /\ ps_conflicts (pst st' p) = ps_conflicts (pst st p);
  disc_errors : ss_errors st' = ss_errors st;
  disc_ignore : ss_ignore_conflict st' = ss_ignore_conflict st;
  disc_queue : queue st' = queue st;
  disc_changeset : ss_changeset st' = ss_changeset st;
  disc_dirty : ss_dirty_head st' = ss_dirty_head st;
}.

#[export] Instance discovery_refl : Reflexive discovery.
Proof. intros st. by split. Qed.
#[export] Instance discovery_trans : Transitive discovery.
Proof.
  intros st1 st2 st3 [H1 H2 H3 H4 H5 H6 H7] [H1' H2' H3' H4' H5' H6' H7']. split; try congruence.
  - intros n. destruct (H1 n) as (<- & <- & <- & <-). apply H1'.
  - intros p. destruct (H2 p) as (<- & <-). apply H2'.
Qed.

Lemma discovery_upd_n n f st :
  (forall s, ns_locked (f s) = ns_locked s /\ ns_chosen (f s) = ns_chosen s
    /\ ns_requirers (f s) = ns_requirers s /\ ns_unresolved_hashed (f s) = ns_unresolved_hashed s) ->
  discovery st (upd_n n f st).
Proof.
  intros Hf. split; try done. intros m. unfold locked, chosen, requirers. rewrite nst_upd_n.
  destruct (decide (m = n)) as [->|]; [apply Hf | done].
Qed.

Lemma discovery_package p st : discovery st (discover_package db p st).
Proof.
  unfold discover_package. split; try done. intros q. rewrite pst_upd_p. destruct (decide _) as [Hq|]; [| done].
  by assert (pst st q = pst st p) as -> by (unfold pst; by rewrite Hq).
Qed.

Lemma discovery_order n st : discovery st (discover_order db flags_set n st).
Proof.
  unfold discover_order. cbv zeta. set (c := u32 _). transitivity (set_ss_order_count c st); [by split |].
  by apply discovery_upd_n.
Qed.

Lemma discovery_discover_name fuel n st st' :
  discover_name db flags_set fuel n st = Some st' -> discovery st st'.
Proof.
  revert n st st'. induction fuel as [|fuel IH]; intros n st st'; simpl; [by case_if; [intros [= <-] |] |].
  case_if; [by intros [= <-] |]. set (st0 := upd_n n _ st).
  assert (discovery st st0) as H0 by (by apply discovery_upd_n; intros []). clearbody st0.
  destruct (each_opt _ (providers db n) st0) as [st1|] eqn:E1; simpl; [| done].
  assert (discovery st0 st1) as H1.
  { revert E1. apply each_opt_rel; [apply _ | apply _ |]. intros e s s' _ Hs.
    destruct (ps_seen (pst s e.1)); simpl in Hs.
    - injection Hs as <-. by apply discovery_upd_n; intros [].
    - destruct (each_opt _ (pkg_depends e.1) _) as [s1|] eqn:Es; simpl in Hs; [| done]. injection Hs as <-.
      transitivity s1; [| by apply discovery_upd_n; intros []].
      transitivity (discover_package db e.1 s); [apply discovery_package |].
      revert Es. apply each_opt_rel; [apply _ | apply _ | eauto]. }
  destruct (each_opt _ (rinstall_if db n) st1) as [st2|] eqn:E2; simpl; [| done].
  assert (discovery st1 st2) as H2 by (revert E2; apply each_opt_rel; [apply _ | apply _ | eauto]).
  destruct (each_opt _ (providers db n) st2) as [st3|] eqn:E3; simpl; [| done].
  assert (discovery st2 st3) as H3.
  { revert E3. apply each_opt_rel; [apply _ | apply _ |]. intros e s s' _ Hs.
    destruct (each_opt _ (rinstall_if db (pkg_name e.1)) s) as [s1|] eqn:Es; simpl in Hs; [| done].
    transitivity s1; [revert Es | revert Hs]; apply each_opt_rel; try apply _; eauto. }
  intros E4. transitivity st0; [done |]. transitivity st1; [done |]. transitivity st2; [done |].
  transitivity st3; [done |]. transitivity (discover_order db flags_set n st3); [apply discovery_order |].
  revert E4. apply each_opt_rel; [apply _ | apply _ |]. intros e s s' _.
  apply each_opt_rel; [apply _ | apply _ | eauto].
Qed.

(** The state of the world phase, where [seen] are the dependencies applied so far. *)
Record winv (seen : list apk_dependency) (st : apk_solver_state) : Prop := {
  w_ignore : ss_ignore_conflict st = ign;
  w_unlocked : forall n, locked st n = false /\ chosen st n = provider_none;
  w_conflicts : forall p, selectable st p = true -> ps_conflicts (pst st p) = 0;
  w_providers : forall d e, d ∈ seen -> dep_broken d = false -> apk_dep_conflict d && ign = false ->
    e ∈ providers db (dep_name d) -> selectable st e.1 = true -> is_provided garbage None d (entry_provider e) = true;
  w_nonneg : forall n, 0 <= requirers st n <= Z.of_nat (length seen);
  w_required : forall d, d ∈ seen -> dep_broken d = false -> apk_dep_conflict d = false -> 1 <= requirers st (dep_name d);
  w_queue : qinv (fun _ => False) st;
  w_errors : errors_ok st;
}.

Lemma apply_constraint_requires pp d st :
  apk_dep_conflict d = false -> 0 <= requirers st (dep_name d) -> requirers st (dep_name d) + 1 < 2 ^ 16 ->
  1 <= requirers (apply_constraint garbage db pp d st) (dep_name d).
Proof.
  intros Hc H0 H1. unfold apply_constraint. rewrite Hc. simpl. fold (add_requirer (dep_name d) st).
  set (st1 := add_requirer (dep_name d) st).
  set (st2 := if ns_requirers (nst st1 (dep_name d)) =? 1 then _ else _).
  set (st3 := each _ _ _).
  assert (soft 0 st1 st3) as Hs.
  { apply (soft_trans0 _ st2); [unfold st2; soft_auto |]. apply soft_each0. intros. apply soft_apply_constraint_provider. }
  assert (requirers st1 (dep_name d) = requirers st (dep_name d) + 1) as E.
  { unfold st1. rewrite (proj2 (proj2 (proj2 (add_requirer_nst _ _ _)))), decide_True by done.
    unfold u16. rewrite Z.mod_small; lia. }
  pose proof (adv_requirers _ _ _ (soft_adv _ _ _ Hs) (dep_name d)) as Hg. unfold grows in Hg. lia.
Qed.

Lemma winv_step seen d st :
  Z.of_nat (length seen) + 1 < 2 ^ 16 -> winv seen st ->
  winv (d :: seen) (if dep_broken d then st
    else apply_constraint garbage db None d (set_ss_pinning_inherit (BIT (dep_tag d)) st)).
Proof.
  intros Hlen [H1 H2 H3 H4 H5 H6 H7 H8]. destruct (dep_broken d) eqn:Hb.
  { split; try done.
    - intros d' e [->|?]%elem_of_cons; [congruence | eauto].
    - intros n. specialize (H5 n). simpl length. lia.
    - intros d' [->|?]%elem_of_cons; [congruence | eauto]. }
  set (st0 := set_ss_pinning_inherit _ st).
  pose proof (soft_apply_constraint None d st0) as Hs. pose proof (soft_adv _ _ _ Hs) as Ha.
  assert (forall n, requirers st0 n + 1 < 2 ^ 16) as Hroom by (intros n; specialize (H5 n : 0 <= requirers st0 n <= _); lia).
  assert (forall n, requirers st0 n <= requirers (apply_constraint garbage db None d st0) n <= requirers st0 n + 1) as Hg.
  { intros n. apply (adv_requirers _ _ _ Ha n); [apply (H5 n) | apply Hroom]. }
  split.
  - by rewrite (adv_ignore _ _ _ Ha).
  - intros n. rewrite (soft_locked _ _ _ Hs), (soft_chosen _ _ _ Hs). apply H2.
  - by apply (adv_conflicts _ _ _ Ha).
  - intros d' e [->|Hin]%elem_of_cons Hb' Hc' He Hsel.
    + eapply (apply_constraint_effect None d st0); [by simpl; rewrite H1 | done | done | done].
    + apply (H4 d' e); try done. by apply (adv_selectable _ _ _ Ha) in Hsel.
  - intros n. specialize (Hg n). pose proof (H5 n : 0 <= requirers st0 n <= _). simpl length. lia.
  - intros d' [->|Hin]%elem_of_cons Hb' Hc'; [by apply apply_constraint_requires; [| apply H5 |] |].
    specialize (Hg (dep_name d')). pose proof (H6 d' Hin Hb' Hc' : 1 <= requirers st0 _). lia.
  - by apply (adv_qinv _ _ _ Ha).
  - by eapply errors_ok_soft.
Qed.

Lemma apply_world_inv l seen st :
  Z.of_nat (length l + length seen) < 2 ^ 16 -> winv seen st ->
  winv (rev l ++ seen) (apply_world garbage db l st).
Proof.
  revert seen st. induction l as [|d l IH]; intros seen st Hlen Hw; [done |].
  cbn [rev]. rewrite <- app_assoc. apply (IH (d :: seen)); [simpl length in *; lia |].
  apply winv_step; [simpl length in *; lia | done].
Qed.

(** The flags a caller sets beforehand leave the rest of the package state zero. *)
Definition marks_fresh (pkgs : gmap nat apk_solver_package_state) : Prop :=
  forall a s, pkgs !! a = Some s -> ps_error s = false /\ ps_conflicts s = 0.

Lemma solver_init_inv solver_flags pkgs cs st :
  marks_fresh pkgs -> ign = testmask solver_flags APK_SOLVERF_IGNORE_CONFLICT ->
  discovery (set_ss_solver_flags_inherit solver_flags (solver_init db solver_flags pkgs cs)) st -> winv [] st.
Proof.
  intros Hf Hign [H1 H2 H3 H4 H5 H6 _].
  assert (forall p, ps_error (pst st p) = false /\ ps_conflicts (pst st p) = 0) as Hp.
  { intros p. destruct (H2 p) as [-> ->]. unfold pst. simpl.
    destruct (pkgs !! pkg_addr p) eqn:E; [by eapply Hf | done]. }
  split.
  - by rewrite H4, Hign.
  - intros n. by destruct (H1 n) as (-> & -> & _).
  - intros p _. apply Hp.
  - intros d e Hd. by apply elem_of_nil in Hd.
  - intros n. by destruct (H1 n) as (_ & _ & -> & _).
  - intros d Hd. by apply elem_of_nil in Hd.
  - intros n _. destruct (H1 n) as (_ & _ & -> & ->). by intros [].
  - split; [by rewrite H3 |]. intros p. by rewrite (proj1 (Hp p)).
Qed.

Lemma solver_start_inv fuel solver_flags pkgs cs st :
  marks_fresh pkgs -> ign = testmask solver_flags APK_SOLVERF_IGNORE_CONFLICT ->
  Z.of_nat (length world) < 2 ^ 16 ->
  solver_start garbage db flags_set fuel solver_flags pkgs cs world = Some st -> solver_inv st.
Proof.
  intros Hf Hign Hlen. unfold solver_start.
  destruct (discover_world _ _ _ _ _) as [st1|] eqn:E; simpl; [| done]. intros [= <-].
  assert (winv [] st1) as H1.
  { apply (solver_init_inv solver_flags pkgs cs); [done | done |]. revert E. apply each_opt_rel; [apply _ | apply _ |].
    intros d s s' _. case_if; [by intros [= <-] | apply discovery_discover_name]. }
  apply (apply_world_inv world []) in H1; [| simpl; lia].
  destruct H1 as [W1 W2 W3 W4 W5 W6 W7 W8]. set (st2 := apply_world garbage db world st1) in *.
  assert (forall d, d ∈ world -> d ∈ rev world ++ []) as Hin.
  { intros d Hd. rewrite app_nil_r, list_elem_of_In, <- in_rev, <- list_elem_of_In. done. }
  split; [split |].
  - done.
  - intros n _. apply W2.
  - intros n e He Hs d (Hd & Hb & Hc) <-. by apply W4; auto.
  - intros n. apply W5.
  - intros d (Hd & Hb & _) Hnc. change (requirers st2 (dep_name d) <> 0).
    pose proof (W6 d (Hin d Hd) Hb Hnc). lia.
  - done.
  - done.
  - intros n Hl. destruct (W2 n) as [H _]. change (locked st2 n = true) in Hl. congruence.
Qed.
End Facts.

(** No requirers counter comes within [D] of its 16-bit limit in any round. *)
Definition counters_fit (garbage : apk_digest) (db : solver_db) (flags_set : gset bytes) (D : Z) (fuel : nat)
    (solver_flags : Z) (pkgs : gmap nat apk_solver_package_state) (cs : apk_changeset)
    (world : list apk_dependency) : Prop :=
  forall st, solver_start garbage db flags_set fuel solver_flags pkgs cs world = Some st ->
    Forall (room D) (solver_trace garbage db fuel st).

(** The condition evaluated on a state. *)
Definition room_check (D : Z) (st : apk_solver_state) : bool :=
  (D <? 2 ^ 16) && forallb (fun kv => ns_requirers kv.2 + D <? 2 ^ 16) (map_to_list (ss_names st)).

Lemma room_check_sound D st : room_check D st = true -> room D st.
Proof.
  unfold room_check. intros H n. bool_prop. rewrite forallb_forall in H0. unfold requirers, nst.
  destruct (ss_names st !! n) as [s|] eqn:E; simpl; [| lia].
  specialize (H0 (n, s)). rewrite <- list_elem_of_In, elem_of_map_to_list in H0. specialize (H0 E). bool_prop. done.
Qed.

Lemma counters_fit_check garbage db flags_set D fuel solver_flags pkgs cs world :
  match solver_start garbage db flags_set fuel solver_flags pkgs cs world with
  | Some st => forallb (room_check D) (solver_trace garbage db fuel st)
  | None => true
  end = true ->
  counters_fit garbage db flags_set D fuel solver_flags pkgs cs world.
Proof.
  intros H st Hs. rewrite Hs in H. apply Forall_forall. intros s Hin. apply room_check_sound.
  rewrite forallb_forall in H. by apply H, list_elem_of_In.
Qed.

(** Up to the end of the main loop. *)
Lemma solver_loop_satisfies_world garbage db flags_set D fuel solver_flags pkgs cs world st0 st d :
  providers_consistent db -> (forall p, known db p -> pkg_weight p <= D) -> 0 <= D -> marks_fresh pkgs ->
  Z.of_nat (length world) < 2 ^ 16 ->
  counters_fit garbage db flags_set D fuel solver_flags pkgs cs world ->
  solver_start garbage db flags_set fuel solver_flags pkgs cs world = Some st0 ->
  solver_loop garbage db fuel st0 = Some st -> ss_errors st = 0 ->
  active world (testmask solver_flags APK_SOLVERF_IGNORE_CONFLICT) d ->
  is_provided garbage None d (chosen st (dep_name d)) = true.
Proof.
  intros Hc HD HD0 Hf Hlen Hfit Hs Hl He Hd. specialize (Hfit st0 Hs).
  apply (solver_start_inv garbage db flags_set world (testmask solver_flags APK_SOLVERF_IGNORE_CONFLICT)) in Hs; [| done..].
  destruct (solver_loop_inv garbage db D HD HD0 world (testmask solver_flags APK_SOLVERF_IGNORE_CONFLICT) Hc fuel st0 st)
    as [Hi Hq]; [done | done | done |].
  by eapply solver_inv_final.
Qed.

(** ** What needs no assumption on the database *)

(** Errors stay counted, and neither the mode nor the change set is touched before the
    change set is generated. *)
Record before_changes (st st' : apk_solver_state) : Prop := {
  bc_errors : errors_ok st -> errors_ok st';
  bc_ignore : ss_ignore_conflict st' = ss_ignore_conflict st;
  bc_changeset : ss_changeset st' = ss_changeset st;
}.

#[export] Instance before_changes_refl : Reflexive before_changes.
Proof. by intros st. Qed.
#[export] Instance before_changes_trans : Transitive before_changes.
Proof. intros st1 st2 st3 [] []. split; [auto | congruence | congruence]. Qed.

Lemma soft_before_changes k st st' : soft k st st' -> before_changes st st'.
Proof.
  intros H. pose proof (soft_adv _ _ _ H) as Ha.
  split; [by apply (errors_ok_soft k) | apply (adv_ignore _ _ _ Ha) | apply (adv_changeset _ _ _ Ha)].
Qed.

Lemma mark_error_before_changes p st : before_changes st (mark_error p st).
Proof.
  pose proof (adv_mark_error p st) as Ha.
  split; [apply errors_ok_mark_error | apply (adv_ignore _ _ _ Ha) | apply (adv_changeset _ _ _ Ha)].
Qed.

Section BeforeChanges.
Context (garbage : apk_digest) (db : solver_db) (flags_set : gset bytes).

Lemma assign_before_changes n p st : before_changes st (assign_name garbage db n p st).
Proof.
  pose proof (adv_assign_name garbage db n p st) as Ha.
  split; [apply errors_ok_assign_name | apply (adv_ignore _ _ _ Ha) | apply (adv_changeset _ _ _ Ha)].
Qed.

Lemma each_before_changes {A} (f : A -> apk_solver_state -> apk_solver_state) l st :
  (forall x s, before_changes s (f x s)) -> before_changes st (each f l st).
Proof.
  intros Hf. revert st. induction l as [|x l IH]; intros st; simpl; [done |]. etrans; [apply Hf | apply IH].
Qed.

Lemma select_before_changes n st : before_changes st (select_package garbage db n st).
Proof.
  unfold select_package. destruct (prov_pkg _) as [p|].
  - cbv zeta. set (st1 := if _ || _ then _ else _).
    transitivity st1; [unfold st1; case_if; [apply mark_error_before_changes | done] |].
    etrans; [| apply each_before_changes; intros; eapply soft_before_changes, soft_apply_constraint].
    etrans; [| apply each_before_changes; intros; apply assign_before_changes].
    apply assign_before_changes.
  - cbv zeta. etrans; [apply (assign_before_changes n provider_none) |]. case_if; [| done].
    split; try done. intros [H0 H]. split; simpl; [lia |]. intros q Hq. specialize (H q Hq). lia.
Qed.

Lemma round_before_changes st st' : solver_round garbage db st = Some st' -> before_changes st st'.
Proof.
  unfold solver_round. destruct (ss_dirty_head st) as [|n l].
  - destruct (dequeue_next_name st) as [[n st1]|] eqn:E; [| done]. intros [= <-].
    transitivity st1; [| apply select_before_changes]. unfold dequeue_next_name in E.
    destruct (ss_resolvenow_head st), (ss_selectable_head st), (ss_unresolved_head st); by simplify_eq.
  - intros [= <-]. set (st1 := upd_n n _ _). transitivity st1; [done |].
    destruct (soft_reconsider_name_weight garbage db n st1) as (k & _ & _ & Hs). by eapply soft_before_changes.
Qed.

Lemma loop_before_changes fuel st st' : solver_loop garbage db fuel st = Some st' -> before_changes st st'.
Proof.
  revert st. induction fuel as [|fuel IH]; intros st; simpl;
    destruct (solver_round garbage db st) as [st1|] eqn:E; try done; try (by intros [= <-]).
  intros H. etrans; [by apply round_before_changes | by apply IH].
Qed.

Lemma discovery_before_changes st st' : discovery st st' -> before_changes st st'.
Proof.
  intros [_ H2 H3 H4 _ H5 _]. split; [| done | done]. intros [H0 H]. split; [by rewrite H3 |].
  intros p. rewrite (proj1 (H2 p)), H3. apply H.
Qed.

Lemma start_before_changes fuel solver_flags pkgs cs world st :
  marks_fresh pkgs -> solver_start garbage db flags_set fuel solver_flags pkgs cs world = Some st ->
  errors_ok st /\ ss_ignore_conflict st = testmask solver_flags APK_SOLVERF_IGNORE_CONFLICT /\ ss_changeset st = cs.
Proof.
  intros Hf. unfold solver_start. set (st0 := set_ss_solver_flags_inherit _ _).
  destruct (discover_world _ _ _ _ _) as [st1|] eqn:E; simpl; [| done]. intros [= <-].
  assert (before_changes st0 (apply_world garbage db world st1)) as [H1 H2 H3].
  { transitivity st1.
    - revert E. apply each_opt_rel; [apply _ | apply _ |]. intros d s s' _. case_if; [by intros [= <-] |].
      intros H. by eapply discovery_before_changes, discovery_discover_name.
    - apply each_before_changes. intros d s. case_if; [done |].
      etrans; [| eapply soft_before_changes, soft_apply_constraint]. done. }
  split_and!; [| done | done]. apply H1. split; [done |]. intros p. unfold pst. simpl.
  destruct (pkgs !! pkg_addr p) eqn:Ep; simpl; [| done]. by rewrite (proj1 (Hf _ _ Ep)).
Qed.
End BeforeChanges.
