(* ===== verification/SolverChangeset.v ===== *)
(** * The change set of the solver

    The change set (generate_changeset of solver.c, Solver.v) is produced by a mutual
    recursion over names and packages.  [cset_rel] is what every part of it guarantees;
    it yields that a change set without errors installs only packages whose
    dependencies are provided, that no package occurs twice, and that the counters
    describe the list of changes.  The recursion is shown to be total. *)

From S2P Require Import Prelude Blob BlobCodec Ctype Version Digest Dep Package PackageRules Solver SolverFacts.

(** The package a change is about: the new one, or the one that is removed. *)
Definition change_subject (c : apk_change) : option nat :=
  pkg_addr <$> (match ch_new_pkg c with Some p => Some p | None => ch_old_pkg c end).

Definition recorded (st : apk_solver_state) : list nat := omap change_subject (cs_changes (ss_changeset st)).

Definition in_cs (st : apk_solver_state) (a : nat) : Prop :=
  ps_in_changeset (default package_state0 (ss_pkgs st !! a)) = true.

(** The counters as functions of the list of changes. *)
Definition is_install (c : apk_change) : bool :=
  bool_decide (ch_old_pkg c = None) && bool_decide (is_Some (ch_new_pkg c)).
Definition is_remove (c : apk_change) : bool := bool_decide (ch_new_pkg c = None).
Definition is_adjust (c : apk_change) : bool :=
  bool_decide (is_Some (ch_old_pkg c)) && bool_decide (is_Some (ch_new_pkg c))
  && (negb (same_pkg (ch_new_pkg c) (ch_old_pkg c)) || ch_reinstall c
      || negb (ch_new_repository_tag c =? ch_old_repository_tag c)).

Definition count (f : apk_change -> bool) (l : list apk_change) : Z := Z.of_nat (length (List.filter f l)).

Lemma count_snoc f l c : count f (l ++ [c]) = count f l + b2z (f c).
Proof. unfold count. rewrite List.filter_app, length_app. simpl. destruct (f c); simpl; lia. Qed.

Section Changeset.
Context (garbage : apk_digest) (db : solver_db).
(** The providers the main loop chose, which stay the same from here on, and the
    counters the change set starts from. *)
Context (ch : bytes -> apk_provider) (ign : bool) (install0 remove0 adjust0 : Z).

(** What it means for the dependencies of an installed package to be met. *)
Definition dep_met (p : apk_package) (d : apk_dependency) : Prop :=
  apk_dep_conflict d && ign = true \/ is_provided garbage (Some p) d (ch (dep_name d)) = true.
Definition deps_met (p : apk_package) : Prop := forall d, d ∈ pkg_depends p -> dep_met p d.

Record cset_ok (st : apk_solver_state) : Prop := {
  ok_chosen : forall n, chosen st n = ch n;
  ok_ignore : ss_ignore_conflict st = ign;
  ok_errors : errors_ok st;
  ok_new : forall c p, c ∈ cs_changes (ss_changeset st) -> ch_new_pkg c = Some p ->
    0 < ss_errors st \/ deps_met p;
  ok_nodup : NoDup (recorded st);
  ok_recorded : forall a, a ∈ recorded st -> in_cs st a;
  ok_install : cs_num_install (ss_changeset st) = install0 + count is_install (cs_changes (ss_changeset st));
  ok_remove : cs_num_remove (ss_changeset st) = remove0 + count is_remove (cs_changes (ss_changeset st));
  ok_adjust : cs_num_adjust (ss_changeset st) = adjust0 + count is_adjust (cs_changes (ss_changeset st));
}.

Record cset_rel (st st' : apk_solver_state) : Prop := {
  rel_errors : ss_errors st <= ss_errors st';
  rel_in : forall a, in_cs st a -> in_cs st' a;
  rel_recorded : forall a, in_cs st a -> a ∈ recorded st' -> a ∈ recorded st;
  rel_ok : cset_ok st -> cset_ok st';
}.

#[local] Instance cset_rel_refl : Reflexive cset_rel.
Proof. by intros st. Qed.
#[local] Instance cset_rel_trans : Transitive cset_rel.
Proof. intros st1 st2 st3 [] []. split; auto with lia. Qed.

(** ** Primitive updates *)

Lemma rel_upd_n n f st : (forall s, ns_chosen (f s) = ns_chosen s) -> cset_rel st (upd_n n f st).
Proof.
  intros Hf. split; try done. intros [H1 H2 H3 H4 H5 H6 H7 H8 H9]. split; try done.
  intros m. rewrite <- H1. unfold chosen. rewrite nst_upd_n. by destruct (decide (m = n)) as [->|].
Qed.

Lemma in_cs_upd_p p f st a :
  in_cs (upd_p p f st) a <-> if decide (a = pkg_addr p) then ps_in_changeset (f (pst st p)) = true else in_cs st a.
Proof.
  unfold in_cs. with_strategy transparent [upd_p] unfold upd_p. simpl. destruct (decide (a = pkg_addr p)) as [->|].
  - by rewrite lookup_insert_eq.
  - by rewrite lookup_insert_ne.
Qed.

(** An update of a package that keeps its error flag, and may set [in_changeset]. *)
Lemma rel_upd_p p f st :
  (forall s, ps_error (f s) = ps_error s /\ (ps_in_changeset s = true -> ps_in_changeset (f s) = true)) ->
  cset_rel st (upd_p p f st).
Proof.
  intros Hf.
  assert (forall a, in_cs st a -> in_cs (upd_p p f st) a) as Hin.
  { intros a Ha. apply in_cs_upd_p. destruct (decide (a = pkg_addr p)) as [->|]; [by apply Hf | done]. }
  split; try done. intros [H1 H2 [H3 H3'] H4 H5 H6 H7 H8 H9]. split; try done.
  - split; [done |]. intros q. rewrite pst_upd_p. destruct (decide _) as [Hq|]; [| apply H3'].
    rewrite (proj1 (Hf _)). apply H3'.
  - intros a Ha. by apply Hin, H6.
Qed.

Lemma rel_mark_error p st : cset_rel st (mark_error p st).
Proof.
  destruct p as [p|]; [| done]. pose proof (errors_ok_mark_error (Some p) st) as He.
  pose proof (adv_errors _ _ _ (adv_mark_error (Some p) st)) as Hle. unfold mark_error in *.
  case_if; [done |]. set (st1 := set_ss_errors _ _) in *.
  assert (forall a, in_cs st a -> in_cs st1 a) as Hin.
  { intros a. change (in_cs st a -> in_cs (upd_p p (set_ps_error true) st) a). rewrite in_cs_upd_p.
    by destruct (decide _) as [->|]. }
  split; try done. intros [H1 H2 H3 H4 H5 H6 H7 H8 H9]. split; try done; auto.
  intros c q Hc Hq. destruct (H4 c q Hc Hq); [left; lia | by right].
Qed.

(** Recording a change for a package that is not recorded yet. *)
Lemma rel_record_change opkg npkg p st :
  match npkg with Some q => Some q | None => opkg end = Some p ->
  let st' := record_change db opkg npkg st in
  ((forall q, npkg = Some q -> 0 < ss_errors st \/ deps_met q) -> in_cs st (pkg_addr p) ->
     pkg_addr p ∉ recorded st -> cset_ok st -> cset_ok st')
  /\ ss_errors st' = ss_errors st /\ ss_pkgs st' = ss_pkgs st
  /\ recorded st' = recorded st ++ [pkg_addr p].
Proof.
  intros Hp st'.
  set (c := make_change db opkg npkg st). set (cs := ss_changeset st).
  assert (ss_names st' = ss_names st /\ ss_pkgs st' = ss_pkgs st /\ ss_errors st' = ss_errors st
    /\ ss_ignore_conflict st' = ss_ignore_conflict st
    /\ ss_changeset st' = mk_changeset (cs_num_install cs + b2z (is_install c)) (cs_num_remove cs + b2z (is_remove c))
        (cs_num_adjust cs + b2z (is_adjust c)) (cs_num_total_changes cs) (cs_changes cs ++ [c]))
    as (Hn & Hpk & He & Hi & Hcs).
  { unfold st', record_change, is_install, is_remove, is_adjust. fold c.
    change (ch_old_pkg c) with opkg. change (ch_new_pkg c) with npkg.
    destruct npkg as [n|], opkg as [o|]; try done. case_if; done. }
  assert (recorded st' = recorded st ++ [pkg_addr p]) as Hr.
  { unfold recorded. rewrite Hcs. simpl. rewrite omap_app. simpl. unfold change_subject. simpl. by rewrite Hp. }
  split_and!; [| done | done | done]. intros Hmet Hin Hnew [H1 H2 [H3 H3'] H4 H5 H6 H7 H8 H9].
  assert (forall x, in_cs st x -> in_cs st' x) as Hin' by (intros x; unfold in_cs; by rewrite Hpk).
  split.
  - intros m. rewrite <- H1. unfold chosen, nst. by rewrite Hn.
  - congruence.
  - split; [by rewrite He |]. intros q. unfold pst. rewrite Hpk, He. apply H3'.
  - intros c' q. rewrite Hcs, He. simpl. intros [Hc|Hc]%elem_of_app Hq; [by eapply H4 |].
    apply list_elem_of_singleton in Hc as ->. by apply Hmet.
  - rewrite Hr. apply NoDup_app. split_and!; [done | set_solver | apply NoDup_singleton].
  - intros x. rewrite Hr. intros [Hx|Hx]%elem_of_app; [auto |]. apply list_elem_of_singleton in Hx as ->. auto.
  - rewrite Hcs. unfold cs. simpl. rewrite count_snoc. lia.
  - rewrite Hcs. unfold cs. simpl. rewrite count_snoc. lia.
  - rewrite Hcs. unfold cs. simpl. rewrite count_snoc. lia.
Qed.

(** ** The recursive functions, given that the recursive calls keep [cset_rel] *)

Section Body.
Context (call : cset_call -> apk_solver_state -> option apk_solver_state).
Hypothesis call_rel : forall c st st', call c st = Some st' -> cset_rel st st'.

Ltac rel_each := apply each_opt_rel; [apply _ | apply _ |]; intros ? ? ? _.

Lemma rel_adjust by_one d st n st' :
  adjust_installed_requirers by_one d st = Some (n, st') -> cset_rel st st'.
Proof.
  unfold adjust_installed_requirers. case_if; [done |]. case_match; [| done]. intros [= <- <-].
  by apply rel_upd_n.
Qed.

Lemma rel_track_added p st : cset_rel st (cset_track_deps_added p st).
Proof.
  unfold cset_track_deps_added. revert st. induction (pkg_depends p) as [|d l IH]; intros st; simpl; [done |].
  etrans; [| apply IH]. destruct (adjust_installed_requirers 1 d st) as [[n st']|] eqn:E; [by eapply rel_adjust | done].
Qed.

Lemma rel_track_removed p st st' : cset_track_deps_removed call p st = Some st' -> cset_rel st st'.
Proof.
  unfold cset_track_deps_removed. rel_each. destruct (adjust_installed_requirers (-1) x s) as [[n s1]|] eqn:E; [| by intros [= <-]].
  apply rel_adjust in E. case_if; [by intros [= <-] |]. case_match; [| by intros [= <-]].
  intros H'. etrans; [exact E | by eapply call_rel].
Qed.

Lemma rel_removal_by_deps p st st' : cset_check_removal_by_deps call p st = Some st' -> cset_rel st st'.
Proof. unfold cset_check_removal_by_deps. case_if; [apply call_rel | by intros [= <-]]. Qed.

Lemma rel_install_by_iif n st st' : cset_check_install_by_iif garbage call n st = Some st' -> cset_rel st st'.
Proof.
  unfold cset_check_install_by_iif. case_match; [| by intros [= <-]].
  case_if; [by intros [= <-] |]. case_if; [apply call_rel | by intros [= <-]].
Qed.

Lemma rel_removal_by_iif n st st' : cset_check_removal_by_iif call n st = Some st' -> cset_rel st st'.
Proof.
  unfold cset_check_removal_by_iif. case_match; [| by intros [= <-]].
  repeat (case_if; [by intros [= <-] |]). case_if; [apply rel_removal_by_deps | by intros [= <-]].
Qed.

Lemma rel_by_reverse_iif p cb st st' :
  (forall n s s', cb n s = Some s' -> cset_rel s s') ->
  cset_check_by_reverse_iif db p cb st = Some st' -> cset_rel st st'.
Proof.
  intros Hcb. destruct p as [p|]; simpl; [| by intros [= <-]].
  destruct (each_opt cb (rinstall_if db (pkg_name p)) st) as [st1|] eqn:E; simpl; [| done]. intros H.
  transitivity st1; [revert E | revert H]; rel_each; [by apply Hcb |]. rel_each. by apply Hcb.
Qed.

Lemma rel_preprocess n st st' : cset_gen_name_preprocess db call n st = Some st' -> cset_rel st st'.
Proof.
  unfold cset_gen_name_preprocess. case_if; [by intros [= <-] |]. cbv zeta.
  set (st1 := upd_n n _ st). assert (cset_rel st st1) as H1 by (by apply rel_upd_n). clearbody st1.
  match goal with |- (?a ≫= _) = _ -> _ => destruct a as [st2|] eqn:E2 end; simpl; [| done].
  intros E3. transitivity st1; [done |]. transitivity st2.
  - revert E2. case_match; [| by intros [= <-]]. case_if; [apply call_rel | by intros [= <-]].
  - revert E3. rel_each. case_if; [apply call_rel | by intros [= <-]].
Qed.

Lemma rel_gen_dep pp d st st' : cset_gen_dep garbage call pp d st = Some st' -> cset_rel st st'.
Proof.
  unfold cset_gen_dep. case_if; [by intros [= <-] |]. cbv zeta. set (st1 := if is_provided _ _ _ _ then _ else _).
  assert (cset_rel st st1) as H1 by (unfold st1; case_if; [done | apply rel_mark_error]). clearbody st1.
  destruct (call _ st1) as [st2|] eqn:E2; simpl; [| done]. apply call_rel in E2. intros [= <-].
  transitivity st1; [done |]. transitivity st2; [done |].
  case_match; [| done]. case_if; [apply rel_mark_error | done].
Qed.

(** A dependency that is not met leaves an error behind. *)
Lemma gen_dep_met p d st st' :
  cset_gen_dep garbage call (Some p) d st = Some st' -> cset_ok st -> 0 < ss_errors st' \/ dep_met p d.
Proof.
  intros H [H1 H2 [H3 H3'] _ _ _ _ _ _]. unfold cset_gen_dep in H. rewrite H2 in H. unfold dep_met.
  destruct (apk_dep_conflict d && ign) eqn:Ei; [by right; left |].
  rewrite H1 in H. destruct (is_provided garbage (Some p) d (ch (dep_name d))) eqn:Ep; [by right; right |].
  left. cbv zeta in H. destruct (call _ _) as [st2|] eqn:E2; simpl in H; [| done]. injection H as <-.
  apply call_rel in E2. pose proof (rel_errors _ _ E2). pose proof (mark_error_counts p st H3 H3').
  case_match; [| lia]. case_if; [| lia]. pose proof (rel_errors _ _ (rel_mark_error (Some p) st2)).
  change (0 < ss_errors (mark_error (Some p) st2)). lia.
Qed.

Lemma gen_deps_met p l st st' :
  each_opt (cset_gen_dep garbage call (Some p)) l st = Some st' -> cset_ok st ->
  0 < ss_errors st' \/ forall d, d ∈ l -> dep_met p d.
Proof.
  revert st. induction l as [|d l IH]; intros st; simpl; [intros _ _; right; by intros d ?%elem_of_nil |].
  destruct (cset_gen_dep garbage call (Some p) d st) as [st1|] eqn:E; simpl; [| done]. intros H Hok.
  destruct (IH st1 H) as [?|Hl]; [by apply (rel_gen_dep _ _ _ _ E) | by left |].
  assert (cset_rel st1 st') as Hr by (revert H; rel_each; apply rel_gen_dep).
  destruct (gen_dep_met p d st st1 E Hok); [left; pose proof (rel_errors _ _ Hr); lia |].
  right. intros d' [->|?]%elem_of_cons; auto.
Qed.

(** Flagging [p] and later recording it. *)
Lemma rel_record_flagged opkg npkg p st st1 st2 :
  match npkg with Some q => Some q | None => opkg end = Some p ->
  ~ in_cs st (pkg_addr p) -> in_cs st1 (pkg_addr p) -> recorded st1 = recorded st ->
  cset_rel st st1 -> cset_rel st1 st2 ->
  (forall q, npkg = Some q -> cset_ok st -> 0 < ss_errors st2 \/ deps_met q) ->
  cset_rel st (record_change db opkg npkg st2).
Proof.
  intros Hp Hnot Hin Hrec H1 H2 Hmet. destruct (rel_record_change opkg npkg p st2 Hp) as (Hok & He & Hpk & Hr).
  pose proof (cset_rel_trans _ _ _ H1 H2) as H12. split.
  - rewrite He. apply (rel_errors _ _ H12).
  - intros a Ha. unfold in_cs. rewrite Hpk. by apply (rel_in _ _ H12).
  - intros a Ha. rewrite Hr. intros [Ha'|Ha']%elem_of_app; [by apply (rel_recorded _ _ H12) |].
    by apply list_elem_of_singleton in Ha' as ->.
  - intros Hs. pose proof (rel_ok _ _ H12 Hs) as Hs2. apply Hok; [intros q Hq; auto | by apply (rel_in _ _ H2) | | done].
    intros Hrp. apply Hnot, (ok_recorded _ Hs). rewrite <- Hrec. by apply (rel_recorded _ _ H2).
Qed.

Lemma not_in_cs p st : ps_in_changeset (pst st p) = false -> ~ in_cs st (pkg_addr p).
Proof. unfold in_cs, pst. congruence. Qed.

Lemma in_cs_set p st : in_cs (upd_p p (set_ps_in_changeset true) st) (pkg_addr p).
Proof. apply in_cs_upd_p. by rewrite decide_True. Qed.

Lemma rel_change_package p st st' :
  ps_in_changeset (pst st p) = false -> cset_change_package garbage db call p st = Some st' -> cset_rel st st'.
Proof.
  intros Hin. unfold cset_change_package. cbv zeta. set (st1 := upd_p p _ st).
  destruct (cset_gen_name_preprocess _ _ _ st1) as [st2|] eqn:E2; simpl; [| done].
  destruct (each_opt _ (pkg_provides p) st2) as [st3|] eqn:E3; simpl; [| done].
  set (opkg := ns_installed_pkg (nst st3 (pkg_name p))).
  destruct (cset_check_by_reverse_iif db opkg _ st3) as [st4|] eqn:E4; simpl; [| done].
  destruct (each_opt _ (pkg_depends p) st4) as [st5|] eqn:E5; simpl; [| done].
  set (st6 := record_change db opkg (Some p) st5).
  match goal with |- (?a ≫= _) = _ -> _ => destruct a as [st7|] eqn:E7 end; simpl; [| done]. intros E8.
  assert (cset_rel st1 st4) as H14.
  { transitivity st2; [by apply (rel_preprocess (pkg_name p)) |]. transitivity st3.
    - revert E3. rel_each. apply rel_preprocess.
    - revert E4. apply rel_by_reverse_iif. apply rel_removal_by_iif. }
  assert (cset_rel st4 st5) as H45 by (revert E5; rel_each; apply rel_gen_dep).
  assert (cset_rel st st1) as H01 by (by apply rel_upd_p).
  assert (cset_rel st st6) as H6.
  { apply (rel_record_flagged opkg (Some p) p st st1 st5); try done.
    - by apply not_in_cs.
    - apply in_cs_set.
    - by transitivity st4.
    - intros q [= <-] Hok. apply (gen_deps_met p _ st4 st5 E5). by apply (rel_ok _ _ H14), (rel_ok _ _ H01). }
  transitivity st6; [done |]. transitivity st7.
  { revert E7. apply (rel_by_reverse_iif (Some p)). apply rel_install_by_iif. }
  transitivity (cset_track_deps_added p st7); [apply rel_track_added |].
  revert E8. destruct opkg; [apply rel_track_removed | by intros [= <-]].
Qed.

Lemma rel_body c st st' : cset_body garbage db call c st = Some st' -> cset_rel st st'.
Proof.
  destruct c as [n|p]; simpl; (case_if; [by intros [= <-] |]).
  - destruct (cset_gen_name_preprocess db call n st) as [st1|] eqn:E1; simpl; [| done].
    apply rel_preprocess in E1. destruct (chosen_pkg st1 n) as [p|]; [| by intros [= <-]].
    destruct (ps_in_changeset (pst st1 p)) eqn:Ei; [by intros [= <-] |].
    intros H. etrans; [exact E1 | by apply (rel_change_package p)].
  - apply orb_false_iff in Heqb as [Hin _]. set (st1 := upd_p p _ _).
    destruct (each_opt _ (installed_rdeps garbage db p) st1) as [st2|] eqn:E2; simpl; [| done].
    match goal with |- (?a ≫= _) = _ -> _ => destruct a as [st3|] eqn:E3 end; simpl; [| done]. intros E4.
    assert (cset_rel st1 st3) as H13.
    { transitivity st2; [revert E2; rel_each; apply call_rel |].
      revert E3. apply (rel_by_reverse_iif (Some p)). apply rel_removal_by_iif. }
    assert (cset_rel st st1) as H01.
    { transitivity (upd_n (pkg_name p) (set_ns_changeset_removed true) st); [by apply rel_upd_n | by apply rel_upd_p]. }
    etrans; [| by eapply rel_track_removed].
    apply (rel_record_flagged (Some p) None p st st1 st3); try done; [by apply not_in_cs | apply in_cs_set].
Qed.
End Body.

Lemma rel_run fuel c st st' : cset_run garbage db fuel c st = Some st' -> cset_rel st st'.
Proof.
  revert c st st'. induction fuel as [|fuel IH]; intros c st st'; simpl; [done |]. by apply rel_body.
Qed.

(** ** The whole change set *)

Lemma rel_set_installed p st : cset_rel st (set_installed p st).
Proof.
  unfold set_installed. cbv zeta. set (st1 := upd_n _ _ st).
  transitivity st1; [by apply rel_upd_n |]. clearbody st1. revert st1.
  induction (pkg_provides p) as [|d l IH]; intros st1; simpl; [done |].
  etrans; [| apply IH]. case_if; [done | by apply rel_upd_n].
Qed.

Lemma rel_each {A} (f : A -> apk_solver_state -> apk_solver_state) l st :
  (forall x s, cset_rel s (f x s)) -> cset_rel st (each f l st).
Proof.
  intros Hf. revert st. induction l as [|x l IH]; intros st; simpl; [done |]. etrans; [apply Hf | apply IH].
Qed.

(** A state that is ready for the change set. *)
Lemma cset_ok_start st :
  (forall n, chosen st n = ch n) -> ss_ignore_conflict st = ign -> errors_ok st ->
  cs_num_install (ss_changeset st) = install0 -> cs_num_remove (ss_changeset st) = remove0 ->
  cs_num_adjust (ss_changeset st) = adjust0 ->
  let cs := ss_changeset st in
  let st1 := set_ss_changeset (mk_changeset (cs_num_install cs) (cs_num_remove cs) (cs_num_adjust cs)
    (cs_num_total_changes cs) []) st in
  cset_ok (set_ss_names (cset_reset_name <$> ss_names st1) st1).
Proof.
  intros H1 H2 [H3 H3'] H4 H5 H6. cbv zeta. split; simpl; try done; try by split. all: try (unfold count; simpl; lia).
  - intros n. rewrite <- H1. unfold chosen, nst. simpl. rewrite lookup_fmap. by destruct (ss_names st !! n).
  - intros c p Hc. by apply elem_of_nil in Hc.
  - apply NoDup_nil_2.
  - intros a Ha. by apply elem_of_nil in Ha.
Qed.

Lemma generate_changeset_ok fuel world st st' :
  (forall n, chosen st n = ch n) -> ss_ignore_conflict st = ign -> errors_ok st ->
  cs_num_install (ss_changeset st) = install0 -> cs_num_remove (ss_changeset st) = remove0 ->
  cs_num_adjust (ss_changeset st) = adjust0 ->
  generate_changeset garbage db fuel world st = Some st' ->
  exists st1, cset_ok st1 /\ ss_errors st <= ss_errors st1 /\ ss_names st' = ss_names st1
    /\ ss_pkgs st' = ss_pkgs st1 /\ ss_errors st' = ss_errors st1
    /\ let cs := ss_changeset st1 in
      ss_changeset st' = mk_changeset (cs_num_install cs) (cs_num_remove cs) (cs_num_adjust cs)
        (cs_num_install cs + cs_num_remove cs + cs_num_adjust cs) (cs_changes cs).
Proof.
  intros H1 H2 H3 H4 H5 H6. pose proof (cset_ok_start st H1 H2 H3 H4 H5 H6) as Hok. cbv zeta in Hok.
  unfold generate_changeset. cbv zeta. set (st0 := set_ss_names _ _) in *.
  pose proof (rel_each set_installed (sdb_installed db) st0 rel_set_installed) as R1.
  set (st1 := each set_installed _ _) in *.
  pose proof (rel_each cset_track_deps_added (sdb_installed db) st1 rel_track_added) as R2.
  set (st2 := each cset_track_deps_added _ _) in *.
  destruct (each_opt _ (sdb_installed db) st2) as [st3|] eqn:E3; simpl; [| done].
  destruct (each_opt _ world st3) as [st4|] eqn:E4; simpl; [| done].
  destruct (each_opt _ (sdb_installed db) st4) as [st5|] eqn:E5; simpl; [| done]. intros [= <-].
  pose proof (rel_run fuel) as Hrun.
  assert (cset_rel st0 st5) as HR.
  { transitivity st1; [done |]. transitivity st2; [done |]. transitivity st3; [| transitivity st4].
    - revert E3. apply each_opt_rel; [apply _ | apply _ |]. intros p s s' _. by apply rel_removal_by_deps.
    - revert E4. apply each_opt_rel; [apply _ | apply _ |]. intros d s s' _. by apply rel_gen_dep.
    - revert E5. apply each_opt_rel; [apply _ | apply _ |]. intros p s s' _. by apply Hrun. }
  exists st5. split_and!; [by apply (rel_ok _ _ HR) | apply (rel_errors _ _ HR) | done..].
Qed.
End Changeset.

(** ** What a solution without errors is worth *)

Section Solution.
Context (garbage : apk_digest) (db : solver_db) (flags_set : gset bytes).

(** The parts of an attempt. *)
Lemma solver_attempt_inv fuel solver_flags pkgs cs world st :
  solver_attempt garbage db flags_set fuel solver_flags pkgs cs world = Some st ->
  exists st0 st1, solver_start garbage db flags_set fuel solver_flags pkgs cs world = Some st0
    /\ solver_loop garbage db fuel st0 = Some st1 /\ generate_changeset garbage db fuel world st1 = Some st.
Proof.
  unfold solver_attempt. destruct (solver_start _ _ _ _ _ _ _ _) as [st0|] eqn:E0; simpl; [| done].
  destruct (solver_loop garbage db fuel st0) as [st1|] eqn:E1; simpl; [| done]. intros H. by exists st0, st1.
Qed.

(** The change set that belongs to the choices of the main loop. *)
Lemma solver_attempt_changes fuel solver_flags pkgs cs world st0 st1 st :
  marks_fresh pkgs ->
  solver_start garbage db flags_set fuel solver_flags pkgs cs world = Some st0 ->
  solver_loop garbage db fuel st0 = Some st1 -> generate_changeset garbage db fuel world st1 = Some st ->
  exists st2, cset_ok garbage (chosen st1) (testmask solver_flags APK_SOLVERF_IGNORE_CONFLICT)
      (cs_num_install cs) (cs_num_remove cs) (cs_num_adjust cs) st2
    /\ ss_errors st1 <= ss_errors st2 /\ ss_names st = ss_names st2 /\ ss_pkgs st = ss_pkgs st2
    /\ ss_errors st = ss_errors st2
    /\ let cs := ss_changeset st2 in
      ss_changeset st = mk_changeset (cs_num_install cs) (cs_num_remove cs) (cs_num_adjust cs)
        (cs_num_install cs + cs_num_remove cs + cs_num_adjust cs) (cs_changes cs).
Proof.
  intros Hf H0 H1 H2. apply start_before_changes in H0 as (He & Hi & Hc); [| done].
  apply loop_before_changes in H1 as [He1 Hi1 Hc1].
  eapply generate_changeset_ok; [done | congruence | auto | congruence.. | exact H2].
Qed.

(** C1: when a run of the solver ends without errors, every dependency of the world
    that is not disabled (and is not a conflict that the flags say to ignore) is provided
    by the package chosen for its name: a required name has a chosen package of a
    matching version, a conflict has none.  The database lists every package under its
    own name and its provides, and no 16-bit requirers counter comes near its limit. *)
Theorem solver_satisfies_world D fuel solver_flags pkgs cs world st d :
  providers_consistent db -> (forall p, known db p -> pkg_weight p <= D) -> 0 <= D -> marks_fresh pkgs ->
  Z.of_nat (length world) < 2 ^ 16 ->
  counters_fit garbage db flags_set D fuel solver_flags pkgs cs world ->
  solver_attempt garbage db flags_set fuel solver_flags pkgs cs world = Some st -> ss_errors st = 0 ->
  d ∈ world -> dep_broken d = false ->
  apk_dep_conflict d && testmask solver_flags APK_SOLVERF_IGNORE_CONFLICT = false ->
  is_provided garbage None d (chosen st (dep_name d)) = true.
Proof.
  intros Hc HD HD0 Hf Hlen Hfit H He Hd Hb Hi. apply solver_attempt_inv in H as (st0 & st1 & H0 & H1 & H2).
  destruct (solver_attempt_changes _ _ _ _ _ _ _ _ Hf H0 H1 H2) as (st2 & Hok & Hle & Hn & _ & He' & _).
  assert (chosen st (dep_name d) = chosen st1 (dep_name d)) as ->.
  { rewrite <- (ok_chosen _ _ _ _ _ _ _ Hok). unfold chosen, nst. by rewrite Hn. }
  destruct (start_before_changes _ _ _ _ _ _ _ _ _ Hf H0) as (He0 & _).
  destruct (bc_errors _ _ (loop_before_changes _ _ _ _ _ H1) He0) as [Hpos _].
  eapply solver_loop_satisfies_world; [done | done | done | done | done | done | done | done | lia |].
  by split_and!.
Qed.

(** C2: when a run ends without errors, every package the change set installs or
    keeps has each of its dependencies provided by the package chosen for that name. *)
Theorem changeset_dependencies_met fuel solver_flags pkgs cs world st c p d :
  marks_fresh pkgs ->
  solver_attempt garbage db flags_set fuel solver_flags pkgs cs world = Some st -> ss_errors st = 0 ->
  c ∈ cs_changes (ss_changeset st) -> ch_new_pkg c = Some p -> d ∈ pkg_depends p ->
  apk_dep_conflict d && testmask solver_flags APK_SOLVERF_IGNORE_CONFLICT = false ->
  is_provided garbage (Some p) d (chosen st (dep_name d)) = true.
Proof.
  intros Hf H He Hc Hp Hd Hi. apply solver_attempt_inv in H as (st0 & st1 & H0 & H1 & H2).
  destruct (solver_attempt_changes _ _ _ _ _ _ _ _ Hf H0 H1 H2) as (st2 & Hok & _ & Hn & _ & He' & Hcs).
  cbv zeta in Hcs. rewrite Hcs in Hc. simpl in Hc.
  destruct (ok_new _ _ _ _ _ _ _ Hok c p Hc Hp) as [?|Hm]; [lia |].
  assert (chosen st (dep_name d) = chosen st1 (dep_name d)) as ->.
  { rewrite <- (ok_chosen _ _ _ _ _ _ _ Hok). unfold chosen, nst. by rewrite Hn. }
  destruct (Hm d Hd) as [?|?]; [congruence | done].
Qed.

(** C3: no package is the subject of two changes: it is not installed twice, nor both
    kept and removed. *)
Theorem changeset_nodup fuel solver_flags pkgs cs world st :
  marks_fresh pkgs ->
  solver_attempt garbage db flags_set fuel solver_flags pkgs cs world = Some st -> NoDup (recorded st).
Proof.
  intros Hf H. apply solver_attempt_inv in H as (st0 & st1 & H0 & H1 & H2).
  destruct (solver_attempt_changes _ _ _ _ _ _ _ _ Hf H0 H1 H2) as (st2 & Hok & _ & _ & _ & _ & Hcs).
  cbv zeta in Hcs. unfold recorded. rewrite Hcs. apply (ok_nodup _ _ _ _ _ _ _ Hok).
Qed.

(** The counters of the change set are those of the caller's change set plus the
    numbers of installs, removals and adjustments in the list.  Nothing resets them, so
    that after a restart (with the force flag for broken worlds) they also count the
    changes of the abandoned attempt, which are no longer in the list. *)
Theorem changeset_counts fuel solver_flags pkgs cs world st :
  marks_fresh pkgs ->
  solver_attempt garbage db flags_set fuel solver_flags pkgs cs world = Some st ->
  let l := cs_changes (ss_changeset st) in
  cs_num_install (ss_changeset st) = cs_num_install cs + count is_install l
  /\ cs_num_remove (ss_changeset st) = cs_num_remove cs + count is_remove l
  /\ cs_num_adjust (ss_changeset st) = cs_num_adjust cs + count is_adjust l
  /\ cs_num_total_changes (ss_changeset st)
     = cs_num_install cs + cs_num_remove cs + cs_num_adjust cs
       + count is_install l + count is_remove l + count is_adjust l.
Proof.
  intros Hf H. apply solver_attempt_inv in H as (st0 & st1 & H0 & H1 & H2).
  destruct (solver_attempt_changes _ _ _ _ _ _ _ _ Hf H0 H1 H2) as (st2 & Hok & _ & _ & _ & _ & Hcs).
  cbv zeta in *. rewrite Hcs. simpl.
  rewrite (ok_install _ _ _ _ _ _ _ Hok), (ok_remove _ _ _ _ _ _ _ Hok), (ok_adjust _ _ _ _ _ _ _ Hok).
  split_and!; lia.
Qed.
End Solution.

(** ** An example database *)

(** curl needs a library that two versions of zlib provide. *)
Definition example_dep (name version : bytes) (op : Z) : apk_dependency := mk_dep name version op false 0 0.
Definition example_package (addr : nat) (name version : bytes) (depends provides : list apk_dependency) : apk_package :=
  mk_pkg addr name version depends [] provides [] [] [] [] [] [] [] [] [] 100 0 0 1 0 0 false false 0 2
    (replicate 20 1) None.
Definition ex_curl : apk_package :=
  example_package 1 (lit "curl") (lit "8.0") [example_dep (lit "so:libz") [] APK_DEPMASK_ANY] [].
Definition ex_zlib1 : apk_package :=
  example_package 2 (lit "zlib") (lit "1.2") [] [example_dep (lit "so:libz") (lit "1") APK_VERSION_EQUAL].
Definition ex_zlib2 : apk_package :=
  example_package 3 (lit "zlib") (lit "1.3") [] [example_dep (lit "so:libz") (lit "1.1") APK_VERSION_EQUAL].

Definition ex_names (n : bytes) : apk_name_info :=
  if bool_decide (n = lit "curl") then mk_name_info [(ex_curl, lit "8.0")] [] []
  else if bool_decide (n = lit "zlib") then mk_name_info [(ex_zlib1, lit "1.2"); (ex_zlib2, lit "1.3")] [] []
  else if bool_decide (n = lit "so:libz")
  then mk_name_info [(ex_zlib1, lit "1"); (ex_zlib2, lit "1.1")] [lit "curl"] []
  else mk_name_info [] [] [].
Definition ex_db (force : bool) : solver_db := mk_solver_db ex_names [] [1] 1 1 (fun _ => false) false force.

(** curl, and zlib below 1.3. *)
Definition ex_world : list apk_dependency :=
  [example_dep (lit "curl") [] APK_DEPMASK_ANY; example_dep (lit "zlib") (lit "1.3") APK_VERSION_LESS].
Definition ex_garbage : apk_digest := mk_digest 0 0 [].
Definition ex_final : apk_solver_state :=
  default (solver_init (ex_db false) 0 ∅ changeset0)
    (solver_attempt ex_garbage (ex_db false) ∅ 20 0 ∅ changeset0 ex_world).

Lemma ex_known p : known (ex_db false) p -> p = ex_curl \/ p = ex_zlib1 \/ p = ex_zlib2.
Proof.
  intros (n & v & H). unfold providers in H. simpl in H. unfold ex_names in H.
  repeat case_bool_decide; set_solver.
Qed.

Lemma ex_consistent : providers_consistent (ex_db false).
Proof.
  split_and!.
  - intros n p v H. unfold providers in H. simpl in H. unfold ex_names in H. repeat case_bool_decide; simplify_eq.
    + left. set_solver.
    + left. set_solver.
    + right. assert (p = ex_zlib1 \/ p = ex_zlib2) as [-> | ->] by set_solver; eexists; (split; [left | done]).
    + set_solver.
  - intros p [-> | [-> | ->]]%ex_known; vm_compute; repeat constructor.
  - intros p d [-> | [-> | ->]]%ex_known Hd; simpl in Hd; [set_solver | |];
      apply list_elem_of_singleton in Hd as ->; vm_compute; repeat constructor.
Qed.

Lemma ex_fresh : marks_fresh ∅.
Proof. intros a s H. by rewrite lookup_empty in H. Qed.

(** The run, evaluated. *)
Lemma ex_run : solver_attempt ex_garbage (ex_db false) ∅ 20 0 ∅ changeset0 ex_world = Some ex_final.
Proof. by vm_compute. Qed.

Lemma solver_satisfies_world_witness :
  let d := example_dep (lit "zlib") (lit "1.3") APK_VERSION_LESS in
  is_provided ex_garbage None d (chosen ex_final (dep_name d)) = true.
Proof.
  intros d. refine (solver_satisfies_world ex_garbage (ex_db false) ∅ 1 20 0 ∅ changeset0 ex_world ex_final d
    ex_consistent _ _ ex_fresh _ _ ex_run _ _ _ _).
  - by intros p [-> | [-> | ->]]%ex_known.
  - done.
  - done.
  - apply counters_fit_check. by vm_compute.
  - by vm_compute.
  - right; left.
  - done.
  - done.
Defined.

Lemma changeset_dependencies_met_witness :
  let d := example_dep (lit "so:libz") [] APK_DEPMASK_ANY in
  is_provided ex_garbage (Some ex_curl) d (chosen ex_final (dep_name d)) = true.
Proof.
  intros d. refine (changeset_dependencies_met ex_garbage (ex_db false) ∅ 20 0 ∅ changeset0 ex_world ex_final
    (mk_change None (Some ex_curl) 0 0 false) ex_curl d ex_fresh ex_run _ _ eq_refl _ eq_refl).
  - by vm_compute.
  - vm_compute. repeat constructor.
  - left.
Defined.

Lemma changeset_nodup_witness : NoDup (recorded ex_final).
Proof.
  exact (changeset_nodup ex_garbage (ex_db false) ∅ 20 0 ∅ changeset0 ex_world ex_final ex_fresh ex_run).
Defined.

Lemma changeset_counts_witness :
  cs_num_install (ss_changeset ex_final)
  = cs_num_install changeset0 + count is_install (cs_changes (ss_changeset ex_final)).
Proof.
  exact (proj1 (changeset_counts ex_garbage (ex_db false) ∅ 20 0 ∅ changeset0 ex_world ex_final ex_fresh ex_run)).
Defined.

(** After a restart the change set reports more installs than it contains: with
    one name of the world missing and the force flag set, two packages are installed and
    four are counted. *)
Theorem restart_counts_twice :
  let world := example_dep (lit "missing") [] APK_DEPMASK_ANY :: ex_world in
  match apk_solver_solve ex_garbage (ex_db true) ∅ 1 20 0 ∅ changeset0 world with
  | Some (errors, _, cs) => errors = 0 /\ length (cs_changes cs) = 2%nat /\ cs_num_install cs = 4
                            /\ cs_num_total_changes cs = 4
  | None => False
  end.
Proof. by vm_compute. Qed.
