(* ===== verification/SolverTermination.v ===== *)
(** * The solver terminates

    Discovery and the change set generation are recursive: they are defined whenever
    their fuel covers the names and packages of the database.  The main loop ends
    because each selection locks a name, and between two selections each
    reconsideration either disqualifies a package, finds a name required for the first
    time, or shortens the queue of dirty names. *)

From S2P Require Import Prelude Blob BlobCodec Ctype Version Digest Dep Package PackageRules Solver SolverFacts SolverChangeset.

Section Totality.
Context (garbage : apk_digest) (db : solver_db) (flags_set : gset bytes).

(** The names and packages of a database, closed under everything the solver follows. *)
Context (names : list bytes) (pkgs : list apk_package).

Record closed_db : Prop := {
  cl_pkgs : forall p, known db p -> p ∈ pkgs;
  cl_installed : forall p, p ∈ sdb_installed db -> p ∈ pkgs;
  cl_name : forall p, p ∈ pkgs -> pkg_name p ∈ names;
  cl_depends : forall p d, p ∈ pkgs -> d ∈ pkg_depends p -> dep_name d ∈ names;
  cl_provides : forall p d, p ∈ pkgs -> d ∈ pkg_provides p -> dep_name d ∈ names;
  cl_install_if : forall p d, p ∈ pkgs -> d ∈ pkg_install_if p -> dep_name d ∈ names;
  cl_rdepends : forall n m, m ∈ rdepends db n -> m ∈ names;
  cl_rinstall_if : forall n m, m ∈ rinstall_if db n -> m ∈ names;
}.
Hypothesis closed : closed_db.

Lemma provider_pkgs n e : e ∈ providers db n -> e.1 ∈ pkgs.
Proof. intros H. apply (cl_pkgs closed). exists n, e.2. by destruct e. Qed.

(** ** Discovery *)

Definition seen_le (st st' : apk_solver_state) : Prop :=
  forall n, ns_seen (nst st n) = true -> ns_seen (nst st' n) = true.

#[local] Instance seen_le_refl : Reflexive seen_le.
Proof. intros st n. done. Qed.
#[local] Instance seen_le_trans : Transitive seen_le.
Proof. intros st1 st2 st3 H1 H2 n. auto. Qed.

Definition unseen (st : apk_solver_state) : nat := count_if (fun n => negb (ns_seen (nst st n))) names.

Lemma unseen_le st st' : seen_le st st' -> (unseen st' <= unseen st)%nat.
Proof.
  intros H. apply count_if_le. intros n _ Hn. apply negb_true_iff in Hn. apply negb_true_iff.
  destruct (ns_seen (nst st n)) eqn:E; [| done]. apply H in E. congruence.
Qed.

Lemma seen_le_upd_n n f st : (forall s, ns_seen s = true -> ns_seen (f s) = true) -> seen_le st (upd_n n f st).
Proof. intros Hf m. rewrite nst_upd_n. destruct (decide (m = n)) as [->|]; auto. Qed.

Lemma seen_le_discover_package p st : seen_le st (discover_package db p st).
Proof. by intros n. Qed.
Lemma seen_le_discover_order n st : seen_le st (discover_order db flags_set n st).
Proof.
  intros m. unfold discover_order. cbv zeta. rewrite nst_upd_n. by destruct (decide (m = n)) as [->|].
Qed.

Lemma discover_name_total fuel n st :
  n ∈ names -> (unseen st <= fuel)%nat ->
  exists st', discover_name db flags_set fuel n st = Some st' /\ seen_le st st'.
Proof.
  revert n st. induction fuel as [|fuel IH]; intros n st Hn Hf; simpl.
  { destruct (ns_seen (nst st n)) eqn:E; [by exists st |]. exfalso.
    assert (count_if (fun _ => false) names < unseen st)%nat as H; [| lia].
    apply (count_if_lt _ _ _ n); [done | done | by rewrite E | done]. }
  destruct (ns_seen (nst st n)) eqn:Es; [by exists st |]. set (st0 := upd_n n _ st).
  assert (seen_le st st0) as H0 by (by apply seen_le_upd_n).
  assert (unseen st0 <= fuel)%nat as Hf0.
  { assert (unseen st0 < unseen st)%nat; [| lia]. apply (count_if_lt _ _ _ n); [| done | by rewrite Es |].
    - intros m _ Hm. apply negb_true_iff in Hm. apply negb_true_iff.
      destruct (ns_seen (nst st m)) eqn:E; [| done]. apply H0 in E. congruence.
    - unfold st0. by rewrite nst_upd_n_eq. }
  assert (forall m s, m ∈ names -> seen_le st0 s ->
    exists s', discover_name db flags_set fuel m s = Some s' /\ seen_le st0 s') as Hrec.
  { intros m s Hm Hs. destruct (IH m s Hm) as (s' & ? & ?); [pose proof (unseen_le _ _ Hs); lia |].
    exists s'. split; [done | by transitivity s]. }
  assert (forall (P : apk_solver_state -> Prop) (o : option apk_solver_state), (forall s, P s -> seen_le st0 s) ->
    (exists s, o = Some s /\ P s) -> exists s, o = Some s /\ seen_le st s) as Hweak.
  { intros P o HP (s & -> & Hs). exists s. split; [done |]. transitivity st0; auto. }
  apply (Hweak (seen_le st0)); [done |].
  apply (bind_total (seen_le st0)); [apply each_opt_total; [| done] | intros st1 H1].
  { intros e s He Hs. apply provider_pkgs in He. apply (bind_total (seen_le st0)).
    - case_if; [by exists s |]. apply each_opt_total; [| transitivity s; [done | apply seen_le_discover_package]].
      intros d s' Hd. apply Hrec. by eapply (cl_depends closed).
    - intros s1 Hs1. eexists. split; [done |]. transitivity s1; [done | by apply seen_le_upd_n]. }
  apply (bind_total (seen_le st0)); [apply each_opt_total; [| done] | intros st2 H2].
  { intros m s Hm. apply Hrec. by eapply (cl_rinstall_if closed). }
  apply (bind_total (seen_le st0)); [apply each_opt_total; [| done] | intros st3 H3].
  { intros e s He Hs. apply provider_pkgs in He.
    apply (bind_total (seen_le st0)); [| intros s1 Hs1]; (apply each_opt_total; [| done]).
    - intros m s' Hm. apply Hrec. by eapply (cl_rinstall_if closed).
    - intros d s' Hd. apply Hrec. by eapply (cl_provides closed). }
  apply each_opt_total; [| transitivity st3; [done | apply seen_le_discover_order]].
  intros e s He Hs. apply provider_pkgs in He. apply each_opt_total; [| done].
  intros d s' Hd. apply Hrec. by eapply (cl_install_if closed).
Qed.

(** ** The change set *)

(** What the generation never changes, and the marks it only sets. *)
Record progress (st st' : apk_solver_state) : Prop := {
  pr_processed : forall n, ns_changeset_processed (nst st n) = true -> ns_changeset_processed (nst st' n) = true;
  pr_in : forall p, ps_in_changeset (pst st p) = true -> ps_in_changeset (pst st' p) = true;
  pr_chosen : forall n, chosen st' n = chosen st n;
  pr_installed : forall n, ns_installed_pkg (nst st' n) = ns_installed_pkg (nst st n);
}.

#[local] Instance progress_refl : Reflexive progress.
Proof. by intros st. Qed.
#[local] Instance progress_trans : Transitive progress.
Proof. intros st1 st2 st3 [] []. split; [auto | auto | congruence | congruence]. Qed.

Lemma progress_upd_n n f st :
  (forall s, ns_chosen (f s) = ns_chosen s /\ ns_installed_pkg (f s) = ns_installed_pkg s
    /\ (ns_changeset_processed s = true -> ns_changeset_processed (f s) = true)) ->
  progress st (upd_n n f st).
Proof.
  intros Hf. split; try done; intros m; unfold chosen; rewrite nst_upd_n;
    destruct (decide (m = n)) as [->|]; try done; apply Hf.
Qed.

Lemma progress_upd_p p f st :
  (forall s, ps_in_changeset s = true -> ps_in_changeset (f s) = true) -> progress st (upd_p p f st).
Proof.
  intros Hf. split; try done. intros q. rewrite pst_upd_p. destruct (decide _) as [Hq|]; [| done].
  assert (pst st q = pst st p) as -> by (unfold pst; by rewrite Hq). apply Hf.
Qed.

Lemma progress_mark_error p st : progress st (mark_error p st).
Proof.
  destruct p as [p|]; [| done]. unfold mark_error. case_if; [done |]. cbv zeta.
  by destruct (progress_upd_p p (set_ps_error true) st (fun s H => H)).
Qed.

Lemma progress_record_change o n st : progress st (record_change db o n st).
Proof. unfold record_change. by destruct n, o; try case_if. Qed.

(** The names and packages that are still to be handled. *)
Definition pending (st : apk_solver_state) : nat :=
  count_if (fun n => negb (ns_changeset_processed (nst st n))) names
  + count_if (fun p => negb (ps_in_changeset (pst st p))) pkgs.

Lemma negb_mono (b c : bool) : (b = true -> c = true) -> negb c = true -> negb b = true.
Proof. destruct b, c; naive_solver. Qed.

Lemma pending_le st st' : progress st st' -> (pending st' <= pending st)%nat.
Proof.
  intros H. apply Nat.add_le_mono; apply count_if_le; intros x _; apply negb_mono; apply H.
Qed.

Lemma pending_processed n st st' :
  progress st st' -> n ∈ names -> ns_changeset_processed (nst st n) = false ->
  ns_changeset_processed (nst st' n) = true -> (pending st' < pending st)%nat.
Proof.
  intros H Hn H0 H1. apply Nat.add_lt_le_mono.
  - apply (count_if_lt _ _ _ n); [| done | by rewrite H0 | by rewrite H1]. intros x _. apply negb_mono, H.
  - apply count_if_le. intros x _. apply negb_mono, H.
Qed.

Lemma pending_in p st st' :
  progress st st' -> p ∈ pkgs -> ps_in_changeset (pst st p) = false ->
  ps_in_changeset (pst st' p) = true -> (pending st' < pending st)%nat.
Proof.
  intros H Hp H0 H1. apply Nat.add_le_lt_mono.
  - apply count_if_le. intros x _. apply negb_mono, H.
  - apply (count_if_lt _ _ _ p); [| done | by rewrite H0 | by rewrite H1]. intros x _. apply negb_mono, H.
Qed.

Definition valid (st : apk_solver_state) : Prop :=
  (forall n p, chosen_pkg st n = Some p -> p ∈ pkgs)
  /\ (forall n p, ns_installed_pkg (nst st n) = Some p -> p ∈ pkgs).

Lemma valid_progress st st' : progress st st' -> valid st -> valid st'.
Proof.
  intros H [H1 H2]. split; intros n p.
  - unfold chosen_pkg. rewrite (pr_chosen _ _ H). apply H1.
  - rewrite (pr_installed _ _ H). apply H2.
Qed.

Definition valid_call (c : cset_call) : Prop :=
  match c with
  | cset_gen_name_change n => n ∈ names
  | cset_gen_name_remove p => p ∈ pkgs
  end.

(** The packages reported by the reverse dependency walk are providers. *)
Lemma matching_deps_pkg p0 p flags deps r :
  matching_deps garbage p0 p flags deps = Ok r -> forall c, c ∈ r -> c.1 = p0.
Proof.
  revert r. induction deps as [|d deps IH]; intros r; simpl; [intros [= <-]; by intros c ?%elem_of_nil |].
  case_if; [apply IH |]. destruct (apk_dep_analyze garbage p0 d p); simpl; [| done].
  case_if; [| apply IH]. case_if; [intros [= <-]; by intros c ->%list_elem_of_singleton |].
  destruct (matching_deps garbage p0 p flags deps) as [r'|]; simpl; [| done]. intros [= <-].
  intros c [->|Hc]%elem_of_cons; [done | by eapply IH].
Qed.

Definition calls_known (w : list (option apk_package * apk_dependency) * gmap nat Z) : Prop :=
  forall c p, c ∈ w.1 -> c.1 = Some p -> p ∈ pkgs.

Definition walk_view : rdep_view := mk_view (rdepends db) (fun n => (providers db n).*1) (fun _ => false).

Lemma foreach_providers_known p flags l w w' :
  (forall q, q ∈ l -> q ∈ pkgs) -> calls_known w ->
  foreach_providers garbage walk_view p flags l w = Ok w' -> calls_known w'.
Proof.
  revert w. induction l as [|q l IH]; intros w Hl Hw; cbn [foreach_providers]; [by intros [= <-] |].
  assert (forall q', q' ∈ l -> q' ∈ pkgs) as Hl' by (intros; apply Hl; by right).
  case_if; [by apply IH |]. case_if; [by apply IH |].
  destruct (apk_pkg_match_genid w.2 (Some q) flags) as [seen g]. destruct seen; [by apply IH |].
  destruct (matching_deps _ _ _ _ _) as [r|] eqn:E; simpl; [| done]. apply IH; [done |].
  intros c p' [Hc|Hc]%elem_of_app Hp'; [by eapply Hw |].
  rewrite (matching_deps_pkg _ _ _ _ _ E c Hc) in Hp'. injection Hp' as <-. apply Hl. by left.
Qed.

Lemma foreach_reverse_known p flags l w w' :
  calls_known w -> foreach_reverse_dependency garbage walk_view p l flags w = Ok w' -> calls_known w'.
Proof.
  revert w. induction l as [|n l IH]; intros w Hw; simpl; [by intros [= <-] |].
  destruct (foreach_providers _ _ _ _ _ w) as [w1|] eqn:E; simpl; [| done]. apply IH.
  eapply foreach_providers_known; [| exact Hw | exact E].
  intros q (e & -> & He)%list_elem_of_fmap. by eapply provider_pkgs.
Qed.

Lemma installed_rdeps_known p q : q ∈ installed_rdeps garbage db p -> q ∈ pkgs.
Proof.
  unfold installed_rdeps. fold walk_view. set (flags := Z.lor _ _).
  destruct (apk_pkg_foreach_reverse_dependency _ _ _ _ _) as [[calls g]|] eqn:E; [| by intros ?%elem_of_nil].
  intros (c & Hc & Hq)%list_elem_of_omap.
  assert (calls_known (calls, g)) as Hk; [| by eapply Hk].
  unfold apk_pkg_foreach_reverse_dependency in E.
  destruct (foreach_reverse_dependency _ _ _ _ _ _) as [w1|] eqn:E1; simpl in E; [| done].
  assert (calls_known w1) as H1 by (eapply foreach_reverse_known; [| exact E1]; by intros ? ? ?%elem_of_nil).
  clear E1. revert w1 H1 E. induction (pkg_provides p) as [|d l IH]; intros w1 H1; simpl; [by intros [= ->] |].
  destruct (foreach_reverse_dependency _ _ _ _ _ w1) as [w2|] eqn:E2; simpl; [| done].
  apply IH. by eapply foreach_reverse_known.
Qed.

Section Calls.
Context (call : cset_call -> apk_solver_state -> option apk_solver_state) (st0 : apk_solver_state).
Hypothesis valid0 : valid st0.
Hypothesis call_total : forall c s, valid_call c -> progress st0 s ->
  exists s', call c s = Some s' /\ progress st0 s'.

(** The result of a computation that starts in progress from [st0]. *)
Definition defined (o : option apk_solver_state) : Prop := exists s', o = Some s' /\ progress st0 s'.

Lemma defined_ret s : progress st0 s -> defined (Some s).
Proof. intros. by exists s. Qed.
Lemma defined_bind o k : defined o -> (forall s, progress st0 s -> defined (k s)) -> defined (o ≫= k).
Proof. apply bind_total. Qed.
Lemma defined_each {A} (f : A -> apk_solver_state -> option apk_solver_state) l s :
  (forall x s, x ∈ l -> progress st0 s -> defined (f x s)) -> progress st0 s -> defined (each_opt f l s).
Proof. apply each_opt_total. Qed.

Lemma chosen_valid s n p : progress st0 s -> chosen_pkg s n = Some p -> p ∈ pkgs.
Proof. intros Hs. by apply (valid_progress _ _ Hs valid0). Qed.
Lemma installed_valid s n p : progress st0 s -> ns_installed_pkg (nst s n) = Some p -> p ∈ pkgs.
Proof. intros Hs. by apply (valid_progress _ _ Hs valid0). Qed.

Lemma progress_adjust k d s n s' : adjust_installed_requirers k d s = Some (n, s') -> progress s s'.
Proof.
  unfold adjust_installed_requirers. case_if; [done |]. case_match; [| done]. intros [= <- <-].
  by apply progress_upd_n.
Qed.

Lemma defined_track_removed p s : progress st0 s -> defined (cset_track_deps_removed call p s).
Proof.
  apply defined_each. intros d s1 _ Hs.
  destruct (adjust_installed_requirers (-1) d s1) as [[n s2]|] eqn:E; [| by apply defined_ret].
  apply progress_adjust in E. assert (progress st0 s2) as H2 by (by transitivity s1).
  case_if; [by apply defined_ret |]. destruct (ns_installed_pkg (nst s2 (dep_name d))) eqn:Ei; [| by apply defined_ret].
  apply call_total; [by eapply installed_valid | done].
Qed.

Lemma defined_removal_by_deps p s : p ∈ pkgs -> progress st0 s -> defined (cset_check_removal_by_deps call p s).
Proof.
  intros Hp Hs. unfold cset_check_removal_by_deps. case_if; [by apply call_total | by apply defined_ret].
Qed.

Lemma defined_install_by_iif n s : n ∈ names -> progress st0 s -> defined (cset_check_install_by_iif garbage call n s).
Proof.
  intros Hn Hs. unfold cset_check_install_by_iif. case_match; [| by apply defined_ret].
  case_if; [by apply defined_ret |]. case_if; [by apply call_total | by apply defined_ret].
Qed.

Lemma defined_removal_by_iif n s : progress st0 s -> defined (cset_check_removal_by_iif call n s).
Proof.
  intros Hs. unfold cset_check_removal_by_iif. destruct (ns_installed_pkg (nst s n)) eqn:E; [| by apply defined_ret].
  repeat (case_if; [by apply defined_ret |]).
  case_if; [apply defined_removal_by_deps; [by eapply installed_valid | done] | by apply defined_ret].
Qed.

Lemma defined_by_reverse_iif p cb s :
  (forall n s, n ∈ names -> progress st0 s -> defined (cb n s)) -> progress st0 s ->
  defined (cset_check_by_reverse_iif db p cb s).
Proof.
  intros Hcb Hs. destruct p as [p|]; [| by apply defined_ret]. simpl.
  apply defined_bind; [apply defined_each; [| done] | intros s1 Hs1; apply defined_each; [| done]].
  - intros n s1 Hn. apply Hcb. by eapply (cl_rinstall_if closed).
  - intros d s2 _ Hs2. apply defined_each; [| done]. intros n s3 Hn. apply Hcb. by eapply (cl_rinstall_if closed).
Qed.

(** The state in which [cset_gen_name_preprocess] starts to make calls. *)
Definition processed (n : bytes) (s : apk_solver_state) : apk_solver_state :=
  if ns_changeset_processed (nst s n) then s else upd_n n (set_ns_changeset_processed true) s.

Lemma progress_processed n s : progress s (processed n s).
Proof. unfold processed. case_if; [done | by apply progress_upd_n]. Qed.

Lemma defined_preprocess n s :
  progress st0 (processed n s) -> defined (cset_gen_name_preprocess db call n s).
Proof.
  intros Hs. unfold cset_gen_name_preprocess, processed in *. case_if; [by apply defined_ret |].
  apply defined_bind.
  - destruct (ns_installed_pkg _) eqn:E; [| by apply defined_ret].
    case_if; [apply call_total; [by eapply installed_valid | done] | by apply defined_ret].
  - intros s1 Hs1. apply defined_each; [| done]. intros e s2 He Hs2.
    case_if; [| by apply defined_ret]. apply call_total; [by eapply provider_pkgs | done].
Qed.

Lemma defined_gen_dep pp d s : dep_name d ∈ names -> progress st0 s -> defined (cset_gen_dep garbage call pp d s).
Proof.
  intros Hd Hs. unfold cset_gen_dep. case_if; [by apply defined_ret |]. cbv zeta. apply defined_bind.
  - apply call_total; [done |]. case_if; [done |]. transitivity s; [done | apply progress_mark_error].
  - intros s1 Hs1. apply defined_ret. case_match; [| done]. case_if; [| done].
    transitivity s1; [done | apply progress_mark_error].
Qed.

Lemma progress_track_added p s : progress s (cset_track_deps_added p s).
Proof.
  unfold cset_track_deps_added. revert s. induction (pkg_depends p) as [|d l IH]; intros s; simpl; [done |].
  etrans; [| apply IH]. destruct (adjust_installed_requirers 1 d s) as [[n s']|] eqn:E; [by eapply progress_adjust | done].
Qed.

Lemma defined_change_package p s : p ∈ pkgs -> progress st0 s -> defined (cset_change_package garbage db call p s).
Proof.
  intros Hp Hs. unfold cset_change_package. cbv zeta.
  assert (forall n s1, progress st0 s1 -> defined (cset_gen_name_preprocess db call n s1)) as Hpre.
  { intros n s1 H1. apply defined_preprocess. transitivity s1; [done | apply progress_processed]. }
  apply defined_bind; [apply Hpre; transitivity s; [done | by apply progress_upd_p] | intros s1 H1].
  apply defined_bind; [by apply defined_each; [intros d s2 _; apply Hpre |] | intros s2 H2].
  apply defined_bind; [apply defined_by_reverse_iif; [intros n s3 _; apply defined_removal_by_iif | done] | intros s3 H3].
  apply defined_bind; [apply defined_each; [| done] | intros s4 H4].
  { intros d s4 Hd. apply defined_gen_dep. by eapply (cl_depends closed). }
  apply defined_bind.
  { apply defined_by_reverse_iif; [apply defined_install_by_iif |].
    transitivity s4; [done | apply progress_record_change]. }
  intros s5 H5. assert (progress st0 (cset_track_deps_added p s5)) as H6.
  { transitivity s5; [done | apply progress_track_added]. }
  case_match; [by apply defined_track_removed | by apply defined_ret].
Qed.
End Calls.

Lemma cset_run_total fuel c st :
  valid_call c -> valid st -> (pending st < fuel)%nat ->
  exists st', cset_run garbage db fuel c st = Some st' /\ progress st st'.
Proof.
  revert c st. induction fuel as [|fuel IH]; intros c st Hc Hv Hf; [lia |]. cbn [cset_run].
  assert (forall st0, progress st st0 -> (pending st0 < pending st)%nat -> forall c s, valid_call c -> progress st0 s ->
    exists s', cset_run garbage db fuel c s = Some s' /\ progress st0 s') as Hcall.
  { intros st0 H0 Hlt c' s Hc' Hs. destruct (IH c' s Hc') as (s' & ? & ?).
    - eapply valid_progress; [| exact Hv]. by transitivity st0.
    - pose proof (pending_le _ _ Hs). lia.
    - exists s'. split; [done | by transitivity s]. }
  assert (forall st0 o, progress st st0 -> defined st0 o -> exists st', o = Some st' /\ progress st st') as Hdone.
  { intros st0 o H0 (s & -> & Hs). exists s. split; [done | by transitivity st0]. }
  destruct c as [n|p]; cbn [cset_body valid_call] in *; cbv zeta.
  - destruct (ns_changeset_processed (nst st n)) eqn:Ep; [by exists st |].
    pose proof (progress_processed n st) as H0. set (st0 := processed n st) in *.
    assert (pending st0 < pending st)%nat as Hlt.
    { apply (pending_processed n); [done | done | done |]. unfold st0, processed. rewrite Ep. by rewrite nst_upd_n_eq. }
    pose proof (valid_progress _ _ H0 Hv) as Hv0. specialize (Hcall st0 H0 Hlt).
    apply (Hdone st0); [done |]. apply defined_bind; [by apply defined_preprocess |].
    intros s Hs. destruct (chosen_pkg s n) eqn:Ec; [| by apply defined_ret].
    case_if; [by apply defined_ret |]. apply defined_change_package; [done | done | | done].
    by apply (chosen_valid st0 Hv0 s n).
  - destruct (ps_in_changeset (pst st p)) eqn:Ei; cbn [orb]; [by exists st |].
    destruct (match chosen_pkg st (pkg_name p) with Some c => _ | None => false end); [by exists st |].
    set (st0 := upd_p p _ _).
    assert (progress st st0) as H0.
    { transitivity (upd_n (pkg_name p) (set_ns_changeset_removed true) st); [by apply progress_upd_n | by apply progress_upd_p]. }
    assert (pending st0 < pending st)%nat as Hlt.
    { apply (pending_in p); [done | done | done |]. unfold st0. by rewrite pst_upd_p_eq. }
    pose proof (valid_progress _ _ H0 Hv) as Hv0. specialize (Hcall st0 H0 Hlt).
    apply (Hdone st0); [done |]. apply defined_bind; [apply defined_each; [| done] |].
    { intros q s Hq. apply Hcall. by eapply installed_rdeps_known. }
    intros s1 H1. apply defined_bind.
    { apply (defined_by_reverse_iif st0 (Some p) (cset_check_removal_by_iif (cset_run garbage db fuel))); [| done].
      intros n s _. by apply defined_removal_by_iif. }
    intros s2 H2. apply defined_track_removed; [done | done |].
    transitivity s2; [done | apply progress_record_change].
Qed.

(** *** Only providers are chosen *)

Definition chosen_known (st : apk_solver_state) : Prop := forall n p, chosen_pkg st n = Some p -> known db p.

Lemma chosen_known_soft k st st' : soft k st st' -> chosen_known st -> chosen_known st'.
Proof. intros H Hk n p. unfold chosen_pkg. rewrite (soft_chosen _ _ _ H). apply Hk. Qed.

Lemma chosen_known_assign n p st :
  (forall q, prov_pkg p = Some q -> known db q) -> chosen_known st -> chosen_known (assign_name garbage db n p st).
Proof.
  intros Hp Hk m q. unfold chosen_pkg. rewrite (proj1 (assign_name_chosen garbage db n p st m)).
  destruct (decide (m = n)) as [->|]; [| apply Hk]. destruct (locked st n); [apply Hk | apply Hp].
Qed.

Lemma chosen_known_each {A} (f : A -> apk_solver_state -> apk_solver_state) l st :
  (forall x s, chosen_known s -> chosen_known (f x s)) -> chosen_known st -> chosen_known (each f l st).
Proof. intros Hf. revert st. induction l as [|x l IH]; intros st; simpl; auto. Qed.

Lemma chosen_known_select n st : chosen_known st -> chosen_known (select_package garbage db n st).
Proof.
  intros Hk. unfold select_package. destruct (choose_provider_entry db n st) as [-> | (e & He & ->)]; cbn [provider_none entry_provider prov_pkg].
  - assert (chosen_known (assign_name garbage db n provider_none st)) as H by (by apply chosen_known_assign).
    case_if; exact H.
  - assert (known db e.1) as Hp by (exists n, e.2; by destruct e).
    cbv zeta. set (st1 := if _ || _ then _ else st).
    assert (chosen_known st1) as H1 by (unfold st1, mark_error; repeat case_if; exact Hk). clearbody st1.
    apply chosen_known_each; [intros; eapply chosen_known_soft; [apply soft_apply_constraint | done] |].
    apply chosen_known_each; [intros; apply chosen_known_assign; [by intros q [= <-] | done] |].
    apply chosen_known_assign; [by intros q [= <-] | done].
Qed.

Lemma chosen_known_round st st' : solver_round garbage db st = Some st' -> chosen_known st -> chosen_known st'.
Proof.
  unfold solver_round. destruct (ss_dirty_head st) as [|n l].
  - destruct (dequeue_next_name st) as [[n st1]|] eqn:E; [| done]. intros [= <-] Hk. apply chosen_known_select.
    intros m p. unfold dequeue_next_name in E.
    destruct (ss_resolvenow_head st), (ss_selectable_head st), (ss_unresolved_head st); simplify_eq;
      unfold chosen_pkg, chosen; rewrite nst_upd_n; destruct (decide _) as [->|]; apply Hk.
  - intros [= <-] Hk. set (st1 := upd_n n _ _).
    destruct (soft_reconsider_name_weight garbage db n st1) as (k & _ & _ & Hs).
    eapply chosen_known_soft; [exact Hs |]. intros m p. unfold chosen_pkg, chosen, st1. rewrite nst_upd_n.
    destruct (decide _) as [->|]; apply Hk.
Qed.

Lemma chosen_known_loop fuel st st' : solver_loop garbage db fuel st = Some st' -> chosen_known st -> chosen_known st'.
Proof.
  revert st. induction fuel as [|fuel IH]; intros st; simpl;
    destruct (solver_round garbage db st) as [st1|] eqn:E; try done; try (by intros [= <-]).
  intros H Hk. apply (IH st1 H). by eapply chosen_known_round.
Qed.

Lemma chosen_none_start fuel solver_flags marks cs world st :
  solver_start garbage db flags_set fuel solver_flags marks cs world = Some st ->
  forall n, chosen st n = provider_none.
Proof.
  unfold solver_start. set (st0 := set_ss_solver_flags_inherit _ _).
  destruct (discover_world _ _ _ _ _) as [st1|] eqn:E; simpl; [| done]. intros [= <-] n.
  assert (forall s, (forall m, chosen s m = provider_none) -> forall m, chosen (apply_world garbage db world s) m = provider_none)
    as Happ.
  { intros s. unfold apply_world. generalize world. intros l. revert s. induction l as [|d l IH]; intros s Hs; simpl; [done |].
    apply IH. intros m. case_if; [done |].
    rewrite (soft_chosen _ _ _ (soft_apply_constraint garbage db None d _)). apply Hs. }
  apply (Happ st1). intros m.
  assert (discovery st0 st1) as Hd.
  { revert E. apply each_opt_rel; [apply _ | apply _ |]. intros d s s' _. case_if; [by intros [= <-] |].
    apply discovery_discover_name. }
  by destruct (disc_name _ _ Hd m) as (_ & -> & _).
Qed.

(** *** The whole generation *)

Lemma set_installed_pkgs p st :
  p ∈ pkgs -> valid st -> valid (set_installed p st).
Proof.
  intros Hp. unfold set_installed. cbv zeta. set (st1 := upd_n _ _ st). intros [Hc Hi].
  assert (valid st1) as H1.
  { split; intros n q; unfold st1, chosen_pkg, chosen; rewrite nst_upd_n; destruct (decide _) as [->|].
    - apply Hc.
    - apply Hc.
    - by intros [= <-].
    - apply Hi. }
  clearbody st1. revert st1 H1. induction (pkg_provides p) as [|d l IH]; intros st1 H1; simpl; [done |].
  apply IH. case_if; [done |]. eapply valid_progress; [| exact H1]. by apply progress_upd_n.
Qed.

Lemma generate_changeset_total fuel world st :
  chosen_known st -> (forall d, d ∈ world -> dep_name d ∈ names) -> (length names + length pkgs < fuel)%nat ->
  exists st', generate_changeset garbage db fuel world st = Some st'.
Proof.
  intros Hk Hw Hf. unfold generate_changeset. cbv zeta. set (st0 := set_ss_names _ _).
  assert (valid st0) as H0.
  { split; intros n p.
    - intros H. apply (cl_pkgs closed), (Hk n). rewrite <- H. unfold chosen_pkg, chosen, nst. simpl.
      rewrite lookup_fmap. by destruct (ss_names st !! n).
    - unfold nst. simpl. rewrite lookup_fmap. by destruct (ss_names st !! n). }
  clearbody st0. set (st1 := each set_installed _ _).
  assert (valid st1) as H1.
  { unfold st1. pose proof (cl_installed closed) as Hi. clear st1. revert st0 H0.
    induction (sdb_installed db) as [|p l IH]; intros st0 H0; simpl; [done |].
    apply IH; [intros q Hq; apply Hi; by right | apply set_installed_pkgs; [apply Hi; by left | done]]. }
  clearbody st1. set (st2 := each cset_track_deps_added _ _).
  assert (valid st2) as H2.
  { unfold st2. clear st2. revert st1 H1. induction (sdb_installed db) as [|p l IH]; intros st1 H1; simpl; [done |].
    apply IH. eapply valid_progress; [apply progress_track_added | done]. }
  clearbody st2.
  assert (forall s, (pending s < fuel)%nat) as Hpend.
  { intros s. unfold pending, count_if. pose proof (List.filter_length_le (fun n => negb (ns_changeset_processed (nst s n))) names).
    pose proof (List.filter_length_le (fun p => negb (ps_in_changeset (pst s p))) pkgs). lia. }
  assert (forall c s, valid_call c -> progress st2 s -> exists s', cset_run garbage db fuel c s = Some s' /\ progress st2 s') as Hcall.
  { intros c s Hc Hs. destruct (cset_run_total fuel c s) as (s' & ? & ?); [done | by eapply valid_progress | done |].
    exists s'. split; [done | by transitivity s]. }
  assert (forall o : option apk_solver_state, (exists s', o = Some s' /\ True) -> exists s', o = Some s') as Hex.
  { intros o (s' & ? & _). by exists s'. }
  apply Hex, (bind_total (progress st2)).
  - apply defined_each; [| done]. intros p s Hp. apply defined_removal_by_deps; [done |]. by apply (cl_installed closed).
  - intros s3 H3. apply (bind_total (progress st2)); [apply defined_each; [| done] |].
    { intros d s Hd. apply defined_gen_dep; [done | by apply Hw]. }
    intros s4 H4. apply (bind_total (progress st2)); [apply defined_each; [| done] | by eexists].
    intros p s Hp. apply Hcall. simpl. by apply (cl_name closed), (cl_installed closed).
Qed.
End Totality.
