(* ===== verification/SolverLoop.v ===== *)
(** * The main loop of the solver ends

    Three quantities decrease: each selection locks a name; a round of reconsideration
    that queues anything has made a package unselectable or a name required; and any
    other round takes a name from the queue of dirty names.  The argument needs the
    16-bit requirers counters not to wrap, which the theorem makes explicit. *)

From S2P Require Import Prelude Blob BlobCodec Ctype Version Digest Dep Package PackageRules Solver SolverFacts SolverChangeset SolverTermination.

Section Loop.
Context (garbage : apk_digest) (db : solver_db) (names : list bytes) (pkgs : list apk_package).
Hypothesis closed : closed_db db names pkgs.

(** ** The queues *)

(** Only names of the database are queued. *)
Definition within (st : apk_solver_state) : Prop :=
  forall n, n ∈ queue st \/ n ∈ ss_dirty_head st -> n ∈ names.

(** Each waiting name is queued once, its list node is linked, and it is undecided. *)
Definition queue_wf (st : apk_solver_state) : Prop :=
  NoDup (queue st) /\
  forall n, n ∈ queue st -> ns_unresolved_hashed (nst st n) = true /\ locked st n = false.

(** Both are kept. *)
Definition keeps (st st' : apk_solver_state) : Prop :=
  (within st -> within st') /\ (queue_wf st -> queue_wf st').

#[local] Instance keeps_refl : Reflexive keeps.
Proof. by intros st. Qed.
#[local] Instance keeps_trans : Transitive keeps.
Proof. intros st1 st2 st3 [] []. split; auto. Qed.

Lemma keeps_each {A} (f : A -> apk_solver_state -> apk_solver_state) l st :
  (forall x s, x ∈ l -> keeps s (f x s)) -> keeps st (each f l st).
Proof.
  revert st. induction l as [|x l IH]; intros st Hf; simpl; [done |].
  transitivity (f x st); [apply Hf; left | apply IH; intros; apply Hf; by right].
Qed.

Lemma keeps_upd_n n f st :
  (forall s, ns_locked (f s) = ns_locked s /\ ns_unresolved_hashed (f s) = ns_unresolved_hashed s) ->
  keeps st (upd_n n f st).
Proof.
  intros Hf. split; [done |]. intros [H1 H2]. split; [done |]. intros m Hm. unfold locked. rewrite nst_upd_n.
  destruct (decide (m = n)) as [->|]; [destruct (Hf (nst st n)) as [-> ->] |]; by apply H2.
Qed.

Lemma keeps_upd_p p f st : keeps st (upd_p p f st).
Proof. done. Qed.

Lemma keeps_queue_dirty n st : n ∈ names -> keeps st (queue_dirty n st).
Proof.
  intros Hn. unfold queue_dirty. case_if; [done |]. cbv zeta. set (st1 := upd_n n _ st).
  transitivity st1; [by apply keeps_upd_n |]. split; [| done]. intros Hw m [Hm|Hm]; [apply Hw; by left |].
  simpl in Hm. apply elem_of_app in Hm as [Hm|Hm]; [apply Hw; by right |].
  by apply list_elem_of_singleton in Hm as ->.
Qed.

Lemma queue_insert_perm order n l : queue_insert order n l ≡ₚ n :: l.
Proof.
  induction l as [|m l IH]; simpl; [done |]. case_if; [| done]. rewrite IH. apply Permutation_swap.
Qed.

Lemma queue_add_perm n st : queue (queue_add n st) ≡ₚ n :: queue st.
Proof.
  unfold queue_add, queue. case_if; [| case_if]; simpl.
  - rewrite <- app_assoc. simpl. by rewrite <- Permutation_middle.
  - rewrite queue_insert_perm. simpl. by rewrite <- Permutation_middle.
  - rewrite queue_insert_perm. by rewrite <- !Permutation_middle.
Qed.

Lemma queue_unlink n st : queue (unlink_unresolved n st) = unlink n (queue st).
Proof. unfold queue, unlink_unresolved, unlink. simpl. by rewrite !filter_app. Qed.

Lemma keeps_requeue n f st st1 :
  n ∈ names -> (forall s, ns_locked (f s) = ns_locked s) -> ns_locked (nst st n) = false ->
  (st1 = st /\ ns_unresolved_hashed (nst st n) = false) \/ st1 = unlink_unresolved n st ->
  keeps st (queue_add n (upd_n n f st1)).
Proof.
  intros Hn Hf Hl Hst1. set (st' := queue_add n (upd_n n f st1)).
  assert (queue st' ≡ₚ n :: queue st1) as Hq by apply (queue_add_perm n (upd_n n f st1)).
  assert (ss_dirty_head st' = ss_dirty_head st) as Hdirty.
  { unfold st', queue_add. destruct Hst1 as [[-> _]| ->]; case_if; [| case_if | | case_if]; done. }
  assert (forall m, nst st' m = if decide (m = n) then set_ns_unresolved_hashed true (f (nst st n)) else nst st m) as Hnst.
  { assert (forall m, nst st1 m = nst st m) as H1 by (by destruct Hst1 as [[-> _]| ->]).
    intros m. unfold st', queue_add. set (s2 := upd_n n (set_ns_unresolved_hashed true) (upd_n n f st1)).
    assert (nst s2 m = if decide (m = n) then set_ns_unresolved_hashed true (f (nst st n)) else nst st m) as H.
    { unfold s2. rewrite !nst_upd_n, !H1. destruct (decide (m = n)), (decide (n = n)); try done. }
    case_if; [| case_if]; exact H. }
  assert (queue_wf st -> (n ∉ queue st1) /\ NoDup (queue st1)) as Hnew.
  { intros [Hnd Hin]. destruct Hst1 as [[-> Hh]| ->].
    - split; [| done]. intros H. apply Hin in H as [H _]. congruence.
    - rewrite queue_unlink. split; [| by apply NoDup_filter]. by intros [_ ?]%elem_of_unlink. }
  assert (forall m, m ∈ queue st1 -> m ∈ queue st) as Hsub.
  { intros m. destruct Hst1 as [[-> _]| ->]; [done |]. rewrite queue_unlink. by intros [? _]%elem_of_unlink. }
  split.
  - intros Hw m. rewrite Hq, Hdirty, elem_of_cons. intros [[->|Hm]|Hm]; [done | apply Hw; left; auto | apply Hw; by right].
  - intros Hwf. destruct (Hnew Hwf) as [Hnin Hnd]. split; [rewrite Hq; by constructor |].
    intros m. rewrite Hq, elem_of_cons. unfold locked. rewrite Hnst. intros Hm. destruct (decide (m = n)) as [->|Hne].
    + simpl. by rewrite Hf.
    + destruct Hm; [done |]. by apply Hwf, Hsub.
Qed.

Lemma keeps_queue_unresolved n r st : n ∈ names -> keeps st (queue_unresolved n r st).
Proof.
  intros Hn. unfold queue_unresolved. destruct (ns_locked (nst st n)) eqn:El; [done |].
  destruct (ns_unresolved_hashed (nst st n)) eqn:Eh.
  - case_if; [done |]. case_if; [by apply keeps_requeue; [| intros [] | | right] |].
    case_if; [done |]. by apply keeps_requeue; [| intros [] | | right].
  - case_if; [done |]. by apply keeps_requeue; [| intros [] | | left].
Qed.

(** ** Operations that keep the queues well formed *)

Create HintDb keeps.
#[local] Hint Resolve keeps_queue_dirty keeps_queue_unresolved keeps_upd_p : keeps.
#[local] Hint Extern 1 (keeps _ (upd_n _ _ _)) => apply keeps_upd_n; intros []; done : keeps.
#[local] Hint Extern 1 (keeps _ (each _ _ _)) => apply keeps_each; intros : keeps.
#[local] Hint Extern 0 (keeps ?st ?st) => reflexivity : keeps.
#[local] Hint Extern 2 (keeps _ (if _ then _ else _)) => case_if : keeps.

Ltac keeps_step := first [done | eassumption | solve [eauto 6 with keeps] | eapply keeps_trans; [| solve [eauto 6 with keeps]]].
Ltac keeps_auto := repeat first [progress cbv zeta | case_match | keeps_step].

Lemma keeps_reverse_deps n st : keeps st (reevaluate_reverse_deps db n st).
Proof.
  apply keeps_each. intros m s Hm. apply (cl_rdepends _ _ _ closed) in Hm. case_if; [| done].
  eapply keeps_trans; [| by apply keeps_queue_dirty]. keeps_auto.
Qed.
Lemma keeps_reverse_installif n st : keeps st (reevaluate_reverse_installif db n st).
Proof.
  apply keeps_each. intros m s Hm. apply (cl_rinstall_if _ _ _ closed) in Hm. repeat (case_if; [done |]).
  eapply keeps_trans; [| by apply keeps_queue_dirty]. keeps_auto.
Qed.
#[local] Hint Resolve keeps_reverse_deps keeps_reverse_installif : keeps.

Lemma keeps_reverse_installif_pkg p st : keeps st (reevaluate_reverse_installif_pkg db p st).
Proof. unfold reevaluate_reverse_installif_pkg. keeps_auto. Qed.
#[local] Hint Resolve keeps_reverse_installif_pkg : keeps.
Lemma keeps_disqualify p st : keeps st (disqualify_package db p st).
Proof. unfold disqualify_package. keeps_auto. Qed.
Lemma keeps_inherit p pp st : keeps st (inherit_pinning_and_flags db p pp st).
Proof. unfold inherit_pinning_and_flags. by case_match. Qed.
Lemma keeps_requirers_changed n st : n ∈ names -> keeps st (name_requirers_changed db n st).
Proof. intros Hn. unfold name_requirers_changed. keeps_auto. Qed.
#[local] Hint Resolve keeps_disqualify keeps_inherit keeps_requirers_changed : keeps.

Lemma keeps_apply_provider pp d e st : keeps st (apply_constraint_provider garbage db pp d e st).
Proof.
  unfold apply_constraint_provider. cbv zeta. set (st1 := upd_p e.1 _ st). set (st2 := if _ && _ then _ else st1).
  assert (keeps st st2) by (transitivity st1; [done |]; unfold st2; keeps_auto). keeps_auto.
Qed.
#[local] Hint Resolve keeps_apply_provider : keeps.

Lemma keeps_apply_constraint pp d st : dep_name d ∈ names -> keeps st (apply_constraint garbage db pp d st).
Proof.
  intros Hd. unfold apply_constraint. case_if; [done |]. cbv zeta.
  eapply keeps_trans; [| apply keeps_each; by auto with keeps].
  case_if; [done |]. set (st1 := upd_n _ _ st). transitivity st1; [by apply keeps_upd_n |]. keeps_auto.
Qed.

Lemma keeps_assign_lock n p st : keeps st (assign_lock n p st).
Proof.
  destruct (assign_lock_facts n p st) as (Hn & _). set (st' := assign_lock n p st) in *.
  assert ((forall m, m ∈ queue st' -> m ∈ queue st) /\ (forall m, m ∈ ss_dirty_head st' -> m ∈ ss_dirty_head st)
    /\ (queue_wf st -> (n ∉ queue st') /\ NoDup (queue st'))) as (Hq & Hd & Hwf').
  { unfold st', assign_lock. cbv zeta. set (st1 := upd_n n _ st). destruct (ns_unresolved_hashed (nst st n)) eqn:Eh.
    - assert (queue (unlink_unresolved n st1) = unlink n (queue st)) as E.
      { rewrite queue_unlink. unfold st1. by rewrite (proj1 (proj2 (ss_upd_n _ _ _))). }
      set (st2 := unlink_unresolved n st1) in *.
      assert (ss_dirty_head st2 = ss_dirty_head st) as Ed by done. clearbody st2.
      split_and!; [| | intros [Hnd _]]; case_if; simpl; try change (queue (set_ss_dirty_head _ st2)) with (queue st2);
        rewrite ?E, ?Ed; try done; try (by intros m [? _]%elem_of_unlink);
        (split; [by intros [_ ?]%elem_of_unlink | by apply NoDup_filter]).
    - split_and!; [| | intros [Hnd Hin]]; case_if; simpl; try done; try (by intros m [? _]%elem_of_unlink);
        (split; [| done]; intros H; apply Hin in H as [H _]; congruence). }
  split; [intros Hw m [Hm|Hm]; apply Hw; auto |].
  intros Hwf. destruct (Hwf' Hwf) as [Hnin Hnd]. split; [done |]. intros m Hm. unfold locked. rewrite Hn.
  destruct (decide (m = n)) as [->|]; [done |]. by apply Hwf, Hq.
Qed.

Lemma keeps_mark_error p st : keeps st (mark_error p st).
Proof. destruct p; [| done]. unfold mark_error. by case_if. Qed.

Lemma keeps_assign_name n p st :
  (forall q, prov_pkg p = Some q -> q ∈ pkgs) -> keeps st (assign_name garbage db n p st).
Proof.
  intros Hp. unfold assign_name. cbv zeta. case_if.
  { repeat (case_if; [done |]). etrans; [| apply keeps_mark_error]. apply keeps_mark_error. }
  set (st1 := assign_lock n p st). transitivity st1; [apply keeps_assign_lock |]. clearbody st1.
  match goal with |- context [disqualify_others db n p ?s] => set (st2 := s) end.
  assert (keeps st1 st2) as H2.
  { unfold st2. destruct (prov_pkg p) as [q|]; [| done]. case_if; [| done]. apply keeps_each. intros d s Hd.
    case_if; [done |]. apply keeps_apply_constraint. eapply (cl_install_if _ _ _ closed); [by apply Hp | done]. }
  transitivity st2; [done |]. clearbody st2.
  assert (keeps st2 (disqualify_others db n p st2)) by (unfold disqualify_others; keeps_auto).
  destruct (prov_pkg p); keeps_auto.
Qed.

Lemma keeps_select_package n st : keeps st (select_package garbage db n st).
Proof.
  unfold select_package. destruct (choose_provider_entry db n st) as [-> | (e & He & ->)];
    cbn [provider_none entry_provider prov_pkg]; cbv zeta.
  - set (st1 := assign_name _ _ _ _ _). transitivity st1; [by apply keeps_assign_name |]. by case_if.
  - assert (e.1 ∈ pkgs) as Hp by (by eapply provider_pkgs).
    etrans; [| apply keeps_each; intros d s Hd; apply keeps_apply_constraint; by eapply (cl_depends _ _ _ closed)].
    etrans; [| apply keeps_each; intros d s Hd; apply keeps_assign_name; by intros q [= <-]].
    etrans; [| apply keeps_assign_name; by intros q [= <-]].
    case_if; [apply keeps_mark_error | done].
Qed.

Lemma keeps_dequeue n st st' :
  dequeue_next_name st = Some (n, st') -> within st -> queue_wf st ->
  within st' /\ queue_wf st' /\ n ∈ names /\ locked st' n = false
  /\ forall m, locked st' m = locked st m /\ requirers st' m = requirers st m.
Proof.
  intros Hdq Hw [Hnd Hin].
  assert (exists st0, st' = upd_n n (set_ns_unresolved_hashed false) st0 /\ ss_names st0 = ss_names st
    /\ ss_dirty_head st0 = ss_dirty_head st /\ queue st ≡ₚ n :: queue st0) as (st0 & -> & Hn & Hd & Hq).
  { unfold dequeue_next_name in Hdq.
    destruct (ss_resolvenow_head st) eqn:E1; [destruct (ss_selectable_head st) eqn:E2; [destruct (ss_unresolved_head st) eqn:E3|]|];
      simplify_eq; eexists; (split; [reflexivity |]); split_and!; try done;
      unfold queue; simpl; by rewrite ?E1, ?E2, ?E3. }
  assert (forall m, nst st0 m = nst st m) as Hns by (intros; unfold nst; by rewrite Hn).
  rewrite Hq in Hnd. apply NoDup_cons in Hnd as [Hnin Hnd].
  assert (n ∈ queue st) as Hnq by (rewrite Hq; by left).
  assert (forall m, locked (upd_n n (set_ns_unresolved_hashed false) st0) m = locked st m
    /\ requirers (upd_n n (set_ns_unresolved_hashed false) st0) m = requirers st m) as Hm.
  { intros m. unfold locked, requirers. rewrite nst_upd_n, !Hns. by destruct (decide (m = n)) as [->|]. }
  split_and!.
  - intros m [H|H]; apply Hw; [left; rewrite Hq; by right | right; by rewrite <- Hd].
  - split; [done |]. intros m Hm'. rewrite (proj1 (Hm m)), nst_upd_n, !Hns.
    destruct (decide (m = n)) as [->|]; [done |]. apply Hin. rewrite Hq. by right.
  - apply Hw. by left.
  - rewrite (proj1 (Hm n)). by apply Hin.
  - done.
Qed.

(** ** Rounds that queue something make progress *)

Definition nonneg (st : apk_solver_state) : Prop := forall n, 0 <= requirers st n.

(** The packages that may still be disqualified and the names not yet required. *)
Definition left_over (st : apk_solver_state) : nat :=
  count_if (selectable st) pkgs + count_if (fun n => requirers st n =? 0) names.

Record calm (k : Z) (st st' : apk_solver_state) : Prop := {
  calm_soft : soft k st st';
  calm_keeps : keeps st st';
  calm_dirty : nonneg st -> room k st ->
    ss_dirty_head st' = ss_dirty_head st \/ (left_over st' < left_over st)%nat;
}.

Lemma soft_nonneg k st st' : soft k st st' -> nonneg st -> room k st -> nonneg st'.
Proof.
  intros H H0 Hr n. pose proof (adv_requirers _ _ _ (soft_adv _ _ _ H) n (H0 n) (Hr n)). specialize (H0 n). lia.
Qed.

Lemma requirers_zero k st st' n :
  soft k st st' -> nonneg st -> room k st -> (requirers st' n =? 0) = true -> (requirers st n =? 0) = true.
Proof.
  intros H H0 Hr Hn. pose proof (adv_requirers _ _ _ (soft_adv _ _ _ H) n (H0 n) (Hr n)).
  specialize (H0 n). bool_prop. apply Z.eqb_eq. lia.
Qed.

Lemma left_over_le k st st' : soft k st st' -> nonneg st -> room k st -> (left_over st' <= left_over st)%nat.
Proof.
  intros H H0 Hr. apply Nat.add_le_mono; apply count_if_le; intros x _.
  - apply (adv_selectable _ _ _ (soft_adv _ _ _ H)).
  - by apply (requirers_zero k).
Qed.

Lemma left_over_disqualified k st st' p :
  soft k st st' -> nonneg st -> room k st -> p ∈ pkgs -> selectable st p = true -> selectable st' p = false ->
  (left_over st' < left_over st)%nat.
Proof.
  intros H H0 Hr Hp H1 H2. apply Nat.add_lt_le_mono.
  - apply (count_if_lt _ _ _ p); [| done..]. intros x _. apply (adv_selectable _ _ _ (soft_adv _ _ _ H)).
  - apply count_if_le. intros n _. by apply (requirers_zero k).
Qed.

Lemma left_over_required k st st' n :
  soft k st st' -> nonneg st -> room k st -> n ∈ names -> requirers st n = 0 -> requirers st' n <> 0 ->
  (left_over st' < left_over st)%nat.
Proof.
  intros H H0 Hr Hn H1 H2. apply Nat.add_le_lt_mono.
  - apply count_if_le. intros p _. apply (adv_selectable _ _ _ (soft_adv _ _ _ H)).
  - apply (count_if_lt _ _ _ n); [intros m _; by apply (requirers_zero k) | done | lia | lia].
Qed.

Lemma calm_quiet k st st' :
  soft k st st' -> keeps st st' -> ss_dirty_head st' = ss_dirty_head st -> calm k st st'.
Proof. intros. split; auto. Qed.

Lemma calm_refl k st : 0 <= k -> calm k st st.
Proof. intros. apply calm_quiet; [by apply soft_refl | done | done]. Qed.

Lemma calm_trans k1 k2 st1 st2 st3 :
  0 <= k1 -> 0 <= k2 -> calm k1 st1 st2 -> calm k2 st2 st3 -> calm (k1 + k2) st1 st3.
Proof.
  intros Hk1 Hk2 [H1 W1 D1] [H2 W2 D2]. split; [by eapply soft_trans | by transitivity st2 |].
  intros H0 Hr. assert (room k1 st1) as Hr1 by (intros n; specialize (Hr n); lia).
  assert (room k2 st2) as Hr2 by (eapply room_adv; [done | done | by apply soft_adv | done]).
  pose proof (soft_nonneg _ _ _ H1 H0 Hr1) as H0'.
  pose proof (left_over_le _ _ _ H1 H0 Hr1). pose proof (left_over_le _ _ _ H2 H0' Hr2).
  destruct (D1 H0 Hr1) as [E1|?]; [| right; lia]. destruct (D2 H0' Hr2) as [E2|?]; [left; congruence | right; lia].
Qed.

Lemma calm_le k k' st st' : 0 <= k <= k' -> calm k st st' -> calm k' st st'.
Proof.
  intros Hk [H W D]. split; [by eapply soft_le | done |]. intros H0 Hr. apply D; [done |].
  intros n. specialize (Hr n). lia.
Qed.

Lemma calm_trans0 st1 st2 st3 : calm 0 st1 st2 -> calm 0 st2 st3 -> calm 0 st1 st3.
Proof. by apply (calm_trans 0 0). Qed.

Lemma calm_each {A} (f : A -> apk_solver_state -> apk_solver_state) k l st :
  0 <= k -> (forall x st, x ∈ l -> calm k st (f x st)) -> calm (k * Z.of_nat (length l)) st (each f l st).
Proof.
  intros Hk. revert st. induction l as [|x l IH]; intros st Hf; simpl; [apply calm_refl; lia |].
  eapply (calm_le (k + k * Z.of_nat (length l))); [lia |].
  apply (calm_trans _ _ _ (f x st)); [lia | lia | apply Hf; left | apply IH].
  intros y st' Hy. apply Hf. by right.
Qed.

Lemma calm_each0 {A} (f : A -> apk_solver_state -> apk_solver_state) l st :
  (forall x st, x ∈ l -> calm 0 st (f x st)) -> calm 0 st (each f l st).
Proof. intros Hf. by apply (calm_each f 0 l st). Qed.

(** ** The operations of a reconsideration *)

Lemma calm_upd_n n f st :
  (forall s, ns_locked (f s) = ns_locked s /\ ns_chosen (f s) = ns_chosen s
    /\ ns_requirers (f s) = ns_requirers s /\ ns_unresolved_hashed (f s) = ns_unresolved_hashed s) ->
  calm 0 st (upd_n n f st).
Proof.
  intros Hf. apply calm_quiet; [by apply soft_upd_n | apply keeps_upd_n; intros s; split; apply Hf | done].
Qed.
Lemma calm_upd_p p f st :
  (forall s, ps_error (f s) = ps_error s /\ ps_conflicts (f s) = ps_conflicts s
    /\ (ps_pkg_selectable (f s) = true -> ps_pkg_selectable s = true)) ->
  calm 0 st (upd_p p f st).
Proof. intros Hf. by apply calm_quiet; [apply soft_upd_p | apply keeps_upd_p |]. Qed.

Lemma calm_queue_unresolved n r st : n ∈ names -> calm 0 st (queue_unresolved n r st).
Proof.
  intros Hn. apply calm_quiet; [apply soft_queue_unresolved | by apply keeps_queue_unresolved |].
  unfold queue_unresolved. repeat case_if; try done; unfold queue_add; repeat case_if; done.
Qed.

Lemma calm_inherit p pp st : calm 0 st (inherit_pinning_and_flags db p pp st).
Proof.
  apply calm_quiet; [apply soft_inherit | apply keeps_inherit |]. unfold inherit_pinning_and_flags. by case_match.
Qed.

Lemma calm_disqualify p st : p ∈ pkgs -> selectable st p = true -> calm 0 st (disqualify_package db p st).
Proof.
  intros Hp Hs. split; [apply soft_disqualify_package | apply keeps_disqualify |]. intros H0 Hr. right.
  eapply left_over_disqualified; [apply soft_disqualify_package | done | done | done | done |].
  apply disqualify_unselectable.
Qed.

Create HintDb calm.
#[local] Hint Resolve calm_queue_unresolved calm_inherit : calm.
#[local] Hint Extern 1 (calm 0 _ (upd_n _ _ _)) => apply calm_upd_n; intros []; cbn; done : calm.
#[local] Hint Extern 1 (calm 0 _ (upd_p _ _ _)) => apply calm_upd_p; intros []; cbn; done : calm.
#[local] Hint Extern 1 (calm 0 _ (each _ _ _)) => apply calm_each0; intros : calm.
#[local] Hint Extern 0 (calm 0 ?st ?st) => apply calm_refl; done : calm.
#[local] Hint Extern 2 (calm 0 _ (if _ then _ else _)) => case_if : calm.

Ltac calm_step := first [done | eassumption | solve [eauto 6 with calm] | eapply calm_trans0; [| solve [eauto 6 with calm]]].
Ltac calm_auto := repeat first [progress cbv zeta | case_match | calm_step].

Lemma calm_apply_provider pp d e st : e.1 ∈ pkgs -> calm 0 st (apply_constraint_provider garbage db pp d e st).
Proof.
  intros Hp. split; [apply soft_apply_constraint_provider | apply keeps_apply_provider |]. intros H0 Hr.
  pose proof (soft_apply_constraint_provider garbage db pp d e st) as Hs. unfold apply_constraint_provider in *.
  cbv zeta in *. set (b := b2z _) in *. set (st1 := upd_p e.1 _ st) in *.
  assert (selectable st1 e.1 = selectable st e.1) as Es by (unfold selectable, st1; by rewrite pst_upd_p_eq).
  fold (selectable st1 e.1) in *. destruct (selectable st1 e.1) eqn:Esel; simpl in *.
  - destruct (negb (ps_conflicts (pst st1 e.1) =? 0)); simpl in *.
    + right. eapply left_over_disqualified; [exact Hs | done | done | done | congruence |].
      set (st2 := disqualify_package db e.1 st1). assert (selectable st2 e.1 = false) as E2 by apply disqualify_unselectable.
      case_if; [| done]. destruct (selectable (inherit_pinning_and_flags db e.1 pp st2) e.1) eqn:E; [| done].
      apply (adv_selectable _ _ _ (soft_adv _ _ _ (soft_inherit db e.1 pp st2))) in E. congruence.
    + left. case_if; [| done]. unfold inherit_pinning_and_flags. by case_match.
  - left. case_if; [| done]. unfold inherit_pinning_and_flags. by case_match.
Qed.

Lemma calm_require n st :
  n ∈ names ->
  let st1 := add_requirer n st in
  calm 1 st (if requirers st1 n =? 1 then name_requirers_changed db n st1 else st1).
Proof.
  intros Hn st1. pose proof (soft_require db n st) as Hs. cbv zeta in Hs. fold st1 in Hs.
  assert (keeps st st1) as Hk1 by (by apply keeps_upd_n).
  split; [done | transitivity st1; [done |]; case_if; [by apply keeps_requirers_changed | done] |].
  intros H0 Hr. destruct (Z.eqb_spec (requirers st1 n) 1) as [E|E]; [| by left]. right.
  assert (requirers st n = 0) as Hz.
  { unfold st1 in E. rewrite (proj2 (proj2 (proj2 (add_requirer_nst n st n)))), decide_True in E by done.
    pose proof (u16_grows (requirers st n) (H0 n) (Hr n)). unfold u16 in *. specialize (H0 n). specialize (Hr n).
    rewrite Z.mod_small in E by lia. lia. }
  eapply left_over_required; [exact Hs | done | done | done | done |].
  pose proof (adv_requirers _ _ _ (soft_adv _ _ _ (soft_name_requirers_changed db n st1)) n) as Hg. unfold grows in Hg. lia.
Qed.

Lemma calm_apply_constraint pp d st : dep_name d ∈ names -> calm 1 st (apply_constraint garbage db pp d st).
Proof.
  intros Hd. unfold apply_constraint. case_if; [by apply calm_refl |]. cbv zeta.
  eapply (calm_trans 1 0); [lia | lia | | apply calm_each0; intros; apply calm_apply_provider; by eapply provider_pkgs].
  destruct (apk_dep_conflict d); [by apply calm_refl | by apply calm_require].
Qed.

Lemma calm_exclude n m sv st : calm 0 st (exclude_non_providers db n m sv st).
Proof.
  unfold exclude_non_providers. case_if; [by apply calm_refl |]. apply calm_each0. intros e s He.
  case_if; [by apply calm_refl |]. case_if; [by apply calm_refl |]. bool_prop.
  apply calm_disqualify; [by eapply provider_pkgs | done].
Qed.
Lemma calm_merge_depends i n st : calm 0 st (merge_depends i n st).
Proof. unfold merge_depends. calm_auto. Qed.
Lemma calm_merge_provides i n v st : calm 0 st (merge_provides i n v st).
Proof.
  unfold merge_provides. apply calm_upd_n. intros s. destruct (merge_index _ _) as [? []]; by destruct s.
Qed.
#[local] Hint Resolve calm_exclude calm_merge_depends calm_merge_provides : calm.

Lemma calm_check_install_if p deps st :
  (forall d, d ∈ deps -> dep_name d ∈ names) -> calm 0 st (check_install_if garbage p deps st).
Proof.
  revert st. induction deps as [|d deps IH]; intros st Hd; simpl; [calm_auto |].
  assert (dep_name d ∈ names) as Hn by (apply Hd; left).
  case_if; [| case_if; [calm_auto | apply IH; intros; apply Hd; by right]].
  case_if; calm_auto.
Qed.

Lemma calm_reconsider_iif p st : p ∈ pkgs -> calm 0 st (reconsider_iif garbage db p st).
Proof.
  intros Hp. unfold reconsider_iif. cbv zeta. set (st1 := if _ && _ then _ else st).
  assert (calm 0 st st1) as H1.
  { unfold st1. case_if; [| calm_auto]. eapply calm_trans0; [| apply calm_check_install_if; intros; by eapply (cl_install_if _ _ _ closed)].
    calm_auto. }
  clearbody st1. case_if; [| done]. eapply calm_trans0; [exact H1 |]. calm_auto.
Qed.

Lemma calm_reconsider_refresh rd p st : p ∈ pkgs -> calm 0 st (reconsider_refresh garbage db rd p st).
Proof.
  intros Hp. unfold reconsider_refresh. cbv zeta. set (st1 := upd_p p _ st).
  apply (calm_trans0 _ st1); [unfold st1; calm_auto |]. case_if; [| calm_auto]. bool_prop.
  unfold check_depends. case_if; [calm_auto | by apply calm_disqualify].
Qed.

Lemma calm_merge_option e i st : calm 0 st (merge_option e i st).
Proof. unfold merge_option. calm_auto. Qed.
#[local] Hint Resolve calm_merge_option : calm.

Lemma calm_reconsider_providers n rd ri l vst :
  (forall e, e ∈ l -> e.1 ∈ pkgs) -> calm 0 vst.2 (each (reconsider_provider garbage db n rd ri) l vst).2.
Proof.
  revert vst. induction l as [|e l IH]; intros vst Hl; simpl; [by apply calm_refl |].
  assert (e.1 ∈ pkgs) as He by (apply Hl; left).
  eapply calm_trans0; [| apply IH; intros; apply Hl; by right].
  unfold reconsider_provider. cbv zeta. set (st1 := reconsider_refresh _ _ _ _ _).
  assert (calm 0 vst.2 st1) as H1 by (by apply calm_reconsider_refresh). clearbody st1.
  case_if; [done |]. unfold reconsider_candidate. cbv zeta. set (st2 := if ri then _ else st1).
  assert (calm 0 vst.2 st2) as H2.
  { eapply calm_trans0; [exact H1 |]. unfold st2. destruct ri; [by apply calm_reconsider_iif | by apply calm_refl]. }
  clearbody st2. case_if; simpl; [done |]. eapply calm_trans0; [exact H2 |]. calm_auto.
Qed.

Lemma calm_propagate_single p i st :
  p ∈ pkgs -> calm (Z.of_nat (length (pkg_depends p))) st (propagate_single garbage db p i st).
Proof.
  intros Hp. rewrite <- (Z.mul_1_l (Z.of_nat _)). apply calm_each; [done |]. intros d st' Hd. simpl.
  apply (calm_trans 0 1 _ (upd_n (dep_name d) (set_ns_merge_depends 0) st')); [done | done | calm_auto |].
  case_if; [apply calm_apply_constraint; by eapply (cl_depends _ _ _ closed) | by apply calm_refl].
Qed.

Lemma calm_propagate_common p i st :
  p ∈ pkgs -> calm (Z.of_nat (length (pkg_depends p))) st (propagate_common db p i st).
Proof.
  intros Hp. rewrite <- (Z.mul_1_l (Z.of_nat _)). apply calm_each; [done |]. intros d st' Hd. simpl.
  apply (calm_trans 0 1 _ (upd_n (dep_name d) (set_ns_merge_depends 0) st')); [done | done | calm_auto |].
  set (st1 := upd_n _ _ st'). case_if; [| by apply calm_refl]. bool_prop. fold (add_requirer (dep_name d) st1).
  eapply (calm_trans 1 0); [done | done | | apply calm_each0; by auto with calm].
  pose proof (calm_require (dep_name d) st1) as Hr. cbv zeta in Hr.
  assert (requirers (add_requirer (dep_name d) st1) (dep_name d) = 1) as E.
  { pose proof (add_requirer_nst (dep_name d) st1 (dep_name d)) as (_ & _ & _ & ->).
    rewrite decide_True by done. unfold requirers. by rewrite H0. }
  rewrite E in Hr. apply Hr. by eapply (cl_depends _ _ _ closed).
Qed.

Lemma calm_provides_transitivity n i m st : calm 0 st (provides_transitivity db n i m st).
Proof. unfold provides_transitivity. simpl. calm_auto. Qed.
#[local] Hint Resolve calm_provides_transitivity : calm.

Lemma calm_propagate n p i st :
  p ∈ pkgs -> calm (Z.of_nat (length (pkg_depends p))) st (propagate garbage db n p i st).
Proof.
  intros Hp. unfold propagate. cbv zeta. set (k := Z.of_nat _).
  assert (forall s1 s2 s3, calm k s1 s2 -> calm 0 s2 s3 -> calm k s1 s3) as Ht.
  { intros s1 s2 s3 H1 H2. rewrite <- (Z.add_0_r k). eapply calm_trans; [lia | lia | done | done]. }
  eapply Ht; [| apply calm_each0; by auto with calm]. eapply Ht; [| by auto with calm].
  eapply Ht; [| apply calm_each0; by auto with calm]. eapply Ht; [| by auto with calm].
  set (st1 := each _ (providers db n) st). rewrite <- (Z.add_0_l k).
  apply (calm_trans _ _ _ st1); [done | lia | apply calm_each0; by auto with calm |].
  case_if; [by apply calm_propagate_single | by apply calm_propagate_common].
Qed.

Context (D : Z).
Hypothesis D_bounds : forall p, known db p -> pkg_weight p <= D.
Hypothesis D_pos : 0 <= D.

Lemma calm_reconsider_name n st : n ∈ names -> calm D st (reconsider_name garbage db n st).
Proof.
  intros Hn. unfold reconsider_name. cbv zeta.
  set (st1 := upd_n n _ st). assert (calm 0 st st1) as H1 by (unfold st1; calm_auto). clearbody st1.
  pose proof (calm_reconsider_providers n (ns_reevaluate_deps (nst st n)) (ns_reevaluate_iif (nst st n))
    (providers db n) (mk_rv None 0 0 false true false, st1)) as H2.
  pose proof (candidate_known garbage db n (ns_reevaluate_deps (nst st n)) (ns_reevaluate_iif (nst st n))
    (providers db n) (mk_rv None 0 0 false true false, st1)) as Hk.
  destruct (each _ _ _) as [v st2]. cbn [fst snd] in H2, Hk.
  set (st3 := upd_n n _ st2). assert (calm 0 st st3) as H3.
  { eapply calm_trans0; [exact H1 |]. eapply calm_trans0; [apply H2; intros; by eapply provider_pkgs |].
    unfold st3. calm_auto. }
  clearbody st3.
  set (st4 := match rv_first_candidate v with Some _ => _ | None => _ end).
  assert (calm D st st4) as H4.
  { unfold st4. destruct (rv_first_candidate v) as [p|]; [| by eapply calm_le; [| exact H3]].
    assert (known db p) as Hp by (apply Hk; [| done | done]; intros [p' v'] ?; by exists n, v').
    eapply (calm_le (0 + Z.of_nat (length (pkg_depends p)))).
    { specialize (D_bounds p Hp). unfold pkg_weight in D_bounds. lia. }
    apply (calm_trans _ _ _ st3); [done | lia | done | apply calm_propagate; by apply (cl_pkgs _ _ _ closed)]. }
  rewrite <- (Z.add_0_r D). eapply calm_trans; [done | done | exact H4 |]. calm_auto.
Qed.

(** ** The loop *)

Definition unlocked (st : apk_solver_state) : nat := count_if (fun n => negb (locked st n)) names.

Lemma adv_select_package n st : adv D st (select_package garbage db n st).
Proof.
  unfold select_package. destruct (choose_provider_entry db n st) as [-> | (e & He & ->)];
    cbn [provider_none entry_provider prov_pkg]; cbv zeta.
  - set (st1 := assign_name _ _ _ _ _).
    assert (adv 0 st st1) as H1 by apply (adv_assign_name garbage db n provider_none st).
    apply (adv_le 0); [lia |]. case_if; [| done]. destruct H1. split; try done. simpl. lia.
  - assert (known db e.1) as Hk by (exists n, e.2; by destruct e). specialize (D_bounds _ Hk). unfold pkg_weight in D_bounds.
    set (p := e.1) in *. set (w := Z.of_nat (length (pkg_install_if p))).
    set (st1 := if _ || _ then _ else st). set (st2 := assign_name _ _ _ _ st1). set (st3 := each _ (pkg_provides p) st2).
    assert (adv 0 st st1) as H1 by (unfold st1; case_if; [apply adv_mark_error | by apply adv_refl]).
    assert (adv w st1 st2) as H2 by apply (adv_assign_name garbage db (pkg_name p) (APK_PROVIDER_FROM_PACKAGE p) st1).
    assert (adv (w * Z.of_nat (length (pkg_provides p))) st2 st3) as H3.
    { unfold st3. generalize (pkg_provides p). intros l. generalize st2. induction l as [|d l IH]; intros s; simpl.
      - apply adv_refl. lia.
      - eapply (adv_le (w + w * Z.of_nat (length l))); [lia |]. eapply adv_trans; [lia | lia | | apply IH].
        apply (adv_assign_name garbage db (dep_name d) (APK_PROVIDER_FROM_PROVIDES p d) s). }
    assert (soft (1 * Z.of_nat (length (pkg_depends p))) st3 (each (apply_constraint garbage db (Some p)) (pkg_depends p) st3)) as H4.
    { apply soft_each; [done |]. intros. apply soft_apply_constraint. }
    eapply (adv_le (0 + (w + (w * Z.of_nat (length (pkg_provides p)) + 1 * Z.of_nat (length (pkg_depends p)))))); [lia |].
    eapply adv_trans; [lia | lia | exact H1 |]. eapply adv_trans; [lia | lia | exact H2 |].
    eapply adv_trans; [lia | lia | exact H3 | by apply soft_adv].
Qed.

Lemma select_package_locks n st :
  providers_consistent db -> locked (select_package garbage db n st) n = true.
Proof.
  intros (Hc & _). unfold select_package. destruct (choose_provider_entry db n st) as [-> | ([p v] & He & ->)];
    cbn [provider_none entry_provider prov_pkg fst]; cbv zeta.
  - pose proof (assign_name_locks garbage db n provider_none st). by case_if.
  - assert (forall s, locked s n = true -> locked (each (apply_constraint garbage db (Some p)) (pkg_depends p) s) n = true) as Hd.
    { intros s Hs.
      assert (soft (1 * Z.of_nat (length (pkg_depends p))) s (each (apply_constraint garbage db (Some p)) (pkg_depends p) s)) as H4.
      { apply soft_each; [done |]. intros. apply soft_apply_constraint. }
      by rewrite (soft_locked _ _ _ H4). }
    apply Hd. clear Hd. set (st2 := assign_name _ _ (pkg_name p) _ _).
    assert (locked st2 (pkg_name p) = true) as Hp by apply assign_name_locks. clearbody st2.
    assert (forall l s, locked s n = true \/ (exists d, d ∈ l /\ dep_name d = n) ->
      locked (each (fun d => assign_name garbage db (dep_name d) (APK_PROVIDER_FROM_PROVIDES p d)) l s) n = true) as Hl.
    { induction l as [|d l IH]; intros s; simpl; [intros [?|(d & ?%elem_of_nil & _)]; done |].
      intros H. apply IH. destruct (decide (dep_name d = n)) as [<-|Hne]; [left; apply assign_name_locks |].
      destruct H as [H|(d' & [->|Hd']%elem_of_cons & Hn')]; [| done | right; by exists d'].
      left. by apply (adv_locked _ _ _ (adv_assign_name garbage db (dep_name d) (APK_PROVIDER_FROM_PROVIDES p d) s)). }
    apply Hl. destruct (Hc n p v He) as [-> | Hex]; [by left | by right].
Qed.

Hypothesis consistent : providers_consistent db.

(** One round in terms of the three quantities. *)
Lemma round_decreases st st' :
  solver_round garbage db st = Some st' -> nonneg st -> within st -> queue_wf st -> room D st ->
  (nonneg st' /\ within st' /\ queue_wf st')
  /\ ((unlocked st' < unlocked st)%nat
      \/ unlocked st' = unlocked st /\
         ((left_over st' < left_over st)%nat
          \/ left_over st' = left_over st /\ (length (ss_dirty_head st') < length (ss_dirty_head st))%nat)).
Proof.
  intros H H0 Hw Hq Hr. unfold solver_round in H. destruct (ss_dirty_head st) as [|n l] eqn:Ed.
  - destruct (dequeue_next_name st) as [[n st1]|] eqn:E; [| done]. injection H as <-.
    destruct (keeps_dequeue n st st1 E Hw Hq) as (Hw1 & Hq1 & Hn & Hl & Hsame).
    assert (nonneg st1 /\ room D st1) as [H1 Hr1].
    { split; intros m; rewrite (proj2 (Hsame m)); [apply H0 | apply Hr]. }
    pose proof (adv_select_package n st1) as Ha. split; [split_and! |].
    + intros m. pose proof (adv_requirers _ _ _ Ha m (H1 m) (Hr1 m)). specialize (H1 m). lia.
    + by apply keeps_select_package.
    + by apply keeps_select_package.
    + left. apply (count_if_lt _ _ _ n); [| done | by rewrite <- (proj1 (Hsame n)), Hl | by rewrite select_package_locks].
      intros m _. apply negb_mono. rewrite <- (proj1 (Hsame m)). apply (adv_locked _ _ _ Ha).
  - injection H as <-. assert (n ∈ names) as Hn by (apply Hw; right; rewrite Ed; left).
    set (st0 := set_ss_dirty_head l st). set (st1 := upd_n n (set_ns_dirty_hashed false) st0).
    assert (soft 0 st st1) as Hs1 by (unfold st1, st0; soft_auto).
    assert (nonneg st1 /\ room D st1) as [H1 Hr1].
    { assert (room 0 st) as Hr0 by (intros m; specialize (Hr m); lia). split; [by apply (soft_nonneg 0 st) |].
      intros m. pose proof (adv_requirers _ _ _ (soft_adv _ _ _ Hs1) m (H0 m) (Hr0 m)) as Hg. specialize (Hr m). lia. }
    assert (within st1) as Hw1.
    { intros m [Hm|Hm]; apply Hw; [by left | right; rewrite Ed; by right]. }
    assert (queue_wf st1) as Hq1.
    { apply (keeps_upd_n n (set_ns_dirty_hashed false) st0); [done |]. exact Hq. }
    assert (left_over st1 = left_over st) as El.
    { unfold left_over. f_equal; unfold count_if; f_equal; apply List.filter_ext; intros x.
      unfold requirers, st1. rewrite nst_upd_n. by destruct (decide (x = n)) as [->|]. }
    destruct (calm_reconsider_name n st1 Hn) as [Hs [Hkw Hkq] Hd]. set (st2 := reconsider_name garbage db n st1) in *.
    split; [split_and!; [by eapply soft_nonneg | auto | auto] |]. right. split.
    { unfold unlocked, count_if. f_equal. apply List.filter_ext. intros m. by rewrite (soft_locked _ _ _ Hs), (soft_locked _ _ _ Hs1). }
    pose proof (left_over_le _ _ _ Hs H1 Hr1). destruct (Hd H1 Hr1) as [Hdirty|?]; [| left; lia].
    destruct (decide (left_over st2 < left_over st)%nat); [by left | right].
    split; [lia |]. rewrite Hdirty. change (ss_dirty_head st1) with l. simpl. lia.
Qed.

(** From any well-formed state the loop ends, or some round finds a counter within [D]
    of the 16-bit limit. *)
Lemma solver_loop_terminates st :
  nonneg st -> within st -> queue_wf st ->
  exists fuel, is_Some (solver_loop garbage db fuel st)
    \/ existsb (fun s => negb (room_check D s)) (solver_trace garbage db fuel st) = true.
Proof.
  remember (unlocked st) as u eqn:Hu. revert st Hu.
  induction (lt_wf u) as [u _ IHu]. intros st Hu. remember (left_over st) as m eqn:Hm. revert st Hu Hm.
  induction (lt_wf m) as [m _ IHm]. intros st Hu Hm. remember (length (ss_dirty_head st)) as d eqn:Hd. revert st Hu Hm Hd.
  induction (lt_wf d) as [d _ IHd]. intros st Hu Hm Hd H0 Hw Hq.
  destruct (room_check D st) eqn:Er; [| exists 0%nat; right; simpl; by rewrite Er].
  destruct (solver_round garbage db st) as [st'|] eqn:E; [| exists 0%nat; left; simpl; by rewrite E].
  destruct (round_decreases st st' E H0 Hw Hq (room_check_sound _ _ Er)) as [(H0' & Hw' & Hq') Hdec].
  assert (exists fuel, is_Some (solver_loop garbage db fuel st')
    \/ existsb (fun s => negb (room_check D s)) (solver_trace garbage db fuel st') = true) as (fuel & Hf).
  { destruct Hdec as [Hlt | (Eu & [Hlt | (Em & Hlt)])].
    - by apply (IHu (unlocked st')); [lia | | | |].
    - by apply (IHm (left_over st')); [lia | congruence | | | |].
    - by apply (IHd (length (ss_dirty_head st'))); [lia | congruence | congruence | | | |]. }
  exists (S fuel). destruct Hf as [Hf|Hf]; [left; simpl; by rewrite E |].
  right. simpl. rewrite E. apply orb_true_iff. by right.
Qed.

(** ** More fuel does not change a result *)

Context (flags_set : gset bytes).

Lemma bind_mono {A B} (a a' : option A) (k k' : A -> option B) r :
  (forall x, a = Some x -> a' = Some x) -> (forall x, k x = Some r -> k' x = Some r) ->
  (a ≫= k) = Some r -> (a' ≫= k') = Some r.
Proof. intros Ha Hk. destruct a as [x|]; [| done]. rewrite (Ha x eq_refl). apply Hk. Qed.

Lemma discover_name_mono fuel fuel' n st st' :
  (fuel <= fuel')%nat -> discover_name db flags_set fuel n st = Some st' ->
  discover_name db flags_set fuel' n st = Some st'.
Proof.
  revert fuel' n st st'. induction fuel as [|fuel IH]; intros [|fuel'] n st st' Hf; try lia; try done.
  { simpl. case_if; [done | done]. }
  assert (forall m s s', discover_name db flags_set fuel m s = Some s' -> discover_name db flags_set fuel' m s = Some s') as Hrec.
  { intros m s s'. apply IH. lia. }
  cbn [discover_name]. case_if; [done |].
  apply bind_mono; [intros x; apply each_opt_mono; intros e s s'; apply bind_mono; [| done] | intros st1].
  { intros y. case_if; [done |]. apply each_opt_mono. auto. }
  apply bind_mono; [intros x; apply each_opt_mono; auto | intros st2].
  apply bind_mono; [intros x; apply each_opt_mono; intros e s s' | intros st3].
  { apply bind_mono; [intros y |]; [| intros y]; apply each_opt_mono; auto. }
  apply each_opt_mono. intros e s s'. apply each_opt_mono. auto.
Qed.

Lemma solver_start_mono fuel fuel' solver_flags marks cs world st :
  (fuel <= fuel')%nat -> solver_start garbage db flags_set fuel solver_flags marks cs world = Some st ->
  solver_start garbage db flags_set fuel' solver_flags marks cs world = Some st.
Proof.
  intros Hf. unfold solver_start. apply bind_mono; [| done]. intros x. apply each_opt_mono. intros d s s'.
  case_if; [done |]. by apply discover_name_mono.
Qed.

Lemma solver_loop_mono fuel fuel' st st' :
  (fuel <= fuel')%nat -> solver_loop garbage db fuel st = Some st' -> solver_loop garbage db fuel' st = Some st'.
Proof.
  revert fuel' st. induction fuel as [|fuel IH]; intros [|fuel'] st Hf; simpl; try lia;
    destruct (solver_round garbage db st); try done. apply IH. lia.
Qed.

Lemma solver_trace_mono fuel fuel' (P : apk_solver_state -> bool) st :
  (fuel <= fuel')%nat -> existsb P (solver_trace garbage db fuel st) = true ->
  existsb P (solver_trace garbage db fuel' st) = true.
Proof.
  revert fuel' st. induction fuel as [|fuel IH]; intros fuel' st Hf; simpl.
  - rewrite orb_false_r. intros H. destruct fuel'; simpl; by rewrite H.
  - destruct fuel' as [|fuel']; [lia |]. simpl. rewrite !orb_true_iff. intros [H|H]; [by left | right].
    destruct (solver_round garbage db st); [| done]. apply IH; [lia | done].
Qed.

(** ** The whole attempt *)

Lemma apply_world_keeps world st :
  (forall d, d ∈ world -> dep_name d ∈ names) -> keeps st (apply_world garbage db world st).
Proof.
  intros Hw. apply keeps_each. intros d s Hd. case_if; [done |].
  eapply keeps_trans; [| apply keeps_apply_constraint; by apply Hw]. done.
Qed.

Lemma solver_start_keeps fuel solver_flags marks cs world st :
  (forall d, d ∈ world -> dep_name d ∈ names) ->
  solver_start garbage db flags_set fuel solver_flags marks cs world = Some st -> within st /\ queue_wf st.
Proof.
  intros Hw. unfold solver_start. set (st0 := set_ss_solver_flags_inherit _ _).
  destruct (discover_world _ _ _ _ _) as [st1|] eqn:E; simpl; [| done]. intros [= <-].
  assert (discovery st0 st1) as [_ _ _ _ Hq _ Hd].
  { revert E. apply each_opt_rel; [apply _ | apply _ |]. intros d s s' _. case_if; [by intros [= <-] |].
    apply discovery_discover_name. }
  destruct (apply_world_keeps world st1 Hw) as [H1 H2]. split.
  - apply H1. intros n. rewrite Hq, Hd. intros [?%elem_of_nil|?%elem_of_nil]; done.
  - apply H2. split; [rewrite Hq; apply NoDup_nil_2 |]. intros n. rewrite Hq. by intros ?%elem_of_nil.
Qed.
End Loop.

(** The solver terminates: for a database whose names and packages are finite in
    number and whose provider lists are consistent there is an amount of fuel with which
    discovery, the main loop and the generation of the change set all reach their end,
    unless some round of the main loop finds a requirers counter within [D] of its 16-bit
    limit. *)
Lemma solver_reaches_end garbage db flags_set names pkgs D solver_flags marks cs world :
  closed_db db names pkgs -> providers_consistent db -> (forall p, known db p -> pkg_weight p <= D) -> 0 <= D ->
  marks_fresh marks -> (forall d, d ∈ world -> dep_name d ∈ names) -> Z.of_nat (length world) < 2 ^ 16 ->
  exists fuel,
    is_Some (solver_attempt garbage db flags_set fuel solver_flags marks cs world)
    \/ exists st, solver_start garbage db flags_set fuel solver_flags marks cs world = Some st
        /\ existsb (fun s => negb (room_check D s)) (solver_trace garbage db fuel st) = true.
Proof.
  intros Hcl Hc HD HD0 Hm Hw Hlen.
  assert (exists st0, solver_start garbage db flags_set (length names) solver_flags marks cs world = Some st0) as (st0 & H0).
  { unfold solver_start, discover_world. set (s0 := set_ss_solver_flags_inherit _ _).
    destruct (each_opt_total (fun _ : apk_solver_state => True) (fun (d : apk_dependency) st =>
      if dep_broken d then Some st else discover_name db flags_set (length names) (dep_name d) st) world s0)
      as (st1 & -> & _); [| done | by eexists].
    intros d s Hd _. case_if; [by eexists |].
    destruct (discover_name_total db flags_set names pkgs Hcl (length names) (dep_name d) s) as (s' & ? & _); [by apply Hw | | by exists s'].
    unfold unseen, count_if. apply List.filter_length_le. }
  destruct (solver_start_keeps garbage db names pkgs Hcl flags_set _ _ _ _ _ _ Hw H0) as [Hwi Hq].
  destruct (solver_start_inv garbage db flags_set world _ _ _ _ _ _ Hm eq_refl Hlen H0) as [Hinv _].
  destruct (solver_loop_terminates garbage db names pkgs Hcl D HD HD0 Hc st0) as (fuel & Hf);
    [exact (fun n => inv_nonneg _ _ _ _ _ _ Hinv n) | done | done |].
  set (F := (fuel + S (length names + length pkgs))%nat). exists F.
  assert (solver_start garbage db flags_set F solver_flags marks cs world = Some st0) as HF.
  { eapply solver_start_mono; [| exact H0]. lia. }
  destruct Hf as [[st1 H1]|Hf]; [left | right; exists st0; split; [done |]; eapply solver_trace_mono; [| exact Hf]; lia].
  unfold solver_attempt. rewrite HF. simpl. rewrite (solver_loop_mono garbage db fuel F st0 st1) by (lia || done). simpl.
  destruct (generate_changeset_total garbage db names pkgs Hcl F world st1) as (st2 & ->); [| done | lia | by eexists].
  eapply chosen_known_loop; [exact H1 |]. intros n p. unfold chosen_pkg.
  by rewrite (chosen_none_start garbage db flags_set _ _ _ _ _ _ H0).
Qed.
