(* ===== verification/SolverChoice.v ===== *)
(** * The order in which the solver prefers providers

    [compare_providers] (solver.c, Solver.v) decides by a long list of criteria which of
    two candidates is better.  Which list applies depends on the flags of both, so the
    comparison is not obviously an order; the theorem here is that swapping the
    candidates negates the answer. *)

From S2P Require Import Prelude Blob BlobCodec Ctype Version Digest Dep Package PackageRules Solver.

(** Opposite answers: the signs are opposite. *)
Definition opposite (r r' : Z) : Prop := Z.sgn r' = - Z.sgn r.

Lemma opposite_first_nonzero r r' s s' :
  opposite r r' -> opposite s s' -> opposite (first_nonzero r s) (first_nonzero r' s').
Proof. unfold opposite, first_nonzero. intros Hr Hs. destruct (Z.eqb_spec r 0), (Z.eqb_spec r' 0); lia. Qed.

Lemma opposite_prefer a b : opposite (prefer a b) (prefer b a).
Proof. by destruct a, b. Qed.

Lemma opposite_if (b : bool) r r' : opposite r r' -> opposite (if b then r else 0) (if b then r' else 0).
Proof. by destruct b. Qed.

Lemma opposite_sub x y : opposite (x - y) (y - x).
Proof. unfold opposite. lia. Qed.

Lemma opposite_s32 x y : 0 <= x < 2 ^ 31 -> 0 <= y < 2 ^ 31 -> opposite (s32 (x - y)) (s32 (y - x)).
Proof. intros. unfold opposite, s32. rewrite !Z.mod_small by lia. lia. Qed.

Lemma opposite_version a b : opposite (version_preference a b) (version_preference b a).
Proof.
  unfold version_preference. rewrite !apk_version_compare_spec, (cmp_opp version_cmp a b).
  by destruct (version_cmp a b).
Qed.

Create HintDb opposite.
#[local] Hint Resolve opposite_first_nonzero opposite_prefer opposite_if opposite_sub opposite_version : opposite.

(** Swapping two candidates negates the solver's preference between them, as long
    as neither has 2^31 or more recorded conflicts (their difference is taken as a
    32-bit integer). *)
Theorem compare_providers_opposite db st pA pB :
  (forall p, 0 <= ps_conflicts (pst st p) < 2 ^ 31) ->
  opposite (compare_providers db st pA pB) (compare_providers db st pB pA).
Proof.
  intros Hc. unfold compare_providers. destruct (prov_pkg pA) as [a|], (prov_pkg pB) as [b|]; try done.
  cbv zeta. rewrite (Z.lor_comm (ps_solver_flags (pst st b))).
  rewrite (bool_decide_ext (pkg_name b = pkg_name a) (pkg_name a = pkg_name b)) by (split; congruence).
  set (flags := Z.lor _ _). set (same := bool_decide (pkg_name a = pkg_name b)).
  rewrite <- (andb_assoc (testmask flags APK_SOLVERF_LATEST) (_ (pst st b) =? _)), (andb_comm (_ (pst st b) =? _)).
  rewrite (andb_assoc (testmask flags APK_SOLVERF_LATEST)).
  rewrite <- (orb_assoc same (negb (is_atom_null (prov_version pB)))), (orb_comm (negb (is_atom_null (prov_version pB)))).
  rewrite (orb_assoc same).
  apply opposite_first_nonzero; [| repeat apply opposite_first_nonzero; auto with opposite].
  case_if.
  - apply opposite_first_nonzero; [apply opposite_prefer |]. case_if; [apply opposite_prefer |]. auto with opposite.
  - repeat apply opposite_first_nonzero; auto using opposite_s32 with opposite.
Qed.

(** Two versions of a package are ordered one way round. *)
Lemma compare_providers_opposite_witness :
  let db := mk_solver_db (fun _ => mk_name_info [] [] []) [] [] 0 0 (fun _ => false) false false in
  let pkg v := APK_PROVIDER_FROM_PACKAGE (mk_pkg 0 (lit "a") v [] [] [] [] [] [] [] [] [] [] [] [] 0 0 0 0 0 0 false false 0 0 [] None) in
  let st := solver_init db 0 ∅ changeset0 in
  opposite (compare_providers db st (pkg (lit "1.0")) (pkg (lit "1.1")))
    (compare_providers db st (pkg (lit "1.1")) (pkg (lit "1.0"))).
Proof.
  intros db pkg st. apply (compare_providers_opposite db st). intros p. unfold pst. simpl.
  rewrite lookup_empty. simpl. lia.
Defined.
