(* ===== verification/Catalog.v ===== *)
(** * Names and packages of the database (database.c)

    The part of [struct apk_database] that holds what is available: the hash table of
    names with their provider and reverse dependency arrays, the hash table of
    packages by digest, and the list of installed packages.  A name is identified by
    its string and its contents are in the map [db_name]; a package is identified by
    its address and its contents are in the map [db_pkgs], so that an update is seen
    through every provider array that refers to it.  [solver_view] is what the solver
    reads of it. *)

From S2P Require Import Prelude Blob BlobCodec Version Digest Hash Dep Package PackageRules Path Solver.

(** ** State *)

Record apk_name := mk_name {
  nm_providers : list (nat * bytes);   (* package address and version *)
  nm_rdepends : list bytes;
  nm_rinstall_if : list bytes;
  nm_is_dependency : bool;
  nm_providers_sorted : bool;
  nm_has_repository_providers : bool;
  nm_state_int : Z;                    (* scratch space of the current pass *)
}.

Definition eta_name (s : apk_name) : apk_name :=
  mk_name (nm_providers s) (nm_rdepends s) (nm_rinstall_if s) (nm_is_dependency s) (nm_providers_sorted s)
    (nm_has_repository_providers s) (nm_state_int s).

Definition set_nm_providers (v : list (nat * bytes)) (s : apk_name) : apk_name :=
  ltac:(record_set eta_name nm_providers s v).
Definition set_nm_rdepends (v : list bytes) (s : apk_name) : apk_name :=
  ltac:(record_set eta_name nm_rdepends s v).
Definition set_nm_rinstall_if (v : list bytes) (s : apk_name) : apk_name :=
  ltac:(record_set eta_name nm_rinstall_if s v).
Definition set_nm_is_dependency (v : bool) (s : apk_name) : apk_name :=
  ltac:(record_set eta_name nm_is_dependency s v).
Definition set_nm_providers_sorted (v : bool) (s : apk_name) : apk_name :=
  ltac:(record_set eta_name nm_providers_sorted s v).
Definition set_nm_has_repository_providers (v : bool) (s : apk_name) : apk_name :=
  ltac:(record_set eta_name nm_has_repository_providers s v).
Definition set_nm_state_int (v : Z) (s : apk_name) : apk_name :=
  ltac:(record_set eta_name nm_state_int s v).

(** A fresh name: [memset] and three empty arrays. *)
Definition name0 : apk_name := mk_name [] [] [] false false false 0.

(** The name table holds the strings themselves. *)
#[global] Instance pkg_name_hash_ops : HashOps bytes := {|
  get_key := fun item => item;
  hash_key := apk_blob_hash;
  hash_item := None;
  compare := Some apk_blob_compare;
  compare_item := None;
  delete_item := true;
|}.

#[global] Instance pkg_name_hash_laws : HashOpsLaws bytes.
Proof.
  split.
  - intros k. apply apk_blob_hash_range.
  - done.
  - intros v k. unfold item_matches. simpl. rewrite Z.eqb_eq, apk_blob_compare_eq0. naive_solver.
Qed.

(** [apk_unaligned_le32]. *)
Definition le32 (b : bytes) : Z :=
  nth 0 b 0 + 2 ^ 8 * nth 1 b 0 + 2 ^ 16 * nth 2 b 0 + 2 ^ 24 * nth 3 b 0.

Definition csum_hash (csum : bytes) : Z :=
  if (4 <=? length csum)%nat then u32 (le32 csum) else 0.

(** An entry of the package table: the package's address and its key
    [apk_pkg_hash_blob], which never changes. *)
Record pkg_item := mk_item { item_addr : nat; item_key : bytes }.

#[global] Instance pkg_info_hash_ops : HashOps pkg_item := {|
  get_key := item_key;
  hash_key := csum_hash;
  hash_item := None;
  compare := Some apk_blob_compare;
  compare_item := None;
  delete_item := false;
|}.

#[global] Instance pkg_info_hash_laws : HashOpsLaws pkg_item.
Proof.
  split.
  - intros k. simpl. unfold csum_hash. case_if; [apply u32_range | lia].
  - done.
  - intros v k. unfold item_matches. simpl. rewrite Z.eqb_eq, apk_blob_compare_eq0. naive_solver.
Qed.

(** The package of a [struct apk_package_tmpl]: the fields an index line sets, and the
    others. *)
Record pkg_tmpl := mk_ptmpl {
  pt_info : apk_package_tmpl;
  pt_recommends : list apk_dependency;
  pt_tags : list bytes;
  pt_repos : Z;
  pt_filename_ndx : Z;
  pt_cached_non_repository : bool;
  pt_layer : Z;
  pt_ipkg : option apk_installed_package;
}.

(** The whole template after [apk_pkgtmpl_reset]. *)
Definition pkg_tmpl_reset (t : pkg_tmpl) : pkg_tmpl :=
  mk_ptmpl (apk_pkgtmpl_reset (t_repo_tags (pt_info t))) [] [] 0 0 false 0 None.

Record catalog := mk_catalog {
  db_names : apk_hash bytes;
  db_name : gmap bytes apk_name;
  db_packages : apk_hash pkg_item;
  db_pkgs : gmap nat apk_package;
  db_next : nat;                        (* the next address of [ba_pkgs] *)
  db_arches : list bytes;
  db_noarch : bytes;
  db_open_complete : bool;
  db_idb_dirty : bool;
  db_sorted : option (list bytes);      (* [available.sorted_names] when [sorted_names] is set *)
  (** [installed.packages]; [None] stands for the package of the template that is being read. *)
  db_installed : list (option nat);
  db_sorted_installed : option (list nat);
  db_stat_packages : Z;
  db_stat_bytes : Z;
}.

Definition eta_catalog (s : catalog) : catalog :=
  mk_catalog (db_names s) (db_name s) (db_packages s) (db_pkgs s) (db_next s) (db_arches s) (db_noarch s)
    (db_open_complete s) (db_idb_dirty s) (db_sorted s) (db_installed s) (db_sorted_installed s)
    (db_stat_packages s) (db_stat_bytes s).

Definition set_db_names v (s : catalog) : catalog := ltac:(record_set eta_catalog db_names s v).
Definition set_db_name v (s : catalog) : catalog := ltac:(record_set eta_catalog db_name s v).
Definition set_db_packages v (s : catalog) : catalog := ltac:(record_set eta_catalog db_packages s v).
Definition set_db_pkgs v (s : catalog) : catalog := ltac:(record_set eta_catalog db_pkgs s v).
Definition set_db_next v (s : catalog) : catalog := ltac:(record_set eta_catalog db_next s v).
Definition set_db_arches v (s : catalog) : catalog := ltac:(record_set eta_catalog db_arches s v).
Definition set_db_open_complete v (s : catalog) : catalog := ltac:(record_set eta_catalog db_open_complete s v).
Definition set_db_idb_dirty v (s : catalog) : catalog := ltac:(record_set eta_catalog db_idb_dirty s v).
Definition set_db_sorted v (s : catalog) : catalog := ltac:(record_set eta_catalog db_sorted s v).
Definition set_db_installed v (s : catalog) : catalog := ltac:(record_set eta_catalog db_installed s v).
Definition set_db_sorted_installed v (s : catalog) : catalog :=
  ltac:(record_set eta_catalog db_sorted_installed s v).
Definition set_db_stat_packages v (s : catalog) : catalog := ltac:(record_set eta_catalog db_stat_packages s v).
Definition set_db_stat_bytes v (s : catalog) : catalog := ltac:(record_set eta_catalog db_stat_bytes s v).

(** The contents of a name, and an update of one. *)
Definition name_of (db : catalog) (n : bytes) : apk_name := default name0 (db_name db !! n).
Definition upd_name (n : bytes) (f : apk_name -> apk_name) (db : catalog) : catalog :=
  set_db_name (<[n := f (name_of db n)]> (db_name db)) db.

(** ** Names *)

Definition apk_db_query_name (db : catalog) (name : bytes) : option bytes :=
  apk_hash_get (db_names db) name.

(** The name exists afterwards. *)
Definition apk_db_get_name (name : bytes) (db : catalog) : catalog :=
  let hash := apk_hash_from_key (db_names db) name in
  match apk_hash_get_hashed (db_names db) name hash with
  | Some _ => db
  | None =>
      let db := set_db_name (<[name := name0]> (db_name db)) db in
      let db := set_db_names (apk_hash_insert_hashed (db_names db) name hash) db in
      set_db_sorted None db
  end.

(** ** Sorting, as [qsort] with a comparison function *)

Section Sort.
Context {A : Type} (cmp : A -> A -> Z).

Fixpoint sort_insert (x : A) (l : list A) : list A :=
  match l with
  | [] => [x]
  | y :: l' => if cmp x y <=? 0 then x :: l else y :: sort_insert x l'
  end.

Definition qsort (l : list A) : list A := foldr sort_insert [] l.
End Sort.

Definition cmp_provider (pa pb : apk_provider) : Z :=
  match prov_pkg pa, prov_pkg pb with
  | Some a, Some b => apk_pkg_cmp_display a b
  | _, _ => 0   (* entries of a provider array have a package *)
  end.

(** A provider array entry with its package. *)
Definition provider_at (db : catalog) (e : nat * bytes) : apk_provider :=
  mk_provider (db_pkgs db !! e.1) e.2.

Definition apk_name_sorted_providers (name : bytes) (db : catalog) : list (nat * bytes) * catalog :=
  let nm := name_of db name in
  if nm_providers_sorted nm then (nm_providers nm, db)
  else
    let l := qsort (fun a b => cmp_provider (provider_at db a) (provider_at db b)) (nm_providers nm) in
    (l, upd_name name (fun nm => set_nm_providers_sorted false (set_nm_providers l nm)) db).

Definition apk_db_sorted_names (db : catalog) : list bytes * catalog :=
  match db_sorted db with
  | Some l => (l, db)
  | None =>
      let '(_, l) := apk_hash_foreach (db_names db) (fun n l => (0, l ++ [n])) [] in
      let l := qsort apk_name_cmp_display l in
      (l, set_db_sorted (Some l) db)
  end.

(** ** Reverse dependencies *)

Definition add_name_to_array (name : bytes) (a : list bytes) : list bytes :=
  if existsb (fun n => bool_decide (n = name)) a then a else a ++ [name].

Definition add_rdepends (rname name : bytes) (db : catalog) : catalog :=
  upd_name rname (fun nm => set_nm_rdepends (add_name_to_array name (nm_rdepends nm)) nm) db.
Definition add_rinstall_if (rname name : bytes) (db : catalog) : catalog :=
  upd_name rname (fun nm => set_nm_rinstall_if (add_name_to_array name (nm_rinstall_if nm)) nm) db.

Definition apk_db_pkg_rdepends (pkg : apk_package) (db : catalog) : catalog :=
  let db := each (fun d db =>
    let rname := dep_name d in
    let db := upd_name rname (fun nm => set_nm_is_dependency (nm_is_dependency nm || negb (apk_dep_conflict d)) nm) db in
    let db := add_rdepends rname (pkg_name pkg) db in
    each (fun p db => add_rdepends rname (dep_name p) db) (pkg_provides pkg) db) (pkg_depends pkg) db in
  each (fun d db =>
    let rname := dep_name d in
    let db := add_rinstall_if rname (pkg_name pkg) db in
    each (fun p db => add_rinstall_if rname (dep_name p) db) (pkg_provides pkg) db) (pkg_install_if pkg) db.

(** ** Architectures *)

Definition apk_db_add_arch (db : catalog) (arch : bytes) : catalog :=
  match arch with
  | [] => db
  | _ =>
      let atom := apk_blob_trim arch in
      if existsb (fun item => bool_decide (item = atom)) (db_arches db) then db
      else set_db_arches (db_arches db ++ [atom]) db
  end.

Definition apk_db_arch_compatible (db : catalog) (arch : bytes) : bool :=
  is_atom_null arch || existsb (fun item => bool_decide (item = arch)) (db_arches db)
  || bool_decide (db_noarch db = arch).

(** ** Packages *)

(** [*idb = tmpl->pkg] at a new address, with the digest of the template.  The code clones
    every array but [recommends], which stays the array of the template; it is copied
    here, and nothing below reads it. *)
Definition pkg_from_tmpl (addr : nat) (t : pkg_tmpl) (name version : bytes) (uninstallable : bool) : apk_package :=
  let i := pt_info t in
  let alg := d_alg (t_id i) in
  let sha256_160 := match pt_ipkg t with Some ip => ip_sha256_160 ip | None => false end in
  mk_pkg addr name version (t_depends i) (t_install_if i) (t_provides i) (pt_recommends t) (pt_tags t)
    (t_arch i) (t_license i) (t_origin i) (t_maintainer i) (t_url i) (t_description i) (t_commit i)
    (t_installed_size i) (t_size i) (t_build_time i) (pt_repos t) (t_provider_priority i) (pt_filename_ndx t)
    uninstallable (pt_cached_non_repository t) (pt_layer t)
    (if (alg =? APK_DIGEST_SHA1) && sha256_160 then APK_DIGEST_SHA256_160 else alg)
    (digest_blob (t_id i)) None.

Definition set_pkg_repos (repos filename_ndx size : Z) (p : apk_package) : apk_package :=
  mk_pkg (pkg_addr p) (pkg_name p) (pkg_version p) (pkg_depends p) (pkg_install_if p) (pkg_provides p)
    (pkg_recommends p) (pkg_tags p) (pkg_arch p) (pkg_license p) (pkg_origin p) (pkg_maintainer p) (pkg_url p)
    (pkg_description p) (pkg_commit p) (pkg_installed_size p) size (pkg_build_time p) repos
    (pkg_provider_priority p) filename_ndx (pkg_uninstallable p) (pkg_cached_non_repository p) (pkg_layer p)
    (pkg_digest_alg p) (pkg_digest p) (pkg_ipkg p).

Definition set_pkg_ipkg (ipkg : option apk_installed_package) (p : apk_package) : apk_package :=
  mk_pkg (pkg_addr p) (pkg_name p) (pkg_version p) (pkg_depends p) (pkg_install_if p) (pkg_provides p)
    (pkg_recommends p) (pkg_tags p) (pkg_arch p) (pkg_license p) (pkg_origin p) (pkg_maintainer p) (pkg_url p)
    (pkg_description p) (pkg_commit p) (pkg_installed_size p) (pkg_size p) (pkg_build_time p) (pkg_repos p)
    (pkg_provider_priority p) (pkg_filename_ndx p) (pkg_uninstallable p) (pkg_cached_non_repository p)
    (pkg_layer p) (pkg_digest_alg p) (pkg_digest p) ipkg.

Definition put_pkg (p : apk_package) (db : catalog) : catalog :=
  set_db_pkgs (<[pkg_addr p := p]> (db_pkgs db)) db.

Definition add_provider (n : bytes) (e : nat * bytes) (db : catalog) : catalog :=
  upd_name n (fun nm => set_nm_providers (nm_providers nm ++ [e]) nm) db.

(** The branch for a digest that is not in the table. *)
Definition insert_package (p : apk_package) (db : catalog) : catalog :=
  let db := set_db_next (S (db_next db)) (put_pkg p db) in
  let db := set_db_packages (apk_hash_insert (db_packages db) (mk_item (pkg_addr p) (apk_pkg_hash_blob p))) db in
  let db := add_provider (pkg_name p) (pkg_addr p, pkg_version p) db in
  let db := each (fun d => add_provider (dep_name d) (pkg_addr p, dep_version d)) (pkg_provides p) db in
  if db_open_complete db then apk_db_pkg_rdepends p db else db.

(** The branch for a package that is known already. *)
Definition merge_package (idb : apk_package) (t : pkg_tmpl) (db : catalog) : apk_package * catalog :=
  let resize := (u16 (pkg_repos idb) =? 0) && negb (pkg_size idb =? t_size (pt_info t)) in
  let idb' := set_pkg_repos (Z.lor (pkg_repos idb) (pt_repos t))
    (if pkg_filename_ndx idb =? 0 then pt_filename_ndx t else pkg_filename_ndx idb)
    (if resize then t_size (pt_info t) else pkg_size idb) idb in
  let db := put_pkg idb' db in
  (idb', if resize then set_db_idb_dirty true db else db).

Definition mark_repository_name (n : bytes) (db : catalog) : catalog :=
  upd_name n (set_nm_has_repository_providers true) db.

(** The result is the package's address; a template without a name, a version or a
    long enough digest is refused and kept. *)
Definition apk_db_pkg_add (t : pkg_tmpl) (db : catalog) : option nat * pkg_tmpl * catalog :=
  match t_name (pt_info t), t_version (pt_info t) with
  | Some name, Some version =>
      if (d_len (t_id (pt_info t)) <? APK_DIGEST_LENGTH_SHA1)%nat then (None, t, db)
      else
        let uninstallable := t_uninstallable (pt_info t) || negb (apk_db_arch_compatible db (t_arch (pt_info t))) in
        let found := item ← apk_hash_get (db_packages db) (take APK_DIGEST_LENGTH_SHA1 (d_data (t_id (pt_info t))));
                     db_pkgs db !! item_addr item in
        (* unsigned short old_repos *)
        let '(idb, old_repos, db) :=
          match found with
          | None =>
              let p := pkg_from_tmpl (db_next db) t name version uninstallable in
              (p, 0, insert_package p db)
          | Some idb =>
              let '(idb', db') := merge_package idb t db in (idb', u16 (pkg_repos idb), db')
          end in
        let db :=
          if negb (pkg_repos idb =? 0) && (old_repos =? 0)
          then each (fun d => mark_repository_name (dep_name d)) (pkg_provides idb) (mark_repository_name name db)
          else db in
        let db :=
          match pkg_ipkg idb, pt_ipkg t with
          | None, Some ip =>
              let db := put_pkg (set_pkg_ipkg (Some ip) idb) db in
              set_db_installed ((fun r => match r with None => Some (pkg_addr idb) | Some a => Some a end) <$> db_installed db) db
          | _, _ => db
          end in
        (Some (pkg_addr idb), pkg_tmpl_reset t, db)
  | _, _ => (None, t, db)
  end.

Definition apk_db_get_pkg (db : catalog) (id : apk_digest) : option nat :=
  if (d_len id <? APK_DIGEST_LENGTH_SHA1)%nat then None
  else item_addr <$> apk_hash_get (db_packages db) (take APK_DIGEST_LENGTH_SHA1 (d_data id)).

(** ** Installed packages *)

Definition apk_pkg_get_installed (db : catalog) (name : bytes) : option apk_package :=
  head (omap (fun e : nat * bytes =>
    p ← db_pkgs db !! e.1;
    if bool_decide (pkg_name p = name) && bool_decide (is_Some (pkg_ipkg p)) then Some p else None)
    (nm_providers (name_of db name))).

(** A fresh [struct apk_installed_package]. *)
Definition ipkg0 : apk_installed_package := mk_ipkg [] 0 0 false false false false false.

(** [apk_pkg_install] on a package of the table. *)
Definition apk_pkg_install (p : apk_package) (db : catalog) : catalog :=
  match pkg_ipkg p with
  | Some _ => db
  | None =>
      let db := put_pkg (set_pkg_ipkg (Some ipkg0) p) db in
      let db := set_db_sorted_installed None db in
      let db := set_db_stat_packages (u32 (db_stat_packages db + 1)) db in
      let db := set_db_stat_bytes (u64 (db_stat_bytes db + pkg_installed_size p)) db in
      set_db_installed (db_installed db ++ [Some (pkg_addr p)]) db
  end.

(** [apk_pkg_install] on the package of a template. *)
Definition tmpl_install (t : pkg_tmpl) (db : catalog) : pkg_tmpl * catalog :=
  match pt_ipkg t with
  | Some _ => (t, db)
  | None =>
      let t' := mk_ptmpl (pt_info t) (pt_recommends t) (pt_tags t) (pt_repos t) (pt_filename_ndx t)
        (pt_cached_non_repository t) (pt_layer t) (Some ipkg0) in
      match t_name (pt_info t) with
      | None => (t', db)
      | Some _ =>
          let db := set_db_sorted_installed None db in
          let db := set_db_stat_packages (u32 (db_stat_packages db + 1)) db in
          let db := set_db_stat_bytes (u64 (db_stat_bytes db + t_installed_size (pt_info t))) db in
          (t', set_db_installed (db_installed db ++ [None]) db)
      end
  end.

Definition apk_pkg_uninstall (p : apk_package) (db : catalog) : catalog :=
  match pkg_ipkg p with
  | None => db
  | Some _ =>
      let db := set_db_installed (filter (fun r => r <> Some (pkg_addr p)) (db_installed db)) db in
      let db := set_db_sorted_installed None db in
      let db := set_db_stat_packages (u32 (db_stat_packages db - 1)) db in
      let db := set_db_stat_bytes (u64 (db_stat_bytes db - pkg_installed_size p)) db in
      put_pkg (set_pkg_ipkg None p) db
  end.

(** The installed packages in order. *)
Definition installed_packages (db : catalog) : list apk_package :=
  omap (fun r : option nat => a ← r; db_pkgs db !! a) (db_installed db).

Definition apk_package_array_qsort (db : catalog) (a b : nat) : Z :=
  cmp_provider (provider_at db (a, [])) (provider_at db (b, [])).

Definition apk_db_sorted_installed_packages (db : catalog) : list nat * catalog :=
  match db_sorted_installed db with
  | Some l => (l, db)
  | None =>
      let l := qsort (apk_package_array_qsort db) (omap (fun r : option nat => r) (db_installed db)) in
      (l, set_db_sorted_installed (Some l) db)
  end.

(** ** The pass over all names when the database is opened *)

(** [touched] and [num_touched]: only the first 128 names are remembered. *)
Definition TOUCHED_SIZE : nat := 128.
Record rdepends_pass := mk_pass { rp_db : catalog; rp_touched : list bytes; rp_num_touched : nat }.

Definition touch (rname : bytes) (s : rdepends_pass) : rdepends_pass :=
  if nm_state_int (name_of (rp_db s) rname) =? 0 then
    mk_pass (rp_db s)
      (if (rp_num_touched s <? TOUCHED_SIZE)%nat then rp_touched s ++ [rname] else rp_touched s)
      (S (rp_num_touched s))
  else s.

Definition pass_depend (name : bytes) (dep : apk_dependency) (s : rdepends_pass) : rdepends_pass :=
  let rname := dep_name dep in
  let s := mk_pass (upd_name rname
    (fun nm => set_nm_is_dependency (nm_is_dependency nm || negb (apk_dep_conflict dep)) nm) (rp_db s))
    (rp_touched s) (rp_num_touched s) in
  if testmask (nm_state_int (name_of (rp_db s) rname)) 1 then s
  else
    let s := touch rname s in
    mk_pass (upd_name rname (fun nm => set_nm_rdepends (nm_rdepends nm ++ [name])
      (set_nm_state_int (Z.lor (nm_state_int nm) 1) nm)) (rp_db s)) (rp_touched s) (rp_num_touched s).

Definition pass_install_if (name : bytes) (dep : apk_dependency) (s : rdepends_pass) : rdepends_pass :=
  let rname := dep_name dep in
  if testmask (nm_state_int (name_of (rp_db s) rname)) 2 then s
  else
    let s := touch rname s in
    mk_pass (upd_name rname (fun nm => set_nm_rinstall_if (nm_rinstall_if nm ++ [name])
      (set_nm_state_int (Z.lor (nm_state_int nm) 2) nm)) (rp_db s)) (rp_touched s) (rp_num_touched s).

(** The packages behind a provider array. *)
Definition provider_pkgs (db : catalog) (name : bytes) : list apk_package :=
  omap (fun e : nat * bytes => db_pkgs db !! e.1) (nm_providers (name_of db name)).

Definition clear_state (rname : bytes) (db : catalog) : catalog := upd_name rname (set_nm_state_int 0) db.

Definition apk_db_name_rdepends (name : bytes) (db : catalog) : Z * catalog :=
  let pkgs := provider_pkgs db name in
  let s := each (fun p s =>
    each (pass_install_if name) (pkg_install_if p) (each (pass_depend name) (pkg_depends p) s))
    pkgs (mk_pass db [] 0) in
  (0,
   if (TOUCHED_SIZE <? rp_num_touched s)%nat then
     each (fun p db =>
       each (fun dep => clear_state (dep_name dep)) (pkg_install_if p)
         (each (fun dep => clear_state (dep_name dep)) (pkg_depends p) db)) pkgs (rp_db s)
   else each clear_state (rp_touched s) (rp_db s)).

(** The end of [apk_db_open]: the pass, then [open_complete]. *)
Definition open_complete (db : catalog) : catalog :=
  set_db_open_complete true (apk_hash_foreach (db_names db) apk_db_name_rdepends db).2.

(** ** Repositories *)

Definition APK_MAX_REPOS : nat := 32.

(** The repository state the package selection reads. *)
Record repositories := mk_repos {
  rs_allowed_repos : list Z;    (* repo_tags[i].allowed_repos, i < num_repo_tags *)
  rs_available_repos : Z;
  rs_local_repos : Z;
  rs_active_layers : Z;
  rs_stale : Z;
  rs_unavailable : Z;
}.

Inductive repo_choice := Cache_repository | Filename_repository | Repository (i : nat).

Definition apk_db_select_repo (rs : repositories) (cached : bool) (pkg : apk_package) : option repo_choice :=
  if cached then Some Cache_repository
  else if negb (pkg_filename_ndx pkg =? 0) then Some Filename_repository
  else
    let repos := Z.land (pkg_repos pkg) (rs_available_repos rs) in
    if repos =? 0 then None
    else
      let repos := if testmask repos (rs_local_repos rs) then Z.land repos (rs_local_repos rs) else repos in
      Repository <$> List.find (fun i => testmask repos (BIT (Z.of_nat i))) (seq 0 APK_MAX_REPOS).

Definition apk_db_pkg_upgradable (db : catalog) (rs : repositories) (pkg : apk_package) : option apk_package :=
  ipkg ← apk_pkg_get_installed db (pkg_name pkg);
  ip ← pkg_ipkg ipkg;
  let allowed_repos := u16 (default 0 (rs_allowed_repos rs !! Z.to_nat (ip_repository_tag ip))) in
  if negb (testmask (pkg_repos pkg) allowed_repos) then None
  else if apk_version_match (Some (pkg_version ipkg)) APK_VERSION_LESS (Some (pkg_version pkg)) then Some ipkg
  else None.

(** How many dependencies of the world name a tag that no repository has. *)
Definition apk_db_check_world (rs : repositories) (force_broken_world : bool) (world : list apk_dependency) : Z :=
  if force_broken_world then 0
  else
    Z.of_nat (length (filter (fun dep =>
      ~ (dep_tag dep = 0 \/ default 0 (rs_allowed_repos rs !! Z.to_nat (dep_tag dep)) <> 0)) world)).

Definition apk_db_repository_check (rs : repositories) (force_missing_repositories : bool) : Z :=
  if force_missing_repositories then 0
  else if (rs_stale rs =? 0) && (rs_unavailable rs =? 0) then 0 else -1.

(** ** Finding a package by its file name *)

Section ByName.
(** The address of the buffer, which the pattern's limit is added to. *)
Variable base : Z.

Definition file_name_matches (name_format filename : bytes) (filesize : Z) (name : bytes) (pkg : apk_package) : bool :=
  bool_decide (pkg_name pkg = name) && (pkg_size pkg =? filesize)
  && match apk_blob_subst base (apk_pkg_subst pkg) PATH_MAX name_format with
     | Some (Ok (r, buf)) =>
         negb (r <? 0) && (apk_blob_compare filename (take (Z.to_nat r) buf) =? 0)
     | _ => false
     end.

(** Split points from the left; every prefix that ends at one becomes a name. *)
Fixpoint by_name_loop (name_format filename : bytes) (filesize split_char : Z) (points : list nat)
    (db : catalog) : option apk_package * catalog :=
  match points with
  | [] => (None, db)
  | i :: points' =>
      if negb (nth i filename 0 =? split_char) then by_name_loop name_format filename filesize split_char points' db
      else
        let name := take i filename in
        let db := apk_db_get_name name db in
        match List.find (file_name_matches name_format filename filesize name) (provider_pkgs db name) with
        | Some pkg => (Some pkg, db)
        | None => by_name_loop name_format filename filesize split_char points' db
        end
  end.

Definition apk_db_get_pkg_by_name (default_pkgname_spec filename : bytes) (filesize : Z) (pkgname_spec : blob)
    (db : catalog) : option apk_package * catalog :=
  let pkgname_spec := match pkgname_spec with None => default_pkgname_spec | Some s => s end in
  let name_format := match apk_blob_rsplit pkgname_spec (chr "/") with Some (_, r) => r | None => pkgname_spec end in
  if negb (apk_blob_starts_with name_format (lit "${name}")) then (None, db)
  else
    let split_char := nth 7 name_format 0 in
    let name_format := if existsb (Z.eqb (chr "/")) filename then pkgname_spec else name_format in
    by_name_loop name_format filename filesize split_char (seq 1 (length filename - 1)) db.
End ByName.

(** ** What the solver reads *)

Definition name_info_of (db : catalog) (n : bytes) : apk_name_info :=
  mk_name_info
    (omap (fun e : nat * bytes => (fun p => (p, e.2)) <$> db_pkgs db !! e.1) (nm_providers (name_of db n)))
    (nm_rdepends (name_of db n)) (nm_rinstall_if (name_of db n)).

Definition solver_view (db : catalog) (rs : repositories) (cached : apk_package -> bool)
    (performing_preupgrade force_broken_world : bool) : solver_db :=
  mk_solver_db (name_info_of db) (installed_packages db) (rs_allowed_repos rs) (rs_available_repos rs)
    (rs_active_layers rs) cached performing_preupgrade force_broken_world.
