(* ===== verification/CatalogFacts.v ===== *)
(** * The database keeps what the solver relies on (database.c)

    [reach] are the states the operations of Catalog.v can produce; [catalog_inv] holds
    in all of them.  From it follow the facts about provider arrays and the finiteness
    that the solver's theorems assume, and the contents of the reverse dependency
    arrays. *)

From S2P Require Import Prelude Blob BlobCodec Version Digest Hash Dep Package PackageRules Solver SolverFacts SolverTermination SolverLoop Catalog.

(** ** Updates of a name *)

Lemma name_of_upd n f db m :
  name_of (upd_name n f db) m = if decide (m = n) then f (name_of db n) else name_of db m.
Proof.
  unfold name_of at 1, upd_name. simpl. case_decide as E.
  - subst. by rewrite lookup_insert_eq.
  - by rewrite lookup_insert_ne by done.
Qed.

(** The contents of names may differ. *)
Record same_tables (db db' : catalog) : Prop := {
  st_names : db_names db' = db_names db;
  st_dom : dom (db_name db') = dom (db_name db);
  st_packages : db_packages db' = db_packages db;
  st_pkgs : db_pkgs db' = db_pkgs db;
  st_next : db_next db' = db_next db;
  st_installed : db_installed db' = db_installed db;
  st_open : db_open_complete db' = db_open_complete db;
}.

#[global] Instance same_tables_refl : Reflexive same_tables.
Proof. by intros db. Qed.
#[global] Instance same_tables_trans : Transitive same_tables.
Proof. intros a b c [] []. split; congruence. Qed.

(** What an update of the bookkeeping of names leaves alone. *)
Record quiet (db db' : catalog) : Prop := {
  q_tables : same_tables db db';
  q_providers : forall n, nm_providers (name_of db' n) = nm_providers (name_of db n);
}.

#[global] Instance quiet_refl : Reflexive quiet.
Proof. by intros db. Qed.
#[global] Instance quiet_trans : Transitive quiet.
Proof. intros a b c [] []. split; [by transitivity b | congruence]. Qed.

Lemma same_tables_upd n f db : n ∈ dom (db_name db) -> same_tables db (upd_name n f db).
Proof. intros Hn. split; try done. unfold upd_name. simpl. rewrite dom_insert_L. set_solver. Qed.

Lemma quiet_upd n f db :
  n ∈ dom (db_name db) -> nm_providers (f (name_of db n)) = nm_providers (name_of db n) -> quiet db (upd_name n f db).
Proof.
  intros Hn Hf. split; [by apply same_tables_upd |].
  intros m. rewrite name_of_upd. case_decide; [by subst | done].
Qed.

Lemma quiet_provider_pkgs db db' n : quiet db db' -> provider_pkgs db' n = provider_pkgs db n.
Proof. intros [[] Hp]. unfold provider_pkgs. by rewrite Hp, st_pkgs0. Qed.

Lemma quiet_each {A} (f : A -> catalog -> catalog) l db :
  (forall x db', x ∈ l -> dom (db_name db') = dom (db_name db) -> quiet db' (f x db')) -> quiet db (each f l db).
Proof.
  revert db. induction l as [|x l IH]; intros db Hf; simpl; [done |].
  assert (quiet db (f x db)) as Hx by (apply Hf; [by left | done]).
  transitivity (f x db); [done |]. apply IH. intros y db' Hy Hd. apply Hf; [by right |].
  by rewrite Hd, (st_dom _ _ (q_tables _ _ Hx)).
Qed.

(** ** The invariant *)

(** Package [p] is in the provider array of [n] with version [v]. *)
Definition provides_name (p : apk_package) (n v : bytes) : Prop :=
  (n = pkg_name p /\ v = pkg_version p) \/ exists d, d ∈ pkg_provides p /\ n = dep_name d /\ v = dep_version d.

(** The names a package mentions. *)
Definition mentions (p : apk_package) : list bytes :=
  pkg_name p :: (dep_name <$> pkg_depends p ++ pkg_provides p ++ pkg_install_if p).

Record base_inv (db : catalog) : Prop := {
  bi_names_wf : hash_wf (db_names db);
  bi_packages_wf : hash_wf (db_packages db);
  bi_names : forall n, n ∈ concat (buckets (db_names db)) <-> n ∈ dom (db_name db);
  bi_names_nodup : NoDup (concat (buckets (db_names db)));
  bi_addr : forall a p, db_pkgs db !! a = Some p -> pkg_addr p = a /\ (a < db_next db)%nat;
  bi_item : forall k it, apk_hash_get (db_packages db) k = Some it ->
    exists p, db_pkgs db !! item_addr it = Some p /\ apk_pkg_hash_blob p = k;
  bi_found : forall a p, db_pkgs db !! a = Some p ->
    apk_hash_get (db_packages db) (apk_pkg_hash_blob p) = Some (mk_item a (apk_pkg_hash_blob p));
  bi_providers : forall n a v, (a, v) ∈ nm_providers (name_of db n) <->
    exists p, db_pkgs db !! a = Some p /\ provides_name p n v;
  bi_mentions : forall a p n, db_pkgs db !! a = Some p -> n ∈ mentions p -> n ∈ dom (db_name db);
  bi_installed : forall a, Some a ∈ db_installed db -> is_Some (db_pkgs db !! a);
}.

Lemma base_inv_quiet db db' : quiet db db' -> base_inv db -> base_inv db'.
Proof.
  intros [[Q1 Q2 Q3 Q4 Q5 Q6 Q7] Q8] []. split; rewrite ?Q1, ?Q2, ?Q3, ?Q4, ?Q5, ?Q6; try done.
  intros n a v. by rewrite Q8.
Qed.

(** ** Names *)

Lemma concat_insert_Permutation {A} (ls : list (list A)) i l x :
  ls !! i = Some l -> concat (<[i := x :: l]> ls) ≡ₚ x :: concat ls.
Proof.
  revert i. induction ls as [|k ls IH]; intros [|i]; simpl; try done; intros H.
  - by simplify_eq.
  - rewrite (IH i) by done. by rewrite <- Permutation_middle.
Qed.

Section HashContents.
Context {V : Type} `{HashOpsLaws V}.

Lemma apk_hash_insert_contents (h : apk_hash V) v :
  hash_wf h -> concat (buckets (apk_hash_insert h v)) ≡ₚ v :: concat (buckets h).
Proof.
  intros Hw. unfold apk_hash_insert, apk_hash_insert_hashed. simpl.
  apply concat_insert_Permutation, bucket_lookup, Hw.
Qed.
End HashContents.

Lemma query_name_spec db n : base_inv db -> apk_db_query_name db n = Some n <-> n ∈ dom (db_name db).
Proof.
  intros Hb. unfold apk_db_query_name. rewrite apk_hash_get_items by apply Hb.
  rewrite <- bi_names by done. unfold items_of. split.
  - intros Hh%head_Some_elem_of. by apply list_elem_of_filter in Hh as [_ Hh].
  - intros Hn. assert (n ∈ filter (fun v : bytes => get_key v = n) (concat (buckets (db_names db)))) as Hf
      by (by apply list_elem_of_filter).
    destruct (filter _ _) as [|x l] eqn:E; [by apply elem_of_nil in Hf |]. simpl.
    assert (x ∈ filter (fun v : bytes => get_key v = n) (concat (buckets (db_names db)))) as [? _]%list_elem_of_filter
      by (rewrite E; by left).
    by f_equal.
Qed.

Lemma query_name_None db n : base_inv db -> apk_hash_get (db_names db) n = None <-> n ∉ dom (db_name db).
Proof.
  intros Hb. rewrite <- query_name_spec by done. unfold apk_db_query_name. split; [by intros -> |].
  intros Hn. destruct (apk_hash_get (db_names db) n) as [x|] eqn:E; [| done]. destruct Hn.
  apply (kt_get_key (KeyedTable := hash_keyed_table)) in E as Hx; [| apply Hb]. simpl in Hx. congruence.
Qed.

(** What [apk_db_get_name] changes. *)
Record name_added (n : bytes) (db db' : catalog) : Prop := {
  na_dom : dom (db_name db') = {[n]} ∪ dom (db_name db);
  na_name : forall m, name_of db' m = name_of db m;
  na_packages : db_packages db' = db_packages db;
  na_pkgs : db_pkgs db' = db_pkgs db;
  na_next : db_next db' = db_next db;
  na_installed : db_installed db' = db_installed db;
  na_open : db_open_complete db' = db_open_complete db;
}.

Lemma get_name_spec n db :
  base_inv db -> base_inv (apk_db_get_name n db) /\ name_added n db (apk_db_get_name n db).
Proof.
  intros Hb. unfold apk_db_get_name.
  change (apk_hash_get_hashed _ n _) with (apk_hash_get (db_names db) n).
  destruct (apk_hash_get (db_names db) n) as [x|] eqn:E.
  - split; [done |]. split; try done.
    assert (n ∈ dom (db_name db)); [| set_solver]. apply dec_stable. intros Hn.
    apply query_name_None in Hn; congruence.
  - assert (n ∉ dom (db_name db)) as Hn by (by apply query_name_None).
    set (db' := set_db_sorted _ _).
    assert (db_names db' = apk_hash_insert (db_names db) n) as Hnames by done.
    assert (dom (db_name db') = {[n]} ∪ dom (db_name db)) as Hdom by (unfold db'; simpl; by rewrite dom_insert_L).
    assert (forall m, name_of db' m = name_of db m) as Hname.
    { intros m. unfold name_of, db'. simpl. destruct (decide (m = n)) as [->|]; [| by rewrite lookup_insert_ne].
      rewrite lookup_insert_eq. apply not_elem_of_dom in Hn. by rewrite Hn. }
    split; [| by split]. destruct Hb. split; rewrite ?Hnames, ?Hdom; try done.
    + by apply apk_hash_insert_wf.
    + intros m. rewrite apk_hash_insert_contents by done. rewrite elem_of_cons, bi_names0. set_solver.
    + rewrite apk_hash_insert_contents by done. constructor; [| done]. by rewrite bi_names0.
    + intros m a v. rewrite Hname. apply bi_providers0.
    + intros a p m Hp Hm. apply elem_of_union_r. eauto.
Qed.

(** ** Packages *)

(** The fields of a package that the tables depend on. *)
Record same_identity (p p' : apk_package) : Prop := {
  si_addr : pkg_addr p' = pkg_addr p;
  si_name : pkg_name p' = pkg_name p;
  si_version : pkg_version p' = pkg_version p;
  si_depends : pkg_depends p' = pkg_depends p;
  si_provides : pkg_provides p' = pkg_provides p;
  si_install_if : pkg_install_if p' = pkg_install_if p;
  si_digest : pkg_digest p' = pkg_digest p;
}.

Lemma provides_name_same p p' n v : same_identity p p' -> provides_name p' n v <-> provides_name p n v.
Proof. intros []. unfold provides_name. by rewrite si_name0, si_version0, si_provides0. Qed.

Lemma lookup_put db p p' a q :
  db_pkgs db !! pkg_addr p = Some p -> same_identity p p' -> db_pkgs (put_pkg p' db) !! a = Some q ->
  exists p0, db_pkgs db !! a = Some p0 /\ same_identity p0 q.
Proof.
  intros Hp Hs. simpl. rewrite (si_addr _ _ Hs). destruct (decide (a = pkg_addr p)) as [->|].
  - rewrite lookup_insert_eq. intros [= <-]. by exists p.
  - rewrite lookup_insert_ne by done. intros Hq. by exists q.
Qed.

Lemma lookup_put_old db p p' a q :
  db_pkgs db !! pkg_addr p = Some p -> same_identity p p' -> db_pkgs db !! a = Some q ->
  exists q', db_pkgs (put_pkg p' db) !! a = Some q' /\ same_identity q q'.
Proof.
  intros Hp Hs Hq. simpl. rewrite (si_addr _ _ Hs). destruct (decide (a = pkg_addr p)) as [->|].
  - rewrite lookup_insert_eq. simplify_eq. by exists p'.
  - rewrite lookup_insert_ne by done. by exists q.
Qed.

Lemma put_pkg_inv p p' db :
  base_inv db -> db_pkgs db !! pkg_addr p = Some p -> same_identity p p' -> base_inv (put_pkg p' db).
Proof.
  intros Hb Hp Hs. pose proof (lookup_put db p p') as Hnew. pose proof (lookup_put_old db p p') as Hold.
  destruct Hb. split; try done.
  - intros a q Hq. destruct (Hnew a q) as (q0 & Hq0 & []); [done.. |]. rewrite si_addr0. by apply bi_addr0.
  - intros k it Hk. destruct (bi_item0 k it Hk) as (q & Hq & Hh). destruct (Hold _ q Hp Hs Hq) as (q' & Hq' & []).
    exists q'. split; [done |]. unfold apk_pkg_hash_blob. rewrite si_digest0. done.
  - intros a q Hq. destruct (Hnew a q) as (q0 & Hq0 & []); [done.. |]. unfold apk_pkg_hash_blob.
    rewrite si_digest0. by apply bi_found0.
  - intros n a v. change (name_of (put_pkg p' db) n) with (name_of db n). rewrite bi_providers0. split.
    + intros (q & Hq & Hv). destruct (Hold a q) as (q' & Hq' & Hs'); [done.. |]. exists q'. split; [done |].
      by apply (provides_name_same q).
    + intros (q & Hq & Hv). destruct (Hnew a q) as (q0 & Hq0 & Hs'); [done.. |]. exists q0. split; [done |].
      by apply (provides_name_same q0 q).
  - intros a q n Hq Hn. destruct (Hnew a q) as (q0 & Hq0 & []); [done.. |]. apply (bi_mentions0 a q0); [done |].
    revert Hn. unfold mentions. by rewrite si_name0, si_depends0, si_provides0, si_install_if0.
  - intros a Ha. destruct (bi_installed0 a Ha) as [q Hq]. destruct (Hold a q) as (q' & Hq' & _); [done.. |].
    by exists q'.
Qed.

(** The reverse dependency arrays and the scratch field of names are the same. *)
Definition same_rdeps (db db' : catalog) : Prop :=
  forall n, nm_rdepends (name_of db' n) = nm_rdepends (name_of db n)
    /\ nm_rinstall_if (name_of db' n) = nm_rinstall_if (name_of db n)
    /\ nm_state_int (name_of db' n) = nm_state_int (name_of db n).

#[global] Instance same_rdeps_refl : Reflexive same_rdeps.
Proof. by intros db n. Qed.
#[global] Instance same_rdeps_trans : Transitive same_rdeps.
Proof. intros a b c H1 H2 n. destruct (H1 n) as (? & ? & ?), (H2 n) as (? & ? & ?). split_and!; congruence. Qed.

Lemma same_rdeps_upd n f db :
  nm_rdepends (f (name_of db n)) = nm_rdepends (name_of db n) ->
  nm_rinstall_if (f (name_of db n)) = nm_rinstall_if (name_of db n) ->
  nm_state_int (f (name_of db n)) = nm_state_int (name_of db n) -> same_rdeps db (upd_name n f db).
Proof. intros H1 H2 H3 m. rewrite name_of_upd. case_decide; [by subst | done]. Qed.

Lemma add_provider_elem n e db m x :
  x ∈ nm_providers (name_of (add_provider n e db) m) <-> x ∈ nm_providers (name_of db m) \/ (m = n /\ x = e).
Proof.
  unfold add_provider. rewrite name_of_upd. case_decide as E; simpl.
  - subst. rewrite elem_of_app, list_elem_of_singleton. naive_solver.
  - naive_solver.
Qed.

Lemma each_add_provider a ds db :
  (forall d, d ∈ ds -> dep_name d ∈ dom (db_name db)) ->
  let db' := each (fun d => add_provider (dep_name d) (a, dep_version d)) ds db in
  same_tables db db' /\ same_rdeps db db' /\
  forall m x, x ∈ nm_providers (name_of db' m) <->
    x ∈ nm_providers (name_of db m) \/ exists d, d ∈ ds /\ m = dep_name d /\ x = (a, dep_version d).
Proof.
  revert db. induction ds as [|d ds IH]; intros db Hd; simpl.
  - split_and!; [done | done |]. intros m x. set_solver.
  - assert (same_tables db (add_provider (dep_name d) (a, dep_version d) db)) as Hs
      by (apply same_tables_upd, Hd; by left).
    destruct (IH (add_provider (dep_name d) (a, dep_version d) db)) as (H1 & H2 & H3).
    { intros d' Hd'. rewrite (st_dom _ _ Hs). apply Hd. by right. }
    split_and!.
    + by transitivity (add_provider (dep_name d) (a, dep_version d) db).
    + transitivity (add_provider (dep_name d) (a, dep_version d) db); [by apply same_rdeps_upd | done].
    + intros m x. rewrite H3, add_provider_elem. set_solver.
Qed.

(** The tables after a new package was entered, before its reverse dependencies. *)
Definition enter_package (p : apk_package) (db : catalog) : catalog :=
  let db := set_db_next (S (db_next db)) (put_pkg p db) in
  let db := set_db_packages (apk_hash_insert (db_packages db) (mk_item (pkg_addr p) (apk_pkg_hash_blob p))) db in
  let db := add_provider (pkg_name p) (pkg_addr p, pkg_version p) db in
  each (fun d => add_provider (dep_name d) (pkg_addr p, dep_version d)) (pkg_provides p) db.

Lemma enter_package_inv p db :
  base_inv db -> pkg_addr p = db_next db -> apk_hash_get (db_packages db) (apk_pkg_hash_blob p) = None ->
  (forall n, n ∈ mentions p -> n ∈ dom (db_name db)) ->
  base_inv (enter_package p db) /\ same_rdeps db (enter_package p db)
  /\ db_pkgs (enter_package p db) = <[pkg_addr p := p]> (db_pkgs db)
  /\ dom (db_name (enter_package p db)) = dom (db_name db)
  /\ db_open_complete (enter_package p db) = db_open_complete db.
Proof.
  intros Hb Ha Hk Hm. unfold enter_package.
  set (db1 := set_db_packages _ _). set (db2 := add_provider _ _ db1).
  assert (same_tables db1 db2) as Hs2 by (apply same_tables_upd, Hm; by left).
  destruct (each_add_provider (pkg_addr p) (pkg_provides p) db2) as (Hs & Hr & Hp).
  { intros d Hd. rewrite (st_dom _ _ Hs2). apply Hm. unfold mentions. set_solver. }
  set (db3 := each _ _ db2) in *. assert (same_tables db1 db3) as Hs3 by (by transitivity db2).
  assert (same_rdeps db db3) as Hr3.
  { transitivity db2; [| done]. change (same_rdeps db1 db2). by apply same_rdeps_upd. }
  assert (forall m a v, (a, v) ∈ nm_providers (name_of db3 m) <->
    (a, v) ∈ nm_providers (name_of db m) \/ (a = pkg_addr p /\ provides_name p m v)) as Hprov.
  { intros m a v. rewrite Hp. unfold db2. rewrite add_provider_elem. change (name_of db1 m) with (name_of db m).
    unfold provides_name. naive_solver. }
  assert (db_pkgs db !! pkg_addr p = None) as Hfresh.
  { apply eq_None_not_Some. intros [q Hq]. apply (bi_addr _ Hb) in Hq. lia. }
  destruct Hs3 as [S1 S2 S3 S4 S5 S6 S7]. split_and!; try done. destruct Hb.
  split; rewrite ?S1, ?S2, ?S3, ?S4, ?S5, ?S6; simpl; try done.
  - by apply apk_hash_insert_wf.
  - intros a q. destruct (decide (a = pkg_addr p)) as [->|].
    + rewrite lookup_insert_eq. intros [= <-]. split; [done | lia].
    + rewrite lookup_insert_ne by done. intros [? ?]%bi_addr0. split; [done | lia].
  - intros k it. rewrite apk_hash_get_insert by done. simpl.
    case_decide as E; [intros [= <-]; exists p; by rewrite lookup_insert_eq |].
    intros (q & Hq & Hh)%bi_item0. exists q. rewrite lookup_insert_ne by congruence. done.
  - intros a q. rewrite apk_hash_get_insert by done. simpl.
    destruct (decide (a = pkg_addr p)) as [->|].
    + rewrite lookup_insert_eq. intros [= <-]. by rewrite decide_True.
    + rewrite lookup_insert_ne by done. intros Hq%bi_found0. rewrite decide_False; [done |]. congruence.
  - intros m a v. rewrite Hprov, bi_providers0. split.
    + intros [(q & Hq & Hv)|[-> Hv]].
      * exists q. rewrite lookup_insert_ne by congruence. done.
      * exists p. by rewrite lookup_insert_eq.
    + intros (q & Hq & Hv). destruct (decide (a = pkg_addr p)) as [->|].
      * rewrite lookup_insert_eq in Hq. simplify_eq. by right.
      * rewrite lookup_insert_ne in Hq by done. left. by exists q.
  - intros a q n Hq. destruct (decide (a = pkg_addr p)) as [->|].
    + rewrite lookup_insert_eq in Hq. simplify_eq. apply Hm.
    + rewrite lookup_insert_ne in Hq by done. by apply (bi_mentions0 a).
  - intros a Hin. destruct (bi_installed0 a Hin) as [q Hq]. exists q. rewrite lookup_insert_ne; [done | congruence].
Qed.

(** ** Reverse dependencies of one package *)

Lemma add_name_to_array_elem x a n : n ∈ add_name_to_array x a <-> n ∈ a \/ n = x.
Proof.
  unfold add_name_to_array. destruct (existsb _ a) eqn:E.
  - apply existsb_exists in E as (y & Hy%list_elem_of_In & Hxy%bool_decide_eq_true). subst. naive_solver.
  - rewrite elem_of_app, list_elem_of_singleton. done.
Qed.

Lemma add_name_to_array_nodup x a : NoDup a -> NoDup (add_name_to_array x a).
Proof.
  unfold add_name_to_array. destruct (existsb _ a) eqn:E; [done |]. intros Ha.
  apply NoDup_app. split_and!; [done | | apply NoDup_singleton]. intros y Hy ->%list_elem_of_singleton.
  assert (existsb (fun n => bool_decide (n = x)) a = true); [| congruence].
  apply existsb_exists. exists x. split; [by apply list_elem_of_In | by apply bool_decide_eq_true].
Qed.

(** The reverse dependency arrays gained the pairs of [D] and [I], without repetitions. *)
Record grew (D I : bytes -> bytes -> Prop) (db db' : catalog) : Prop := {
  gr_quiet : quiet db db';
  gr_state : forall m, nm_state_int (name_of db' m) = nm_state_int (name_of db m);
  gr_rdepends : forall m n, n ∈ nm_rdepends (name_of db' m) <-> n ∈ nm_rdepends (name_of db m) \/ D m n;
  gr_rinstall_if : forall m n, n ∈ nm_rinstall_if (name_of db' m) <-> n ∈ nm_rinstall_if (name_of db m) \/ I m n;
  gr_rdepends_nodup : forall m, NoDup (nm_rdepends (name_of db m)) -> NoDup (nm_rdepends (name_of db' m));
  gr_rinstall_if_nodup : forall m, NoDup (nm_rinstall_if (name_of db m)) -> NoDup (nm_rinstall_if (name_of db' m));
}.

Lemma grew_trans D1 I1 D2 I2 a b c :
  grew D1 I1 a b -> grew D2 I2 b c -> grew (fun m n => D1 m n \/ D2 m n) (fun m n => I1 m n \/ I2 m n) a c.
Proof.
  intros [] []. split; [by transitivity b | congruence | | | naive_solver | naive_solver].
  - intros m n. rewrite gr_rdepends1, gr_rdepends0. naive_solver.
  - intros m n. rewrite gr_rinstall_if1, gr_rinstall_if0. naive_solver.
Qed.

Lemma grew_iff (D I D' I' : bytes -> bytes -> Prop) a b :
  (forall m n, D m n <-> D' m n) -> (forall m n, I m n <-> I' m n) -> grew D I a b -> grew D' I' a b.
Proof. intros HD HI []. split; try done; intros m n; rewrite <- ?HD, <- ?HI; done. Qed.

Lemma grew_each {A} (D I : A -> bytes -> bytes -> Prop) (f : A -> catalog -> catalog) l db :
  (forall x db', x ∈ l -> dom (db_name db') = dom (db_name db) -> grew (D x) (I x) db' (f x db')) ->
  grew (fun m n => exists x, x ∈ l /\ D x m n) (fun m n => exists x, x ∈ l /\ I x m n) db (each f l db).
Proof.
  revert db. induction l as [|x l IH]; intros db Hf; simpl.
  - split; try done; set_solver.
  - assert (grew (D x) (I x) db (f x db)) as Hx by (apply Hf; [by left | done]).
    eapply grew_iff; [| | eapply grew_trans; [exact Hx | apply IH]].
    + set_solver.
    + set_solver.
    + intros y db' Hy Hd. apply Hf; [by right |]. by rewrite Hd, (st_dom _ _ (q_tables _ _ (gr_quiet _ _ _ _ Hx))).
Qed.

Lemma grew_add_rdepends r x db :
  r ∈ dom (db_name db) -> grew (fun m n => m = r /\ n = x) (fun _ _ => False) db (add_rdepends r x db).
Proof.
  intros Hr. unfold add_rdepends.
  split; [by apply quiet_upd | | | | |]; intros m; rewrite name_of_upd; case_decide; simpl; subst; try naive_solver.
  - intros n. rewrite add_name_to_array_elem. naive_solver.
  - apply add_name_to_array_nodup.
Qed.

Lemma grew_add_rinstall_if r x db :
  r ∈ dom (db_name db) -> grew (fun _ _ => False) (fun m n => m = r /\ n = x) db (add_rinstall_if r x db).
Proof.
  intros Hr. unfold add_rinstall_if.
  split; [by apply quiet_upd | | | | |]; intros m; rewrite name_of_upd; case_decide; simpl; subst; try naive_solver.
  - intros n. rewrite add_name_to_array_elem. naive_solver.
  - apply add_name_to_array_nodup.
Qed.

Lemma grew_is_dependency r (b : apk_name -> bool) db :
  r ∈ dom (db_name db) ->
  grew (fun _ _ => False) (fun _ _ => False) db (upd_name r (fun nm => set_nm_is_dependency (b nm) nm) db).
Proof.
  intros Hr. split; [by apply quiet_upd | | | | |]; intros m; rewrite name_of_upd; case_decide; simpl; subst; naive_solver.
Qed.

(** The names under which a package is found. *)
Definition names_of (p : apk_package) : list bytes := pkg_name p :: (dep_name <$> pkg_provides p).

Lemma grew_dom D I db db' : grew D I db db' -> dom (db_name db') = dom (db_name db).
Proof. intros H. apply H. Qed.

(** One array gains every name of a package. *)
Lemma grew_rdepends_names r p db :
  r ∈ dom (db_name db) ->
  grew (fun m n => m = r /\ n ∈ names_of p) (fun _ _ => False) db
    (each (fun q => add_rdepends r (dep_name q)) (pkg_provides p) (add_rdepends r (pkg_name p) db)).
Proof.
  intros Hr. pose proof (grew_add_rdepends r (pkg_name p) db Hr) as H1.
  eapply grew_iff; cycle 2; [eapply grew_trans; [exact H1 |];
    apply (grew_each (fun (q : apk_dependency) m n => m = r /\ n = dep_name q) (fun _ _ _ => False)) | |].
  - intros q db' _ Hd. apply grew_add_rdepends. by rewrite Hd, (grew_dom _ _ _ _ H1).
  - intros m n. unfold names_of. rewrite elem_of_cons, list_elem_of_fmap. naive_solver.
  - naive_solver.
Qed.

Lemma grew_rinstall_if_names r p db :
  r ∈ dom (db_name db) ->
  grew (fun _ _ => False) (fun m n => m = r /\ n ∈ names_of p) db
    (each (fun q => add_rinstall_if r (dep_name q)) (pkg_provides p) (add_rinstall_if r (pkg_name p) db)).
Proof.
  intros Hr. pose proof (grew_add_rinstall_if r (pkg_name p) db Hr) as H1.
  eapply grew_iff; cycle 2; [eapply grew_trans; [exact H1 |];
    apply (grew_each (fun _ _ _ => False) (fun (q : apk_dependency) m n => m = r /\ n = dep_name q)) | |].
  - intros q db' _ Hd. apply grew_add_rinstall_if. by rewrite Hd, (grew_dom _ _ _ _ H1).
  - naive_solver.
  - intros m n. unfold names_of. rewrite elem_of_cons, list_elem_of_fmap. naive_solver.
Qed.

Lemma pkg_rdepends_grew p db :
  (forall n, n ∈ mentions p -> n ∈ dom (db_name db)) ->
  grew (fun m n => n ∈ names_of p /\ m ∈ (dep_name <$> pkg_depends p))
    (fun m n => n ∈ names_of p /\ m ∈ (dep_name <$> pkg_install_if p)) db (apk_db_pkg_rdepends p db).
Proof.
  intros Hm. unfold apk_db_pkg_rdepends. set (db1 := each _ (pkg_depends p) db).
  assert (grew (fun m n => exists d, d ∈ pkg_depends p /\ m = dep_name d /\ n ∈ names_of p)
    (fun _ _ => exists d, d ∈ pkg_depends p /\ False) db db1) as H1.
  { apply (grew_each (fun d m n => m = dep_name d /\ n ∈ names_of p) (fun _ _ _ => False)).
    intros d db' Hd Hdom. assert (dep_name d ∈ dom (db_name db')) as Hin.
    { rewrite Hdom. apply Hm. unfold mentions. set_solver. }
    pose proof (grew_is_dependency (dep_name d) (fun nm => nm_is_dependency nm || negb (apk_dep_conflict d)) db' Hin) as H0.
    eapply grew_iff; cycle 2; [eapply grew_trans; [exact H0 | apply grew_rdepends_names] | |]; [| naive_solver..].
    by rewrite (grew_dom _ _ _ _ H0). }
  eapply grew_iff; cycle 2; [eapply grew_trans; [exact H1 |];
    apply (grew_each (fun _ _ _ => False) (fun d m n => m = dep_name d /\ n ∈ names_of p)) | |]; [| set_solver..].
  intros d db' Hd Hdom. apply grew_rinstall_if_names. rewrite Hdom, (grew_dom _ _ _ _ H1).
  apply Hm. unfold mentions. set_solver.
Qed.

(** ** The pass over all names *)

(** The loops of [apk_db_name_rdepends] as one loop over its dependencies ([inl]) and
    install-if conditions ([inr]). *)
Abbreviation pass_item := (apk_dependency + apk_dependency)%type.

Definition item_name (it : pass_item) : bytes := match it with inl d | inr d => dep_name d end.
Definition pass_step (n : bytes) (it : pass_item) : rdepends_pass -> rdepends_pass :=
  match it with inl d => pass_depend n d | inr d => pass_install_if n d end.
Definition pass_items (pkgs : list apk_package) : list pass_item :=
  pkgs ≫= fun p => (inl <$> pkg_depends p) ++ (inr <$> pkg_install_if p).

(** The state of the pass when [D] and [I] are the names recorded so far: the arrays,
    the scratch bits, and the names remembered for clearing the bits. *)
Record pass_inv (n : bytes) (db : catalog) (D I : bytes -> bool) (s : rdepends_pass) : Prop := {
  pi_quiet : quiet db (rp_db s);
  pi_name : forall m, let nm := name_of (rp_db s) m in
    nm_rdepends nm = nm_rdepends (name_of db m) ++ (if D m then [n] else [])
    /\ nm_rinstall_if nm = nm_rinstall_if (name_of db m) ++ (if I m then [n] else [])
    /\ nm_state_int nm = Z.lor (if D m then 1 else 0) (if I m then 2 else 0);
  pi_touched : exists T, NoDup T /\ (forall m, m ∈ T <-> D m || I m = true)
    /\ rp_touched s = take TOUCHED_SIZE T /\ rp_num_touched s = length T;
}.

Definition also (r : bytes) (D : bytes -> bool) (m : bytes) : bool := D m || bool_decide (m = r).

Lemma also_eq r D : also r D r = true.
Proof. unfold also. by rewrite bool_decide_true, orb_true_r. Qed.
Lemma also_ne r D m : m <> r -> also r D m = D m.
Proof. intros H. unfold also. by rewrite bool_decide_false, orb_false_r. Qed.
Lemma also_known r D m : D r = true -> also r D m = D m.
Proof. intros H. destruct (decide (m = r)) as [->|]; [by rewrite also_eq | by apply also_ne]. Qed.

Lemma pass_inv_ext n db D I D' I' s :
  (forall m, D' m = D m) -> (forall m, I' m = I m) -> pass_inv n db D I s -> pass_inv n db D' I' s.
Proof.
  intros HD HI [Hq Hn (T & HT & Hm & H)]. split; [done | intros m; rewrite HD, HI; apply Hn |].
  exists T. split_and!; try apply H; [done |]. intros m. by rewrite HD, HI.
Qed.

(** Remembering [r]. *)
Lemma touch_spec n db D I s r :
  pass_inv n db D I s -> rp_db (touch r s) = rp_db s /\
  exists T, NoDup T /\ (forall m, m ∈ T <-> (D m || I m) || bool_decide (m = r) = true)
    /\ rp_touched (touch r s) = take TOUCHED_SIZE T /\ rp_num_touched (touch r s) = length T.
Proof.
  intros [_ Hnm (T & HT & Hm & Ht & Hn)]. unfold touch. destruct (Hnm r) as (_ & _ & ->).
  destruct (D r || I r) eqn:E.
  - assert (Z.lor (if D r then 1 else 0) (if I r then 2 else 0) =? 0 = false) as -> by (by destruct (D r), (I r)).
    split; [done |]. exists T. split_and!; try done. intros m.
    pose proof (also_known r (fun m => D m || I m) m E) as Ha. unfold also in Ha. by rewrite Ha.
  - apply orb_false_iff in E as [E1 E2]. rewrite E1, E2. split; [done |]. exists (T ++ [r]). split_and!.
    + apply NoDup_app. split_and!; [done | | apply NoDup_singleton]. intros m Hin ->%list_elem_of_singleton.
      apply Hm in Hin. by rewrite E1, E2 in Hin.
    + intros m. rewrite elem_of_app, Hm, list_elem_of_singleton, !orb_true_iff, bool_decide_eq_true. done.
    + simpl. rewrite Hn, Ht. destruct (length T <? TOUCHED_SIZE)%nat eqn:E; bool_prop.
      * by rewrite !take_ge by (rewrite ?length_app; simpl; lia).
      * by rewrite take_app_le by lia.
    + rewrite length_app. simpl. rewrite Hn. lia.
Qed.

(** An update of one name that records it. *)
Lemma record_inv n db D I D' I' s r f :
  pass_inv n db D I s -> r ∈ dom (db_name db) ->
  (forall m, m <> r -> D' m = D m /\ I' m = I m) -> (forall m, D' m || I' m = D m || I m || bool_decide (m = r)) ->
  (forall nm, nm_providers (f nm) = nm_providers nm) ->
  (let nm := f (name_of (rp_db s) r) in
   nm_rdepends nm = nm_rdepends (name_of db r) ++ (if D' r then [n] else [])
   /\ nm_rinstall_if nm = nm_rinstall_if (name_of db r) ++ (if I' r then [n] else [])
   /\ nm_state_int nm = Z.lor (if D' r then 1 else 0) (if I' r then 2 else 0)) ->
  pass_inv n db D' I' (mk_pass (upd_name r f (rp_db (touch r s))) (rp_touched (touch r s)) (rp_num_touched (touch r s))).
Proof.
  intros Hi Hr Hne Hor Hf Hnew. destruct (touch_spec n db D I s r Hi) as (Hdb & T & HT & Hm & Ht & Hn).
  destruct Hi as [Hq Hnm _]. split; simpl; rewrite ?Hdb.
  - transitivity (rp_db s); [done |]. apply quiet_upd; [| done]. by rewrite (st_dom _ _ (q_tables _ _ Hq)).
  - intros m. rewrite name_of_upd. case_decide as E; [by subst |]. destruct (Hne m E) as [-> ->]. apply Hnm.
  - exists T. split_and!; try done. intros m. by rewrite Hm, Hor.
Qed.

Lemma testmask_state (d i : bool) :
  let x := Z.lor (if d then 1 else 0) (if i then 2 else 0) in testmask x 1 = d /\ testmask x 2 = i.
Proof. by destruct d, i. Qed.

Lemma pass_depend_inv n db D I s d :
  dep_name d ∈ dom (db_name db) -> pass_inv n db D I s -> pass_inv n db (also (dep_name d) D) I (pass_depend n d s).
Proof.
  intros Hr Hi. unfold pass_depend. set (r := dep_name d) in *. set (f := fun nm => _). set (s1 := mk_pass _ _ _).
  assert (pass_inv n db D I s1) as Hi1.
  { destruct Hi as [Hq Hnm Ht]. split; [| | done].
    - transitivity (rp_db s); [done |]. apply quiet_upd; [| done]. by rewrite (st_dom _ _ (q_tables _ _ Hq)).
    - intros m. simpl. rewrite name_of_upd. case_decide; [subst; apply Hnm | apply Hnm]. }
  clearbody s1. destruct (pi_name _ _ _ _ _ Hi1 r) as (H1 & H2 & H3). rewrite H3.
  destruct (testmask_state (D r) (I r)) as [-> _]. destruct (D r) eqn:E.
  - eapply pass_inv_ext; [| done | exact Hi1]. intros m. by apply also_known.
  - eapply record_inv; [exact Hi1 | done | | | done |].
    + intros m Hm. by rewrite also_ne.
    + intros m. unfold also. by destruct (D m), (I m), (bool_decide (m = r)).
    + simpl. rewrite H1, H2, H3, also_eq, app_nil_r. by destruct (I r).
Qed.

Lemma pass_install_if_inv n db D I s d :
  dep_name d ∈ dom (db_name db) -> pass_inv n db D I s -> pass_inv n db D (also (dep_name d) I) (pass_install_if n d s).
Proof.
  intros Hr Hi. unfold pass_install_if. set (r := dep_name d) in *.
  destruct (pi_name _ _ _ _ _ Hi r) as (H1 & H2 & H3). rewrite H3.
  destruct (testmask_state (D r) (I r)) as [_ ->]. destruct (I r) eqn:E.
  - eapply pass_inv_ext; [done | | exact Hi]. intros m. by apply also_known.
  - eapply record_inv; [exact Hi | done | | | done |].
    + intros m Hm. by rewrite also_ne.
    + intros m. unfold also. by destruct (D m), (I m), (bool_decide (m = r)).
    + simpl. rewrite H1, H2, H3, also_eq, app_nil_r. by destruct (D r).
Qed.

(** Whether a name is among the dependencies, or the conditions, of the items. *)
Definition in_depends (l : list pass_item) (m : bytes) : bool :=
  existsb (fun it : pass_item => match it with inl d => bool_decide (m = dep_name d) | inr _ => false end) l.
Definition in_install_if (l : list pass_item) (m : bytes) : bool :=
  existsb (fun it : pass_item => match it with inl _ => false | inr d => bool_decide (m = dep_name d) end) l.

Lemma pass_items_inv n db l :
  (forall m, nm_state_int (name_of db m) = 0) -> (forall it, it ∈ l -> item_name it ∈ dom (db_name db)) ->
  pass_inv n db (in_depends l) (in_install_if l) (each (pass_step n) l (mk_pass db [] 0)).
Proof.
  intros H0 Hl. apply (each_prefix_inv (fun done => pass_inv n db (in_depends done) (in_install_if done))).
  - split; [done | | exists []; split_and!; [constructor | | done | done]].
    + intros m. simpl. rewrite !app_nil_r, H0. done.
    + intros m. simpl. split; [by intros ?%elem_of_nil | done].
  - intros done [d|d] s Hin Hi; specialize (Hl _ Hin); simpl in *.
    + eapply pass_inv_ext; [| | by apply pass_depend_inv].
      * intros m. unfold in_depends, also. rewrite existsb_app. simpl. by rewrite orb_false_r.
      * intros m. unfold in_install_if. rewrite existsb_app. simpl. by rewrite orb_false_r.
    + eapply pass_inv_ext; [| | by apply pass_install_if_inv].
      * intros m. unfold in_depends. rewrite existsb_app. simpl. by rewrite orb_false_r.
      * intros m. unfold in_install_if, also. rewrite existsb_app. simpl. by rewrite orb_false_r.
Qed.

Lemma clear_each L db :
  (forall m, m ∈ L -> m ∈ dom (db_name db)) ->
  quiet db (each clear_state L db) /\
  forall m, name_of (each clear_state L db) m
    = if decide (m ∈ L) then set_nm_state_int 0 (name_of db m) else name_of db m.
Proof.
  revert db. induction L as [|x L IH]; intros db HL; simpl.
  - by split.
  - assert (quiet db (clear_state x db)) as Hq by (apply quiet_upd; [apply HL; by left | done]).
    destruct (IH (clear_state x db)) as [IH1 IH2].
    { intros m Hm. rewrite (st_dom _ _ (q_tables _ _ Hq)). apply HL. by right. }
    split; [by transitivity (clear_state x db) |]. intros m. rewrite IH2. unfold clear_state. rewrite name_of_upd.
    destruct (decide (m = x)) as [->|Hx].
    + rewrite (decide_True (P := x ∈ x :: L)) by set_solver. by case_decide.
    + destruct (decide (m ∈ L)); [rewrite decide_True by set_solver | rewrite decide_False by set_solver]; done.
Qed.

Lemma in_items l m : in_depends l m || in_install_if l m = true <-> m ∈ item_name <$> l.
Proof.
  rewrite orb_true_iff. unfold in_depends, in_install_if. rewrite !existsb_exists, list_elem_of_fmap. split.
  - intros [(it & Hd%list_elem_of_In & H)|(it & Hd%list_elem_of_In & H)]; exists it; destruct it; bool_prop; done.
  - intros ([d|d] & -> & Hd%list_elem_of_In); [left | right]; eexists; (split; [exact Hd | by apply bool_decide_eq_true]).
Qed.

Lemma pass_loop n pkgs s :
  each (fun p s => each (pass_install_if n) (pkg_install_if p) (each (pass_depend n) (pkg_depends p) s)) pkgs s
  = each (pass_step n) (pass_items pkgs) s.
Proof.
  revert s. induction pkgs as [|p l IH]; intros s; simpl; [done |].
  unfold pass_items. simpl. rewrite !each_app, !each_fmap. apply IH.
Qed.

Lemma clear_loop pkgs db :
  each (fun p db => each (fun dep => clear_state (dep_name dep)) (pkg_install_if p)
    (each (fun dep => clear_state (dep_name dep)) (pkg_depends p) db)) pkgs db
  = each clear_state (item_name <$> pass_items pkgs) db.
Proof.
  rewrite each_fmap. revert db. induction pkgs as [|p l IH]; intros db; simpl; [done |].
  unfold pass_items. simpl. rewrite !each_app, !each_fmap. apply IH.
Qed.

Lemma name_rdepends_spec n db :
  (forall m, nm_state_int (name_of db m) = 0) ->
  let items := pass_items (provider_pkgs db n) in
  (forall it, it ∈ items -> item_name it ∈ dom (db_name db)) ->
  let db' := (apk_db_name_rdepends n db).2 in
  quiet db db' /\ forall m,
    nm_rdepends (name_of db' m) = nm_rdepends (name_of db m) ++ (if in_depends items m then [n] else [])
    /\ nm_rinstall_if (name_of db' m) = nm_rinstall_if (name_of db m) ++ (if in_install_if items m then [n] else [])
    /\ nm_state_int (name_of db' m) = 0.
Proof.
  intros H0 items Hdom. unfold apk_db_name_rdepends. rewrite pass_loop, clear_loop. fold items. simpl.
  destruct (pass_items_inv n db items H0 Hdom) as [Hq Hnm (T & HT & Hm & Ht & Hn)].
  set (s := each (pass_step n) items _) in *.
  set (L := if (TOUCHED_SIZE <? rp_num_touched s)%nat then item_name <$> items else rp_touched s).
  assert ((if (TOUCHED_SIZE <? rp_num_touched s)%nat then each clear_state (item_name <$> items) (rp_db s)
    else each clear_state (rp_touched s) (rp_db s)) = each clear_state L (rp_db s)) as -> by (unfold L; by case_if).
  assert (forall m, m ∈ item_name <$> items -> m ∈ dom (db_name db)) as Hdom'.
  { intros m (it & -> & Hit)%list_elem_of_fmap. by apply Hdom. }
  assert (forall m, m ∈ L <-> in_depends items m || in_install_if items m = true) as HL.
  { intros m. unfold L. case_if; bool_prop; [by rewrite in_items |]. rewrite Ht, take_ge by lia. apply Hm. }
  destruct (clear_each L (rp_db s)) as [Hq' Hnm'].
  { intros m. rewrite HL, in_items, (st_dom _ _ (q_tables _ _ Hq)). apply Hdom'. }
  split; [by transitivity (rp_db s) |]. intros m. rewrite Hnm'. destruct (Hnm m) as (H1 & H2 & H3).
  case_decide as Hin; [done |]. split_and!; [done | done |]. rewrite HL in Hin. rewrite H3.
  destruct (in_depends items m), (in_install_if items m); naive_solver.
Qed.

(** A package found under [n] depends on, or is triggered by, the name [m]. *)
Definition depends_on (db : catalog) (n m : bytes) : Prop :=
  exists p d, p ∈ provider_pkgs db n /\ d ∈ pkg_depends p /\ m = dep_name d.
Definition triggered_by (db : catalog) (n m : bytes) : Prop :=
  exists p d, p ∈ provider_pkgs db n /\ d ∈ pkg_install_if p /\ m = dep_name d.

Lemma in_depends_spec db n m : in_depends (pass_items (provider_pkgs db n)) m = true <-> depends_on db n m.
Proof.
  unfold in_depends, depends_on, pass_items. rewrite existsb_exists. split.
  - intros ([d|d] & Hd%list_elem_of_In & H); [| done]. bool_prop.
    apply list_elem_of_bind in Hd as (p & Hd & Hp). exists p, d. split_and!; [done | set_solver | done].
  - intros (p & d & Hp & Hd & ->). exists (inl d). split; [| by apply bool_decide_eq_true].
    apply list_elem_of_In, list_elem_of_bind. exists p. split; [set_solver | done].
Qed.

Lemma in_install_if_spec db n m : in_install_if (pass_items (provider_pkgs db n)) m = true <-> triggered_by db n m.
Proof.
  unfold in_install_if, triggered_by, pass_items. rewrite existsb_exists. split.
  - intros ([d|d] & Hd%list_elem_of_In & H); [done |]. bool_prop.
    apply list_elem_of_bind in Hd as (p & Hd & Hp). exists p, d. split_and!; [done | set_solver | done].
  - intros (p & d & Hp & Hd & ->). exists (inr d). split; [| by apply bool_decide_eq_true].
    apply list_elem_of_In, list_elem_of_bind. exists p. split; [set_solver | done].
Qed.

Lemma provider_pkgs_elem db n p :
  base_inv db -> p ∈ provider_pkgs db n <-> db_pkgs db !! pkg_addr p = Some p /\ n ∈ names_of p.
Proof.
  intros Hb. unfold provider_pkgs. rewrite list_elem_of_omap. split.
  - intros ([a v] & Hin & Hp). simpl in Hp. apply (bi_providers _ Hb) in Hin as (q & Hq & Hv). simplify_eq.
    destruct (bi_addr _ Hb _ _ Hq) as [-> _]. split; [done |]. unfold names_of.
    destruct Hv as [[-> _]|(d & Hd & -> & _)]; set_solver.
  - intros [Hp Hn]. unfold names_of in Hn. apply elem_of_cons in Hn as [->|(d & -> & Hd)%list_elem_of_fmap].
    + exists (pkg_addr p, pkg_version p). split; [| done]. apply (bi_providers _ Hb). exists p. split; [done | by left].
    + exists (pkg_addr p, dep_version d). split; [| done]. apply (bi_providers _ Hb). exists p. split; [done | right; eauto].
Qed.

Lemma provider_items_dom db n it :
  base_inv db -> it ∈ pass_items (provider_pkgs db n) -> item_name it ∈ dom (db_name db).
Proof.
  intros Hb (p & Hit & Hp)%list_elem_of_bind. apply (provider_pkgs_elem db n p Hb) in Hp as [Hp _].
  apply (bi_mentions _ Hb _ _ _ Hp). unfold mentions.
  apply elem_of_app in Hit as [(d & -> & Hd)%list_elem_of_fmap|(d & -> & Hd)%list_elem_of_fmap]; set_solver.
Qed.

Lemma foreach_zero {V S} (e : V -> S -> Z * S) l s :
  (forall v s, (e v s).1 = 0) -> foreach_items e l s = (0, each (fun v s => (e v s).2) l s).
Proof.
  intros He. revert s. induction l as [|v l IH]; intros s; simpl; [done |].
  specialize (He v s) as Hv. destruct (e v s) as [r s']. simpl in *. subst r. apply IH.
Qed.

(** Before the database is open the arrays are empty, afterwards they are exact. *)
Definition rdeps_empty (db : catalog) : Prop :=
  forall m, nm_rdepends (name_of db m) = [] /\ nm_rinstall_if (name_of db m) = [].

Record rdeps_exact (db : catalog) : Prop := {
  re_rdepends : forall n m, n ∈ nm_rdepends (name_of db m) <-> depends_on db n m;
  re_rinstall_if : forall n m, n ∈ nm_rinstall_if (name_of db m) <-> triggered_by db n m;
  re_rdepends_nodup : forall m, NoDup (nm_rdepends (name_of db m));
  re_rinstall_if_nodup : forall m, NoDup (nm_rinstall_if (name_of db m));
}.

Record catalog_inv (db : catalog) : Prop := {
  ci_base : base_inv db;
  ci_state : forall n, nm_state_int (name_of db n) = 0;
  ci_rdeps : if db_open_complete db then rdeps_exact db else rdeps_empty db;
}.

Lemma rdepends_pass_spec db :
  base_inv db -> (forall n, nm_state_int (name_of db n) = 0) -> rdeps_empty db ->
  let db' := (apk_hash_foreach (db_names db) apk_db_name_rdepends db).2 in
  quiet db db' /\ (forall n, nm_state_int (name_of db' n) = 0) /\ rdeps_exact db'.
Proof.
  intros Hb H0 He. unfold apk_hash_foreach. rewrite foreach_zero by done. cbv zeta. simpl.
  set (ns := concat (buckets (db_names db))).
  destruct (each_prefix_inv (fun done s => quiet db s /\ (forall n, nm_state_int (name_of s n) = 0) /\ forall m,
    nm_rdepends (name_of s m) = List.filter (fun n => in_depends (pass_items (provider_pkgs db n)) m) done
    /\ nm_rinstall_if (name_of s m) = List.filter (fun n => in_install_if (pass_items (provider_pkgs db n)) m) done)
    (fun n s => (apk_db_name_rdepends n s).2) ns db) as (Hq & Hst & Hrd).
  { split_and!; [done | done | apply He]. }
  { intros done n s Hn (Hq & Hst & Hrd). destruct (name_rdepends_spec n s Hst) as (Hq' & Hnm).
    { intros it Hit. apply (provider_items_dom _ n); [by eapply base_inv_quiet | done]. }
    rewrite (quiet_provider_pkgs _ _ n Hq) in Hnm. split_and!; [by transitivity s | apply Hnm |].
    intros m. destruct (Hnm m) as (-> & -> & _), (Hrd m) as [-> ->]. rewrite !List.filter_app. simpl.
    split; by case_if. }
  set (db' := each _ ns db) in *. split_and!; [done | done |].
  assert (base_inv db') as Hb' by (by eapply base_inv_quiet).
  assert (forall n p, p ∈ provider_pkgs db n -> n ∈ ns) as Hns.
  { intros n p [Hp Hn]%provider_pkgs_elem; [| done]. unfold ns. rewrite (bi_names _ Hb). apply (bi_mentions _ Hb _ _ _ Hp).
    revert Hn. unfold names_of, mentions. set_solver. }
  assert (forall n m, depends_on db' n m <-> depends_on db n m) as Hd
    by (intros; unfold depends_on; by rewrite (quiet_provider_pkgs _ _ n Hq)).
  assert (forall n m, triggered_by db' n m <-> triggered_by db n m) as Ht
    by (intros; unfold triggered_by; by rewrite (quiet_provider_pkgs _ _ n Hq)).
  split.
  - intros n m. rewrite Hd, <- in_depends_spec. destruct (Hrd m) as [-> _]. rewrite list_elem_of_In, filter_In, <- list_elem_of_In.
    split; [by intros [_ ?] |]. intros Hin. split; [| done]. apply in_depends_spec in Hin as (p & d & Hp & _). eauto.
  - intros n m. rewrite Ht, <- in_install_if_spec. destruct (Hrd m) as [_ ->]. rewrite list_elem_of_In, filter_In, <- list_elem_of_In.
    split; [by intros [_ ?] |]. intros Hin. split; [| done]. apply in_install_if_spec in Hin as (p & d & Hp & _). eauto.
  - intros m. destruct (Hrd m) as [-> _]. apply NoDup_ListNoDup, List.NoDup_filter, NoDup_ListNoDup, Hb.
  - intros m. destruct (Hrd m) as [_ ->]. apply NoDup_ListNoDup, List.NoDup_filter, NoDup_ListNoDup, Hb.
Qed.

(** ** Every operation keeps the invariant *)

Lemma depends_on_alt db n m :
  base_inv db -> depends_on db n m <->
    exists a p, db_pkgs db !! a = Some p /\ n ∈ names_of p /\ m ∈ dep_name <$> pkg_depends p.
Proof.
  intros Hb. unfold depends_on. split.
  - intros (p & d & [Hp Hn]%provider_pkgs_elem & Hd & ->); [| done]. exists (pkg_addr p), p. set_solver.
  - intros (a & p & Hp & Hn & (d & -> & Hd)%list_elem_of_fmap). exists p, d. split_and!; [| done | done].
    apply provider_pkgs_elem; [done |]. by destruct (bi_addr _ Hb _ _ Hp) as [-> _].
Qed.

Lemma triggered_by_alt db n m :
  base_inv db -> triggered_by db n m <->
    exists a p, db_pkgs db !! a = Some p /\ n ∈ names_of p /\ m ∈ dep_name <$> pkg_install_if p.
Proof.
  intros Hb. unfold triggered_by. split.
  - intros (p & d & [Hp Hn]%provider_pkgs_elem & Hd & ->); [| done]. exists (pkg_addr p), p. set_solver.
  - intros (a & p & Hp & Hn & (d & -> & Hd)%list_elem_of_fmap). exists p, d. split_and!; [| done | done].
    apply provider_pkgs_elem; [done |]. by destruct (bi_addr _ Hb _ _ Hp) as [-> _].
Qed.

Lemma catalog_inv_transfer db db' :
  catalog_inv db -> base_inv db' -> same_rdeps db db' -> db_open_complete db' = db_open_complete db ->
  (forall n m, depends_on db' n m <-> depends_on db n m) -> (forall n m, triggered_by db' n m <-> triggered_by db n m) ->
  catalog_inv db'.
Proof.
  intros [_ Hst Hrd] Hb' Hr Ho Hd Ht. split; [done | |].
  - intros n. by destruct (Hr n) as (_ & _ & ->).
  - rewrite Ho. destruct (db_open_complete db).
    + destruct Hrd. split; intros *; destruct (Hr m) as (H1 & H2 & _); rewrite ?H1, ?H2, ?Hd, ?Ht; auto.
    + intros m. destruct (Hr m) as (-> & -> & _). apply Hrd.
Qed.

Lemma catalog_inv_quiet db db' : quiet db db' -> same_rdeps db db' -> catalog_inv db -> catalog_inv db'.
Proof.
  intros Hq Hr Hi. apply (catalog_inv_transfer db); [done | eapply base_inv_quiet; [done | apply Hi] | done | apply Hq | |];
    intros; unfold depends_on, triggered_by; by rewrite (quiet_provider_pkgs _ _ _ Hq).
Qed.

Lemma get_name_inv n db : catalog_inv db -> catalog_inv (apk_db_get_name n db).
Proof.
  intros Hi. destruct (get_name_spec n db (ci_base _ Hi)) as [Hb [H1 H2 H3 H4 H5 H6 H7]].
  apply (catalog_inv_transfer db); [done | done | | done | |].
  - intros m. by rewrite H2.
  - intros m k. unfold depends_on, provider_pkgs. by rewrite H2, H4.
  - intros m k. unfold triggered_by, provider_pkgs. by rewrite H2, H4.
Qed.

Lemma put_pkg_catalog_inv p p' db :
  catalog_inv db -> db_pkgs db !! pkg_addr p = Some p -> same_identity p p' -> catalog_inv (put_pkg p' db).
Proof.
  intros Hi Hp Hs. assert (base_inv (put_pkg p' db)) as Hb' by (eapply put_pkg_inv; [apply Hi | done | done]).
  apply (catalog_inv_transfer db); try done; intros n m.
  - rewrite !depends_on_alt by (done || apply Hi). split; intros (a & q & Hq & Hn & Hm).
    + destruct (lookup_put db p p' a q) as (q0 & Hq0 & []); [done.. |]. exists a, q0. unfold names_of in *.
      rewrite si_name0, si_provides0, si_depends0 in *. done.
    + destruct (lookup_put_old db p p' a q) as (q0 & Hq0 & []); [done.. |]. exists a, q0. unfold names_of in *.
      rewrite si_name0, si_provides0, si_depends0. done.
  - rewrite !triggered_by_alt by (done || apply Hi). split; intros (a & q & Hq & Hn & Hm).
    + destruct (lookup_put db p p' a q) as (q0 & Hq0 & []); [done.. |]. exists a, q0. unfold names_of in *.
      rewrite si_name0, si_provides0, si_install_if0 in *. done.
    + destruct (lookup_put_old db p p' a q) as (q0 & Hq0 & []); [done.. |]. exists a, q0. unfold names_of in *.
      rewrite si_name0, si_provides0, si_install_if0. done.
Qed.

(** Entering a package and, once the database is open, its reverse dependencies. *)
Lemma insert_package_inv p db :
  catalog_inv db -> pkg_addr p = db_next db -> apk_hash_get (db_packages db) (apk_pkg_hash_blob p) = None ->
  (forall n, n ∈ mentions p -> n ∈ dom (db_name db)) ->
  catalog_inv (insert_package p db) /\ db_pkgs (insert_package p db) = <[pkg_addr p := p]> (db_pkgs db)
  /\ dom (db_name (insert_package p db)) = dom (db_name db).
Proof.
  intros [Hb Hst Hrd] Ha Hk Hm. destruct (enter_package_inv p db Hb Ha Hk Hm) as (Hb' & Hr & Hp & Hdom & Ho).
  change (insert_package p db) with
    (if db_open_complete (enter_package p db) then apk_db_pkg_rdepends p (enter_package p db) else enter_package p db).
  rewrite Ho. destruct (db_open_complete db) eqn:E.
  - pose proof (pkg_rdepends_grew p (enter_package p db)) as Hg. destruct Hg as [Hq Hgs Hg1 Hg2 Hg3 Hg4].
    { by rewrite Hdom. }
    assert (base_inv (apk_db_pkg_rdepends p (enter_package p db))) as Hb'' by (by eapply base_inv_quiet).
    destruct (q_tables _ _ Hq) as [_ Hd' _ Hp' _ _ Ho']. rewrite Hp', Hd'. split_and!; [| done | done].
    assert (db_pkgs db !! pkg_addr p = None) as Hnew.
    { apply eq_None_not_Some. intros [q Hq']. apply (bi_addr _ Hb) in Hq'. lia. }
    assert (forall P : apk_package -> Prop, (exists a q, db_pkgs (apk_db_pkg_rdepends p (enter_package p db)) !! a = Some q /\ P q)
      <-> (exists a q, db_pkgs db !! a = Some q /\ P q) \/ P p) as Hex.
    { intros P. rewrite Hp', Hp. split.
      - intros (a & q & Hq' & HP). apply lookup_insert_Some in Hq' as [[<- <-]|[_ ?]]; [by right | left; eauto].
      - intros [(a & q & Hq' & HP)|HP].
        + exists a, q. rewrite lookup_insert_ne by congruence. done.
        + exists (pkg_addr p), p. by rewrite lookup_insert_eq. }
    split; [done | |].
    + intros n. rewrite Hgs. destruct (Hr n) as (_ & _ & ->). apply Hst.
    + rewrite Ho', Ho. destruct Hrd. split; intros *.
      * rewrite Hg1, depends_on_alt by done. rewrite (Hex (fun q => n ∈ names_of q /\ _)).
        destruct (Hr m) as (-> & _ & _). rewrite re_rdepends0, depends_on_alt by done. done.
      * rewrite Hg2, triggered_by_alt by done. rewrite (Hex (fun q => n ∈ names_of q /\ _)).
        destruct (Hr m) as (_ & -> & _). rewrite re_rinstall_if0, triggered_by_alt by done. done.
      * apply Hg3. by destruct (Hr m) as (-> & _ & _).
      * apply Hg4. by destruct (Hr m) as (_ & -> & _).
  - split_and!; [| done | done]. split; [done | |].
    + intros n. destruct (Hr n) as (_ & _ & ->). apply Hst.
    + rewrite Ho. intros m. destruct (Hr m) as (-> & -> & _). apply Hrd.
Qed.

(** The names a template mentions; its fields hold pointers into the table. *)
Definition tmpl_mentions (t : pkg_tmpl) : list bytes :=
  let i := pt_info t in
  match t_name i with Some n => [n] | None => [] end ++ (dep_name <$> t_depends i ++ t_provides i ++ t_install_if i).

Lemma set_pkg_repos_identity r f z p : same_identity p (set_pkg_repos r f z p).
Proof. done. Qed.
Lemma set_pkg_ipkg_identity i p : same_identity p (set_pkg_ipkg i p).
Proof. done. Qed.
#[local] Hint Resolve set_pkg_repos_identity set_pkg_ipkg_identity : core.

Lemma mark_names_inv ns db :
  (forall n, n ∈ ns -> n ∈ dom (db_name db)) -> catalog_inv db ->
  catalog_inv (each mark_repository_name ns db) /\ quiet db (each mark_repository_name ns db).
Proof.
  intros Hn Hi. assert (quiet db (each mark_repository_name ns db)) as Hq.
  { apply quiet_each. intros n db' Hin Hd. apply quiet_upd; [| done]. rewrite Hd. by apply Hn. }
  split; [| done]. apply (catalog_inv_quiet db); [done | | done]. clear.
  revert db. induction ns as [|n ns IH]; intros db; simpl; [done |].
  transitivity (mark_repository_name n db); [by apply same_rdeps_upd | apply IH].
Qed.

(** Changes outside the tables. *)
Lemma base_inv_installed l db :
  (forall a, Some a ∈ l -> is_Some (db_pkgs db !! a)) -> base_inv db -> base_inv (set_db_installed l db).
Proof. intros Hl []. by split. Qed.

Lemma catalog_inv_installed l db :
  (forall a, Some a ∈ l -> is_Some (db_pkgs db !! a)) -> catalog_inv db -> catalog_inv (set_db_installed l db).
Proof.
  intros Hl Hi. apply (catalog_inv_transfer db); [done | | done..]. apply base_inv_installed; [done | apply Hi].
Qed.

(** What [apk_db_pkg_add] does with the tables: the package found or entered, before the
    installed state moves to it. *)
Definition add_package (t : pkg_tmpl) (name version : bytes) (db : catalog) : apk_package * Z * catalog :=
  match item ← apk_hash_get (db_packages db) (take APK_DIGEST_LENGTH_SHA1 (d_data (t_id (pt_info t))));
        db_pkgs db !! item_addr item with
  | None =>
      let p := pkg_from_tmpl (db_next db) t name version
        (t_uninstallable (pt_info t) || negb (apk_db_arch_compatible db (t_arch (pt_info t)))) in
      (p, 0, insert_package p db)
  | Some idb => let '(idb', db') := merge_package idb t db in (idb', u16 (pkg_repos idb), db')
  end.

(** The key of a package that is made from a template. *)
Lemma tmpl_key a t name version u :
  (APK_DIGEST_LENGTH_SHA1 <= d_len (t_id (pt_info t)))%nat ->
  apk_pkg_hash_blob (pkg_from_tmpl a t name version u) = take APK_DIGEST_LENGTH_SHA1 (d_data (t_id (pt_info t))).
Proof. intros Hl. unfold apk_pkg_hash_blob, pkg_from_tmpl, digest_blob. cbn [pkg_digest]. rewrite take_take. f_equal. lia. Qed.

Lemma add_package_spec t name version db :
  catalog_inv db -> t_name (pt_info t) = Some name -> (forall n, n ∈ tmpl_mentions t -> n ∈ dom (db_name db)) ->
  (APK_DIGEST_LENGTH_SHA1 <= d_len (t_id (pt_info t)))%nat ->
  let '(p, old_repos, db') := add_package t name version db in
  catalog_inv db' /\ db_pkgs db' !! pkg_addr p = Some p /\ dom (db_name db') = dom (db_name db)
  /\ apk_pkg_hash_blob p = take APK_DIGEST_LENGTH_SHA1 (d_data (t_id (pt_info t)))
  /\ (exists repos, pkg_repos p = Z.lor repos (pt_repos t))
  /\ (forall a, is_Some (db_pkgs db !! a) -> is_Some (db_pkgs db' !! a)).
Proof.
  intros Hi Hname Hm Hlen. unfold add_package.
  set (k := take APK_DIGEST_LENGTH_SHA1 (d_data (t_id (pt_info t)))).
  destruct (apk_hash_get (db_packages db) k) as [it|] eqn:Ek; simpl.
  - destruct (bi_item _ (ci_base _ Hi) _ _ Ek) as (p & Hp & Hk). rewrite Hp.
    destruct (bi_addr _ (ci_base _ Hi) _ _ Hp) as [Ha _]. rewrite <- Ha in Hp. unfold merge_package.
    set (p' := set_pkg_repos _ _ _ p).
    assert (catalog_inv (put_pkg p' db)) as Hi' by (eapply put_pkg_catalog_inv; [done | exact Hp | done]).
    assert (forall a, is_Some (db_pkgs db !! a) -> is_Some (db_pkgs (put_pkg p' db) !! a)) as Hkeep.
    { intros a [q Hq]. destruct (lookup_put_old db p p' a q) as (q' & ? & _); [done.. |]. by exists q'. }
    split_and!; [| | | done | by eexists |].
    + case_if; [| done]. by apply (catalog_inv_quiet (put_pkg p' db)).
    + case_if; simpl; by rewrite lookup_insert_eq.
    + by case_if.
    + by case_if.
  - set (p := pkg_from_tmpl _ _ _ _ _). assert (apk_pkg_hash_blob p = k) as Hk by (by apply tmpl_key).
    destruct (insert_package_inv p db) as (Hi' & Hp & Hd); [done | done | by rewrite Hk | |].
    { intros n Hn. apply Hm. revert Hn. unfold mentions, tmpl_mentions. rewrite Hname. simpl. done. }
    split_and!; [done | by rewrite Hp, lookup_insert_eq | done | done | by exists 0; rewrite Z.lor_0_l |].
    intros a Ha. rewrite Hp. destruct (decide (a = pkg_addr p)) as [->|]; [by rewrite lookup_insert_eq | by rewrite lookup_insert_ne].
Qed.

(** The whole operation: the package is found under its digest afterwards, knows the
    repositories of the template and, unless it was installed already, the installed
    state of the template. *)
Lemma pkg_add_spec t name version db :
  catalog_inv db -> t_name (pt_info t) = Some name -> t_version (pt_info t) = Some version ->
  (forall n, n ∈ tmpl_mentions t -> n ∈ dom (db_name db)) -> (APK_DIGEST_LENGTH_SHA1 <= d_len (t_id (pt_info t)))%nat ->
  exists p db', apk_db_pkg_add t db = (Some (pkg_addr p), pkg_tmpl_reset t, db')
    /\ catalog_inv db' /\ db_pkgs db' !! pkg_addr p = Some p /\ dom (db_name db') = dom (db_name db)
    /\ apk_pkg_hash_blob p = take APK_DIGEST_LENGTH_SHA1 (d_data (t_id (pt_info t)))
    /\ Z.land (pkg_repos p) (pt_repos t) = pt_repos t /\ (is_Some (pt_ipkg t) -> is_Some (pkg_ipkg p)).
Proof.
  intros Hi Hname Hver Hm Hlen. pose proof (add_package_spec t name version db Hi Hname Hm Hlen) as Ha.
  unfold apk_db_pkg_add. rewrite Hname, Hver. rewrite (proj2 (Nat.ltb_ge _ _)) by done. cbv zeta.
  fold (add_package t name version db). destruct (add_package t name version db) as [[p old] db1].
  destruct Ha as (Hi1 & Hp1 & Hd1 & Hk & (repos & Hr) & _).
  set (db2 := if negb (pkg_repos p =? 0) && (old =? 0) then _ else db1).
  assert (catalog_inv db2 /\ quiet db1 db2) as [Hi2 Hq2].
  { unfold db2. case_if; [| done].
    replace (each _ _ _) with (each mark_repository_name (name :: (dep_name <$> pkg_provides p)) db1)
      by (simpl; by rewrite each_fmap).
    apply mark_names_inv; [| done]. intros n [->|(d & -> & Hd)%list_elem_of_fmap]%elem_of_cons.
    - rewrite Hd1. apply Hm. unfold tmpl_mentions. rewrite Hname. set_solver.
    - apply (bi_mentions _ (ci_base _ Hi1) _ _ _ Hp1). unfold mentions. set_solver. }
  destruct (q_tables _ _ Hq2) as [_ Hd2 _ Hp2 _ Hin2 _].
  assert (Z.land (pkg_repos p) (pt_repos t) = pt_repos t) as Hland.
  { rewrite Hr. apply Z.bits_inj'. intros i _. rewrite Z.land_spec, Z.lor_spec. by destruct (Z.testbit repos i), (Z.testbit (pt_repos t) i). }
  clearbody db2. destruct (pkg_ipkg p) as [ip|] eqn:Eip; [| destruct (pt_ipkg t) as [ip|] eqn:Et].
  - exists p, db2. rewrite Hp2, Hd2, Eip. split_and!; try done.
  - exists (set_pkg_ipkg (Some ip) p), (set_db_installed ((fun r => match r with None => Some (pkg_addr p) | Some a => Some a end) <$> db_installed db2)
      (put_pkg (set_pkg_ipkg (Some ip) p) db2)).
    assert (catalog_inv (put_pkg (set_pkg_ipkg (Some ip) p) db2)) as Hi3.
    { apply (put_pkg_catalog_inv p); [done | by rewrite Hp2 | done]. }
    split_and!; try done.
    + apply catalog_inv_installed; [| done]. intros a (r & Hr' & Hin)%list_elem_of_fmap.
      destruct r as [a'|]; simplify_eq.
      * by apply (bi_installed _ (ci_base _ Hi3)).
      * simpl. by rewrite lookup_insert_eq.
    + simpl. by rewrite lookup_insert_eq.
    + simpl. congruence.
  - exists p, db2. rewrite Hp2, Hd2. split_and!; try done.
Qed.
