(* ===== verification/CatalogSolver.v ===== *)
(** * The solver on the databases the program can build

    [reach] is the step relation of the database: every state the operations of
    Catalog.v lead to from the empty database.  Its states satisfy [catalog_inv]
    (CatalogFacts.v), which discharges the hypotheses of the solver's theorems. *)

From S2P Require Import Prelude Blob BlobCodec Version Digest Hash Dep Package PackageRules Solver SolverFacts SolverTermination SolverLoop Catalog CatalogFacts.

(** ** The step relation *)

(** [apk_db_init]; the program uses 20000 and 10000 buckets. *)
Definition catalog_new (name_buckets pkg_buckets : Z) : catalog :=
  mk_catalog (apk_hash_init name_buckets) ∅ (apk_hash_init pkg_buckets) ∅ 0 [] (lit "noarch") false false None [] None 0 0.
Definition apk_db_init : catalog := catalog_new 20000 10000.

Inductive catalog_step (db : catalog) : catalog -> Prop :=
| step_get_name n : catalog_step db (apk_db_get_name n db)
| step_pkg_add t r t' db' :
    (forall n, n ∈ tmpl_mentions t -> n ∈ dom (db_name db)) -> apk_db_pkg_add t db = (r, t', db') -> catalog_step db db'
| step_install p : db_pkgs db !! pkg_addr p = Some p -> catalog_step db (apk_pkg_install p db)
| step_uninstall p : db_pkgs db !! pkg_addr p = Some p -> catalog_step db (apk_pkg_uninstall p db)
| step_tmpl_install t : catalog_step db (tmpl_install t db).2
| step_add_arch arch : catalog_step db (apk_db_add_arch db arch)
| step_sorted_names : catalog_step db (apk_db_sorted_names db).2
| step_sorted_installed : catalog_step db (apk_db_sorted_installed_packages db).2
| step_sorted_providers n : n ∈ dom (db_name db) -> catalog_step db (apk_name_sorted_providers n db).2
| step_open : db_open_complete db = false -> catalog_step db (open_complete db).

Inductive reach : catalog -> Prop :=
| reach_init : reach apk_db_init
| reach_step db db' : reach db -> catalog_step db db' -> reach db'.

(** ** The invariant holds in every reachable state *)

Lemma new_inv name_buckets pkg_buckets :
  0 < name_buckets -> 0 < pkg_buckets -> catalog_inv (catalog_new name_buckets pkg_buckets).
Proof.
  intros Hn Hp. set (db := catalog_new _ _).
  assert (hash_wf (db_names db)) as H1 by (by apply apk_hash_init_wf).
  assert (hash_wf (db_packages db)) as H2 by (by apply apk_hash_init_wf).
  assert (concat (buckets (db_names db)) = []) as Hc by (simpl; by induction (Z.to_nat name_buckets)).
  split; [| done | done]. split; try done.
  - intros n. rewrite Hc. simpl. rewrite dom_empty_L. set_solver.
  - rewrite Hc. constructor.
  - intros k it. rewrite apk_hash_get_items by done. unfold db, catalog_new, db_packages. by rewrite apk_hash_init_items.
  - intros n a v. unfold name_of. simpl. rewrite lookup_empty. simpl. split; [by intros ?%elem_of_nil |].
    intros (p & Hq & _). by rewrite lookup_empty in Hq.
  - by intros a ?%elem_of_nil.
Qed.

Section QSort.
Context {A : Type} (cmp : A -> A -> Z).

Lemma sort_insert_Permutation x l : sort_insert cmp x l ≡ₚ x :: l.
Proof.
  induction l as [|y l IH]; simpl; [done |]. case_if; [done |]. rewrite IH. apply Permutation_swap.
Qed.

Lemma qsort_Permutation l : qsort cmp l ≡ₚ l.
Proof. induction l as [|x l IH]; simpl; [done |]. by rewrite sort_insert_Permutation, IH. Qed.
End QSort.

Lemma install_inv p db : catalog_inv db -> db_pkgs db !! pkg_addr p = Some p -> catalog_inv (apk_pkg_install p db).
Proof.
  intros Hi Hp. unfold apk_pkg_install. destruct (pkg_ipkg p); [done |].
  set (db1 := put_pkg _ db). assert (catalog_inv db1) as Hi1 by (by apply (put_pkg_catalog_inv p)).
  apply catalog_inv_installed; [| by apply (catalog_inv_quiet db1)].
  intros a [Ha|Ha]%elem_of_app.
  - by apply (bi_installed _ (ci_base _ Hi1)).
  - apply list_elem_of_singleton in Ha. simplify_eq. simpl. by rewrite lookup_insert_eq.
Qed.

Lemma uninstall_inv p db : catalog_inv db -> db_pkgs db !! pkg_addr p = Some p -> catalog_inv (apk_pkg_uninstall p db).
Proof.
  intros Hi Hp. unfold apk_pkg_uninstall. destruct (pkg_ipkg p) as [ip|]; [| done].
  apply (put_pkg_catalog_inv p); [| done | done]. apply (catalog_inv_quiet (set_db_installed
    (filter (fun r => r <> Some (pkg_addr p)) (db_installed db)) db)); [done | done |].
  apply catalog_inv_installed; [| done]. intros a [_ Ha]%list_elem_of_filter. by apply (bi_installed _ (ci_base _ Hi)).
Qed.

Lemma tmpl_install_inv t db : catalog_inv db -> catalog_inv (tmpl_install t db).2.
Proof.
  intros Hi. unfold tmpl_install. destruct (pt_ipkg t); [done |]. destruct (t_name (pt_info t)); [| done]. simpl.
  apply catalog_inv_installed; [| by apply (catalog_inv_quiet db)].
  intros a [Ha|Ha%list_elem_of_singleton]%elem_of_app; [by apply (bi_installed _ (ci_base _ Hi)) | done].
Qed.

Lemma sorted_providers_inv n db :
  n ∈ dom (db_name db) -> catalog_inv db -> catalog_inv (apk_name_sorted_providers n db).2.
Proof.
  intros Hn Hi. unfold apk_name_sorted_providers. case_if; [done |]. simpl. set (l := qsort _ _). set (db' := upd_name _ _ _).
  assert (forall m, nm_providers (name_of db' m) ≡ₚ nm_providers (name_of db m)) as Hp.
  { intros m. unfold db'. rewrite name_of_upd. case_decide; [subst; apply qsort_Permutation | done]. }
  assert (same_tables db db') as Hs by (by apply same_tables_upd).
  assert (base_inv db') as Hb.
  { destruct Hs as [S1 S2 S3 S4 S5 S6 S7], (ci_base _ Hi). split; rewrite ?S1, ?S2, ?S3, ?S4, ?S5, ?S6; try done.
    intros m a v. rewrite Hp. apply bi_providers. }
  apply (catalog_inv_transfer db); [done | done | by apply same_rdeps_upd | done | |].
  - intros m k. by rewrite !depends_on_alt by (done || apply Hi).
  - intros m k. by rewrite !triggered_by_alt by (done || apply Hi).
Qed.

Lemma open_complete_inv db : db_open_complete db = false -> catalog_inv db -> catalog_inv (open_complete db).
Proof.
  intros Ho [Hb Hst Hrd]. rewrite Ho in Hrd. destruct (rdepends_pass_spec db Hb Hst Hrd) as (Hq & Hst' & [E1 E2 E3 E4]).
  unfold open_complete. set (db' := (apk_hash_foreach _ _ _).2) in *.
  assert (base_inv db') as Hb' by (by eapply base_inv_quiet). split; [by destruct Hb'; split | done |]. by split.
Qed.

Lemma reach_inv db : reach db -> catalog_inv db.
Proof.
  induction 1 as [|db db' _ IH Hstep]; [by apply new_inv |]. destruct Hstep.
  - by apply get_name_inv.
  - destruct (t_name (pt_info t)) as [name|] eqn:En; [destruct (t_version (pt_info t)) as [version|] eqn:Ev |].
    + destruct (decide (d_len (t_id (pt_info t)) < APK_DIGEST_LENGTH_SHA1)%nat) as [Hl|Hl].
      * revert H0. unfold apk_db_pkg_add. rewrite En, Ev. apply Nat.ltb_lt in Hl. rewrite Hl. by intros [= _ _ <-].
      * destruct (pkg_add_spec t name version db) as (p & db2 & Heq & Hi & _); [done | done | done | done | lia |]. congruence.
    + revert H0. unfold apk_db_pkg_add. rewrite En, Ev. by intros [= _ _ <-].
    + revert H0. unfold apk_db_pkg_add. rewrite En. by intros [= _ _ <-].
  - by apply install_inv.
  - by apply uninstall_inv.
  - by apply tmpl_install_inv.
  - unfold apk_db_add_arch. destruct arch; [done |]. case_if; [done | by apply (catalog_inv_quiet db)].
  - unfold apk_db_sorted_names. destruct (db_sorted db); [done |]. destruct (apk_hash_foreach _ _ _).
    by apply (catalog_inv_quiet db).
  - unfold apk_db_sorted_installed_packages. destruct (db_sorted_installed db); [done |]. by apply (catalog_inv_quiet db).
  - by apply sorted_providers_inv.
  - by apply open_complete_inv.
Qed.

(** ** What the solver relies on *)

Section View.
Context (db : catalog) (rs : repositories) (cached : apk_package -> bool) (pre force : bool).
Hypothesis inv : catalog_inv db.
Let sdb : solver_db := solver_view db rs cached pre force.

(** The finite sets of names and packages. *)
Definition catalog_names : list bytes := elements (dom (db_name db)).
Definition catalog_pkgs : list apk_package := snd <$> map_to_list (db_pkgs db).
Definition catalog_weight : Z := foldr Z.max 0 (pkg_weight <$> catalog_pkgs).

Lemma catalog_pkgs_elem p : p ∈ catalog_pkgs <-> db_pkgs db !! pkg_addr p = Some p.
Proof.
  unfold catalog_pkgs. rewrite list_elem_of_fmap. split.
  - intros ([a q] & -> & Hq%elem_of_map_to_list). simpl. by destruct (bi_addr _ (ci_base _ inv) _ _ Hq) as [-> _].
  - intros Hp. exists (pkg_addr p, p). split; [done | by apply elem_of_map_to_list].
Qed.

Lemma view_providers n p v :
  (p, v) ∈ providers sdb n <-> db_pkgs db !! pkg_addr p = Some p /\ provides_name p n v.
Proof.
  unfold providers. simpl. rewrite list_elem_of_omap. split.
  - intros ([a v'] & Hin & Hp). simpl in Hp. apply fmap_Some in Hp as (q & Hq & ?). simplify_eq.
    destruct (bi_addr _ (ci_base _ inv) _ _ Hq) as [Ha _].
    apply (bi_providers _ (ci_base _ inv)) in Hin as (q' & Hq' & Hv). by simplify_eq.
  - intros [Hp Hv]. exists (pkg_addr p, v). simpl. rewrite Hp. split; [| done].
    apply (bi_providers _ (ci_base _ inv)). by exists p.
Qed.

Lemma view_known p : known sdb p <-> p ∈ catalog_pkgs.
Proof.
  rewrite catalog_pkgs_elem. unfold known. split.
  - by intros (n & v & [Hp _]%view_providers).
  - intros Hp. exists (pkg_name p), (pkg_version p). apply view_providers. split; [done | by left].
Qed.

Lemma view_consistent : providers_consistent sdb.
Proof.
  split_and!.
  - intros n p v [_ [[-> _]|(d & Hd & -> & _)]]%view_providers; [by left | right; eauto].
  - intros p Hp%view_known%catalog_pkgs_elem. apply view_providers. split; [done | by left].
  - intros p d Hp%view_known%catalog_pkgs_elem Hd. apply view_providers. split; [done | right; eauto].
Qed.

Lemma catalog_names_elem n : n ∈ catalog_names <-> n ∈ dom (db_name db).
Proof. apply elem_of_elements. Qed.

Lemma pkgs_mention p n : p ∈ catalog_pkgs -> n ∈ mentions p -> n ∈ catalog_names.
Proof. intros Hp%catalog_pkgs_elem Hn. apply catalog_names_elem. by eapply (bi_mentions _ (ci_base _ inv)). Qed.

Lemma rdepends_names m n :
  n ∈ nm_rdepends (name_of db m) \/ n ∈ nm_rinstall_if (name_of db m) -> n ∈ catalog_names.
Proof.
  pose proof (ci_rdeps _ inv) as Hrd. destruct (db_open_complete db).
  - intros H. assert (exists p, p ∈ provider_pkgs db n) as [p Hp].
    { destruct H as [H|H]; [apply (re_rdepends _ Hrd) in H as (p & ? & Hp & _)
        | apply (re_rinstall_if _ Hrd) in H as (p & ? & Hp & _)]; eauto. }
    apply provider_pkgs_elem in Hp as [Hp Hn]; [| apply inv]. apply (pkgs_mention p); [by apply catalog_pkgs_elem |].
    revert Hn. unfold names_of, mentions. set_solver.
  - destruct (Hrd m) as [-> ->]. by intros [?%elem_of_nil|?%elem_of_nil].
Qed.

Lemma view_closed : closed_db sdb catalog_names catalog_pkgs.
Proof.
  assert (forall p d, p ∈ catalog_pkgs -> d ∈ pkg_depends p ++ pkg_provides p ++ pkg_install_if p ->
    dep_name d ∈ catalog_names) as Hd.
  { intros p d Hp Hd. apply (pkgs_mention p); [done |]. unfold mentions. set_solver. }
  split.
  - intros p. apply view_known.
  - intros p (r & Hr & Hp)%list_elem_of_omap. destruct r as [a|]; [| done]. simpl in Hp.
    apply catalog_pkgs_elem. by destruct (bi_addr _ (ci_base _ inv) _ _ Hp) as [-> _].
  - intros p Hp. apply (pkgs_mention p); [done | by left].
  - intros p d Hp Hin. apply (Hd p); set_solver.
  - intros p d Hp Hin. apply (Hd p); set_solver.
  - intros p d Hp Hin. apply (Hd p); set_solver.
  - intros n m Hm. apply (rdepends_names n). by left.
  - intros n m Hm. apply (rdepends_names n). by right.
Qed.

Lemma catalog_weight_max p : p ∈ catalog_pkgs -> pkg_weight p <= catalog_weight.
Proof.
  unfold catalog_weight. induction catalog_pkgs as [|q l IH]; [by intros ?%elem_of_nil |].
  intros [->|Hp]%elem_of_cons; cbn [fmap list_fmap foldr]; [lia |]. specialize (IH Hp). lia.
Qed.

Lemma catalog_weight_nonneg : 0 <= catalog_weight.
Proof. unfold catalog_weight. induction catalog_pkgs as [|q l IH]; cbn [fmap list_fmap foldr]; lia. Qed.
End View.

(** ** Properties *)

(** C9: in every state of an open database the reverse dependency arrays are exact:
    [n] is in the [rdepends] array of [m], and then once, exactly when some package that
    has the name [n], as its own or as one it provides, depends on [m]; likewise for
    [rinstall_if] and the install-if conditions.  This covers the arrays built by the pass
    of [apk_db_open] as well as those extended by packages added later, and names with
    more dependencies than the pass remembers in its table of 128. *)
Theorem reverse_dependencies_exact db m :
  reach db -> db_open_complete db = true ->
  NoDup (nm_rdepends (name_of db m)) /\ NoDup (nm_rinstall_if (name_of db m)) /\
  forall n,
    (n ∈ nm_rdepends (name_of db m) <->
       exists a p, db_pkgs db !! a = Some p /\ n ∈ names_of p /\ m ∈ dep_name <$> pkg_depends p) /\
    (n ∈ nm_rinstall_if (name_of db m) <->
       exists a p, db_pkgs db !! a = Some p /\ n ∈ names_of p /\ m ∈ dep_name <$> pkg_install_if p).
Proof.
  intros [Hb _ Hrd]%reach_inv Ho. rewrite Ho in Hrd. destruct Hrd. split_and!; [done | done |].
  intros n. by rewrite re_rdepends, re_rinstall_if, depends_on_alt, triggered_by_alt.
Qed.

(** C8: on every database the program can reach, and for every world over its
    names, the solver terminates: with enough fuel discovery, the main loop and the
    generation of the change set reach their end, unless some round of the main loop finds
    a requirers counter so near its 16-bit limit that the heaviest package could wrap it. *)
Theorem database_solver_terminates db rs cached pre force garbage flags_set solver_flags marks cs world :
  reach db -> marks_fresh marks -> (forall d, d ∈ world -> dep_name d ∈ dom (db_name db)) ->
  Z.of_nat (length world) < 2 ^ 16 ->
  let sdb := solver_view db rs cached pre force in
  exists fuel,
    is_Some (solver_attempt garbage sdb flags_set fuel solver_flags marks cs world)
    \/ exists st, solver_start garbage sdb flags_set fuel solver_flags marks cs world = Some st
        /\ existsb (fun s => negb (room_check (catalog_weight db) s)) (solver_trace garbage sdb fuel st) = true.
Proof.
  intros Hi%reach_inv Hm Hw Hlen sdb.
  apply (solver_reaches_end garbage sdb flags_set (catalog_names db) (catalog_pkgs db)); try done.
  - by apply view_closed.
  - by apply view_consistent.
  - intros p Hp%view_known; [by apply catalog_weight_max | done].
  - apply catalog_weight_nonneg.
  - intros d Hd. apply catalog_names_elem. by apply Hw.
Qed.

(** Adding a package keeps it: it is found under its digest at the address that
    is returned, offers at least the repositories of the template, is installed when the
    template was, and is a provider of its names; adding the same digest again returns the
    same package. *)
Theorem pkg_add_found db t name version :
  reach db -> t_name (pt_info t) = Some name -> t_version (pt_info t) = Some version ->
  (forall n, n ∈ tmpl_mentions t -> n ∈ dom (db_name db)) -> (APK_DIGEST_LENGTH_SHA1 <= d_len (t_id (pt_info t)))%nat ->
  exists p db', apk_db_pkg_add t db = (Some (pkg_addr p), pkg_tmpl_reset t, db')
    /\ apk_db_get_pkg db' (t_id (pt_info t)) = Some (pkg_addr p)
    /\ db_pkgs db' !! pkg_addr p = Some p
    /\ (forall n v, provides_name p n v -> (pkg_addr p, v) ∈ nm_providers (name_of db' n))
    /\ Z.land (pkg_repos p) (pt_repos t) = pt_repos t
    /\ (is_Some (pt_ipkg t) -> is_Some (pkg_ipkg p))
    /\ (forall t2, t_id (pt_info t2) = t_id (pt_info t) -> is_Some (t_name (pt_info t2)) -> is_Some (t_version (pt_info t2)) ->
          (forall n, n ∈ tmpl_mentions t2 -> n ∈ dom (db_name db')) ->
          (apk_db_pkg_add t2 db').1.1 = Some (pkg_addr p)).
Proof.
  intros Hi%reach_inv Hn Hv Hm Hl. destruct (pkg_add_spec t name version db Hi Hn Hv Hm Hl) as (p & db' & Heq & Hi' & Hp & Hd & Hk & Hr & Hip).
  assert (apk_db_get_pkg db' (t_id (pt_info t)) = Some (pkg_addr p)) as Hget.
  { unfold apk_db_get_pkg. rewrite (proj2 (Nat.ltb_ge _ _)) by done. rewrite <- Hk.
    by rewrite (bi_found _ (ci_base _ Hi') _ _ Hp). }
  exists p, db'. split_and!; try done.
  - intros n v Hpv. apply (bi_providers _ (ci_base _ Hi')). by exists p.
  - intros t2 Hid [n2 Hn2] [v2 Hv2] Hm2.
    destruct (pkg_add_spec t2 n2 v2 db' Hi' Hn2 Hv2 Hm2) as (p2 & db2 & Heq2 & Hi2 & Hp2 & _ & Hk2 & _); [by rewrite Hid |].
    rewrite Heq2. simpl. f_equal. unfold apk_db_pkg_add in Heq2. rewrite Hn2, Hv2, Hid in Heq2.
    rewrite (proj2 (Nat.ltb_ge _ _)) in Heq2 by done. cbv zeta in Heq2. rewrite <- Hk in Heq2 at 1.
    rewrite (bi_found _ (ci_base _ Hi') _ _ Hp) in Heq2. simpl in Heq2. rewrite Hp in Heq2.
    destruct (merge_package p t2 db') as [p3 db3] eqn:Em. unfold merge_package in Em. simplify_eq Em. intros _ <-. by simplify_eq Heq2.
Qed.

(** ** An example database *)

Definition ex_tmpl (name version : bytes) (byte repos : Z) (depends provides : list apk_dependency) : pkg_tmpl :=
  mk_ptmpl (mk_tmpl (Some name) (Some version) [] [] [] [] [] [] [] depends provides [] 100 200 0 0 false
    (mk_digest APK_DIGEST_SHA1 20 (replicate APK_DIGEST_LENGTH_MAX byte)) false false false [])
    [] [] repos 0 false 0 None.

Definition ex_add (t : pkg_tmpl) (db : catalog) : catalog := (apk_db_pkg_add t (each apk_db_get_name (tmpl_mentions t) db)).2.

Definition ex_libz : apk_dependency := mk_dep (lit "so:libz") (lit "1") 1 false 0 0.
Definition ex_tzlib : pkg_tmpl := ex_tmpl (lit "zlib") (lit "1.3") 7 1 [] [ex_libz].
Definition ex_tcurl : pkg_tmpl := ex_tmpl (lit "curl") (lit "8.0") 9 1 [mk_dep (lit "so:libz") [] 7 false 0 0] [].
Definition ex_before : catalog := open_complete (ex_add ex_tzlib apk_db_init).
Definition ex_catalog : catalog := ex_add ex_tcurl ex_before.

Lemma reach_names ns db : reach db -> reach (each apk_db_get_name ns db).
Proof.
  revert db. induction ns as [|n ns IH]; intros db Hr; simpl; [done |]. apply IH. eapply reach_step; [done |]. constructor.
Qed.

Lemma names_added ns db n :
  base_inv db -> n ∈ ns \/ n ∈ dom (db_name db) -> n ∈ dom (db_name (each apk_db_get_name ns db)).
Proof.
  revert db. induction ns as [|m ns IH]; intros db Hb; simpl; [by intros [?%elem_of_nil|] |].
  intros H. destruct (get_name_spec m db Hb) as [Hb' [Hd _ _ _ _ _ _]]. apply IH; [done |]. rewrite Hd. set_solver.
Qed.

Lemma reach_add t db : reach db -> reach (ex_add t db).
Proof.
  intros Hr. unfold ex_add. destruct (apk_db_pkg_add _ _) as [[r t'] db'] eqn:E.
  eapply reach_step; [by apply (reach_names (tmpl_mentions t)) |]. eapply step_pkg_add; [| exact E].
  intros n Hn. apply names_added; [by apply reach_inv | by left].
Qed.

Lemma ex_before_reach : reach ex_before.
Proof.
  eapply reach_step; [apply (reach_add ex_tzlib), reach_init |]. apply step_open. vm_compute. done.
Qed.

Lemma reverse_dependencies_exact_witness :
  lit "curl" ∈ nm_rdepends (name_of ex_catalog (lit "so:libz")) <->
  exists a p, db_pkgs ex_catalog !! a = Some p /\ lit "curl" ∈ names_of p /\ lit "so:libz" ∈ dep_name <$> pkg_depends p.
Proof.
  refine (proj1 (proj2 (proj2 (reverse_dependencies_exact ex_catalog (lit "so:libz") _ _)) (lit "curl"))).
  - apply reach_add, ex_before_reach.
  - vm_compute. done.
Defined.

Definition ex_digest : apk_digest := mk_digest APK_DIGEST_NONE 0 (replicate APK_DIGEST_LENGTH_MAX 0).

Lemma database_solver_terminates_witness :
  exists fuel,
    let sdb := solver_view ex_catalog (mk_repos [1] 1 0 0 0 0) (fun _ => false) false false in
    let world := [mk_dep (lit "curl") [] 7 false 0 0] in
    is_Some (solver_attempt ex_digest sdb ∅ fuel 0 ∅ changeset0 world)
    \/ exists st, solver_start ex_digest sdb ∅ fuel 0 ∅ changeset0 world = Some st
        /\ existsb (fun s => negb (room_check (catalog_weight ex_catalog) s)) (solver_trace ex_digest sdb fuel st) = true.
Proof.
  refine (database_solver_terminates ex_catalog (mk_repos [1] 1 0 0 0 0) (fun _ => false) false false ex_digest ∅ 0 ∅
    changeset0 [mk_dep (lit "curl") [] 7 false 0 0] _ _ _ _).
  - apply reach_add, ex_before_reach.
  - by intros a s ?%lookup_empty_Some.
  - intros d ->%list_elem_of_singleton. refine (bool_decide_unpack (lit "curl" ∈ dom (db_name ex_catalog)) _). vm_compute. done.
  - done.
Defined.

Lemma pkg_add_found_witness :
  exists p db', apk_db_pkg_add ex_tcurl (each apk_db_get_name (tmpl_mentions ex_tcurl) ex_before) = (Some (pkg_addr p), pkg_tmpl_reset ex_tcurl, db')
    /\ apk_db_get_pkg db' (t_id (pt_info ex_tcurl)) = Some (pkg_addr p).
Proof.
  destruct (pkg_add_found (each apk_db_get_name (tmpl_mentions ex_tcurl) ex_before) ex_tcurl (lit "curl") (lit "8.0"))
    as (p & db' & H1 & H2 & _).
  - apply reach_names, ex_before_reach.
  - reflexivity.
  - reflexivity.
  - intros n Hn. apply names_added; [apply reach_inv, ex_before_reach | by left].
  - apply Nat.leb_le. vm_compute. done.
  - exact (ex_intro _ p (ex_intro _ db' (conj H1 H2))).
Defined.
