(* ===== verification/Dirs.v ===== *)
(** * Directories of the installed database (database.c)

    [struct apk_db_dir] objects live in the map [dd_dirs] under their addresses; the hash
    table [dd_table] finds them by name.  A directory is alive while its reference counter
    is not zero: every directory instance of a package holds one reference and every live
    subdirectory one.  File system operations are recorded in the log [dd_log]; their
    results are a parameter of the operations that look at them. *)

From S2P Require Import Prelude Blob Hash.

(** ** Access control lists *)

Record apk_db_acl := mk_acl { acl_mode : Z; acl_uid : Z; acl_gid : Z; acl_xattr_hash : bytes }.

#[global] Instance apk_db_acl_eq_dec : EqDecision apk_db_acl.
Proof. solve_decision. Defined.

(** The atom of an acl, with [mode & 07777]: equal acls are the same object (see [atoms_interned]), so that they
    are compared by value; [hash] is at most 255 bytes long. *)
Definition apk_db_acl_atomize_digest (mode uid gid : Z) (hash : bytes) : apk_db_acl :=
  mk_acl (Z.land mode 4095) (u32 uid) (u32 gid) hash.
Definition apk_db_acl_atomize (mode uid gid : Z) : apk_db_acl := apk_db_acl_atomize_digest mode uid gid [].

(** Modes 0755 and 0644. *)
Definition apk_default_acl_dir : apk_db_acl := apk_db_acl_atomize 493 0 0.
Definition apk_default_acl_file : apk_db_acl := apk_db_acl_atomize 420 0 0.

(** ** State *)

Definition APK_PROTECT_NONE : Z := 0.
Definition APK_PROTECT_IGNORE : Z := 1.
Definition APK_PROTECT_CHANGED : Z := 2.
Definition APK_PROTECT_SYMLINKS_ONLY : Z := 3.
Definition APK_PROTECT_ALL : Z := 4.

Definition apk_protect_mode_none (mode : Z) : bool := (mode =? APK_PROTECT_NONE) || (mode =? APK_PROTECT_IGNORE).

Record apk_protected_path := mk_ppath { relative_pattern : bytes; pp_protect_mode : Z }.

Record apk_db_dir := mk_dir {
  dir_name : bytes;
  dir_hash : Z;
  dir_parent : option nat;
  dir_owner : option nat;            (* a directory instance *)
  dir_diris : list nat;
  dir_protected_paths : list apk_protected_path;
  dir_refs : Z;                      (* unsigned short *)
  dir_namelen : Z;                   (* unsigned short *)
  dir_protect_mode : Z;
  dir_has_protected_children : bool;
  dir_created : bool;
  dir_modified : bool;
  dir_permissions_ok : bool;
}.

Definition eta_dir (s : apk_db_dir) : apk_db_dir :=
  mk_dir (dir_name s) (dir_hash s) (dir_parent s) (dir_owner s) (dir_diris s) (dir_protected_paths s) (dir_refs s)
    (dir_namelen s) (dir_protect_mode s) (dir_has_protected_children s) (dir_created s) (dir_modified s)
    (dir_permissions_ok s).

Definition set_dir_parent v (s : apk_db_dir) : apk_db_dir := ltac:(record_set eta_dir dir_parent s v).
Definition set_dir_owner v (s : apk_db_dir) : apk_db_dir := ltac:(record_set eta_dir dir_owner s v).
Definition set_dir_diris v (s : apk_db_dir) : apk_db_dir := ltac:(record_set eta_dir dir_diris s v).
Definition set_dir_protected_paths v (s : apk_db_dir) : apk_db_dir := ltac:(record_set eta_dir dir_protected_paths s v).
Definition set_dir_refs v (s : apk_db_dir) : apk_db_dir := ltac:(record_set eta_dir dir_refs s v).
Definition set_dir_protect_mode v (s : apk_db_dir) : apk_db_dir := ltac:(record_set eta_dir dir_protect_mode s v).
Definition set_dir_has_protected_children v (s : apk_db_dir) : apk_db_dir :=
  ltac:(record_set eta_dir dir_has_protected_children s v).
Definition set_dir_created v (s : apk_db_dir) : apk_db_dir := ltac:(record_set eta_dir dir_created s v).
Definition set_dir_modified v (s : apk_db_dir) : apk_db_dir := ltac:(record_set eta_dir dir_modified s v).
Definition set_dir_permissions_ok v (s : apk_db_dir) : apk_db_dir := ltac:(record_set eta_dir dir_permissions_ok s v).

(** An entry of the table: the address and the key [(name, namelen)]. *)
Record dir_item := mk_dir_item { di_addr : nat; di_key : bytes }.

#[global] Instance dir_hash_ops : HashOps dir_item := {|
  get_key := di_key;
  hash_key := apk_blob_hash;
  hash_item := None;
  compare := Some apk_blob_compare;
  compare_item := None;
  delete_item := false;
|}.

#[global] Instance dir_hash_laws : HashOpsLaws dir_item.
Proof.
  split.
  - intros k. apply apk_blob_hash_range.
  - done.
  - intros v k. unfold item_matches. simpl. rewrite Z.eqb_eq, apk_blob_compare_eq0. naive_solver.
Qed.

(** File system calls on directories. *)
Inductive fs_call :=
| Fs_create (dir : bytes) (mode uid gid : Z)
| Fs_check (dir : bytes) (mode uid gid : Z)
| Fs_delete (dir : bytes)
| Fs_update_perms (dir : bytes) (mode uid gid : Z).

Record dir_db := mk_dirdb {
  dd_table : apk_hash dir_item;
  dd_dirs : gmap nat apk_db_dir;
  dd_next : nat;
  dd_stat_dirs : Z;                  (* unsigned *)
  dd_protected_paths : list apk_protected_path;
  dd_log : list fs_call;
  dd_num_dir_update_errors : Z;
}.

Definition eta_dirdb (s : dir_db) : dir_db :=
  mk_dirdb (dd_table s) (dd_dirs s) (dd_next s) (dd_stat_dirs s) (dd_protected_paths s) (dd_log s)
    (dd_num_dir_update_errors s).
Definition set_dd_table v (s : dir_db) : dir_db := ltac:(record_set eta_dirdb dd_table s v).
Definition set_dd_dirs v (s : dir_db) : dir_db := ltac:(record_set eta_dirdb dd_dirs s v).
Definition set_dd_next v (s : dir_db) : dir_db := ltac:(record_set eta_dirdb dd_next s v).
Definition set_dd_stat_dirs v (s : dir_db) : dir_db := ltac:(record_set eta_dirdb dd_stat_dirs s v).
Definition set_dd_log v (s : dir_db) : dir_db := ltac:(record_set eta_dirdb dd_log s v).
Definition set_dd_num_dir_update_errors v (s : dir_db) : dir_db :=
  ltac:(record_set eta_dirdb dd_num_dir_update_errors s v).

(** Fresh memory, and a directory by its address. *)
Definition dir0 : apk_db_dir := mk_dir [] 0 None None [] [] 0 0 0 false false false false.
Definition dir_at (db : dir_db) (a : nat) : apk_db_dir := default dir0 (dd_dirs db !! a).
Definition upd_dir (a : nat) (f : apk_db_dir -> apk_db_dir) (db : dir_db) : dir_db :=
  set_dd_dirs (<[a := f (dir_at db a)]> (dd_dirs db)) db.
Definition log_call (c : fs_call) (db : dir_db) : dir_db := set_dd_log (dd_log db ++ [c]) db.

Definition dir_init (buckets : Z) (protected_paths : list apk_protected_path) : dir_db :=
  mk_dirdb (apk_hash_init buckets) ∅ 0 0 protected_paths [] 0.

(** ** References *)

Definition apk_db_dir_query (db : dir_db) (name : bytes) : option nat :=
  di_addr <$> apk_hash_get (dd_table db) name.

Definition apk_db_dir_ref (a : nat) (db : dir_db) : dir_db :=
  upd_dir a (fun d => set_dir_refs (u16 (dir_refs d + 1)) d) db.

Section Dirs.
(** [fnmatch (pattern, string, FNM_PATHNAME) == 0] of the C library. *)
Context (fnmatch : bytes -> bytes -> bool).

(** One protected path against the last component of a directory: patterns that go on
    below it are kept for its children, one that ends here sets its mode. *)
Definition match_ppath (relative_name : bytes) (pp : apk_protected_path)
    (s : list apk_protected_path * apk_db_dir) : list apk_protected_path * apk_db_dir :=
  let '(ppaths, dir) := s in
  let children dir := set_dir_has_protected_children
    (dir_has_protected_children dir || negb (apk_protect_mode_none (pp_protect_mode pp))) dir in
  match apk_blob_split (relative_pattern pp) (lit "/") with
  | Some (first, rest) =>
      if fnmatch first relative_name
      then (ppaths ++ [mk_ppath rest (pp_protect_mode pp)], children dir)
      else s
  | None =>
      if fnmatch (relative_pattern pp) relative_name
      then (ppaths, children (set_dir_protect_mode (pp_protect_mode pp) dir))
      else s
  end.

(** The last component of a name. *)
Definition basename (name : bytes) : bytes :=
  match apk_blob_rsplit name (chr "/") with Some (_, r) => r | None => name end.

Definition match_ppaths (ppaths : list apk_protected_path) (dir : apk_db_dir) : apk_db_dir :=
  let '(kept, dir) := each (match_ppath (basename (dir_name dir))) ppaths ([], dir) in
  set_dir_protected_paths kept dir.

(** A new directory object in the table. *)
Definition new_dir (name : bytes) (hash : Z) (db : dir_db) : nat * dir_db :=
  let a := dd_next db in
  let dir := mk_dir name hash None None [] [] 0 (u16 (Z.of_nat (length name))) 0 false false false false in
  let db := set_dd_next (S a) (set_dd_dirs (<[a := dir]> (dd_dirs db)) db) in
  (a, set_dd_table (apk_hash_insert_hashed (dd_table db)
        (mk_dir_item a (take (Z.to_nat (dir_namelen dir)) name)) hash) db).

(** The rest of [apk_db_dir_get] for a directory without references; [get] is the
    recursive call for the parent. *)
Definition dir_revive (get : bytes -> dir_db -> option (nat * dir_db)) (name : bytes) (a : nat) (db : dir_db) :
    option (nat * dir_db) :=
  let db := set_dd_stat_dirs (u32 (dd_stat_dirs db + 1)) db in
  let db := upd_dir a (fun d => set_dir_diris [] (set_dir_refs 1 d)) db in
  match name with
  | [] => Some (a, upd_dir a (fun d => set_dir_has_protected_children true (set_dir_parent None d)) db)
  | _ =>
      match apk_blob_rsplit name (chr "/") with
      | Some (bparent, _) =>
          r ← get bparent db;
          let '(parent, db) := r in
          let mode := dir_protect_mode (dir_at db parent) in
          let db := upd_dir a (fun d => set_dir_has_protected_children (negb (apk_protect_mode_none mode))
            (set_dir_protect_mode mode (set_dir_parent (Some parent) d))) db in
          Some (a, upd_dir a (match_ppaths (dir_protected_paths (dir_at db parent))) db)
      | None =>
          r ← get [] db;
          let '(parent, db) := r in
          let db := upd_dir a (set_dir_parent (Some parent)) db in
          Some (a, upd_dir a (match_ppaths (dd_protected_paths db)) db)
      end
  end.

(** The recursion goes to the parent directory, so that the length of the name bounds it.
    The hash is the one of the name before its trailing slashes are removed. *)
Fixpoint apk_db_dir_get (fuel : nat) (name : bytes) (db : dir_db) : option (nat * dir_db) :=
  match fuel with
  | O => None
  | S fuel =>
      let hash := apk_hash_from_key (dd_table db) name in
      let name := apk_blob_trim_end name (chr "/") in
      match di_addr <$> apk_hash_get_hashed (dd_table db) name hash with
      | Some a =>
          if negb (dir_refs (dir_at db a) =? 0) then Some (a, apk_db_dir_ref a db)
          else dir_revive (apk_db_dir_get fuel) name a db
      | None => let '(a, db) := new_dir name hash db in dir_revive (apk_db_dir_get fuel) name a db
      end
  end.

Section Unref.
Context (simulate : bool).

Fixpoint apk_db_dir_unref (fuel : nat) (rmdir_remove : bool) (a : nat) (db : dir_db) : option dir_db :=
  match fuel with
  | O => None
  | S fuel =>
      let db := upd_dir a (fun d => set_dir_refs (u16 (dir_refs d - 1)) d) db in
      if 0 <? dir_refs (dir_at db a) then Some db
      else
        let db := set_dd_stat_dirs (u32 (dd_stat_dirs db - 1)) db in
        let db := upd_dir a (set_dir_diris []) db in
        db ← (if dir_namelen (dir_at db a) =? 0 then Some db
              else
                let db :=
                  if rmdir_remove then
                    let db := upd_dir a (set_dir_modified true) db in
                    if simulate then db
                    else log_call (Fs_delete (take (Z.to_nat (dir_namelen (dir_at db a))) (dir_name (dir_at db a)))) db
                  else db in
                match dir_parent (dir_at db a) with
                | Some parent =>
                    db ← apk_db_dir_unref fuel rmdir_remove parent db;
                    Some (upd_dir a (set_dir_parent None) db)
                | None => None   (* a NULL parent: excluded for live directories *)
                end);
        Some (upd_dir a (fun d => set_dir_permissions_ok false (set_dir_created false d)) db)
  end.
End Unref.
End Dirs.
