(* ===== verification/DirsFacts.v ===== *)
(** * References to directories are counted exactly (database.c)

    [dir_inv ext pend db]: [ext] says how many references the callers hold on each
    directory; a directory's counter is that number plus the number of its live
    subdirectories.  [pend] are the directories whose parent is being changed. *)

From S2P Require Import Prelude Blob Hash Dirs.

(** ** Names *)

Definition slash : Z := chr "/".

(** Names without trailing or doubled slashes, short enough for [namelen]. *)
Record clean (name : bytes) : Prop := {
  clean_len : Z.of_nat (length name) < 2 ^ 16;
  clean_end : apk_blob_trim_end name slash = name;
  clean_inner : forall l r, name = l ++ slash :: r -> apk_blob_trim_end l slash = l;
}.

Definition dirname (name : bytes) : bytes :=
  match apk_blob_rsplit name slash with Some (l, _) => l | None => [] end.

Lemma dirname_short name : name <> [] -> (length (dirname name) < length name)%nat.
Proof.
  unfold dirname. destruct (apk_blob_rsplit name slash) as [[l r]|] eqn:E.
  - apply apk_blob_rsplit_Some in E as [-> _]. rewrite length_app. simpl. lia.
  - destruct name; simpl; [done | lia].
Qed.

Lemma clean_nil : clean [].
Proof. split; [simpl; lia | done |]. intros l r H. by destruct l. Qed.

Lemma clean_dirname name : clean name -> clean (dirname name).
Proof.
  intros [Hl He Hi]. unfold dirname. destruct (apk_blob_rsplit name slash) as [[l r]|] eqn:E; [| apply clean_nil].
  apply apk_blob_rsplit_Some in E as [-> _]. split.
  - rewrite length_app in Hl. lia.
  - by apply (Hi l r).
  - intros l' r' ->. apply (Hi l' (r' ++ slash :: r)). by rewrite <- app_assoc.
Qed.

(** ** Counting *)

Definition live (d : apk_db_dir) : bool := negb (dir_refs d =? 0).

Definition cnt (d : apk_db_dir) (b : nat) : Z := if live d && bool_decide (dir_parent d = Some b) then 1 else 0.

(** Live subdirectories, and live directories. *)
Definition children (db : dir_db) (a : nat) : Z :=
  Z.of_nat (size (filter (fun kd : nat * apk_db_dir => live kd.2 && bool_decide (dir_parent kd.2 = Some a) = true) (dd_dirs db))).
Definition num_live (db : dir_db) : Z :=
  Z.of_nat (size (filter (fun kd : nat * apk_db_dir => live kd.2 = true) (dd_dirs db))).

Section Count.
Context (P : nat * apk_db_dir -> Prop) `{!forall x, Decision (P x)}.

Lemma size_filter_new (m : gmap nat apk_db_dir) a d :
  m !! a = None -> Z.of_nat (size (filter P (<[a := d]> m))) = Z.of_nat (size (filter P m)) + if decide (P (a, d)) then 1 else 0.
Proof.
  intros Ha. destruct (decide (P (a, d))) as [HP|HP].
  - rewrite map_filter_insert_True by done. rewrite map_size_insert_None; [lia |].
    apply map_lookup_filter_None. by left.
  - rewrite map_filter_insert_False by done. rewrite delete_id by done. lia.
Qed.

Lemma size_filter_upd (m : gmap nat apk_db_dir) a d d' :
  m !! a = Some d -> Z.of_nat (size (filter P (<[a := d']> m)))
    = Z.of_nat (size (filter P m)) - (if decide (P (a, d)) then 1 else 0) + if decide (P (a, d')) then 1 else 0.
Proof.
  intros Ha. assert (m = <[a := d]> (delete a m)) as Hm by (by rewrite insert_delete_id).
  rewrite Hm at 1 2. rewrite insert_insert_eq, !size_filter_new by apply lookup_delete_eq. lia.
Qed.
End Count.

Lemma children_upd db a d d' b :
  dd_dirs db !! a = Some d -> children (set_dd_dirs (<[a := d']> (dd_dirs db)) db) b = children db b - cnt d b + cnt d' b.
Proof.
  intros Ha. unfold children. simpl. rewrite (size_filter_upd _ _ a d d') by done. unfold cnt. simpl.
  destruct (live d && _), (live d' && _); simpl; lia.
Qed.

Lemma num_live_upd db a d d' :
  dd_dirs db !! a = Some d -> num_live (set_dd_dirs (<[a := d']> (dd_dirs db)) db) = num_live db - b2z (live d) + b2z (live d').
Proof.
  intros Ha. unfold num_live. simpl. rewrite (size_filter_upd _ _ a d d') by done. simpl.
  destruct (live d), (live d'); simpl; lia.
Qed.

(** A directory with a live child. *)
Lemma children_pos db a b d :
  dd_dirs db !! b = Some d -> live d = true -> dir_parent d = Some a -> 0 < children db a.
Proof.
  intros Hb Hl Hp. unfold children. enough (0 < size (filter (fun kd : nat * apk_db_dir =>
    live kd.2 && bool_decide (dir_parent kd.2 = Some a) = true) (dd_dirs db)))%nat by lia.
  apply Nat.neq_0_lt_0. intros H%map_size_empty_iff.
  apply (f_equal (lookup b)) in H. rewrite lookup_empty in H. apply map_lookup_filter_None in H as [H|H]; [congruence |].
  eapply H; [exact Hb |]. simpl. rewrite Hl, bool_decide_true by done. done.
Qed.

Lemma children_zero db a :
  (forall b d, dd_dirs db !! b = Some d -> live d = true -> dir_parent d <> Some a) -> children db a = 0.
Proof.
  intros H. unfold children. replace (filter _ _) with (∅ : gmap nat apk_db_dir); [by rewrite map_size_empty |].
  symmetry. apply map_empty. intros b. apply map_lookup_filter_None. right. intros d Hd Hc. simpl in Hc.
  apply andb_true_iff in Hc as [Hl Hp%bool_decide_eq_true]. by eapply H.
Qed.

Lemma children_nonneg db a : 0 <= children db a.
Proof. unfold children. lia. Qed.

(** ** The invariant *)

Abbreviation handles := (nat -> Z).
Definition plus_one (a : nat) (ext : handles) : handles := fun b => if decide (b = a) then ext b + 1 else ext b.
Definition minus_one (a : nat) (ext : handles) : handles := fun b => if decide (b = a) then ext b - 1 else ext b.

(** The fields that never change. *)
Definition dir_ident (d : apk_db_dir) : Z * Z := (dir_namelen d, dir_hash d).

Definition parent_ok (dirs : gmap nat apk_db_dir) (d : apk_db_dir) : Prop :=
  match dir_name d with
  | [] => dir_parent d = None
  | _ => exists pa pd, dir_parent d = Some pa /\ dirs !! pa = Some pd /\ live pd = true /\ dir_name pd = dirname (dir_name d)
  end.

Record dir_inv (ext : handles) (pend : list nat) (db : dir_db) : Prop := {
  iv_wf : hash_wf (dd_table db);
  iv_item : forall k it, apk_hash_get (dd_table db) k = Some it ->
    exists d, dd_dirs db !! di_addr it = Some d /\ dir_name d = k;
  iv_found : forall a d, dd_dirs db !! a = Some d ->
    apk_hash_get (dd_table db) (dir_name d) = Some (mk_dir_item a (dir_name d));
  iv_next : forall a d, dd_dirs db !! a = Some d -> (a < dd_next db)%nat;
  iv_clean : forall a d, dd_dirs db !! a = Some d ->
    clean (dir_name d) /\ dir_ident d = (Z.of_nat (length (dir_name d)), apk_blob_hash (dir_name d));
  iv_refs : forall a d, dd_dirs db !! a = Some d -> dir_refs d = ext a + children db a /\ dir_refs d < 2 ^ 16;
  iv_ext : forall a, 0 <= ext a /\ (dd_dirs db !! a = None -> ext a = 0);
  iv_parent : forall a d, dd_dirs db !! a = Some d -> live d = true -> a ∉ pend -> parent_ok (dd_dirs db) d;
  iv_none : forall a d, dd_dirs db !! a = Some d -> (live d = true /\ a ∈ pend) \/ (live d = false /\ a ∉ pend) ->
    dir_parent d = None;
  iv_pend : forall a, a ∈ pend -> is_Some (dd_dirs db !! a);
  iv_stat : dd_stat_dirs db = u32 (num_live db);
}.

(** Replacing a directory by a live one of the same name. *)
Lemma parent_ok_insert dirs a d d' e :
  dirs !! a = Some d -> dir_name d' = dir_name d -> live d' = true -> parent_ok dirs e -> parent_ok (<[a := d']> dirs) e.
Proof.
  intros Ha Hn Hl Hpo. unfold parent_ok in *. destruct (dir_name e); [done |]. destruct Hpo as (pa & pd & P1 & P2 & P3 & P4).
  destruct (decide (pa = a)) as [->|]; [exists a, d' | exists pa, pd; by rewrite lookup_insert_ne].
  rewrite lookup_insert_eq. simplify_eq. split_and!; congruence.
Qed.

(** The effect of replacing one directory. *)
Record replaced (a : nat) (d d' : apk_db_dir) (db db' : dir_db) : Prop := {
  rp_table : dd_table db' = dd_table db;
  rp_dirs : dd_dirs db' = <[a := d']> (dd_dirs db);
  rp_next : dd_next db' = dd_next db;
  rp_stat : dd_stat_dirs db' = u32 (dd_stat_dirs db - b2z (live d) + b2z (live d'));
  rp_name : dir_name d' = dir_name d;
  rp_ident : dir_ident d' = dir_ident d;
}.

Lemma u32_add_u32 x y z : u32 (u32 x - y + z) = u32 (x - y + z).
Proof. unfold u32. rewrite <- (Zplus_mod_idemp_l (x mod 2 ^ 32 - y)), Zminus_mod_idemp_l, Zplus_mod_idemp_l. done. Qed.

Lemma children_dirs db db' b : dd_dirs db' = dd_dirs db -> children db' b = children db b.
Proof. intros H. unfold children. by rewrite H. Qed.

Lemma replaced_inv ext ext' pend pend' a d d' db db' :
  dir_inv ext pend db -> dd_dirs db !! a = Some d -> replaced a d d' db db' ->
  (forall b, b <> a -> b ∈ pend' <-> b ∈ pend) ->
  (forall b, 0 <= ext' b /\ (dd_dirs db !! b = None -> ext' b = 0)) ->
  (forall b, b <> a -> is_Some (dd_dirs db !! b) -> ext' b + cnt d' b - cnt d b = ext b) ->
  dir_refs d' = ext' a + (children db a - cnt d a + cnt d' a) -> dir_refs d' < 2 ^ 16 ->
  (live d' = true -> a ∉ pend' -> parent_ok (<[a := d']> (dd_dirs db)) d') ->
  ((live d' = true /\ a ∈ pend') \/ (live d' = false /\ a ∉ pend') -> dir_parent d' = None) ->
  (live d = true -> live d' = false -> children db a = 0) ->
  dir_inv ext' pend' db'.
Proof.
  intros Hi Ha [Rt Rd Rn Rs Rname Rlen] Hpend Hext Hother Hrefs Hlt Hpar Hnone Hdie.
  assert (forall b, children db' b = children db b - cnt d b + cnt d' b) as Hch.
  { intros b. rewrite <- (children_upd db a d d' b Ha). by apply children_dirs. }
  assert (forall b e, dd_dirs db' !! b = Some e ->
    (b = a /\ e = d') \/ (b <> a /\ dd_dirs db !! b = Some e)) as Hlook.
  { intros b e. rewrite Rd. intros [[-> ->]|[? ?]]%lookup_insert_Some; auto. }
  destruct Hi. split; rewrite ?Rt, ?Rn; try done.
  - intros k it (e & He & Hk)%iv_item0. rewrite Rd. destruct (decide (di_addr it = a)) as [E|E].
    + exists d'. rewrite E, lookup_insert_eq. rewrite E in He. split; [done |]. congruence.
    + exists e. by rewrite lookup_insert_ne.
  - intros b e [[-> ->]|[_ He]]%Hlook; [rewrite Rname |]; by apply iv_found0.
  - intros b e [[-> ->]|[_ He]]%Hlook; eauto.
  - intros b e [[-> ->]|[_ He]]%Hlook; [rewrite Rname, Rlen |]; by eapply iv_clean0.
  - intros b e [[-> ->]|[Hb He]]%Hlook; rewrite Hch; [lia |].
    destruct (iv_refs0 b e He). specialize (Hother b Hb ltac:(by eexists)). lia.
  - intros b. destruct (Hext b) as [? Hb]. split; [done |]. rewrite Rd. intros Hn. apply Hb.
    by apply lookup_insert_None in Hn as [].
  - intros b e [[-> ->]|[Hb He]]%Hlook Hl Hp; rewrite Rd; [by apply Hpar |].
    rewrite Hpend in Hp by done. specialize (iv_parent0 b e He Hl Hp).
    destruct (live d') eqn:E; [by apply (parent_ok_insert _ a d) |]. unfold parent_ok in *.
    destruct (dir_name e); [done |]. destruct iv_parent0 as (pa & pd & H1 & H2 & H3 & H4). exists pa, pd.
    rewrite lookup_insert_ne; [done |]. intros <-. simplify_eq. specialize (Hdie H3 eq_refl).
    pose proof (children_pos db a b e He Hl H1). lia.
  - intros b e [[-> ->]|[Hb He]]%Hlook; [done |]. rewrite Hpend by done. by apply iv_none0.
  - intros b Hb. rewrite Rd. destruct (decide (b = a)) as [->|Hba]; [by rewrite lookup_insert_eq |].
    rewrite lookup_insert_ne by done. apply iv_pend0. by apply Hpend.
  - rewrite Rs, iv_stat0, u32_add_u32. f_equal. rewrite <- (num_live_upd db a d d' Ha). unfold num_live. by rewrite Rd.
Qed.

(** Changes of the other fields. *)
Definition same_shape (d d' : apk_db_dir) : Prop :=
  dir_name d' = dir_name d /\ dir_ident d' = dir_ident d /\ dir_refs d' = dir_refs d /\ dir_parent d' = dir_parent d.

Lemma soft_inv ext pend a d d' db db' :
  dir_inv ext pend db -> dd_dirs db !! a = Some d -> same_shape d d' ->
  dd_table db' = dd_table db -> dd_dirs db' = <[a := d']> (dd_dirs db) -> dd_next db' = dd_next db ->
  dd_stat_dirs db' = dd_stat_dirs db -> dir_inv ext pend db'.
Proof.
  intros Hi Ha (H1 & H2 & H3 & H4) T1 T2 T3 T4. assert (live d' = live d) as Hl by (unfold live; by rewrite H3).
  assert (forall b, cnt d' b = cnt d b) as Hc by (intros b; unfold cnt; by rewrite Hl, H4).
  eapply (replaced_inv ext ext pend pend a d d'); [done | done | | done | apply Hi | | | | | | ].
  - split; try done. rewrite T4, (iv_stat _ _ _ Hi), Hl, u32_add_u32. f_equal. lia.
  - intros b _ _. rewrite Hc. lia.
  - rewrite H3, Hc. destruct (iv_refs _ _ _ Hi a d Ha). lia.
  - rewrite H3. by apply (iv_refs _ _ _ Hi a d Ha).
  - intros Hld Hp. rewrite Hl in Hld. pose proof (iv_parent _ _ _ Hi a d Ha Hld Hp) as Hpo.
    apply (parent_ok_insert _ a d d') in Hpo; [| done | done | congruence]. unfold parent_ok in *. by rewrite H1, H4.
  - rewrite Hl, H4. by apply (iv_none _ _ _ Hi a d Ha).
  - congruence.
Qed.

(** A directory that is entered has no references. *)
Lemma new_dir_inv ext pend name db :
  dir_inv ext pend db -> clean name -> apk_hash_get (dd_table db) name = None ->
  let '(a, db') := new_dir name (hash_key name) db in
  dir_inv ext pend db' /\ dd_dirs db !! a = None /\
  exists d, dd_dirs db' = <[a := d]> (dd_dirs db) /\ dir_name d = name /\ live d = false /\ dir_parent d = None.
Proof.
  intros Hi Hc Hk. unfold new_dir. set (a := dd_next db). set (d := mk_dir name _ _ _ _ _ _ _ _ _ _ _ _).
  assert (dd_dirs db !! a = None) as Ha.
  { apply eq_None_not_Some. intros [e He]. apply (iv_next _ _ _ Hi) in He. unfold a in He. lia. }
  assert (dir_namelen d = Z.of_nat (length name)) as Hlen.
  { simpl. unfold u16. rewrite Z.mod_small; [done |]. split; [lia | apply Hc]. }
  rewrite Hlen, Nat2Z.id, firstn_all. set (db' := set_dd_table _ _).
  assert (dir_ident d = (Z.of_nat (length name), apk_blob_hash name)) as Hid by (unfold dir_ident; by rewrite Hlen).
  assert (forall b e, dd_dirs db' !! b = Some e -> (b = a /\ e = d) \/ (b <> a /\ dd_dirs db !! b = Some e)) as Hlook.
  { intros b e. simpl. intros [[-> ->]|[? ?]]%lookup_insert_Some; auto. }
  assert (forall b, children db' b = children db b) as Hch.
  { intros b. unfold children. simpl. rewrite size_filter_new by done. simpl. lia. }
  assert (dd_table db' = apk_hash_insert (dd_table db) (mk_dir_item a name)) as Htab by done.
  split_and!; [| done | by exists d]. destruct Hi. split; rewrite ?Htab; try done.
  - by apply apk_hash_insert_wf.
  - intros k it. rewrite apk_hash_get_insert by done. simpl.
    case_decide as E; [intros [= <-]; exists d; by rewrite lookup_insert_eq |].
    intros (e & He & Hn)%iv_item0. exists e. rewrite lookup_insert_ne by congruence. done.
  - intros b e Hb. rewrite apk_hash_get_insert by done. simpl.
    apply Hlook in Hb as [[-> ->]|[_ He]]; [by rewrite decide_True |]. specialize (iv_found0 b e He).
    rewrite decide_False; [done |]. congruence.
  - intros b e [[-> ->]|[_ He]]%Hlook; simpl; [unfold a; lia |]. apply iv_next0 in He. lia.
  - intros b e [[-> ->]|[_ He]]%Hlook; [done | by eapply iv_clean0].
  - intros b e [[-> ->]|[_ He]]%Hlook; rewrite Hch; [| by apply iv_refs0].
    rewrite (proj2 (iv_ext0 a) Ha), (children_zero db a); [by simpl |]. intros b e He Hl Hp.
    destruct (decide (b ∈ pend)) as [Hbp|Hbp]; [by rewrite (iv_none0 b e He) in Hp by auto |].
    specialize (iv_parent0 b e He Hl Hbp). unfold parent_ok in *. destruct (dir_name e); [congruence |].
    destruct iv_parent0 as (pa & pd & ? & ? & _). congruence.
  - intros b. split; [apply iv_ext0 |]. simpl. intros [Hb _]%lookup_insert_None. by apply iv_ext0.
  - intros b e [[-> ->]|[Hb He]]%Hlook Hl Hp; [done |]. specialize (iv_parent0 b e He Hl Hp). unfold parent_ok in *.
    destruct (dir_name e); [done |]. destruct iv_parent0 as (pa & pd & P1 & P2 & P3). exists pa, pd.
    simpl. rewrite lookup_insert_ne by congruence. done.
  - intros b e [[-> ->]|[Hb He]]%Hlook; [done | by apply iv_none0].
  - intros b Hb. simpl. destruct (iv_pend0 b Hb) as [e He]. exists e. rewrite lookup_insert_ne; [done | congruence].
  - simpl. rewrite iv_stat0. f_equal. unfold num_live. simpl. rewrite size_filter_new by done. simpl. lia.
Qed.

(** ** Getting a directory *)

#[global] Instance same_shape_refl : Reflexive same_shape.
Proof. by intros d. Qed.
#[global] Instance same_shape_trans : Transitive same_shape.
Proof. intros a b c (?&?&?&?) (?&?&?&?). repeat split; congruence. Qed.

Section Get.
Context (fnmatch : bytes -> bytes -> bool).

Lemma match_ppath_shape n pp s : same_shape s.2 (match_ppath fnmatch n pp s).2.
Proof.
  destruct s as [l d]. unfold match_ppath. destruct (apk_blob_split _ _) as [[]|]; by case_if.
Qed.

Lemma match_ppaths_shape pps d : same_shape d (match_ppaths fnmatch pps d).
Proof.
  unfold match_ppaths. set (n := basename _). destruct (each _ pps _) as [l d'] eqn:E.
  assert (same_shape ([] : list apk_protected_path, d).2 (l, d').2) as H; [| by destruct H as (?&?&?&?)].
  rewrite <- E. clear E. generalize ([] : list apk_protected_path, d).
  induction pps as [|pp pps IH]; intros s; simpl; [done |].
  transitivity (match_ppath fnmatch n pp s).2; [apply match_ppath_shape | apply IH].
Qed.

(** What getting [name] leaves alone and gives. *)
Record got (name : bytes) (ext : handles) (pend : list nat) (db : dir_db) (a : nat) (db' : dir_db) : Prop := {
  got_inv : dir_inv (plus_one a ext) pend db';
  got_dir : exists d, dd_dirs db' !! a = Some d /\ dir_name d = name /\ live d = true;
  got_frame : forall b d, dd_dirs db !! b = Some d -> (length name < length (dir_name d))%nat -> dd_dirs db' !! b = Some d;
  got_names : forall b d, dd_dirs db !! b = Some d -> exists d', dd_dirs db' !! b = Some d' /\ dir_name d' = dir_name d;
}.

Definition get_ready (name : bytes) (ext : handles) (pend : list nat) (db : dir_db) : Prop :=
  dir_inv ext pend db /\ clean name /\
  (forall a d, a ∈ pend -> dd_dirs db !! a = Some d -> (length name < length (dir_name d))%nat) /\
  (forall a d, dd_dirs db !! a = Some d -> dir_refs d < 2 ^ 16 - 1).

Lemma live_refs d : live d = true <-> dir_refs d <> 0.
Proof. unfold live. rewrite negb_true_iff, Z.eqb_neq. done. Qed.
Lemma dead_refs d : live d = false <-> dir_refs d = 0.
Proof. unfold live. rewrite negb_false_iff, Z.eqb_eq. done. Qed.
Lemma cnt_dead d b : live d = false -> cnt d b = 0.
Proof. intros H. unfold cnt. by rewrite H. Qed.
Lemma cnt_none d b : dir_parent d = None -> cnt d b = 0.
Proof. intros H. unfold cnt. rewrite H. by destruct (live d). Qed.
Lemma cnt_some d p b : live d = true -> dir_parent d = Some p -> cnt d b = if decide (b = p) then 1 else 0.
Proof.
  intros H1 H2. unfold cnt. rewrite H1, H2. simpl. case_decide; [by rewrite bool_decide_true by congruence |].
  by rewrite bool_decide_false by congruence.
Qed.

Lemma dead_zero ext pend db a d :
  dir_inv ext pend db -> dd_dirs db !! a = Some d -> live d = false -> ext a = 0 /\ children db a = 0.
Proof.
  intros Hi Ha Hd%dead_refs. destruct (iv_refs _ _ _ Hi a d Ha) as [Hr _]. pose proof (children_nonneg db a).
  pose proof (proj1 (iv_ext _ _ _ Hi a)). lia.
Qed.

Lemma dir_at_lookup db a d : dd_dirs db !! a = Some d -> dir_at db a = d.
Proof. intros H. unfold dir_at. by rewrite H. Qed.

(** The first step of reviving a directory: it lives, and its parent is pending. *)
Lemma revive_first ext pend db a d :
  dir_inv ext pend db -> dd_dirs db !! a = Some d -> live d = false -> a ∉ pend ->
  let d1 := set_dir_diris [] (set_dir_refs 1 d) in
  let db1 := upd_dir a (fun d => set_dir_diris [] (set_dir_refs 1 d)) (set_dd_stat_dirs (u32 (dd_stat_dirs db + 1)) db) in
  dir_inv (plus_one a ext) (a :: pend) db1 /\ dd_dirs db1 = <[a := d1]> (dd_dirs db)
  /\ dir_parent d1 = None /\ live d1 = true.
Proof.
  intros Hi Ha Hd Hp d1 db1. destruct (dead_zero _ _ _ _ _ Hi Ha Hd) as [He Hch].
  assert (dir_parent d = None) as Hpar by (apply (iv_none _ _ _ Hi a d Ha); auto).
  assert (dd_dirs db1 = <[a := d1]> (dd_dirs db)) as Hdirs.
  { unfold db1, upd_dir. simpl. by rewrite (dir_at_lookup _ a d). }
  split_and!; [| done | done | done].
  apply (replaced_inv ext _ pend _ a d d1 db db1); try done.
  - split; try done. simpl. rewrite Hd. simpl. f_equal. lia.
  - set_solver.
  - intros b. unfold plus_one. case_decide as E; [subst | apply (iv_ext _ _ _ Hi)]. rewrite He. split; [lia | congruence].
  - intros b Hb _. rewrite (cnt_dead d), (cnt_none d1) by done. unfold plus_one. rewrite decide_False by done. lia.
  - rewrite (cnt_dead d), (cnt_none d1) by done. unfold plus_one. rewrite decide_True by done. simpl. lia.
  - intros _ Hn. set_solver.
Qed.

(** The last step: the handle on the parent becomes the reference of the child. *)
Lemma revive_last ext pend db db' a d1 d3 pa pd :
  dir_inv (plus_one pa (plus_one a ext)) (a :: pend) db -> dd_dirs db !! a = Some d1 -> live d1 = true ->
  dir_refs d1 = 1 -> ext a = 0 -> (forall b, 0 <= ext b) -> a ∉ pend -> dd_dirs db !! pa = Some pd -> live pd = true ->
  dir_name d1 <> [] -> dir_name pd = dirname (dir_name d1) ->
  dd_dirs db' = <[a := d3]> (dd_dirs db) -> dd_table db' = dd_table db -> dd_next db' = dd_next db ->
  dd_stat_dirs db' = dd_stat_dirs db ->
  dir_name d3 = dir_name d1 -> dir_ident d3 = dir_ident d1 -> dir_refs d3 = 1 -> dir_parent d3 = Some pa ->
  dir_inv (plus_one a ext) pend db'.
Proof.
  intros Hi Ha Hl1 Hr1 He Hext Hnp Hpa Hlp Hnn Hpn T1 T2 T3 T4 N1 N2 N3 N4.
  assert (pa <> a) as Hne.
  { intros ->. assert (pd = d1) as -> by congruence. pose proof (dirname_short (dir_name d1) Hnn) as Hs.
    rewrite <- Hpn in Hs. lia. }
  assert (dir_parent d1 = None) as Hp1 by (apply (iv_none _ _ _ Hi a d1 Ha); left; set_solver).
  assert (live d3 = true) as Hl3 by (apply live_refs; lia).
  assert (children db a = 0) as Hch.
  { destruct (iv_refs _ _ _ Hi a d1 Ha) as [Hr _]. revert Hr. unfold plus_one. rewrite decide_False, decide_True by done. lia. }
  assert (forall b, cnt d3 b = if decide (b = pa) then 1 else 0) as Hc3 by (intros; by apply cnt_some).
  apply (replaced_inv (plus_one pa (plus_one a ext)) _ (a :: pend) _ a d1 d3 db db'); try done.
  - split; try done. rewrite T4, Hl1, Hl3, (iv_stat _ _ _ Hi), u32_add_u32. f_equal. lia.
  - set_solver.
  - intros b. destruct (iv_ext _ _ _ Hi b) as [H1 H2]. revert H1 H2. unfold plus_one.
    destruct (decide (b = pa)) as [->|]; [rewrite decide_False by done | done]. intros H1 H2.
    split; [apply Hext | congruence].
  - intros b Hb _. rewrite Hc3, (cnt_none d1) by done. unfold plus_one. rewrite (decide_False (P := b = a)) by done.
    case_decide; lia.
  - rewrite Hc3, (cnt_none d1), Hch by done. unfold plus_one. rewrite decide_True, decide_False by done. lia.
  - lia.
  - intros _ _. unfold parent_ok. rewrite N1. destruct (dir_name d1) eqn:En; [done |].
    exists pa, pd. rewrite lookup_insert_ne by done. rewrite <- En in *. done.
  - intros [[_ ?]|[? _]]; [done | congruence].
Qed.

Lemma upd_dir_dirs f db a d : dd_dirs db !! a = Some d -> dd_dirs (upd_dir a f db) = <[a := f d]> (dd_dirs db).
Proof. intros Ha. unfold upd_dir. simpl. by rewrite (dir_at_lookup db a d). Qed.

Lemma upd_dir_twice f g db a d :
  dd_dirs db !! a = Some d -> dd_dirs (upd_dir a g (upd_dir a f db)) = <[a := g (f d)]> (dd_dirs db).
Proof.
  intros Ha. unfold upd_dir. simpl. rewrite (dir_at_lookup db a d) by done.
  rewrite (dir_at_lookup _ a (f d)) by (simpl; by rewrite lookup_insert_eq). by rewrite insert_insert_eq.
Qed.

Lemma revive_spec get name a d ext pend db :
  get_ready name ext pend db -> dd_dirs db !! a = Some d -> dir_name d = name -> live d = false -> a ∉ pend ->
  (forall n ext pend db, (length n < length name)%nat -> get_ready n ext pend db ->
     exists a db', get n db = Some (a, db') /\ got n ext pend db a db') ->
  exists db', dir_revive fnmatch get name a db = Some (a, db') /\ got name ext pend db a db'.
Proof.
  intros (Hi & Hc & Hlong & Hbound) Ha Hname Hd Hp IH.
  destruct (revive_first ext pend db a d Hi Ha Hd Hp) as (Hi1 & Hdirs1 & Hpar1 & Hlive1).
  destruct (dead_zero _ _ _ _ _ Hi Ha Hd) as [He _].
  unfold dir_revive. set (db1 := upd_dir a _ _) in *. set (d1 := set_dir_diris [] _) in *.
  assert (dd_dirs db1 !! a = Some d1) as Ha1 by (by rewrite Hdirs1, lookup_insert_eq).
  assert (forall b e, dd_dirs db !! b = Some e -> b = a \/ dd_dirs db1 !! b = Some e) as Hold.
  { intros b e Hb. destruct (decide (b = a)); [by left | right]. by rewrite Hdirs1, lookup_insert_ne. }
  assert (forall b e, dd_dirs db !! b = Some e -> (length name < length (dir_name e))%nat -> b <> a) as Hother.
  { intros b e Hb Hlen ->. assert (e = d) as -> by congruence. rewrite Hname in Hlen. lia. }
  destruct (decide (name = [])) as [En|En].
  - subst name. rewrite En. eexists. split; [done |]. set (d2 := set_dir_has_protected_children true (set_dir_parent None d1)).
    set (db2 := upd_dir _ _ db1).
    assert (dd_dirs db2 = <[a := d2]> (dd_dirs db1)) as Hdirs2 by (unfold db2, upd_dir; simpl; by rewrite (dir_at_lookup _ a d1)).
    split.
    + apply (replaced_inv (plus_one a ext) _ (a :: pend) _ a d1 d2 db1 db2); try done.
      * split; try done. change (dd_stat_dirs db2) with (dd_stat_dirs db1).
        rewrite (iv_stat _ _ _ Hi1), u32_add_u32. f_equal. simpl. lia.
      * set_solver.
      * apply Hi1.
      * intros b _ _. rewrite !cnt_none by done. lia.
      * rewrite !cnt_none by done. destruct (iv_refs _ _ _ Hi1 a d1 Ha1) as [Hr _]. simpl in *. lia.
      * intros _ _. unfold parent_ok. simpl. by rewrite En.
    + exists d2. by rewrite Hdirs2, lookup_insert_eq.
    + intros b e Hb Hlen. rewrite <- En in Hlen. specialize (Hother b e Hb Hlen).
      rewrite Hdirs2, lookup_insert_ne by done. by destruct (Hold b e Hb).
    + intros b e Hb. rewrite Hdirs2. destruct (decide (b = a)) as [->|].
      * exists d2. rewrite lookup_insert_eq. by simplify_eq.
      * exists e. rewrite lookup_insert_ne by done. destruct (Hold b e Hb) as [->|]; done.
  - assert (dirname name <> name) as Hdn by (intros E; pose proof (dirname_short name En) as Hs; rewrite E in Hs; lia).
    destruct (IH (dirname name) (plus_one a ext) (a :: pend) db1) as (pa & db2 & Hget & [Hi2 Hgd Hframe Hnames]).
    { by apply dirname_short. }
    { split_and!; [done | by apply clean_dirname | |].
      - pose proof (dirname_short name En). intros b e Hb He'. apply elem_of_cons in Hb as [->|Hb]; [assert (e = d1) as -> by congruence; simpl; by rewrite Hname |].
        rewrite Hdirs1, lookup_insert_ne in He' by (intros <-; done). specialize (Hlong b e Hb He'). lia.
      - intros b e. rewrite Hdirs1. intros [[_ <-]|[_ Hb]]%lookup_insert_Some; [simpl; lia | by apply (Hbound b)]. }
    destruct Hgd as (pd & Hpd & Hpn & Hlp).
    assert (dd_dirs db2 !! a = Some d1) as Ha2.
    { apply Hframe; [done |]. simpl. rewrite Hname. by apply dirname_short. }
    assert (exists d3 db3, dir_revive fnmatch get name a db = Some (a, db3) /\ dd_dirs db3 = <[a := d3]> (dd_dirs db2)
      /\ dd_table db3 = dd_table db2 /\ dd_next db3 = dd_next db2 /\ dd_stat_dirs db3 = dd_stat_dirs db2
      /\ dir_name d3 = dir_name d1 /\ dir_ident d3 = dir_ident d1 /\ dir_refs d3 = 1 /\ dir_parent d3 = Some pa)
      as (d3 & db3 & Hrev & R).
    { pose proof Hget as Hget'. unfold dirname in Hget'. unfold dir_revive. fold db1. destruct name as [|c name']; [done |].
      destruct (apk_blob_rsplit (c :: name') slash) as [[l r]|] eqn:Er; unfold slash in Er; rewrite Er, Hget'; simpl;
        match goal with |- context [upd_dir a (match_ppaths fnmatch ?pps) (upd_dir a ?f db2)] =>
        exists (match_ppaths fnmatch pps (f d1)), (upd_dir a (match_ppaths fnmatch pps) (upd_dir a f db2));
        destruct (match_ppaths_shape pps (f d1)) as (?&?&?&?) end;
        rewrite (upd_dir_twice _ _ _ _ d1) by done; split_and!; done. }
    fold (dir_revive fnmatch get name a db). exists db3. split; [exact Hrev |].
    destruct R as (T1 & T2 & T3 & T4 & N1 & N2 & N3 & N4). split.
    + eapply (revive_last ext pend db2 db3 a d1 d3 pa pd); try done.
      * intros b. apply (iv_ext _ _ _ Hi).
      * simpl. by rewrite Hname.
      * simpl. by rewrite Hname.
    + exists d3. rewrite T1, lookup_insert_eq. split_and!; [done | by rewrite N1 | apply live_refs; lia].
    + intros b e Hb Hlen. specialize (Hother b e Hb Hlen). rewrite T1, lookup_insert_ne by done.
      apply Hframe; [by destruct (Hold b e Hb) |]. pose proof (dirname_short name En). lia.
    + intros b e Hb. rewrite T1. destruct (decide (b = a)) as [->|Hne].
      * exists d3. rewrite lookup_insert_eq. assert (e = d) as -> by congruence. split; [done |]. by rewrite N1.
      * rewrite lookup_insert_ne by done. destruct (Hold b e Hb) as [->|Hb1]; [done |]. by apply Hnames.
Qed.

(** Getting a clean name succeeds, and the caller holds one more reference. *)
Lemma dir_get_spec fuel name ext pend db :
  get_ready name ext pend db -> (length name < fuel)%nat ->
  exists a db', apk_db_dir_get fnmatch fuel name db = Some (a, db') /\ got name ext pend db a db'.
Proof.
  revert name ext pend db. induction fuel as [|fuel IH]; intros name ext pend db Hready Hf; [lia |].
  destruct Hready as (Hi & Hc & Hlong & Hbound). cbn [apk_db_dir_get]. rewrite (clean_end _ Hc : apk_blob_trim_end name (chr "/") = name).
  change (apk_hash_get_hashed _ name _) with (apk_hash_get (dd_table db) name).
  assert (forall a d db0, get_ready name ext pend db0 -> dd_dirs db0 !! a = Some d -> dir_name d = name -> live d = false -> a ∉ pend ->
    exists db', dir_revive fnmatch (apk_db_dir_get fnmatch fuel) name a db0 = Some (a, db') /\ got name ext pend db0 a db') as Hrev.
  { intros a d db0 Hr Ha Hn Hd Hp. eapply revive_spec; [done | exact Ha | done | done | done |].
    intros n ext' pend' db' Hlen Hr'. apply IH; [done | lia]. }
  destruct (apk_hash_get (dd_table db) name) as [it|] eqn:Eg; cbn [fmap option_fmap option_map].
  - destruct (iv_item _ _ _ Hi _ _ Eg) as (d & Ha & Hn). set (a := di_addr it) in *.
    rewrite (dir_at_lookup db a d Ha). fold (live d).
    assert (a ∉ pend) as Hp by (intros Hp; specialize (Hlong a d Hp Ha); rewrite Hn in Hlong; lia).
    destruct (live d) eqn:El.
    + exists a, (apk_db_dir_ref a db). split; [done |]. unfold apk_db_dir_ref.
      set (d' := set_dir_refs (u16 (dir_refs d + 1)) d).
      set (db' := upd_dir _ _ _). assert (dd_dirs db' = <[a := d']> (dd_dirs db)) as Hdirs.
      { unfold db', upd_dir. simpl. by rewrite (dir_at_lookup db a d Ha). }
      pose proof (Hbound a d Ha). destruct (iv_refs _ _ _ Hi a d Ha) as [Hr _]. pose proof (children_nonneg db a).
      pose proof (proj1 (iv_ext _ _ _ Hi a)).
      assert (dir_refs d' = dir_refs d + 1) as Hr' by (simpl; unfold u16; rewrite Z.mod_small; lia).
      assert (live d' = true) as Hl' by (apply live_refs; lia).
      assert (forall b, cnt d' b = cnt d b) as Hcnt by (intros b; unfold cnt; by rewrite Hl', El).
      split.
      * apply (replaced_inv ext _ pend _ a d d' db db'); try done.
        -- split; try done. change (dd_stat_dirs db') with (dd_stat_dirs db). rewrite El, Hl', (iv_stat _ _ _ Hi), u32_add_u32. f_equal. lia.
        -- intros b. unfold plus_one. destruct (iv_ext _ _ _ Hi b). case_decide; [| done]. subst. split; [lia | congruence].
        -- intros b Hb _. rewrite Hcnt. unfold plus_one. rewrite decide_False by done. lia.
        -- rewrite Hcnt, Hr'. unfold plus_one. rewrite decide_True by done. lia.
        -- lia.
        -- intros _ _. exact (parent_ok_insert _ a d d' d Ha eq_refl Hl' (iv_parent _ _ _ Hi a d Ha El Hp)).
        -- intros [[_ ?]|[? _]]; [done | congruence].
        -- congruence.
      * exists d'. by rewrite Hdirs, lookup_insert_eq.
      * intros b e Hb Hlen. rewrite Hdirs, lookup_insert_ne; [done |]. intros <-. assert (e = d) as -> by congruence.
        rewrite Hn in Hlen. lia.
      * intros b e Hb. rewrite Hdirs. destruct (decide (b = a)) as [->|]; [| exists e; by rewrite lookup_insert_ne].
        exists d'. rewrite lookup_insert_eq. simplify_eq. done.
    + destruct (Hrev a d db) as (db' & ? & ?); [done | done | done | done | done |]. by exists a, db'.
  - pose proof (new_dir_inv ext pend name db Hi Hc Eg) as Hnew.
    unfold apk_hash_from_key.
    destruct (new_dir name (hash_key name) db) as [a db1]. destruct Hnew as (Hi1 & Hfree & d & Hdirs & Hn & Hd & Hpar).
    assert (forall b e, dd_dirs db1 !! b = Some e -> (b = a /\ e = d) \/ dd_dirs db !! b = Some e) as Hlook.
    { intros b e. rewrite Hdirs. intros [[-> ->]|[_ ?]]%lookup_insert_Some; auto. }
    assert (a ∉ pend) as Hp by (intros [e He]%(iv_pend _ _ _ Hi); congruence).
    destruct (Hrev a d db1) as (db' & Hd' & [G1 G2 G3 G4]); [| by rewrite Hdirs, lookup_insert_eq | done | done | |].
    + split_and!; [done | done | |].
      * intros b e Hb [[-> ->]|He]%Hlook; [done | by apply (Hlong b)].
      * intros b e [[-> ->]|He]%Hlook; [apply dead_refs in Hd; lia | by apply (Hbound b)].
    + done.
    + exists a, db'. split; [done |]. split; [done | done | |].
      * intros b e Hb. apply G3. rewrite Hdirs, lookup_insert_ne; [done | congruence].
      * intros b e Hb. apply G4. rewrite Hdirs, lookup_insert_ne; [done | congruence].
Qed.
End Get.

(** ** Releasing a directory *)

Lemma dir_inv_ext ext ext' pend db : (forall b, ext' b = ext b) -> dir_inv ext pend db -> dir_inv ext' pend db.
Proof. intros He []. split; try done; intros; rewrite He; auto. Qed.

(** What releasing the directory [d] at [a] leaves alone. *)
Record released (ext : handles) (pend : list nat) (db : dir_db) (a : nat) (d : apk_db_dir) (db' : dir_db) : Prop := {
  rl_inv : dir_inv (minus_one a ext) pend db';
  rl_frame : forall b e, dd_dirs db !! b = Some e -> (length (dir_name d) < length (dir_name e))%nat -> dd_dirs db' !! b = Some e;
  rl_names : forall b e, dd_dirs db !! b = Some e -> exists e', dd_dirs db' !! b = Some e' /\ dir_name e' = dir_name e;
}.

Lemma replaced_frame a d d' db db' :
  dd_dirs db !! a = Some d -> dd_dirs db' = <[a := d']> (dd_dirs db) -> dir_name d' = dir_name d ->
  (forall b e, dd_dirs db !! b = Some e -> (length (dir_name d) < length (dir_name e))%nat -> dd_dirs db' !! b = Some e)
  /\ (forall b e, dd_dirs db !! b = Some e -> exists e', dd_dirs db' !! b = Some e' /\ dir_name e' = dir_name e).
Proof.
  intros Ha Hdirs Hn. split; intros b e Hb; rewrite Hdirs; destruct (decide (b = a)) as [->|].
  - intros Hlen. assert (e = d) as -> by congruence. lia.
  - by rewrite lookup_insert_ne.
  - exists d'. rewrite lookup_insert_eq. assert (e = d) as -> by congruence. done.
  - exists e. by rewrite lookup_insert_ne.
Qed.

(** One reference less, and the directory lives on. *)
Lemma unref_live ext pend db a d :
  dir_inv ext pend db -> dd_dirs db !! a = Some d -> 0 < ext a -> a ∉ pend -> 1 < dir_refs d ->
  released ext pend db a d (upd_dir a (fun d => set_dir_refs (u16 (dir_refs d - 1)) d) db).
Proof.
  intros Hi Ha He Hp Hr. set (d' := set_dir_refs (u16 (dir_refs d - 1)) d). set (db' := upd_dir _ _ _).
  assert (dd_dirs db' = <[a := d']> (dd_dirs db)) as Hdirs by (unfold db', upd_dir; simpl; by rewrite (dir_at_lookup db a d Ha)).
  destruct (iv_refs _ _ _ Hi a d Ha) as [Hr1 Hr2].
  assert (dir_refs d' = dir_refs d - 1) as Hr' by (simpl; unfold u16; rewrite Z.mod_small; lia).
  assert (live d = true) as Hl by (apply live_refs; lia). assert (live d' = true) as Hl' by (apply live_refs; lia).
  assert (forall b, cnt d' b = cnt d b) as Hcnt by (intros b; unfold cnt; by rewrite Hl', Hl).
  destruct (replaced_frame a d d' db db' Ha Hdirs eq_refl) as [F1 F2]. split; [| exact F1 | exact F2].
  apply (replaced_inv ext _ pend _ a d d' db db'); try done.
  - split; try done. change (dd_stat_dirs db') with (dd_stat_dirs db). rewrite Hl, Hl', (iv_stat _ _ _ Hi), u32_add_u32. f_equal. lia.
  - intros b. unfold minus_one. destruct (iv_ext _ _ _ Hi b). case_decide; [| done]. subst. split; [lia | congruence].
  - intros b Hb _. rewrite Hcnt. unfold minus_one. rewrite decide_False by done. lia.
  - rewrite Hcnt, Hr'. unfold minus_one. rewrite decide_True by done. lia.
  - lia.
  - intros _ _. exact (parent_ok_insert _ a d d' d Ha eq_refl Hl' (iv_parent _ _ _ Hi a d Ha Hl Hp)).
  - intros [[_ ?]|[? _]]; [done | congruence].
  - congruence.
Qed.

(** The last reference of a directory: it is dead, and the reference it held on its parent
    is in the hands of the caller. *)
Lemma unref_dies ext pend db a d d' db' :
  dir_inv ext pend db -> dd_dirs db !! a = Some d -> 0 < ext a -> a ∉ pend -> dir_refs d = 1 ->
  dd_dirs db' = <[a := d']> (dd_dirs db) -> dd_table db' = dd_table db -> dd_next db' = dd_next db ->
  dd_stat_dirs db' = u32 (dd_stat_dirs db - 1) ->
  dir_name d' = dir_name d -> dir_ident d' = dir_ident d -> dir_refs d' = 0 -> dir_parent d' = dir_parent d ->
  match dir_parent d with
  | None => dir_inv (minus_one a ext) pend db'
  | Some pa => dir_inv (plus_one pa (minus_one a ext)) (a :: pend) db' /\ pa <> a
      /\ exists pd, dd_dirs db !! pa = Some pd /\ (length (dir_name pd) < length (dir_name d))%nat
  end.
Proof.
  intros Hi Ha He Hp Hr T1 T2 T3 T4 N1 N2 N3 N4. destruct (iv_refs _ _ _ Hi a d Ha) as [Hr1 Hr2].
  pose proof (children_nonneg db a) as Hc0. assert (children db a = 0) as Hch by lia.
  assert (live d = true) as Hl by (apply live_refs; lia). assert (live d' = false) as Hl' by (by apply dead_refs).
  pose proof (iv_parent _ _ _ Hi a d Ha Hl Hp) as Hpo.
  assert (replaced a d d' db db') as Hrep by (split; try done; rewrite T4, Hl, Hl'; f_equal; simpl; lia).
  destruct (dir_parent d) as [pa|] eqn:Epar.
  - assert (exists pd, dd_dirs db !! pa = Some pd /\ (length (dir_name pd) < length (dir_name d))%nat) as (pd & Hpd & Hlen).
    { unfold parent_ok in Hpo. destruct (dir_name d) eqn:En; [congruence |]. destruct Hpo as (pa' & pd & ? & ? & _ & Hpn).
      assert (pa' = pa) as -> by congruence. exists pd. split; [done |]. rewrite Hpn. by apply dirname_short. }
    assert (pa <> a) as Hne by (intros ->; assert (pd = d) as -> by congruence; lia).
    split_and!; [| done | by exists pd].
    assert (forall b, cnt d b = if decide (b = pa) then 1 else 0) as Hcnt by (intros; by apply cnt_some).
    apply (replaced_inv ext _ pend _ a d d' db db'); try done.
    + set_solver.
    + intros b. unfold plus_one, minus_one. destruct (iv_ext _ _ _ Hi b).
      destruct (decide (b = pa)) as [->|]; [rewrite decide_False by done; split; [lia | congruence] |].
      case_decide; [| done]. subst. split; [lia | congruence].
    + intros b Hb _. rewrite Hcnt, (cnt_dead d') by done. unfold plus_one, minus_one. rewrite (decide_False (P := b = a)) by done.
      case_decide; lia.
    + rewrite Hcnt, (cnt_dead d'), Hch by done. unfold plus_one, minus_one. destruct (decide (a = pa)); [done |]. rewrite decide_True by done. lia.
    + lia.
    + congruence.
    + intros [[? _]|[_ Hn]]; [congruence | set_solver].
  - apply (replaced_inv ext _ pend _ a d d' db db'); try done.
    + intros b. unfold minus_one. destruct (iv_ext _ _ _ Hi b). case_decide; [| done]. subst. split; [lia | congruence].
    + intros b Hb _. rewrite (cnt_none d), (cnt_dead d') by done. unfold minus_one. rewrite decide_False by done. lia.
    + rewrite (cnt_none d), (cnt_dead d'), Hch by done. unfold minus_one. rewrite decide_True by done. lia.
    + lia.
    + congruence.
Qed.

(** The final update of a dead directory. *)
Lemma clear_parent_inv ext pend a d d' db db' :
  dir_inv ext (a :: pend) db -> dd_dirs db !! a = Some d -> live d = false -> a ∉ pend ->
  dd_dirs db' = <[a := d']> (dd_dirs db) -> dd_table db' = dd_table db -> dd_next db' = dd_next db ->
  dd_stat_dirs db' = dd_stat_dirs db ->
  dir_name d' = dir_name d -> dir_ident d' = dir_ident d -> dir_refs d' = dir_refs d -> dir_parent d' = None ->
  dir_inv ext pend db'.
Proof.
  intros Hi Ha Hd Hp T1 T2 T3 T4 N1 N2 N3 N4. assert (live d' = false) as Hd' by (unfold live in *; by rewrite N3).
  apply (replaced_inv ext ext (a :: pend) pend a d d' db db'); try done.
  - split; try done. rewrite T4, Hd, Hd', (iv_stat _ _ _ Hi), u32_add_u32. f_equal. simpl. lia.
  - set_solver.
  - apply Hi.
  - intros b _ _. rewrite !cnt_dead by done. lia.
  - rewrite !cnt_dead, N3 by done. destruct (iv_refs _ _ _ Hi a d Ha). lia.
  - rewrite N3. by apply (iv_refs _ _ _ Hi a d Ha).
  - congruence.
  - congruence.
Qed.

Lemma dir_unref_spec simulate rm fuel a d ext pend db :
  dir_inv ext pend db -> dd_dirs db !! a = Some d -> 0 < ext a -> a ∉ pend -> (length (dir_name d) < fuel)%nat ->
  (forall b e, b ∈ pend -> dd_dirs db !! b = Some e -> (length (dir_name d) < length (dir_name e))%nat) ->
  exists db', apk_db_dir_unref simulate fuel rm a db = Some db' /\ released ext pend db a d db'.
Proof.
  revert a d ext pend db. induction fuel as [|fuel IH]; intros a d ext pend db Hi Ha He Hp Hf Hlong; [lia |].
  cbn [apk_db_dir_unref]. destruct (iv_refs _ _ _ Hi a d Ha) as [Hr1 Hr2]. pose proof (children_nonneg db a).
  set (db1 := upd_dir a _ db). set (d1 := set_dir_refs (u16 (dir_refs d - 1)) d).
  assert (dd_dirs db1 = <[a := d1]> (dd_dirs db)) as Hdirs1 by (unfold db1, upd_dir; simpl; by rewrite (dir_at_lookup db a d Ha)).
  assert (dir_refs d1 = dir_refs d - 1) as Hrd1 by (simpl; unfold u16; rewrite Z.mod_small; lia).
  rewrite (dir_at_lookup db1 a d1) by (by rewrite Hdirs1, lookup_insert_eq). rewrite Hrd1.
  destruct (0 <? dir_refs d - 1) eqn:Epos; bool_prop.
  { exists db1. split; [done |]. apply unref_live; [done.. | lia]. }
  assert (dir_refs d = 1) as Hone by lia.
  set (db2 := upd_dir a (set_dir_diris []) _). set (d2 := set_dir_diris [] d1).
  assert (dd_dirs db2 = <[a := d2]> (dd_dirs db)) as Hdirs2.
  { unfold db2, upd_dir. cbn [dd_dirs set_dd_dirs set_dd_stat_dirs]. unfold dir_at. cbn [dd_dirs set_dd_dirs set_dd_stat_dirs].
    by rewrite Hdirs1, lookup_insert_eq, insert_insert_eq. }
  rewrite (dir_at_lookup db2 a d2) by (by rewrite Hdirs2, lookup_insert_eq).
  destruct (iv_clean _ _ _ Hi a d Ha) as [Hc Hnl]. change (dir_namelen d2) with (dir_namelen d).
  assert (dir_namelen d = Z.of_nat (length (dir_name d))) as -> by (unfold dir_ident in Hnl; congruence).
  pose proof (iv_parent _ _ _ Hi a d Ha ltac:(apply live_refs; lia) Hp) as Hpo.
  assert (dd_table db2 = dd_table db /\ dd_next db2 = dd_next db /\ dd_stat_dirs db2 = u32 (dd_stat_dirs db - 1)) as (T2 & T3 & T4)
    by done.
  assert (dd_dirs db2 !! a = Some d2) as Ha2 by (by rewrite Hdirs2, lookup_insert_eq). clearbody db2.
  (* every state from here on is [db2] with other flags of [a] *)
  assert (forall d' db', dd_dirs db' = <[a := d']> (dd_dirs db) -> dd_table db' = dd_table db -> dd_next db' = dd_next db ->
    dd_stat_dirs db' = u32 (dd_stat_dirs db - 1) -> same_shape d2 d' ->
    match dir_parent d with
    | None => dir_inv (minus_one a ext) pend db'
    | Some pa => dir_inv (plus_one pa (minus_one a ext)) (a :: pend) db' /\ pa <> a
        /\ exists pd, dd_dirs db !! pa = Some pd /\ (length (dir_name pd) < length (dir_name d))%nat
    end) as Hdies.
  { clear T2 T3 T4. intros d' db' T1 T2 T3 T4 (S1 & S2 & S3 & S4). apply (unref_dies ext pend db a d d' db'); try done.
    rewrite S3. change (dir_refs d2) with (dir_refs d1). lia. }
  destruct (dir_name d) as [|c nm] eqn:En.
  - simpl. set (db3 := upd_dir a _ db2). eexists. split; [done |].
    assert (dd_dirs db3 = <[a := set_dir_permissions_ok false (set_dir_created false d2)]> (dd_dirs db)) as Hdirs3.
    { unfold db3. by rewrite (upd_dir_dirs _ _ _ d2), Hdirs2, insert_insert_eq. }
    unfold parent_ok in Hpo. rewrite En in Hpo. rewrite Hpo in Hdies.
    destruct (replaced_frame a d (set_dir_permissions_ok false (set_dir_created false d2)) db db3 Ha Hdirs3 eq_refl) as [F1 F2].
    split; [| done | done]. by eapply Hdies.
  - rewrite (proj2 (Z.eqb_neq _ _)) by (simpl; lia).
    set (db3 := if rm then _ else _).
    assert (exists d3, dd_dirs db3 = <[a := d3]> (dd_dirs db) /\ same_shape d2 d3 /\ dd_table db3 = dd_table db
      /\ dd_next db3 = dd_next db /\ dd_stat_dirs db3 = u32 (dd_stat_dirs db - 1)) as (d3 & Hdirs3 & Hs3 & T2' & T3' & T4').
    { unfold db3. destruct rm; [| by exists d2]. exists (set_dir_modified true d2).
      assert (dd_dirs (upd_dir a (set_dir_modified true) db2) = <[a := set_dir_modified true d2]> (dd_dirs db)) as H3.
      { by rewrite (upd_dir_dirs _ _ _ d2), Hdirs2, insert_insert_eq. }
      destruct simulate; split_and!; try done. }
    clearbody db3. specialize (Hdies d3 db3 Hdirs3 T2' T3' T4' Hs3).
    assert (dd_dirs db3 !! a = Some d3) as Ha3 by (by rewrite Hdirs3, lookup_insert_eq).
    rewrite (dir_at_lookup db3 a d3) by done. destruct Hs3 as (S1 & S2 & S3 & S4). rewrite S4. change (dir_parent d2) with (dir_parent d).
    destruct (dir_parent d) as [pa|] eqn:Epar; [| unfold parent_ok in Hpo; rewrite En, Epar in Hpo; by destruct Hpo as (?&?&?&_)].
    destruct Hdies as (Hi3 & Hne & pd & Hpd & Hlen).
    assert (dd_dirs db3 !! pa = Some pd) as Hpd3 by (by rewrite Hdirs3, lookup_insert_ne).
    destruct (IH pa pd (plus_one pa (minus_one a ext)) (a :: pend) db3 Hi3 Hpd3) as (db4 & Hu & [R1 R2 R3]).
    + unfold plus_one. rewrite decide_True by done. unfold minus_one. rewrite decide_False by done.
      pose proof (proj1 (iv_ext _ _ _ Hi pa)). lia.
    + intros [|Hpp]%elem_of_cons; [done |]. pose proof (Hlong pa pd Hpp Hpd). lia.
    + lia.
    + intros b e [->|Hb]%elem_of_cons Hbe.
      * assert (e = d3) as -> by congruence. rewrite S1. change (dir_name d2) with (dir_name d). rewrite En. done.
      * assert (b <> a) as Hba by (by intros ->). rewrite Hdirs3, lookup_insert_ne in Hbe by done.
        specialize (Hlong b e Hb Hbe). lia.
    + assert (dd_dirs db4 !! a = Some d3) as Ha4.
      { apply R2; [done |]. rewrite S1. change (dir_name d2) with (dir_name d). by rewrite En. }
      rewrite Hu. simpl. set (g := fun d => set_dir_permissions_ok false _). eexists. split; [done |].
      set (db5 := upd_dir a g _). assert (dd_dirs db5 = <[a := g (set_dir_parent None d3)]> (dd_dirs db4)) as Hdirs5
        by (by apply upd_dir_twice).
      assert (live d3 = false) as Hd3 by (apply dead_refs; rewrite S3; change (dir_refs d2) with (dir_refs d1); lia).
      split.
      * apply (dir_inv_ext (minus_one pa (plus_one pa (minus_one a ext)))).
        { intros b. unfold minus_one, plus_one. repeat case_decide; lia. }
        eapply (clear_parent_inv _ pend a d3 (g (set_dir_parent None d3)) db4 db5); done.
      * intros b e Hb Hlb. assert (b <> a) as Hba by (intros ->; assert (e = d) as -> by congruence; rewrite En in Hlb; lia).
        rewrite Hdirs5, lookup_insert_ne by done. apply R2; [by rewrite Hdirs3, lookup_insert_ne |]. rewrite En in Hlb. lia.
      * intros b e Hb. rewrite Hdirs5. destruct (decide (b = a)) as [->|Hba].
        -- exists (g (set_dir_parent None d3)). rewrite lookup_insert_eq. split; [done |]. simpl. rewrite S1.
           assert (e = d) as -> by congruence. done.
        -- rewrite lookup_insert_ne by done. apply R3. by rewrite Hdirs3, lookup_insert_ne.
Qed.

(** ** Every reachable state *)

Section Reach.
Context (fnmatch : bytes -> bytes -> bool) (simulate : bool) (buckets : Z) (protected_paths : list apk_protected_path).

(** The callers get clean names, as long as no counter is at its limit, and release what
    they hold. *)
Inductive dir_reach : handles -> dir_db -> Prop :=
| reach_start : 0 < buckets -> dir_reach (fun _ => 0) (dir_init buckets protected_paths)
| reach_get ext db fuel name a db' :
    dir_reach ext db -> clean name -> (forall b d, dd_dirs db !! b = Some d -> dir_refs d < 2 ^ 16 - 1) ->
    apk_db_dir_get fnmatch fuel name db = Some (a, db') -> dir_reach (plus_one a ext) db'
| reach_unref ext db fuel rm a db' :
    dir_reach ext db -> 0 < ext a -> apk_db_dir_unref simulate fuel rm a db = Some db' -> dir_reach (minus_one a ext) db'.

Lemma dir_init_inv : 0 < buckets -> dir_inv (fun _ => 0) [] (dir_init buckets protected_paths).
Proof.
  intros Hb. assert (hash_wf (apk_hash_init (V := dir_item) buckets)) as Hw by (by apply apk_hash_init_wf).
  split; simpl; try done.
  - intros k it. rewrite apk_hash_get_items by done. by rewrite apk_hash_init_items.
  - by intros a ?%elem_of_nil.
Qed.

(** More fuel gives the same result. *)
Lemma dir_get_mono fuel fuel' name db r :
  (fuel <= fuel')%nat -> apk_db_dir_get fnmatch fuel name db = Some r -> apk_db_dir_get fnmatch fuel' name db = Some r.
Proof.
  revert fuel' name db r. induction fuel as [|fuel IH]; intros [|fuel'] name db r Hle; try done; [lia |].
  cbn [apk_db_dir_get]. assert (forall n a db r, dir_revive fnmatch (apk_db_dir_get fnmatch fuel) n a db = Some r ->
    dir_revive fnmatch (apk_db_dir_get fnmatch fuel') n a db = Some r) as Hrev.
  { intros n a db0 r0. unfold dir_revive. destruct n as [|c n]; [done |]. set (db1 := upd_dir a _ _).
    destruct (apk_blob_rsplit (c :: n) (chr "/")) as [[l ?]|].
    - destruct (apk_db_dir_get fnmatch fuel l db1) eqn:E; [| done]. by rewrite (IH fuel' _ _ _ ltac:(lia) E).
    - destruct (apk_db_dir_get fnmatch fuel [] db1) eqn:E; [| done]. by rewrite (IH fuel' _ _ _ ltac:(lia) E). }
  destruct (di_addr <$> _) as [a|]; [case_if; [done | apply Hrev] |]. destruct (new_dir _ _ _) as [a db1]. apply Hrev.
Qed.

Lemma dir_unref_mono fuel fuel' rm a db r :
  (fuel <= fuel')%nat -> apk_db_dir_unref simulate fuel rm a db = Some r -> apk_db_dir_unref simulate fuel' rm a db = Some r.
Proof.
  revert fuel' a db r. induction fuel as [|fuel IH]; intros [|fuel'] a db r Hle; try done; [lia |].
  cbn [apk_db_dir_unref]. set (db1 := upd_dir a _ db). destruct (0 <? _); [done |].
  set (db2 := upd_dir a (set_dir_diris []) _). destruct (dir_namelen _ =? 0); [done |]. set (db3 := if rm then _ else _).
  destruct (dir_parent (dir_at db3 a)) as [pa|]; [| done].
  destruct (apk_db_dir_unref simulate fuel rm pa db3) eqn:E; [| done]. by rewrite (IH fuel' _ _ _ ltac:(lia) E).
Qed.

Lemma dir_reach_inv ext db : dir_reach ext db -> dir_inv ext [] db.
Proof.
  induction 1 as [Hb|ext db fuel name a db' _ IH Hc Hbound Hget|ext db fuel rm a db' _ IH He Hun]; [by apply dir_init_inv | |].
  - destruct (dir_get_spec fnmatch (S (fuel + length name)) name ext [] db) as (a' & db'' & Hget' & [Hi _ _ _]).
    { split_and!; [done | done | by intros ? ? ?%elem_of_nil | done]. }
    { lia. }
    apply (dir_get_mono _ (S (fuel + length name))) in Hget; [| lia]. by simplify_eq.
  - destruct (dd_dirs db !! a) as [d|] eqn:Ea; [| pose proof (proj2 (iv_ext _ _ _ IH a) Ea); lia].
    destruct (dir_unref_spec simulate rm (S (fuel + length (dir_name d))) a d ext [] db) as (db'' & Hun' & [Hi _ _]);
      [done | done | done | by intros ?%elem_of_nil | lia | by intros ? ? ?%elem_of_nil |].
    apply (dir_unref_mono _ (S (fuel + length (dir_name d)))) in Hun; [| lia]. by simplify_eq.
Qed.

(** One get adds at most one reference to every directory and changes no owner. *)
Definition soft_dirs (limit : Z) (owner_ok : option nat -> Prop) (db : dir_db) : Prop :=
  forall b, 0 <= dir_refs (dir_at db b) <= limit /\ owner_ok (dir_owner (dir_at db b)).

Lemma dir_at_upd a f db b : dir_at (upd_dir a f db) b = if decide (b = a) then f (dir_at db a) else dir_at db b.
Proof. unfold dir_at at 1, upd_dir. simpl. case_decide as E; [subst; by rewrite lookup_insert_eq | by rewrite lookup_insert_ne]. Qed.

Lemma soft_upd limit ok a f db :
  soft_dirs limit ok db -> (0 <= dir_refs (f (dir_at db a)) <= limit /\ ok (dir_owner (f (dir_at db a)))) -> soft_dirs limit ok (upd_dir a f db).
Proof. intros Hs Hf b. rewrite dir_at_upd. by case_decide. Qed.

Lemma match_ppaths_owner pps d : dir_owner (match_ppaths fnmatch pps d) = dir_owner d.
Proof.
  unfold match_ppaths. generalize (basename (dir_name d)). intros n.
  assert (forall s, dir_owner (each (match_ppath fnmatch n) pps s).2 = dir_owner s.2) as H.
  { induction pps as [|pp pps IH]; intros s; simpl; [done |]. rewrite IH. destruct s as [l e]. unfold match_ppath.
    destruct (apk_blob_split _ _) as [[]|]; by case_if. }
  specialize (H ([], d)). by destruct (each _ pps _) as [l e].
Qed.

Lemma match_ppaths_refs pps d : dir_refs (match_ppaths fnmatch pps d) = dir_refs d.
Proof. by destruct (match_ppaths_shape fnmatch pps d) as (_ & _ & ? & _). Qed.

Lemma dir_get_soft fuel name db a db' limit ok :
  1 <= limit < 2 ^ 16 - 1 -> ok None -> apk_db_dir_get fnmatch fuel name db = Some (a, db') ->
  soft_dirs limit ok db -> soft_dirs (limit + 1) ok db'.
Proof.
  intros Hl Hok. revert name db a db'. induction fuel as [|fuel IH]; intros name db a db'; [done |]. cbn [apk_db_dir_get].
  assert (forall n a0 db0, soft_dirs limit ok db0 -> dir_revive fnmatch (apk_db_dir_get fnmatch fuel) n a0 db0 = Some (a, db') -> soft_dirs (limit + 1) ok db') as Hrev.
  { intros n a0 db0 Hs. unfold dir_revive.
    set (db1 := upd_dir a0 (fun d => set_dir_diris [] (set_dir_refs 1 d)) (set_dd_stat_dirs _ db0)).
    assert (soft_dirs limit ok db1) as Hs1 by (apply soft_upd; [done |]; simpl; split; [lia | apply Hs]).
    assert (forall d b, soft_dirs limit ok d -> 0 <= dir_refs (dir_at d b) <= limit + 1 /\ ok (dir_owner (dir_at d b))) as Hw.
    { intros d b Hd. destruct (Hd b). split; [lia | done]. }
    destruct n as [|c n].
    { intros [= <- <-]. apply soft_upd; [by intros b; apply Hw |]. by apply Hw. }
    destruct (apk_blob_rsplit (c :: n) (chr "/")) as [[bp ?]|].
    - destruct (apk_db_dir_get fnmatch fuel bp db1) as [[pa db2]|] eqn:Eg; [| done]. intros [= <- <-]. apply IH in Eg; [| done].
      apply soft_upd; [apply soft_upd; [done |] |]; [by apply (Eg a0) |]. rewrite match_ppaths_owner, match_ppaths_refs.
      rewrite dir_at_upd, decide_True by done. by apply (Eg a0).
    - destruct (apk_db_dir_get fnmatch fuel [] db1) as [[pa db2]|] eqn:Eg; [| done]. intros [= <- <-]. apply IH in Eg; [| done].
      apply soft_upd; [apply soft_upd; [done |] |]; [by apply (Eg a0) |]. rewrite match_ppaths_owner, match_ppaths_refs.
      rewrite dir_at_upd, decide_True by done. by apply (Eg a0). }
  intros Hget Hs. revert Hget. destruct (di_addr <$> _) as [a0|].
  - case_if; [| by apply Hrev]. intros [= <- <-]. unfold apk_db_dir_ref. destruct (Hs a0) as [Hr Ho].
    apply soft_upd; [intros b; destruct (Hs b); split; [lia | done] |]. simpl. unfold u16. rewrite Z.mod_small by lia. split; [lia | done].
  - destruct (new_dir _ _ _) as [a0 db0] eqn:En. apply Hrev. unfold new_dir in En. simplify_eq. intros b. unfold dir_at. simpl.
    destruct (decide (b = dd_next db)) as [->|]; [rewrite lookup_insert_eq; simpl; split; [lia | done] |].
    rewrite lookup_insert_ne by done. apply (Hs b).
Qed.

(** [b] is [a] or lies below it, along live directories. *)
Inductive below (db : dir_db) (a : nat) : nat -> Prop :=
| below_refl : below db a a
| below_child b c d : below db a b -> dd_dirs db !! c = Some d -> live d = true -> dir_parent d = Some b -> below db a c.

Lemma child_longer ext db b c d e :
  dir_inv ext [] db -> dd_dirs db !! c = Some d -> live d = true -> dir_parent d = Some b -> dd_dirs db !! b = Some e ->
  (length (dir_name e) < length (dir_name d))%nat /\ live e = true.
Proof.
  intros Hi Hc Hl Hp Hb. pose proof (iv_parent _ _ _ Hi c d Hc Hl ltac:(by intros ?%elem_of_nil)) as Hpo. unfold parent_ok in Hpo.
  destruct (dir_name d) eqn:En; [congruence |]. destruct Hpo as (pa & pd & H1 & H2 & H3 & H4). simplify_eq.
  rewrite H4. split; [by apply dirname_short | done].
Qed.

Lemma live_child db a : 0 < children db a -> exists c d, dd_dirs db !! c = Some d /\ live d = true /\ dir_parent d = Some a.
Proof.
  intros H. unfold children in H. destruct (map_choose (filter (fun kd : nat * apk_db_dir =>
    live kd.2 && bool_decide (dir_parent kd.2 = Some a) = true) (dd_dirs db))) as (c & d & Hc).
  { intros E. rewrite E in H. by rewrite map_size_empty in H. }
  apply map_lookup_filter_Some in Hc as [Hc Hb]. simpl in Hb. apply andb_true_iff in Hb as [Hl Hp%bool_decide_eq_true]. eauto.
Qed.

Lemma held_below ext db n a d :
  dir_inv ext [] db -> dd_dirs db !! a = Some d -> live d = true -> 2 ^ 16 - Z.of_nat (length (dir_name d)) < Z.of_nat n ->
  exists b, 0 < ext b /\ below db a b.
Proof.
  intros Hi. revert a d. induction n as [|n IH]; intros a d Ha Hl Hn; [pose proof (clean_len _ (proj1 (iv_clean _ _ _ Hi a d Ha))); lia |].
  destruct (iv_refs _ _ _ Hi a d Ha) as [Hr _]. apply live_refs in Hl. destruct (iv_ext _ _ _ Hi a) as [He _].
  pose proof (children_nonneg db a). destruct (decide (0 < ext a)) as [|Hz]; [exists a; split; [done | constructor] |].
  destruct (live_child db a) as (c & e & Hc & Hle & Hpe); [lia |].
  destruct (child_longer ext db a c e d) as [Hlen _]; [done.. |].
  pose proof (clean_len _ (proj1 (iv_clean _ _ _ Hi c e Hc))) as Hcl.
  destruct (IH c e Hc Hle) as (b & Hb1 & Hb2); [lia |]. exists b. split; [done |]. clear -Hb2 Hc Hle Hpe.
  induction Hb2 as [|b c' d' _ IHb ? ? ?]; [by eapply below_child; [constructor | ..] | by eapply below_child].
Qed.

Lemma below_live ext db a b : dir_inv ext [] db -> below db a b -> forall d e, dd_dirs db !! b = Some d -> live d = true ->
  dd_dirs db !! a = Some e -> live e = true.
Proof.
  intros Hi. induction 1 as [|b c d0 _ IH Hc Hl Hp]; intros d e Hd Hld Ha; [congruence |].
  pose proof (iv_parent _ _ _ Hi c d0 Hc Hl ltac:(by intros ?%elem_of_nil)) as Hpo. unfold parent_ok in Hpo.
  destruct (dir_name d0); [congruence |]. destruct Hpo as (pa & pd & ? & Hpa & Hlp & _).
  assert (pa = b) as -> by congruence. by eapply (IH pd).
Qed.

(** C29: directory references are counted exactly.  In every state the callers can
    reach by getting and releasing directories under clean names, no two directory objects
    share a name; the counter of a directory is the number of references held on it plus the
    number of its live subdirectories; a directory is live exactly when a reference is held
    on it or on a directory below it; and the statistics count the live directories.
    Getting a clean name and releasing a held directory always succeed. *)
Theorem dir_references_exact ext db :
  dir_reach ext db ->
  (forall a b d e, dd_dirs db !! a = Some d -> dd_dirs db !! b = Some e -> dir_name d = dir_name e -> a = b) /\
  (forall a d, dd_dirs db !! a = Some d ->
     dir_refs d = ext a + children db a /\ (dir_refs d <> 0 <-> exists b, 0 < ext b /\ below db a b)) /\
  dd_stat_dirs db = u32 (num_live db) /\
  (forall name, clean name -> (forall b d, dd_dirs db !! b = Some d -> dir_refs d < 2 ^ 16 - 1) ->
     exists a db' d, apk_db_dir_get fnmatch (S (length name)) name db = Some (a, db') /\
       dd_dirs db' !! a = Some d /\ dir_name d = name /\ dir_reach (plus_one a ext) db') /\
  (forall a d rm, 0 < ext a -> dd_dirs db !! a = Some d ->
     exists db', apk_db_dir_unref simulate (S (length (dir_name d))) rm a db = Some db' /\ dir_reach (minus_one a ext) db').
Proof.
  intros Hr. pose proof (dir_reach_inv ext db Hr) as Hi. split_and!.
  - intros a b d e Ha Hb Hn. pose proof (iv_found _ _ _ Hi a d Ha) as H1. pose proof (iv_found _ _ _ Hi b e Hb) as H2.
    rewrite Hn in H1. congruence.
  - intros a d Ha. destruct (iv_refs _ _ _ Hi a d Ha) as [Hrefs _]. split; [done |]. rewrite <- live_refs. split.
    + intros Hl. by eapply (held_below ext db (Z.to_nat 131072) a d); [| | | lia].
    + intros (b & Hb & Hbelow). destruct (dd_dirs db !! b) as [e|] eqn:Eb; [| pose proof (proj2 (iv_ext _ _ _ Hi b) Eb); lia].
      eapply (below_live ext db a b); [done | done | exact Eb | | done]. apply live_refs.
      destruct (iv_refs _ _ _ Hi b e Eb). pose proof (children_nonneg db b). lia.
  - apply Hi.
  - intros name Hc Hb. destruct (dir_get_spec fnmatch (S (length name)) name ext [] db) as (a & db' & Hget & [_ (d & Hd & Hn & _) _ _]).
    { split_and!; [done | done | by intros ? ? ?%elem_of_nil | done]. }
    { lia. }
    exists a, db', d. split_and!; try done. by eapply reach_get.
  - intros a d rm He Ha. destruct (dir_unref_spec simulate rm (S (length (dir_name d))) a d ext [] db) as (db' & Hun & _);
      [done | done | done | by intros ?%elem_of_nil | lia | by intros ? ? ?%elem_of_nil |].
    exists db'. split; [done |]. by eapply reach_unref.
Qed.
End Reach.

(** One reference on [etc]: the root directory lives because of it. *)
Definition ex_fnmatch (pattern name : bytes) : bool := bool_decide (pattern = name).
Definition ex_dirs : nat * dir_db := default (0%nat, dir_init 5 []) (apk_db_dir_get ex_fnmatch 4 (lit "etc") (dir_init 5 [])).

Lemma dir_references_exact_witness :
  dir_refs (dir_at ex_dirs.2 1) <> 0 <-> exists b, 0 < plus_one 0 (fun _ => 0) b /\ below ex_dirs.2 1 b.
Proof.
  refine (proj2 (proj1 (proj2 (dir_references_exact ex_fnmatch false 5 [] (plus_one 0 (fun _ => 0)) ex_dirs.2 _)) 1%nat _ _)).
  - eapply (reach_get _ _ _ _ _ _ 4 (lit "etc")); [apply reach_start; lia | | | vm_compute; reflexivity].
    + split; [simpl; lia | done |]. intros l r H. destruct l as [|? [|? [|? []]]]; simplify_eq.
    + intros b d H. simpl in H. by apply lookup_empty_Some in H.
  - vm_compute. reflexivity.
Defined.

(** Getting [etc] and then [etc/]. *)
Definition get_twice (first second : bytes) : option (nat * nat * bytes * bytes) :=
  r1 ← apk_db_dir_get (fun p s => bool_decide (p = s)) 10 first (dir_init 20000 []);
  r2 ← apk_db_dir_get (fun p s => bool_decide (p = s)) 10 second r1.2;
  Some (r1.1, r2.1, dir_name (dir_at r2.2 r1.1), dir_name (dir_at r2.2 r2.1)).

(** The trailing slash of a name is removed only after its hash was computed:
    getting [etc] and then [etc/] gives two different directories that are both named
    [etc], whereas getting [etc] twice gives one. *)
Theorem dir_get_trailing_slash :
  get_twice (lit "etc") (lit "etc") = Some (0%nat, 0%nat, lit "etc", lit "etc") /\
  get_twice (lit "etc") (lit "etc/") = Some (0%nat, 2%nat, lit "etc", lit "etc").
Proof. split; vm_compute; reflexivity. Qed.
