(* ===== verification/Installed.v ===== *)
(** * Directory instances and files of installed packages (database.c)

    While a package is read or installed, [struct apk_ipkg_creator] collects its
    directory instances and the files of the current one.  Instances and files are
    objects in maps; a directory is found by binary search in the sorted part of the
    array and linearly in the rest, a file by a hash table over directory and name. *)

From S2P Require Import Prelude Blob BlobCodec Digest Hash Dirs Catalog.

(** ** Objects *)

Record apk_db_file := mk_file {
  f_diri : nat;
  f_acl : apk_db_acl;
  f_audited : bool;
  f_broken : bool;
  f_digest_alg : Z;
  f_digest : bytes;      (* the first [apk_digest_alg_len] bytes of the array *)
  f_namelen : Z;         (* unsigned char *)
  f_name : bytes;
}.

Definition eta_file (s : apk_db_file) : apk_db_file :=
  mk_file (f_diri s) (f_acl s) (f_audited s) (f_broken s) (f_digest_alg s) (f_digest s) (f_namelen s) (f_name s).
Definition set_f_diri v (s : apk_db_file) : apk_db_file := ltac:(record_set eta_file f_diri s v).
Definition set_f_acl v (s : apk_db_file) : apk_db_file := ltac:(record_set eta_file f_acl s v).
Definition set_f_digest alg v (s : apk_db_file) : apk_db_file :=
  mk_file (f_diri s) (f_acl s) (f_audited s) (f_broken s) alg v (f_namelen s) (f_name s).

(** The name as the searches see it. *)
Definition file_key (f : apk_db_file) : bytes := take (Z.to_nat (f_namelen f)) (f_name f).
Definition dir_key (d : apk_db_dir) : bytes := take (Z.to_nat (dir_namelen d)) (dir_name d).

(** A digest longer than the array (SHA-1's 20 bytes) is not kept. *)
Definition apk_dbf_digest_set (alg : Z) (data : bytes) (f : apk_db_file) : apk_db_file :=
  let len := apk_digest_alg_len alg in
  if (20 <? len)%nat then set_f_digest APK_DIGEST_NONE (f_digest f) f
  else set_f_digest alg (take len data) f.

(** A pointer to a package: none, the template that is being read, or one of the table. *)
Inductive pkg_ref := Pkg_null | Pkg_tmpl | Pkg_at (a : nat).

#[global] Instance pkg_ref_eq_dec : EqDecision pkg_ref.
Proof. solve_decision. Defined.

Record apk_db_dir_instance := mk_diri {
  di_files : list nat;
  di_pkg : pkg_ref;
  di_dir : nat;
  di_acl : apk_db_acl;
}.

Definition set_di_files v (s : apk_db_dir_instance) : apk_db_dir_instance := mk_diri v (di_pkg s) (di_dir s) (di_acl s).
Definition set_di_pkg v (s : apk_db_dir_instance) : apk_db_dir_instance := mk_diri (di_files s) v (di_dir s) (di_acl s).
Definition set_di_acl v (s : apk_db_dir_instance) : apk_db_dir_instance := mk_diri (di_files s) (di_pkg s) (di_dir s) v.

Record apk_ipkg_creator := mk_ic {
  ic_diri : option nat;
  ic_diris : list nat;
  ic_files : list nat;
  ic_num_unsorted_diris : nat;
  ic_files_unsorted : bool;
}.

Definition ic0 : apk_ipkg_creator := mk_ic None [] [] 0 false.

(** [struct apk_db_file_hash_key] as one key: the length of the directory name first. *)
Definition file_hash_key (dirname filename : bytes) : bytes := Z.of_nat (length dirname) :: dirname ++ filename.

Record file_item := mk_file_item { fi_addr : nat; fi_key : bytes }.

Definition apk_db_file_hash_key (key : bytes) : Z :=
  match key with
  | [] => 0
  | n :: rest => apk_blob_hash_seed (drop (Z.to_nat n) rest) (apk_blob_hash (take (Z.to_nat n) rest))
  end.

(** The two parts of such a key; no other bytes are used as keys. *)
Definition file_key_parts (key : bytes) : option (bytes * bytes) :=
  match key with
  | [] => None
  | n :: rest => if (0 <=? n) && (n <=? Z.of_nat (length rest)) then Some (take (Z.to_nat n) rest, drop (Z.to_nat n) rest) else None
  end.

(** The names of the files first, then their directories. *)
Definition apk_db_file_compare_item (item : file_item) (key : bytes) : Z :=
  match file_key_parts key, file_key_parts (fi_key item) with
  | Some (dirname, filename), Some (dir, name) =>
      let r := apk_blob_compare filename name in
      if negb (r =? 0) then r else apk_blob_compare dirname dir
  | _, _ => if bool_decide (key = fi_key item) then 0 else 1
  end.

#[global] Instance file_hash_ops : HashOps file_item := {|
  get_key := fi_key;
  hash_key := apk_db_file_hash_key;
  hash_item := Some (fun item => apk_db_file_hash_key (fi_key item));
  compare := None;
  compare_item := Some apk_db_file_compare_item;
  delete_item := false;
|}.

#[global] Instance file_item_compared : ItemCompared file_item.
Proof. by eexists. Defined.

Record inst_db := mk_inst {
  in_dirs : dir_db;
  in_diris : gmap nat apk_db_dir_instance;
  in_next_diri : nat;
  in_files : gmap nat apk_db_file;
  in_next_file : nat;
  in_table : apk_hash file_item;
  in_ic : apk_ipkg_creator;
  in_stat_files : Z;
}.

Definition eta_inst (s : inst_db) : inst_db :=
  mk_inst (in_dirs s) (in_diris s) (in_next_diri s) (in_files s) (in_next_file s) (in_table s) (in_ic s) (in_stat_files s).
Definition set_in_dirs v (s : inst_db) : inst_db := ltac:(record_set eta_inst in_dirs s v).
Definition set_in_diris v (s : inst_db) : inst_db := ltac:(record_set eta_inst in_diris s v).
Definition set_in_next_diri v (s : inst_db) : inst_db := ltac:(record_set eta_inst in_next_diri s v).
Definition set_in_files v (s : inst_db) : inst_db := ltac:(record_set eta_inst in_files s v).
Definition set_in_next_file v (s : inst_db) : inst_db := ltac:(record_set eta_inst in_next_file s v).
Definition set_in_table v (s : inst_db) : inst_db := ltac:(record_set eta_inst in_table s v).
Definition set_in_ic v (s : inst_db) : inst_db := ltac:(record_set eta_inst in_ic s v).
Definition set_in_stat_files v (s : inst_db) : inst_db := ltac:(record_set eta_inst in_stat_files s v).

Definition diri0 : apk_db_dir_instance := mk_diri [] Pkg_null 0 apk_default_acl_dir.
Definition file0 : apk_db_file := mk_file 0 apk_default_acl_file false false 0 [] 0 [].
Definition diri_at (db : inst_db) (a : nat) : apk_db_dir_instance := default diri0 (in_diris db !! a).
Definition file_at (db : inst_db) (a : nat) : apk_db_file := default file0 (in_files db !! a).
Definition upd_diri (a : nat) (f : apk_db_dir_instance -> apk_db_dir_instance) (db : inst_db) : inst_db :=
  set_in_diris (<[a := f (diri_at db a)]> (in_diris db)) db.
Definition upd_file (a : nat) (f : apk_db_file -> apk_db_file) (db : inst_db) : inst_db :=
  set_in_files (<[a := f (file_at db a)]> (in_files db)) db.

(** The names of an instance's directory and of a file. *)
Definition diri_name (db : inst_db) (a : nat) : bytes := dir_key (dir_at (in_dirs db) (di_dir (diri_at db a))).
Definition file_name (db : inst_db) (a : nat) : bytes := file_key (file_at db a).

(** ** Sorting and searching *)

(** [bsearch] of the C library: halves the range until an element compares equal. *)
Fixpoint bsearch {A : Type} (fuel : nat) (cmp : A -> Z) (l : list A) : option A :=
  match fuel with
  | O => None
  | S fuel =>
      let mid := Nat.div2 (length l) in
      match l !! mid with
      | None => None
      | Some x =>
          let r := cmp x in
          if r =? 0 then Some x
          else if r <? 0 then bsearch fuel cmp (take mid l)
          else bsearch fuel cmp (drop (S mid) l)
      end
  end.

Definition files_qsort_cmp (db : inst_db) (a b : nat) : Z := apk_blob_sort (file_name db a) (file_name db b).
Definition files_bsearch_cmp (db : inst_db) (name : bytes) (a : nat) : Z := apk_blob_sort name (file_name db a).
Definition diri_qsort_cmp (db : inst_db) (a b : nat) : Z := apk_blob_sort (diri_name db a) (diri_name db b).
Definition diri_bsearch_cmp (db : inst_db) (dirname : bytes) (a : nat) : Z := apk_blob_sort dirname (diri_name db a).

(** ** Files *)

Definition apk_db_file_query (db : inst_db) (dir name : bytes) : option nat :=
  fi_addr <$> apk_hash_get (in_table db) (file_hash_key (apk_blob_trim_end dir (chr "/")) name).

Definition apk_db_file_new (diri : nat) (name : bytes) (db : inst_db) : nat * inst_db :=
  let a := in_next_file db in
  let file := mk_file diri apk_default_acl_file false false APK_DIGEST_NONE [] (u8 (Z.of_nat (length name))) name in
  let db := set_in_next_file (S a) (set_in_files (<[a := file]> (in_files db)) db) in
  let ic := in_ic db in
  let files_unsorted :=
    match last (ic_files ic) with
    | Some l => if ic_files_unsorted ic then true else files_qsort_cmp db a l <? 0
    | None => ic_files_unsorted ic
    end in
  (a, set_in_ic (mk_ic (ic_diri ic) (ic_diris ic) (ic_files ic ++ [a]) (ic_num_unsorted_diris ic) files_unsorted) db).

Definition apk_db_file_get (diri : nat) (name : bytes) (db : inst_db) : nat * inst_db :=
  let dir := dir_at (in_dirs db) (di_dir (diri_at db diri)) in
  let key := file_hash_key (dir_key dir) name in
  let hash := apk_blob_hash_seed name (dir_hash dir) in
  match apk_hash_get_hashed (in_table db) key hash with
  | Some it => (fi_addr it, db)
  | None =>
      let '(a, db) := apk_db_file_new diri name db in
      let db := set_in_table (apk_hash_insert_hashed (in_table db) (mk_file_item a key) hash) db in
      (a, set_in_stat_files (u32 (in_stat_files db + 1)) db)
  end.

(** ** The creator *)

(** [apk_db_ipkg_creator_reset] keeps the files of the last instance. *)
Definition apk_db_ipkg_creator_reset (db : inst_db) : inst_db :=
  let ic := in_ic db in set_in_ic (mk_ic None [] (ic_files ic) 0 (ic_files_unsorted ic)) db.

(** [diris]: the instances a package that is installed already has. *)
Definition apk_db_ipkg_create (diris : list nat) (db : inst_db) : inst_db :=
  let db := apk_db_ipkg_creator_reset db in
  let ic := in_ic db in
  set_in_ic (mk_ic (ic_diri ic) diris (ic_files ic) (ic_num_unsorted_diris ic) (ic_files_unsorted ic)) db.

Definition apk_db_ipkg_commit_files (db : inst_db) : inst_db :=
  let ic := in_ic db in
  let db :=
    match ic_diri ic with
    | Some diri =>
        let files := if ic_files_unsorted ic then qsort (files_qsort_cmp db) (ic_files ic) else ic_files ic in
        upd_diri diri (set_di_files files) db
    | None => db
    end in
  set_in_ic (mk_ic (ic_diri ic) (ic_diris ic) [] (ic_num_unsorted_diris ic) false) db.

(** The instances of the package, which are also linked to their directories. *)
Definition apk_db_ipkg_commit (db : inst_db) : list nat * inst_db :=
  let db := apk_db_ipkg_commit_files db in
  let diris := ic_diris (in_ic db) in
  let db := each (fun diri db => set_in_dirs (upd_dir (di_dir (diri_at db diri))
    (fun d => set_dir_diris (dir_diris d ++ [diri]) d) (in_dirs db)) db) diris db in
  (diris, apk_db_ipkg_creator_reset db).

Definition apk_db_diri_bsearch (dirname : bytes) (db : inst_db) : option nat * inst_db :=
  let ic := in_ic db in
  let db :=
    if (32 <? ic_num_unsorted_diris ic)%nat
    then set_in_ic (mk_ic (ic_diri ic) (qsort (diri_qsort_cmp db) (ic_diris ic)) (ic_files ic) 0 (ic_files_unsorted ic)) db
    else db in
  let diris := ic_diris (in_ic db) in
  let last_sorted := (length diris - ic_num_unsorted_diris (in_ic db))%nat in
  match bsearch (length diris) (diri_bsearch_cmp db dirname) (take last_sorted diris) with
  | Some diri => (Some diri, db)
  | None => (List.find (fun diri => diri_bsearch_cmp db dirname diri =? 0) (drop last_sorted diris), db)
  end.

Definition apk_db_diri_query (dirname : bytes) (db : inst_db) : option nat * inst_db :=
  match ic_diri (in_ic db) with
  | Some diri => if diri_bsearch_cmp db dirname diri =? 0 then (Some diri, db) else apk_db_diri_bsearch dirname db
  | None => apk_db_diri_bsearch dirname db
  end.

Definition apk_db_diri_select (diri : nat) (db : inst_db) : inst_db :=
  if bool_decide (ic_diri (in_ic db) = Some diri) then db
  else
    let db := apk_db_ipkg_commit_files db in
    let ic := in_ic db in
    set_in_ic (mk_ic (Some diri) (ic_diris ic) (di_files (diri_at db diri)) (ic_num_unsorted_diris ic) (ic_files_unsorted ic)) db.

Section Creator.
Context (fnmatch : bytes -> bytes -> bool).

(** A new instance at the end of the array; it belongs to the sorted part when nothing is
    unsorted and it comes after the last one.  [res] compares the name with the current
    instance; [None]: the fuel for the directory is too small. *)
Definition diri_new (fuel : nat) (dirname : bytes) (pkg : pkg_ref) (res : Z) (db : inst_db) : option (nat * inst_db) :=
  r ← apk_db_dir_get fnmatch fuel dirname (in_dirs db);
  let '(dir, dirs) := r in
  let diri := in_next_diri db in
  let db := set_in_dirs dirs db in
  let db := set_in_next_diri (S diri)
    (set_in_diris (<[diri := mk_diri [] pkg dir apk_default_acl_dir]> (in_diris db)) db) in
  let ic := in_ic db in
  let res :=
    if negb (ic_num_unsorted_diris ic =? 0)%nat then -1
    else match last (ic_diris ic) with
         | Some l => if bool_decide (ic_diri ic = Some l) then res else diri_bsearch_cmp db dirname l
         | None => res
         end in
  let n := if res <? 0 then S (ic_num_unsorted_diris ic) else ic_num_unsorted_diris ic in
  Some (diri, set_in_ic (mk_ic (ic_diri ic) (ic_diris ic ++ [diri]) (ic_files ic) n (ic_files_unsorted ic)) db).

Definition apk_db_diri_get (fuel : nat) (dirname : bytes) (pkg : pkg_ref) (db : inst_db) : option (nat * inst_db) :=
  let res := match ic_diri (in_ic db) with Some diri => diri_bsearch_cmp db dirname diri | None => 1 end in
  match ic_diri (in_ic db), res =? 0 with
  | Some diri, true => Some (diri, db)
  | _, _ =>
      let '(found, db) := apk_db_diri_bsearch dirname db in
      r ← match found with Some diri => Some (diri, db) | None => diri_new fuel dirname pkg res db end;
      let '(diri, db) := r in Some (diri, apk_db_diri_select diri db)
  end.
End Creator.

Definition apk_db_ipkg_find_file (file : bytes) (db : inst_db) : option nat * inst_db :=
  let '(dir, file) := match apk_blob_rsplit file (chr "/") with Some r => r | None => ([], file) end in
  let '(found, db) := apk_db_diri_query dir db in
  match found with
  | None => (None, db)
  | Some diri =>
      let ic := in_ic db in
      let '(files, db) :=
        if bool_decide (ic_diri ic = Some diri) then
          if ic_files_unsorted ic then
            let files := qsort (files_qsort_cmp db) (ic_files ic) in
            (files, set_in_ic (mk_ic (ic_diri ic) (ic_diris ic) files (ic_num_unsorted_diris ic) false) db)
          else (ic_files ic, db)
        else (di_files (diri_at db diri), db) in
      (bsearch (length files) (files_bsearch_cmp db file) files, db)
  end.
