(* ===== verification/InstalledFacts.v ===== *)
(** * Searching while a package is built is exact (database.c)

    The binary searches of Installed.v give the same answers as linear searches: the
    sorted part of the array stays strictly sorted and no directory has two instances. *)

From S2P Require Import Prelude Blob BlobCodec Digest Hash Dirs DirsFacts Catalog CatalogSolver Installed.

(** ** Binary search *)

Section BSearch.
Context {A : Type} (cmp : A -> Z).

(** The elements after one that is not smaller than the key are greater. *)
Definition ordered (l : list A) : Prop :=
  forall i j x y, (i < j)%nat -> l !! i = Some x -> l !! j = Some y -> cmp x <= 0 -> cmp y < 0.

Lemma ordered_take l n : ordered l -> ordered (take n l).
Proof.
  intros H i j x y Hij Hx Hy. apply lookup_take_Some in Hx as [Hx _], Hy as [Hy _]. by apply (H i j).
Qed.

Lemma ordered_drop l n : ordered l -> ordered (drop n l).
Proof. intros H i j x y Hij. rewrite !lookup_drop. apply H. lia. Qed.

Lemma find_none_all l : (forall x, x ∈ l -> cmp x <> 0) -> List.find (fun x => cmp x =? 0) l = None.
Proof.
  induction l as [|y l IH]; intros H; simpl; [done |]. rewrite (proj2 (Z.eqb_neq _ _)) by (apply H; by left).
  apply IH. intros x Hx. apply H. by right.
Qed.

Lemma find_app (f : A -> bool) l k : List.find f (l ++ k) = match List.find f l with Some x => Some x | None => List.find f k end.
Proof. induction l as [|x l IH]; simpl; [done |]. by destruct (f x). Qed.

(** Binary search in an ordered array is linear search. *)
Lemma bsearch_find fuel l :
  (length l <= fuel)%nat -> ordered l -> bsearch fuel cmp l = List.find (fun x => cmp x =? 0) l.
Proof.
  revert l. induction fuel as [|fuel IH]; intros l Hf Ho; simpl; [by destruct l; simpl in *; [| lia] |].
  set (mid := Nat.div2 (length l)). destruct (l !! mid) as [x|] eqn:Ex.
  - assert (length (take mid l) <= fuel /\ length (drop (S mid) l) <= fuel)%nat as [Hl1 Hl2].
    { apply lookup_lt_Some in Ex. rewrite length_take, length_drop. lia. }
    pose proof (take_drop_middle l mid x Ex) as Hl.
    assert (forall y, y ∈ take mid l -> 0 <= cmp x -> 0 < cmp y) as Hbefore.
    { intros y (i & Hy)%list_elem_of_lookup Hx. apply lookup_take_Some in Hy as [Hy Hi].
      destruct (Z_lt_le_dec 0 (cmp y)) as [|Hle]; [done |]. pose proof (Ho i mid y x Hi Hy Ex Hle). lia. }
    assert (forall y, y ∈ drop (S mid) l -> cmp x <= 0 -> cmp y < 0) as Hafter.
    { intros y (i & Hy)%list_elem_of_lookup. rewrite lookup_drop in Hy. apply (Ho mid (S mid + i)%nat); [lia | done | done]. }
    rewrite <- Hl at 3. rewrite find_app. simpl. destruct (cmp x =? 0) eqn:E0; bool_prop.
    + by rewrite find_none_all by (intros y Hy; specialize (Hbefore y Hy); lia).
    + destruct (cmp x <? 0) eqn:El; bool_prop.
      * rewrite IH by (done || by apply ordered_take).
        rewrite (find_none_all (drop (S mid) l)) by (intros y Hy; specialize (Hafter y Hy); lia). by destruct (List.find _ _).
      * rewrite IH by (done || by apply ordered_drop).
        by rewrite (find_none_all (take mid l)) by (intros y Hy; specialize (Hbefore y Hy); lia).
  - apply lookup_ge_None in Ex. assert (l = []) as ->; [| done]. destruct l; [done |]. exfalso.
    pose proof (Nat.lt_div2 (length (a :: l)) ltac:(simpl; lia)). unfold mid in Ex. lia.
Qed.

(** In an array that is ordered with repetitions it finds some element if there is one. *)
Definition weakly_ordered (l : list A) : Prop :=
  forall i j x y, (i < j)%nat -> l !! i = Some x -> l !! j = Some y -> (cmp x < 0 -> cmp y < 0) /\ (cmp x <= 0 -> cmp y <= 0).

Lemma bsearch_weak fuel l :
  (length l <= fuel)%nat -> weakly_ordered l ->
  match bsearch fuel cmp l with Some x => x ∈ l /\ cmp x = 0 | None => forall x, x ∈ l -> cmp x <> 0 end.
Proof.
  revert l. induction fuel as [|fuel IH]; intros l Hf Ho; simpl.
  { destruct l; simpl in *; [by intros x ?%elem_of_nil | lia]. }
  set (mid := Nat.div2 (length l)). destruct (l !! mid) as [x|] eqn:Ex.
  - assert (length (take mid l) <= fuel /\ length (drop (S mid) l) <= fuel)%nat as [Hl1 Hl2].
    { apply lookup_lt_Some in Ex. rewrite length_take, length_drop. lia. }
    pose proof (take_drop_middle l mid x Ex) as Hl.
    destruct (Z.eqb_spec (cmp x) 0) as [E0|E0]; [split; [by eapply list_elem_of_lookup_2 | done] |].
    assert (weakly_ordered (take mid l)) as Ht.
    { intros i j a b Hij Ha Hb. apply lookup_take_Some in Ha as [Ha _], Hb as [Hb _]. by apply (Ho i j). }
    assert (weakly_ordered (drop (S mid) l)) as Hd.
    { intros i j a b Hij. rewrite !lookup_drop. apply Ho. lia. }
    destruct (Z.ltb_spec (cmp x) 0) as [El|El].
    + specialize (IH _ Hl1 Ht). destruct (bsearch fuel cmp (take mid l)) as [y|].
      { destruct IH as [Hy ?]. split; [| done]. by apply elem_of_take in Hy as (i & Hy%list_elem_of_lookup_2 & _). }
      rewrite <- Hl. intros y. rewrite elem_of_app, elem_of_cons. intros [Hy|[->|Hy]]; [by apply IH | done |].
      apply list_elem_of_lookup in Hy as [i Hy]. rewrite lookup_drop in Hy. destruct (Ho mid (S mid + i)%nat x y ltac:(lia) Ex Hy) as [Hlt _]. lia.
    + specialize (IH _ Hl2 Hd). destruct (bsearch fuel cmp (drop (S mid) l)) as [y|].
      { destruct IH as [Hy ?]. split; [| done]. apply list_elem_of_lookup in Hy as [i Hy]. rewrite lookup_drop in Hy. by eapply list_elem_of_lookup_2. }
      rewrite <- Hl. intros y. rewrite elem_of_app, elem_of_cons. intros [Hy|[->|Hy]]; [| done | by apply IH].
      apply elem_of_take in Hy as (i & Hy & Hi). intros Hc. destruct (Ho i mid y x Hi Hy Ex) as [_ Hle]. lia.
  - apply lookup_ge_None in Ex. assert (l = []) as ->; [| by intros x ?%elem_of_nil]. destruct l; [done |]. exfalso.
    pose proof (Nat.lt_div2 (length (a :: l)) ltac:(simpl; lia)). unfold mid in Ex. lia.
Qed.
End BSearch.

(** ** Strictly sorted arrays *)

Section Sorted.
Context {A : Type} (name : A -> bytes).

Definition name_lt (x y : A) : Prop := apk_blob_sort (name x) (name y) < 0.

Lemma blob_sort_sign a b :
  match cmp_list Z.compare a b with Lt => apk_blob_sort a b < 0 | Eq => apk_blob_sort a b = 0 | Gt => 0 < apk_blob_sort a b end.
Proof.
  pose proof (apk_blob_sort_lex a b) as H. destruct (cmp_list Z.compare a b).
  - by apply Z.compare_eq_iff.
  - by apply Z.compare_lt_iff.
  - by apply Z.compare_gt_iff.
Qed.

Lemma blob_sort_le_lt k a b : apk_blob_sort k a <= 0 -> apk_blob_sort a b < 0 -> apk_blob_sort k b < 0.
Proof.
  pose proof (blob_sort_sign k a) as H1. pose proof (blob_sort_sign a b) as H2. pose proof (blob_sort_sign k b) as H3.
  intros Hk Ha. destruct (cmp_list Z.compare a b) eqn:E2; try lia.
  assert (cmp_list Z.compare k b = Lt) as E; [| by rewrite E in H3].
  apply (cmp_le_lt_trans (cmp_list Z.compare) k a b); [| done]. intros E1. rewrite E1 in H1. lia.
Qed.

Lemma blob_sort_lt_irrefl a : ~ apk_blob_sort a a < 0.
Proof. rewrite (proj2 (apk_blob_sort_eq0 a a)) by done. lia. Qed.

Lemma blob_sort_neg a b : apk_blob_sort a b < 0 <-> 0 < apk_blob_sort b a.
Proof.
  pose proof (blob_sort_sign a b) as H1. pose proof (blob_sort_sign b a) as H2.
  rewrite (cmp_opp (cmp_list Z.compare) a b) in H2. destruct (cmp_list Z.compare a b); simpl in H2; lia.
Qed.

Definition strictly_sorted (l : list A) : Prop :=
  forall i j x y, (i < j)%nat -> l !! i = Some x -> l !! j = Some y -> name_lt x y.

Lemma strictly_sorted_ordered key l : strictly_sorted l -> ordered (fun x => apk_blob_sort key (name x)) l.
Proof. intros Hs i j x y Hij Hx Hy Hk. eapply blob_sort_le_lt; [exact Hk |]. by apply (Hs i j). Qed.

Lemma strictly_sorted_snoc l x :
  strictly_sorted l -> (forall y, last l = Some y -> name_lt y x) -> strictly_sorted (l ++ [x]).
Proof.
  intros Hs Hlast i j a b Hij Ha Hb. apply lookup_snoc_Some in Hb as [[Hj Hb]|[-> <-]].
  - rewrite lookup_app_l in Ha by (apply lookup_lt_Some in Hb; lia). by apply (Hs i j).
  - rewrite lookup_app_l in Ha by lia. destruct (last l) as [y|] eqn:El.
    + specialize (Hlast y eq_refl). rewrite last_lookup in El.
      destruct (decide (i = pred (length l))) as [->|]; [congruence |].
      assert (name_lt a y) as Hay by (apply (Hs i (pred (length l))); [lia | done | done]).
      unfold name_lt in *. eapply blob_sort_le_lt; [| exact Hlast]. lia.
    + apply last_None in El. subst l. by rewrite lookup_nil in Ha.
Qed.

Lemma sort_insert_sorted x l :
  strictly_sorted l -> (forall y, y ∈ l -> name y <> name x) ->
  strictly_sorted (sort_insert (fun a b => apk_blob_sort (name a) (name b)) x l).
Proof.
  assert (forall y (l : list A), (forall z, z ∈ l -> name_lt y z) -> strictly_sorted l -> strictly_sorted (y :: l)) as Hcons.
  { intros y k Hy Hk [|i] [|j] a b Hij Ha Hb; simpl in *; try lia.
    - simplify_eq. apply Hy. by eapply list_elem_of_lookup_2.
    - apply (Hk i j); [lia | done | done]. }
  induction l as [|y l IH]; intros Hs Hne; simpl.
  - apply Hcons; [by intros z ?%elem_of_nil | intros i j a b _ Ha; by rewrite lookup_nil in Ha].
  - assert (strictly_sorted l) as Hsl by (intros i j a b Hij Ha Hb; apply (Hs (S i) (S j)); [lia | done | done]).
    assert (forall z, z ∈ l -> name_lt y z) as Hyl.
    { intros z (i & Hz)%list_elem_of_lookup. apply (Hs 0%nat (S i)); [lia | done | done]. }
    destruct (apk_blob_sort (name x) (name y) <=? 0) eqn:E; bool_prop.
    + apply Hcons; [| done]. assert (name_lt x y) as Hxy.
      { unfold name_lt. assert (apk_blob_sort (name x) (name y) <> 0); [| lia]. rewrite apk_blob_sort_eq0.
        intros Hn. apply (Hne y); [by left | done]. }
      intros z [->|Hz]%elem_of_cons; [done |]. unfold name_lt in *. eapply blob_sort_le_lt; [| by apply Hyl]. lia.
    + apply Hcons; [| apply IH; [done |]; intros z Hz; apply Hne; by right].
      intros z Hz. rewrite sort_insert_Permutation in Hz. apply elem_of_cons in Hz as [->|Hz]; [| by apply Hyl].
      unfold name_lt. by apply blob_sort_neg.
Qed.

Lemma qsort_sorted l : NoDup (name <$> l) -> strictly_sorted (qsort (fun a b => apk_blob_sort (name a) (name b)) l).
Proof.
  induction l as [|x l IH]; simpl; intros Hnd; [intros i j a b _ Ha; by rewrite lookup_nil in Ha |].
  apply NoDup_cons in Hnd as [Hx Hnd]. apply sort_insert_sorted; [by apply IH |].
  intros y Hy Hn. rewrite qsort_Permutation in Hy. apply Hx. rewrite <- Hn. by apply list_elem_of_fmap_2.
Qed.

(** Names may be repeated when [strict] is false. *)
Definition in_order (strict : bool) (x y : A) : Prop :=
  if strict then name_lt x y else apk_blob_sort (name x) (name y) <= 0.
Definition files_sorted (strict : bool) (l : list A) : Prop :=
  forall i j x y, (i < j)%nat -> l !! i = Some x -> l !! j = Some y -> in_order strict x y.

Lemma blob_sort_le_trans a b c : apk_blob_sort a b <= 0 -> apk_blob_sort b c <= 0 -> apk_blob_sort a c <= 0.
Proof.
  intros Hab Hbc. destruct (Z_lt_le_dec (apk_blob_sort b c) 0) as [Hlt|]; [pose proof (blob_sort_le_lt a b c Hab Hlt); lia |].
  assert (apk_blob_sort b c = 0) as E by lia. apply apk_blob_sort_eq0 in E. by subst.
Qed.

Lemma blob_sort_lt_le k a b : apk_blob_sort k a < 0 -> apk_blob_sort a b <= 0 -> apk_blob_sort k b < 0.
Proof.
  intros Hk Ha. destruct (Z_lt_le_dec (apk_blob_sort a b) 0) as [Hlt|]; [apply (blob_sort_le_lt k a b); [lia | done] |].
  assert (apk_blob_sort a b = 0) as E by lia. apply apk_blob_sort_eq0 in E. by subst.
Qed.

Lemma in_order_trans strict x y z : in_order strict x y -> in_order strict y z -> in_order strict x z.
Proof.
  destruct strict; unfold in_order, name_lt; [| apply blob_sort_le_trans]. intros H1 H2. apply (blob_sort_le_lt _ (name y)); [lia | done].
Qed.

Lemma in_order_le strict x y : in_order strict x y -> apk_blob_sort (name x) (name y) <= 0.
Proof. destruct strict; unfold in_order, name_lt; lia. Qed.

Lemma files_sorted_weakly_ordered strict key l : files_sorted strict l -> weakly_ordered (fun x => apk_blob_sort key (name x)) l.
Proof.
  intros Hs i j x y Hij Hx Hy. pose proof (in_order_le _ _ _ (Hs i j x y Hij Hx Hy)) as Hle.
  split; intros Hk; [by eapply blob_sort_lt_le | by eapply blob_sort_le_trans].
Qed.

Lemma files_sorted_snoc strict l x :
  files_sorted strict l -> (forall y, last l = Some y -> in_order strict y x) -> files_sorted strict (l ++ [x]).
Proof.
  intros Hs Hlast i j a b Hij Ha Hb. apply lookup_snoc_Some in Hb as [[Hj Hb]|[-> <-]].
  - rewrite lookup_app_l in Ha by (apply lookup_lt_Some in Hb; lia). by apply (Hs i j).
  - rewrite lookup_app_l in Ha by lia. destruct (last l) as [y|] eqn:El.
    + specialize (Hlast y eq_refl). rewrite last_lookup in El.
      destruct (decide (i = pred (length l))) as [->|]; [congruence |].
      apply (in_order_trans strict a y x); [| done]. apply (Hs i (pred (length l))); [lia | done | done].
    + apply last_None in El. subst l. by rewrite lookup_nil in Ha.
Qed.

Lemma files_sorted_cons strict x l : (forall y, y ∈ l -> in_order strict x y) -> files_sorted strict l -> files_sorted strict (x :: l).
Proof.
  intros Hx Hl [|i] [|j] a b Hij Ha Hb; simpl in *; try lia.
  - simplify_eq. apply Hx. by eapply list_elem_of_lookup_2.
  - apply (Hl i j); [lia | done | done].
Qed.

Lemma sort_insert_weak x l :
  files_sorted false l -> files_sorted false (sort_insert (fun a b => apk_blob_sort (name a) (name b)) x l).
Proof.
  induction l as [|y l IH]; intros Hs; simpl.
  - intros i j a b Hij Ha Hb. apply lookup_lt_Some in Ha, Hb. simpl in *. lia.
  - assert (files_sorted false l) as Hsl by (intros i j a b Hij Ha Hb; apply (Hs (S i) (S j)); [lia | done | done]).
    assert (forall z, z ∈ l -> in_order false y z) as Hyl.
    { intros z (i & Hz)%list_elem_of_lookup. apply (Hs 0%nat (S i)); [lia | done | done]. }
    destruct (apk_blob_sort (name x) (name y) <=? 0) eqn:E; bool_prop.
    + apply files_sorted_cons; [| done]. intros z [->|Hz]%elem_of_cons; [done |]. apply (in_order_trans false x y z); [done | by apply Hyl].
    + apply files_sorted_cons; [| by apply IH]. intros z Hz. rewrite sort_insert_Permutation in Hz.
      apply elem_of_cons in Hz as [->|Hz]; [| by apply Hyl]. unfold in_order. apply blob_sort_neg in E. lia.
Qed.

Lemma qsort_files_sorted strict l :
  (strict = true -> NoDup (name <$> l)) -> files_sorted strict (qsort (fun a b => apk_blob_sort (name a) (name b)) l).
Proof.
  destruct strict; intros Hnd; [by apply qsort_sorted, Hnd |]. clear Hnd.
  induction l as [|x l IH]; simpl; [intros i j a b _ Ha; by rewrite lookup_nil in Ha | by apply sort_insert_weak].
Qed.

Lemma files_sorted_nil strict : files_sorted strict [].
Proof. intros i j a b _ Ha. by rewrite lookup_nil in Ha. Qed.
End Sorted.

(** ** File keys *)

Lemma hash_seed_range b s : 0 <= s < 2 ^ 32 -> 0 <= apk_blob_hash_seed b s < 2 ^ 32.
Proof.
  intros Hs. unfold apk_blob_hash_seed, murmur3_32.
  repeat first
    [ apply lxor_range; [lia | |] | apply shiftr_range; [lia |] | apply u32_range
    | apply murmur_blocks_range; done ].
Qed.

Lemma file_key_parts_inj k1 k2 p : file_key_parts k1 = Some p -> file_key_parts k2 = Some p -> k1 = k2.
Proof.
  destruct k1 as [|n1 r1], k2 as [|n2 r2]; cbn; try done.
  destruct (Z.leb_spec 0 n1), (Z.leb_spec n1 (Z.of_nat (length r1))); cbn [andb]; try done. intros [= <-].
  destruct (Z.leb_spec 0 n2), (Z.leb_spec n2 (Z.of_nat (length r2))); cbn [andb]; try done. intros [= Ht Hd].
  assert (n1 = n2) as <- by (apply (f_equal length) in Ht; rewrite !length_take in Ht; lia).
  by rewrite <- (take_drop (Z.to_nat n1) r1), <- Ht, <- Hd, take_drop.
Qed.

Lemma file_compare_spec v k : apk_db_file_compare_item v k = 0 <-> fi_key v = k.
Proof.
  unfold apk_db_file_compare_item. destruct (file_key_parts k) as [[d f]|] eqn:Ek, (file_key_parts (fi_key v)) as [[d' f']|] eqn:Ev.
  2-4: case_bool_decide; split; (done || congruence).
  destruct (Z.eqb_spec (apk_blob_compare f f') 0) as [Hf|Hf]; cbn [negb].
  - rewrite apk_blob_compare_eq0 in *. subst f'. split; [intros ->; by eapply file_key_parts_inj | intros <-; congruence].
  - split; [done |]. intros <-. rewrite Ek in Ev. injection Ev as <- <-. contradict Hf. by apply apk_blob_compare_eq0.
Qed.

#[global] Instance file_hash_laws : HashOpsLaws file_item.
Proof.
  split.
  - intros [|n rest]; simpl; [lia |]. apply hash_seed_range, apk_blob_hash_range.
  - by intros f v [= <-].
  - intros v k. unfold item_matches. simpl. rewrite Z.eqb_eq. apply file_compare_spec.
Qed.

Lemma hash_refines_stacks_witness :
  let h := apk_hash_insert (apk_hash_init 3) (mk_file_item 7 (file_hash_key (lit "etc") (lit "motd"))) in
  let v := mk_file_item 8 (file_hash_key (lit "etc") (lit "motd")) in
  let k := file_hash_key (lit "etc") (lit "motd") in
  let k' := file_hash_key (lit "bin") (lit "sh") in
  apk_hash_get h k = head (items_of h k) /\
  hash_wf (apk_hash_insert h v) /\
  items_of (apk_hash_insert h v) k = (if decide (k = get_key v) then v :: items_of h k else items_of h k) /\
  (forall IC : ItemCompared file_item,
    hash_wf (apk_hash_delete h k).1 /\
    (apk_hash_delete h k).2 = (if delete_item (V := file_item) then head (items_of h k) else None) /\
    items_of (apk_hash_delete h k).1 k' = (if decide (k' = k) then tail (items_of h k') else items_of h k')) /\
  (delete_item (V := file_item) = true -> apk_hash_free h = concat (buckets h)).
Proof.
  intros h v k k'. apply (hash_refines_stacks h v k k'). apply apk_hash_insert_wf, apk_hash_init_wf. lia.
Defined.

Lemma insert_at_key t f k : apk_hash_insert_hashed t (mk_file_item f k) (hash_key (V := file_item) k) = apk_hash_insert t (mk_file_item f k).
Proof. unfold apk_hash_insert, apk_hash_from_item, apk_hash_from_key. reflexivity. Qed.

Lemma get_at_key (t : apk_hash file_item) k : apk_hash_get_hashed t k (hash_key (V := file_item) k) = apk_hash_get t k.
Proof. unfold apk_hash_get, apk_hash_from_key. reflexivity. Qed.

Lemma file_hash_key_inj d1 f1 d2 f2 : file_hash_key d1 f1 = file_hash_key d2 f2 -> d1 = d2 /\ f1 = f2.
Proof. unfold file_hash_key. intros [= Hl Happ]. apply app_inj_1 in Happ; [done | lia]. Qed.

Lemma file_hash_key_hash d f : hash_key (V := file_item) (file_hash_key d f) = apk_blob_hash_seed f (apk_blob_hash d).
Proof. simpl. rewrite Nat2Z.id, take_app_length, drop_app_length. done. Qed.

(** ** The invariant of the creator *)

(** The files of an instance: those of the current one are in the creator. *)
Definition files_of (db : inst_db) (d : nat) : list nat :=
  if bool_decide (ic_diri (in_ic db) = Some d) then ic_files (in_ic db) else di_files (diri_at db d).

(** While the database is read ([loaded]) every file is in the table under its name, so that no directory has two
    files of a name.  While a package is unpacked its files are not in the table yet, and an archive may have
    a name twice. *)
Record builder_inv (loaded : bool) (ext : handles) (db : inst_db) : Prop := {
  cv_dirs : dir_inv ext [] (in_dirs db);
  cv_diri : forall a di, in_diris db !! a = Some di -> (a < in_next_diri db)%nat /\ is_Some (dd_dirs (in_dirs db) !! di_dir di);
  cv_file : forall a f, in_files db !! a = Some f -> (a < in_next_file db)%nat /\ is_Some (in_diris db !! f_diri f);
  cv_namelen : loaded = true -> forall a f, in_files db !! a = Some f -> f_namelen f = Z.of_nat (length (f_name f));
  cv_table : loaded = true -> hash_wf (in_table db);
  cv_item : loaded = true -> forall k it, apk_hash_get (in_table db) k = Some it ->
    exists f, in_files db !! fi_addr it = Some f /\ k = file_hash_key (diri_name db (f_diri f)) (f_name f);
  cv_found : loaded = true -> forall a f, in_files db !! a = Some f ->
    let k := file_hash_key (diri_name db (f_diri f)) (f_name f) in
    apk_hash_get (in_table db) k = Some (mk_file_item a k);
  cv_listed : forall it, it ∈ concat (buckets (in_table db)) -> is_Some (in_files db !! fi_addr it);
  cv_member : forall d, d ∈ ic_diris (in_ic db) -> is_Some (in_diris db !! d);
  cv_nodup : NoDup (diri_name db <$> ic_diris (in_ic db));
  cv_unsorted : (ic_num_unsorted_diris (in_ic db) <= length (ic_diris (in_ic db)))%nat;
  cv_sorted : strictly_sorted (diri_name db)
    (take (length (ic_diris (in_ic db)) - ic_num_unsorted_diris (in_ic db)) (ic_diris (in_ic db)));
  cv_current : forall d, ic_diri (in_ic db) = Some d -> d ∈ ic_diris (in_ic db);
  cv_idle : ic_diri (in_ic db) = None -> ic_files (in_ic db) = [] /\ ic_files_unsorted (in_ic db) = false;
  cv_owned : forall d f, is_Some (in_diris db !! d) -> f ∈ files_of db d -> exists fl, in_files db !! f = Some fl /\ f_diri fl = d;
  cv_files_nodup : forall d, is_Some (in_diris db !! d) -> NoDup (files_of db d);
  cv_files_sorted : forall d, is_Some (in_diris db !! d) ->
    (ic_diri (in_ic db) = Some d -> ic_files_unsorted (in_ic db) = false) -> files_sorted (file_name db) loaded (files_of db d);
}.
Arguments cv_dirs {loaded} ext db _.
Arguments cv_diri {loaded} ext db _.
Arguments cv_file {loaded} ext db _.
Arguments cv_namelen {loaded} ext db _ _.
Arguments cv_table {loaded} ext db _ _.
Arguments cv_item {loaded} ext db _ _.
Arguments cv_found {loaded} ext db _ _.
Arguments cv_listed {loaded} ext db _.
Arguments cv_member {loaded} ext db _.
Arguments cv_nodup {loaded} ext db _.
Arguments cv_unsorted {loaded} ext db _.
Arguments cv_sorted {loaded} ext db _.
Arguments cv_current {loaded} ext db _.
Arguments cv_idle {loaded} ext db _.
Arguments cv_owned {loaded} ext db _.
Arguments cv_files_nodup {loaded} ext db _.
Arguments cv_files_sorted {loaded} ext db _.

Abbreviation creator_inv := (builder_inv true).

Lemma find_unique {A} (name : A -> bytes) (f : A -> bool) (l : list A) n d :
  (forall x, f x = true <-> n = name x) -> NoDup (name <$> l) -> List.find f l = Some d <-> d ∈ l /\ name d = n.
Proof.
  intros Hf Hnd. split.
  - intros [Hd Hfd]%List.find_some. split; [by apply list_elem_of_In | symmetry; by apply Hf].
  - intros [Hd Hn]. destruct (List.find f l) as [x|] eqn:E.
    + apply List.find_some in E as [Hx%list_elem_of_In Hfx%Hf]. f_equal.
      assert (name x = name d) as Hxd by congruence. clear -Hnd Hx Hd Hxd.
      apply list_elem_of_lookup in Hx as [i Hi], Hd as [j Hj].
      assert (i = j) as ->; [| congruence]. eapply (NoDup_lookup (name <$> l)); [done | by rewrite list_lookup_fmap, Hi |].
      rewrite list_lookup_fmap, Hj. simpl. by rewrite Hxd.
    + pose proof (List.find_none f l E d ltac:(by apply list_elem_of_In)) as Hfd.
      assert (f d = true) by (by apply Hf). congruence.
Qed.

(** The files of one instance have different names. *)
Lemma file_names_nodup ext db d : creator_inv ext db -> is_Some (in_diris db !! d) -> NoDup (file_name db <$> files_of db d).
Proof.
  intros Hi Hd. pose proof (cv_files_nodup _ _ Hi d Hd) as Hnd. pose proof (cv_owned _ _ Hi d) as Ho.
  apply NoDup_fmap_2_strong; [| done]. intros x y Hx Hy Hn.
  destruct (Ho x Hd Hx) as (fx & Hfx & Ox), (Ho y Hd Hy) as (fy & Hfy & Oy).
  pose proof (cv_found _ _ Hi eq_refl x fx Hfx) as H1. pose proof (cv_found _ _ Hi eq_refl y fy Hfy) as H2. cbv zeta in *.
  assert (f_name fx = f_name fy) as Hname.
  { revert Hn. unfold file_name, file_at. rewrite Hfx, Hfy. simpl. unfold file_key.
    rewrite (cv_namelen _ _ Hi eq_refl x fx Hfx), (cv_namelen _ _ Hi eq_refl y fy Hfy).
    by rewrite !Nat2Z.id, !firstn_all. }
  rewrite Ox, Hname in H1. rewrite Oy in H2. congruence.
Qed.

(** Changes that leave objects and their names alone. *)
Record same_objects (db db' : inst_db) : Prop := {
  so_dirs : in_dirs db' = in_dirs db;
  so_files : in_files db' = in_files db;
  so_next_file : in_next_file db' = in_next_file db;
  so_next_diri : in_next_diri db' = in_next_diri db;
  so_table : in_table db' = in_table db;
  so_dom : forall d, is_Some (in_diris db' !! d) <-> is_Some (in_diris db !! d);
  so_dir : forall d, di_dir (diri_at db' d) = di_dir (diri_at db d);
}.

Lemma same_objects_names db db' :
  same_objects db db' -> (forall d, diri_name db' d = diri_name db d) /\ (forall f, file_name db' f = file_name db f).
Proof. intros []. unfold diri_name, file_name, file_at. split; intros; [by rewrite so_dirs0, so_dir0 | by rewrite so_files0]. Qed.

#[global] Instance same_objects_refl : Reflexive same_objects.
Proof. by intros db. Qed.
#[global] Instance same_objects_trans : Transitive same_objects.
Proof. intros a b c [] []. split; try congruence. intros d. rewrite so_dom1. apply so_dom0. Qed.

Lemma strictly_sorted_ext {A} (n1 n2 : A -> bytes) l : (forall x, n1 x = n2 x) -> strictly_sorted n1 l -> strictly_sorted n2 l.
Proof. intros He Hs i j x y Hij Hx Hy. unfold name_lt. rewrite <- !He. by apply (Hs i j). Qed.

Lemma files_sorted_ext {A} (n1 n2 : A -> bytes) strict l : (forall x, n1 x = n2 x) -> files_sorted n1 strict l -> files_sorted n2 strict l.
Proof. intros He Hs i j x y Hij Hx Hy. unfold in_order, name_lt. rewrite <- !He. by apply (Hs i j). Qed.

Section Builder.
Context {loaded : bool}.
#[local] Abbreviation inv := (builder_inv loaded).

(** The conditions that are left to show for such a change. *)
Lemma creator_inv_same ext db db' :
  inv ext db -> same_objects db db' ->
  (forall d, d ∈ ic_diris (in_ic db') -> is_Some (in_diris db !! d)) ->
  NoDup (diri_name db <$> ic_diris (in_ic db')) ->
  (ic_num_unsorted_diris (in_ic db') <= length (ic_diris (in_ic db')))%nat ->
  strictly_sorted (diri_name db)
    (take (length (ic_diris (in_ic db')) - ic_num_unsorted_diris (in_ic db')) (ic_diris (in_ic db'))) ->
  (forall d, ic_diri (in_ic db') = Some d -> d ∈ ic_diris (in_ic db')) ->
  (ic_diri (in_ic db') = None -> ic_files (in_ic db') = [] /\ ic_files_unsorted (in_ic db') = false) ->
  (forall d, is_Some (in_diris db !! d) -> files_of db' d ≡ₚ files_of db d) ->
  (forall d, is_Some (in_diris db !! d) -> (ic_diri (in_ic db') = Some d -> ic_files_unsorted (in_ic db') = false) ->
     files_sorted (file_name db) loaded (files_of db' d)) ->
  inv ext db'.
Proof.
  intros Hi Hs H1 H2 H3 H4 H5 H6 H7 H8. destruct (same_objects_names _ _ Hs) as [Nd Nf].
  destruct Hs as [S1 S2 S3 S4 S5 S6 S7], Hi.
  assert (forall l, diri_name db' <$> l = diri_name db <$> l) as Nl by (intros l; by apply list_fmap_ext; intros).
  split; rewrite ?S1, ?S2, ?S3, ?S4, ?S5, ?Nl; try done.
  - intros a di Ha. assert (is_Some (in_diris db !! a)) as [di0 Ha0] by (apply S6; by eexists).
    specialize (S7 a). unfold diri_at in S7. rewrite Ha, Ha0 in S7. simpl in S7. rewrite S7. by apply (cv_diri0 a).
  - intros a f Hf. destruct (cv_file0 a f Hf) as (? & ?). split; [done | by apply S6].
  - intros Hl k it (f & Hf & Hk)%(cv_item0 Hl). exists f. by rewrite Nd.
  - intros Hl a f Hf. rewrite Nd. by apply (cv_found0 Hl).
  - intros d Hd. apply S6. auto.
  - eapply strictly_sorted_ext; [| exact H4]. done.
  - intros d f Hd%S6 Hf. rewrite H7 in Hf by done. auto.
  - intros d Hd%S6. rewrite H7 by done. auto.
  - intros d Hd%S6 Hu. eapply files_sorted_ext; [| by apply H8]. done.
Qed.

(** ** The operations *)

(** Linear search over the names of the array. *)
Definition has_diri (db : inst_db) (name : bytes) (d : nat) : Prop := d ∈ ic_diris (in_ic db) /\ diri_name db d = name.

(** Only the order of the array may change. *)
Record resorted (db db' : inst_db) : Prop := {
  rs_objects : same_objects db db';
  rs_diris : ic_diris (in_ic db') ≡ₚ ic_diris (in_ic db);
  rs_diri : ic_diri (in_ic db') = ic_diri (in_ic db);
  rs_instances : in_diris db' = in_diris db;
  rs_files_of : forall d, files_of db' d = files_of db d;
}.

Lemma diri_bsearch_spec ext db name :
  inv ext db ->
  let '(r, db') := apk_db_diri_bsearch name db in
  inv ext db' /\ resorted db db' /\ forall d, r = Some d <-> has_diri db name d.
Proof.
  intros Hi. unfold apk_db_diri_bsearch. set (db1 := if (32 <? _)%nat then _ else db).
  assert (inv ext db1 /\ resorted db db1) as [Hi1 Hr1].
  { unfold db1. case_if; [| done]. split; [| split; try done; apply qsort_Permutation].
    apply (creator_inv_same ext db); simpl; try done; try apply Hi.
    - intros d. rewrite qsort_Permutation. apply Hi.
    - rewrite qsort_Permutation. apply Hi.
    - lia.
    - rewrite Nat.sub_0_r, take_ge by lia. apply qsort_sorted, Hi.
    - intros d. rewrite qsort_Permutation. apply Hi. }
  clearbody db1. set (diris := ic_diris (in_ic db1)). set (n := (length diris - _)%nat).
  assert (forall d, has_diri db1 name d <-> has_diri db name d) as Hh.
  { intros d. unfold has_diri. rewrite (rs_diris _ _ Hr1). by rewrite (proj1 (same_objects_names _ _ (rs_objects _ _ Hr1))). }
  pose proof (bsearch_find (diri_bsearch_cmp db1 name) (length diris) (take n diris)) as Hb.
  rewrite Hb by (rewrite ?length_take; (lia || (apply (strictly_sorted_ordered (diri_name db1)), Hi1))).
  set (f := fun x => diri_bsearch_cmp db1 name x =? 0).
  assert (forall d, match List.find f (take n diris) with Some x => Some x | None => List.find f (drop n diris) end = Some d
    <-> has_diri db1 name d) as Hd.
  { intros d. rewrite <- find_app, take_drop. apply (find_unique (diri_name db1)); [| apply Hi1]. intros x. unfold f, diri_bsearch_cmp. by rewrite Z.eqb_eq, apk_blob_sort_eq0. }
  destruct (List.find f (take n diris)) as [x|]; split_and!; try done; intros d; by rewrite Hd, Hh.
Qed.

(** The files of the current instance are stored, sorted. *)
Lemma commit_files_spec ext db :
  inv ext db ->
  let db' := apk_db_ipkg_commit_files db in
  same_objects db db' /\ in_ic db' = mk_ic (ic_diri (in_ic db)) (ic_diris (in_ic db)) [] (ic_num_unsorted_diris (in_ic db)) false
  /\ (forall d, is_Some (in_diris db !! d) -> di_files (diri_at db' d) ≡ₚ files_of db d
        /\ files_sorted (file_name db) loaded (di_files (diri_at db' d)))
  /\ (forall d, di_acl (diri_at db' d) = di_acl (diri_at db d) /\ di_pkg (diri_at db' d) = di_pkg (diri_at db d)).
Proof.
  intros Hi. unfold apk_db_ipkg_commit_files. destruct (ic_diri (in_ic db)) as [c|] eqn:Ec.
  - set (files := if ic_files_unsorted (in_ic db) then _ else _).
    assert (is_Some (in_diris db !! c)) as Hc by (apply (cv_member _ _ Hi), (cv_current _ _ Hi), Ec).
    assert (files_of db c = ic_files (in_ic db)) as Hfc by (unfold files_of; by rewrite Ec, bool_decide_true).
    assert (files ≡ₚ files_of db c /\ files_sorted (file_name db) loaded files) as [Hf1 Hf2].
    { rewrite Hfc. unfold files. destruct (ic_files_unsorted (in_ic db)) eqn:Eu.
      - split; [apply qsort_Permutation |]. apply (qsort_files_sorted (file_name db)). intros Hl. rewrite <- Hfc. apply (file_names_nodup ext); [| done]. revert Hi. by rewrite Hl.
      - split; [done |]. rewrite <- Hfc. by apply (cv_files_sorted _ _ Hi). }
    clearbody files. cbv zeta. set (db2 := set_in_ic _ _).
    assert (forall d, diri_at db2 d
      = if decide (d = c) then set_di_files files (diri_at db c) else diri_at db d) as Hat.
    { intros d. unfold diri_at at 1. simpl. case_decide as E; [subst; by rewrite lookup_insert_eq | by rewrite lookup_insert_ne]. }
    split_and!.
    + split; try done; intros d.
      * simpl. destruct (decide (d = c)) as [->|]; [by rewrite lookup_insert_eq; split | by rewrite lookup_insert_ne].
      * rewrite Hat. case_decide; [by subst | done].
    + by simpl.
    + intros d Hd. rewrite Hat. case_decide as E.
      * subst. done.
      * assert (files_of db d = di_files (diri_at db d)) as Hfd by (unfold files_of; by rewrite bool_decide_false by congruence).
        rewrite Hfd. split; [done |]. rewrite <- Hfd. apply (cv_files_sorted _ _ Hi); [done | congruence].
    + intros d. rewrite Hat. case_decide; [by subst | done].
  - split_and!; [done | by simpl | | done]. intros d Hd. cbv zeta. set (db2 := set_in_ic _ _). change (diri_at db2 d) with (diri_at db d).
    assert (files_of db d = di_files (diri_at db d)) as Hfd by (unfold files_of; by rewrite bool_decide_false by congruence).
    rewrite Hfd. split; [done |]. rewrite <- Hfd. apply (cv_files_sorted _ _ Hi); [done | congruence].
Qed.

(** Choosing the current instance keeps the files of all of them. *)
Record chosen_diri (d : nat) (db db' : inst_db) : Prop := {
  cd_objects : same_objects db db';
  cd_current : ic_diri (in_ic db') = Some d;
  cd_diris : ic_diris (in_ic db') = ic_diris (in_ic db);
  cd_files : forall e, is_Some (in_diris db !! e) -> files_of db' e ≡ₚ files_of db e;
  cd_acl : forall e, di_acl (diri_at db' e) = di_acl (diri_at db e) /\ di_pkg (diri_at db' e) = di_pkg (diri_at db e);
}.

Lemma diri_select_spec ext db d :
  inv ext db -> d ∈ ic_diris (in_ic db) ->
  inv ext (apk_db_diri_select d db) /\ chosen_diri d db (apk_db_diri_select d db).
Proof.
  intros Hi Hd. unfold apk_db_diri_select. case_bool_decide as Ec; [by split |].
  destruct (commit_files_spec ext db Hi) as (Hs & Hic & Hf & Ha). set (db1 := apk_db_ipkg_commit_files db) in *.
  clearbody db1. rewrite Hic. cbn [ic_diris ic_num_unsorted_diris ic_files_unsorted]. set (db2 := set_in_ic _ db1).
  assert (same_objects db db2) as Hs2 by (by destruct Hs; split).
  assert (forall e, files_of db2 e = di_files (diri_at db1 e)) as Hf2.
  { intros e. unfold files_of. simpl. case_bool_decide as E; [by simplify_eq | done]. }
  split.
  - apply (creator_inv_same ext db); simpl; try done; try apply Hi.
    + by intros e [= <-].
    + intros e He. rewrite Hf2. by apply Hf.
    + intros e He _. rewrite Hf2. by apply Hf.
  - split; try done.
    intros e He. rewrite Hf2. by apply Hf.
Qed.

Lemma dir_key_name ext pend db a d : dir_inv ext pend db -> dd_dirs db !! a = Some d -> dir_key d = dir_name d.
Proof.
  intros Hi Ha. destruct (iv_clean _ _ _ Hi a d Ha) as [_ Hid]. unfold dir_ident in Hid. unfold dir_key.
  assert (dir_namelen d = Z.of_nat (length (dir_name d))) as -> by congruence. by rewrite Nat2Z.id, firstn_all.
Qed.

(** What an operation on instances keeps of the instances that exist. *)
Record kept (db db' : inst_db) : Prop := {
  kp_dom : forall e, is_Some (in_diris db !! e) -> is_Some (in_diris db' !! e);
  kp_name : forall e, is_Some (in_diris db !! e) -> diri_name db' e = diri_name db e;
  kp_files_of : forall e, is_Some (in_diris db !! e) -> files_of db' e ≡ₚ files_of db e;
  kp_acl : forall e, is_Some (in_diris db !! e) -> di_acl (diri_at db' e) = di_acl (diri_at db e);
  kp_pkg : forall e, is_Some (in_diris db !! e) -> di_pkg (diri_at db' e) = di_pkg (diri_at db e);
  kp_files : in_files db' = in_files db;
  kp_table : in_table db' = in_table db;
}.

#[global] Instance kept_refl : Reflexive kept.
Proof. by intros db. Qed.
#[global] Instance kept_trans : Transitive kept.
Proof.
  intros a b c [A1 A2 A3 A4 A5 A6 A7] [B1 B2 B3 B4 B5 B6 B7]. split; try congruence; intros e He.
  - auto.
  - rewrite B2 by auto. auto.
  - rewrite B3 by auto. auto.
  - rewrite B4 by auto. auto.
  - rewrite B5 by auto. auto.
Qed.

Lemma same_objects_kept db db' :
  same_objects db db' -> (forall e, is_Some (in_diris db !! e) -> files_of db' e ≡ₚ files_of db e) ->
  (forall e, di_acl (diri_at db' e) = di_acl (diri_at db e) /\ di_pkg (diri_at db' e) = di_pkg (diri_at db e)) -> kept db db'.
Proof.
  intros Hs Hf Ha. destruct (same_objects_names _ _ Hs) as [Nd _]. destruct Hs.
  split; try done; intros e He; [by apply so_dom0 | apply Ha | apply Ha].
Qed.

Lemma chosen_kept d db db' : chosen_diri d db db' -> kept db db'.
Proof. intros []. by apply same_objects_kept. Qed.

Lemma resorted_kept db db' : resorted db db' -> kept db db'.
Proof.
  intros []. apply same_objects_kept; [done | intros e _; by rewrite rs_files_of0 |]. intros e. unfold diri_at. by rewrite rs_instances0.
Qed.

(** A new instance at the end of the array. *)
Definition enter_diri (dir : nat) (dirs : dir_db) (pkg : pkg_ref) (n : nat) (db : inst_db) : inst_db :=
  let diri := in_next_diri db in
  let db := set_in_dirs dirs db in
  let db := set_in_next_diri (S diri) (set_in_diris (<[diri := mk_diri [] pkg dir apk_default_acl_dir]> (in_diris db)) db) in
  let ic := in_ic db in
  set_in_ic (mk_ic (ic_diri ic) (ic_diris ic ++ [diri]) (ic_files ic) n (ic_files_unsorted ic)) db.

Lemma enter_diri_inv ext ext' pend db name dir dirs pkg n :
  inv ext db -> got name ext pend (in_dirs db) dir dirs -> pend = [] -> (forall e, ~ has_diri db name e) ->
  (n = ic_num_unsorted_diris (in_ic db) /\ ic_num_unsorted_diris (in_ic db) = 0%nat
     /\ (forall y, last (ic_diris (in_ic db)) = Some y -> apk_blob_sort (diri_name db y) name < 0)
   \/ n = S (ic_num_unsorted_diris (in_ic db))) ->
  ext' = plus_one dir ext ->
  let db' := enter_diri dir dirs pkg n db in
  inv ext' db' /\ kept db db' /\ diri_name db' (in_next_diri db) = name /\ files_of db' (in_next_diri db) = []
  /\ ic_diris (in_ic db') = ic_diris (in_ic db) ++ [in_next_diri db].
Proof.
  intros Hi [Gi (d & Gd & Gn & Gl) _ Gnames] -> Hnone Hn -> db'. set (a := in_next_diri db) in *.
  assert (in_diris db !! a = None) as Ha.
  { apply eq_None_not_Some. intros [di Hdi]. apply (cv_diri _ _ Hi) in Hdi. unfold a in Hdi. lia. }
  assert (forall e, is_Some (in_diris db !! e) -> e <> a) as Hne by (intros e [? He] ->; congruence).
  assert (forall e, e <> a -> diri_at db' e = diri_at db e) as Hat by (intros e He; unfold diri_at; simpl; by rewrite lookup_insert_ne).
  assert (forall e, is_Some (in_diris db !! e) -> diri_name db' e = diri_name db e) as Hname.
  { intros e He. specialize (Hne e He). unfold diri_name. rewrite Hat by done. destruct He as [di He].
    destruct (cv_diri _ _ Hi e di He) as [_ [dd Hdd]]. unfold diri_at. rewrite He. simpl.
    destruct (Gnames _ dd Hdd) as (dd' & Hdd' & Hn'). unfold dir_at. rewrite Hdd, Hdd'. simpl.
    rewrite (dir_key_name _ _ _ _ _ Gi Hdd'), (dir_key_name _ _ _ _ _ (cv_dirs _ _ Hi) Hdd). done. }
  assert (diri_name db' a = name) as Hna.
  { unfold diri_name, diri_at. simpl. rewrite lookup_insert_eq. simpl. unfold dir_at. rewrite Gd. simpl.
    by rewrite (dir_key_name _ _ _ _ _ Gi Gd). }
  assert (ic_diri (in_ic db) <> Some a) as Hca.
  { intros Hc. apply (cv_current _ _ Hi) in Hc. apply (cv_member _ _ Hi) in Hc. by apply (Hne a). }
  assert (forall e, e <> a -> files_of db' e = files_of db e) as Hfiles.
  { intros e He. unfold files_of. simpl. case_bool_decide; [done |]. by rewrite Hat. }
  assert (files_of db' a = []) as Hfa.
  { unfold files_of. simpl. rewrite bool_decide_false by done. unfold diri_at. simpl. by rewrite lookup_insert_eq. }
  assert (forall e, is_Some (in_diris db' !! e) <-> e = a \/ is_Some (in_diris db !! e)) as Hdom.
  { intros e. simpl. destruct (decide (e = a)) as [->|]; [rewrite lookup_insert_eq; split; [by left | by eexists] |].
    rewrite lookup_insert_ne by done. naive_solver. }
  assert (forall e, e ∈ ic_diris (in_ic db) -> diri_name db' e = diri_name db e) as Hmem by (intros e He; apply Hname; by apply (cv_member _ _ Hi)).
  assert (diri_name db' <$> ic_diris (in_ic db) = diri_name db <$> ic_diris (in_ic db)) as Hfm.
  { apply list_fmap_ext. intros i e He. apply Hmem. by eapply list_elem_of_lookup_2. }
  split_and!; [| | done | done | done].
  - split; try done.
    + intros e di. simpl. intros [[<- <-]|[_ He]]%lookup_insert_Some; [simpl; split; [lia | by eexists] |].
      destruct (cv_diri _ _ Hi e di He) as [? [dd Hdd]]. split; [lia |]. destruct (Gnames _ dd Hdd) as (? & ? & _). by eexists.
    + intros f fl Hf. destruct (cv_file _ _ Hi f fl Hf) as (? & ?). split; [done | apply Hdom; by right].
    + apply (cv_namelen _ _ Hi).
    + apply (cv_table _ _ Hi).
    + intros Hl k it (f & Hf & Hk)%(cv_item _ _ Hi Hl). exists f. split; [done |]. rewrite Hname; [done |]. by apply (cv_file _ _ Hi _ _ Hf).
    + intros Hl f fl Hf. rewrite Hname by (by apply (cv_file _ _ Hi _ _ Hf)). by apply (cv_found _ _ Hi Hl).
    + apply (cv_listed _ _ Hi).
    + intros e. simpl. rewrite elem_of_app, list_elem_of_singleton. intros [He| ->]; apply Hdom; [right; by apply (cv_member _ _ Hi) | by left].
    + simpl. rewrite fmap_app, Hfm. apply NoDup_app. split_and!; [apply Hi | | apply NoDup_singleton].
      intros x Hx ->%list_elem_of_singleton. apply list_elem_of_fmap in Hx as (e & He & Hin). apply (Hnone e). split; [done |]. by rewrite <- He.
    + simpl. rewrite length_app. simpl. pose proof (cv_unsorted _ _ Hi). destruct Hn as [[-> _]| ->]; lia.
    + simpl. rewrite length_app. simpl. pose proof (cv_sorted _ _ Hi) as Hso. destruct Hn as [(-> & H0 & Hlast)| ->].
      * rewrite H0 in *. rewrite Nat.sub_0_r, take_ge in Hso by lia. rewrite take_ge by (rewrite length_app; simpl; lia).
        apply strictly_sorted_snoc.
        -- intros i j x y Hij Hx Hy. unfold name_lt. rewrite !Hmem by (by eapply list_elem_of_lookup_2). by apply (Hso i j).
        -- intros y Hy. assert (apk_blob_sort (diri_name db' y) (diri_name db' a) < 0) as Hlt; [| exact Hlt].
           rewrite Hna, Hmem by (by apply last_Some_elem_of). by apply Hlast.
      * replace (length (ic_diris (in_ic db)) + 1 - S _)%nat with (length (ic_diris (in_ic db)) - ic_num_unsorted_diris (in_ic db))%nat by lia.
        rewrite take_app_le by lia. intros i j x y Hij Hx Hy. unfold name_lt.
        rewrite !Hmem by (eapply list_elem_of_lookup_2, lookup_take_Some; eassumption). by apply (Hso i j).
    + intros e He. apply elem_of_app. left. by apply (cv_current _ _ Hi).
    + apply (cv_idle _ _ Hi).
    + intros e f He Hf. destruct (decide (e = a)) as [->|Hea]; [rewrite Hfa in Hf; by apply elem_of_nil in Hf |].
      rewrite Hfiles in Hf by done. apply Hdom in He as [|He]; [done |]. by apply (cv_owned _ _ Hi).
    + intros e He. destruct (decide (e = a)) as [->|Hea]; [rewrite Hfa; constructor |]. rewrite Hfiles by done.
      apply Hdom in He as [|He]; [done |]. by apply (cv_files_nodup _ _ Hi).
    + intros e He Hu. destruct (decide (e = a)) as [->|Hea]; [rewrite Hfa; apply files_sorted_nil |].
      rewrite Hfiles by done. apply Hdom in He as [|He]; [done |]. by apply (cv_files_sorted _ _ Hi).
  - split; try done.
    + intros e He. apply Hdom. by right.
    + intros e He. by rewrite Hfiles by auto.
    + intros e He. by rewrite Hat by auto.
    + intros e He. by rewrite Hat by auto.
Qed.

Lemma has_diri_unique ext db name d e : inv ext db -> has_diri db name d -> has_diri db name e -> d = e.
Proof.
  intros Hi [Hd Hn] [He Hm]. apply list_elem_of_lookup in Hd as [i Hd], He as [j He].
  assert (i = j) as ->; [| congruence]. eapply (NoDup_lookup (diri_name db <$> ic_diris (in_ic db))); [apply Hi | by rewrite list_lookup_fmap, Hd |].
  rewrite list_lookup_fmap, He. simpl. congruence.
Qed.

(** The instance [d] for [name] after it was asked for: the one there is, or a new one. *)
Record got_diri (name : bytes) (pkg : pkg_ref) (db : inst_db) (d : nat) (db' : inst_db) : Prop := {
  gd_kept : kept db db';
  gd_current : ic_diri (in_ic db') = Some d;
  gd_name : diri_name db' d = name;
  gd_dom : forall e, is_Some (in_diris db' !! e) -> e = d \/ is_Some (in_diris db !! e);
  gd_old_or_new : (has_diri db name d /\ ic_diris (in_ic db') ≡ₚ ic_diris (in_ic db))
    \/ ((forall e, ~ has_diri db name e) /\ in_diris db !! d = None /\ files_of db' d = []
        /\ di_acl (diri_at db' d) = apk_default_acl_dir /\ di_pkg (diri_at db' d) = pkg /\ ic_diris (in_ic db') ≡ₚ d :: ic_diris (in_ic db));
}.

Lemma diri_new_spec fnmatch fuel ext db name pkg res :
  inv ext db -> clean name -> (forall b d, dd_dirs (in_dirs db) !! b = Some d -> dir_refs d < 2 ^ 16 - 1) ->
  (length name < fuel)%nat -> (forall e, ~ has_diri db name e) ->
  (forall c, ic_diri (in_ic db) = Some c -> res = diri_bsearch_cmp db name c) ->
  exists n dir dirs, diri_new fnmatch fuel name pkg res db = Some (in_next_diri db, enter_diri dir dirs pkg n db)
    /\ got name ext [] (in_dirs db) dir dirs
    /\ (n = ic_num_unsorted_diris (in_ic db) /\ ic_num_unsorted_diris (in_ic db) = 0%nat
         /\ (forall y, last (ic_diris (in_ic db)) = Some y -> apk_blob_sort (diri_name db y) name < 0)
        \/ n = S (ic_num_unsorted_diris (in_ic db))).
Proof.
  intros Hi Hc Hb Hf Hnone Hres.
  destruct (dir_get_spec fnmatch fuel name ext [] (in_dirs db)) as (dir & dirs & Hget & Hgot).
  { split_and!; [apply Hi | done | by intros ? ? ?%elem_of_nil | done]. }
  { done. }
  unfold diri_new. rewrite Hget. simpl. set (db1 := set_in_next_diri _ _). set (r := if negb _ then _ else _).
  exists (if r <? 0 then S (ic_num_unsorted_diris (in_ic db)) else ic_num_unsorted_diris (in_ic db)), dir, dirs.
  split_and!; [done | done |]. destruct (r <? 0) eqn:Er; [by right | left]. unfold r in Er.
  destruct (ic_num_unsorted_diris (in_ic db) =? 0)%nat eqn:E0; simpl in Er; [| done]. bool_prop.
  split_and!; [done | done |]. intros y Hy. rewrite Hy in Er. apply blob_sort_neg.
  assert (y ∈ ic_diris (in_ic db)) as Hin by (by apply last_Some_elem_of).
  assert (apk_blob_sort name (diri_name db y) <> 0) as Hne.
  { rewrite apk_blob_sort_eq0. intros ->. by apply (Hnone y). }
  assert (diri_bsearch_cmp db1 name y = diri_bsearch_cmp db name y) as Hsame.
  { destruct (enter_diri_inv ext (plus_one dir ext) [] db name dir dirs pkg (S (ic_num_unsorted_diris (in_ic db)))) as (_ & [_ Hk _ _ _ _ _] & _);
      [done | done | done | done | by right | done |].
    unfold diri_bsearch_cmp. f_equal. apply (Hk y). by apply (cv_member _ _ Hi). }
  case_bool_decide as Ecur.
  - rewrite (Hres y Ecur) in Er. unfold diri_bsearch_cmp in Er. lia.
  - rewrite Hsame in Er. unfold diri_bsearch_cmp in Er. lia.
Qed.

Lemma diri_get_spec fnmatch fuel ext db name pkg :
  inv ext db -> clean name -> (forall b d, dd_dirs (in_dirs db) !! b = Some d -> dir_refs d < 2 ^ 16 - 1) ->
  (length name < fuel)%nat ->
  exists d db' ext', apk_db_diri_get fnmatch fuel name pkg db = Some (d, db') /\ inv ext' db' /\ got_diri name pkg db d db'.
Proof.
  intros Hi Hc Hb Hf. unfold apk_db_diri_get.
  set (res := match ic_diri (in_ic db) with Some diri => diri_bsearch_cmp db name diri | None => 1 end).
  assert (forall c, ic_diri (in_ic db) = Some c -> res = diri_bsearch_cmp db name c) as Hres by (intros c Hc'; unfold res; by rewrite Hc').
  clearbody res. assert ((exists c, ic_diri (in_ic db) = Some c /\ res = 0) \/ ~ exists c, ic_diri (in_ic db) = Some c /\ res = 0)
    as [(c & Ec & E0)|Hno].
  { destruct (ic_diri (in_ic db)) as [c|]; [| right; by intros (? & ? & _)].
    destruct (decide (res = 0)); [left; eauto | right; by intros (? & _ & ?)]. }
  { rewrite Ec, E0. simpl. exists c, db, ext. split_and!; [done | done |]. rewrite (Hres c Ec) in E0. apply apk_blob_sort_eq0 in E0.
    split; [done | done | done | by right |]. left. split; [| done]. split; [by apply (cv_current _ _ Hi) | done]. }
  match goal with |- context [match ic_diri (in_ic db) with Some _ => if ?x then _ else ?b | None => ?b end] =>
    assert (match ic_diri (in_ic db) with Some diri => if x then Some (diri, db) else b | None => b end = b) as -> end.
  { destruct (ic_diri (in_ic db)) as [c|]; [| done]. destruct (res =? 0) eqn:E; [| done]. bool_prop. exfalso. eauto. }
  pose proof (diri_bsearch_spec ext db name Hi) as Hs. destruct (apk_db_diri_bsearch name db) as [found db1].
  destruct Hs as (Hi1 & Hr1 & Hfound). pose proof (resorted_kept _ _ Hr1) as Hk1. destruct found as [d|].
  - destruct (proj1 (Hfound d) eq_refl) as [Hd Hn]. simpl.
    destruct (diri_select_spec ext db1 d Hi1) as [Hi2 Hch]; [by rewrite (rs_diris _ _ Hr1) |].
    exists d, (apk_db_diri_select d db1), ext. split_and!; [done | done |]. pose proof (chosen_kept _ _ _ Hch) as Hk2. split.
    + by transitivity db1.
    + apply Hch.
    + rewrite (kp_name _ _ (kept_trans _ _ _ Hk1 Hk2)); [done | by apply (cv_member _ _ Hi)].
    + intros e He. right. rewrite <- (rs_instances _ _ Hr1). by apply (so_dom _ _ (cd_objects _ _ _ Hch)).
    + left. split; [done |]. by rewrite (cd_diris _ _ _ Hch), (rs_diris _ _ Hr1).
  - assert (forall e, ~ has_diri db1 name e) as Hnone.
    { intros e [He Hn]. assert (None = Some e) as Hx; [| done]. apply Hfound. split; [by rewrite <- (rs_diris _ _ Hr1) |].
      rewrite <- Hn. symmetry. apply (proj1 (same_objects_names _ _ (rs_objects _ _ Hr1))). }
    destruct (diri_new_spec fnmatch fuel ext db1 name pkg res) as (n & dir & dirs & -> & Hgot & Hn); try done.
    { by rewrite (so_dirs _ _ (rs_objects _ _ Hr1)). }
    { rewrite (rs_diri _ _ Hr1). intros c Ec. rewrite (Hres c Ec). unfold diri_bsearch_cmp. f_equal. symmetry.
      apply (proj1 (same_objects_names _ _ (rs_objects _ _ Hr1))). }
    simpl. set (d := in_next_diri db1). set (db2 := enter_diri dir dirs pkg n db1).
    destruct (enter_diri_inv ext (plus_one dir ext) [] db1 name dir dirs pkg n) as (Hi2 & Hk2 & Hname & Hfiles & Hdiris); try done.
    fold d db2 in Hi2, Hk2, Hname, Hfiles, Hdiris.
    destruct (diri_select_spec (plus_one dir ext) db2 d Hi2) as [Hi3 Hch]; [rewrite Hdiris; set_solver |].
    exists d, (apk_db_diri_select d db2), (plus_one dir ext). split_and!; [done | done |]. pose proof (chosen_kept _ _ _ Hch) as Hk3.
    assert (is_Some (in_diris db2 !! d)) as Hd2 by (simpl; by rewrite lookup_insert_eq).
    split.
    + transitivity db1; [done |]. by transitivity db2.
    + apply Hch.
    + by rewrite (kp_name _ _ Hk3).
    + intros e He. apply (so_dom _ _ (cd_objects _ _ _ Hch)) in He. simpl in He. destruct (decide (e = d)) as [->|]; [by left |].
      right. rewrite <- (rs_instances _ _ Hr1). by rewrite lookup_insert_ne in He.
    + right. split_and!.
      * intros e He. assert (None = Some e); [| done]. by apply Hfound.
      * rewrite <- (rs_instances _ _ Hr1). apply eq_None_not_Some. intros [di Hdi]. apply (cv_diri _ _ Hi1) in Hdi. unfold d in Hdi. lia.
      * apply Permutation_nil. rewrite (kp_files_of _ _ Hk3) by done. by rewrite Hfiles.
      * rewrite (kp_acl _ _ Hk3) by done. unfold diri_at. simpl. by rewrite lookup_insert_eq.
      * rewrite (kp_pkg _ _ Hk3) by done. unfold diri_at. simpl. by rewrite lookup_insert_eq.
      * rewrite (cd_diris _ _ _ Hch), Hdiris, (rs_diris _ _ Hr1). by rewrite Permutation_app_comm.
Qed.

End Builder.

(** ** Files *)

Lemma builder_weaken {loaded} ext db : builder_inv loaded ext db -> builder_inv false ext db.
Proof.
  intros Hi. split; try done; try apply Hi. intros d Hd Hu i j x y Hij Hx Hy. eapply in_order_le. by apply (cv_files_sorted _ _ Hi d Hd Hu i j).
Qed.

Lemma loaded_inv ext db :
  builder_inv false ext db ->
  (forall a f, in_files db !! a = Some f -> f_namelen f = Z.of_nat (length (f_name f))) -> hash_wf (in_table db) ->
  (forall k it, apk_hash_get (in_table db) k = Some it ->
    exists f, in_files db !! fi_addr it = Some f /\ k = file_hash_key (diri_name db (f_diri f)) (f_name f)) ->
  (forall a f, in_files db !! a = Some f ->
    let k := file_hash_key (diri_name db (f_diri f)) (f_name f) in apk_hash_get (in_table db) k = Some (mk_file_item a k)) ->
  (forall d, is_Some (in_diris db !! d) -> (ic_diri (in_ic db) = Some d -> ic_files_unsorted (in_ic db) = false) ->
    strictly_sorted (file_name db) (files_of db d)) ->
  creator_inv ext db.
Proof. intros Hi H1 H2 H3 H4 H5. split; try (intros _; assumption); try apply Hi. exact H5. Qed.

(** The table of files is no part of what unpacking relies on. *)
Lemma builder_table ext db t n : builder_inv false ext db -> (forall it, it ∈ concat (buckets t) -> is_Some (in_files db !! fi_addr it)) ->
  builder_inv false ext (set_in_stat_files n (set_in_table t db)).
Proof. intros Hi Ht. split; try discriminate; try apply Hi. exact Ht. Qed.

Section FileNew.
Context (loaded : bool) (ext : handles) (db : inst_db) (d : nat) (name : bytes).
Context (Hi : builder_inv loaded ext db) (Hd : ic_diri (in_ic db) = Some d).

Abbreviation f := (in_next_file db).
Abbreviation fl := (mk_file d apk_default_acl_file false false APK_DIGEST_NONE [] (u8 (Z.of_nat (length name))) name).
Abbreviation db' := (apk_db_file_new d name db).2.

Lemma file_new_fresh : in_files db !! f = None.
Proof. apply eq_None_not_Some. intros [x Hx]. apply (cv_file _ _ Hi) in Hx. lia. Qed.

Lemma file_new_files e : files_of db' e = if decide (e = d) then files_of db d ++ [f] else files_of db e.
Proof.
  unfold files_of. simpl. rewrite Hd. case_decide as Ee.
  - subst. by rewrite !bool_decide_true by done.
  - by rewrite !bool_decide_false by congruence.
Qed.

Lemma file_new_name : file_name db' f = take (Z.to_nat (u8 (Z.of_nat (length name)))) name.
Proof. unfold file_name, file_at. simpl. by rewrite lookup_insert_eq. Qed.

Lemma file_new_names x : x <> f -> file_name db' x = file_name db x.
Proof. intros Hx. unfold file_name, file_at. simpl. by rewrite lookup_insert_ne. Qed.

Lemma file_new_old e x : is_Some (in_diris db !! e) -> x ∈ files_of db e -> x <> f.
Proof. intros He Hx ->. destruct (cv_owned _ _ Hi e f He Hx) as (? & E & _). by rewrite file_new_fresh in E. Qed.

(** The new file goes behind the others, unless the list is marked. *)
Lemma file_new_sorted strict e :
  (forall e, is_Some (in_diris db !! e) -> (ic_diri (in_ic db) = Some e -> ic_files_unsorted (in_ic db) = false) ->
    files_sorted (file_name db) strict (files_of db e)) ->
  (strict = true -> forall x, x ∈ files_of db d -> file_name db x <> file_name db' f) ->
  is_Some (in_diris db !! e) -> (ic_diri (in_ic db') = Some e -> ic_files_unsorted (in_ic db') = false) ->
  files_sorted (file_name db') strict (files_of db' e).
Proof.
  intros Hsorted Hne He Hu. rewrite file_new_files.
  assert (forall l, (forall x, x ∈ l -> x <> f) -> files_sorted (file_name db) strict l -> files_sorted (file_name db') strict l) as Hext.
  { intros l Hl Hs i j x y Hij Hx Hy. unfold in_order, name_lt. rewrite !file_new_names by (apply Hl; by eapply list_elem_of_lookup_2). by apply (Hs i j). }
  case_decide as Ee; [| apply Hext; [intros x; by apply file_new_old |]; apply Hsorted; [done | congruence]].
  subst e. specialize (Hu Hd). cbn in Hu. change (file_name _ f) with (file_name db' f) in Hu.
  assert (files_of db d = ic_files (in_ic db)) as Hfd by (unfold files_of; by rewrite Hd, bool_decide_true).
  assert (ic_files_unsorted (in_ic db) = false) as Hunsorted.
  { destruct (last (ic_files (in_ic db))); [by destruct (ic_files_unsorted (in_ic db)) | done]. }
  apply files_sorted_snoc.
  - apply Hext; [intros x Hx; by apply (file_new_old d) | by apply Hsorted].
  - rewrite Hfd. intros y Hy. assert (y ∈ files_of db d) as Hin by (rewrite Hfd; by apply last_Some_elem_of).
    assert (y <> f) as Hyf by (by apply (file_new_old d)). rewrite Hy, Hunsorted in Hu. unfold files_qsort_cmp in Hu.
    change (file_name _ f) with (file_name db' f) in Hu.
    match type of Hu with context [file_name ?x y] => change (file_name x y) with (file_name db' y) in Hu end.
    bool_prop. pose proof (blob_sort_neg (file_name db' f) (file_name db' y)) as [_ Hneg].
    pose proof (blob_sort_neg (file_name db' y) (file_name db' f)) as [Hneg' _]. destruct strict; unfold in_order, name_lt.
    + assert (apk_blob_sort (file_name db' y) (file_name db' f) <> 0); [| lia].
      rewrite apk_blob_sort_eq0, file_new_names by done. by apply Hne.
    + lia.
Qed.

Lemma file_new_inv : builder_inv false ext db'.
Proof.
  pose proof (builder_weaken _ _ Hi) as Hw. split; try discriminate; try apply Hi.
  - intros x y. simpl. intros [[<- <-]|[Hx Hy]]%lookup_insert_Some.
    { split; [lia |]. apply (cv_member _ _ Hi), (cv_current _ _ Hi), Hd. }
    destruct (cv_file _ _ Hi x y Hy) as (? & ?). split; [lia | done].
  - intros it [x Hx]%(cv_listed _ _ Hi). simpl. rewrite lookup_insert_ne; [by eexists |]. intros E. by rewrite <- E, file_new_fresh in Hx.
  - simpl. congruence.
  - intros e x He Hx. rewrite file_new_files in Hx. simpl. case_decide as Ee.
    + subst e. apply elem_of_app in Hx as [Hx| ->%list_elem_of_singleton].
      * destruct (cv_owned _ _ Hi d x He Hx) as (y & Hy & Ho). exists y. rewrite lookup_insert_ne; [done |]. apply not_eq_sym. by apply (file_new_old d).
      * exists fl. by rewrite lookup_insert_eq.
    + destruct (cv_owned _ _ Hi e x He Hx) as (y & Hy & Ho). exists y. rewrite lookup_insert_ne; [done |]. apply not_eq_sym. by apply (file_new_old e).
  - intros e He. rewrite file_new_files. case_decide as Ee; [| by apply (cv_files_nodup _ _ Hi)]. subst e. apply NoDup_app.
    split_and!; [by apply (cv_files_nodup _ _ Hi) | | apply NoDup_singleton]. intros x Hx ->%list_elem_of_singleton. by apply (file_new_old d f).
  - intros e He. apply file_new_sorted; [apply Hw | done | done].
Qed.
End FileNew.

Lemma file_get_spec ext db d name :
  creator_inv ext db -> ic_diri (in_ic db) = Some d -> Z.of_nat (length name) < 2 ^ 8 ->
  let '(f, db') := apk_db_file_get d name db in
  creator_inv ext db' /\ in_diris db' = in_diris db /\ (forall e, diri_name db' e = diri_name db e) /\
  ic_diri (in_ic db') = Some d /\ ic_diris (in_ic db') = ic_diris (in_ic db) /\
  exists fl, in_files db' !! f = Some fl /\ f_name fl = name /\ diri_name db (f_diri fl) = diri_name db d /\
    (db' = db \/
     in_files db !! f = None /\ f_diri fl = d /\ f_acl fl = apk_default_acl_file /\ f_digest_alg fl = APK_DIGEST_NONE
     /\ f_audited fl = false /\ in_files db' = <[f := fl]> (in_files db) /\
     (forall e, files_of db' e = if decide (e = d) then files_of db d ++ [f] else files_of db e)).
Proof.
  intros Hi Hd Hlen. assert (is_Some (in_diris db !! d)) as [di Hdi] by (apply (cv_member _ _ Hi), (cv_current _ _ Hi), Hd).
  destruct (cv_diri _ _ Hi d di Hdi) as [_ [dd Hdd]].
  assert (dir_key (dir_at (in_dirs db) (di_dir (diri_at db d))) = diri_name db d) as Hkey by done.
  assert (dir_hash (dir_at (in_dirs db) (di_dir (diri_at db d))) = apk_blob_hash (diri_name db d)) as Hhash.
  { unfold diri_name, diri_at, dir_at. rewrite Hdi. simpl. rewrite Hdd. simpl.
    destruct (iv_clean _ _ _ (cv_dirs _ _ Hi) _ _ Hdd) as [_ Hid]. unfold dir_ident in Hid.
    rewrite (dir_key_name _ _ _ _ _ (cv_dirs _ _ Hi) Hdd). congruence. }
  unfold apk_db_file_get. rewrite Hkey, Hhash. set (k := file_hash_key (diri_name db d) name).
  rewrite <- file_hash_key_hash. fold k. rewrite get_at_key.
  destruct (apk_hash_get (in_table db) k) as [it|] eqn:Eg.
  - destruct (cv_item _ _ Hi eq_refl _ _ Eg) as (fl & Hfl & Hk). apply file_hash_key_inj in Hk as [Hn1 Hn2].
    split_and!; try done. exists fl. split_and!; try done. by left.
  - pose proof (file_new_inv true ext db d name Hi Hd) as Hnew. pose proof (file_new_sorted true ext db d name Hi Hd true) as Hsorted.
    pose proof (file_new_files db d name Hd) as Hfiles. pose proof (file_new_fresh true ext db Hi) as Hf. pose proof (file_new_name db d name) as Hfname.
    unfold apk_db_file_new in *. cbn [snd] in *. set (f := in_next_file db) in *. set (fl := mk_file _ _ _ _ _ _ _ _) in *. set (db1 := set_in_ic _ _) in *.
    cbv zeta. apply (builder_table ext db1 (apk_hash_insert (in_table db) (mk_file_item f k)) (u32 (in_stat_files db + 1))) in Hnew.
    2:{ intros it. unfold apk_hash_insert. intros [->|[x Hx]%(cv_listed _ _ Hi)]%insert_hashed_elem; simpl;
        [by rewrite lookup_insert_eq | rewrite lookup_insert_ne by congruence; by eexists]. }
    rewrite insert_at_key. cbn [in_stat_files set_in_table in_table set_in_ic set_in_next_file set_in_files db1]. fold db1.
    set (db' := set_in_stat_files _ _) in *.
    assert (f_namelen fl = Z.of_nat (length name)) as Hnl by (simpl; unfold u8; rewrite Z.mod_small; lia).
    assert (file_name db1 f = name) as Hname.
    { rewrite Hfname. unfold u8. rewrite Z.mod_small by lia. rewrite Nat2Z.id. apply firstn_all. }
    assert (forall x, x ∈ files_of db d -> file_name db x <> name) as Hfresh.
    { intros x Hx Hn. destruct (cv_owned _ _ Hi d x ltac:(by eexists) Hx) as (fx & Hfx & Ho).
      pose proof (cv_found _ _ Hi eq_refl x fx Hfx) as Hfound. cbv zeta in Hfound. rewrite Ho in Hfound.
      assert (f_name fx = name) as Hfxn.
      { rewrite <- Hn. unfold file_name, file_at. rewrite Hfx. simpl. unfold file_key.
        rewrite (cv_namelen _ _ Hi eq_refl x fx Hfx). by rewrite Nat2Z.id, firstn_all. }
      rewrite Hfxn in Hfound. fold k in Hfound. congruence. }
    split_and!; [| done | done | done | done | exists fl; split_and!; [simpl; by rewrite lookup_insert_eq | done | done |]; right; by split_and!].
    apply loaded_inv; [done | | | | |].
    + intros x y. simpl. intros [[<- <-]|[Hx Hy]]%lookup_insert_Some; [done |]. by apply (cv_namelen _ _ Hi eq_refl x).
    + apply apk_hash_insert_wf. by apply (cv_table _ _ Hi).
    + intros k' it. cbn [in_table db' set_in_stat_files set_in_table]. rewrite apk_hash_get_insert by (by apply (cv_table _ _ Hi)). cbn [get_key file_hash_ops fi_key]. case_decide as Ek.
      * intros [= <-]. exists fl. simpl. rewrite lookup_insert_eq. split; [done |]. by rewrite Ek.
      * intros (x & Hx & Hk)%(cv_item _ _ Hi eq_refl). exists x. simpl. rewrite lookup_insert_ne by congruence. done.
    + intros x y Hxy. cbv zeta. change (diri_name db' (f_diri y)) with (diri_name db (f_diri y)).
      cbn [in_table db' set_in_stat_files set_in_table]. rewrite apk_hash_get_insert by (by apply (cv_table _ _ Hi)). cbn [get_key file_hash_ops fi_key].
      simpl in Hxy. apply lookup_insert_Some in Hxy as [[<- <-]|[Hx Hy]]; [by rewrite decide_True |].
      pose proof (cv_found _ _ Hi eq_refl x y Hy) as Hfound. cbv zeta in Hfound. rewrite decide_False; [done |]. congruence.
    + intros e He Hu. apply Hsorted; [apply Hi | | done | done]. intros _ x Hx. rewrite Hname. by apply Hfresh.
Qed.

(** ** Looking a file up in the package being built *)

Definition split_path (file : bytes) : bytes * bytes :=
  match apk_blob_rsplit file (chr "/") with Some r => r | None => ([], file) end.

(** The file [f] of the package being built, found by walking all instances and files. *)
Definition has_file (db : inst_db) (path : bytes) (f : nat) : Prop :=
  exists d, has_diri db (split_path path).1 d /\ f ∈ files_of db d /\ file_name db f = (split_path path).2.

Section Builder.
Context {loaded : bool}.
#[local] Abbreviation inv := (builder_inv loaded).

Lemma diri_query_spec ext db name :
  inv ext db ->
  let '(r, db') := apk_db_diri_query name db in
  inv ext db' /\ resorted db db' /\ forall d, r = Some d <-> has_diri db name d.
Proof.
  intros Hi. unfold apk_db_diri_query. destruct (ic_diri (in_ic db)) as [c|] eqn:Ec; [| by apply diri_bsearch_spec].
  destruct (diri_bsearch_cmp db name c =? 0) eqn:E; [| by apply diri_bsearch_spec]. bool_prop. apply apk_blob_sort_eq0 in E.
  assert (has_diri db name c) as Hc by (split; [by apply (cv_current _ _ Hi) | done]).
  split_and!; [done | done |]. intros d. split; [by intros [= <-] |]. intros Hd. f_equal. by apply (has_diri_unique (loaded := loaded) ext db name).
Qed.

Lemma bsearch_files db files name :
  files_sorted (file_name db) loaded files ->
  match bsearch (length files) (files_bsearch_cmp db name) files with
  | Some f => f ∈ files /\ file_name db f = name
  | None => forall f, f ∈ files -> file_name db f <> name
  end.
Proof.
  intros Hs. pose proof (bsearch_weak (files_bsearch_cmp db name) (length files) files) as Hb.
  assert (forall x, files_bsearch_cmp db name x = 0 <-> name = file_name db x) as Hc by (intros x; apply apk_blob_sort_eq0).
  specialize (Hb ltac:(done) ltac:(by eapply files_sorted_weakly_ordered)). destruct (bsearch _ _ _) as [x|].
  - destruct Hb as [? ?%Hc]. done.
  - intros x Hx Hn. apply (Hb x Hx). by apply Hc.
Qed.

(** Sorting the files of the current instance. *)
Lemma sort_current_spec ext db d :
  inv ext db -> ic_diri (in_ic db) = Some d ->
  let files := qsort (files_qsort_cmp db) (ic_files (in_ic db)) in
  let db' := set_in_ic (mk_ic (ic_diri (in_ic db)) (ic_diris (in_ic db)) files (ic_num_unsorted_diris (in_ic db)) false) db in
  inv ext db' /\ kept db db' /\ files_sorted (file_name db) loaded files /\ files ≡ₚ files_of db d.
Proof.
  intros Hi Hd files db'. assert (is_Some (in_diris db !! d)) as Hsd by (apply (cv_member _ _ Hi), (cv_current _ _ Hi), Hd).
  assert (files_of db d = ic_files (in_ic db)) as Hfd by (unfold files_of; by rewrite Hd, bool_decide_true).
  assert (files_sorted (file_name db) loaded files) as Hs.
  { apply (qsort_files_sorted (file_name db)). intros Hl. rewrite <- Hfd. apply (file_names_nodup ext); [| done]. revert Hi. by rewrite Hl. }
  assert (files ≡ₚ files_of db d) as Hp by (rewrite Hfd; apply qsort_Permutation).
  assert (forall e, files_of db' e = if decide (e = d) then files else files_of db e) as Hfiles.
  { intros e. unfold files_of. simpl. rewrite Hd. case_decide as E; [by rewrite bool_decide_true by congruence | by rewrite !bool_decide_false by congruence]. }
  assert (forall e, files_of db' e ≡ₚ files_of db e) as Hpe by (intros e; rewrite Hfiles; case_decide; by subst).
  split_and!; try done. apply (creator_inv_same ext db); simpl; try done; try apply Hi.
  - rewrite Hd. discriminate.
  - intros e He Hu. rewrite Hfiles. case_decide as E; [done |]. apply (cv_files_sorted _ _ Hi); [done | congruence].
Qed.

Lemma find_file_spec ext db path :
  inv ext db ->
  let '(r, db') := apk_db_ipkg_find_file path db in
  inv ext db' /\ kept db db' /\ ic_diri (in_ic db') = ic_diri (in_ic db) /\
  match r with Some f => has_file db path f | None => forall f, ~ has_file db path f end.
Proof.
  intros Hi. unfold apk_db_ipkg_find_file, has_file. change (match apk_blob_rsplit path _ with Some r => r | None => _ end) with (split_path path).
  destruct (split_path path) as [dir file]. simpl. pose proof (diri_query_spec ext db dir Hi) as Hq.
  destruct (apk_db_diri_query dir db) as [found db1]. destruct Hq as (Hi1 & Hr1 & Hfound).
  pose proof (resorted_kept _ _ Hr1) as Hk1. destruct (same_objects_names _ _ (rs_objects _ _ Hr1)) as [_ Hfn].
  destruct found as [d|].
  2:{ split_and!; [done | done | apply Hr1 |]. intros f (d & Hd & _). by apply Hfound in Hd. }
  pose proof (proj1 (Hfound d) eq_refl) as Hd.
  assert (forall files, files ≡ₚ files_of db1 d -> files_sorted (file_name db1) loaded files ->
    match bsearch (length files) (files_bsearch_cmp db1 file) files with
    | Some f => exists e, has_diri db dir e /\ f ∈ files_of db e /\ file_name db f = file
    | None => forall f, ~ exists e, has_diri db dir e /\ f ∈ files_of db e /\ file_name db f = file
    end) as Hsearch.
  { intros files Hp Hs. pose proof (bsearch_files db1 files file Hs) as Hb. destruct (bsearch _ _ _) as [x|].
    - destruct Hb as [Hx Hn]. exists d. split_and!; [done | by rewrite <- (rs_files_of _ _ Hr1), <- Hp | by rewrite <- Hfn].
    - intros f (e & He & Hf & Hn). apply (Hb f); [| by rewrite Hfn]. rewrite Hp, (rs_files_of _ _ Hr1).
      by rewrite (has_diri_unique (loaded := loaded) ext db dir d e). }
  assert (is_Some (in_diris db1 !! d)) as Hsd.
  { apply (cv_member _ _ Hi1). rewrite (rs_diris _ _ Hr1). apply Hd. }
  case_bool_decide as Ec; [destruct (ic_files_unsorted (in_ic db1)) eqn:Eu |].
  - destruct (sort_current_spec ext db1 d Hi1 Ec) as (Hi2 & Hk2 & Hs & Hp). split_and!; [done | by transitivity db1 | apply Hr1 |].
    by apply (Hsearch (qsort (files_qsort_cmp db1) (ic_files (in_ic db1)))).
  - split_and!; [done | done | apply Hr1 |]. assert (ic_files (in_ic db1) = files_of db1 d) as E by (unfold files_of; by rewrite Ec, bool_decide_true).
    apply Hsearch; rewrite E; [done |]. by apply (cv_files_sorted _ _ Hi1).
  - split_and!; [done | done | apply Hr1 |]. assert (di_files (diri_at db1 d) = files_of db1 d) as E by (unfold files_of; by rewrite bool_decide_false).
    apply Hsearch; rewrite E; [done |]. by apply (cv_files_sorted _ _ Hi1).
Qed.
End Builder.

(** ** Changes of attributes *)

(** Access rights, digests and the lists of instances of a directory may change; what the
    searches look at does not. *)
Record attributes (ext : handles) (db db' : inst_db) : Prop := {
  at_dirs : dir_inv ext [] (in_dirs db');
  at_dir : forall a, is_Some (dd_dirs (in_dirs db) !! a) -> is_Some (dd_dirs (in_dirs db') !! a);
  at_dir_key : forall a, dir_key (dir_at (in_dirs db') a) = dir_key (dir_at (in_dirs db) a);
  at_diri : forall e, (fun d => (di_files d, di_dir d)) <$> in_diris db' !! e = (fun d => (di_files d, di_dir d)) <$> in_diris db !! e;
  at_file : forall f, (fun x => (f_diri x, f_namelen x, f_name x)) <$> in_files db' !! f
    = (fun x => (f_diri x, f_namelen x, f_name x)) <$> in_files db !! f;
  at_next : in_next_diri db' = in_next_diri db /\ in_next_file db' = in_next_file db;
  at_table : in_table db' = in_table db;
  at_ic : in_ic db' = in_ic db;
}.

Lemma fmap_eq_is_Some {A B} (g : A -> B) (x y : option A) : g <$> x = g <$> y -> is_Some x <-> is_Some y.
Proof. intros H. by rewrite <- (fmap_is_Some g x), H, fmap_is_Some. Qed.

Lemma attributes_names ext db db' :
  attributes ext db db' ->
  (forall e, diri_name db' e = diri_name db e) /\ (forall f, file_name db' f = file_name db f) /\
  (forall e, files_of db' e = files_of db e).
Proof.
  intros Ha. split_and!.
  - intros e. unfold diri_name. rewrite (at_dir_key _ _ _ Ha). pose proof (at_diri _ _ _ Ha e) as H.
    assert (di_dir (diri_at db' e) = di_dir (diri_at db e)) as ->; [| done]. unfold diri_at. destruct (in_diris db' !! e), (in_diris db !! e); simpl in *; congruence.
  - intros f. unfold file_name, file_at, file_key. pose proof (at_file _ _ _ Ha f) as H.
    destruct (in_files db' !! f), (in_files db !! f); simplify_eq/=; congruence.
  - intros e. unfold files_of. rewrite (at_ic _ _ _ Ha). case_bool_decide; [done |]. pose proof (at_diri _ _ _ Ha e) as He.
    unfold diri_at. destruct (in_diris db' !! e), (in_diris db !! e); simpl in *; congruence.
Qed.

Lemma attributes_inv {loaded} ext db db' : builder_inv loaded ext db -> attributes ext db db' -> builder_inv loaded ext db'.
Proof.
  intros Hi Ha. destruct (attributes_names ext db db' Ha) as (Nd & Nf & Nl). destruct Ha as [A1 A2 A3 A4 A5 [A6 A6'] A7 A8].
  assert (forall e, is_Some (in_diris db' !! e) <-> is_Some (in_diris db !! e)) as Hdom by (intros e; by eapply fmap_eq_is_Some).
  assert (forall f x, in_files db' !! f = Some x -> exists y, in_files db !! f = Some y /\ f_diri x = f_diri y
    /\ f_namelen x = f_namelen y /\ f_name x = f_name y) as Hfile.
  { intros f x Hf. specialize (A5 f). rewrite Hf in A5. destruct (in_files db !! f) as [y|]; [| done]. exists y. simplify_eq/=.
    split_and!; congruence. }
  assert (forall l, diri_name db' <$> l = diri_name db <$> l) as Nds by (intros l; by apply list_fmap_ext; intros).
  split; rewrite ?A6, ?A6', ?A7, ?A8, ?Nds; try done; try apply Hi.
  - intros a di Hdi. specialize (A4 a). rewrite Hdi in A4. destruct (in_diris db !! a) as [dj|] eqn:E; [| done].
    destruct (cv_diri _ _ Hi a dj E). simplify_eq/=. split; [done |]. apply A2. congruence.
  - intros a f (y & Hy & -> & _ & _)%Hfile. destruct (cv_file _ _ Hi a y Hy) as (? & ?). split; [done | by apply Hdom].
  - intros Hl a f (y & Hy & _ & -> & ->)%Hfile. by apply (cv_namelen _ _ Hi Hl a).
  - intros Hl k it (f & Hf & ->)%(cv_item _ _ Hi Hl). specialize (A5 (fi_addr it)). rewrite Hf in A5.
    destruct (in_files db' !! fi_addr it) as [x|]; [| done]. exists x. simplify_eq/=. split; [done |]. rewrite Nd. congruence.
  - intros Hl a f (y & Hy & -> & _ & ->)%Hfile. rewrite Nd. by apply (cv_found _ _ Hi Hl).
  - intros it [x Hx]%(cv_listed _ _ Hi). eapply fmap_eq_is_Some; [by apply A5 | by eexists].
  - intros d Hd. apply Hdom. by apply (cv_member _ _ Hi).
  - eapply strictly_sorted_ext; [| apply Hi]. done.
  - intros d f Hd%Hdom. rewrite Nl. intros Hf. destruct (cv_owned _ _ Hi d f Hd Hf) as (y & Hy & Ho). specialize (A5 f). rewrite Hy in A5.
    destruct (in_files db' !! f) as [x|]; [| done]. exists x. simplify_eq/=. split; [done | congruence].
  - intros d Hd%Hdom. rewrite Nl. by apply (cv_files_nodup _ _ Hi).
  - intros d Hd%Hdom Hu. rewrite Nl. eapply files_sorted_ext; [| by apply (cv_files_sorted _ _ Hi)]. done.
Qed.

Lemma set_diri_acl_attributes {loaded} ext db d acl : builder_inv loaded ext db -> is_Some (in_diris db !! d) -> attributes ext db (upd_diri d (set_di_acl acl) db).
Proof.
  intros Hi [di Hdi]. split; try done; try apply Hi. intros e. simpl. destruct (decide (e = d)) as [->|]; [| by rewrite lookup_insert_ne].
  rewrite lookup_insert_eq. unfold diri_at. by rewrite Hdi.
Qed.

Lemma upd_file_attributes {loaded} ext db f g :
  builder_inv loaded ext db -> is_Some (in_files db !! f) ->
  (forall x, f_diri (g x) = f_diri x /\ f_namelen (g x) = f_namelen x /\ f_name (g x) = f_name x) ->
  attributes ext db (upd_file f g db).
Proof.
  intros Hi [x Hx] Hg. split; try done; try apply Hi. intros e. simpl. destruct (decide (e = f)) as [->|]; [| by rewrite lookup_insert_ne].
  rewrite lookup_insert_eq. unfold file_at. rewrite Hx. simpl. destruct (Hg x) as (-> & -> & ->). done.
Qed.

(** A directory object may change as long as its name, references and parent stay. *)
Lemma upd_dir_attributes {loaded} ext db a g :
  builder_inv loaded ext db -> (forall d, same_shape d (g d)) -> is_Some (dd_dirs (in_dirs db) !! a) ->
  attributes ext db (set_in_dirs (upd_dir a g (in_dirs db)) db).
Proof.
  intros Hi Hg [d Hd]. split; try done; cbn [in_dirs set_in_dirs].
  - eapply (soft_inv ext [] a d (g d)); [apply Hi | done | done | done | | done | done]. unfold upd_dir. simpl. unfold dir_at. by rewrite Hd.
  - intros b Hb. simpl. destruct (decide (b = a)) as [->|]; [by rewrite lookup_insert_eq | by rewrite lookup_insert_ne].
  - intros b. unfold dir_at at 1. simpl. destruct (decide (b = a)) as [->|]; [| by rewrite lookup_insert_ne].
    rewrite lookup_insert_eq. simpl. destruct (Hg (dir_at (in_dirs db) a)) as (H1 & H2 & _). unfold dir_key, dir_ident in *. congruence.
Qed.

Lemma attributes_trans ext a b c : attributes ext a b -> attributes ext b c -> attributes ext a c.
Proof.
  intros [A1 A2 A3 A4 A5 [A6 A6'] A7 A8] [B1 B2 B3 B4 B5 [B6 B6'] B7 B8].
  split; [done | auto | | | | split; congruence | congruence | congruence]; intros e; by rewrite ?B3, ?B4, ?B5.
Qed.

(** ** Starting and finishing a package *)

Definition idle (db : inst_db) : Prop := ic_diri (in_ic db) = None /\ ic_files (in_ic db) = [] /\ ic_files_unsorted (in_ic db) = false.

(** The instances that a package has already: in the order of their names. *)
Definition stored_sorted (db : inst_db) (diris : list nat) : Prop :=
  (forall d, d ∈ diris -> is_Some (in_diris db !! d)) /\ strictly_sorted (diri_name db) diris.

Lemma stored_sorted_nil db : stored_sorted db [].
Proof. split; [by intros d ?%elem_of_nil | intros i j x y _ Hx; by rewrite lookup_nil in Hx]. Qed.

Lemma strictly_sorted_nodup {A} (name : A -> bytes) l : strictly_sorted name l -> NoDup (name <$> l).
Proof.
  intros Hs. apply NoDup_alt. intros i j x Hi Hj. rewrite list_lookup_fmap in Hi, Hj.
  destruct (l !! i) as [a|] eqn:Ea, (l !! j) as [b|] eqn:Eb; try done. simplify_eq/=.
  destruct (Nat.lt_trichotomy i j) as [Hlt|[->|Hlt]]; [| done |]; exfalso.
  - apply (blob_sort_lt_irrefl (name a)). pose proof (Hs i j a b Hlt Ea Eb) as H. unfold name_lt in H. congruence.
  - apply (blob_sort_lt_irrefl (name a)). pose proof (Hs j i b a Hlt Eb Ea) as H. unfold name_lt in H. congruence.
Qed.

Lemma ipkg_create_inv {loaded} ext db diris :
  builder_inv loaded ext db -> idle db -> stored_sorted db diris -> builder_inv loaded ext (apk_db_ipkg_create diris db).
Proof.
  intros Hi (H1 & H2 & H3) [Hex Hso]. apply (creator_inv_same ext db); simpl; try done; try lia.
  - by apply strictly_sorted_nodup.
  - by rewrite Nat.sub_0_r, take_ge by lia.
  - intros d Hd. unfold files_of. simpl. by rewrite H1.
  - intros d Hd _. unfold files_of. simpl.
    pose proof (cv_files_sorted _ _ Hi d Hd ltac:(by rewrite H1)) as Hs. unfold files_of in Hs. by rewrite H1 in Hs.
Qed.

Definition link_diri (diri : nat) (db : inst_db) : inst_db :=
  set_in_dirs (upd_dir (di_dir (diri_at db diri)) (fun d => set_dir_diris (dir_diris d ++ [diri]) d) (in_dirs db)) db.

Lemma link_diris_attributes {loaded} ext l db :
  builder_inv loaded ext db -> (forall d, d ∈ l -> is_Some (in_diris db !! d)) -> attributes ext db (each link_diri l db).
Proof.
  revert db. induction l as [|d l IH]; intros db Hi Hl; simpl; [split; try done; apply Hi |].
  assert (attributes ext db (link_diri d db)) as Ha.
  { apply (upd_dir_attributes (loaded := loaded)); [done | done |]. destruct (Hl d ltac:(by left)) as [di Hdi]. unfold diri_at. rewrite Hdi.
    by apply (cv_diri _ _ Hi d di). }
  apply (attributes_trans ext _ (link_diri d db)); [done |]. apply IH; [by apply (attributes_inv ext db) |].
  intros e He. by apply (Hl e); right.
Qed.

(** The instances are those of the creator; their files are stored. *)
Lemma ipkg_commit_spec {loaded} ext db :
  builder_inv loaded ext db ->
  let '(diris, db') := apk_db_ipkg_commit db in
  builder_inv loaded ext db' /\ idle db' /\ diris = ic_diris (in_ic db) /\ ic_diris (in_ic db') = [] /\ kept db db'.
Proof.
  intros Hi. unfold apk_db_ipkg_commit. destruct (commit_files_spec ext db Hi) as (Hs & Hic & Hf & Ha).
  set (db1 := apk_db_ipkg_commit_files db) in *. clearbody db1.
  change (each (fun diri db => set_in_dirs _ db)) with (each link_diri).
  set (db2 := apk_db_ipkg_creator_reset db1).
  assert (in_ic db2 = mk_ic None [] [] 0 false) as Hic2 by (unfold db2, apk_db_ipkg_creator_reset; rewrite Hic; done).
  assert (forall e, files_of db2 e = di_files (diri_at db1 e)) as Hf2 by (intros e; unfold files_of; by rewrite Hic2).
  assert (same_objects db db2) as Hs2 by (by destruct Hs; split).
  assert (builder_inv loaded ext db2) as Hi2.
  { apply (creator_inv_same ext db); rewrite ?Hic2; simpl; try done; try lia.
    - by intros d ?%elem_of_nil.
    - constructor.
    - intros d Hd. rewrite Hf2. by apply Hf.
    - intros d Hd _. rewrite Hf2. by apply Hf. }
  assert (kept db db2) as Hk2.
  { apply same_objects_kept; [done | intros e He; rewrite Hf2; by apply Hf | intros e; apply Ha]. }
  assert (forall l db, apk_db_ipkg_creator_reset (each link_diri l db) = each link_diri l (apk_db_ipkg_creator_reset db)) as Hcomm.
  { induction l as [|x l IH]; intros dbx; simpl; [done |]. by rewrite IH. }
  rewrite Hcomm. fold db2. rewrite Hic. cbn [ic_diris].
  assert (attributes ext db2 (each link_diri (ic_diris (in_ic db)) db2)) as Hat.
  { apply (link_diris_attributes (loaded := loaded)); [done |]. intros d Hd. apply (so_dom _ _ Hs2). by apply (cv_member _ _ Hi). }
  assert (forall l db, (in_diris (each link_diri l db), in_files (each link_diri l db)) = (in_diris db, in_files db)) as Hsame.
  { induction l as [|x l IH]; intros dbx; simpl; [done |]. by rewrite IH. }
  specialize (Hsame (ic_diris (in_ic db)) db2). set (db3 := each link_diri _ db2) in *. simplify_eq.
  destruct (attributes_names ext db2 db3 Hat) as (N1 & N2 & N3). pose proof (at_ic _ _ _ Hat) as Hic3.
  split_and!; [by apply (attributes_inv ext db2) | | done | by rewrite Hic3, Hic2 |].
  { unfold idle. by rewrite Hic3, Hic2. }
  transitivity db2; [done |]. split; try done.
  - intros e He. by rewrite H.
  - intros e He. by rewrite N3.
  - intros e He. unfold diri_at. by rewrite H.
  - intros e He. unfold diri_at. by rewrite H.
  - by apply Hat.
Qed.

(** ** Reading and installing packages *)

Definition inst_init (dir_buckets file_buckets : Z) (protected_paths : list apk_protected_path) : inst_db :=
  mk_inst (dir_init dir_buckets protected_paths) ∅ 0 ∅ 0 (apk_hash_init file_buckets) ic0 0.

Definition refs_below_limit (db : inst_db) : Prop :=
  forall b d, dd_dirs (in_dirs db) !! b = Some d -> dir_refs d < 2 ^ 16 - 1.

Lemma inst_init_inv dir_buckets file_buckets protected_paths : 0 < dir_buckets -> 0 < file_buckets -> creator_inv (fun _ => 0) (inst_init dir_buckets file_buckets protected_paths).
Proof.
  intros Hd Hf. assert (hash_wf (apk_hash_init (V := file_item) file_buckets)) as Hw by (by apply apk_hash_init_wf).
  split; try done; try (intros ? Hx; set_solver).
  - by apply dir_init_inv.
  - intros k it. simpl. rewrite apk_hash_get_items by done. by rewrite apk_hash_init_items.
  - intros it (l & Hl & Hit)%elem_of_concat. cbn in Hl. apply elem_of_replicate_inv in Hl. subst l. by apply elem_of_nil in Hit.
  - constructor.
  - intros d [? H]. simpl in H. by apply lookup_empty_Some in H.
Qed.

Lemma digest_set_keeps alg data x :
  let x' := apk_dbf_digest_set alg data x in f_diri x' = f_diri x /\ f_namelen x' = f_namelen x /\ f_name x' = f_name x.
Proof. unfold apk_dbf_digest_set. by case_if. Qed.

(** One package with the directories of [names], in this order, each with a file [x]. *)
Definition build (names : list bytes) (db : inst_db) : inst_db :=
  each (fun n db => match apk_db_diri_get ex_fnmatch (S (length n)) n Pkg_null db with
                    | Some (d, db) => (apk_db_file_get d (lit "x") db).2
                    | None => db
                    end) names db.

Lemma refs_below_limit_check db :
  bool_decide (map_Forall (fun _ d => dir_refs d < 2 ^ 16 - 1) (dd_dirs (in_dirs db))) = true -> refs_below_limit db.
Proof. intros H. exact (bool_decide_eq_true_1 _ H). Qed.

Definition ex_inst0 : inst_db := apk_db_ipkg_create [] (inst_init 5 5 []).
Definition ex_inst : inst_db := build [lit "a"] (build [lit "b"] ex_inst0).

(** The instances of a package that was built in this order, and those after [name] is asked
    for while the package is built once more. *)
Definition rebuild (names : list bytes) (name : bytes) : list bytes * list bytes :=
  let '(diris, db) := apk_db_ipkg_commit (build names ex_inst0) in
  let db' := build [name] (apk_db_ipkg_create diris db) in
  (diri_name db <$> diris, diri_name db' <$> ic_diris (in_ic db')).

(** The array of a package's instances is stored as it is, sorted or not, and is
    taken to be sorted when the package is built again: after a package with the directories
    [b], [c] and [a] in this order, asking for [a] does not find the instance of [a] and makes
    a second one, whereas a package stored in sorted order keeps its instances. *)
Theorem reinstall_loses_instance :
  rebuild [lit "b"; lit "c"; lit "a"] (lit "a") = ([lit "b"; lit "c"; lit "a"], [lit "b"; lit "c"; lit "a"; lit "a"]) /\
  rebuild [lit "a"; lit "b"; lit "c"] (lit "a") = ([lit "a"; lit "b"; lit "c"], [lit "a"; lit "b"; lit "c"]).
Proof. split; vm_compute; reflexivity. Qed.
