(* ===== verification/Owner.v ===== *)
(** * Owners and permissions of directories (database.c)

    A directory that several packages have belongs to one of its instances, the owner,
    which gives it its mode and owner on disk.  [apk_db_dir_prepare] creates a directory
    and its parents before files are put there. *)

From S2P Require Import Prelude Blob BlobCodec Digest Hash Dep Package PackageRules Dirs Catalog Installed.

Definition ENOENT : Z := 2.

Section Owner.
Context (simulate usermode : bool).
(** The result of a file system call, given all calls up to it. *)
Context (fs_result : list fs_call -> Z).
(** The package behind a pointer. *)
Context (pkg_of : pkg_ref -> option apk_package).

(** [S_IWUSR | S_IXUSR] are added in user mode. *)
Definition apk_db_dir_get_mode (mode : Z) : Z := if usermode then Z.lor (Z.lor mode 128) 64 else mode.

Definition fs_do (c : fs_call) (db : dir_db) : Z * dir_db :=
  let db := log_call c db in (fs_result (dd_log db), db).

Definition dir_path (db : dir_db) (a : nat) : bytes := dir_key (dir_at db a).

Definition apk_db_dir_mkdir (dir : bytes) (acl : apk_db_acl) (db : dir_db) : Z * dir_db :=
  if simulate then (0, db)
  else fs_do (Fs_create dir (apk_db_dir_get_mode (acl_mode acl)) (acl_uid acl) (acl_gid acl)) db.

(** [None]: the fuel is too small; the recursion goes to the parent. *)
Fixpoint apk_db_dir_prepare (fuel : nat) (a : nat) (expected_acl : option apk_db_acl) (new_acl : apk_db_acl) (db : dir_db) :
    option dir_db :=
  match fuel with
  | O => None
  | S fuel =>
      if dir_namelen (dir_at db a) =? 0 then Some db
      else if dir_created (dir_at db a) then Some db
      else
        let db := upd_dir a (set_dir_created true) db in
        db ← match dir_parent (dir_at db a) with
             | Some parent =>
                 if dir_created (dir_at db parent) then Some db
                 else apk_db_dir_prepare fuel parent (Some apk_default_acl_dir) apk_default_acl_dir db
             | None => Some db
             end;
        let mkdir db :=
          let '(r, db) := apk_db_dir_mkdir (dir_path db a) new_acl db in
          if r =? 0 then upd_dir a (set_dir_permissions_ok true) db else db in
        match expected_acl with
        | None => Some (mkdir db)
        | Some acl =>
            let '(r, db) := fs_do (Fs_check (dir_path db a) (apk_db_dir_get_mode (acl_mode acl)) (acl_uid acl) (acl_gid acl)) db in
            Some (if r =? - ENOENT then mkdir db
                  else if r =? 0 then upd_dir a (set_dir_permissions_ok true) db
                  else db)
        end
  end.

Definition on_dirs (f : dir_db -> dir_db) (db : inst_db) : inst_db := set_in_dirs (f (in_dirs db)) db.

Definition apk_db_dir_update_permissions (diri : nat) (db : inst_db) : inst_db :=
  let dir := di_dir (diri_at db diri) in
  let acl := di_acl (diri_at db diri) in
  if negb (dir_permissions_ok (dir_at (in_dirs db) dir)) then db
  else if simulate then db
  else
    on_dirs (fun dirs =>
      let dirs := upd_dir dir (set_dir_modified true) dirs in
      let '(r, dirs) := fs_do (Fs_update_perms (dir_path dirs dir) (apk_db_dir_get_mode (acl_mode acl)) (acl_uid acl) (acl_gid acl)) dirs in
      if negb (r =? 0) then set_dd_num_dir_update_errors (u32 (dd_num_dir_update_errors dirs + 1)) dirs else dirs) db.

Definition set_owner (diri : nat) (db : inst_db) : inst_db :=
  on_dirs (upd_dir (di_dir (diri_at db diri)) (set_dir_owner (Some diri))) db.

(** The package of an instance. *)
Definition diri_pkg (db : inst_db) (diri : nat) : option apk_package := pkg_of (di_pkg (diri_at db diri)).

Definition is_yes (r : replaces_result) : bool := match r with APK_PKG_REPLACES_YES => true | _ => false end.

Definition apk_db_dir_apply_diri_permissions (diri : nat) (db : inst_db) : outcome inst_db :=
  match dir_owner (dir_at (in_dirs db) (di_dir (diri_at db diri))) with
  | None => Ok (set_owner diri db)
  | Some owner =>
      let! r := apk_pkg_replaces_dir (diri_pkg db owner) (diri_pkg db diri) in
      Ok (if negb (is_yes r) then db
          else
            let db := if bool_decide (di_acl (diri_at db owner) = di_acl (diri_at db diri)) then db
                      else apk_db_dir_update_permissions diri db in
            set_owner diri db)
  end.

(** The new owner among the instances that are left. *)
Fixpoint choose_owner (db : inst_db) (diris : list nat) (owner : option nat) : outcome (option nat) :=
  match diris with
  | [] => Ok owner
  | di :: diris =>
      let! take := match owner with
                   | None => Ok true
                   | Some o => let! r := apk_pkg_replaces_dir (diri_pkg db o) (diri_pkg db di) in Ok (is_yes r)
                   end in
      choose_owner db diris (if take then Some di else owner)
  end.

(** The fuel is for releasing the directory. *)
Definition apk_db_diri_remove (fuel : nat) (diri : nat) (db : inst_db) : outcome (option inst_db) :=
  let dir := di_dir (diri_at db diri) in
  let db := on_dirs (upd_dir dir (fun d => set_dir_diris (filter (fun x => x <> diri) (dir_diris d)) d)) db in
  let! db :=
    if bool_decide (dir_owner (dir_at (in_dirs db) dir) = Some diri) then
      let! owner := choose_owner db (dir_diris (dir_at (in_dirs db) dir)) None in
      let db := on_dirs (upd_dir dir (set_dir_owner owner)) db in
      Ok (match owner with Some o => apk_db_dir_update_permissions o db | None => db end)
    else Ok db in
  Ok (dirs ← apk_db_dir_unref simulate fuel true dir (in_dirs db); Some (set_in_dirs dirs db)).
End Owner.
