(* ===== verification/Fdb.v ===== *)
(** * The installed database as text (database.c)

    [apk_db_fdb_read] reads indexes and the installed database: lines [x:value] that end
    with an empty line per package; the installed database adds directories, files, access
    rights and digests.  [apk_db_fdb_write] writes one installed package.  Input is the list
    of lines that [apk_istream_get_delim] yields; output is the text handed to the stream,
    which accepts everything. *)

From S2P Require Import Prelude Blob BlobCodec Digest Hash Dep Package PackageRules Path Dirs Catalog Installed Owner.

(** ** Writing *)

Definition FDB_BUFSIZE : nat := 1024 + PATH_MAX.

Definition apk_blob_push_db_acl (b : pushbuf) (field : Z) (acl : apk_db_acl) : pushbuf :=
  let b := apk_blob_push_blob b [field; chr ":"] in
  let b := apk_blob_push_uint b (acl_uid acl) 10 in
  let b := apk_blob_push_blob b (lit ":") in
  let b := apk_blob_push_uint b (acl_gid acl) 10 in
  let b := apk_blob_push_blob b (lit ":") in
  let b := apk_blob_push_uint b (acl_mode acl) 8 in
  let b := if (length (acl_xattr_hash acl) =? 0)%nat then b
           else apk_blob_push_hash (apk_blob_push_blob b (lit ":")) (acl_xattr_hash acl) in
  apk_blob_push_blob b [10].

Fixpoint write_blobs_loop (separator : bytes) (blobs : list bytes) : bytes :=
  match blobs with
  | [] => [10]
  | b :: blobs => separator ++ b ++ write_blobs_loop (lit " ") blobs
  end.
Definition write_blobs (field : bytes) (blobs : list bytes) : bytes :=
  match blobs with [] => [] | _ => write_blobs_loop field blobs end.

(** The text of one file: [None] when the buffer is too small. *)
Definition fdb_write_file (f : apk_db_file) : option bytes :=
  let b := pushbuf_new FDB_BUFSIZE in
  let b := apk_blob_push_blob b (lit "R:") in
  let b := apk_blob_push_blob b (file_key f) in
  let b := apk_blob_push_blob b [10] in
  let b := if bool_decide (f_acl f = apk_default_acl_file) then b else apk_blob_push_db_acl b (chr "a") (f_acl f) in
  let b := if f_digest_alg f =? APK_DIGEST_NONE then b
           else apk_blob_push_blob (apk_blob_push_hash (apk_blob_push_blob b (lit "Z:")) (f_digest f)) [10] in
  apk_blob_pushed b.

(** The result and the text. *)
Fixpoint fdb_write_files (db : inst_db) (files : list nat) (out : bytes) : Z * bytes :=
  match files with
  | [] => (0, out)
  | f :: files =>
      if f_audited (file_at db f) then fdb_write_files db files out
      else
        match fdb_write_file (file_at db f) with
        | None => (- APKE_BUFFER_SIZE, out)
        | Some txt => fdb_write_files db files (out ++ txt)
        end
  end.

(** [b] holds what was pushed before the first directory. *)
Fixpoint fdb_write_diris (db : inst_db) (b : pushbuf) (diris : list nat) (out : bytes) : Z * bytes :=
  match diris with
  | [] => (0, out ++ [10])
  | d :: diris =>
      let b := apk_blob_push_blob b (lit "F:") in
      let b := apk_blob_push_blob b (diri_name db d) in
      let b := apk_blob_push_blob b [10] in
      let acl := di_acl (diri_at db d) in
      let b := if bool_decide (acl = apk_default_acl_dir) then b else apk_blob_push_db_acl b (chr "M") acl in
      match apk_blob_pushed b with
      | None => (- APKE_BUFFER_SIZE, out)
      | Some txt =>
          let '(r, out) := fdb_write_files db (di_files (diri_at db d)) (out ++ txt) in
          if r <? 0 then (r, out) else fdb_write_diris db (pushbuf_new FDB_BUFSIZE) diris out
      end
  end.

(** The fields of the installed package that are pushed before its directories; an index
    outside the table of tags faults. *)
Definition fdb_push_ipkg (tags : repo_tags) (ipkg : apk_installed_package) (b : pushbuf) : outcome pushbuf :=
  let! b :=
    if (length (ip_replaces ipkg) =? 0)%nat then Ok b
    else
      let! b := apk_blob_push_deps (apk_blob_push_blob b (lit "r:")) (Some tags) (ip_replaces ipkg) in
      Ok (apk_blob_push_blob b [10]) in
  let b :=
    if ip_replaces_priority ipkg =? 0 then b
    else apk_blob_push_blob (apk_blob_push_uint (apk_blob_push_blob b (lit "q:")) (ip_replaces_priority ipkg) 10) [10] in
  let! b :=
    if ip_repository_tag ipkg =? 0 then Ok b
    else if (APK_MAX_TAGS <=? Z.to_nat (ip_repository_tag ipkg))%nat then Fault
    else Ok (apk_blob_push_blob (apk_blob_push_blob (apk_blob_push_blob b (lit "s:"))
               (default [] (tag_plain <$> tags !! Z.to_nat (ip_repository_tag ipkg)))) [10]) in
  Ok (if ip_broken_files ipkg || ip_broken_script ipkg || ip_broken_xattr ipkg || ip_sha256_160 ipkg then
        let b := apk_blob_push_blob b (lit "f:") in
        let b := if ip_broken_files ipkg then apk_blob_push_blob b (lit "f") else b in
        let b := if ip_broken_script ipkg then apk_blob_push_blob b (lit "s") else b in
        let b := if ip_broken_xattr ipkg then apk_blob_push_blob b (lit "x") else b in
        let b := if ip_sha256_160 ipkg then apk_blob_push_blob b (lit "S") else b in
        apk_blob_push_blob b [10]
      else b).

Definition apk_db_fdb_write (tags : repo_tags) (db : inst_db) (pkg : apk_package) (ipkg : apk_installed_package) (diris : list nat) :
    outcome (Z * bytes) :=
  let! (r, out) := apk_pkg_write_index_header pkg in
  if r <? 0 then Ok (r, out)
  else
    let out := out ++ write_blobs (lit "g:") (pkg_tags pkg) in
    let! b := fdb_push_ipkg tags ipkg (pushbuf_new FDB_BUFSIZE) in
    Ok (fdb_write_diris db b diris out).

(** The packages of one layer, in the order of [apk_db_sorted_installed_packages], into the
    stream of that layer; an error of one package stays with the stream. *)
Fixpoint fdb_write_layer (tags : repo_tags) (db : inst_db) (diris : gmap nat (list nat)) (layer : Z) (pkgs : list apk_package)
    (rc : Z) (out : bytes) : outcome (Z * bytes) :=
  match pkgs with
  | [] => Ok (rc, out)
  | p :: pkgs =>
      if negb (pkg_layer p =? layer) then fdb_write_layer tags db diris layer pkgs rc out
      else
        match pkg_ipkg p with
        | None => Fault
        | Some ipkg =>
            let! (r, txt) := apk_db_fdb_write tags db p ipkg (default [] (diris !! pkg_addr p)) in
            fdb_write_layer tags db diris layer pkgs (if (rc =? 0) && (r <? 0) then r else rc) (out ++ txt)
        end
  end.

(** ** Reading *)

Definition APK_REPO_DB_INSTALLED : Z := -1.
Definition APK_REPO_CACHE_INSTALLED : Z := -2.

(** The whole database: names and packages, directories and files, and the instances of
    every installed package ([ipkg->diris]). *)
Record fdb := mk_fdb {
  fd_cat : catalog;
  fd_inst : inst_db;
  fd_diris : gmap nat (list nat);
}.

(** The local variables of the reader; [ipkg] is a pointer to the installed package of the
    template, whose instances are [fs_ipkg_diris]; the digests are not initialised. *)
Record fdb_state := mk_fs {
  fs_tmpl : pkg_tmpl;
  fs_ipkg : bool;
  fs_ipkg_diris : list nat;
  fs_diri : option nat;
  fs_file : option nat;
  fs_file_digest : apk_digest;
  fs_xattr_digest : apk_digest;
  fs_cat : catalog;
  fs_inst : inst_db;
  fs_diris : gmap nat (list nat);
}.

Definition eta_fs (s : fdb_state) : fdb_state :=
  mk_fs (fs_tmpl s) (fs_ipkg s) (fs_ipkg_diris s) (fs_diri s) (fs_file s) (fs_file_digest s) (fs_xattr_digest s)
    (fs_cat s) (fs_inst s) (fs_diris s).
Definition set_fs_tmpl v (s : fdb_state) : fdb_state := ltac:(record_set eta_fs fs_tmpl s v).
Definition set_fs_ipkg v (s : fdb_state) : fdb_state := ltac:(record_set eta_fs fs_ipkg s v).
Definition set_fs_ipkg_diris v (s : fdb_state) : fdb_state := ltac:(record_set eta_fs fs_ipkg_diris s v).
Definition set_fs_diri v (s : fdb_state) : fdb_state := ltac:(record_set eta_fs fs_diri s v).
Definition set_fs_file v (s : fdb_state) : fdb_state := ltac:(record_set eta_fs fs_file s v).
Definition set_fs_file_digest v (s : fdb_state) : fdb_state := ltac:(record_set eta_fs fs_file_digest s v).
Definition set_fs_xattr_digest v (s : fdb_state) : fdb_state := ltac:(record_set eta_fs fs_xattr_digest s v).
Definition set_fs_cat v (s : fdb_state) : fdb_state := ltac:(record_set eta_fs fs_cat s v).
Definition set_fs_inst v (s : fdb_state) : fdb_state := ltac:(record_set eta_fs fs_inst s v).
Definition set_fs_diris v (s : fdb_state) : fdb_state := ltac:(record_set eta_fs fs_diris s v).

Definition upd_info (f : apk_package_tmpl -> apk_package_tmpl) (t : pkg_tmpl) : pkg_tmpl :=
  mk_ptmpl (f (pt_info t)) (pt_recommends t) (pt_tags t) (pt_repos t) (pt_filename_ndx t)
    (pt_cached_non_repository t) (pt_layer t) (pt_ipkg t).
Definition set_pt_tags v (t : pkg_tmpl) : pkg_tmpl :=
  mk_ptmpl (pt_info t) (pt_recommends t) v (pt_repos t) (pt_filename_ndx t) (pt_cached_non_repository t) (pt_layer t) (pt_ipkg t).
Definition set_pt_repos v (t : pkg_tmpl) : pkg_tmpl :=
  mk_ptmpl (pt_info t) (pt_recommends t) (pt_tags t) v (pt_filename_ndx t) (pt_cached_non_repository t) (pt_layer t) (pt_ipkg t).
Definition set_pt_filename_ndx v (t : pkg_tmpl) : pkg_tmpl :=
  mk_ptmpl (pt_info t) (pt_recommends t) (pt_tags t) (pt_repos t) v (pt_cached_non_repository t) (pt_layer t) (pt_ipkg t).
Definition set_pt_cached v (t : pkg_tmpl) : pkg_tmpl :=
  mk_ptmpl (pt_info t) (pt_recommends t) (pt_tags t) (pt_repos t) (pt_filename_ndx t) v (pt_layer t) (pt_ipkg t).
Definition set_pt_layer v (t : pkg_tmpl) : pkg_tmpl :=
  mk_ptmpl (pt_info t) (pt_recommends t) (pt_tags t) (pt_repos t) (pt_filename_ndx t) (pt_cached_non_repository t) v (pt_ipkg t).
Definition upd_ipkg (f : apk_installed_package -> apk_installed_package) (t : pkg_tmpl) : pkg_tmpl :=
  mk_ptmpl (pt_info t) (pt_recommends t) (pt_tags t) (pt_repos t) (pt_filename_ndx t) (pt_cached_non_repository t) (pt_layer t)
    (f <$> pt_ipkg t).

Definition eta_ipkg (s : apk_installed_package) : apk_installed_package :=
  mk_ipkg (ip_replaces s) (ip_replaces_priority s) (ip_repository_tag s) (ip_broken_files s) (ip_broken_script s)
    (ip_broken_xattr s) (ip_sha256_160 s) (ip_to_be_removed s).
Definition set_ip_replaces v (s : apk_installed_package) : apk_installed_package := ltac:(record_set eta_ipkg ip_replaces s v).
Definition set_ip_replaces_priority v (s : apk_installed_package) : apk_installed_package :=
  ltac:(record_set eta_ipkg ip_replaces_priority s v).
Definition set_ip_repository_tag v (s : apk_installed_package) : apk_installed_package :=
  ltac:(record_set eta_ipkg ip_repository_tag s v).
Definition set_ip_broken_files v (s : apk_installed_package) : apk_installed_package := ltac:(record_set eta_ipkg ip_broken_files s v).
Definition set_ip_broken_script v (s : apk_installed_package) : apk_installed_package := ltac:(record_set eta_ipkg ip_broken_script s v).
Definition set_ip_broken_xattr v (s : apk_installed_package) : apk_installed_package := ltac:(record_set eta_ipkg ip_broken_xattr s v).
Definition set_ip_sha256_160 v (s : apk_installed_package) : apk_installed_package := ltac:(record_set eta_ipkg ip_sha256_160 s v).

(** How the loop goes on after a line. *)
Inductive fdb_error := Err_fmt | Bad_entry | Old_apk_tools.
Inductive fdb_next := Go (s : fdb_state) | Stop (e : fdb_error) (s : fdb_state).

Section Read.
Context (simulate usermode : bool) (fs_result : list fs_call -> Z) (fnmatch : bytes -> bytes -> bool).
(** [db->ctx->force & APK_FORCE_OLD_APK], the arguments [repo] and [layer], and the byte
    behind the last line. *)
Context (force_old_apk : bool) (repo layer behind : Z).

(** The package behind a pointer; the template is a package of its own. *)
Definition tmpl_pkg (t : pkg_tmpl) : apk_package :=
  set_pkg_ipkg (pt_ipkg t) (pkg_from_tmpl 0 t (default [] (t_name (pt_info t))) (default [] (t_version (pt_info t)))
    (t_uninstallable (pt_info t))).
Definition fs_pkg_of (s : fdb_state) (r : pkg_ref) : option apk_package :=
  match r with
  | Pkg_null => None
  | Pkg_tmpl => Some (tmpl_pkg (fs_tmpl s))
  | Pkg_at a => db_pkgs (fs_cat s) !! a
  end.

(** Tags are not allowed here, so that the byte behind the value is not read. *)
Definition deps_names (value : bytes) (tags : repo_tags) : list bytes :=
  match apk_blob_pull_deps (Some value) tags false 0 [] with
  | Some (_, _, deps) => dep_name <$> deps
  | None => []
  end.

(** The names a field enters into the table of names. *)
Definition line_names (field : Z) (value : bytes) (tags : repo_tags) : list bytes :=
  if field =? chr "P" then [value]
  else if bool_decide (field ∈ lit "Dpi") then deps_names value tags
  else [].

Definition fs_get_names (names : list bytes) (s : fdb_state) : fdb_state := set_fs_cat (each apk_db_get_name names (fs_cat s)) s.

(** [if (diri) apk_db_dir_apply_diri_permissions (db, diri)] *)
Definition fs_apply (s : fdb_state) : outcome fdb_state :=
  match fs_diri s with
  | None => Ok s
  | Some d =>
      let! db := apk_db_dir_apply_diri_permissions simulate usermode fs_result (fs_pkg_of s) d (fs_inst s) in
      Ok (set_fs_inst db s)
  end.

(** [ipkg = apk_db_ipkg_create (db, &tmpl.pkg)] *)
Definition fs_ipkg_create (s : fdb_state) : fdb_state :=
  let had := bool_decide (is_Some (pt_ipkg (fs_tmpl s))) in
  let '(t, cat) := tmpl_install (fs_tmpl s) (fs_cat s) in
  let diris := if had then fs_ipkg_diris s else [] in
  set_fs_inst (apk_db_ipkg_create diris (fs_inst s))
    (set_fs_ipkg_diris diris (set_fs_ipkg true (set_fs_cat cat (set_fs_tmpl t s)))).

Definition fs_ipkg_commit (s : fdb_state) : fdb_state :=
  let '(diris, db) := apk_db_ipkg_commit (fs_inst s) in set_fs_ipkg_diris diris (set_fs_inst db s).

(** [apk_db_pkg_add]: when the package takes the installed package of the template over, the
    instances point to it from then on. *)
Definition fs_pkg_add (s : fdb_state) : bool * fdb_state :=
  let ipkg := pt_ipkg (fs_tmpl s) in
  let old := a ← (item_addr <$> apk_hash_get (db_packages (fs_cat s)) (take APK_DIGEST_LENGTH_SHA1 (d_data (t_id (pt_info (fs_tmpl s))))));
             p ← db_pkgs (fs_cat s) !! a; pkg_ipkg p in
  let '(r, t, cat) := apk_db_pkg_add (fs_tmpl s) (fs_cat s) in
  let s := set_fs_cat cat (set_fs_tmpl t s) in
  match r with
  | None => (false, s)
  | Some a =>
      match ipkg, old with
      | Some _, None =>
          (true, set_fs_diris (<[a := fs_ipkg_diris s]> (fs_diris s))
                   (set_fs_inst (each (fun d => upd_diri d (set_di_pkg (Pkg_at a))) (fs_ipkg_diris s) (fs_inst s)) s))
      | _, _ => (true, s)
      end
  end.

(** An empty line ends a package. *)
Definition fdb_end_package (s : fdb_state) : outcome fdb_next :=
  match t_name (pt_info (fs_tmpl s)) with
  | None => Ok (Go s)
  | Some _ =>
      let! s := fs_apply s in
      let s :=
        if 0 <=? repo then set_fs_tmpl (set_pt_repos (u32 (Z.lor (pt_repos (fs_tmpl s)) (BIT repo))) (fs_tmpl s)) s
        else if repo =? APK_REPO_CACHE_INSTALLED then set_fs_tmpl (set_pt_cached true (fs_tmpl s)) s
        else if (repo =? APK_REPO_DB_INSTALLED) && negb (fs_ipkg s) then fs_ipkg_create s
        else s in
      let s := if fs_ipkg s then fs_ipkg_commit s else s in
      let '(ok, s) := fs_pkg_add s in
      if negb ok then Ok (Stop Err_fmt s)
      else Ok (Go (set_fs_diri None (set_fs_ipkg false (set_fs_tmpl (set_pt_layer layer (fs_tmpl s)) s))))
  end.

(** The fields [a] and [M]: the acl, what is left of the value, and the digest. *)
Definition fdb_pull_acl (l : bytes) (xattr : apk_digest) : outcome (apk_db_acl * blob * apk_digest) :=
  let '(uid, l) := apk_blob_pull_uint (Some l) 10 in
  let l := apk_blob_pull_char l (chr ":") in
  let '(gid, l) := apk_blob_pull_uint l 10 in
  let l := apk_blob_pull_char l (chr ":") in
  let '(mode, l) := apk_blob_pull_uint l 8 in
  let '(more, l) := apk_blob_pull_blob_match l (lit ":") in
  let! (l, xattr) := if more then apk_blob_pull_digest l xattr else Ok (l, apk_digest_reset xattr) in
  Ok (apk_db_acl_atomize_digest (u32 mode) uid gid (digest_blob xattr), l, xattr).

(** The characters of the field [f]: [false] at an unknown one. *)
Fixpoint fdb_flags (l : bytes) (ip : apk_installed_package) : bool * apk_installed_package :=
  match l with
  | [] => (true, ip)
  | c :: l =>
      if c =? chr "f" then fdb_flags l (set_ip_broken_files true ip)
      else if c =? chr "s" then fdb_flags l (set_ip_broken_script true ip)
      else if c =? chr "x" then fdb_flags l (set_ip_broken_xattr true ip)
      else if c =? chr "S" then fdb_flags l (set_ip_sha256_160 true ip)
      else if force_old_apk then fdb_flags l ip
      else (false, ip)
  end.

(** A field that belongs to the installed database, with [r] the answer of
    [apk_pkgtmpl_add_info]; [Bad_entry] also when the value was not understood. *)
Definition fdb_field (field r : Z) (l : bytes) (s : fdb_state) : outcome fdb_next :=
  let finish (rest : blob) s := Ok (match rest with None => Stop Bad_entry s | Some _ => Go s end) in
  let bad := Ok (Stop Bad_entry s) in
  if field =? chr "g" then
    finish (Some l) (set_fs_tmpl (set_pt_tags (pt_tags (fs_tmpl s) ++ apk_blob_foreach_word (Some l)) (fs_tmpl s)) s)
  else if field =? chr "F" then
    match t_name (pt_info (fs_tmpl s)) with
    | None => bad
    | Some _ =>
        let! s := fs_apply s in
        match apk_db_diri_get fnmatch (S (length l)) l Pkg_tmpl (fs_inst s) with
        | Some (d, db) => finish (Some l) (set_fs_diri (Some d) (set_fs_inst db s))
        | None => Fault   (* excluded: the fuel is enough *)
        end
    end
  else if (field =? chr "a") || (field =? chr "M") then
    match fs_diri s with
    | None => bad
    | Some d =>
        if (field =? chr "a") && bool_decide (fs_file s = None) then bad
        else
          let! (acl, rest, x) := fdb_pull_acl l (fs_xattr_digest s) in
          let db := if field =? chr "M" then upd_diri d (set_di_acl acl) (fs_inst s)
                    else match fs_file s with Some f => upd_file f (set_f_acl acl) (fs_inst s) | None => fs_inst s end in
          finish rest (set_fs_xattr_digest x (set_fs_inst db s))
    end
  else if field =? chr "R" then
    match fs_diri s with
    | None => bad
    | Some d => let '(f, db) := apk_db_file_get d l (fs_inst s) in finish (Some l) (set_fs_file (Some f) (set_fs_inst db s))
    end
  else if field =? chr "Z" then
    match fs_file s with
    | None => bad
    | Some f =>
        let! (rest, d) := apk_blob_pull_digest (Some l) (fs_file_digest s) in
        let sha256_160 := match pt_ipkg (fs_tmpl s) with Some ip => ip_sha256_160 ip | None => false end in
        let d := if (d_alg d =? APK_DIGEST_SHA1) && sha256_160 then apk_digest_set d APK_DIGEST_SHA256_160 else d in
        finish rest (set_fs_file_digest d (set_fs_inst (upd_file f (apk_dbf_digest_set (d_alg d) (d_data d)) (fs_inst s)) s))
    end
  else if field =? chr "r" then
    let s := fs_get_names (deps_names l (t_repo_tags (pt_info (fs_tmpl s)))) s in
    let old := match pt_ipkg (fs_tmpl s) with Some ip => ip_replaces ip | None => [] end in
    match apk_blob_pull_deps (Some l) (t_repo_tags (pt_info (fs_tmpl s))) false 0 old with
    | Some (rc, tags, deps) =>
        (* the value is NULL exactly after a dependency that was not understood *)
        finish (if rc =? - APKE_DEPENDENCY_FORMAT then None else Some [])
          (set_fs_tmpl (upd_ipkg (set_ip_replaces deps) (upd_info (set_repo_tags tags) (fs_tmpl s))) s)
    | None => Fault   (* excluded: [pull_deps_total] *)
    end
  else if field =? chr "q" then
    let '(v, rest) := apk_blob_pull_uint (Some l) 10 in
    finish rest (set_fs_tmpl (upd_ipkg (set_ip_replaces_priority (u16 v)) (fs_tmpl s)) s)
  else if field =? chr "s" then
    let '(tag, tags) := apk_db_get_tag_id (t_repo_tags (pt_info (fs_tmpl s))) l behind in
    finish (Some l) (set_fs_tmpl (upd_ipkg (set_ip_repository_tag (Z.land tag 0x3f)) (upd_info (set_repo_tags tags) (fs_tmpl s))) s)
  else if field =? chr "f" then
    match pt_ipkg (fs_tmpl s) with
    | Some ip =>
        let '(ok, ip) := fdb_flags l ip in
        let s := set_fs_tmpl (upd_ipkg (fun _ => ip) (fs_tmpl s)) s in
        if ok then finish (Some l) s else Ok (Stop Old_apk_tools s)
    | None => Fault
    end
  else if negb (r =? 0) && negb force_old_apk then Ok (Stop Old_apk_tools s)
  else Ok (Go (set_fs_tmpl (set_pt_filename_ndx 0 (fs_tmpl s)) s)).

(** One line. *)
Definition fdb_line (l : bytes) (s : fdb_state) : outcome fdb_next :=
  match l with
  | field :: colon :: value =>
      if negb (colon =? chr ":") then Ok (Stop Err_fmt s)
      else
        let s := fs_get_names (line_names field value (t_repo_tags (pt_info (fs_tmpl s)))) s in
        let! (r, info) := apk_pkgtmpl_add_info (pt_info (fs_tmpl s)) field value in
        let s := set_fs_tmpl (upd_info (fun _ => info) (fs_tmpl s)) s in
        if r =? 0 then Ok (Go s)
        else
          let s := if (r =? 1) && (repo =? APK_REPO_DB_INSTALLED) && negb (fs_ipkg s) then fs_ipkg_create s else s in
          if negb (repo =? APK_REPO_DB_INSTALLED) || negb (fs_ipkg s) then Ok (Go s)
          else fdb_field field r value s
  | _ => fdb_end_package s
  end.

Fixpoint fdb_lines (ls : list bytes) (s : fdb_state) : outcome fdb_next :=
  match ls with
  | [] => Ok (Go s)
  | l :: ls => let! n := fdb_line l s in match n with Go s => fdb_lines ls s | Stop e s => Ok (Stop e s) end
  end.

(** The result and the database; [garbage] is what the digests hold at first, [err] the
    error of the stream after the last line. *)
Definition fdb_start (tags : repo_tags) (garbage1 garbage2 : apk_digest) (db : fdb) : fdb_state :=
  mk_fs (mk_ptmpl (apk_pkgtmpl_reset tags) [] [] 0 0 false layer None) false [] None None garbage1 garbage2
    (fd_cat db) (fd_inst db) (fd_diris db).

Definition APKE_V2DB_FORMAT : Z := 1073.

Definition apk_db_fdb_read (tags : repo_tags) (garbage1 garbage2 : apk_digest) (ls : list bytes) (err : Z) (db : fdb) :
    outcome (Z * fdb) :=
  let! n := fdb_lines ls (fdb_start tags garbage1 garbage2 db) in
  let finish r s := Ok (r, mk_fdb (fs_cat s) (fs_inst s) (fs_diris s)) in
  match n with
  | Go s => if err <? 0 then finish (- APKE_V2DB_FORMAT) s else finish 0 s
  | Stop _ s => finish (- APKE_V2DB_FORMAT) s
  end.
End Read.
