(* ===== verification/FdbText.v ===== *)
(** * The text of the installed database (database.c)

    What an installed package is as a value ([pkg_rec]), the lines that stand for it, and
    that [apk_db_fdb_write] writes exactly these lines. *)

From S2P Require Import Prelude Blob BlobCodec Digest Hash Dep Package PackageRules Dirs DirsFacts Catalog Installed Owner Fdb.

(** ** Installed packages as values *)

Record file_rec := mk_frec { fr_name : bytes; fr_acl : apk_db_acl; fr_alg : Z; fr_digest : bytes }.
Record dir_rec := mk_drec { dr_name : bytes; dr_acl : apk_db_acl; dr_files : list file_rec }.
Record pkg_rec := mk_prec { pr_pkg : apk_package; pr_ipkg : apk_installed_package; pr_dirs : list dir_rec }.

Definition file_rec_of (f : apk_db_file) : file_rec :=
  mk_frec (file_key f) (f_acl f) (f_digest_alg f) (if f_digest_alg f =? APK_DIGEST_NONE then [] else f_digest f).
Definition file_view (db : inst_db) (f : nat) : file_rec := file_rec_of (file_at db f).
Definition diri_view (db : inst_db) (d : nat) : dir_rec :=
  mk_drec (diri_name db d) (di_acl (diri_at db d)) (file_view db <$> di_files (diri_at db d)).

(** ** Lines *)

Definition acl_text (acl : apk_db_acl) : bytes :=
  uint_text (acl_uid acl) 10 ++ lit ":" ++ uint_text (acl_gid acl) 10 ++ lit ":" ++ uint_text (acl_mode acl) 8
  ++ match acl_xattr_hash acl with [] => [] | h => lit ":" ++ hash_text h end.

Definition acl_lines (key : bytes) (default acl : apk_db_acl) : list bytes :=
  if bool_decide (acl = default) then [] else [key ++ acl_text acl].

Definition file_lines (f : file_rec) : list bytes :=
  (lit "R:" ++ fr_name f) :: acl_lines (lit "a:") apk_default_acl_file (fr_acl f)
  ++ (if fr_alg f =? APK_DIGEST_NONE then [] else [lit "Z:" ++ hash_text (fr_digest f)]).

Definition dir_head (d : dir_rec) : list bytes := (lit "F:" ++ dr_name d) :: acl_lines (lit "M:") apk_default_acl_dir (dr_acl d).
Definition dir_lines (d : dir_rec) : list bytes := dir_head d ++ (dr_files d ≫= file_lines).

Definition flags_text (ip : apk_installed_package) : bytes :=
  (if ip_broken_files ip then lit "f" else []) ++ (if ip_broken_script ip then lit "s" else [])
  ++ (if ip_broken_xattr ip then lit "x" else []) ++ (if ip_sha256_160 ip then lit "S" else []).

Definition ipkg_lines (tags : repo_tags) (ip : apk_installed_package) : list bytes :=
  deps_lines (lit "r:") (ip_replaces ip) ++ opt_num_line (lit "q:") (ip_replaces_priority ip)
  ++ (if ip_repository_tag ip =? 0 then []
      else [lit "s:" ++ default [] (tag_plain <$> tags !! Z.to_nat (ip_repository_tag ip))])
  ++ opt_line (lit "f:") (flags_text ip).

Fixpoint words (ws : list bytes) : bytes :=
  match ws with
  | [] => []
  | [w] => w
  | w :: ws => w ++ 32 :: words ws
  end.

Definition tags_lines (ws : list bytes) : list bytes := match ws with [] => [] | _ => [lit "g:" ++ words ws] end.

Definition pkg_lines (tags : repo_tags) (r : pkg_rec) : list bytes :=
  entry_lines (pr_pkg r) ++ tags_lines (pkg_tags (pr_pkg r)) ++ ipkg_lines tags (pr_ipkg r) ++ (pr_dirs r ≫= dir_lines).

(** ** What the text can hold *)

Definition hash_ok (h : bytes) : Prop := Forall byte_ok h /\ length h = APK_DIGEST_LENGTH_SHA1.

Record acl_ok (acl : apk_db_acl) : Prop := {
  ao_mode : 0 <= acl_mode acl < 4096;
  ao_uid : 0 <= acl_uid acl < 2 ^ 32;
  ao_gid : 0 <= acl_gid acl < 2 ^ 32;
  ao_hash : acl_xattr_hash acl = [] \/ hash_ok (acl_xattr_hash acl);
}.

(** Digests of files are SHA-1, or the shortened SHA-256 in packages that say so. *)
Record file_rec_ok (sha256_160 : bool) (f : file_rec) : Prop := {
  fo_name : text_ok (fr_name f) /\ Z.of_nat (length (fr_name f)) < 2 ^ 8;
  fo_acl : acl_ok (fr_acl f);
  fo_digest : fr_alg f = APK_DIGEST_NONE /\ fr_digest f = []
    \/ fr_alg f = (if sha256_160 then APK_DIGEST_SHA256_160 else APK_DIGEST_SHA1) /\ hash_ok (fr_digest f);
}.

Record dir_rec_ok (sha256_160 : bool) (d : dir_rec) : Prop := {
  do_name : text_ok (dr_name d) /\ clean (dr_name d);
  do_acl : acl_ok (dr_acl d);
  do_files : Forall (file_rec_ok sha256_160) (dr_files d);
}.

Record ipkg_ok (tags : repo_tags) (ip : apk_installed_package) : Prop := {
  io_replaces : deps_ok (ip_replaces ip);
  io_priority : 0 <= ip_replaces_priority ip < 2 ^ 16;
  io_tag : ip_repository_tag ip = 0
    \/ 0 < ip_repository_tag ip < Z.of_nat APK_MAX_TAGS
       /\ exists t c, tags !! Z.to_nat (ip_repository_tag ip) = Some t /\ text_ok (tag_plain t)
          /\ head (tag_plain t) = Some c /\ c <> chr "@"
          /\ find_tag tag_plain (tag_plain t) (tail tags) 1 = Some (ip_repository_tag ip);
  io_kept : ip_to_be_removed ip = false;
}.

Definition word_ok (w : bytes) : Prop := w <> [] /\ 32 ∉ w /\ text_ok w.

Record pkg_rec_ok (tags : repo_tags) (r : pkg_rec) : Prop := {
  po_pkg : pkg_printable (pr_pkg r);
  po_tags : Forall word_ok (pkg_tags (pr_pkg r));
  po_ipkg : ipkg_ok tags (pr_ipkg r);
  po_dirs : Forall (dir_rec_ok (ip_sha256_160 (pr_ipkg r))) (pr_dirs r);
  po_names : NoDup (dr_name <$> pr_dirs r);
  po_files : Forall (fun d => NoDup (fr_name <$> dr_files d)) (pr_dirs r);
}.

(** ** Writing *)

Ltac text_norm := rewrite ?unlines_cons, ?unlines_nil, ?app_nil_r; repeat (progress (rewrite <- ?app_assoc; cbn [app])).

Lemma push_acl_text b field acl :
  acl_ok acl -> apk_blob_push_db_acl b field acl = apk_blob_push_blob b (unlines [[field; chr ":"] ++ acl_text acl]).
Proof.
  intros [_ _ _ Hh]. unfold apk_blob_push_db_acl, acl_text. rewrite !push_uint_text. destruct (acl_xattr_hash acl) as [|x h] eqn:E.
  - simpl length. cbn [Nat.eqb]. rewrite !push_blob_push_blob. f_equal. by text_norm.
  - simpl length. cbn [Nat.eqb]. destruct Hh as [|[_ Hh]]; [done |]. rewrite push_hash_text by done. rewrite !push_blob_push_blob. f_equal.
    by text_norm.
Qed.

Lemma push_acl_lines b field default acl :
  acl_ok acl ->
  (if bool_decide (acl = default) then b else apk_blob_push_db_acl b field acl)
  = apk_blob_push_blob b (unlines (acl_lines [field; chr ":"] default acl)).
Proof.
  intros Ha. unfold acl_lines. case_bool_decide; [by rewrite unlines_nil, push_blob_nil |]. by apply push_acl_text.
Qed.

Lemma pushed_new n txt : (length txt <= n)%nat -> apk_blob_pushed (apk_blob_push_blob (pushbuf_new n) txt) = Some txt.
Proof. intros H. unfold pushbuf_new. by rewrite push_blob_room. Qed.

Lemma write_file_text sha f :
  file_rec_ok sha (file_rec_of f) -> (length (unlines (file_lines (file_rec_of f))) <= FDB_BUFSIZE)%nat ->
  fdb_write_file f = Some (unlines (file_lines (file_rec_of f))).
Proof.
  intros [_ Ha Hd] Hl. rewrite <- (pushed_new FDB_BUFSIZE) by done. unfold fdb_write_file. f_equal.
  rewrite (push_acl_lines _ (chr "a") apk_default_acl_file) by done. unfold file_lines, file_rec_of in *. cbn [fr_name fr_acl fr_alg fr_digest] in *.
  rewrite unlines_cons, unlines_app. destruct (f_digest_alg f =? APK_DIGEST_NONE) eqn:E; bool_prop.
  - rewrite !push_blob_push_blob. f_equal. by text_norm.
  - destruct Hd as [[? _]|[_ [_ Hd]]]; [done |]. rewrite push_hash_text by done. rewrite !push_blob_push_blob. f_equal.
    by text_norm.
Qed.

Lemma write_files_text sha db files out :
  Forall (fun f => f_audited (file_at db f) = false) files -> Forall (file_rec_ok sha) (file_view db <$> files) ->
  Forall (fun r => (length (unlines (file_lines r)) <= FDB_BUFSIZE)%nat) (file_view db <$> files) ->
  fdb_write_files db files out = (0, out ++ unlines ((file_view db <$> files) ≫= file_lines)).
Proof.
  revert out. induction files as [|f files IH]; intros out Hau Hok Hl; cbn [fdb_write_files]; [by rewrite (unlines_nil : unlines (([] : list file_rec) ≫= file_lines) = []), app_nil_r |].
  apply Forall_cons in Hau as [H1 Hau], Hok as [H2 Hok], Hl as [H3 Hl]. rewrite H1.
  rewrite (write_file_text sha) by done. rewrite IH by done. change (file_rec_of (file_at db f)) with (file_view db f). rewrite fmap_cons, bind_cons. by rewrite unlines_app, app_assoc.
Qed.

(** The pieces that go through the buffer fit: the fields of the package with its first
    directory, every other directory, and every file. *)
Record pkg_rec_fits (tags : repo_tags) (r : pkg_rec) : Prop := {
  pf_head : forall d, head (pr_dirs r) = Some d ->
    (length (unlines (ipkg_lines tags (pr_ipkg r) ++ dir_head d)) <= FDB_BUFSIZE)%nat;
  pf_dirs : Forall (fun d => (length (unlines (dir_head d)) <= FDB_BUFSIZE)%nat) (pr_dirs r);
  pf_files : Forall (fun d => Forall (fun f => (length (unlines (file_lines f)) <= FDB_BUFSIZE)%nat) (dr_files d)) (pr_dirs r);
}.

Lemma write_diris_text sha db diris w n out :
  Forall (fun d => Forall (fun f => f_audited (file_at db f) = false) (di_files (diri_at db d))) diris ->
  Forall (dir_rec_ok sha) (diri_view db <$> diris) ->
  Forall (fun d => Forall (fun f => (length (unlines (file_lines f)) <= FDB_BUFSIZE)%nat) (dr_files d)) (diri_view db <$> diris) ->
  Forall (fun d => (length (unlines (dir_head d)) <= FDB_BUFSIZE)%nat) (diri_view db <$> diris) ->
  (forall d, head diris = Some d -> (length (w ++ unlines (dir_head (diri_view db d))) <= n)%nat) ->
  fdb_write_diris db (apk_blob_push_blob (pushbuf_new n) w) diris out
  = (0, out ++ (match diris with [] => [] | _ => w end) ++ unlines ((diri_view db <$> diris) ≫= dir_lines) ++ [10]).
Proof.
  revert w n out. induction diris as [|d diris IH]; intros w n out Hau Hok Hf Hd Hw; cbn [fdb_write_diris]; [done |].
  rewrite fmap_cons in *. apply Forall_cons in Hau as [A1 A2], Hok as [B1 B2], Hf as [C1 C2], Hd as [D1 D2].
  rewrite (push_acl_lines _ (chr "M") apk_default_acl_dir) by apply B1. rewrite !push_blob_push_blob.
  match goal with |- context [apk_blob_push_blob (pushbuf_new n) ?x] =>
    replace x with (w ++ unlines (dir_head (diri_view db d))) by (unfold dir_head; by text_norm) end.
  rewrite pushed_new by by apply Hw. rewrite (write_files_text sha); [| done | apply B1 | apply C1]. cbn [Z.ltb Z.compare].
  rewrite <- (push_blob_nil (pushbuf_new FDB_BUFSIZE)). rewrite IH; [| done.. |].
  - f_equal. rewrite bind_cons, unlines_app. unfold dir_lines at 2. rewrite unlines_app. rewrite <- !app_assoc. do 3 f_equal.
    destruct diris; by rewrite ?app_nil_l.
  - intros e He. simpl. destruct diris as [|e' diris]; [done |]. simplify_eq/=. by apply Forall_cons in D2 as [? _].
Qed.

Lemma push_deps_text (first : bool) tags ds w n :
  deps_ok ds -> (length (w ++ (if first then deps_text ds else tail_text ds)) <= n)%nat ->
  push_deps_loop first (apk_blob_push_blob (pushbuf_new n) w) (Some tags) ds
  = Ok (apk_blob_push_blob (pushbuf_new n) (w ++ (if first then deps_text ds else tail_text ds))).
Proof.
  revert first w. induction ds as [|d ds IH]; intros first w Hd Hl; [by destruct first; rewrite app_nil_r |].
  apply deps_ok_cons in Hd as (Hp & _ & _ & Hd). cbn [push_deps_loop].
  assert ((if first then deps_text (d :: ds) else tail_text (d :: ds)) = (if first then [] else [32]) ++ dep_text d ++ tail_text ds) as E.
  { destruct first; [by rewrite deps_text_cons | done]. }
  rewrite E in *. set (p := if first then [] else [32]) in *.
  assert ((if first then apk_blob_push_blob (pushbuf_new n) w else apk_blob_push_blob (apk_blob_push_blob (pushbuf_new n) w) (lit " "))
    = apk_blob_push_blob (pushbuf_new n) (w ++ p)) as ->.
  { destruct first; unfold p; [by rewrite app_nil_r | by rewrite push_blob_push_blob]. }
  rewrite !length_app in Hl. unfold pushbuf_new. rewrite push_blob_room by (rewrite length_app; lia).
  rewrite push_dep_text; [| apply Hp | rewrite length_app; lia]. cbn [obind].
  specialize (IH false ((w ++ p) ++ dep_text d) Hd). unfold pushbuf_new in IH. rewrite !length_app in IH. specialize (IH ltac:(lia)).
  rewrite push_blob_room in IH by (rewrite !length_app; lia). rewrite !length_app in *. simpl app in *.
  replace (n - (length w + length p) - length (dep_text d))%nat with (n - (length w + length p + length (dep_text d)))%nat by lia.
  rewrite IH. rewrite <- !app_assoc. done.
Qed.

Lemma flags_some ip :
  (ip_broken_files ip || ip_broken_script ip || ip_broken_xattr ip || ip_sha256_160 ip) = negb (length (flags_text ip) =? 0)%nat.
Proof. unfold flags_text. by destruct (ip_broken_files ip), (ip_broken_script ip), (ip_broken_xattr ip), (ip_sha256_160 ip). Qed.

Lemma push_flags_text b ip :
  (let b := if ip_broken_files ip then apk_blob_push_blob b (lit "f") else b in
   let b := if ip_broken_script ip then apk_blob_push_blob b (lit "s") else b in
   let b := if ip_broken_xattr ip then apk_blob_push_blob b (lit "x") else b in
   if ip_sha256_160 ip then apk_blob_push_blob b (lit "S") else b) = apk_blob_push_blob b (flags_text ip).
Proof.
  unfold flags_text. destruct (ip_broken_files ip), (ip_broken_script ip), (ip_broken_xattr ip), (ip_sha256_160 ip); cbv zeta;
    rewrite ?push_blob_push_blob, ?push_blob_nil; done.
Qed.

Lemma push_ipkg_text tags ip n :
  ipkg_ok tags ip -> (length (unlines (ipkg_lines tags ip)) <= n)%nat ->
  fdb_push_ipkg tags ip (pushbuf_new n) = Ok (apk_blob_push_blob (pushbuf_new n) (unlines (ipkg_lines tags ip))).
Proof.
  intros [Hr Hp Ht _] Hl. unfold ipkg_lines in *. rewrite !unlines_app in *. rewrite !length_app in Hl. unfold fdb_push_ipkg.
  assert ((if (length (ip_replaces ip) =? 0)%nat then Ok (pushbuf_new n)
           else let! b := apk_blob_push_deps (apk_blob_push_blob (pushbuf_new n) (lit "r:")) (Some tags) (ip_replaces ip) in
                Ok (apk_blob_push_blob b [10]))
    = Ok (apk_blob_push_blob (pushbuf_new n) (unlines (deps_lines (lit "r:") (ip_replaces ip))))) as ->.
  { destruct (ip_replaces ip) as [|d ds]; [by rewrite push_blob_nil |]. set (l := d :: ds) in *. simpl length. cbn [Nat.eqb].
    assert (deps_lines (lit "r:") l = [lit "r:" ++ deps_text l]) as E by done. rewrite E in *. rewrite unlines_cons, unlines_nil, !length_app in Hl.
    unfold apk_blob_push_deps. rewrite push_deps_text by (done || (rewrite length_app; simpl in *; lia)). cbn [obind].
    rewrite push_blob_push_blob. do 2 f_equal. by text_norm. }
  cbn [obind].
  assert (forall b, (if ip_replaces_priority ip =? 0 then b
           else apk_blob_push_blob (apk_blob_push_uint (apk_blob_push_blob b (lit "q:")) (ip_replaces_priority ip) 10) [10])
    = apk_blob_push_blob b (unlines (opt_num_line (lit "q:") (ip_replaces_priority ip)))) as ->.
  { intros b. unfold opt_num_line. case_if; [by rewrite push_blob_nil |]. rewrite push_uint_text, !push_blob_push_blob. f_equal. by text_norm. }
  set (b1 := apk_blob_push_blob _ (unlines (opt_num_line _ _))).
  set (tl := if ip_repository_tag ip =? 0 then [] else [_]).
  assert ((if ip_repository_tag ip =? 0 then Ok b1 else if (APK_MAX_TAGS <=? Z.to_nat (ip_repository_tag ip))%nat then Fault
     else Ok (apk_blob_push_blob (apk_blob_push_blob (apk_blob_push_blob b1 (lit "s:"))
               (default [] (tag_plain <$> tags !! Z.to_nat (ip_repository_tag ip)))) [10])) = Ok (apk_blob_push_blob b1 (unlines tl))) as ->.
  { unfold tl. destruct (ip_repository_tag ip =? 0) eqn:E; bool_prop; [by rewrite push_blob_nil |].
    destruct Ht as [|[Ht _]]; [done |]. rewrite (proj2 (Nat.leb_gt _ _)) by lia. rewrite !push_blob_push_blob. do 2 f_equal. by text_norm. }
  cbn [obind]. f_equal. rewrite flags_some. unfold opt_line. destruct (length (flags_text ip) =? 0)%nat eqn:E; cbn [negb].
  - unfold b1. rewrite !push_blob_push_blob. f_equal. by text_norm.
  - rewrite push_flags_text. unfold b1. rewrite !push_blob_push_blob. f_equal. by text_norm.
Qed.

Lemma write_blobs_text ws : write_blobs (lit "g:") ws = unlines (tags_lines ws).
Proof.
  assert (forall sep w ws, write_blobs_loop sep (w :: ws) = sep ++ words (w :: ws) ++ [10]) as H.
  { intros sep w ws'. revert sep w. induction ws' as [|w' ws' IH]; intros sep w; [done |]. cbn [write_blobs_loop] in *.
    rewrite IH. cbn [words]. by text_norm. }
  destruct ws as [|w ws]; [done |]. unfold write_blobs, tags_lines. rewrite H. by text_norm.
Qed.

(** A package with directories, or without fields of the installed package, is written as its
    lines and an empty line. *)
Lemma fdb_write_text tags db r diris :
  pkg_rec_ok tags r -> pkg_rec_fits tags r -> diri_view db <$> diris = pr_dirs r ->
  Forall (fun d => Forall (fun f => f_audited (file_at db f) = false) (di_files (diri_at db d))) diris ->
  (diris = [] -> ipkg_lines tags (pr_ipkg r) = []) ->
  apk_db_fdb_write tags db (pr_pkg r) (pr_ipkg r) diris = Ok (0, unlines (pkg_lines tags r) ++ [10]).
Proof.
  intros [Hp Hw Hi Hd _ _] [F1 F2 F3] Hv Hau Hno. unfold apk_db_fdb_write.
  rewrite write_header_text by done.
  cbn [obind Z.ltb Z.compare]. rewrite write_blobs_text.
  assert (length (unlines (ipkg_lines tags (pr_ipkg r))) <= FDB_BUFSIZE)%nat as Hfit.
  { destruct diris as [|d diris]; [rewrite Hno by done; rewrite unlines_nil; simpl; lia |]. simpl in Hv. rewrite <- Hv in F1.
    specialize (F1 _ eq_refl). rewrite unlines_app, length_app in F1. lia. }
  rewrite push_ipkg_text by done. cbn [obind].
  rewrite (write_diris_text (ip_sha256_160 (pr_ipkg r))); rewrite ?Hv; try done.
  - unfold pkg_lines. rewrite !unlines_app, <- !app_assoc. do 5 f_equal. destruct diris; [| done]. by rewrite Hno.
  - intros d Hd'. rewrite <- unlines_app. apply F1. rewrite <- Hv. destruct diris; simplify_eq/=. done.
Qed.

(** ** Lines hold no newline *)

Lemma text_ok_app a b : text_ok a -> text_ok b -> text_ok (a ++ b).
Proof. unfold text_ok. rewrite not_elem_of_app. auto. Qed.

Lemma hash_text_ok h : text_ok (hash_text h).
Proof. apply (text_ok_app [81; 49]); [by apply (bool_decide_unpack _) | apply push_b64_groups_text_ok]. Qed.

Lemma words_ok ws : Forall word_ok ws -> text_ok (words ws).
Proof.
  induction 1 as [|w ws (_ & _ & Hw) _ IH]; [apply not_elem_of_nil |]. destruct ws as [|w' ws]; [done |].
  apply text_ok_app; [done |]. by apply (text_ok_app [32]); [apply (bool_decide_unpack _) |].
Qed.

Lemma acl_text_ok acl : text_ok (acl_text acl).
Proof.
  unfold acl_text. repeat apply text_ok_app; auto using uint_text_ok; try (by apply (bool_decide_unpack _)).
  destruct (acl_xattr_hash acl); [apply not_elem_of_nil |]. apply text_ok_app; [by apply (bool_decide_unpack _) | apply hash_text_ok].
Qed.

Lemma flags_text_ok ip : text_ok (flags_text ip).
Proof. unfold text_ok, flags_text. destruct ip as [? ? ? [] [] [] [] ?]; by apply (bool_decide_unpack _). Qed.

Lemma key_line_ok c v : bool_decide (10 ∉ [c; chr ":"]) = true -> text_ok v -> text_ok ([c; chr ":"] ++ v).
Proof. intros Hc%bool_decide_eq_true Hv. by apply text_ok_app. Qed.

Lemma opt_lines_ok (b : bool) c v :
  bool_decide (10 ∉ [c; chr ":"]) = true -> text_ok v -> Forall text_ok (if b then [] else [[c; chr ":"] ++ v]).
Proof. intros Hc Hv. destruct b; repeat constructor. by apply key_line_ok. Qed.

Lemma dir_lines_ok sha d : dir_rec_ok sha d -> Forall text_ok (dir_lines d).
Proof.
  intros [[Hn _] _ Hf]. unfold dir_lines, dir_head. rewrite Forall_app. split.
  - constructor; [by apply (key_line_ok (chr "F")) |]. apply (opt_lines_ok _ (chr "M")); [done | apply acl_text_ok].
  - apply Forall_bind. eapply Forall_impl; [exact Hf |]. intros f [[Hname _] _ _]. unfold file_lines.
    constructor; [by apply (key_line_ok (chr "R")) |]. apply Forall_app. split.
    + apply (opt_lines_ok _ (chr "a")); [done | apply acl_text_ok].
    + apply (opt_lines_ok _ (chr "Z")); [done | apply hash_text_ok].
Qed.

Lemma pkg_lines_ok tags r : pkg_rec_ok tags r -> Forall text_ok (pkg_lines tags r).
Proof.
  intros [Hp Ht [Hre _ Htag _] Hd _ _]. unfold pkg_lines, ipkg_lines. rewrite !Forall_app. split_and!.
  - by apply entry_lines_ok.
  - destruct (pkg_tags _) as [|w ws]; repeat constructor. apply (key_line_ok (chr "g")); [done |]. by apply words_ok.
  - unfold deps_lines. destruct (ip_replaces _) as [|d ds]; repeat constructor. apply (key_line_ok (chr "r")); [done |]. by apply deps_text_ok.
  - apply (opt_lines_ok _ (chr "q")); [done | apply uint_text_ok].
  - destruct Htag as [->|(_ & t & c & -> & Hok & _)]; [constructor |]. by apply (opt_lines_ok _ (chr "s")).
  - apply (opt_lines_ok _ (chr "f")); [done | apply flags_text_ok].
  - apply Forall_bind. eapply Forall_impl; [exact Hd |]. intros d. apply dir_lines_ok.
Qed.
