(* ===== verification/FdbRead.v ===== *)
(** * Reading the installed database (database.c)

    One field or one line of [apk_db_fdb_read] at a time: what it does to the database that
    is being read, as long as the line is one that [apk_db_fdb_write] writes. *)

From S2P Require Import Prelude Blob BlobCodec Digest Hash Dep Package PackageRules Dirs DirsFacts Catalog CatalogFacts CatalogSolver Installed InstalledFacts Owner Fdb FdbText.

(** ** Directories under their instances *)

Lemma commit_files_dirs db : in_dirs (apk_db_ipkg_commit_files db) = in_dirs db.
Proof. unfold apk_db_ipkg_commit_files. by destruct (ic_diri (in_ic db)). Qed.

Lemma diri_select_dirs d db : in_dirs (apk_db_diri_select d db) = in_dirs db.
Proof. unfold apk_db_diri_select. case_bool_decide; [done |]. apply commit_files_dirs. Qed.

Lemma diri_bsearch_dirs n db : in_dirs (apk_db_diri_bsearch n db).2 = in_dirs db.
Proof. unfold apk_db_diri_bsearch. case_if; by destruct (bsearch _ _ _). Qed.

Lemma diri_get_soft fnmatch fuel name pkg db d db' limit ok :
  1 <= limit < 2 ^ 16 - 1 -> ok None -> apk_db_diri_get fnmatch fuel name pkg db = Some (d, db') ->
  soft_dirs limit ok (in_dirs db) -> soft_dirs (limit + 1) ok (in_dirs db').
Proof.
  intros Hl Hok Hg Hs. assert (soft_dirs (limit + 1) ok (in_dirs db)) as Hw by (intros b; destruct (Hs b); split; [lia | done]).
  assert (forall res, (let '(found, db) := apk_db_diri_bsearch name db in
      r ← match found with Some diri => Some (diri, db) | None => diri_new fnmatch fuel name pkg res db end;
      let '(diri, db) := r in Some (diri, apk_db_diri_select diri db)) = Some (d, db') -> soft_dirs (limit + 1) ok (in_dirs db')) as Hrest.
  { intros res. pose proof (diri_bsearch_dirs name db) as Hb. destruct (apk_db_diri_bsearch name db) as [[e|] db1]; simpl in *.
    - intros [= <- <-]. rewrite diri_select_dirs. by rewrite Hb.
    - unfold diri_new. destruct (apk_db_dir_get fnmatch fuel name (in_dirs db1)) as [[a dirs]|] eqn:Eg; [| done]. simpl.
      intros [= <- <-]. rewrite diri_select_dirs. simpl. apply (dir_get_soft fnmatch fuel name (in_dirs db1) a); [done | done | done |].
      by rewrite Hb. }
  revert Hg. unfold apk_db_diri_get. destruct (ic_diri (in_ic db)) as [c|]; [| apply Hrest].
  destruct (_ =? 0); [| apply Hrest]. by intros [= <- <-].
Qed.

(** ** Applying permissions *)

Section Apply.
Context {loaded : bool} (simulate usermode : bool) (fs_result : list fs_call -> Z) (pkg_of : pkg_ref -> option apk_package).

(** Only attributes of directories change. *)
Record dirs_only (ext : handles) (db db' : inst_db) : Prop := {
  do_attributes : attributes ext db db';
  do_instances : in_diris db' = in_diris db;
  do_file_objects : in_files db' = in_files db;
}.

Lemma upd_dir_only ext db a g :
  builder_inv loaded ext db -> (forall d, same_shape d (g d)) -> is_Some (dd_dirs (in_dirs db) !! a) -> dirs_only ext db (on_dirs (upd_dir a g) db).
Proof. intros. split; [by apply (upd_dir_attributes (loaded := loaded)) | done | done]. Qed.

Lemma dirs_only_trans ext a b c : dirs_only ext a b -> dirs_only ext b c -> dirs_only ext a c.
Proof. intros [A1 A2 A3] [B1 B2 B3]. split; [by eapply attributes_trans | congruence | congruence]. Qed.

Lemma diri_dir ext db d : builder_inv loaded ext db -> is_Some (in_diris db !! d) -> is_Some (dd_dirs (in_dirs db) !! di_dir (diri_at db d)).
Proof. intros Hi [di Hd]. unfold diri_at. rewrite Hd. by apply (cv_diri _ _ Hi d di). Qed.

(** Changes that leave the table, the objects and the counters of the directories alone. *)
Lemma log_only ext db f :
  builder_inv loaded ext db ->
  (let dirs := f (in_dirs db) in dd_table dirs = dd_table (in_dirs db) /\ dd_dirs dirs = dd_dirs (in_dirs db)
    /\ dd_next dirs = dd_next (in_dirs db) /\ dd_stat_dirs dirs = dd_stat_dirs (in_dirs db)) ->
  dirs_only ext db (on_dirs f db).
Proof.
  intros Hi (H1 & H2 & H3 & H4). split; [| done | done]. split; try done.
  - simpl. pose proof (cv_dirs _ _ Hi) as []. split; unfold num_live, children in *; rewrite ?H1, ?H2, ?H3, ?H4; try done.
  - simpl. by rewrite H2.
  - simpl. intros a. unfold dir_at. by rewrite H2.
Qed.

Lemma update_permissions_only ext db d :
  builder_inv loaded ext db -> is_Some (in_diris db !! d) ->
  dirs_only ext db (apk_db_dir_update_permissions simulate usermode fs_result d db)
  /\ forall limit ok, soft_dirs limit ok (in_dirs db) ->
       soft_dirs limit ok (in_dirs (apk_db_dir_update_permissions simulate usermode fs_result d db)).
Proof.
  intros Hi Hd. assert (dirs_only ext db db) as Hrefl by (split; [| done | done]; split; try done; apply Hi).
  unfold apk_db_dir_update_permissions. case_if; [done |]. destruct simulate; [done |].
  set (a := di_dir (diri_at db d)). set (db1 := on_dirs (upd_dir a (set_dir_modified true)) db).
  assert (dirs_only ext db db1) as H1 by (apply upd_dir_only; [done | done | by apply (diri_dir ext)]).
  assert (builder_inv loaded ext db1) as Hi1 by (by apply (attributes_inv ext db), H1).
  set (f := fun dirs : dir_db => let '(r, dirs') := fs_do fs_result (Fs_update_perms (dir_path dirs a) (apk_db_dir_get_mode usermode (acl_mode (di_acl (diri_at db d))))
      (acl_uid (di_acl (diri_at db d))) (acl_gid (di_acl (diri_at db d)))) dirs in
    if negb (r =? 0) then set_dd_num_dir_update_errors (u32 (dd_num_dir_update_errors dirs' + 1)) dirs' else dirs').
  change (on_dirs _ db) with (on_dirs f db1).
  assert (let dirs := f (in_dirs db1) in dd_table dirs = dd_table (in_dirs db1) /\ dd_dirs dirs = dd_dirs (in_dirs db1)
    /\ dd_next dirs = dd_next (in_dirs db1) /\ dd_stat_dirs dirs = dd_stat_dirs (in_dirs db1)) as Hf.
  { unfold f, fs_do. by case_if. }
  split; [eapply dirs_only_trans; [exact H1 | by apply log_only] |].
  intros limit ok Hs b. destruct Hf as (_ & Hf & _). unfold dir_at. cbn [on_dirs in_dirs set_in_dirs]. rewrite Hf.
  fold (dir_at (in_dirs db1) b). unfold db1. cbn [on_dirs in_dirs set_in_dirs]. rewrite dir_at_upd. case_decide; [apply (Hs a) | apply (Hs b)].
Qed.

Lemma set_owner_only ext db d :
  builder_inv loaded ext db -> is_Some (in_diris db !! d) ->
  dirs_only ext db (set_owner d db)
  /\ forall limit ok, ok (Some d) -> soft_dirs limit ok (in_dirs db) -> soft_dirs limit ok (in_dirs (set_owner d db)).
Proof.
  intros Hi Hd. split; [apply upd_dir_only; [done | done | by apply (diri_dir ext)] |].
  intros limit ok Hok Hs. apply soft_upd; [done |]. split; [apply (Hs _) | done].
Qed.

Lemma apply_permissions_spec ext db d :
  builder_inv loaded ext db -> is_Some (in_diris db !! d) ->
  (forall o, dir_owner (dir_at (in_dirs db) (di_dir (diri_at db d))) = Some o ->
     exists r, apk_pkg_replaces_dir (diri_pkg pkg_of db o) (diri_pkg pkg_of db d) = Ok r) ->
  exists db', apk_db_dir_apply_diri_permissions simulate usermode fs_result pkg_of d db = Ok db' /\ dirs_only ext db db'
    /\ forall limit ok, ok (Some d) -> soft_dirs limit ok (in_dirs db) -> soft_dirs limit ok (in_dirs db').
Proof.
  intros Hi Hd Ho. unfold apk_db_dir_apply_diri_permissions. destruct (dir_owner _) as [o|].
  - destruct (Ho o eq_refl) as [r ->]. cbn [obind]. eexists. split; [done |].
    destruct (negb (is_yes r)); [split; [| done]; split; [| done | done]; split; try done; apply Hi |].
    case_bool_decide; [by apply set_owner_only |].
    destruct (update_permissions_only ext db d Hi Hd) as [H1 H2]. set (db1 := apk_db_dir_update_permissions _ _ _ _ _) in *.
    assert (builder_inv loaded ext db1) as Hi1 by (by apply (attributes_inv ext db), H1).
    destruct (set_owner_only ext db1 d Hi1) as [H3 H4]; [by rewrite (do_instances _ _ _ H1) |].
    split; [by eapply dirs_only_trans |]. auto.
  - eexists. split; [done |]. by apply set_owner_only.
Qed.
End Apply.

(** ** Views of the database while it is read *)

(** Lists of files are compared up to their order, which only matters for searching. *)
Definition drec_eq (a b : dir_rec) : Prop := dr_name a = dr_name b /\ dr_acl a = dr_acl b /\ dr_files a ≡ₚ dr_files b.

#[global] Instance drec_eq_equivalence : Equivalence drec_eq.
Proof.
  split.
  - by intros a.
  - intros a b (? & ? & ?). by repeat split.
  - intros a b c (? & ? & ?) (? & ? & ?). repeat split; try congruence. by transitivity (dr_files b).
Qed.

Definition view_now (db : inst_db) (d : nat) : dir_rec :=
  mk_drec (diri_name db d) (di_acl (diri_at db d)) (file_view db <$> files_of db d).

(** What is there stays as it is. *)
Definition keeps (db db' : inst_db) : Prop :=
  forall e, is_Some (in_diris db !! e) ->
    is_Some (in_diris db' !! e) /\ drec_eq (view_now db' e) (view_now db e) /\ di_pkg (diri_at db' e) = di_pkg (diri_at db e).

#[global] Instance keeps_refl : Reflexive keeps.
Proof. by intros db e. Qed.
#[global] Instance keeps_trans : Transitive keeps.
Proof.
  intros a b c H1 H2 e He. destruct (H1 e He) as (A1 & A2 & A3), (H2 e A1) as (B1 & B2 & B3).
  split_and!; [done | by transitivity (view_now b e) | congruence].
Qed.

Lemma kept_keeps db db' : kept db db' -> keeps db db'.
Proof.
  intros Hk e He. split_and!; [by apply Hk | | by apply Hk]. repeat split; simpl; [by apply Hk | by apply Hk |].
  rewrite (kp_files_of _ _ Hk e He). unfold file_view, file_at. by rewrite (kp_files _ _ Hk).
Qed.

Lemma dirs_only_keeps ext db db' : dirs_only ext db db' -> keeps db db' /\ (forall e, diri_name db' e = diri_name db e).
Proof.
  intros [Ha H1 H2]. destruct (attributes_names _ _ _ Ha) as (N1 & N2 & N3). split; [| done]. intros e He. unfold diri_at. rewrite H1.
  split_and!; [done | | done]. repeat split; simpl; [done | unfold diri_at; by rewrite H1 |].
  rewrite N3. unfold file_view, file_at. by rewrite H2.
Qed.

Definition owner_known (db : inst_db) (o : option nat) : Prop := match o with None => True | Some d => is_Some (in_diris db !! d) end.

(** The state between two lines: [limit] bounds the references of every directory, [keys]
    are the files that are known. *)
Record reading (limit : Z) (keys : list (bytes * bytes)) (s : fdb_state) : Prop := {
  ri_creator : exists ext, creator_inv ext (fs_inst s);
  ri_soft : soft_dirs limit (owner_known (fs_inst s)) (in_dirs (fs_inst s));
  ri_pkg : forall d, is_Some (in_diris (fs_inst s) !! d) ->
    exists p, fs_pkg_of s (di_pkg (diri_at (fs_inst s) d)) = Some p /\ is_Some (pkg_ipkg p);
  ri_keys : forall f x, in_files (fs_inst s) !! f = Some x -> (diri_name (fs_inst s) (f_diri x), f_name x) ∈ keys;
  ri_digests : length (d_data (fs_file_digest s)) = APK_DIGEST_LENGTH_MAX /\ length (d_data (fs_xattr_digest s)) = APK_DIGEST_LENGTH_MAX;
}.

(** What the lines of directories and files leave alone. *)
Definition frame (s s' : fdb_state) : Prop :=
  fs_tmpl s' = fs_tmpl s /\ fs_ipkg s' = fs_ipkg s /\ fs_cat s' = fs_cat s /\ fs_diris s' = fs_diris s.

#[global] Instance frame_refl : Reflexive frame.
Proof. by intros s. Qed.
#[global] Instance frame_trans : Transitive frame.
Proof. intros a b c (? & ? & ? & ?) (? & ? & ? & ?). repeat split; congruence. Qed.

Lemma frame_pkg_of s s' r : frame s s' -> fs_pkg_of s' r = fs_pkg_of s r.
Proof. intros (H1 & _ & H2 & _). unfold fs_pkg_of. by rewrite H1, H2. Qed.

Lemma keeps_pkgs s s' :
  frame s s' -> keeps (fs_inst s) (fs_inst s') -> (forall d, is_Some (in_diris (fs_inst s') !! d) -> is_Some (in_diris (fs_inst s) !! d)) ->
  (forall d, is_Some (in_diris (fs_inst s) !! d) -> exists p, fs_pkg_of s (di_pkg (diri_at (fs_inst s) d)) = Some p /\ is_Some (pkg_ipkg p)) ->
  forall d, is_Some (in_diris (fs_inst s') !! d) -> exists p, fs_pkg_of s' (di_pkg (diri_at (fs_inst s') d)) = Some p /\ is_Some (pkg_ipkg p).
Proof.
  intros Hf Hk Hd Hp d Hd'. specialize (Hd d Hd'). destruct (Hk d Hd) as (_ & _ & ->). rewrite (frame_pkg_of _ _ _ Hf). by apply Hp.
Qed.

Lemma soft_mono limit limit' (ok ok' : option nat -> Prop) dirs :
  limit <= limit' -> (forall o, ok o -> ok' o) -> soft_dirs limit ok dirs -> soft_dirs limit' ok' dirs.
Proof. intros Hl Ho Hs b. destruct (Hs b). split; [lia | auto]. Qed.

(** ** Lines of the installed database *)

Section Lines.
Context (simulate usermode : bool) (fs_result : list fs_call -> Z) (fnmatch : bytes -> bytes -> bool).
Context (force_old_apk : bool) (layer behind : Z).

Abbreviation line := (fdb_line simulate usermode fs_result fnmatch force_old_apk APK_REPO_DB_INSTALLED layer behind).
Abbreviation lines := (fdb_lines simulate usermode fs_result fnmatch force_old_apk APK_REPO_DB_INSTALLED layer behind).
Abbreviation field := (fdb_field simulate usermode fs_result fnmatch force_old_apk behind).
Abbreviation apply_perms := (fs_apply simulate usermode fs_result).

Lemma set_same_tmpl s : set_fs_tmpl (upd_info (fun _ => pt_info (fs_tmpl s)) (fs_tmpl s)) s = s.
Proof. by destruct s as [[] ? ? ? ? ? ? ? ? ?]. Qed.

Lemma get_no_names s : fs_get_names [] s = s.
Proof. by destruct s. Qed.

(** A field of the installed database starts the installed package when there is none yet. *)
Definition started (s : fdb_state) : fdb_state := if fs_ipkg s then s else fs_ipkg_create s.

Lemma create_ipkg s : fs_ipkg (fs_ipkg_create s) = true.
Proof. unfold fs_ipkg_create. by destruct (tmpl_install _ _). Qed.

Lemma line_field c v s : c ∈ lit "FMRZrqasfg" -> line (c :: chr ":" :: v) s = field c 1 v (started s).
Proof.
  intros Hc. unfold fdb_line. cbn [Z.eqb negb]. change (negb (58 =? 58)) with false. cbv iota.
  assert (line_names c v (t_repo_tags (pt_info (fs_tmpl s))) = []) as -> by (unfold line_names; set_unfold; by destruct_or! Hc; subst).
  rewrite get_no_names.
  assert (apk_pkgtmpl_add_info (pt_info (fs_tmpl s)) c v = Ok (1, pt_info (fs_tmpl s))) as -> by (set_unfold; by destruct_or! Hc; subst).
  cbn [obind]. rewrite set_same_tmpl. unfold started. destruct (fs_ipkg s) eqn:E; cbn; [by rewrite E |]. by rewrite create_ipkg.
Qed.

Lemma started_true s : fs_ipkg s = true -> started s = s.
Proof. intros H. unfold started. by rewrite H. Qed.

Lemma lines_app ls k s : lines (ls ++ k) s = (let! n := lines ls s in match n with Go s => lines k s | Stop e s => Ok (Stop e s) end).
Proof.
  revert s. induction ls as [|l ls IH]; intros s; [done |]. cbn [app fdb_lines]. destruct (line l s) as [[s'|e s']|]; cbn [obind]; [apply IH | done | done].
Qed.
(** *** Files *)

Lemma file_get_dirs d name db : in_dirs (apk_db_file_get d name db).2 = in_dirs db.
Proof. unfold apk_db_file_get. by destruct (apk_hash_get_hashed _ _ _). Qed.

(** [db'] is [db] with the file [fl] added to the current instance [d] as [f]. *)
Record file_added (d f : nat) (fl : apk_db_file) (db db' : inst_db) : Prop := {
  fa_dirs : in_dirs db' = in_dirs db;
  fa_diris : in_diris db' = in_diris db;
  fa_current : ic_diri (in_ic db') = ic_diri (in_ic db) /\ ic_diris (in_ic db') = ic_diris (in_ic db);
  fa_new : in_files db !! f = None /\ in_files db' = <[f := fl]> (in_files db) /\ f_diri fl = d;
  fa_files : forall e, files_of db' e = if decide (e = d) then files_of db d ++ [f] else files_of db e;
}.

Lemma file_added_name d f fl db db' e : file_added d f fl db db' -> diri_name db' e = diri_name db e.
Proof. intros []. unfold diri_name, diri_at. by rewrite fa_dirs0, fa_diris0. Qed.

Lemma file_added_view ext d f fl db db' :
  creator_inv ext db -> is_Some (in_diris db !! d) -> file_added d f fl db db' ->
  view_now db' d = mk_drec (diri_name db d) (di_acl (diri_at db d)) ((file_view db <$> files_of db d) ++ [file_rec_of fl])
  /\ (forall e, is_Some (in_diris db !! e) -> e <> d -> view_now db' e = view_now db e).
Proof.
  intros Hi Hd Ha. assert (forall e, diri_at db' e = diri_at db e) as Hat by (intros e; unfold diri_at; by rewrite (fa_diris _ _ _ _ _ Ha)).
  destruct (fa_new _ _ _ _ _ Ha) as (Hf & Hfiles & _).
  assert (forall e, is_Some (in_diris db !! e) -> file_view db' <$> files_of db e = file_view db <$> files_of db e) as Hold.
  { intros e He. apply list_fmap_ext. intros i x Hx. apply list_elem_of_lookup_2 in Hx.
    destruct (cv_owned _ _ Hi e x He Hx) as (y & Hy & _). unfold file_view, file_at. rewrite Hfiles, lookup_insert_ne by congruence. done. }
  split.
  - unfold view_now. rewrite (file_added_name _ _ _ _ _ _ Ha), Hat, (fa_files _ _ _ _ _ Ha), decide_True by done. f_equal.
    rewrite fmap_app, Hold by done. f_equal. simpl. unfold file_view, file_at. by rewrite Hfiles, lookup_insert_eq.
  - intros e He Hne. unfold view_now. rewrite (file_added_name _ _ _ _ _ _ Ha), Hat, (fa_files _ _ _ _ _ Ha), decide_False by done.
    by rewrite Hold.
Qed.

Lemma file_added_upd d f fl db db' g :
  file_added d f fl db db' -> f_diri (g fl) = f_diri fl -> file_added d f (g fl) db (upd_file f g db').
Proof.
  intros [A1 A2 A3 (B1 & B2 & B3) A5] Hg. split; try done. split_and!; [done | | congruence]. simpl. unfold file_at.
  by rewrite B2, lookup_insert_eq, insert_insert_eq.
Qed.

(** A state in the middle of a file: its lines so far made [fl] of it. *)
Definition in_file (limit : Z) (keys : list (bytes * bytes)) (s0 s : fdb_state) (d f : nat) (fl : apk_db_file) : Prop :=
  frame s0 s /\ fs_diri s = Some d /\ fs_file s = Some f /\ reading limit keys s /\ file_added d f fl (fs_inst s0) (fs_inst s).

Lemma in_file_upd limit keys s0 s d f fl g fd xd :
  in_file limit keys s0 s d f fl ->
  (forall x, f_diri (g x) = f_diri x /\ f_namelen (g x) = f_namelen x /\ f_name (g x) = f_name x) ->
  length (d_data fd) = APK_DIGEST_LENGTH_MAX -> length (d_data xd) = APK_DIGEST_LENGTH_MAX ->
  in_file limit keys s0 (set_fs_file_digest fd (set_fs_xattr_digest xd (set_fs_inst (upd_file f g (fs_inst s)) s))) d f (g fl).
Proof.
  intros (Hf & Hd & Hfile & [[ext Hc] Hs Hp Hk Hdig] & Ha) Hg Hfd Hxd.
  destruct (fa_new _ _ _ _ _ Ha) as (_ & Hfiles & _).
  assert (is_Some (in_files (fs_inst s) !! f)) as Hfs by (rewrite Hfiles, lookup_insert_eq; by eexists).
  split_and!; [done | done | done | | apply file_added_upd; [done | apply Hg]]. split.
  - exists ext. apply (attributes_inv ext (fs_inst s)); [done |]. by apply (upd_file_attributes (loaded := true)).
  - done.
  - done.
  - simpl. intros f' x. rewrite lookup_insert_Some. intros [[<- <-]|[_ Hx]]; [| by apply (Hk f')].
    unfold file_at. destruct Hfs as [y Hy]. rewrite Hy. simpl. destruct (Hg y) as (-> & _ & ->). by apply (Hk f).
  - done.
Qed.

Lemma read_name_line limit keys s d name :
  reading limit keys s -> fs_ipkg s = true -> fs_diri s = Some d -> ic_diri (in_ic (fs_inst s)) = Some d ->
  Z.of_nat (length name) < 2 ^ 8 -> (diri_name (fs_inst s) d, name) ∉ keys ->
  exists s' f fl, line (lit "R:" ++ name) s = Ok (Go s') /\ in_file limit ((diri_name (fs_inst s) d, name) :: keys) s s' d f fl
    /\ file_rec_of fl = mk_frec name apk_default_acl_file APK_DIGEST_NONE [] /\ f_audited fl = false
    /\ fs_file_digest s' = fs_file_digest s /\ fs_xattr_digest s' = fs_xattr_digest s.
Proof.
  intros [[ext Hc] Hs Hp Hk Hdig] Hip Hd Hcur Hlen Hfresh. cbn [app]. rewrite line_field by set_solver. rewrite started_true by done.
  unfold fdb_field. cbn -[apk_db_file_get]. rewrite Hd.
  pose proof (file_get_spec ext (fs_inst s) d name Hc Hcur Hlen) as Hg. pose proof (file_get_dirs d name (fs_inst s)) as Hdirs.
  destruct (apk_db_file_get d name (fs_inst s)) as [f db']. simpl in Hdirs.
  destruct Hg as (Hc' & Hdiris & Hnames & Hcur' & Hics & fl & Hfl & Hn & Hdn & [-> |(Hnew & Ho & Hacl & Halg & Hau & Hfiles & Hof)]).
  { exfalso. apply Hfresh. rewrite <- Hdn, <- Hn. by apply (Hk f). }
  eexists _, f, fl. split; [done |]. assert (f_namelen fl = Z.of_nat (length (f_name fl))) as Hl by (by apply (cv_namelen _ _ Hc' eq_refl f)).
  unfold in_file. split_and!; try done.
  - split; simpl; try done.
    + by exists ext.
    + rewrite Hdirs. eapply soft_mono; [reflexivity | | exact Hs]. intros [o|]; simpl; [by rewrite Hdiris | done].
    + intros e He. rewrite Hdiris in He. unfold diri_at. rewrite Hdiris. by apply Hp.
    + intros f' x. rewrite Hfiles, lookup_insert_Some, Hnames. intros [[<- <-]|[_ Hx]]; [rewrite Ho, Hn; by left | right; by apply (Hk f')].
  - split; simpl; try done. split; congruence.
  - unfold file_rec_of, file_key. rewrite Hl, Nat2Z.id, firstn_all, Hacl, Halg, Hn. done.
Qed.

Lemma pull_char_cons c k : apk_blob_pull_char (Some (c :: k)) c = Some k.
Proof. simpl. by rewrite Z.eqb_refl. Qed.

Lemma pull_hash_keeps hash k d :
  Forall byte_ok hash -> length hash = APK_DIGEST_LENGTH_SHA1 -> length (d_data d) = APK_DIGEST_LENGTH_MAX -> not_extension 16 b64d k ->
  exists d', apk_blob_pull_digest (Some (hash_text hash ++ k)) d = Ok (Some k, d') /\ d_alg d' = APK_DIGEST_SHA1 /\ digest_blob d' = hash
    /\ d_len d' = APK_DIGEST_LENGTH_SHA1 /\ length (d_data d') = APK_DIGEST_LENGTH_MAX.
Proof.
  intros Hb Hl Hd Hk. exists (digest_store (apk_digest_set d APK_DIGEST_SHA1) 0 hash).
  split_and!; [| done | by apply digest_store_blob | done |].
  - simpl. unfold pull_into. change (take 20 (d_data d)) with (take 20 (drop 0 (d_data d))). rewrite pull_push_base64; [| done |].
    + simpl. by apply pull_extension_none.
    + rewrite length_data_window by done. by rewrite Hl.
  - simpl. rewrite length_app, length_drop, Hd, Hl. done.
Qed.

Lemma pull_colon k : apk_blob_pull_blob_match (Some (58 :: k)) (lit ":") = (true, Some k).
Proof. done. Qed.

Lemma uint_pull v radix k :
  2 <= radix <= 16 -> 0 <= v < 2 ^ 64 -> stops_uint radix k = true -> apk_blob_pull_uint (Some (uint_text v radix ++ k)) radix = (v, Some k).
Proof. intros. by apply uint_text_pull. Qed.

Lemma pull_acl_text acl x :
  acl_ok acl -> length (d_data x) = APK_DIGEST_LENGTH_MAX ->
  exists rest x', fdb_pull_acl (acl_text acl) x = Ok (acl, Some rest, x') /\ length (d_data x') = APK_DIGEST_LENGTH_MAX.
Proof.
  intros [Hm Hu Hg Hh] Hx. unfold fdb_pull_acl, acl_text.
  rewrite uint_pull by (lia || done). cbn [app]. rewrite pull_char_cons.
  rewrite uint_pull by (lia || done). cbn [app]. rewrite pull_char_cons.
  assert (Z.land (u32 (acl_mode acl)) 4095 = acl_mode acl) as Hland.
  { unfold u32. rewrite Z.mod_small by lia. change 4095 with (Z.ones 12). rewrite Z.land_ones by lia. apply Z.mod_small. lia. }
  assert (apk_db_acl_atomize_digest (u32 (acl_mode acl)) (acl_uid acl) (acl_gid acl) (acl_xattr_hash acl) = acl) as Hatom.
  { unfold apk_db_acl_atomize_digest. rewrite Hland, !u32_small by lia. by destruct acl. }
  destruct (acl_xattr_hash acl) as [|y h] eqn:Eh.
  - rewrite uint_pull by (lia || done). 
    change (apk_blob_pull_blob_match (Some []) (lit ":")) with (false, Some ([] : bytes)). cbv iota beta. cbn [obind].
    change (digest_blob (apk_digest_reset x)) with ([] : bytes). rewrite Hatom. eauto.
  - destruct Hh as [|[Hb Hl]]; [done |]. rewrite uint_pull by (lia || done).
    destruct (pull_hash_keeps (y :: h) [] x) as (x' & Hp & Ha & Hblob & Hlen & Hdata); [done | done | done | by left |].
    rewrite app_nil_r in Hp. cbn [app]. rewrite pull_colon, Hp. cbn [obind]. rewrite Hblob, Hatom. eauto.
Qed.
Lemma eta_digests s : set_fs_file_digest (fs_file_digest s) s = s /\ set_fs_xattr_digest (fs_xattr_digest s) s = s.
Proof. by destruct s. Qed.

Lemma read_acl_line limit keys s0 s d f fl acl :
  in_file limit keys s0 s d f fl -> fs_ipkg s = true -> acl_ok acl ->
  exists s', lines (acl_lines (lit "a:") apk_default_acl_file acl) s = Ok (Go s')
    /\ (f_acl fl = apk_default_acl_file -> in_file limit keys s0 s' d f (set_f_acl acl fl)) /\ fs_ipkg s' = true.
Proof.
  intros Hf Hip Ha. unfold acl_lines. case_bool_decide as E.
  { exists s. split_and!; [done | | done]. intros Hacl. subst. destruct fl. simpl in *. by subst. }
  pose proof Hf as (Hfr & Hd & Hfile & Hr & _). cbn [fdb_lines app]. rewrite line_field by set_solver. rewrite started_true by done.
  unfold fdb_field. cbn -[fdb_pull_acl acl_text]. rewrite Hd, Hfile. rewrite bool_decide_false by done.
  destruct (pull_acl_text acl (fs_xattr_digest s) Ha) as (rest & x & -> & Hx); [apply Hr |]. cbn [obind]. simpl.
  eexists. split; [done |]. split; [| done]. intros _.
  pose proof (in_file_upd limit keys s0 s d f fl (set_f_acl acl) (fs_file_digest s) x Hf ltac:(done) ltac:(apply Hr) Hx) as H. exact H.
Qed.

Lemma read_digest_line limit keys s0 s d f fl alg digest ip :
  in_file limit keys s0 s d f fl -> fs_ipkg s = true -> pt_ipkg (fs_tmpl s) = Some ip ->
  (alg = APK_DIGEST_NONE /\ digest = []
    \/ alg = (if ip_sha256_160 ip then APK_DIGEST_SHA256_160 else APK_DIGEST_SHA1) /\ hash_ok digest) ->
  f_digest_alg fl = APK_DIGEST_NONE ->
  exists s' fl', lines (if alg =? APK_DIGEST_NONE then [] else [lit "Z:" ++ hash_text digest]) s = Ok (Go s')
    /\ in_file limit keys s0 s' d f fl' /\ fs_ipkg s' = true /\ f_audited fl' = f_audited fl
    /\ file_rec_of fl' = mk_frec (file_key fl) (f_acl fl) alg digest.
Proof.
  intros Hf Hip Hipkg Hd Halg. destruct Hd as [[-> ->]|[Ea [Hb Hl]]].
  { exists s, fl. split_and!; try done. unfold file_rec_of. by rewrite Halg. }
  assert ((alg =? APK_DIGEST_NONE) = false) as -> by (subst; by destruct (ip_sha256_160 ip)).
  pose proof Hf as (Hfr & Hdd & Hfile & Hr & _). cbn [fdb_lines app]. rewrite line_field by set_solver. rewrite started_true by done.
  unfold fdb_field. cbn -[apk_blob_pull_digest hash_text apk_dbf_digest_set]. rewrite Hfile, Hipkg.
  destruct (pull_hash_keeps digest [] (fs_file_digest s) Hb Hl) as (x & Hp & Hxa & Hblob & Hxl & Hx); [apply Hr | by left |].
  rewrite app_nil_r in Hp. rewrite Hp. cbn [obind]. rewrite Hxa. change (APK_DIGEST_SHA1 =? APK_DIGEST_SHA1) with true. cbn [andb].
  set (y := if ip_sha256_160 ip then apk_digest_set x APK_DIGEST_SHA256_160 else x).
  assert (d_alg y = alg /\ d_data y = d_data x) as [Hya Hyd] by (unfold y; subst alg; by destruct (ip_sha256_160 ip)).
  assert (apk_digest_alg_len alg = 20%nat) as Hlen by (subst alg; by destruct (ip_sha256_160 ip)).
  rewrite Hya, Hyd. eexists _, (apk_dbf_digest_set alg (d_data x) fl). split; [done |]. split_and!.
  - pose proof (in_file_upd limit keys s0 s d f fl (apk_dbf_digest_set alg (d_data x)) y (fs_xattr_digest s) Hf (digest_set_keeps _ _)) as H.
    apply H; [by rewrite Hyd | apply Hr].
  - done.
  - unfold apk_dbf_digest_set. by rewrite Hlen.
  - unfold apk_dbf_digest_set. rewrite Hlen. cbn [Nat.ltb Nat.leb]. unfold file_rec_of, file_key. simpl.
    assert ((alg =? APK_DIGEST_NONE) = false) as -> by (subst; by destruct (ip_sha256_160 ip)). f_equal. unfold digest_blob in Hblob. by rewrite Hxl in Hblob.
Qed.

(** All lines of one file. *)
Lemma read_file_lines limit keys s d ip r :
  reading limit keys s -> fs_ipkg s = true -> pt_ipkg (fs_tmpl s) = Some ip -> fs_diri s = Some d -> ic_diri (in_ic (fs_inst s)) = Some d ->
  file_rec_ok (ip_sha256_160 ip) r -> (diri_name (fs_inst s) d, fr_name r) ∉ keys ->
  exists s' f fl, lines (file_lines r) s = Ok (Go s')
    /\ in_file limit ((diri_name (fs_inst s) d, fr_name r) :: keys) s s' d f fl /\ file_rec_of fl = r /\ f_audited fl = false.
Proof.
  intros Hr Hip Hipkg Hd Hcur [[_ Hlen] Hacl Hdig] Hfresh. unfold file_lines.
  destruct (read_name_line limit keys s d (fr_name r) Hr Hip Hd Hcur Hlen Hfresh) as (s1 & f & fl & E1 & Hin1 & Hrec & Hau & _).
  cbn [fdb_lines]. rewrite E1. cbn [obind]. rewrite lines_app. pose proof Hin1 as ((F1 & F2 & _) & _). unfold file_rec_of in Hrec.
  assert (fs_ipkg s1 = true) as Hip1 by congruence.
  destruct (read_acl_line _ _ s s1 d f fl (fr_acl r) Hin1 Hip1 Hacl) as (s2 & E2 & Hin2 & Hip2). rewrite E2. cbn [obind].
  assert (f_acl fl = apk_default_acl_file /\ f_digest_alg fl = APK_DIGEST_NONE /\ file_key fl = fr_name r) as (Hfa & Hfd & Hfk).
  { by simplify_eq. }
  specialize (Hin2 Hfa). pose proof Hin2 as ((F3 & _) & _).
  destruct (read_digest_line _ _ s s2 d f (set_f_acl (fr_acl r) fl) (fr_alg r) (fr_digest r) ip Hin2 Hip2) as (s3 & fl3 & E3 & Hin3 & _ & Hau3 & Hrec3);
    [congruence | done | done |]. rewrite E3.
  exists s3, f, fl3. split_and!; [done | done | | by rewrite Hau3]. rewrite Hrec3. unfold file_key in *. simpl. destruct r; simpl in *. congruence.
Qed.

(** The files of an instance, one after the other. *)
Lemma read_files_lines limit keys s d ip rs :
  reading limit keys s -> fs_ipkg s = true -> pt_ipkg (fs_tmpl s) = Some ip -> fs_diri s = Some d -> ic_diri (in_ic (fs_inst s)) = Some d ->
  Forall (file_rec_ok (ip_sha256_160 ip)) rs -> NoDup (fr_name <$> rs) ->
  (forall r, r ∈ rs -> (diri_name (fs_inst s) d, fr_name r) ∉ keys) ->
  exists s', lines (rs ≫= file_lines) s = Ok (Go s') /\ frame s s' /\ fs_diri s' = Some d
    /\ reading limit (((fun r => (diri_name (fs_inst s) d, fr_name r)) <$> reverse rs) ++ keys) s'
    /\ in_diris (fs_inst s') = in_diris (fs_inst s) /\ ic_diris (in_ic (fs_inst s')) = ic_diris (in_ic (fs_inst s))
    /\ ic_diri (in_ic (fs_inst s')) = Some d
    /\ view_now (fs_inst s') d = mk_drec (diri_name (fs_inst s) d) (di_acl (diri_at (fs_inst s) d)) (dr_files (view_now (fs_inst s) d) ++ rs)
    /\ (forall e, is_Some (in_diris (fs_inst s) !! e) -> e <> d -> view_now (fs_inst s') e = view_now (fs_inst s) e)
    /\ (forall f x, in_files (fs_inst s') !! f = Some x -> f_audited x = false \/ in_files (fs_inst s) !! f = Some x).
Proof.
  revert keys s. induction rs as [|r rs IH]; intros keys s Hr Hip Hipkg Hd Hcur Hok Hnd Hfresh.
  { exists s. split_and!; try done; [simpl; by rewrite app_nil_r | auto]. }
  apply Forall_cons in Hok as [Hok1 Hok]. rewrite fmap_cons in Hnd. apply NoDup_cons in Hnd as [Hn1 Hnd].
  destruct (read_file_lines limit keys s d ip r) as (s1 & f & fl & E1 & (Hf1 & Hd1 & _ & Hr1 & Ha1) & Hrec & Hau); try done.
  { apply Hfresh. by left. }
  destruct (ri_creator _ _ _ Hr) as [ext Hc].
  assert (is_Some (in_diris (fs_inst s) !! d)) as Hsd by (apply (cv_member _ _ Hc), (cv_current _ _ Hc), Hcur).
  destruct (file_added_view ext d f fl _ _ Hc Hsd Ha1) as [V1 V2]. pose proof Hf1 as (F1 & F2 & F3 & F4).
  pose proof (file_added_name _ _ _ _ _ d Ha1) as Hname.
  destruct (IH ((diri_name (fs_inst s) d, fr_name r) :: keys) s1) as (s2 & E2 & Hf2 & Hd2 & Hr2 & B1 & B2 & B3 & B4 & B5 & B6); try done.
  { congruence. }
  { congruence. }
  { by rewrite (proj1 (fa_current _ _ _ _ _ Ha1)). }
  { intros r' Hr'. rewrite Hname. rewrite not_elem_of_cons. split; [| apply Hfresh; by right]. intros [= Hx]. apply Hn1. rewrite <- Hx.
    by apply list_elem_of_fmap_2. }
  exists s2. rewrite bind_cons, lines_app, E1. cbn [obind]. split_and!; try done.
  - by transitivity s1.
  - rewrite reverse_cons, fmap_app. simpl. rewrite <- app_assoc. simpl. by rewrite Hname in Hr2.
  - by rewrite B1, (fa_diris _ _ _ _ _ Ha1).
  - by rewrite B2, (proj2 (fa_current _ _ _ _ _ Ha1)).
  - rewrite B4, Hname. unfold diri_at at 1. rewrite (fa_diris _ _ _ _ _ Ha1). f_equal. rewrite V1. simpl. rewrite <- app_assoc. by rewrite Hrec.
  - intros e He Hne. rewrite B5, V2; [done | done | done | by rewrite (fa_diris _ _ _ _ _ Ha1) | done].
  - intros f' x Hx. destruct (B6 f' x Hx) as [|Hx']; [by left |]. destruct (fa_new _ _ _ _ _ Ha1) as (_ & Hfiles & _).
    rewrite Hfiles, lookup_insert_Some in Hx'. destruct Hx' as [[_ <-]|[_ ?]]; [by left | by right].
Qed.
(** *** Directories *)

Lemma replaces_dir_ok p q : is_Some (pkg_ipkg p) -> is_Some (pkg_ipkg q) -> exists r, apk_pkg_replaces_dir (Some p) (Some q) = Ok r.
Proof. intros [? Hp] [? Hq]. unfold apk_pkg_replaces_dir. rewrite Hp, Hq. case_if; eauto. Qed.

Definition known_diri (s : fdb_state) : Prop := forall d, fs_diri s = Some d -> is_Some (in_diris (fs_inst s) !! d).

Lemma apply_spec limit keys s :
  reading limit keys s -> known_diri s ->
  exists db, apply_perms s = Ok (set_fs_inst db s) /\ reading limit keys (set_fs_inst db s) /\ keeps (fs_inst s) db
    /\ in_diris db = in_diris (fs_inst s) /\ in_files db = in_files (fs_inst s) /\ in_ic db = in_ic (fs_inst s)
    /\ (forall e, diri_name db e = diri_name (fs_inst s) e).
Proof.
  intros Hr Hk. destruct (ri_creator _ _ _ Hr) as [ext Hc]. unfold fs_apply. destruct (fs_diri s) as [d|] eqn:Ed.
  2:{ exists (fs_inst s). assert (set_fs_inst (fs_inst s) s = s) as -> by (by destruct s). by split_and!. }
  specialize (Hk d Ed). destruct (ri_pkg _ _ _ Hr d Hk) as (p & Hp & Hip).
  destruct (apply_permissions_spec simulate usermode fs_result (fs_pkg_of s) ext (fs_inst s) d Hc Hk) as (db & -> & Ho & Hs).
  { intros o Ho. destruct (ri_soft _ _ _ Hr (di_dir (diri_at (fs_inst s) d))) as [_ Hown]. rewrite Ho in Hown.
    destruct (ri_pkg _ _ _ Hr o Hown) as (q & Hq & Hiq). unfold diri_pkg. rewrite Hq, Hp. by apply replaces_dir_ok. }
  exists db. cbn [obind]. destruct (dirs_only_keeps _ _ _ Ho) as [Hkeeps Hnames]. destruct Ho as [Ha H1 H2].
  split_and!; try done; [| apply Ha]. split; simpl.
  - exists ext. by apply (attributes_inv ext (fs_inst s)).
  - apply Hs; [simpl; by rewrite H1 |]. eapply soft_mono; [reflexivity | | apply Hr]. intros [o|]; simpl; [by rewrite H1 | done].
  - intros e. unfold diri_at. rewrite H1. apply Hr.
  - intros f x. rewrite H2, Hnames. apply Hr.
  - apply Hr.
Qed.

Definition dir_entered (limit : Z) (keys : list (bytes * bytes)) (s s' : fdb_state) (d : nat) (r : dir_rec) : Prop :=
  frame s s' /\ fs_diri s' = Some d /\ ic_diri (in_ic (fs_inst s')) = Some d /\ reading limit keys s' /\ keeps (fs_inst s) (fs_inst s')
  /\ drec_eq (view_now (fs_inst s') d) r /\ in_diris (fs_inst s) !! d = None /\ di_pkg (diri_at (fs_inst s') d) = Pkg_tmpl
  /\ (forall e, is_Some (in_diris (fs_inst s') !! e) -> e = d \/ is_Some (in_diris (fs_inst s) !! e))
  /\ ic_diris (in_ic (fs_inst s')) ≡ₚ d :: ic_diris (in_ic (fs_inst s)) /\ in_files (fs_inst s') = in_files (fs_inst s).

Lemma read_F_line limit keys s name tname ip :
  1 <= limit < 2 ^ 16 - 1 -> reading limit keys s -> known_diri s -> fs_ipkg s = true -> pt_ipkg (fs_tmpl s) = Some ip ->
  t_name (pt_info (fs_tmpl s)) = Some tname -> clean name -> (forall e, ~ has_diri (fs_inst s) name e) ->
  exists s' d, line (lit "F:" ++ name) s = Ok (Go s') /\ dir_entered (limit + 1) keys s s' d (mk_drec name apk_default_acl_dir [])
    /\ fs_file_digest s' = fs_file_digest s /\ fs_xattr_digest s' = fs_xattr_digest s.
Proof.
  intros Hlim Hr Hk Hip Hipkg Hname Hc Hnone. cbn [app]. rewrite line_field by set_solver. rewrite started_true by done.
  unfold fdb_field. cbn -[fs_apply apk_db_diri_get]. rewrite Hname.
  destruct (apply_spec limit keys s Hr Hk) as (db1 & -> & Hr1 & Hk1 & I1 & I2 & I3 & I4). cbn [obind].
  destruct (ri_creator _ _ _ Hr1) as [ext Hc1]. cbn [fs_inst set_fs_inst] in *.
  assert (forall e, ~ has_diri db1 name e) as Hnone1.
  { intros e [He Hn]. apply (Hnone e). split; [by rewrite <- I3 | by rewrite <- I4]. }
  destruct (diri_get_spec (loaded := true) fnmatch (S (length name)) ext db1 name Pkg_tmpl) as (d & db2 & ext2 & Hg & Hc2 & Hgot); [done | done | | lia |].
  { intros b x Hb. destruct (ri_soft _ _ _ Hr1 b) as [Hb' _]. simpl in Hb'. unfold dir_at in Hb'. rewrite Hb in Hb'. simpl in Hb'. lia. }
  pose proof (diri_get_soft fnmatch _ name Pkg_tmpl db1 d db2 limit (owner_known db1) Hlim I Hg (ri_soft _ _ _ Hr1)) as Hsoft.
  rewrite Hg. cbn [obind]. destruct Hgot as [Gk Gc Gn Gd [[Gold _]|(_ & Gnew & Gf & Ga & Gp & Gi)]]; [by apply Hnone1 in Gold |].
  pose proof (kept_keeps _ _ Gk) as Hk2.
  eexists _, d. split; [done |]. split; [| done]. unfold dir_entered. cbn [fs_inst set_fs_inst set_fs_diri fs_diri]. split_and!; try done.
  - split; cbn [fs_inst set_fs_inst set_fs_diri fs_diri].
    + by exists ext2.
    + eapply soft_mono; [reflexivity | | exact Hsoft]. intros [o|]; [| done]. simpl. intros Ho. by apply (kp_dom _ _ Gk).
    + intros e He. destruct (Gd e He) as [->|He'].
      * rewrite Gp. simpl. eexists. split; [done |]. unfold tmpl_pkg. simpl. by rewrite Hipkg.
      * rewrite (kp_pkg _ _ Gk e He'). by apply (ri_pkg _ _ _ Hr1).
    + intros f x Hx. rewrite (kp_files _ _ Gk) in Hx. rewrite (kp_name _ _ Gk) by (by apply (cv_file _ _ Hc1 f)). by apply (ri_keys _ _ _ Hr1 f).
    + apply Hr.
  - by transitivity db1.
  - unfold view_now. rewrite Gn, Ga, Gf. done.
  - by rewrite <- I1.
  - intros e He. destruct (Gd e He) as [|He']; [by left | right]. by rewrite <- I1.
  - by rewrite Gi, I3.
  - by rewrite (kp_files _ _ Gk), I2.
Qed.

Lemma read_M_line limit keys s0 s d name acl :
  dir_entered limit keys s0 s d (mk_drec name apk_default_acl_dir []) -> fs_ipkg s = true -> acl_ok acl ->
  exists s', lines (acl_lines (lit "M:") apk_default_acl_dir acl) s = Ok (Go s') /\ dir_entered limit keys s0 s' d (mk_drec name acl []).
Proof.
  intros He Hip Ha. unfold acl_lines. case_bool_decide as E; [exists s; by subst |].
  destruct He as (Hfr & Hd & Hcur & Hr & Hk & Hv & Hnew & Hp & Hdom & Hic & Hfi).
  cbn [fdb_lines app]. rewrite line_field by set_solver. rewrite started_true by done. unfold fdb_field. cbn -[fdb_pull_acl acl_text]. rewrite Hd.
  destruct (pull_acl_text acl (fs_xattr_digest s) Ha) as (rest & x & -> & Hx); [apply Hr |]. cbn [obind]. simpl.
  destruct (ri_creator _ _ _ Hr) as [ext Hc].
  assert (is_Some (in_diris (fs_inst s) !! d)) as Hsd by (apply (cv_member _ _ Hc), (cv_current _ _ Hc), Hcur).
  pose proof (set_diri_acl_attributes ext (fs_inst s) d acl Hc Hsd) as Hat. destruct (attributes_names _ _ _ Hat) as (N1 & N2 & N3).
  set (db := upd_diri d (set_di_acl acl) (fs_inst s)) in *.
  assert (forall e, diri_at db e = if decide (e = d) then set_di_acl acl (diri_at (fs_inst s) d) else diri_at (fs_inst s) e) as Hat'.
  { intros e. unfold diri_at at 1. simpl. case_decide; [subst; by rewrite lookup_insert_eq | by rewrite lookup_insert_ne]. }
  assert (forall e, is_Some (in_diris db !! e) <-> is_Some (in_diris (fs_inst s) !! e)) as Hdom'.
  { intros e. simpl. destruct (decide (e = d)) as [->|]; [by rewrite lookup_insert_eq; split | by rewrite lookup_insert_ne]. }
  eexists. split; [done |]. unfold dir_entered. cbn [fs_inst set_fs_inst fs_diri set_fs_xattr_digest]. split_and!; try done.
  - split; cbn [fs_inst set_fs_inst fs_diri set_fs_xattr_digest].
    + exists ext. by apply (attributes_inv ext (fs_inst s)).
    + eapply soft_mono; [reflexivity | | apply Hr]. intros [o|] Ho; [| done]. by apply Hdom'.
    + intros e He%Hdom'. rewrite Hat'. case_decide; [subst |]; by apply (ri_pkg _ _ _ Hr).
    + intros f y Hy. rewrite N1. by apply (ri_keys _ _ _ Hr f).
    + split; [apply Hr | done].
  - intros e He. destruct (Hk e He) as (K1 & K2 & K3). assert (e <> d) as Hne by (intros ->; rewrite Hnew in He; by destruct He).
    rewrite Hdom', Hat', decide_False by done. split_and!; [done | | done]. unfold view_now in *. rewrite N1, N3, Hat', decide_False by done. exact K2.
  - destruct Hv as (V1 & V2 & V3). unfold view_now in *. simpl in *. rewrite Hat', decide_True by done. repeat split; simpl; [by rewrite N1 | by rewrite N3].
  - rewrite Hat', decide_True by done. done.
  - intros e He%Hdom'. auto.
Qed.

(** All lines of one directory. *)
Lemma read_dir_lines limit keys s tname ip r :
  1 <= limit < 2 ^ 16 - 1 -> reading limit keys s -> known_diri s -> fs_ipkg s = true -> pt_ipkg (fs_tmpl s) = Some ip ->
  t_name (pt_info (fs_tmpl s)) = Some tname -> (forall e, ~ has_diri (fs_inst s) (dr_name r) e) ->
  dir_rec_ok (ip_sha256_160 ip) r -> NoDup (fr_name <$> dr_files r) -> (forall f, f ∈ dr_files r -> (dr_name r, fr_name f) ∉ keys) ->
  exists s' d, lines (dir_lines r) s = Ok (Go s')
    /\ frame s s' /\ fs_diri s' = Some d /\ reading (limit + 1) (((fun f => (dr_name r, fr_name f)) <$> reverse (dr_files r)) ++ keys) s'
    /\ keeps (fs_inst s) (fs_inst s') /\ drec_eq (view_now (fs_inst s') d) r /\ is_Some (in_diris (fs_inst s') !! d)
    /\ in_diris (fs_inst s) !! d = None /\ di_pkg (diri_at (fs_inst s') d) = Pkg_tmpl
    /\ (forall e, is_Some (in_diris (fs_inst s') !! e) -> e = d \/ is_Some (in_diris (fs_inst s) !! e))
    /\ ic_diris (in_ic (fs_inst s')) ≡ₚ d :: ic_diris (in_ic (fs_inst s))
    /\ (forall f x, in_files (fs_inst s') !! f = Some x -> f_audited x = false \/ in_files (fs_inst s) !! f = Some x).
Proof.
  intros Hlim Hr Hk Hip Hipkg Hname Hnone [[_ Hclean] Hacl Hfok] Hnd Hfresh. unfold dir_lines, dir_head.
  destruct (read_F_line limit keys s (dr_name r) tname ip) as (s1 & d & E1 & He1 & _); try done.
  assert (fs_ipkg s1 = true) as Hip1 by (destruct He1 as ((_ & -> & _) & _); done).
  destruct (read_M_line (limit + 1) keys s s1 d (dr_name r) (dr_acl r) He1 Hip1 Hacl) as (s2 & E2 & Hfr & Hd & Hcur & Hr2 & Hk2 & Hv & Hnew & Hp & Hdom & Hic & Hfi).
  pose proof Hfr as (F1 & F2 & F3 & F4). pose proof Hv as (V1 & V2 & V3). simpl in V1, V2, V3.
  destruct (read_files_lines (limit + 1) keys s2 d ip (dr_files r)) as (s3 & E3 & Hf3 & Hd3 & Hr3 & B1 & B2 & B3 & B4 & B5 & B6); try done.
  { congruence. }
  { congruence. }
  { intros f Hf. rewrite V1. by apply Hfresh. }
  destruct (ri_creator _ _ _ Hr2) as [ext Hc2].
  assert (is_Some (in_diris (fs_inst s2) !! d)) as Hsd by (apply (cv_member _ _ Hc2), (cv_current _ _ Hc2), Hcur).
  exists s3, d. rewrite <- app_comm_cons. cbn [fdb_lines]. rewrite E1. cbn [obind]. rewrite lines_app, E2. cbn [obind].
  assert (forall e, diri_at (fs_inst s3) e = diri_at (fs_inst s2) e) as Hat by (intros e; unfold diri_at; by rewrite B1).
  split_and!; try done.
  - by transitivity s2.
  - by rewrite V1 in Hr3.
  - intros e He. assert (e <> d) as Hne by (intros ->; rewrite Hnew in He; by destruct He). destruct (Hk2 e He) as (K1 & K2 & K3).
    rewrite B1, Hat, B5 by done. done.
  - rewrite B4. repeat split; simpl; [done | done |]. apply Permutation_nil_r in V3. by rewrite V3.
  - by rewrite B1.
  - by rewrite Hat.
  - intros e. rewrite B1. apply Hdom.
  - by rewrite B2, Hic.
  - intros f x Hx. destruct (B6 f x Hx) as [|Hx']; [by left | right]. by rewrite <- Hfi.
Qed.
End Lines.
