(* ===== verification/FdbPackage.v ===== *)
(** * Reading one package of the installed database (database.c)

    The fields of a package, its directories and the empty line that ends it. *)

From S2P Require Import Prelude Blob BlobCodec Digest Hash Dep Package PackageRules Dirs DirsFacts Catalog CatalogFacts CatalogSolver Installed InstalledFacts Owner Fdb FdbText FdbRead.

(** ** Names *)

(** Entering names changes nothing else. *)
Record names_grow (c c' : catalog) : Prop := {
  ng_inv : catalog_inv c -> catalog_inv c';
  ng_packages : db_packages c' = db_packages c;
  ng_pkgs : db_pkgs c' = db_pkgs c;
  ng_next : db_next c' = db_next c;
  ng_names : forall n, n ∈ dom (db_name c) -> n ∈ dom (db_name c');
}.

#[global] Instance names_grow_refl : Reflexive names_grow.
Proof. by intros c. Qed.
#[global] Instance names_grow_trans : Transitive names_grow.
Proof. intros a b c [] []. split; (congruence || auto). Qed.

Lemma name_hash_key (h : apk_hash bytes) n m : apk_hash_get h n = Some m -> hash_wf h -> m = n.
Proof.
  intros E Hw. rewrite apk_hash_get_items in E by done. apply head_Some_elem_of in E. unfold items_of in E.
  by apply list_elem_of_filter in E as [E _].
Qed.

Lemma get_name_grow n c : catalog_inv c -> names_grow c (apk_db_get_name n c) /\ n ∈ dom (db_name (apk_db_get_name n c)).
Proof.
  intros Hi. pose proof (get_name_inv n c Hi) as Hi'. pose proof (query_name_spec c n (ci_base _ Hi)) as Hq. unfold apk_db_query_name in Hq.
  unfold apk_db_get_name in *. change (apk_hash_get_hashed (db_names c) n _) with (apk_hash_get (db_names c) n) in *.
  destruct (apk_hash_get (db_names c) n) as [m|] eqn:E.
  - split; [done |]. apply Hq. f_equal. by apply name_hash_key in E; [| apply Hi].
  - split; [split; try done |]; simpl; rewrite dom_insert_L; set_solver.
Qed.

Lemma get_names_grow ns c :
  catalog_inv c -> names_grow c (each apk_db_get_name ns c) /\ forall n, n ∈ ns -> n ∈ dom (db_name (each apk_db_get_name ns c)).
Proof.
  revert c. induction ns as [|m ns IH]; intros c Hi; simpl; [split; [done | by intros n ?%elem_of_nil] |].
  destruct (get_name_grow m c Hi) as [H1 H2]. destruct (IH _ (ng_inv _ _ H1 Hi)) as [H3 H4].
  split; [by transitivity (apk_db_get_name m c) |]. intros n [->|Hn]%elem_of_cons; [by apply (ng_names _ _ H3) | auto].
Qed.

Section Package.
Context (simulate usermode : bool) (fs_result : list fs_call -> Z) (fnmatch : bytes -> bytes -> bool).
Context (force_old_apk : bool) (layer behind : Z).

Abbreviation line := (fdb_line simulate usermode fs_result fnmatch force_old_apk APK_REPO_DB_INSTALLED layer behind).
Abbreviation lines := (fdb_lines simulate usermode fs_result fnmatch force_old_apk APK_REPO_DB_INSTALLED layer behind).

(** ** Fields of the package *)

(** Only the template, which is [t] now, and the names changed. *)
Definition tmpl_phase (s s' : fdb_state) (t : pkg_tmpl) : Prop :=
  exists c, s' = set_fs_cat c (set_fs_tmpl t s) /\ names_grow (fs_cat s) c.

Lemma tmpl_phase_refl s : tmpl_phase s s (fs_tmpl s).
Proof. exists (fs_cat s). split; [by destruct s | done]. Qed.

Lemma tmpl_phase_trans s s1 s2 t1 t2 : tmpl_phase s s1 t1 -> tmpl_phase s1 s2 t2 -> tmpl_phase s s2 t2.
Proof. intros (c1 & -> & H1) (c2 & -> & H2). exists c2. split; [done |]. by transitivity c1. Qed.

Lemma tmpl_phase_tmpl s s' t : tmpl_phase s s' t -> fs_tmpl s' = t /\ fs_ipkg s' = fs_ipkg s /\ names_grow (fs_cat s) (fs_cat s').
Proof. by intros (c & -> & H). Qed.

(** The lines of the index. *)
Lemma read_plain_line s l t' :
  catalog_inv (fs_cat s) -> (2 <= length l)%nat -> index_line (pt_info (fs_tmpl s)) l = Ok (Some (0, t')) ->
  exists s', line l s = Ok (Go s') /\ tmpl_phase s s' (upd_info (fun _ => t') (fs_tmpl s))
    /\ forall c v n, l = c :: chr ":" :: v -> n ∈ line_names c v (t_repo_tags (pt_info (fs_tmpl s))) -> n ∈ dom (db_name (fs_cat s')).
Proof.
  intros Hi Hl Hx. destruct l as [|c [|c' v]]; [simpl in Hl; lia.. |]. unfold index_line in Hx. unfold fdb_line.
  destruct (negb (c' =? chr ":")) eqn:Ec; [done |]. destruct (apk_pkgtmpl_add_info _ c v) as [[r t1]|] eqn:Ea; [| done]. simpl in Hx. simplify_eq.
  set (ns := line_names c v _). destruct (get_names_grow ns (fs_cat s) Hi) as [Hg Hn].
  unfold fs_get_names. cbv zeta. cbn [fs_tmpl set_fs_cat obind Z.eqb].
  eexists. split; [done |]. split.
  - exists (each apk_db_get_name ns (fs_cat s)). split; [by destruct s | done].
  - intros c0 v0 n [= <- -> <-] H. by apply Hn.
Qed.

(** The name and the dependencies that lines enter into the table of names. *)
Definition mentioned (t : apk_package_tmpl) (c : catalog) : Prop :=
  (forall n, t_name t = Some n -> n ∈ dom (db_name c)) /\
  (forall d, d ∈ t_depends t ++ t_provides t ++ t_install_if t -> dep_name d ∈ dom (db_name c)).

Lemma mentioned_grow t c c' : names_grow c c' -> mentioned t c -> mentioned t c'.
Proof. intros Hg [H1 H2]. split; intros; apply (ng_names _ _ Hg); auto. Qed.

Lemma pull_deps_append fuel b tags allow after rc deps rc' tags' deps' pre :
  pull_deps_loop fuel b tags allow after rc deps = Some (rc', tags', deps') ->
  pull_deps_loop fuel b tags allow after rc (pre ++ deps) = Some (rc', tags', pre ++ deps').
Proof.
  revert b tags rc deps. induction fuel as [|fuel IH]; intros b tags rc deps; cbn [pull_deps_loop]; destruct (bdata b); try done; [by intros [= -> -> ->].. |].
  destruct (apk_blob_pull_dep b tags allow after) as [[[b'|] tg] [d|]]; try apply IH. rewrite <- app_assoc. apply IH.
Qed.

Lemma deps_names_in value t rc t' deps l :
  add_deps t value l = (rc, t', deps) -> forall d, d ∈ deps -> d ∈ l \/ dep_name d ∈ deps_names value (t_repo_tags t).
Proof.
  unfold add_deps, deps_names, apk_blob_pull_deps. intros H d Hd.
  destruct (pull_deps_total (Some value) (t_repo_tags t) false 0 []) as (rc0 & tg & ds & E). unfold apk_blob_pull_deps in E.
  rewrite E. pose proof (pull_deps_append _ _ _ _ _ _ _ _ _ _ l E) as E'. rewrite app_nil_r in E'. rewrite E' in H. simplify_eq.
  apply elem_of_app in Hd as [|]; [by left | right]. by apply list_elem_of_fmap_2.
Qed.
Definition tmpl_deps (t : apk_package_tmpl) : list apk_dependency := t_depends t ++ t_provides t ++ t_install_if t.

Lemma add_deps_same t value l rc t' deps :
  add_deps t value l = (rc, t', deps) -> t_name t' = t_name t /\ t_depends t' = t_depends t /\ t_provides t' = t_provides t /\ t_install_if t' = t_install_if t.
Proof. unfold add_deps. destruct (apk_blob_pull_deps _ _ _ _ _) as [[[? ?] ?]|]; by intros [= <- <- <-]. Qed.

Lemma add_info_mentions t c v r t' :
  apk_pkgtmpl_add_info t c v = Ok (r, t') ->
  (t_name t' = t_name t \/ t_name t' = Some v /\ v ∈ line_names c v (t_repo_tags t)) /\
  (forall d, d ∈ tmpl_deps t' -> d ∈ tmpl_deps t \/ dep_name d ∈ line_names c v (t_repo_tags t)).
Proof.
  intros H. assert (forall x, t_name x = t_name t -> tmpl_deps x = tmpl_deps t -> 
    (t_name x = t_name t \/ t_name x = Some v /\ v ∈ line_names c v (t_repo_tags t)) /\
    (forall d, d ∈ tmpl_deps x -> d ∈ tmpl_deps t \/ dep_name d ∈ line_names c v (t_repo_tags t))) as Hsame.
  { intros x H1 H2. rewrite H1, H2. split; [by left | by left]. }
  revert H. unfold apk_pkgtmpl_add_info. cbv zeta.
  destruct (c =? chr "P") eqn:EP.
  { intros [= <- <-]. split; [right; split; [done |]; unfold line_names; rewrite EP; by left | by left]. }
  do 5 (case_if; [intros [= <- <-]; by apply Hsame |]).
  destruct (c =? chr "D") eqn:ED.
  { destruct (add_deps t v (t_depends t)) as [[rc t1] deps] eqn:E. destruct (add_deps_same _ _ _ _ _ _ E) as (A1 & A2 & A3 & A4).
    pose proof (deps_names_in _ _ _ _ _ _ E) as Hd. bool_prop. subst c.
    case_if; intros [= <- <-]; (split; [by left |]); intros d; unfold tmpl_deps; simpl; rewrite A3, A4, !elem_of_app;
      (intros [Hin|[Hin|Hin]]; [| by auto..]); destruct (Hd d Hin); [by auto | by right | by auto | by right]. }
  destruct (c =? chr "C") eqn:EC.
  { destruct (apk_blob_pull_digest _ _) as [[b dg]|]; [| done]. cbn [obind]. intros [= <- <-]. by apply Hsame. }
  do 2 (case_if; [intros [= <- <-]; by apply Hsame |]).
  destruct (c =? chr "p") eqn:Ep.
  { destruct (add_deps t v (t_provides t)) as [[rc t1] deps] eqn:E. destruct (add_deps_same _ _ _ _ _ _ E) as (A1 & A2 & A3 & A4).
    pose proof (deps_names_in _ _ _ _ _ _ E) as Hd. bool_prop. subst c.
    case_if; intros [= <- <-]; (split; [by left |]); intros d; unfold tmpl_deps; simpl; rewrite A2, A4, !elem_of_app;
      (intros [Hin|[Hin|Hin]]; [by auto | | by auto]); destruct (Hd d Hin); [by auto | by right | by auto | by right]. }
  destruct (c =? chr "i") eqn:Ei.
  { destruct (add_deps t v (t_install_if t)) as [[rc t1] deps] eqn:E. destruct (add_deps_same _ _ _ _ _ _ E) as (A1 & A2 & A3 & A4).
    pose proof (deps_names_in _ _ _ _ _ _ E) as Hd. bool_prop. subst c.
    case_if; intros [= <- <-]; (split; [by left |]); intros d; unfold tmpl_deps; simpl; rewrite A2, A3, !elem_of_app.
    - intros [Hin|[Hin|Hin%elem_of_nil]]; by auto.
    - intros [Hin|[Hin|Hin]]; [by auto.. |]. destruct (Hd d Hin); [by auto | by right]. }
  do 5 (case_if; [intros [= <- <-]; by apply Hsame |]). case_if; [intros [= <- <-]; by apply Hsame |].
  intros [= <- <-]. by case_if; apply Hsame.
Qed.

Lemma read_plain_lines ls s t' :
  catalog_inv (fs_cat s) -> mentioned (pt_info (fs_tmpl s)) (fs_cat s) -> plain_lines (pt_info (fs_tmpl s)) ls = Ok (Some t') ->
  exists s', lines ls s = Ok (Go s') /\ tmpl_phase s s' (upd_info (fun _ => t') (fs_tmpl s)) /\ mentioned t' (fs_cat s').
Proof.
  revert s. induction ls as [|l ls IH]; intros s Hi Hm; cbn [plain_lines].
  { intros [= <-]. exists s. split_and!; [done | | done]. exists (fs_cat s). split; [by destruct s as [[] ? ? ? ? ? ? ? ? ?] | done]. }
  destruct (length l <? 2)%nat eqn:El; [done |]. apply Nat.ltb_ge in El. destruct (index_line _ l) as [[[r t1]|]|] eqn:Ex; cbn [obind]; try done.
  destruct (r =? 0) eqn:Er; [bool_prop; subst | done]. intros Hp.
  destruct (read_plain_line s l t1 Hi El Ex) as (s1 & E1 & Hph & Hn). destruct (tmpl_phase_tmpl _ _ _ Hph) as (Ht1 & _ & Hg).
  assert (mentioned t1 (fs_cat s1)) as Hm1.
  { destruct l as [|c [|c' v]]; [simpl in El; lia.. |]. unfold index_line in Ex. destruct (negb (c' =? chr ":")) eqn:Ec; [done |]. bool_prop. subst c'.
    destruct (apk_pkgtmpl_add_info _ c v) as [[r t2]|] eqn:Ea; [| done]. simpl in Ex. simplify_eq.
    destruct (add_info_mentions _ _ _ _ _ Ea) as [M1 M2]. destruct (mentioned_grow _ _ _ Hg Hm) as [G1 G2]. split.
    - intros n Hnm. destruct M1 as [M1|[M1 M3]]; [apply G1; congruence |]. rewrite M1 in Hnm. simplify_eq. by eapply Hn.
    - intros d Hd. destruct (M2 d Hd) as [|M3]; [by apply G2 | by eapply Hn]. }
  destruct (IH s1) as (s2 & E2 & Hph2 & Hm2); [by apply Hg | by rewrite Ht1 | by rewrite Ht1 |].
  exists s2. cbn [fdb_lines]. rewrite E1. cbn [obind]. split_and!; [done | | done]. rewrite Ht1 in Hph2.
  apply (tmpl_phase_trans _ s1 _ _ _ Hph Hph2).
Qed.
(** ** The installed package *)

Lemma words_cons w w' ws : words (w :: w' :: ws) = w ++ 32 :: words (w' :: ws).
Proof. done. Qed.

Lemma foreach_words w ws : Forall word_ok (w :: ws) -> apk_blob_foreach_word (Some (words (w :: ws))) = w :: ws.
Proof.
  intros Hw. unfold apk_blob_foreach_word. rewrite apk_blob_foreach_token_fields. unfold fields_of.
  assert (split_on 32 (words (w :: ws)) = w :: ws) as ->.
  { revert w Hw. induction ws as [|w' ws IH]; intros w Hw; apply Forall_cons in Hw as [(_ & Hw1 & _) Hw].
    - by apply split_on_none.
    - rewrite words_cons, split_on_app by done. f_equal. by apply IH. }
  apply list_filter_all. rewrite Forall_forall in Hw. intros x Hx. by apply Hw.
Qed.

Lemma tmpl_line s t : tmpl_phase s (set_fs_tmpl t s) t.
Proof. exists (fs_cat s). split; [by destruct s | done]. Qed.

Lemma read_tags s :
  fs_ipkg s = true -> pt_tags (fs_tmpl s) = [] -> forall ws, Forall word_ok ws ->
  exists s', lines (tags_lines ws) s = Ok (Go s') /\ tmpl_phase s s' (set_pt_tags ws (fs_tmpl s)).
Proof.
  intros Hip Ht [|w ws] Hw.
  { exists s. split; [done |]. exists (fs_cat s). split; [| done]. destruct s as [[] ? ? ? ? ? ? ? ? ?]. simpl in *. by subst. }
  unfold tags_lines. cbn [fdb_lines app]. rewrite line_field by set_solver. rewrite started_true by done. unfold fdb_field.
  cbn -[apk_blob_foreach_word words]. rewrite foreach_words by done. eexists. split; [done |]. rewrite Ht. apply tmpl_line.
Qed.

Lemma read_replaces s ip ds :
  catalog_inv (fs_cat s) -> fs_ipkg s = true -> pt_ipkg (fs_tmpl s) = Some ip -> ip_replaces ip = [] -> deps_ok ds ->
  exists s', lines (deps_lines (lit "r:") ds) s = Ok (Go s') /\ tmpl_phase s s' (upd_ipkg (set_ip_replaces ds) (fs_tmpl s)).
Proof.
  intros Hi Hip Hp Hr Hd. destruct ds as [|d ds].
  { exists s. split; [done |]. exists (fs_cat s). split; [| done]. destruct s as [[] ? ? ? ? ? ? ? ? ?], ip. simpl in *. by subst. }
  unfold deps_lines. set (l := d :: ds) in *. cbn [fdb_lines app]. rewrite line_field by set_solver. rewrite started_true by done. unfold fdb_field.
  cbn -[apk_blob_pull_deps deps_text fs_get_names]. unfold fs_get_names. cbn [fs_tmpl set_fs_cat]. rewrite Hp, Hr.
  unfold apk_blob_pull_deps. rewrite pull_deps_text; [| done | simpl; lia]. cbn [obind Z.eqb app].
  set (ns := deps_names _ _). destruct (get_names_grow ns (fs_cat s) Hi) as [Hg _]. eexists. split; [done |].
  exists (each apk_db_get_name ns (fs_cat s)). split; [| done]. destruct s as [[[]] ? ? ? ? ? ? ? ? ?]. done.
Qed.

Lemma read_priority s ip v :
  fs_ipkg s = true -> pt_ipkg (fs_tmpl s) = Some ip -> ip_replaces_priority ip = 0 -> 0 <= v < 2 ^ 16 ->
  exists s', lines (opt_num_line (lit "q:") v) s = Ok (Go s') /\ tmpl_phase s s' (upd_ipkg (set_ip_replaces_priority v) (fs_tmpl s)).
Proof.
  intros Hip Hp H0 Hv. unfold opt_num_line. destruct (v =? 0) eqn:E; bool_prop.
  { exists s. split; [done |]. exists (fs_cat s). split; [| done]. destruct s as [[] ? ? ? ? ? ? ? ? ?], ip. simpl in *. by subst. }
  cbn [fdb_lines app]. rewrite line_field by set_solver. rewrite started_true by done. unfold fdb_field. cbn -[apk_blob_pull_uint uint_text].
  pose proof (uint_pull v 10 [] ltac:(lia) ltac:(lia) eq_refl) as Hu. rewrite app_nil_r in Hu. rewrite Hu. cbn [obind].
  unfold u16. rewrite Z.mod_small by lia. eexists. split; [done |]. apply tmpl_line.
Qed.

Lemma read_tag s ip tags z :
  fs_ipkg s = true -> pt_ipkg (fs_tmpl s) = Some ip -> ip_repository_tag ip = 0 -> t_repo_tags (pt_info (fs_tmpl s)) = tags ->
  (z = 0 \/ 0 < z < Z.of_nat APK_MAX_TAGS
       /\ exists t c, tags !! Z.to_nat z = Some t /\ text_ok (tag_plain t)
          /\ head (tag_plain t) = Some c /\ c <> chr "@" /\ find_tag tag_plain (tag_plain t) (tail tags) 1 = Some z) ->
  exists s', lines (if z =? 0 then [] else [lit "s:" ++ default [] (tag_plain <$> tags !! Z.to_nat z)]) s = Ok (Go s')
    /\ tmpl_phase s s' (upd_ipkg (set_ip_repository_tag z) (fs_tmpl s)).
Proof.
  intros Hip Hp H0 Htags Hz. destruct (z =? 0) eqn:E; bool_prop.
  { exists s. split; [done |]. exists (fs_cat s). split; [| done]. destruct s as [[] ? ? ? ? ? ? ? ? ?], ip. simpl in *. by subst. }
  destruct Hz as [|(Hz & t & c & Ht & _ & Hc & Hne & Hfind)]; [done |]. rewrite Ht. cbn [default fmap option_fmap option_map fdb_lines app].
  rewrite line_field by set_solver. rewrite started_true by done. unfold fdb_field. cbn -[apk_db_get_tag_id].
  assert (apk_db_get_tag_id (t_repo_tags (pt_info (fs_tmpl s))) (tag_plain t) behind = (z, tags)) as ->.
  { unfold apk_db_get_tag_id. rewrite Htags. destruct (tag_plain t) as [|c' w] eqn:Ep; [done |]. simpl in Hc. simplify_eq. cbn [nth].
    rewrite (proj2 (Z.eqb_neq _ _)) by done. by rewrite Hfind. }
  assert (Z.land z 63 = z) as ->.
  { change 63 with (Z.ones 6). rewrite Z.land_ones by lia. apply Z.mod_small. unfold APK_MAX_TAGS in Hz. lia. }
  cbn [obind]. eexists. split; [done |]. exists (fs_cat s). split; [| done]. destruct s as [[[]] ? ? ? ? ? ? ? ? ?]. simpl in *. by subst.
Qed.

Definition set_flags (ip : apk_installed_package) (x : apk_installed_package) : apk_installed_package :=
  set_ip_sha256_160 (ip_sha256_160 ip) (set_ip_broken_xattr (ip_broken_xattr ip)
    (set_ip_broken_script (ip_broken_script ip) (set_ip_broken_files (ip_broken_files ip) x))).

Lemma read_flags s ip x :
  fs_ipkg s = true -> pt_ipkg (fs_tmpl s) = Some x ->
  (ip_broken_files x = false /\ ip_broken_script x = false /\ ip_broken_xattr x = false /\ ip_sha256_160 x = false) ->
  exists s', lines (opt_line (lit "f:") (flags_text ip)) s = Ok (Go s') /\ tmpl_phase s s' (upd_ipkg (set_flags ip) (fs_tmpl s)).
Proof.
  intros Hip Hp (H1 & H2 & H3 & H4). unfold opt_line. destruct (length (flags_text ip) =? 0)%nat eqn:E.
  { exists s. split; [done |]. exists (fs_cat s). split; [| done]. pose proof (flags_some ip) as Hf. rewrite E in Hf. simpl in Hf. bool_prop.
    destruct s as [[] ? ? ? ? ? ? ? ? ?], x, ip. simpl in *. by subst. }
  cbn [fdb_lines app]. rewrite line_field by set_solver. rewrite started_true by done. unfold fdb_field. cbn -[fdb_flags flags_text]. rewrite Hp.
  assert (fdb_flags force_old_apk (flags_text ip) x = (true, set_flags ip x)) as ->.
  { unfold flags_text, set_flags. destruct x. simpl in *. subst.
    by destruct (ip_broken_files ip), (ip_broken_script ip), (ip_broken_xattr ip), (ip_sha256_160 ip). }
  cbn [obind]. eexists. split; [done |]. exists (fs_cat s). split; [| done]. destruct s as [[] ? ? ? ? ? ? ? ? ?]. simpl in *. by subst.
Qed.

(** All fields of the installed package, from the fresh one. *)
Lemma read_ipkg_lines s ip tags :
  catalog_inv (fs_cat s) -> fs_ipkg s = true -> pt_ipkg (fs_tmpl s) = Some ipkg0 -> t_repo_tags (pt_info (fs_tmpl s)) = tags -> ipkg_ok tags ip ->
  exists s', lines (ipkg_lines tags ip) s = Ok (Go s') /\ tmpl_phase s s' (upd_ipkg (fun _ => ip) (fs_tmpl s)).
Proof.
  intros Hi Hip Hp Ht [I1 I2 I3 I4]. unfold ipkg_lines.
  destruct (read_replaces s ipkg0 (ip_replaces ip)) as (s1 & E1 & P1); try done. destruct (tmpl_phase_tmpl _ _ _ P1) as (T1 & F1 & G1).
  destruct (read_priority s1 (set_ip_replaces (ip_replaces ip) ipkg0) (ip_replaces_priority ip)) as (s2 & E2 & P2); try done; [congruence | by rewrite T1; simpl; rewrite Hp |].
  destruct (tmpl_phase_tmpl _ _ _ P2) as (T2 & F2 & G2). rewrite T1 in T2.
  destruct (read_tag s2 (set_ip_replaces_priority (ip_replaces_priority ip) (set_ip_replaces (ip_replaces ip) ipkg0)) tags (ip_repository_tag ip))
    as (s3 & E3 & P3); try done; [congruence | by rewrite T2; simpl; rewrite Hp | by rewrite T2 |].
  destruct (tmpl_phase_tmpl _ _ _ P3) as (T3 & F3 & G3). rewrite T2 in T3.
  destruct (read_flags s3 ip (set_ip_repository_tag (ip_repository_tag ip) (set_ip_replaces_priority (ip_replaces_priority ip) (set_ip_replaces (ip_replaces ip) ipkg0))))
    as (s4 & E4 & P4); try done; [congruence | by rewrite T3; simpl; rewrite Hp |].
  exists s4. rewrite lines_app, E1. cbn [obind]. rewrite lines_app, E2. cbn [obind]. rewrite lines_app, E3. cbn [obind]. split; [done |].
  pose proof (tmpl_phase_trans _ _ _ _ _ (tmpl_phase_trans _ _ _ _ _ (tmpl_phase_trans _ _ _ _ _ P1 P2) P3) P4) as P.
  assert (upd_ipkg (fun _ => ip) (fs_tmpl s) = upd_ipkg (set_flags ip) (fs_tmpl s3)) as ->; [| done].
  rewrite T3. destruct (fs_tmpl s). simpl in *. subst. unfold upd_ipkg. simpl. do 2 f_equal. destruct ip. simpl in *. by subst.
Qed.
End Package.
