(* ===== verification/FdbRoundTrip.v ===== *)
(** * Writing and reading the installed database (database.c)

    The directories of a package, the empty line that ends it and the packages one after the
    other: what [apk_db_fdb_write] writes, [apk_db_fdb_read] reads back. *)

From S2P Require Import Prelude Blob BlobCodec Digest Hash Dep Package PackageRules Dirs DirsFacts Catalog CatalogFacts CatalogSolver Installed InstalledFacts Owner Fdb FdbText FdbRead FdbPackage.

(** ** A package with a new digest *)

Lemma pkg_add_new t name version ip db :
  catalog_inv db -> t_name (pt_info t) = Some name -> t_version (pt_info t) = Some version ->
  (forall n, n ∈ tmpl_mentions t -> n ∈ dom (db_name db)) -> (APK_DIGEST_LENGTH_SHA1 <= d_len (t_id (pt_info t)))%nat ->
  pt_repos t = 0 -> pt_ipkg t = Some ip ->
  (forall a q, db_pkgs db !! a = Some q -> apk_pkg_hash_blob q <> take APK_DIGEST_LENGTH_SHA1 (d_data (t_id (pt_info t)))) ->
  let p := set_pkg_ipkg (Some ip) (pkg_from_tmpl (db_next db) t name version
             (t_uninstallable (pt_info t) || negb (apk_db_arch_compatible db (t_arch (pt_info t))))) in
  exists db', apk_db_pkg_add t db = (Some (db_next db), pkg_tmpl_reset t, db')
    /\ apk_hash_get (db_packages db) (take APK_DIGEST_LENGTH_SHA1 (d_data (t_id (pt_info t)))) = None
    /\ catalog_inv db' /\ db_pkgs db' = <[db_next db := p]> (db_pkgs db) /\ db_pkgs db !! db_next db = None.
Proof.
  intros Hi Hname Hver Hm Hlen Hrepos Hip Hnew p. set (k := take APK_DIGEST_LENGTH_SHA1 _) in *.
  assert (apk_hash_get (db_packages db) k = None) as Hk.
  { destruct (apk_hash_get (db_packages db) k) as [it|] eqn:E; [| done]. destruct (bi_item _ (ci_base _ Hi) _ _ E) as (q & Hq & Hk).
    by destruct (Hnew _ _ Hq). }
  assert (db_pkgs db !! db_next db = None) as Hfree.
  { destruct (db_pkgs db !! db_next db) as [q|] eqn:E; [| done]. destruct (bi_addr _ (ci_base _ Hi) _ _ E). lia. }
  unfold apk_db_pkg_add. rewrite Hname, Hver, (proj2 (Nat.ltb_ge _ _)) by done. cbv zeta. fold k. rewrite Hk. cbn [mbind option_bind].
  set (q := pkg_from_tmpl (db_next db) t name version _).
  destruct (insert_package_inv q db) as (Hi' & Hp & Hd); [done | done | | |].
  { unfold q. by rewrite tmpl_key. }
  { intros n Hn. apply Hm. revert Hn. unfold mentions, tmpl_mentions. by rewrite Hname. }
  assert (pkg_repos q = 0) as -> by done. cbn [Z.eqb negb andb]. assert (pkg_ipkg q = None) as -> by done. rewrite Hip.
  set (db1 := put_pkg (set_pkg_ipkg (Some ip) q) (insert_package q db)).
  assert (catalog_inv db1) as Hi1 by (apply (put_pkg_catalog_inv q); [done | by rewrite Hp; apply lookup_insert_eq | done]).
  eexists. split; [done |]. split_and!; try done.
  - apply catalog_inv_installed; [| done]. intros a (r & Hr & Hin)%list_elem_of_fmap. destruct r as [a'|]; simplify_eq.
    + by apply (bi_installed _ (ci_base _ Hi1)).
    + unfold db1. simpl. by rewrite lookup_insert_eq.
  - unfold db1. simpl. rewrite Hp. by apply insert_insert_eq.
Qed.

(** ** The instances of a finished package *)

Lemma each_link_objects l db :
  in_diris (each link_diri l db) = in_diris db /\ in_files (each link_diri l db) = in_files db.
Proof. revert db. induction l as [|x l IH]; intros db; simpl; [done |]. by destruct (IH (link_diri x db)) as [-> ->]. Qed.

Lemma link_soft limit ok l db : soft_dirs limit ok (in_dirs db) -> soft_dirs limit ok (in_dirs (each link_diri l db)).
Proof.
  revert db. induction l as [|x l IH]; intros db Hs; simpl; [done |]. apply IH. simpl. apply soft_upd; [done |]. simpl. apply Hs.
Qed.

Lemma commit_files_dom db e : is_Some (in_diris (apk_db_ipkg_commit_files db) !! e) -> is_Some (in_diris db !! e) \/ ic_diri (in_ic db) = Some e.
Proof.
  unfold apk_db_ipkg_commit_files. destruct (ic_diri (in_ic db)) as [d|]; simpl; [| by left].
  destruct (decide (e = d)) as [->|]; [by right |]. rewrite lookup_insert_ne by done. by left.
Qed.

Lemma ipkg_commit_more ext limit ok db :
  creator_inv ext db -> soft_dirs limit ok (in_dirs db) ->
  let '(_, db') := apk_db_ipkg_commit db in
  soft_dirs limit ok (in_dirs db') /\ forall e, is_Some (in_diris db' !! e) -> is_Some (in_diris db !! e).
Proof.
  intros Hi Hs. unfold apk_db_ipkg_commit. change (each (fun diri db => set_in_dirs _ db)) with (each link_diri).
  set (db1 := apk_db_ipkg_commit_files db). split.
  - change (in_dirs (apk_db_ipkg_creator_reset ?x)) with (in_dirs x). apply link_soft. unfold db1. by rewrite commit_files_dirs.
  - intros e. change (in_diris (apk_db_ipkg_creator_reset ?x)) with (in_diris x). rewrite (proj1 (each_link_objects _ _)).
    intros [|Hd]%commit_files_dom; [done |]. by apply (cv_member _ _ Hi), (cv_current _ _ Hi).
Qed.

Abbreviation point_to r := (each (fun d => upd_diri d (set_di_pkg r))).

Lemma point_to_spec ext r ds db :
  creator_inv ext db -> (forall d, d ∈ ds -> is_Some (in_diris db !! d)) ->
  let db' := point_to r ds db in
  attributes ext db db' /\ in_files db' = in_files db /\ in_dirs db' = in_dirs db
  /\ (forall e, is_Some (in_diris db' !! e) <-> is_Some (in_diris db !! e))
  /\ (forall e, di_acl (diri_at db' e) = di_acl (diri_at db e))
  /\ (forall e, di_pkg (diri_at db' e) = if decide (e ∈ ds) then r else di_pkg (diri_at db e)).
Proof.
  revert db. induction ds as [|d ds IH]; intros db Hi Hd; simpl.
  { split_and!; try done. split; try done; apply Hi. }
  destruct (Hd d ltac:(by left)) as [di Hdi]. set (db1 := upd_diri d (set_di_pkg r) db).
  assert (attributes ext db db1) as Ha.
  { split; try done; try apply Hi. intros e. simpl. destruct (decide (e = d)) as [->|]; [| by rewrite lookup_insert_ne].
    rewrite lookup_insert_eq. unfold diri_at. by rewrite Hdi. }
  assert (forall e, is_Some (in_diris db1 !! e) <-> is_Some (in_diris db !! e)) as Hdom.
  { intros e. simpl. destruct (decide (e = d)) as [->|]; [by rewrite lookup_insert_eq, Hdi | by rewrite lookup_insert_ne]. }
  assert (forall e, diri_at db1 e = if decide (e = d) then set_di_pkg r (diri_at db d) else diri_at db e) as Hat.
  { intros e. unfold diri_at at 1. simpl. case_decide; [subst; by rewrite lookup_insert_eq | by rewrite lookup_insert_ne]. }
  destruct (IH db1) as (B1 & B2 & B3 & B4 & B5 & B6).
  { by apply (attributes_inv ext db). }
  { intros e He. apply Hdom, Hd. by right. }
  split_and!; [by apply (attributes_trans ext _ db1) | done | done | intros e; by rewrite B4 | |].
  - intros e. rewrite B5, Hat. case_decide; [by subst | done].
  - intros e. rewrite B6, Hat. destruct (decide (e ∈ ds)); [by rewrite decide_True by (by right) |].
    destruct (decide (e = d)) as [->|]; [by rewrite decide_True by (by left) |]. rewrite decide_False; [done |]. by intros [|]%elem_of_cons.
Qed.

Lemma reading_keys limit keys keys' s : (forall k, k ∈ keys -> k ∈ keys') -> reading limit keys s -> reading limit keys' s.
Proof. intros Hk []. split; eauto. Qed.

Lemma idle_view db d : idle db -> view_now db d = diri_view db d.
Proof. intros (H & _). unfold view_now, diri_view, files_of. by rewrite H. Qed.

Definition rec_keys (rs : list dir_rec) : list (bytes * bytes) := r ← rs; (fun f => (dr_name r, fr_name f)) <$> dr_files r.

Lemma rec_keys_elem rs k : k ∈ rec_keys rs <-> exists r f, r ∈ rs /\ f ∈ dr_files r /\ k = (dr_name r, fr_name f).
Proof.
  unfold rec_keys. rewrite list_elem_of_bind. setoid_rewrite list_elem_of_fmap. split.
  - intros (r & (f & -> & Hf) & Hr). eauto.
  - intros (r & f & Hr & Hf & ->). eauto.
Qed.

Section RoundTrip.
Context (simulate usermode : bool) (fs_result : list fs_call -> Z) (fnmatch : bytes -> bytes -> bool).
Context (force_old_apk : bool) (layer behind : Z).

Abbreviation line := (fdb_line simulate usermode fs_result fnmatch force_old_apk APK_REPO_DB_INSTALLED layer behind).
Abbreviation lines := (fdb_lines simulate usermode fs_result fnmatch force_old_apk APK_REPO_DB_INSTALLED layer behind).
Abbreviation end_package := (fdb_end_package simulate usermode fs_result APK_REPO_DB_INSTALLED layer).

(** ** The directories of a package *)

(** The instances [ds], which are new, stand for the directories [rs]. *)
Definition entered (db db' : inst_db) (ds : list nat) (rs : list dir_rec) : Prop :=
  Forall2 (fun d r => drec_eq (view_now db' d) r /\ is_Some (in_diris db' !! d) /\ in_diris db !! d = None
                      /\ di_pkg (diri_at db' d) = Pkg_tmpl) ds rs
  /\ (forall e, is_Some (in_diris db' !! e) -> e ∈ ds \/ is_Some (in_diris db !! e)).

Lemma read_dirs_lines limit keys s tname ip rs :
  1 <= limit -> limit + Z.of_nat (length rs) < 2 ^ 16 -> reading limit keys s -> known_diri s -> fs_ipkg s = true ->
  pt_ipkg (fs_tmpl s) = Some ip -> t_name (pt_info (fs_tmpl s)) = Some tname ->
  (forall r e, r ∈ rs -> ~ has_diri (fs_inst s) (dr_name r) e) -> Forall (dir_rec_ok (ip_sha256_160 ip)) rs ->
  NoDup (dr_name <$> rs) -> Forall (fun r => NoDup (fr_name <$> dr_files r)) rs -> (forall k, k ∈ rec_keys rs -> k ∉ keys) ->
  exists s' ds, lines (rs ≫= dir_lines) s = Ok (Go s')
    /\ frame s s' /\ known_diri s' /\ reading (limit + Z.of_nat (length rs)) (rec_keys rs ++ keys) s'
    /\ keeps (fs_inst s) (fs_inst s') /\ entered (fs_inst s) (fs_inst s') ds rs
    /\ ic_diris (in_ic (fs_inst s')) ≡ₚ ds ++ ic_diris (in_ic (fs_inst s))
    /\ (forall f x, in_files (fs_inst s') !! f = Some x -> f_audited x = false \/ in_files (fs_inst s) !! f = Some x).
Proof.
  revert limit keys s. induction rs as [|r rs IH]; intros limit keys s Hl1 Hl2 Hr Hkn Hip Hipkg Hname Hnone Hok Hnd Hfnd Hfresh.
  { exists s, []. split_and!; try done; [simpl; by rewrite Z.add_0_r | | auto]. split; [constructor | auto]. }
  apply Forall_cons in Hok as [Hok1 Hok], Hfnd as [Hf1 Hfnd]. rewrite fmap_cons in Hnd. apply NoDup_cons in Hnd as [Hn1 Hnd]. simpl length in Hl2.
  destruct (read_dir_lines simulate usermode fs_result fnmatch force_old_apk layer behind limit keys s tname ip r)
    as (s1 & d & E1 & Hfr & Hd & Hr1 & Hk1 & Hv & Hsd & Hnew & Hpk & Hdom & Hic & Hau); try done.
  { lia. }
  { intros e. apply Hnone. by left. }
  { intros f Hf. apply Hfresh. apply rec_keys_elem. exists r, f. by rewrite elem_of_cons; auto. }
  destruct Hfr as (F1 & F2 & F3 & F4). destruct (ri_creator _ _ _ Hr) as [ext Hc].
  destruct (IH (limit + 1) (((fun f => (dr_name r, fr_name f)) <$> reverse (dr_files r)) ++ keys) s1)
    as (s2 & ds & E2 & Hfr2 & Hkn2 & Hr2 & Hk2 & [Hall Hdom2] & Hic2 & Hau2); try done.
  { lia. }
  { lia. }
  { intros e. rewrite Hd. by intros [= <-]. }
  { congruence. }
  { congruence. }
  { congruence. }
  { intros r' e Hr' [He Hn]. rewrite Hic in He. apply elem_of_cons in He as [->|He].
    - destruct Hv as [Hv _]. apply Hn1. change (dr_name r) with (dr_name r) in Hv. simpl in Hv. rewrite <- Hv, Hn. by apply list_elem_of_fmap_2.
    - destruct (Hk1 e) as (_ & [Hname' _] & _); [by apply (cv_member _ _ Hc) |]. simpl in Hname'. apply (Hnone r' e); [by right |].
      split; [done | congruence]. }
  { intros k (r' & f & Hr' & Hf & ->)%rec_keys_elem. rewrite not_elem_of_app. split.
    - intros (f' & [= Heq _] & _)%list_elem_of_fmap. apply Hn1. rewrite <- Heq. by apply list_elem_of_fmap_2.
    - apply Hfresh. apply rec_keys_elem. exists r', f. by rewrite elem_of_cons; auto. }
  exists s2, (d :: ds). rewrite bind_cons, lines_app, E1. cbn [obind]. split_and!; try done.
  - transitivity s1; [by split_and! | done].
  - replace (limit + Z.of_nat (length (r :: rs))) with (limit + 1 + Z.of_nat (length rs)) by (simpl length; lia).
    eapply reading_keys; [| exact Hr2]. intros k. unfold rec_keys. rewrite bind_cons. rewrite !elem_of_app, fmap_reverse, elem_of_reverse. tauto.
  - by transitivity (fs_inst s1).
  - split.
    + constructor.
      * destruct (Hk2 d Hsd) as (K1 & K2 & K3). split_and!; [by transitivity (view_now (fs_inst s1) d) | done | done | congruence].
      * eapply Forall2_impl; [exact Hall |]. intros e r' (A1 & A2 & A3 & A4). split_and!; [done | done | | done].
        destruct (in_diris (fs_inst s) !! e) eqn:E; [| done]. destruct (Hk1 e) as ([? Hx] & _); [by rewrite E |]. congruence.
    + intros e He. destruct (Hdom2 e He) as [|He1]; [left; by right |]. destruct (Hdom e He1) as [->|]; [left; by left | by right].
  - rewrite Hic2, Hic. simpl. by rewrite Permutation_middle.
  - intros f x Hx. destruct (Hau2 f x Hx) as [|Hx1]; [by left | by apply Hau].
Qed.

(** ** The end of a package *)

(** The template can be entered as a new package. *)
Record enterable (t : pkg_tmpl) (name version : bytes) (ip : apk_installed_package) (c : catalog) : Prop := {
  en_name : t_name (pt_info t) = Some name;
  en_version : t_version (pt_info t) = Some version;
  en_mentions : forall n, n ∈ tmpl_mentions t -> n ∈ dom (db_name c);
  en_digest : (APK_DIGEST_LENGTH_SHA1 <= d_len (t_id (pt_info t)))%nat;
  en_repos : pt_repos t = 0;
  en_ipkg : pt_ipkg t = Some ip;
  en_new : forall a q, db_pkgs c !! a = Some q -> apk_pkg_hash_blob q <> take APK_DIGEST_LENGTH_SHA1 (d_data (t_id (pt_info t)));
}.

Definition fresh_tmpl (tags : repo_tags) : pkg_tmpl := mk_ptmpl (apk_pkgtmpl_reset tags) [] [] 0 0 false layer None.

(** The state between two packages. *)
Record ready (tags : repo_tags) (limit : Z) (keys : list (bytes * bytes)) (s : fdb_state) : Prop := {
  rd_reading : reading limit keys s;
  rd_cat : catalog_inv (fs_cat s);
  rd_tmpl : fs_tmpl s = fresh_tmpl tags;
  rd_ipkg : fs_ipkg s = false;
  rd_diri : fs_diri s = None;
  rd_idle : idle (fs_inst s);
  rd_diris : ic_diris (in_ic (fs_inst s)) = [];
}.

(** Nothing is lost, and all files are stored with their instances. *)
Definition stored (db db' : inst_db) : Prop :=
  forall e, is_Some (in_diris db !! e) -> is_Some (in_diris db' !! e) /\ drec_eq (diri_view db' e) (view_now db e).

Definition entered_pkg (t : pkg_tmpl) (name version : bytes) (ip : apk_installed_package) (c : catalog) : apk_package :=
  set_pkg_ipkg (Some ip) (pkg_from_tmpl (db_next c) t name version
    (t_uninstallable (pt_info t) || negb (apk_db_arch_compatible c (t_arch (pt_info t))))).

Lemma keeps_stored db db1 db2 : keeps db db1 -> stored db1 db2 -> stored db db2.
Proof.
  intros Hk Hs e He. destruct (Hk e He) as (K1 & K2 & _). destruct (Hs e K1) as [S1 S2]. split; [done |]. by transitivity (view_now db1 e).
Qed.

Lemma end_package_spec limit keys s name version ip tags :
  reading limit keys s -> known_diri s -> fs_ipkg s = true -> catalog_inv (fs_cat s) -> t_repo_tags (pt_info (fs_tmpl s)) = tags ->
  enterable (fs_tmpl s) name version ip (fs_cat s) ->
  (forall e, is_Some (in_diris (fs_inst s) !! e) -> e ∈ ic_diris (in_ic (fs_inst s)) \/ exists a, di_pkg (diri_at (fs_inst s) e) = Pkg_at a) ->
  let a := db_next (fs_cat s) in
  exists s', end_package s = Ok (Go s') /\ ready tags limit keys s' /\ stored (fs_inst s) (fs_inst s')
    /\ db_pkgs (fs_cat s) !! a = None
    /\ db_pkgs (fs_cat s') = <[a := entered_pkg (fs_tmpl s) name version ip (fs_cat s)]> (db_pkgs (fs_cat s))
    /\ fs_diris s' = <[a := ic_diris (in_ic (fs_inst s))]> (fs_diris s)
    /\ in_files (fs_inst s') = in_files (fs_inst s).
Proof.
  intros Hr Hkn Hip Hcat Htags He Howned a. pose proof He as [En Ev Em Ed Er Ei Enew].
  unfold fdb_end_package. rewrite En. destruct (apply_spec simulate usermode fs_result limit keys s Hr Hkn) as (db1 & -> & Hr1 & Hk1 & I1 & I2 & I3 & I4).
  cbn [obind]. cbn [fs_ipkg set_fs_inst]. rewrite Hip. cbn [negb andb Z.leb Z.compare Z.eqb]. rewrite !andb_false_r. cbv iota.
  change (APK_REPO_DB_INSTALLED =? APK_REPO_CACHE_INSTALLED) with false. change (0 <=? APK_REPO_DB_INSTALLED) with false. cbv iota.
  cbn [fs_ipkg set_fs_inst]. rewrite Hip. unfold fs_ipkg_commit. cbn [fs_inst set_fs_inst].
  destruct (ri_creator _ _ _ Hr1) as [ext Hc1]. pose proof (ri_soft _ _ _ Hr1) as Hsoft. cbn [fs_inst set_fs_inst] in Hc1, Hsoft.
  pose proof (ipkg_commit_spec ext db1 Hc1) as Hcs. pose proof (ipkg_commit_more ext _ _ db1 Hc1 Hsoft) as Hcm.
  destruct (apk_db_ipkg_commit db1) as [diris db2]. destruct Hcs as (Hc2 & Hid2 & -> & Hic2 & Hkept), Hcm as [Hsoft2 Hdom2].
  rewrite I3 in *. set (ds := ic_diris (in_ic (fs_inst s))) in *.
  assert (forall d, d ∈ ds -> is_Some (in_diris db2 !! d)) as Hds.
  { intros d Hd. apply (kp_dom _ _ Hkept). apply (cv_member _ _ Hc1). by rewrite I3. }
  unfold fs_pkg_add. cbn [fs_tmpl fs_cat set_fs_ipkg_diris set_fs_inst].
  destruct (pkg_add_new (fs_tmpl s) name version ip (fs_cat s)) as (c' & Hadd & Hget & Hcat' & Hpkgs & Hfree); try done.
  rewrite Hget, Hadd, Ei. cbn [fmap option_fmap option_map mbind option_bind negb]. cbv iota zeta.
  destruct (point_to_spec ext (Pkg_at a) ds db2 Hc2 Hds) as (Pa & Pf & Pd & Pdom & Pacl & Ppkg).
  set (db3 := point_to (Pkg_at a) ds db2) in *. destruct (attributes_names _ _ _ Pa) as (N1 & N2 & N3).
  assert (stored (fs_inst s) db3) as Hst.
  { apply (keeps_stored _ db2); [transitivity db1; [done | by apply kept_keeps] |]. intros e Hx. split; [by apply Pdom |].
    rewrite <- idle_view by (unfold idle; by rewrite (at_ic _ _ _ Pa)). unfold view_now, file_view, file_at. rewrite N1, N3, Pacl, Pf. done. }
  eexists. split; [done |]. split; [| split_and!; try done; simpl].
  2:{ change (in_files db3 = in_files (fs_inst s)). by rewrite Pf, (kp_files _ _ Hkept), I2. }
  split; simpl; try done.
  2:{ unfold fresh_tmpl, pkg_tmpl_reset, set_pt_layer. simpl. by rewrite Htags. }
  2:{ change (idle db3). unfold idle. by rewrite (at_ic _ _ _ Pa). }
  2:{ change (ic_diris (in_ic db3) = []). by rewrite (at_ic _ _ _ Pa). }
  change (each _ ds db2) with db3. split; simpl.
  - change (exists ext, creator_inv ext db3). exists ext. by apply (attributes_inv ext db2).
  - change (soft_dirs limit (owner_known db3) (in_dirs db3)). rewrite Pd. eapply soft_mono; [reflexivity | | exact Hsoft2].
    intros [o|]; [| done]. simpl. intros Ho. apply Pdom. by apply (kp_dom _ _ Hkept).
  - change (forall d, is_Some (in_diris db3 !! d) -> exists p, match di_pkg (diri_at db3 d) with Pkg_null => None | Pkg_tmpl => Some (tmpl_pkg (set_pt_layer layer (pkg_tmpl_reset (fs_tmpl s)))) | Pkg_at a0 => db_pkgs c' !! a0 end = Some p /\ is_Some (pkg_ipkg p)).
    intros d Hd%Pdom. assert (is_Some (in_diris db1 !! d)) as Hd1 by (by apply Hdom2). rewrite Ppkg, Hpkgs. case_decide as Hin.
    + exists (entered_pkg (fs_tmpl s) name version ip (fs_cat s)). split; [apply lookup_insert_eq | done].
    + rewrite (kp_pkg _ _ Hkept d Hd1). assert (diri_at db1 d = diri_at (fs_inst s) d) as -> by (unfold diri_at; by rewrite I1). rewrite I1 in Hd1.
      destruct (Howned d Hd1) as [|[b Hb]]; [done |]. destruct (ri_pkg _ _ _ Hr d Hd1) as (p & Hp & Hpi). rewrite Hb in *. simpl in Hp.
      exists p. split; [| done]. rewrite lookup_insert_ne; [done |]. intros <-. by rewrite Hfree in Hp.
  - change (forall f x, in_files db3 !! f = Some x -> (diri_name db3 (f_diri x), f_name x) ∈ keys). intros f x. rewrite Pf, N1, (kp_files _ _ Hkept). intros Hx.
    rewrite (kp_name _ _ Hkept) by (by apply (cv_file _ _ Hc1 f)). by apply (ri_keys _ _ _ Hr1 f).
  - apply Hr.
Qed.

(** ** A whole package *)

Lemma tmpl_install_grow t c : names_grow c (tmpl_install t c).2.
Proof.
  split; [apply tmpl_install_inv | ..]; unfold tmpl_install; destruct (pt_ipkg t); try done; by destruct (t_name (pt_info t)).
Qed.

Lemma create_spec limit keys s :
  reading limit keys s -> idle (fs_inst s) -> pt_ipkg (fs_tmpl s) = None ->
  let s' := fs_ipkg_create s in
  reading limit keys s' /\ keeps (fs_inst s) (fs_inst s') /\ fs_ipkg s' = true /\ fs_diri s' = fs_diri s /\ fs_diris s' = fs_diris s
  /\ names_grow (fs_cat s) (fs_cat s') /\ ic_diris (in_ic (fs_inst s')) = [] /\ in_diris (fs_inst s') = in_diris (fs_inst s)
  /\ in_files (fs_inst s') = in_files (fs_inst s)
  /\ fs_tmpl s' = mk_ptmpl (pt_info (fs_tmpl s)) (pt_recommends (fs_tmpl s)) (pt_tags (fs_tmpl s)) (pt_repos (fs_tmpl s))
       (pt_filename_ndx (fs_tmpl s)) (pt_cached_non_repository (fs_tmpl s)) (pt_layer (fs_tmpl s)) (Some ipkg0).
Proof.
  intros Hr Hid Hnone s'. destruct (ri_creator _ _ _ Hr) as [ext Hc]. pose proof (tmpl_install_grow (fs_tmpl s) (fs_cat s)) as Hg.
  assert ((tmpl_install (fs_tmpl s) (fs_cat s)).1 = mk_ptmpl (pt_info (fs_tmpl s)) (pt_recommends (fs_tmpl s)) (pt_tags (fs_tmpl s)) (pt_repos (fs_tmpl s))
       (pt_filename_ndx (fs_tmpl s)) (pt_cached_non_repository (fs_tmpl s)) (pt_layer (fs_tmpl s)) (Some ipkg0)) as Ht.
  { unfold tmpl_install. rewrite Hnone. by destruct (t_name _). }
  unfold s', fs_ipkg_create. rewrite Hnone. destruct (tmpl_install _ _) as [t c]. simpl in Hg, Ht. rewrite bool_decide_false by (by intros []).
  assert (forall e, view_now (apk_db_ipkg_create [] (fs_inst s)) e = view_now (fs_inst s) e) as Hv.
  { intros e. unfold view_now, files_of. simpl. by rewrite (proj1 Hid). }
  split.
  2:{ split_and!; try done. intros e He. split_and!; [done | | done]. cbn [fs_inst set_fs_inst]. by rewrite Hv. }
  split; cbn [fs_inst set_fs_inst set_fs_ipkg_diris set_fs_ipkg set_fs_cat set_fs_tmpl fs_file_digest fs_xattr_digest].
  - exists ext. apply ipkg_create_inv; [done | done | apply stored_sorted_nil].
  - apply Hr.
  - intros d Hd. destruct (ri_pkg _ _ _ Hr d Hd) as (p & Hp & Hpi). change (diri_at (apk_db_ipkg_create [] (fs_inst s)) d) with (diri_at (fs_inst s) d).
    revert Hp. unfold fs_pkg_of. simpl. destruct (di_pkg (diri_at (fs_inst s) d)) as [| |a]; [done | | by rewrite (ng_pkgs _ _ Hg); eauto].
    intros [= <-]. simpl in Hpi. rewrite Hnone in Hpi. by destruct Hpi.
  - apply Hr.
  - apply Hr.
Qed.

Definition field_line (l : bytes) : Prop := exists c v, l = c :: chr ":" :: v /\ c ∈ lit "FMRZrqasfg".

(** The first field of the installed database, or the empty line, starts the installed
    package. *)
Lemma late_start ks s n :
  Forall field_line ks -> fs_ipkg s = false -> fs_diri s = None -> t_name (pt_info (fs_tmpl s)) = Some n ->
  lines (ks ++ [[]]) s = lines (ks ++ [[]]) (fs_ipkg_create s).
Proof.
  intros Hks Hip Hd Hn. destruct ks as [|k ks]; cbn [app fdb_lines].
  - f_equal. cbn [fdb_line]. unfold fdb_end_package.
    assert (fs_diri (fs_ipkg_create s) = None /\ t_name (pt_info (fs_tmpl (fs_ipkg_create s))) = Some n) as [Hd' Hn'].
    { unfold fs_ipkg_create, tmpl_install. rewrite Hn. by destruct (pt_ipkg (fs_tmpl s)). }
    rewrite Hn, Hn'. unfold fs_apply. rewrite Hd, Hd'. cbn [obind]. rewrite create_ipkg, Hip. done.
  - apply Forall_cons in Hks as [(c & v & -> & Hc) _]. f_equal. rewrite !line_field by done. unfold started. by rewrite create_ipkg, Hip.
Qed.

Lemma field_lines_ok tags r : Forall field_line (tags_lines (pkg_tags (pr_pkg r)) ++ ipkg_lines tags (pr_ipkg r) ++ (pr_dirs r ≫= dir_lines)).
Proof.
  assert (forall c v, c ∈ lit "FMRZrqasfg" -> field_line ([c; chr ":"] ++ v)) as Hf by (intros c v Hc; by exists c, v).
  assert (forall (b : bool) c v, c ∈ lit "FMRZrqasfg" -> Forall field_line (if b then [] else [[c; chr ":"] ++ v])) as Ho.
  { intros [] c v Hc; [constructor |]. constructor; [by apply Hf | constructor]. }
  repeat apply Forall_app_2.
  - unfold tags_lines. destruct (pkg_tags _); [constructor |]. constructor; [apply Hf; set_solver | constructor].
  - unfold deps_lines. destruct (ip_replaces _); [constructor |]. constructor; [apply Hf; set_solver | constructor].
  - apply (Ho _ (chr "q")). set_solver.
  - apply (Ho _ (chr "s")). set_solver.
  - apply (Ho _ (chr "f")). set_solver.
  - apply Forall_bind, Forall_forall. intros d _. unfold dir_lines, dir_head. apply Forall_app_2.
    + constructor; [apply Hf; set_solver |]. apply (Ho _ (chr "M")). set_solver.
    + apply Forall_bind, Forall_forall. intros f _. unfold file_lines. constructor; [apply Hf; set_solver |].
      apply Forall_app_2; [apply (Ho _ (chr "a")); set_solver | apply (Ho _ (chr "Z")); set_solver].
Qed.

(** The fields of a package that its text holds. *)
Definition metadata (p : apk_package) :=
  (pkg_name p, pkg_version p, (pkg_depends p, pkg_provides p, pkg_install_if p), pkg_tags p, pkg_arch p,
   (pkg_description p, pkg_url p, pkg_license p, pkg_origin p, pkg_maintainer p, pkg_commit p),
   (pkg_size p, pkg_installed_size p, pkg_build_time p, pkg_provider_priority p), apk_pkg_hash_blob p).

(** Package [a] of the database is installed as [r] says. *)
Definition installed_as (db : fdb) (a : nat) (r : pkg_rec) : Prop :=
  exists p ds, db_pkgs (fd_cat db) !! a = Some p /\ metadata p = metadata (pr_pkg r) /\ pkg_ipkg p = Some (pr_ipkg r)
    /\ fd_diris db !! a = Some ds
    /\ exists rs, rs ≡ₚ pr_dirs r /\ Forall2 (fun d x => is_Some (in_diris (fd_inst db) !! d) /\ drec_eq (diri_view (fd_inst db) d) x) ds rs.

Definition size_of_db (db : fdb) : nat := size (db_pkgs (fd_cat db)).

Definition db_of (s : fdb_state) : fdb := mk_fdb (fs_cat s) (fs_inst s) (fs_diris s).

Lemma digest_key (id : apk_digest) p :
  digest_blob id = apk_pkg_hash_blob p -> length (apk_pkg_hash_blob p) = APK_DIGEST_LENGTH_SHA1 ->
  (APK_DIGEST_LENGTH_SHA1 <= d_len id)%nat /\ take APK_DIGEST_LENGTH_SHA1 (d_data id) = apk_pkg_hash_blob p.
Proof.
  unfold digest_blob. intros Hb Hl. assert (APK_DIGEST_LENGTH_SHA1 <= d_len id)%nat as Hd by (rewrite <- Hl, <- Hb, length_take; lia).
  split; [done |]. rewrite <- Hb, length_take in Hl. rewrite <- Hb. destruct (Nat.le_gt_cases (length (d_data id)) (d_len id)) as [H|H].
  - rewrite (take_ge (d_data id) (d_len id)) by done. apply take_ge. lia.
  - f_equal. lia.
Qed.

(** The fields of the package and of the installed package. *)
Lemma read_head tags limit keys s r :
  ready tags limit keys s -> pkg_rec_ok tags r ->
  exists s' id, lines (pkg_lines tags r ++ [[]]) s = lines ((pr_dirs r ≫= dir_lines) ++ [[]]) s'
    /\ reading limit keys s' /\ keeps (fs_inst s) (fs_inst s') /\ fs_ipkg s' = true /\ fs_diri s' = None /\ fs_diris s' = fs_diris s
    /\ names_grow (fs_cat s) (fs_cat s') /\ mentioned (tmpl_from (pr_pkg r) id tags) (fs_cat s')
    /\ ic_diris (in_ic (fs_inst s')) = [] /\ in_diris (fs_inst s') = in_diris (fs_inst s) /\ in_files (fs_inst s') = in_files (fs_inst s)
    /\ fs_tmpl s' = mk_ptmpl (tmpl_from (pr_pkg r) id tags) [] (pkg_tags (pr_pkg r)) 0 0 false layer (Some (pr_ipkg r))
    /\ digest_blob id = apk_pkg_hash_blob (pr_pkg r).
Proof.
  intros [Hr Hcat Ht Hip Hd Hid _] Hok. destruct (read_entry_lines (pr_pkg r) tags (po_pkg _ _ Hok)) as (id & Hpl & _ & Hb).
  destruct (read_plain_lines simulate usermode fs_result fnmatch force_old_apk layer behind (entry_lines (pr_pkg r)) s (tmpl_from (pr_pkg r) id tags))
    as (s1 & E1 & P1 & M1); [done | | by rewrite Ht |].
  { rewrite Ht. split; [done | by intros d ?%elem_of_nil]. }
  assert (reading limit keys s1 /\ fs_inst s1 = fs_inst s /\ fs_diri s1 = None /\ fs_diris s1 = fs_diris s) as (Hr1 & Hin1 & Hd1 & Hds1).
  { destruct P1 as (c & -> & Hg). split; [| done]. destruct Hr as [A1 A2 A3 A4 A5]. split; simpl; try done. intros d Hsd.
    destruct (A3 d Hsd) as (p & Hp & Hpi). revert Hp. unfold fs_pkg_of. simpl.
    destruct (di_pkg _); [done | | rewrite (ng_pkgs _ _ Hg); eauto]. intros [= <-]. simpl in Hpi. rewrite Ht in Hpi. by destruct Hpi. }
  destruct (tmpl_phase_tmpl _ _ _ P1) as (T1 & F1 & G1). rewrite Ht in T1. rewrite Hip in F1.
  destruct (create_spec limit keys s1) as (Hr2 & Hk2 & Hip2 & Hd2 & Hds2 & G2 & Hic2 & Hdi2 & Hfi2 & T2); [done | by rewrite Hin1 | by rewrite T1 |].
  set (s2 := fs_ipkg_create s1) in *. rewrite T1 in T2. cbn in T2.
  assert (catalog_inv (fs_cat s2)) as Hcat2 by (apply G2, G1, Hcat).
  destruct (read_tags simulate usermode fs_result fnmatch force_old_apk layer behind s2 Hip2 ltac:(by rewrite T2) (pkg_tags (pr_pkg r)) (po_tags _ _ Hok)) as (s3 & E3 & P3).
  destruct (tmpl_phase_tmpl _ _ _ P3) as (T3 & F3 & G3). rewrite T2 in T3.
  destruct (read_ipkg_lines simulate usermode fs_result fnmatch force_old_apk layer behind s3 (pr_ipkg r) tags) as (s4 & E4 & P4);
    [by apply G3 | congruence | by rewrite T3 | by rewrite T3 | apply Hok |].
  destruct (tmpl_phase_tmpl _ _ _ P4) as (T4 & F4 & G4). rewrite T3 in T4. cbn in T4.
  exists s4, id. split.
  { replace (pkg_lines tags r ++ [[]]) with (entry_lines (pr_pkg r) ++
      (tags_lines (pkg_tags (pr_pkg r)) ++ ipkg_lines tags (pr_ipkg r) ++ (pr_dirs r ≫= dir_lines)) ++ [[]])
      by (unfold pkg_lines; by rewrite <- !app_assoc).
    rewrite lines_app, E1. cbn [obind].
    rewrite (late_start _ _ (pkg_name (pr_pkg r))); [| apply field_lines_ok | congruence | done | by rewrite T1].
    fold s2. rewrite <- !app_assoc. rewrite lines_app, E3. cbn [obind]. rewrite lines_app, E4. done. }
  destruct P3 as (c3 & -> & _), P4 as (c4 & -> & _). simpl in *.
  split.
  { destruct Hr2 as [A1 A2 A3 A4 A5]. split; simpl; try done. intros d Hsd. destruct (A3 d Hsd) as (p & Hp & Hpi). revert Hp. unfold fs_pkg_of. simpl.
    destruct (di_pkg _); [done | | rewrite (ng_pkgs _ _ G4), (ng_pkgs _ _ G3); eauto]. intros _. eexists. split; [done |]. by rewrite T2. }
  rewrite <- Hin1. split_and!; try done.
  - congruence.
  - congruence.
  - transitivity (fs_cat s1); [done |]. transitivity (fs_cat s2); [done |]. by transitivity c3.
  - eapply mentioned_grow; [exact G4 |]. eapply mentioned_grow; [exact G3 |]. by eapply mentioned_grow.
Qed.

Lemma entered_metadata r id tags l ip c :
  digest_blob id = apk_pkg_hash_blob (pr_pkg r) -> pkg_printable (pr_pkg r) ->
  metadata (entered_pkg (mk_ptmpl (tmpl_from (pr_pkg r) id tags) [] (pkg_tags (pr_pkg r)) 0 0 false l (Some ip))
    (pkg_name (pr_pkg r)) (pkg_version (pr_pkg r)) ip c) = metadata (pr_pkg r).
Proof.
  intros Hb Hp. destruct (digest_key id (pr_pkg r) Hb (proj2 (pp_hash _ Hp))) as [Hl Hk]. unfold metadata. f_equal.
  unfold entered_pkg. change (apk_pkg_hash_blob (set_pkg_ipkg _ ?q)) with (apk_pkg_hash_blob q). by rewrite tmpl_key.
Qed.

(** Everything that was installed stays installed. *)
Lemma installed_keep s s' a p ds b r :
  idle (fs_inst s) -> stored (fs_inst s) (fs_inst s') -> db_pkgs (fs_cat s) !! a = None ->
  db_pkgs (fs_cat s') = <[a := p]> (db_pkgs (fs_cat s)) -> fs_diris s' = <[a := ds]> (fs_diris s) ->
  installed_as (db_of s) b r -> installed_as (db_of s') b r.
Proof.
  intros Hid Hst Hfree Hp Hd (q & es & Hq & Hm & Hip & Hes & rs & Hrs & Hall). simpl in *.
  assert (b <> a) as Hne by (intros ->; by rewrite Hfree in Hq). exists q, es. simpl. rewrite Hp, Hd, !lookup_insert_ne by done.
  split_and!; try done. exists rs. split; [done |]. eapply Forall2_impl; [exact Hall |]. intros d x [Hd' Hx]. destruct (Hst d Hd') as [S1 S2].
  split; [done |]. rewrite idle_view in S2 by done. by transitivity (diri_view (fs_inst s) d).
Qed.

Lemma read_package tags limit keys s r :
  ready tags limit keys s -> pkg_rec_ok tags r -> 1 <= limit -> limit + Z.of_nat (length (pr_dirs r)) < 2 ^ 16 ->
  (forall k, k ∈ rec_keys (pr_dirs r) -> k ∉ keys) ->
  (forall a q, db_pkgs (fs_cat s) !! a = Some q -> apk_pkg_hash_blob q <> apk_pkg_hash_blob (pr_pkg r)) ->
  exists s' a p, lines (pkg_lines tags r ++ [[]]) s = Ok (Go s')
    /\ ready tags (limit + Z.of_nat (length (pr_dirs r))) (rec_keys (pr_dirs r) ++ keys) s'
    /\ db_pkgs (fs_cat s) !! a = None /\ db_pkgs (fs_cat s') = <[a := p]> (db_pkgs (fs_cat s)) /\ installed_as (db_of s') a r
    /\ (forall b r', installed_as (db_of s) b r' -> installed_as (db_of s') b r')
    /\ (forall f x, in_files (fs_inst s') !! f = Some x -> f_audited x = false \/ in_files (fs_inst s) !! f = Some x).
Proof.
  intros Hrd Hok Hl1 Hl2 Hkeys Hnew.
  destruct (read_head tags limit keys s r Hrd Hok) as (s1 & id & E1 & Hr1 & Hk1 & Hip1 & Hd1 & Hds1 & G1 & M1 & Hic1 & Hdi1 & Hfi1 & T1 & Hb).
  destruct (digest_key id (pr_pkg r) Hb) as [Hidl Hidk]; [apply Hok |].
  destruct (read_dirs_lines limit keys s1 (pkg_name (pr_pkg r)) (pr_ipkg r) (pr_dirs r))
    as (s2 & ds & E2 & (F1 & F2 & F3 & F4) & Hkn & Hr2 & Hk2 & [Hall Hdom] & Hic2 & Hau); try done.
  { intros e. by rewrite Hd1. }
  { by rewrite T1. }
  { by rewrite T1. }
  { intros x e _ [He _]. rewrite Hic1 in He. by apply elem_of_nil in He. }
  { apply Hok. }
  { apply Hok. }
  { apply Hok. }
  rewrite Hic1, app_nil_r in Hic2.
  destruct (end_package_spec (limit + Z.of_nat (length (pr_dirs r))) (rec_keys (pr_dirs r) ++ keys) s2 (pkg_name (pr_pkg r)) (pkg_version (pr_pkg r)) (pr_ipkg r) tags)
    as (s3 & E3 & Hrd3 & Hst & Hfree & Hpkgs & Hdiris & Hfi); try done.
  { congruence. }
  { rewrite F3. apply G1, (rd_cat _ _ _ _ Hrd). }
  { by rewrite F1, T1. }
  { rewrite F1, T1, F3. split; simpl; try done.
    - intros n. unfold tmpl_mentions. simpl. intros [->|(d & -> & Hd)%list_elem_of_fmap]%elem_of_cons; [by apply M1 | by apply M1].
    - rewrite (ng_pkgs _ _ G1), Hidk. exact Hnew. }
  { intros e He. destruct (Hdom e He) as [Hin|He1]; [left; by rewrite Hic2 |]. right. destruct (Hk2 e He1) as (_ & _ & ->). rewrite Hdi1 in He1.
    destruct (Hk1 e He1) as (_ & _ & ->). destruct (ri_pkg _ _ _ (rd_reading _ _ _ _ Hrd) e He1) as (p & Hp & Hpi). revert Hp.
    destruct (di_pkg _) as [| |a]; [done | | by eauto]. simpl. intros [= <-]. simpl in Hpi. rewrite (rd_tmpl _ _ _ _ Hrd) in Hpi. by destruct Hpi. }
  assert (db_pkgs (fs_cat s2) = db_pkgs (fs_cat s)) as Hsame by (by rewrite F3, (ng_pkgs _ _ G1)). rewrite Hsame in Hpkgs, Hfree.
  rewrite F4, Hds1 in Hdiris. set (a := db_next (fs_cat s2)) in *.
  set (p := entered_pkg (fs_tmpl s2) (pkg_name (pr_pkg r)) (pkg_version (pr_pkg r)) (pr_ipkg r) (fs_cat s2)) in *.
  exists s3, a, p. split_and!; try done.
  - rewrite E1, lines_app, E2. cbn [obind fdb_lines fdb_line]. by rewrite E3.
  - exists p, (ic_diris (in_ic (fs_inst s2))). simpl. rewrite Hpkgs, Hdiris, !lookup_insert_eq.
    split_and!; [done | unfold p; rewrite F1, T1; apply entered_metadata; [done | apply Hok] | done | done |].
    symmetry in Hic2. destruct (Permutation_Forall2 Hic2 Hall) as (rs & Hrs & Hall').
    exists rs. split; [by symmetry |]. eapply Forall2_impl; [exact Hall' |]. intros d x (V & Hd & _). destruct (Hst d Hd) as [S1 S2].
    split; [done |]. by transitivity (view_now (fs_inst s2) d).
  - intros b r'. apply (installed_keep s s3 a p (ic_diris (in_ic (fs_inst s2)))); try done; [apply Hrd |].
    eapply keeps_stored; [| exact Hst]. by transitivity (fs_inst s1).
  - intros f x. rewrite Hfi. intros Hx. destruct (Hau f x Hx); [by left | right]. congruence.
Qed.

(** ** Packages one after the other *)

Definition all_dirs (rs : list pkg_rec) : list dir_rec := rs ≫= pr_dirs.
Definition rec_hash (r : pkg_rec) : bytes := apk_pkg_hash_blob (pr_pkg r).

Lemma rec_keys_app a b : rec_keys (a ++ b) = rec_keys a ++ rec_keys b.
Proof. apply bind_app. Qed.

Lemma read_packages tags rs limit keys s :
  ready tags limit keys s -> Forall (pkg_rec_ok tags) rs -> 1 <= limit -> limit + Z.of_nat (length (all_dirs rs)) < 2 ^ 16 ->
  NoDup (rec_keys (all_dirs rs)) -> (forall k, k ∈ rec_keys (all_dirs rs) -> k ∉ keys) -> NoDup (rec_hash <$> rs) ->
  (forall r a q, r ∈ rs -> db_pkgs (fs_cat s) !! a = Some q -> apk_pkg_hash_blob q <> rec_hash r) ->
  exists s', lines (rs ≫= fun r => pkg_lines tags r ++ [[]]) s = Ok (Go s')
    /\ ready tags (limit + Z.of_nat (length (all_dirs rs))) (rec_keys (all_dirs rs) ++ keys) s'
    /\ (forall r, r ∈ rs -> exists a, installed_as (db_of s') a r)
    /\ (forall b r', installed_as (db_of s) b r' -> installed_as (db_of s') b r')
    /\ size (db_pkgs (fs_cat s')) = (size (db_pkgs (fs_cat s)) + length rs)%nat.
Proof.
  revert limit keys s. induction rs as [|r rs IH]; intros limit keys s Hrd Hok Hl1 Hl2 Hnd Hk Hh Hnew.
  { exists s. simpl. rewrite Z.add_0_r. split_and!; try done; try lia. by intros r ?%elem_of_nil. }
  apply Forall_cons in Hok as [Hok1 Hok]. rewrite fmap_cons in Hh. apply NoDup_cons in Hh as [Hh1 Hh].
  change (all_dirs (r :: rs)) with (pr_dirs r ++ all_dirs rs) in *. rewrite rec_keys_app in *. rewrite length_app in *.
  apply NoDup_app in Hnd as (_ & Hdis & Hnd).
  destruct (read_package tags limit keys s r) as (s1 & a & p & E1 & Hrd1 & Hfree & Hp & Hinst & Hkeep & _); try done.
  { lia. }
  { intros k Hin. apply Hk. rewrite elem_of_app. by left. }
  { intros b q Hq. by apply (Hnew r b q ltac:(by left)). }
  destruct (IH (limit + Z.of_nat (length (pr_dirs r))) (rec_keys (pr_dirs r) ++ keys) s1) as (s2 & E2 & Hrd2 & Hall & Hkeep2 & Hsize); try done.
  { lia. }
  { lia. }
  { intros k Hin. rewrite not_elem_of_app. split; [intros Hin2; by apply (Hdis k) | apply Hk; rewrite elem_of_app; by right]. }
  { intros r' b q Hr'. rewrite Hp. intros [[<- <-]|[_ Hq]]%lookup_insert_Some; [| apply (Hnew r' b q); [by right | done]].
    destruct Hinst as (p' & _ & Hp' & Hm & _). apply (f_equal snd) in Hm. simpl in Hp', Hm. rewrite Hp, lookup_insert_eq in Hp'. simplify_eq. rewrite Hm. change (apk_pkg_hash_blob (pr_pkg r)) with (rec_hash r).
    intros E. apply Hh1. rewrite E. by apply list_elem_of_fmap_2. }
  exists s2. rewrite bind_cons, lines_app, E1. cbn [obind]. split_and!; try done.
  - rewrite Nat2Z.inj_add, Z.add_assoc. destruct Hrd2 as [Hr2 ? ? ? ? ? ?]. split; try done. eapply reading_keys; [| exact Hr2].
    intros k. rewrite !elem_of_app. tauto.
  - intros r' [->|Hr']%elem_of_cons; [exists a; by apply Hkeep2 | by apply Hall].
  - intros b r' Hb. by apply Hkeep2, Hkeep.
  - rewrite Hsize, Hp, map_size_insert, Hfree. simpl. lia.
Qed.
End RoundTrip.

(** ** Writing a layer and reading it *)

Definition pkg_rec_in (src : fdb) (p : apk_package) : pkg_rec :=
  mk_prec p (default ipkg0 (pkg_ipkg p)) (diri_view (fd_inst src) <$> default [] (fd_diris src !! pkg_addr p)).

Definition layer_recs (src : fdb) (layer : Z) (pkgs : list apk_package) : list pkg_rec :=
  pkg_rec_in src <$> filter (fun p => pkg_layer p = layer) pkgs.

(** The packages can be written: their fields and names are printable and fit into the
    buffer, no file is hidden as audited, no two packages share a digest or a file, and a
    package without directories has no fields that would get lost. *)
Record writable (tags : repo_tags) (src : fdb) (layer : Z) (pkgs : list apk_package) : Prop := {
  wr_installed : Forall (fun p => is_Some (pkg_ipkg p)) pkgs;
  wr_ok : Forall (pkg_rec_ok tags) (layer_recs src layer pkgs);
  wr_fits : Forall (pkg_rec_fits tags) (layer_recs src layer pkgs);
  wr_audited : forall f x, in_files (fd_inst src) !! f = Some x -> f_audited x = false;
  wr_fields : Forall (fun r => pr_dirs r = [] -> ipkg_lines tags (pr_ipkg r) = []) (layer_recs src layer pkgs);
  wr_hashes : NoDup (rec_hash <$> layer_recs src layer pkgs);
  wr_files : NoDup (rec_keys (all_dirs (layer_recs src layer pkgs)));
  wr_count : Z.of_nat (length (all_dirs (layer_recs src layer pkgs))) < 2 ^ 16 - 1;
}.

Lemma not_audited db : (forall f x, in_files db !! f = Some x -> f_audited x = false) -> forall f, f_audited (file_at db f) = false.
Proof. intros H f. unfold file_at. destruct (in_files db !! f) eqn:E; [by eapply H | done]. Qed.

Lemma write_layer_text tags src layer pkgs rc out :
  Forall (fun p => is_Some (pkg_ipkg p)) pkgs -> Forall (pkg_rec_ok tags) (layer_recs src layer pkgs) ->
  Forall (pkg_rec_fits tags) (layer_recs src layer pkgs) -> (forall f x, in_files (fd_inst src) !! f = Some x -> f_audited x = false) ->
  Forall (fun r => pr_dirs r = [] -> ipkg_lines tags (pr_ipkg r) = []) (layer_recs src layer pkgs) ->
  fdb_write_layer tags (fd_inst src) (fd_diris src) layer pkgs rc out
  = Ok (rc, out ++ unlines (layer_recs src layer pkgs ≫= fun r => pkg_lines tags r ++ [[]])).
Proof.
  intros Hin Hok Hfit Hau Hfld. pose proof (not_audited _ Hau) as Hau'. revert rc out Hin Hok Hfit Hfld. unfold layer_recs.
  induction pkgs as [|p pkgs IH]; intros rc out Hin Hok Hfit Hfld; cbn [fdb_write_layer]; [by rewrite app_nil_r |].
  apply Forall_cons in Hin as [[ip Hip] Hin]. rewrite filter_cons in *. destruct (decide (pkg_layer p = layer)) as [E|E].
  2:{ rewrite (proj2 (Z.eqb_neq _ _) E). by apply IH. }
  rewrite (proj2 (Z.eqb_eq _ _) E). cbn [negb]. rewrite fmap_cons in *. apply Forall_cons in Hok as [A1 A2], Hfit as [B1 B2], Hfld as [C1 C2].
  rewrite Hip. set (r := pkg_rec_in src p) in *.
  assert (pr_ipkg r = ip) as Hipr by (unfold r, pkg_rec_in; by rewrite Hip). rewrite <- Hipr. change p with (pr_pkg r) at 1.
  rewrite fdb_write_text; try done.
  - cbn [obind Z.ltb Z.compare]. rewrite andb_false_r, IH by done. rewrite bind_cons, !unlines_app, unlines_cons, unlines_nil. rewrite <- !app_assoc. done.
  - apply Forall_forall. intros d _. apply Forall_forall. auto.
  - intros Hd. apply C1. unfold r, pkg_rec_in. simpl. by rewrite Hd.
Qed.

(** Writing the packages of a layer and reading the lines of the text. *)
Lemma layer_roundtrip simulate usermode fs_result fnmatch force_old_apk layer behind tags src pkgs c dir_buckets file_buckets ppaths g1 g2 err :
  writable tags src layer pkgs -> 0 <= err -> reach c -> db_pkgs c = ∅ -> 0 < dir_buckets -> 0 < file_buckets ->
  length (d_data g1) = APK_DIGEST_LENGTH_MAX -> length (d_data g2) = APK_DIGEST_LENGTH_MAX ->
  exists txt db, fdb_write_layer tags (fd_inst src) (fd_diris src) layer pkgs 0 [] = Ok (0, txt)
    /\ txt = unlines (layer_recs src layer pkgs ≫= fun r => pkg_lines tags r ++ [[]])
    /\ apk_db_fdb_read simulate usermode fs_result fnmatch force_old_apk APK_REPO_DB_INSTALLED layer behind tags g1 g2
         (split_on 10 txt) err (mk_fdb c (inst_init dir_buckets file_buckets ppaths) ∅) = Ok (0, db)
    /\ (forall r, r ∈ layer_recs src layer pkgs -> exists a, installed_as db a r)
    /\ size_of_db db = length (layer_recs src layer pkgs).
Proof.
  intros [W1 W2 W3 W4 W5 W6 W7 W8] Herr Hreach Hempty Hb1 Hb2 Hg1 Hg2. set (rs := layer_recs src layer pkgs) in *.
  set (s := fdb_start layer tags g1 g2 (mk_fdb c (inst_init dir_buckets file_buckets ppaths) ∅)).
  assert (ready layer tags 1 [] s) as Hrd.
  { split; try done; [| by apply reach_inv]. split; simpl; try done.
    - exists (fun _ => 0). by apply inst_init_inv.
    - intros b. unfold dir_at. simpl. rewrite lookup_empty. by repeat split. }
  destruct (read_packages simulate usermode fs_result fnmatch force_old_apk layer behind tags rs 1 [] s Hrd W2)
    as (s' & E & Hrd' & Hall & _ & Hsize); try done.
  { lia. }
  { intros k _. apply not_elem_of_nil. }
  { intros r a q _. simpl. by rewrite Hempty, lookup_empty. }
  eexists _, (db_of s'). split; [by apply (write_layer_text tags src layer pkgs 0 []) |]. split; [done |]. fold rs. cbn [app].
  rewrite <- (app_nil_r (unlines _)), split_unlines.
  2:{ apply Forall_bind. eapply Forall_impl; [exact W2 |]. intros r Hr. apply Forall_app. split; [by apply pkg_lines_ok |].
      repeat constructor. apply not_elem_of_nil. }
  unfold apk_db_fdb_read. fold s. rewrite lines_app, E. cbn [obind fdb_lines fdb_line split_on]. unfold fdb_end_package.
  rewrite (rd_tmpl _ _ _ _ _ Hrd'). cbn. rewrite (proj2 (Z.ltb_ge _ _)) by done. split_and!; [done | done |]. unfold size_of_db. cbn [db_of fd_cat]. rewrite Hsize. simpl. by rewrite Hempty, map_size_empty.
Qed.

(** *** An example *)

Definition ex_acl : apk_db_acl := mk_acl 448 0 12 [].
Definition ex_ipkg : apk_installed_package := mk_ipkg [] 7 0 false true false false false.
Definition ex_installed : apk_package := set_pkg_ipkg (Some ex_ipkg) example_entry.
Definition ex_db : list nat * inst_db :=
  let '(ds, db) := apk_db_ipkg_commit (build [lit "etc"; lit "lib"] ex_inst0) in (ds, upd_diri 0 (set_di_acl ex_acl) db).
Definition ex_src : fdb := mk_fdb (catalog_new 5 5) ex_db.2 {[1%nat := ex_db.1]}.
Definition ex_rec : pkg_rec :=
  mk_prec ex_installed ex_ipkg
    [mk_drec (lit "etc") ex_acl [mk_frec (lit "x") apk_default_acl_file APK_DIGEST_NONE []];
     mk_drec (lit "lib") apk_default_acl_dir [mk_frec (lit "x") apk_default_acl_file APK_DIGEST_NONE []]].

Lemma ex_recs : layer_recs ex_src 0 [ex_installed] = [ex_rec].
Proof. vm_compute. reflexivity. Qed.

Lemma ex_clean n : n = lit "etc" \/ n = lit "lib" -> clean n.
Proof.
  intros Hn. split; [destruct Hn as [-> | ->]; simpl; lia | by destruct Hn as [-> | ->] |].
  intros l r H. destruct Hn as [-> | ->]; do 4 (destruct l as [|? l]; simplify_eq).
Qed.

Lemma ex_rec_ok : pkg_rec_ok [] ex_rec.
Proof.
  assert (forall n m u g, n = lit "etc" \/ n = lit "lib" -> 0 <= m < 4096 -> 0 <= u < 2 ^ 32 -> 0 <= g < 2 ^ 32 ->
    dir_rec_ok false (mk_drec n (mk_acl m u g []) [mk_frec (lit "x") apk_default_acl_file APK_DIGEST_NONE []])) as Hd.
  { intros n m u g Hn Hm Hu Hg. split; simpl.
    - split; [| by apply ex_clean]. destruct Hn as [-> | ->]; by apply (bool_decide_unpack _).
    - split; simpl; [done | done | done | by left].
    - constructor; [| constructor]. split; simpl; [split; [by apply (bool_decide_unpack _) | done] | | by left].
      split; simpl; [done | done | done | by left]. }
  split.
  - destruct example_entry_printable. by split.
  - constructor.
  - split; [by split; constructor | simpl; lia | by left | done].
  - constructor; [by apply Hd; [left | ..] |]. constructor; [by apply (Hd (lit "lib") 493 0 0); [right | ..] | constructor].
  - by apply (bool_decide_unpack _).
  - repeat constructor; by apply (bool_decide_unpack _).
Qed.

Lemma ex_writable : writable [] ex_src 0 [ex_installed].
Proof.
  split; rewrite ?ex_recs.
  - constructor; [by eexists | constructor].
  - constructor; [apply ex_rec_ok | constructor].
  - constructor; [| constructor]. split.
    + intros d [= <-]. apply (bool_decide_unpack _). vm_compute. reflexivity.
    + apply (bool_decide_unpack _). vm_compute. reflexivity.
    + apply (bool_decide_unpack _). vm_compute. reflexivity.
  - assert (map_Forall (fun _ x => f_audited x = false) (in_files (fd_inst ex_src))) as H by (apply (bool_decide_unpack _); vm_compute; reflexivity).
    exact H.
  - constructor; [done | constructor].
  - repeat constructor. apply not_elem_of_nil.
  - apply (bool_decide_unpack _). vm_compute. reflexivity.
  - vm_compute. reflexivity.
Qed.

(** C11: the fields of an installed package are pushed to the buffer but only
    written together with its first directory: a package that has no directories is written
    without its replaces list, priority, repository tag and flags, whatever they are. *)
Theorem fdb_write_loses_fields tags db pkg ipkg :
  pkg_printable pkg -> ipkg_ok tags ipkg -> (length (unlines (ipkg_lines tags ipkg)) <= FDB_BUFSIZE)%nat ->
  apk_db_fdb_write tags db pkg ipkg [] = Ok (0, unlines (entry_lines pkg ++ tags_lines (pkg_tags pkg)) ++ [10]).
Proof.
  intros Hp Hi Hl. unfold apk_db_fdb_write. rewrite write_header_text by done. cbn [obind Z.ltb Z.compare]. rewrite push_ipkg_text by done.
  cbn [obind fdb_write_diris]. by rewrite write_blobs_text, unlines_app, <- app_assoc.
Qed.

Lemma fdb_write_loses_fields_witness :
  ip_replaces_priority ex_ipkg = 7 /\ apk_db_fdb_write [] ex_db.2 ex_installed ex_ipkg [] = Ok (0, unlines (entry_lines ex_installed) ++ [10]).
Proof.
  split; [reflexivity |]. apply (fdb_write_loses_fields [] ex_db.2 ex_installed ex_ipkg).
  - apply ex_rec_ok.
  - apply ex_rec_ok.
  - apply (bool_decide_unpack _). vm_compute. reflexivity.
Defined.
