(* ===== verification/Stream.v ===== *)
(** * Buffered input streams (io.c)

    An input stream reads ahead into a buffer and hands out pieces of it.  What it reads
    from is behind an interface ([Reader]): a file, a piece of memory, or another stream of
    which it shows a segment.  The buffer is the memory itself, with offsets for [ptr] and
    [end], because a segment works in the buffer of the stream it was cut from. *)

From S2P Require Import Prelude Blob Digest Package.

Definition APKE_EOF : Z := 1025.
Definition ECONNABORTED : Z := 103.
Definition APK_ISTREAM_ALIGN_SYNC : nat := 8.
Definition apk_io_bufsize : Z := 128 * 1024.
Definition SSIZE_MAX : Z := 2 ^ 63 - 1.

(** ** Memory *)

(** [memcpy (&buf[off], data, len)] *)
Definition poke (off : nat) (data buf : bytes) : bytes := take off buf ++ data ++ drop (off + length data) buf.
Definition slice (from upto : nat) (buf : bytes) : bytes := take (upto - from) (drop from buf).

(** ** What streams read from *)

(** [ops->read (is, ptr, size)]: bytes, none at the end, or a negative error. *)
Inductive answer := Got (data : bytes) | Failed (err : Z).

Class Reader (R : Type) := read_op : nat -> R -> answer * R.

(** A file descriptor: the bytes that are left, how many of them (one more than the number)
    the next calls of [read] give at most, and what [read] answers after the last one: 0, or
    a negative error. *)
Record fd_source := mk_fd { fd_data : bytes; fd_short : list nat; fd_fin : Z }.

Definition fdi_read (size : nat) (s : fd_source) : answer * fd_source :=
  match fd_data s with
  | [] => (if fd_fin s <? 0 then Failed (fd_fin s) else Got [], s)
  | _ =>
      let n := match fd_short s with [] => size | k :: _ => Nat.min size (S k) end in
      (Got (take n (fd_data s)), mk_fd (drop n (fd_data s)) (tail (fd_short s)) (fd_fin s))
  end.
#[global] Instance fd_reader : Reader fd_source := fdi_read.

(** Blobs and mapped files are in the buffer from the start. *)
Definition blob_read (size : nat) (r : unit) : answer * unit := (Got [], r).
#[global] Instance blob_reader : Reader unit := blob_read.

(** ** Streams *)

Record istream (R : Type) := mk_is {
  is_ptr : nat;
  is_end : nat;
  is_buf : bytes;
  is_err : Z;
  is_src : R;
}.
Arguments mk_is {R} _ _ _ _ _.
Arguments is_ptr {R} _.
Arguments is_end {R} _.
Arguments is_buf {R} _.
Arguments is_err {R} _.
Arguments is_src {R} _.

Section Streams.
Context {R : Type} `{Reader R}.
Implicit Types (st : istream R).

Definition buf_size st : nat := length (is_buf st).
Definition is_data st : bytes := slice (is_ptr st) (is_end st) (is_buf st).
Definition set_is_pos (ptr end_ : nat) st : istream R := mk_is ptr end_ (is_buf st) (is_err st) (is_src st).
Definition set_is_err (err : Z) st : istream R := mk_is (is_ptr st) (is_end st) (is_buf st) err (is_src st).
Definition set_is_buf (buf : bytes) st : istream R := mk_is (is_ptr st) (is_end st) buf (is_err st) (is_src st).
Definition set_is_src (src : R) st : istream R := mk_is (is_ptr st) (is_end st) (is_buf st) (is_err st) src.

Definition apk_istream_from_fd (src : R) (size : nat) : istream R := mk_is 0 0 (replicate size 0) 0 src.

Definition apk_istream_error (err : Z) st : Z * istream R :=
  let st := if (0 <=? is_err st) && negb (err =? 0) then set_is_err err st else st in
  (if is_err st <? 0 then is_err st else 0, st).

(** Reads to [is->end]: the answer, with the bytes in the buffer. *)
Definition read_into_buf st : answer * istream R :=
  let '(a, src) := read_op (buf_size st - is_end st) (is_src st) in
  match a with
  | Got d => (a, set_is_pos (is_ptr st) (is_end st) (set_is_buf (poke (is_end st) d (is_buf st)) (set_is_src src st)))
  | Failed _ => (a, set_is_src src st)
  end.

Definition __apk_istream_fill st : Z * istream R :=
  if negb (is_err st =? 0) then (is_err st, st)
  else
    let offs := is_ptr st in
    let moved :=
      if (APK_ISTREAM_ALIGN_SYNC <=? offs)%nat then
        let ptr := (offs mod APK_ISTREAM_ALIGN_SYNC)%nat in
        Some (set_is_pos ptr (ptr + (is_end st - is_ptr st))%nat (set_is_buf (poke ptr (is_data st) (is_buf st)) st))
      else if (is_end st =? buf_size st)%nat then None
      else Some st in
    match moved with
    | None => (- APKE_BUFFER_SIZE, st)
    | Some st =>
        let '(a, st) := read_into_buf st in
        match a with
        | Failed e => apk_istream_error e st
        | Got [] => apk_istream_error 1 st
        | Got d => (0, set_is_pos (is_ptr st) (is_end st + length d) st)
        end
    end.

(** The bytes at the result pointer, or a negative error. *)
Fixpoint peek_loop (fuel len : nat) st : option ((Z + bytes) * istream R) :=
  match fuel with
  | O => None
  | S fuel =>
      if (len <=? is_end st - is_ptr st)%nat then Some (inr (take len (is_data st)), st)
      else
        let '(r, st) := __apk_istream_fill st in
        if r =? 0 then peek_loop fuel len st else Some (inl (if 0 <? r then - APKE_EOF else r), st)
  end.
Definition apk_istream_peek (len : nat) st : option ((Z + bytes) * istream R) :=
  if is_err st <? 0 then Some (inl (is_err st), st) else peek_loop (S (S (S (buf_size st)))) len st.

Definition apk_istream_get (len : nat) st : option ((Z + bytes) * istream R) :=
  p ← apk_istream_peek len st;
  let '(r, st) := p in
  Some (match r with
        | inr d => (r, set_is_pos (is_ptr st + len) (is_end st) st)
        | inl e => (r, (apk_istream_error e st).2)
        end).

Definition apk_istream_get_max (max : nat) st : Z * blob * istream R :=
  let st := if (is_ptr st =? is_end st)%nat then (__apk_istream_fill st).2 else st in
  if negb (is_ptr st =? is_end st)%nat then
    let data := take max (is_data st) in
    (0, Some data, set_is_pos (is_ptr st + length data) (is_end st) st)
  else (if is_err st <? 0 then is_err st else - APKE_EOF, None, st).

Fixpoint get_delim_loop (fuel : nat) (token : bytes) st : option (Z * blob * istream R) :=
  match fuel with
  | O => None
  | S fuel =>
      match apk_blob_split (is_data st) token with
      | Some (data, rest) => Some (0, Some data, set_is_pos (is_end st - length rest) (is_end st) st)
      | None =>
          let '(r, st) := __apk_istream_fill st in
          if r =? 0 then get_delim_loop fuel token st
          else if r <? 0 then let '(r, st) := apk_istream_error r st in Some (r, None, st)
          else Some (0, Some (is_data st), set_is_pos 0 0 st)
      end
  end.
Definition apk_istream_get_delim (token : bytes) st : option (Z * blob * istream R) :=
  if negb (is_err st =? 0) && (is_ptr st =? is_end st)%nat
  then Some (if is_err st <? 0 then is_err st else - APKE_EOF, None, st)
  else get_delim_loop (S (S (S (buf_size st)))) token st.

(** [while (apk_istream_get_delim (is, token, &l) == 0)]: the lines and the last result. *)
Fixpoint read_lines (fuel : nat) (token : bytes) st : option (list bytes * Z * istream R) :=
  match fuel with
  | O => None
  | S fuel =>
      p ← apk_istream_get_delim token st;
      let '(r, data, st) := p in
      if r =? 0 then q ← read_lines fuel token st; let '(ls, r, st) := q in Some (default [] data :: ls, r, st)
      else Some ([], r, st)
  end.

(** The result is an [int]. *)
Fixpoint skip_loop (fuel size done : nat) st : option (Z * istream R) :=
  if (size <=? done)%nat then Some (s32 (Z.of_nat done), st)
  else
    match fuel with
    | O => None
    | S fuel =>
        let '(r, d, st) := apk_istream_get_max (Z.to_nat (Z.min (Z.of_nat (size - done)) SSIZE_MAX)) st in
        if r <? 0 then Some (r, st) else skip_loop fuel size (done + length (default [] d)) st
    end.
Definition apk_istream_skip (size : nat) st : option (Z * istream R) := skip_loop size size 0 st.

(** [want] bytes are still wanted, [r] is the result of the last read or copy. *)
Fixpoint read_loop (fuel want : nat) (r : Z) (out : bytes) st : option (Z * nat * bytes * istream R) :=
  match fuel with
  | O => None
  | S fuel =>
      if (want =? 0)%nat then Some (r, want, out, st)
      else if negb (is_ptr st =? is_end st)%nat then
        let d := take want (is_data st) in
        read_loop fuel (want - length d) (Z.of_nat (length d)) (out ++ d) (set_is_pos (is_ptr st + length d) (is_end st) st)
      else if negb (is_err st =? 0) then Some (r, want, out, st)
      else if (buf_size st / 4 <? want)%nat then
        let '(a, src) := read_op want (is_src st) in
        let st := set_is_src src st in
        match a with
        | Failed e => Some (e, want, out, st)
        | Got [] => Some (0, want, out, st)
        | Got d =>
            let pos := ((is_ptr st + length d) mod APK_ISTREAM_ALIGN_SYNC)%nat in
            read_loop fuel (want - length d) (Z.of_nat (length d)) (out ++ d) (set_is_pos pos pos st)
        end
      else
        let pos := (is_ptr st mod APK_ISTREAM_ALIGN_SYNC)%nat in
        let '(a, st) := read_into_buf (set_is_pos pos pos st) in
        match a with
        | Failed e => Some (e, want, out, st)
        | Got [] => Some (0, want, out, st)
        | Got d => read_loop fuel want (Z.of_nat (length d)) out (set_is_pos (is_ptr st) (is_ptr st + length d) st)
        end
  end.

(** The result, and the bytes that were stored. *)
Definition apk_istream_read_max (size : nat) st : option (Z * bytes * istream R) :=
  if is_err st <? 0 then Some (is_err st, [], st)
  else
    p ← read_loop (S (S (2 * size))) size 0 [] st;
    let '(r, want, out, st) := p in
    Some (if r <? 0 then let '(r, st) := apk_istream_error r st in (r, out, st)
          else if (want =? size)%nat then
            let '(r, st) := apk_istream_error (if negb (size =? 0)%nat && (is_err st =? 0) then 1 else 0) st in (r, out, st)
          else (Z.of_nat (size - want), out, st)).

Definition apk_istream_read (size : nat) st : option (Z * bytes * istream R) :=
  p ← apk_istream_read_max size st;
  let '(r, out, st) := p in
  Some (if r =? Z.of_nat size then (0, out, st) else let '(r, st) := apk_istream_error (- APKE_EOF) st in (r, out, st)).
End Streams.

Definition apk_istream_from_blob (data : bytes) : istream unit := mk_is 0 (length data) data 1 tt.

(** ** Segments *)

Record segment (R : Type) := mk_seg {
  seg_bytes_left : nat;
  seg_align : Z;
  seg_inner : R;         (* what the stream that was cut reads from *)
}.
Arguments mk_seg {R} _ _ _.
Arguments seg_bytes_left {R} _.
Arguments seg_align {R} _.
Arguments seg_inner {R} _.

Definition segment_read {R} `{Reader R} (size : nat) (s : segment R) : answer * segment R :=
  let size := if (seg_bytes_left s <? size)%nat then seg_bytes_left s else size in
  if (size =? 0)%nat then (Got [], s)
  else
    let '(a, inner) := read_op size (seg_inner s) in
    match a with
    | Failed _ => (a, mk_seg (seg_bytes_left s) (seg_align s) inner)
    | Got [] => (Failed (- ECONNABORTED), mk_seg (seg_bytes_left s) (seg_align s) inner)
    | Got d => (Got d, mk_seg (seg_bytes_left s - length d) (u8 (seg_align s + Z.of_nat (length d))) inner)
    end.
#[global] Instance segment_reader {R} `{Reader R} : Reader (segment R) := segment_read.

Section Segments.
Context {R : Type} `{Reader R}.

(** The stream that was cut while its segment is in use: [None] for NULL pointers; its buffer
    and what it reads from are with the segment. *)
Record cut := mk_cut { cut_pos : option (nat * nat); cut_err : Z }.

Definition apk_istream_segment (len : nat) (pis : istream R) : istream (segment R) * cut :=
  let whole := (len <? is_end pis - is_ptr pis)%nat in
  let end_ := if whole then (is_ptr pis + len)%nat else is_end pis in
  (mk_is (is_ptr pis) end_ (is_buf pis) 0
     (mk_seg (len - (end_ - is_ptr pis)) (if whole then 0 else u8 (Z.of_nat (is_end pis))) (is_src pis)),
   mk_cut (if whole then Some ((is_ptr pis + len)%nat, is_end pis) else None) (is_err pis)).

(** The result and the stream that was cut. *)
Definition segment_close (s : istream (segment R)) (c : cut) : option (Z * istream R) :=
  let pos := match cut_pos c with
             | Some p => p
             | None => let a := Z.to_nat (seg_align (is_src s) mod Z.of_nat APK_ISTREAM_ALIGN_SYNC) in (a, a)
             end in
  let pis := mk_is pos.1 pos.2 (is_buf s) (cut_err c) (seg_inner (is_src s)) in
  let r := if is_err s <? 0 then is_err s else 0 in
  if (seg_bytes_left (is_src s) =? 0)%nat then Some (r, pis)
  else p ← apk_istream_skip (seg_bytes_left (is_src s)) pis; Some (r, p.2).
End Segments.
