(* ===== verification/StreamFacts.v ===== *)
(** * What input streams deliver (io.c)

    A stream stands for a sequence of bytes and the way it ends: the bytes in its buffer and
    those behind the interface.  Every operation is the obvious one on that sequence, however
    the reads are cut into pieces and wherever the data sits in the buffer. *)

From S2P Require Import Prelude Blob Digest Package Stream.

(** ** Memory *)

Lemma length_poke off d buf : (off + length d <= length buf)%nat -> length (poke off d buf) = length buf.
Proof. intros H. unfold poke. rewrite !length_app, length_take, length_drop. lia. Qed.

Lemma length_slice p e (buf : bytes) : (p <= e)%nat -> (e <= length buf)%nat -> length (slice p e buf) = (e - p)%nat.
Proof. intros. unfold slice. rewrite length_take, length_drop. lia. Qed.

Lemma slice_app p m e buf : (p <= m)%nat -> (m <= e)%nat -> slice p e buf = slice p m buf ++ slice m e buf.
Proof.
  intros. unfold slice. replace (e - p)%nat with ((m - p) + (e - m))%nat by lia.
  rewrite <- (take_drop (m - p) (take (m - p + (e - m)) (drop p buf))). f_equal.
  - rewrite take_take. f_equal. lia.
  - rewrite skipn_firstn_comm, drop_drop. f_equal; [lia |]. f_equal. lia.
Qed.

Lemma slice_empty p (buf : bytes) : slice p p buf = [].
Proof. unfold slice. by rewrite Nat.sub_diag. Qed.

(** Reading what was written, and below and above it. *)
Lemma slice_poke off d buf : (off + length d <= length buf)%nat -> slice off (off + length d) (poke off d buf) = d.
Proof.
  intros H. unfold slice, poke. rewrite drop_app_le by (rewrite length_take; lia). rewrite drop_ge by (rewrite length_take; lia).
  cbn [app]. rewrite take_app_le by lia. apply take_ge. lia.
Qed.

Lemma slice_poke_below p e off d buf : (e <= off)%nat -> (off + length d <= length buf)%nat -> slice p e (poke off d buf) = slice p e buf.
Proof.
  intros He H. unfold slice, poke. destruct (Nat.le_gt_cases p e) as [Hp|Hp]; [| by replace (e - p)%nat with 0%nat by lia].
  rewrite drop_app_le by (rewrite length_take; lia). rewrite take_app_le by (rewrite length_drop, length_take; lia).
  rewrite skipn_firstn_comm, take_take. f_equal. lia.
Qed.

Lemma slice_poke_above p e off d buf : (off + length d <= p)%nat -> (off + length d <= length buf)%nat -> slice p e (poke off d buf) = slice p e buf.
Proof.
  intros Hp H. unfold slice, poke. f_equal. rewrite app_assoc, drop_app_ge by (rewrite length_app, length_take; lia).
  rewrite drop_drop. f_equal. rewrite length_app, length_take. lia.
Qed.

Lemma slice_poke_end p off d buf :
  (p <= off)%nat -> (off + length d <= length buf)%nat -> slice p (off + length d) (poke off d buf) = slice p off buf ++ d.
Proof.
  intros Hp H. rewrite (slice_app p off) by lia. by rewrite slice_poke_below, slice_poke by done.
Qed.

Lemma poke_nil off buf : poke off [] buf = buf.
Proof. unfold poke. cbn [app length]. rewrite Nat.add_0_r. apply take_drop. Qed.

(** ** What a reader promises *)

(** The bytes that are left and what comes after them: 0 for the end, or an error. *)
Class ReaderSpec (R : Type) `{Reader R} := {
  rest : R -> bytes;
  ending : R -> Z;
  ending_range : forall r, ending r <= 0;
  read_bounded : forall size r d r', read_op size r = (Got d, r') -> (length d <= size)%nat;
  read_spec : forall size r, (0 < size)%nat ->
    match read_op size r with
    | (Got [], r') => rest r = [] /\ ending r = 0 /\ rest r' = [] /\ ending r' = 0
    | (Got d, r') => rest r = d ++ rest r' /\ ending r' = ending r /\ (length d <= size)%nat
    | (Failed e, r') => rest r = [] /\ ending r = e /\ e < 0 /\ rest r' = [] /\ ending r' = e
    end;
}.

#[global, program] Instance fd_reader_spec : ReaderSpec fd_source := {|
  rest := fd_data;
  ending s := Z.min 0 (fd_fin s);
|}.
Next Obligation. intros r. lia. Qed.
Next Obligation.
  intros size [[|c d] short fin] d' r'; unfold read_op, fd_reader, fdi_read; simpl.
  - case_if; intros [= <- <-]. simpl. lia.
  - intros [= <- <-]. rewrite length_take. destruct short; lia.
Qed.
Next Obligation.
  intros size [[|c d] short fin] Hs; unfold read_op, fd_reader, fdi_read; simpl.
  - destruct (fin <? 0) eqn:E; bool_prop; simpl; split_and!; try done; lia.
  - set (n := match short with [] => _ | _ => _ end). assert (0 < n <= size)%nat as Hn by (unfold n; destruct short; lia).
    clearbody n. destruct n as [|n]; [lia |]. simpl. rewrite take_drop. split_and!; [done | done |]. rewrite length_take. lia.
Qed.

#[global, program] Instance blob_reader_spec : ReaderSpec unit := {|
  rest _ := [];
  ending _ := 0;
|}.
Next Obligation. done. Qed.
Next Obligation. intros size r d r' [= <- <-]. simpl. lia. Qed.
Next Obligation. done. Qed.

(** The first [seg_bytes_left] bytes of what is inside; it is an error if there are fewer. *)
#[global, program] Instance segment_reader_spec {R} `{ReaderSpec R} : ReaderSpec (segment R) := {|
  rest s := take (seg_bytes_left s) (rest (seg_inner s));
  ending s := if (seg_bytes_left s <=? length (rest (seg_inner s)))%nat then 0
              else if ending (seg_inner s) =? 0 then - ECONNABORTED else ending (seg_inner s);
|}.
Next Obligation. intros R ? ? s. pose proof (ending_range (seg_inner s)). unfold ECONNABORTED. case_if; [done |]. case_if; lia. Qed.
Next Obligation.
  intros R Hrd Hsp size [bl al inner] d r'. unfold read_op at 1, segment_reader, segment_read. cbn [seg_bytes_left seg_align seg_inner].
  set (n := if (bl <? size)%nat then bl else size). assert (n <= size)%nat as Hn by (unfold n; destruct (Nat.ltb_spec bl size); lia). clearbody n.
  case_if; [intros [= <- <-]; simpl; lia |]. destruct (read_op n inner) as [[[|c x]|e] i] eqn:E; intros; simplify_eq.
  apply read_bounded in E. lia.
Qed.
Next Obligation.
  intros R Hrd Hsp size [bl al inner] Hs. unfold read_op at 1, segment_reader, segment_read. cbn [seg_bytes_left seg_align seg_inner].
  set (n := if (bl <? size)%nat then bl else size).
  assert (n <= bl /\ n <= size /\ (n = 0 -> bl = 0))%nat as (Hn1 & Hn2 & Hn3) by (unfold n; destruct (Nat.ltb_spec bl size); lia).
  clearbody n. destruct (Nat.eqb_spec n 0) as [En|En]; [rewrite Hn3 by done; simpl; split_and!; done |].
  pose proof (read_spec n inner ltac:(lia)) as Hr. destruct (read_op n inner) as [[[|c d]|e] inner']; simpl.
  - destruct Hr as (-> & -> & -> & ->). rewrite !take_nil. destruct bl; [lia |]. simpl. unfold ECONNABORTED. split_and!; done.
  - destruct Hr as (Hr & -> & Hl). rewrite Hr, length_app. cbn [length] in *. split_and!; [| | lia].
    + rewrite take_app, (take_ge (c :: d)) by (simpl; lia). done.
    + destruct (Nat.leb_spec (bl - S (length d)) (length (rest inner'))), (Nat.leb_spec bl (S (length d) + length (rest inner'))); try done; lia.
  - destruct Hr as (-> & -> & He & -> & ->). rewrite !take_nil. destruct bl; [lia |]. simpl. rewrite (proj2 (Z.eqb_neq _ _)) by lia. done.
Qed.

Lemma split_char s c :
  match apk_blob_split s [c] with
  | Some (l, r) => s = l ++ c :: r /\ c ∉ l
  | None => c ∉ s
  end.
Proof.
  destruct (apk_blob_split s [c]) as [[l r]|] eqn:E.
  - apply apk_blob_split_Some in E as [-> Hmin]. split; [done |]. intros (l1 & l2 & ->)%list_elem_of_split.
    specialize (Hmin l1 (l2 ++ c :: r)). rewrite <- !app_assoc, !length_app in Hmin. simpl in Hmin. specialize (Hmin eq_refl). lia.
  - intros (l1 & l2 & ->)%list_elem_of_split. by eapply (proj1 (apk_blob_split_None _ _) E).
Qed.

(** ** Streams *)

Section Content.
Context {R : Type} `{ReaderSpec R}.
Implicit Types (st : istream R).

Record stream_inv st : Prop := {
  si_pos : (is_ptr st <= is_end st)%nat;
  si_end : (is_end st <= buf_size st)%nat;
  si_room : is_err st = 0 -> (APK_ISTREAM_ALIGN_SYNC < buf_size st)%nat;
  si_err : 0 <= is_err st;
  si_eof : is_err st <> 0 -> rest (is_src st) = [] /\ ending (is_src st) = 0;
}.

Definition content st : bytes := is_data st ++ rest (is_src st).
Definition finally st : Z := ending (is_src st).

Lemma length_data st : stream_inv st -> length (is_data st) = (is_end st - is_ptr st)%nat.
Proof. intros []. by apply length_slice. Qed.

Lemma data_empty st : stream_inv st -> is_ptr st = is_end st -> is_data st = [].
Proof. intros Hi E. unfold is_data. rewrite E. apply slice_empty. Qed.

Lemma from_fd_inv src size : (APK_ISTREAM_ALIGN_SYNC < size)%nat -> stream_inv (apk_istream_from_fd src size).
Proof. intros Hs. split; simpl; try done; [lia |]. unfold buf_size. simpl. by rewrite length_replicate. Qed.

(** What a fill can do. *)
Inductive filled st : Z -> istream R -> Prop :=
| fl_eof : is_err st <> 0 -> filled st (is_err st) st
| fl_full : is_err st = 0 -> (is_ptr st < APK_ISTREAM_ALIGN_SYNC)%nat -> is_end st = buf_size st -> filled st (- APKE_BUFFER_SIZE) st
| fl_more st' d :
    is_err st = 0 -> d <> [] -> is_data st' = is_data st ++ d -> content st' = content st -> finally st' = finally st -> stream_inv st' ->
    is_err st' = 0 -> buf_size st' = buf_size st -> (is_ptr st' < APK_ISTREAM_ALIGN_SYNC)%nat -> filled st 0 st'
| fl_end st' :
    is_err st = 0 -> is_data st' = is_data st -> rest (is_src st) = [] -> rest (is_src st') = [] -> finally st = 0 -> finally st' = 0 -> stream_inv st' ->
    is_err st' = 1 -> buf_size st' = buf_size st -> filled st 0 st'
| fl_error st' e :
    is_err st = 0 -> e < 0 -> rest (is_src st) = [] -> finally st = e -> is_err st' = e ->
    (is_ptr st' <= is_end st')%nat -> (is_end st' - is_ptr st' = length (is_data st))%nat -> filled st e st'.

Definition moved_down st : istream R :=
  let ptr := (is_ptr st mod APK_ISTREAM_ALIGN_SYNC)%nat in
  set_is_pos ptr (ptr + (is_end st - is_ptr st))%nat (set_is_buf (poke ptr (is_data st) (is_buf st)) st).

Lemma moved_down_spec st :
  stream_inv st -> (APK_ISTREAM_ALIGN_SYNC <= is_ptr st)%nat ->
  stream_inv (moved_down st) /\ is_data (moved_down st) = is_data st /\ buf_size (moved_down st) = buf_size st
  /\ (is_ptr (moved_down st) < APK_ISTREAM_ALIGN_SYNC)%nat /\ (is_end (moved_down st) < buf_size st)%nat.
Proof.
  intros Hi Hp. pose proof (length_data st Hi) as Hl. destruct Hi as [Hpos Hend Hroom Herr Heof].
  assert (is_ptr st mod APK_ISTREAM_ALIGN_SYNC < APK_ISTREAM_ALIGN_SYNC)%nat as Hm by (apply Nat.mod_upper_bound; done).
  set (q := (is_ptr st mod APK_ISTREAM_ALIGN_SYNC)%nat) in *.
  assert (length (poke q (is_data st) (is_buf st)) = length (is_buf st)) as Hlen.
  { apply length_poke. rewrite Hl. unfold buf_size in Hend. lia. }
  unfold moved_down. fold q. split_and!; unfold buf_size, is_data in *; simpl; rewrite ?Hlen; try lia; try done.
  - split; unfold buf_size; simpl; rewrite ?Hlen; try done; lia.
  - rewrite <- Hl. apply slice_poke. rewrite Hl. lia.
Qed.

Lemma fill_spec st : stream_inv st -> let '(r, st') := __apk_istream_fill st in filled st r st'.
Proof.
  intros Hi. unfold __apk_istream_fill. destruct (is_err st =? 0) eqn:E; bool_prop; [| by apply fl_eof]. cbn [negb].
  fold (moved_down st).
  set (moved := if (APK_ISTREAM_ALIGN_SYNC <=? is_ptr st)%nat then _ else _).
  assert (match moved with
          | None => (is_ptr st < APK_ISTREAM_ALIGN_SYNC)%nat /\ is_end st = buf_size st
          | Some s => stream_inv s /\ is_data s = is_data st /\ buf_size s = buf_size st /\ (is_ptr s < APK_ISTREAM_ALIGN_SYNC)%nat
              /\ (is_end s < buf_size s)%nat /\ is_src s = is_src st /\ is_err s = 0
          end) as Hm.
  { unfold moved. destruct (Nat.leb_spec APK_ISTREAM_ALIGN_SYNC (is_ptr st)) as [Hp|Hp].
    - destruct (moved_down_spec st Hi Hp) as (A1 & A2 & A3 & A4 & A5). rewrite A3. split_and!; try done.
    - destruct (Nat.eqb_spec (is_end st) (buf_size st)); [done |]. pose proof (si_end _ Hi). split_and!; try done. lia. }
  destruct moved as [s|]; [| destruct Hm; by apply fl_full]. destruct Hm as (Hs & Hd & Hb & Hp & He & Hsrc & Herr).
  unfold read_into_buf. pose proof (read_spec (buf_size s - is_end s) (is_src s) ltac:(lia)) as Hr.
  assert (length (is_data s) = is_end s - is_ptr s)%nat as Hlen by (by apply length_data). destruct Hs as [S1 S2 S3 S4 S5].
  destruct (read_op _ _) as [[[|c d]|e] src]; rewrite Hsrc in Hr.
  - destruct Hr as (R1 & R2 & R3 & R4). rewrite poke_nil. unfold apk_istream_error. simpl. rewrite Herr. simpl.
    by apply fl_end.
  - destruct Hr as (R1 & R2 & R3). simpl.
    assert (length (poke (is_end s) (c :: d) (is_buf s)) = length (is_buf s)) as Hl by (apply length_poke; unfold buf_size in *; simpl in *; lia).
    eapply (fl_more st _ (c :: d)); simpl; try done.
    + unfold is_data in *. simpl. rewrite <- Hd. apply (slice_poke_end (is_ptr s) (is_end s) (c :: d)); [done |]. unfold buf_size in *. simpl in *. lia.
    + unfold content, is_data in *. simpl. rewrite R1, <- Hd. rewrite app_assoc. f_equal. apply (slice_poke_end (is_ptr s) (is_end s) (c :: d)); [done |]. unfold buf_size in *. simpl in *. lia.
    + split; unfold buf_size in *; simpl in *; rewrite ?Hl; try done; lia.
    + unfold buf_size in *. simpl. by rewrite Hl.
  - destruct Hr as (R1 & R2 & R3 & R4 & R5). unfold apk_istream_error. simpl. rewrite Herr. simpl. rewrite (proj2 (Z.eqb_neq _ _)) by lia. simpl.
    rewrite (proj2 (Z.ltb_lt _ _)) by lia. apply fl_error; simpl; try done. by rewrite <- Hd.
Qed.

(** How many fills can still succeed. *)
Definition todo st : nat := (buf_size st - length (is_data st) + (if (is_err st =? 0)%Z then 2 else 1))%nat.

Lemma todo_more st st' d :
  stream_inv st' -> d <> [] -> is_data st' = is_data st ++ d -> is_err st' = 0 -> buf_size st' = buf_size st -> is_err st = 0 -> (todo st' < todo st)%nat.
Proof.
  intros Hi Hd Hx He Hb He'. pose proof (length_data st' Hi) as Hl. destruct Hi. unfold todo. rewrite He, He', Hb in *. rewrite Hx, length_app in *.
  destruct d; [done |]. simpl in *. lia.
Qed.

Lemma todo_end st st' :
  is_err st = 0 -> is_err st' = 1 -> is_data st' = is_data st -> buf_size st' = buf_size st -> (todo st' < todo st)%nat.
Proof. intros He He' Hd Hb. unfold todo. rewrite He, He', Hd, Hb. simpl. lia. Qed.

Lemma eof_content st : stream_inv st -> is_err st <> 0 -> content st = is_data st /\ finally st = 0.
Proof. intros Hi He. destruct (si_eof _ Hi He) as [Hr Hf]. unfold content. by rewrite Hr, app_nil_r. Qed.

(** The buffer can hold [n] bytes wherever it starts. *)
Definition fits (n : nat) st : Prop := is_err st = 0 -> (n + APK_ISTREAM_ALIGN_SYNC <= S (buf_size st))%nat.

Lemma full_data st : stream_inv st -> (is_ptr st < APK_ISTREAM_ALIGN_SYNC)%nat -> is_end st = buf_size st -> (buf_size st < length (is_data st) + APK_ISTREAM_ALIGN_SYNC)%nat.
Proof. intros Hi Hp He. rewrite length_data by done. destruct Hi. lia. Qed.

(** *** Looking ahead *)

Definition same_stream st st' : Prop :=
  stream_inv st' /\ content st' = content st /\ finally st' = finally st /\ buf_size st' = buf_size st.

Definition eof_error (e : Z) : Z := if e =? 0 then - APKE_EOF else e.

Lemma peek_loop_spec fuel len st :
  stream_inv st -> (todo st < fuel)%nat -> fits len st ->
  exists res st', peek_loop fuel len st = Some (res, st') /\
    if (len <=? length (content st))%nat
    then res = inr (take len (content st)) /\ same_stream st st' /\ (len <= length (is_data st'))%nat
    else res = inl (eof_error (finally st)).
Proof.
  revert st. induction fuel as [|fuel IH]; intros st Hi Hf Hfit; [lia |]. cbn [peek_loop]. rewrite <- length_data by done.
  destruct (Nat.leb_spec len (length (is_data st))) as [Hle|Hgt].
  { exists (inr (take len (is_data st))), st. split; [done |]. rewrite (proj2 (Nat.leb_le _ _)) by (unfold content; rewrite length_app; lia).
    split_and!; [| done | done]. unfold content. by rewrite take_app_le. }
  pose proof (fill_spec st Hi) as Hs. destruct (__apk_istream_fill st) as [r st1]. destruct Hs as [He|He Hp Hend|st1 d He Hd Hdata Hc Hfin Hi1 He1 Hb Hp|st1 He Hdata Hr Hr1 Hfin Hfin1 Hi1 He1 Hb|st1 e He He' Hr Hfin He1 _ _].
  - rewrite (proj2 (Z.eqb_neq _ _)) by done. eexists _, st. split; [done |]. destruct (eof_content st Hi He) as [-> ->].
    rewrite (proj2 (Nat.leb_gt _ _)) by lia. unfold eof_error. simpl. pose proof (si_err _ Hi). by rewrite (proj2 (Z.ltb_lt _ _)) by lia.
  - pose proof (full_data st Hi Hp Hend). specialize (Hfit He). lia.
  - simpl. destruct (IH st1 Hi1) as (res & st' & E & Hres); [pose proof (todo_more _ _ _ Hi1 Hd Hdata He1 Hb He); lia | intros _; rewrite Hb; auto |].
    exists res, st'. split; [done |]. rewrite Hc, Hfin in Hres. case_if; [| done]. destruct Hres as (-> & (A1 & A2 & A3 & A4) & Hl).
    split_and!; [done | split_and!; congruence | done].
  - simpl. assert (content st1 = content st) as Hc by (unfold content; by rewrite Hdata, Hr, Hr1).
    destruct (IH st1 Hi1) as (res & st' & E & Hres); [pose proof (todo_end _ _ He He1 Hdata Hb); lia | intros ?; lia |].
    exists res, st'. split; [done |]. rewrite Hc in Hres. rewrite Hfin1, <- Hfin in Hres. case_if; [| done]. destruct Hres as (-> & (A1 & A2 & A3 & A4) & Hl).
    split_and!; [done | split_and!; congruence | done].
  - rewrite (proj2 (Z.eqb_neq _ _)) by lia. eexists _, st1. split; [done |]. unfold content. rewrite Hr, app_nil_r.
    rewrite (proj2 (Nat.leb_gt _ _)) by lia. unfold eof_error. rewrite Hfin. rewrite (proj2 (Z.ltb_ge _ _)), (proj2 (Z.eqb_neq _ _)) by lia. done.
Qed.

Lemma todo_bound st : (todo st <= S (S (buf_size st)))%nat.
Proof. unfold todo. case_if; lia. Qed.

Lemma peek_spec len st :
  stream_inv st -> fits len st ->
  exists res st', apk_istream_peek len st = Some (res, st') /\
    if (len <=? length (content st))%nat
    then res = inr (take len (content st)) /\ same_stream st st' /\ (len <= length (is_data st'))%nat
    else res = inl (eof_error (finally st)).
Proof.
  intros Hi Hf. unfold apk_istream_peek. rewrite (proj2 (Z.ltb_ge _ _)) by apply (si_err _ Hi). apply peek_loop_spec; [done | | done].
  pose proof (todo_bound st). lia.
Qed.

(** Moving [ptr] forward over [n] bytes of the buffer. *)
Lemma advance_spec n st :
  stream_inv st -> (n <= length (is_data st))%nat ->
  let st' := set_is_pos (is_ptr st + n) (is_end st) st in
  stream_inv st' /\ is_data st' = drop n (is_data st) /\ content st' = drop n (content st) /\ finally st' = finally st.
Proof.
  intros Hi Hn st'. rewrite length_data in Hn by done. pose proof (length_data st Hi) as Hl.
  assert (is_data st' = drop n (is_data st)) as Hd.
  { unfold is_data, slice. simpl. rewrite skipn_firstn_comm, drop_drop. f_equal. lia. }
  split_and!; [| done | | done].
  - destruct Hi. split; simpl; try done. lia.
  - unfold content. rewrite Hd. rewrite drop_app_le by lia. done.
Qed.

Lemma get_spec len st :
  stream_inv st -> fits len st ->
  exists res st', apk_istream_get len st = Some (res, st') /\
    if (len <=? length (content st))%nat
    then res = inr (take len (content st)) /\ stream_inv st' /\ content st' = drop len (content st) /\ finally st' = finally st
    else res = inl (eof_error (finally st)).
Proof.
  intros Hi Hf. unfold apk_istream_get. destruct (peek_spec len st Hi Hf) as (res & st1 & -> & Hres). cbn [mbind option_bind].
  case_if; [| subst res; by eexists _, _]. destruct Hres as (-> & (A1 & A2 & A3 & _) & Hl).
  destruct (advance_spec len st1 A1 Hl) as (B1 & _ & B2 & B3). eexists _, _. split; [done |]. rewrite <- A2, <- A3. split_and!; try done.
Qed.

(** *** Pieces *)

Lemma get_max_spec max st :
  stream_inv st -> (0 < max)%nat ->
  let '(r, d, st') := apk_istream_get_max max st in
  match content st with
  | [] => r = eof_error (finally st) /\ d = None
  | _ => r = 0 /\ exists p, d = Some p /\ p <> [] /\ (length p <= max)%nat /\ content st = p ++ content st' /\ finally st' = finally st
           /\ stream_inv st'
  end.
Proof.
  intros Hi Hm. unfold apk_istream_get_max. set (st1 := if (is_ptr st =? is_end st)%nat then _ else st).
  assert ((is_ptr st1 <> is_end st1 /\ stream_inv st1 /\ content st1 = content st /\ finally st1 = finally st)
          \/ (is_ptr st1 = is_end st1 /\ content st = [] /\ (if is_err st1 <? 0 then is_err st1 else - APKE_EOF) = eof_error (finally st))) as Hst.
  { unfold st1. destruct (Nat.eqb_spec (is_ptr st) (is_end st)) as [E|E]; [| by left]. pose proof (data_empty st Hi E) as Hd0.
    pose proof (fill_spec st Hi) as Hs. destruct (__apk_istream_fill st) as [r st2]. simpl.
    destruct Hs as [He|He Hp Hend|st2 d He Hd Hdata Hc Hfin Hi1 He1 Hb Hp|st2 He Hdata Hr Hr1 Hfin Hfin1 Hi1 He1 Hb|st2 e He He' Hr Hfin He1 Hpos Hlen].
    - right. destruct (eof_content st Hi He) as [-> ->]. split_and!; [done | done |]. pose proof (si_err _ Hi). by rewrite (proj2 (Z.ltb_ge _ _)) by lia.
    - pose proof (full_data st Hi Hp Hend) as Hf. rewrite Hd0 in Hf. simpl in Hf. pose proof (si_room _ Hi He). lia.
    - left. split_and!; try done. rewrite Hd0 in Hdata. intros E2. apply (data_empty _ Hi1) in E2. simpl in Hdata. congruence.
    - right. split_and!.
      + pose proof (length_data st2 Hi1) as Hl. rewrite Hdata, Hd0 in Hl. destruct Hi1. simpl in Hl. lia.
      + unfold content. by rewrite Hd0, Hr.
      + by rewrite He1, Hfin.
    - right. split_and!; [rewrite Hd0 in Hlen; simpl in Hlen; lia | unfold content; by rewrite Hd0, Hr |].
      unfold eof_error. rewrite He1, Hfin, (proj2 (Z.ltb_lt _ _)), (proj2 (Z.eqb_neq _ _)) by lia. done. }
  clearbody st1. destruct Hst as [(E & Hi1 & Hc & Hf)|(E & -> & He)].
  - rewrite (proj2 (Nat.eqb_neq _ _)) by done. cbn [negb].
    assert (is_data st1 <> []) as Hd.
    { intros Hd. pose proof (length_data st1 Hi1) as Hl. rewrite Hd in Hl. destruct Hi1. simpl in Hl. lia. }
    set (p := take max (is_data st1)).
    assert (p <> []) as Hp by (unfold p; destruct max, (is_data st1); simpl; [lia.. | done | done]).
    destruct (advance_spec (length p) st1 Hi1) as (A1 & A2 & A3 & A4); [unfold p; rewrite length_take; lia |].
    assert (content st1 = p ++ content (set_is_pos (is_ptr st1 + length p) (is_end st1) st1)) as Hc1.
    { rewrite A3. unfold content at 2. unfold content at 1. rewrite drop_app_le by (unfold p; rewrite length_take; lia). rewrite app_assoc. f_equal.
      unfold p at 1. rewrite <- (take_drop max (is_data st1)) at 1. f_equal. unfold p. rewrite length_take.
      destruct (Nat.le_gt_cases max (length (is_data st1))); [f_equal; lia |]. by rewrite !drop_ge by lia. }
    rewrite <- Hc, <- Hf. destruct (content st1) eqn:Ec; [destruct p; [done |]; simpl in Hc1; discriminate |].
    split; [done |]. exists p. split_and!; try done. unfold p. rewrite length_take. lia.
  - rewrite E, Nat.eqb_refl. cbn [negb]. done.
Qed.

Lemma eof_error_neg e : e <= 0 -> eof_error e < 0.
Proof. intros He. unfold eof_error, APKE_EOF. destruct (e =? 0) eqn:E; bool_prop; lia. Qed.

Lemma skip_loop_spec fuel size done st :
  stream_inv st -> (done <= size)%nat -> (size - done <= fuel)%nat ->
  exists r st', skip_loop fuel size done st = Some (r, st') /\
    if (size - done <=? length (content st))%nat
    then r = s32 (Z.of_nat size) /\ stream_inv st' /\ content st' = drop (size - done) (content st) /\ finally st' = finally st
    else r = eof_error (finally st).
Proof.
  revert done st. induction fuel as [|fuel IH]; intros dn st Hi Hd Hf; cbn [skip_loop].
  { assert (dn = size) as -> by lia. rewrite (proj2 (Nat.leb_le _ _)) by lia. eexists _, st. rewrite Nat.sub_diag. done. }
  destruct (Nat.leb_spec size dn) as [Hle|Hlt]; [assert (dn = size) as -> by lia; eexists _, st; rewrite Nat.sub_diag; done |].
  set (max := Z.to_nat _). assert (0 < max <= size - dn)%nat as Hm by (unfold max, SSIZE_MAX; lia).
  pose proof (get_max_spec max st Hi ltac:(lia)) as Hg. destruct (apk_istream_get_max max st) as [[r d] st1].
  destruct (content st) as [|c0 cs] eqn:Ec.
  - destruct Hg as [-> ->]. pose proof (eof_error_neg _ (ending_range (is_src st))). rewrite (proj2 (Z.ltb_lt _ _)) by done. eexists _, st1. split; [done |].
    rewrite (proj2 (Nat.leb_gt _ _)) by (simpl; lia). done.
  - destruct Hg as (-> & p & -> & Hp & Hl & Hc & Hfin & Hi1). cbn [Z.ltb Z.compare default]. rewrite Hc.
    assert (0 < length p)%nat as Hp0 by (destruct p; [done | simpl; lia]).
    destruct (IH (dn + length p)%nat st1 Hi1 ltac:(lia) ltac:(lia)) as (r & st' & E & Hr). exists r, st'. split; [done |].
    rewrite Hfin in Hr. rewrite length_app.
    destruct (Nat.leb_spec (size - (dn + length p)) (length (content st1))), (Nat.leb_spec (size - dn) (length p + length (content st1))); try lia; try done.
    destruct Hr as (-> & A1 & -> & A3). split_and!; try done. rewrite drop_app_ge by lia. f_equal. lia.
Qed.

Lemma skip_spec size st :
  stream_inv st ->
  exists r st', apk_istream_skip size st = Some (r, st') /\
    if (size <=? length (content st))%nat
    then r = s32 (Z.of_nat size) /\ stream_inv st' /\ content st' = drop size (content st) /\ finally st' = finally st
    else r = eof_error (finally st).
Proof. intros Hi. pose proof (skip_loop_spec size size 0 st Hi ltac:(lia) ltac:(lia)) as Hs. by rewrite Nat.sub_0_r in Hs. Qed.

(** *** Copying *)

(** The loop stored the next [want] bytes, or all there are. *)
Definition read_result (want : nat) (out : bytes) st (res : option (Z * nat * bytes * istream R)) : Prop :=
  exists r' st', res = Some (r', (want - length (content st))%nat, out ++ take want (content st), st') /\ is_err st' = is_err st /\
    if (want <=? length (content st))%nat || (finally st =? 0)
    then 0 <= r' /\ stream_inv st' /\ content st' = drop want (content st) /\ finally st' = finally st
    else r' = finally st.

Lemma read_result_app want out st d st1 res :
  content st = d ++ content st1 -> finally st1 = finally st -> is_err st1 = is_err st -> (length d <= want)%nat ->
  read_result (want - length d) (out ++ d) st1 res -> read_result want out st res.
Proof.
  intros Hc Hf He Hd (r' & st' & -> & He' & Hres). exists r', st'. rewrite Hc, length_app, take_app, (take_ge d) by lia. rewrite <- app_assoc, Hf in *.
  split; [do 4 f_equal; lia |]. split; [congruence |].
  replace (want <=? length d + length (content st1))%nat with (want - length d <=? length (content st1))%nat
    by (destruct (Nat.leb_spec (want - length d) (length (content st1))), (Nat.leb_spec want (length d + length (content st1))); lia).
  case_if; [| done]. destruct Hres as (B1 & B2 & B3 & B4). split_and!; try done. by rewrite drop_app_ge by lia.
Qed.

Lemma read_result_end want out st r st' :
  (0 < want)%nat -> content st = [] -> is_err st' = is_err st ->
  (if finally st =? 0 then 0 <= r /\ stream_inv st' /\ content st' = [] /\ finally st' = finally st else r = finally st) ->
  read_result want out st (Some (r, want, out, st')).
Proof.
  intros Hw Hc He Hr. exists r, st'. rewrite Hc, take_nil, app_nil_r, drop_nil. simpl. rewrite Nat.sub_0_r. split; [done |]. split; [done |].
  destruct want; [lia |]. exact Hr.
Qed.

Lemma read_loop_spec fuel want r out st :
  stream_inv st -> 0 <= r -> (2 * want + (if is_ptr st =? is_end st then 1 else 0) < fuel)%nat ->
  read_result want out st (read_loop fuel want r out st).
Proof.
  revert want r out st. induction fuel as [|fuel IH]; intros want r out st Hi Hr Hf; [lia |]. cbn [read_loop].
  destruct (Nat.eqb_spec want 0) as [->|Hw]. { exists r, st. rewrite app_nil_r. split; [done |]. by split_and!. }
  pose proof (length_data st Hi) as Hdl.
  destruct (Nat.eqb_spec (is_ptr st) (is_end st)) as [E|E]; cbn [negb].
  2:{ set (d := take want (is_data st)). assert (length d = Nat.min want (length (is_data st))) as Hl by (unfold d; by rewrite length_take).
      assert (0 < length (is_data st))%nat as Hpos by (pose proof (si_pos _ Hi); lia).
      destruct (advance_spec (length d) st Hi ltac:(lia)) as (A1 & A2 & A3 & A4).
      assert (take (length d) (is_data st) = d) as Htk.
      { rewrite Hl. unfold d. destruct (Nat.min_spec want (length (is_data st))) as [[_ ->]|[? ->]]; [done | by rewrite !take_ge by lia]. }
      eapply (read_result_app _ _ _ d); [| exact A4 | done | lia | apply IH; [done | lia | case_if; lia]].
      rewrite A3, <- (take_drop (length d) (content st)) at 1. f_equal. unfold content. by rewrite take_app_le by lia. }
  pose proof (data_empty st Hi E) as Hd0. assert (content st = rest (is_src st)) as Hc by (unfold content; by rewrite Hd0).
  destruct (is_err st =? 0) eqn:Ee; bool_prop; cbn [negb].
  2:{ destruct (si_eof _ Hi Ee) as [Hrest Hfin]. apply read_result_end; [lia | congruence | done |]. unfold finally. rewrite Hfin. simpl. split_and!; try done. congruence. }
  pose proof (si_room _ Hi Ee) as Hroom.
  destruct (buf_size st / 4 <? want)%nat.
  - pose proof (read_spec want (is_src st) ltac:(lia)) as Hrs. destruct (read_op want (is_src st)) as [[[|c d]|e] src].
    + destruct Hrs as (R1 & R2 & R3 & R4). apply read_result_end; [lia | congruence | done |]. unfold finally. rewrite R2. simpl. split_and!; try done.
      { destruct Hi. by split. } unfold content. simpl. by rewrite R3, app_nil_r.
    + destruct Hrs as (R1 & R2 & R3). set (pos := (_ mod APK_ISTREAM_ALIGN_SYNC)%nat).
      assert (pos < APK_ISTREAM_ALIGN_SYNC)%nat as Hpos by (apply Nat.mod_upper_bound; done).
      set (st1 := set_is_pos pos pos (set_is_src src st)).
      assert (stream_inv st1) as Hi1 by (destruct Hi; split; simpl; try done; unfold buf_size in *; simpl; lia).
      eapply (read_result_app _ _ _ (c :: d) st1); [| done | done | done | apply IH; [done | lia |]].
      * unfold content at 2. by rewrite (data_empty st1), Hc.
      * simpl length in *. case_if; lia.
    + destruct Hrs as (R1 & R2 & R3 & R4 & R5). apply read_result_end; [lia | congruence | done |]. unfold finally. by rewrite R2, (proj2 (Z.eqb_neq _ _)) by lia.
  - set (pos := (is_ptr st mod APK_ISTREAM_ALIGN_SYNC)%nat).
    assert (pos < APK_ISTREAM_ALIGN_SYNC)%nat as Hpos by (apply Nat.mod_upper_bound; done).
    unfold read_into_buf. cbn [is_end is_src is_ptr is_buf set_is_pos]. change (buf_size (set_is_pos pos pos st)) with (buf_size st).
    pose proof (read_spec (buf_size st - pos) (is_src st) ltac:(lia)) as Hrs. destruct (read_op _ _) as [[[|c d]|e] src].
    + destruct Hrs as (R1 & R2 & R3 & R4). apply read_result_end; [lia | congruence | done |]. unfold finally. rewrite R2. simpl. rewrite poke_nil. split_and!; try done.
      * destruct Hi. split; simpl; try done. unfold buf_size in *. simpl. lia.
      * unfold content, is_data. simpl. by rewrite R3, slice_empty.
    + destruct Hrs as (R1 & R2 & R3). match goal with |- context [read_loop fuel want _ _ ?x] => set (st1 := x) end.
      assert (length (poke pos (c :: d) (is_buf st)) = length (is_buf st)) as Hl by (apply length_poke; unfold buf_size in *; simpl in *; lia).
      assert (stream_inv st1) as Hi1.
      { destruct Hi. split; simpl; try done; unfold buf_size in *; simpl in *; rewrite ?Hl; try done; lia. }
      eapply (read_result_app _ _ _ [] st1); [| done | done | simpl; lia |].
      * rewrite Hc, R1. unfold content, is_data, st1. simpl. rewrite (slice_poke pos (c :: d)); [done |]. unfold buf_size in *. simpl in *. lia.
      * rewrite app_nil_r. simpl length. rewrite Nat.sub_0_r. apply IH; [done | lia |]. unfold st1. simpl is_ptr. simpl is_end.
        rewrite (proj2 (Nat.eqb_neq _ _)) by lia. lia.
    + destruct Hrs as (R1 & R2 & R3 & R4 & R5). apply read_result_end; [lia | congruence | done |]. unfold finally. by rewrite R2, (proj2 (Z.eqb_neq _ _)) by lia.
Qed.

Lemma read_max_spec size st :
  stream_inv st ->
  exists r out st', apk_istream_read_max size st = Some (r, out, st') /\ out = take size (content st) /\
    if (size <=? length (content st))%nat || (finally st =? 0)
    then r = Z.of_nat (length out) /\ stream_inv st' /\ content st' = drop size (content st) /\ finally st' = finally st
    else r = finally st.
Proof.
  intros Hi. unfold apk_istream_read_max. rewrite (proj2 (Z.ltb_ge _ _)) by apply (si_err _ Hi).
  destruct (read_loop_spec (S (S (2 * size))) size 0 [] st Hi) as (r & st' & -> & He & Hres); [done | case_if; lia |]. cbn [mbind option_bind app].
  pose proof (ending_range (is_src st)) as Hend. unfold finally in *.
  destruct ((size <=? length (content st))%nat || (ending (is_src st) =? 0)) eqn:E.
  - destruct Hres as (Hr & Hi' & Hc & Hf). rewrite (proj2 (Z.ltb_ge _ _)) by lia. destruct (Nat.eqb_spec (size - length (content st)) size) as [E0|E0].
    + assert (size = 0%nat \/ content st = []) as Hnil by (destruct (content st); [by right | left; simpl in E0; lia]).
      assert (take size (content st) = []) as Ht by (destruct Hnil as [-> | ->]; [done | apply take_nil]).
      assert (size <> 0%nat -> rest (is_src st') = [] /\ ending (is_src st') = 0) as Hsrc.
      { intros Hne. destruct Hnil as [|Hnil]; [done |]. rewrite Hnil, drop_nil in Hc. apply app_eq_nil in Hc as [_ Hc]. split; [done |]. rewrite Hf.
        rewrite Hnil in E. destruct size; [done |]. simpl in E. by apply Z.eqb_eq. }
      rewrite Ht. simpl length.
      assert (forall e, e = 0 \/ e = 1 /\ (size <> 0)%nat -> (apk_istream_error e st').1 = 0 /\ stream_inv (apk_istream_error e st').2
        /\ content (apk_istream_error e st').2 = content st' /\ ending (is_src (apk_istream_error e st').2) = ending (is_src st')) as Herr.
      { intros e Hel. unfold apk_istream_error. pose proof (si_err _ Hi') as H0'. rewrite (proj2 (Z.leb_le _ _)) by lia. destruct Hi' as [I1 I2 I3 I4 I5].
        destruct Hel as [->|[-> Hne]]; simpl; [rewrite (proj2 (Z.ltb_ge _ _)) by lia; split_and!; try done; by split |]. split_and!; try done. split; simpl; try done. auto. }
      set (e := if negb (size =? 0)%nat && (is_err st' =? 0) then 1 else 0). destruct (Herr e) as (A1 & A2 & A3 & A4).
      { unfold e. destruct (Nat.eqb_spec size 0); simpl; [by left |]. case_if; auto. }
      destruct (apk_istream_error e st') as [r2 st2]. simpl in *. eexists _, _, _. split; [done |]. split; [done |]. split_and!; [done | done | congruence | congruence].
    + eexists _, _, _. split; [done |]. split; [done |]. split_and!; [rewrite length_take; lia | done..].
  - subst r. apply orb_false_iff in E as [E1 E2]. bool_prop. rewrite (proj2 (Z.ltb_lt _ _)) by lia. unfold apk_istream_error.
    rewrite He, (proj2 (Z.leb_le _ _)), (proj2 (Z.eqb_neq _ _) E2) by apply (si_err _ Hi). simpl. rewrite (proj2 (Z.ltb_lt _ _)) by lia.
    eexists _, _, _. by split.
Qed.

(** *** Lines *)

Lemma prefix_without (c : Z) data x l r : data ++ x = l ++ c :: r -> c ∉ data -> (length data <= length l)%nat.
Proof.
  intros E Hc. destruct (Nat.le_gt_cases (length data) (length l)) as [|Hlt]; [done |]. exfalso. apply Hc.
  apply list_elem_of_lookup. exists (length l). rewrite <- (lookup_app_l data x) by done. rewrite E. by apply list_lookup_middle.
Qed.

Lemma first_piece (c : Z) l r l' r' : l ++ c :: r = l' ++ c :: r' -> c ∉ l -> c ∉ l' -> l = l' /\ r = r'.
Proof.
  revert l'. induction l as [|x l IH]; intros [|y l'] E H1 H2; simplify_eq/=; set_solver.
Qed.

(** The next line, or what is left at the end. *)
Definition delim_result (c : Z) st (res : option (Z * blob * istream R)) : Prop :=
  (forall l r, content st = l ++ c :: r -> c ∉ l -> fits (S (length l)) st ->
     exists st', res = Some (0, Some l, st') /\ stream_inv st' /\ content st' = r /\ finally st' = finally st
       /\ is_err st' = is_err st /\ buf_size st' = buf_size st) /\
  (c ∉ content st -> fits (S (length (content st))) st ->
     if finally st =? 0
     then exists st', res = Some (0, Some (content st), st') /\ is_ptr st' = is_end st' /\ 0 < is_err st'
     else exists st', res = Some (finally st, None, st') /\ is_err st' = finally st).

Lemma get_delim_loop_spec fuel c st : stream_inv st -> (todo st < fuel)%nat -> delim_result c st (get_delim_loop fuel [c] st).
Proof.
  revert st. induction fuel as [|fuel IH]; intros st Hi Hf; [lia |]. cbn [get_delim_loop].
  pose proof (split_char (is_data st) c) as Hs. pose proof (length_data st Hi) as Hlen.
  destruct (apk_blob_split (is_data st) [c]) as [[l r]|].
  { destruct Hs as [Hd Hc]. assert (content st = l ++ c :: (r ++ rest (is_src st))) as Hcont by (unfold content; rewrite Hd; by rewrite <- app_assoc).
    split; [| intros Hn; exfalso; apply Hn; rewrite Hcont; set_solver].
    intros l1 r1 E1 Hc1 _. destruct (first_piece c l (r ++ rest (is_src st)) l1 r1) as [<- <-]; [congruence | done | done |].
    rewrite Hd, length_app in Hlen. simpl in Hlen. pose proof (si_pos _ Hi).
    replace (is_end st - length r)%nat with (is_ptr st + S (length l))%nat by lia.
    destruct (advance_spec (S (length l)) st Hi) as (A1 & A2 & A3 & A4); [rewrite Hd, length_app; simpl; lia |].
    eexists. split; [done |]. split_and!; try done. rewrite A3, Hcont, cons_middle, app_assoc. apply drop_app_length'. rewrite length_app. simpl. lia. }
  assert (forall l r, content st = l ++ c :: r -> (length (is_data st) <= length l)%nat) as Hpre by (intros l r E; by eapply prefix_without).
  pose proof (fill_spec st Hi) as Hfs. destruct (__apk_istream_fill st) as [r st1].
  destruct Hfs as [He|He Hp Hend|st1 d He Hd Hdata Hcc Hfin Hi1 He1 Hb Hp|st1 He Hdata Hr Hr1 Hfin Hfin1 Hi1 He1 Hb|st1 e He He' Hr Hfin He1 _ _].
  - destruct (eof_content st Hi He) as [Hc Hfin]. pose proof (si_err _ Hi). rewrite (proj2 (Z.eqb_neq _ _)), (proj2 (Z.ltb_ge _ _)) by lia.
    split; [intros l1 r1 E1; exfalso; apply Hs; rewrite <- Hc, E1; set_solver |]. intros _ _. rewrite Hfin, Hc. simpl. eexists. split; [done |]. simpl. split; [done | lia].
  - pose proof (full_data st Hi Hp Hend) as Hfull. split.
    + intros l1 r1 E1 _ Hfit. specialize (Hfit He). specialize (Hpre l1 r1 E1). lia.
    + intros _ Hfit. specialize (Hfit He). unfold content in Hfit. rewrite length_app in Hfit. lia.
  - simpl. destruct (IH st1 Hi1) as [A B]; [pose proof (todo_more _ _ _ Hi1 Hd Hdata He1 Hb He); lia |]. unfold fits in *. rewrite Hcc, Hfin, Hb in *. split.
    + intros l1 r1 E1 Hc1 Hfit. destruct (A l1 r1 E1 Hc1) as (st' & -> & A1 & A2 & A3 & A4 & A5); [auto |]. exists st'. split_and!; try done. congruence.
    + intros Hn Hfit. apply B; auto.
  - simpl. assert (content st1 = content st) as Hcc by (unfold content; by rewrite Hdata, Hr, Hr1).
    destruct (IH st1 Hi1) as [_ B]; [pose proof (todo_end _ _ He He1 Hdata Hb); lia |]. rewrite Hcc, Hfin1 in B. unfold delim_result. rewrite Hfin. split.
    + intros l1 r1 E1. exfalso. apply Hs. assert (content st = is_data st) as Hx by (unfold content; by rewrite Hr, app_nil_r). rewrite <- Hx, E1. set_solver.
    + intros Hn _. apply B; [done |]. intros ?. lia.
  - rewrite (proj2 (Z.eqb_neq _ _)), (proj2 (Z.ltb_lt _ _)) by lia. unfold apk_istream_error. rewrite He1, (proj2 (Z.leb_gt _ _)) by lia. simpl.
    rewrite He1, (proj2 (Z.ltb_lt _ _)) by lia. split.
    + intros l1 r1 E1. exfalso. apply Hs. assert (content st = is_data st) as Hx by (unfold content; by rewrite Hr, app_nil_r). rewrite <- Hx, E1. set_solver.
    + intros _ _. rewrite Hfin, (proj2 (Z.eqb_neq _ _)) by lia. by exists st1.
Qed.

Lemma get_delim_spec c st : stream_inv st -> is_err st = 0 \/ is_ptr st <> is_end st -> delim_result c st (apk_istream_get_delim [c] st).
Proof.
  intros Hi Hp. unfold apk_istream_get_delim. assert (negb (is_err st =? 0) && (is_ptr st =? is_end st)%nat = false) as ->.
  { destruct Hp as [->|Hp]; [done |]. rewrite (proj2 (Nat.eqb_neq _ _)) by done. apply andb_false_r. }
  apply get_delim_loop_spec; [done |]. pose proof (todo_bound st). lia.
Qed.

Lemma get_delim_eof token st : is_ptr st = is_end st -> 0 < is_err st -> apk_istream_get_delim token st = Some (- APKE_EOF, None, st).
Proof.
  intros Hp He. unfold apk_istream_get_delim. rewrite (proj2 (Nat.eqb_eq _ _) Hp). rewrite (proj2 (Z.eqb_neq _ _)), (proj2 (Z.ltb_ge _ _)) by lia. done.
Qed.

Lemma read_lines_spec fuel c st :
  stream_inv st -> is_err st = 0 -> (length (content st) + 1 < fuel)%nat -> Forall (fun l => fits (S (length l)) st) (split_on c (content st)) ->
  exists st', read_lines fuel [c] st =
    Some (if finally st =? 0 then (split_on c (content st), - APKE_EOF, st') else (removelast (split_on c (content st)), finally st, st'))
    /\ (if finally st =? 0 then 0 < is_err st' else is_err st' = finally st).
Proof.
  revert st. induction fuel as [|fuel IH]; intros st Hi He Hf Hfit; [lia |]. cbn [read_lines].
  destruct (get_delim_spec c st Hi (or_introl He)) as [A B].
  destruct (decide (c ∈ content st)) as [Hin|Hin].
  - pose proof (split_char (content st) c) as Hs. destruct (apk_blob_split (content st) [c]) as [[l r]|]; [| done]. destruct Hs as [Hc Hl].
    rewrite Hc, split_on_app in Hfit by done. apply Forall_cons in Hfit as [Hfit1 Hfit].
    destruct (A l r Hc Hl Hfit1) as (st1 & -> & Hi1 & Hc1 & Hf1 & He1 & Hb1). cbn [mbind option_bind Z.eqb].
    destruct (IH st1) as (st' & E & Herr); [done | congruence | rewrite Hc, length_app in Hf; rewrite Hc1; simpl in Hf; lia | |].
    { rewrite Hc1. eapply Forall_impl; [exact Hfit |]. intros x Hx _. rewrite Hb1. by apply Hx. }
    exists st'. rewrite E. cbn [mbind option_bind]. rewrite Hf1, Hc1, Hc, split_on_app in * by done. split; [| done]. case_if; [done |]. simpl. do 2 f_equal.
    destruct (split_on c r) eqn:Er; [by destruct r as [|x r]; simpl in Er; [| repeat case_match] | done].
  - rewrite split_on_none in * by done. apply Forall_cons in Hfit as [Hfit _]. specialize (B Hin Hfit). destruct (finally st =? 0) eqn:E; bool_prop.
    + destruct B as (st1 & -> & Hp1 & He1). cbn [mbind option_bind Z.eqb]. destruct fuel as [|fuel]; [lia |]. cbn [read_lines].
      rewrite get_delim_eof by done. cbn [mbind option_bind]. by exists st1.
    + destruct B as (st1 & -> & He1). cbn [mbind option_bind]. rewrite (proj2 (Z.eqb_neq _ _)) by done. by exists st1.
Qed.
End Content.

(** ** What the operations can do to a stream *)

Section Touch.
Context {R : Type} `{Reader R}.
Implicit Types (st : istream R).

Inductive touch : istream R -> istream R -> Prop :=
| to_pos st p e : (p <= e)%nat -> (e <= is_end st)%nat -> touch st (set_is_pos p e st)
| to_err st e : touch st (set_is_err e st)
| to_move st : (APK_ISTREAM_ALIGN_SYNC <= is_ptr st)%nat -> touch st (moved_down st)
| to_more st d src :
    read_op (buf_size st - is_end st) (is_src st) = (Got d, src) ->
    touch st (set_is_pos (is_ptr st) (is_end st + length d) (set_is_buf (poke (is_end st) d (is_buf st)) (set_is_src src st)))
| to_direct st n d src pos :
    (0 < n)%nat -> read_op n (is_src st) = (Got d, src) -> d <> [] -> (pos < APK_ISTREAM_ALIGN_SYNC)%nat ->
    touch st (set_is_pos pos pos (set_is_src src st))
| to_none st n a src : read_op n (is_src st) = (a, src) -> (a = Got [] \/ exists e, a = Failed e) -> touch st (set_is_src src st).

Abbreviation touches := (rtc touch).

Lemma pos_touches p e st : (p <= e)%nat -> (e <= is_end st)%nat -> touches st (set_is_pos p e st).
Proof. intros. apply rtc_once. by apply to_pos. Qed.

Lemma error_touches e st : touches st (apk_istream_error e st).2.
Proof. unfold apk_istream_error. cbn [snd]. case_if; [apply rtc_once, to_err | done]. Qed.

Lemma same_pos st : set_is_pos (is_ptr st) (is_end st) st = st.
Proof. by destruct st. Qed.

Lemma read_into_touches st :
  let '(a, st') := read_into_buf st in
  match a with
  | Got d => touches st (set_is_pos (is_ptr st') (is_end st' + length d) st') /\ (d = [] -> touches st st')
  | Failed _ => touches st st'
  end.
Proof.
  unfold read_into_buf. destruct (read_op _ _) as [[d|e] src] eqn:E.
  - split; [apply rtc_once; by apply (to_more st d src) |]. intros ->. rewrite poke_nil. apply rtc_once.
    replace (set_is_pos _ _ _) with (set_is_src src st) by (by destruct st). eapply to_none; [done | by left].
  - apply rtc_once. eapply to_none; [done | by right; eexists].
Qed.

Lemma fill_touches st : touches st (__apk_istream_fill st).2.
Proof.
  unfold __apk_istream_fill. case_if; [done |]. fold (moved_down st).
  set (moved := if (APK_ISTREAM_ALIGN_SYNC <=? is_ptr st)%nat then _ else _).
  assert (match moved with None => True | Some s => touches st s end) as Hm.
  { unfold moved. destruct (Nat.leb_spec APK_ISTREAM_ALIGN_SYNC (is_ptr st)); [by apply rtc_once, to_move |]. by case_if. }
  destruct moved as [s|]; [| done]. pose proof (read_into_touches s) as Hr. destruct (read_into_buf s) as [[[|c d]|e] s']; cbn [snd].
  - etrans; [exact Hm |]. etrans; [by apply Hr | apply error_touches].
  - etrans; [exact Hm | apply Hr].
  - etrans; [exact Hm |]. etrans; [exact Hr | apply error_touches].
Qed.

Lemma peek_touches len st r st' : apk_istream_peek len st = Some (r, st') -> touches st st'.
Proof.
  unfold apk_istream_peek. destruct (is_err st <? 0); [by intros [= <- <-] |]. generalize (S (S (S (buf_size st)))). intros fuel.
  revert st. induction fuel as [|fuel IH]; intros st; [done |]. cbn [peek_loop]. case_if; [by intros [= <- <-] |].
  pose proof (fill_touches st) as Hf. destruct (__apk_istream_fill st) as [x st1]. case_if; [| intros [= <- <-]; done].
  intros E. etrans; [exact Hf | by apply IH].
Qed.

Definition ordered st : Prop := (is_ptr st <= is_end st)%nat.

Lemma touches_ordered st st' : touches st st' -> ordered st -> ordered st'.
Proof.
  induction 1 as [|st st1 st2 Ht _ IH]; [done |]. intros Ho. apply IH. destruct Ht; unfold ordered in *; simpl; try done; try lia.
Qed.

Lemma data_le st : ordered st -> (is_ptr st + length (is_data st) <= is_end st)%nat.
Proof. unfold ordered, is_data, slice. rewrite length_take, length_drop. lia. Qed.

(** The operations a client has. *)
Inductive use : istream R -> istream R -> Prop :=
| u_peek st len r st' : apk_istream_peek len st = Some (r, st') -> use st st'
| u_get st len r st' : apk_istream_get len st = Some (r, st') -> use st st'
| u_get_max st max r d st' : apk_istream_get_max max st = (r, d, st') -> use st st'
| u_get_delim st token r d st' : apk_istream_get_delim token st = Some (r, d, st') -> use st st'
| u_skip st size r st' : apk_istream_skip size st = Some (r, st') -> use st st'
| u_read_max st size r out st' : apk_istream_read_max size st = Some (r, out, st') -> use st st'
| u_read st size r out st' : apk_istream_read size st = Some (r, out, st') -> use st st'.

Lemma peek_data len st d st' : apk_istream_peek len st = Some (inr d, st') -> (len <= is_end st' - is_ptr st')%nat.
Proof.
  unfold apk_istream_peek. destruct (is_err st <? 0); [done |]. generalize (S (S (S (buf_size st)))). intros fuel.
  revert st. induction fuel as [|fuel IH]; intros st; [done |]. cbn [peek_loop].
  destruct (Nat.leb_spec len (is_end st - is_ptr st)); [by intros [= _ <-] |].
  destruct (__apk_istream_fill st) as [x st1]. case_if; [apply IH | done].
Qed.

Lemma get_touches len st r st' : ordered st -> apk_istream_get len st = Some (r, st') -> touches st st'.
Proof.
  intros Ho. unfold apk_istream_get. destruct (apk_istream_peek len st) as [[r1 st1]|] eqn:E; [| done]. cbn [mbind option_bind].
  pose proof (peek_touches _ _ _ _ E) as Ht. destruct r1 as [e|d]; intros [= <- <-].
  - etrans; [exact Ht | apply error_touches].
  - etrans; [exact Ht |]. pose proof (peek_data _ _ _ _ E). pose proof (touches_ordered _ _ Ht Ho). unfold ordered in *. apply pos_touches; lia.
Qed.

Lemma get_max_touches max st r d st' : ordered st -> apk_istream_get_max max st = (r, d, st') -> touches st st'.
Proof.
  intros Ho. unfold apk_istream_get_max. set (st1 := if (is_ptr st =? is_end st)%nat then _ else st).
  assert (touches st st1) as Ht by (unfold st1; case_if; [apply fill_touches | done]). clearbody st1.
  pose proof (touches_ordered _ _ Ht Ho) as Ho1. case_if; intros [= <- <- <-]; [| done]. etrans; [exact Ht |].
  pose proof (data_le st1 Ho1). apply pos_touches; [| done]. rewrite length_take. lia.
Qed.

Lemma get_delim_touches token st r d st' : ordered st -> apk_istream_get_delim token st = Some (r, d, st') -> touches st st'.
Proof.
  unfold apk_istream_get_delim. destruct (_ && _); [by intros _ [= <- <- <-] |]. generalize (S (S (S (buf_size st)))). intros fuel.
  revert st. induction fuel as [|fuel IH]; intros st Ho; [done |]. cbn [get_delim_loop].
  destruct (apk_blob_split (is_data st) token) as [[l rst]|] eqn:E.
  { intros [= <- <- <-]. apply pos_touches; [| done]. lia. }
  pose proof (fill_touches st) as Hf. destruct (__apk_istream_fill st) as [x st1]. pose proof (touches_ordered _ _ Hf Ho) as Ho1. simpl in Hf, Ho1.
  case_if; [intros E1; etrans; [exact Hf | by apply IH] |]. case_if.
  - pose proof (error_touches x st1) as He. destruct (apk_istream_error x st1) as [y st2]. intros [= <- <- <-]. by etrans.
  - intros [= <- <- <-]. etrans; [exact Hf |]. apply pos_touches; lia.
Qed.

Lemma skip_touches size st r st' : ordered st -> apk_istream_skip size st = Some (r, st') -> touches st st'.
Proof.
  unfold apk_istream_skip. generalize 0%nat as dn. generalize size at 1 as fuel.
  induction fuel as [|fuel IH] in st |- *; intros dn Ho; cbn [skip_loop]; case_if; try done; [by intros [= <- <-].. |].
  destruct (apk_istream_get_max _ st) as [[x d] st1] eqn:E. pose proof (get_max_touches _ _ _ _ _ Ho E) as Ht.
  case_if; [by intros [= <- <-] |]. intros E1. etrans; [exact Ht |]. eapply IH; [| exact E1]. by eapply touches_ordered.
Qed.

Lemma read_loop_touches fuel want r out st r' w' o' st' :
  ordered st -> read_loop fuel want r out st = Some (r', w', o', st') -> touches st st'.
Proof.
  revert want r out st. induction fuel as [|fuel IH]; intros want r out st Ho; [done |]. cbn [read_loop].
  destruct (Nat.eqb_spec want 0) as [|Hw]; [by intros [= <- <- <- <-] |]. case_if.
  { pose proof (data_le st Ho) as Hd. set (d := take want (is_data st)). assert (length d <= length (is_data st))%nat as Hl by (unfold d; rewrite length_take; lia).
    assert (touches st (set_is_pos (is_ptr st + length d) (is_end st) st)) as Ht by (apply pos_touches; lia).
    intros E. etrans; [exact Ht |]. eapply IH; [| exact E]. by eapply touches_ordered. }
  case_if; [by intros [= <- <- <- <-] |]. case_if.
  - destruct (read_op want (is_src st)) as [[[|c d]|e] src] eqn:E.
    + intros [= <- <- <- <-]. apply rtc_once. eapply to_none; [done | by left].
    + intros E1. set (pos := (_ mod APK_ISTREAM_ALIGN_SYNC)%nat) in E1.
      assert (pos < APK_ISTREAM_ALIGN_SYNC)%nat as Hpos by (apply Nat.mod_upper_bound; done).
      assert (touches st (set_is_pos pos pos (set_is_src src st))) as Ht by (apply rtc_once; apply (to_direct st want (c :: d) src); [lia | done | done | done]).
      etrans; [exact Ht |]. eapply IH; [| exact E1]. by eapply touches_ordered.
    + intros [= <- <- <- <-]. apply rtc_once. eapply to_none; [done | by right; eexists].
  - set (pos := (is_ptr st mod APK_ISTREAM_ALIGN_SYNC)%nat).
    assert (touches st (set_is_pos pos pos st)) as Hp by (apply pos_touches; [done |]; unfold ordered in Ho; pose proof (Nat.Div0.mod_le (is_ptr st) APK_ISTREAM_ALIGN_SYNC); unfold pos; lia).
    pose proof (read_into_touches (set_is_pos pos pos st)) as Hr. destruct (read_into_buf _) as [[[|c d]|e] st1] eqn:E.
    + intros [= <- <- <- <-]. etrans; [exact Hp | by apply Hr].
    + destruct Hr as [Hr _]. assert (is_ptr st1 = pos /\ is_end st1 = pos) as [P1 P2].
      { unfold read_into_buf in E. destruct (read_op _ _) as [[]]; by simplify_eq. }
      rewrite P1, P2 in *. intros E1. etrans; [exact Hp |]. etrans; [exact Hr |]. refine (IH _ _ _ _ _ E1). unfold ordered. simpl. lia.
    + intros [= <- <- <- <-]. etrans; [exact Hp | exact Hr].
Qed.

Lemma read_max_touches size st r out st' : ordered st -> apk_istream_read_max size st = Some (r, out, st') -> touches st st'.
Proof.
  intros Ho. unfold apk_istream_read_max. case_if; [by intros [= <- <- <-] |].
  destruct (read_loop _ size 0 [] st) as [[[[x w] o] st1]|] eqn:E; [| done]. cbn [mbind option_bind]. pose proof (read_loop_touches _ _ _ _ _ _ _ _ _ Ho E) as Ht.
  case_if; [| case_if].
  - pose proof (error_touches x st1) as He. destruct (apk_istream_error x st1). intros [= <- <- <-]. by etrans.
  - set (e := if negb (size =? 0)%nat && (is_err st1 =? 0) then 1 else 0). pose proof (error_touches e st1) as He. destruct (apk_istream_error e st1). intros [= <- <- <-]. by etrans.
  - by intros [= <- <- <-].
Qed.

Lemma use_touches st st' : ordered st -> use st st' -> touches st st'.
Proof.
  intros Ho. destruct 1 as [st len r st' E|st len r st' E|st max r d st' E|st token r d st' E|st size r st' E|st size r out st' E|st size r out st' E].
  - by eapply peek_touches.
  - by eapply get_touches.
  - by eapply get_max_touches.
  - by eapply get_delim_touches.
  - by eapply skip_touches.
  - by eapply read_max_touches.
  - unfold apk_istream_read in E. destruct (apk_istream_read_max size st) as [[[x o] st1]|] eqn:E1; [| done]. cbn [mbind option_bind] in E.
    pose proof (read_max_touches _ _ _ _ _ Ho E1) as Ht. revert E. case_if; [by intros [= <- <- <-] |].
    pose proof (error_touches (- APKE_EOF) st1) as He. destruct (apk_istream_error (- APKE_EOF) st1). intros [= <- <- <-]. by etrans.
Qed.

Lemma uses_touches st st' : ordered st -> rtc use st st' -> touches st st'.
Proof.
  intros Ho. induction 1 as [|st st1 st2 Hu _ IH]; [done |]. pose proof (use_touches _ _ Ho Hu) as Ht. etrans; [exact Ht |]. apply IH. by eapply touches_ordered.
Qed.
End Touch.

(** ** Segments *)

Section Segment.
Context {R : Type} `{ReaderSpec R}.
Implicit Types (s : istream (segment R)).

(** What the stream that was cut will have after the segment, [K] and [E], is safe: in the
    buffer behind everything the segment uses, or not read yet. *)
Record seg_inv (K : bytes) (E : Z) (c : cut) s : Prop := {
  sg_order : (is_ptr s <= is_end s <= buf_size s)%nat;
  sg_room : (APK_ISTREAM_ALIGN_SYNC < buf_size s)%nat;
  sg_rest : match cut_pos c with
            | Some (p, e) => (is_end s <= p <= e)%nat /\ (e <= buf_size s)%nat /\ seg_bytes_left (is_src s) = 0%nat
                /\ slice p e (is_buf s) ++ rest (seg_inner (is_src s)) = K
            | None => (seg_bytes_left (is_src s) <= length (rest (seg_inner (is_src s))))%nat
                /\ drop (seg_bytes_left (is_src s)) (rest (seg_inner (is_src s))) = K
            end;
  sg_ending : ending (seg_inner (is_src s)) = E;
  sg_err : 0 <= cut_err c /\ (cut_err c <> 0 -> rest (seg_inner (is_src s)) = [] /\ ending (seg_inner (is_src s)) = 0);
}.

(** One read of the segment. *)
Lemma seg_read_inv E c n (g : segment R) a g' :
  match cut_pos c with
  | Some _ => seg_bytes_left g = 0%nat
  | None => (seg_bytes_left g <= length (rest (seg_inner g)))%nat
  end -> ending (seg_inner g) = E ->
  (cut_err c <> 0 -> rest (seg_inner g) = [] /\ ending (seg_inner g) = 0) ->
  read_op n g = (a, g') ->
  (a = Got [] /\ g' = g) \/
  (exists d, a = Got d /\ d <> [] /\ (length d <= n)%nat /\ cut_pos c = None /\ (seg_bytes_left g' <= length (rest (seg_inner g')))%nat
     /\ drop (seg_bytes_left g') (rest (seg_inner g')) = drop (seg_bytes_left g) (rest (seg_inner g)) /\ ending (seg_inner g') = E /\ cut_err c = 0).
Proof.
  intros Hbl Hend Herr. unfold read_op, segment_reader, segment_read. set (k := if (seg_bytes_left g <? n)%nat then _ else n).
  assert (k <= n /\ k <= seg_bytes_left g)%nat as [Hk1 Hk2] by (unfold k; destruct (Nat.ltb_spec (seg_bytes_left g) n); lia). clearbody k.
  destruct (Nat.eqb_spec k 0) as [->|Hk]; [intros [= <- <-]; by left |].
  destruct (cut_pos c); [lia |]. pose proof (read_spec k (seg_inner g) ltac:(lia)) as Hr. fold (read_op k (seg_inner g)).
  destruct (read_op k (seg_inner g)) as [[[|x d]|e] inner'].
  - destruct Hr as (Hr & _). rewrite Hr in Hbl. simpl in Hbl. lia.
  - destruct Hr as (Hr & He & Hl). intros [= <- <-]. right. exists (x :: d). cbn [seg_bytes_left seg_inner]. rewrite Hr, length_app in *.
    cbn [length] in *. split_and!; try done; try lia.
    + rewrite (drop_app_ge (x :: d)) by (simpl; lia). done.
    + destruct (decide (cut_err c = 0)) as [|Hne]; [done |]. by destruct (Herr Hne).
  - destruct Hr as (Hr & _). rewrite Hr in Hbl. simpl in Hbl. lia.
Qed.

Lemma touch_seg_inv K E c s s' : touch s s' -> seg_inv K E c s -> seg_inv K E c s'.
Proof.
  intros Ht [Ho Hroom Hrest Hend [Herr1 Herr2]].
  assert (match cut_pos c with Some _ => seg_bytes_left (is_src s) = 0%nat
          | None => (seg_bytes_left (is_src s) <= length (rest (seg_inner (is_src s))))%nat end) as Hbl.
  { destruct (cut_pos c) as [[p e]|]; apply Hrest. }
  destruct Ht as [s p e Hp He|s e|s Hp|s d src Hr|s n d src pos Hn Hr Hd Hpos|s n a src Hr Ha].
  - split; simpl; try done; unfold buf_size in *; simpl; try lia. destruct (cut_pos c) as [[p' e']|]; [| done]. destruct Hrest as (A1 & A2 & A3 & A4). split_and!; try done; lia.
  - by split.
  - set (q := (is_ptr s mod APK_ISTREAM_ALIGN_SYNC)%nat). assert (q < APK_ISTREAM_ALIGN_SYNC)%nat as Hq by (apply Nat.mod_upper_bound; done).
    assert (length (is_data s) = is_end s - is_ptr s)%nat as Hl by (apply length_slice; unfold buf_size in *; lia).
    assert (length (poke q (is_data s) (is_buf s)) = length (is_buf s)) as Hlen by (apply length_poke; unfold buf_size in *; lia).
    unfold moved_down. fold q. split; unfold buf_size in *; simpl; rewrite ?Hlen; try done; try lia.
    destruct (cut_pos c) as [[p e]|]; [| done]. destruct Hrest as (A1 & A2 & A3 & A4). split_and!; try done; try lia.
    rewrite slice_poke_above; [done | lia | lia].
  - destruct (seg_read_inv E c _ _ _ _ Hbl Hend Herr2 Hr) as [[[= ->] ->]|(d' & [= <-] & Hd & Hl & Hc & B1 & B2 & B3 & B4)].
    + simpl. rewrite poke_nil, Nat.add_0_r. destruct s. by split.
    + rewrite Hc in *. destruct Hrest as [A1 A2].
      assert (length (poke (is_end s) d (is_buf s)) = length (is_buf s)) as Hlen by (apply length_poke; unfold buf_size in *; lia).
      split; unfold buf_size in *; simpl; rewrite ?Hlen, ?Hc; try done; try lia. split; [done | congruence].
  - destruct (seg_read_inv E c _ _ _ _ Hbl Hend Herr2 Hr) as [[[= ->] ->]|(d' & [= <-] & _ & Hl & Hc & B1 & B2 & B3 & B4)]; [done |].
    rewrite Hc in *. destruct Hrest as [A1 A2]. split; unfold buf_size in *; simpl; rewrite ?Hc; try done; try lia. split; [done | congruence].
  - destruct (seg_read_inv E c _ _ _ _ Hbl Hend Herr2 Hr) as [[-> ->]|(d' & -> & Hd & _)].
    + destruct s. by split.
    + destruct Ha as [[= ->]|[? ?]]; done.
Qed.

Lemma segment_starts len (pis : istream R) :
  stream_inv pis -> (APK_ISTREAM_ALIGN_SYNC < buf_size pis)%nat -> (len <= length (content pis))%nat ->
  let '(s, c) := apk_istream_segment len pis in
  stream_inv s /\ content s = take len (content pis) /\ finally s = 0 /\ seg_inv (drop len (content pis)) (finally pis) c s.
Proof.
  intros Hi Hroom Hlen. pose proof (length_data pis Hi) as Hl. destruct Hi as [I1 I2 I3 I4 I5]. unfold apk_istream_segment, content in *.
  rewrite length_app in Hlen. destruct (Nat.ltb_spec len (is_end pis - is_ptr pis)) as [Hw|Hw].
  - assert (slice (is_ptr pis) (is_ptr pis + len) (is_buf pis) = take len (is_data pis)) as Hs1.
    { unfold is_data, slice. rewrite take_take. f_equal. lia. }
    assert (slice (is_ptr pis + len) (is_end pis) (is_buf pis) = drop len (is_data pis)) as Hs2.
    { unfold is_data, slice. rewrite skipn_firstn_comm, drop_drop. f_equal. lia. }
    split_and!; unfold finally; cbn [is_src rest ending segment_reader_spec seg_bytes_left seg_inner].
    + split; unfold buf_size in *; simpl; try done; lia.
    + replace (len - (is_ptr pis + len - is_ptr pis))%nat with 0%nat by lia. rewrite take_0, app_nil_r, take_app_le by lia. exact Hs1.
    + by rewrite (proj2 (Nat.leb_le _ _)) by lia.
    + split; unfold buf_size in *; simpl; try done; try lia. split_and!; try lia. rewrite drop_app_le by lia. by rewrite Hs2.
  - split_and!; unfold finally; cbn [is_src rest ending segment_reader_spec seg_bytes_left seg_inner].
    + split; unfold buf_size in *; simpl; try done; lia.
    + rewrite take_app, (take_ge (is_data pis)) by lia. rewrite Hl. done.
    + by rewrite (proj2 (Nat.leb_le _ _)) by lia.
    + split; unfold buf_size in *; simpl; try done; try lia. split; [lia |]. rewrite drop_app_ge by lia. by rewrite Hl.
Qed.

Lemma segment_ends K E c s :
  seg_inv K E c s -> exists r pis, segment_close s c = Some (r, pis) /\ stream_inv pis /\ content pis = K /\ finally pis = E.
Proof.
  intros [Ho Hroom Hrest Hend [Herr1 Herr2]]. unfold segment_close.
  set (pos := match cut_pos c with Some p => p | None => _ end). set (pis := mk_is pos.1 pos.2 (is_buf s) (cut_err c) (seg_inner (is_src s))).
  assert (stream_inv pis) as Hi.
  { assert ((pos.1 <= pos.2)%nat /\ (pos.2 <= length (is_buf s))%nat) as [P1 P2].
    { unfold pos. destruct (cut_pos c) as [[p e]|]; simpl; [destruct Hrest as (? & ? & _); unfold buf_size in *; lia |].
      split; [done |]. unfold buf_size in *. pose proof (Z.mod_pos_bound (seg_align (is_src s)) (Z.of_nat APK_ISTREAM_ALIGN_SYNC) eq_refl). lia. }
    split; unfold buf_size in *; simpl; try done. }
  destruct (cut_pos c) as [[p e]|] eqn:Ec.
  - destruct Hrest as (A1 & A2 & A3 & A4). rewrite A3. simpl. eexists _, pis. split; [done |]. split_and!; try done.
  - destruct Hrest as [A1 A2]. assert (content pis = rest (seg_inner (is_src s))) as Hc by (unfold content, is_data, pis, pos; simpl; by rewrite slice_empty).
    destruct (Nat.eqb_spec (seg_bytes_left (is_src s)) 0) as [E0|E0].
    + eexists _, pis. split; [done |]. rewrite E0 in A2. split_and!; try done. by rewrite Hc.
    + destruct (skip_spec (seg_bytes_left (is_src s)) pis Hi) as (r & pis' & -> & Hs). rewrite Hc, (proj2 (Nat.leb_le _ _)) in Hs by done.
      destruct Hs as (_ & S1 & S2 & S3). cbn [mbind option_bind snd]. eexists _, pis'. split; [done |]. split_and!; [done | by rewrite S2 | by rewrite S3].
Qed.
End Segment.

(** ** Theorems *)

(** C17: a buffered stream is the sequence of bytes it stands for.  Whatever it
    reads from, however short the reads are and wherever its data sits in the buffer: getting
    [len] bytes that fit into the buffer gives the next [len] bytes and moves behind them;
    getting at most [max] bytes gives a non-empty part of them; skipping and copying move over
    exactly the bytes asked for; and when fewer bytes are left, the answer is the end of the
    stream or the error it ends with, after all bytes were delivered to a copy. *)
Theorem stream_exact (R : Type) `{ReaderSpec R} (st : istream R) :
  stream_inv st ->
  (forall len, fits len st -> exists res st', apk_istream_get len st = Some (res, st') /\
     if (len <=? length (content st))%nat
     then res = inr (take len (content st)) /\ stream_inv st' /\ content st' = drop len (content st) /\ finally st' = finally st
     else res = inl (eof_error (finally st))) /\
  (forall max, (0 < max)%nat -> let '(r, d, st') := apk_istream_get_max max st in
     match content st with
     | [] => r = eof_error (finally st) /\ d = None
     | _ => r = 0 /\ exists p, d = Some p /\ p <> [] /\ (length p <= max)%nat /\ content st = p ++ content st' /\ finally st' = finally st /\ stream_inv st'
     end) /\
  (forall size, exists r st', apk_istream_skip size st = Some (r, st') /\
     if (size <=? length (content st))%nat
     then r = s32 (Z.of_nat size) /\ stream_inv st' /\ content st' = drop size (content st) /\ finally st' = finally st
     else r = eof_error (finally st)) /\
  (forall size, exists r out st', apk_istream_read_max size st = Some (r, out, st') /\ out = take size (content st) /\
     if (size <=? length (content st))%nat || (finally st =? 0)
     then r = Z.of_nat (length out) /\ stream_inv st' /\ content st' = drop size (content st) /\ finally st' = finally st
     else r = finally st).
Proof.
  intros Hi. split_and!; intros n.
  - by apply get_spec.
  - by apply get_max_spec.
  - by apply skip_spec.
  - by apply read_max_spec.
Qed.

Definition ex_fd : fd_source := mk_fd (lit "alpine linux") [0; 2; 1; 3]%nat 0.

Lemma stream_exact_witness :
  exists r out st', apk_istream_read_max 6 (apk_istream_from_fd ex_fd 16) = Some (r, out, st') /\ out = lit "alpine" /\ content st' = lit " linux".
Proof.
  destruct (stream_exact fd_source (apk_istream_from_fd ex_fd 16) ltac:(apply from_fd_inv; unfold APK_ISTREAM_ALIGN_SYNC; lia)) as (_ & _ & _ & Hr).
  destruct (Hr 6%nat) as (r & out & st' & E & Hout & Hres). exists r, out, st'. split; [exact E |]. split; [exact Hout |].
  destruct Hres as (_ & _ & Hc & _). exact Hc.
Defined.

(** All lines of a file. *)
Lemma fd_lines data short fin size c :
  (APK_ISTREAM_ALIGN_SYNC < size)%nat -> Forall (fun l => (length l + APK_ISTREAM_ALIGN_SYNC <= size)%nat) (split_on c data) ->
  exists st', read_lines (S (S (length data))) [c] (apk_istream_from_fd (mk_fd data short fin) size) =
    Some (if fin <? 0 then (removelast (split_on c data), fin, st') else (split_on c data, - APKE_EOF, st'))
    /\ (is_err st' <? 0) = (fin <? 0).
Proof.
  intros Hs Hl. set (st := apk_istream_from_fd _ size). assert (content st = data) as Hc by done.
  destruct (read_lines_spec (S (S (length data))) c st) as (st' & -> & Herr); [by apply from_fd_inv | done | rewrite Hc; lia | |].
  { rewrite Hc. eapply Forall_impl; [exact Hl |]. intros l Hll _. change (buf_size st) with (length (replicate size 0)). rewrite length_replicate. cbv beta in Hll. lia. }
  exists st'. rewrite Hc in *. unfold finally in *. simpl in Herr |- *. destruct (fin <? 0) eqn:E; bool_prop.
  - rewrite Z.min_r, (proj2 (Z.eqb_neq _ _)) in * by lia. split; [done |]. apply Z.ltb_lt. lia.
  - rewrite Z.min_l in * by lia. split; [done |]. apply Z.ltb_ge. simpl in Herr. lia.
Qed.

(** Reading a file line by line gives its lines.  For every file, every way the
    system cuts its contents into reads, and every separator, the loop over
    [apk_istream_get_delim] ends; when every line fits into the buffer with eight bytes to
    spare, it yields exactly the pieces between the separators, with the last one even if it
    is empty, and reports the end of the file; when the file ends with an error, it yields the
    complete lines and reports the error. *)
Theorem file_lines data short fin size c :
  (APK_ISTREAM_ALIGN_SYNC < size)%nat -> Forall (fun l => (length l + APK_ISTREAM_ALIGN_SYNC <= size)%nat) (split_on c data) ->
  exists st', read_lines (S (S (length data))) [c] (apk_istream_from_fd (mk_fd data short fin) size) =
    Some (if fin <? 0 then (removelast (split_on c data), fin, st') else (split_on c data, - APKE_EOF, st'))
    /\ (is_err st' <? 0) = (fin <? 0).
Proof. intros Hs Hl. by apply fd_lines. Qed.

Lemma file_lines_witness :
  exists st', read_lines 8 [10] (apk_istream_from_fd (mk_fd [97; 10; 10; 98; 98; 10] [0; 1]%nat 0) 10) = Some ([[97]; []; [98; 98]; []], - APKE_EOF, st') /\ (is_err st' <? 0) = false.
Proof.
  apply (file_lines [97; 10; 10; 98; 98; 10] [0; 1]%nat 0 10 10).
  - unfold APK_ISTREAM_ALIGN_SYNC. lia.
  - apply (bool_decide_unpack _). vm_compute. reflexivity.
Defined.

(** C18: a segment of a stream is separate from the rest, although both work in
    the same buffer.  Cutting [len] bytes off a stream that has them gives a stream of exactly
    these bytes; whatever operations are then used on the segment, in any order and with any
    results, closing it leaves the first stream right behind the [len] bytes, with all bytes
    that follow unharmed. *)
Theorem segment_isolated (R : Type) `{ReaderSpec R} (pis : istream R) len :
  stream_inv pis -> (APK_ISTREAM_ALIGN_SYNC < buf_size pis)%nat -> (len <= length (content pis))%nat ->
  let '(s, c) := apk_istream_segment len pis in
  stream_inv s /\ content s = take len (content pis) /\ finally s = 0 /\
  (forall s', rtc use s s' -> exists r pis', segment_close s' c = Some (r, pis')
     /\ stream_inv pis' /\ content pis' = drop len (content pis) /\ finally pis' = finally pis).
Proof.
  intros Hi Hroom Hlen. pose proof (segment_starts len pis Hi Hroom Hlen) as Hs. destruct (apk_istream_segment len pis) as [s c].
  destruct Hs as (A1 & A2 & A3 & A4). split_and!; try done. intros s' Hu%uses_touches; [| apply A1]. apply segment_ends.
  clear A1 A2 A3. induction Hu as [|s s1 s2 Ht _ IH]; [done |]. apply IH. by eapply touch_seg_inv.
Qed.

Lemma segment_isolated_witness :
  content (apk_istream_segment 6 (apk_istream_from_fd ex_fd 16)).1 = lit "alpine" /\
  exists r pis', segment_close (apk_istream_segment 6 (apk_istream_from_fd ex_fd 16)).1 (apk_istream_segment 6 (apk_istream_from_fd ex_fd 16)).2 = Some (r, pis')
    /\ content pis' = lit " linux".
Proof.
  pose proof (segment_isolated fd_source (apk_istream_from_fd ex_fd 16) 6) as Hs.
  destruct (Hs ltac:(apply from_fd_inv; unfold APK_ISTREAM_ALIGN_SYNC; lia) ltac:(apply Nat.ltb_lt; vm_compute; reflexivity)
    ltac:(apply Nat.leb_le; vm_compute; reflexivity)) as (_ & A2 & _ & A4).
  split; [exact A2 |]. destruct (A4 _ (rtc_refl _ _)) as (r & pis' & E & _ & Hc & _). exists r, pis'. split; [exact E | exact Hc].
Defined.
