(* ===== verification/FdbStream.v ===== *)
(** * The installed database as a file (database.c, io.c)

    Writing a layer of the installed database to a file and reading the file back: the
    writer, the buffered stream, the loop over its lines and the reader together. *)

From S2P Require Import Prelude Blob Digest Hash Dep Package Dirs DirsFacts Catalog CatalogFacts CatalogSolver Installed InstalledFacts Fdb FdbText FdbRead FdbPackage FdbRoundTrip Stream StreamFacts.

Lemma layer_lines_fit tags rs size :
  Forall (fun r => Forall text_ok (pkg_lines tags r)) rs -> (APK_ISTREAM_ALIGN_SYNC <= size)%nat ->
  Forall (fun r => Forall (fun l => (length l + APK_ISTREAM_ALIGN_SYNC <= size)%nat) (pkg_lines tags r)) rs ->
  Forall (fun l => (length l + APK_ISTREAM_ALIGN_SYNC <= size)%nat) (split_on 10 (unlines (rs ≫= fun r => pkg_lines tags r ++ [[]]))).
Proof.
  intros Hok Hs Hl. rewrite <- (app_nil_r (unlines _)), split_unlines.
  - apply Forall_app. split; [| by repeat constructor]. apply Forall_bind. eapply Forall_impl; [exact Hl |]. intros r Hr. apply Forall_app.
    split; [done |]. by repeat constructor.
  - apply Forall_bind. eapply Forall_impl; [exact Hok |]. intros r Hr. apply Forall_app. split; [done |]. repeat constructor. apply not_elem_of_nil.
Qed.

(** C10: the installed database survives being written and read.  Take the
    packages of a layer whose fields the format can hold.  Writing them all with
    [apk_db_fdb_write] succeeds; reading the file through a buffered stream, whose buffer holds
    every line and whatever the system makes of the reads, and handing its lines to
    [apk_db_fdb_read] with a database without packages succeeds for whatever the file system answers and whatever the digest
    buffers held; afterwards the database has as many packages as were written, and each one
    is found installed with the same name, version, dependencies, texts, sizes, tags and
    digest, the same replaces list, priority, repository tag and flags, and with the same
    directories, access rights, files, owners, modes, extended attribute hashes and file
    digests. *)
Theorem installed_db_roundtrip simulate usermode fs_result fnmatch force_old_apk layer behind tags src pkgs c dir_buckets file_buckets ppaths g1 g2 short size :
  writable tags src layer pkgs -> reach c -> db_pkgs c = ∅ -> 0 < dir_buckets -> 0 < file_buckets ->
  length (d_data g1) = APK_DIGEST_LENGTH_MAX -> length (d_data g2) = APK_DIGEST_LENGTH_MAX ->
  (APK_ISTREAM_ALIGN_SYNC < size)%nat ->
  Forall (fun r => Forall (fun l => (length l + APK_ISTREAM_ALIGN_SYNC <= size)%nat) (pkg_lines tags r)) (layer_recs src layer pkgs) ->
  exists txt ls st db, fdb_write_layer tags (fd_inst src) (fd_diris src) layer pkgs 0 [] = Ok (0, txt)
    /\ read_lines (S (S (length txt))) [10] (apk_istream_from_fd (mk_fd txt short 0) size) = Some (ls, - APKE_EOF, st)
    /\ apk_db_fdb_read simulate usermode fs_result fnmatch force_old_apk APK_REPO_DB_INSTALLED layer behind tags g1 g2
         ls (is_err st) (mk_fdb c (inst_init dir_buckets file_buckets ppaths) ∅) = Ok (0, db)
    /\ (forall r, r ∈ layer_recs src layer pkgs -> exists a, installed_as db a r)
    /\ size_of_db db = length (layer_recs src layer pkgs).
Proof.
  intros Hw Hreach Hempty Hb1 Hb2 Hg1 Hg2 Hs Hl. set (txt := unlines (layer_recs src layer pkgs ≫= fun r => pkg_lines tags r ++ [[]])).
  destruct (fd_lines txt short 0 size 10 Hs) as (st & Hst & Herr).
  { apply layer_lines_fit; [| lia | done]. eapply Forall_impl; [apply Hw |]. intros r. apply pkg_lines_ok. }
  destruct (layer_roundtrip simulate usermode fs_result fnmatch force_old_apk layer behind tags src pkgs c dir_buckets file_buckets ppaths g1 g2 (is_err st))
    as (t & db & Hwr & -> & Hrd & Hall & Hn); try done; [by apply Z.ltb_ge in Herr |].
  exists txt, (split_on 10 txt), st, db. by split_and!.
Qed.

Lemma installed_db_roundtrip_witness :
  exists txt ls st db, fdb_write_layer [] (fd_inst ex_src) (fd_diris ex_src) 0 [ex_installed] 0 [] = Ok (0, txt)
    /\ read_lines (S (S (length txt))) [10] (apk_istream_from_fd (mk_fd txt [0; 3; 40]%nat 0) 80) = Some (ls, - APKE_EOF, st)
    /\ apk_db_fdb_read false false (fun _ => 0) ex_fnmatch false APK_REPO_DB_INSTALLED 0 0 [] (mk_digest 0 0 (replicate 64 255)) (mk_digest 0 0 (replicate 64 0))
         ls (is_err st) (mk_fdb apk_db_init (inst_init 5 5 []) ∅) = Ok (0, db)
    /\ (forall r, r ∈ layer_recs ex_src 0 [ex_installed] -> exists a, installed_as db a r)
    /\ size_of_db db = length (layer_recs ex_src 0 [ex_installed]).
Proof.
  apply (installed_db_roundtrip false false (fun _ => 0) ex_fnmatch false 0 0 [] ex_src [ex_installed] apk_db_init 5 5 []).
  - exact ex_writable.
  - apply reach_init.
  - reflexivity.
  - lia.
  - lia.
  - reflexivity.
  - reflexivity.
  - apply Nat.ltb_lt. vm_compute. reflexivity.
  - rewrite ex_recs. apply (bool_decide_unpack _). vm_compute. reflexivity.
Defined.
