(* ===== verification/InstallFile.v ===== *)
(** * Files on their way to disk (database.c)

    Installing a package extracts its files beside their final names; migrating them puts each
    in its place, claims it in the table of files and keeps what the administrator changed;
    purging takes the files of a package away.  The file system is the class [FileSystem] over
    a type of worlds: the backends (fs_fsys.c, fs_uvol.c) implement it with system calls. *)

From S2P Require Import Prelude Blob BlobCodec Digest Hash Dep Package PackageRules Path Dirs Catalog Installed Owner.

Definition APK_FS_PRIO_DISK : Z := 0.
Definition APK_FS_PRIO_UVOL : Z := 1.
Definition APK_FS_PRIO_MAX : Z := 2.

Inductive fs_ctrl :=
| APK_FS_CTRL_COMMIT | APK_FS_CTRL_APKNEW | APK_FS_CTRL_CANCEL | APK_FS_CTRL_DELETE | APK_FS_CTRL_DELETE_APKNEW.

#[global] Instance fs_ctrl_eq_dec : EqDecision fs_ctrl.
Proof. solve_decision. Defined.

(** The types of files, and the other bits of a mode. *)
Definition S_IFMT : Z := 0xf000.
Definition S_IFIFO : Z := 0x1000.
Definition S_IFCHR : Z := 0x2000.
Definition S_IFDIR : Z := 0x4000.
Definition S_IFBLK : Z := 0x6000.
Definition S_IFREG : Z := 0x8000.
Definition S_IFLNK : Z := 0xa000.
Definition S_IFSOCK : Z := 0xc000.
Definition file_type (mode : Z) : Z := Z.land mode S_IFMT.
Definition S_ISDIR (mode : Z) : bool := file_type mode =? S_IFDIR.
Definition S_ISREG (mode : Z) : bool := file_type mode =? S_IFREG.
Definition S_ISLNK (mode : Z) : bool := file_type mode =? S_IFLNK.
Definition perm_bits (mode : Z) : Z := Z.land mode 0xfff.

(** An entry of an archive, the parts of [struct apk_file_info] that are used here; [file_stat]
    is what is used of a file on disk. *)
Record apk_file_info := mk_ae {
  ae_name : bytes;
  ae_link_target : blob;
  ae_mode : Z;
  ae_uid : Z;
  ae_gid : Z;
  ae_size : Z;
  ae_mtime : Z;
  ae_device : Z;
  ae_digest : apk_digest;
  ae_xattr_digest : apk_digest;
  ae_xattrs : list (bytes * bytes);
}.

Record fileid := mk_fileid { fid_dev : Z; fid_ino : Z }.

#[global] Instance fileid_eq_dec : EqDecision fileid.
Proof. solve_decision. Defined.

Record file_stat := mk_stat { st_digest : apk_digest; st_id : fileid }.

(** Directories and files by their names; the results are zero or an error.  Extracting gets
    what the stream of the archive delivers. *)
Class FileSystem (W : Type) := {
  fs_priority : bytes -> Z;
  fs_file_info : bytes -> bytes -> Z -> W -> Z * file_stat;
  fs_file_control : bytes -> bytes -> fs_ctrl -> W -> Z * W;
  fs_extract : apk_file_info -> bytes -> W -> outcome (Z * W);
}.

(** What the file system promises to the database: an operation on a file changes what is at its
    path, and at the side paths it uses for temporary and for new configuration files; and only
    committing and deleting change what is at the path itself.  Extracting a file changes its
    temporary file alone.  [fs_fits] tells which names are short enough. *)
Definition keeps_file (c : fs_ctrl) : bool :=
  match c with APK_FS_CTRL_COMMIT | APK_FS_CTRL_DELETE => false | _ => true end.

Class FileSystemLaws (W : Type) `{FileSystem W} := {
  fs_side : bytes -> bytes -> bytes -> Prop;
  fs_fits : bytes -> bytes -> Prop;
  fs_frame d n c w d' n' alg : fs_fits d n -> fs_fits d' n' ->
    ~ fs_side d n (path_join d' n') -> path_join d' n' <> path_join d n \/ keeps_file c = true ->
    fs_file_info d' n' alg (fs_file_control d n c w).2 = fs_file_info d' n' alg w;
  fs_tmp : bytes -> bytes -> Prop;
  fs_extract_frame fi data w r w' d n alg : fs_fits d n -> S_ISDIR (ae_mode fi) = false ->
    fs_extract fi data w = Ok (r, w') -> ~ fs_tmp (ae_name fi) (path_join d n) ->
    fs_file_info d n alg w' = fs_file_info d n alg w;
}.

Section files.
Context {W : Type} `{FileSystem W}.

(** True when the file differs from what the database has, or is not known to it. *)
Definition apk_db_audit_file (dirname filename : bytes) (dbf : option apk_db_file) (w : W) : bool :=
  let alg := match dbf with Some f => f_digest_alg f | None => APK_DIGEST_NONE end in
  let '(r, fi) := fs_file_info dirname filename alg w in
  if negb (r =? 0) || (alg =? APK_DIGEST_NONE) then negb (r =? - ENOENT)
  else negb (apk_digest_cmp_blob (st_digest fi) alg (match dbf with Some f => f_digest f | None => [] end) =? 0).

Definition fileid_get (dirname filename : bytes) (w : W) : option fileid :=
  let '(r, fi) := fs_file_info dirname filename APK_DIGEST_NONE w in
  if negb (r =? 0) then None else Some (st_id fi).

(** [memcmp] of two structures: eight bytes of each number, the lowest first. *)
Fixpoint number_bytes (n : nat) (v : Z) : bytes :=
  match n with O => [] | S n => v mod 256 :: number_bytes n (v / 256) end.
Definition fileid_bytes (id : fileid) : bytes := number_bytes 8 (fid_dev id) ++ number_bytes 8 (fid_ino id).
Definition fileid_cmp (a b : fileid) : Z := memcmp (fileid_bytes a) (fileid_bytes b).

(** The database and the world; [mg_broken] is the flag of the package, [mg_fileids] the files that
    are new, and [mg_id_reset] tells that the user database was read anew. *)
Record migration := mk_mg {
  mg_db : inst_db;
  mg_w : W;
  mg_broken : bool;
  mg_fileids : option (list fileid);
  mg_id_reset : bool;
}.

(** A file of an instance, its key and its hash. *)
Definition dir_of (db : inst_db) (diri : nat) : apk_db_dir := dir_at (in_dirs db) (di_dir (diri_at db diri)).

Definition set_f_audited (v : bool) (f : apk_db_file) : apk_db_file :=
  mk_file (f_diri f) (f_acl f) v (f_broken f) (f_digest_alg f) (f_digest f) (f_namelen f) (f_name f).

(** What is done with the new file: put it in place, drop it, or keep it beside the old one. *)
Definition migrate_ctrl (clean_protected : bool) (db : inst_db) (diri file : nat) (ofile : option nat) (w : W) : fs_ctrl :=
  let dir := dir_of db diri in
  let dirname := dir_key dir in
  let filename := file_name db file in
  let overlay := match ofile with Some o => bool_decide (di_pkg (diri_at db (f_diri (file_at db o))) = Pkg_null) | None => false end in
  if overlay then APK_FS_CTRL_CANCEL
  else if negb (apk_protect_mode_none (dir_protect_mode dir)) && apk_db_audit_file dirname filename (file_at db <$> ofile) w then
    if clean_protected || negb (apk_db_audit_file dirname filename (Some (file_at db file)) w)
    then APK_FS_CTRL_CANCEL else APK_FS_CTRL_APKNEW
  else APK_FS_CTRL_COMMIT.

(** The file system part of one file. *)
Definition migrate_disk (clean_protected : bool) (diri file : nat) (ofile : option nat) (m : migration) : migration :=
  let db := mg_db m in
  let dirname := dir_key (dir_of db diri) in
  let filename := file_name db file in
  if f_broken (file_at db file) then m
  else
    let ctrl := migrate_ctrl clean_protected db diri file ofile (mg_w m) in
    let '(r, w) := fs_file_control dirname filename ctrl (mg_w m) in
    if r <? 0 then mk_mg db w true (mg_fileids m) (mg_id_reset m)
    else if bool_decide (dirname = lit "etc") && bool_decide (ctrl = APK_FS_CTRL_COMMIT) &&
            (bool_decide (filename = lit "passwd") || bool_decide (filename = lit "group"))
    then mk_mg db w (mg_broken m) (mg_fileids m) true
    else mk_mg db w (mg_broken m) (mg_fileids m) (mg_id_reset m).

(** The owner in the database. *)
Definition migrate_owner (diri file : nat) (ofile : option nat) (m : migration) : migration :=
  let db := mg_db m in
  let dir := dir_of db diri in
  let key := file_hash_key (dir_key dir) (file_name db file) in
  let hash := apk_blob_hash_seed (file_name db file) (dir_hash dir) in
  let claim (db : inst_db) := set_in_table (apk_hash_insert_hashed (in_table db) (mk_file_item file key) hash) db in
  match ofile with
  | Some o =>
      if bool_decide (o = file) then m
      else
        let db := upd_file o (set_f_audited true) db in
        let db := set_in_table (apk_hash_delete_hashed (in_table db) key hash).1 db in
        mk_mg (claim db) (mg_w m) (mg_broken m) (mg_fileids m) (mg_id_reset m)
  | None =>
      let ids := match mg_fileids m with
                 | Some ids => match fileid_get (dir_key dir) (file_name db file) (mg_w m) with
                               | Some id => Some (ids ++ [id])
                               | None => Some ids
                               end
                 | None => None
                 end in
      let db := set_in_stat_files (u32 (in_stat_files db + 1)) db in
      mk_mg (claim db) (mg_w m) (mg_broken m) ids (mg_id_reset m)
  end.

Definition migrate_file (clean_protected : bool) (diri file : nat) (m : migration) : migration :=
  let db := mg_db m in
  let dir := dir_of db diri in
  let ofile := fi_addr <$> apk_hash_get_hashed (in_table db) (file_hash_key (dir_key dir) (file_name db file))
                             (apk_blob_hash_seed (file_name db file) (dir_hash dir)) in
  migrate_owner diri file ofile (migrate_disk clean_protected diri file ofile m).

(** One instance; the priority of the next round comes with the state. *)
Definition migrate_diri (clean_protected : bool) (priority : Z) (diri : nat) (s : Z * migration) : Z * migration :=
  let '(next, m) := s in
  let dir_priority := fs_priority (dir_key (dir_of (mg_db m) diri)) in
  if negb (dir_priority =? priority) then
    (if (priority <? dir_priority) && (dir_priority <? next) then dir_priority else next, m)
  else
    let db := on_dirs (upd_dir (di_dir (diri_at (mg_db m) diri)) (set_dir_modified true)) (mg_db m) in
    let m := mk_mg db (mg_w m) (mg_broken m) (mg_fileids m) (mg_id_reset m) in
    (next, each (migrate_file clean_protected diri) (di_files (diri_at db diri)) m).

Definition apk_db_migrate_files_for_priority (clean_protected : bool) (diris : list nat) (priority : Z) (m : migration) : Z * migration :=
  each (migrate_diri clean_protected priority) diris (APK_FS_PRIO_MAX, m).

(** [for (prio = APK_FS_PRIO_DISK; prio != APK_FS_PRIO_MAX; )]. *)
Fixpoint migrate_rounds (fuel : nat) (clean_protected : bool) (diris : list nat) (prio : Z) (m : migration) : option migration :=
  if prio =? APK_FS_PRIO_MAX then Some m
  else match fuel with
       | O => None
       | S fuel =>
           let '(prio, m) := apk_db_migrate_files_for_priority clean_protected diris prio m in
           migrate_rounds fuel clean_protected diris prio m
       end.

Definition apk_db_migrate_files (clean_protected : bool) (diris : list nat) (m : migration) : option migration :=
  migrate_rounds 3 clean_protected diris APK_FS_PRIO_DISK m.

(** ** Purging *)

Section purge.
Context (simulate usermode : bool) (fs_result : list fs_call -> Z) (pkg_of : pkg_ref -> option apk_package).
Context (purge : bool).

Definition purge_file (is_installed : bool) (fileids : option (list fileid)) (dirclean delapknew : bool) (diri file : nat)
    (s : inst_db * W) : inst_db * W :=
  let '(db, w) := s in
  if f_audited (file_at db file) then s
  else
    let dir := dir_of db diri in
    let dirname := dir_key dir in
    let filename := file_name db file in
    let do_delete :=
      match fileids with
      | None => true
      | Some ids =>
          match fileid_get dirname filename w with
          | None => true
          | Some id => match bsearch (length ids) (fun x => fileid_cmp id x) ids with Some _ => false | None => true end
          end
      end in
    let w := if do_delete && (dirclean || negb (apk_db_audit_file dirname filename (Some (file_at db file)) w))
             then (fs_file_control dirname filename (if is_installed then APK_FS_CTRL_DELETE else APK_FS_CTRL_CANCEL) w).2
             else w in
    let w := if delapknew then (fs_file_control dirname filename APK_FS_CTRL_DELETE_APKNEW w).2 else w in
    if is_installed then
      let db := set_in_table (apk_hash_delete_hashed (in_table db) (file_hash_key dirname filename)
                               (apk_blob_hash_seed filename (dir_hash dir))).1 db in
      (set_in_stat_files (u32 (in_stat_files db - 1)) db, w)
    else (db, w).

Definition purge_files (is_installed : bool) (fileids : option (list fileid)) (diri : nat) (s : inst_db * W) : inst_db * W :=
  let none := apk_protect_mode_none (dir_protect_mode (dir_of (fst s) diri)) in
  let dirclean := purge || negb is_installed || none in
  let delapknew := is_installed && negb none in
  let '(db, w) := s in
  let db := if is_installed then on_dirs (upd_dir (di_dir (diri_at db diri)) (set_dir_modified true)) db else db in
  each (purge_file is_installed fileids dirclean delapknew diri) (di_files (diri_at db diri)) (db, w).

(** [fuel]: for releasing the directory. *)
Definition purge_diri (fuel : nat) (is_installed : bool) (fileids : option (list fileid)) (diri : nat) (s : inst_db * W)
    : outcome (option (inst_db * W)) :=
  let '(db, w) := purge_files is_installed fileids diri s in
  let! r := apk_db_diri_remove simulate usermode fs_result pkg_of fuel diri db in
  Ok (db ← r; Some (db, w)).

Fixpoint purge_diris (fuel : nat) (is_installed : bool) (fileids : option (list fileid)) (diris : list nat) (s : inst_db * W)
    : outcome (option (inst_db * W)) :=
  match diris with
  | [] => Ok (Some s)
  | diri :: diris =>
      let! r := purge_diri fuel is_installed fileids diri s in
      match r with None => Ok None | Some s => purge_diris fuel is_installed fileids diris s end
  end.

(** The instances of the package are freed afterwards. *)
Definition apk_db_purge_pkg (fuel : nat) (diris : list nat) (is_installed : bool) (fileids : option (list fileid)) (s : inst_db * W)
    : outcome (option (inst_db * W)) :=
  let fileids := match fileids with
                 | Some [] | None => None
                 | Some ids => Some (qsort fileid_cmp ids)
                 end in
  purge_diris fuel is_installed fileids diris s.
End purge.
End files.
Arguments migration W : clear implicits.
