(* ===== verification/InstallFacts.v ===== *)
(** * Files on their way to disk: what migrating and purging promise

    Migrating claims every file of a package in the table of files, exactly once; in protected
    directories it never replaces a file that differs from what the database knows.  Purging
    gives up what the package has. *)

From S2P Require Import Prelude Blob BlobCodec Digest Hash Dep Package PackageRules Path Dirs Catalog Installed InstalledFacts Owner InstallFile.

(** ** What migrating does not change *)

(** The names, flags and digests of files, instances and directories; only the audit flags of
    files may differ. *)
Definition unaudited (f : apk_db_file) : apk_db_file := set_f_audited false f.

Record same_shape (db db' : inst_db) : Prop := {
  ss_diris : in_diris db' = in_diris db;
  ss_dirs : forall a, dir_key (dir_at (in_dirs db') a) = dir_key (dir_at (in_dirs db) a) /\
    dir_hash (dir_at (in_dirs db') a) = dir_hash (dir_at (in_dirs db) a) /\
    dir_protect_mode (dir_at (in_dirs db') a) = dir_protect_mode (dir_at (in_dirs db) a);
  ss_files : forall f, unaudited (file_at db' f) = unaudited (file_at db f);
}.

Lemma same_shape_refl db : same_shape db db.
Proof. done. Qed.

Lemma same_shape_trans a b c : same_shape a b -> same_shape b c -> same_shape a c.
Proof.
  intros [A1 A2 A3] [B1 B2 B3]. split; [congruence | | intros f; by rewrite B3, A3].
  intros x. destruct (A2 x) as (? & ? & ?), (B2 x) as (? & ? & ?). split_and!; congruence.
Qed.

#[global] Instance same_shape_preorder : PreOrder same_shape.
Proof. split; [intros ?; apply same_shape_refl | intros ? ? ?; apply same_shape_trans]. Qed.

Section shape.
Context (db db' : inst_db) (Hs : same_shape db db').

Lemma shape_diri d : diri_at db' d = diri_at db d.
Proof. unfold diri_at. by rewrite (ss_diris _ _ Hs). Qed.

Lemma shape_dir d : dir_key (dir_of db' d) = dir_key (dir_of db d) /\ dir_hash (dir_of db' d) = dir_hash (dir_of db d) /\
  dir_protect_mode (dir_of db' d) = dir_protect_mode (dir_of db d).
Proof. unfold dir_of. rewrite shape_diri. apply (ss_dirs _ _ Hs). Qed.

Lemma shape_file f : exists b, file_at db' f = set_f_audited b (file_at db f).
Proof.
  exists (f_audited (file_at db' f)). pose proof (ss_files _ _ Hs f) as Hf. unfold unaudited, set_f_audited in *.
  destruct (file_at db' f), (file_at db f). simpl in *. congruence.
Qed.

Lemma shape_name f : file_name db' f = file_name db f.
Proof. unfold file_name. by destruct (shape_file f) as [b ->]. Qed.
End shape.

(** ** The table of files *)

Record table_ok (t : apk_hash file_item) : Prop := {
  to_wf : hash_wf t;
  to_unique : forall k, (length (items_of t k) <= 1)%nat;
}.

Definition owner (db : inst_db) (k : bytes) : option nat := fi_addr <$> apk_hash_get (in_table db) k.

Lemma delete_at_key (t : apk_hash file_item) k : apk_hash_delete_hashed t k (hash_key (V := file_item) k) = apk_hash_delete t k.
Proof. unfold apk_hash_delete, apk_hash_from_key. reflexivity. Qed.

Lemma table_insert t it : table_ok t -> apk_hash_get t (fi_key it) = None ->
  table_ok (apk_hash_insert t it) /\
  forall k, apk_hash_get (apk_hash_insert t it) k = if decide (k = fi_key it) then Some it else apk_hash_get t k.
Proof.
  intros [Hw Hu] Hn. split; [split |].
  - by apply apk_hash_insert_wf.
  - intros k. rewrite apk_hash_insert_items by done. cbn [get_key file_hash_ops]. case_decide as Hk; [| done]. subst k.
    rewrite apk_hash_get_items in Hn by done. destruct (items_of t (fi_key it)); [simpl; lia | done].
  - intros k. by rewrite apk_hash_get_insert.
Qed.

Lemma table_delete t k0 : table_ok t ->
  table_ok (apk_hash_delete t k0).1 /\
  forall k, apk_hash_get (apk_hash_delete t k0).1 k = if decide (k = k0) then None else apk_hash_get t k.
Proof.
  intros [Hw Hu]. destruct (apk_hash_delete_spec t k0 Hw) as (Hw' & _ & Hi). split; [split; [done |] |].
  - intros k. rewrite Hi. specialize (Hu k). case_decide; [| done]. destruct (items_of t k); simpl in *; lia.
  - intros k. rewrite !apk_hash_get_items, Hi by done. specialize (Hu k). case_decide; [| done]. by destruct (items_of t k) as [|? [|? ?]]; simpl in *; [| | lia].
Qed.

(** ** The files of a package *)

(** The key of a file of an instance. *)
Definition key_of (db : inst_db) (x : nat * nat) : bytes := file_hash_key (dir_key (dir_of db x.1)) (file_name db x.2).

Definition diri_pairs (db : inst_db) (d : nat) : list (nat * nat) := (fun f => (d, f)) <$> di_files (diri_at db d).
Definition pkg_pairs (db : inst_db) (diris : list nat) : list (nat * nat) := diris ≫= diri_pairs db.

Lemma shape_key db db' x : same_shape db db' -> key_of db' x = key_of db x.
Proof. intros Hs. unfold key_of. rewrite (shape_name _ _ Hs). by destruct (shape_dir _ _ Hs x.1) as [-> _]. Qed.

Lemma shape_pairs db db' l : same_shape db db' -> pkg_pairs db' l = pkg_pairs db l.
Proof. intros Hs. unfold pkg_pairs, diri_pairs. induction l as [|d l IH]; [done |]. cbn. by rewrite IH, (shape_diri _ _ Hs). Qed.

(** The hash that the code uses is the one of the table. *)
Definition dirs_hashed (db : inst_db) (diris : list nat) : Prop :=
  forall d, d ∈ diris -> dir_hash (dir_of db d) = apk_blob_hash (dir_key (dir_of db d)).

Lemma key_hash db d f diris : dirs_hashed db diris -> d ∈ diris ->
  apk_blob_hash_seed (file_name db f) (dir_hash (dir_of db d)) = hash_key (V := file_item) (key_of db (d, f)).
Proof. intros Hh Hd. unfold key_of. cbn [fst snd]. by rewrite file_hash_key_hash, (Hh d Hd). Qed.

Lemma filter_partition {A} (P Q : A -> Prop) `{forall x, Decision (P x)} `{forall x, Decision (Q x)} (l : list A) :
  (forall x, x ∈ l -> (P x /\ ~ Q x) \/ (Q x /\ ~ P x)) -> filter P l ++ filter Q l ≡ₚ l.
Proof.
  induction l as [|x l IH]; intros Hl; [done |]. rewrite !filter_cons.
  assert (filter P l ++ filter Q l ≡ₚ l) as IH' by (apply IH; intros y Hy; apply Hl; by right).
  destruct (Hl x) as [[]|[]]; [by left | |]; repeat case_decide; try done; cbn [app].
  - by rewrite IH'.
  - by rewrite <- Permutation_middle, IH'.
Qed.

Section migrate.
Context {W : Type} `{FileSystem W} (clean : bool) (diris : list nat).
Implicit Types m : migration W.

(** After the files of [done] were migrated, from a state with the database [db0]. *)
Record migrated (db0 : inst_db) (done : list (nat * nat)) (db : inst_db) : Prop := {
  md_shape : same_shape db0 db;
  md_table : table_ok (in_table db);
  md_done : forall x, x ∈ done -> owner db (key_of db0 x) = Some x.2;
  md_other : forall k, k ∉ (key_of db0 <$> done) -> owner db k = owner db0 k;
  md_stat : in_stat_files db =
    u32 (in_stat_files db0 + Z.of_nat (length (filter (fun x => owner db0 (key_of db0 x) = None) done)));
  md_audited : forall x o, x ∈ done -> owner db0 (key_of db0 x) = Some o -> o <> x.2 -> f_audited (file_at db o) = true;
}.

Lemma migrate_disk_db d f o m : mg_db (migrate_disk clean d f o m) = mg_db m.
Proof. unfold migrate_disk. repeat case_match; done. Qed.

Lemma upd_audited_shape db o : same_shape db (upd_file o (set_f_audited true) db).
Proof.
  split; [done | done |]. intros f. unfold file_at at 1, upd_file. cbn [in_files set_in_files].
  destruct (decide (f = o)) as [->|Hf]; [rewrite lookup_insert_eq | by rewrite lookup_insert_ne]. done.
Qed.

Lemma set_table_shape t db : same_shape db (set_in_table t db).
Proof. done. Qed.

Lemma file_at_set_table t db f : file_at (set_in_table t db) f = file_at db f.
Proof. done. Qed.

Lemma audited_upd db o f : f_audited (file_at (upd_file o (set_f_audited true) db) f) = bool_decide (f = o) || f_audited (file_at db f).
Proof.
  unfold file_at at 1, upd_file. cbn [in_files set_in_files].
  destruct (decide (f = o)) as [->|Hf]; [by rewrite lookup_insert_eq, bool_decide_true | by rewrite lookup_insert_ne, bool_decide_false].
Qed.

Lemma migrate_owner_spec db0 done m d f : dirs_hashed db0 diris -> d ∈ diris ->
  migrated db0 done (mg_db m) -> key_of db0 (d, f) ∉ (key_of db0 <$> done) ->
  migrated db0 (done ++ [(d, f)]) (mg_db (migrate_owner d f (owner (mg_db m) (key_of db0 (d, f))) m)).
Proof.
  intros Hh Hd [M1 M2 M3 M4 M5 M6] Hnew. set (k := key_of db0 (d, f)) in *. set (db := mg_db m) in *.
  assert (owner db k = owner db0 k) as Hown by (by apply M4).
  assert (file_hash_key (dir_key (dir_of db d)) (file_name db f) = k) as Hk by (apply (shape_key _ _ (d, f) M1)).
  assert (apk_blob_hash_seed (file_name db f) (dir_hash (dir_of db d)) = hash_key (V := file_item) k) as Hhash.
  { destruct (shape_dir _ _ M1 d) as (_ & -> & _). rewrite (shape_name _ _ M1). by apply (key_hash db0 d f diris). }
  assert (u32 (in_stat_files db) = in_stat_files db) as Hu by (rewrite M5; unfold u32; apply Zmod_mod).
  assert (forall db' : inst_db, same_shape db db' -> table_ok (in_table db') ->
    (forall k', owner db' k' = if decide (k' = k) then Some f else owner db k') ->
    in_stat_files db' = u32 (in_stat_files db + (if decide (owner db0 k = None) then 1 else 0)) ->
    (forall g, f_audited (file_at db g) = true -> f_audited (file_at db' g) = true) ->
    (forall o, owner db0 k = Some o -> o <> f -> f_audited (file_at db' o) = true) ->
    migrated db0 (done ++ [(d, f)]) db') as Hnext.
  { intros db' N1 N2 N3 N4 N5 N6. split; [by etransitivity | done | | | |].
    - intros x [Hx|Hx]%elem_of_app; rewrite N3.
      + rewrite decide_False; [by apply M3 |]. intros He. apply Hnew. rewrite <- He. by apply list_elem_of_fmap_2.
      + apply list_elem_of_singleton in Hx as ->. by rewrite decide_True.
    - intros k' Hk'. rewrite fmap_app, not_elem_of_app in Hk'. destruct Hk' as [H1 H2]. rewrite N3, decide_False; [by apply M4 |].
      intros ->. apply H2. by left.
    - rewrite N4, M5, filter_app, length_app. unfold u32. rewrite Zplus_mod_idemp_l. f_equal. rewrite filter_cons. fold k.
      case_decide; simpl; lia.
    - intros x o [Hx|Hx]%elem_of_app Ho Hne; [by apply N5, (M6 x) |]. apply list_elem_of_singleton in Hx as ->. by apply N6. }
  unfold migrate_owner. fold db. rewrite Hk, Hhash. destruct (owner db k) as [o|] eqn:Eo.
  - case_bool_decide as Hof.
    + subst o. apply Hnext; try done.
      * intros k'. destruct (decide (k' = k)) as [->|]; [done | done].
      * rewrite decide_False by congruence. by rewrite Z.add_0_r.
      * congruence.
    + destruct (table_delete (in_table db) k M2) as [D1 D2].
      destruct (table_insert (apk_hash_delete (in_table db) k).1 (mk_file_item f k) D1) as [I1 I2]; [by rewrite D2, decide_True |].
      cbv zeta. rewrite delete_at_key, insert_at_key. apply Hnext; cbn [mg_db].
      * by etransitivity; [apply upd_audited_shape |].
      * exact I1.
      * intros k'. unfold owner at 1. cbn [in_table set_in_table]. rewrite I2. cbn [fi_key]. destruct (decide (k' = k)); [done |].
        rewrite D2, decide_False by done. done.
      * rewrite decide_False by congruence. by rewrite Z.add_0_r.
      * intros g Hg. rewrite !file_at_set_table, audited_upd, Hg. apply orb_true_r.
      * intros o' Ho' _. rewrite <- Hown in Ho'. injection Ho' as <-. by rewrite !file_at_set_table, audited_upd, bool_decide_true.
  - destruct (table_insert (in_table db) (mk_file_item f k) M2) as [I1 I2].
    { unfold owner in Eo. by apply fmap_None in Eo. }
    cbv zeta. rewrite insert_at_key. apply Hnext; cbn [mg_db].
    + done.
    + exact I1.
    + intros k'. unfold owner at 1. cbn [in_table set_in_table]. rewrite I2. cbn [fi_key]. by destruct (decide (k' = k)).
    + rewrite decide_True by congruence. done.
    + done.
    + congruence.
Qed.

Lemma migrate_file_lookup db0 m d f : dirs_hashed db0 diris -> d ∈ diris -> same_shape db0 (mg_db m) ->
  migrate_file clean d f m =
    let ofile := owner (mg_db m) (key_of db0 (d, f)) in migrate_owner d f ofile (migrate_disk clean d f ofile m).
Proof.
  intros Hh Hd Hs. unfold migrate_file. cbv zeta.
  assert (file_hash_key (dir_key (dir_of (mg_db m) d)) (file_name (mg_db m) f) = key_of db0 (d, f)) as -> by (apply (shape_key _ _ (d, f) Hs)).
  assert (apk_blob_hash_seed (file_name (mg_db m) f) (dir_hash (dir_of (mg_db m) d)) = hash_key (V := file_item) (key_of db0 (d, f))) as ->.
  { destruct (shape_dir _ _ Hs d) as (_ & -> & _). rewrite (shape_name _ _ Hs). by apply (key_hash db0 d f diris). }
  by rewrite get_at_key.
Qed.

Lemma migrate_file_spec db0 done m d f : dirs_hashed db0 diris -> d ∈ diris ->
  migrated db0 done (mg_db m) -> key_of db0 (d, f) ∉ (key_of db0 <$> done) ->
  migrated db0 (done ++ [(d, f)]) (mg_db (migrate_file clean d f m)).
Proof.
  intros Hh Hd Hm Hnew. rewrite (migrate_file_lookup db0) by (try done; apply Hm). cbv zeta.
  rewrite <- (migrate_disk_db d f (owner (mg_db m) (key_of db0 (d, f))) m) at 1.
  apply migrate_owner_spec; try done. by rewrite migrate_disk_db.
Qed.

(** Marking a directory. *)
Definition mark_modified (d : nat) (m : migration W) : migration W :=
  mk_mg (on_dirs (upd_dir (di_dir (diri_at (mg_db m) d)) (set_dir_modified true)) (mg_db m)) (mg_w m) (mg_broken m) (mg_fileids m) (mg_id_reset m).

Lemma mark_shape d m : same_shape (mg_db m) (mg_db (mark_modified d m)).
Proof.
  split; [done | | done]. intros a. unfold mark_modified, on_dirs, dir_at, upd_dir. cbn [mg_db in_dirs set_in_dirs dd_dirs set_dd_dirs].
  destruct (decide (a = di_dir (diri_at (mg_db m) d))) as [->|Ha]; [by rewrite lookup_insert_eq | by rewrite lookup_insert_ne].
Qed.

Lemma mark_migrated db0 done m d : migrated db0 done (mg_db m) -> migrated db0 done (mg_db (mark_modified d m)).
Proof. intros [M1 M2 M3 M4 M5 M6]. split; try done. etransitivity; [exact M1 | apply mark_shape]. Qed.

(** What holds before, and is kept by every step, holds after all files of the package were
    migrated, each exactly once. *)
Section induction.
Context (db0 : inst_db) (P : list (nat * nat) -> migration W -> Prop).
Context (Pshape : forall done m, P done m -> same_shape db0 (mg_db m)).
Context (Pmark : forall done m d, d ∈ diris -> P done m -> P done (mark_modified d m)).
Context (Pfile : forall done m d f, d ∈ diris -> f ∈ di_files (diri_at db0 d) -> key_of db0 (d, f) ∉ (key_of db0 <$> done) ->
  P done m -> P (done ++ [(d, f)]) (migrate_file clean d f m)).
Context (Hprio : forall d, d ∈ diris -> fs_priority (dir_key (dir_of db0 d)) = APK_FS_PRIO_DISK \/ fs_priority (dir_key (dir_of db0 d)) = APK_FS_PRIO_UVOL).

Abbreviation prio d := (fs_priority (dir_key (dir_of db0 d))).

Lemma files_ind done m d fs : d ∈ diris -> (forall f, f ∈ fs -> f ∈ di_files (diri_at db0 d)) ->
  NoDup (key_of db0 <$> (done ++ ((fun f => (d, f)) <$> fs))) -> P done m ->
  P (done ++ ((fun f => (d, f)) <$> fs)) (each (migrate_file clean d) fs m).
Proof.
  intros Hd. revert done m. induction fs as [|f fs IH]; intros done m Hin Hnd HP; cbn [each fmap list_fmap].
  { by rewrite app_nil_r. }
  rewrite fmap_cons in *. change (?a ++ ?x :: ?b) with (a ++ [x] ++ b) in *. rewrite app_assoc in *. apply IH.
  - intros g Hg. apply Hin. by right.
  - done.
  - apply Pfile; [done | apply Hin; by left | | done]. rewrite fmap_app in Hnd. apply NoDup_app in Hnd as [Hnd _].
    rewrite fmap_app in Hnd. apply NoDup_app in Hnd as (_ & Hnd & _). intros Hk. apply (Hnd _ Hk). by left.
Qed.

Lemma migrate_diri_eq p d next done m : P done m ->
  migrate_diri clean p d (next, m) =
    if negb (prio d =? p) then (if (p <? prio d) && (prio d <? next) then prio d else next, m)
    else (next, each (migrate_file clean d) (di_files (diri_at db0 d)) (mark_modified d m)).
Proof.
  intros HP. unfold migrate_diri. destruct (shape_dir _ _ (Pshape _ _ HP) d) as [-> _].
  rewrite <- (shape_diri _ _ (Pshape _ _ HP) d). done.
Qed.

Lemma diris_ind p l done next m : (forall d, d ∈ l -> d ∈ diris) ->
  NoDup (key_of db0 <$> (done ++ pkg_pairs db0 (filter (fun d => prio d = p) l))) -> P done m ->
  let r := each (migrate_diri clean p) l (next, m) in
  P (done ++ pkg_pairs db0 (filter (fun d => prio d = p) l)) r.2 /\ r.1 <= next /\
  (r.1 = next \/ exists d, d ∈ l /\ p < prio d /\ r.1 = prio d) /\ (forall d, d ∈ l -> p < prio d -> r.1 <= prio d).
Proof.
  revert done next m. induction l as [|d l IH]; intros done next m Hl Hnd HP; cbn [each].
  { cbn. rewrite app_nil_r. split_and!; [done | lia | by left |]. intros d Hd. by apply elem_of_nil in Hd. }
  rewrite (migrate_diri_eq _ _ _ done) by done. cbv zeta.
  destruct (Z.eqb_spec (prio d) p) as [Hp|Hp]; cbn [negb].
  - rewrite filter_cons_True in * by done. unfold pkg_pairs in *. cbn [mbind list_bind] in *. rewrite app_assoc in *.
    destruct (IH (done ++ diri_pairs db0 d) next (each (migrate_file clean d) (di_files (diri_at db0 d)) (mark_modified d m))) as (I1 & I2 & I3 & I4).
    + intros x Hx. apply Hl. by right.
    + done.
    + apply files_ind; [apply Hl; by left | done | rewrite fmap_app in Hnd; by apply NoDup_app in Hnd as [? _] |].
      apply Pmark; [apply Hl; by left | done].
    + split_and!; [done | done | |].
      * destruct I3 as [?|(x & ? & ? & ?)]; [by left | right; exists x; split_and!; [by right | done | done]].
      * intros x [->|Hx]%elem_of_cons Hlt; [lia | by apply I4].
  - rewrite filter_cons_False in * by done.
    set (n := if (p <? prio d) && (prio d <? next) then prio d else next).
    destruct (IH done n m) as (I1 & I2 & I3 & I4); [intros x Hx; apply Hl; by right | done | done |].
    assert (n <= next /\ (n = next \/ p < prio d /\ n = prio d) /\ (p < prio d -> n <= prio d)) as (N1 & N2 & N3).
    { unfold n. destruct (Z.ltb_spec p (prio d)), (Z.ltb_spec (prio d) next); cbn [andb]; lia. }
    split_and!; [done | lia | |].
    + destruct I3 as [I3|(x & ? & ? & ?)]; [| right; exists x; split_and!; [by right | done | done]].
      destruct N2 as [N2|[N2 N2']]; [left; congruence | right; exists d; split_and!; [by left | done | congruence]].
    + intros x [->|Hx]%elem_of_cons Hlt; [lia | by apply I4].
Qed.

Abbreviation at_prio p l := (filter (fun d => prio d = p) l).

Lemma prio_partition : at_prio APK_FS_PRIO_DISK diris ++ at_prio APK_FS_PRIO_UVOL diris ≡ₚ diris.
Proof. apply filter_partition. intros d Hd. unfold APK_FS_PRIO_DISK, APK_FS_PRIO_UVOL in *. destruct (Hprio d Hd); lia. Qed.

(** There are at most two rounds. *)
Lemma migrate_files_ind m0 : P [] m0 -> NoDup (key_of db0 <$> pkg_pairs db0 diris) ->
  exists m done, apk_db_migrate_files clean diris m0 = Some m /\ P done m /\ done ≡ₚ pkg_pairs db0 diris.
Proof.
  intros HP Hnd. pose proof prio_partition as Hperm.
  assert (pkg_pairs db0 (at_prio APK_FS_PRIO_DISK diris) ++ pkg_pairs db0 (at_prio APK_FS_PRIO_UVOL diris) ≡ₚ pkg_pairs db0 diris) as Hpairs.
  { unfold pkg_pairs. by rewrite <- bind_app, Hperm. }
  assert (NoDup (key_of db0 <$> (pkg_pairs db0 (at_prio APK_FS_PRIO_DISK diris) ++ pkg_pairs db0 (at_prio APK_FS_PRIO_UVOL diris)))) as Hnd'
    by (by rewrite Hpairs).
  unfold apk_db_migrate_files. cbn [migrate_rounds]. change (APK_FS_PRIO_DISK =? APK_FS_PRIO_MAX) with false. cbv iota.
  unfold apk_db_migrate_files_for_priority at 1.
  destruct (diris_ind APK_FS_PRIO_DISK diris [] APK_FS_PRIO_MAX m0) as (I1 & I2 & I3 & I4); [done | | done |].
  { rewrite fmap_app in Hnd'. by apply NoDup_app in Hnd' as [? _]. }
  destruct (each _ _ _) as [n1 m1]. cbn [fst snd app] in *.
  destruct I3 as [->|(d & Hd & Hlt & Hn)].
  - exists m1, (pkg_pairs db0 (at_prio APK_FS_PRIO_DISK diris)). split_and!; [done | done |].
    rewrite <- Hpairs. replace (at_prio APK_FS_PRIO_UVOL diris) with (@nil nat); [by rewrite app_nil_r |].
    symmetry. apply elem_of_nil_inv. intros d [Hp Hd]%list_elem_of_filter. specialize (I4 d Hd). unfold APK_FS_PRIO_DISK, APK_FS_PRIO_UVOL, APK_FS_PRIO_MAX in *. lia.
  - assert (n1 = APK_FS_PRIO_UVOL) as -> by (destruct (Hprio d Hd); unfold APK_FS_PRIO_DISK, APK_FS_PRIO_UVOL in *; lia).
    change (APK_FS_PRIO_UVOL =? APK_FS_PRIO_MAX) with false. cbv iota. unfold apk_db_migrate_files_for_priority.
    destruct (diris_ind APK_FS_PRIO_UVOL diris _ APK_FS_PRIO_MAX m1 (fun _ H => H) Hnd' I1) as (J1 & _ & J3 & _).
    destruct (each _ _ _) as [n2 m2]. cbn [fst snd] in *.
    assert (n2 = APK_FS_PRIO_MAX) as -> by (destruct J3 as [|(x & Hx & Hl & _)]; [done |];
      destruct (Hprio x Hx); unfold APK_FS_PRIO_DISK, APK_FS_PRIO_UVOL in *; lia).
    exists m2. eexists. split_and!; [done | exact J1 | done].
Qed.
End induction.
End migrate.

Lemma migrated_perm db0 l l' db : l ≡ₚ l' -> migrated db0 l db -> migrated db0 l' db.
Proof.
  intros Hp [M1 M2 M3 M4 M5 M6]. split; try done.
  - intros x. rewrite <- Hp. apply M3.
  - intros k. rewrite <- Hp. apply M4.
  - by rewrite <- Hp.
  - intros x o. rewrite <- Hp. apply M6.
Qed.

Lemma migrated_nil db : table_ok (in_table db) -> 0 <= in_stat_files db < 2 ^ 32 -> migrated db [] db.
Proof.
  intros Ht Hs. split; try done.
  - intros x Hx. by apply elem_of_nil in Hx.
  - cbn. rewrite Z.add_0_r. unfold u32. by rewrite Z.mod_small.
  - intros x o Hx. by apply elem_of_nil in Hx.
Qed.

(** What the database and the backends must be like: the files of the package have names of their own. *)
Record migratable {W} `{FileSystem W} (db : inst_db) (diris : list nat) : Prop := {
  mt_table : table_ok (in_table db);
  mt_stat : 0 <= in_stat_files db < 2 ^ 32;
  mt_hash : dirs_hashed db diris;
  mt_keys : NoDup (key_of db <$> pkg_pairs db diris);
  mt_prio : forall d, d ∈ diris -> fs_priority (dir_key (dir_of db d)) = APK_FS_PRIO_DISK \/ fs_priority (dir_key (dir_of db d)) = APK_FS_PRIO_UVOL;
}.

(** C20: Migrating the files of a package ends, and claims them: every file of the package
    is the owner of its name in the table of files, the names of other files are as before, the
    files are counted that had no owner, and the files that lost a name are marked, so that
    purging their package leaves them alone. *)
Theorem migrate_claims_files {W} `{FileSystem W} (clean : bool) (diris : list nat) (m0 : migration W) :
  migratable (mg_db m0) diris ->
  exists m, apk_db_migrate_files clean diris m0 = Some m /\ migrated (mg_db m0) (pkg_pairs (mg_db m0) diris) (mg_db m).
Proof.
  intros [Ht Hs Hh Hk Hp].
  destruct (migrate_files_ind clean diris (mg_db m0) (fun done m => migrated (mg_db m0) done (mg_db m))) with (m0 := m0) as (m & done & Hm & HP & Hperm).
  - by intros done m [].
  - intros done m d _. apply mark_migrated.
  - intros done m d f Hd _ Hnew HP. by apply (migrate_file_spec clean diris).
  - done.
  - by apply migrated_nil.
  - done.
  - exists m. split; [done |]. by eapply migrated_perm.
Qed.

(** ** Protected files *)

Section protect.
Context {W : Type} `{FileSystemLaws W}.

Abbreviation dname db x := (dir_key (dir_of db (fst x))).
Abbreviation path_of db x := (path_join (dname db x) (file_name db (snd x))).

(** The file in place is not what the database has: changed, or not known. *)
Definition locally_modified (db : inst_db) (x : nat * nat) (w : W) : Prop :=
  apk_protect_mode_none (dir_protect_mode (dir_of db x.1)) = false /\
  apk_db_audit_file (dname db x) (file_name db x.2) (file_at db <$> owner db (key_of db x)) w = true.

Lemma audit_file_ext d n f f' w w' : (forall alg, fs_file_info d n alg w' = fs_file_info d n alg w) ->
  unaudited <$> f' = unaudited <$> f -> apk_db_audit_file d n f' w' = apk_db_audit_file d n f w.
Proof.
  intros Hi Hf. unfold apk_db_audit_file. rewrite Hi.
  destruct f' as [[]|], f as [[]|]; try done. cbn in *. by injection Hf as -> -> -> -> -> -> ->.
Qed.

Lemma migrate_disk_frame clean d f o (m : migration W) d' n' :
  let db := mg_db m in
  fs_fits (dir_key (dir_of db d)) (file_name db f) -> fs_fits d' n' ->
  ~ fs_side (dir_key (dir_of db d)) (file_name db f) (path_join d' n') ->
  path_join d' n' <> path_join (dir_key (dir_of db d)) (file_name db f) \/ keeps_file (migrate_ctrl clean db d f o (mg_w m)) = true ->
  forall alg, fs_file_info d' n' alg (mg_w (migrate_disk clean d f o m)) = fs_file_info d' n' alg (mg_w m).
Proof.
  intros db Hf1 Hf2 Hs Hk alg. unfold migrate_disk. fold db. destruct (f_broken _); [done |].
  pose proof (fs_frame _ _ _ (mg_w m) d' n' alg Hf1 Hf2 Hs Hk) as Hf. destruct (fs_file_control _ _ _ _) as [r w]. cbn [snd] in Hf.
  by repeat case_match.
Qed.

Lemma migrate_owner_world d f o (m : migration W) : mg_w (migrate_owner d f o m) = mg_w m.
Proof. unfold migrate_owner. by repeat case_match. Qed.

Lemma migrate_ctrl_keeps clean db0 db x w w0 : same_shape db0 db ->
  (forall alg, fs_file_info (dname db0 x) (file_name db0 x.2) alg w = fs_file_info (dname db0 x) (file_name db0 x.2) alg w0) ->
  locally_modified db0 x w0 -> keeps_file (migrate_ctrl clean db x.1 x.2 (owner db0 (key_of db0 x)) w) = true.
Proof.
  intros Hs Hi [Hp Ha]. unfold migrate_ctrl. destruct (shape_dir _ _ Hs x.1) as (-> & _ & ->). rewrite (shape_name _ _ Hs), Hp.
  destruct (match owner db0 (key_of db0 x) with Some _ => _ | None => _ end); [done |].
  rewrite (audit_file_ext _ _ (file_at db0 <$> owner db0 (key_of db0 x)) _ w0), Ha by
    (first [done | destruct (owner db0 _); [cbn; f_equal; apply (ss_files _ _ Hs) | done]]).
  cbn [negb andb]. by destruct (clean || _).
Qed.

(** C19: A file of the package in a protected directory whose place holds something that the database does not
    know as its own, changed by the administrator or put there by somebody else, is not
    replaced and not removed: what is in its place is the same after migrating, with any
    settings.  The paths of the package must fit, and the names of its files and of their side
    files be apart from this one. *)
Theorem protected_files_kept (clean : bool) (diris : list nat) (m0 : migration W) (x : nat * nat) :
  let db := mg_db m0 in
  migratable db diris -> x ∈ pkg_pairs db diris -> locally_modified db x (mg_w m0) ->
  (forall y, y ∈ pkg_pairs db diris -> fs_fits (dname db y) (file_name db y.2)) ->
  (forall y, y ∈ pkg_pairs db diris -> y <> x -> path_of db y <> path_of db x) ->
  (forall y, y ∈ pkg_pairs db diris -> ~ fs_side (dname db y) (file_name db y.2) (path_of db x)) ->
  exists m, apk_db_migrate_files clean diris m0 = Some m /\
    forall alg, fs_file_info (dname db x) (file_name db x.2) alg (mg_w m) = fs_file_info (dname db x) (file_name db x.2) alg (mg_w m0).
Proof.
  intros db [Ht Hs Hh Hk Hp] Hx Hmod Hfits Hpath Hside.
  destruct (migrate_files_ind clean diris db (fun done m => migrated db done (mg_db m) /\
    forall alg, fs_file_info (dname db x) (file_name db x.2) alg (mg_w m) = fs_file_info (dname db x) (file_name db x.2) alg (mg_w m0)))
    with (m0 := m0) as (m & done & Hm & [_ HP] & _).
  - by intros done m [[] _].
  - intros done m d _ [HP Hw]. split; [by apply mark_migrated | done].
  - intros done m d f Hd Hf Hnew [HP Hw]. split; [by apply (migrate_file_spec clean diris) |].
    intros alg. pose proof (md_shape _ _ _ HP) as Hss. rewrite (migrate_file_lookup clean diris db) by done. cbv zeta.
    rewrite migrate_owner_world, <- Hw. rewrite (md_other _ _ _ HP) by done.
    assert ((d, f) ∈ pkg_pairs db diris) as Hin.
    { apply list_elem_of_bind. exists d. split; [by apply list_elem_of_fmap_2 | done]. }
    destruct (shape_dir _ _ Hss d) as (Hdk & _ & _). apply migrate_disk_frame; rewrite ?Hdk, ?(shape_name _ _ Hss).
    + by apply (Hfits (d, f)).
    + by apply Hfits.
    + by apply (Hside (d, f)).
    + destruct (decide ((d, f) = x)) as [<-|Hne]; [right | left; intros He; by apply (Hpath (d, f) Hin Hne)].
      by apply (migrate_ctrl_keeps clean db (mg_db m) (d, f) _ (mg_w m0)).
  - done.
  - split; [by apply migrated_nil | done].
  - done.
  - by exists m.
Qed.
End protect.
