(* ===== verification/Fs.v ===== *)
(** * File system backends (fs_fsys.c, fs_uvol.c)

    Directories and files of the root, and the volumes below [uvol].  A file is extracted under a
    temporary name and put in place by renaming it.  System calls, the copying of a stream into
    a file (io.c) and processes (process.c) are the class [Kernel]; the digest SHA256 is a
    parameter. *)

From S2P Require Import Prelude Blob BlobCodec Digest Hash Dep Package PackageRules Path Dirs Catalog Installed Owner InstallFile.

Definition TMPNAME_MAX : nat := (PATH_MAX + 64)%nat.

Definition EEXIST : Z := 17.
Definition APKE_FORMAT_OBSOLETE : Z := 1058.
Definition APKE_UVOL_ERROR : Z := 1083.
Definition APKE_NOT_EXTRACTED : Z := 1086.

Definition APK_FS_DIR_MODIFIED : Z := 1.
Definition APK_FSEXTRACTF_NO_CHOWN : Z := 0x0001.
Definition APK_FSEXTRACTF_NO_OVERWRITE : Z := 0x0002.
Definition APK_FSEXTRACTF_NO_SYS_XATTRS : Z := 0x0004.
Definition APK_FSEXTRACTF_NO_DEVICES : Z := 0x0008.
Definition APK_EXTRACTW_OWNER : Z := 0x0001.
Definition APK_EXTRACTW_PERMISSION : Z := 0x0002.
Definition APK_EXTRACTW_MTIME : Z := 0x0004.
Definition APK_EXTRACTW_XATTR : Z := 0x0008.

(** System calls by path, below the root: their result is zero or [errno].  [os_open] and
    [os_write] are [apk_ostream_to_fd], and [apk_stream_copy] with [apk_ostream_close]: they give
    zero or a negative error; so does [run_process]. *)
Class Kernel (K : Type) := {
  sys_mkdir : bytes -> Z -> K -> Z * K;
  sys_unlink : bytes -> bool -> K -> Z * K;
  sys_rename : bytes -> bytes -> K -> Z * K;
  sys_link : bytes -> bytes -> K -> Z * K;
  sys_symlink : bytes -> bytes -> K -> Z * K;
  sys_mknod : bytes -> Z -> Z -> K -> Z * K;
  sys_create : bytes -> Z -> K -> Z * K;
  sys_open : bytes -> K -> Z * K;
  sys_chown : bytes -> Z -> Z -> bool -> K -> Z * K;
  sys_chmod : bytes -> Z -> bool -> K -> Z * K;
  sys_setxattr : bytes -> bytes -> bytes -> K -> Z * K;
  sys_utimens : bytes -> Z -> bool -> K -> Z * K;
  sys_stat : bytes -> K -> Z + (Z * Z * Z);
  os_open : bytes -> K -> Z * K;
  os_write : bytes -> bytes -> Z -> K -> Z * K;
  run_process : list bytes -> blob -> K -> Z * K;
  apk_fileinfo_get : bytes -> Z -> K -> Z * file_stat;
}.

Inductive fs_backend := Fsys | Uvol.

Record apk_fsdir := mk_fsdir { fsd_ops : fs_backend; fsd_pb : apk_pathbuilder; fsd_extract_flags : Z; fsd_pkgctx : blob }.

Section fs.
Context {K : Type} `{Kernel K} (sha256 : bytes -> bytes).
(** The suffix of new configuration files, and the path of the uvol program or why there is none. *)
Context (apknew_suffix : bytes) (uvol : Z + bytes).

(** ** The root file system *)

Definition fsys_dir_create (d : apk_fsdir) (mode uid gid : Z) (k : K) : Z * K :=
  let dirname := apk_pathbuilder_cstr (fsd_pb d) in
  let '(e, k) := sys_mkdir dirname mode k in
  if negb (e =? 0) then (- e, k)
  else if testmask (fsd_extract_flags d) APK_FSEXTRACTF_NO_CHOWN then (0, k)
  else
    let '(e, k) := sys_chown dirname uid gid false k in
    (if negb (e =? 0) then APK_EXTRACTW_OWNER else 0, k).

Definition fsys_dir_delete (d : apk_fsdir) (k : K) : Z * K :=
  let '(e, k) := sys_unlink (apk_pathbuilder_cstr (fsd_pb d)) true k in
  (- e, k).

Definition fsys_dir_check (d : apk_fsdir) (mode uid gid : Z) (k : K) : Z :=
  match sys_stat (apk_pathbuilder_cstr (fsd_pb d)) k with
  | inl e => - e
  | inr (st_mode, st_uid, st_gid) =>
      if negb (perm_bits st_mode =? perm_bits mode) || negb (st_uid =? uid) || negb (st_gid =? gid)
      then APK_FS_DIR_MODIFIED else 0
  end.

Definition fsys_dir_update_perms (d : apk_fsdir) (mode uid gid : Z) (k : K) : Z * K :=
  let dirname := apk_pathbuilder_cstr (fsd_pb d) in
  let '(e, k) := sys_chmod dirname (perm_bits mode) false k in
  if e =? ENOENT then (- ENOENT, k)
  else
    let ret := if negb (e =? 0) then APK_EXTRACTW_PERMISSION else 0 in
    if testmask (fsd_extract_flags d) APK_FSEXTRACTF_NO_CHOWN then (ret, k)
    else
      let '(e, k) := sys_chown dirname uid gid false k in
      (if negb (e =? 0) then Z.lor ret APK_EXTRACTW_OWNER else ret, k).

(** Nothing ends the string when a part of it does not fit. *)
Definition format_tmpname (pkgctx dirname fullname : bytes) : outcome bytes :=
  let d := sha256 (pkgctx ++ fullname) in
  let b := pushbuf_new TMPNAME_MAX in
  let b := apk_blob_push_blob b dirname in
  let b := apk_blob_push_blob b (if (0 <? length dirname)%nat then lit "/.apk." else lit ".apk.") in
  let b := apk_blob_push_hexdump b (take 24 d) in
  let b := apk_blob_push_blob b [0] in
  match b with
  | Some (tmpname, _) => Ok (cstr_prefix tmpname)
  | None => Fault
  end.

Definition get_dirname (fullname : bytes) : bytes :=
  match memrchr fullname (chr "/") with Some slash => take slash fullname | None => [] end.

Definition is_system_xattr (name : bytes) : bool := negb (bool_decide (take 5 name = lit "user.")).

(** The name that a package's file has until it is put in place. *)
Definition extract_name (pkgctx : blob) (fn : bytes) : outcome bytes :=
  match pkgctx with
  | Some ctx => format_tmpname ctx (get_dirname fn) fn
  | None => Ok fn
  end.

(** Making the node: negative when extracting ends here. *)
Definition extract_node (fi : apk_file_info) (data : bytes) (extract_flags : Z) (pkgctx : blob) (fn : bytes) (k : K) : outcome (Z * K) :=
  let type := file_type (ae_mode fi) in
  if type =? S_IFDIR then
    let '(e, k) := sys_mkdir fn (perm_bits (ae_mode fi)) k in
    Ok (if negb (e =? 0) && negb (e =? EEXIST) then - e else 0, k)
  else if type =? S_IFREG then
    match ae_link_target fi with
    | None =>
        let '(e, k) := sys_create fn (perm_bits (ae_mode fi)) k in
        if negb (e =? 0) then Ok (- e, k)
        else
          let '(r, k) := os_open fn k in
          if r <? 0 then Ok (r, k)
          else
            let '(r, k) := os_write fn data (ae_size fi) k in
            if r <? 0 then Ok (r, snd (sys_unlink fn false k)) else Ok (0, k)
    | Some link_target =>
        let! link_target := extract_name pkgctx link_target in
        let '(e, k) := sys_link link_target fn k in
        Ok (- e, k)
    end
  else if type =? S_IFLNK then
    let '(e, k) := sys_symlink (default [] (ae_link_target fi)) fn k in
    Ok (- e, k)
  else if (type =? S_IFBLK) || (type =? S_IFCHR) || (type =? S_IFIFO) then
    if testmask extract_flags APK_FSEXTRACTF_NO_DEVICES then Ok (- APKE_NOT_EXTRACTED, k)
    else
      let '(e, k) := sys_mknod fn (ae_mode fi) (ae_device fi) k in
      Ok (- e, k)
  else Ok (0, k).

Definition extract_owner (fi : apk_file_info) (extract_flags : Z) (fn : bytes) (nofollow : bool) (s : Z * K) : Z * K :=
  let '(ret, k) := s in
  if testmask extract_flags APK_FSEXTRACTF_NO_CHOWN then (ret, k)
  else
    let '(e, k) := sys_chown fn (ae_uid fi) (ae_gid fi) nofollow k in
    let ret := if negb (e =? 0) then Z.lor ret APK_EXTRACTW_OWNER else ret in
    if testmask (ae_mode fi) 0xe00 then
      let '(e, k) := sys_chmod fn (ae_mode fi) nofollow k in
      (if negb (e =? 0) then Z.lor ret APK_EXTRACTW_PERMISSION else ret, k)
    else (ret, k).

Definition extract_xattr (extract_flags : Z) (fn : bytes) (xattr : bytes * bytes) (s : Z * K) : Z * K :=
  let '(ret, k) := s in
  if testmask extract_flags APK_FSEXTRACTF_NO_SYS_XATTRS && is_system_xattr (fst xattr) then (ret, k)
  else
    let '(e, k) := sys_setxattr fn (fst xattr) (snd xattr) k in
    (if negb (e =? 0) then Z.lor ret APK_EXTRACTW_XATTR else ret, k).

Definition extract_xattrs (fi : apk_file_info) (extract_flags : Z) (fn : bytes) (s : Z * K) : Z * K :=
  let '(ret, k) := s in
  if negb (S_ISLNK (ae_mode fi)) && negb (bool_decide (ae_xattrs fi = [])) then
    let '(e, k) := sys_open fn k in
    if e =? 0 then each (extract_xattr extract_flags fn) (ae_xattrs fi) (ret, k)
    else (Z.lor ret APK_EXTRACTW_XATTR, k)
  else (ret, k).

Definition extract_mtime (fi : apk_file_info) (fn : bytes) (nofollow : bool) (s : Z * K) : Z * K :=
  let '(ret, k) := s in
  if negb (S_ISLNK (ae_mode fi)) then
    let '(e, k) := sys_utimens fn (ae_mtime fi) nofollow k in
    (if negb (e =? 0) then Z.lor ret APK_EXTRACTW_MTIME else ret, k)
  else (ret, k).

Definition fsys_file_extract (fi : apk_file_info) (data : bytes) (extract_flags : Z) (pkgctx : blob) (k : K) : outcome (Z * K) :=
  let! fn := extract_name pkgctx (ae_name fi) in
  let '(e, k) := if negb (S_ISDIR (ae_mode fi)) && negb (testmask extract_flags APK_FSEXTRACTF_NO_OVERWRITE)
                 then sys_unlink fn false k else (0, k) in
  if negb (e =? 0) && negb (e =? ENOENT) then Ok (- e, k)
  else
    let! (r, k) := extract_node fi data extract_flags pkgctx fn k in
    if r <? 0 then Ok (r, k)
    else
      let nofollow := S_ISLNK (ae_mode fi) in
      Ok (extract_mtime fi fn nofollow (extract_xattrs fi extract_flags fn (extract_owner fi extract_flags fn nofollow (0, k)))).

(** [apk_fmt (buf, sizeof buf, "%s%s", fn, suffix)]. *)
Definition apknew_name (fn : bytes) : blob := apk_blob_fmt TMPNAME_MAX (fn ++ apknew_suffix).

Definition fsys_file_control (d : apk_fsdir) (filename : bytes) (ctrl : fs_ctrl) (k : K) : outcome (Z * apk_fsdir * K) :=
  let dirname := apk_pathbuilder_get (fsd_pb d) in
  let '(n, pb) := apk_pathbuilder_pushb (fsd_pb d) filename in
  let fn := apk_pathbuilder_cstr pb in
  let tmpname := format_tmpname (default [] (fsd_pkgctx d)) dirname (apk_pathbuilder_get pb) in
  let! (rc, k) :=
    match ctrl with
    | APK_FS_CTRL_COMMIT =>
        let! tmpname := tmpname in
        let '(e, k) := sys_rename tmpname fn k in
        Ok (if negb (e =? 0) then (- e, snd (sys_unlink tmpname false k)) else (0, k))
    | APK_FS_CTRL_APKNEW =>
        match apknew_name fn with
        | None => Ok (- APKE_BUFFER_SIZE, k)
        | Some apknewname =>
            let! tmpname := tmpname in
            let '(e, k) := sys_rename tmpname apknewname k in
            Ok (if negb (e =? 0) then - e else Z.of_nat (length apknewname), k)
        end
    | APK_FS_CTRL_CANCEL =>
        let! tmpname := tmpname in
        let '(e, k) := sys_unlink tmpname false k in
        Ok (- e, k)
    | APK_FS_CTRL_DELETE =>
        let '(e, k) := sys_unlink fn false k in
        Ok (- e, k)
    | APK_FS_CTRL_DELETE_APKNEW =>
        match apknew_name fn with
        | None => Ok (- APKE_BUFFER_SIZE, k)
        | Some apknewname => Ok (Z.of_nat (length apknewname), snd (sys_unlink apknewname false k))
        end
    end in
  Ok (rc, mk_fsdir (fsd_ops d) (apk_pathbuilder_pop pb n) (fsd_extract_flags d) (fsd_pkgctx d), k).

Definition fsys_file_info (d : apk_fsdir) (filename : bytes) (alg : Z) (k : K) : Z * file_stat * apk_fsdir :=
  let '(n, pb) := apk_pathbuilder_pushb (fsd_pb d) filename in
  let '(r, fi) := apk_fileinfo_get (apk_pathbuilder_cstr pb) alg k in
  (r, fi, mk_fsdir (fsd_ops d) (apk_pathbuilder_pop pb n) (fsd_extract_flags d) (fsd_pkgctx d)).

(** ** Volumes *)

Definition uvol_run (action volname : bytes) (args : list bytes) (input : blob) (k : K) : Z * K :=
  match uvol with
  | inl _ => (- APKE_UVOL_ERROR, k)
  | inr program =>
      let '(r, k) := run_process ([program; action; volname] ++ args) input k in
      (if negb (r =? 0) then - APKE_UVOL_ERROR else 0, k)
  end.

Definition uvol_file_extract (fi : apk_file_info) (data : bytes) (extract_flags : Z) (pkgctx : blob) (k : K) : Z * K :=
  match uvol with
  | inl e => (e, k)
  | inr _ =>
      let uvol_name := match memrchr (ae_name fi) (chr "/") with Some i => drop (S i) (ae_name fi) | None => ae_name fi end in
      match apk_blob_fmt 64 (uint_text (u64 (ae_size fi)) 10) with
      | None => (- APKE_BUFFER_SIZE, k)
      | Some size =>
          let '(r, k) := uvol_run (lit "create") uvol_name [size; lit "ro"] None k in
          if negb (r =? 0) then (r, k)
          else
            let '(r, k) := uvol_run (lit "write") uvol_name [size] (Some data) k in
            let '(r, k) := if (r =? 0) && bool_decide (pkgctx = None) then uvol_run (lit "up") uvol_name [] None k else (r, k) in
            (r, if negb (r =? 0) then snd (uvol_run (lit "remove") uvol_name [] None k) else k)
      end
  end.

(** [junk]: what the array of a new path builder on the stack holds. *)
Definition uvol_file_control (junk : bytes) (filename : bytes) (ctrl : fs_ctrl) (k : K) : Z * K :=
  match uvol with
  | inl e => (e, k)
  | inr _ =>
      let uvol_name := apk_pathbuilder_cstr (snd (apk_pathbuilder_setb (mk_pb 0 junk) filename)) in
      match ctrl with
      | APK_FS_CTRL_COMMIT => uvol_run (lit "up") uvol_name [] None k
      | APK_FS_CTRL_APKNEW | APK_FS_CTRL_CANCEL | APK_FS_CTRL_DELETE =>
          let '(r, k) := uvol_run (lit "down") uvol_name [] None k in
          if negb (r =? 0) then (r, k) else uvol_run (lit "remove") uvol_name [] None k
      | APK_FS_CTRL_DELETE_APKNEW => (0, k)
      end
  end.

Definition uvol_file_info : Z * file_stat := (- APKE_UVOL_ERROR, mk_stat (mk_digest 0 0 []) (mk_fileid 0 0)).

(** ** The choice of the backend *)

Definition apk_fsops_get (dir : bytes) : fs_backend :=
  if apk_blob_starts_with dir (lit "uvol") && ((length dir =? 4)%nat || bool_decide (dir !! 4%nat = Some (chr "/"))) then Uvol else Fsys.

Definition need_checksum (fi : apk_file_info) : bool :=
  let type := file_type (ae_mode fi) in
  if (type =? S_IFDIR) || (type =? S_IFSOCK) || (type =? S_IFBLK) || (type =? S_IFCHR) || (type =? S_IFIFO) then false
  else bool_decide (ae_link_target fi = None).

Definition apk_fsdir_get (junk dir : bytes) (extract_flags : Z) (pkgctx : blob) : apk_fsdir :=
  mk_fsdir (apk_fsops_get dir) (snd (apk_pathbuilder_setb (mk_pb 0 junk) dir)) extract_flags pkgctx.

Definition apk_fsdir_priority (fs : apk_fsdir) : Z := match fsd_ops fs with Fsys => APK_FS_PRIO_DISK | Uvol => APK_FS_PRIO_UVOL end.

Definition apk_fsdir_create (fs : apk_fsdir) (mode uid gid : Z) (k : K) : Z * K :=
  match fsd_ops fs with Fsys => fsys_dir_create fs mode uid gid k | Uvol => (0, k) end.
Definition apk_fsdir_delete (fs : apk_fsdir) (k : K) : Z * K :=
  match fsd_ops fs with Fsys => fsys_dir_delete fs k | Uvol => (0, k) end.
Definition apk_fsdir_check (fs : apk_fsdir) (mode uid gid : Z) (k : K) : Z :=
  match fsd_ops fs with Fsys => fsys_dir_check fs mode uid gid k | Uvol => 0 end.
Definition apk_fsdir_update_perms (fs : apk_fsdir) (mode uid gid : Z) (k : K) : Z * K :=
  match fsd_ops fs with Fsys => fsys_dir_update_perms fs mode uid gid k | Uvol => (0, k) end.

Definition apk_fsdir_file_control (junk : bytes) (fs : apk_fsdir) (filename : bytes) (ctrl : fs_ctrl) (k : K) : outcome (Z * apk_fsdir * K) :=
  match fsd_ops fs with
  | Fsys => fsys_file_control fs filename ctrl k
  | Uvol => let '(r, k) := uvol_file_control junk filename ctrl k in Ok (r, fs, k)
  end.
Definition apk_fsdir_file_info (fs : apk_fsdir) (filename : bytes) (alg : Z) (k : K) : Z * file_stat * apk_fsdir :=
  match fsd_ops fs with
  | Fsys => fsys_file_info fs filename alg k
  | Uvol => (uvol_file_info, fs)
  end.

Definition apk_fs_extract (junk : bytes) (fi : apk_file_info) (data : bytes) (extract_flags : Z) (pkgctx : blob) (k : K) : outcome (Z * K) :=
  if (d_alg (ae_digest fi) =? APK_DIGEST_NONE) && need_checksum fi then Ok (- APKE_FORMAT_OBSOLETE, k)
  else if S_ISDIR (ae_mode fi) then
    Ok (apk_fsdir_create (apk_fsdir_get junk (ae_name fi) extract_flags pkgctx) (ae_mode fi) (ae_uid fi) (ae_gid fi) k)
  else match apk_fsops_get (take 5 (ae_name fi)) with
       | Fsys => fsys_file_extract fi data extract_flags pkgctx k
       | Uvol => Ok (uvol_file_extract fi data extract_flags pkgctx k)
       end.

(** The operations as the database uses them, for a package with the context [pkgctx]: every use
    gets its own [struct apk_fsdir].  A name of a temporary file that does not fit in its buffer has no end: [undefined] is whatever
    happens with it. *)
Definition fs_operations (undefined : bytes -> bytes -> fs_ctrl -> K -> Z * K) (junk : bytes) (extract_flags : Z) (pkgctx : blob) : FileSystem K := {|
  fs_priority dir := apk_fsdir_priority (apk_fsdir_get junk dir extract_flags pkgctx);
  fs_file_info dir name alg k := fst (apk_fsdir_file_info (apk_fsdir_get junk dir extract_flags pkgctx) name alg k);
  fs_file_control dir name ctrl k :=
    match apk_fsdir_file_control junk (apk_fsdir_get junk dir extract_flags pkgctx) name ctrl k with
    | Ok (r, _, k) => (r, k)
    | Fault => undefined dir name ctrl k
    end;
  fs_extract fi data k := apk_fs_extract junk fi data extract_flags pkgctx k;
|}.
End fs.
