(* ===== verification/FsFacts.v ===== *)
(** * File system backends: what they promise

    The names that are used fit their buffers; extracting a file touches its temporary name alone,
    under the name that putting it in place looks for; and the backends keep what the database
    relies on ([FileSystemLaws]). *)

From S2P Require Import Prelude Blob BlobCodec Digest Hash Dep Package PackageRules Path Dirs Catalog Installed InstalledFacts Owner InstallFile InstallFacts Fs.

(** What system calls promise of the files at other paths, when no path is an alias of another; and
    that a renamed file is the one that was there.  Volumes are not files of the root. *)
Class KernelLaws (K : Type) `{Kernel K} : Prop := {
  mkdir_frame p a mode k alg : p <> a -> apk_fileinfo_get p alg (sys_mkdir a mode k).2 = apk_fileinfo_get p alg k;
  unlink_frame p a dir k alg : p <> a -> apk_fileinfo_get p alg (sys_unlink a dir k).2 = apk_fileinfo_get p alg k;
  rename_frame p a b k alg : p <> a -> p <> b -> apk_fileinfo_get p alg (sys_rename a b k).2 = apk_fileinfo_get p alg k;
  rename_moves a b k alg : a <> b -> (sys_rename a b k).1 = 0 -> apk_fileinfo_get b alg (sys_rename a b k).2 = apk_fileinfo_get a alg k;
  rename_fails a b k alg : a <> b -> (sys_rename a b k).1 <> 0 -> apk_fileinfo_get b alg (sys_rename a b k).2 = apk_fileinfo_get b alg k;
  link_frame p a b k alg : p <> b -> apk_fileinfo_get p alg (sys_link a b k).2 = apk_fileinfo_get p alg k;
  symlink_frame p t a k alg : p <> a -> apk_fileinfo_get p alg (sys_symlink t a k).2 = apk_fileinfo_get p alg k;
  mknod_frame p a mode dev k alg : p <> a -> apk_fileinfo_get p alg (sys_mknod a mode dev k).2 = apk_fileinfo_get p alg k;
  create_frame p a mode k alg : p <> a -> apk_fileinfo_get p alg (sys_create a mode k).2 = apk_fileinfo_get p alg k;
  open_frame p a k alg : p <> a -> apk_fileinfo_get p alg (sys_open a k).2 = apk_fileinfo_get p alg k;
  chown_frame p a uid gid nf k alg : p <> a -> apk_fileinfo_get p alg (sys_chown a uid gid nf k).2 = apk_fileinfo_get p alg k;
  chmod_frame p a mode nf k alg : p <> a -> apk_fileinfo_get p alg (sys_chmod a mode nf k).2 = apk_fileinfo_get p alg k;
  setxattr_frame p a n v k alg : p <> a -> apk_fileinfo_get p alg (sys_setxattr a n v k).2 = apk_fileinfo_get p alg k;
  utimens_frame p a t nf k alg : p <> a -> apk_fileinfo_get p alg (sys_utimens a t nf k).2 = apk_fileinfo_get p alg k;
  os_open_frame p a k alg : p <> a -> apk_fileinfo_get p alg (os_open a k).2 = apk_fileinfo_get p alg k;
  os_write_frame p a data size k alg : p <> a -> apk_fileinfo_get p alg (os_write a data size k).2 = apk_fileinfo_get p alg k;
  process_frame p argv input k alg : apk_fileinfo_get p alg (run_process argv input k).2 = apk_fileinfo_get p alg k;
}.

Create Rewrite HintDb kernel.
#[export] Hint Rewrite @mkdir_frame @unlink_frame @rename_frame @link_frame @symlink_frame @mknod_frame @create_frame @open_frame
  @chown_frame @chmod_frame @setxattr_frame @utimens_frame @os_open_frame @os_write_frame using done : kernel.
#[export] Hint Rewrite @process_frame : kernel.

(** ** Names *)

Lemma cstr_prefix_stop l r : 0 ∉ l -> cstr_prefix (l ++ 0 :: r) = l.
Proof.
  induction l as [|x l IH]; intros Hn; [done |]. cbn. rewrite not_elem_of_cons in Hn. destruct Hn as [Hx Hn].
  destruct (Z.eqb_spec x 0); [congruence |]. by rewrite IH.
Qed.

Lemma pb_cstr pb p : pb_holds pb p -> pb_name pb !! length p = Some 0 -> 0 ∉ p -> apk_pathbuilder_cstr pb = p.
Proof.
  intros [H1 H2 H3 H4] Hz Hn. unfold apk_pathbuilder_cstr.
  rewrite <- (take_drop_middle _ _ _ Hz), H4. by apply cstr_prefix_stop.
Qed.

Lemma hexdump_no_nul l : 0 ∉ hexdump l.
Proof.
  assert (forall x, 0 <= Z.land x 0xf < 16) as Hr by (intros x; change 0xf with (Z.ones 4); rewrite Z.land_ones by lia; apply Z.mod_pos_bound; lia).
  induction l as [|x l IH]; [apply not_elem_of_nil |]. cbn [hexdump]. rewrite !not_elem_of_cons.
  pose proof (proj2 (dx_xd _ (Hr x))). pose proof (proj2 (dx_xd _ (Hr (Z.shiftr x 4)))). split_and!; congruence.
Qed.

Lemma get_dirname_join d n : chr "/" ∉ n -> get_dirname (path_join d n) = d.
Proof.
  intros Hn. unfold get_dirname. pose proof (apk_blob_rsplit_Some (path_join d n) (chr "/")) as Hs. unfold apk_blob_rsplit in Hs.
  destruct d as [|x d].
  - cbn [path_join]. destruct (memrchr n (chr "/")) as [i|] eqn:E; [| done]. specialize (Hs (take i n) (drop (S i) n)).
    cbn [path_join] in Hs. rewrite E in Hs. destruct (proj1 Hs eq_refl) as [He _]. exfalso. apply Hn.
    rewrite He. apply elem_of_app. right. left.
  - specialize (Hs (x :: d) n). cbn [path_join] in *. destruct (memrchr _ _) as [i|]; [| by specialize (proj2 Hs (conj eq_refl Hn))].
    specialize (proj2 Hs (conj eq_refl Hn)) as He. by injection He.
Qed.

Section names.
Context (sha256 : bytes -> bytes).

(** The temporary name of a file. *)
Definition tmp_path (pkgctx d n : bytes) : bytes :=
  path_join d (lit ".apk." ++ hexdump (take 24 (sha256 (pkgctx ++ path_join d n)))).

(** The buffer has the room for the directory, the prefix, 48 digits and the NUL. *)
Lemma format_tmpname_ok pkgctx d full : (length d <= PATH_MAX)%nat -> 0 ∉ d ->
  format_tmpname sha256 pkgctx d full = Ok (path_join d (lit ".apk." ++ hexdump (take 24 (sha256 (pkgctx ++ full))))).
Proof.
  intros Hd Hn. unfold format_tmpname, pushbuf_new. set (h := take 24 (sha256 (pkgctx ++ full))).
  assert (length h <= 24)%nat as Hh by (unfold h; rewrite length_take; lia).
  rewrite push_blob_room by (unfold TMPNAME_MAX; lia). cbn [app].
  set (sep := if (0 <? length d)%nat then lit "/.apk." else lit ".apk."). assert (length sep <= 6)%nat as Hs by (unfold sep; by destruct (0 <? length d)%nat; simpl; lia).
  rewrite push_blob_room by (unfold TMPNAME_MAX; lia). cbn [apk_blob_push_hexdump].
  rewrite (proj2 (Nat.ltb_ge _ _)) by (unfold TMPNAME_MAX; lia).
  rewrite push_blob_room by (cbn [length]; unfold TMPNAME_MAX; lia). f_equal. rewrite cstr_prefix_stop.
  - rewrite <- app_assoc. unfold sep, path_join. by destruct d.
  - rewrite !not_elem_of_app. split_and!; [done | | apply hexdump_no_nul]. unfold sep. by destruct (0 <? length d)%nat; apply (bool_decide_unpack _); vm_compute.
Qed.
End names.

(** ** Operations on a file *)

(** A path that has room for a suffix, without a NUL. *)
Definition path_fits (d n : bytes) : Prop := (length d + length n + 3 < PATH_MAX)%nat /\ (0 ∉ d) /\ (0 ∉ n).

Lemma join_no_nul d n : path_fits d n -> 0 ∉ path_join d n.
Proof. intros (_ & Hd & Hn). unfold path_join. destruct d; [done |]. rewrite !not_elem_of_app. split_and!; [done | by apply (bool_decide_unpack _); vm_compute | done]. Qed.

Section control.
Context {K : Type} `{KernelLaws K} (sha256 : bytes -> bytes) (apknew_suffix : bytes) (uvol : Z + bytes).
Context (junk : bytes) (flags : Z) (ctx : bytes) (Hjunk : length junk = PATH_MAX) (Hsuffix : (length apknew_suffix < 64)%nat).

Abbreviation tmp := (tmp_path sha256 ctx).
Abbreviation fsdir d := (apk_fsdir_get junk d flags (Some ctx)).

Lemma fsdir_holds d : (length d + 3 < PATH_MAX)%nat -> pb_holds (fsd_pb (fsdir d)) d.
Proof.
  intros Hd. unfold apk_fsdir_get, apk_pathbuilder_setb. cbn [fsd_pb pb_name].
  destruct (pushb_spec (mk_pb 0 junk) [] d) as (pb & -> & Hh & _); [split; try done; simpl; unfold PATH_MAX; lia | simpl; lia | done].
Qed.

(** What is done to the files: the temporary file goes to its place, beside it or away. *)
Definition control_effect (d n : bytes) (ctrl : fs_ctrl) (k : K) : Z * K :=
  let fn := path_join d n in
  match ctrl with
  | APK_FS_CTRL_COMMIT =>
      let '(e, k) := sys_rename (tmp d n) fn k in
      if negb (e =? 0) then (- e, (sys_unlink (tmp d n) false k).2) else (0, k)
  | APK_FS_CTRL_APKNEW =>
      let '(e, k) := sys_rename (tmp d n) (fn ++ apknew_suffix) k in
      (if negb (e =? 0) then - e else Z.of_nat (length (fn ++ apknew_suffix)), k)
  | APK_FS_CTRL_CANCEL => let '(e, k) := sys_unlink (tmp d n) false k in (- e, k)
  | APK_FS_CTRL_DELETE => let '(e, k) := sys_unlink fn false k in (- e, k)
  | APK_FS_CTRL_DELETE_APKNEW => (Z.of_nat (length (fn ++ apknew_suffix)), (sys_unlink (fn ++ apknew_suffix) false k).2)
  end.

Lemma fsys_control_spec d n ctrl k : path_fits d n ->
  exists fs', fsys_file_control sha256 apknew_suffix (fsdir d) n ctrl k =
      Ok ((control_effect d n ctrl k).1, fs', (control_effect d n ctrl k).2) /\ pb_holds (fsd_pb fs') d.
Proof.
  intros Hf. pose proof Hf as (Hl & Hd & Hn). pose proof (fsdir_holds d) as Hpb.
  destruct (pushb_spec _ _ n (Hpb ltac:(lia))) as (pb & Hpush & Hh & Hz & Hpop); [lia |].
  unfold fsys_file_control. rewrite (pb_get _ _ (Hpb ltac:(lia))), Hpush. rewrite (pb_cstr _ _ Hh Hz) by (by apply join_no_nul).
  rewrite (pb_get _ _ Hh). cbn [fsd_pkgctx apk_fsdir_get default]. rewrite format_tmpname_ok by (try done; lia).
  change (path_join d (lit ".apk." ++ hexdump (take 24 (sha256 (ctx ++ path_join d n))))) with (tmp d n).
  unfold apknew_name, apk_blob_fmt. rewrite (proj2 (Nat.leb_gt _ _)) by
    (rewrite length_app; pose proof (length_path_join d n); unfold TMPNAME_MAX, PATH_MAX in *; lia).
  exists (mk_fsdir (apk_fsops_get d) (apk_pathbuilder_pop pb (Z.of_nat (length d))) flags (Some ctx)). split; [| exact Hpop].
  unfold control_effect. destruct ctrl; cbn [obind]; try (destruct (sys_rename _ _ _)); try (destruct (sys_unlink _ _ _)); cbn [obind fst snd]; by repeat case_match.
Qed.

Lemma fsys_info_spec d n alg (k : K) : path_fits d n ->
  (fsys_file_info (fsdir d) n alg k).1 = apk_fileinfo_get (path_join d n) alg k.
Proof.
  intros Hf. pose proof Hf as (Hl & Hd & Hn).
  destruct (pushb_spec _ _ n (fsdir_holds d ltac:(lia))) as (pb & Hpush & Hh & Hz & Hpop); [lia |].
  unfold fsys_file_info. rewrite Hpush, (pb_cstr _ _ Hh Hz) by (by apply join_no_nul). by destruct (apk_fileinfo_get _ _ _).
Qed.

(** The files beside that an operation may touch. *)
Definition side_path (d n p : bytes) : Prop := p = tmp d n \/ p = path_join d n ++ apknew_suffix.

Lemma control_frame d n ctrl k p alg : ~ side_path d n p -> p <> path_join d n \/ keeps_file ctrl = true ->
  apk_fileinfo_get p alg (control_effect d n ctrl k).2 = apk_fileinfo_get p alg k.
Proof.
  intros Hs Hk. assert (p <> tmp d n /\ p <> path_join d n ++ apknew_suffix) as [H1 H2] by (unfold side_path in Hs; tauto).
  unfold control_effect. destruct ctrl; first [destruct Hk as [Hk|Hk]; [| discriminate Hk] | clear Hk].
  - pose proof (rename_frame p (tmp d n) (path_join d n) k alg H1 Hk) as Hr. destruct (sys_rename _ _ _) as [e k']. cbn [snd] in *.
    destruct (negb _); cbn [snd]; [by rewrite unlink_frame | done].
  - pose proof (rename_frame p (tmp d n) (path_join d n ++ apknew_suffix) k alg H1 H2) as Hr. by destruct (sys_rename _ _ _) as [e k'].
  - pose proof (unlink_frame p (tmp d n) false k alg H1) as Hr. by destruct (sys_unlink _ _ _) as [e k'].
  - pose proof (unlink_frame p (path_join d n) false k alg Hk) as Hr. by destruct (sys_unlink _ _ _) as [e k'].
  - cbn [snd]. by rewrite unlink_frame.
Qed.

Lemma uvol_run_frame action volname args input (k : K) p alg :
  apk_fileinfo_get p alg (uvol_run uvol action volname args input k).2 = apk_fileinfo_get p alg k.
Proof.
  unfold uvol_run. destruct uvol as [e|prog]; [done |]. pose proof (process_frame p ([prog; action; volname] ++ args) input k alg) as Hp.
  by destruct (run_process _ _ _) as [r k'].
Qed.

Lemma uvol_control_frame n ctrl (k : K) p alg :
  apk_fileinfo_get p alg (uvol_file_control uvol junk n ctrl k).2 = apk_fileinfo_get p alg k.
Proof.
  unfold uvol_file_control. destruct uvol eqn:Eu; [done |]. rewrite <- Eu. set (v := apk_pathbuilder_cstr _).
  destruct ctrl; try apply uvol_run_frame; try done;
    (pose proof (uvol_run_frame (lit "down") v [] None k p alg) as Hr; destruct (uvol_run uvol (lit "down") _ _ _ _) as [r k']; cbn [snd] in Hr;
     destruct (negb _); [done | by rewrite uvol_run_frame]).
Qed.

(** The backends keep what the database relies on. *)
Context (undefined : bytes -> bytes -> fs_ctrl -> K -> Z * K).
Definition fs_files : FileSystem K := fs_operations sha256 apknew_suffix uvol undefined junk flags (Some ctx).

#[local] Existing Instance fs_files.

Lemma backends_frame d n c (k : K) d' n' alg : path_fits d n -> path_fits d' n' ->
  ~ side_path d n (path_join d' n') -> path_join d' n' <> path_join d n \/ keeps_file c = true ->
  fs_file_info d' n' alg (fs_file_control d n c k).2 = fs_file_info d' n' alg k.
Proof.
  intros Hf Hf' Hs Hk. cbn [fs_file_info fs_file_control fs_files fs_operations]. unfold apk_fsdir_file_info.
  destruct (fsd_ops (fsdir d')); [| done]. rewrite !fsys_info_spec by done.
  unfold apk_fsdir_file_control. destruct (fsd_ops (fsdir d)).
  - destruct (fsys_control_spec d n c k Hf) as (fs' & -> & _). by apply control_frame.
  - pose proof (uvol_control_frame n c k (path_join d' n') alg) as Hu. by destruct (uvol_file_control _ _ _ _ _).
Qed.


(** ** Extracting *)

(** Nothing but the file at [fn] changed. *)
Definition only (fn : bytes) (k k' : K) : Prop := forall p alg, p <> fn -> apk_fileinfo_get p alg k' = apk_fileinfo_get p alg k.

#[local] Instance only_preorder fn : PreOrder (only fn).
Proof. split; [by intros k p alg | intros a b c H1 H2 p alg Hp; by rewrite H2, H1]. Qed.

(** Names the state after the next call, and goes on. *)
Ltac next_call :=
  match goal with
  | |- context [let '(_, _) := ?c in _] =>
      let E := fresh "E" in destruct c as [? ?] eqn:E; apply (f_equal snd) in E; cbn [snd] in E; subst
  end.
Ltac frame := cbn [snd]; intros ? ? ?; autorewrite with kernel; done.

Lemma extract_node_only fi data pkgctx fn k r k' :
  extract_node sha256 fi data flags pkgctx fn k = Ok (r, k') -> only fn k k'.
Proof.
  unfold extract_node. destruct (_ =? S_IFDIR); [next_call; intros [=]; subst; frame |]. destruct (_ =? S_IFREG); [destruct (ae_link_target fi) as [t|] |].
  - destruct (extract_name _ _ _); cbn [obind]; [| done]. next_call. intros [=]; subst; frame.
  - next_call. case_match; [intros [=]; subst; frame |]. next_call. case_match; [intros [=]; subst; frame |].
    next_call. case_match; intros [=]; subst; frame.
  - destruct (_ =? S_IFLNK); [next_call; intros [=]; subst; frame |].
    destruct (_ || _); [destruct (testmask _ _); [| next_call] |]; intros [=]; subst; frame.
Qed.

Lemma extract_owner_only fi fn nf r (k : K) : only fn k (extract_owner fi flags fn nf (r, k)).2.
Proof. unfold extract_owner. case_match; [done |]. next_call. cbv zeta. destruct (testmask (ae_mode fi) _); [next_call |]; frame. Qed.

Lemma extract_xattr_only fn x r (k : K) : only fn k (extract_xattr flags fn x (r, k)).2.
Proof. unfold extract_xattr. case_match; [done |]. next_call. frame. Qed.

Lemma extract_xattrs_only fi fn r (k : K) : only fn k (extract_xattrs fi flags fn (r, k)).2.
Proof.
  unfold extract_xattrs. destruct (_ && _); [| done]. next_call. case_match; [| frame].
  transitivity (sys_open fn k).2; [frame |]. generalize (sys_open fn k).2. generalize r.
  induction (ae_xattrs fi) as [|x l IH]; intros r' k'; [done |]. cbn [each].
  pose proof (extract_xattr_only fn x r' k') as Hx. destruct (extract_xattr flags fn x (r', k')) as [r'' k'']. transitivity k''; [done | apply IH].
Qed.

Lemma extract_mtime_only fi fn nf r (k : K) : only fn k (extract_mtime fi fn nf (r, k)).2.
Proof. unfold extract_mtime. case_match; [| done]. next_call. frame. Qed.

Lemma extract_attrs_only fi fn nf r (k : K) :
  only fn k (extract_mtime fi fn nf (extract_xattrs fi flags fn (extract_owner fi flags fn nf (r, k)))).2.
Proof.
  pose proof (extract_owner_only fi fn nf r k) as H1. destruct (extract_owner _ _ _ _ _) as [r1 k1].
  pose proof (extract_xattrs_only fi fn r1 k1) as H2. destruct (extract_xattrs _ _ _ _) as [r2 k2].
  pose proof (extract_mtime_only fi fn nf r2 k2) as H3. transitivity k1; [done |]. by transitivity k2.
Qed.

(** The target of a hard link is a path that fits. *)
Definition link_fits (fi : apk_file_info) : Prop :=
  forall t, ae_link_target fi = Some t -> (length (get_dirname t) <= PATH_MAX)%nat /\ (0 ∉ get_dirname t).

Lemma extract_node_ok fi data fn k : link_fits fi -> exists r k', extract_node sha256 fi data flags (Some ctx) fn k = Ok (r, k').
Proof.
  intros Hl. unfold extract_node. destruct (_ =? S_IFDIR); [repeat case_match; eauto |]. destruct (_ =? S_IFREG).
  - destruct (ae_link_target fi) as [t|] eqn:Et; [| repeat case_match; eauto]. cbn [extract_name].
    destruct (Hl t Et). rewrite format_tmpname_ok by done. cbn [obind]. repeat case_match; eauto.
  - repeat case_match; eauto.
Qed.

Lemma fsys_extract_only fi data fn (k k' : K) r : extract_name sha256 (Some ctx) (ae_name fi) = Ok fn ->
  fsys_file_extract sha256 fi data flags (Some ctx) k = Ok (r, k') -> only fn k k'.
Proof.
  intros Hfn. unfold fsys_file_extract. rewrite Hfn. cbn [obind].
  set (c := if negb (S_ISDIR _) && _ then _ else _). assert (only fn k c.2) as Hc by (unfold c; destruct (negb _ && _); [frame | done]).
  destruct c as [e k1]. cbn [snd] in Hc. destruct (negb (e =? 0) && _); [by intros [= <- <-] |].
  destruct (extract_node _ _ _ _ _ _ _) as [[r2 k2]|] eqn:Hnode; [| done]. cbn [obind].
  apply extract_node_only in Hnode. destruct (r2 <? 0); [intros [= <- <-]; by transitivity k1 |].
  pose proof (extract_attrs_only fi fn (S_ISLNK (ae_mode fi)) 0 k2) as Ha.
  destruct (extract_mtime _ _ _ _) as [r3 k3]. intros [= <- <-]. transitivity k1; [done |]. by transitivity k2.
Qed.

Lemma uvol_extract_frame fi data (k : K) p alg :
  apk_fileinfo_get p alg (uvol_file_extract uvol fi data flags (Some ctx) k).2 = apk_fileinfo_get p alg k.
Proof.
  unfold uvol_file_extract. destruct uvol eqn:Eu; [done |]. rewrite <- Eu. destruct (apk_blob_fmt _ _) as [size|]; [| done].
  set (v := match memrchr _ _ with Some _ => _ | None => _ end).
  pose proof (uvol_run_frame (lit "create") v [size; lit "ro"] None k p alg) as H1. destruct (uvol_run uvol (lit "create") _ _ _ _) as [r1 k1]. cbn [snd] in H1.
  destruct (negb (r1 =? 0)); [done |].
  pose proof (uvol_run_frame (lit "write") v [size] (Some data) k1 p alg) as H2. destruct (uvol_run uvol (lit "write") _ _ _ _) as [r2 k2]. cbn [snd] in H2.
  rewrite bool_decide_false, andb_false_r by done. cbn [snd]. destruct (negb (r2 =? 0)); rewrite ?uvol_run_frame; congruence.
Qed.

(** The temporary file of a name, when it fits. *)
Definition tmp_of_name (name p : bytes) : Prop := extract_name sha256 (Some ctx) name = Ok p.

Lemma backends_extract_frame fi data (k : K) r k' d n alg : path_fits d n -> S_ISDIR (ae_mode fi) = false ->
  fs_extract fi data k = Ok (r, k') -> ~ tmp_of_name (ae_name fi) (path_join d n) -> fs_file_info d n alg k' = fs_file_info d n alg k.
Proof.
  intros Hf Hdir He Hp. cbn [fs_file_info fs_extract fs_files fs_operations] in *. unfold apk_fsdir_file_info.
  destruct (fsd_ops (fsdir d)); [| done]. rewrite !fsys_info_spec by done.
  unfold apk_fs_extract in He. destruct (_ && need_checksum fi); [by injection He as <- <- |]. rewrite Hdir in He.
  destruct (apk_fsops_get _).
  - destruct (extract_name sha256 (Some ctx) (ae_name fi)) as [fn|] eqn:Efn; [| unfold fsys_file_extract in He; by rewrite Efn in He].
    apply (fsys_extract_only fi data fn k k' r Efn He). intros E. apply Hp. unfold tmp_of_name. by rewrite E.
  - pose proof (uvol_extract_frame fi data k (path_join d n) alg) as Hu. injection He as He. by rewrite He in Hu.
Qed.

#[global] Instance backends_laws : FileSystemLaws K := {|
  fs_side := side_path; fs_fits := path_fits; fs_frame := backends_frame; fs_tmp := tmp_of_name; fs_extract_frame := backends_extract_frame |}.

Lemma fsys_extract_spec fi data d n (k : K) : path_fits d n -> chr "/" ∉ n -> ae_name fi = path_join d n -> link_fits fi ->
  exists r k', fsys_file_extract sha256 fi data flags (Some ctx) k = Ok (r, k') /\ only (tmp d n) k k'.
Proof.
  intros (Hl & Hd & Hn) Hs Hname Hlink.
  assert (extract_name sha256 (Some ctx) (ae_name fi) = Ok (tmp d n)) as Hfn.
  { rewrite Hname. cbn [extract_name]. by rewrite get_dirname_join, format_tmpname_ok by (try done; lia). }
  enough (exists r k', fsys_file_extract sha256 fi data flags (Some ctx) k = Ok (r, k')) as (r & k' & He)
    by (exists r, k'; split; [done | by apply (fsys_extract_only fi data _ k k' r)]).
  unfold fsys_file_extract. rewrite Hfn. cbn [obind]. destruct (if negb _ && _ then _ else _) as [e k1].
  destruct (negb (e =? 0) && _); [by eauto |]. destruct (extract_node_ok fi data (tmp d n) k1 Hlink) as (r & k2 & ->). cbn [obind].
  destruct (r <? 0); [by eauto |]. destruct (extract_mtime _ _ _ _) as [r3 k3]. by eauto.
Qed.

(** A directory has the backend of its files, but for a file [uvol] in the root. *)
Lemma fsops_of_file d n : apk_fsops_get (take 5 (path_join d n)) = Fsys -> apk_fsops_get d = Fsys.
Proof.
  unfold apk_fsops_get. intros Hf. destruct (apk_blob_starts_with d (lit "uvol")) eqn:Es; [| done].
  destruct ((length d =? 4)%nat || _) eqn:El; [| done]. exfalso. revert Hf.
  assert (take 5 (path_join d n) = lit "uvol/") as ->; [| done].
  unfold apk_blob_starts_with in Es. destruct (length d <? _)%nat eqn:Ed in Es; [done |]. assert (4 <= length d)%nat by (apply Nat.ltb_ge in Ed; exact Ed).
  apply Z.eqb_eq, memcmp_eq0 in Es; [| rewrite length_take; change (length (lit "uvol")) with 4%nat; lia]. rewrite <- (take_drop 4 d) in El |- *. change (length (lit "uvol")) with 4%nat in Es.
  rewrite Es in El |- *. destruct (drop 4 d) as [|c r]; [done |]. cbn in El. apply bool_decide_eq_true in El. by injection El as ->.
Qed.

(** C21: Installing a file: it is extracted, and then put in place, put beside what is there, or dropped.  Both always return; nothing but the file, its temporary file and its new
    configuration file changes; and what is in place is either what was there before or, when the
    commit succeeds, exactly what was extracted, however extracting or committing fails. *)
Theorem install_file_atomic fi data d n c (k0 : K) :
  apknew_suffix <> [] ->
  path_fits d n -> chr "/" ∉ n -> ae_name fi = path_join d n -> link_fits fi ->
  S_ISDIR (ae_mode fi) = false -> apk_fsops_get (take 5 (ae_name fi)) = Fsys -> path_join d n <> tmp d n ->
  c <> APK_FS_CTRL_DELETE ->
  exists r k1, apk_fs_extract sha256 uvol junk fi data flags (Some ctx) k0 = Ok (r, k1) /\
  exists rc fs k2, apk_fsdir_file_control sha256 apknew_suffix uvol junk (fsdir d) n c k1 = Ok (rc, fs, k2) /\
    (forall p alg, p ∉ [path_join d n; tmp d n; path_join d n ++ apknew_suffix] -> apk_fileinfo_get p alg k2 = apk_fileinfo_get p alg k0) /\
    (forall alg, apk_fileinfo_get (path_join d n) alg k2 =
       if bool_decide (c = APK_FS_CTRL_COMMIT) && (rc =? 0) then apk_fileinfo_get (tmp d n) alg k1 else apk_fileinfo_get (path_join d n) alg k0).
Proof.
  intros Hs0 Hf Hslash Hname Hlink Hdir Hops Hne Hc.
  assert (exists r k1, apk_fs_extract sha256 uvol junk fi data flags (Some ctx) k0 = Ok (r, k1) /\ only (tmp d n) k0 k1) as (r & k1 & He & Ho).
  { unfold apk_fs_extract. destruct (_ && need_checksum fi); [by eexists _, k0 |]. rewrite Hdir, Hops. by apply fsys_extract_spec. }
  exists r, k1. split; [done |]. unfold apk_fsdir_file_control. cbn [fsd_ops apk_fsdir_get]. rewrite (fsops_of_file d n) by (by rewrite <- Hname).
  destruct (fsys_control_spec d n c k1 Hf) as (fs & -> & _). eexists _, fs, _. split; [done |]. split.
  - intros p alg Hp. rewrite !not_elem_of_cons in Hp. destruct Hp as (H1 & H2 & H3 & _).
    rewrite control_frame, Ho; [done | done | by intros [?|?] | by left].
  - intros alg. assert (path_join d n <> path_join d n ++ apknew_suffix) as Hne'.
    { intros E. apply (f_equal length) in E. rewrite length_app in E. destruct apknew_suffix; [done | simpl in E; lia]. }
    destruct (decide (c = APK_FS_CTRL_COMMIT)) as [->|Hcc].
    + rewrite bool_decide_true by done. cbn [control_effect andb].
      pose proof (rename_moves (tmp d n) (path_join d n) k1 alg (not_eq_sym Hne)) as Hm.
      pose proof (rename_fails (tmp d n) (path_join d n) k1 alg (not_eq_sym Hne)) as Hfail.
      destruct (sys_rename _ _ _) as [e k2]. cbn [fst snd] in *. destruct (Z.eqb_spec e 0) as [->|Hez]; cbn [negb fst snd]; [by rewrite Hm |].
      rewrite (proj2 (Z.eqb_neq (- e) 0)) by lia. rewrite unlink_frame, Hfail by done. by apply Ho.
    + rewrite bool_decide_false by done. cbn [andb]. rewrite control_frame, Ho; [done | done | by intros [?|?] | right; by destruct c].
Qed.
End control.

(** ** A file system in memory *)

(** Files by their paths; a file's contents are its digest. *)
Abbreviation ram := (gmap bytes bytes).

Definition ram_node (p : bytes) (data : bytes) (k : ram) : Z * ram :=
  match k !! p with Some _ => (EEXIST, k) | None => (0, <[p := data]> k) end.

Definition ram_info (alg : Z) (file : option bytes) : Z * file_stat :=
  match file with
  | Some data => (0, mk_stat (mk_digest alg (length data) data) (mk_fileid 1 (Z.of_nat (length data))))
  | None => (- ENOENT, mk_stat (mk_digest 0 0 []) (mk_fileid 0 0))
  end.

#[global] Instance ram_kernel : Kernel ram := {
  sys_mkdir p mode k := ram_node p [] k;
  sys_unlink p dir k := match k !! p with Some _ => (0, delete p k) | None => (ENOENT, k) end;
  sys_rename a b k := match k !! a with Some data => (0, <[b := data]> (delete a k)) | None => (ENOENT, k) end;
  sys_link a b k := match k !! a with Some data => ram_node b data k | None => (ENOENT, k) end;
  sys_symlink t p k := ram_node p t k;
  sys_mknod p mode dev k := ram_node p [] k;
  sys_create p mode k := ram_node p [] k;
  sys_open p k := (0, k);
  sys_chown p uid gid nf k := (0, k);
  sys_chmod p mode nf k := (0, k);
  sys_setxattr p n v k := (0, k);
  sys_utimens p t nf k := (0, k);
  sys_stat p k := match k !! p with Some _ => inr (0, 0, 0) | None => inl ENOENT end;
  os_open p k := (0, k);
  os_write p data size k := (0, <[p := take (Z.to_nat size) data]> k);
  run_process argv input k := (0, k);
  apk_fileinfo_get p alg k := ram_info alg (k !! p);
}.

#[global] Instance ram_laws : KernelLaws ram.
Proof.
  split; intros; cbn [sys_mkdir sys_unlink sys_rename sys_link sys_symlink sys_mknod sys_create sys_open sys_chown sys_chmod sys_setxattr
    sys_utimens os_open os_write run_process apk_fileinfo_get ram_kernel ram_node] in *; unfold ram_node in *; try done.
  all: repeat case_match; simplify_map_eq; done.
Qed.

(** The file [etc/conf] of a package, extracted; in its place is one that somebody wrote. *)
Definition ex_sha256 (b : bytes) : bytes := replicate 32 7.
Definition ex_suffix : bytes := lit ".apk-new".
Definition ex_junk : bytes := replicate PATH_MAX 88.
#[global] Instance ex_files : FileSystem ram := fs_operations ex_sha256 ex_suffix (inl (- ENOENT)) (fun _ _ _ k => (0, k)) ex_junk 0 (Some (lit "ctx")).

#[global] Instance ex_laws : FileSystemLaws ram :=
  backends_laws ex_sha256 ex_suffix (inl (- ENOENT)) ex_junk 0 (lit "ctx") eq_refl ltac:(simpl; lia) (fun _ _ _ k => (0, k)).

Definition ex_db : inst_db :=
  mk_inst (mk_dirdb (apk_hash_init 7) {[ 0%nat := mk_dir (lit "etc") (apk_blob_hash (lit "etc")) None None [] [] 1 3 APK_PROTECT_CHANGED false true false true ]}
             1 1 [] [] 0)
    {[ 0%nat := mk_diri [0%nat] (Pkg_at 0) 0 apk_default_acl_dir ]} 1
    {[ 0%nat := mk_file 0 apk_default_acl_file false false 0 [] 4 (lit "conf") ]} 1
    (apk_hash_init 7) ic0 0.
Definition ex_ram : ram := {[ lit "etc/conf" := lit "mine"; tmp_path ex_sha256 (lit "ctx") (lit "etc") (lit "conf") := lit "new" ]}.
Definition ex_mg : migration ram := mk_mg ex_db ex_ram false None false.

Lemma ex_migratable : migratable ex_db [0%nat].
Proof.
  split.
  - split; [by apply apk_hash_init_wf | intros k]. change (in_table ex_db) with (apk_hash_init (V := file_item) 7).
    rewrite apk_hash_init_items. simpl. lia.
  - done.
  - intros d Hd. apply list_elem_of_singleton in Hd as ->. done.
  - apply (bool_decide_unpack _). by vm_compute.
  - intros d Hd. apply list_elem_of_singleton in Hd as ->. left. by vm_compute.
Qed.

Lemma ex_fits : path_fits (lit "etc") (lit "conf").
Proof. split_and!; [apply Nat.ltb_lt; by vm_compute | |]; apply (bool_decide_unpack _); by vm_compute. Qed.

Lemma migrate_claims_files_witness :
  exists m, apk_db_migrate_files false [0%nat] ex_mg = Some m /\ migrated ex_db (pkg_pairs ex_db [0%nat]) (mg_db m).
Proof. apply (migrate_claims_files false [0%nat] ex_mg). exact ex_migratable. Defined.

Lemma protected_files_kept_witness :
  exists m, apk_db_migrate_files false [0%nat] ex_mg = Some m /\
    forall alg, fs_file_info (lit "etc") (lit "conf") alg (mg_w m) = fs_file_info (lit "etc") (lit "conf") alg ex_ram.
Proof.
  apply (protected_files_kept false [0%nat] ex_mg (0%nat, 0%nat)).
  - exact ex_migratable.
  - apply (bool_decide_unpack _). by vm_compute.
  - split; by vm_compute.
  - intros y Hy. apply list_elem_of_singleton in Hy as ->. exact ex_fits.
  - intros y Hy Hne. by apply list_elem_of_singleton in Hy as ->.
  - intros y Hy. apply list_elem_of_singleton in Hy as ->. intros [Hp|Hp]; apply (bool_decide_pack _) in Hp; by vm_compute in Hp.
Defined.

Definition ex_fi : apk_file_info := mk_ae (lit "etc/conf") None 0x81a4 0 0 3 0 0 (mk_digest APK_DIGEST_SHA256 32 (replicate 32 7)) (mk_digest 0 0 []) [].

Lemma install_file_atomic_witness :
  exists r k1, apk_fs_extract ex_sha256 (inl (- ENOENT)) ex_junk ex_fi (lit "old") 0 (Some (lit "ctx")) ex_ram = Ok (r, k1) /\
  exists rc fs k2, apk_fsdir_file_control ex_sha256 ex_suffix (inl (- ENOENT)) ex_junk (apk_fsdir_get ex_junk (lit "etc") 0 (Some (lit "ctx"))) (lit "conf") APK_FS_CTRL_COMMIT k1 = Ok (rc, fs, k2) /\
    (forall p alg, p ∉ [lit "etc/conf"; tmp_path ex_sha256 (lit "ctx") (lit "etc") (lit "conf"); lit "etc/conf.apk-new"] -> apk_fileinfo_get p alg k2 = apk_fileinfo_get p alg ex_ram) /\
    (forall alg, apk_fileinfo_get (lit "etc/conf") alg k2 =
       if bool_decide (APK_FS_CTRL_COMMIT = APK_FS_CTRL_COMMIT) && (rc =? 0) then apk_fileinfo_get (tmp_path ex_sha256 (lit "ctx") (lit "etc") (lit "conf")) alg k1
       else apk_fileinfo_get (lit "etc/conf") alg ex_ram).
Proof.
  apply (install_file_atomic ex_sha256 ex_suffix (inl (- ENOENT)) ex_junk 0 (lit "ctx") eq_refl ltac:(simpl; lia) ex_fi (lit "old") (lit "etc") (lit "conf") APK_FS_CTRL_COMMIT ex_ram);
    try done; try (apply (bool_decide_unpack _); by vm_compute).
Defined.
