(* ===== verification/Install.v ===== *)
(** * Unpacking a package (database.c)

    An entry of a package's archive is checked, given to the database and extracted under its
    temporary name.  Scripts are a parameter: [run_script] is [apk_ipkg_run_script] (package.c) on the world
    and tells whether it failed. *)

From S2P Require Import Prelude Blob BlobCodec Digest Hash Dep Package PackageRules Path Dirs Catalog Installed Owner InstallFile Fs.

Definition ENOSPC : Z := 28.

(** ** Names *)

Definition contains_control_character (str : bytes) : bool :=
  existsb (fun c => (c <? 0x20) || (c =? 0x7f)) (cstr_prefix str).

(** [strstr] as a truth value. *)
Definition strstr (haystack needle : bytes) : bool := (0 <=? apk_blob_contains haystack needle).

Definition malicious_name (name : bytes) : bool :=
  bool_decide (head name = Some (chr "/")) || contains_control_character name ||
  bool_decide (take 2 name = lit "./") || bool_decide (take 3 name = lit "../") ||
  strstr name (lit "/./") || strstr name (lit "/../").

(** ** Entries *)

(** [struct install_ctx] with the flags of the installed package and the world. *)
Record install_ctx (W : Type) := mk_ictx {
  ctx_db : inst_db;
  ctx_w : W;
  ctx_script_pending : bool;
  ctx_broken_script : bool;
  ctx_broken_files : bool;
  ctx_broken_xattr : bool;
  ctx_installed_size : Z;      (* uint64_t *)
}.
Arguments mk_ictx {W}.
Arguments ctx_db {W}.
Arguments ctx_w {W}.
Arguments ctx_script_pending {W}.
Arguments ctx_broken_script {W}.
Arguments ctx_broken_files {W}.
Arguments ctx_broken_xattr {W}.
Arguments ctx_installed_size {W}.

Definition set_f_broken (f : apk_db_file) : apk_db_file :=
  mk_file (f_diri f) (f_acl f) (f_audited f) true (f_digest_alg f) (f_digest f) (f_namelen f) (f_name f).

Definition apk_calc_installed_size (size : Z) : Z := ROUND_UP (u64 size) 4096.

Section install.
Context {W : Type} `{FileSystem W} (run_script : W -> bool * W) (sha256 : bytes -> bytes).
Context (simulate usermode force_overwrite : bool) (fs_result : list fs_call -> Z) (fnmatch : bytes -> bytes -> bool).
Context (pkg_of : pkg_ref -> option apk_package) (garbage : apk_digest).
(** The package, and whether its files have truncated SHA256 digests. *)
Context (pkg : pkg_ref) (sha256_160 : bool).
Implicit Types ctx : install_ctx W.

Definition apk_db_run_pending_script ctx : install_ctx W :=
  if negb (ctx_script_pending ctx) then ctx
  else
    let '(failed, w) := run_script (ctx_w ctx) in
    mk_ictx (ctx_db ctx) w false (ctx_broken_script ctx || failed) (ctx_broken_files ctx) (ctx_broken_xattr ctx) (ctx_installed_size ctx).

Definition on_db (f : inst_db -> inst_db) ctx : install_ctx W :=
  mk_ictx (f (ctx_db ctx)) (ctx_w ctx) (ctx_script_pending ctx) (ctx_broken_script ctx) (ctx_broken_files ctx) (ctx_broken_xattr ctx) (ctx_installed_size ctx).
Definition mark_broken_files ctx : install_ctx W :=
  mk_ictx (ctx_db ctx) (ctx_w ctx) (ctx_script_pending ctx) (ctx_broken_script ctx) true (ctx_broken_xattr ctx) (ctx_installed_size ctx).
Definition mark_broken_xattr ctx : install_ctx W :=
  mk_ictx (ctx_db ctx) (ctx_w ctx) (ctx_script_pending ctx) (ctx_broken_script ctx) (ctx_broken_files ctx) true (ctx_installed_size ctx).
Definition set_world (w : W) ctx : install_ctx W :=
  mk_ictx (ctx_db ctx) w (ctx_script_pending ctx) (ctx_broken_script ctx) (ctx_broken_files ctx) (ctx_broken_xattr ctx) (ctx_installed_size ctx).
Definition add_installed_size (size : Z) ctx : install_ctx W :=
  mk_ictx (ctx_db ctx) (ctx_w ctx) (ctx_script_pending ctx) (ctx_broken_script ctx) (ctx_broken_files ctx) (ctx_broken_xattr ctx)
    (u64 (ctx_installed_size ctx + apk_calc_installed_size size)).

(** What happens to an entry whose file another object has: it is installed, left out, or in
    conflict. *)
Inductive overwrite := Overwrite | Leave | Conflict.

Definition may_overwrite (opkg : pkg_ref) : outcome overwrite :=
  let! r := apk_pkg_replaces_file garbage (pkg_of opkg) (pkg_of pkg) in
  Ok match r with
     | APK_PKG_REPLACES_CONFLICT => if force_overwrite then Overwrite else Conflict
     | APK_PKG_REPLACES_NO => Leave
     | APK_PKG_REPLACES_YES => Overwrite
     end.

(** The digest of a file that was extracted. *)
Definition entry_digest (ae : apk_file_info) (link_target_file : option apk_db_file) (f : apk_db_file) : apk_db_file :=
  let f := match link_target_file with
           | Some t => if negb sha256_160 then apk_dbf_digest_set (f_digest_alg t) (f_digest t) f
                       else apk_dbf_digest_set (d_alg (ae_digest ae)) (d_data (ae_digest ae)) f
           | None => apk_dbf_digest_set (d_alg (ae_digest ae)) (d_data (ae_digest ae)) f
           end in
  if sha256_160 && S_ISLNK (ae_mode ae) then
    apk_dbf_digest_set APK_DIGEST_SHA256_160 (take 20 (sha256 (default [] (ae_link_target ae)))) f
  else if (f_digest_alg f =? APK_DIGEST_NONE) && (d_alg (ae_digest ae) =? APK_DIGEST_SHA256) then
    apk_dbf_digest_set APK_DIGEST_SHA256_160 (d_data (ae_digest ae)) f
  else f.

(** Extracting the entry for the file; the result is the one of the handler. *)
Definition extract_entry (ae : apk_file_info) (data : bytes) (file : nat) (link_target_file : option nat) ctx : outcome (Z * install_ctx W) :=
  let ctx := on_db (upd_file file (set_f_acl (apk_db_acl_atomize_digest (ae_mode ae) (ae_uid ae) (ae_gid ae) (digest_blob (ae_xattr_digest ae))))) ctx in
  let! (r, w) := fs_extract ae data (ctx_w ctx) in
  let ctx := set_world w ctx in
  let '(r, ctx) := if 0 <? r then (0, if testmask r APK_EXTRACTW_XATTR then mark_broken_xattr ctx else mark_broken_files ctx) else (r, ctx) in
  Ok (if r =? 0 then
        (0, on_db (fun db => upd_file file (entry_digest ae (file_at db <$> link_target_file)) db) ctx)
      else if r =? - APKE_NOT_EXTRACTED then (0, on_db (upd_file file set_f_broken) ctx)
      else (if r =? - ENOSPC then r else 0, mark_broken_files (on_db (upd_file file set_f_broken) ctx))).

(** A file: its object is found or made, then it is extracted.  [None]: the fuel is too small. *)
Definition install_node (ae : apk_file_info) (data : bytes) (diri : nat) (bdir bfile : bytes) (link_target_file : option nat) ctx
    : outcome (Z * install_ctx W) :=
  let ofile := apk_db_file_query (ctx_db ctx) bdir bfile in
  let opkg := match ofile with Some o => di_pkg (diri_at (ctx_db ctx) (f_diri (file_at (ctx_db ctx) o))) | None => Pkg_null end in
  let! verdict := match ofile with Some _ => may_overwrite opkg | None => Ok Overwrite end in
  match verdict with
  | Leave => Ok (0, ctx)
  | Conflict => Ok (0, mark_broken_files ctx)
  | Overwrite =>
      let '(file, ctx) :=
        match ofile with
        | Some o => if bool_decide (opkg = pkg) then (o, ctx)
                    else let '(file, db) := apk_db_file_new diri bfile (ctx_db ctx) in (file, on_db (fun _ => db) ctx)
        | None => let '(file, db) := apk_db_file_new diri bfile (ctx_db ctx) in (file, on_db (fun _ => db) ctx)
        end in
      let! (ret, ctx) := extract_entry ae data file link_target_file ctx in
      Ok (ret, add_installed_size (ae_size ae) ctx)
  end.

Definition install_entry (fuel : nat) (ae : apk_file_info) (data : bytes) ctx : outcome (option (Z * install_ctx W)) :=
  let name := ae_name ae in
  let split := apk_blob_rsplit name (chr "/") in
  let '(bdir, bfile) := default ([], name) split in
  let '(found, db) := apk_db_diri_query bdir (ctx_db ctx) in
  let ctx := on_db (fun _ => db) ctx in
  match found, split with
  | None, Some _ => Ok (Some (0, mark_broken_files ctx))
  | _, _ =>
      match (match found with
             | Some diri => Some (diri, apk_db_diri_select diri db)
             | None => apk_db_diri_get fnmatch fuel bdir pkg db
             end) with
      | None => Ok None
      | Some (diri, db) =>
          let ctx := on_db (fun _ => db) ctx in
          match (if S_ISREG (ae_mode ae) then ae_link_target ae else None) with
          | Some link_target =>
              let '(link_target_file, db) := apk_db_ipkg_find_file link_target (ctx_db ctx) in
              let ctx := on_db (fun _ => db) ctx in
              match link_target_file with
              | None => Ok (Some (0, mark_broken_files ctx))
              | Some t => let! r := install_node ae data diri bdir bfile (Some t) ctx in Ok (Some r)
              end
          | None => let! r := install_node ae data diri bdir bfile None ctx in Ok (Some r)
          end
      end
  end.

Definition install_dir (fuel : nat) (ae : apk_file_info) ctx : outcome (option (Z * install_ctx W)) :=
  let name := apk_blob_trim_end (ae_name ae) (chr "/") in
  match apk_db_diri_get fnmatch fuel name pkg (ctx_db ctx) with
  | None => Ok None
  | Some (diri, db) =>
      let db := upd_diri diri (set_di_acl (apk_db_acl_atomize_digest (ae_mode ae) (ae_uid ae) (ae_gid ae) (digest_blob (ae_xattr_digest ae)))) db in
      let dir := di_dir (diri_at db diri) in
      let owner_acl (db : inst_db) := (fun o => di_acl (diri_at db o)) <$> dir_owner (dir_at (in_dirs db) dir) in
      let expected_acl := owner_acl db in
      let! db := apk_db_dir_apply_diri_permissions simulate usermode fs_result pkg_of diri db in
      match owner_acl db with
      | None => Fault
      | Some new_acl =>
          match apk_db_dir_prepare simulate usermode fs_result fuel dir expected_acl new_acl (in_dirs db) with
          | None => Ok None
          | Some dirs => Ok (Some (0, add_installed_size (ae_size ae) (on_db (fun _ => set_in_dirs dirs db) ctx)))
          end
      end
  end.

Definition apk_db_install_file (fuel : nat) (ae : apk_file_info) (data : bytes) ctx : outcome (option (Z * install_ctx W)) :=
  let ctx := apk_db_run_pending_script ctx in
  if malicious_name (ae_name ae) then Ok (Some (0, mark_broken_files ctx))
  else if negb (S_ISDIR (ae_mode ae)) then install_entry fuel ae data ctx
  else install_dir fuel ae ctx.
End install.
