(* ===== verification/UnpackFacts.v ===== *)
(** * Unpacking a package: what it promises

    Names that lead out of their directory are refused; and until the files are migrated
    nothing can be seen of a package: unpacking changes neither the owners of files nor any file
    but the temporary ones. *)

From S2P Require Import Prelude Blob BlobCodec Digest Hash Dep Package PackageRules Path Dirs Catalog Installed InstalledFacts Owner InstallFile InstallFacts Fs FsFacts Install.

(** ** Names *)

(** The parts of a name between its slashes. *)
Fixpoint components (name : bytes) : list bytes :=
  match name with
  | [] => [[]]
  | c :: t =>
      if c =? chr "/" then [] :: components t
      else match components t with x :: xs => (c :: x) :: xs | [] => [[c]] end
  end.

Lemma components_slash x t : chr "/" ∉ x -> components (x ++ chr "/" :: t) = x :: components t.
Proof.
  induction x as [|c x IH]; intros Hx; [done |]. rewrite not_elem_of_cons in Hx. destruct Hx as [Hc Hx].
  cbn [app components]. rewrite IH by done. by rewrite (proj2 (Z.eqb_neq c _)) by congruence.
Qed.

Lemma components_single x : chr "/" ∉ x -> components x = [x].
Proof.
  induction x as [|c x IH]; intros Hx; [done |]. rewrite not_elem_of_cons in Hx. destruct Hx as [Hc Hx].
  cbn [components]. rewrite IH by done. by rewrite (proj2 (Z.eqb_neq c _)) by congruence.
Qed.

Lemma components_nonempty s : components s <> [].
Proof. destruct s as [|c s]; [done |]. cbn. destruct (_ =? _); [done |]. by destruct (components s). Qed.

Lemma first_slash s : {chr "/" ∉ s} + {exists x t, s = x ++ chr "/" :: t /\ chr "/" ∉ x}.
Proof.
  destruct (decide (chr "/" ∈ s)) as [Hs|Hs]; [right | by left]. induction s as [|c s IH]; [by apply elem_of_nil in Hs |].
  destruct (decide (c = chr "/")) as [->|Hc]; [exists [], s; split; [done | apply not_elem_of_nil] |].
  apply elem_of_cons in Hs as [?|Hs]; [congruence |]. destruct (IH Hs) as (x & t & -> & Hx). exists (c :: x), t. split; [done |].
  rewrite not_elem_of_cons. split; [congruence | done].
Qed.

Lemma app_slash_inj x t d r : chr "/" ∉ x -> chr "/" ∉ d -> x ++ chr "/" :: t = d ++ chr "/" :: r -> x = d /\ t = r.
Proof.
  revert d. induction x as [|c x IH]; intros [|e d] Hx Hd He; cbn in *; rewrite ?not_elem_of_cons in *.
  - by injection He.
  - injection He as <- _. by destruct Hd.
  - injection He as -> _. by destruct Hx.
  - injection He as -> He. destruct (IH d) as [-> ->]; [by destruct Hx | by destruct Hd | done |]. done.
Qed.

(** A part that is not the last one stands before a slash, at the start or after a slash. *)
Lemma inner_component d s : chr "/" ∉ d ->
  d ∈ removelast (components s) <->
  (exists r, s = d ++ chr "/" :: r) \/ (exists l r, s = l ++ chr "/" :: d ++ chr "/" :: r).
Proof.
  intros Hd. remember (length s) as n eqn:En. revert s En. induction (lt_wf n) as [n _ IH]; intros s ->.
  destruct (first_slash s) as [Hs|(x & t & -> & Hx)].
  - rewrite components_single by done. split; [intros H; by apply elem_of_nil in H |].
    intros [(r & ->)|(l & r & ->)]; exfalso; apply Hs; rewrite !elem_of_app; right; left.
  - rewrite components_slash by done. assert (removelast (x :: components t) = x :: removelast (components t)) as ->.
    { pose proof (components_nonempty t). by destruct (components t). }
    rewrite elem_of_cons, (IH (length t)) by (try done; rewrite length_app; simpl; lia). split.
    + intros [->|[(r & ->)|(l & r & ->)]]; [left; by eexists | right; by exists x, r | right]. exists (x ++ chr "/" :: l), r. by rewrite <- app_assoc.
    + intros [(r & He)|(l & r & He)]; [left; by destruct (app_slash_inj x t d r Hx Hd He) |]. right.
      destruct (first_slash l) as [Hl|(y & l' & -> & Hy)].
      * destruct (app_slash_inj x t l (d ++ chr "/" :: r) Hx Hl He) as [_ ->]. left. by eexists.
      * rewrite <- app_assoc in He. destruct (app_slash_inj _ _ _ _ Hx Hy He) as [_ ->]. right. by eexists _, _.
Qed.

Lemma strstr_spec s needle : strstr s needle = true <-> exists l r, s = l ++ needle ++ r.
Proof.
  unfold strstr, apk_blob_contains. destruct (memmem s needle) as [i|] eqn:E.
  - apply memmem_Some in E as [(r & Hr) _]. split; [intros _; by exists (take i s), r | intros _; apply Z.leb_le; lia].
  - split; [done |]. intros (l & r & Hlr). by destruct (proj1 (memmem_None s needle) E l r).
Qed.

Lemma take_prefix (s p : bytes) : take (length p) s = p <-> exists r, s = p ++ r.
Proof.
  split; [intros Hp; exists (drop (length p) s); by rewrite <- Hp at 1; rewrite take_drop | intros (r & ->); by rewrite take_app_length].
Qed.

Lemma control_character_spec s : 0 ∉ s -> contains_control_character s = true <-> exists c, c ∈ s /\ (c < 0x20 \/ c = 0x7f).
Proof.
  intros Hs. unfold contains_control_character. replace (cstr_prefix s) with s.
  - rewrite existsb_exists. split; intros (c & Hin & Hc); exists c; rewrite <- list_elem_of_In in *; split; try done.
    + apply orb_true_iff in Hc as [Hc|Hc]; bool_prop; lia.
    + apply orb_true_iff. destruct Hc; [left; lia | right; lia].
  - induction s as [|c s IH]; [done |]. rewrite not_elem_of_cons in Hs. destruct Hs as [Hc Hs]. cbn. rewrite (proj2 (Z.eqb_neq c 0)) by congruence. by rewrite <- IH.
Qed.

(** The names the code refuses: absolute ones, those with control characters, and those with a component [.] or
    [..] before the last slash.  The last component, and the only one, may be [..]. *)
Definition unsafe_name (name : bytes) : Prop :=
  head name = Some (chr "/") \/ (exists c, c ∈ name /\ (c < 0x20 \/ c = 0x7f)) \/
  lit "." ∈ removelast (components name) \/ lit ".." ∈ removelast (components name).

Lemma malicious_name_spec name : 0 ∉ name -> malicious_name name = true <-> unsafe_name name.
Proof.
  intros Hn. unfold malicious_name, unsafe_name. rewrite !orb_true_iff, !bool_decide_eq_true, control_character_spec, !strstr_spec by done.
  rewrite !inner_component by (apply (bool_decide_unpack _); by vm_compute).
  rewrite (take_prefix name (lit "./")), (take_prefix name (lit "../")).
  assert (forall d : bytes, (exists r, name = (d ++ lit "/") ++ r) <-> exists r, name = d ++ chr "/" :: r) as H1.
  { intros d. split; intros (r & ->); exists r; by rewrite <- app_assoc. }
  specialize (H1 (lit ".")) as Ha. specialize (H1 (lit "..")) as Hb.
  change (lit "." ++ lit "/") with (lit "./") in Ha. change (lit ".." ++ lit "/") with (lit "../") in Hb.
  change (lit "/./") with (chr "/" :: lit "." ++ [chr "/"]). change (lit "/../") with (chr "/" :: lit ".." ++ [chr "/"]).
  tauto.
Qed.

(** ** What unpacking leaves alone *)

(** The owners of files, and their number. *)
Definition same_claims (db db' : inst_db) : Prop := in_table db' = in_table db /\ in_stat_files db' = in_stat_files db.

#[global] Instance same_claims_preorder : PreOrder same_claims.
Proof. split; [done | intros a b c [H1 H2] [H3 H4]; split; congruence]. Qed.

Lemma select_claims d db : same_claims db (apk_db_diri_select d db).
Proof. unfold apk_db_diri_select, apk_db_ipkg_commit_files. case_bool_decide; [done |]. by destruct (ic_diri (in_ic db)). Qed.

Lemma bsearch_claims d db : same_claims db (apk_db_diri_bsearch d db).2.
Proof. unfold apk_db_diri_bsearch. destruct (32 <? _)%nat; by case_match. Qed.

Lemma query_claims d db : same_claims db (apk_db_diri_query d db).2.
Proof. unfold apk_db_diri_query. destruct (ic_diri (in_ic db)); [case_match; [done |] |]; apply bsearch_claims. Qed.

Lemma diri_get_claims fnmatch fuel d pkg db a db' : apk_db_diri_get fnmatch fuel d pkg db = Some (a, db') -> same_claims db db'.
Proof.
  assert (forall res, (let '(found, db) := apk_db_diri_bsearch d db in
    r ← match found with Some diri => Some (diri, db) | None => diri_new fnmatch fuel d pkg res db end;
    let '(diri, db) := r in Some (diri, apk_db_diri_select diri db)) = Some (a, db') -> same_claims db db') as Hb.
  { intros res. pose proof (bsearch_claims d db) as Hs. destruct (apk_db_diri_bsearch d db) as [[x|] db1]; cbn.
    - intros [= <- <-]. etransitivity; [exact Hs | apply select_claims].
    - unfold diri_new. destruct (apk_db_dir_get _ _ _ _) as [[dir dirs]|]; [| done]. cbn. intros [= <- <-].
      etransitivity; [exact Hs |]. etransitivity; [| apply select_claims]. done. }
  unfold apk_db_diri_get. destruct (ic_diri (in_ic db)); [| apply Hb]. destruct (_ =? 0); [by intros [= <- <-] | apply Hb].
Qed.

Lemma find_file_claims f db : same_claims db (apk_db_ipkg_find_file f db).2.
Proof.
  unfold apk_db_ipkg_find_file. destruct (match apk_blob_rsplit f _ with Some r => r | None => _ end) as [dir file].
  pose proof (query_claims dir db) as Hq. destruct (apk_db_diri_query dir db) as [[d|] db1]; [| done]. cbn [snd] in *.
  destruct (if bool_decide _ then _ else _) as [files db2] eqn:E. cbn [snd]. transitivity db1; [done |].
  destruct (bool_decide _); [destruct (ic_files_unsorted _) |]; by injection E as <- <-.
Qed.

Lemma file_new_claims d n db : same_claims db (apk_db_file_new d n db).2.
Proof. done. Qed.

Lemma apply_claims simulate usermode fs_result pkg_of d db db' :
  apk_db_dir_apply_diri_permissions simulate usermode fs_result pkg_of d db = Ok db' -> same_claims db db'.
Proof.
  unfold apk_db_dir_apply_diri_permissions. destruct (dir_owner _); [| by intros [= <-]].
  destruct (apk_pkg_replaces_dir _ _); [| done]. cbn [obind]. intros [= <-]. destruct (negb _); [done |].
  destruct (bool_decide _); [done |]. unfold apk_db_dir_update_permissions. by repeat case_match.
Qed.

Section unpack.
Context {W : Type} `{FileSystemLaws W} (run_script : W -> bool * W) (sha256 : bytes -> bytes).
Context (simulate usermode force_overwrite : bool) (fs_result : list fs_call -> Z) (fnmatch : bytes -> bytes -> bool).
Context (pkg_of : pkg_ref -> option apk_package) (garbage : apk_digest) (pkg : pkg_ref) (sha256_160 : bool).
Implicit Types ctx : install_ctx W.

(** Nobody sees the entry [name]: the owners of files are the same, and the files at all paths but
    its temporary one. *)
Definition unseen (name : bytes) ctx ctx' : Prop :=
  same_claims (ctx_db ctx) (ctx_db ctx') /\
  forall d n alg, fs_fits d n -> ~ fs_tmp name (path_join d n) -> fs_file_info d n alg (ctx_w ctx') = fs_file_info d n alg (ctx_w ctx).

#[local] Instance unseen_preorder name : PreOrder (unseen name).
Proof.
  split; [done |]. intros a b c [H1 H2] [H3 H4]. split; [by etransitivity |]. intros. by rewrite H4, H2.
Qed.

Lemma extract_unseen ae data file t ctx r ctx' : S_ISDIR (ae_mode ae) = false ->
  extract_entry sha256 sha256_160 ae data file t ctx = Ok (r, ctx') -> unseen (ae_name ae) ctx ctx'.
Proof.
  intros Hdir. unfold extract_entry. cbv zeta. destruct (fs_extract _ _ _) as [[e w]|] eqn:E; [| done]. cbn [obind].
  cbn [ctx_w on_db] in E. set (c := set_world w _). assert (unseen (ae_name ae) ctx c) as Hc.
  { split; [done |]. intros d n alg Hf Ht. cbn [ctx_w c set_world]. by apply (fs_extract_frame ae data (ctx_w ctx) e). }
  destruct (0 <? e); [destruct (testmask _ _) |]; repeat case_match; intros [= <- <-]; (etransitivity; [exact Hc | done]).
Qed.

Lemma node_unseen ae data d bdir bfile t ctx r ctx' : S_ISDIR (ae_mode ae) = false ->
  install_node sha256 force_overwrite pkg_of garbage pkg sha256_160 ae data d bdir bfile t ctx = Ok (r, ctx') -> unseen (ae_name ae) ctx ctx'.
Proof.
  intros Hdir. unfold install_node. destruct (match apk_db_file_query _ _ _ with Some _ => _ | None => _ end) as [v|]; [| done]. cbn [obind].
  destruct v; [| by intros [= <- <-] | by intros [= <- <-]].
  set (x := match apk_db_file_query _ _ _ with Some _ => _ | None => _ end).
  assert (unseen (ae_name ae) ctx x.2) as Hx.
  { unfold x. destruct (apk_db_file_query _ _ _); [destruct (bool_decide _) |]; done. }
  destruct x as [file c]. cbn [snd] in Hx. destruct (extract_entry _ _ _ _ _ _ _) as [[e c']|] eqn:E; [| done]. cbn [obind].
  intros [= <- <-]. apply extract_unseen in E; [| done]. etransitivity; [exact Hx |]. etransitivity; [exact E | done].
Qed.
Abbreviation install_file := (apk_db_install_file run_script sha256 simulate usermode force_overwrite fs_result fnmatch pkg_of garbage pkg sha256_160).

Lemma entry_unseen fuel ae data ctx r ctx' : S_ISDIR (ae_mode ae) = false ->
  install_entry sha256 force_overwrite fnmatch pkg_of garbage pkg sha256_160 fuel ae data ctx = Ok (Some (r, ctx')) -> unseen (ae_name ae) ctx ctx'.
Proof.
  intros Hdir. unfold install_entry. destruct (default _ _) as [bdir bfile]. pose proof (query_claims bdir (ctx_db ctx)) as Hq.
  destruct (apk_db_diri_query bdir (ctx_db ctx)) as [found db1]. cbn [snd] in Hq.
  assert (forall o : option (nat * inst_db), (forall d db2, o = Some (d, db2) -> same_claims db1 db2) ->
    match o with
    | None => Ok None
    | Some (diri, db) =>
        let ctx := on_db (fun _ => db) (on_db (fun _ => db1) ctx) in
        match (if S_ISREG (ae_mode ae) then ae_link_target ae else None) with
        | Some link_target =>
            let '(link_target_file, db) := apk_db_ipkg_find_file link_target (ctx_db ctx) in
            let ctx := on_db (fun _ => db) ctx in
            match link_target_file with
            | None => Ok (Some (0, mark_broken_files ctx))
            | Some t => let! r := install_node sha256 force_overwrite pkg_of garbage pkg sha256_160 ae data diri bdir bfile (Some t) ctx in Ok (Some r)
            end
        | None => let! r := install_node sha256 force_overwrite pkg_of garbage pkg sha256_160 ae data diri bdir bfile None ctx in Ok (Some r)
        end
    end = Ok (Some (r, ctx')) -> unseen (ae_name ae) ctx ctx') as Hrest.
  { intros [[d db2]|] Ho; [| done]. specialize (Ho d db2 eq_refl). cbv zeta. cbn [ctx_db on_db].
    destruct (if S_ISREG _ then _ else _) as [lt|].
    - pose proof (find_file_claims lt db2) as Hf. destruct (apk_db_ipkg_find_file lt db2) as [[t|] db3]; cbn [snd] in Hf.
      + destruct (install_node _ _ _ _ _ _ _ _ _ _ _ _ _) as [[r1 c1]|] eqn:E; [| done]. intros [= <- <-]. apply node_unseen in E; [| done].
        etransitivity; [| exact E]. split; [| done]. transitivity db1; [done |]. by transitivity db2.
      + intros [= <- <-]. split; [| done]. transitivity db1; [done |]. by transitivity db2.
    - destruct (install_node _ _ _ _ _ _ _ _ _ _ _ _ _) as [[r1 c1]|] eqn:E; [| done]. intros [= <- <-]. apply node_unseen in E; [| done].
      etransitivity; [| exact E]. split; [| done]. by transitivity db1. }
  destruct found as [d|]; [| destruct (apk_blob_rsplit _ _) as [sp|]; [by intros [= <- <-] |]].
  - apply (Hrest (Some (d, apk_db_diri_select d db1))). intros ? ? [= <- <-]. apply select_claims.
  - apply (Hrest (apk_db_diri_get fnmatch fuel bdir pkg db1)). intros d db2. apply diri_get_claims.
Qed.

End unpack.

(** A file [conf] in the root, as an archive has it. *)
Definition ex_entry : apk_file_info :=
  mk_ae (lit "conf") None 0x81a4 0 0 3 0 0 (mk_digest APK_DIGEST_SHA256 32 (replicate 32 7)) (mk_digest 0 0 []) [].
Definition ex_ctx : install_ctx ram := mk_ictx ex_db ex_ram false false false false 0.
Abbreviation ex_install :=
  (apk_db_install_file (W := ram) (H := ex_files) (fun w => (false, w)) ex_sha256 false false false (fun _ => 0) (fun _ _ => false) (fun _ => None)
    (mk_digest 0 0 []) (Pkg_at 0) true 5 ex_entry (lit "new") ex_ctx).

