(* ===== verification/SearchFacts.v ===== *)
(** * Searching while packages are read and unpacked (database.c)

    The binary searches of Installed.v give the same answers as linear searches, in the states that reading the
    installed database, unpacking packages and migrating their files go through. *)

From S2P Require Import Prelude Blob BlobCodec Digest Hash Dep Package PackageRules Path Dirs DirsFacts Catalog Installed InstalledFacts Owner FdbRead InstallFile Fs FsFacts Install UnpackFacts.

(** What unpacking relies on; the references to directories are counted in some way. *)
Definition searchable (db : inst_db) : Prop := exists ext, builder_inv false ext db.

(** ** Directories on disk *)

Section Prepare.
Context (simulate usermode : bool) (fs_result : list fs_call -> Z).

Lemma parent_exists ext db a d parent :
  dir_inv ext [] db -> dd_dirs db !! a = Some d -> dir_parent d = Some parent -> is_Some (dd_dirs db !! parent).
Proof.
  intros Hi Ha Hp. destruct (live d) eqn:El.
  - pose proof (iv_parent _ _ _ Hi a d Ha El (not_elem_of_nil _)) as Hpo. unfold parent_ok in Hpo.
    destruct (dir_name d); [congruence |]. destruct Hpo as (pa & pd & E & Hpd & _). rewrite Hp in E. injection E as ->. by eexists.
  - pose proof (iv_none _ _ _ Hi a d Ha (or_intror (conj El (not_elem_of_nil _)))) as Hn. congruence.
Qed.

(** Only the attributes of directories change, and the calls that were made. *)
Abbreviation only ext db dirs := (dirs_only ext db (set_in_dirs dirs db)).

Lemma only_refl ext db : builder_inv false ext db -> only ext db (in_dirs db).
Proof. intros Hi. split; [| done | done]. split; try done; apply Hi. Qed.

Lemma only_inv ext db dirs : builder_inv false ext db -> only ext db dirs -> builder_inv false ext (set_in_dirs dirs db).
Proof. intros Hi Ho. by apply (attributes_inv ext db), Ho. Qed.

Lemma only_exists ext db dirs a : only ext db dirs -> is_Some (dd_dirs (in_dirs db) !! a) -> is_Some (dd_dirs dirs !! a).
Proof. intros Ho. apply (at_dir _ _ _ (do_attributes _ _ _ Ho)). Qed.

Lemma only_trans ext db dirs dirs' : only ext db dirs -> only ext (set_in_dirs dirs db) dirs' -> only ext db dirs'.
Proof. intros H1 H2. exact (dirs_only_trans _ _ _ _ H1 H2). Qed.

Lemma only_upd ext db a f : builder_inv false ext db -> is_Some (dd_dirs (in_dirs db) !! a) -> (forall d, same_shape d (f d)) ->
  only ext db (upd_dir a f (in_dirs db)).
Proof. intros Hi Ha Hf. by apply (upd_dir_only (loaded := false)). Qed.

Lemma only_call ext db c : builder_inv false ext db -> only ext db (fs_do fs_result c (in_dirs db)).2.
Proof. intros Hi. by apply (log_only (loaded := false) ext db (log_call c)). Qed.

Lemma mkdir_only ext db dir acl : builder_inv false ext db -> only ext db (apk_db_dir_mkdir simulate usermode fs_result dir acl (in_dirs db)).2.
Proof. intros Hi. unfold apk_db_dir_mkdir. destruct simulate; [by apply only_refl | by apply only_call]. Qed.

(** A call, and a mark when it succeeded. *)
Lemma marked_only ext db dirs (b : bool) a : builder_inv false ext db -> is_Some (dd_dirs (in_dirs db) !! a) -> only ext db dirs ->
  only ext db (if b then upd_dir a (set_dir_permissions_ok true) dirs else dirs).
Proof.
  intros Hi Ha Ho. destruct b; [| done]. apply (only_trans ext db dirs); [done |].
  apply (only_upd ext (set_in_dirs dirs db)); [by apply only_inv | by eapply only_exists | done].
Qed.

Lemma prepare_only fuel a e n ext db dirs :
  builder_inv false ext db -> is_Some (dd_dirs (in_dirs db) !! a) ->
  apk_db_dir_prepare simulate usermode fs_result fuel a e n (in_dirs db) = Some dirs -> only ext db dirs.
Proof.
  revert a e n db dirs. induction fuel as [|fuel IH]; intros a e n db dirs Hi Ha; [done |].
  cbn [apk_db_dir_prepare]. destruct (_ =? 0); [by intros [= <-]; apply only_refl |]. destruct (dir_created _); [by intros [= <-]; apply only_refl |].
  pose proof (only_upd ext db a (set_dir_created true) Hi Ha ltac:(done)) as H1. set (dirs1 := upd_dir a _ (in_dirs db)) in *.
  pose proof (only_inv _ _ _ Hi H1) as Hi1. destruct (only_exists _ _ _ a H1 Ha) as [d Hd].
  destruct (match dir_parent _ with Some _ => _ | None => _ end) as [dirs2|] eqn:Ep; [| done]. cbn [mbind option_bind].
  assert (only ext db dirs2) as H2.
  { assert (dir_at dirs1 a = d) as Hat by (unfold dir_at; by rewrite Hd). revert Ep. rewrite Hat.
    destruct (dir_parent d) as [p|] eqn:Edp; [| by intros [= <-]].
    destruct (dir_created _); [by intros [= <-] |]. intros Ep. apply (only_trans ext db dirs1); [done |].
    eapply (IH p); [done | | exact Ep]. exact (parent_exists ext dirs1 a d p (cv_dirs _ _ Hi1) Hd Edp). }
  pose proof (only_inv _ _ _ Hi H2) as Hi2. pose proof (only_exists _ _ _ a H2 Ha) as Ha2.
  set (mkdir := fun db : dir_db => let '(r, db) := apk_db_dir_mkdir simulate usermode fs_result (dir_path db a) n db in
      if r =? 0 then upd_dir a (set_dir_permissions_ok true) db else db).
  assert (forall dirs3, only ext db dirs3 -> only ext db (mkdir dirs3)) as Hmk.
  { intros dirs3 H3. pose proof (only_inv _ _ _ Hi H3) as Hi3. unfold mkdir.
    pose proof (mkdir_only ext _ (dir_path dirs3 a) n Hi3) as Hm. cbn [in_dirs set_in_dirs] in Hm.
    destruct (apk_db_dir_mkdir _ _ _ _ _ _) as [r dirs4]. cbn [snd] in Hm. apply marked_only; [done | done |]. by apply (only_trans ext db dirs3). }
  destruct e as [acl|]; [| intros [= <-]; by apply Hmk].
  pose proof (only_call ext _ (Fs_check (dir_path dirs2 a) (apk_db_dir_get_mode usermode (acl_mode acl)) (acl_uid acl) (acl_gid acl)) Hi2) as Hc.
  cbn [in_dirs set_in_dirs] in Hc. destruct (fs_do _ _ _) as [r dirs3]. cbn [snd] in Hc. intros [= <-].
  assert (only ext db dirs3) as H3 by (by apply (only_trans ext db dirs2)).
  destruct (r =? - ENOENT); [by apply Hmk |]. by apply marked_only.
Qed.
End Prepare.

(** ** Steps *)

Lemma searchable_attributes db db' : searchable db -> (forall ext, builder_inv false ext db -> attributes ext db db') -> searchable db'.
Proof. intros [ext Hi] Ha. exists ext. by apply (attributes_inv ext db), Ha. Qed.

Lemma searchable_file f g db : searchable db -> is_Some (in_files db !! f) ->
  (forall x, f_diri (g x) = f_diri x /\ f_namelen (g x) = f_namelen x /\ f_name (g x) = f_name x) -> searchable (upd_file f g db).
Proof. intros Hs Hf Hg. apply (searchable_attributes db); [done |]. intros ext Hi. by apply (upd_file_attributes (loaded := false)). Qed.

Lemma searchable_diri_acl d acl db : searchable db -> is_Some (in_diris db !! d) -> searchable (upd_diri d (set_di_acl acl) db).
Proof. intros Hs Hd. apply (searchable_attributes db); [done |]. intros ext Hi. by apply (set_diri_acl_attributes (loaded := false)). Qed.

Lemma searchable_query name db : searchable db -> searchable (apk_db_diri_query name db).2 /\ resorted db (apk_db_diri_query name db).2 /\
  forall d, (apk_db_diri_query name db).1 = Some d <-> has_diri db name d.
Proof.
  intros [ext Hi]. pose proof (diri_query_spec ext db name Hi) as Hq. destruct (apk_db_diri_query name db). destruct Hq as (? & ? & ?).
  split_and!; [by exists ext | done | done].
Qed.

Lemma searchable_find path db : searchable db -> searchable (apk_db_ipkg_find_file path db).2 /\
  kept db (apk_db_ipkg_find_file path db).2 /\ ic_diri (in_ic (apk_db_ipkg_find_file path db).2) = ic_diri (in_ic db) /\
  match (apk_db_ipkg_find_file path db).1 with Some f => has_file db path f | None => forall f, ~ has_file db path f end.
Proof.
  intros [ext Hi]. pose proof (find_file_spec ext db path Hi) as Hq. destruct (apk_db_ipkg_find_file path db). destruct Hq as (? & ? & ? & ?).
  split_and!; [by exists ext | done | done | done].
Qed.

Lemma searchable_select d db : searchable db -> d ∈ ic_diris (in_ic db) ->
  searchable (apk_db_diri_select d db) /\ ic_diri (in_ic (apk_db_diri_select d db)) = Some d.
Proof. intros [ext Hi] Hd. destruct (diri_select_spec ext db d Hi Hd) as [? Hc]. split; [by exists ext | apply Hc]. Qed.

Lemma searchable_get fnmatch fuel name pkg db : searchable db -> clean name -> refs_below_limit db -> (length name < fuel)%nat ->
  exists d db', apk_db_diri_get fnmatch fuel name pkg db = Some (d, db') /\ searchable db' /\ got_diri name pkg db d db' /\ is_Some (in_diris db' !! d).
Proof.
  intros [ext Hi] Hc Hr Hf. destruct (diri_get_spec fnmatch fuel ext db name pkg Hi Hc Hr Hf) as (d & db' & ext' & Hg & Hi' & Hgot).
  exists d, db'. split_and!; [done | by exists ext' | done |]. apply (cv_member _ _ Hi'), (cv_current _ _ Hi'), Hgot.
Qed.

Lemma searchable_new d name db : searchable db -> ic_diri (in_ic db) = Some d -> searchable (apk_db_file_new d name db).2.
Proof. intros [ext Hi] Hd. exists ext. by apply (file_new_inv false). Qed.

Lemma searchable_table t n db : searchable db -> (forall it, it ∈ concat (buckets t) -> is_Some (in_files db !! fi_addr it)) ->
  searchable (set_in_stat_files n (set_in_table t db)).
Proof. intros [ext Hi] Ht. exists ext. by apply builder_table. Qed.

Lemma file_get_searchable d name db : searchable db -> ic_diri (in_ic db) = Some d -> searchable (apk_db_file_get d name db).2.
Proof.
  intros Hs Hd. unfold apk_db_file_get. destruct (apk_hash_get_hashed _ _ _); [done |].
  pose proof (searchable_new d name db Hs Hd) as Hn. destruct (apk_db_file_new d name db) as [a db1] eqn:E. cbn [snd] in *.
  apply searchable_table; [done |]. destruct Hn as [ext Hi]. intros it [->|Hit]%insert_hashed_elem; [| by apply (cv_listed _ _ Hi)].
  injection E as <- <-. cbn. by rewrite lookup_insert_eq.
Qed.

Lemma file_query_exists db dir name o : searchable db -> apk_db_file_query db dir name = Some o -> is_Some (in_files db !! o).
Proof.
  intros [ext Hi] (it & Hg & ->)%fmap_Some. apply (cv_listed _ _ Hi). by apply get_hashed_elem in Hg.
Qed.

(** ** Unpacking an entry *)

Section Unpack.
Context {W : Type} `{FileSystem W} (run_script : W -> bool * W) (sha256 : bytes -> bytes).
Context (simulate usermode force_overwrite : bool) (fs_result : list fs_call -> Z) (fnmatch : bytes -> bytes -> bool).
Context (pkg_of : pkg_ref -> option apk_package) (garbage : apk_digest) (pkg : pkg_ref) (sha256_160 : bool).
Implicit Types ctx : install_ctx W.
Abbreviation install_file := (apk_db_install_file run_script sha256 simulate usermode force_overwrite fs_result fnmatch pkg_of garbage pkg sha256_160).

Lemma entry_digest_keeps ae t x : let x' := entry_digest sha256 sha256_160 ae t x in
  f_diri x' = f_diri x /\ f_namelen x' = f_namelen x /\ f_name x' = f_name x.
Proof. unfold entry_digest, apk_dbf_digest_set. by repeat case_match. Qed.

Lemma extract_searchable ae data file t ctx r ctx' : searchable (ctx_db ctx) -> is_Some (in_files (ctx_db ctx) !! file) ->
  extract_entry sha256 sha256_160 ae data file t ctx = Ok (r, ctx') -> searchable (ctx_db ctx').
Proof.
  intros Hs Hf. unfold extract_entry. cbv zeta. destruct (fs_extract _ _ _) as [[e w]|]; [| done]. cbn [obind].
  set (acl := apk_db_acl_atomize_digest _ _ _ _). assert (searchable (upd_file file (set_f_acl acl) (ctx_db ctx))) as H1 by (by apply searchable_file).
  assert (is_Some (in_files (upd_file file (set_f_acl acl) (ctx_db ctx)) !! file)) as H2 by (cbn; by rewrite lookup_insert_eq).
  assert (forall g, (forall x, f_diri (g x) = f_diri x /\ f_namelen (g x) = f_namelen x /\ f_name (g x) = f_name x) ->
    searchable (upd_file file g (upd_file file (set_f_acl acl) (ctx_db ctx)))) as Hg by (intros g; by apply searchable_file).
  destruct (0 <? e); [destruct (testmask _ _) |]; repeat case_match; intros [= <- <-]; apply Hg; try done; intros x; apply entry_digest_keeps.
Qed.

Lemma node_searchable ae data d bdir bfile t ctx r ctx' : searchable (ctx_db ctx) -> ic_diri (in_ic (ctx_db ctx)) = Some d ->
  install_node sha256 force_overwrite pkg_of garbage pkg sha256_160 ae data d bdir bfile t ctx = Ok (r, ctx') -> searchable (ctx_db ctx').
Proof.
  intros Hs Hd. unfold install_node. destruct (match apk_db_file_query _ _ _ with Some _ => _ | None => _ end) as [v|]; [| done]. cbn [obind].
  destruct v; [| by intros [= <- <-] | by intros [= <- <-]].
  set (x := match apk_db_file_query _ _ _ with Some _ => _ | None => _ end).
  assert (searchable (ctx_db x.2) /\ is_Some (in_files (ctx_db x.2) !! x.1)) as [Hx1 Hx2].
  { assert (let y := apk_db_file_new d bfile (ctx_db ctx) in searchable y.2 /\ is_Some (in_files y.2 !! y.1)) as Hn.
    { split; [by apply searchable_new | cbn; by rewrite lookup_insert_eq]. }
    unfold x. destruct (apk_db_file_query _ _ _) as [o|] eqn:E; [destruct (bool_decide _) |]; [| done | done].
    split; [done | by eapply file_query_exists]. }
  destruct x as [file c]. cbn [fst snd] in *. destruct (extract_entry _ _ _ _ _ _ _) as [[e c']|] eqn:E; [| done]. cbn [obind].
  intros [= <- <-]. by apply extract_searchable in E.
Qed.

(** What must hold of an entry: the name of a directory is clean, and the references can be counted. *)
Definition entry_fits (fuel : nat) (ae : apk_file_info) (db : inst_db) : Prop :=
  refs_below_limit db /\
  if S_ISDIR (ae_mode ae) then
    let name := apk_blob_trim_end (ae_name ae) (chr "/") in clean name /\ (length name < fuel)%nat
  else (0 < fuel)%nat.

Lemma entry_searchable fuel ae data ctx r ctx' : searchable (ctx_db ctx) -> refs_below_limit (ctx_db ctx) -> (0 < fuel)%nat ->
  install_entry sha256 force_overwrite fnmatch pkg_of garbage pkg sha256_160 fuel ae data ctx = Ok (Some (r, ctx')) -> searchable (ctx_db ctx').
Proof.
  intros Hs Hr Hf. unfold install_entry.
  set (sp := apk_blob_rsplit (ae_name ae) _). assert (sp = None -> (default ([], ae_name ae) sp).1 = []) as Hroot by (by intros ->).
  destruct (default _ sp) as [bdir bfile]. cbn [fst] in Hroot. destruct (searchable_query bdir (ctx_db ctx) Hs) as (Hs1 & Hr1 & Hq).
  destruct (apk_db_diri_query bdir (ctx_db ctx)) as [found db1]. cbn [fst snd] in *.
  assert (forall o : option (nat * inst_db), (forall d db2, o = Some (d, db2) -> searchable db2 /\ ic_diri (in_ic db2) = Some d) ->
    match o with
    | None => Ok None
    | Some (diri, db) =>
        let ctx := on_db (fun _ => db) (on_db (fun _ => db1) ctx) in
        match (if S_ISREG (ae_mode ae) then ae_link_target ae else None) with
        | Some link_target =>
            let '(link_target_file, db) := apk_db_ipkg_find_file link_target (ctx_db ctx) in
            let ctx := on_db (fun _ => db) ctx in
            match link_target_file with
            | None => Ok (Some (0, mark_broken_files ctx))
            | Some t => let! r := install_node sha256 force_overwrite pkg_of garbage pkg sha256_160 ae data diri bdir bfile (Some t) ctx in Ok (Some r)
            end
        | None => let! r := install_node sha256 force_overwrite pkg_of garbage pkg sha256_160 ae data diri bdir bfile None ctx in Ok (Some r)
        end
    end = Ok (Some (r, ctx')) -> searchable (ctx_db ctx')) as Hrest.
  { intros [[d db2]|] Ho; [| done]. destruct (Ho d db2 eq_refl) as [Hs2 Hd2]. cbv zeta. cbn [ctx_db on_db].
    destruct (if S_ISREG _ then _ else _) as [lt|].
    - destruct (searchable_find lt db2 Hs2) as (Hs3 & _ & Hd3 & _). destruct (apk_db_ipkg_find_file lt db2) as [[t|] db3]; cbn [fst snd] in *.
      + destruct (install_node _ _ _ _ _ _ _ _ _ _ _ _ _) as [[r1 c1]|] eqn:E; [| done]. intros [= <- <-]. apply node_searchable in E; [done | done | cbn; congruence].
      + by intros [= <- <-].
    - destruct (install_node _ _ _ _ _ _ _ _ _ _ _ _ _) as [[r1 c1]|] eqn:E; [| done]. intros [= <- <-]. by apply node_searchable in E. }
  destruct found as [d|]; [| destruct sp as [x|]; [by intros [= <- <-] |]].
  - apply (Hrest (Some (d, apk_db_diri_select d db1))). intros ? ? [= <- <-]. apply searchable_select; [done |]. rewrite (rs_diris _ _ Hr1). by apply Hq.
  - apply (Hrest (apk_db_diri_get fnmatch fuel bdir pkg db1)). intros d db2 E. rewrite Hroot in E by done.
    destruct (searchable_get fnmatch fuel [] pkg db1) as (d' & db' & E' & Hs' & Hg' & _);
      [done | apply clean_nil | unfold refs_below_limit; by rewrite (so_dirs _ _ (rs_objects _ _ Hr1)) | simpl; lia |].
    rewrite E' in E. injection E as <- <-. split; [done | apply Hg'].
Qed.

Lemma dir_searchable fuel ae ctx r ctx' : searchable (ctx_db ctx) -> refs_below_limit (ctx_db ctx) ->
  (let name := apk_blob_trim_end (ae_name ae) (chr "/") in clean name /\ (length name < fuel)%nat) ->
  install_dir simulate usermode fs_result fnmatch pkg_of pkg fuel ae ctx = Ok (Some (r, ctx')) -> searchable (ctx_db ctx').
Proof.
  intros Hs Hr [Hc Hf]. unfold install_dir. destruct (searchable_get fnmatch fuel _ pkg (ctx_db ctx) Hs Hc Hr Hf) as (d & db1 & -> & Hs1 & Hg & Hd).
  set (acl := apk_db_acl_atomize_digest _ _ _ _). pose proof (searchable_diri_acl d acl db1 Hs1 Hd) as Hs2. set (db2 := upd_diri d _ db1) in *.
  assert (is_Some (in_diris db2 !! d)) as Hd2 by (cbn; by rewrite lookup_insert_eq).
  destruct (apk_db_dir_apply_diri_permissions _ _ _ _ _ _) as [db3|] eqn:Ea; [| done]. cbn [obind].
  destruct Hs2 as [ext Hi2].
  assert (dirs_only ext db2 db3) as Ho.
  { destruct (apply_permissions_spec (loaded := false) simulate usermode fs_result pkg_of ext db2 d Hi2 Hd2) as (db3' & E & Ho & _); [| by rewrite Ea in E; injection E as ->].
    intros o Eo. revert Ea. unfold apk_db_dir_apply_diri_permissions. rewrite Eo. destruct (apk_pkg_replaces_dir _ _) as [rr|]; [by eexists | done]. }
  pose proof (attributes_inv ext db2 db3 Hi2 (do_attributes _ _ _ Ho)) as Hi3.
  destruct (_ <$> _) as [nacl|]; [| done]. destruct (apk_db_dir_prepare _ _ _ _ _ _ _ _) as [dirs|] eqn:Ep; [| done]. intros [= <- <-].
  exists ext. apply (only_inv ext db3 dirs Hi3). eapply prepare_only; [done | | exact Ep].
  apply (at_dir _ _ _ (do_attributes _ _ _ Ho)). by apply (diri_dir (loaded := false) ext).
Qed.

Lemma install_file_searchable fuel ae data ctx r ctx' : searchable (ctx_db ctx) -> entry_fits fuel ae (ctx_db ctx) ->
  install_file fuel ae data ctx = Ok (Some (r, ctx')) -> searchable (ctx_db ctx').
Proof.
  intros Hs [Hr Hf]. unfold apk_db_install_file. set (c := apk_db_run_pending_script _ _).
  assert (ctx_db c = ctx_db ctx) as Hc by (unfold c, apk_db_run_pending_script; by repeat case_match). rewrite <- Hc in *. clearbody c.
  destruct (malicious_name _); [by intros [= <- <-] |]. destruct (S_ISDIR (ae_mode ae)); cbn [negb]; [by apply dir_searchable | by apply entry_searchable].
Qed.
End Unpack.

(** ** Migrating files *)

Section Migrate.
Context {W : Type} `{FileSystem W} (clean_protected : bool) (diris : list nat).
Implicit Types m : migration W.

(** No package is being built, and the instances exist. *)
Record migrating (m : migration W) : Prop := {
  mi_searchable : searchable (mg_db m);
  mi_idle : idle (mg_db m);
  mi_diris : forall d, d ∈ diris -> is_Some (in_diris (mg_db m) !! d);
}.

Lemma claim_searchable db file key hash n : searchable db -> is_Some (in_files db !! file) ->
  searchable (set_in_stat_files n (set_in_table (apk_hash_insert_hashed (in_table db) (mk_file_item file key) hash) db)).
Proof.
  intros Hs Hf. apply searchable_table; [done |]. intros it [->|Hit]%insert_hashed_elem; [done |].
  destruct Hs as [ext Hi]. by apply (cv_listed _ _ Hi).
Qed.

Lemma stat_files_same db : set_in_stat_files (in_stat_files db) db = db.
Proof. by destruct db. Qed.

Lemma migrate_file_migrating d f m : migrating m -> is_Some (in_files (mg_db m) !! f) ->
  migrating (migrate_file clean_protected d f m) /\ forall g, is_Some (in_files (mg_db m) !! g) -> is_Some (in_files (mg_db (migrate_file clean_protected d f m)) !! g).
Proof.
  intros [Hs Hidle Hd] Hf. unfold migrate_file. cbv zeta. set (o := fi_addr <$> _).
  assert (forall a, o = Some a -> is_Some (in_files (mg_db m) !! a)) as Ho.
  { intros a (it & Hit & ->)%fmap_Some. destruct Hs as [ext Hi]. apply (cv_listed _ _ Hi). by apply get_hashed_elem in Hit. }
  clearbody o. assert (mg_db (migrate_disk clean_protected d f o m) = mg_db m) as Hm by (unfold migrate_disk; by repeat case_match).
  revert Hs Hidle Hd Hf Ho. rewrite <- Hm. generalize (migrate_disk clean_protected d f o m) as m1. clear m Hm.
  intros m Hs Hidle Hd Hf Ho. unfold migrate_owner. destruct o as [o|].
  - case_bool_decide; [by split |]. specialize (Ho o eq_refl). set (db1 := upd_file o (set_f_audited true) (mg_db m)).
    assert (searchable db1) as Hs1 by (by apply searchable_file).
    assert (forall g, is_Some (in_files (mg_db m) !! g) -> is_Some (in_files db1 !! g)) as Hg.
    { intros g Hg. cbn. destruct (decide (g = o)) as [->|]; [by rewrite lookup_insert_eq | by rewrite lookup_insert_ne]. }
    split; [| done]. split; [| done | done]. cbn [mg_db]. set (key := file_hash_key _ _). set (hash := apk_blob_hash_seed _ _).
    set (db2 := set_in_table (apk_hash_delete_hashed (in_table db1) key hash).1 db1).
    assert (searchable db2) as Hs2.
    { rewrite <- (stat_files_same db2). apply searchable_table; [done |]. intros it Hit%delete_hashed_elem. destruct Hs1 as [ext Hi]. by apply (cv_listed _ _ Hi). }
    rewrite <- (stat_files_same (set_in_table _ db2)). apply claim_searchable; [done | by apply Hg].
  - split; [| done]. split; [| done | done]. by apply (claim_searchable (mg_db m) f _ _ (u32 (in_stat_files (mg_db m) + 1))).
Qed.

Lemma migrate_files_migrating d fs m : migrating m -> (forall f, f ∈ fs -> is_Some (in_files (mg_db m) !! f)) ->
  migrating (each (migrate_file clean_protected d) fs m).
Proof.
  revert m. induction fs as [|f fs IH]; intros m Hm Hf; cbn [each]; [done |].
  destruct (migrate_file_migrating d f m Hm) as [Hm1 Hg]; [apply Hf; by left |]. apply IH; [done |]. intros g Hin. apply Hg, Hf. by right.
Qed.

Lemma migrate_diri_migrating p d s : d ∈ diris -> migrating s.2 -> migrating (migrate_diri clean_protected p d s).2.
Proof.
  intros Hd Hm. destruct s as [next m]. cbn [snd] in Hm. unfold migrate_diri. destruct (negb _); [done |]. cbn [snd].
  destruct Hm as [[ext Hi] Hidle Hds]. set (m1 := mk_mg _ _ _ _ _).
  assert (migrating m1) as Hm1.
  { split; [| done | done]. exists ext. apply (attributes_inv ext (mg_db m)); [done |]. apply (upd_dir_only (loaded := false)); [done | done |].
    apply (diri_dir (loaded := false) ext); [done | by apply Hds]. }
  apply migrate_files_migrating; [done |]. intros f Hf. cbn. change (f ∈ di_files (diri_at (mg_db m) d)) in Hf.
  destruct (cv_owned _ _ Hi d f (Hds d Hd)) as (fl & Hfl & _); [| by exists fl]. unfold files_of. by rewrite (proj1 Hidle).
Qed.

Lemma migrate_searchable m m' : migrating m -> apk_db_migrate_files clean_protected diris m = Some m' -> migrating m'.
Proof.
  unfold apk_db_migrate_files. generalize 3%nat as fuel, APK_FS_PRIO_DISK as prio. intros fuel. revert m.
  induction fuel as [|fuel IH]; intros m prio Hm; cbn [migrate_rounds]; [by destruct (_ =? _); [intros [= <-] |] |].
  destruct (_ =? _); [by intros [= <-] |].
  assert (migrating (apk_db_migrate_files_for_priority clean_protected diris prio m).2) as H1.
  { unfold apk_db_migrate_files_for_priority. assert (forall l s, (forall d, d ∈ l -> d ∈ diris) -> migrating s.2 ->
      migrating (each (migrate_diri clean_protected prio) l s).2) as Hl; [| by apply Hl].
    induction l as [|d l IHl]; intros s Hin Hs; cbn [each]; [done |]. apply IHl; [intros e He; apply Hin; by right |].
    apply migrate_diri_migrating; [apply Hin; by left | done]. }
  destruct (apk_db_migrate_files_for_priority _ _ _ _) as [p m1]. by apply IH.
Qed.
End Migrate.

(** ** The states of the database *)

Section Reach.
Context {W : Type} `{FileSystem W} (dir_buckets file_buckets : Z) (protected_paths : list apk_protected_path).
Context (fnmatch : bytes -> bytes -> bool).

(** The installed database is read: packages are built with [apk_db_diri_get] and [apk_db_file_get].  Then packages are
    unpacked, entry by entry, committed, and their files migrated; a package that is installed already must have its
    instances stored in the order of their names. *)
Inductive build_reach : inst_db -> Prop :=
| br_start : 0 < dir_buckets -> 0 < file_buckets -> build_reach (inst_init dir_buckets file_buckets protected_paths)
| br_create db diris : build_reach db -> idle db -> stored_sorted db diris -> build_reach (apk_db_ipkg_create diris db)
| br_diri db name pkg d db' :
    build_reach db -> clean name -> refs_below_limit db ->
    apk_db_diri_get fnmatch (S (length name)) name pkg db = Some (d, db') -> build_reach db'
| br_file db d name : build_reach db -> ic_diri (in_ic db) = Some d -> build_reach (apk_db_file_get d name db).2
| br_diri_acl db d acl : build_reach db -> is_Some (in_diris db !! d) -> build_reach (upd_diri d (set_di_acl acl) db)
| br_file_acl db f acl : build_reach db -> is_Some (in_files db !! f) -> build_reach (upd_file f (set_f_acl acl) db)
| br_digest db f alg data : build_reach db -> is_Some (in_files db !! f) -> build_reach (upd_file f (apk_dbf_digest_set alg data) db)
| br_unpack run_script sha256 simulate usermode force_overwrite fs_result pkg_of garbage pkg sha256_160 fuel ae data (ctx ctx' : install_ctx W) r :
    build_reach (ctx_db ctx) -> entry_fits fuel ae (ctx_db ctx) ->
    apk_db_install_file run_script sha256 simulate usermode force_overwrite fs_result fnmatch pkg_of garbage pkg sha256_160 fuel ae data ctx
      = Ok (Some (r, ctx')) -> build_reach (ctx_db ctx')
| br_find db path : build_reach db -> build_reach (apk_db_ipkg_find_file path db).2
| br_commit db : build_reach db -> build_reach (apk_db_ipkg_commit db).2
| br_migrate clean_protected diris (m m' : migration W) :
    build_reach (mg_db m) -> idle (mg_db m) -> (forall d, d ∈ diris -> is_Some (in_diris (mg_db m) !! d)) ->
    apk_db_migrate_files clean_protected diris m = Some m' -> build_reach (mg_db m').

Lemma build_reach_searchable db : build_reach db -> searchable db.
Proof.
  induction 1 as [|db diris _ IH Hid Hst|db name pkg d db' _ IH Hc Hb Hg|db d name _ IH Hd|db d acl _ IH Hd|db f acl _ IH Hf|db f alg data _ IH Hf
    | run_script sha256 simulate usermode force_overwrite fs_result pkg_of garbage pkg sha256_160 fuel ae data ctx ctx' r _ IH He Hi|db path _ IH|db _ IH
    | clean_protected diris m m' _ IH Hid Hd Hm].
  - exists (fun _ => 0). apply (builder_weaken (loaded := true)). by apply inst_init_inv.
  - destruct IH as [ext Hi]. exists ext. by apply ipkg_create_inv.
  - destruct (searchable_get fnmatch (S (length name)) name pkg db IH Hc Hb) as (d1 & db1 & Hg1 & Hs1 & _); [lia |]. rewrite Hg in Hg1. by injection Hg1 as <- <-.
  - by apply file_get_searchable.
  - by apply searchable_diri_acl.
  - by apply searchable_file.
  - apply searchable_file; [done | done |]. intros x. apply digest_set_keeps.
  - by apply install_file_searchable in Hi.
  - by apply searchable_find.
  - destruct IH as [ext Hi]. exists ext. pose proof (ipkg_commit_spec ext db Hi) as Hs. destruct (apk_db_ipkg_commit db). apply Hs.
  - eapply (migrate_searchable clean_protected diris m m'); [by split | done].
Qed.

(** C30: the searches of the installed database are exact.  In every state that reading the installed database, unpacking the
    entries of packages ([apk_db_install_file] with any archive whose directories have clean names), committing them and
    migrating their files go through, where a package that was installed before has its instances stored in order:
    asking for the instance of a clean directory name gives the instance the package has under that name, or a new one when
    it has none, and keeps the names, files and rights of all others; asking for an instance without making one finds exactly the one
    there is; looking a path up, with its partial sorting and its two binary searches, gives a file of that name in the
    instance of that directory, and gives none only when walking all instances and files finds none. *)
Theorem installed_search_exact db :
  build_reach db ->
  (forall name pkg, clean name -> refs_below_limit db ->
     exists d db', apk_db_diri_get fnmatch (S (length name)) name pkg db = Some (d, db') /\ got_diri name pkg db d db') /\
  (forall name, let '(r, db') := apk_db_diri_query name db in kept db db' /\ forall d, r = Some d <-> has_diri db name d) /\
  (forall path, let '(r, db') := apk_db_ipkg_find_file path db in
     kept db db' /\ match r with Some f => has_file db path f | None => forall f, ~ has_file db path f end).
Proof.
  intros Hs%build_reach_searchable. split_and!.
  - intros name pkg Hc Hb. destruct (searchable_get fnmatch (S (length name)) name pkg db Hs Hc Hb) as (d & db' & Hg & _ & Hgot & _); [lia | eauto].
  - intros name. destruct (searchable_query name db Hs) as (_ & Hr & Hq). destruct (apk_db_diri_query name db). split; [by apply resorted_kept | done].
  - intros path. destruct (searchable_find path db Hs) as (_ & Hk & _ & Hq). by destruct (apk_db_ipkg_find_file path db).
Qed.
End Reach.

(** A file [conf] unpacked into an empty database, and looked up by its path. *)
Definition ex_unpack_ctx : install_ctx ram := mk_ictx ex_inst0 ex_ram false false false false 0.
Abbreviation ex_unpack :=
  (apk_db_install_file (W := ram) (H := ex_files) (fun w => (false, w)) ex_sha256 false false false (fun _ => 0) (fun _ _ => false) (fun _ => None)
    (mk_digest 0 0 []) (Pkg_at 0) true 5 ex_entry (lit "new") ex_unpack_ctx).

Lemma installed_search_exact_witness : exists db f db',
  build_reach (W := ram) (H := ex_files) 5 5 [] (fun _ _ => false) db /\
  apk_db_ipkg_find_file (lit "conf") db = (Some f, db') /\ has_file db (lit "conf") f.
Proof.
  assert ((fun o => match o with Ok (Some (r, c)) => Some ((apk_db_ipkg_find_file (lit "conf") (ctx_db c)).1) | _ => None end) ex_unpack = Some (Some 0%nat)) as Hr by (by vm_compute).
  destruct ex_unpack as [[[r ctx']|]|] eqn:E; try discriminate Hr.
  assert (build_reach (W := ram) (H := ex_files) 5 5 [] (fun _ _ => false) (ctx_db ctx')) as Hb.
  { eapply (br_unpack (W := ram) (H := ex_files)); [| | exact E].
    - change (ctx_db ex_unpack_ctx) with (apk_db_ipkg_create [] (inst_init 5 5 [])).
      apply (br_create (W := ram) (H := ex_files) 5 5 [] _ (inst_init 5 5 []) []); [apply br_start; lia | by repeat split | apply stored_sorted_nil].
    - split; [| assert (S_ISDIR (ae_mode ex_entry) = false) as -> by (by vm_compute); lia]. intros b d Hd. cbn in Hd. by rewrite lookup_empty in Hd. }
  pose proof (proj2 (proj2 (installed_search_exact (W := ram) (H := ex_files) 5 5 [] (fun _ _ => false) (ctx_db ctx') Hb)) (lit "conf")) as Hq.
  injection Hr as Hr. destruct (apk_db_ipkg_find_file (lit "conf") (ctx_db ctx')) as [q db'] eqn:Ef. cbn [fst] in Hr. subst q.
  exists (ctx_db ctx'), 0%nat, db'. split; [exact Hb |]. split; [exact Ef | apply Hq].
Defined.
