(* ===== verification/PurgeFacts.v ===== *)
(** * Purging the files of a package: what it promises *)

From S2P Require Import Prelude Blob BlobCodec Digest Hash Dep Package PackageRules Path Dirs Catalog Installed InstalledFacts Owner InstallFile InstallFacts Fs FsFacts.

Section purge.
Context {W : Type} `{FileSystemLaws W}.

Abbreviation unclaimed db f := (f_audited (file_at db f) = false).

(** After the files [done] of the instance [d] were purged, from the database [db0]. *)
Record purged (db0 : inst_db) (d : nat) (done : list nat) (db : inst_db) : Prop := {
  pg_shape : same_shape db0 db;
  pg_files : in_files db = in_files db0;
  pg_table : table_ok (in_table db);
  pg_owner : forall k, owner db k =
    if decide (k ∈ ((fun f => key_of db0 (d, f)) <$> filter (fun f => unclaimed db0 f) done)) then None else owner db0 k;
  pg_stat : in_stat_files db = u32 (in_stat_files db0 - Z.of_nat (length (filter (fun f => unclaimed db0 f) done)));
}.

Lemma purge_file_spec db0 fileids dirclean delapknew d f done db w :
  dir_hash (dir_of db0 d) = apk_blob_hash (dir_key (dir_of db0 d)) -> purged db0 d done db ->
  purged db0 d (done ++ [f]) (purge_file true fileids dirclean delapknew d f (db, w)).1.
Proof.
  intros Hh [P1 P2 P3 P4 P5]. unfold purge_file.
  assert (file_at db f = file_at db0 f) as Hf by (unfold file_at; by rewrite P2). rewrite Hf.
  destruct (f_audited (file_at db0 f)) eqn:Ea; cbn [fst].
  - split; try done.
    + intros k. by rewrite filter_app, filter_cons_False, app_nil_r by congruence.
    + by rewrite filter_app, filter_cons_False, app_nil_r by congruence.
  - assert (file_hash_key (dir_key (dir_of db d)) (file_name db f) = key_of db0 (d, f)) as -> by (apply (shape_key _ _ (d, f) P1)).
    assert (apk_blob_hash_seed (file_name db f) (dir_hash (dir_of db d)) = hash_key (V := file_item) (key_of db0 (d, f))) as ->.
    { destruct (shape_dir _ _ P1 d) as (_ & -> & _). rewrite (shape_name _ _ P1). apply (key_hash db0 d f [d]); [| by left].
      intros x Hx. by apply list_elem_of_singleton in Hx as ->. }
    rewrite delete_at_key. destruct (table_delete (in_table db) (key_of db0 (d, f)) P3) as [D1 D2].
    split; cbn [in_table in_files in_stat_files set_in_table set_in_stat_files]; try done.
    + etransitivity; [exact P1 | done].
    + intros k. unfold owner at 1. cbn [in_table set_in_table set_in_stat_files]. rewrite D2.
      rewrite filter_app, fmap_app, filter_cons_True by done. cbn [filter list_filter fmap list_fmap].
      destruct (decide (k = key_of db0 (d, f))) as [->|Hk]; [rewrite decide_True; [done | apply elem_of_app; right; by left] |].
      change (fi_addr <$> apk_hash_get (in_table db) k) with (owner db k). rewrite P4. apply decide_ext. rewrite elem_of_app, list_elem_of_singleton. tauto.
    + rewrite P5, filter_app, filter_cons_True, length_app by done. unfold u32. rewrite Zminus_mod_idemp_l. f_equal. cbn. lia.
Qed.

Lemma purge_file_frame fileids delapknew d f db w d' n' :
  let dn := dir_key (dir_of db d) in let fn := file_name db f in
  fs_fits dn fn -> fs_fits d' n' -> ~ fs_side dn fn (path_join d' n') ->
  path_join d' n' <> path_join dn fn \/ apk_db_audit_file dn fn (Some (file_at db f)) w = true ->
  forall alg, fs_file_info d' n' alg (purge_file true fileids false delapknew d f (db, w)).2 = fs_file_info d' n' alg w.
Proof.
  intros dn fn Hf Hf' Hs Hk alg. unfold purge_file. destruct (f_audited _); [done |]. cbn [snd]. fold dn fn. rewrite orb_false_l.
  set (del := match fileids with None => true | Some _ => _ end).
  set (w1 := if del && _ then _ else w). assert (fs_file_info d' n' alg w1 = fs_file_info d' n' alg w) as Hw1.
  { unfold w1. destruct del; [| done]. destruct (apk_db_audit_file dn fn _ w) eqn:Ea; [done |]. cbn [negb andb].
    destruct Hk as [Hk|Hk]; [| congruence]. by rewrite fs_frame by (try done; by left). }
  destruct delapknew; [| done]. by rewrite fs_frame by (try done; by right).
Qed.

Lemma mark_dir_purged db d : table_ok (in_table db) -> 0 <= in_stat_files db < 2 ^ 32 ->
  purged db d [] (on_dirs (upd_dir (di_dir (diri_at db d)) (set_dir_modified true)) db).
Proof.
  intros Ht Hs. split; try done.
  - pose proof (mark_shape d (mk_mg db () false None false)) as Hm. exact Hm.
  - cbn [filter list_filter length]. unfold u32. cbn. by rewrite Z.sub_0_r, Z.mod_small.
Qed.

(** C23: Purging the files of a directory of an installed package, without the option to purge: the package
    owns none of its names any more, all other names have the owner they had, and the files are
    not counted any more; files that another package took over are skipped.  And a file in a protected directory that
    differs from what was installed is left in place. *)
Theorem purge_releases_and_keeps (fileids : option (list fileid)) (d : nat) (db : inst_db) (w : W) :
  table_ok (in_table db) -> 0 <= in_stat_files db < 2 ^ 32 -> dirs_hashed db [d] ->
  let dn := dir_key (dir_of db d) in
  let r := purge_files false true fileids d (db, w) in
  purged db d (di_files (diri_at db d)) r.1 /\
  forall x, apk_protect_mode_none (dir_protect_mode (dir_of db d)) = false ->
    apk_db_audit_file dn (file_name db x) (Some (file_at db x)) w = true -> fs_fits dn (file_name db x) ->
    (forall f, f ∈ di_files (diri_at db d) -> fs_fits dn (file_name db f) /\ ~ fs_side dn (file_name db f) (path_join dn (file_name db x)) /\
      (f <> x -> path_join dn (file_name db f) <> path_join dn (file_name db x))) ->
    forall alg, fs_file_info dn (file_name db x) alg r.2 = fs_file_info dn (file_name db x) alg w.
Proof.
  intros Ht Hs Hh dn r. pose proof (mark_dir_purged db d Ht Hs) as H0'. specialize (Hh d (list_elem_of_here _ _)).
  unfold r, purge_files. cbn [fst]. set (none := apk_protect_mode_none _).
  change (diri_at (on_dirs (upd_dir (di_dir (diri_at db d)) (set_dir_modified true)) db) d) with (diri_at db d).
  set (db1 := on_dirs _ db) in *. split.
  - apply (each_prefix_inv (fun done s => purged db d done s.1)); [done |]. intros done f [db2 w2] _ HP. by apply purge_file_spec.
  - intros x Hp Ha Hfx Hall. assert (none = false) as -> by exact Hp. cbn [orb negb andb].
    apply (each_prefix_inv (fun done s => purged db d done s.1 /\
      forall alg, fs_file_info dn (file_name db x) alg s.2 = fs_file_info dn (file_name db x) alg w)); [done |].
    intros done f [db2 w2] Hf [HP Hw]. split; [by apply purge_file_spec |]. cbn [fst snd] in *. intros alg. rewrite <- Hw.
    destruct (Hall f Hf) as (H1 & H2 & H3). pose proof (pg_shape _ _ _ _ HP) as Hss.
    destruct (shape_dir _ _ Hss d) as (Hdk & _ & _). apply purge_file_frame; rewrite ?Hdk, ?(shape_name _ _ Hss); try done.
    destruct (decide (f = x)) as [->|Hne]; [right | left; intros E; by apply H3].
    rewrite <- Ha. apply audit_file_ext; [done |]. unfold file_at. by rewrite (pg_files _ _ _ _ HP).
Qed.
End purge.

Lemma purge_releases_and_keeps_witness : let r := purge_files false true None 0 (ex_db, ex_ram) in
  purged ex_db 0 [0%nat] r.1 /\ forall alg, fs_file_info (lit "etc") (lit "conf") alg r.2 = fs_file_info (lit "etc") (lit "conf") alg ex_ram.
Proof.
  destruct (purge_releases_and_keeps None 0 ex_db ex_ram) as [H1 H2]; [apply ex_migratable | done | |].
  - intros d Hd. by apply list_elem_of_singleton in Hd as ->.
  - split; [exact H1 |]. apply (H2 0%nat); [done | by vm_compute | by apply ex_fits |].
    intros f Hf. apply list_elem_of_singleton in Hf as ->. split_and!; [by apply ex_fits | | done].
    intros [Hp|Hp]; apply (bool_decide_pack _) in Hp; by vm_compute in Hp.
Defined.
