(* ===== verification/Deploy.v ===== *)
(** * Installing, replacing and removing one package (database.c, package.c)

    The database as the commit sees it: the catalog of packages with the installed ones, what is kept
    beside each of these (its directories, scripts and triggers), and the rest of the machine: the table
    of files, the file system, processes and the network.  The rest is the class [Machine]; none of its
    operations reaches the list of installed packages. *)

From S2P Require Import Prelude Blob BlobCodec Digest Hash Dep Package PackageRules Path Solver Catalog Dirs Installed Owner InstallFile.

Inductive apk_script :=
| APK_SCRIPT_PRE_INSTALL | APK_SCRIPT_POST_INSTALL | APK_SCRIPT_PRE_DEINSTALL | APK_SCRIPT_POST_DEINSTALL
| APK_SCRIPT_PRE_UPGRADE | APK_SCRIPT_POST_UPGRADE | APK_SCRIPT_TRIGGER.

#[global] Instance apk_script_eq_dec : EqDecision apk_script.
Proof. solve_decision. Defined.

(** The fields of [struct apk_installed_package] that are not in [apk_installed_package]. *)
Record ipkg_more := mk_more {
  im_diris : list nat;
  im_script : apk_script -> option bytes;
  im_triggers : list bytes;
  im_pending_triggers : list (option bytes);   (* the arguments of the script; NULL is [None] *)
  im_run_all_triggers : bool;
}.

(** [calloc] and empty arrays. *)
Definition more0 : ipkg_more := mk_more [] (fun _ => None) [] [] false.

Definition set_im_diris v (m : ipkg_more) : ipkg_more :=
  mk_more v (im_script m) (im_triggers m) (im_pending_triggers m) (im_run_all_triggers m).
Definition set_im_triggers v (m : ipkg_more) : ipkg_more :=
  mk_more (im_diris m) (im_script m) v (im_pending_triggers m) (im_run_all_triggers m).
Definition set_im_pending_triggers v (m : ipkg_more) : ipkg_more :=
  mk_more (im_diris m) (im_script m) (im_triggers m) v (im_run_all_triggers m).
Definition set_im_run_all_triggers v (m : ipkg_more) : ipkg_more :=
  mk_more (im_diris m) (im_script m) (im_triggers m) (im_pending_triggers m) v.

(** The fields of a repository that the name of a package's file is made of. *)
Record repo_source := mk_source {
  rp_url_base : bytes;
  rp_absolute_pkgname : bool;
  rp_pkgname_spec : bytes;
}.

(** The rest of the machine.  [mc_unpack] is [apk_db_unpack_pkg], which fills in the installed package,
    and its last result tells whether it linked the package to [installed.triggers]; [mc_exec] runs a script
    with its arguments behind the name and tells whether it failed. *)
Class Machine (F : Type) := {
  mc_ipkg_create : list nat -> F -> F;
  mc_ipkg_commit : F -> list nat * F;
  mc_unpack : catalog -> apk_package -> bool -> list (option bytes) -> apk_installed_package -> ipkg_more -> F ->
    outcome (Z * apk_installed_package * ipkg_more * F * bool);
  mc_migrate_files : list nat -> option (list fileid) -> F -> outcome (bool * option (list fileid) * F);
  mc_purge_pkg : catalog -> list nat -> bool -> option (list fileid) -> F -> outcome F;
  mc_exec : nat -> apk_script -> bytes -> list (option bytes) -> F -> bool * F;
  mc_dirs : F -> list (bytes * bool);          (* [rooted_name] and [modified], in the order of the table *)
  mc_num_dir_update_errors : F -> Z;           (* unsigned int *)
  mc_cached : nat -> F -> bool;                (* the flag [cached] of a package *)
  mc_set_cached : nat -> F -> F;
  mc_repository : repo_choice -> F -> repo_source;
  mc_filename : Z -> F -> option bytes;        (* [filename_array] *)
  mc_cache_fd : F -> Z;
  mc_buffer : Z;                               (* the address of an array on the stack *)
  mc_cache_create : Z -> bytes -> F -> Z * F;  (* [apk_ostream_to_file_safe] *)
  mc_fetch : apk_package -> Z -> bytes -> F -> Z * F;  (* from the directory and address, through the new file, to [apk_extract] *)
  mc_hook_dirs : F -> list (bytes * option (list bytes));   (* the files of a directory that can be opened *)
  mc_run_hook : bytes -> bytes -> F -> Z * F;  (* [apk_db_run_script] with the kind and the path *)
  mc_getc : F -> Z * F;
  mc_write_files : catalog -> list apk_dependency -> F -> Z * F;
  mc_sync : F -> F;
}.

Record apk_database (F : Type) := mk_adb {
  ad_cat : catalog;
  ad_more : gmap nat ipkg_more;
  ad_triggers : list nat;          (* [installed.triggers] *)
  ad_pending_triggers : Z;         (* unsigned int *)
  ad_world : list apk_dependency;
  ad_rest : F;
}.
Arguments mk_adb {F}.
Arguments ad_cat {F}.
Arguments ad_more {F}.
Arguments ad_triggers {F}.
Arguments ad_pending_triggers {F}.
Arguments ad_world {F}.
Arguments ad_rest {F}.

Section database.
Context {F : Type}.
Implicit Types db : apk_database F.

Definition set_ad_cat v db : apk_database F := mk_adb v (ad_more db) (ad_triggers db) (ad_pending_triggers db) (ad_world db) (ad_rest db).
Definition set_ad_more v db : apk_database F := mk_adb (ad_cat db) v (ad_triggers db) (ad_pending_triggers db) (ad_world db) (ad_rest db).
Definition set_ad_triggers v db : apk_database F := mk_adb (ad_cat db) (ad_more db) v (ad_pending_triggers db) (ad_world db) (ad_rest db).
Definition set_ad_pending_triggers v db : apk_database F := mk_adb (ad_cat db) (ad_more db) (ad_triggers db) v (ad_world db) (ad_rest db).
Definition set_ad_world v db : apk_database F := mk_adb (ad_cat db) (ad_more db) (ad_triggers db) (ad_pending_triggers db) v (ad_rest db).
Definition set_ad_rest v db : apk_database F := mk_adb (ad_cat db) (ad_more db) (ad_triggers db) (ad_pending_triggers db) (ad_world db) v.

(** [pkg->ipkg], and the package as it is now. *)
Definition ipkg_of (a : nat) db : option apk_installed_package := p ← db_pkgs (ad_cat db) !! a; pkg_ipkg p.
Definition pkg_now (p : apk_package) db : apk_package := default p (db_pkgs (ad_cat db) !! pkg_addr p).
Definition more_of (a : nat) db : ipkg_more := default more0 (ad_more db !! a).

(** A store to fields of [pkg->ipkg]. *)
Definition upd_ipkg (a : nat) (f : apk_installed_package -> apk_installed_package) db : apk_database F :=
  match db_pkgs (ad_cat db) !! a with
  | Some p => match pkg_ipkg p with
              | Some ip => set_ad_cat (set_db_pkgs (<[a := set_pkg_ipkg (Some (f ip)) p]> (db_pkgs (ad_cat db))) (ad_cat db)) db
              | None => db
              end
  | None => db
  end.
Definition upd_more (a : nat) (f : ipkg_more -> ipkg_more) db : apk_database F :=
  set_ad_more (<[a := f (more_of a db)]> (ad_more db)) db.
End database.

Definition ip_set_flags (files script xattr : bool) (ip : apk_installed_package) : apk_installed_package :=
  mk_ipkg (ip_replaces ip) (ip_replaces_priority ip) (ip_repository_tag ip) files script xattr (ip_sha256_160 ip) (ip_to_be_removed ip).
Definition ip_break_script (ip : apk_installed_package) : apk_installed_package :=
  ip_set_flags (ip_broken_files ip) true (ip_broken_xattr ip) ip.
Definition ip_break_files (ip : apk_installed_package) : apk_installed_package :=
  ip_set_flags true (ip_broken_script ip) (ip_broken_xattr ip) ip.
Definition ip_set_tag (tag : Z) (ip : apk_installed_package) : apk_installed_package :=
  mk_ipkg (ip_replaces ip) (ip_replaces_priority ip) (tag mod 2 ^ 6) (ip_broken_files ip) (ip_broken_script ip) (ip_broken_xattr ip)
    (ip_sha256_160 ip) (ip_to_be_removed ip).
Definition ip_removing (ip : apk_installed_package) : apk_installed_package :=
  mk_ipkg (ip_replaces ip) (ip_replaces_priority ip) (ip_repository_tag ip) (ip_broken_files ip) (ip_broken_script ip) (ip_broken_xattr ip)
    (ip_sha256_160 ip) true.

(** What is used of [struct apk_ctx] and of the flags of the database. *)
Record apk_ctx := mk_ctx {
  ac_simulate : bool;
  ac_no_scripts : bool;
  ac_no_commit_hooks : bool;
  ac_interactive : bool;
  ac_verbosity : Z;
  ac_force_broken_world : bool;
  ac_cache_predownload : bool;
  ac_cache_active : bool;
  ac_root : bool;                 (* the root is not NULL *)
  ac_openf_create : bool;
  ac_locked : bool;               (* there is a lock *)
  ac_performing_preupgrade : bool;
  ac_sync_wanted : bool;          (* [sync_if_needed] would synchronise *)
}.

Section deploy.
Context {F : Type} `{Machine F} (ac : apk_ctx).
Implicit Types db : apk_database F.

(** [apk_pkg_install] and [apk_pkg_uninstall] (package.c) with all fields of the installed package. *)
Definition pkg_install (p : apk_package) db : apk_database F :=
  match pkg_ipkg (pkg_now p db) with
  | Some _ => db
  | None => set_ad_cat (apk_pkg_install (pkg_now p db) (ad_cat db)) (upd_more (pkg_addr p) (fun _ => more0) db)
  end.

Definition unlink_triggers (a : nat) db : apk_database F :=
  match im_triggers (more_of a db) with
  | [] => db
  | _ :: _ => set_ad_triggers (filter (fun x => x <> a) (ad_triggers db)) db
  end.

Definition pkg_uninstall (p : apk_package) db : apk_database F :=
  match pkg_ipkg (pkg_now p db) with
  | None => db
  | Some _ =>
      let db := set_ad_cat (apk_pkg_uninstall (pkg_now p db) (ad_cat db)) db in
      let db := unlink_triggers (pkg_addr p) db in
      set_ad_more (delete (pkg_addr p) (ad_more db)) db
  end.

(** Zero, or one when the script failed. *)
Definition apk_ipkg_run_script (a : nat) (type : apk_script) (argv : list (option bytes)) db : Z * apk_database F :=
  match im_script (more_of a db) type with
  | None => (0, db)
  | Some script =>
      if ac_no_scripts ac || ac_simulate ac then (0, db)
      else
        let '(failed, rest) := mc_exec a type script (drop 1 argv) (ad_rest db) in
        let db := set_ad_rest rest db in
        if failed then (1, upd_ipkg a ip_break_script db) else (0, db)
  end.

(** Purging takes the instances away from the package, too. *)
Definition purge_pkg (a : nat) (is_installed : bool) (fileids : option (list fileid)) db : outcome (apk_database F) :=
  let! rest := mc_purge_pkg (ad_cat db) (im_diris (more_of a db)) is_installed fileids (ad_rest db) in
  Ok (upd_more a (set_im_diris []) (set_ad_rest rest db)).

(** [script_args]. *)
Definition script_args (oldpkg newpkg : option apk_package) : outcome (list (option bytes)) :=
  match oldpkg, newpkg with
  | Some o, Some n => Ok [None; Some (pkg_version n); Some (pkg_version o); None]
  | Some o, None => Ok [None; Some (pkg_version o); None; None]
  | None, Some n => Ok [None; Some (pkg_version n); None; None]
  | None, None => Fault
  end.

Definition deinstall (o : apk_package) (args : list (option bytes)) db : outcome (Z * apk_database F) :=
  let a := pkg_addr o in
  match ipkg_of a db with
  | None => Ok (0, db)
  | Some _ =>
      let '(_, db) := apk_ipkg_run_script a APK_SCRIPT_PRE_DEINSTALL args db in
      let! db := purge_pkg a true None db in
      let '(_, db) := apk_ipkg_run_script a APK_SCRIPT_POST_DEINSTALL args db in
      Ok (0, pkg_uninstall o db)
  end.

(** [apk_db_ipkg_create] and the reset of the installed package. *)
Definition prepare_ipkg (n : apk_package) db : apk_database F :=
  let a := pkg_addr n in
  let db := pkg_install n db in
  let db := set_ad_rest (mc_ipkg_create (im_diris (more_of a db)) (ad_rest db)) db in
  let db := upd_ipkg a (ip_set_flags false false false) (upd_more a (set_im_run_all_triggers true) db) in
  upd_more a (set_im_triggers []) (unlink_triggers a db).

(** The triggers of a package, in its metadata or in the database; the flag is [list_hashed]. *)
Definition apk_db_pkg_add_triggers (triggers : bytes) (s : ipkg_more * bool) : ipkg_more * bool :=
  let '(m, linked) := s in
  let m := set_im_triggers (im_triggers m ++ apk_blob_foreach_word (Some triggers)) m in
  (m, linked || negb (length (im_triggers m) =? 0)%nat).

(** The line [triggers] of a package's metadata ([read_info_line]). *)
Definition read_info_triggers (r : bytes) (s : ipkg_more * bool) : ipkg_more * bool :=
  apk_db_pkg_add_triggers r (set_im_triggers [] s.1, s.2).

(** Unpacking, and the directories of the package. *)
Definition unpack (n : apk_package) (upgrade : bool) (args : list (option bytes)) db : outcome (Z * apk_database F) :=
  let a := pkg_addr n in
  match ipkg_of a db with
  | None => Fault
  | Some ip =>
      let! (r, ip, m, rest, linked) := mc_unpack (ad_cat db) (pkg_now n db) upgrade args ip (more_of a db) (ad_rest db) in
      let db := upd_more a (fun _ => m) (upd_ipkg a (fun _ => ip) (set_ad_rest rest db)) in
      let db := if linked && negb (bool_decide (a ∈ ad_triggers db)) then set_ad_triggers (ad_triggers db ++ [a]) db else db in
      let '(diris, rest) := mc_ipkg_commit (ad_rest db) in
      Ok (r, upd_more a (set_im_diris diris) (set_ad_rest rest db))
  end.

(** The new files take their place; the identities of the new ones are collected when something is replaced. *)
Definition migrate (n : apk_package) (collect : bool) db : outcome (list fileid * apk_database F) :=
  let a := pkg_addr n in
  let! (broken, ids, rest) := mc_migrate_files (im_diris (more_of a db)) (if collect then Some [] else None) (ad_rest db) in
  let db := set_ad_rest rest db in
  Ok (default [] ids, if broken then upd_ipkg a ip_break_files db else db).

(** After the new files are in place. *)
Definition finish_install (oldpkg : option apk_package) (n : apk_package) (args : list (option bytes)) (fileids : list fileid) db
    : outcome (Z * apk_database F) :=
  let a := pkg_addr n in
  let! db :=
    match oldpkg with
    | Some o =>
        if negb (pkg_addr o =? a)%nat && bool_decide (is_Some (ipkg_of (pkg_addr o) db))
        then let! db := purge_pkg (pkg_addr o) true (Some fileids) db in Ok (pkg_uninstall o db)
        else Ok db
    | None => Ok db
    end in
  let '(_, db) := apk_ipkg_run_script a (match oldpkg with None => APK_SCRIPT_POST_INSTALL | Some _ => APK_SCRIPT_POST_UPGRADE end) args db in
  match ipkg_of a db with
  | None => Fault
  | Some ip => Ok (if ip_broken_files ip || ip_broken_script ip then -1 else 0, db)
  end.

Definition install_new (oldpkg : option apk_package) (n : apk_package) (args : list (option bytes)) db : outcome (Z * apk_database F) :=
  let a := pkg_addr n in
  let db := prepare_ipkg n db in
  if pkg_installed_size (pkg_now n db) =? 0 then finish_install oldpkg n args [] db
  else
    let! (r, db) := unpack n (bool_decide (is_Some oldpkg)) args db in
    if negb (r =? 0) then
      let! db := if same_pkg oldpkg (Some n) then Ok db else purge_pkg a false None db in
      Ok (r, pkg_uninstall n db)
    else
      let! (fileids, db) := migrate n (bool_decide (is_Some oldpkg)) db in
      finish_install oldpkg n args fileids db.

Definition apk_db_install_pkg (oldpkg newpkg : option apk_package) db : outcome (Z * apk_database F) :=
  let! args := script_args oldpkg newpkg in
  match oldpkg, newpkg with
  | Some o, None => deinstall o args db
  | _, Some n => install_new oldpkg n args db
  | None, None => Fault
  end.
End deploy.

(** ** The table of files and the file system as the machine *)

(** What is left outside of them: archives, processes, the network and the other files. *)
Class Outside (W : Type) := {
  ou_unpack : catalog -> apk_package -> bool -> list (option bytes) -> apk_installed_package -> ipkg_more -> inst_db * W ->
    outcome (Z * apk_installed_package * ipkg_more * (inst_db * W) * bool);
  ou_exec : nat -> apk_script -> bytes -> list (option bytes) -> W -> bool * W;
  ou_cached : nat -> W -> bool;
  ou_set_cached : nat -> W -> W;
  ou_repository : repo_choice -> W -> repo_source;
  ou_filename : Z -> W -> option bytes;
  ou_cache_fd : W -> Z;
  ou_buffer : Z;
  ou_cache_create : Z -> bytes -> W -> Z * W;
  ou_fetch : apk_package -> Z -> bytes -> W -> Z * W;
  ou_hook_dirs : W -> list (bytes * option (list bytes));
  ou_run_hook : bytes -> bytes -> W -> Z * W;
  ou_getc : W -> Z * W;
  ou_write_files : catalog -> list apk_dependency -> inst_db -> W -> Z * W;
  ou_sync : W -> W;
}.

Section disk.
Context {W : Type} `{FileSystem W} `{Outside W}.
Context (clean_protected purge simulate usermode : bool) (fs_result : list fs_call -> Z).

Definition table_dirs (dd : dir_db) : list (bytes * bool) :=
  (apk_hash_foreach (dd_table dd) (fun item l =>
     let d := dir_at dd (di_addr item) in (0, l ++ [(lit "/" ++ dir_key d, dir_modified d)])) []).2.

Definition pkg_at (cat : catalog) (r : pkg_ref) : option apk_package :=
  match r with Pkg_at a => db_pkgs cat !! a | _ => None end.

(** Releasing a directory climbs to its parents, whose names are shorter. *)
Definition disk_purge (cat : catalog) (diris : list nat) (is_installed : bool) (fileids : option (list fileid)) (s : inst_db * W) : outcome (inst_db * W) :=
  let! r := apk_db_purge_pkg simulate usermode fs_result (pkg_at cat) purge PATH_MAX diris is_installed fileids s in
  match r with Some s => Ok s | None => Fault end.

Definition disk_migrate (diris : list nat) (fileids : option (list fileid)) (s : inst_db * W) : outcome (bool * option (list fileid) * (inst_db * W)) :=
  match apk_db_migrate_files clean_protected diris (mk_mg s.1 s.2 false fileids false) with
  | Some m => Ok (mg_broken m, mg_fileids m, (mg_db m, mg_w m))
  | None => Fault
  end.

Definition on_world {A} (f : W -> A * W) (s : inst_db * W) : A * (inst_db * W) := let '(r, w) := f s.2 in (r, (s.1, w)).

#[global] Instance disk_machine : Machine (inst_db * W) := {|
  mc_ipkg_create := fun diris s => (apk_db_ipkg_create diris s.1, s.2);
  mc_ipkg_commit := fun s => let '(diris, db) := apk_db_ipkg_commit s.1 in (diris, (db, s.2));
  mc_unpack := ou_unpack;
  mc_migrate_files := disk_migrate;
  mc_purge_pkg := disk_purge;
  mc_exec := fun a type script argv => on_world (ou_exec a type script argv);
  mc_dirs := fun s => table_dirs (in_dirs s.1);
  mc_num_dir_update_errors := fun s => u32 (dd_num_dir_update_errors (in_dirs s.1));
  mc_cached := fun a s => ou_cached a s.2;
  mc_set_cached := fun a s => (s.1, ou_set_cached a s.2);
  mc_repository := fun repo s => ou_repository repo s.2;
  mc_filename := fun i s => ou_filename i s.2;
  mc_cache_fd := fun s => ou_cache_fd s.2;
  mc_buffer := ou_buffer;
  mc_cache_create := fun fd name => on_world (ou_cache_create fd name);
  mc_fetch := fun p fd url => on_world (ou_fetch p fd url);
  mc_hook_dirs := fun s => ou_hook_dirs s.2;
  mc_run_hook := fun kind path => on_world (ou_run_hook kind path);
  mc_getc := on_world ou_getc;
  mc_write_files := fun cat world s => on_world (ou_write_files cat world s.1) s;
  mc_sync := fun s => (s.1, ou_sync s.2);
|}.
End disk.
