(* ===== verification/DeployFacts.v ===== *)
(** * One package: what installing, replacing and removing it does to the set of installed packages *)

From S2P Require Import Prelude Blob BlobCodec Digest Hash Dep Package PackageRules Path Solver Catalog Dirs Installed Owner InstallFile Fs FsFacts Deploy.

Section facts.
Context {F : Type} `{Machine F} (ac : apk_ctx).
Implicit Types db : apk_database F.

Definition installed (a : nat) db : bool := bool_decide (is_Some (ipkg_of a db)).

(** The packages are at their addresses. *)
Definition db_wf db : Prop := forall a p, db_pkgs (ad_cat db) !! a = Some p -> pkg_addr p = a.

Definition known (p : apk_package) db : Prop := is_Some (db_pkgs (ad_cat db) !! pkg_addr p).

(** Nothing was installed or removed. *)
Record kept (db db' : apk_database F) : Prop := {
  kept_wf : db_wf db -> db_wf db';
  kept_known : forall p, known p db -> known p db';
  kept_world : ad_world db' = ad_world db;
  kept_installed : forall a, installed a db' = installed a db;
}.

#[global] Instance kept_refl : Reflexive kept.
Proof. by intros db. Qed.
#[global] Instance kept_trans : Transitive kept.
Proof. intros db1 db2 db3 [A1 A2 A3 A4] [B1 B2 B3 B4]. split; [auto | auto | congruence |]. intros a. by rewrite B4. Qed.

Lemma kept_same_cat db db' : ad_cat db' = ad_cat db -> ad_world db' = ad_world db -> kept db db'.
Proof. intros Hc Hw. split; [| | done |]; unfold db_wf, known, installed, ipkg_of; by rewrite Hc. Qed.

Lemma kept_upd_ipkg a f db : kept db (upd_ipkg a f db).
Proof.
  unfold upd_ipkg. destruct (db_pkgs (ad_cat db) !! a) as [p|] eqn:Ep; [| done]. destruct (pkg_ipkg p) as [ip|] eqn:Ei; [| done].
  split; [| | done |].
  - intros Hwf b q. cbn. destruct (decide (b = a)) as [->|]; [| rewrite lookup_insert_ne by done; apply Hwf].
    rewrite lookup_insert_eq. intros [= <-]. exact (Hwf a p Ep).
  - intros q. unfold known. cbn. intros Hq. destruct (decide (pkg_addr q = a)) as [->|]; [by rewrite lookup_insert_eq | by rewrite lookup_insert_ne].
  - intros b. unfold installed, ipkg_of. cbn. destruct (decide (b = a)) as [->|]; [| by rewrite lookup_insert_ne].
    rewrite lookup_insert_eq, Ep. cbn. by rewrite Ei.
Qed.

Lemma kept_upd_more a f db : kept db (upd_more a f db).
Proof. by apply kept_same_cat. Qed.

Lemma kept_rest v db : kept db (set_ad_rest v db).
Proof. by apply kept_same_cat. Qed.

Lemma kept_triggers v db : kept db (set_ad_triggers v db).
Proof. by apply kept_same_cat. Qed.

Lemma kept_unlink a db : kept db (unlink_triggers a db).
Proof. unfold unlink_triggers. destruct (im_triggers _); [done | by apply kept_same_cat]. Qed.

Lemma kept_run_script a type argv db : kept db (apk_ipkg_run_script ac a type argv db).2.
Proof.
  unfold apk_ipkg_run_script. destruct (im_script _ _) as [s|]; [| done]. destruct (_ || _); [done |].
  destruct (mc_exec _ _ _ _ _) as [[] rest]; cbn [snd]; [| apply kept_rest].
  etransitivity; [apply kept_rest | apply kept_upd_ipkg].
Qed.

Lemma kept_purge a b ids db db' : purge_pkg a b ids db = Ok db' -> kept db db'.
Proof.
  unfold purge_pkg. destruct (mc_purge_pkg _ _ _ _ _) as [rest|]; [| done]. intros [= <-].
  etransitivity; [apply kept_rest | apply kept_upd_more].
Qed.

(** ** Installing and uninstalling *)

Lemma pkg_now_addr p db : db_wf db -> pkg_addr (pkg_now p db) = pkg_addr p.
Proof. intros Hwf. unfold pkg_now. destruct (db_pkgs (ad_cat db) !! pkg_addr p) as [q|] eqn:E; [exact (Hwf _ _ E) | done]. Qed.

(** What an operation did: the packages that are installed afterwards, as a function of those before. *)
Record effect (f : nat -> bool -> bool) (db db' : apk_database F) : Prop := {
  effect_wf : db_wf db -> db_wf db';
  effect_known : forall p, known p db -> known p db';
  effect_world : ad_world db' = ad_world db;
  effect_installed : forall a, installed a db' = f a (installed a db);
}.

Lemma effect_kept db db' : kept db db' -> effect (fun _ b => b) db db'.
Proof. by intros []. Qed.

Lemma effect_comp f g db1 db2 db3 : effect f db1 db2 -> effect g db2 db3 -> effect (fun a b => g a (f a b)) db1 db3.
Proof. intros [A1 A2 A3 A4] [B1 B2 B3 B4]. split; [auto | auto | congruence |]. intros a. by rewrite B4, A4. Qed.

Lemma effect_before f db1 db2 db3 : kept db1 db2 -> effect f db2 db3 -> effect f db1 db3.
Proof. intros A%effect_kept B. exact (effect_comp _ _ _ _ _ A B). Qed.

Lemma effect_after f db1 db2 db3 : effect f db1 db2 -> kept db2 db3 -> effect f db1 db3.
Proof. intros A B%effect_kept. exact (effect_comp _ _ _ _ _ A B). Qed.

Lemma effect_ext f g db db' : effect f db db' -> (forall a, f a (installed a db) = g a (installed a db)) -> effect g db db'.
Proof. intros [A1 A2 A3 A4] E. split; try done. intros a. by rewrite A4. Qed.

(** A store of another installed package record at the address of a package. *)
Lemma effect_store (ip : option apk_installed_package) q c (db : apk_database F) :
  db_pkgs c = <[pkg_addr q := set_pkg_ipkg ip q]> (db_pkgs (ad_cat db)) ->
  effect (fun a b => if decide (a = pkg_addr q) then bool_decide (is_Some ip) else b) db (set_ad_cat c db).
Proof.
  intros Hc. split; [| | done |].
  - intros Hwf b r. cbn. rewrite Hc. destruct (decide (b = pkg_addr q)) as [->|]; [rewrite lookup_insert_eq; by intros [= <-] | rewrite lookup_insert_ne by done; apply Hwf].
  - intros r. unfold known. cbn. rewrite Hc. intros Hr. destruct (decide (pkg_addr r = pkg_addr q)) as [->|]; [by rewrite lookup_insert_eq | by rewrite lookup_insert_ne].
  - intros b. unfold installed, ipkg_of. cbn. rewrite Hc. destruct (decide (b = pkg_addr q)) as [->|]; [by rewrite lookup_insert_eq | by rewrite lookup_insert_ne].
Qed.

Lemma installed_known p db : known p db -> installed (pkg_addr p) db = bool_decide (is_Some (pkg_ipkg (pkg_now p db))).
Proof. intros [q Hq]. unfold installed, ipkg_of, pkg_now. by rewrite Hq. Qed.

Definition adds (p : apk_package) (a : nat) (b : bool) : bool := (a =? pkg_addr p)%nat || b.
Definition drops (p : apk_package) (a : nat) (b : bool) : bool := negb (a =? pkg_addr p)%nat && b.

Lemma pkg_install_effect p db : db_wf db -> known p db -> effect (adds p) db (pkg_install p db).
Proof.
  intros Hwf Hk. unfold pkg_install. pose proof (installed_known p db Hk) as Hi. destruct (pkg_ipkg (pkg_now p db)) as [ip|] eqn:Ei.
  - eapply effect_ext; [by apply effect_kept |]. intros a. unfold adds. destruct (Nat.eqb_spec a (pkg_addr p)) as [->|]; [by rewrite Hi | done].
  - eapply effect_ext; [eapply effect_before; [apply (kept_upd_more (pkg_addr p) (fun _ => more0)) |] |].
    + apply (effect_store (Some ipkg0) (pkg_now p db)). unfold apk_pkg_install. by rewrite Ei.
    + intros a. unfold adds. cbn. rewrite (pkg_now_addr p db Hwf). by destruct (decide (a = pkg_addr p)) as [->|Hne]; [rewrite Nat.eqb_refl | rewrite (proj2 (Nat.eqb_neq _ _) Hne)].
Qed.

Lemma pkg_uninstall_effect p db : db_wf db -> known p db -> effect (drops p) db (pkg_uninstall p db).
Proof.
  intros Hwf Hk. unfold pkg_uninstall. pose proof (installed_known p db Hk) as Hi. destruct (pkg_ipkg (pkg_now p db)) as [ip|] eqn:Ei.
  - eapply effect_ext; [eapply effect_after; [apply (effect_store None (pkg_now p db) (apk_pkg_uninstall (pkg_now p db) (ad_cat db))); unfold apk_pkg_uninstall; by rewrite Ei |] |].
    + etransitivity; [apply (kept_unlink (pkg_addr p)) | by apply kept_same_cat].
    + intros a. unfold drops. cbn. rewrite (pkg_now_addr p db Hwf). by destruct (decide (a = pkg_addr p)) as [->|Hne]; [rewrite Nat.eqb_refl | rewrite (proj2 (Nat.eqb_neq _ _) Hne)].
  - eapply effect_ext; [by apply effect_kept |]. intros a. unfold drops. destruct (Nat.eqb_spec a (pkg_addr p)) as [->|]; [by rewrite Hi | done].
Qed.

(** ** The whole operation *)

(** The packages that should be installed after a change. *)
Definition replaced (oldpkg : option apk_package) (a : nat) : bool := match oldpkg with Some o => (a =? pkg_addr o)%nat | None => false end.
Definition planned (oldpkg newpkg : option apk_package) (a : nat) (b : bool) : bool :=
  match newpkg with
  | Some n => (a =? pkg_addr n)%nat || negb (replaced oldpkg a) && b
  | None => negb (replaced oldpkg a) && b
  end.

Lemma deinstall_effect o args db r db' : db_wf db -> known o db -> deinstall ac o args db = Ok (r, db') ->
  r = 0 /\ effect (drops o) db db'.
Proof.
  intros Hwf Hk. unfold deinstall. pose proof (installed_known o db Hk) as Hi. destruct (ipkg_of (pkg_addr o) db) as [ip|] eqn:Ei.
  - destruct (apk_ipkg_run_script ac (pkg_addr o) APK_SCRIPT_PRE_DEINSTALL args db) as [r1 db1] eqn:E1.
    destruct (purge_pkg (pkg_addr o) true None db1) as [db2|] eqn:E2; [| done]. cbn [obind].
    destruct (apk_ipkg_run_script ac (pkg_addr o) APK_SCRIPT_POST_DEINSTALL args db2) as [r3 db3] eqn:E3. intros [= <- <-]. split; [done |].
    assert (kept db db3) as K3.
    { etransitivity; [| etransitivity; [exact (kept_purge _ _ _ _ _ E2) |]].
      - pose proof (kept_run_script (pkg_addr o) APK_SCRIPT_PRE_DEINSTALL args db) as K. by rewrite E1 in K.
      - pose proof (kept_run_script (pkg_addr o) APK_SCRIPT_POST_DEINSTALL args db2) as K. by rewrite E3 in K. }
    eapply effect_before; [exact K3 |]. apply pkg_uninstall_effect; by apply K3.
  - intros [= <- <-]. split; [done |]. eapply effect_ext; [by apply effect_kept |]. intros a. unfold drops, installed.
    destruct (Nat.eqb_spec a (pkg_addr o)) as [->|]; [by rewrite Ei | done].
Qed.

Lemma prepare_effect n db : db_wf db -> known n db -> effect (adds n) db (prepare_ipkg n db).
Proof.
  intros Hwf Hk. eapply effect_after; [by apply pkg_install_effect |]. unfold prepare_ipkg.
  repeat first [reflexivity | etransitivity; [| apply kept_upd_more] | etransitivity; [| apply kept_unlink] | etransitivity; [| apply kept_upd_ipkg]].
  apply kept_rest.
Qed.

Lemma unpack_kept n upgrade args db r db' : unpack n upgrade args db = Ok (r, db') -> kept db db'.
Proof.
  unfold unpack. destruct (ipkg_of _ _) as [ip|]; [| done]. destruct (mc_unpack _ _ _ _ _ _ _) as [[[[[r1 ip1] m1] f1] linked]|]; [| done]. cbn [obind].
  match goal with |- context [mc_ipkg_commit (ad_rest ?x)] => set (db1 := x) end.
  assert (kept db db1) as K1.
  { subst db1. etransitivity; [| destruct (linked && _); [apply kept_triggers | reflexivity]].
    etransitivity; [| apply kept_upd_more]. etransitivity; [| apply kept_upd_ipkg]. apply kept_rest. }
  destruct (mc_ipkg_commit _) as [diris rest]. intros [= <- <-]. etransitivity; [exact K1 |]. etransitivity; [apply kept_rest | apply kept_upd_more].
Qed.

Lemma migrate_kept n collect db ids db' : migrate n collect db = Ok (ids, db') -> kept db db'.
Proof.
  unfold migrate. destruct (mc_migrate_files _ _ _) as [[[broken ids1] rest]|]; [| done]. intros [= <- <-].
  destruct broken; [etransitivity; [apply kept_rest | apply kept_upd_ipkg] | apply kept_rest].
Qed.

Lemma finish_effect oldpkg n args ids db r db' : db_wf db -> (forall o, oldpkg = Some o -> known o db) ->
  finish_install ac oldpkg n args ids db = Ok (r, db') ->
  effect (fun a b => if replaced oldpkg a && negb (a =? pkg_addr n)%nat then false else b) db db'.
Proof.
  intros Hwf Hk. unfold finish_install.
  assert (forall db1, (match oldpkg with
    | Some o => if negb (pkg_addr o =? pkg_addr n)%nat && bool_decide (is_Some (ipkg_of (pkg_addr o) db))
                then let! db := purge_pkg (pkg_addr o) true (Some ids) db in Ok (pkg_uninstall o db) else Ok db
    | None => Ok db end) = Ok db1 -> effect (fun a b => if replaced oldpkg a && negb (a =? pkg_addr n)%nat then false else b) db db1) as Hold.
  { intros db1. destruct oldpkg as [o|]; [| intros [= <-]; by apply effect_kept]. specialize (Hk o eq_refl).
    destruct (Nat.eqb_spec (pkg_addr o) (pkg_addr n)) as [Heq|Hne]; cbn [negb andb].
    - intros [= <-]. eapply effect_ext; [by apply effect_kept |]. intros a. cbn. rewrite Heq. by destruct (a =? pkg_addr n)%nat.
    - change (bool_decide (is_Some (ipkg_of (pkg_addr o) db))) with (installed (pkg_addr o) db). destruct (installed (pkg_addr o) db) eqn:Ei.
      + destruct (purge_pkg _ _ _ db) as [db2|] eqn:E2; [| done]. intros [= <-]. apply kept_purge in E2 as K.
        eapply effect_ext; [eapply effect_before; [exact K |]; apply pkg_uninstall_effect; by apply K |].
        intros a. unfold drops. cbn. destruct (Nat.eqb_spec a (pkg_addr o)) as [->|]; [| done]. by rewrite (proj2 (Nat.eqb_neq _ _) Hne).
      + intros [= <-]. eapply effect_ext; [by apply effect_kept |]. intros a. cbn. destruct (Nat.eqb_spec a (pkg_addr o)) as [->|]; [| done].
        rewrite Ei. by destruct (_ && _). }
  match goal with |- (let! _ := ?x in _) = _ -> _ => destruct x as [db1|] end; [| done]. cbn [obind]. specialize (Hold db1 eq_refl).
  destruct (apk_ipkg_run_script _ _ _ _ db1) as [r2 db2] eqn:E2. destruct (ipkg_of (pkg_addr n) db2) as [ip|]; [| done]. intros [= <- <-].
  eapply effect_after; [exact Hold |]. match type of E2 with apk_ipkg_run_script _ ?a ?t ?v _ = _ => pose proof (kept_run_script a t v db1) as K end. by rewrite E2 in K.
Qed.

Lemma install_new_effect oldpkg n args db r db' : db_wf db -> known n db -> (forall o, oldpkg = Some o -> known o db) ->
  install_new ac oldpkg n args db = Ok (r, db') ->
  effect (planned oldpkg (Some n)) db db' \/ r <> 0 /\ effect (drops n) db db'.
Proof.
  intros Hwf Hn Ho. unfold install_new. pose proof (prepare_effect n db Hwf Hn) as P. set (db1 := prepare_ipkg n db) in *.
  assert (forall db2 db3 ids r, kept db1 db2 -> finish_install ac oldpkg n args ids db2 = Ok (r, db3) -> effect (planned oldpkg (Some n)) db db3) as Hfin.
  { intros db2 db3 ids r0 K E. eapply effect_ext; [eapply effect_comp; [eapply effect_after; [exact P | exact K] |] |].
    - eapply finish_effect; [by apply K, P | intros o Eo; by apply K, P, Ho | exact E].
    - intros a. unfold adds, planned. destruct (Nat.eqb_spec a (pkg_addr n)), (replaced oldpkg a); cbn; try done. }
  destruct (pkg_installed_size _ =? 0); [intros E; left; by eapply Hfin |].
  destruct (unpack n _ args db1) as [[r2 db2]|] eqn:E2; [| done]. cbn [obind]. apply unpack_kept in E2 as K2.
  destruct (Z.eqb_spec r2 0) as [->|Hr2]; cbn [negb].
  - destruct (migrate n _ db2) as [[ids db3]|] eqn:E3; [| done]. cbn [obind]. apply migrate_kept in E3 as K3. intros E. left.
    eapply Hfin; [etransitivity; [exact K2 | exact K3] | exact E].
  - intros E. right. assert (exists db3, kept db2 db3 /\ r = r2 /\ db' = pkg_uninstall n db3) as (db3 & K3 & -> & ->).
    { destruct (same_pkg oldpkg (Some n)); cbn [obind] in E; [injection E as <- <-; by exists db2 |].
      destruct (purge_pkg _ false None db2) as [db3|] eqn:E3; [| done]. injection E as <- <-. exists db3. split; [by eapply kept_purge | done]. }
    split; [done |]. assert (kept db1 db3) as K by (etransitivity; [exact K2 | exact K3]).
    eapply effect_ext; [eapply effect_comp; [eapply effect_after; [exact P | exact K] |]; apply pkg_uninstall_effect; by apply K, P |].
    intros a. unfold adds, drops. by destruct (a =? pkg_addr n)%nat.
Qed.

Lemma install_pkg_effect oldpkg newpkg db r db' : db_wf db -> (forall p, oldpkg = Some p \/ newpkg = Some p -> known p db) ->
  apk_db_install_pkg ac oldpkg newpkg db = Ok (r, db') ->
  effect (planned oldpkg newpkg) db db' \/ r <> 0 /\ exists n, newpkg = Some n /\ effect (drops n) db db'.
Proof.
  intros Hwf Hk. unfold apk_db_install_pkg. destruct (script_args oldpkg newpkg) as [args|] eqn:Ea; [| done]. cbn [obind].
  destruct newpkg as [n|].
  - assert (install_new ac oldpkg n args db = Ok (r, db') -> effect (planned oldpkg (Some n)) db db' \/ r <> 0 /\ exists n0, Some n = Some n0 /\ effect (drops n0) db db') as Hn.
    { intros E. apply install_new_effect in E as [E|[Hr E]]; [by left | right; eauto | done | apply Hk; by right | intros o Ho; apply Hk; by left]. }
    by destruct oldpkg.
  - destruct oldpkg as [o|]; [| done]. intros E. apply deinstall_effect in E as [_ E]; [| done | apply Hk; by left]. by left.
Qed.

(** C7: replacing a package by one that is not installed, installing one that is not installed and removing one
    changes the set of installed packages as the change says or, when the new package cannot be unpacked, not at
    all: no other package is touched, the world is kept, and the result zero means that the change was made.
    The new package must not be installed yet: a package whose reinstallation fails is lost
    ([ex_reinstall_fails]). *)
Theorem install_pkg_all_or_nothing oldpkg newpkg db r db' :
  db_wf db -> (forall p, oldpkg = Some p \/ newpkg = Some p -> known p db) ->
  (forall n, newpkg = Some n -> installed (pkg_addr n) db = false) ->
  apk_db_install_pkg ac oldpkg newpkg db = Ok (r, db') ->
  ad_world db' = ad_world db /\
  ((forall a, installed a db' = planned oldpkg newpkg a (installed a db)) \/ r <> 0 /\ forall a, installed a db' = installed a db).
Proof.
  intros Hwf Hk Hnew E. destruct (install_pkg_effect _ _ _ _ _ Hwf Hk E) as [[_ _ Hw Hi]|(Hr & n & -> & [_ _ Hw Hi])]; split; try done; [by left |].
  right. split; [done |]. intros a. rewrite Hi. unfold drops. destruct (Nat.eqb_spec a (pkg_addr n)) as [->|]; [by rewrite (Hnew n) | done].
Qed.
End facts.

(** ** An example: a package in two versions, the first of which is installed *)

Definition ex_version (a : nat) (version : bytes) (ipkg : option apk_installed_package) : apk_package :=
  mk_pkg a (lit "zlib") version [] [] [] [] [] [] [] [] [] [] [] [] 4096 1000 0 1 0 0 false false 0 0 [] ipkg.
Definition ex_old : apk_package := ex_version 0 (lit "1.3") (Some ipkg0).
Definition ex_new : apk_package := ex_version 1 (lit "1.4") None.

Definition ex_packages : catalog :=
  mk_catalog (apk_hash_init 7) ∅ (apk_hash_init 7) {[ 0%nat := ex_old; 1%nat := ex_new ]} 2 [] (lit "noarch") true false None [Some 0%nat] None 1 4096.

(** Archives without files, whose unpacking has the result [r]. *)
Definition ex_outside (r : Z) : Outside ram := {|
  ou_unpack := fun _ _ _ _ ip m s => Ok (r, ip, m, s, false);
  ou_exec := fun _ _ _ _ w => (false, w);
  ou_cached := fun _ _ => false;
  ou_set_cached := fun _ w => w;
  ou_repository := fun _ _ => mk_source (lit "http://dl") false (lit "${name}-${version}.apk");
  ou_filename := fun _ _ => None;
  ou_cache_fd := fun _ => 5;
  ou_buffer := 4096;
  ou_cache_create := fun _ _ w => (0, w);
  ou_fetch := fun _ _ _ w => (0, w);
  ou_hook_dirs := fun _ => [];
  ou_run_hook := fun _ _ w => (0, w);
  ou_getc := fun w => (-1, w);
  ou_write_files := fun _ _ _ w => (0, w);
  ou_sync := fun w => w;
|}.
Definition ex_machine (r : Z) : Machine (inst_db * ram) := disk_machine (H0 := ex_outside r) false false false false (fun _ => 0).
Definition ex_database : apk_database (inst_db * ram) := mk_adb ex_packages ∅ [] 0 [] (ex_db, ex_ram).
Definition ex_ctx : apk_ctx := mk_ctx false false false false 1 false false false true false true false false.

Lemma ex_database_wf : db_wf ex_database /\ known ex_old ex_database /\ known ex_new ex_database.
Proof.
  split_and!; [| by eexists; vm_compute | by eexists; vm_compute]. intros a p. cbn. intros Hp.
  destruct (decide (a = 0%nat)) as [->|H0]; [by injection Hp as <- |]. destruct (decide (a = 1%nat)) as [->|H1]; [by injection Hp as <- |].
  by rewrite lookup_insert_ne, lookup_singleton_ne in Hp.
Qed.

(** Whether the result has the code [r] and these packages installed. *)
Definition result_is (r : Z) (old new : bool) (x : outcome (Z * apk_database (inst_db * ram))) : bool :=
  match x with Ok (r', db) => (r' =? r) && eqb (installed 0 db) old && eqb (installed 1 db) new | Fault => false end.

(** The upgrade, and an upgrade whose archive cannot be unpacked. *)
Example ex_upgrade : result_is 0 false true (apk_db_install_pkg (H := ex_machine 0) ex_ctx (Some ex_old) (Some ex_new) ex_database) = true.
Proof. by vm_compute. Qed.
Example ex_upgrade_fails : result_is (-5) true false (apk_db_install_pkg (H := ex_machine (-5)) ex_ctx (Some ex_old) (Some ex_new) ex_database) = true.
Proof. by vm_compute. Qed.

(** A package that cannot be unpacked again is not installed any more: nothing is undone when the old and
    the new package are the same. *)
Example ex_reinstall_fails : result_is (-5) false false (apk_db_install_pkg (H := ex_machine (-5)) ex_ctx (Some ex_old) (Some ex_old) ex_database) = true.
Proof. by vm_compute. Qed.

Lemma install_pkg_all_or_nothing_witness :
  exists r db, apk_db_install_pkg (H := ex_machine (-5)) ex_ctx (Some ex_old) (Some ex_new) ex_database = Ok (r, db) /\
  ad_world db = [] /\
  ((forall a, installed a db = planned (Some ex_old) (Some ex_new) a (installed a ex_database)) \/ r <> 0 /\ forall a, installed a db = installed a ex_database).
Proof.
  pose proof ex_upgrade_fails as Hx. destruct (apk_db_install_pkg (H := ex_machine (-5)) ex_ctx (Some ex_old) (Some ex_new) ex_database) as [[r db]|] eqn:E; [| discriminate Hx].
  exists r, db. split; [reflexivity |].
  apply (install_pkg_all_or_nothing (H := ex_machine (-5)) ex_ctx (Some ex_old) (Some ex_new) ex_database r db); [apply ex_database_wf | | | exact E].
  - intros p [[= <-]|[= <-]]; apply ex_database_wf.
  - intros n [= <-]. vm_compute. reflexivity.
Defined.
