(* ===== verification/Commit.v ===== *)
(** * Carrying out a change set (commit.c)

    The changes the solver found are counted, shown, confirmed and carried out one after the other; then
    triggers run and the database is written.  Of the messages the numbered lines of the changes are kept;
    the other output is left out. *)

From S2P Require Import Prelude Blob BlobCodec Version Digest Dep Package PackageRules Path Solver Catalog Installed InstallFile Deploy.

(** The value a signed integer of 64 bits gets. *)
Definition i64 (x : Z) : Z := (x + 2 ^ 63) mod 2 ^ 64 - 2 ^ 63.

Record apk_stats := mk_stats {
  s_bytes : Z;      (* uint64_t *)
  s_changes : Z;    (* unsigned int *)
  s_packages : Z;   (* unsigned int *)
}.
Definition stats0 : apk_stats := mk_stats 0 0 0.

(** A change has at least one package. *)
Definition change_pkg (c : apk_change) : option apk_package :=
  match ch_new_pkg c with Some n => Some n | None => ch_old_pkg c end.

Definition change_size (c : apk_change) : outcome Z :=
  match ch_new_pkg c, ch_old_pkg c with
  | Some n, _ => Ok (pkg_size n)
  | None, Some o => Ok (pkg_size o / 16)
  | None, None => Fault
  end.

Definition count_change (c : apk_change) (s : apk_stats) : outcome apk_stats :=
  let counted bytes := Ok (mk_stats bytes (u32 (s_changes s + 1)) (u32 (s_packages s + 1))) in
  if negb (same_pkg (ch_new_pkg c) (ch_old_pkg c)) || ch_reinstall c then
    let! size := change_size c in counted (u64 (s_bytes s + size))
  else if ch_new_repository_tag c =? ch_old_repository_tag c then Ok s
  else counted (s_bytes s).

(** ** The lists of packages that are shown *)

Definition change_name (c : apk_change) : bytes := match change_pkg c with Some p => pkg_name p | None => [] end.

Definition sort_change (a b : apk_change) : Z :=
  let name c := match ch_old_pkg c with Some o => pkg_name o | None => change_name c end in
  apk_name_cmp_display (name a) (name b).

Definition cmp_remove (c : apk_change) : bool := match ch_new_pkg c with None => true | Some _ => false end.
Definition cmp_new (c : apk_change) : bool := match ch_old_pkg c with None => true | Some _ => false end.
Definition cmp_reinstall (c : apk_change) : bool := ch_reinstall c.

Definition cmp_non_repository_verbose (has_repository_providers : bytes -> bool) (c : apk_change) : bool :=
  match ch_new_pkg c with Some n => negb (has_repository_providers (pkg_name n)) | None => false end.
Definition cmp_non_repository (has_repository_providers : bytes -> bool) (c : apk_change) : bool :=
  if negb (cmp_non_repository_verbose has_repository_providers c) then false
  else match ch_new_pkg c with Some n => negb (bool_decide (head (pkg_name n) = Some (chr "."))) | None => false end.

Definition cmp_downgrade (c : apk_change) : bool :=
  match ch_new_pkg c, ch_old_pkg c with
  | Some n, Some o => testmask (apk_pkg_version_compare n o) APK_VERSION_LESS
  | _, _ => false
  end.
Definition cmp_upgrade (c : apk_change) : bool :=
  match ch_new_pkg c, ch_old_pkg c with
  | Some n, Some o =>
      testmask (apk_pkg_version_compare n o) (Z.lor APK_VERSION_GREATER APK_VERSION_EQUAL) && negb (same_pkg (Some n) (Some o))
  | _, _ => false
  end.

(** The names that are printed; their number is the result. *)
Definition dump_packages (changes : list apk_change) (cmp : apk_change -> bool) : list bytes := change_name <$> List.filter cmp changes.

Definition calc_precision_loop : nat -> Z -> Z -> Z :=
  fix go fuel num precision := match fuel with
  | O => precision
  | S fuel => if 10 <=? num then go fuel (num / 10) (precision + 1) else precision
  end.
(** [fuel]: an unsigned int has at most ten digits. *)
Definition calc_precision (num : Z) : Z := calc_precision_loop 10 num 1.

(** ** Changes *)

(** The line of a change: its number, how many there are, and what is done with which versions. *)
Record change_msg := mk_msg {
  cm_digits : Z;    (* the width of the number *)
  cm_number : Z;
  cm_total : Z;
  cm_verb : bytes;
  cm_name : bytes;
  cm_versions : bytes * option bytes;
}.

Section commit.
Context {F : Type} `{Machine F} (ac : apk_ctx) (rs : repositories) (fnmatch : bytes -> bytes -> bool).
Implicit Types db : apk_database F.

Definition pkg_available (p : apk_package) db : bool :=
  mc_cached (pkg_addr p) (ad_rest db) || negb (pkg_filename_ndx (pkg_now p db) =? 0) || testmask (pkg_repos (pkg_now p db)) (rs_available_repos rs).

Definition print_change (c : apk_change) (done total : apk_stats) db : outcome (option change_msg) :=
  let msg verb versions := Ok (Some (mk_msg (calc_precision (s_changes total)) (u32 (s_changes done + 1)) (s_changes total) verb (change_name c) versions)) in
  match ch_old_pkg c, ch_new_pkg c with
  | None, None => Fault
  | None, Some n => msg (lit "Installing") (pkg_version n, None)
  | Some o, None => msg (lit "Purging") (pkg_version o, None)
  | Some o, Some n =>
      if same_pkg (Some n) (Some o) then
        if ch_reinstall c then
          msg (if pkg_available n db then lit "Reinstalling" else lit "[APK unavailable, skipped] Reinstalling") (pkg_version n, None)
        else if negb (ch_old_repository_tag c =? ch_new_repository_tag c) then msg (lit "Updating pinning") (pkg_version n, None)
        else Ok None
      else
        let r := apk_pkg_version_compare n o in
        if r =? APK_VERSION_LESS then msg (lit "Downgrading") (pkg_version o, Some (pkg_version n))
        else if r =? APK_VERSION_EQUAL then msg (lit "Replacing") (pkg_version o, Some (pkg_version n))
        else if r =? APK_VERSION_GREATER then msg (lit "Upgrading") (pkg_version o, Some (pkg_version n))
        else Ok None
  end.

(** ** Triggers *)

(** The first trigger of the package that matches the directory; whether it is for changed ones only. *)
Fixpoint trigger_match (triggers : list bytes) (rooted_name : bytes) : option bool :=
  match triggers with
  | [] => None
  | trigger :: triggers =>
      let only_changed := bool_decide (head trigger = Some (chr "+")) in
      let trigger := if only_changed then drop 1 trigger else trigger in
      if negb (bool_decide (head trigger = Some (chr "/"))) then trigger_match triggers rooted_name
      else if negb (fnmatch trigger rooted_name) then trigger_match triggers rooted_name
      else Some only_changed
  end.

(** One package of [installed.triggers]; one that is not installed any more was freed. *)
Definition fire_package (rooted_name : bytes) (modified : bool) (a : nat) db : outcome (apk_database F) :=
  match ipkg_of a db with
  | None => Fault
  | Some _ =>
      let m := more_of a db in
      if negb (im_run_all_triggers m) && negb modified then Ok db
      else
        match trigger_match (im_triggers m) rooted_name with
        | None => Ok db
        | Some only_changed =>
            let db := match im_pending_triggers m with
                      | [] => set_ad_pending_triggers (u32 (ad_pending_triggers db + 1)) (upd_more a (set_im_pending_triggers [None]) db)
                      | _ :: _ => db
                      end in
            Ok (if negb only_changed || modified
                then upd_more a (set_im_pending_triggers (im_pending_triggers (more_of a db) ++ [Some rooted_name])) db
                else db)
        end
  end.

Definition fire_triggers (dbd : bytes * bool) db : outcome (apk_database F) :=
  oeach (fire_package dbd.1 dbd.2) (ad_triggers db) db.

Definition apk_db_fire_triggers db : outcome (Z * apk_database F) :=
  let! db := oeach fire_triggers (mc_dirs (ad_rest db)) db in Ok (ad_pending_triggers db, db).

Definition run_trigger (c : apk_change) (s : Z * apk_database F) : outcome (Z * apk_database F) :=
  let '(errors, db) := s in
  match ch_new_pkg c with
  | None => Ok s
  | Some p =>
      let a := pkg_addr p in
      match ipkg_of a db, im_pending_triggers (more_of a db) with
      | None, _ | _, [] => Ok s
      | Some _, pending =>
          let '(r, db) := apk_ipkg_run_script ac a APK_SCRIPT_TRIGGER (pending ++ [None]) db in
          Ok (s32 (errors + (if r =? 0 then 0 else 1)), upd_more a (set_im_pending_triggers []) db)
      end
  end.

Definition run_triggers (changes : list apk_change) db : outcome (Z * apk_database F) :=
  let! (pending, db) := apk_db_fire_triggers db in
  if pending =? 0 then Ok (0, db) else oeach run_trigger changes (0, db).

(** ** Commit hooks *)

(** A file that is in an earlier directory, too, is left out: [num] files are from earlier directories. *)
Definition apk_dir_config_file_amend (path : bytes) (num : nat) (name : bytes) (files : list (bytes * bytes)) : list (bytes * bytes) :=
  match bsearch num (fun e : bytes * bytes => strcmp name e.2) (take num files) with
  | Some _ => files
  | None => files ++ [(path, name)]
  end.

Definition apk_filename_is_hidden (file : bytes) : bool := bool_decide (head file = Some (chr ".")).

Definition config_files (dirs : list (bytes * option (list bytes))) : list (bytes * bytes) :=
  foldl (fun files d => match d.2 with
    | None => files
    | Some names =>
        qsort (fun a b : bytes * bytes => strcmp a.2 b.2)
          (each (apk_dir_config_file_amend d.1 (length files)) (List.filter (fun n => negb (apk_filename_is_hidden n)) names) files)
    end) [] dirs.

Definition run_commit_hook (pre : bool) (path file : bytes) db : Z * apk_database F :=
  if bool_decide (head file = Some (chr ".")) then (0, db)
  else if ac_no_scripts ac || ac_simulate ac then (0, db)
  else if (PATH_MAX <=? length path + 1 + length file)%nat then (0, db)
  else if ac_no_commit_hooks ac then (0, db)
  else
    let '(r, rest) := mc_run_hook (if pre then lit "pre-commit" else lit "post-commit") (path ++ lit "/" ++ file) (ad_rest db) in
    (if (r <? 0) && pre then -2 else 0, set_ad_rest rest db).

Fixpoint run_hook_files (pre : bool) (files : list (bytes * bytes)) db : Z * apk_database F :=
  match files with
  | [] => (0, db)
  | (path, file) :: files =>
      let '(r, db) := run_commit_hook pre path file db in
      if r =? 0 then run_hook_files pre files db else (r, db)
  end.

Definition run_commit_hooks (pre : bool) db : Z * apk_database F := run_hook_files pre (config_files (mc_hook_dirs (ad_rest db))) db.

(** ** Downloading before the commit *)

Definition APKE_FILE_UNCHANGED : Z := 1024.

(** The directory that the name of a file is relative to. *)
Definition AT_FDCWD : Z := -100.
Definition NAME_MAX : nat := 255.

Definition apk_repo_fd (repo : repo_choice) (f : F) : Z * Z :=
  match repo with
  | Cache_repository => if mc_cache_fd f <? 0 then (mc_cache_fd f, 0) else (0, mc_cache_fd f)
  | _ => (0, AT_FDCWD)
  end.

(** The result, the directory and the text.  The pattern is expanded in finitely many steps
    ([subst_terminates_and_truncates]). *)
Definition apk_repo_package_url (repo : repo_choice) (p : apk_package) (len : nat) (f : F) : outcome (Z * Z * bytes) :=
  let '(r, fd) := apk_repo_fd repo f in
  if r <? 0 then Ok (r, fd, [])
  else
    match repo with
    | Filename_repository =>
        match mc_filename (pkg_filename_ndx p - 1) f with
        | None => Fault
        | Some name => Ok (if (len <=? length name)%nat then (- ENAMETOOLONG, fd, []) else (0, fd, name))
        end
    | _ =>
        let source := mc_repository repo f in
        match (if rp_absolute_pkgname source then Some [] else apk_blob_fmt len (fmt_blob (rp_url_base source) ++ lit "/")) with
        | None => Ok (- APKE_BUFFER_SIZE, fd, [])
        | Some url =>
            match apk_blob_subst (mc_buffer + Z.of_nat (length url)) (apk_pkg_subst p) (len - length url) (rp_pkgname_spec source) with
            | None => Fault
            | Some text =>
                let! (r, text) := text in
                Ok (if r <? 0 then (r, fd, []) else (0, fd, url ++ cstr_prefix text))
            end
        end
    end.

(** [apk_cache_download] of a package. *)
Definition apk_cache_download (repo : repo_choice) (p : apk_package) db : outcome (Z * apk_database F) :=
  let! (r, cache_fd, cache_filename) := apk_repo_package_url Cache_repository p NAME_MAX (ad_rest db) in
  if r <? 0 then Ok (r, db)
  else
    let! (r, download_fd, download_url) := apk_repo_package_url repo p PATH_MAX (ad_rest db) in
    if r <? 0 then Ok (r, db)
    else if ac_simulate ac then Ok (0, db)
    else
      let '(r, rest) := mc_cache_create cache_fd cache_filename (ad_rest db) in
      let db := set_ad_rest rest db in
      if r <? 0 then Ok (r, db)
      else
        let '(r, rest) := mc_fetch p download_fd download_url (ad_rest db) in
        let db := set_ad_rest rest db in
        if r =? - APKE_FILE_UNCHANGED then Ok (r, db)
        else Ok (r, set_ad_rest (mc_set_cached (pkg_addr p) (ad_rest db)) db).

(** The package of a change that has to be fetched, and from where. *)
Definition precache_pkg (changes_only : bool) (c : apk_change) db : option (repo_choice * apk_package) :=
  p ← ch_new_pkg c;
  if changes_only && same_pkg (Some p) (ch_old_pkg c) then None
  else
    let p := pkg_now p db in
    let cached := mc_cached (pkg_addr p) (ad_rest db) in
    if cached || testmask (pkg_repos p) (rs_local_repos rs) || (pkg_installed_size p =? 0) then None
    else repo ← apk_db_select_repo rs cached p; Some (repo, p).

Definition precache_change (changes_only : bool) (c : apk_change) (s : Z * Z * apk_database F) : outcome (Z * Z * apk_database F) :=
  let '(errors, done, db) := s in
  match precache_pkg changes_only c db with
  | None => Ok s
  | Some (repo, p) =>
      let! (r, db) := apk_cache_download repo p db in
      Ok (if negb (r =? 0) && negb (r =? - APKE_FILE_UNCHANGED) then s32 (errors + 1) else errors, u32 (done + 1), db)
  end.

Definition apk_solver_precache_changeset (changes : list apk_change) (changes_only : bool) db : outcome (Z * apk_database F) :=
  let total := length (List.filter (fun c => bool_decide (is_Some (precache_pkg changes_only c db))) changes) in
  if u32 (Z.of_nat total) =? 0 then Ok (0, db)
  else
    let! (errors, done, db) := oeach (precache_change changes_only) changes (0, 0, db) in
    Ok (if negb (errors =? 0) then s32 (- errors) else s32 done, db).

(** ** The commit *)

(** What the first pass adds up. *)
Record commit_totals := mk_totals {
  ct_stats : apk_stats;
  ct_download_size : Z;   (* uint64_t *)
  ct_size_diff : Z;       (* int64_t *)
  ct_pkg_diff : Z;        (* int *)
}.

(** The installed package that is replaced or removed is marked; an old package that is not installed is
    a NULL dereference. *)
Definition total_change (c : apk_change) (s : commit_totals * apk_database F) : outcome (commit_totals * apk_database F) :=
  let '(t, db) := s in
  let! stats := count_change c (ct_stats t) in
  let t :=
    match ch_new_pkg c with
    | None => mk_totals stats (ct_download_size t) (ct_size_diff t) (ct_pkg_diff t)
    | Some n =>
        mk_totals stats
          (if negb (same_pkg (Some n) (ch_old_pkg c)) && negb (testmask (pkg_repos n) (rs_local_repos rs))
           then u64 (ct_download_size t + pkg_size n) else ct_download_size t)
          (i64 (ct_size_diff t + pkg_installed_size n)) (s32 (ct_pkg_diff t + 1))
    end in
  match ch_old_pkg c with
  | None => Ok (t, db)
  | Some o =>
      let! db :=
        if same_pkg (Some o) (ch_new_pkg c) then Ok db
        else match ipkg_of (pkg_addr o) db with
             | None => Fault
             | Some _ => Ok (upd_ipkg (pkg_addr o) ip_removing db)
             end in
      Ok (mk_totals (ct_stats t) (ct_download_size t) (i64 (ct_size_diff t - pkg_installed_size o)) (s32 (ct_pkg_diff t - 1)), db)
  end.

(** The question; false when the answer is no. *)
Definition confirm (changes : list apk_change) db : bool * apk_database F :=
  if negb ((1 <? ac_verbosity ac) || ac_interactive ac) then (true, db)
  else
    let sorted := qsort sort_change changes in
    let n cmp := s32 (Z.of_nat (length (dump_packages sorted cmp))) in
    let r := s32 (n cmp_remove + n cmp_downgrade) in
    let r := if negb (r =? 0) || ac_interactive ac || (2 <? ac_verbosity ac)
             then s32 (s32 (s32 (r + n cmp_new) + n cmp_upgrade) + n cmp_reinstall) else r in
    if (0 <? r) && ac_interactive ac && negb (ac_simulate ac) then
      let '(ch, rest) := mc_getc (ad_rest db) in
      (bool_decide (ch ∈ [chr "y"; chr "Y"; 10; -1]), set_ad_rest rest db)
    else (true, db).

(** One change: what it adds to the errors, its line, and the statistics of what is done. *)
Definition commit_change (total : apk_stats) (c : apk_change) (s : Z * list change_msg * apk_stats * apk_database F)
    : outcome (Z * list change_msg * apk_stats * apk_database F) :=
  let '(errors, msgs, done, db) := s in
  let! r :=
    match ch_old_pkg c with
    | None => Ok 0
    | Some o => match ipkg_of (pkg_addr o) db with
                | None => Fault
                | Some ip => Ok (if ip_broken_files ip || ip_broken_script ip then 1 else 0)
                end
    end in
  let! msg := print_change c done total db in
  let! (r, db) :=
    match msg with
    | None => Ok (r, db)
    | Some _ =>
        let wanted := negb (same_pkg (ch_old_pkg c) (ch_new_pkg c)) ||
          (ch_reinstall c && match ch_new_pkg c with Some n => pkg_available n db | None => false end) in
        let! (r, db) :=
          if wanted && negb (ac_simulate ac) then
            let! (e, db) := apk_db_install_pkg ac (ch_old_pkg c) (ch_new_pkg c) db in
            Ok (if e =? 0 then 0 else 1, db)
          else Ok (r, db) in
        Ok (r, match ch_new_pkg c with Some n => upd_ipkg (pkg_addr n) (ip_set_tag (ch_new_repository_tag c)) db | None => db end)
    end in
  let! done := count_change c done in
  Ok (s32 (errors + r), msgs ++ option_list msg, done, db).

Definition apk_db_write_config db : Z * apk_database F :=
  if ac_simulate ac || negb (ac_root ac) then (0, db)
  else if negb (ac_openf_create ac) && negb (ac_locked ac) then (-1, db)
  else let '(r, rest) := mc_write_files (ad_cat db) (ad_world db) (ad_rest db) in (r, set_ad_rest rest db).

Definition sync_if_needed db : apk_database F :=
  if ac_simulate ac then db else if negb (ac_sync_wanted ac) then db else set_ad_rest (mc_sync (ad_rest db)) db.

(** The last line: errors, bytes and packages. *)
Definition commit_summary (errors size_diff pkg_diff : Z) db : Z * Z * Z :=
  let bytes := db_stat_bytes (ad_cat db) in
  let packages := db_stat_packages (ad_cat db) in
  if ac_simulate ac then (errors, u64 (bytes + size_diff), s32 (packages + pkg_diff)) else (errors, bytes, packages).

(** [all_done]. *)
Definition commit_finish (world : list apk_dependency) (errors size_diff pkg_diff : Z) (msgs : list change_msg) db
    : Z * list change_msg * option (Z * Z * Z) * apk_database F :=
  let db := set_ad_world world db in
  let '(r, db) := apk_db_write_config db in
  let errors := if negb (r =? 0) then s32 (errors + 1) else errors in
  let '(_, db) := run_commit_hooks false db in
  if ac_performing_preupgrade ac then (errors, msgs, None, db)
  else
    let db := sync_if_needed db in
    (errors, msgs, Some (commit_summary errors size_diff pkg_diff db), db).

Definition commit_changes (changes : list apk_change) (world : list apk_dependency) (t : commit_totals) db
    : outcome (Z * list change_msg * option (Z * Z * Z) * apk_database F) :=
  let! (errors, msgs, _, db) := oeach (commit_change (ct_stats t)) changes (0, [], stats0, db) in
  let errors := s32 (errors + mc_num_dir_update_errors (ad_rest db)) in   (* an unsigned int is added *)
  let! (e, db) := run_triggers changes db in
  Ok (commit_finish world (s32 (errors + e)) (ct_size_diff t) (ct_pkg_diff t) msgs db).

(** [changes]: [None] for the NULL array.  The result, the lines of the changes, the last line and the
    database. *)
Definition apk_solver_commit_changeset (changes : option (list apk_change)) (world : list apk_dependency) db
    : outcome (Z * list change_msg * option (Z * Z * Z) * apk_database F) :=
  if negb (apk_db_check_world rs (ac_force_broken_world ac) world =? 0) then Ok (-1, [], None, db)
  else
    match changes with
    | None => Ok (commit_finish world 0 0 0 [] db)
    | Some changes =>
        let! (t, db) := oeach total_change changes (mk_totals stats0 0 0 0, db) in
        let '(yes, db) := confirm changes db in
        if negb yes then Ok (-1, [], None, db)
        else
          let! (r, db) := if ac_cache_predownload ac && ac_cache_active ac then apk_solver_precache_changeset changes true db else Ok (0, db) in
          if r <? 0 then Ok (-1, [], None, db)
          else
            let '(r, db) := run_commit_hooks true db in
            if r =? -2 then Ok (-1, [], None, db) else commit_changes changes world t db
    end.
End commit.
