(* ===== verification/CommitFacts.v ===== *)
(** * Carrying out a change set: what is shown, what is refused and what is done *)

From S2P Require Import Prelude Blob BlobCodec Version Digest Hash Dep Package PackageRules Path Solver Catalog CatalogSolver Dirs Installed Owner InstallFile Fs FsFacts Deploy DeployFacts Commit.

Section facts.
Context {F : Type} `{Machine F} (ac : apk_ctx) (rs : repositories) (fnmatch : bytes -> bytes -> bool).
Implicit Types db : apk_database F.

(** ** Steps that install nothing *)

Lemma total_change_kept c t db t' db' : total_change rs c (t, db) = Ok (t', db') -> kept db db'.
Proof.
  unfold total_change. destruct (count_change c (ct_stats t)) as [s|]; [| done]. cbn [obind]. set (t1 := match ch_new_pkg c with Some _ => _ | None => _ end).
  destruct (ch_old_pkg c) as [o|]; [| by intros [= <- <-]]. destruct (same_pkg _ _); cbn [obind]; [by intros [= <- <-] |].
  destruct (ipkg_of _ db) as [ip|]; [| done]. cbn [obind]. intros [= <- <-]. apply kept_upd_ipkg.
Qed.

Lemma totals_kept changes t db t' db' : oeach (total_change rs) changes (t, db) = Ok (t', db') -> kept db db'.
Proof.
  intros E. apply (oeach_ind (fun s => kept db s.2)) in E; [exact E | | done].
  intros c [t1 db1] [t2 db2] _ K E1. etransitivity; [exact K | by eapply total_change_kept].
Qed.

Lemma confirm_kept changes db : kept db (confirm ac changes db).2.
Proof.
  unfold confirm. destruct (negb _); [done |]. destruct (_ && _); [| done]. destruct (mc_getc _) as [ch rest]. apply kept_rest.
Qed.

Lemma download_kept repo p db r db' : apk_cache_download ac repo p db = Ok (r, db') -> kept db db'.
Proof.
  unfold apk_cache_download. destruct (apk_repo_package_url Cache_repository p _ _) as [[[r1 fd1] name]|]; [| done]. cbn [obind].
  destruct (r1 <? 0); [by intros [= <- <-] |]. destruct (apk_repo_package_url repo p _ _) as [[[r2 fd2] url]|]; [| done]. cbn [obind].
  destruct (r2 <? 0); [by intros [= <- <-] |]. destruct (ac_simulate ac); [by intros [= <- <-] |].
  destruct (mc_cache_create _ _ _) as [r3 rest]. destruct (r3 <? 0); [intros [= <- <-]; apply kept_rest |].
  destruct (mc_fetch _ _ _ _) as [r4 rest']. destruct (_ =? _); intros [= <- <-]; by apply kept_same_cat.
Qed.

Lemma precache_change_kept only c e d db e' d' db' : precache_change ac rs only c (e, d, db) = Ok (e', d', db') -> kept db db'.
Proof.
  unfold precache_change. destruct (precache_pkg _ _ _ _) as [[repo p]|]; [| by intros [= <- <- <-]].
  destruct (apk_cache_download ac repo p db) as [[r db1]|] eqn:E; [| done]. intros [= <- <- <-]. by apply download_kept in E.
Qed.

Lemma precache_kept changes only db r db' : apk_solver_precache_changeset ac rs changes only db = Ok (r, db') -> kept db db'.
Proof.
  unfold apk_solver_precache_changeset. destruct (_ =? 0); [by intros [= <- <-] |].
  destruct (oeach _ _ _) as [[[e d] db1]|] eqn:E; [| done]. intros [= <- <-].
  apply (oeach_ind (fun s => kept db s.2)) in E; [exact E | | done]. intros c [[e1 d1] db2] [[e2 d2] db3] _ K E1.
  etransitivity; [exact K | by eapply precache_change_kept].
Qed.

Lemma hook_kept pre path file db : kept db (run_commit_hook ac pre path file db).2.
Proof.
  unfold run_commit_hook. repeat (case_match; [done |]). destruct (mc_run_hook _ _ _) as [r rest]. apply kept_rest.
Qed.

Lemma hooks_kept pre db : kept db (run_commit_hooks ac pre db).2.
Proof.
  unfold run_commit_hooks. generalize (config_files (mc_hook_dirs (ad_rest db))). intros files. revert db.
  induction files as [|[path file] files IH]; intros db; [done |]. cbn [run_hook_files]. pose proof (hook_kept pre path file db) as K.
  destruct (run_commit_hook ac pre path file db) as [r db1]. destruct (r =? 0); [| exact K]. etransitivity; [exact K | apply IH].
Qed.

Lemma fire_package_kept name modified a db db' : fire_package fnmatch name modified a db = Ok db' -> kept db db'.
Proof.
  unfold fire_package. destruct (ipkg_of a db) as [ip|]; [| done]. destruct (_ && _); [by intros [= <-] |].
  destruct (trigger_match _ _ _) as [only|]; [| by intros [= <-]]. set (db1 := match im_pending_triggers _ with [] => _ | _ :: _ => _ end).
  assert (kept db db1) as K by (subst db1; case_match; [by apply kept_same_cat | done]).
  intros [= <-]. destruct (_ || _); [| exact K]. etransitivity; [exact K | apply kept_upd_more].
Qed.

Lemma fire_kept db r db' : apk_db_fire_triggers fnmatch db = Ok (r, db') -> kept db db'.
Proof.
  unfold apk_db_fire_triggers. destruct (oeach _ _ db) as [db1|] eqn:E; [| done]. intros [= _ <-].
  apply (oeach_ind (kept db)) in E; [exact E | | done]. intros [name modified] db2 db3 _ K E3. unfold fire_triggers in E3.
  etransitivity; [exact K |]. apply (oeach_ind (kept db2)) in E3; [exact E3 | | done].
  intros a db4 db5 _ K4 E5. etransitivity; [exact K4 | by eapply fire_package_kept].
Qed.

(** Running triggers counts the scripts that fail. *)
Lemma run_triggers_spec changes db e db' : run_triggers ac fnmatch changes db = Ok (e, db') ->
  kept db db' /\ exists k, 0 <= k <= Z.of_nat (length changes) /\ e = s32 k.
Proof.
  unfold run_triggers. destruct (apk_db_fire_triggers fnmatch db) as [[pending db1]|] eqn:E; [| done]. cbn [obind]. apply fire_kept in E as K.
  destruct (pending =? 0); [intros [= <- <-]; split; [done |]; exists 0; split; [lia | done] |]. clear E.
  assert (forall l e1 db2 k, kept db db2 -> 0 <= k -> e1 = s32 k -> oeach (run_trigger ac) l (e1, db2) = Ok (e, db') ->
    kept db db' /\ exists k', 0 <= k' <= k + Z.of_nat (length l) /\ e = s32 k') as Hl.
  { induction l as [|c l IH]; intros e1 db2 k K2 Hk He; cbn [oeach length].
    { intros [= <- <-]. split; [done |]. exists k. split; [lia | done]. }
    destruct (run_trigger ac c (e1, db2)) as [[e3 db3]|] eqn:E; [| done]. cbn [obind]. intros E'.
    assert (kept db db3 /\ exists k3, k <= k3 <= k + 1 /\ e3 = s32 k3) as (K3 & k3 & Hk3 & He3).
    { revert E. unfold run_trigger. destruct (ch_new_pkg c) as [p|]; [| intros [= <- <-]; split; [done |]; exists k; split; [lia | done]].
      destruct (ipkg_of _ db2) as [ip|]; [| intros [= <- <-]; split; [done |]; exists k; split; [lia | done]].
      destruct (im_pending_triggers _) as [|x pend]; [intros [= <- <-]; split; [done |]; exists k; split; [lia | done] |].
      pose proof (kept_run_script ac (pkg_addr p) APK_SCRIPT_TRIGGER ((x :: pend) ++ [None]) db2) as K4.
      destruct (apk_ipkg_run_script _ _ _ _ db2) as [r db4]. intros [= <- <-]. split.
      - etransitivity; [exact K2 |]. etransitivity; [exact K4 | apply kept_upd_more].
      - exists (k + (if r =? 0 then 0 else 1)). split; [destruct (r =? 0); lia |]. by rewrite He, s32_add. }
    destruct (IH e3 db3 k3 K3 ltac:(lia) He3 E') as (K' & k' & Hk' & He'). split; [done |]. exists k'. split; [lia | done]. }
  intros E. destruct (Hl changes 0 db1 0 K ltac:(lia) ltac:(done) E) as (K' & k & Hk & He). split; [done |]. exists k. split; [lia | done].
Qed.

Lemma write_config_kept db : kept db (apk_db_write_config ac db).2.
Proof. unfold apk_db_write_config. repeat (case_match; [done |]). destruct (mc_write_files _ _ _) as [r rest]. apply kept_rest. Qed.

Lemma sync_kept db : kept db (sync_if_needed ac db).
Proof. unfold sync_if_needed. repeat (case_match; [done |]). apply kept_rest. Qed.

(** The end: the world is replaced, and nothing else is installed or removed. *)
Lemma finish_spec world errors sd pd msgs db r msgs' s db' :
  commit_finish ac world errors sd pd msgs db = (r, msgs', s, db') -> msgs' = msgs /\ (r = errors \/ r = s32 (errors + 1)) /\ kept (set_ad_world world db) db'.
Proof.
  unfold commit_finish. pose proof (write_config_kept (set_ad_world world db)) as K1. destruct (apk_db_write_config ac _) as [r1 db1]. cbn [snd] in K1.
  pose proof (hooks_kept false db1) as K2. destruct (run_commit_hooks ac false db1) as [r2 db2]. cbn [snd] in K2.
  destruct (ac_performing_preupgrade ac); intros [= <- <- <- <-]; (split; [done |]); (split; [destruct (negb _); auto |]).
  - etransitivity; [exact K1 | exact K2].
  - etransitivity; [exact K1 |]. etransitivity; [exact K2 | apply sync_kept].
Qed.

(** ** One change *)

(** The changes that are counted, and shown. *)
Definition counts (c : apk_change) : bool :=
  negb (same_pkg (ch_new_pkg c) (ch_old_pkg c)) || ch_reinstall c || negb (ch_new_repository_tag c =? ch_old_repository_tag c).

Lemma count_change_spec c s s' : count_change c s = Ok s' -> s_changes s' = (if counts c then u32 (s_changes s + 1) else s_changes s).
Proof.
  unfold count_change, counts. destruct (negb (same_pkg _ _) || ch_reinstall c); cbn [orb].
  - destruct (change_size c) as [size|]; [| done]. by intros [= <-].
  - destruct (_ =? _); by intros [= <-].
Qed.

Lemma version_compare_range n o : apk_pkg_version_compare n o = APK_VERSION_LESS \/ apk_pkg_version_compare n o = APK_VERSION_EQUAL \/ apk_pkg_version_compare n o = APK_VERSION_GREATER.
Proof.
  unfold apk_pkg_version_compare. destruct (bool_decide _); [by right; left |]. rewrite apk_version_compare_spec. destruct (version_cmp _ _); auto.
Qed.

(** Exactly the counted changes have a line, with the next number. *)
Lemma print_change_spec c done total db m : print_change rs c done total db = Ok m ->
  match m with
  | Some msg => counts c = true /\ cm_number msg = u32 (s_changes done + 1) /\ cm_total msg = s_changes total /\ cm_digits msg = calc_precision (s_changes total)
  | None => counts c = false
  end.
Proof.
  unfold print_change, counts. destruct (ch_old_pkg c) as [o|] eqn:Eo, (ch_new_pkg c) as [n|] eqn:En; try (by intros [= <-]).
  destruct (same_pkg (Some n) (Some o)); cbn [negb orb].
  - destruct (ch_reinstall c); [by intros [= <-] |]. cbn [orb]. rewrite Z.eqb_sym. destruct (_ =? _); by intros [= <-].
  - destruct (version_compare_range n o) as [->|[->| ->]]; by intros [= <-].
Qed.

Lemma same_pkg_sym a b : same_pkg a b = same_pkg b a.
Proof. destruct a, b; cbn; try done. apply Nat.eqb_sym. Qed.

Definition knows (c : apk_change) db : Prop := forall p, ch_old_pkg c = Some p \/ ch_new_pkg c = Some p -> known p db.

(** Nothing to do for a package that stays: it is installed. *)
Lemma planned_same o n db : same_pkg (Some o) (Some n) = true -> installed (pkg_addr o) db = true ->
  forall a, installed a db = planned (Some o) (Some n) a (installed a db).
Proof.
  cbn. intros Hs%Nat.eqb_eq Hi a. destruct (Nat.eqb_spec a (pkg_addr n)) as [->|Hne]; [by rewrite <- Hs |].
  rewrite Hs. by rewrite (proj2 (Nat.eqb_neq _ _) Hne).
Qed.

Lemma kept_set_tag (n : option apk_package) tag db :
  kept db (match n with Some n => upd_ipkg (pkg_addr n) (ip_set_tag tag) db | None => db end).
Proof. destruct n; [apply kept_upd_ipkg | done]. Qed.

Lemma upd_ipkg_rest a f db : ad_rest (upd_ipkg a f db) = ad_rest db.
Proof. unfold upd_ipkg. by repeat case_match. Qed.

(** What one change may do to the database; the flag tells that it did not fail. *)
Record carried (c : apk_change) (fine : bool) (db db' : apk_database F) : Prop := {
  carried_simulate : ac_simulate ac = true -> kept db db' /\ ad_rest db' = ad_rest db;
  carried_wf : db_wf db -> knows c db -> db_wf db';
  carried_known p : db_wf db -> knows c db -> known p db -> known p db';
  carried_world : db_wf db -> knows c db -> ad_world db' = ad_world db;
  carried_out : ac_simulate ac = false -> fine = true -> db_wf db -> knows c db ->
    forall a, installed a db' = planned (ch_old_pkg c) (ch_new_pkg c) a (installed a db);
}.

Lemma carried_kept c fine db db' : kept db db' -> ad_rest db' = ad_rest db ->
  (ac_simulate ac = false -> forall a, installed a db = planned (ch_old_pkg c) (ch_new_pkg c) a (installed a db)) -> carried c fine db db'.
Proof. intros K Hr Hp. split; [done | intros; by apply K | intros; by apply K | intros; apply K |]. intros Hs _ _ _ a. rewrite (kept_installed _ _ K). by apply Hp. Qed.

Lemma carried_install c db r db1 db' : ac_simulate ac = false -> apk_db_install_pkg ac (ch_old_pkg c) (ch_new_pkg c) db = Ok (r, db1) -> kept db1 db' ->
  carried c (r =? 0) db db'.
Proof.
  intros Hs E [K1 K2 K3 K4]. assert (db_wf db -> knows c db -> exists f, effect f db db1 /\ (r = 0 -> f = planned (ch_old_pkg c) (ch_new_pkg c))) as He.
  { intros Hwf Hk. apply install_pkg_effect in E as [E|(Hr & n & _ & E)]; [by eexists | by eexists; split; [exact E | intros Hr'] | done | exact Hk]. }
  split; try congruence; intros; destruct He as (f & [E1 E2 E3 E4] & Hf); try done; [auto | auto | congruence |]. rewrite K4, E4, Hf; [done |]. by apply Z.eqb_eq.
Qed.

Lemma commit_change_spec total c e msgs done db e' msgs' done' db' :
  commit_change ac rs total c (e, msgs, done, db) = Ok (e', msgs', done', db') ->
  count_change c done = Ok done' /\ (exists m, print_change rs c done total db = Ok m /\ msgs' = msgs ++ option_list m) /\
  exists r fine, 0 <= r <= 1 /\ e' = s32 (e + r) /\ carried c fine db db' /\ (r = 0 -> fine = true).
Proof.
  unfold commit_change.
  match goal with |- (let! _ := ?x in _) = _ -> _ => destruct x as [r0|] eqn:Er0 end; [| done]. cbn [obind].
  assert (0 <= r0 <= 1 /\ forall o, ch_old_pkg c = Some o -> installed (pkg_addr o) db = true) as [Hr0 Hold].
  { destruct (ch_old_pkg c) as [o|]; [| injection Er0 as <-; split; [lia | done]]. destruct (ipkg_of (pkg_addr o) db) as [ip|] eqn:Ei; [| done].
    split; [destruct (_ || _); injection Er0 as <-; lia |]. intros o' [= <-]. unfold installed. by rewrite Ei. }
  clear Er0. assert (same_pkg (ch_old_pkg c) (ch_new_pkg c) = true -> ch_new_pkg c <> None ->
    forall a, installed a db = planned (ch_old_pkg c) (ch_new_pkg c) a (installed a db)) as Hsame.
  { intros Hs Hn. destruct (ch_old_pkg c) as [o|], (ch_new_pkg c) as [n|]; try done. apply planned_same; [done | by apply Hold]. }
  destruct (print_change rs c done total db) as [m|] eqn:Em; [| done]. cbn [obind].
  match goal with |- (let! _ := ?x in _) = _ -> _ => destruct x as [[r db1]|] eqn:Er end; [| done]. cbn [obind].
  destruct (count_change c done) as [done1|]; [| done]. cbn [obind]. intros [= <- <- <- <-].
  assert (0 <= r <= 1 /\ exists fine, carried c fine db db1 /\ (r = 0 -> fine = true)) as (Hr & fine & Hc & Hf).
  { pose proof (print_change_spec c done total db m Em) as Hm. destruct m as [msg|].
    - match type of Er with context [if ?w && negb _ then _ else _] => set (wanted := w) in Er end.
      destruct (wanted && negb (ac_simulate ac)) eqn:Ew.
      + apply andb_true_iff in Ew as [_ Hs%negb_true_iff]. destruct (apk_db_install_pkg ac _ _ db) as [[ei db2]|] eqn:Ei; [| done]. cbn [obind] in Er.
        injection Er as <- <-. split; [destruct (ei =? 0); lia |]. exists (ei =? 0). split; [| by destruct (ei =? 0)].
        eapply carried_install; [done | exact Ei | apply kept_set_tag].
      + cbn [obind] in Er. injection Er as <- <-. split; [done |]. exists true. split; [| done]. apply carried_kept; [apply kept_set_tag | destruct (ch_new_pkg c); [apply upd_ipkg_rest | done] |].
        intros Hs. rewrite Hs, andb_true_r in Ew. unfold wanted in Ew. apply orb_false_iff in Ew as [Ew%negb_false_iff _]. apply Hsame; [done |].
        intros Hn. rewrite Hn in *. destruct (ch_old_pkg c) eqn:Eo; [done |]. unfold print_change in Em. by rewrite Eo, Hn in Em.
    - injection Er as <- <-. split; [done |]. exists true. split; [| done]. apply carried_kept; [done | done |]. intros _. unfold counts in Hm.
      apply orb_false_iff in Hm as [[Hm%negb_false_iff _]%orb_false_iff _]. apply Hsame; [by rewrite same_pkg_sym |].
      intros Hn. rewrite Hn in *. destruct (ch_old_pkg c) eqn:Eo; [done |]. unfold print_change in Em. by rewrite Eo, Hn in Em. }
  split_and!; [done | by exists m |]. by exists r, fine.
Qed.

(** ** All changes *)

Lemma calc_precision_bound fuel num p m : 0 <= num < 10 ^ (Z.of_nat fuel + 1) -> 1 <= p -> m < (num + 1) * 10 ^ (p - 1) -> m < 10 ^ calc_precision_loop fuel num p.
Proof.
  revert num p. induction fuel as [|fuel IH]; intros num p Hn Hp Hm; cbn [calc_precision_loop].
  - change (10 ^ (Z.of_nat 0 + 1)) with 10 in Hn. replace p with (Z.succ (p - 1)) by lia. rewrite Z.pow_succ_r by lia. nia.
  - assert (0 < 10 ^ (p - 1)) by (apply Z.pow_pos_nonneg; lia). destruct (Z.leb_spec 10 num).
    + apply IH; [| lia |].
      * replace (Z.of_nat (S fuel) + 1) with (Z.succ (Z.of_nat fuel + 1)) in Hn by lia. rewrite Z.pow_succ_r in Hn by lia.
        split; [apply Z.div_pos; lia | apply Z.div_lt_upper_bound; lia].
      * replace (p + 1 - 1) with (Z.succ (p - 1)) by lia. rewrite Z.pow_succ_r by lia. pose proof (Z.mul_succ_div_gt num 10 ltac:(lia)). nia.
    + replace p with (Z.succ (p - 1)) by lia. rewrite Z.pow_succ_r by lia. nia.
Qed.

Definition number_counted (changes : list apk_change) : Z := Z.of_nat (length (List.filter counts changes)).

Lemma totals_count changes t db t' db' : 0 <= s_changes (ct_stats t) -> s_changes (ct_stats t) + Z.of_nat (length changes) < 2 ^ 32 ->
  oeach (total_change rs) changes (t, db) = Ok (t', db') -> s_changes (ct_stats t') = s_changes (ct_stats t) + number_counted changes.
Proof.
  unfold number_counted. revert t db. induction changes as [|c changes IH]; intros t db H0 Hb; cbn [oeach].
  { intros [= <- <-]. cbn. lia. }
  destruct (total_change rs c (t, db)) as [[t1 db1]|] eqn:E; [| done]. cbn [obind].
  assert (s_changes (ct_stats t1) = s_changes (ct_stats t) + (if counts c then 1 else 0)) as H1.
  { unfold total_change in E. destruct (count_change c (ct_stats t)) as [s|] eqn:Ec; [| done]. cbn [obind] in E. apply count_change_spec in Ec.
    assert (ct_stats t1 = s) as ->.
    { destruct (ch_old_pkg c) as [o|]; [| injection E as <- <-; by destruct (ch_new_pkg c)].
      match type of E with (let! _ := ?x in _) = _ => destruct x end; [| done]. injection E as <- <-. by destruct (ch_new_pkg c). }
    rewrite Ec. cbn [length] in Hb. destruct (counts c); [unfold u32; rewrite Z.mod_small; lia | lia]. }
  cbn [List.filter length] in *. intros E'. apply IH in E'; [| destruct (counts c); lia | destruct (counts c); lia].
  rewrite E', H1. destruct (counts c); cbn [length]; lia.
Qed.

Lemma changes_numbered total changes e msgs done db e' msgs' done' db' :
  0 <= s_changes done -> s_changes done + Z.of_nat (length changes) < 2 ^ 32 ->
  oeach (commit_change ac rs total) changes (e, msgs, done, db) = Ok (e', msgs', done', db') ->
  exists new, msgs' = msgs ++ new /\ Z.of_nat (length new) = number_counted changes /\
    cm_number <$> new = seqZ (s_changes done + 1) (number_counted changes) /\
    Forall (fun m => cm_total m = s_changes total /\ cm_digits m = calc_precision (s_changes total)) new.
Proof.
  unfold number_counted. revert e msgs done db. induction changes as [|c changes IH]; intros e msgs done db H0 Hb; cbn [oeach].
  { intros [= <- <- <- <-]. exists []. split_and!; [by rewrite app_nil_r | done | done | done]. }
  destruct (commit_change ac rs total c _) as [[[[e1 msgs1] done1] db1]|] eqn:E; [| done]. cbn [obind].
  apply commit_change_spec in E as (Hc & (m & Hm & ->) & _). apply count_change_spec in Hc. apply print_change_spec in Hm.
  cbn [length] in Hb. cbn [List.filter].
  assert (s_changes done1 = s_changes done + (if counts c then 1 else 0)) as H1.
  { rewrite Hc. destruct (counts c); [unfold u32; rewrite Z.mod_small; lia | lia]. }
  intros E. apply IH in E as (new & -> & Hl & Hn & Ht); [| destruct (counts c); lia | destruct (counts c); lia].
  exists (option_list m ++ new). split; [by rewrite app_assoc |]. destruct m as [msg|].
  - destruct Hm as (Hct & H2 & H3 & H4). rewrite Hct in *. change (option_list (Some msg) ++ new) with (msg :: new). cbn [length]. split_and!; [lia | | by constructor].
    rewrite fmap_cons, Hn, H1, H2, Nat2Z.inj_succ, (seqZ_cons _ (Z.succ _)) by lia. f_equal; [unfold u32; rewrite Z.mod_small; lia |]. f_equal; lia.
  - rewrite Hm in *. change (option_list None ++ new) with new. rewrite H1, Z.add_0_r in Hn. done.
Qed.

(** The packages the changes mention; no two changes mention the same one. *)
Definition addrs (p : option apk_package) : list nat := match p with Some p => [pkg_addr p] | None => [] end.
Definition mentions (c : apk_change) : list nat :=
  if same_pkg (ch_old_pkg c) (ch_new_pkg c) then addrs (ch_new_pkg c) else addrs (ch_old_pkg c) ++ addrs (ch_new_pkg c).
Definition separate (changes : list apk_change) : Prop := NoDup (changes ≫= mentions).

Definition removed (changes : list apk_change) : list nat := changes ≫= fun c => addrs (ch_old_pkg c).
Definition added (changes : list apk_change) : list nat := changes ≫= fun c => addrs (ch_new_pkg c).

Lemma mentions_old c a : a ∈ addrs (ch_old_pkg c) -> a ∈ mentions c.
Proof.
  unfold mentions. destruct (ch_old_pkg c) as [o|], (ch_new_pkg c) as [n|]; cbn [same_pkg addrs]; try set_solver.
  destruct (Nat.eqb_spec (pkg_addr o) (pkg_addr n)) as [->|]; set_solver.
Qed.
Lemma mentions_new c a : a ∈ addrs (ch_new_pkg c) -> a ∈ mentions c.
Proof. unfold mentions. destruct (same_pkg _ _); set_solver. Qed.

Lemma planned_spec old new a b : planned old new a b = bool_decide (a ∈ addrs new) || b && negb (bool_decide (a ∈ addrs old)).
Proof.
  unfold planned, replaced, addrs. assert (forall x y : nat, (x =? y)%nat = bool_decide (x ∈ [y])) as Hb.
  { intros x y. destruct (Nat.eqb_spec x y) as [->|]; [rewrite bool_decide_true by set_solver | rewrite bool_decide_false by set_solver]; done. }
  destruct new as [n|], old as [o|]; rewrite ?Hb; try rewrite (bool_decide_false (a ∈ [])) by set_solver; cbn [negb orb andb]; rewrite ?andb_true_r; by rewrite ?(andb_comm b).
Qed.

Lemma bool_decide_app (a : nat) l k : bool_decide (a ∈ l ++ k) = bool_decide (a ∈ l) || bool_decide (a ∈ k).
Proof. rewrite (bool_decide_ext _ _ (elem_of_app l k a)). apply bool_decide_or. Qed.

Lemma changes_realised total changes e msgs done db e' msgs' done' db' :
  s32 e = e -> ac_simulate ac = false -> db_wf db -> (forall c, c ∈ changes -> knows c db) -> separate changes ->
  oeach (commit_change ac rs total) changes (e, msgs, done, db) = Ok (e', msgs', done', db') -> exists k, 0 <= k <= Z.of_nat (length changes) /\ e' = s32 (e + k) /\
  (k = 0 -> forall a, installed a db' = bool_decide (a ∈ added changes) || installed a db && negb (bool_decide (a ∈ removed changes))).
Proof.
  intros He0 Hs. revert e He0 msgs done db. induction changes as [|c changes IH]; intros e He0 msgs done db Hwf Hk Hsep; cbn [oeach length].
  { intros [= <- <- <- <-]. exists 0. split; [lia |]. split; [by rewrite Z.add_0_r |]. intros _ a. rewrite !bool_decide_false by apply not_elem_of_nil. by rewrite andb_true_r. }
  destruct (commit_change ac rs total c _) as [[[[e1 msgs1] done1] db1]|] eqn:E; [| done]. cbn [obind].
  apply commit_change_spec in E as (_ & _ & r & fine & Hr & He & [_ C2 C3 _ C5] & Hf). specialize (Hk c (list_elem_of_here _ _)) as Hkc.
  unfold separate in Hsep. rewrite bind_cons in Hsep. apply NoDup_app in Hsep as (_ & Hdis & Hsep).
  intros E. apply IH in E as (k & Hk' & He' & Hi); [| by rewrite He, s32_idem | by apply C2 | | done].
  2:{ intros c' Hc' p Hp. apply C3; [done | done |]. apply (Hk c'); [by right | done]. }
  exists (r + k). split; [lia |]. split; [by rewrite He', He, s32_add, Z.add_assoc |]. intros Heq a. rewrite Hi by lia. rewrite C5, planned_spec by (done || apply Hf; lia).
  unfold added, removed. rewrite !bind_cons. fold (added changes) (removed changes).
  assert (a ∈ mentions c -> a ∉ added changes /\ a ∉ removed changes) as Hm.
  { intros Ha. apply Hdis in Ha. split; intros Hx; apply Ha; unfold added, removed in Hx; apply list_elem_of_bind in Hx as (c' & Hx & Hc'); apply list_elem_of_bind; exists c';
      (split; [first [by apply mentions_old | by apply mentions_new] | done]). }
  pose proof (mentions_old c a) as Mo. pose proof (mentions_new c a) as Mn.
  rewrite !bool_decide_app. destruct (bool_decide_reflect (a ∈ mentions c)) as [Ha|Ha].
  - destruct (Hm Ha) as [H1 H2]. rewrite (bool_decide_false _ H1), (bool_decide_false _ H2). by destruct (installed a db), (bool_decide _), (bool_decide _).
  - rewrite (bool_decide_false (a ∈ addrs (ch_new_pkg c))), (bool_decide_false (a ∈ addrs (ch_old_pkg c))) by auto. by rewrite andb_true_r.
Qed.

(** ** The commit *)

(** The database after the last change, when the commit gets there. *)
Definition changed (changes : list apk_change) db : outcome (apk_database F) :=
  let! (t, db) := oeach (total_change rs) changes (mk_totals stats0 0 0 0, db) in
  let '(_, db) := confirm ac changes db in
  let! (_, db) := if ac_cache_predownload ac && ac_cache_active ac then apk_solver_precache_changeset ac rs changes true db else Ok (0, db) in
  let '(_, db) := run_commit_hooks ac true db in
  let! (_, _, _, db) := oeach (commit_change ac rs (ct_stats t)) changes (0, [], stats0, db) in Ok db.

(** The errors can be counted in an [int]: there are fewer than 2^28 changes, and they leave fewer than 2^30
    directories that could not be updated. *)
Record countable (changes : list apk_change) db : Prop := {
  few_dir_errors db1 : changed changes db = Ok db1 -> 0 <= mc_num_dir_update_errors (ad_rest db1) < 2 ^ 30;
  few_changes : Z.of_nat (length changes) < 2 ^ 28;
}.

(** The commit is refused before anything is done, there is nothing to do, or the changes are carried out. *)
Lemma commit_cases changes world db r msgs s db' :
  apk_solver_commit_changeset ac rs fnmatch changes world db = Ok (r, msgs, s, db') ->
  (r = -1 /\ msgs = [] /\ s = None /\ kept db db') \/
  (changes = None /\ commit_finish ac world 0 0 0 [] db = (r, msgs, s, db')) \/
  exists l t db0 db1, changes = Some l /\ oeach (total_change rs) l (mk_totals stats0 0 0 0, db) = Ok (t, db0) /\ kept db db1 /\
    changed l db = (let! (_, _, _, db2) := oeach (commit_change ac rs (ct_stats t)) l (0, [], stats0, db1) in Ok db2) /\
    commit_changes ac rs fnmatch l world t db1 = Ok (r, msgs, s, db').
Proof.
  unfold apk_solver_commit_changeset. destruct (negb _); [intros [= <- <- <- <-]; by left |].
  destruct changes as [l|]; [| intros [= E]; right; by left]. pose proof (eq_refl (changed l db)) as K4. unfold changed in K4 at 2.
  destruct (oeach _ l _) as [[t db0]|] eqn:Et; [| done]. cbn [obind] in *. apply totals_kept in Et as K0. pose proof (confirm_kept l db0) as K1. destruct (confirm ac l db0) as [yes db1]. cbn [snd] in K1.
  assert (kept db db1) as K1' by (etransitivity; [exact K0 | exact K1]).
  destruct (negb yes); [intros [= <- <- <- <-]; by left |].
  destruct (if ac_cache_predownload ac && ac_cache_active ac then _ else _) as [[r2 db2]|] eqn:Ep; [| done]. cbn [obind] in *.
  assert (kept db db2) as K2.
  { etransitivity; [exact K1' |]. destruct (_ && _); [by eapply precache_kept | by injection Ep as <- <-]. }
  destruct (r2 <? 0); [intros [= <- <- <- <-]; by left |].
  pose proof (hooks_kept true db2) as K3. destruct (run_commit_hooks ac true db2) as [r3 db3]. cbn [snd] in K3.
  assert (kept db db3) as K3' by (etransitivity; [exact K2 | exact K3]).
  destruct (r3 =? -2); [intros [= <- <- <- <-]; by left |]. intros E. right. right. exists l, t, db0, db3. by rewrite K4.
Qed.

(** Carrying out the changes: the loop, the triggers and the end.  The result counts the errors of all. *)
Lemma commit_changes_cases l world t db r msgs s db' :
  commit_changes ac rs fnmatch l world t db = Ok (r, msgs, s, db') ->
  exists e dn db1 more, oeach (commit_change ac rs (ct_stats t)) l (0, [], stats0, db) = Ok (e, msgs, dn, db1) /\
    r = s32 (e + mc_num_dir_update_errors (ad_rest db1) + more) /\ 0 <= more <= Z.of_nat (length l) + 1 /\
    ad_world db' = world /\ forall a, installed a db' = installed a db1.
Proof.
  unfold commit_changes. destruct (oeach _ l _) as [[[[e msgs1] dn] db1]|]; [| done]. cbn [obind].
  destruct (run_triggers ac fnmatch l db1) as [[e2 db2]|] eqn:E2; [| done]. cbn [obind]. intros [= E]. apply run_triggers_spec in E2 as (K2 & k & Hk & He2).
  apply finish_spec in E as (-> & Hr & [_ _ Kw Ki]).
  assert (s32 (s32 (e + mc_num_dir_update_errors (ad_rest db1)) + e2) = s32 (e + mc_num_dir_update_errors (ad_rest db1) + k)) as Hsum.
  { rewrite He2, s32_add, Z.add_comm, s32_add. f_equal. lia. }
  rewrite Hsum in Hr. exists e, dn, db1, (if decide (r = s32 (e + mc_num_dir_update_errors (ad_rest db1) + k)) then k else k + 1).
  split; [done |]. case_decide; (split; [| split; [lia | split; [done |]; intros a; rewrite Ki; exact (kept_installed _ _ K2 a)]]).
  - done.
  - destruct Hr as [Hr|Hr]; [done |]. rewrite Hr, s32_add. f_equal. lia.
Qed.

(** How many changes failed. *)
Lemma changes_counted total changes e msgs done db e' msgs' done' db' :
  s32 e = e -> oeach (commit_change ac rs total) changes (e, msgs, done, db) = Ok (e', msgs', done', db') ->
  exists k, 0 <= k <= Z.of_nat (length changes) /\ e' = s32 (e + k).
Proof.
  revert e msgs done db. induction changes as [|c changes IH]; intros e msgs done db He0; cbn [oeach length].
  { intros [= <- <- <- <-]. exists 0. split; [lia | by rewrite Z.add_0_r]. }
  destruct (commit_change ac rs total c _) as [[[[e1 msgs1] done1] db1]|] eqn:E; [| done]. cbn [obind].
  apply commit_change_spec in E as (_ & _ & r & fine & Hr & He & _). intros E. apply IH in E as (k & Hk & He'); [| by rewrite He, s32_idem].
  exists (r + k). split; [lia |]. by rewrite He', He, s32_add, Z.add_assoc.
Qed.

(** C31: the lines of a commit are numbered from one to their number, which every line shows, and each
    number fits the width that is used; a commit that carries out its changes shows exactly those that
    change something. *)
Theorem commit_lines_numbered changes world db r msgs s db' :
  Z.of_nat (length changes) < 2 ^ 32 ->
  apk_solver_commit_changeset ac rs fnmatch (Some changes) world db = Ok (r, msgs, s, db') ->
  cm_number <$> msgs = seqZ 1 (Z.of_nat (length msgs)) /\
  Forall (fun m => cm_total m = Z.of_nat (length msgs) /\ cm_number m < 10 ^ cm_digits m) msgs /\
  (r <> -1 -> length msgs = length (List.filter counts changes)).
Proof.
  intros Hlen E. apply commit_cases in E as [(-> & -> & _)|[[? _]|(l & t & db0 & db1 & [= <-] & Et & _ & _ & E)]]; [done | done |].
  apply commit_changes_cases in E as (e & dn & db2 & more & El & _).
  apply totals_count in Et; [| cbn; lia | cbn; lia]. cbn in Et. apply changes_numbered in El as (new & -> & Hl & Hn & Ht); [| cbn; lia | cbn; lia].
  rewrite Et in Ht. assert (number_counted changes <= Z.of_nat (length changes)) as Hle by (unfold number_counted; pose proof (filter_length_le counts changes); lia).
  cbn [app]. rewrite Hl. split; [exact Hn |]. split; [| intros _; unfold number_counted in Hl; lia].
  apply Forall_forall. intros m Hm. rewrite Forall_forall in Ht. destruct (Ht m Hm) as [H1 H2]. split; [by rewrite H1 |]. rewrite H2.
  apply calc_precision_bound; [cbn; lia | lia |]. cbn. assert (cm_number m ∈ cm_number <$> new) as Hx by (by apply list_elem_of_fmap; exists m). rewrite Hn in Hx.
  apply elem_of_seqZ in Hx. cbn in Hx. lia.
Qed.

(** C4: a commit without errors realises its change set: afterwards exactly the packages are installed
    that the changes add, and those that were installed and that no change removes; and the new world is
    in place.  The changes and the directories that could not be updated must be few enough for the number of
    errors to be an [int]. *)
Theorem commit_realises changes world db msgs s db' :
  countable changes db -> ac_simulate ac = false -> db_wf db ->
  (forall c, c ∈ changes -> knows c db) -> separate changes ->
  apk_solver_commit_changeset ac rs fnmatch (Some changes) world db = Ok (0, msgs, s, db') ->
  ad_world db' = world /\
  forall a, installed a db' = bool_decide (a ∈ added changes) || installed a db && negb (bool_decide (a ∈ removed changes)).
Proof.
  intros [Hd Hl] Hs Hwf Hk Hsep E. apply commit_cases in E as [(? & _)|[(? & _)|(l & t & db0 & db1 & [= <-] & _ & K & Hch & E)]]; [done | done |].
  apply commit_changes_cases in E as (e & dn & db2 & more & El & He & Hm & Hw & Hi). split; [done |]. intros a. rewrite Hi.
  rewrite El in Hch. specialize (Hd db2 Hch).
  apply changes_realised in El as (k & Hk' & He0 & El); [| done | done | by apply K | intros c Hc p Hp; apply K; by apply (Hk c) | done].
  rewrite Z.add_0_l in He0. rewrite He0, s32_small, s32_small in He by (rewrite ?s32_small; lia).
  rewrite El by lia. by rewrite (kept_installed _ _ K).
Qed.

(** ** Refusal *)

(** What the question is about. *)
Definition shown (c : apk_change) : bool := cmp_remove c || cmp_downgrade c || cmp_new c || cmp_upgrade c || cmp_reinstall c.

Definition no_answer (ch : Z) : Prop := ch ∉ [chr "y"; chr "Y"; 10; -1].

(** A package is to be fetched, and fetching this or another one fails. *)
Definition a_download_fails (changes : list apk_change) (errors done : Z) db : Prop :=
  exists l1 c l2 e d db1 repo p r db2, changes = l1 ++ c :: l2 /\ oeach (precache_change ac rs true) l1 (errors, done, db) = Ok (e, d, db1) /\
    precache_pkg rs true c db1 = Some (repo, p) /\ apk_cache_download ac repo p db1 = Ok (r, db2) /\ r <> 0 /\ r <> - APKE_FILE_UNCHANGED.

Definition download_fails (changes : list apk_change) db : Prop :=
  (exists c, c ∈ changes /\ is_Some (precache_pkg rs true c db)) /\ a_download_fails changes 0 0 db.

(** The hooks before one that runs and fails have run. *)
Definition hook_fails db : Prop :=
  ac_no_scripts ac = false /\ ac_simulate ac = false /\ ac_no_commit_hooks ac = false /\
  exists before path file behind db1, config_files (mc_hook_dirs (ad_rest db)) = before ++ (path, file) :: behind /\
    run_hook_files ac true before db = (0, db1) /\ head file <> Some (chr ".") /\ (length path + 1 + length file < PATH_MAX)%nat /\
    (mc_run_hook (lit "pre-commit") (path ++ lit "/" ++ file) (ad_rest db1)).1 < 0.

(** Why a commit is refused: a dependency of the world has a tag that no repository has; or the user
    does not say yes; or a package cannot be downloaded; or a pre-commit hook fails. *)
Inductive refused (changes : option (list apk_change)) (world : list apk_dependency) db : Prop :=
| refused_tag d : ac_force_broken_world ac = false -> d ∈ world -> dep_tag d <> 0 -> default 0 (rs_allowed_repos rs !! Z.to_nat (dep_tag d)) = 0 ->
    refused changes world db
| refused_answer l t db0 : changes = Some l -> oeach (total_change rs) l (mk_totals stats0 0 0 0, db) = Ok (t, db0) ->
    ac_interactive ac = true -> ac_simulate ac = false -> (exists c, c ∈ l /\ shown c = true) -> no_answer (mc_getc (ad_rest db0)).1 ->
    refused changes world db
| refused_download l t db0 db1 : changes = Some l -> oeach (total_change rs) l (mk_totals stats0 0 0 0, db) = Ok (t, db0) ->
    confirm ac l db0 = (true, db1) -> ac_cache_predownload ac = true -> ac_cache_active ac = true -> download_fails l db1 ->
    refused changes world db
| refused_hook l t db0 db1 r db2 : changes = Some l -> oeach (total_change rs) l (mk_totals stats0 0 0 0, db) = Ok (t, db0) ->
    confirm ac l db0 = (true, db1) ->
    (if ac_cache_predownload ac && ac_cache_active ac then apk_solver_precache_changeset ac rs l true db1 else Ok (0, db1)) = Ok (r, db2) ->
    hook_fails db2 -> refused changes world db.

Lemma check_world_spec world : apk_db_check_world rs (ac_force_broken_world ac) world <> 0 <->
  ac_force_broken_world ac = false /\ exists d, d ∈ world /\ dep_tag d <> 0 /\ default 0 (rs_allowed_repos rs !! Z.to_nat (dep_tag d)) = 0.
Proof.
  unfold apk_db_check_world. destruct (ac_force_broken_world ac); [split; [done | by intros [? _]] |].
  set (P := fun dep : apk_dependency => ~ _). split.
  - intros Hn. split; [done |]. destruct (filter P world) as [|d l] eqn:E; [done |].
    assert (d ∈ filter P world) as Hd by (rewrite E; by left). apply list_elem_of_filter in Hd as [HP Hd]. exists d.
    unfold P in HP. split_and!; [done | | apply dec_stable]; tauto.
  - intros (_ & d & Hd & H1 & H2) Hz. assert (d ∈ filter P world) as Hin by (apply list_elem_of_filter; split; [unfold P; tauto | done]).
    destruct (filter P world); [by apply elem_of_nil in Hin | simpl in Hz; lia].
Qed.

Lemma filter_perm {A} (f : A -> bool) (l k : list A) : l ≡ₚ k -> length (List.filter f l) = length (List.filter f k).
Proof. induction 1; cbn [List.filter]; repeat case_match; cbn [length]; congruence. Qed.

Lemma filter_pos {A} (f : A -> bool) (l : list A) : (0 < length (List.filter f l))%nat <-> exists x, x ∈ l /\ f x = true.
Proof.
  split.
  - intros Hl. destruct (List.filter f l) as [|x r] eqn:E; [simpl in Hl; lia |]. exists x. rewrite list_elem_of_In. apply filter_In. rewrite E. by left.
  - intros (x & Hx & Hf). destruct (List.filter f l) eqn:E; [| simpl; lia]. rewrite list_elem_of_In in Hx.
    assert (In x (List.filter f l)) as Hin by (by apply filter_In). by rewrite E in Hin.
Qed.

Lemma confirm_spec changes db : Z.of_nat (length changes) < 2 ^ 28 ->
  (confirm ac changes db).1 = false <->
  ac_interactive ac = true /\ ac_simulate ac = false /\ (exists c, c ∈ changes /\ shown c = true) /\ no_answer (mc_getc (ad_rest db)).1.
Proof.
  intros Hl. unfold confirm. set (n := fun cmp => s32 (Z.of_nat (length (dump_packages (qsort sort_change changes) cmp)))).
  assert (forall cmp, n cmp = Z.of_nat (length (List.filter cmp changes)) /\ n cmp <= Z.of_nat (length changes)) as Hn.
  { intros cmp. pose proof (filter_length_le cmp changes) as Hle. unfold n, dump_packages. rewrite length_fmap, (filter_perm _ _ changes) by apply qsort_Permutation.
    rewrite s32_small by lia. split; lia. }
  destruct (ac_interactive ac); [| rewrite andb_false_r; destruct (negb _); split; [done | by intros [? _] | done | by intros [? _]]].
  rewrite orb_true_r. cbn [negb]. rewrite orb_true_r. cbn [orb].
  set (r := s32 _). assert (r = s32 (s32 (s32 (s32 (n cmp_remove + n cmp_downgrade) + n cmp_new) + n cmp_upgrade) + n cmp_reinstall)) as Er by reflexivity.
  clearbody n r. assert (0 < r <-> exists c, c ∈ changes /\ shown c = true) as Hr.
  { assert (r = n cmp_remove + n cmp_downgrade + n cmp_new + n cmp_upgrade + n cmp_reinstall) as ->.
    { rewrite Er. pose proof (Hn cmp_remove). pose proof (Hn cmp_downgrade). pose proof (Hn cmp_new). pose proof (Hn cmp_upgrade). pose proof (Hn cmp_reinstall).
      rewrite (s32_small (_ + n cmp_downgrade)) by lia. rewrite (s32_small (_ + n cmp_new)) by lia. rewrite (s32_small (_ + n cmp_upgrade)) by lia. apply s32_small. lia. }
    rewrite !(proj1 (Hn _)). unfold shown. setoid_rewrite orb_true_iff. setoid_rewrite orb_true_iff. setoid_rewrite orb_true_iff. setoid_rewrite orb_true_iff.
    pose proof (filter_pos cmp_remove changes). pose proof (filter_pos cmp_downgrade changes). pose proof (filter_pos cmp_new changes).
    pose proof (filter_pos cmp_upgrade changes). pose proof (filter_pos cmp_reinstall changes). split; [| naive_solver lia].
    intros Hpos. destruct (decide (0 < length (List.filter cmp_remove changes))%nat); [naive_solver |].
    destruct (decide (0 < length (List.filter cmp_downgrade changes))%nat); [naive_solver |].
    destruct (decide (0 < length (List.filter cmp_new changes))%nat); [naive_solver |].
    destruct (decide (0 < length (List.filter cmp_upgrade changes))%nat); [naive_solver |].
    destruct (decide (0 < length (List.filter cmp_reinstall changes))%nat); [naive_solver | lia]. }
  clear Er. destruct (Z.ltb_spec 0 r) as [H0|H0]; cbn [andb]; [destruct (ac_simulate ac); cbn [negb] |].
  - split; [done | by intros (_ & ? & _)].
  - unfold no_answer. destruct (mc_getc (ad_rest db)) as [ch rest]. cbn [fst]. rewrite bool_decide_eq_false. naive_solver.
  - split; [done |]. intros (_ & _ & Hex & _). apply Hr in Hex. lia.
Qed.

(** A download that fails is counted, and downloads are the only thing that is. *)
Lemma precache_loop l e d db e' d' db' : 0 <= d -> d + Z.of_nat (length l) < 2 ^ 32 -> s32 e = e ->
  oeach (precache_change ac rs true) l (e, d, db) = Ok (e', d', db') ->
  d <= d' <= d + Z.of_nat (length l) /\ exists k, 0 <= k <= Z.of_nat (length l) /\ e' = s32 (e + k) /\ (0 < k <-> a_download_fails l e d db).
Proof.
  revert e d db. induction l as [|c l IH]; intros e d db Hd Hb He; cbn [oeach length] in *.
  { intros [= <- <- <-]. split; [lia |]. exists 0. split; [lia |]. rewrite Z.add_0_r. split; [done |]. split; [lia |].
    by intros (l1 & c & l2 & ? & ? & ? & ? & ? & ? & ? & ?%app_cons_not_nil & _). }
  destruct (precache_change ac rs true c (e, d, db)) as [[[e1 d1] db1]|] eqn:Ec; [| done]. cbn [obind]. intros E.
  set (here := exists repo p r db2, precache_pkg rs true c db = Some (repo, p) /\ apk_cache_download ac repo p db = Ok (r, db2) /\ r <> 0 /\ r <> - APKE_FILE_UNCHANGED).
  assert (d <= d1 <= d + 1 /\ exists j, 0 <= j <= 1 /\ e1 = s32 (e + j) /\ (0 < j <-> here)) as (Hd1 & j & Hj & He1 & Hh).
  { revert Ec. unfold precache_change, here. destruct (precache_pkg rs true c db) as [[repo p]|].
    2:{ intros [= <- <- <-]. split; [lia |]. exists 0. rewrite Z.add_0_r. split_and!; [lia | lia | done |]. split; [lia | by intros (? & ? & ? & ? & ? & _)]. }
    destruct (apk_cache_download ac repo p db) as [[r db2]|] eqn:Er; [| done]. cbn [obind]. intros [= <- <- <-].
    split; [unfold u32; rewrite Z.mod_small; lia |]. exists (if negb (r =? 0) && negb (r =? - APKE_FILE_UNCHANGED) then 1 else 0).
    destruct (Z.eqb_spec r 0), (Z.eqb_spec r (- APKE_FILE_UNCHANGED)); cbn [negb andb]; rewrite ?Z.add_0_r; (split; [lia |]); (split; [done |]);
      try (by split; [lia | intros (? & ? & ? & ? & [= <- <-] & Hx & ? & ?); rewrite Er in Hx; injection Hx as <- <-]).
    split; [intros _; by exists repo, p, r, db2 | lia]. }
  apply IH in E as (Hd' & k & Hk & He' & Hrest); [| lia | lia | by rewrite He1, s32_idem].
  split; [lia |]. exists (j + k). split; [lia |]. split; [by rewrite He', He1, s32_add, Z.add_assoc |].
  assert (a_download_fails (c :: l) e d db <-> here \/ a_download_fails l e1 d1 db1) as ->; [| rewrite <- Hh, <- Hrest; lia].
  split.
  - intros (l1 & c1 & l2 & e2 & d2 & db2 & repo & p & r & db3 & Hl & H1 & H2). destruct l1 as [|c2 l1]; injection Hl as -> ->.
    + injection H1 as <- <- <-. left. by exists repo, p, r, db3.
    + right. cbn [oeach] in H1. rewrite Ec in H1. by exists l1, c1, l2, e2, d2, db2, repo, p, r, db3.
  - intros [(repo & p & r & db3 & H2)|(l1 & c1 & l2 & e2 & d2 & db2 & repo & p & r & db3 & -> & H1 & H2)].
    + by exists [], c, l, e, d, db, repo, p, r, db3.
    + exists (c :: l1), c1, l2, e2, d2, db2, repo, p, r, db3. split; [done |]. split; [| done]. cbn [oeach]. by rewrite Ec.
Qed.

Lemma precache_spec changes db r db' : Z.of_nat (length changes) < 2 ^ 28 ->
  apk_solver_precache_changeset ac rs changes true db = Ok (r, db') -> r < 0 <-> download_fails changes db.
Proof.
  intros Hl. unfold apk_solver_precache_changeset, download_fails. set (f := fun c => bool_decide _). pose proof (filter_length_le f changes) as Hle.
  pose proof (filter_pos f changes) as Hf. unfold f in Hf at 2. setoid_rewrite bool_decide_eq_true in Hf. rewrite <- Hf.
  unfold u32. rewrite Z.mod_small by lia. destruct (Z.eqb_spec (Z.of_nat (length (List.filter f changes))) 0); [intros [= <- <-]; lia |].
  destruct (oeach _ _ _) as [[[e d] db1]|] eqn:E; [| done]. cbn [obind]. intros [= <- <-].
  apply precache_loop in E as (Hd & k & Hk & He & Hiff); [| lia | lia | done]. rewrite <- Hiff, He, Z.add_0_l, s32_small by lia.
  destruct (Z.eqb_spec k 0) as [->|]; cbn [negb]; rewrite s32_small by lia; lia.
Qed.

Lemma hooks_spec db : (run_commit_hooks ac true db).1 = -2 <-> hook_fails db.
Proof.
  unfold run_commit_hooks, hook_fails. generalize (config_files (mc_hook_dirs (ad_rest db))). intros files.
  assert (forall x, ac_no_scripts ac || ac_simulate ac = false /\ ac_no_commit_hooks ac = false /\ x <-> ac_no_scripts ac = false /\ ac_simulate ac = false /\ ac_no_commit_hooks ac = false /\ x) as Hf.
  { intros x. rewrite orb_false_iff. tauto. }
  rewrite <- Hf. clear Hf. revert db. induction files as [|[path file] files IH]; intros db; cbn [run_hook_files].
  { split; [done |]. by intros (_ & _ & ? & ? & ? & ? & ? & ?%app_cons_not_nil & _). }
  set (here := head file <> Some (chr ".") /\ (length path + 1 + length file < PATH_MAX)%nat /\ (mc_run_hook (lit "pre-commit") (path ++ lit "/" ++ file) (ad_rest db)).1 < 0).
  assert (let r := (run_commit_hook ac true path file db).1 in (r = -2 <-> ac_no_scripts ac || ac_simulate ac = false /\ ac_no_commit_hooks ac = false /\ here) /\ (r <> -2 -> r = 0)) as [Hr Hr0].
  { unfold run_commit_hook, here. destruct (bool_decide_reflect (head file = Some (chr "."))); [cbn; naive_solver |].
    destruct (ac_no_scripts ac || ac_simulate ac); [cbn; naive_solver |]. destruct (Nat.leb_spec PATH_MAX (length path + 1 + length file)); [cbn; naive_solver lia |].
    destruct (ac_no_commit_hooks ac); [cbn; naive_solver |]. destruct (mc_run_hook _ _ _) as [r rest]. cbn [fst snd]. rewrite andb_true_r. destruct (Z.ltb_spec r 0); cbn; naive_solver lia. }
  destruct (run_commit_hook ac true path file db) as [r db1] eqn:Eh. cbn [fst] in *. destruct (Z.eqb_spec r 0) as [->|Hn].
  - rewrite IH. assert (~ (ac_no_scripts ac || ac_simulate ac = false /\ ac_no_commit_hooks ac = false /\ here)) as Hno by (intros Hx; by apply Hr in Hx).
    split; intros (F1 & F2 & before & p & f & behind & db2 & Hl & H1 & H2); (split; [done |]); (split; [done |]).
    + exists ((path, file) :: before), p, f, behind, db2. split; [by rewrite Hl |]. split; [| done]. cbn [run_hook_files]. by rewrite Eh.
    + destruct before as [|[x1 x2] before]; injection Hl as <- <- Hl; [injection H1 as <-; by destruct Hno |]. exists before, p, f, behind, db2. split; [done |].
      split; [| done]. revert H1. cbn [run_hook_files]. by rewrite Eh.
  - cbn [fst]. assert (r = -2) as -> by (destruct (decide (r = -2)); [done | by destruct Hn; apply Hr0]). split; [intros _ | done].
    destruct Hr as [(F1 & F2 & Hh) _]; [done |]. split; [done |]. split; [done |]. by exists [], path, file, files, db.
Qed.

(** A commit that is refused stops; one that is not goes on. *)
Lemma refused_cases changes world db r msgs s db' : Z.of_nat (length (default [] changes)) < 2 ^ 28 ->
  apk_solver_commit_changeset ac rs fnmatch changes world db = Ok (r, msgs, s, db') ->
  (refused changes world db /\ r = -1 /\ msgs = [] /\ s = None /\ kept db db') \/
  (~ refused changes world db /\ ((changes = None /\ commit_finish ac world 0 0 0 [] db = (r, msgs, s, db')) \/
    exists l t db1, changes = Some l /\ commit_changes ac rs fnmatch l world t db1 = Ok (r, msgs, s, db') /\
      changed l db = (let! (_, _, _, db2) := oeach (commit_change ac rs (ct_stats t)) l (0, [], stats0, db1) in Ok db2))).
Proof.
  intros Hl E. pose proof (check_world_spec world) as Hw. unfold apk_solver_commit_changeset in E. destruct (Z.eqb_spec (apk_db_check_world rs (ac_force_broken_world ac) world) 0) as [E0|E0]; cbn [negb] in E.
  2:{ apply Hw in E0 as (H1 & d & H2 & H3 & H4). injection E as <- <- <- <-. left. split; [by eapply refused_tag | done]. }
  assert (forall d, ac_force_broken_world ac = false -> d ∈ world -> dep_tag d <> 0 -> default 0 (rs_allowed_repos rs !! Z.to_nat (dep_tag d)) = 0 -> False) as Htag.
  { intros d H1 H2 H3 H4. apply Hw; [by split; [| exists d] | done]. }
  destruct changes as [l|]; cbn [default from_option id] in Hl.
  2:{ injection E as E. right. split; [| by left]. intros []; by eauto. }
  assert (changed l db = changed l db) as Hch by reflexivity. unfold changed in Hch at 2.
  destruct (oeach (total_change rs) l _) as [[t db0]|] eqn:Et; [| done]. cbn [obind] in *.
  pose proof (totals_kept _ _ _ _ _ Et) as K0. pose proof (confirm_kept l db0) as K1. pose proof (confirm_spec l db0 Hl) as Hq.
  destruct (confirm ac l db0) as [yes db1] eqn:Eq. cbn [fst snd] in *. assert (kept db db1) as K01 by (etransitivity; [exact K0 | exact K1]).
  destruct yes; cbn [negb] in E.
  2:{ injection E as <- <- <- <-. left. split; [| done]. destruct Hq as [(H1 & H2 & H3 & H4) _]; [done |]. by eapply refused_answer. }
  destruct (if ac_cache_predownload ac && ac_cache_active ac then _ else _) as [[r1 db2]|] eqn:Ep; [| done]. cbn [obind] in *.
  assert (kept db db2 /\ (r1 < 0 <-> ac_cache_predownload ac = true /\ ac_cache_active ac = true /\ download_fails l db1)) as [K2 Hp].
  { destruct (ac_cache_predownload ac), (ac_cache_active ac); cbn [andb] in Ep; try (injection Ep as <- <-; split; [done | naive_solver lia]).
    split; [etransitivity; [exact K01 | by eapply precache_kept] |]. rewrite (precache_spec l db1 r1 db2 Hl Ep). naive_solver. }
  destruct (Z.ltb_spec r1 0) as [Hr1|Hr1].
  { injection E as <- <- <- <-. left. split; [| done]. apply Hp in Hr1 as (H1 & H2 & H3). by eapply refused_download. }
  pose proof (hooks_kept true db2) as K3. pose proof (hooks_spec db2) as Hh. destruct (run_commit_hooks ac true db2) as [r2 db3]. cbn [fst snd] in *.
  destruct (Z.eqb_spec r2 (-2)) as [Hr2|Hr2].
  { injection E as <- <- <- <-. left. split; [| split_and!; [done | done | done | etransitivity; [exact K2 | exact K3]]]. apply Hh in Hr2. by eapply refused_hook. }
  right. split; [| right; by exists l, t, db3].
  intros [d H1 H2 H3 H4|? ? ? [= <-] H1 H2 H3 H4 H5|? ? ? ? [= <-] H1 H2 H3 H4 H5|? ? ? ? ? ? [= <-] H1 H2 H3 H4].
  - by eapply Htag.
  - rewrite Et in H1. injection H1 as <- <-. by destruct Hq as [_ Hq]; discriminate Hq.
  - rewrite Et in H1. injection H1 as <- <-. rewrite Eq in H2. injection H2 as <-. assert (r1 < 0) by tauto. lia.
  - rewrite Et in H1. injection H1 as <- <-. rewrite Eq in H2. injection H2 as <-. rewrite Ep in H3. injection H3 as <- <-. tauto.
Qed.

(** The number of errors of a commit that carries out its changes. *)
Lemma commit_changes_nonneg l world t db db1 r msgs s db' : countable l db ->
  changed l db = (let! (_, _, _, db2) := oeach (commit_change ac rs (ct_stats t)) l (0, [], stats0, db1) in Ok db2) ->
  commit_changes ac rs fnmatch l world t db1 = Ok (r, msgs, s, db') -> 0 <= r.
Proof.
  intros [Hd Hl] Hch E. apply commit_changes_cases in E as (e & dn & db2 & more & El & -> & Hm & _). rewrite El in Hch. specialize (Hd db2 Hch).
  apply changes_counted in El as (k & Hk & ->); [| done]. rewrite Z.add_0_l, (s32_small k), s32_small by lia. lia.
Qed.

(** C5: a commit returns -1 exactly when it is refused: a dependency of the world has a tag that no repository
    has, the user does not say yes, a package cannot be downloaded, or a pre-commit hook fails; and then nothing is
    done: no change is shown or carried out, the same packages are installed and the world stays.  The changes and
    the directories that could not be updated must be few enough for the number of errors to be an [int]. *)
Theorem commit_refused changes world db r msgs s db' :
  (forall l, changes = Some l -> countable l db) ->
  apk_solver_commit_changeset ac rs fnmatch changes world db = Ok (r, msgs, s, db') ->
  (r = -1 <-> refused changes world db) /\
  (r = -1 -> msgs = [] /\ s = None /\ ad_world db' = ad_world db /\ forall a, installed a db' = installed a db).
Proof.
  intros Hc E. apply refused_cases in E as [(Hr & -> & -> & -> & [_ _ Kw Ki])|[Hr E]]; [done | |].
  - assert (r <> -1) as Hn; [| by split]. destruct E as [(_ & E)|(l & t & db1 & -> & E & Hch)].
    + apply finish_spec in E as (_ & [->| ->] & _); done.
    + assert (0 <= r); [| lia]. by eapply commit_changes_nonneg; [apply Hc | ..].
  - destruct changes as [l|]; [by apply (few_changes _ _ (Hc l eq_refl)) | done].
Qed.


(** ** Simulation *)

Lemma totals_rest changes t db t' db' : oeach (total_change rs) changes (t, db) = Ok (t', db') -> ad_rest db' = ad_rest db.
Proof.
  intros E. apply (oeach_ind (fun s => ad_rest s.2 = ad_rest db)) in E; [exact E | | done]. intros c [t1 db1] [t2 db2] _ K. cbn [snd] in *.
  unfold total_change. destruct (count_change c _) as [st|]; [| done]. cbn [obind]. destruct (ch_old_pkg c) as [o|]; [| by intros [= <- <-]].
  destruct (same_pkg _ _); cbn [obind]; [by intros [= <- <-] |]. destruct (ipkg_of _ db1); [| done]. cbn [obind]. intros [= <- <-]. by rewrite upd_ipkg_rest.
Qed.

Section simulated.
Context (Hs : ac_simulate ac = true).

Lemma confirm_simulated changes db : confirm ac changes db = (true, db).
Proof. unfold confirm. destruct (negb _); [done |]. by rewrite Hs, andb_false_r. Qed.

Lemma hooks_simulated pre db : run_commit_hooks ac pre db = (0, db).
Proof.
  unfold run_commit_hooks. generalize (config_files (mc_hook_dirs (ad_rest db))). intros files. induction files as [|[path file] files IH]; [done |].
  cbn [run_hook_files]. unfold run_commit_hook. rewrite Hs, orb_true_r. destruct (bool_decide _); exact IH.
Qed.

Lemma triggers_simulated changes db e db' : run_triggers ac fnmatch changes db = Ok (e, db') -> ad_rest db' = ad_rest db.
Proof.
  unfold run_triggers, apk_db_fire_triggers. destruct (oeach _ _ db) as [db1|] eqn:E; [| done]. cbn [obind].
  assert (ad_rest db1 = ad_rest db) as R1.
  { apply (oeach_ind (fun d => ad_rest d = ad_rest db)) in E; [exact E | | done]. intros dbd db2 db3 _ R E3.
    apply (oeach_ind (fun d => ad_rest d = ad_rest db)) in E3; [exact E3 | | done]. intros a db4 db5 _ R4. unfold fire_package.
    destruct (ipkg_of a db4); [| done]. destruct (_ && _); [by intros [= <-] |]. destruct (trigger_match _ _ _); [| by intros [= <-]].
    set (d := match im_pending_triggers (more_of a db4) with [] => _ | _ :: _ => _ end). assert (ad_rest d = ad_rest db) as Rd by (subst d; by destruct (im_pending_triggers _)).
    intros [= <-]. destruct (_ || _); exact Rd. }
  destruct (_ =? 0); [by intros [= <- <-] |]. intros E1. apply (oeach_ind (fun x => ad_rest x.2 = ad_rest db)) in E1; [exact E1 | | done].
  intros c [e1 db2] [e2 db3] _ R. cbn [snd] in *. unfold run_trigger. destruct (ch_new_pkg c) as [p|]; [| by intros [= <- <-]].
  destruct (ipkg_of _ db2); [| by intros [= <- <-]]. destruct (im_pending_triggers _); [by intros [= <- <-] |].
  unfold apk_ipkg_run_script. rewrite Hs, orb_true_r. destruct (im_script _ _); intros [= <- <-]; exact R.
Qed.

Lemma finish_simulated world errors sd pd msgs db : ad_rest (commit_finish ac world errors sd pd msgs db).2 = ad_rest db.
Proof.
  unfold commit_finish, apk_db_write_config. rewrite Hs. cbn [orb]. rewrite hooks_simulated. unfold sync_if_needed. rewrite Hs. by destruct (ac_performing_preupgrade ac).
Qed.

(** The names are made up, and nothing is fetched. *)
Lemma download_simulated repo p db r db' : apk_cache_download ac repo p db = Ok (r, db') -> db' = db.
Proof.
  unfold apk_cache_download. rewrite Hs. destruct (apk_repo_package_url Cache_repository p _ _) as [[[r1 fd1] name]|]; [| done]. cbn [obind].
  destruct (r1 <? 0); [by intros [= <- <-] |]. destruct (apk_repo_package_url repo p _ _) as [[[r2 fd2] url]|]; [| done]. cbn [obind].
  destruct (r2 <? 0); by intros [= <- <-].
Qed.

Lemma precache_simulated changes only db r db' : apk_solver_precache_changeset ac rs changes only db = Ok (r, db') -> db' = db.
Proof.
  unfold apk_solver_precache_changeset. destruct (_ =? 0); [by intros [= <- <-] |].
  destruct (oeach _ _ _) as [[[e d] db1]|] eqn:E; [| done]. intros [= <- <-].
  apply (oeach_ind (fun s => s.2 = db)) in E; [exact E | | done]. intros c [[e1 d1] db2] [[e2 d2] db3] _ Hdb. cbn [snd] in *. subst db2. unfold precache_change.
  destruct (precache_pkg _ _ _ _) as [[repo p]|]; [| by intros [= <- <- <-]].
  destruct (apk_cache_download ac repo p db) as [[r1 db4]|] eqn:E1; [| done]. intros [= <- <- <-]. by apply download_simulated in E1.
Qed.

(** C6: a simulated commit changes nothing outside of the program's memory, and installs and removes
    nothing in it: scripts, hooks and triggers do not run, no package is downloaded to the cache and no file is
    written. *)
Theorem commit_simulated changes world db r msgs s db' :
  apk_solver_commit_changeset ac rs fnmatch changes world db = Ok (r, msgs, s, db') ->
  ad_rest db' = ad_rest db /\ forall a, installed a db' = installed a db.
Proof.
  intros E. assert (forall x, ad_rest x = ad_rest db -> kept db x -> forall l t, commit_changes ac rs fnmatch l world t x = Ok (r, msgs, s, db') ->
    ad_rest db' = ad_rest db /\ forall a, installed a db' = installed a db) as Hc.
  { intros x Rx Kx l t. unfold commit_changes. destruct (oeach _ l _) as [[[[e m] dn] db1]|] eqn:El; [| done]. cbn [obind].
    apply (oeach_ind (fun y => kept db y.2 /\ ad_rest y.2 = ad_rest db)) in El as [K1 R1]; [| | done].
    2:{ intros c [[[e1 m1] d1] b1] [[[e2 m2] d2] b2] _ [K R] Hx. cbn [snd] in *. apply commit_change_spec in Hx as (_ & _ & _ & fine & _ & _ & [C _ _ _ _] & _).
        destruct (C Hs) as [C1 C2]. split; [etransitivity; [exact K | exact C1] | congruence]. }
    cbn [snd] in *. destruct (run_triggers ac fnmatch l db1) as [[e2 db2]|] eqn:E2; [| done]. cbn [obind]. set (errors := s32 _). intros [= Ef].
    apply triggers_simulated in E2 as R2. apply run_triggers_spec in E2 as [K2 _]. pose proof (finish_simulated world errors (ct_size_diff t) (ct_pkg_diff t) m db2) as R3.
    rewrite Ef in R3. cbn [snd] in R3. apply finish_spec in Ef as (_ & _ & [_ _ _ K3]). split; [congruence |].
    intros a. rewrite K3. rewrite <- (kept_installed _ _ K1 a). exact (kept_installed _ _ K2 a). }
  unfold apk_solver_commit_changeset in E. destruct (negb _); [by injection E as <- <- <- <- |]. destruct changes as [l|].
  - destruct (oeach _ l _) as [[t db0]|] eqn:Et; [| done]. cbn [obind] in E. apply totals_kept in Et as K0. apply totals_rest in Et as R0.
    rewrite confirm_simulated in E. cbn [negb] in E. destruct (if ac_cache_predownload ac && ac_cache_active ac then _ else _) as [[r1 db1]|] eqn:Ep; [| done].
    assert (db1 = db0) as -> by (destruct (_ && _); [by eapply precache_simulated | by injection Ep as _ ->]). cbn [obind] in E. destruct (r1 <? 0).
    + injection E as <- <- <- <-. split; [done |]. apply K0.
    + rewrite hooks_simulated in E. change (0 =? -2) with false in E. cbv iota in E. by apply (Hc db0) in E.
  - injection E as E. pose proof (finish_simulated world 0 0 0 [] db) as R. rewrite E in R. apply finish_spec in E as (_ & _ & [_ _ _ K]). by split.
Qed.
End simulated.
End facts.

(** ** The example of DeployFacts.v *)

Definition ex_repos : repositories := mk_repos [1] 1 0 1 0 0.
Definition ex_change : apk_change := mk_change (Some ex_old) (Some ex_new) 0 0 false.
Definition ex_simulate : apk_ctx := mk_ctx true false false false 1 false true true true false true false false.
Definition ex_world (tag : Z) : list apk_dependency := [mk_dep (lit "zlib") [] 7 false tag 0].
Abbreviation ex_commit ac tag := (apk_solver_commit_changeset (H := ex_machine 0) ac ex_repos (fun _ _ => true) (Some [ex_change]) (ex_world tag) ex_database).

(** The result, the number of lines, and the packages that are installed. *)
Definition committed (r : Z) (lines : nat) (old new : bool) (x : outcome (Z * list change_msg * option (Z * Z * Z) * apk_database (inst_db * ram))) : bool :=
  match x with
  | Ok (r', msgs, _, db) => (r' =? r) && (length msgs =? lines)%nat && eqb (installed 0 db) old && eqb (installed 1 db) new
  | Fault => false
  end.

Example ex_commit_done : committed 0 1 false true (ex_commit ex_ctx 0) = true.
Proof. by vm_compute. Qed.
Example ex_commit_refused : committed (-1) 0 true false (ex_commit ex_ctx 3) = true.
Proof. by vm_compute. Qed.
Example ex_commit_simulated : committed 0 1 true false (ex_commit ex_simulate 0) = true.
Proof. by vm_compute. Qed.

(** The changes leave no directory that could not be updated. *)
Lemma ex_countable : countable (H := ex_machine 0) ex_ctx ex_repos [ex_change] ex_database.
Proof.
  split; [| done]. intros db1. set (x := changed _ _ _ _).
  assert (match x with Ok db => bool_decide (0 <= mc_num_dir_update_errors (Machine := ex_machine 0) (ad_rest db) < 2 ^ 30) | Fault => true end = true) as Hx by (by vm_compute).
  clearbody x. intros ->. by apply bool_decide_eq_true in Hx.
Qed.

Lemma ex_knows c : c ∈ [ex_change] -> knows c ex_database.
Proof. intros ->%list_elem_of_singleton p [[= <-]|[= <-]]; apply ex_database_wf. Qed.

Lemma commit_lines_numbered_witness : exists r msgs s db, ex_commit ex_ctx 0 = Ok (r, msgs, s, db) /\
  cm_number <$> msgs = seqZ 1 (Z.of_nat (length msgs)) /\
  Forall (fun m => cm_total m = Z.of_nat (length msgs) /\ cm_number m < 10 ^ cm_digits m) msgs /\
  (r <> -1 -> length msgs = length (List.filter counts [ex_change])).
Proof.
  pose proof ex_commit_done as Hx. destruct (ex_commit ex_ctx 0) as [[[[r msgs] s] db]|] eqn:E; [| discriminate Hx]. exists r, msgs, s, db. split; [reflexivity |].
  apply (commit_lines_numbered (H := ex_machine 0) ex_ctx ex_repos (fun _ _ => true) [ex_change] (ex_world 0) ex_database r msgs s db); [done | exact E].
Defined.

Lemma commit_refused_witness : exists msgs s db, ex_commit ex_ctx 3 = Ok (-1, msgs, s, db) /\
  refused (H := ex_machine 0) ex_ctx ex_repos (Some [ex_change]) (ex_world 3) ex_database /\
  msgs = [] /\ s = None /\ ad_world db = ad_world ex_database /\ forall a, installed a db = installed a ex_database.
Proof.
  pose proof ex_commit_refused as Hx. destruct (ex_commit ex_ctx 3) as [[[[r msgs] s] db]|] eqn:E; [| discriminate Hx].
  assert (r = -1) as -> by (unfold committed in Hx; rewrite !andb_true_iff, Z.eqb_eq in Hx; apply Hx). exists msgs, s, db. split; [reflexivity |].
  destruct (commit_refused (H := ex_machine 0) ex_ctx ex_repos (fun _ _ => true) (Some [ex_change]) (ex_world 3) ex_database (-1) msgs s db) as [Hr Hn];
    [intros l [= <-]; exact ex_countable | exact E |].
  split; [by apply Hr | by apply Hn].
Defined.

Lemma commit_realises_witness : exists msgs s db, ex_commit ex_ctx 0 = Ok (0, msgs, s, db) /\ ad_world db = ex_world 0 /\
  forall a, installed a db = bool_decide (a ∈ added [ex_change]) || installed a ex_database && negb (bool_decide (a ∈ removed [ex_change])).
Proof.
  pose proof ex_commit_done as Hx. destruct (ex_commit ex_ctx 0) as [[[[r msgs] s] db]|] eqn:E; [| discriminate Hx].
  assert (r = 0) as -> by (unfold committed in Hx; rewrite !andb_true_iff, Z.eqb_eq in Hx; apply Hx). exists msgs, s, db. split; [reflexivity |].
  apply (commit_realises (H := ex_machine 0) ex_ctx ex_repos (fun _ _ => true) [ex_change] (ex_world 0) ex_database msgs s db);
    [exact ex_countable | reflexivity | apply ex_database_wf | exact ex_knows | | exact E].
  apply (bool_decide_unpack _). vm_compute. done.
Defined.

Lemma commit_simulated_witness : exists r msgs s db, ex_commit ex_simulate 0 = Ok (r, msgs, s, db) /\
  ad_rest db = ad_rest ex_database /\ forall a, installed a db = installed a ex_database.
Proof.
  pose proof ex_commit_simulated as Hx. destruct (ex_commit ex_simulate 0) as [[[[r msgs] s] db]|] eqn:E; [| discriminate Hx]. exists r, msgs, s, db. split; [reflexivity |].
  apply (commit_simulated (H := ex_machine 0) ex_simulate ex_repos (fun _ _ => true) eq_refl (Some [ex_change]) (ex_world 0) ex_database r msgs s db). exact E.
Defined.

(** A package whose metadata first names a trigger and then none stays in the list of triggers when it is
    removed, and the next look at the triggers uses it after it was freed. *)
Definition ex_linked : ipkg_more * bool := read_info_triggers [] (read_info_triggers (lit "/usr/lib") (more0, false)).
Example ex_linked_empty : ex_linked.2 = true /\ im_triggers ex_linked.1 = [].
Proof. by vm_compute. Qed.

Example dangling_trigger :
  let db := mk_adb ex_packages {[ 0%nat := ex_linked.1 ]} [0%nat] 0 [] (ex_db, ex_ram) in
  match apk_db_install_pkg (H := ex_machine 0) ex_ctx (Some ex_old) None db with
  | Ok (r, db) => r = 0 /\ fire_triggers (fun _ _ => true) (lit "/usr/lib", true) db = Fault
  | Fault => False
  end.
Proof. by vm_compute. Qed.
