(* ===== verification/ErrorReport.v ===== *)
(** * Reporting why no solution exists (commit.c)

    When the solver fails, the packages it chose are marked and searched from the world on, to tell names
    that are missing from names that are there.  The search is a recursion over names and packages that
    may depend on each other; [None] stands for running out of fuel.  The printing is left out: the
    result is the list of names that are reported as missing. *)

From S2P Require Import Prelude Blob BlobCodec Digest Dep Package PackageRules Solver SolverFacts Catalog Installed InstallFile Deploy Commit.

Definition STATE_PRESENT : Z := 0x80000000.
Definition STATE_MISSING : Z := 0x40000000.
Definition STATE_VIRTUAL_ONLY : Z := 0x20000000.
Definition STATE_INSTALLIF : Z := 0x10000000.

(** The words [state_int] of the names and of the packages. *)
Record report_state := mk_report { er_names : gmap bytes Z; er_pkgs : gmap nat Z }.

Definition name_bits (st : report_state) (n : bytes) : Z := default 0 (er_names st !! n).
Definition pkg_bits (st : report_state) (a : nat) : Z := default 0 (er_pkgs st !! a).
Definition name_or (n : bytes) (bits : Z) (st : report_state) : report_state :=
  mk_report (<[n := Z.lor (name_bits st n) bits]> (er_names st)) (er_pkgs st).
Definition pkg_or (a : nat) (bits : Z) (st : report_state) : report_state :=
  mk_report (er_names st) (<[a := Z.lor (pkg_bits st a) bits]> (er_pkgs st)).

Section report.
Context (db : solver_db) (marked : nat -> bool).

Definition is_name_concrete (pkg : apk_package) (name : bytes) : bool :=
  bool_decide (pkg_name pkg = name) ||
  existsb (fun d => bool_decide (dep_name d = name) && negb (is_atom_null (dep_version d))) (pkg_provides pkg).

Section body.
(** The recursive call of [discover_name]. *)
Context (call : bytes -> Z -> report_state -> option report_state).

Definition er_discover_deps (deps : list apk_dependency) (st : report_state) : option report_state :=
  each_opt (fun d st => if apk_dep_conflict d then Some st else call (dep_name d) STATE_PRESENT st) deps st.

Definition install_if_ok (st : report_state) (p : apk_package) : bool :=
  forallb (fun d => negb (Bool.eqb (apk_dep_conflict d) (testmask (name_bits st (dep_name d)) (Z.lor STATE_PRESENT STATE_INSTALLIF)))) (pkg_install_if p).

Definition er_discover_reverse_iif (name : bytes) (st : report_state) : option report_state :=
  each_opt (fun name0 => each_opt (fun (e : provider_entry) st =>
    let p := e.1 in
    if negb (marked (pkg_addr p)) then Some st
    else if (length (pkg_install_if p) =? 0)%nat then Some st
    else if install_if_ok st p then
      st ← call (pkg_name p) STATE_INSTALLIF st;
      each_opt (fun d => call (dep_name d) STATE_INSTALLIF) (pkg_provides p) st
    else Some st) (providers db name0)) (rinstall_if db name) st.

(** The state a provider gets for the name. *)
Definition provider_state (name : bytes) (pkg_state : Z) (p : apk_package) : Z :=
  if ((pkg_state =? STATE_PRESENT) || (pkg_state =? STATE_INSTALLIF)) && (pkg_provider_priority p =? 0) && negb (is_name_concrete p name)
  then STATE_VIRTUAL_ONLY else pkg_state.

(** And the state the names it provides get. *)
Definition provides_state (state : Z) (d : apk_dependency) : Z :=
  if (state =? STATE_INSTALLIF) && is_atom_null (dep_version d) then STATE_VIRTUAL_ONLY else state.

Definition discover_provider (name : bytes) (pkg_state : Z) (e : provider_entry) (st : report_state) : option report_state :=
  let p := e.1 in
  if negb (marked (pkg_addr p)) then Some st
  else
    let state := provider_state name pkg_state p in
    if testmask (pkg_bits st (pkg_addr p)) state then Some st
    else
      let st := name_or (pkg_name p) state (pkg_or (pkg_addr p) state st) in
      let st := each (fun d => name_or (dep_name d) (provides_state state d)) (pkg_provides p) st in
      st ← er_discover_deps (pkg_depends p) st;
      if (state =? STATE_PRESENT) || (state =? STATE_INSTALLIF) then
        st ← er_discover_reverse_iif (pkg_name p) st;
        each_opt (fun d => er_discover_reverse_iif (dep_name d)) (pkg_provides p) st
      else Some st.
End body.

Fixpoint er_discover_name (fuel : nat) (name : bytes) (pkg_state : Z) (st : report_state) : option report_state :=
  match fuel with
  | O => None
  | S fuel => each_opt (discover_provider (er_discover_name fuel) name pkg_state) (providers db name) st
  end.

(** The names that are reported, in order. *)
Definition analyze_deps (deps : list apk_dependency) (s : report_state * list bytes) : report_state * list bytes :=
  each (fun d s =>
    let '(st, missing) := s in
    if apk_dep_conflict d then s
    else if testmask (name_bits st (dep_name d)) (Z.lor STATE_INSTALLIF (Z.lor STATE_PRESENT STATE_MISSING)) then s
    else (name_or (dep_name d) STATE_MISSING st, missing ++ [dep_name d])) deps s.
End report.

Definition change_marks (changes : list apk_change) (a : nat) : bool :=
  existsb (fun c => match ch_new_pkg c with Some p => (pkg_addr p =? a)%nat | None => false end) changes.

(** [apk_solver_print_errors] on words that are zero. *)
Definition apk_solver_print_errors (fuel : nat) (db : solver_db) (changes : list apk_change) (world : list apk_dependency) : option (list bytes) :=
  st ← er_discover_deps (er_discover_name db (change_marks changes) fuel) world (mk_report ∅ ∅);
  Some (each (fun c s => match ch_new_pkg c with Some p => analyze_deps (pkg_depends p) s | None => s end) changes (analyze_deps world (st, []))).2.

(** ** Solving and committing *)

(** The result of the solver is committed, or its errors are reported.  [restarts] and [fuel] are those of the
    solver, [None] when they are too small; the last part is the names that are reported. *)
Definition apk_solver_commit {F : Type} `{Machine F} (ac : apk_ctx) (rs : repositories) (fnmatch : bytes -> bytes -> bool)
    (garbage : apk_digest) (flags_set : gset bytes) (pkgs : gmap nat apk_solver_package_state) (restarts fuel : nat)
    (solver_flags : Z) (world : list apk_dependency) (db : apk_database F) : outcome (option (Z * apk_database F * list bytes)) :=
  if negb (apk_db_check_world rs (ac_force_broken_world ac) world =? 0) then Ok (Some (-1, db, []))
  else
    let view := solver_view (ad_cat db) rs (fun p => mc_cached (pkg_addr p) (ad_rest db)) (ac_performing_preupgrade ac) (ac_force_broken_world ac) in
    match apk_solver_solve garbage view flags_set restarts fuel solver_flags pkgs changeset0 world with
    | None => Ok None
    | Some (r, world, cs) =>
        if r =? 0 then
          let! (r, _, _, db) := apk_solver_commit_changeset ac rs fnmatch (Some (cs_changes cs)) world db in
          Ok (Some (r, db, []))
        else Ok (missing ← apk_solver_print_errors fuel view (cs_changes cs) world; Some (r, db, missing))
    end.

(** ** The search ends and is complete *)

Section facts.
Context (db : solver_db) (marked : nat -> bool) (pkgs : list nat).
(** All providers are among [pkgs], and packages are identified by their addresses. *)
Hypothesis all_known : forall n e, e ∈ providers db n -> pkg_addr e.1 ∈ pkgs.
Hypothesis one_package : forall n m e f, e ∈ providers db n -> f ∈ providers db m -> pkg_addr e.1 = pkg_addr f.1 -> e.1 = f.1.
Hypothesis provider_names : forall n e, e ∈ providers db n -> n = pkg_name e.1 \/ exists d, d ∈ pkg_provides e.1 /\ dep_name d = n.

Definition bits : list Z := [STATE_PRESENT; STATE_INSTALLIF; STATE_VIRTUAL_ONLY].

Lemma testmask_lor x y m : testmask (Z.lor x y) m = testmask x m || testmask y m.
Proof.
  unfold testmask. rewrite Z.land_lor_distr_l. apply eq_true_iff_eq. rewrite orb_true_iff, !negb_true_iff, !Z.eqb_neq.
  rewrite Z.lor_eq_0_iff. destruct (Z.eq_dec (Z.land x m) 0), (Z.eq_dec (Z.land y m) 0); tauto.
Qed.

Lemma testmask_self m : m ∈ bits -> testmask m m = true.
Proof. unfold bits. rewrite !elem_of_cons, elem_of_nil. by intros [->|[->|[->|[]]]]. Qed.

Lemma pkg_or_bits a b x st : pkg_bits (pkg_or a x st) b = if decide (b = a) then Z.lor (pkg_bits st a) x else pkg_bits st b.
Proof. unfold pkg_bits, pkg_or. cbn. destruct (decide (b = a)) as [->|]; [by rewrite lookup_insert_eq | by rewrite lookup_insert_ne]. Qed.

Lemma name_or_bits n k x st : name_bits (name_or n x st) k = if decide (k = n) then Z.lor (name_bits st n) x else name_bits st k.
Proof. unfold name_bits, name_or. cbn. destruct (decide (k = n)) as [->|]; [by rewrite lookup_insert_eq | by rewrite lookup_insert_ne]. Qed.

(** How many states the packages do not have yet. *)
Definition work (st : report_state) : nat := count_if (fun am : nat * Z => negb (testmask (pkg_bits st am.1) am.2)) (list_prod pkgs bits).

Definition visited (st : report_state) (a : nat) : Prop := exists m, m ∈ bits /\ testmask (pkg_bits st a) m = true.
(** All marked providers of a name were found, with the state they have for it. *)
Definition found (st : report_state) (n : bytes) : Prop := forall e, e ∈ providers db n -> marked (pkg_addr e.1) = true ->
  testmask (pkg_bits st (pkg_addr e.1)) (provider_state n STATE_PRESENT e.1) = true.
(** What a package depends on was searched. *)
Definition searched (st : report_state) (p : apk_package) : Prop := forall d, d ∈ pkg_depends p -> apk_dep_conflict d = false -> found st (dep_name d).
(** The names of a package that is present are present. *)
Definition names_follow (st : report_state) : Prop := forall n e, e ∈ providers db n ->
  testmask (pkg_bits st (pkg_addr e.1)) STATE_PRESENT = true -> testmask (name_bits st n) STATE_PRESENT = true.
(** Only the names of chosen packages are there. *)
Definition named (p : apk_package) (n : bytes) : Prop := n = pkg_name p \/ exists d, d ∈ pkg_provides p /\ dep_name d = n.
Definition names_have (st : report_state) : Prop := forall n m, testmask (name_bits st n) m = true ->
  exists k e, e ∈ providers db k /\ marked (pkg_addr e.1) = true /\ named e.1 n.

Record grows (st st' : report_state) : Prop := {
  grows_bits : forall a m, testmask (pkg_bits st a) m = true -> testmask (pkg_bits st' a) m = true;
  grows_names : forall n m, testmask (name_bits st n) m = true -> testmask (name_bits st' n) m = true;
  grows_new : forall n e, e ∈ providers db n -> visited st' (pkg_addr e.1) -> visited st (pkg_addr e.1) \/ searched st' e.1;
  grows_follow : names_follow st -> names_follow st';
  grows_have : names_have st -> names_have st';
}.

Lemma provider_state_bits n m p : m ∈ bits -> provider_state n m p ∈ bits.
Proof. intros Hm. unfold provider_state. destruct (_ && _); [unfold bits; set_solver | done]. Qed.

Lemma found_mono st st' n : (forall a m, testmask (pkg_bits st a) m = true -> testmask (pkg_bits st' a) m = true) -> found st n -> found st' n.
Proof. intros Hb Hf e He Hm. by apply Hb, Hf. Qed.

Lemma searched_mono st st' p : (forall a m, testmask (pkg_bits st a) m = true -> testmask (pkg_bits st' a) m = true) -> searched st p -> searched st' p.
Proof. intros Hb Hs d Hd Hc. eapply found_mono; [done | by apply Hs]. Qed.

#[local] Instance grows_refl : Reflexive grows.
Proof. split; auto. Qed.
#[local] Instance grows_trans : Transitive grows.
Proof.
  intros st1 st2 st3 [A1 A2 A3 A4 A5] [B1 B2 B3 B4 B5]. split; [auto | auto | | auto | auto]. intros n e He Hv.
  destruct (B3 n e He Hv) as [Hv2|Hs]; [| by right]. destruct (A3 n e He Hv2) as [Hv1|Hs]; [by left |]. right. by eapply searched_mono.
Qed.

Lemma work_mono st st' : (forall a m, testmask (pkg_bits st a) m = true -> testmask (pkg_bits st' a) m = true) -> (work st' <= work st)%nat.
Proof. intros Hb. apply count_if_le. intros [a m] _. cbn. rewrite !negb_true_iff. specialize (Hb a m). destruct (testmask (pkg_bits st a) m); [by rewrite Hb | done]. Qed.

Lemma work_less st st' a m : (forall a m, testmask (pkg_bits st a) m = true -> testmask (pkg_bits st' a) m = true) -> a ∈ pkgs -> m ∈ bits ->
  testmask (pkg_bits st a) m = false -> testmask (pkg_bits st' a) m = true -> (work st' < work st)%nat.
Proof.
  intros Hb Ha Hm H0 H1. apply (count_if_lt _ _ _ (a, m)); cbn; [| apply list_elem_of_In, in_prod; by apply list_elem_of_In | by rewrite H0 | by rewrite H1].
  intros [b k] _. cbn. rewrite !negb_true_iff. specialize (Hb b k). destruct (testmask (pkg_bits st b) k); [by rewrite Hb | done].
Qed.

(** Loops over steps that grow. *)
Lemma each_opt_grows {A} (W : nat) (f : A -> report_state -> option report_state) (Q : A -> report_state -> Prop) l :
  (forall x st st', grows st st' -> Q x st -> Q x st') ->
  (forall x st, x ∈ l -> (work st < W)%nat -> exists st', f x st = Some st' /\ grows st st' /\ Q x st') ->
  forall st, (work st < W)%nat -> exists st', each_opt f l st = Some st' /\ grows st st' /\ forall x, x ∈ l -> Q x st'.
Proof.
  intros HQ Hf. induction l as [|x l IH]; intros st Hw; cbn [each_opt].
  { exists st. split_and!; [done | done |]. by intros x Hx%elem_of_nil. }
  destruct (Hf x st) as (st1 & E1 & G1 & Q1); [by left | done |]. rewrite E1. cbn.
  destruct IH with (st := st1) as (st2 & E2 & G2 & Q2); [intros y s Hy; apply Hf; by right | pose proof (work_mono _ _ (grows_bits _ _ G1)); lia |].
  exists st2. split_and!; [done | by etransitivity |]. intros y [->|Hy]%elem_of_cons; [by eapply HQ | by apply Q2].
Qed.

Section body.
Context (call : bytes -> Z -> report_state -> option report_state) (W : nat).
Hypothesis call_grows : forall n m st, m = STATE_PRESENT \/ m = STATE_INSTALLIF -> (work st < W)%nat ->
  exists st', call n m st = Some st' /\ grows st st' /\ (m = STATE_PRESENT -> found st' n).

Lemma deps_grow deps st : (work st < W)%nat ->
  exists st', er_discover_deps call deps st = Some st' /\ grows st st' /\ forall d, d ∈ deps -> apk_dep_conflict d = false -> found st' (dep_name d).
Proof.
  apply (each_opt_grows W _ (fun d st => apk_dep_conflict d = false -> found st (dep_name d))).
  - intros d s s' G Hf Hc. eapply found_mono; [apply G | by apply Hf].
  - intros d s _ Hw. destruct (apk_dep_conflict d); [by exists s |]. destruct (call_grows (dep_name d) STATE_PRESENT s) as (s' & E & G & Hf); [by left | done |].
    exists s'. split_and!; [done | done |]. intros _. by apply Hf.
Qed.

Lemma reverse_iif_grows name st : (work st < W)%nat -> exists st', er_discover_reverse_iif db marked call name st = Some st' /\ grows st st'.
Proof.
  intros Hw. unfold er_discover_reverse_iif.
  match goal with |- context [each_opt ?f ?l st] => destruct (each_opt_grows W f (fun _ _ => True) l) with (st := st) as (st' & E & G & _); [done | | done | by exists st'] end.
  intros name0 s _ Hs. match goal with |- context [each_opt ?f ?l s] => apply (each_opt_grows W f (fun _ _ => True) l) in Hs as (s' & E & G & _); [by exists s' | done |] end.
  intros e s1 _ H1. destruct (negb _); [by exists s1 |]. destruct (_ =? 0)%nat; [by exists s1 |]. destruct (install_if_ok s1 e.1); [| by exists s1].
  destruct (call_grows (pkg_name e.1) STATE_INSTALLIF s1) as (s2 & E2 & G2 & _); [by right | done |]. rewrite E2. cbn.
  destruct (each_opt_grows W (fun d => call (dep_name d) STATE_INSTALLIF) (fun _ _ => True) (pkg_provides e.1)) with (st := s2) as (s3 & E3 & G3 & _).
  - done.
  - intros d s3 _ H3. destruct (call_grows (dep_name d) STATE_INSTALLIF s3) as (s4 & E4 & G4 & _); [by right | done | by exists s4].
  - pose proof (work_mono _ _ (grows_bits _ _ G2)). lia.
  - exists s3. split_and!; [done | by etransitivity | done].
Qed.

(** The state is set on the package and on its names. *)
Definition enter (p : apk_package) (state : Z) (st : report_state) : report_state :=
  each (fun d => name_or (dep_name d) (provides_state state d)) (pkg_provides p)
    (name_or (pkg_name p) state (pkg_or (pkg_addr p) state st)).

Lemma name_or_mono n x k m st : testmask (name_bits st k) m = true -> testmask (name_bits (name_or n x st) k) m = true.
Proof. rewrite name_or_bits. destruct (decide (k = n)) as [->|]; [| done]. rewrite testmask_lor. by intros ->. Qed.

Lemma provides_spec (g : apk_dependency -> Z) l st : let st' := each (fun d => name_or (dep_name d) (g d)) l st in
  er_pkgs st' = er_pkgs st /\ (forall k m, testmask (name_bits st k) m = true -> testmask (name_bits st' k) m = true) /\
  (forall d, d ∈ l -> testmask (g d) STATE_PRESENT = true -> testmask (name_bits st' (dep_name d)) STATE_PRESENT = true) /\
  forall k m, testmask (name_bits st' k) m = true -> testmask (name_bits st k) m = true \/ exists d, d ∈ l /\ dep_name d = k.
Proof.
  revert st. induction l as [|x l IH]; intros st; cbn; [split_and!; [done | done | by intros d Hd%elem_of_nil | by left] |].
  destruct (IH (name_or (dep_name x) (g x) st)) as (I1 & I2 & I3 & I4). split_and!; [done | intros k m Hk; by apply I2, name_or_mono | |].
  - intros d [->|Hd]%elem_of_cons Hg; [| by apply I3]. apply I2. rewrite name_or_bits, decide_True by done. by rewrite testmask_lor, Hg, orb_true_r.
  - intros k m Hk. destruct (I4 k m Hk) as [Hk'|(d & Hd & <-)]; [| right; exists d; by split; [right |]].
    rewrite name_or_bits in Hk'. destruct (decide (k = dep_name x)) as [->|]; [right; exists x; by split; [left |] | by left].
Qed.

Lemma enter_spec n e state st : e ∈ providers db n -> state ∈ bits -> let st' := enter e.1 state st in
  (forall b, pkg_bits st' b = if decide (b = pkg_addr e.1) then Z.lor (pkg_bits st b) state else pkg_bits st b) /\
  (forall k m, testmask (name_bits st k) m = true -> testmask (name_bits st' k) m = true) /\ (names_follow st -> names_follow st') /\
  (marked (pkg_addr e.1) = true -> names_have st -> names_have st').
Proof.
  intros He Hst st'. unfold enter in st'.
  set (st1 := name_or (pkg_name e.1) state (pkg_or (pkg_addr e.1) state st)) in st'.
  destruct (provides_spec (provides_state state) (pkg_provides e.1) st1) as (P1 & P2 & P3 & P4). fold st' in P1, P2, P3, P4.
  assert (forall b, pkg_bits st' b = if decide (b = pkg_addr e.1) then Z.lor (pkg_bits st b) state else pkg_bits st b) as Hb.
  { intros b. transitivity (pkg_bits (pkg_or (pkg_addr e.1) state st) b); [unfold pkg_bits; by rewrite P1 |].
    rewrite pkg_or_bits. by destruct (decide (b = pkg_addr e.1)) as [->|]. }
  assert (forall k m, testmask (name_bits st k) m = true -> testmask (name_bits st' k) m = true) as Hn by (intros k m Hk; apply P2; by apply name_or_mono).
  split_and!; [done | done | |].
  2:{ intros Hme Hh k m Hk. destruct (P4 k m Hk) as [Hk'|Hd]; [| exists n, e; split_and!; [done | done | by right]].
      unfold st1 in Hk'. rewrite name_or_bits in Hk'. destruct (decide (k = pkg_name e.1)) as [->|]; [exists n, e; split_and!; [done | done | by left] |]. by apply (Hh k m). }
  intros Hf k f Hkf. rewrite Hb. destruct (decide (pkg_addr f.1 = pkg_addr e.1)) as [Heq|]; [| intros H; by apply Hn, (Hf k f)].
  rewrite testmask_lor, orb_true_iff. intros [H|H]; [by apply Hn, (Hf k f) |].
  assert (state = STATE_PRESENT) as ->.
  { revert H. unfold bits in Hst. rewrite !elem_of_cons, elem_of_nil in Hst. by destruct Hst as [->|[->|[->|[]]]]. }
  pose proof (one_package k n f e Hkf He Heq) as Hfe. destruct (provider_names k f Hkf) as [->|(d & Hd & <-)]; rewrite Hfe in *.
  - apply P2. unfold st1. rewrite name_or_bits, decide_True by done. by rewrite testmask_lor, H, orb_true_r.
  - apply P3; [done |]. done.
Qed.

Lemma provider_grows n m e st : e ∈ providers db n -> m = STATE_PRESENT \/ m = STATE_INSTALLIF -> (work st < S W)%nat ->
  exists st', discover_provider db marked call n m e st = Some st' /\ grows st st' /\
    (marked (pkg_addr e.1) = true -> testmask (pkg_bits st' (pkg_addr e.1)) (provider_state n m e.1) = true).
Proof.
  intros He Hm Hw. unfold discover_provider. destruct (marked (pkg_addr e.1)) eqn:Hme; cbn [negb]; [| by exists st].
  set (state := provider_state n m e.1). assert (state ∈ bits) as Hst by (apply provider_state_bits; unfold bits; destruct Hm as [->| ->]; set_solver).
  destruct (testmask (pkg_bits st (pkg_addr e.1)) state) eqn:Et; [by exists st |].
  fold (enter e.1 state st). set (st1 := enter e.1 state st). destruct (enter_spec n e state st He Hst) as (Hb & Hn & Hf & Hh). fold st1 in Hb, Hn, Hf, Hh.
  assert (forall a k, testmask (pkg_bits st a) k = true -> testmask (pkg_bits st1 a) k = true) as Hb1.
  { intros a k Hk. rewrite Hb. destruct (decide _); [| done]. by rewrite testmask_lor, Hk. }
  assert (testmask (pkg_bits st1 (pkg_addr e.1)) state = true) as Hset.
  { rewrite Hb, decide_True by done. by rewrite testmask_lor, testmask_self, orb_true_r. }
  assert (work st1 < W)%nat as Hw1 by (pose proof (work_less st st1 _ _ Hb1 (all_known n e He) Hst Et Hset); lia).
  destruct (deps_grow (pkg_depends e.1) st1 Hw1) as (st2 & E2 & G2 & Hs2). rewrite E2. cbn.
  assert (work st2 < W)%nat as Hw2 by (pose proof (work_mono _ _ (grows_bits _ _ G2)); lia).
  assert (exists st3, (if (state =? STATE_PRESENT) || (state =? STATE_INSTALLIF) then
      st ← er_discover_reverse_iif db marked call (pkg_name e.1) st2; each_opt (fun d => er_discover_reverse_iif db marked call (dep_name d)) (pkg_provides e.1) st
    else Some st2) = Some st3 /\ grows st2 st3) as (st3 & E3 & G3).
  { destruct (_ || _); [| by exists st2]. destruct (reverse_iif_grows (pkg_name e.1) st2 Hw2) as (s & Es & Gs). rewrite Es. cbn.
    destruct (each_opt_grows W (fun d => er_discover_reverse_iif db marked call (dep_name d)) (fun _ _ => True) (pkg_provides e.1)) with (st := s) as (s' & E' & G' & _); [done | | |].
    - intros d x _ Hx. destruct (reverse_iif_grows (dep_name d) x Hx) as (x' & Ex & Gx). by exists x'.
    - pose proof (work_mono _ _ (grows_bits _ _ Gs)). lia.
    - exists s'. split; [done | by etransitivity]. }
  exists st3. split; [done |]. pose proof (transitivity G2 G3) as G. split.
  - split; [intros a k Hk; by apply G, Hb1 | intros k x Hk; by apply G, Hn | | intros H; by apply G, Hf | intros H; by apply G, Hh].
    intros k f Hkf Hv. destruct (grows_new _ _ G k f Hkf Hv) as [(x & Hx & Hv1)|]; [| by right].
    rewrite Hb in Hv1. destruct (decide (pkg_addr f.1 = pkg_addr e.1)) as [Heq|]; [| left; by exists x].
    right. rewrite (one_package k n f e Hkf He Heq). eapply searched_mono; [apply G3 |]. exact Hs2.
  - intros _. by apply G.
Qed.
End body.

(** The recursion with more fuel than there is work. *)
Lemma discover_grows fuel n m st : m = STATE_PRESENT \/ m = STATE_INSTALLIF -> (work st < fuel)%nat ->
  exists st', er_discover_name db marked fuel n m st = Some st' /\ grows st st' /\ (m = STATE_PRESENT -> found st' n).
Proof.
  revert n m st. induction fuel as [|fuel IH]; intros n m st Hm Hw; [lia |]. cbn [er_discover_name].
  destruct (each_opt_grows (S fuel) (discover_provider db marked (er_discover_name db marked fuel) n m)
    (fun e st => marked (pkg_addr e.1) = true -> testmask (pkg_bits st (pkg_addr e.1)) (provider_state n m e.1) = true) (providers db n)) with (st := st) as (st' & E & G & Q).
  - intros e s s' G Hq Hme. by apply G, Hq.
  - intros e s He Hs. by apply (provider_grows _ fuel IH).
  - done.
  - exists st'. split_and!; [done | done |]. intros -> e He Hme. by apply Q.
Qed.

(** ** What is reported *)

(** The names that the world and the chosen packages it leads to need. *)
Inductive required (world : list apk_dependency) : bytes -> Prop :=
| required_world d : d ∈ world -> apk_dep_conflict d = false -> required world (dep_name d)
| required_by n e d : required world n -> e ∈ providers db n -> marked (pkg_addr e.1) = true ->
    d ∈ pkg_depends e.1 -> apk_dep_conflict d = false -> required world (dep_name d).

Lemma search_complete fuel world : (3 * length pkgs < fuel)%nat ->
  exists st, er_discover_deps (er_discover_name db marked fuel) world (mk_report ∅ ∅) = Some st /\
    names_follow st /\ names_have st /\ forall n, required world n -> found st n.
Proof.
  intros Hf. set (st0 := mk_report ∅ ∅). assert (work st0 < fuel)%nat as Hw.
  { eapply Nat.le_lt_trans; [| exact Hf]. unfold work, count_if. etransitivity; [apply filter_length_le |]. rewrite length_prod. cbn. lia. }
  destruct (deps_grow (er_discover_name db marked fuel) fuel (discover_grows fuel) world st0 Hw) as (st & E & G & Hd).
  exists st. split_and!; [done | apply G | apply G |].
  - intros n e _. unfold pkg_bits. cbn. by rewrite lookup_empty.
  - intros n m. unfold name_bits. cbn. by rewrite lookup_empty.
  - induction 1 as [d Hin Hc|n e d Hn IH He Hme Hin Hc]; [by apply Hd |].
    destruct (grows_new _ _ G n e He) as [(m & _ & Hv)|Hs].
    + exists (provider_state n STATE_PRESENT e.1). split; [apply provider_state_bits; unfold bits; set_solver | by apply IH].
    + unfold pkg_bits in Hv. cbn in Hv. by rewrite lookup_empty in Hv.
    + by apply Hs.
Qed.
End facts.

(** A name that is reported was not there; one that is not reported was there or was reported before. *)
Record analyzed (st0 st : report_state) (missing : list bytes) : Prop := {
  an_nodup : NoDup missing;
  an_names : forall n m, testmask (name_bits st0 n) m = true -> testmask (name_bits st n) m = true;
  an_missing : forall n, n ∈ missing -> testmask (name_bits st0 n) STATE_PRESENT = false;
  an_marked : forall n, n ∈ missing -> testmask (name_bits st n) STATE_MISSING = true;
  an_only : forall n m, testmask (name_bits st n) m = true -> testmask (name_bits st0 n) m = true \/ n ∈ missing;
}.

Lemma analyze_step st0 st missing deps : analyzed st0 st missing ->
  let s := analyze_deps deps (st, missing) in analyzed st0 s.1 s.2 /\ (forall n, n ∈ missing -> n ∈ s.2) /\
  forall d, d ∈ deps -> apk_dep_conflict d = false -> (forall m, testmask (name_bits st0 (dep_name d)) m = false) -> dep_name d ∈ s.2.
Proof.
  revert st missing. induction deps as [|d deps IH]; intros st missing Ha; [split_and!; [done | done | by intros d Hd%elem_of_nil] |].
  unfold analyze_deps. cbn [each]. fold (analyze_deps deps).
  set (mask := Z.lor STATE_INSTALLIF (Z.lor STATE_PRESENT STATE_MISSING)).
  assert (exists st1 missing1, (if apk_dep_conflict d then (st, missing) else if testmask (name_bits st (dep_name d)) mask then (st, missing)
      else (name_or (dep_name d) STATE_MISSING st, missing ++ [dep_name d])) = (st1, missing1) /\ analyzed st0 st1 missing1 /\ (forall n, n ∈ missing -> n ∈ missing1) /\
      (apk_dep_conflict d = false -> (forall m, testmask (name_bits st0 (dep_name d)) m = false) -> dep_name d ∈ missing1)) as (st1 & missing1 & E & A1 & M1 & D1).
  { destruct (apk_dep_conflict d); [by exists st, missing |]. destruct (testmask (name_bits st (dep_name d)) mask) eqn:Et.
    - exists st, missing. split_and!; [done | done | done |]. intros _ H0. destruct (an_only _ _ _ Ha _ _ Et) as [H|H]; [by rewrite H0 in H | done].
    - exists (name_or (dep_name d) STATE_MISSING st), (missing ++ [dep_name d]). split_and!; [done | | set_solver | set_solver].
      destruct Ha as [A1 A2 A3 A4 A5]. assert (forall m, m ∈ [STATE_PRESENT; STATE_MISSING] -> testmask (name_bits st (dep_name d)) m = false) as Hclear.
      { intros m Hm. revert Et. unfold testmask, mask. rewrite !Z.land_lor_distr_r, !negb_false_iff, !Z.eqb_eq, !Z.lor_eq_0_iff. rewrite !elem_of_cons, elem_of_nil in Hm.
        intros (H1 & H2 & H3). by destruct Hm as [->|[->|[]]]. }
      assert (dep_name d ∉ missing) as Hnew by (intros H; apply A4 in H; rewrite Hclear in H by set_solver; done).
      split.
      + apply NoDup_app. split_and!; [done | | apply NoDup_singleton]. intros x Hx ->%list_elem_of_singleton. done.
      + intros n m Hn. by apply name_or_mono, A2.
      + intros n [Hn| ->%list_elem_of_singleton]%elem_of_app; [by apply A3 |]. destruct (testmask (name_bits st0 (dep_name d)) STATE_PRESENT) eqn:H; [| done].
        apply A2 in H. by rewrite Hclear in H by set_solver.
      + intros n [Hn| ->%list_elem_of_singleton]%elem_of_app; [by apply name_or_mono, A4 |]. rewrite name_or_bits, decide_True by done. by rewrite testmask_lor, orb_true_r.
      + intros n m. rewrite name_or_bits. destruct (decide (n = dep_name d)) as [->|]; [right; set_solver |]. intros H. destruct (A5 n m H); [by left | right; set_solver]. }
  rewrite E. destruct (IH st1 missing1 A1) as (I1 & I2 & I3). split_and!; [done | intros n Hn; by apply I2, M1 |].
  intros x [->|Hx]%elem_of_cons Hc H0; [by apply I2, D1 | by apply I3].
Qed.

(** What the report reads of the database. *)
Record report_db (db : solver_db) (pkgs : list nat) : Prop := {
  rd_known : forall n e, e ∈ providers db n -> pkg_addr e.1 ∈ pkgs;
  rd_one : forall n m e f, e ∈ providers db n -> f ∈ providers db m -> pkg_addr e.1 = pkg_addr f.1 -> e.1 = f.1;
  rd_names : forall n e, e ∈ providers db n -> named e.1 n;
}.

(** C32: The report of the solver's errors ends, however the packages depend on each other, within three
    visits of every package, and names no name twice.  A name that the world or a chosen package it leads
    to needs is not reported as missing when a chosen package has this name, or provides it with a version
    or a priority; and a name of the world that no chosen package has is reported. *)
Theorem error_report_exact db pkgs changes world fuel : report_db db pkgs -> (3 * length pkgs < fuel)%nat ->
  exists missing, apk_solver_print_errors fuel db changes world = Some missing /\ NoDup missing /\
    (forall n e, required db (change_marks changes) world n -> e ∈ providers db n -> change_marks changes (pkg_addr e.1) = true ->
       provider_state n STATE_PRESENT e.1 = STATE_PRESENT -> n ∉ missing) /\
    (forall d, d ∈ world -> apk_dep_conflict d = false ->
       (forall k e, e ∈ providers db k -> change_marks changes (pkg_addr e.1) = true -> ~ named e.1 (dep_name d)) -> dep_name d ∈ missing).
Proof.
  intros [H1 H2 H3] Hf. destruct (search_complete db (change_marks changes) pkgs H1 H2 H3 fuel world Hf) as (st & E & Hfol & Hhave & Hreq).
  unfold apk_solver_print_errors. rewrite E. cbn.
  assert (analyzed st st []) as A0 by (split; [constructor | done | by intros n Hn%elem_of_nil | by intros n Hn%elem_of_nil | by left]).
  destruct (analyze_step st st [] world A0) as (A1 & _ & D1).
  set (s1 := analyze_deps world (st, [])) in *. set (final := each _ changes s1).
  assert (analyzed st final.1 final.2 /\ forall n, n ∈ s1.2 -> n ∈ final.2) as [A2 M2].
  { apply (each_prefix_inv (fun _ s => analyzed st s.1 s.2 /\ forall n, n ∈ s1.2 -> n ∈ s.2)); [done |]. intros dn c [st2 m2] _ [A M].
    destruct (ch_new_pkg c) as [p|]; [| done]. destruct (analyze_step st st2 m2 (pkg_depends p) A) as (A' & M' & _). split; [done |]. intros n Hn. by apply M', M. }
  exists final.2. split_and!; [done | apply A2 | |].
  - intros n e Hn He Hme Hp Hin. apply (an_missing _ _ _ A2) in Hin. specialize (Hreq n Hn e He Hme). rewrite Hp in Hreq. by rewrite (Hfol n e He Hreq) in Hin.
  - intros d Hd Hc Hno. apply M2, D1; [done | done |]. intros m. destruct (testmask (name_bits st (dep_name d)) m) eqn:Ed; [| done].
    destruct (Hhave _ _ Ed) as (k & e & He & Hme & Hn). by destruct (Hno k e He Hme).
Qed.

(** Two chosen packages that depend on each other; the first also needs a name that does not exist, and so
    does the world. *)
Definition er_pkg (a : nat) (name : bytes) (depends provides : list apk_dependency) : apk_package :=
  mk_pkg a name (lit "1") depends [] provides [] [] [] [] [] [] [] [] [] 4096 1000 0 1 0 0 false false 0 0 [] None.
Definition er_dep (name : bytes) : apk_dependency := mk_dep name [] 7 false 0 0.
Definition er_a : apk_package := er_pkg 0 (lit "a") [er_dep (lit "b"); er_dep (lit "nothing")] [].
Definition er_b : apk_package := er_pkg 1 (lit "b") [er_dep (lit "a")] [].
Definition er_db : solver_db :=
  mk_solver_db (fun n => mk_name_info (if bool_decide (n = lit "a") then [(er_a, lit "1")] else if bool_decide (n = lit "b") then [(er_b, lit "1")] else []) [] [])
    [] [] 0 0 (fun _ => false) false false.
Definition er_changes : list apk_change := [mk_change None (Some er_a) 0 0 false; mk_change None (Some er_b) 0 0 false].

Lemma er_providers n e : e ∈ providers er_db n -> (n = lit "a" /\ e = (er_a, lit "1")) \/ (n = lit "b" /\ e = (er_b, lit "1")).
Proof.
  unfold providers. cbn [er_db sdb_name ni_providers]. destruct (bool_decide_reflect (n = lit "a")) as [->|]; [intros ->%list_elem_of_singleton; by left |].
  destruct (bool_decide_reflect (n = lit "b")) as [->|]; [intros ->%list_elem_of_singleton; by right | by intros ?%elem_of_nil].
Qed.

Lemma er_report_db : report_db er_db [0%nat; 1%nat].
Proof.
  split.
  - intros n e [[-> ->]|[-> ->]]%er_providers; set_solver.
  - intros n m e f [[-> ->]|[-> ->]]%er_providers [[-> ->]|[-> ->]]%er_providers; done.
  - intros n e [[-> ->]|[-> ->]]%er_providers; by left.
Qed.

Example er_reported : apk_solver_print_errors 7 er_db er_changes [er_dep (lit "a"); er_dep (lit "c")] = Some [lit "c"; lit "nothing"].
Proof. by vm_compute. Qed.

Lemma error_report_exact_witness : exists missing, apk_solver_print_errors 7 er_db er_changes [er_dep (lit "a"); er_dep (lit "c")] = Some missing /\
  lit "b" ∉ missing /\ lit "c" ∈ missing.
Proof.
  destruct (error_report_exact er_db [0%nat; 1%nat] er_changes [er_dep (lit "a"); er_dep (lit "c")] 7 er_report_db ltac:(cbn; lia)) as (missing & E & _ & H1 & H2).
  exists missing. split; [exact E |]. split.
  - apply (H1 (lit "b") (er_b, lit "1")); [| left | reflexivity | reflexivity].
    apply (required_by er_db _ _ (lit "a") (er_a, lit "1") (er_dep (lit "b"))); [apply (required_world er_db _ _ (er_dep (lit "a"))); [left | reflexivity] | left | reflexivity | left | reflexivity].
  - apply (H2 (er_dep (lit "c"))); [right; left | reflexivity |]. intros k e [[-> ->]|[-> ->]]%er_providers _ [Hn|(d & Hd & _)]; try discriminate Hn; by apply elem_of_nil in Hd.
Defined.
