(* ===== verification/Tar.v ===== *)
(** * Tar archives (tar.c)

    Packages of the older format, their indexes and the caches of scripts are tar archives.  A
    stream is the bytes that are left of it, as the buffered streams of io.c deliver them; memory
    is always available.  Strings in buffers that can be moved are pointers: to use one after its
    buffer was moved is a [Fault]. *)

From S2P Require Import Prelude Blob BlobCodec Digest Hash Dep Package PackageRules Path Dirs Catalog InstallFile Stream.

(** ** Headers *)

Record tar_header := mk_tar {
  th_name : bytes; th_mode : bytes; th_uid : bytes; th_gid : bytes; th_size : bytes; th_mtime : bytes; th_chksum : bytes;
  th_typeflag : Z; th_linkname : bytes; th_magic : bytes; th_uname : bytes; th_gname : bytes; th_devmajor : bytes; th_devminor : bytes;
  th_prefix : bytes; th_padding : bytes;
}.

(** The structure as 512 bytes. *)
Definition tar_bytes (h : tar_header) : bytes :=
  th_name h ++ th_mode h ++ th_uid h ++ th_gid h ++ th_size h ++ th_mtime h ++ th_chksum h ++ [th_typeflag h] ++ th_linkname h ++
  th_magic h ++ th_uname h ++ th_gname h ++ th_devmajor h ++ th_devminor h ++ th_prefix h ++ th_padding h.

Definition field (off len : nat) (b : bytes) : bytes := take len (drop off b).
Definition tar_of_bytes (b : bytes) : tar_header :=
  mk_tar (field 0 100 b) (field 100 8 b) (field 108 8 b) (field 116 8 b) (field 124 12 b) (field 136 12 b) (field 148 8 b)
    (nth 156 b 0) (field 157 100 b) (field 257 8 b) (field 265 32 b) (field 297 32 b) (field 329 8 b) (field 337 8 b) (field 345 155 b) (field 500 12 b).

(** The blanks and zeroes after a number. *)
Fixpoint skip_blanks (b : bytes) : bytes :=
  match b with
  | x :: t => if (x =? 0) || (x =? 0x20) then skip_blanks t else b
  | [] => []
  end.

(** The value, and whether the field is well formed. *)
Definition get_octal (s : bytes) : Z * bool :=
  let '(val, b) := apk_blob_pull_uint (Some s) 8 in
  (val, (length (skip_blanks (bdata b)) =? 0)%nat).

(** The loop that fills the field from its end; the value that is left does not fit. *)
Fixpoint put_octal_loop (n : nat) (value : Z) (acc : bytes) : bytes :=
  match n with
  | O => acc
  | S n => if value =? 0 then replicate (S n) (chr "0") ++ acc
           else put_octal_loop n (value / 8) (chr "0" + value mod 8 :: acc)
  end.

Definition put_octal (l : nat) (value : Z) (has_zero : bool) : bytes :=
  if has_zero then put_octal_loop (l - 1) (u64 value) [0] else put_octal_loop l (u64 value) [].

(** ** Strings *)

(** [strnlen (s, sizeof s)] bytes of a field. *)
Definition tar_blob (s : bytes) : bytes := cstr_prefix s.

(** The C string at an offset of a buffer. *)
Definition cstr_at (buf : bytes) (off : nat) : outcome bytes :=
  if bool_decide (0 ∈ drop off buf) then Ok (cstr_prefix (drop off buf)) else Fault.

(** Where the name of an entry is: in the header, in the joined name, in the long name, or in the
    extended header, whose buffer is at its [gen]-th place. *)
Inductive name_ptr := In_buf | In_filename | In_longname | In_pax (gen off : nat).
Inductive link_ptr := Link_null | Link_buf | Link_pax (gen off : nat).

Record tar_state := mk_ts {
  ts_is : bytes;
  ts_end : bool;
  ts_buf : tar_header;
  ts_filename : bytes;
  ts_longname : bytes;
  ts_pax : bytes;
  ts_pax_gen : nat;
  ts_paxlen : nat;
  ts_name : name_ptr;
}.

Definition eta_ts (s : tar_state) : tar_state :=
  mk_ts (ts_is s) (ts_end s) (ts_buf s) (ts_filename s) (ts_longname s) (ts_pax s) (ts_pax_gen s) (ts_paxlen s) (ts_name s).
Definition set_ts_is v (s : tar_state) : tar_state := ltac:(record_set eta_ts ts_is s v).
Definition set_ts_end v (s : tar_state) : tar_state := ltac:(record_set eta_ts ts_end s v).
Definition set_ts_buf v (s : tar_state) : tar_state := ltac:(record_set eta_ts ts_buf s v).
Definition set_ts_filename v (s : tar_state) : tar_state := ltac:(record_set eta_ts ts_filename s v).
Definition set_ts_longname v (s : tar_state) : tar_state := ltac:(record_set eta_ts ts_longname s v).
Definition set_ts_pax v (s : tar_state) : tar_state := ltac:(record_set eta_ts ts_pax s v).
Definition set_ts_pax_gen v (s : tar_state) : tar_state := ltac:(record_set eta_ts ts_pax_gen s v).
Definition set_ts_paxlen v (s : tar_state) : tar_state := ltac:(record_set eta_ts ts_paxlen s v).
Definition set_ts_name v (s : tar_state) : tar_state := ltac:(record_set eta_ts ts_name s v).

Definition pax_string (gen off : nat) (st : tar_state) : outcome bytes :=
  if (gen =? ts_pax_gen st)%nat then cstr_at (ts_pax st) off else Fault.

Definition name_string (p : name_ptr) (st : tar_state) : outcome bytes :=
  match p with
  | In_buf => Ok (cstr_prefix (th_name (ts_buf st)))
  | In_filename => Ok (ts_filename st)
  | In_longname => Ok (cstr_prefix (ts_longname st))
  | In_pax gen off => pax_string gen off st
  end.

Definition link_string (p : link_ptr) (st : tar_state) : outcome blob :=
  match p with
  | Link_null => Ok None
  | Link_buf => Ok (Some (cstr_prefix (th_linkname (ts_buf st))))
  | Link_pax gen off => let! s := pax_string gen off st in Ok (Some s)
  end.

Section tar.
(** What fresh memory holds, the digest SHA1, the tables of users and groups. *)
Context (fresh : nat -> bytes) (sha1 : bytes -> bytes) (resolve_uid resolve_gid : bytes -> Z -> Z).

(** ** Extended headers *)

(** What an extended header says of an entry. *)
Record pax_info := mk_pax { px_name : option nat; px_link : option nat; px_xattrs : list (bytes * bytes); px_digest : apk_digest }.
Definition digest0 : apk_digest := mk_digest APK_DIGEST_NONE 0 (replicate 64 0).

Definition pax0 : pax_info := mk_pax None None [] digest0.

Definition pax_field (name value : bytes) (voff : nat) (px : pax_info) : outcome pax_info :=
  if apk_blob_compare name (lit "path") =? 0 then Ok (mk_pax (Some voff) (px_link px) (px_xattrs px) (px_digest px))
  else if apk_blob_compare name (lit "linkpath") =? 0 then Ok (mk_pax (px_name px) (Some voff) (px_xattrs px) (px_digest px))
  else
    let '(is_xattr, rest) := apk_blob_pull_blob_match (Some name) (lit "SCHILY.xattr.") in
    if is_xattr then Ok (mk_pax (px_name px) (px_link px) (px_xattrs px ++ [(cstr_prefix (bdata rest), value)]) (px_digest px))
    else
      let '(is_checksum, rest) := apk_blob_pull_blob_match (Some name) (lit "APK-TOOLS.checksum.") in
      if is_checksum then
        let alg := if apk_blob_compare (bdata rest) (lit "SHA1") =? 0 then APK_DIGEST_SHA1 else APK_DIGEST_NONE in
        if d_alg (px_digest px) <? alg then
          let d := apk_digest_set (px_digest px) alg in
          let! (value, dst) := apk_blob_pull_hexdump (Some value) (take (d_len d) (d_data d)) in
          let d := digest_store d 0 dst in
          Ok (mk_pax (px_name px) (px_link px) (px_xattrs px) (match value with None => apk_digest_reset d | Some _ => d end))
        else Ok px
      else Ok px.

(** The names of extended attributes end where the [=] was. *)
Definition ends_name (name : bytes) : bool := (apk_blob_pull_blob_match (Some name) (lit "SCHILY.xattr.")).1 &&
  negb (apk_blob_compare name (lit "path") =? 0) && negb (apk_blob_compare name (lit "linkpath") =? 0).

(** [hdr] is what is left of the first [paxlen] bytes of the buffer. *)
Fixpoint handle_extended_header (fuel paxlen : nat) (hdr : bytes) (buf : bytes) (px : pax_info) : option (outcome (bytes * pax_info)) :=
  match fuel with
  | O => None
  | S fuel =>
      let '(len, h) := apk_blob_pull_uint (Some hdr) 10 in
      let len := u32 len in
      match apk_blob_pull_char h (chr " ") with
      | None => Some (Ok (buf, px))
      | Some h =>
          match apk_blob_split h (lit "=") with
          | None => Some (Ok (buf, px))
          | Some (name, h) =>
              let used := Z.of_nat (length hdr - length h) in
              if len <? used + 1 then Some (Ok (buf, px))
              else
                let len := Z.to_nat (len - (used + 1)) in
                if (length h <? len)%nat then Some (Ok (buf, px))
                else
                  let value := take len h in
                  let voff := (paxlen - length h)%nat in
                  match apk_blob_pull_char (Some (drop len h)) 10 with
                  | None => Some (Ok (buf, px))
                  | Some hdr =>
                      let buf := <[(voff + len)%nat := 0]> buf in
                      let buf := if ends_name name then <[(voff - 1)%nat := 0]> buf else buf in
                      match pax_field name value voff px with
                      | Fault => Some Fault
                      | Ok px => handle_extended_header fuel paxlen hdr buf px
                      end
                  end
          end
      end
  end.

Definition cmp_xattr (a b : bytes * bytes) : Z := strcmp (fst a) (fst b).

(** [hash_len_data]: the length in network order, then the data. *)
Fixpoint be_bytes (n : nat) (x : Z) : bytes :=
  match n with O => [] | S n => be_bytes n (x / 256) ++ [x mod 256] end.
Definition hash_len_data (data : bytes) : bytes := be_bytes 4 (u32 (Z.of_nat (length data))) ++ data.

Definition apk_fileinfo_hash_xattr (xattrs : list (bytes * bytes)) : apk_digest :=
  match xattrs with
  | [] => digest0
  | _ => digest_store (apk_digest_set digest0 APK_DIGEST_SHA1) 0
           (sha1 (concat ((fun x => hash_len_data (fst x) ++ hash_len_data (snd x)) <$> qsort cmp_xattr xattrs)))
  end.

(** ** Reading *)

(** [makedev] of the C library. *)
Definition makedev (major minor : Z) : Z :=
  Z.lor (Z.lor (Z.shiftl (Z.land major 0xfffff000) 32) (Z.shiftl (Z.land major 0xfff) 8))
        (Z.lor (Z.shiftl (Z.land minor 0xffffff00) 12) (Z.land minor 0xff)).

(** [blob_realloc] of the buffer of the extended header. *)
Definition pax_realloc (newsize : nat) (st : tar_state) : tar_state :=
  if (newsize <=? length (ts_pax st))%nat then st
  else set_ts_pax_gen (S (ts_pax_gen st)) (set_ts_pax (take newsize (ts_pax st ++ fresh (newsize - length (ts_pax st)))) st).

(** Rounded up to whole records. *)
Definition records (size : nat) : nat := ((size + 511) / 512 * 512)%nat.

(** The type of the file of an entry, 0 when the entry is none. *)
Definition type_of_flag (typeflag : Z) : Z :=
  if (typeflag =? chr "0") || (typeflag =? chr "7") || (typeflag =? chr "1") then S_IFREG
  else if typeflag =? chr "2" then S_IFLNK
  else if typeflag =? chr "3" then S_IFCHR
  else if typeflag =? chr "4" then S_IFBLK
  else if typeflag =? chr "5" then S_IFDIR
  else if typeflag =? chr "6" then S_IFIFO
  else 0.

Definition too_long (s : bytes) : bool := (PATH_MAX - 10 <=? Nat.min (length s) PATH_MAX)%nat.

Context {C : Type} (parser : C -> apk_file_info -> bytes -> Z * C).

(** One round of the loop: on to the next header, or the end with a result. *)
Inductive step := Next (st : tar_state) (c : C) | Stop (r : Z) (st : tar_state) (c : C).

(** The header is in [ts_buf]; the numbers of it are well formed.  The number of rounds is that of
    [handle_extended_header]: [None] when it has too few. *)
Definition tar_entry (size uid gid mode mtime dev : Z) (st : tar_state) (c : C) : option (outcome step) :=
  let buf := ts_buf st in
  let flag := th_typeflag buf in
  let st :=
    if negb (nth 0 (th_prefix buf) 0 =? 0) && negb (flag =? chr "x") && negb (flag =? chr "g")
    then set_ts_name In_filename (set_ts_filename (cstr_prefix (th_prefix buf) ++ lit "/" ++ cstr_prefix (th_name buf)) st) else st in
  if SSIZE_MAX - 512 <=? size then Some (Ok (Stop (- APKE_EOF) st c))
  else
    let n := Z.to_nat size in
    handled ← (
      if (ts_paxlen st =? 0)%nat then Some (Ok (ts_pax st, pax0))
      else handle_extended_header (S (ts_paxlen st)) (ts_paxlen st) (take (ts_paxlen st) (ts_pax st)) (ts_pax st) pax0);
    Some (
    let! (pax, px) := handled in
    let st := set_ts_pax pax st in
    let st := match px_name px with Some off => set_ts_name (In_pax (ts_pax_gen st) off) st | None => st end in
    let link := match px_link px with
                | Some off => Link_pax (ts_pax_gen st) off
                | None => if (flag =? chr "1") || (flag =? chr "2") then Link_buf else Link_null
                end in
    let toskip := records n in
    (* the extensions that are read here *)
    let '(r, toskip, st) :=
      if flag =? chr "L" then
        if (length (ts_is st) <? n)%nat then (- APKE_EOF, toskip, set_ts_is [] st)
        else (0, (toskip - n)%nat, set_ts_name In_longname (set_ts_longname (take n (ts_is st) ++ [0]) (set_ts_is (drop n (ts_is st)) st)))
      else if flag =? chr "x" then
        let st := pax_realloc (records n) (set_ts_paxlen n st) in
        if (length (ts_is st) <? n)%nat then (- APKE_EOF, toskip, set_ts_is [] st)
        else (0, (toskip - n)%nat, set_ts_pax (take n (ts_is st) ++ drop n (ts_pax st)) (set_ts_is (drop n (ts_is st)) st))
      else (0, toskip, st) in
    if r <? 0 then Ok (Stop r st c)
    else
      let! name := name_string (ts_name st) st in
      let! link_target := link_string link st in
      if too_long name || match link_target with Some t => too_long t | None => false end then Ok (Stop (- ENAMETOOLONG) st c)
      else
        let type := type_of_flag flag in
        let '(r, toskip, st, c) :=
          if type =? 0 then (0, toskip, st, c)
          else
            let entry := mk_ae name link_target (Z.lor mode type) uid gid size mtime dev (px_digest px)
                           (if (ts_paxlen st =? 0)%nat then digest0 else apk_fileinfo_hash_xattr (px_xattrs px)) (px_xattrs px) in
            let '(r, c) := parser c entry (take n (ts_is st)) in
            if negb (r =? 0) then (r, toskip, st, c)
            else (0, (toskip - n)%nat, set_ts_paxlen 0 (set_ts_name In_buf (set_ts_is (drop n (ts_is st)) st)), c) in
        if negb (r =? 0) then Ok (Stop (if 0 <=? r then - APKE_EOF else r) st c)
        else if (length (ts_is st) <? toskip)%nat then Ok (Stop (- APKE_EOF) (set_ts_is [] st) c)
        else Ok (Next (set_ts_is (drop toskip (ts_is st)) st) c)).

Definition tar_header_entry (st : tar_state) (c : C) : option (outcome step) :=
  let buf := ts_buf st in
  if negb (bool_decide (take 5 (th_magic buf) = lit "ustar")) then Some (Ok (Stop (- APKE_V2PKG_FORMAT) st c))
  else
    let '(size, ok1) := get_octal (th_size buf) in
    let '(uid, ok2) := get_octal (th_uid buf) in
    let '(gid, ok3) := get_octal (th_gid buf) in
    let '(mode, ok4) := get_octal (th_mode buf) in
    let '(mtime, ok5) := get_octal (th_mtime buf) in
    let '(major, ok6) := get_octal (th_devmajor buf) in
    let '(minor, ok7) := get_octal (th_devminor buf) in
    if negb (ok1 && ok2 && ok3 && ok4 && ok5 && ok6 && ok7) then Some (Ok (Stop (- APKE_V2PKG_FORMAT) st c))
    else tar_entry size (resolve_uid (tar_blob (th_uname buf)) (u32 uid)) (resolve_gid (tar_blob (th_gname buf)) (u32 gid))
           (Z.land mode 0xfff) mtime (makedev (u32 major) (u32 minor)) st c.

(** The records after the end of the archive: all zero up to the end of the stream. *)
Fixpoint tar_trailer (fuel : nat) (input : bytes) : option Z :=
  match fuel with
  | O => None
  | S fuel =>
      match input with
      | [] => Some 0
      | x :: _ => if (length input <? 512)%nat then Some (- APKE_EOF)
                  else if negb (x =? 0) then Some (- APKE_EOF)
                  else tar_trailer fuel (drop 512 input)
      end
  end.

Fixpoint tar_loop (fuel : nat) (st : tar_state) (c : C) : option (outcome (Z * C)) :=
  match fuel with
  | O => None
  | S fuel =>
      match ts_is st with
      | [] => Some (Ok (0, c))
      | x :: _ =>
          if (length (ts_is st) <? 512)%nat then Some (Ok (- APKE_EOF, c))
          else
            let st := set_ts_is (drop 512 (ts_is st)) (set_ts_buf (tar_of_bytes (take 512 (ts_is st))) st) in
            if x =? 0 then
              if ts_end st then match tar_trailer (S (length (ts_is st))) (ts_is st) with None => None | Some r => Some (Ok (r, c)) end
              else tar_loop fuel (set_ts_end true st) c
            else
              match tar_header_entry st c with
              | None => None
              | Some Fault => Some Fault
              | Some (Ok (Stop r _ c)) => Some (Ok (r, c))
              | Some (Ok (Next st c)) => tar_loop fuel st c
              end
      end
  end.

Definition tar_start (input : bytes) : tar_state := mk_ts input false (tar_of_bytes []) [] [] [] 0 0 In_buf.

Definition apk_tar_parse (input : bytes) (c : C) : option (outcome (Z * C)) := tar_loop (S (length input)) (tar_start input) c.
End tar.

(** ** Writing *)

(** [strlcpy] into a field of zeroes. *)
Definition strlcpy (n : nat) (s : bytes) : bytes := let t := take (n - 1) s in t ++ replicate (n - length t) 0.

Definition apk_tar_fill_header (typeflag : Z) (name : bytes) (size : Z) (ae : apk_file_info) (uname gname : blob) : tar_header :=
  let h chksum := mk_tar (strlcpy 100 name) (put_octal 8 (Z.land (ae_mode ae) 0xfff) true) (put_octal 8 (ae_uid ae) true) (put_octal 8 (ae_gid ae) true)
    (put_octal 12 (s32 size) false) (put_octal 12 (ae_mtime ae) false) chksum typeflag (replicate 100 0) (lit "ustar  " ++ [0])
    (strlcpy 32 (default (lit "root") uname)) (strlcpy 32 (default (lit "root") gname)) (replicate 8 0) (replicate 8 0) (replicate 155 0) (replicate 12 0) in
  let sum := foldr Z.add 0 (tar_bytes (h (replicate 8 (chr " ")))) in
  h (put_octal 7 sum true ++ lit " ").

Definition apk_tar_write_padding (size : nat) : bytes :=
  let pad := (512 - size mod 512)%nat in if (pad =? 512)%nat then [] else replicate pad 0.

Definition apk_tar_write_longname_entry (ae : apk_file_info) (uname gname : blob) : bytes :=
  tar_bytes (apk_tar_fill_header (chr "L") (lit "././@LongLink") (Z.of_nat (length (ae_name ae))) ae uname gname) ++
  ae_name ae ++ [0] ++ apk_tar_write_padding (S (length (ae_name ae))).

(** The result with what is written; no entry is the end of the archive. *)
Definition apk_tar_write_entry (ae : option (apk_file_info * blob * blob)) (data : blob) : Z * bytes :=
  match ae with
  | None => (0, replicate 512 0 ++ replicate 512 0)
  | Some (ae, uname, gname) =>
      if negb (S_ISREG (ae_mode ae)) then (-1, [])
      else
        let long := if (99 <? length (ae_name ae))%nat then apk_tar_write_longname_entry ae uname gname else [] in
        let hdr := tar_bytes (apk_tar_fill_header (chr "0") (ae_name ae) (ae_size ae) ae uname gname) in
        (0, long ++ hdr ++ match data with
                           | Some data => take (Z.to_nat (ae_size ae)) data ++ apk_tar_write_padding (Z.to_nat (ae_size ae))
                           | None => []
                           end)
  end.
