(* ===== verification/TarFacts.v ===== *)
(** * Tar archives: what is written is read back

    Files that are written come back from the reader, with their long names; and two places where
    the format of an archive defeats the reader. *)

From S2P Require Import Prelude Blob BlobCodec Digest Hash Dep Package PackageRules Path Dirs Catalog InstallFile Stream Tar.

(** ** Numbers *)

Lemma octal_digit d : 0 <= d < 8 -> chr "0" + d = xd d.
Proof.
  intros Hd. assert (Forall (fun d => chr "0" + d = xd d) (seqZ 0 8)) as Hall by (by repeat constructor).
  rewrite Forall_forall in Hall. apply Hall, elem_of_seqZ. lia.
Qed.

Lemma pull_zeroes n k w : 0 <= w -> w * 8 ^ Z.of_nat n < 2 ^ 64 ->
  pull_uint_loop (replicate n (chr "0") ++ k) 8 w = pull_uint_loop k 8 (w * 8 ^ Z.of_nat n).
Proof.
  revert w. induction n as [|n IH]; intros w Hw Hb; [by rewrite Z.mul_1_r |].
  rewrite Nat2Z.inj_succ, Z.pow_succ_r in * by lia. assert (0 < 8 ^ Z.of_nat n) as Hp by (apply Z.pow_pos_nonneg; lia).
  cbn [replicate app]. change (chr "0") with (xd 0) at 1. rewrite pull_uint_digit by lia. rewrite Z.add_0_r, (u64_small (w * 8)), u64_small by nia.
  rewrite IH by nia. f_equal. lia.
Qed.

Lemma put_octal_digits n v acc : 0 <= v < 8 ^ Z.of_nat n ->
  exists ds, put_octal_loop n v acc = ds ++ acc /\ length ds = n /\
    forall k w, 0 <= w -> w * 8 ^ Z.of_nat n + v < 2 ^ 64 -> pull_uint_loop (ds ++ k) 8 w = pull_uint_loop k 8 (w * 8 ^ Z.of_nat n + v).
Proof.
  revert v acc. induction n as [|n IH]; intros v acc Hv.
  { exists []. split_and!; [done | done |]. intros k w Hw Hb. cbn in *. f_equal. lia. }
  cbn [put_octal_loop]. destruct (Z.eqb_spec v 0) as [->|Hnz].
  - exists (replicate (S n) (chr "0")). rewrite length_replicate. split_and!; [done | done |]. intros k w Hw Hb. rewrite pull_zeroes by lia. f_equal. lia.
  - rewrite Nat2Z.inj_succ, Z.pow_succ_r in * by lia. assert (0 < 8 ^ Z.of_nat n) as Hp by (apply Z.pow_pos_nonneg; lia).
    pose proof (Z.mod_pos_bound v 8) as Hm. pose proof (Z.div_mod v 8) as Hdm.
    destruct (IH (v / 8) (chr "0" + v mod 8 :: acc)) as (ds & -> & Hl & Hds); [split; [apply Z.div_pos; lia | apply Z.div_lt_upper_bound; lia] |].
    exists (ds ++ [chr "0" + v mod 8]). rewrite <- app_assoc, length_app. split_and!; [done | simpl; lia |].
    intros k w Hw Hb. rewrite <- app_assoc, Hds by nia. cbn [app]. rewrite octal_digit, pull_uint_digit by lia. rewrite (u64_small (_ * 8)), u64_small by nia. f_equal. nia.
Qed.

Lemma length_put_octal l v z : (0 < l)%nat -> length (put_octal l v z) = l.
Proof.
  assert (forall n v acc, length (put_octal_loop n v acc) = (n + length acc)%nat) as H.
  { induction n as [|n IH]; intros v' acc; cbn [put_octal_loop]; [done |]. case_match; [by rewrite length_app, length_replicate |]. rewrite IH. simpl. lia. }
  intros Hl. unfold put_octal. destruct z; rewrite H; simpl; lia.
Qed.

(** A number that fits its field is read back. *)
Lemma get_put_octal (l : nat) (v : Z) (z : bool) : (0 < l <= 12)%nat -> 0 <= v < 8 ^ Z.of_nat (if z then (l - 1)%nat else l) -> get_octal (put_octal l v z) = (v, true).
Proof.
  intros Hl Hv. assert (8 ^ Z.of_nat (if z then (l - 1)%nat else l) <= 8 ^ 12) as Hmax by (apply Z.pow_le_mono_r; destruct z; lia).
  unfold get_octal, put_octal. rewrite u64_small by (change (8 ^ 12) with 68719476736 in Hmax; lia). cbn [apk_blob_pull_uint].
  set (p := if z then put_octal_loop (l - 1) v [0] else put_octal_loop l v []).
  assert (pull_uint_loop p 8 0 = (v, if z then [0] else [])) as ->; [| by destruct z].
  unfold p. destruct z; [destruct (put_octal_digits _ v [0] Hv) as (ds & -> & _ & Hds) | destruct (put_octal_digits _ v [] Hv) as (ds & -> & _ & Hds)]; rewrite Hds by (change (8 ^ 12) with 68719476736 in Hmax; lia); done.
Qed.

(** ** Headers *)

Record tar_wf (h : tar_header) : Prop := {
  tw_name : length (th_name h) = 100%nat; tw_mode : length (th_mode h) = 8%nat; tw_uid : length (th_uid h) = 8%nat; tw_gid : length (th_gid h) = 8%nat;
  tw_size : length (th_size h) = 12%nat; tw_mtime : length (th_mtime h) = 12%nat; tw_chksum : length (th_chksum h) = 8%nat;
  tw_linkname : length (th_linkname h) = 100%nat; tw_magic : length (th_magic h) = 8%nat; tw_uname : length (th_uname h) = 32%nat;
  tw_gname : length (th_gname h) = 32%nat; tw_devmajor : length (th_devmajor h) = 8%nat; tw_devminor : length (th_devminor h) = 8%nat;
  tw_prefix : length (th_prefix h) = 155%nat; tw_padding : length (th_padding h) = 12%nat;
}.

Lemma field_skip off len a b : (length a <= off)%nat -> field off len (a ++ b) = field (off - length a) len b.
Proof. intros Ha. unfold field. by rewrite drop_app_ge. Qed.

Lemma field_here len a b : length a = len -> field 0 len (a ++ b) = a.
Proof. intros <-. unfold field. by rewrite drop_0, take_app_length. Qed.

Lemma length_tar_bytes h : tar_wf h -> length (tar_bytes h) = 512%nat.
Proof. intros []. unfold tar_bytes. rewrite !length_app. cbn [length]. lia. Qed.

Ltac lengths La Lb Lc Ld Le Lf Lg Ll Lm Lu Ln LM LD Lp :=
  rewrite ?La, ?Lb, ?Lc, ?Ld, ?Le, ?Lf, ?Lg, ?Ll, ?Lm, ?Lu, ?Ln, ?LM, ?LD, ?Lp; cbn [length Nat.sub].

Lemma tar_bytes_roundtrip h : tar_wf h -> tar_of_bytes (tar_bytes h) = h.
Proof.
  intros Hw. destruct h as [a b c d e f g t l m u n M D p q], Hw as [La Lb Lc Ld Le Lf Lg Ll Lm Lu Ln LM LD Lp Lq].
  cbn [th_name th_mode th_uid th_gid th_size th_mtime th_chksum th_linkname th_magic th_uname th_gname th_devmajor th_devminor th_prefix th_padding] in *.
  unfold tar_of_bytes. set (s := tar_bytes _). assert (nth 156 s 0 = t) as ->.
  { unfold s, tar_bytes. cbn [th_name th_mode th_uid th_gid th_size th_mtime th_chksum th_typeflag].
    do 7 (rewrite app_nth2 by lia). rewrite La, Lb, Lc, Ld, Le, Lf, Lg. done. }
  unfold s, tar_bytes. cbn [th_name th_mode th_uid th_gid th_size th_mtime th_chksum th_typeflag th_linkname th_magic th_uname th_gname th_devmajor th_devminor th_prefix th_padding].
  f_equal; repeat (rewrite field_skip by (lengths La Lb Lc Ld Le Lf Lg Ll Lm Lu Ln LM LD Lp; apply Nat.leb_le; reflexivity));
    lengths La Lb Lc Ld Le Lf Lg Ll Lm Lu Ln LM LD Lp;
    first [by apply field_here | unfold field; rewrite drop_0; by apply take_ge; lia].
Qed.

(** ** Headers that are written *)

Lemma length_strlcpy n s : (0 < n)%nat -> length (strlcpy n s) = n.
Proof. intros Hn. unfold strlcpy. rewrite length_app, length_replicate, length_take. lia. Qed.

Lemma cstr_prefix_zeroes (s r : bytes) : 0 ∉ s -> head r = Some 0 -> cstr_prefix (s ++ r) = s.
Proof.
  intros Hs Hr. induction s as [|x s IH]; [destruct r as [|y r]; [done |]; by injection Hr as -> |].
  rewrite not_elem_of_cons in Hs. destruct Hs as [Hx Hs]. cbn. rewrite (proj2 (Z.eqb_neq x 0)) by congruence. by rewrite IH.
Qed.

Lemma length_cstr_prefix s : (length (cstr_prefix s) <= length s)%nat.
Proof. induction s as [|x s IH]; [done |]. cbn [cstr_prefix]. destruct (x =? 0); simpl; lia. Qed.

Lemma strlcpy_cstr n s : 0 ∉ s -> (length s < n)%nat -> cstr_prefix (strlcpy n s) = s.
Proof.
  intros Hs Hn. unfold strlcpy. rewrite take_ge by lia. apply cstr_prefix_zeroes; [done |].
  destruct (n - length s)%nat eqn:E; [lia | done].
Qed.

Abbreviation fill := apk_tar_fill_header.

Lemma fill_wf flag name size ae un gn : tar_wf (fill flag name size ae un gn).
Proof.
  split; unfold fill; cbn [th_name th_mode th_uid th_gid th_size th_mtime th_chksum th_linkname th_magic th_uname th_gname th_devmajor th_devminor th_prefix th_padding];
    rewrite ?length_app, ?length_strlcpy, ?length_put_octal, ?length_replicate by lia; done.
Qed.

Lemma fill_flag flag name size ae un gn : th_typeflag (fill flag name size ae un gn) = flag.
Proof. done. Qed.

Lemma fill_prefix flag name size ae un gn : nth 0 (th_prefix (fill flag name size ae un gn)) 0 = 0.
Proof. done. Qed.

(** What a file must be like for its numbers to fit their fields. *)
Record numbers_fit (ae : apk_file_info) (un gn : blob) : Prop := {
  nf_uid : 0 <= ae_uid ae < 8 ^ 7;
  nf_gid : 0 <= ae_gid ae < 8 ^ 7;
  nf_mtime : 0 <= ae_mtime ae < 8 ^ 12;
  nf_uname : (0 ∉ default (lit "root") un) /\ (length (default (lit "root") un) < 32)%nat;
  nf_gname : (0 ∉ default (lit "root") gn) /\ (length (default (lit "root") gn) < 32)%nat;
}.

Section read.
Context (fresh : nat -> bytes) (sha1 : bytes -> bytes) (resolve_uid resolve_gid : bytes -> Z -> Z).
Context {C : Type} (parser : C -> apk_file_info -> bytes -> Z * C).
Implicit Types c : C.

Abbreviation entry_of := (tar_entry fresh sha1 parser).
Abbreviation header_of := (tar_header_entry fresh sha1 resolve_uid resolve_gid parser).
Abbreviation loop := (tar_loop fresh sha1 resolve_uid resolve_gid parser).

Lemma loop_header fuel st c h rest x : tar_wf h -> head (th_name h) = Some x -> x <> 0 -> ts_is st = tar_bytes h ++ rest ->
  loop (S fuel) st c =
    match header_of (set_ts_is rest (set_ts_buf h st)) c with
    | None => None
    | Some Fault => Some Fault
    | Some (Ok (Stop r _ c)) => Some (Ok (r, c))
    | Some (Ok (Next st c)) => loop fuel st c
    end.
Proof.
  intros Hw Hx Hnz He. cbn [tar_loop]. pose proof (length_tar_bytes h Hw) as Hl. rewrite He, length_app, Hl.
  rewrite take_app_length', drop_app_length', tar_bytes_roundtrip by done.
  assert (exists t, tar_bytes h ++ rest = x :: t) as (t & ->).
  { unfold tar_bytes. destruct (th_name h) as [|y n]; [done |]. injection Hx as ->. by eexists. }
  cbn [Nat.add Nat.ltb Nat.leb]. by rewrite (proj2 (Z.eqb_neq x 0)).
Qed.

Lemma header_fill flag name size ae un gn st c : numbers_fit ae un gn -> 0 <= size < 2 ^ 31 -> ts_buf st = fill flag name size ae un gn ->
  header_of st c = entry_of size (resolve_uid (default (lit "root") un) (ae_uid ae)) (resolve_gid (default (lit "root") gn) (ae_gid ae))
    (Z.land (ae_mode ae) 0xfff) (ae_mtime ae) 0 st c.
Proof.
  intros [Hu Hg Hm [Hun Hunl] [Hgn Hgnl]] Hs Hb. unfold tar_header_entry. rewrite Hb. unfold fill.
  cbn [th_name th_mode th_uid th_gid th_size th_mtime th_chksum th_linkname th_magic th_uname th_gname th_devmajor th_devminor th_prefix th_padding].
  rewrite bool_decide_true by done. cbn [negb].
  assert (0 <= Z.land (ae_mode ae) 0xfff < 4096) as Hmode by (change 0xfff with (Z.ones 12); rewrite Z.land_ones by lia; apply Z.mod_pos_bound; lia).
  assert (s32 size = size) as -> by (unfold s32; rewrite Z.mod_small; lia).
  rewrite !get_put_octal by (simpl; lia). change (get_octal (replicate 8 0)) with (0, true). cbn [andb negb].
  unfold tar_blob. rewrite !strlcpy_cstr by done. unfold u32. rewrite !Z.mod_small by (simpl in *; lia).
  assert (Z.land (Z.land (ae_mode ae) 0xfff) 0xfff = Z.land (ae_mode ae) 0xfff) as -> by (by rewrite <- Z.land_assoc).
  done.
Qed.

(** ** Entries *)

Lemma length_padding n : length (apk_tar_write_padding n) = (records n - n)%nat.
Proof.
  unfold apk_tar_write_padding, records. pose proof (Nat.div_mod n 512) as Hd. pose proof (Nat.mod_upper_bound n 512) as Hm.
  destruct (Nat.eqb_spec (512 - n mod 512) 512) as [H0|H0].
  - cbn [length]. replace (n + 511)%nat with (511 + n / 512 * 512)%nat by lia. rewrite Nat.div_add by lia. change (511 / 512)%nat with 0%nat. lia.
  - rewrite length_replicate. replace (n + 511)%nat with (n mod 512 - 1 + (n / 512 + 1) * 512)%nat by lia.
    rewrite Nat.div_add, (Nat.div_small (n mod 512 - 1)) by lia. lia.
Qed.

Lemma records_ge n : (n <= records n)%nat.
Proof. unfold records. pose proof (Nat.div_mod (n + 511) 512). pose proof (Nat.mod_upper_bound (n + 511) 512). lia. Qed.

Lemma set_ts_pax_id st : set_ts_pax (ts_pax st) st = st.
Proof. by destruct st. Qed.

(** Between entries: nothing is left of extended headers. *)
Definition clean (st : tar_state) : Prop := ts_paxlen st = 0%nat /\ ts_end st = false.

Lemma not_too_long name : (length name < PATH_MAX - 10)%nat -> too_long name = false.
Proof. intros Hn. unfold too_long. apply Nat.leb_gt. lia. Qed.

Definition read_entry (ae : apk_file_info) (un gn : blob) : apk_file_info :=
  mk_ae (ae_name ae) None (Z.lor (Z.land (ae_mode ae) 0xfff) S_IFREG) (resolve_uid (default (lit "root") un) (ae_uid ae))
    (resolve_gid (default (lit "root") gn) (ae_gid ae)) (ae_size ae) (ae_mtime ae) 0 digest0 digest0 [].

(** A file entry, when the name is known. *)
Lemma entry_file ae un gn data rest st c uid gid mode mtime :
  ts_buf st = fill (chr "0") (ae_name ae) (ae_size ae) ae un gn -> clean st -> name_string (ts_name st) st = Ok (ae_name ae) ->
  (length (ae_name ae) < PATH_MAX - 10)%nat -> 0 <= ae_size ae < 2 ^ 31 -> Z.of_nat (length data) = ae_size ae ->
  (forall c e d, (parser c e d).1 = 0) -> ts_is st = data ++ apk_tar_write_padding (length data) ++ rest ->
  exists st', entry_of (ae_size ae) uid gid mode mtime 0 st c =
    Some (Ok (Next st' (parser c (mk_ae (ae_name ae) None (Z.lor mode S_IFREG) uid gid (ae_size ae) mtime 0 digest0 digest0 []) data).2)) /\
    clean st' /\ ts_name st' = In_buf /\ ts_is st' = rest.
Proof.
  intros Hb [Hp Hend] Hname Hlen Hsize Hdata Hparser His. unfold tar_entry. rewrite Hb. rewrite fill_flag, fill_prefix. change (0 =? 0) with true. cbn [negb andb]. rewrite (proj2 (Z.leb_gt _ _)) by (unfold SSIZE_MAX; lia).
  rewrite Hp. cbn [Nat.eqb mbind option_bind obind pax0 px_name px_link px_digest px_xattrs]. rewrite set_ts_pax_id.
  change (chr "0" =? chr "1") with false. change (chr "0" =? chr "2") with false. change (chr "0" =? chr "L") with false. change (chr "0" =? chr "x") with false.
  cbn [orb]. cbv iota. change (0 <? 0) with false. cbv iota. rewrite Hname. cbn [obind link_string]. rewrite not_too_long by done. cbn [orb].
  change (type_of_flag (chr "0") =? 0) with false. cbv iota.
  assert (Z.to_nat (ae_size ae) = length data) as -> by lia. rewrite His, take_app_length, drop_app_length. rewrite Hp. cbn [Nat.eqb].
  change (type_of_flag (chr "0")) with S_IFREG.
  pose proof (Hparser c (mk_ae (ae_name ae) None (Z.lor mode S_IFREG) uid gid (ae_size ae) mtime 0 digest0 digest0 []) data) as Hr.
  destruct (parser c _ data) as [r c']. cbn [fst snd] in *. subst r. cbn [Z.eqb negb ts_is set_ts_paxlen set_ts_name set_ts_is].
  pose proof (length_padding (length data)) as Hpad. rewrite (proj2 (Nat.ltb_ge _ _)) by (rewrite length_app; lia).
  eexists. split; [done |]. cbn [ts_paxlen ts_end ts_name ts_is set_ts_is set_ts_paxlen set_ts_name]. split_and!; [split; [done | exact Hend] | done |].
  rewrite drop_app_length' by done. done.
Qed.

(** A long name. *)
Lemma entry_longname ae un gn rest st c uid gid mode mtime :
  let name := ae_name ae in
  ts_buf st = fill (chr "L") (lit "././@LongLink") (Z.of_nat (length name)) ae un gn -> clean st -> 0 ∉ name ->
  (length name < PATH_MAX - 10)%nat -> (length name mod 512 <> 0)%nat ->
  ts_is st = name ++ [0] ++ apk_tar_write_padding (S (length name)) ++ rest ->
  exists st', entry_of (Z.of_nat (length name)) uid gid mode mtime 0 st c = Some (Ok (Next st' c)) /\
    clean st' /\ ts_name st' = In_longname /\ ts_longname st' = name ++ [0] /\ ts_is st' = rest.
Proof.
  intros name Hb [Hp Hend] Hn Hlen Hmod His. unfold tar_entry. rewrite Hb. rewrite fill_flag, fill_prefix. change (0 =? 0) with true. cbn [negb andb]. rewrite (proj2 (Z.leb_gt _ _)) by (unfold SSIZE_MAX, PATH_MAX in *; lia).
  rewrite Hp. cbn [Nat.eqb mbind option_bind obind pax0 px_name px_link px_digest px_xattrs]. rewrite set_ts_pax_id.
  change (chr "L" =? chr "1") with false. change (chr "L" =? chr "2") with false. change (chr "L" =? chr "L") with true. cbn [orb]. cbv iota.
  rewrite Nat2Z.id, His. rewrite (proj2 (Nat.ltb_ge _ _)) by (rewrite length_app; lia). rewrite take_app_length, drop_app_length.
  change (0 <? 0) with false. cbv iota. cbn [ts_name set_ts_name name_string ts_longname set_ts_longname]. rewrite cstr_prefix_zeroes by done.
  cbn [obind link_string]. rewrite not_too_long by done. cbn [orb]. change (type_of_flag (chr "L") =? 0) with true. cbv iota. cbn [Z.eqb negb].
  cbn [ts_is set_ts_name set_ts_longname set_ts_is].
  assert (1 + length (apk_tar_write_padding (S (length name))) = records (length name) - length name)%nat as Hpad.
  { rewrite length_padding. unfold records. pose proof (Nat.div_mod (length name) 512). pose proof (Nat.mod_upper_bound (length name) 512).
    set (q := (length name / 512)%nat) in *. set (m := (length name mod 512)%nat) in *.
    replace (length name + 511)%nat with (m - 1 + (q + 1) * 512)%nat by lia. replace (S (length name) + 511)%nat with (m + (q + 1) * 512)%nat by lia.
    rewrite !Nat.div_add, !Nat.div_small by lia. lia. }
  rewrite (proj2 (Nat.ltb_ge _ _)) by (rewrite !length_app; cbn [length]; lia).
  eexists. split; [done |]. cbn [ts_paxlen ts_end ts_name ts_is ts_longname set_ts_is set_ts_paxlen set_ts_name set_ts_longname].
  split_and!; [split; done | done | done |]. rewrite app_assoc. apply drop_app_length'. rewrite length_app. cbn [length]. lia.
Qed.

(** ** Archives *)

Record tar_file := mk_tf { tf_ae : apk_file_info; tf_uname : blob; tf_gname : blob; tf_data : bytes }.

Definition file_bytes (f : tar_file) : bytes := (apk_tar_write_entry (Some (tf_ae f, tf_uname f, tf_gname f)) (Some (tf_data f))).2.

(** The reader looks for the next header after whole records of the name, the writer pads the
    name with its NUL: a long name must not fill its records. *)
Record file_ok (f : tar_file) : Prop := {
  fk_regular : S_ISREG (ae_mode (tf_ae f)) = true;
  fk_numbers : numbers_fit (tf_ae f) (tf_uname f) (tf_gname f);
  fk_name : ae_name (tf_ae f) <> [] /\ (0 ∉ ae_name (tf_ae f)) /\ (length (ae_name (tf_ae f)) < PATH_MAX - 10)%nat;
  fk_long : (length (ae_name (tf_ae f)) <= 99)%nat \/ (length (ae_name (tf_ae f)) mod 512 <> 0)%nat;
  fk_size : ae_size (tf_ae f) < 2 ^ 31 /\ Z.of_nat (length (tf_data f)) = ae_size (tf_ae f);
}.

Definition between (st : tar_state) (rest : bytes) : Prop := clean st /\ ts_name st = In_buf /\ ts_is st = rest.

Lemma loop_name_header flag name size ae un gn rest fuel st c : name <> [] -> 0 ∉ name -> 0 <= size < 2 ^ 31 -> numbers_fit ae un gn ->
  ts_is st = tar_bytes (fill flag name size ae un gn) ++ rest ->
  loop (S fuel) st c =
    match entry_of size (resolve_uid (default (lit "root") un) (ae_uid ae)) (resolve_gid (default (lit "root") gn) (ae_gid ae))
            (Z.land (ae_mode ae) 0xfff) (ae_mtime ae) 0 (set_ts_is rest (set_ts_buf (fill flag name size ae un gn) st)) c with
    | None => None
    | Some Fault => Some Fault
    | Some (Ok (Stop r _ c)) => Some (Ok (r, c))
    | Some (Ok (Next st c)) => loop fuel st c
    end.
Proof.
  intros Hne Hn Hs Hnum His. destruct name as [|x name]; [done |].
  rewrite (loop_header fuel st c (fill flag (x :: name) size ae un gn) rest x); [by rewrite (header_fill flag (x :: name) size ae un gn) | apply fill_wf | done | | done].
  intros ->. apply Hn. by left.
Qed.

Lemma loop_file f st rest c : file_ok f -> (forall c e d, (parser c e d).1 = 0) -> between st (file_bytes f ++ rest) ->
  exists k st', (k <= 2)%nat /\ between st' rest /\
    forall fuel, loop (k + fuel) st c = loop fuel st' (parser c (read_entry (tf_ae f) (tf_uname f) (tf_gname f)) (tf_data f)).2.
Proof.
  intros [Hreg Hnum (Hne & Hn & Hlen) Hlong [Hs1 Hs2]] Hparser (Hclean & Hnm & His). destruct f as [ae un gn data]. cbn [tf_ae tf_uname tf_gname tf_data] in *.
  assert (take (Z.to_nat (ae_size ae)) data = data) as Htake by (apply take_ge; lia).
  unfold file_bytes in His. cbn [tf_ae tf_uname tf_gname tf_data apk_tar_write_entry] in His. rewrite Hreg in His. cbn [negb snd] in His.
  rewrite Htake in His. replace (Z.to_nat (ae_size ae)) with (length data) in His by lia.
  assert (forall st1, clean st1 -> (ts_name st1 = In_buf /\ (length (ae_name ae) <= 99)%nat \/ ts_name st1 = In_longname /\ ts_longname st1 = ae_name ae ++ [0]) ->
    ts_is st1 = tar_bytes (fill (chr "0") (ae_name ae) (ae_size ae) ae un gn) ++ data ++ apk_tar_write_padding (length data) ++ rest ->
    exists st', between st' rest /\ forall fuel, loop (S fuel) st1 c = loop fuel st' (parser c (read_entry ae un gn) data).2) as Hfile.
  { intros st1 Hc1 Hn1 His1.
    destruct (entry_file ae un gn data rest (set_ts_is (data ++ apk_tar_write_padding (length data) ++ rest) (set_ts_buf (fill (chr "0") (ae_name ae) (ae_size ae) ae un gn) st1))
      c (resolve_uid (default (lit "root") un) (ae_uid ae)) (resolve_gid (default (lit "root") gn) (ae_gid ae)) (Z.land (ae_mode ae) 0xfff) (ae_mtime ae)) as (st' & He & Hc' & Hn' & Hi');
      try done; [| lia |].
    - cbn [ts_name set_ts_is set_ts_buf]. destruct Hn1 as [[-> Hl]|[-> Hl]]; cbn [name_string ts_buf ts_longname set_ts_is set_ts_buf].
      + change (th_name (fill (chr "0") (ae_name ae) (ae_size ae) ae un gn)) with (strlcpy 100 (ae_name ae)). rewrite strlcpy_cstr by (done || lia). done.
      + rewrite Hl, cstr_prefix_zeroes by done. done.
    - exists st'. split; [done |]. intros fuel. rewrite (loop_name_header (chr "0") (ae_name ae) (ae_size ae) ae un gn (data ++ apk_tar_write_padding (length data) ++ rest)) by (try done; lia).
      by rewrite He. }
  destruct (99 <? length (ae_name ae))%nat eqn:El.
  - apply Nat.ltb_lt in El. destruct Hlong as [|Hmod]; [lia |]. unfold apk_tar_write_longname_entry in His. rewrite <- !app_assoc in His.
    destruct (entry_longname ae un gn (tar_bytes (fill (chr "0") (ae_name ae) (ae_size ae) ae un gn) ++ data ++ apk_tar_write_padding (length data) ++ rest)
      (set_ts_is (ae_name ae ++ [0] ++ apk_tar_write_padding (S (length (ae_name ae))) ++ tar_bytes (fill (chr "0") (ae_name ae) (ae_size ae) ae un gn) ++ data ++ apk_tar_write_padding (length data) ++ rest)
         (set_ts_buf (fill (chr "L") (lit "././@LongLink") (Z.of_nat (length (ae_name ae))) ae un gn) st)) c
      (resolve_uid (default (lit "root") un) (ae_uid ae)) (resolve_gid (default (lit "root") gn) (ae_gid ae)) (Z.land (ae_mode ae) 0xfff) (ae_mtime ae)) as (st1 & He & Hc1 & Hn1 & Hl1 & Hi1); try done.
    destruct (Hfile st1 Hc1 (or_intror (conj Hn1 Hl1)) Hi1) as (st' & Hb' & Hloop).
    exists 2%nat, st'. split_and!; [lia | done |]. intros fuel. change (2 + fuel)%nat with (S (S fuel)).
    erewrite (loop_name_header (chr "L") (lit "././@LongLink") (Z.of_nat (length (ae_name ae))) ae un gn _ (S fuel) st c);
      [by rewrite He | done | by apply (bool_decide_unpack _); vm_compute | unfold PATH_MAX in *; lia | done | exact His].
  - apply Nat.ltb_ge in El. destruct (Hfile st Hclean (or_introl (conj Hnm El))) as (st' & Hb' & Hloop); [by rewrite His, <- !app_assoc |].
    exists 1%nat, st'. split_and!; [lia | done |]. intros fuel. apply Hloop.
Qed.

Definition read_file (c : C) (f : tar_file) : C := (parser c (read_entry (tf_ae f) (tf_uname f) (tf_gname f)) (tf_data f)).2.

Lemma length_file_bytes f : file_ok f -> (512 <= length (file_bytes f))%nat.
Proof.
  intros [Hreg _ _ _ _]. unfold file_bytes. cbn [apk_tar_write_entry]. rewrite Hreg. cbn [negb snd].
  rewrite !length_app, (length_tar_bytes (fill (chr "0") _ _ _ _ _)) by apply fill_wf. lia.
Qed.

Lemma loop_files fs st c fuel : Forall file_ok fs -> (forall c e d, (parser c e d).1 = 0) ->
  between st (concat (file_bytes <$> fs) ++ replicate 512 0 ++ replicate 512 0) ->
  (length (concat (file_bytes <$> fs)) + 3 <= fuel)%nat -> loop fuel st c = Some (Ok (0, foldl read_file c fs)).
Proof.
  intros Hfs Hparser. revert st c fuel. induction Hfs as [|f fs Hf Hfs IH]; intros st c fuel Hst Hfuel.
  - destruct fuel as [|[|[|fuel]]]; try (cbn in Hfuel; lia). destruct Hst as ([_ He] & _ & His). cbn [concat fmap list_fmap app] in His.
    cbn [tar_loop foldl]. rewrite His. change (replicate 512 0 ++ replicate 512 0) with (0 :: replicate 511 0 ++ replicate 512 0) at 1.
    rewrite length_app, !length_replicate. cbn [Nat.add Nat.ltb Nat.leb Z.eqb]. cbn [ts_end ts_is set_ts_is set_ts_buf set_ts_end]. rewrite He.
    cbn [tar_loop]. cbn [ts_end ts_is set_ts_is set_ts_buf set_ts_end]. rewrite drop_app_length' by (by rewrite length_replicate).
    change (replicate 512 0) with (0 :: replicate 511 0) at 1. rewrite length_replicate. cbn [Nat.ltb Nat.leb Z.eqb].
    rewrite drop_ge by (rewrite length_replicate; lia). done.
  - cbn [fmap list_fmap concat] in *. rewrite <- app_assoc in Hst. destruct (loop_file f st _ c Hf Hparser Hst) as (k & st' & Hk & Hst' & Hloop).
    rewrite length_app in Hfuel. pose proof (length_file_bytes f Hf). replace fuel with (k + (fuel - k))%nat by lia.
    rewrite Hloop. cbn [foldl]. apply IH; [done |]. lia.
Qed.

(** C24: An archive of regular files and its end are read back by [apk_tar_parse]: it
    returns 0, and gives the parser every file in order with its name, its mode, owner, size, time and
    contents.  A name has fewer than [PATH_MAX - 10] bytes and, when it is a long one (of more than 99 bytes), not a
    multiple of 512, which the reader gets wrong ([tar_full_names_refused]); the numbers must fit their fields
    ([file_ok]). *)
Theorem tar_roundtrip fs c : Forall file_ok fs -> (forall c e d, (parser c e d).1 = 0) ->
  apk_tar_parse fresh sha1 resolve_uid resolve_gid parser (concat (file_bytes <$> fs) ++ (apk_tar_write_entry None None).2) c =
    Some (Ok (0, foldl read_file c fs)).
Proof.
  intros Hfs Hparser. unfold apk_tar_parse. apply loop_files; [done | done | done |].
  cbn [apk_tar_write_entry snd]. rewrite length_app, length_app, !length_replicate. lia.
Qed.
End read.

(** ** Extended headers *)

(** A record of an extended header, with its length, that gives the path of the file. *)
Definition path_record (len : nat) (path : bytes) : bytes := uint_text (Z.of_nat len) 10 ++ lit " path=" ++ path ++ [10].

(** The path an extended header gives, wherever it is. *)
Definition gives_path (body : bytes) : Prop :=
  forall buf, exists buf' px off, handle_extended_header (S (length body)) (length body) body buf pax0 = Some (Ok (buf', px)) /\ px_name px = Some off.

Lemma path_record_gives len path : length (path_record len path) = len -> Z.of_nat len < 2 ^ 32 -> gives_path (path_record len path).
Proof.
  intros Hlen Hb buf. rewrite Hlen. assert (exists fuel, len = S fuel) as (fuel & ->).
  { destruct len as [|fuel]; [| by exists fuel]. unfold path_record in Hlen. rewrite !length_app in Hlen. simpl in Hlen. lia. }
  set (len := S fuel) in *. unfold path_record in *. set (rest := path ++ [10]) in *. cbn [handle_extended_header].
  destruct (uint_text_pull (Z.of_nat len) 10 (lit " path=" ++ rest)) as [_ ->]; [lia | lia | done |].
  change (apk_blob_pull_char (Some (lit " path=" ++ rest)) (chr " ")) with (Some (lit "path=" ++ rest)). cbv iota.
  change (apk_blob_split (lit "path=" ++ rest) (lit "=")) with (Some (lit "path", rest)). cbv iota beta.
  rewrite Hlen. assert (length rest = S (length path)) as Hr by (unfold rest; rewrite length_app; simpl; lia).
  assert (length path < len)%nat by (rewrite <- Hlen, !length_app; lia).
  unfold u32. rewrite Z.mod_small by lia. rewrite (proj2 (Z.ltb_ge _ _)) by lia.
  replace (Z.to_nat (Z.of_nat len - (Z.of_nat (len - length rest) + 1))) with (length path) by lia.
  rewrite (proj2 (Nat.ltb_ge _ _)) by lia. unfold rest at 1 2. rewrite take_app_length, drop_app_length.
  change (apk_blob_pull_char (Some [10]) 10) with (Some (@nil Z)). cbv iota. unfold pax_field. change (apk_blob_compare (lit "path") (lit "path") =? 0) with true. cbv iota.
  by eexists _, _, _.
Qed.

Lemma handle_length fuel paxlen hdr buf px buf' px' : handle_extended_header fuel paxlen hdr buf px = Some (Ok (buf', px')) -> length buf' = length buf.
Proof.
  revert hdr buf px. induction fuel as [|fuel IH]; intros hdr buf px; [done |]. cbn [handle_extended_header]. destruct (apk_blob_pull_uint _ _) as [len h1].
  destruct (apk_blob_pull_char h1 _) as [h2|]; [| by intros [= <- _]]. destruct (apk_blob_split _ _) as [[name h3]|]; [| by intros [= <- _]].
  destruct (_ <? _); [by intros [= <- _] |]. destruct (_ <? _)%nat; [by intros [= <- _] |]. destruct (apk_blob_pull_char _ 10) as [h4|]; [| by intros [= <- _]].
  destruct (pax_field _ _ _ _) as [px1|]; [| done]. intros E. apply IH in E. rewrite E. destruct (ends_name name); by rewrite !length_insert.
Qed.

Section pax.
Context (fresh : nat -> bytes) (sha1 : bytes -> bytes) (resolve_uid resolve_gid : bytes -> Z -> Z).
Context {C : Type} (parser : C -> apk_file_info -> bytes -> Z * C).
Implicit Types c : C.

Abbreviation pax_header name body ae un gn := (fill (chr "x") name (Z.of_nat (length body)) ae un gn).

(** An extended header as an archive has it. *)
Definition pax_bytes (name body : bytes) (ae : apk_file_info) (un gn : blob) : bytes :=
  tar_bytes (pax_header name body ae un gn) ++ body ++ apk_tar_write_padding (length body).

(** A first extended header is kept for the entries that follow. *)
Lemma entry_pax_kept (name body : bytes) ae un gn rest c uid gid mode mtime :
  0 ∉ name -> 0 < Z.of_nat (length body) < 2 ^ 31 -> let h := pax_header name body ae un gn in
  exists st', tar_entry fresh sha1 parser (Z.of_nat (length body)) uid gid mode mtime 0
      (set_ts_is (body ++ apk_tar_write_padding (length body) ++ rest) (set_ts_buf h (tar_start (tar_bytes h ++ body ++ apk_tar_write_padding (length body) ++ rest)))) c = Some (Ok (Next st' c)) /\
    ts_paxlen st' = length body /\ take (length body) (ts_pax st') = body /\ (length (ts_pax st') <= records (length body))%nat /\ ts_is st' = rest.
Proof.
  intros Hn Hb h. unfold tar_entry. cbn [ts_buf set_ts_is set_ts_buf tar_start]. unfold h. rewrite fill_flag, fill_prefix. change (0 =? 0) with true. cbn [negb andb].
  rewrite (proj2 (Z.leb_gt _ _)) by (unfold SSIZE_MAX; lia). cbn [ts_paxlen set_ts_is set_ts_buf tar_start Nat.eqb mbind option_bind obind pax0 px_name px_link px_digest px_xattrs].
  change (chr "x" =? chr "1") with false. change (chr "x" =? chr "2") with false. change (chr "x" =? chr "L") with false. change (chr "x" =? chr "x") with true. cbn [orb]. cbv iota.
  rewrite Nat2Z.id. pose proof (records_ge (length body)) as Hge. unfold pax_realloc. cbn [ts_pax set_ts_pax set_ts_paxlen set_ts_is set_ts_buf tar_start length].
  rewrite (proj2 (Nat.leb_gt (records (length body)) 0)) by lia.
  set (m := take (records (length body)) ([] ++ fresh (records (length body) - 0))). assert (length m <= records (length body))%nat as Hm by (unfold m; rewrite length_take; lia).
  cbn [ts_is ts_pax set_ts_is set_ts_pax set_ts_pax_gen set_ts_paxlen set_ts_buf tar_start].
  rewrite (proj2 (Nat.ltb_ge _ _)) by (rewrite length_app; lia). rewrite take_app_length, drop_app_length. change (0 <? 0) with false. cbv iota.
  cbn [ts_name set_ts_is set_ts_pax set_ts_pax_gen set_ts_paxlen set_ts_buf tar_start name_string ts_buf obind link_string].
  rewrite not_too_long.
  2:{ unfold fill. cbn [th_name]. pose proof (length_strlcpy 100 name ltac:(lia)). pose proof (length_cstr_prefix (strlcpy 100 name)). unfold PATH_MAX. lia. }
  cbn [orb]. change (type_of_flag (chr "x") =? 0) with true. cbv iota. cbn [Z.eqb negb ts_is set_ts_is set_ts_pax set_ts_pax_gen set_ts_paxlen set_ts_buf tar_start].
  pose proof (length_padding (length body)) as Hpad. rewrite (proj2 (Nat.ltb_ge _ _)) by (rewrite length_app; lia).
  eexists. split; [done |]. cbn [ts_paxlen ts_pax ts_is set_ts_is set_ts_pax set_ts_pax_gen set_ts_paxlen set_ts_buf tar_start]. split_and!; [done | by rewrite take_app_length | |].
  - rewrite length_app, length_drop. lia.
  - by rewrite drop_app_length'.
Qed.

(** A second one that is longer moves the buffer, and the name that the first one gave is in the old one. *)
Lemma entry_pax_moves (name first body : bytes) ae un gn st c uid gid mode mtime :
  gives_path first -> (0 < length first)%nat -> Z.of_nat (length body) < 2 ^ 31 -> (records (length first) < records (length body))%nat ->
  ts_buf st = pax_header name body ae un gn -> ts_paxlen st = length first -> take (length first) (ts_pax st) = first ->
  (length (ts_pax st) <= records (length first))%nat -> (length body <= length (ts_is st))%nat ->
  tar_entry fresh sha1 parser (Z.of_nat (length body)) uid gid mode mtime 0 st c = Some Fault.
Proof.
  intros Hg H0 Hb Hr Hbuf Hp Ht Hl His. destruct (Hg (ts_pax st)) as (pax & px & off & Hh & Hoff). pose proof (handle_length _ _ _ _ _ _ _ Hh) as Hpax.
  unfold tar_entry. rewrite Hbuf, fill_flag, fill_prefix. change (0 =? 0) with true. cbn [negb andb]. rewrite (proj2 (Z.leb_gt _ _)) by (unfold SSIZE_MAX; lia).
  rewrite Hp, Ht, Hh, (proj2 (Nat.eqb_neq _ _)) by lia. cbn [mbind option_bind obind]. rewrite Hoff, Nat2Z.id.
  change (chr "x" =? chr "L") with false. change (chr "x" =? chr "x") with true. cbv iota.
  unfold pax_realloc. cbn [ts_pax set_ts_pax set_ts_paxlen set_ts_name]. rewrite (proj2 (Nat.leb_gt _ _)) by lia.
  cbn [ts_is set_ts_pax set_ts_pax_gen set_ts_paxlen set_ts_name]. rewrite (proj2 (Nat.ltb_ge _ _)) by lia. change (0 <? 0) with false. cbv iota.
  cbn [ts_name set_ts_is set_ts_pax set_ts_pax_gen set_ts_paxlen set_ts_name name_string]. unfold pax_string. cbn [ts_pax_gen set_ts_is set_ts_pax set_ts_pax_gen set_ts_paxlen set_ts_name].
  by rewrite (proj2 (Nat.eqb_neq _ _)) by lia.
Qed.

End pax.

(** ** Reading ends *)

Lemma pull_uint_length b radix w : (length (pull_uint_loop b radix w).2 <= length b)%nat.
Proof. revert w. induction b as [|x b IH]; intros w; cbn [pull_uint_loop]; [done |]. destruct (x =? 0); [done |]. destruct (_ <=? _); [done |]. etransitivity; [apply IH | simpl; lia]. Qed.

(** Every record of an extended header is shorter than what is left. *)
Lemma extended_header_ends fuel paxlen hdr buf px : (length hdr < fuel)%nat -> handle_extended_header fuel paxlen hdr buf px <> None.
Proof.
  revert hdr buf px. induction fuel as [|fuel IH]; intros hdr buf px Hf; [lia |]. cbn [handle_extended_header apk_blob_pull_uint].
  pose proof (pull_uint_length hdr 10 0) as H1. destruct (pull_uint_loop hdr 10 0) as [len h1]. cbn [snd] in H1.
  destruct (apk_blob_pull_char (Some h1) (chr " ")) as [h2|] eqn:E2; [| done].
  assert (length h2 < length hdr)%nat as H2.
  { destruct h1 as [|x h1]; [done |]. cbn in E2. destruct (x =? _); [| done]. injection E2 as <-. simpl in H1. lia. }
  destruct (apk_blob_split h2 (lit "=")) as [[name h3]|] eqn:E3; [| done]. apply split_length in E3.
  destruct (_ <? _); [done |]. destruct (_ <? _)%nat; [done |].
  destruct (apk_blob_pull_char _ 10) as [h4|] eqn:E4; [| done].
  destruct (pax_field _ _ _ _) as [px'|]; [| done]. apply IH. cbn in E4. destruct (drop _ h3) as [|y h5] eqn:E5; [done |].
  destruct (y =? 10); [| done]. injection E4 as <-. apply (f_equal length) in E5. rewrite length_drop in E5. simpl in E5. lia.
Qed.

Lemma trailer_ends fuel input : (length input < fuel)%nat -> tar_trailer fuel input <> None.
Proof.
  revert input. induction fuel as [|fuel IH]; intros input Hf; [lia |]. cbn [tar_trailer]. destruct input as [|x input]; [done |].
  destruct (_ <? _)%nat eqn:E; [done |]. destruct (negb _); [done |]. apply IH. rewrite length_drop. cbn [length] in *. lia.
Qed.

Section ends.
Context (fresh : nat -> bytes) (sha1 : bytes -> bytes) (resolve_uid resolve_gid : bytes -> Z -> Z).
Context {C : Type} (parser : C -> apk_file_info -> bytes -> Z * C).

Lemma set_name_input p st : ts_is (set_ts_name p st) = ts_is st.
Proof. done. Qed.

Lemma pax_realloc_input n st : ts_is (pax_realloc fresh n st) = ts_is st.
Proof. unfold pax_realloc. by destruct (_ <=? _)%nat. Qed.

Lemma entry_consumes size uid gid mode mtime dev st c st' c' :
  tar_entry fresh sha1 parser size uid gid mode mtime dev st c = Some (Ok (Next st' c')) -> (length (ts_is st') <= length (ts_is st))%nat.
Proof.
  unfold tar_entry. set (st1 := if negb _ && _ && _ then _ else st). assert (ts_is st1 = ts_is st) as <- by (unfold st1; by destruct (_ && _)).
  destruct (_ <=? size); [done |].
  destruct (if (ts_paxlen st1 =? 0)%nat then _ else _) as [[[pax px]|]|]; [| done | done]. cbn [mbind option_bind obind].
  set (st2 := set_ts_pax pax st1). assert (ts_is st2 = ts_is st1) as <- by done.
  set (st3 := match px_name px with Some _ => _ | None => st2 end). assert (ts_is st3 = ts_is st2) as <- by (unfold st3; by destruct (px_name px)).
  set (y := if th_typeflag _ =? chr "L" then _ else _). assert (length (ts_is y.2) <= length (ts_is st3))%nat as Hy.
  { unfold y. destruct (_ =? chr "L"); [| destruct (_ =? chr "x"); [| done]].
    - destruct (_ <? _)%nat; cbn [snd ts_is set_ts_is set_ts_name set_ts_longname]; [simpl; lia | rewrite length_drop; lia].
    - rewrite !pax_realloc_input. destruct (length (ts_is (set_ts_paxlen (Z.to_nat size) st3)) <? Z.to_nat size)%nat; cbn [snd ts_is set_ts_is set_ts_name set_ts_pax]; [simpl; lia |].
      rewrite length_drop. cbn [ts_is set_ts_paxlen]. lia. }
  destruct y as [[r toskip] st4]. cbn [snd] in Hy. destruct (r <? 0); [done |].
  destruct (name_string _ _); [| done]. destruct (link_string _ _); [| done]. cbn [obind]. destruct (too_long _ || _); [done |].
  set (z := if type_of_flag _ =? 0 then _ else _). assert (length (ts_is z.1.2) <= length (ts_is st4))%nat as Hz.
  { unfold z. destruct (type_of_flag _ =? 0); [done |]. destruct (parser _ _ _) as [r' c1]. destruct (negb (r' =? 0)); [done |].
    cbn [fst snd ts_is set_ts_is set_ts_name set_ts_paxlen]. rewrite length_drop. lia. }
  destruct z as [[[r2 toskip2] st5] c5]. cbn [fst snd] in Hz. destruct (negb (r2 =? 0)); [done |]. destruct (length (ts_is st5) <? toskip2)%nat; [done |].
  intros [= <- _]. cbn [ts_is set_ts_is]. rewrite length_drop. lia.
Qed.

(** The extended header of an entry is read in as many rounds as it has bytes. *)
Lemma entry_ends size uid gid mode mtime dev st c : tar_entry fresh sha1 parser size uid gid mode mtime dev st c <> None.
Proof.
  unfold tar_entry. set (st1 := if negb _ && _ && _ then _ else st). destruct (_ <=? size); [done |]. destruct (ts_paxlen st1 =? 0)%nat; [done |].
  pose proof (extended_header_ends (S (ts_paxlen st1)) (ts_paxlen st1) (take (ts_paxlen st1) (ts_pax st1)) (ts_pax st1) pax0) as Hx.
  destruct (handle_extended_header _ _ _ _ _); [done |]. intros _. apply Hx; [| done]. rewrite length_take. lia.
Qed.

Lemma header_entry_ends st c : tar_header_entry fresh sha1 resolve_uid resolve_gid parser st c <> None.
Proof.
  unfold tar_header_entry. destruct (negb _); [done |]. repeat match goal with |- context [get_octal ?f] => destruct (get_octal f) end.
  destruct (negb _); [done |]. apply entry_ends.
Qed.

(** C25: Whatever the stream holds, reading an archive ends: the loop over its headers, the loop over the
    records of each extended header and the loop over the records after its end. *)
Theorem tar_parse_ends input c : apk_tar_parse fresh sha1 resolve_uid resolve_gid parser input c <> None.
Proof.
  unfold apk_tar_parse. assert (forall fuel st c, (length (ts_is st) < fuel)%nat -> tar_loop fresh sha1 resolve_uid resolve_gid parser fuel st c <> None) as H;
    [| apply H; simpl; lia].
  induction fuel as [|fuel IH]; intros st c' Hf; [lia |]. cbn [tar_loop]. destruct (ts_is st) as [|x t] eqn:Ei; [done |]. rewrite <- Ei in *.
  destruct (length (ts_is st) <? 512)%nat eqn:El; [done |]. apply Nat.ltb_ge in El.
  assert (forall st1 : tar_state, (length (ts_is st1) <= length (drop 512 (ts_is st)))%nat -> (length (ts_is st1) < fuel)%nat) as Hless by (intros st1; rewrite length_drop; lia).
  destruct (x =? 0).
  - cbn [ts_end ts_is set_ts_is set_ts_buf]. destruct (ts_end st); [| apply IH; by apply Hless].
    pose proof (trailer_ends (S (length (drop 512 (ts_is st)))) (drop 512 (ts_is st)) (Nat.lt_succ_diag_r _)) as Ht. by destruct (tar_trailer _ _).
  - set (st1 := set_ts_is _ _). pose proof (header_entry_ends st1 c') as He. destruct (tar_header_entry _ _ _ _ _ _ _) as [[[st2 c2|]|]|] eqn:Eh; try done. apply IH, Hless.
    change (drop 512 (ts_is st)) with (ts_is st1). unfold tar_header_entry in Eh. destruct (negb _); [done |].
    repeat match type of Eh with context [get_octal ?f] => destruct (get_octal f) end. destruct (negb _); [done |]. by apply entry_consumes in Eh.
Qed.
End ends.

(** ** Witnesses and failures *)

(** A reader that notes the names, sizes and contents. *)
Definition ex_parser (c : list (bytes * Z * bytes)) (e : apk_file_info) (d : bytes) : Z * list (bytes * Z * bytes) := (0, c ++ [(ae_name e, ae_size e, d)]).
Definition ex_tar_file (name data : bytes) : tar_file :=
  mk_tf (mk_ae name None 0x81a4 1000 100 (Z.of_nat (length data)) 1234567 0 digest0 digest0 []) None (Some (lit "users")) data.
Abbreviation ex_parse := (apk_tar_parse (fun n => replicate n 0) (fun _ => replicate 20 0) (fun _ uid => uid) (fun _ gid => gid) ex_parser).

Lemma ex_tar_file_ok name data :
  (0 <? length name)%nat && (length name <? PATH_MAX - 10)%nat && forallb (fun c => negb (c =? 0)) name && ((length name <=? 99)%nat || negb (length name mod 512 =? 0)%nat) = true ->
  Z.of_nat (length data) <? 2 ^ 31 = true -> file_ok (ex_tar_file name data).
Proof.
  intros Hn Hd. apply andb_true_iff in Hn as [Hn H4]. apply andb_true_iff in Hn as [Hn H3]. apply andb_true_iff in Hn as [H1 H2].
  apply Nat.ltb_lt in H1, H2. apply Z.ltb_lt in Hd. split; cbn [tf_ae tf_uname tf_gname tf_data ae_mode ae_name ae_size ex_tar_file].
  - done.
  - split; cbn [ae_uid ae_gid ae_mtime default]; try lia; split; try (simpl; lia); apply (bool_decide_unpack _); by vm_compute.
  - split_and!; [by destruct name; [simpl in H1; lia |] | | done]. intros H0. rewrite forallb_forall in H3. apply list_elem_of_In in H0. by apply H3 in H0.
  - apply orb_true_iff in H4 as [H4|H4]; [left; by apply Nat.leb_le in H4 | right; by apply negb_true_iff, Nat.eqb_neq in H4].
  - done.
Qed.

Lemma tar_roundtrip_witness :
  ex_parse (concat (file_bytes <$> [ex_tar_file (lit "etc/motd") (lit "hello"); ex_tar_file (replicate 300 (chr "n")) []]) ++ (apk_tar_write_entry None None).2) [] =
    Some (Ok (0, [(lit "etc/motd", 5, lit "hello"); (replicate 300 (chr "n"), 0, [])])).
Proof.
  rewrite (tar_roundtrip (fun n => replicate n 0) (fun _ => replicate 20 0) (fun _ uid => uid) (fun _ gid => gid) ex_parser
    [ex_tar_file (lit "etc/motd") (lit "hello"); ex_tar_file (replicate 300 (chr "n")) []] []); [by vm_compute | | done].
  apply Forall_cons; split; [| apply Forall_cons; split; [| done]]; apply ex_tar_file_ok; try by vm_compute.
Defined.

(** Two files whose names have 512 bytes: the NULs after the second name are taken for the end of the
    archive, and the archive is refused. *)
Lemma tar_full_names_refused :
  let f := ex_tar_file (replicate 512 (chr "n")) (lit "x") in
  ex_parse (concat (file_bytes <$> [f; f]) ++ (apk_tar_write_entry None None).2) [] = Some (Ok (- APKE_EOF, [(replicate 512 (chr "n"), 1, lit "x")])).
Proof. by vm_compute. Qed.

Lemma ex_path_gives : gives_path (path_record 12 (lit "abc")).
Proof. by apply path_record_gives. Qed.

