(* ===== verification/Json.v ===== *)
(** * JSON output (serialize_json.c)

    The serializer gets keys, values and the starts and ends of objects and arrays, and writes JSON
    with indentation.  A failed assertion and an access outside an array are a [Fault]. *)

From S2P Require Import Prelude Blob BlobCodec.

Definition APK_SERIALIZE_MAX_NESTING : nat := 32.

(** With what was written so far. *)
Record serialize_json := mk_sj {
  sj_nest : nat;
  sj_key_printed : bool;
  sj_need_separator : bool;
  sj_need_newline : bool;
  sj_end : bytes;
  sj_out : bytes;
}.

Definition json_init : serialize_json := mk_sj 0 false false false (replicate APK_SERIALIZE_MAX_NESTING 0) [].

Definition json_write (b : bytes) (dt : serialize_json) : serialize_json :=
  mk_sj (sj_nest dt) (sj_key_printed dt) (sj_need_separator dt) (sj_need_newline dt) (sj_end dt) (sj_out dt ++ b).

(** A newline and 32 blanks, with the NUL of the array. *)
Definition json_pad : bytes := 10 :: replicate 32 (chr " ") ++ [0].

Definition ser_json_indent (item : bool) (dt : serialize_json) : outcome serialize_json :=
  let! dt :=
    if sj_key_printed dt then Ok (json_write (lit " ") dt)
    else
      let dt := if item && sj_need_separator dt then json_write (lit ",") dt else dt in
      if sj_need_newline dt then
        if negb (2 * sj_nest dt <=? length json_pad)%nat then Fault
        else if (length json_pad <? 1 + 2 * sj_nest dt)%nat then Fault
        else Ok (json_write (take (1 + 2 * sj_nest dt) json_pad) dt)
      else Ok (json_write (lit " ") dt) in
  Ok (mk_sj (sj_nest dt) false (sj_need_separator dt) (sj_need_newline dt) (sj_end dt) (sj_out dt)).

Definition ser_json_start_indent (start_brace end_brace : Z) (dt : serialize_json) : outcome serialize_json :=
  if negb (sj_nest dt <? length (sj_end dt))%nat then Fault
  else if negb (S (sj_nest dt) <? length (sj_end dt))%nat then Fault
  else Ok (mk_sj (S (sj_nest dt)) (sj_key_printed dt) false true (<[S (sj_nest dt) := end_brace]> (sj_end dt)) (sj_out dt ++ [start_brace])).

Definition ser_json_start_object (dt : serialize_json) : outcome serialize_json :=
  let! dt := if negb (sj_nest dt =? 0)%nat then ser_json_indent true dt else Ok dt in
  ser_json_start_indent (chr "{") (chr "}") dt.

Definition ser_json_start_array (dt : serialize_json) : outcome serialize_json :=
  let! dt := if negb (sj_nest dt =? 0)%nat then ser_json_indent true dt else Ok dt in
  ser_json_start_indent (chr "[") (chr "]") dt.

Definition set_need_newline (v : bool) (dt : serialize_json) : serialize_json :=
  mk_sj (sj_nest dt) (sj_key_printed dt) (sj_need_separator dt) v (sj_end dt) (sj_out dt).
Definition set_need_separator (v : bool) (dt : serialize_json) : serialize_json :=
  mk_sj (sj_nest dt) (sj_key_printed dt) v (sj_need_newline dt) (sj_end dt) (sj_out dt).
Definition set_key_printed (v : bool) (dt : serialize_json) : serialize_json :=
  mk_sj (sj_nest dt) v (sj_need_separator dt) (sj_need_newline dt) (sj_end dt) (sj_out dt).

Definition ser_json_end (dt : serialize_json) : outcome serialize_json :=
  match sj_nest dt with
  | O => Fault
  | S nest =>
      let! dt := ser_json_indent false (mk_sj nest (sj_key_printed dt) (sj_need_separator dt) true (sj_end dt) (sj_out dt)) in
      match sj_end dt !! S nest with
      | None => Fault
      | Some brace =>
          let dt := mk_sj nest (sj_key_printed dt) true false (<[S nest := 0]> (sj_end dt)) (sj_out dt ++ [brace]) in
          Ok (if (nest =? 0)%nat then json_write [10] dt else dt)
      end
  end.

Definition ser_json_comment (comment : bytes) (dt : serialize_json) : outcome serialize_json := Ok dt.

Definition ser_json_key (key : bytes) (dt : serialize_json) : outcome serialize_json :=
  let! dt := ser_json_indent true (set_need_newline true dt) in
  Ok (set_need_separator true (set_key_printed true (json_write (34 :: key ++ [34; chr ":"]) dt))).

Definition json_escape (ch : Z) : option Z :=
  if ch =? 34 then Some 34
  else if ch =? 10 then Some (chr "n")
  else if ch =? 9 then Some (chr "t")
  else if ch =? 92 then Some 92
  else None.

(** The loop over a string: [pending] are the characters that were not written yet. *)
Fixpoint json_string_loop (val pending : bytes) : bytes :=
  match val with
  | [] => pending
  | ch :: val =>
      match json_escape ch with
      | Some e => pending ++ [92; e] ++ json_string_loop val []
      | None => json_string_loop val (pending ++ [ch])
      end
  end.

Definition ser_json_string (val : bytes) (dt : serialize_json) : outcome serialize_json :=
  let! dt := ser_json_indent true (set_need_newline true dt) in
  Ok (set_need_separator true (json_write (34 :: json_string_loop val [] ++ [34]) dt)).

Definition ser_json_numeric (val : Z) (dt : serialize_json) : outcome serialize_json :=
  let! dt := ser_json_indent true (set_need_newline true dt) in
  Ok (set_need_separator true (json_write (uint_text val 10) dt)).
