(* ===== verification/JsonFacts.v ===== *)
(** * JSON output: it is JSON, and says what was serialized

    The reference is a reader of JSON texts; the driver serializes a tree of values. *)

From S2P Require Import Prelude Blob BlobCodec Json.

(** ** Values and their texts *)

Inductive json := JStr (s : bytes) | JNum (n : Z) | JArr (items : list json) | JObj (members : list (bytes * json)).

Lemma json_ind' (P : json -> Prop) :
  (forall s, P (JStr s)) -> (forall n, P (JNum n)) -> (forall l, Forall P l -> P (JArr l)) -> (forall m, Forall (fun x => P x.2) m -> P (JObj m)) ->
  forall v, P v.
Proof.
  intros Hs Hn Ha Ho. fix IH 1. intros [s|n|l|m]; [apply Hs | apply Hn | |].
  - apply Ha. induction l as [|v l IHl]; constructor; [apply IH | exact IHl].
  - apply Ho. induction m as [|[k v] m IHm]; constructor; [apply IH | exact IHm].
Qed.

Definition is_ws (c : Z) : bool := (c =? 32) || (c =? 10) || (c =? 9) || (c =? 13).

Fixpoint skip_ws (s : bytes) : bytes :=
  match s with c :: t => if is_ws c then skip_ws t else s | [] => [] end.

Definition unescape (e : Z) : option Z :=
  if e =? 34 then Some 34 else if e =? 92 then Some 92 else if e =? chr "n" then Some 10 else if e =? chr "t" then Some 9 else None.

(** The string after its opening quote: control characters must be escaped. *)
Fixpoint read_string (s : bytes) : option (bytes * bytes) :=
  match s with
  | [] => None
  | c :: t =>
      if c =? 34 then Some ([], t)
      else if c =? 92 then
        match t with
        | [] => None
        | e :: t' => c ← unescape e; '(r, rest) ← read_string t'; Some (c :: r, rest)
        end
      else if c <? 32 then None
      else '(r, rest) ← read_string t; Some (c :: r, rest)
  end.

Fixpoint read_value (fuel : nat) (s : bytes) : option (json * bytes) :=
  match fuel with
  | O => None
  | S fuel =>
      match skip_ws s with
      | [] => None
      | c :: t =>
          if c =? 34 then '(r, rest) ← read_string t; Some (JStr r, rest)
          else if c =? chr "[" then
            match skip_ws t with
            | x :: rest => if x =? chr "]" then Some (JArr [], rest) else '(l, rest) ← read_items fuel t; Some (JArr l, rest)
            | [] => None
            end
          else if c =? chr "{" then
            match skip_ws t with
            | x :: rest => if x =? chr "}" then Some (JObj [], rest) else '(m, rest) ← read_members fuel t; Some (JObj m, rest)
            | [] => None
            end
          else
            let '(n, rest) := pull_uint_loop (c :: t) 10 0 in
            if (length rest <? length (c :: t))%nat then Some (JNum n, rest) else None
      end
  end
with read_items (fuel : nat) (s : bytes) : option (list json * bytes) :=
  match fuel with
  | O => None
  | S fuel =>
      '(v, rest) ← read_value fuel s;
      match skip_ws rest with
      | x :: rest =>
          if x =? chr "]" then Some ([v], rest)
          else if x =? chr "," then '(l, rest) ← read_items fuel rest; Some (v :: l, rest)
          else None
      | [] => None
      end
  end
with read_members (fuel : nat) (s : bytes) : option (list (bytes * json) * bytes) :=
  match fuel with
  | O => None
  | S fuel =>
      match skip_ws s with
      | q :: t =>
          if negb (q =? 34) then None
          else
            '(k, rest) ← read_string t;
            match skip_ws rest with
            | x :: rest =>
                if negb (x =? chr ":") then None
                else
                  '(v, rest) ← read_value fuel rest;
                  match skip_ws rest with
                  | x :: rest =>
                      if x =? chr "}" then Some ([(k, v)], rest)
                      else if x =? chr "," then '(m, rest) ← read_members fuel rest; Some ((k, v) :: m, rest)
                      else None
                  | [] => None
                  end
            | [] => None
            end
      | [] => None
      end
  end.

(** A text is one value and blanks. *)
Definition read_json (fuel : nat) (s : bytes) : option json :=
  '(v, rest) ← read_value fuel s; match skip_ws rest with [] => Some v | _ => None end.

(** ** Serializing a tree *)

Fixpoint serialize (v : json) (dt : serialize_json) : outcome serialize_json :=
  match v with
  | JStr s => ser_json_string s dt
  | JNum n => ser_json_numeric n dt
  | JArr l => let! dt := ser_json_start_array dt in let! dt := oeach serialize l dt in ser_json_end dt
  | JObj m =>
      let! dt := ser_json_start_object dt in
      let! dt := oeach (fun x dt => let! dt := ser_json_key (fst x) dt in serialize (snd x) dt) m dt in
      ser_json_end dt
  end.

Fixpoint depth (v : json) : nat :=
  match v with
  | JStr _ | JNum _ => 0
  | JArr l => S (foldr Nat.max 0%nat (depth <$> l))
  | JObj m => S (foldr Nat.max 0%nat ((fun x => depth x.2) <$> m))
  end.

(** What JSON can express as it is: numbers of 64 bits, strings whose only control characters are the
    newline and the tabulator, and keys without characters to escape. *)
Definition text_ok (s : bytes) : Prop := Forall (fun c => 32 <= c \/ c = 10 \/ c = 9) s.
Definition key_ok (s : bytes) : Prop := Forall (fun c => 32 <= c /\ c <> 34 /\ c <> 92) s.

Inductive printable : json -> Prop :=
| printable_str s : text_ok s -> printable (JStr s)
| printable_num n : 0 <= n < 2 ^ 64 -> printable (JNum n)
| printable_arr l : Forall printable l -> printable (JArr l)
| printable_obj m : Forall (fun x => key_ok x.1 /\ printable x.2) m -> printable (JObj m).

(** ** Strings *)

Lemma string_loop_pending val pending : json_string_loop val pending = pending ++ json_string_loop val [].
Proof.
  revert pending. induction val as [|ch val IH]; intros pending; cbn [json_string_loop]; [by rewrite app_nil_r |].
  destruct (json_escape ch); [by rewrite app_nil_l |]. rewrite IH. rewrite (IH ([] ++ [ch])). by rewrite app_assoc.
Qed.

Lemma read_string_escaped val rest : text_ok val -> read_string (json_string_loop val [] ++ 34 :: rest) = Some (val, rest).
Proof.
  induction 1 as [|c val Hc Hval IH]; [done |]. cbn [json_string_loop]. unfold json_escape. destruct (Z.eqb_spec c 34) as [->|H1]; [cbn; by rewrite IH |].
  destruct (Z.eqb_spec c 10) as [->|H2]; [cbn; by rewrite IH |]. destruct (Z.eqb_spec c 9) as [->|H3]; [cbn; by rewrite IH |].
  destruct (Z.eqb_spec c 92) as [->|H4]; [cbn; by rewrite IH |].
  rewrite string_loop_pending. cbn [app read_string].
  rewrite (proj2 (Z.eqb_neq c 34)), (proj2 (Z.eqb_neq c 92)), (proj2 (Z.ltb_ge c 32)) by lia. by rewrite IH.
Qed.

Lemma read_string_key key rest : key_ok key -> read_string (key ++ 34 :: rest) = Some (key, rest).
Proof.
  induction 1 as [|c key (H1 & H2 & H3) Hkey IH]; [done |]. cbn [app read_string].
  rewrite (proj2 (Z.eqb_neq c 34)), (proj2 (Z.eqb_neq c 92)), (proj2 (Z.ltb_ge c 32)) by lia. by rewrite IH.
Qed.

(** ** Reading *)

Definition blank (w : bytes) : Prop := Forall (fun c => is_ws c = true) w.

Lemma skip_ws_blank w s : blank w -> skip_ws (w ++ s) = skip_ws s.
Proof. induction 1 as [|c w Hc Hw IH]; [done |]. cbn. by rewrite Hc. Qed.

Lemma read_value_blank fuel w s : blank w -> read_value fuel (w ++ s) = read_value fuel s.
Proof. intros Hw. destruct fuel; [done |]. cbn [read_value]. by rewrite skip_ws_blank. Qed.

(** A text that is read as the value, whatever follows, unless it is a digit. *)
Definition Reads (v : json) (b : bytes) : Prop :=
  exists N, forall fuel rest, (N <= fuel)%nat -> stops_uint 10 rest = true -> read_value fuel (b ++ rest) = Some (v, rest).

Lemma stops_blank w s : blank w -> stops_uint 10 s = true -> stops_uint 10 (w ++ s) = true.
Proof.
  intros Hw Hs. destruct Hw as [|c w Hc _]; [done |]. cbn. unfold is_ws in Hc. rewrite !orb_true_iff, !Z.eqb_eq in Hc.
  by destruct Hc as [[[->| ->]| ->]| ->].
Qed.

Lemma read_no_bracket fuel s x r : skip_ws s = x :: r -> x = chr "]" \/ x = chr "}" -> read_value fuel s = None.
Proof. intros Hs Hx. destruct fuel; [done |]. cbn [read_value]. rewrite Hs.
  assert (pull_uint_loop (x :: r) 10 0 = (0, x :: r)) as -> by (by destruct Hx as [-> | ->]).
  rewrite Nat.ltb_irrefl. by destruct Hx as [-> | ->].
Qed.

Lemma read_some fuel s v r : read_value fuel s = Some (v, r) -> exists c t, skip_ws s = c :: t /\ c <> chr "]" /\ c <> chr "}".
Proof.
  intros Hv. destruct (skip_ws s) as [|c t] eqn:Es; [destruct fuel; [done |]; cbn [read_value] in Hv; by rewrite Es in Hv |].
  exists c, t. split_and!; [done | |]; intros ->; by rewrite (read_no_bracket fuel s _ t Es) in Hv by auto.
Qed.

(** The texts of items and of members, between their brackets. *)
Inductive items_text : list json -> bytes -> Prop :=
| items_one w v b : blank w -> Reads v b -> items_text [v] (w ++ b)
| items_more w v b l t : blank w -> Reads v b -> items_text l t -> items_text (v :: l) (w ++ b ++ lit "," ++ t).

Definition key_text (k : bytes) : bytes := 34 :: k ++ [34; chr ":"].

Inductive members_text : list (bytes * json) -> bytes -> Prop :=
| members_one w k w' v b : blank w -> key_ok k -> blank w' -> Reads v b -> members_text [(k, v)] (w ++ key_text k ++ w' ++ b)
| members_more w k w' v b m t : blank w -> key_ok k -> blank w' -> Reads v b -> members_text m t ->
    members_text ((k, v) :: m) (w ++ key_text k ++ w' ++ b ++ lit "," ++ t).

Lemma read_items_text l t : items_text l t ->
  exists N, forall fuel w rest, (N <= fuel)%nat -> blank w -> read_items fuel (t ++ w ++ chr "]" :: rest) = Some (l, rest).
Proof.
  induction 1 as [w0 v b Hw0 [N Hb]|w0 v b l t Hw0 [N Hb] Ht [M IH]].
  - exists (S N). intros [|fuel] w rest Hf Hw; [lia |]. cbn [read_items]. rewrite <- app_assoc, read_value_blank by done.
    rewrite Hb by (try lia; by apply stops_blank). cbn. by rewrite skip_ws_blank.
  - exists (S (Nat.max N M)). intros [|fuel] w rest Hf Hw; [lia |]. cbn [read_items]. rewrite <- !app_assoc, read_value_blank by done.
    rewrite Hb by (try lia; done). cbn. by rewrite IH by (try lia; done).
Qed.

Lemma read_members_text m t : members_text m t ->
  exists N, forall fuel w rest, (N <= fuel)%nat -> blank w -> read_members fuel (t ++ w ++ chr "}" :: rest) = Some (m, rest).
Proof.
  assert (forall fuel w k rest, blank w -> key_ok k -> read_members (S fuel) (w ++ key_text k ++ rest) =
    '(v, rest) ← read_value fuel rest;
    match skip_ws rest with
    | x :: rest => if x =? chr "}" then Some ([(k, v)], rest) else if x =? chr "," then '(m, rest) ← read_members fuel rest; Some ((k, v) :: m, rest) else None
    | [] => None
    end) as Hkey.
  { intros fuel w k rest Hw Hk. cbn [read_members]. rewrite skip_ws_blank by done. unfold key_text. cbn [app skip_ws]. change (is_ws 34) with false. cbv iota. cbn [Z.eqb Pos.eqb negb].
    rewrite <- app_assoc. cbn [app]. rewrite read_string_key by done. done. }
  induction 1 as [w0 k w1 v b Hw0 Hk Hw1 [N Hb]|w0 k w1 v b m t Hw0 Hk Hw1 [N Hb] Ht [M IH]].
  - exists (S N). intros [|fuel] w rest Hf Hw; [lia |]. rewrite <- !app_assoc, Hkey, read_value_blank by done.
    rewrite Hb by (try lia; by apply stops_blank). cbn. by rewrite skip_ws_blank.
  - exists (S (Nat.max N M)). intros [|fuel] w rest Hf Hw; [lia |]. rewrite <- !app_assoc, Hkey, read_value_blank by done.
    rewrite Hb by (try lia; done). cbn. by rewrite IH by (try lia; done).
Qed.

Lemma reads_str s : text_ok s -> Reads (JStr s) (34 :: json_string_loop s [] ++ [34]).
Proof.
  intros Hs. exists 1%nat. intros [|fuel] rest Hf _; [lia |]. cbn [app read_value skip_ws]. change (is_ws 34) with false. cbv iota.
  cbn [Z.eqb Pos.eqb]. rewrite <- app_assoc. cbn [app]. by rewrite read_string_escaped.
Qed.

Lemma reads_num n : 0 <= n < 2 ^ 64 -> Reads (JNum n) (uint_text n 10).
Proof.
  intros Hn. exists 1%nat. intros [|fuel] rest Hf Hr; [lia |]. destruct (uint_text_pull n 10 rest) as [Hl Hp]; [lia | done | done |].
  destruct (uint_text n 10) as [|c t] eqn:Et; [simpl in Hl; lia |]. cbn [app] in *. unfold apk_blob_pull_uint in Hp.
  destruct (pull_uint_loop (c :: t ++ rest) 10 0) as [n' r'] eqn:Eu. injection Hp as -> ->.
  assert (c <> 0 /\ dx c < 10) as [Hc Hdx].
  { cbn [pull_uint_loop] in Eu. destruct (Z.eqb_spec c 0); [injection Eu as _ Eu; apply (f_equal length) in Eu; simpl in Eu; rewrite length_app in Eu; lia |].
    destruct (Z.leb_spec 10 (dx c)); [injection Eu as _ Eu; apply (f_equal length) in Eu; simpl in Eu; rewrite length_app in Eu; lia |]. done. }
  assert (forall x, 10 <= dx x -> c <> x) as Hne by (intros x Hx ->; lia).
  cbn [read_value skip_ws]. unfold is_ws.
  rewrite (proj2 (Z.eqb_neq c 32)), (proj2 (Z.eqb_neq c 10)), (proj2 (Z.eqb_neq c 9)), (proj2 (Z.eqb_neq c 13)) by (apply Hne; by vm_compute). cbn [orb].
  rewrite (proj2 (Z.eqb_neq c 34)), (proj2 (Z.eqb_neq c (chr "["))), (proj2 (Z.eqb_neq c (chr "{"))) by (apply Hne; by vm_compute).
  rewrite Eu. rewrite (proj2 (Nat.ltb_lt _ _)); [done |]. cbn [length]. rewrite length_app. lia.
Qed.

Lemma reads_arr l t w : items_text l t -> blank w -> Reads (JArr l) (chr "[" :: t ++ w ++ lit "]").
Proof.
  intros Ht Hw. destruct (read_items_text l t Ht) as [N HN]. exists (S (S N)). intros [|fuel] rest Hf _; [lia |].
  cbn [app read_value skip_ws]. change (is_ws (chr "[")) with false. cbv iota. change (chr "[" =? 34) with false. change (chr "[" =? chr "[") with true. cbv iota.
  rewrite <- !app_assoc. cbn [app]. specialize (HN fuel w rest ltac:(lia) Hw).
  assert (exists c r, skip_ws (t ++ w ++ chr "]" :: rest) = c :: r /\ c <> chr "]") as (c & r & -> & Hc).
  { destruct fuel as [|fuel]; [done |]. cbn [read_items] in HN. destruct (read_value fuel _) as [[v r]|] eqn:E; [| done].
    apply read_some in E as (c & r' & ? & ? & _). by exists c, r'. }
  rewrite (proj2 (Z.eqb_neq c (chr "]"))) by done. by rewrite HN.
Qed.

Lemma reads_obj m t w : members_text m t -> blank w -> Reads (JObj m) (chr "{" :: t ++ w ++ lit "}").
Proof.
  intros Ht Hw. destruct (read_members_text m t Ht) as [N HN]. exists (S (S N)). intros [|fuel] rest Hf _; [lia |].
  cbn [app read_value skip_ws]. change (is_ws (chr "{")) with false. cbv iota. change (chr "{" =? 34) with false. change (chr "{" =? chr "[") with false.
  change (chr "{" =? chr "{") with true. cbv iota.
  rewrite <- !app_assoc. cbn [app]. specialize (HN fuel w rest ltac:(lia) Hw).
  assert (exists c r, skip_ws (t ++ w ++ chr "}" :: rest) = c :: r /\ c <> chr "}") as (c & r & -> & Hc).
  { destruct fuel as [|fuel]; [done |]. cbn [read_members] in HN. destruct (skip_ws _) as [|c r]; [done |].
    destruct (Z.eqb_spec c 34) as [->|]; [by exists 34, r | done]. }
  rewrite (proj2 (Z.eqb_neq c (chr "}"))) by done. by rewrite HN.
Qed.

Lemma reads_empty w : blank w -> Reads (JArr []) (chr "[" :: w ++ lit "]") /\ Reads (JObj []) (chr "{" :: w ++ lit "}").
Proof.
  intros Hw. split; exists 1%nat; intros [|fuel] rest Hf _; try lia; cbn [app read_value skip_ws].
  - change (is_ws (chr "[")) with false. cbv iota. change (chr "[" =? 34) with false. change (chr "[" =? chr "[") with true. cbv iota.
    rewrite <- app_assoc, skip_ws_blank by done. done.
  - change (is_ws (chr "{")) with false. cbv iota. change (chr "{" =? 34) with false. change (chr "{" =? chr "[") with false. change (chr "{" =? chr "{") with true. cbv iota.
    rewrite <- app_assoc, skip_ws_blank by done. done.
Qed.

(** ** Writing *)

(** The separator an item starts with. *)
Definition lead (dt : serialize_json) : bytes := if negb (sj_key_printed dt) && sj_need_separator dt then lit "," else [].

(** Between two values at the same nesting: only the text grows and the enclosing brackets are kept. *)
Record closed (dt dt' : serialize_json) : Prop := {
  closed_nest : sj_nest dt' = sj_nest dt;
  closed_key : sj_key_printed dt' = false;
  closed_sep : sj_need_separator dt' = true;
  closed_length : length (sj_end dt') = length (sj_end dt);
  closed_end : forall i, (i <= sj_nest dt)%nat -> sj_end dt' !! i = sj_end dt !! i;
}.

Lemma closed_trans dt1 dt2 dt3 : closed dt1 dt2 -> closed dt2 dt3 -> closed dt1 dt3.
Proof.
  intros [] []. constructor; try congruence. intros i Hi. rewrite closed_end1 by lia. by apply closed_end0.
Qed.

Lemma blank_pad n : blank (take n (10 :: replicate 32 (chr " "))).
Proof. apply Forall_take, Forall_cons. split; [done |]. by apply Forall_replicate. Qed.

Lemma indent_spec item dt : (sj_nest dt <= 16)%nat ->
  exists w, blank w /\ ser_json_indent item dt =
    Ok (mk_sj (sj_nest dt) false (sj_need_separator dt) (sj_need_newline dt) (sj_end dt) (sj_out dt ++ (if item then lead dt else []) ++ w)).
Proof.
  intros Hn. unfold ser_json_indent, lead. assert (length json_pad = 34%nat) as Hlen by done.
  assert (blank (lit " ")) as Hsp by (by repeat constructor). assert (blank (take (1 + 2 * sj_nest dt) json_pad)) as Hpad.
  { change json_pad with ((10 :: replicate 32 (chr " ")) ++ [0]). rewrite take_app_le by (rewrite length_cons, length_replicate; lia). apply blank_pad. }
  destruct (sj_key_printed dt); cbn [negb andb].
  { exists (lit " "). split; [done |]. by destruct item. }
  destruct item; cbn [andb]; [destruct (sj_need_separator dt) eqn:Es |]; unfold json_write; cbn [sj_need_newline sj_nest obind];
    (destruct (sj_need_newline dt); [rewrite Hlen, (proj2 (Nat.leb_le _ _)), (proj2 (Nat.ltb_ge _ _)) by lia |]); cbn [negb obind sj_out sj_nest sj_end sj_need_separator sj_need_newline];
    solve [exists (take (1 + 2 * sj_nest dt) json_pad); split; [exact Hpad | by rewrite ?Es, <- ?app_assoc]
      | exists (lit " "); split; [exact Hsp | by rewrite ?Es, <- ?app_assoc]].
Qed.

Lemma start_spec s e dt : (S (sj_nest dt) < length (sj_end dt))%nat ->
  ser_json_start_indent s e dt = Ok (mk_sj (S (sj_nest dt)) (sj_key_printed dt) false true (<[S (sj_nest dt) := e]> (sj_end dt)) (sj_out dt ++ [s])).
Proof. intros H. unfold ser_json_start_indent. by rewrite (proj2 (Nat.ltb_lt _ _)), (proj2 (Nat.ltb_lt _ _)) by lia. Qed.

Lemma end_spec dt n brace : sj_nest dt = S n -> (n <= 16)%nat -> sj_end dt !! S n = Some brace ->
  exists w nl, blank w /\ blank nl /\ (n <> 0%nat -> nl = []) /\
    ser_json_end dt = Ok (mk_sj n false true false (<[S n := 0]> (sj_end dt)) (sj_out dt ++ w ++ [brace] ++ nl)).
Proof.
  intros Hnest Hn He. unfold ser_json_end. rewrite Hnest.
  destruct (indent_spec false (mk_sj n (sj_key_printed dt) (sj_need_separator dt) true (sj_end dt) (sj_out dt)) Hn) as (w & Hw & ->). cbn [obind sj_end]. rewrite He.
  cbn [sj_nest sj_out sj_end sj_key_printed]. destruct (Nat.eqb_spec n 0) as [->|Hn0].
  - exists w, [10]. split_and!; [done | by repeat constructor | done |]. unfold json_write. cbn. by rewrite <- !app_assoc.
  - exists w, []. split_and!; [done | constructor | done |]. by rewrite <- !app_assoc, app_nil_r.
Qed.

(** One value inside of a container: its separator, blanks and its text. *)
Definition writes_value (v : json) : Prop := forall dt,
  (1 <= sj_nest dt)%nat -> (sj_nest dt + depth v <= 16)%nat -> length (sj_end dt) = APK_SERIALIZE_MAX_NESTING ->
  exists dt' w b, serialize v dt = Ok dt' /\ closed dt dt' /\ blank w /\ Reads v b /\ sj_out dt' = sj_out dt ++ lead dt ++ w ++ b.

Lemma items_spec l : Forall writes_value l -> l <> [] -> forall dt,
  (1 <= sj_nest dt)%nat -> (sj_nest dt + foldr Nat.max 0 (depth <$> l) <= 16)%nat -> length (sj_end dt) = APK_SERIALIZE_MAX_NESTING ->
  exists dt' t, oeach serialize l dt = Ok dt' /\ closed dt dt' /\ items_text l t /\ sj_out dt' = sj_out dt ++ lead dt ++ t.
Proof.
  induction 1 as [|v l Hv Hl IH]; intros Hne dt Hn Hd He; [done |]. rewrite fmap_cons in Hd. cbn [foldr] in Hd.
  destruct (Hv dt) as (dt1 & w & b & E1 & C1 & Hw & Hb & Hout); [lia | lia | done |]. cbn [oeach]. rewrite E1. cbn [obind].
  destruct l as [|v' l]; [exists dt1, (w ++ b); split_and!; [done.. | by constructor | done] |].
  destruct (IH ltac:(done) dt1) as (dt2 & t & E2 & C2 & Ht & Hout2); [rewrite (closed_nest _ _ C1); lia.. | by rewrite (closed_length _ _ C1) |].
  exists dt2, (w ++ b ++ lit "," ++ t). split_and!; [done | by eapply closed_trans | by constructor |].
  rewrite Hout2, Hout. unfold lead at 2. rewrite (closed_key _ _ C1), (closed_sep _ _ C1). cbn [negb andb]. by rewrite <- !app_assoc.
Qed.

Lemma key_spec k dt : (sj_nest dt <= 16)%nat ->
  exists w, blank w /\ ser_json_key k dt = Ok (mk_sj (sj_nest dt) true true true (sj_end dt) (sj_out dt ++ lead dt ++ w ++ key_text k)).
Proof.
  intros Hn. destruct (indent_spec true (set_need_newline true dt) Hn) as (w & Hw & E). exists w. split; [done |].
  unfold ser_json_key. rewrite E. unfold set_need_separator, set_key_printed, json_write, key_text. cbn [obind sj_nest sj_end sj_out sj_need_newline set_need_newline].
  change (lead (set_need_newline true dt)) with (lead dt). by rewrite <- !app_assoc.
Qed.

Lemma members_spec m : Forall (fun x => key_ok x.1 /\ writes_value x.2) m -> m <> [] -> forall dt,
  (1 <= sj_nest dt)%nat -> (sj_nest dt + foldr Nat.max 0 ((fun x => depth x.2) <$> m) <= 16)%nat -> length (sj_end dt) = APK_SERIALIZE_MAX_NESTING ->
  exists dt' t, oeach (fun x dt => let! dt := ser_json_key (fst x) dt in serialize (snd x) dt) m dt = Ok dt' /\
    closed dt dt' /\ members_text m t /\ sj_out dt' = sj_out dt ++ lead dt ++ t.
Proof.
  induction 1 as [|[k v] m [Hk Hv] Hm IH]; intros Hne dt Hn Hd He; [done |]. rewrite fmap_cons in Hd. cbn [foldr snd] in Hd. cbn [fst snd] in Hk, Hv.
  destruct (key_spec k dt) as (w0 & Hw0 & Ek); [lia |]. cbn [oeach fst snd]. rewrite Ek. cbn [obind].
  destruct (Hv (mk_sj (sj_nest dt) true true true (sj_end dt) (sj_out dt ++ lead dt ++ w0 ++ key_text k))) as (dt1 & w & b & E1 & C1 & Hw & Hb & Hout); [cbn; lia.. | done |].
  rewrite E1. cbn [obind]. unfold lead at 2 in Hout. cbn [sj_key_printed negb andb sj_out app] in Hout. rewrite <- !app_assoc in Hout.
  assert (closed dt dt1) as C1' by (by destruct C1).
  destruct m as [|x m]; [exists dt1, (w0 ++ key_text k ++ w ++ b); split_and!; [done.. | by constructor | done] |].
  destruct (IH ltac:(done) dt1) as (dt2 & t & E2 & C2 & Ht & Hout2); [rewrite (closed_nest _ _ C1'); lia.. | by rewrite (closed_length _ _ C1') |].
  exists dt2, (w0 ++ key_text k ++ w ++ b ++ lit "," ++ t). split_and!; [done | by eapply closed_trans | by constructor |].
  rewrite Hout2, Hout. unfold lead at 2. rewrite (closed_key _ _ C1), (closed_sep _ _ C1). cbn [negb andb]. by rewrite <- !app_assoc.
Qed.

(** A container: the brackets around what its body writes. *)
Lemma container_spec s e dt (body : serialize_json -> outcome serialize_json) (Q : bytes -> Prop) :
  (sj_nest dt <= 16)%nat -> sj_key_printed dt = false -> length (sj_end dt) = APK_SERIALIZE_MAX_NESTING ->
  (forall dt1, sj_nest dt1 = S (sj_nest dt) -> lead dt1 = [] -> length (sj_end dt1) = APK_SERIALIZE_MAX_NESTING ->
    exists dt2 t, body dt1 = Ok dt2 /\ (dt2 = dt1 \/ closed dt1 dt2) /\ Q t /\ sj_out dt2 = sj_out dt1 ++ t) ->
  exists dt' t w nl, (let! dt := ser_json_start_indent s e dt in let! dt := body dt in ser_json_end dt) = Ok dt' /\
    closed dt dt' /\ Q t /\ blank w /\ blank nl /\ (sj_nest dt <> 0%nat -> nl = []) /\ sj_out dt' = sj_out dt ++ (s :: t ++ w ++ [e]) ++ nl.
Proof.
  intros Hn Hk He Hbody. rewrite start_spec by (rewrite He; unfold APK_SERIALIZE_MAX_NESTING; lia). cbn [obind].
  match goal with |- context [body ?x] => set (dt1 := x) end.
  destruct (Hbody dt1) as (dt2 & t & Eb & Hdt2 & Ht & Hout); [done | by subst dt1; unfold lead; cbn; rewrite Hk | by subst dt1; cbn; rewrite length_insert |].
  rewrite Eb. cbn [obind].
  assert (sj_nest dt2 = S (sj_nest dt) /\ length (sj_end dt2) = length (sj_end dt) /\
    forall i, (i <= S (sj_nest dt))%nat -> sj_end dt2 !! i = <[S (sj_nest dt) := e]> (sj_end dt) !! i) as (Hn2 & Hl2 & He2).
  { destruct Hdt2 as [-> | []]; [by subst dt1; cbn; rewrite length_insert |]. subst dt1. cbn in *. by rewrite length_insert in *. }
  destruct (end_spec dt2 (sj_nest dt) e) as (w & nl & Hw & Hnl & Hnl0 & ->); [done | done | rewrite He2, list_lookup_insert_eq by (rewrite ?He; unfold APK_SERIALIZE_MAX_NESTING; lia); done |].
  eexists; exists t, w, nl. split_and!; [done | | done.. |].
  - constructor; cbn; [done.. | by rewrite length_insert |]. intros i Hi. rewrite list_lookup_insert_ne, He2, list_lookup_insert_ne by lia. done.
  - cbn [sj_out]. rewrite Hout. subst dt1. cbn [sj_out app]. rewrite <- !app_assoc. cbn [app]. by rewrite <- ?app_assoc.
Qed.

(** What a container's text must be for the reader. *)
Lemma array_body l dt : Forall writes_value l -> (S (sj_nest dt) + foldr Nat.max 0 (depth <$> l) <= 16)%nat ->
  forall dt1, sj_nest dt1 = S (sj_nest dt) -> lead dt1 = [] -> length (sj_end dt1) = APK_SERIALIZE_MAX_NESTING ->
    exists dt2 t, oeach serialize l dt1 = Ok dt2 /\ (dt2 = dt1 \/ closed dt1 dt2) /\
      (forall w, blank w -> Reads (JArr l) (chr "[" :: t ++ w ++ lit "]")) /\ sj_out dt2 = sj_out dt1 ++ t.
Proof.
  intros Hl Hd dt1 Hn Hlead He. destruct (decide (l = [])) as [->|Hne].
  { exists dt1, []. split_and!; [done | by left | intros w Hw; by apply reads_empty | by rewrite app_nil_r]. }
  destruct (items_spec l Hl Hne dt1) as (dt2 & t & ? & ? & ? & Hout); [lia.. | done |].
  exists dt2, t. split_and!; [done | by right | intros w Hw; by apply reads_arr | by rewrite Hout, Hlead].
Qed.

Lemma object_body m dt : Forall (fun x => key_ok x.1 /\ writes_value x.2) m -> (S (sj_nest dt) + foldr Nat.max 0 ((fun x => depth x.2) <$> m) <= 16)%nat ->
  forall dt1, sj_nest dt1 = S (sj_nest dt) -> lead dt1 = [] -> length (sj_end dt1) = APK_SERIALIZE_MAX_NESTING ->
    exists dt2 t, oeach (fun x dt => let! dt := ser_json_key (fst x) dt in serialize (snd x) dt) m dt1 = Ok dt2 /\ (dt2 = dt1 \/ closed dt1 dt2) /\
      (forall w, blank w -> Reads (JObj m) (chr "{" :: t ++ w ++ lit "}")) /\ sj_out dt2 = sj_out dt1 ++ t.
Proof.
  intros Hm Hd dt1 Hn Hlead He. destruct (decide (m = [])) as [->|Hne].
  { exists dt1, []. split_and!; [done | by left | intros w Hw; by apply reads_empty | by rewrite app_nil_r]. }
  destruct (members_spec m Hm Hne dt1) as (dt2 & t & ? & ? & ? & Hout); [lia.. | done |].
  exists dt2, t. split_and!; [done | by right | intros w Hw; by apply reads_obj | by rewrite Hout, Hlead].
Qed.

Lemma scalar_writes v b dt : serialize v dt = (let! dt := ser_json_indent true (set_need_newline true dt) in Ok (set_need_separator true (json_write b dt))) ->
  Reads v b -> (sj_nest dt <= 16)%nat ->
  exists dt' w b, serialize v dt = Ok dt' /\ closed dt dt' /\ blank w /\ Reads v b /\ sj_out dt' = sj_out dt ++ lead dt ++ w ++ b.
Proof.
  intros -> Hb Hn. destruct (indent_spec true (set_need_newline true dt) Hn) as (w & Hw & ->). cbn [obind].
  eexists; exists w, b. split_and!; [done | by constructor | done | done |]. cbn [set_need_separator json_write sj_out set_need_newline].
  change (lead (set_need_newline true dt)) with (lead dt). by rewrite <- !app_assoc.
Qed.

Lemma indented_writes v s e dt body Q :
  serialize v dt = (let! dt := ser_json_indent true dt in let! dt := ser_json_start_indent s e dt in let! dt := body dt in ser_json_end dt) ->
  (1 <= sj_nest dt <= 16)%nat -> length (sj_end dt) = APK_SERIALIZE_MAX_NESTING ->
  (forall dt1, sj_nest dt1 = S (sj_nest dt) -> lead dt1 = [] -> length (sj_end dt1) = APK_SERIALIZE_MAX_NESTING ->
    exists dt2 t, body dt1 = Ok dt2 /\ (dt2 = dt1 \/ closed dt1 dt2) /\ Q t /\ sj_out dt2 = sj_out dt1 ++ t) ->
  (forall t w, Q t -> blank w -> Reads v (s :: t ++ w ++ [e])) ->
  exists dt' w b, serialize v dt = Ok dt' /\ closed dt dt' /\ blank w /\ Reads v b /\ sj_out dt' = sj_out dt ++ lead dt ++ w ++ b.
Proof.
  intros -> Hn He Hbody HQ. destruct (indent_spec true dt ltac:(lia)) as (w & Hw & ->). cbn [obind].
  match goal with |- context [ser_json_start_indent s e ?x] => set (dt0 := x) end.
  destruct (container_spec s e dt0 body Q) as (dt' & t & w' & nl & E & C & Ht & Hw' & _ & Hnl & Hout); [cbn; lia | done | done | exact Hbody |].
  exists dt', w, (s :: t ++ w' ++ [e]). split_and!; [exact E | by destruct C | done | by apply HQ |].
  rewrite Hout, Hnl by (cbn; lia). subst dt0. cbn [sj_out]. by rewrite app_nil_r, <- !app_assoc.
Qed.

Lemma start_nested s e dt (k : serialize_json -> outcome serialize_json) : (1 <= sj_nest dt)%nat ->
  (let! dt := (let! dt := if negb (sj_nest dt =? 0)%nat then ser_json_indent true dt else Ok dt in ser_json_start_indent s e dt) in k dt) =
  (let! dt := ser_json_indent true dt in let! dt := ser_json_start_indent s e dt in k dt).
Proof. intros Hn. rewrite (proj2 (Nat.eqb_neq _ _)) by lia. cbn [negb]. by destruct (ser_json_indent true dt). Qed.

Lemma value_writes v : printable v -> writes_value v.
Proof.
  induction v as [s|n|l IH|m IH] using json_ind'; inversion 1 as [? Hs|? Hr|? Hl|? Hm]; subst; intros dt Hn Hd He; cbn [depth] in Hd.
  - apply (scalar_writes _ (34 :: json_string_loop s [] ++ [34])); [done | by apply reads_str | lia].
  - apply (scalar_writes _ (uint_text n 10)); [done | by apply reads_num | lia].
  - eapply (indented_writes _ (chr "[") (chr "]")); [exact (start_nested _ _ _ _ Hn) | lia | done | apply array_body; [| lia] | intros t w Ht Hw; by apply Ht].
    rewrite Forall_forall in *. eauto.
  - eapply (indented_writes _ (chr "{") (chr "}")); [exact (start_nested _ _ _ _ Hn) | lia | done | apply object_body; [| lia] | intros t w Ht Hw; by apply Ht].
    rewrite Forall_forall in *. intros x Hx. split; [by apply Hm |]. apply IH; [done |]. by apply Hm.
Qed.

(** ** Whole texts *)

Definition is_container (v : json) : bool := match v with JArr _ | JObj _ => true | _ => false end.

Lemma top_writes v s e body Q :
  serialize v json_init = (let! dt := ser_json_start_indent s e json_init in let! dt := body dt in ser_json_end dt) ->
  (forall dt1, sj_nest dt1 = 1%nat -> lead dt1 = [] -> length (sj_end dt1) = APK_SERIALIZE_MAX_NESTING ->
    exists dt2 t, body dt1 = Ok dt2 /\ (dt2 = dt1 \/ closed dt1 dt2) /\ Q t /\ sj_out dt2 = sj_out dt1 ++ t) ->
  (forall t w, Q t -> blank w -> Reads v (s :: t ++ w ++ [e])) ->
  exists dt, serialize v json_init = Ok dt /\ exists fuel, read_json fuel (sj_out dt) = Some v.
Proof.
  intros -> Hbody HQ. destruct (container_spec s e json_init body Q) as (dt' & t & w & nl & E & _ & Ht & Hw & Hnl & _ & Hout); [cbn; lia | done | done | exact Hbody |].
  exists dt'. split; [exact E |]. destruct (HQ t w Ht Hw) as [N HN]. exists N. unfold read_json. rewrite Hout. cbn [json_init sj_out app].
  change (s :: (t ++ w ++ [e]) ++ nl) with ((s :: t ++ w ++ [e]) ++ nl).
  rewrite HN by (try lia; rewrite <- (app_nil_r nl); by apply stops_blank). cbn. rewrite <- (app_nil_r nl). by rewrite skip_ws_blank.
Qed.

(** C33: serializing an object or an array of at most 16 levels of nesting as JSON works, and a reader of
    JSON gets the values, keys and their order back from the text: the separators, brackets and
    indentation are right whatever was written before, and so are the escapes of quotes, backslashes, newlines and
    tabulators in strings.  Strings have no other control characters, which are not escaped ([json_control_character]),
    and keys no character that would have to be escaped, since keys are written as they are ([printable]). *)
Theorem json_roundtrip v : is_container v = true -> printable v -> (depth v <= 16)%nat ->
  exists dt, serialize v json_init = Ok dt /\ exists fuel, read_json fuel (sj_out dt) = Some v.
Proof.
  intros Hc Hv Hd. destruct v as [| |l|m]; [done | done | |]; inversion Hv as [| |? Hl|? Hm]; subst; cbn [depth] in Hd.
  - eapply (top_writes _ (chr "[") (chr "]")); [done | apply (array_body l json_init); [| exact Hd] | intros t w Ht Hw; by apply Ht].
    eapply Forall_impl; [exact Hl | apply value_writes].
  - eapply (top_writes _ (chr "{") (chr "}")); [done | apply (object_body m json_init); [| exact Hd] | intros t w Ht Hw; by apply Ht].
    eapply Forall_impl; [exact Hm |]. intros x [Hk Hx]. split; [done | by apply value_writes].
Qed.

(** An object with a string to escape, a list and an empty object. *)
Definition json_example : json :=
  JObj [(lit "name", JStr [97; 34; 10; 92]); (lit "files", JArr [JNum 0; JNum 4096; JObj []])].

Lemma json_roundtrip_witness : exists dt, serialize json_example json_init = Ok dt /\ exists fuel, read_json fuel (sj_out dt) = Some json_example.
Proof.
  apply (json_roundtrip json_example); [reflexivity | | cbn; lia].
  repeat first [lia | constructor].
Defined.

(** Nesting above 16 passes the assertion on the padding and reads behind it. *)
Fixpoint nested (n : nat) : json := match n with O => JStr [] | S n => JArr [nested n] end.

Lemma json_nesting_overread : serialize (nested 16) json_init <> Fault /\ serialize (nested 17) json_init = Fault.
Proof. split; by vm_compute. Qed.

(** Control characters are not escaped: the text is not JSON. *)
Lemma json_control_character : exists dt, serialize (JArr [JStr [27]]) json_init = Ok dt /\ forall fuel, read_json fuel (sj_out dt) = None.
Proof.
  eexists. split; [by vm_compute |]. intros fuel. cbn [sj_out]. do 3 (destruct fuel as [|fuel]; [done |]). done.
Qed.
