(* ===== verification/Adb.v ===== *)
(** * ADB values (adb.c, adb.h)

    An ADB is one append-only byte buffer.  A value is a 32-bit word: the upper four bits are
    its type, the others an immediate number or the offset of its data in the buffer.  This
    file models the reader (functions adb_r and adb_ro), the writer with its table of data
    already written (adb_w) and the building of objects and arrays (adb_wo, adb_wa) as far as
    they do not depend on a schema.

    A word is kept as the number it encodes in little endian order; the host is little endian
    with 64-bit sizes.  The database and the schema of an object are arguments of the operations on it.
    A failed assertion is [Fault], like an access outside an object. *)

From S2P Require Import Prelude Blob BlobCodec.

(** ** Words *)

Abbreviation adb_val := Z.

Definition ADB_TYPE_SPECIAL : Z := 0x00000000.
Definition ADB_TYPE_INT : Z := 0x10000000.
Definition ADB_TYPE_INT_32 : Z := 0x20000000.
Definition ADB_TYPE_INT_64 : Z := 0x30000000.
Definition ADB_TYPE_BLOB_8 : Z := 0x80000000.
Definition ADB_TYPE_BLOB_16 : Z := 0x90000000.
Definition ADB_TYPE_BLOB_32 : Z := 0xa0000000.
Definition ADB_TYPE_ARRAY : Z := 0xd0000000.
Definition ADB_TYPE_OBJECT : Z := 0xe0000000.
Definition ADB_TYPE_ERROR : Z := 0xf0000000.
Definition ADB_TYPE_MASK : Z := 0xf0000000.
Definition ADB_VALUE_MASK : Z := 0x0fffffff.

Definition ADB_VAL_TYPE (x : adb_val) : Z := Z.land x ADB_TYPE_MASK.
Definition ADB_VAL_VALUE (x : adb_val) : Z := Z.land x ADB_VALUE_MASK.
Definition ADB_IS_ERROR (x : adb_val) : bool := ADB_VAL_TYPE x =? ADB_TYPE_ERROR.
Definition ADB_VAL (type val : Z) : adb_val := u32 (Z.lor type val).
Definition ADB_ERROR (val : Z) : adb_val := ADB_VAL ADB_TYPE_ERROR val.
Definition ADB_NULL : adb_val := 0.

Definition ADB_HDR_SIZE : Z := 8.

(** Little endian numbers of [n] bytes. *)
Fixpoint le_bytes (n : nat) (x : Z) : bytes :=
  match n with
  | O => []
  | S n' => x mod 256 :: le_bytes n' (x / 256)
  end.

Fixpoint le_value (l : bytes) : Z :=
  match l with
  | [] => 0
  | b :: l' => b + 256 * le_value l'
  end.

(** The [n] bytes of a buffer at an offset. *)
Definition fetch (buf : bytes) (offs n : Z) : outcome bytes :=
  if (0 <=? offs) && (0 <=? n) && (offs + n <=? Z.of_nat (length buf))
  then Ok (take (Z.to_nat n) (drop (Z.to_nat offs) buf)) else Fault.

Definition load (n : Z) (buf : bytes) (offs : Z) : outcome Z :=
  let! b := fetch buf offs n in Ok (le_value b).

(** Four bytes each. *)
Fixpoint words (n : nat) (l : bytes) : list Z :=
  match n with
  | O => []
  | S n' => le_value (take 4 l) :: words n' (drop 4 l)
  end.
Definition word_bytes (l : list Z) : bytes := concat (le_bytes 4 <$> l).

(** ** The database *)

Record adb_w_bucket_entry := mk_entry { e_hash : Z; e_offs : Z; e_len : Z }.
Definition no_entry : adb_w_bucket_entry := mk_entry 0 0 0.
Definition BUCKET_ENTRIES : nat := 40.

(** [bucket] holds for every list of [struct adb_w_bucket] the concatenation of its arrays. *)
Record adb := mk_adb {
  adb_adb : blob; adb_schema : Z; num_buckets : Z; alloc_len : Z; no_cache : Z;
  bucket : list (list adb_w_bucket_entry) }.

Definition adb_zero : adb := mk_adb None 0 0 0 0 [].
Definition adb_data (db : adb) : bytes := bdata (adb_adb db).
Definition adb_len (db : adb) : Z := Z.of_nat (length (adb_data db)).
Definition set_data (data : bytes) (db : adb) : adb :=
  mk_adb (Some data) (adb_schema db) (num_buckets db) (alloc_len db) (no_cache db) (bucket db).
Definition set_alloc (n : Z) (db : adb) : adb :=
  mk_adb (adb_adb db) (adb_schema db) (num_buckets db) n (no_cache db) (bucket db).
Definition set_cache (n : Z) (db : adb) : adb :=
  mk_adb (adb_adb db) (adb_schema db) (num_buckets db) (alloc_len db) n (bucket db).
Definition set_bucket (i : nat) (l : list adb_w_bucket_entry) (db : adb) : adb :=
  mk_adb (adb_adb db) (adb_schema db) (num_buckets db) (alloc_len db) (no_cache db) (<[i := l]> (bucket db)).

(** ** Reading *)

(** The offset that the returned pointer has in the buffer, [None] for NULL. *)
Definition adb_r_deref (db : adb) (v : adb_val) (offs s : Z) : option Z :=
  let offs := offs + ADB_VAL_VALUE v in
  if adb_len db <? u64 (offs + s) then None else Some offs.

Definition adb_r_root (db : adb) : outcome adb_val :=
  if adb_len db <? ADB_HDR_SIZE then Ok ADB_NULL else load 4 (adb_data db) 4.

Definition adb_r_int (db : adb) (v : adb_val) : outcome Z :=
  let number s :=
    match adb_r_deref db v 0 s with
    | None => Ok 0
    | Some p => load s (adb_data db) p
    end in
  if ADB_VAL_TYPE v =? ADB_TYPE_INT then Ok (ADB_VAL_VALUE v)
  else if ADB_VAL_TYPE v =? ADB_TYPE_INT_32 then number 4
  else if ADB_VAL_TYPE v =? ADB_TYPE_INT_64 then number 8
  else Ok 0.

(** A blob with its length kept apart: the pointer may be NULL and the length not zero. *)
Record rblob := mk_rblob { rb_ptr : option Z; rb_len : Z }.
Definition rblob_null : rblob := mk_rblob None 0.

(** The size of the length field of a blob type. *)
Definition blob_hdr (type : Z) : option Z :=
  if type =? ADB_TYPE_BLOB_8 then Some 1
  else if type =? ADB_TYPE_BLOB_16 then Some 2
  else if type =? ADB_TYPE_BLOB_32 then Some 4
  else None.

Definition adb_r_blob_at (db : adb) (v : adb_val) : outcome rblob :=
  match blob_hdr (ADB_VAL_TYPE v) with
  | None => Ok rblob_null
  | Some h =>
      match adb_r_deref db v 0 h with
      | None => Ok rblob_null
      | Some p => let! len := load h (adb_data db) p in Ok (mk_rblob (adb_r_deref db v h len) len)
      end
  end.

(** The bytes behind a blob, for a use that reads all of them. *)
Definition rblob_bytes (db : adb) (b : rblob) : outcome blob :=
  match rb_ptr b with
  | None => if rb_len b =? 0 then Ok None else Fault
  | Some p => let! s := fetch (adb_data db) p (rb_len b) in Ok (Some s)
  end.

Definition adb_r_blob (db : adb) (v : adb_val) : outcome blob :=
  let! b := adb_r_blob_at db v in rblob_bytes db b.

(** [o_obj] is the array behind the pointer, [None] for NULL; a value read from the database
    has its first [o_num] words, one that is built has all its space and the size of that
    space in entry 0. *)
Record adb_obj := mk_obj { o_obj : option (list adb_val); o_num : nat; o_dynamic : bool }.
Definition null_obj : adb_obj := mk_obj None 1 false.

Definition adb_r_obj (db : adb) (v : adb_val) : outcome adb_obj :=
  if negb (ADB_VAL_TYPE v =? ADB_TYPE_ARRAY) && negb (ADB_VAL_TYPE v =? ADB_TYPE_OBJECT) then Ok null_obj
  else
    match adb_r_deref db v 0 4 with
    | None => Ok null_obj
    | Some p =>
        let! num := load 4 (adb_data db) p in
        if num =? 0 then Ok null_obj
        else
          match adb_r_deref db v 0 (4 * num) with
          | None => Ok null_obj
          | Some p =>
              let! s := fetch (adb_data db) p (4 * num) in
              Ok (mk_obj (Some (words (Z.to_nat num) s)) (Z.to_nat num) false)
          end
    end.

Definition adb_r_rootobj (db : adb) : outcome adb_obj := let! v := adb_r_root db in adb_r_obj db v.

Definition adb_ro_num (o : adb_obj) : nat := o_num o.
Definition adb_ra_num (o : adb_obj) : nat := (if (o_num o =? 0)%nat then 1 else o_num o) - 1.

(** An element of the array behind the pointer. *)
Definition obj_at (o : adb_obj) (i : nat) : outcome adb_val :=
  match o_obj o with
  | None => Fault
  | Some p => match p !! i with Some v => Ok v | None => Fault end
  end.

Definition adb_ro_val (o : adb_obj) (i : nat) : outcome adb_val :=
  if (o_num o <=? i)%nat then Ok ADB_NULL else obj_at o i.

Definition adb_ro_int (db : adb) (o : adb_obj) (i : nat) : outcome Z :=
  let! v := adb_ro_val o i in adb_r_int db v.
Definition adb_ro_blob (db : adb) (o : adb_obj) (i : nat) : outcome blob :=
  let! v := adb_ro_val o i in adb_r_blob db v.
(** [adb_ro_obj] without the schema of the field. *)
Definition adb_ro_obj_at (db : adb) (o : adb_obj) (i : nat) : outcome adb_obj :=
  let! v := adb_ro_val o i in adb_r_obj db v.

(** ** Writing data *)

(** [while (db->adb.len + len > db->alloc_len) db->alloc_len *= 2], in 32 bits.  After 32
    rounds the size is 0 and stays so. *)
Fixpoint grow (fuel : nat) (need n : Z) : option Z :=
  if need <=? n then Some n
  else match fuel with
       | O => None
       | S fuel' => grow fuel' need (u32 (n * 2))
       end.

(** [vec] has the total length [len].  [Fault] is a write past the buffer, a failed
    assertion, or the endless loop. *)
Definition adb_w_raw (db : adb) (vec : list bytes) (len alignment : Z) : outcome (Z * adb) :=
  let i := ROUND_UP (adb_len db) alignment - adb_len db in
  if negb (i =? 0) && (alloc_len db <? adb_len db + i) then Fault
  else
    let data := adb_data db ++ replicate (Z.to_nat i) 0 in
    let need := Z.of_nat (length data) + len in
    let offs := Z.of_nat (length data) in
    let data' := data ++ concat vec in
    if alloc_len db <? need then
      if num_buckets db =? 0 then Fault
      else match grow 32 need (if alloc_len db =? 0 then 8192 else alloc_len db) with
           | None => Fault
           | Some n => Ok (offs, set_alloc n (set_data data' db))
           end
    else Ok (offs, set_data data' db).

Definition adb_hdr_bytes (root : adb_val) : bytes := [0; 0; 0; 0] ++ le_bytes 4 root.

Definition adb_w_init_dynamic (schema nbuckets : Z) : outcome adb :=
  let db := mk_adb None schema nbuckets 0 (b2z (nbuckets =? 0)) (replicate (Z.to_nat nbuckets) []) in
  let! (_, db) := adb_w_raw db [adb_hdr_bytes 0] ADB_HDR_SIZE ADB_HDR_SIZE in
  Ok db.

Definition adb_w_init_static (bufsz : Z) : adb := mk_adb (Some []) 0 0 (u32 bufsz) 1 [].

(** Drops all data but the header. *)
Definition adb_reset (db : adb) : adb :=
  mk_adb (take (Z.to_nat ADB_HDR_SIZE) <$> adb_adb db) (adb_schema db) (num_buckets db) (alloc_len db)
    (no_cache db) (replicate (length (bucket db)) []).

Definition iovec_len (vec : list bytes) : Z := Z.of_nat (length (concat vec)).

Fixpoint iovec_hash (vec : list bytes) (hash : Z) : Z :=
  match vec with
  | [] => hash
  | v :: vec' => iovec_hash vec' (apk_blob_hash_seed v hash)
  end.

(** Whether the bytes at [base] differ from the vector. *)
Fixpoint iovec_memcmp (vec : list bytes) (base : bytes) : bool :=
  match vec with
  | [] => false
  | v :: vec' =>
      if memcmp (take (length v) base) v =? 0 then iovec_memcmp vec' (drop (length v) base) else true
  end.

(** The walk over the entries of a bucket: the data is there already, an entry to fill, or
    no entry left. *)
Inductive slot := Stored (offs : Z) | Vacant (i : nat) | Exhausted.

Fixpoint bucket_scan (data : bytes) (hash len alignment : Z) (vec : list bytes)
    (l : list adb_w_bucket_entry) (i : nat) : slot :=
  match l with
  | [] => Exhausted
  | e :: l' =>
      if e_len e =? 0 then Vacant i
      else if negb (e_hash e =? hash) then bucket_scan data hash len alignment vec l' (S i)
      else if (e_len e =? len) && negb (iovec_memcmp vec (drop (Z.to_nat (e_offs e)) data)) then
        if negb (Z.land (e_offs e) (alignment - 1) =? 0) then Vacant i else Stored (e_offs e)
      else bucket_scan data hash len alignment vec l' (S i)
  end.

Definition adb_w_data (db : adb) (vec : list bytes) (alignment : Z) : outcome (Z * adb) :=
  if negb (no_cache db =? 0) then adb_w_raw db vec (iovec_len vec) alignment
  else
    let hash := iovec_hash vec 5381 in
    let len := iovec_len vec in
    let bucketno := Z.to_nat (hash mod num_buckets db) in
    let entries := default [] (bucket db !! bucketno) in
    let add i l :=
      let! (offs, db) := adb_w_raw db vec len alignment in
      Ok (u32 offs, set_bucket bucketno (<[i := mk_entry hash (u32 offs) (u32 len)]> l) db) in
    match bucket_scan (adb_data db) hash len alignment vec entries 0 with
    | Stored offs => Ok (offs, db)
    | Vacant i => add i entries
    | Exhausted => add (length entries) (entries ++ replicate BUCKET_ENTRIES no_entry)
    end.

Definition adb_w_data1 (db : adb) (ptr : option bytes) (alignment : Z) : outcome (Z * adb) :=
  match ptr with
  | None => Ok (ADB_NULL, db)
  | Some b => adb_w_data db [b] alignment
  end.

(** Values that point to data. *)
Definition adb_w_val (type : Z) (r : outcome (Z * adb)) : outcome (adb_val * adb) :=
  let! (offs, db) := r in Ok (ADB_VAL type offs, db).

(** [adb_w_error] is an assertion that always fails. *)
Definition adb_w_error {A : Type} (rc : Z) : outcome A := Fault.

Definition APKE_ADB_HEADER : Z := 1064.

Definition adb_w_root (db : adb) (root_val : adb_val) : outcome adb :=
  if adb_len db <? ADB_HDR_SIZE then adb_w_error APKE_ADB_HEADER
  else Ok (set_data (take 4 (adb_data db) ++ le_bytes 4 root_val ++ drop 8 (adb_data db)) db).

Definition max_vec_size : nat := 4.

Definition adb_w_blob_vec (db : adb) (b : list bytes) : outcome (adb_val * adb) :=
  if (max_vec_size <? length b)%nat then Fault
  else
    let sz := iovec_len b in
    if 0xffff <? sz then adb_w_val ADB_TYPE_BLOB_32 (adb_w_data db (le_bytes 4 (u32 sz) :: b) 4)
    else if 0xff <? sz then adb_w_val ADB_TYPE_BLOB_16 (adb_w_data db (le_bytes 2 sz :: b) 2)
    else if 0 <? sz then adb_w_val ADB_TYPE_BLOB_8 (adb_w_data db (le_bytes 1 sz :: b) 1)
    else Ok (ADB_NULL, db).

Definition adb_w_blob (db : adb) (b : bytes) : outcome (adb_val * adb) := adb_w_blob_vec db [b].

Definition adb_w_blob_raw (db : adb) (b : bytes) : outcome (adb_val * adb) :=
  let! (val, db) := adb_w_blob (set_cache (u8 (no_cache db + 1)) db) b in
  Ok (val, set_cache (u8 (no_cache db - 1)) db).

Definition adb_w_int (db : adb) (val : Z) : outcome (adb_val * adb) :=
  if 0x100000000 <=? val then adb_w_val ADB_TYPE_INT_64 (adb_w_data1 db (Some (le_bytes 8 val)) 4)
  else if 0x10000000 <=? val then adb_w_val ADB_TYPE_INT_32 (adb_w_data1 db (Some (le_bytes 4 val)) 4)
  else Ok (ADB_VAL ADB_TYPE_INT val, db).

Definition EINVAL : Z := 22.
Definition ENOSYS : Z := 38.
Definition E2BIG : Z := 7.

(** Copies the [sz] bytes at [v], a NULL pointer where they are not all there. *)
Definition adb_w_copy_data (db srcdb : adb) (v : adb_val) (sz align : Z) : outcome (adb_val * adb) :=
  match adb_r_deref srcdb v 0 sz with
  | None => adb_w_val (ADB_VAL_TYPE v) (adb_w_data1 db None align)
  | Some p => let! s := fetch (adb_data srcdb) p sz in adb_w_val (ADB_VAL_TYPE v) (adb_w_data1 db (Some s) align)
  end.

(** Copies the elements [i <= _] of an object one after the other, with [copy] for one value. *)
Fixpoint copy_values (copy : adb -> adb_val -> option (outcome (adb_val * adb))) (db : adb) (l : list adb_val)
    : option (outcome (list adb_val * adb)) :=
  match l with
  | [] => Some (Ok ([], db))
  | v :: l' =>
      r ← copy db v;
      match r with
      | Fault => Some Fault
      | Ok (v', db) =>
          r ← copy_values copy db l';
          Some (let! (l', db) := r in Ok (v' :: l', db))
      end
  end.

(** The copy of a value of another database; [None] when the fuel is below the depth of the
    value.  The elements are converted from the first to the last. *)
Fixpoint adb_w_copy (fuel : nat) (srcdb db : adb) (v : adb_val) : option (outcome (adb_val * adb)) :=
  match fuel with
  | O => None
  | S fuel' =>
      let type := ADB_VAL_TYPE v in
      if (type =? ADB_TYPE_SPECIAL) || (type =? ADB_TYPE_INT) then Some (Ok (v, db))
      else if type =? ADB_TYPE_INT_32 then Some (adb_w_copy_data db srcdb v 4 4)
      else if type =? ADB_TYPE_INT_64 then Some (adb_w_copy_data db srcdb v 8 8)
      else
        match blob_hdr type with
        | Some align =>
            match adb_r_deref srcdb v 0 align with
            | None => Some (adb_w_error EINVAL)
            | Some p =>
                Some (let! len := load align (adb_data srcdb) p in
                      adb_w_copy_data db srcdb v (align + len) align)
            end
        | None =>
            if (type =? ADB_TYPE_OBJECT) || (type =? ADB_TYPE_ARRAY) then
              match adb_r_obj srcdb v with
              | Fault => Some Fault
              | Ok obj =>
                  match o_obj obj with
                  | Some (n :: vals) =>
                      r ← copy_values (adb_w_copy fuel' srcdb) db vals;
                      Some (let! (vals, db) := r in
                            adb_w_val type (adb_w_data1 db (Some (word_bytes (n :: vals))) 4))
                  | _ => Some Fault
                  end
              end
            else Some (adb_w_error ENOSYS)
        end
  end.

(** ** Building objects and arrays *)

Definition adb_wo_init (num_fields : nat) : adb_obj :=
  mk_obj (Some (Z.of_nat num_fields :: replicate (num_fields - 1) 0)) 1 false.

Definition adb_wo_free (o : adb_obj) : adb_obj := mk_obj None (o_num o) false.

(** Clears the first [num] entries and keeps the size of the space. *)
Definition adb_wo_reset (o : adb_obj) : outcome adb_obj :=
  match o_obj o with
  | Some (max :: l) => Ok (mk_obj (Some (max :: replicate (o_num o - 1) 0 ++ drop (o_num o - 1) l)) 1 (o_dynamic o))
  | _ => Fault
  end.

(** The entries without the NULLs at the end. *)
Fixpoint strip_null (fuel : nat) (l : list adb_val) (n : nat) : nat :=
  match fuel with
  | O => n
  | S fuel' =>
      if (1 <? n)%nat && (default 0 (l !! (n - 1)%nat) =? ADB_NULL) then strip_null fuel' l (n - 1) else n
  end.

(** [__adb_w_obj] after the hook of the schema. *)
Definition __adb_w_obj (db : adb) (o : adb_obj) (type : Z) : outcome (adb_val * adb * adb_obj) :=
  match o_obj o with
  | Some (max :: l) =>
      let n := strip_null (o_num o) (max :: l) (o_num o) in
      let! (val, db) :=
        if (1 <? n)%nat
        then adb_w_val type (adb_w_data1 db (Some (word_bytes (Z.of_nat n :: take (n - 1) l))) 4)
        else Ok (ADB_NULL, db) in
      let! o := adb_wo_reset o in
      Ok (val, db, o)
  | _ => Fault
  end.

(** The space that entry 0 records. *)
Definition obj_max (o : adb_obj) : outcome Z := obj_at o 0.

Definition adb_wo_val (o : adb_obj) (i : nat) (v : adb_val) : outcome (adb_val * adb_obj) :=
  let! max := obj_max o in
  if max <=? Z.of_nat i then adb_w_error E2BIG
  else if ADB_IS_ERROR v then adb_w_error (ADB_VAL_VALUE v)
  else
    let num := if negb (v =? ADB_NULL) && (o_num o <=? i)%nat then S i else o_num o in
    match o_obj o with
    | Some p => if (i <? length p)%nat then Ok (v, mk_obj (Some (<[i := v]> p)) num (o_dynamic o)) else Fault
    | None => Fault
    end.

Definition adb_wo_int (db : adb) (o : adb_obj) (i : nat) (n : Z) : outcome (adb_val * adb * adb_obj) :=
  let! (v, db) := adb_w_int db n in let! (v, o) := adb_wo_val o i v in Ok (v, db, o).
Definition adb_wo_blob (db : adb) (o : adb_obj) (i : nat) (b : bytes) : outcome (adb_val * adb * adb_obj) :=
  let! (v, db) := adb_w_blob db b in let! (v, o) := adb_wo_val o i v in Ok (v, db, o).
Definition adb_wo_blob_raw (db : adb) (o : adb_obj) (i : nat) (b : bytes) : outcome (adb_val * adb * adb_obj) :=
  let! (v, db) := adb_w_blob_raw db b in let! (v, o) := adb_wo_val o i v in Ok (v, db, o).

(** Appends to an array, doubling its space when it is full. *)
Definition adb_wa_append (o : adb_obj) (v : adb_val) : outcome (adb_val * adb_obj) :=
  if ADB_IS_ERROR v then adb_w_error (ADB_VAL_VALUE v)
  else if v =? ADB_NULL then Ok (v, o)
  else
    let! max := obj_max o in
    let! o :=
      match o_obj o with
      | Some p =>
          if max <=? Z.of_nat (o_num o)
          then Ok (mk_obj (Some (<[0%nat := u32 (s32 (max * 2))]> (p ++ replicate (Z.to_nat max) 0))) (o_num o) true)
          else Ok o
      | None => Fault
      end in
    match o_obj o with
    | Some p => if (o_num o <? length p)%nat then Ok (v, mk_obj (Some (<[o_num o := v]> p)) (S (o_num o)) (o_dynamic o)) else Fault
    | None => Fault
    end.
