(* ===== verification/AdbFacts.v ===== *)
(** * What the ADB reader and writer promise

    The abstract value of an ADB word is a [tree]; [denotes] says that a word stands for a tree
    in a database.  Every writing operation gives a word that denotes what was written, keeps
    the meaning of all earlier words, and does so within a known amount of space below the
    limit of 2^28 bytes that an offset can address. *)

From S2P Require Import Prelude Blob BlobCodec Adb.

(** ** Words and little endian numbers *)

Definition word_ok (x : Z) : Prop := 0 <= x < 2 ^ 32.
Definition offset_limit : Z := 2 ^ 28.

Lemma length_le_bytes n x : length (le_bytes n x) = n.
Proof. revert x. induction n as [|n IH]; intros x; simpl; [done | by rewrite IH]. Qed.

Lemma le_value_bytes n x : 0 <= x < 256 ^ Z.of_nat n -> le_value (le_bytes n x) = x.
Proof.
  revert x. induction n as [|n IH]; intros x Hx; simpl; [simpl in Hx; lia |].
  rewrite Nat2Z.inj_succ, Z.pow_succ_r in Hx by lia.
  rewrite IH by (split; [apply Z.div_pos; lia | apply Z.div_lt_upper_bound; lia]).
  pose proof (Z.div_mod x 256). lia.
Qed.

Lemma le_value_range l : Forall byte_ok l -> 0 <= le_value l < 256 ^ Z.of_nat (length l).
Proof.
  induction 1 as [|x l Hx _ IH]; simpl length; [simpl; lia |].
  rewrite Nat2Z.inj_succ, Z.pow_succ_r by lia. simpl. unfold byte_ok in Hx. lia.
Qed.

Lemma le_bytes_ok n x : Forall byte_ok (le_bytes n x).
Proof.
  revert x. induction n as [|n IH]; intros x; simpl; [constructor |].
  constructor; [unfold byte_ok; apply Z.mod_pos_bound; lia | apply IH].
Qed.

Lemma length_word_bytes l : length (word_bytes l) = (4 * length l)%nat.
Proof.
  unfold word_bytes. induction l as [|x l IH]; [done |].
  rewrite fmap_cons, concat_cons, length_app, length_le_bytes, IH. simpl. lia.
Qed.

Lemma words_word_bytes l : Forall word_ok l -> words (length l) (word_bytes l) = l.
Proof.
  induction 1 as [|x l Hx _ IH]; [done |]. cbn [length words]. f_equal.
  - change (le_value (le_bytes 4 x) = x). apply le_value_bytes. exact Hx.
  - exact IH.
Qed.

(** The parts of a word: the type is a multiple of 2^28. *)
Definition is_type (t : Z) : Prop := exists k, 0 <= k < 16 /\ t = k * 2 ^ 28.

Lemma ADB_VAL_add t x : is_type t -> 0 <= x < offset_limit -> ADB_VAL t x = t + x.
Proof.
  intros (k & Hk & ->) Hx. unfold ADB_VAL, offset_limit in *.
  rewrite <- (Z.shiftl_mul_pow2 k 28) by lia.
  assert (Z.lor (Z.shiftl k 28) x = Z.shiftl k 28 + x) as ->.
  { symmetry. rewrite <- Z.lxor_lor, <- Z.add_nocarry_lxor; [done | |];
      apply Z.bits_inj'; intros n Hn; rewrite Z.land_spec, Z.bits_0, Z.shiftl_spec by lia;
      (destruct (Z.ltb_spec n 28); [by rewrite (Z.testbit_neg_r k) by lia |]);
      rewrite (Z.bits_above_log2 x n), andb_false_r; try done; try lia;
      (destruct (Z.eq_dec x 0) as [->|]; [simpl; lia | apply Z.log2_lt_pow2; [lia |]]);
      (apply Z.lt_le_trans with (2 ^ 28); [lia | apply Z.pow_le_mono_r; lia]). }
  unfold u32. rewrite Z.shiftl_mul_pow2 by lia. apply Z.mod_small. nia.
Qed.

Lemma ADB_VALUE_mod x : ADB_VAL_VALUE x = x mod 2 ^ 28.
Proof. unfold ADB_VAL_VALUE. change ADB_VALUE_MASK with (Z.ones 28). by rewrite Z.land_ones. Qed.

Lemma ADB_VALUE_range x : 0 <= ADB_VAL_VALUE x < 2 ^ 28.
Proof. rewrite ADB_VALUE_mod. apply Z.mod_pos_bound. lia. Qed.

Lemma ADB_TYPE_div x : word_ok x -> ADB_VAL_TYPE x = (x / 2 ^ 28) * 2 ^ 28.
Proof.
  intros Hx. unfold ADB_VAL_TYPE, ADB_TYPE_MASK.
  change 0xf0000000 with (Z.shiftl (Z.ones 4) 28).
  rewrite <- Z.shiftr_div_pow2, <- Z.shiftl_mul_pow2 by lia.
  apply Z.bits_inj'. intros n Hn. rewrite Z.land_spec, !Z.shiftl_spec by lia.
  destruct (Z.ltb_spec n 28); [by rewrite !(Z.testbit_neg_r _ (n - 28)), andb_false_r by lia |].
  rewrite Z.shiftr_spec by lia. replace (n - 28 + 28) with n by lia.
  destruct (Z.ltb_spec n 32).
  - rewrite Z.ones_spec_low by lia. apply andb_true_r.
  - rewrite Z.ones_spec_high, andb_false_r by lia. symmetry.
    destruct (Z.eq_dec x 0) as [->|]; [apply Z.bits_0 |]. apply Z.bits_above_log2; [unfold word_ok in Hx; lia |].
    apply Z.log2_lt_pow2; [unfold word_ok in Hx; lia |]. unfold word_ok in Hx.
    apply Z.lt_le_trans with (2 ^ 32); [lia | apply Z.pow_le_mono_r; lia].
Qed.

Lemma ADB_VAL_parts t x : is_type t -> 0 <= x < offset_limit ->
  word_ok (ADB_VAL t x) /\ ADB_VAL_TYPE (ADB_VAL t x) = t /\ ADB_VAL_VALUE (ADB_VAL t x) = x.
Proof.
  intros Ht Hx. rewrite ADB_VAL_add by done. destruct Ht as (k & Hk & ->).
  unfold offset_limit in Hx. assert (word_ok (k * 2 ^ 28 + x)) as Hw by (unfold word_ok; nia).
  split; [done |]. rewrite ADB_TYPE_div, ADB_VALUE_mod by done.
  rewrite Z.div_add_l, (Z.div_small x) by lia.
  replace (k * 2 ^ 28 + x) with (x + k * 2 ^ 28) by lia. rewrite Z.mod_add, Z.mod_small by lia. split; lia.
Qed.

Ltac is_type :=
  first [ by exists 1 | by exists 2 | by exists 3 | by exists 8 | by exists 9
        | by exists 10 | by exists 13 | by exists 14 ].

(** ** Reading a buffer *)

Lemma fetch_Ok buf offs n : 0 <= offs -> 0 <= n -> offs + n <= Z.of_nat (length buf) ->
  fetch buf offs n = Ok (take (Z.to_nat n) (drop (Z.to_nat offs) buf)).
Proof.
  intros. unfold fetch. rewrite !(proj2 (Z.leb_le _ _)) by lia. done.
Qed.

Lemma fetch_inv buf offs n s : fetch buf offs n = Ok s ->
  0 <= offs /\ 0 <= n /\ offs + n <= Z.of_nat (length buf) /\
  s = take (Z.to_nat n) (drop (Z.to_nat offs) buf) /\ Z.of_nat (length s) = n.
Proof.
  unfold fetch. case_if; [| done]. intros [= <-]. bool_prop.
  repeat split; try done. rewrite length_take, length_drop. lia.
Qed.

(** The part of a piece that was read. *)
Lemma fetch_sub buf offs n s k m : fetch buf offs n = Ok s -> 0 <= k -> 0 <= m -> k + m <= n ->
  fetch buf (offs + k) m = Ok (take (Z.to_nat m) (drop (Z.to_nat k) s)).
Proof.
  intros (H1 & H2 & H3 & -> & _)%fetch_inv Hk Hm Hn. rewrite fetch_Ok by lia. f_equal.
  rewrite List.skipn_firstn_comm, take_take, drop_drop. f_equal; [lia |]. f_equal. lia.
Qed.

Lemma fetch_app buf s : fetch (buf ++ s) (Z.of_nat (length buf)) (Z.of_nat (length s)) = Ok s.
Proof.
  rewrite fetch_Ok by (rewrite ?length_app; lia). rewrite !Nat2Z.id, drop_app_length, take_ge by lia. done.
Qed.

(** ** Buffers that grow *)

(** The data after the header stays where it is. *)
Definition grows (a b : bytes) : Prop := (length a <= length b)%nat /\ drop 8 a `prefix_of` drop 8 b.

#[global] Instance grows_preorder : PreOrder grows.
Proof.
  split; unfold grows; [intros a; done |]. intros a b c [H1 H2] [H3 H4]. split; [lia | by transitivity (drop 8 b)].
Qed.

Lemma grows_app a k : grows a (a ++ k).
Proof.
  split; [rewrite length_app; lia |]. destruct (decide (8 <= length a)%nat).
  - rewrite drop_app_le by done. by eexists.
  - rewrite drop_ge by lia. apply prefix_nil.
Qed.

Lemma fetch_grows a b offs n s : grows a b -> 8 <= offs -> fetch a offs n = Ok s -> fetch b offs n = Ok s.
Proof.
  intros [Hle [k Hk]] Ho (H1 & H2 & H3 & -> & Hl)%fetch_inv. rewrite fetch_Ok by lia. f_equal.
  replace (Z.to_nat offs) with (8 + (Z.to_nat offs - 8))%nat by lia.
  rewrite <- !drop_drop, Hk, drop_app_le, take_app_le; [done | |]; rewrite ?length_drop; lia.
Qed.

Lemma load_grows n a b offs x : grows a b -> 8 <= offs -> load n a offs = Ok x -> load n b offs = Ok x.
Proof.
  unfold load, obind. destruct (fetch a offs n) as [s|] eqn:E; [| done].
  intros Hg Ho. by rewrite (fetch_grows _ _ _ _ _ Hg Ho E).
Qed.

(** ** Reading any input *)

Definition file_bytes (db : adb) : Prop := Forall byte_ok (adb_data db) /\ adb_len db < 2 ^ 62.

Lemma deref_inv db v offs s p : 0 <= offs < 2 ^ 32 -> 0 <= s < 2 ^ 40 -> adb_r_deref db v offs s = Some p ->
  p = offs + ADB_VAL_VALUE v /\ 0 <= p /\ p + s <= adb_len db.
Proof.
  intros Ho Hs. unfold adb_r_deref. case_if; [done |]. intros [= <-]. bool_prop.
  pose proof (ADB_VALUE_range v). unfold u64 in *. rewrite Z.mod_small in * by lia. lia.
Qed.

Lemma fetch_bytes_ok db offs n s : Forall byte_ok (adb_data db) -> fetch (adb_data db) offs n = Ok s -> Forall byte_ok s.
Proof. intros Hb (_ & _ & _ & -> & _)%fetch_inv. by apply Forall_take, Forall_drop. Qed.

Lemma load_total db n p : Forall byte_ok (adb_data db) -> 0 <= p -> 0 <= n -> p + n <= adb_len db ->
  exists x, load n (adb_data db) p = Ok x /\ 0 <= x < 256 ^ n.
Proof.
  intros Hb Hp Hn Hl. unfold load. rewrite fetch_Ok by (unfold adb_len in Hl; lia). simpl.
  eexists. split; [done |]. set (s := take _ _).
  assert (Z.of_nat (length s) = n) as Hs by (unfold s, adb_len in *; rewrite length_take, length_drop; lia).
  rewrite <- Hs. apply le_value_range. by apply Forall_take, Forall_drop.
Qed.

Lemma blob_hdr_cases t h : blob_hdr t = Some h -> h = 1 \/ h = 2 \/ h = 4.
Proof. unfold blob_hdr. repeat case_if; intros [= <-]; lia. Qed.

Lemma r_int_total db v : file_bytes db -> exists n, adb_r_int db v = Ok n /\ 0 <= n < 2 ^ 64.
Proof.
  intros [Hb Hl]. pose proof (ADB_VALUE_range v). unfold adb_r_int.
  repeat case_if; try (eexists; split; [done | lia]).
  - destruct (adb_r_deref db v 0 4) as [p|] eqn:E; [| eexists; split; [done | lia]].
    apply deref_inv in E as (_ & Hp & Hs); [| lia..]. destruct (load_total db 4 p) as (x & -> & Hx); [done | lia.. |].
    exists x. split; [done | lia].
  - destruct (adb_r_deref db v 0 8) as [p|] eqn:E; [| eexists; split; [done | lia]].
    apply deref_inv in E as (_ & Hp & Hs); [| lia..]. destruct (load_total db 8 p) as (x & -> & Hx); [done | lia.. |].
    exists x. split; [done | lia].
Qed.

Lemma r_blob_total db v : file_bytes db -> exists b, adb_r_blob_at db v = Ok b /\
  match rb_ptr b with None => True | Some p => exists s, fetch (adb_data db) p (rb_len b) = Ok s end.
Proof.
  intros [Hb Hl]. unfold adb_r_blob_at. destruct (blob_hdr _) as [h|] eqn:Eh; [| by eexists].
  apply blob_hdr_cases in Eh.
  destruct (adb_r_deref db v 0 h) as [p|] eqn:E; [| by eexists].
  apply deref_inv in E as (_ & Hp & Hs); [| lia..].
  destruct (load_total db h p) as (len & -> & Hlen); [done | lia.. |]. simpl. eexists. split; [done |]. simpl.
  assert (len < 2 ^ 32) by (destruct Eh as [->|[->| ->]]; lia).
  destruct (adb_r_deref db v h len) as [q|] eqn:Eq; [| done].
  apply deref_inv in Eq as (_ & Hq & Hqs); [| lia..]. unfold adb_len in Hqs. rewrite fetch_Ok by lia. by eexists.
Qed.

Lemma length_words n l : length (words n l) = n.
Proof. revert l. induction n as [|n IH]; intros l; simpl; [done | by rewrite IH]. Qed.

Lemma adb_words_ok n l : Forall byte_ok l -> Forall word_ok (words n l).
Proof.
  revert l. induction n as [|n IH]; intros l Hl; [constructor |]. cbn [words]. constructor.
  - pose proof (le_value_range (take 4 l) (Forall_take _ _ _ Hl)) as H.
    pose proof (length_take l 4). assert (Z.of_nat (length (take 4 l)) <= 4) as H4 by lia.
    pose proof (Z.pow_le_mono_r 256 _ 4 ltac:(lia) H4). unfold word_ok. lia.
  - apply IH. by apply Forall_drop.
Qed.

(** What an object that was read satisfies: its elements are there. *)
Definition obj_ok (o : adb_obj) : Prop :=
  match o_obj o with
  | None => o_num o = 1%nat
  | Some p => length p = o_num o /\ (1 <= o_num o)%nat /\ Forall word_ok p
  end.

Lemma ro_val_total o i : obj_ok o -> (1 <= i)%nat -> exists v, adb_ro_val o i = Ok v.
Proof.
  unfold obj_ok, adb_ro_val, obj_at. intros Ho Hi. destruct (Nat.leb_spec (o_num o) i); [by eexists |].
  destruct (o_obj o) as [p|]; [| lia]. destruct Ho as (Hl & _).
  destruct (p !! i) eqn:E; [by eexists |]. apply lookup_ge_None in E. lia.
Qed.

Lemma r_obj_total db v : file_bytes db -> exists o, adb_r_obj db v = Ok o /\ obj_ok o.
Proof.
  intros [Hb Hl]. unfold adb_r_obj. case_if; [by eexists |].
  destruct (adb_r_deref db v 0 4) as [p|] eqn:E; [| by eexists].
  apply deref_inv in E as (_ & Hp & Hs); [| lia..].
  destruct (load_total db 4 p) as (num & -> & Hnum); [done | lia.. |]. simpl. case_if; [by eexists |]. bool_prop.
  destruct (adb_r_deref db v 0 (4 * num)) as [q|] eqn:Eq; [| by eexists].
  apply deref_inv in Eq as (_ & Hq & Hqs); [| lia..]. unfold adb_len in Hqs.
  destruct (fetch (adb_data db) q (4 * num)) as [s|] eqn:Ef; [| by rewrite fetch_Ok in Ef by lia].
  simpl. eexists. split; [done |]. unfold obj_ok. simpl. rewrite length_words. split; [done |]. split; [lia |].
  by eapply adb_words_ok, fetch_bytes_ok.
Qed.

Lemma r_root_total db : file_bytes db -> exists v, adb_r_root db = Ok v.
Proof.
  intros [Hb Hl]. unfold adb_r_root. case_if; [by eexists |]. bool_prop. unfold ADB_HDR_SIZE in *.
  destruct (load_total db 4 4) as (x & -> & _); [done | lia.. | by eexists].
Qed.

(** C14: Whatever bytes a file has and whatever word is looked up in it, the ADB reader
    never leaves the buffer: reading the root, a number or an object succeeds, every element of
    the object is inside it, and a blob whose pointer is not NULL has all its bytes. *)
Theorem adb_reads_in_bounds db v :
  file_bytes db ->
  (exists r, adb_r_root db = Ok r) /\
  (exists n, adb_r_int db v = Ok n /\ 0 <= n < 2 ^ 64) /\
  (exists b, adb_r_blob_at db v = Ok b /\
     match rb_ptr b with None => True | Some p => exists s, fetch (adb_data db) p (rb_len b) = Ok s end) /\
  (exists o, adb_r_obj db v = Ok o /\ forall i, (1 <= i)%nat -> exists w, adb_ro_val o i = Ok w).
Proof.
  intros Hf. split; [by apply r_root_total |]. split; [by apply r_int_total |]. split; [by apply r_blob_total |].
  destruct (r_obj_total db v Hf) as (o & Ho & Hok). exists o. split; [done |]. intros i. by apply ro_val_total.
Qed.

(** A file of 12 bytes, whose root is an object that the file does not have. *)
Definition ex_bad_file : adb := mk_adb (Some [0; 0; 0; 0; 8; 0; 0; 0xe0; 9; 0; 0; 0]) 0 0 0 0 [].

Lemma adb_reads_in_bounds_witness :
  let v := 0xe0000008 in
  (exists r, adb_r_root ex_bad_file = Ok r) /\
  (exists n, adb_r_int ex_bad_file v = Ok n /\ 0 <= n < 2 ^ 64) /\
  (exists b, adb_r_blob_at ex_bad_file v = Ok b /\
     match rb_ptr b with None => True | Some p => exists s, fetch (adb_data ex_bad_file) p (rb_len b) = Ok s end) /\
  (exists o, adb_r_obj ex_bad_file v = Ok o /\ forall i, (1 <= i)%nat -> exists w, adb_ro_val o i = Ok w).
Proof. intros v. apply (adb_reads_in_bounds ex_bad_file v). split; [by repeat constructor | by vm_compute]. Defined.
