(* ===== verification/AdbWrite.v ===== *)
(** * The ADB writer

    The state of a database that is written, what one write does to it, and the values that
    words denote. *)

From S2P Require Import Prelude Blob BlobCodec Adb AdbFacts.

(** ** Space *)

(** The sizes of the buffer are 8192 doubled. *)
Definition alloc_ok (n : Z) : Prop := exists k, 0 <= k <= 18 /\ n = 8192 * 2 ^ k.

Lemma alloc_ok_range n : alloc_ok n -> 8192 <= n <= 2 ^ 31.
Proof.
  intros (k & Hk & ->). pose proof (Z.pow_le_mono_r 2 0 k). pose proof (Z.pow_le_mono_r 2 k 18). lia.
Qed.

Lemma alloc_ok_aligned n a : alloc_ok n -> alignment a -> (a | n).
Proof.
  intros (k & Hk & ->) Ha. apply Z.divide_mul_l.
  destruct Ha as [->|[->|[->| ->]]]; [by exists 8192 | by exists 4096 | by exists 2048 | by exists 1024].
Qed.

(** The doubling of the buffer ends for every size up to 2 GiB with a buffer that is large
    enough; for a larger size the 32-bit length runs to 0 and the loop has no end. *)
Lemma grow_spec fuel need k : 0 <= k <= 18 -> 18 - k <= Z.of_nat fuel -> need <= 2 ^ 31 ->
  exists n, grow fuel need (8192 * 2 ^ k) = Some n /\ need <= n /\ alloc_ok n.
Proof.
  revert k. induction fuel as [|fuel IH]; intros k Hk Hf Hn; cbn [grow].
  - assert (k = 18) as -> by lia. rewrite (proj2 (Z.leb_le _ _)) by lia. exists (8192 * 2 ^ 18). split; [done |]. split; [lia |]. by exists 18.
  - case_if; bool_prop; [exists (8192 * 2 ^ k); split; [done |]; split; [done | by exists k] |].
    assert (k <> 18) by (intros ->; lia).
    assert (u32 (8192 * 2 ^ k * 2) = 8192 * 2 ^ (k + 1)) as ->.
    { rewrite Z.pow_add_r by lia. unfold u32. rewrite Z.mod_small; [lia |].
      pose proof (Z.pow_le_mono_r 2 k 17). lia. }
    apply IH; lia.
Qed.

Lemma grow_zero fuel need : 0 < need -> grow fuel need 0 = None.
Proof.
  intros Hn. induction fuel as [|fuel IH]; cbn [grow]; rewrite (proj2 (Z.leb_gt _ _)) by lia; [done | exact IH].
Qed.

Lemma grow_endless fuel need k : 0 <= k <= 18 -> 2 ^ 31 < need -> grow fuel need (8192 * 2 ^ k) = None.
Proof.
  revert k. induction fuel as [|fuel IH]; intros k Hk Hn; cbn [grow];
    pose proof (Z.pow_le_mono_r 2 k 18); rewrite (proj2 (Z.leb_gt _ _)) by lia; [done |].
  destruct (decide (k = 18)) as [->|]; [by apply grow_zero; lia |].
  assert (u32 (8192 * 2 ^ k * 2) = 8192 * 2 ^ (k + 1)) as ->.
  { rewrite Z.pow_add_r by lia. unfold u32. pose proof (Z.pow_le_mono_r 2 k 17). rewrite Z.mod_small; lia. }
  apply IH; lia.
Qed.

Lemma grow_enough n need : alloc_ok n -> need <= 2 ^ 31 -> exists n', grow 32 need n = Some n' /\ need <= n' /\ alloc_ok n'.
Proof. intros (k & Hk & ->) H. apply grow_spec; [done | lia | done]. Qed.

(** ** The state of a writer *)

Definition entry_ok (db : adb) (e : adb_w_bucket_entry) : Prop :=
  e_len e <> 0 -> 0 < e_len e /\ 8 <= e_offs e /\ e_offs e + e_len e <= adb_len db.

Record writer (db : adb) : Prop := {
  w_header : ADB_HDR_SIZE <= adb_len db;
  w_alloc : alloc_ok (alloc_len db);
  w_fit : adb_len db <= alloc_len db;
  w_buckets : 0 < num_buckets db /\ Z.of_nat (length (bucket db)) = num_buckets db;
  w_entries : Forall (Forall (entry_ok db)) (bucket db);
}.

Definition db_grows (a b : adb) : Prop := grows (adb_data a) (adb_data b).

#[global] Instance db_grows_preorder : PreOrder db_grows.
Proof.
  split; unfold db_grows; [intros a; reflexivity | intros a b c H1 H2; by transitivity (adb_data b)].
Qed.

(** The fields that writing data does not touch. *)
Definition same_kind (a b : adb) : Prop :=
  adb_schema a = adb_schema b /\ num_buckets a = num_buckets b /\ no_cache a = no_cache b.

(** Writing [vec] at [offs] with at most [room] more bytes. *)
Record wrote (db : adb) (room offs : Z) (data : bytes) (db' : adb) : Prop := {
  wr_writer : writer db';
  wr_grows : db_grows db db';
  wr_kind : same_kind db db';
  wr_offs : 8 <= offs;
  wr_len : adb_len db' <= adb_len db + room;
  wr_data : fetch (adb_data db') offs (Z.of_nat (length data)) = Ok data;
}.

Lemma entry_ok_grows db db' e : adb_len db <= adb_len db' -> entry_ok db e -> entry_ok db' e.
Proof. unfold entry_ok. intros Hl He Hne. specialize (He Hne). lia. Qed.

Lemma db_grows_len db db' : db_grows db db' -> adb_len db <= adb_len db'.
Proof. intros [H _]. unfold adb_len. lia. Qed.

(** Appending padding and data to a buffer that has the space. *)
Lemma appended db vec room i db' :
  writer db -> 0 <= i -> i + iovec_len vec <= room ->
  adb_adb db' = Some ((adb_data db ++ replicate (Z.to_nat i) 0) ++ concat vec) -> alloc_ok (alloc_len db') ->
  adb_len db + i + iovec_len vec <= alloc_len db' -> same_kind db db' -> bucket db' = bucket db ->
  wrote db room (adb_len db + i) (concat vec) db' /\ adb_len db' = adb_len db + i + iovec_len vec.
Proof.
  intros Hw Hi Hroom Hdata Hal Hfit Hk Hb. set (pre := adb_data db ++ replicate (Z.to_nat i) 0) in *.
  assert (adb_data db' = pre ++ concat vec) as Hd by (unfold adb_data; by rewrite Hdata).
  assert (Z.of_nat (length pre) = adb_len db + i) as Hp.
  { unfold pre, adb_len. rewrite length_app, length_replicate. lia. }
  assert (adb_len db' = adb_len db + i + iovec_len vec) as Hl.
  { unfold adb_len at 1. rewrite Hd, length_app. unfold iovec_len. lia. }
  assert (db_grows db db') as Hg by (unfold db_grows; rewrite Hd; unfold pre; rewrite <- app_assoc; apply grows_app).
  pose proof (w_header db Hw). unfold ADB_HDR_SIZE in *. split; [| done]. split; [| done | done | lia | lia |].
  - split; [unfold ADB_HDR_SIZE; unfold iovec_len in *; lia | done | lia | |].
    + destruct Hk as (_ & <- & _). rewrite Hb. apply Hw.
    + rewrite Hb. eapply Forall_impl; [apply Hw |]. intros l Hf. eapply Forall_impl; [exact Hf |].
      intros e. apply entry_ok_grows. by apply db_grows_len.
  - rewrite Hd, <- Hp. apply fetch_app.
Qed.

Lemma w_raw_spec db vec a :
  writer db -> alignment a -> adb_len db + 7 + iovec_len vec < offset_limit ->
  exists offs db', adb_w_raw db vec (iovec_len vec) a = Ok (offs, db') /\
    wrote db (a - 1 + iovec_len vec) offs (concat vec) db' /\ (a | offs) /\ bucket db' = bucket db /\
    offs + iovec_len vec = adb_len db'.
Proof.
  intros Hw Ha Hroom. destruct (round_up_spec (adb_len db) a Ha) as [Hr Hd].
  { unfold adb_len, offset_limit, iovec_len in *. lia. }
  assert (a <= 8) as Ha8 by (destruct Ha as [->|[->|[->| ->]]]; lia).
  unfold adb_w_raw. set (i := ROUND_UP (adb_len db) a - adb_len db) in *.
  replace (ROUND_UP (adb_len db) a) with (adb_len db + i) in * by lia.
  assert (adb_len db + i <= alloc_len db) as Hfit.
  { destruct (alloc_ok_aligned _ a (w_alloc db Hw) Ha) as [q Hq], Hd as [r Hd]. rewrite Hd, Hq in *.
    pose proof (w_fit db Hw). apply Z.mul_le_mono_nonneg_r; [lia |].
    enough (r < q + 1) by lia. apply (Z.mul_lt_mono_pos_r a); lia. }
  rewrite (proj2 (Z.ltb_ge _ _) Hfit), andb_false_r.
  assert (Z.of_nat (length (adb_data db ++ replicate (Z.to_nat i) 0)) = adb_len db + i) as ->.
  { unfold adb_len. rewrite length_app, length_replicate. lia. }
  pose proof (alloc_ok_range _ (w_alloc db Hw)). case_if; bool_prop.
  - destruct (w_buckets db Hw) as [Hb _]. rewrite (proj2 (Z.eqb_neq _ _)) by lia.
    rewrite (proj2 (Z.eqb_neq (alloc_len db) 0)) by lia.
    destruct (grow_enough (alloc_len db) (adb_len db + i + iovec_len vec)) as (n & -> & Hn & Hna);
      [apply Hw | unfold offset_limit in *; lia |].
    eexists _, _. split; [done |].
    match goal with |- wrote _ _ _ _ ?d /\ _ =>
      destruct (appended db vec (a - 1 + iovec_len vec) i d) as [H1 H2];
        [done | lia | lia | done | done | done | by repeat split | done |] end.
    by rewrite H2.
  - eexists _, _. split; [done |].
    match goal with |- wrote _ _ _ _ ?d /\ _ =>
      destruct (appended db vec (a - 1 + iovec_len vec) i d) as [H1 H2];
        [done | lia | lia | done | apply Hw | simpl; lia | by repeat split | done |] end.
    by rewrite H2.
Qed.

(** ** The table of written data *)

Lemma memcmp_take l v : (length v <= length l)%nat -> memcmp (take (length v) l) v = 0 <-> take (length v) l = v.
Proof. intros H. apply memcmp_eq0. rewrite length_take. lia. Qed.

Lemma iovec_memcmp_eq vec base : (length (concat vec) <= length base)%nat ->
  iovec_memcmp vec base = false <-> take (length (concat vec)) base = concat vec.
Proof.
  revert base. induction vec as [|v vec IH]; intros base Hl; [done |]. cbn [iovec_memcmp].
  rewrite concat_cons, length_app in *. rewrite <- take_take_drop.
  assert (length (take (length v) base) = length v) as Hv by (rewrite length_take; lia).
  case_if; bool_prop.
  - rewrite memcmp_take in * by lia. rewrite IH by (rewrite length_drop; lia). rewrite Heqb at 1.
    split; [by intros -> | by intros ?%app_inv_head].
  - split; [done |]. intros H. apply app_inj_1 in H as [H _]; [| done]. by rewrite <- (memcmp_take base) in H by lia.
Qed.

(** What the walk over a bucket finds. *)
Lemma bucket_scan_spec data hash len a vec l i :
  match bucket_scan data hash len a vec l i with
  | Stored offs => exists e, e ∈ l /\ e_len e <> 0 /\ e_len e = len /\ e_offs e = offs /\
      iovec_memcmp vec (drop (Z.to_nat offs) data) = false /\ Z.land offs (a - 1) = 0
  | Vacant j => (i <= j < i + length l)%nat
  | Exhausted => True
  end.
Proof.
  revert i. induction l as [|e l IH]; intros i; cbn [bucket_scan length]; [done |].
  assert (match bucket_scan data hash len a vec l (S i) with
    | Stored offs => exists e', e' ∈ e :: l /\ e_len e' <> 0 /\ e_len e' = len /\ e_offs e' = offs /\
      iovec_memcmp vec (drop (Z.to_nat offs) data) = false /\ Z.land offs (a - 1) = 0
    | Vacant j => (i <= j < i + S (length l))%nat
    | Exhausted => True
    end) as Hrest.
  { specialize (IH (S i)). destruct (bucket_scan _ _ _ _ _ _ _) as [offs|j|]; [| lia | done].
    destruct IH as (e' & He' & H). exists e'. split; [by right | done]. }
  case_if; [lia |]. case_if; [done |]. case_if; [| done]. case_if; bool_prop; [lia |].
  exists e. split; [left | done].
Qed.

Lemma land_aligned x a : alignment a -> Z.land x (a - 1) = 0 <-> (a | x).
Proof.
  intros (j & Hj & ->)%alignment_pow. replace (2 ^ j - 1) with (Z.ones j) by (rewrite Z.ones_equiv; lia).
  rewrite Z.land_ones by lia. apply Z.mod_divide. lia.
Qed.

(** A new entry in a bucket. *)
Lemma set_bucket_writer db b l : writer db -> Forall (entry_ok db) l -> writer (set_bucket b l db).
Proof.
  intros Hw Hl. destruct Hw as [H1 H2 H3 H4 H5]. split; try done.
  - simpl. by rewrite length_insert.
  - simpl. by apply Forall_insert.
Qed.

Lemma bucket_ok db b : writer db -> Forall (entry_ok db) (default [] (bucket db !! b)).
Proof.
  intros Hw. destruct (bucket db !! b) as [l|] eqn:E; simpl; [| constructor].
  by apply (Forall_lookup_1 _ _ _ _ (w_entries db Hw) E).
Qed.

Lemma no_entry_ok db : entry_ok db no_entry.
Proof. by intros []. Qed.

Lemma w_data_spec db vec a :
  writer db -> alignment a -> adb_len db + 7 + iovec_len vec < offset_limit ->
  exists offs db', adb_w_data db vec a = Ok (offs, db') /\
    wrote db (a - 1 + iovec_len vec) offs (concat vec) db' /\ (a | offs) /\ offs < offset_limit.
Proof.
  intros Hw Ha Hroom. destruct (w_raw_spec db vec a Hw Ha Hroom) as (offs & db' & Hraw & Hwr & Hal & Hbk & Hend).
  assert (0 <= iovec_len vec) as Hpos by (unfold iovec_len; lia).
  assert (1 <= a <= 8) as Ha8 by (destruct Ha as [->|[->|[->| ->]]]; lia).
  pose proof (wr_len _ _ _ _ _ Hwr). pose proof (wr_offs _ _ _ _ _ Hwr).
  assert (offs < offset_limit) as Hlt by lia.
  assert (forall b i l, Forall (entry_ok db) l -> exists offs' db'',
    (let! (offs, db) := adb_w_raw db vec (iovec_len vec) a in
     Ok (u32 offs, set_bucket b (<[i := mk_entry (iovec_hash vec 5381) (u32 offs) (u32 (iovec_len vec))]> l) db)) = Ok (offs', db'') /\
    wrote db (a - 1 + iovec_len vec) offs' (concat vec) db'' /\ (a | offs') /\ offs' < offset_limit) as Hadd.
  { intros b i l Hl. rewrite Hraw. cbn [obind]. unfold offset_limit, u32 in *. rewrite !Z.mod_small by lia.
    eexists _, _. split; [done |]. split; [| done]. destruct Hwr as [W1 W2 W3 W4 W5 W6]. split; try done.
    apply set_bucket_writer; [done |]. apply Forall_insert.
    - eapply Forall_impl; [exact Hl |]. intros e. apply entry_ok_grows. by apply db_grows_len.
    - intros Hne. simpl in *. lia. }
  unfold adb_w_data. case_if; [by exists offs, db'; rewrite Hraw |].
  set (b := Z.to_nat _). pose proof (bucket_ok db b Hw) as Hb.
  pose proof (bucket_scan_spec (adb_data db) (iovec_hash vec 5381) (iovec_len vec) a vec (default [] (bucket db !! b)) 0) as Hs.
  destruct (bucket_scan _ _ _ _ _ _ _) as [o|i|]; [| by apply Hadd |].
  - destruct Hs as (e & He & Hne & Hlen & Ho & Hcmp & Hland). rewrite Forall_forall in Hb.
    destruct (Hb e He Hne) as (_ & Ho8 & Hin). rewrite Ho in *. exists o, db. split; [done |].
    split; [| split; [by apply land_aligned | unfold offset_limit in *; lia]].
    split; [done | reflexivity | done | done | lia |]. rewrite Hlen in Hin. unfold iovec_len, adb_len in Hin.
    rewrite fetch_Ok by lia. f_equal. rewrite Nat2Z.id. apply iovec_memcmp_eq; [rewrite length_drop; lia | done].
  - apply Hadd. apply Forall_app. split; [done |]. apply Forall_replicate, no_entry_ok.
Qed.
