(* ===== verification/AdbTree.v ===== *)
(** * Values of an ADB

    The abstract view of a database: words denote trees.  Reading a word gives the tree, writing
    a tree gives a word, later writes change nothing, and copying between databases keeps the
    tree. *)

From S2P Require Import Prelude Blob BlobCodec Adb AdbFacts AdbWrite.

Inductive tree :=
| TNull
| TInt (n : Z)
| TBlob (b : bytes)
| TNode (type : Z) (ts : list tree).

Section tree_induction.
Context (P : tree -> Prop) (Hnull : P TNull) (Hint : forall n, P (TInt n)) (Hblob : forall b, P (TBlob b))
  (Hnode : forall type ts, Forall P ts -> P (TNode type ts)).

Fixpoint tree_ind' (t : tree) : P t :=
  match t with
  | TNull => Hnull
  | TInt n => Hint n
  | TBlob b => Hblob b
  | TNode type ts =>
      Hnode type ts ((fix go (l : list tree) : Forall P l :=
        match l with
        | [] => Forall_nil_2 P
        | x :: l' => Forall_cons_2 P x l' (tree_ind' x) (go l')
        end) ts)
  end.
End tree_induction.

(** The depth of a tree, and the bytes that writing it can need. *)
Fixpoint depth (t : tree) : nat :=
  match t with
  | TNode _ ts => S (max_list_with depth ts)
  | _ => 1
  end.

Fixpoint cost (t : tree) : Z :=
  match t with
  | TNull => 0
  | TInt _ => 15
  | TBlob b => 11 + Z.of_nat (length b)
  | TNode _ ts => 7 + 4 * (1 + Z.of_nat (length ts)) + foldr (fun t n => cost t + n) 0 ts
  end.
Definition costs (ts : list tree) : Z := foldr (fun t n => cost t + n) 0 ts.

Lemma depth_elem t ts : t ∈ ts -> (depth t <= max_list_with depth ts)%nat.
Proof. induction 1; simpl; lia. Qed.

Lemma cost_pos t : 0 <= cost t.
Proof.
  induction t as [| | |type ts IH] using tree_ind'; simpl; try lia.
  assert (0 <= foldr (fun t n => cost t + n) 0 ts); [| lia]. induction IH; simpl; lia.
Qed.

Lemma costs_pos ts : 0 <= costs ts.
Proof.
  induction ts as [|t ts IH]; [done |]. change (0 <= cost t + costs ts). pose proof (cost_pos t). lia.
Qed.

Definition int_hdr (type : Z) : option Z :=
  if type =? ADB_TYPE_INT_32 then Some 4 else if type =? ADB_TYPE_INT_64 then Some 8 else None.

(** [denotes db v t]: the word [v] of [db] stands for [t].  All its data lies after the header. *)
Inductive denotes (db : adb) : adb_val -> tree -> Prop :=
| den_null : denotes db ADB_NULL TNull
| den_imm v : ADB_VAL_TYPE v = ADB_TYPE_INT -> denotes db v (TInt (ADB_VAL_VALUE v))
| den_int v h n :
    int_hdr (ADB_VAL_TYPE v) = Some h -> 8 <= ADB_VAL_VALUE v -> load h (adb_data db) (ADB_VAL_VALUE v) = Ok n ->
    denotes db v (TInt n)
| den_blob v h b :
    blob_hdr (ADB_VAL_TYPE v) = Some h -> 8 <= ADB_VAL_VALUE v ->
    load h (adb_data db) (ADB_VAL_VALUE v) = Ok (Z.of_nat (length b)) ->
    fetch (adb_data db) (ADB_VAL_VALUE v + h) (Z.of_nat (length b)) = Ok b -> denotes db v (TBlob b)
| den_node v vals ts :
    ADB_VAL_TYPE v = ADB_TYPE_ARRAY \/ ADB_VAL_TYPE v = ADB_TYPE_OBJECT -> 8 <= ADB_VAL_VALUE v ->
    let l := Z.of_nat (S (length vals)) :: vals in
    Forall word_ok l ->
    fetch (adb_data db) (ADB_VAL_VALUE v) (4 * Z.of_nat (length l)) = Ok (word_bytes l) ->
    Forall2 (denotes db) vals ts -> denotes db v (TNode (ADB_VAL_TYPE v) ts).

(** ** Later writes change nothing *)

Lemma denotes_grows db db' v t : db_grows db db' -> denotes db v t -> denotes db' v t.
Proof.
  intros Hg. revert v. induction t as [| | |type ts IH] using tree_ind'; intros v Hd.
  - inversion Hd; subst. constructor.
  - inversion Hd; subst; econstructor; eauto using load_grows.
  - inversion Hd; subst; econstructor; eauto using load_grows. eapply fetch_grows; [exact Hg | | done].
    match goal with H : blob_hdr _ = _ |- _ => apply blob_hdr_cases in H end. lia.
  - inversion Hd as [| | | |? vals ? Ht Hv l Hw Hf Hvals]; subst. econstructor; eauto using fetch_grows.
    clear -IH Hvals. revert vals Hvals. induction IH as [|t ts Ht _ IHts]; intros vals Hvals; inversion Hvals; subst; constructor; auto.
Qed.

(** ** Reading *)

Lemma deref_Some db v offs s : 0 <= s < 2 ^ 40 -> 0 <= offs < 2 ^ 32 -> offs + ADB_VAL_VALUE v + s <= adb_len db ->
  adb_r_deref db v offs s = Some (offs + ADB_VAL_VALUE v).
Proof.
  intros Hs Ho Hl. unfold adb_r_deref, u64. pose proof (ADB_VALUE_range v). rewrite Z.mod_small by lia.
  by rewrite (proj2 (Z.ltb_ge _ _)) by lia.
Qed.

Lemma load_bound n db p x : load n (adb_data db) p = Ok x -> p + n <= adb_len db.
Proof.
  unfold load, obind. destruct (fetch _ _ _) eqn:E; [| done]. intros _. apply fetch_inv in E as (_ & _ & H & _).
  unfold adb_len. lia.
Qed.

Lemma read_int db v n : denotes db v (TInt n) -> adb_r_int db v = Ok n.
Proof.
  intros Hd. inversion Hd as [|? Ht|? h ? Hh H8 Hl| |]; subst; unfold adb_r_int; [by rewrite Ht |].
  pose proof (load_bound _ _ _ _ Hl). unfold int_hdr in Hh.
  destruct (ADB_VAL_TYPE v =? ADB_TYPE_INT) eqn:E0; [by apply Z.eqb_eq in E0; rewrite E0 in Hh |].
  repeat case_if; try done; injection Hh as <-; rewrite deref_Some by lia; done.
Qed.

Lemma read_blob db v b : adb_len db < 2 ^ 32 -> denotes db v (TBlob b) -> adb_r_blob db v = Ok (Some b).
Proof.
  intros Hlen Hd. inversion Hd as [| | |? h ? Hh H8 Hl Hf|]; subst. apply blob_hdr_cases in Hh as Hc.
  pose proof (load_bound _ _ _ _ Hl) as Hb. apply fetch_inv in Hf as Hf'. destruct Hf' as (F1 & F2 & F3 & _).
  unfold adb_len in *. unfold adb_r_blob, adb_r_blob_at. rewrite Hh, deref_Some by (unfold adb_len; lia).
  rewrite Z.add_0_l, Hl. cbn [obind rb_ptr rb_len]. rewrite deref_Some by (unfold adb_len; lia).
  unfold rblob_bytes. cbn [rb_ptr rb_len]. replace (h + ADB_VAL_VALUE v) with (ADB_VAL_VALUE v + h) by lia. by rewrite Hf.
Qed.

Lemma read_null db : adb_r_blob db ADB_NULL = Ok None /\ adb_r_int db ADB_NULL = Ok 0 /\ adb_r_obj db ADB_NULL = Ok null_obj.
Proof. done. Qed.

(** An object that stands for a list of trees. *)
Definition obj_denotes (db : adb) (o : adb_obj) (ts : list tree) : Prop :=
  exists vals, o = mk_obj (Some (Z.of_nat (S (length vals)) :: vals)) (S (length vals)) false /\
    Forall word_ok vals /\ Forall2 (denotes db) vals ts.

Lemma load_word buf p n x l : fetch buf p n = Ok (word_bytes (x :: l)) -> word_ok x -> load 4 buf p = Ok x.
Proof.
  intros Hf Hx. pose proof (fetch_inv _ _ _ _ Hf) as (_ & _ & _ & _ & Hn). rewrite length_word_bytes in Hn. simpl in Hn.
  unfold load. replace p with (p + 0) by lia. rewrite (fetch_sub _ _ _ _ 0 4 Hf) by lia. cbn [obind]. f_equal.
  by apply (le_value_bytes 4 x).
Qed.

Lemma read_obj db v type ts : adb_len db < 2 ^ 32 -> denotes db v (TNode type ts) ->
  exists o, adb_r_obj db v = Ok o /\ obj_denotes db o ts.
Proof.
  intros Hlen Hd. inversion Hd as [| | | |? vals ? Ht Hv l Hw Hf Hvals]; subst.
  unfold adb_r_obj. assert (negb (ADB_VAL_TYPE v =? ADB_TYPE_ARRAY) && negb (ADB_VAL_TYPE v =? ADB_TYPE_OBJECT) = false) as ->.
  { by destruct Ht as [-> | ->]. }
  pose proof (fetch_inv _ _ _ _ Hf) as (F1 & F2 & F3 & _). unfold adb_len in *. subst l. cbn [length] in *.
  rewrite deref_Some by (unfold adb_len; lia). rewrite Z.add_0_l.
  rewrite (load_word _ _ _ _ _ Hf) by (by apply Forall_cons in Hw as [? _]). cbn [obind].
  rewrite (proj2 (Z.eqb_neq _ _)) by lia. rewrite deref_Some by (unfold adb_len; lia). rewrite Z.add_0_l, Hf. cbn [obind].
  eexists. split; [done |]. exists vals. split; [| by apply Forall_cons in Hw as [_ ?]]. rewrite Nat2Z.id. f_equal. f_equal.
  by apply (words_word_bytes (Z.of_nat (S (length vals)) :: vals)).
Qed.

Lemma ro_val_denotes db o ts i : obj_denotes db o ts -> exists v, adb_ro_val o (S i) = Ok v /\
  denotes db v (default TNull (ts !! i)).
Proof.
  intros (vals & -> & _ & Hv). unfold adb_ro_val, obj_at. cbn [o_num o_obj].
  destruct (Nat.leb_spec (S (length vals)) (S i)) as [Hi|Hi].
  - exists ADB_NULL. split; [done |]. pose proof (Forall2_length _ _ _ Hv). rewrite lookup_ge_None_2 by lia. constructor.
  - destruct (lookup_lt_is_Some_2 vals i) as [v Hvi]; [lia |]. exists v. simpl. rewrite Hvi. split; [done |].
    destruct (Forall2_lookup_l _ _ _ _ _ Hv Hvi) as (t & -> & Ht). done.
Qed.

(** ** Writing *)

(** [v] of [db'] stands for [t], and [db'] is [db] with at most [room] more bytes. *)
Record written (db : adb) (room : Z) (t : tree) (v : adb_val) (db' : adb) : Prop := {
  wn_writer : writer db';
  wn_grows : db_grows db db';
  wn_kind : same_kind db db';
  wn_len : adb_len db' <= adb_len db + room;
  wn_word : word_ok v;
  wn_denotes : denotes db' v t;
}.

Lemma same_kind_refl db : same_kind db db.
Proof. done. Qed.

Lemma same_kind_trans a b c : same_kind a b -> same_kind b c -> same_kind a c.
Proof. unfold same_kind. intuition congruence. Qed.

Lemma written_same db room t v : writer db -> 0 <= room -> word_ok v -> denotes db v t -> written db room t v db.
Proof. intros. split; [done | reflexivity | done | lia | done | done]. Qed.

(** A value whose data is written by [adb_w_data]. *)
Lemma w_val_spec db vec a room type t :
  writer db -> alignment a -> is_type type -> 7 + iovec_len vec <= room -> adb_len db + room < offset_limit ->
  (forall db' v, 8 <= ADB_VAL_VALUE v -> ADB_VAL_TYPE v = type -> db_grows db db' ->
     fetch (adb_data db') (ADB_VAL_VALUE v) (iovec_len vec) = Ok (concat vec) -> denotes db' v t) ->
  exists v db', adb_w_val type (adb_w_data db vec a) = Ok (v, db') /\ written db room t v db' /\ ADB_VAL_TYPE v = type.
Proof.
  intros Hw Ha Ht Hr Hroom Hden. destruct (w_data_spec db vec a Hw Ha) as (offs & db' & Heq & Hwr & _ & Hlt); [lia |].
  unfold adb_w_val. rewrite Heq. cbn [obind]. pose proof (wr_offs _ _ _ _ _ Hwr).
  destruct (ADB_VAL_parts type offs Ht) as (P1 & P2 & P3); [lia |]. eexists _, _. split; [done |]. split; [| done].
  assert (a <= 8) by (destruct Ha as [->|[->|[->| ->]]]; lia).
  destruct Hwr as [W1 W2 W3 W4 W5 W6]. split; [done | done | done | lia | done |].
  apply Hden; [by rewrite P3 | done | done | by rewrite P3].
Qed.

Lemma load_fetch n buf p s : fetch buf p n = Ok s -> load n buf p = Ok (le_value s).
Proof. intros H. unfold load. by rewrite H. Qed.

Lemma w_int_spec db n :
  writer db -> 0 <= n < 2 ^ 64 -> adb_len db + cost (TInt n) < offset_limit ->
  exists v db', adb_w_int db n = Ok (v, db') /\ written db (cost (TInt n)) (TInt n) v db'.
Proof.
  intros Hw Hn Hroom. unfold adb_w_int. cbn [cost] in *.
  assert (forall h type, int_hdr type = Some h -> is_type type -> h <= 8 -> 0 <= n < 256 ^ h -> 0 <= h ->
    exists v db', adb_w_val type (adb_w_data1 db (Some (le_bytes (Z.to_nat h) n)) 4) = Ok (v, db') /\
      written db 15 (TInt n) v db') as Hst.
  { intros h type Hh Ht H8 Hrange H0.
    destruct (w_val_spec db [le_bytes (Z.to_nat h) n] 4 15 type (TInt n)) as (v & db' & He & Hwn & _); try done.
    - unfold alignment. lia.
    - unfold iovec_len. simpl. rewrite app_nil_r, length_le_bytes. lia.
    - intros db' v Hv Htv Hg Hf. apply (den_int db' v h); [by rewrite Htv | done |].
      unfold iovec_len in Hf. simpl in Hf. rewrite app_nil_r, length_le_bytes, Z2Nat.id in Hf by done.
      rewrite (load_fetch _ _ _ _ Hf), le_value_bytes; [done |]. by rewrite Z2Nat.id.
    - by exists v, db'. }
  case_if; bool_prop; [apply (Hst 8); [done | is_type | lia..] |].
  case_if; bool_prop; [apply (Hst 4); [done | is_type | lia..] |].
  destruct (ADB_VAL_parts ADB_TYPE_INT n) as (P1 & P2 & P3); [is_type | unfold offset_limit; lia |].
  eexists _, _. split; [done |]. apply written_same; [done | lia | done |]. rewrite <- P3 at 2. by constructor.
Qed.

(** The tree of a blob: an empty one is the NULL word. *)
Definition blob_tree (b : bytes) : tree := match b with [] => TNull | _ => TBlob b end.

Lemma w_blob_vec_spec db vec :
  writer db -> (length vec <= 4)%nat -> adb_len db + cost (TBlob (concat vec)) < offset_limit ->
  exists v db', adb_w_blob_vec db vec = Ok (v, db') /\
    written db (cost (TBlob (concat vec))) (blob_tree (concat vec)) v db'.
Proof.
  intros Hw Hvec Hroom. unfold adb_w_blob_vec, max_vec_size. rewrite (proj2 (Nat.ltb_ge _ _)) by lia.
  remember (iovec_len vec) as sz eqn:Hsz. unfold iovec_len in Hsz. cbn [cost] in *. rewrite <- Hsz in *.
  assert (0 <= sz /\ 0 <= adb_len db) as [Hs0 Hl0] by (unfold adb_len; lia).
  assert (forall h type, blob_hdr type = Some h -> is_type type -> alignment h -> h <= 4 -> 0 < sz < 256 ^ h ->
    exists v db', adb_w_val type (adb_w_data db (le_bytes (Z.to_nat h) sz :: vec) h) = Ok (v, db') /\
      written db (11 + sz) (blob_tree (concat vec)) v db') as Hst.
  { intros h type Hh Ht Ha H4 Hrange. assert (0 < h) by (destruct Ha as [->|[->|[->| ->]]]; lia).
    assert (iovec_len (le_bytes (Z.to_nat h) sz :: vec) = h + sz) as Hl.
    { unfold iovec_len. rewrite concat_cons, length_app, length_le_bytes. lia. }
    destruct (w_val_spec db (le_bytes (Z.to_nat h) sz :: vec) h (11 + sz) type (blob_tree (concat vec)))
      as (v & db' & He & Hwn & _); try done; [lia | | by exists v, db'].
    intros db' v Hv Htv Hg Hf. rewrite Hl, concat_cons in Hf.
    assert (blob_tree (concat vec) = TBlob (concat vec)) as ->.
    { destruct (concat vec); [simpl in *; lia | done]. }
    apply (den_blob db' v h); [by rewrite Htv | done | |].
    - replace (ADB_VAL_VALUE v) with (ADB_VAL_VALUE v + 0) by lia.
      pose proof (fetch_sub _ _ _ _ 0 h Hf) as F. rewrite drop_0, take_app_length' in F by (rewrite length_le_bytes; lia).
      rewrite (load_fetch _ _ _ _ (F ltac:(lia) ltac:(lia) ltac:(lia))), le_value_bytes; [by rewrite Hsz |].
      rewrite Z2Nat.id by lia. lia.
    - rewrite <- Hsz, (fetch_sub _ _ _ _ h sz Hf) by lia.
      rewrite drop_app_length' by (rewrite length_le_bytes; lia). by rewrite take_ge by lia. }
  case_if; bool_prop.
  { assert (u32 sz = sz) as -> by (unfold u32, offset_limit in *; rewrite Z.mod_small; lia).
    apply (Hst 4); [done | is_type | unfold alignment; lia | lia | unfold offset_limit in *; lia]. }
  case_if; bool_prop; [apply (Hst 2); [done | is_type | unfold alignment; lia | lia | lia] |].
  case_if; bool_prop; [apply (Hst 1); [done | is_type | unfold alignment; lia | lia | lia] |].
  eexists _, _. split; [done |]. assert (concat vec = []) as ->.
  { apply nil_length_inv. lia. }
  apply written_same; [done | lia | done | constructor].
Qed.

Lemma w_blob_spec db b : writer db -> adb_len db + cost (TBlob b) < offset_limit ->
  exists v db', adb_w_blob db b = Ok (v, db') /\ written db (cost (TBlob b)) (blob_tree b) v db'.
Proof.
  intros Hw Hr. unfold adb_w_blob. pose proof (w_blob_vec_spec db [b] Hw) as H. simpl in H. rewrite app_nil_r in H.
  apply H; [lia | done].
Qed.

(** ** Objects *)

(** A list without the nulls at its end. *)
Section trim.
Context {A : Type} (null : A -> bool).

Fixpoint trim (l : list A) : list A :=
  match l with
  | [] => []
  | x :: l' => match trim l' with
               | [] => if null x then [] else [x]
               | r => x :: r
               end
  end.

Lemma trim_snoc l x : trim (l ++ [x]) = if null x then trim l else l ++ [x].
Proof.
  induction l as [|y l IH]; simpl; [by destruct (null x) |]. rewrite IH.
  destruct (null x); [done |]. by destruct l.
Qed.

Lemma trim_take l : take (length (trim l)) l = trim l.
Proof.
  induction l as [|x l IH]; simpl; [done |]. destruct (trim l) as [|y r] eqn:E.
  - by destruct (null x).
  - simpl in *. by rewrite IH.
Qed.

Lemma trim_length l : (length (trim l) <= length l)%nat.
Proof. rewrite <- trim_take, length_take. lia. Qed.
End trim.

Lemma trim_Forall2 {A B} (p : A -> bool) (q : B -> bool) (R : A -> B -> Prop) l k :
  (forall x y, R x y -> p x = q y) -> Forall2 R l k -> Forall2 R (trim p l) (trim q k).
Proof.
  intros Hpq. induction 1 as [|x y l k Hxy _ IH]; simpl; [constructor |].
  destruct (trim p l), (trim q k); try by inversion IH.
  - rewrite (Hpq x y Hxy). destruct (q y); [constructor | by repeat constructor].
  - by constructor.
Qed.

Definition is_null (t : tree) : bool := match t with TNull => true | _ => false end.

Lemma trim_lookup ts i : default TNull (trim is_null ts !! i) = default TNull (ts !! i).
Proof.
  revert i. induction ts as [|t ts IH]; intros i; [done |]. cbn [trim].
  destruct (trim is_null ts) as [|r rs] eqn:E.
  - destruct i as [|i]; simpl.
    + by destruct t.
    + rewrite <- IH. destruct (is_null t); done.
  - destruct i as [|i]; [done |]. simpl. by rewrite <- IH.
Qed.

(** The node that an object with the given fields becomes: NULL when no field is set. *)
Definition node (type : Z) (ts : list tree) : tree :=
  match trim is_null ts with
  | [] => TNull
  | ts' => TNode type ts'
  end.

Lemma denotes_null db v t : denotes db v t -> (v =? ADB_NULL) = is_null t.
Proof.
  intros Hd. destruct (Z.eqb_spec v ADB_NULL) as [->|Hv].
  - inversion Hd; subst; done || (match goal with H : _ \/ _ |- _ => by destruct H end).
  - inversion Hd; subst; done.
Qed.

Lemma strip_null_trim fuel max l k : (k <= fuel)%nat -> (k <= length l)%nat ->
  strip_null fuel (max :: l) (S k) = S (length (trim (fun v => v =? ADB_NULL) (take k l))).
Proof.
  revert k. induction fuel as [|fuel IH]; intros k Hf Hk; [by replace k with 0%nat by lia |].
  cbn [strip_null]. destruct k as [|k]; [done |]. cbn [Nat.sub].
  destruct (lookup_lt_is_Some_2 l k) as [v Hv]; [lia |]. rewrite (take_S_r _ _ _ Hv), trim_snoc.
  simpl. rewrite Hv. simpl. destruct (v =? ADB_NULL).
  - apply IH; lia.
  - rewrite length_app, length_take. simpl. lia.
Qed.

(** An object or array that is built: its entries stand for the trees, and the space is as
    entry 0 says. *)
Definition building (db : adb) (o : adb_obj) (ts : list tree) : Prop :=
  exists l, o_obj o = Some (Z.of_nat (S (length l)) :: l) /\ o_num o = S (length ts) /\
    (length ts <= length l)%nat /\ Forall word_ok l /\
    (forall i v, l !! i = Some v -> denotes db v (default TNull (ts !! i))).

Lemma building_grows db db' o ts : db_grows db db' -> building db o ts -> building db' o ts.
Proof.
  intros Hg (l & H1 & H2 & H3 & H4 & H5). exists l. split_and!; try done.
  intros i v Hv. by apply (denotes_grows db), H5.
Qed.

(** The space of an object that is built. *)
Definition space (o : adb_obj) : nat := length (default [] (o_obj o)).

Lemma wo_reset_spec db o ts : building db o ts ->
  exists o', adb_wo_reset o = Ok o' /\ building db o' [] /\ space o' = space o.
Proof.
  intros (l & Ho & Hn & Hlen & Hw & Hd). unfold adb_wo_reset, space. rewrite Ho, Hn. eexists. split; [done |].
  replace (S (length ts) - 1)%nat with (length ts) by lia.
  assert (length (replicate (length ts) 0 ++ drop (length ts) l) = length l) as Hl.
  { rewrite length_app, length_replicate, length_drop. lia. }
  split; [| simpl; by rewrite Hl]. exists (replicate (length ts) 0 ++ drop (length ts) l).
  cbn [o_obj o_num length]. rewrite Hl. split_and!; try done; [lia | |].
  - apply Forall_app. split; [by apply Forall_replicate | by apply Forall_drop].
  - intros i v [Hi|[_ Hi]]%lookup_app_Some.
    + apply lookup_replicate in Hi as [-> _]. constructor.
    + rewrite length_replicate, lookup_drop in Hi. apply Hd in Hi.
      rewrite (lookup_ge_None_2 ts) in Hi by lia. done.
Qed.

Lemma wo_init_building db n : (1 <= n)%nat -> building db (adb_wo_init n) [].
Proof.
  intros Hn. exists (replicate (n - 1) 0). unfold adb_wo_init. simpl. rewrite length_replicate.
  replace (S (n - 1)) with n by lia. split_and!; try done; [lia | by apply Forall_replicate |].
  intros i v [-> _]%lookup_replicate. constructor.
Qed.

Lemma costs_trim ts : costs (trim is_null ts) <= costs ts.
Proof.
  induction ts as [|t ts IH]; [done |]. cbn [trim]. pose proof (cost_pos t). pose proof (costs_pos ts).
  change (costs (t :: ts)) with (cost t + costs ts).
  destruct (trim is_null ts) as [|r rs]; [destruct (is_null t); [change (costs []) with 0 | change (costs [t]) with (cost t + 0)]; lia |].
  change (costs (t :: r :: rs)) with (cost t + costs (r :: rs)). lia.
Qed.

(** The bytes of an object itself. *)
Definition obj_room (n : nat) : Z := 7 + 4 * (1 + Z.of_nat n).

Lemma iovec_len1 b : iovec_len [b] = Z.of_nat (length b).
Proof. unfold iovec_len. by rewrite concat_cons, app_nil_r. Qed.

Lemma w_words_spec db type vals ts :
  writer db -> type = ADB_TYPE_ARRAY \/ type = ADB_TYPE_OBJECT -> Forall word_ok vals -> Forall2 (denotes db) vals ts ->
  adb_len db + obj_room (length vals) < offset_limit ->
  exists v db', adb_w_val type (adb_w_data1 db (Some (word_bytes (Z.of_nat (S (length vals)) :: vals))) 4) = Ok (v, db') /\
    written db (obj_room (length vals)) (TNode type ts) v db'.
Proof.
  intros Hw Ht Hv Hd Hr. set (l := Z.of_nat (S (length vals)) :: vals).
  assert (iovec_len [word_bytes l] = 4 * Z.of_nat (length l)) as Hl.
  { rewrite iovec_len1, length_word_bytes. lia. }
  unfold obj_room, offset_limit, adb_len in *.
  destruct (w_val_spec db [word_bytes l] 4 (7 + 4 * (1 + Z.of_nat (length vals))) type (TNode type ts)) as (v & db' & He & Hwn & _).
  - done.
  - unfold alignment. lia.
  - destruct Ht as [-> | ->]; is_type.
  - rewrite Hl. unfold l. simpl length. lia.
  - unfold offset_limit, adb_len. lia.
  - intros db' v H8 Htv Hg Hf. rewrite Hl in Hf. rewrite concat_cons, app_nil_r in Hf.
    rewrite <- Htv. apply (den_node db' v vals ts); [by rewrite Htv | done | | done |].
    + apply Forall_cons. split; [unfold word_ok; lia | done].
    + eapply Forall2_impl; [exact Hd |]. intros x t. by apply denotes_grows.
  - by exists v, db'.
Qed.

Lemma w_obj_spec db o ts type :
  writer db -> building db o ts -> type = ADB_TYPE_ARRAY \/ type = ADB_TYPE_OBJECT ->
  adb_len db + obj_room (length ts) < offset_limit ->
  exists v db' o', __adb_w_obj db o type = Ok (v, db', o') /\ written db (obj_room (length ts)) (node type ts) v db' /\
    building db' o' [] /\ space o' = space o.
Proof.
  intros Hw Hb Ht Hr. destruct (wo_reset_spec db o ts Hb) as (o' & Hreset & Hb' & Hsp).
  destruct Hb as (l & Ho & Hn & Hlen & Hwl & Hz). unfold __adb_w_obj. rewrite Ho, Hn.
  assert (Forall2 (denotes db) (take (length ts) l) ts) as Hd.
  { apply Forall2_same_length_lookup_2; [rewrite length_take; lia |]. intros i v t Hv Hi.
    apply lookup_take_Some in Hv as [Hv _]. apply Hz in Hv. by rewrite Hi in Hv. }
  rewrite strip_null_trim by lia. set (vals := trim _ _).
  assert (Forall2 (denotes db) vals (trim is_null ts)) as Hvals.
  { unfold vals. eapply trim_Forall2; [| exact Hd]. intros v t. apply denotes_null. }
  assert (length vals <= length ts)%nat as Hvl.
  { rewrite (Forall2_length _ _ _ Hvals). apply trim_length. }
  replace (S (length vals) - 1)%nat with (length vals) by lia.
  assert (take (length vals) l = vals) as Htk.
  { unfold vals at 2. rewrite <- trim_take. fold vals. rewrite take_take. f_equal. lia. }
  unfold node. destruct (trim is_null ts) as [|t ts'] eqn:E.
  - inversion Hvals as [Hnil|]. simpl. rewrite Hreset. eexists _, _, _. split; [done |]. split; [| done].
    apply written_same; [done | unfold obj_room; lia | done | constructor].
  - destruct (decide (vals = [])) as [Hnil|Hne]; [rewrite Hnil in Hvals; inversion Hvals |].
    assert (1 < S (length vals))%nat as H1 by (destruct vals; [done | simpl; lia]).
    rewrite (proj2 (Nat.ltb_lt _ _) H1), Htk.
    destruct (w_words_spec db type vals (t :: ts')) as (v & db' & -> & Hwn); [done.. | | done | |].
    + rewrite <- Htk. by apply Forall_take.
    + unfold obj_room in *. lia.
    + cbn [obind]. rewrite Hreset. cbn [obind]. eexists _, _, _. split; [done |]. split; [| split; [| done]].
      * destruct Hwn as [W1 W2 W3 W4 W5 W6]. split; try done. unfold obj_room in *. lia.
      * eapply building_grows; [| exact Hb']. apply Hwn.
Qed.

(** ** Copying between databases *)

Section copy.
Context (srcdb : adb) (Hsrc : adb_len srcdb < 2 ^ 32).

Lemma w_copy_data_spec db v sz align room t s :
  writer db -> alignment align -> is_type (ADB_VAL_TYPE v) -> 7 + sz <= room -> adb_len db + room < offset_limit ->
  fetch (adb_data srcdb) (ADB_VAL_VALUE v) sz = Ok s ->
  (forall db' v', 8 <= ADB_VAL_VALUE v' -> ADB_VAL_TYPE v' = ADB_VAL_TYPE v ->
     fetch (adb_data db') (ADB_VAL_VALUE v') sz = Ok s -> denotes db' v' t) ->
  exists v' db', adb_w_copy_data db srcdb v sz align = Ok (v', db') /\ written db room t v' db'.
Proof.
  intros Hw Ha Ht Hr Hroom Hf Hden. pose proof (fetch_inv _ _ _ _ Hf) as (F1 & F2 & F3 & _ & F5).
  unfold adb_w_copy_data. unfold adb_len in *. rewrite deref_Some by (unfold adb_len; lia).
  rewrite Z.add_0_l, Hf. cbn [obind adb_w_data1].
  destruct (w_val_spec db [s] align room (ADB_VAL_TYPE v) t) as (v' & db' & He & Hwn & _); try done.
  - rewrite iovec_len1. lia.
  - intros db' v' H8 Htv Hg Hf'. rewrite iovec_len1, F5, concat_cons, app_nil_r in Hf'. by apply Hden.
  - by exists v', db'.
Qed.

Definition copies (copy : adb -> adb_val -> option (outcome (adb_val * adb))) (t : tree) : Prop :=
  forall db v, writer db -> denotes srcdb v t -> word_ok v -> adb_len db + cost t < offset_limit ->
  exists v' db', copy db v = Some (Ok (v', db')) /\ written db (cost t) t v' db'.

Lemma copy_values_spec copy vals ts db :
  Forall (copies copy) ts -> Forall2 (denotes srcdb) vals ts -> Forall word_ok vals -> writer db ->
  adb_len db + costs ts < offset_limit ->
  exists vals' db', copy_values copy db vals = Some (Ok (vals', db')) /\ Forall word_ok vals' /\
    Forall2 (denotes db') vals' ts /\ writer db' /\ db_grows db db' /\ same_kind db db' /\ adb_len db' <= adb_len db + costs ts.
Proof.
  intros Hc. revert vals db. induction Hc as [|t ts Ht Hts IH]; intros vals db Hd Hv Hw Hr.
  - inversion Hd; subst. exists [], db. split_and!; try done. unfold costs; simpl; lia.
  - inversion Hd as [|v ? vals' ? Hdv Hdvs]; subst. apply Forall_cons in Hv as [Hv Hvs].
    change (costs (t :: ts)) with (cost t + costs ts) in *. pose proof (cost_pos t). pose proof (costs_pos ts).
    destruct (Ht db v Hw Hdv Hv) as (v1 & db1 & He & [W1 W2 W3 W4 W5 W6]); [lia |].
    destruct (IH vals' db1 Hdvs Hvs W1) as (vs & db2 & He2 & Hok & Hd2 & Hw2 & Hg2 & Hk2 & Hl2); [lia |].
    exists (v1 :: vs), db2. simpl. rewrite He. simpl. rewrite He2. simpl. split_and!; try done.
    + by constructor.
    + constructor; [by apply (denotes_grows db1) | done].
    + by transitivity db1.
    + by apply (same_kind_trans _ db1).
    + lia.
Qed.

Lemma word_type v : word_ok v -> is_type (ADB_VAL_TYPE v).
Proof.
  intros Hv. rewrite ADB_TYPE_div by done. exists (v / 2 ^ 28). split; [| done]. unfold word_ok in Hv.
  split; [apply Z.div_pos; lia | apply Z.div_lt_upper_bound; lia].
Qed.

Lemma copy_int fuel n : copies (adb_w_copy (S fuel) srcdb) (TInt n).
Proof.
  intros db v Hw Hd Hv Hr. inversion Hd as [|? Ht|? h ? Hh H8 Hl| |]; subst; cbn [adb_w_copy].
  - rewrite Ht. cbn [orb Z.eqb]. eexists _, _. split; [done |]. apply written_same; [done | simpl; lia | done |]. by constructor.
  - assert (exists db' v', (adb_w_copy_data db srcdb v h h) = Ok (v', db') /\ written db 15 (TInt n) v' db') as (db' & v' & He & Hwn).
    { unfold load, obind in Hl. destruct (fetch _ _ _) as [s|] eqn:Ef; [| done]. injection Hl as <-.
      assert (h = 4 \/ h = 8) as Hh' by (unfold int_hdr in Hh; repeat case_match; simplify_eq; lia).
      destruct (w_copy_data_spec db v h h 15 (TInt (le_value s)) s) as (v' & db' & He & Hwn); try done.
      - unfold alignment. lia.
      - by apply word_type.
      - lia.
      - intros db' v' H8' Ht' Hf'. apply (den_int db' v' h); [by rewrite Ht' | done | by apply load_fetch].
      - by exists db', v'. }
    exists v', db'. split; [| exact Hwn].
    unfold int_hdr in Hh. destruct (Z.eqb_spec (ADB_VAL_TYPE v) ADB_TYPE_INT_32) as [Ht|Ht].
    + injection Hh as <-. rewrite Ht. cbn. by rewrite He.
    + destruct (Z.eqb_spec (ADB_VAL_TYPE v) ADB_TYPE_INT_64) as [Ht'|]; [| done]. injection Hh as <-. rewrite Ht'. cbn. by rewrite He.
Qed.

Lemma copy_blob fuel b : copies (adb_w_copy (S fuel) srcdb) (TBlob b).
Proof.
  intros db v Hw Hd Hv Hr. inversion Hd as [| | |? h ? Hh H8 Hl Hf|]; subst. cbn [adb_w_copy].
  pose proof (load_bound _ _ _ _ Hl) as Hb. pose proof (fetch_inv _ _ _ _ Hf) as (F1 & F2 & F3 & _).
  apply blob_hdr_cases in Hh as Hc. unfold adb_len in Hsrc, Hb.
  assert (ADB_VAL_TYPE v = ADB_TYPE_BLOB_8 \/ ADB_VAL_TYPE v = ADB_TYPE_BLOB_16 \/ ADB_VAL_TYPE v = ADB_TYPE_BLOB_32) as Ht.
  { unfold blob_hdr in Hh. repeat case_match; bool_prop; simplify_eq; tauto. }
  assert ((ADB_VAL_TYPE v =? ADB_TYPE_SPECIAL) || (ADB_VAL_TYPE v =? ADB_TYPE_INT) = false /\
    (ADB_VAL_TYPE v =? ADB_TYPE_INT_32) = false /\ (ADB_VAL_TYPE v =? ADB_TYPE_INT_64) = false) as (-> & -> & ->).
  { by destruct Ht as [-> | [-> | ->]]. }
  rewrite Hh, deref_Some by (unfold adb_len; lia). rewrite Z.add_0_l, Hl. cbn [obind]. set (len := Z.of_nat (length b)) in *.
  assert (exists s, fetch (adb_data srcdb) (ADB_VAL_VALUE v) (h + len) = Ok s) as [s Hs].
  { rewrite fetch_Ok by lia. by eexists. }
  assert (load h (adb_data srcdb) (ADB_VAL_VALUE v) = Ok (le_value (take (Z.to_nat h) s)) /\
    fetch (adb_data srcdb) (ADB_VAL_VALUE v + h) len = Ok (take (Z.to_nat len) (drop (Z.to_nat h) s))) as [S1 S2].
  { split; [| by apply (fetch_sub _ _ _ _ h len Hs); lia].
    apply load_fetch. replace (ADB_VAL_VALUE v) with (ADB_VAL_VALUE v + 0) by lia. by rewrite (fetch_sub _ _ _ _ 0 h Hs) by lia. }
  rewrite Hl in S1. rewrite Hf in S2. injection S1 as S1. injection S2 as S2.
  destruct (w_copy_data_spec db v (h + len) h (cost (TBlob b)) (TBlob b) s) as (v' & db' & He & Hwn); try done.
  - unfold alignment. lia.
  - by apply word_type.
  - cbn [cost]. fold len. lia.
  - intros db' v' H8' Ht' Hf'. apply (den_blob db' v' h); [by rewrite Ht' | done | |]; fold len.
    + rewrite S1. apply load_fetch. replace (ADB_VAL_VALUE v') with (ADB_VAL_VALUE v' + 0) by lia.
      by rewrite (fetch_sub _ _ _ _ 0 h Hf') by lia.
    + rewrite (fetch_sub _ _ _ _ h len Hf') by lia. by rewrite <- S2.
  - exists v', db'. by rewrite He.
Qed.

Lemma copy_spec t : forall fuel, (depth t <= fuel)%nat -> copies (adb_w_copy fuel srcdb) t.
Proof.
  induction t as [|n|b|type ts IH] using tree_ind'; intros [|fuel] Hf; try (simpl in Hf; lia).
  - intros db v Hw Hd Hv Hr. inversion Hd; subst. exists ADB_NULL, db. split; [done |]. by apply written_same; [| | | constructor].
  - apply copy_int.
  - apply copy_blob.
  - intros db v Hw Hd Hv Hr. destruct (read_obj srcdb v type ts Hsrc Hd) as (o & Ho & vals & -> & Hwv & Hvals).
    assert (type = ADB_VAL_TYPE v /\ (type = ADB_TYPE_ARRAY \/ type = ADB_TYPE_OBJECT)) as [Htv Ht] by (by inversion Hd).
    cbn [adb_w_copy]. rewrite <- Htv, Ho. cbn [o_obj].
    assert (Forall (copies (adb_w_copy fuel srcdb)) ts) as Hc.
    { rewrite Forall_forall in *. intros t Hin. apply IH; [done |]. simpl in Hf.
      pose proof (depth_elem t ts Hin). lia. }
    cbn [cost] in *. fold (costs ts) in *. pose proof (costs_pos ts). pose proof (Forall2_length _ _ _ Hvals) as Hlen.
    destruct (copy_values_spec _ vals ts db Hc Hvals Hwv Hw) as (vs & db1 & He & Hok & Hd1 & Hw1 & Hg1 & Hk1 & Hl1); [lia |].
    pose proof (Forall2_length _ _ _ Hd1) as Hlen1.
    destruct (w_words_spec db1 type vs ts) as (v2 & db2 & He2 & W); [done.. | unfold obj_room; lia |].
    exists v2, db2. split.
    + replace (length vals) with (length vs) by lia.
      assert ((type =? ADB_TYPE_SPECIAL) || (type =? ADB_TYPE_INT) = false /\ (type =? ADB_TYPE_INT_32) = false /\
        (type =? ADB_TYPE_INT_64) = false /\ blob_hdr type = None /\
        (type =? ADB_TYPE_OBJECT) || (type =? ADB_TYPE_ARRAY) = true) as (-> & -> & -> & -> & ->).
      { by destruct Ht as [-> | ->]. }
      rewrite He. cbn [mbind option_bind obind]. by rewrite He2.
    + destruct W as [W1 W2 W3 W4 W5 W6]. unfold obj_room in *. split; try done; [by transitivity db1 | by apply (same_kind_trans _ db1) | lia].
Qed.
End copy.
