(* ===== verification/AdbBuild.v ===== *)
(** * Building and reading back a database

    Setting fields, appending to arrays, the root value, the table that stores equal data once,
    and the theorems that put the writer and the reader together. *)

From S2P Require Import Prelude Blob BlobCodec Adb AdbFacts AdbWrite AdbTree.

(** ** Fields *)

(** The list of fields after field [i] is set. *)
Definition set_tree (ts : list tree) (i : nat) (t : tree) : list tree :=
  if decide (i < length ts)%nat then <[i := t]> ts
  else if is_null t then ts
  else ts ++ replicate (i - length ts) TNull ++ [t].

Lemma set_tree_lookup ts i t j :
  default TNull (set_tree ts i t !! j) = if decide (j = i) then t else default TNull (ts !! j).
Proof.
  unfold set_tree. destruct (decide (i < length ts)%nat) as [Hi|Hi].
  - destruct (decide (j = i)) as [->|Hj]; [by rewrite list_lookup_insert_eq | by rewrite list_lookup_insert_ne].
  - destruct (is_null t) eqn:E.
    + destruct (decide (j = i)) as [->|Hj]; [| done]. rewrite lookup_ge_None_2 by lia. by destruct t.
    + destruct (decide (j < length ts)%nat) as [Hj|Hj].
      * rewrite lookup_app_l by done. by rewrite decide_False by lia.
      * rewrite lookup_app_r, (lookup_ge_None_2 ts j) by lia.
        destruct (decide (j < i)%nat).
        -- rewrite lookup_app_l by (rewrite length_replicate; lia).
           rewrite lookup_replicate_2 by lia. by rewrite decide_False by lia.
        -- rewrite lookup_app_r by (rewrite length_replicate; lia). rewrite length_replicate.
           destruct (decide (j = i)) as [->|]; [by rewrite Nat.sub_diag | by rewrite lookup_ge_None_2 by (simpl; lia)].
Qed.

Lemma set_tree_length ts i t n : (length ts <= n)%nat -> (i < n)%nat -> (length (set_tree ts i t) <= n)%nat.
Proof.
  intros. unfold set_tree. repeat case_match; [by rewrite length_insert | done |].
  rewrite !length_app, length_replicate. simpl. lia.
Qed.

Definition error_free (v : adb_val) : Prop := ADB_IS_ERROR v = false.

Lemma denotes_error_free db v t : denotes db v t -> error_free v.
Proof.
  intros Hd. unfold error_free, ADB_IS_ERROR. apply Z.eqb_neq. intros He.
  inversion Hd as [| |? ? ? Hh|? ? ? Hh|? ? ? Ht]; subst; rewrite ?He in *; try done. by destruct Ht.
Qed.

Lemma building_obj_max db o ts : building db o ts -> obj_max o = Ok (Z.of_nat (space o)).
Proof. intros (l & Ho & _). unfold obj_max, obj_at, space. by rewrite Ho. Qed.

Lemma building_length db o ts : building db o ts -> (length ts < space o)%nat.
Proof. intros (l & Ho & _ & Hl & _). unfold space. rewrite Ho. simpl. lia. Qed.

Lemma wo_val_spec db o ts i v t :
  building db o ts -> word_ok v -> denotes db v t -> (S i < space o)%nat ->
  exists o', adb_wo_val o (S i) v = Ok (v, o') /\ building db o' (set_tree ts i t) /\ space o' = space o.
Proof.
  intros Hb Hv Hd Hi. unfold adb_wo_val. rewrite (building_obj_max _ _ _ Hb). cbn [obind].
  rewrite (proj2 (Z.leb_gt _ _)) by lia. rewrite (denotes_error_free _ _ _ Hd).
  destruct Hb as (l & Ho & Hn & Hl & Hw & Hp). unfold space in *. rewrite Ho in *. simpl in Hi.
  rewrite (proj2 (Nat.ltb_lt _ _)) by (simpl; lia). eexists. split; [done |]. simpl. rewrite length_insert.
  split; [| done]. exists (<[i := v]> l). rewrite length_insert. cbn [o_obj o_num]. split_and!.
  - done.
  - rewrite Hn, (denotes_null _ _ _ Hd). unfold set_tree.
    destruct (decide (i < length ts)%nat), (is_null t), (Nat.leb_spec (S (length ts)) (S i)); simpl;
      rewrite ?length_insert, ?length_app, ?length_replicate; simpl; lia.
  - apply set_tree_length; lia.
  - by apply Forall_insert.
  - intros j w Hj. rewrite set_tree_lookup. apply list_lookup_insert_Some in Hj as [(-> & -> & _)|[Hne Hj]].
    + by rewrite decide_True.
    + rewrite decide_False by done. by apply Hp.
Qed.

(** The space of a full array is doubled. *)
Lemma wa_space db l num d ts :
  let o := mk_obj (Some (Z.of_nat (S (length l)) :: l)) num d in
  building db o ts -> Z.of_nat (space o) < 2 ^ 30 ->
  exists k d', (if Z.of_nat (space o) <=? Z.of_nat num
     then Ok (mk_obj (Some (<[0%nat := u32 (s32 (Z.of_nat (space o) * 2))]>
            ((Z.of_nat (S (length l)) :: l) ++ replicate (Z.to_nat (Z.of_nat (space o))) 0))) num true)
     else Ok o) = Ok (mk_obj (Some (Z.of_nat (S (length k)) :: k)) num d') /\
    building db (mk_obj (Some (Z.of_nat (S (length k)) :: k)) num d') ts /\
    (length ts < length k)%nat /\ (length l <= length k <= 1 + 2 * length l)%nat.
Proof.
  intros o Hb Hsp. destruct Hb as (l' & Heq & Hn & Hl & Hw & Hp).
  assert (l' = l) as -> by (simpl in Heq; congruence). cbn in Hn, Hsp. subst num.
  unfold o, space. cbn [o_obj default from_option id length]. case_if; bool_prop.
  - exists (l ++ replicate (S (length l)) 0), true.
    assert (length (l ++ replicate (S (length l)) 0) = (1 + 2 * length l)%nat) as Hk.
    { rewrite length_app, length_replicate. lia. }
    rewrite Hk. split; [| split; [| lia]].
    + rewrite Nat2Z.id. cbn [app insert list_insert]. do 4 f_equal. unfold u32, s32.
      rewrite (Z.mod_small (Z.of_nat (S (length l)) * 2 + 2 ^ 31)), Z.mod_small by lia. lia.
    + exists (l ++ replicate (S (length l)) 0). cbn [o_obj o_num]. rewrite Hk. split_and!; try done; [lia | |].
      * apply Forall_app. split; [done | by apply Forall_replicate].
      * intros i v [Hi|[Hi [-> _]%lookup_replicate]]%lookup_app_Some; [by apply Hp |].
        rewrite lookup_ge_None_2 by lia. constructor.
  - exists l, d. split; [done |]. split; [by exists l | lia].
Qed.

Lemma wa_append_spec db o ts v t :
  building db o ts -> word_ok v -> denotes db v t -> is_null t = false -> Z.of_nat (space o) < 2 ^ 30 ->
  exists o', adb_wa_append o v = Ok (v, o') /\ building db o' (ts ++ [t]) /\ (space o <= space o' <= 2 * space o)%nat.
Proof.
  intros Hb Hv Hd Hnn Hsp. unfold adb_wa_append. rewrite (denotes_error_free _ _ _ Hd), (denotes_null _ _ _ Hd), Hnn.
  rewrite (building_obj_max _ _ _ Hb). cbn [obind].
  assert (exists l, o = mk_obj (Some (Z.of_nat (S (length l)) :: l)) (o_num o) (o_dynamic o)) as [l Ho].
  { destruct Hb as (l & Hl & _). exists l. destruct o. simpl in *. by rewrite Hl. }
  revert Hb Hsp. rewrite Ho. intros Hb Hsp. destruct (wa_space _ _ _ _ _ Hb Hsp) as (k & d & Hk & Hbk & Hlt & Hlen).
  cbn [o_obj o_num] in *. rewrite Hk. cbn [obind o_obj o_num o_dynamic].
  destruct Hbk as (k' & Heq & Hn & _ & Hw & Hp). assert (k' = k) as -> by (simpl in Heq; congruence).
  cbn [o_num] in Hn. rewrite Hn.
  rewrite (proj2 (Nat.ltb_lt _ _)) by (simpl; lia). eexists. split; [done |].
  split; [| unfold space; cbn [o_obj default from_option id]; rewrite length_insert; simpl; lia].
  exists (<[length ts := v]> k). cbn [o_obj o_num]. rewrite length_insert, length_app.
  split_and!; [done | simpl; lia | simpl; lia | by apply Forall_insert |].
  intros i w [(<- & <- & _)|[Hne Hi]]%list_lookup_insert_Some; [by rewrite lookup_app_r, Nat.sub_diag |].
  destruct (decide (i < length ts)%nat); [rewrite lookup_app_l by done; by apply Hp |].
  rewrite lookup_ge_None_2 by (rewrite length_app; simpl; lia). apply Hp in Hi. by rewrite lookup_ge_None_2 in Hi by lia.
Qed.

(** ** The header and the root *)

Lemma w_init_spec schema n : 0 < n < 2 ^ 31 ->
  exists db, adb_w_init_dynamic schema n = Ok db /\ writer db /\ adb_len db = 8 /\ no_cache db = 0 /\
    adb_schema db = schema.
Proof.
  intros Hn. unfold adb_w_init_dynamic. assert ((n =? 0) = false) as Hz by (apply Z.eqb_neq; lia). rewrite Hz.
  unfold adb_w_raw. cbn [adb_adb num_buckets alloc_len]. change (adb_len _) with 0 at 1 2 3.
  cbn [obind]. rewrite Hz. cbn. eexists. split; [done |]. split_and!; try done. split.
  - cbv. done.
  - by exists 0.
  - cbv. done.
  - simpl. rewrite length_replicate. lia.
  - simpl. apply Forall_replicate. constructor.
Qed.

Lemma w_root_spec db v : writer db -> word_ok v ->
  exists db', adb_w_root db v = Ok db' /\ writer db' /\ db_grows db db' /\ adb_len db' = adb_len db /\ same_kind db db' /\
    adb_r_root db' = Ok v.
Proof.
  intros Hw Hv. pose proof (w_header db Hw) as Hh. unfold ADB_HDR_SIZE, adb_len in Hh.
  unfold adb_w_root. rewrite (proj2 (Z.ltb_ge _ _)) by (unfold ADB_HDR_SIZE, adb_len; lia).
  eexists. split; [done |]. set (data := take 4 _ ++ _).
  assert (length data = length (adb_data db)) as Hl.
  { unfold data. rewrite !length_app, length_le_bytes, length_take, length_drop. lia. }
  assert (adb_data (set_data data db) = data) as Hdata by done.
  assert (adb_len (set_data data db) = adb_len db) as Hlen by (unfold adb_len; by rewrite Hdata, Hl).
  assert (drop 8 data = drop 8 (adb_data db)) as Hd.
  { unfold data. rewrite app_assoc. apply drop_app_length'. rewrite length_app, length_le_bytes, length_take. lia. }
  split_and!; try done.
  - destruct Hw as [W1 W2 W3 W4 W5]. split; try done; [by rewrite Hlen | by rewrite Hlen |].
    simpl. eapply Forall_impl; [exact W5 |]. intros l Hf. eapply Forall_impl; [exact Hf |].
    intros e. apply entry_ok_grows. lia.
  - unfold db_grows. rewrite Hdata. split; [by rewrite Hl | by rewrite Hd].
  - unfold adb_r_root. rewrite Hlen. rewrite (proj2 (Z.ltb_ge _ _)) by (unfold ADB_HDR_SIZE, adb_len; lia).
    rewrite Hdata. assert (fetch data 4 4 = Ok (le_bytes 4 v)) as Hf.
    { rewrite fetch_Ok by lia. f_equal. unfold data. rewrite drop_app_length' by (rewrite length_take; lia).
      by rewrite take_app_length' by (by rewrite length_le_bytes). }
    rewrite (load_fetch _ _ _ _ Hf). f_equal. by apply (le_value_bytes 4).
Qed.

(** ** A root object, written and read back *)

(** The fields a caller sets. *)
Inductive field := FInt (n : Z) | FBlob (b : bytes).

Definition field_tree (f : field) : tree := match f with FInt n => TInt n | FBlob b => blob_tree b end.
Definition field_ok (f : field) : Prop := match f with FInt n => 0 <= n < 2 ^ 64 | FBlob _ => True end.
Definition field_cost (f : field) : Z := match f with FInt n => 15 | FBlob b => 11 + Z.of_nat (length b) end.

Definition wo_field (db : adb) (o : adb_obj) (i : nat) (f : field) : outcome (adb_val * adb * adb_obj) :=
  match f with FInt n => adb_wo_int db o i n | FBlob b => adb_wo_blob db o i b end.

Fixpoint wo_fields (db : adb) (o : adb_obj) (l : list (nat * field)) : outcome (adb * adb_obj) :=
  match l with
  | [] => Ok (db, o)
  | (i, f) :: l' => let! (_, db, o) := wo_field db o i f in wo_fields db o l'
  end.

(** The last value that a list of assignments gives to a field. *)
Fixpoint assigned (l : list (nat * field)) (ts : list tree) : list tree :=
  match l with
  | [] => ts
  | (i, f) :: l' => assigned l' (set_tree ts (i - 1) (field_tree f))
  end.

Definition write_root (schema nbuckets : Z) (num_fields : nat) (l : list (nat * field)) : outcome adb :=
  let! db := adb_w_init_dynamic schema nbuckets in
  let! (db, o) := wo_fields db (adb_wo_init num_fields) l in
  let! (v, db, o) := __adb_w_obj db o ADB_TYPE_OBJECT in
  adb_w_root db v.

Lemma wo_field_spec db o ts i f :
  writer db -> building db o ts -> field_ok f -> (0 < i < space o)%nat -> adb_len db + field_cost f < offset_limit ->
  exists v db' o', wo_field db o i f = Ok (v, db', o') /\ writer db' /\ db_grows db db' /\ same_kind db db' /\
    adb_len db' <= adb_len db + field_cost f /\ building db' o' (set_tree ts (i - 1) (field_tree f)) /\ space o' = space o.
Proof.
  intros Hw Hb Hf Hi Hr. destruct i as [|i]; [lia |]. rewrite Nat.sub_succ, Nat.sub_0_r.
  assert (forall v db', written db (field_cost f) (field_tree f) v db' -> exists o',
    adb_wo_val o (S i) v = Ok (v, o') /\ writer db' /\ db_grows db db' /\ same_kind db db' /\ adb_len db' <= adb_len db + field_cost f /\
    building db' o' (set_tree ts i (field_tree f)) /\ space o' = space o) as Hset.
  { intros v db' [W1 W2 W3 W4 W5 W6]. destruct (wo_val_spec db' o ts i v (field_tree f)) as (o' & H1 & H2 & H3);
      [by apply (building_grows db) | done | done | lia | by exists o']. }
  destruct f as [n|b]; simpl in *.
  - unfold adb_wo_int. destruct (w_int_spec db n Hw Hf Hr) as (v & db' & -> & Hwn). cbn [obind].
    destruct (Hset v db' Hwn) as (o' & -> & H). cbn [obind]. by exists v, db', o'.
  - unfold adb_wo_blob. destruct (w_blob_spec db b Hw Hr) as (v & db' & -> & Hwn). cbn [obind].
    destruct (Hset v db' Hwn) as (o' & -> & H). cbn [obind]. by exists v, db', o'.
Qed.

Definition fields_cost (l : list (nat * field)) : Z := foldr (fun x n => field_cost (snd x) + n) 0 l.

Lemma field_cost_pos f : 0 <= field_cost f.
Proof. destruct f; simpl; lia. Qed.

Lemma fields_cost_pos l : 0 <= fields_cost l.
Proof. induction l as [|[i f] l IH]; simpl; [done |]. pose proof (field_cost_pos f). lia. Qed.

Lemma wo_fields_spec l db o ts :
  writer db -> building db o ts -> Forall (fun x => field_ok (snd x) /\ (0 < fst x < space o)%nat) l ->
  adb_len db + fields_cost l < offset_limit ->
  exists db' o', wo_fields db o l = Ok (db', o') /\ writer db' /\ db_grows db db' /\ same_kind db db' /\
    adb_len db' <= adb_len db + fields_cost l /\ building db' o' (assigned l ts) /\ space o' = space o.
Proof.
  revert db o ts. induction l as [|[i f] l IH]; intros db o ts Hw Hb Hl Hr; simpl in *.
  - exists db, o. split_and!; try done; lia.
  - apply Forall_cons in Hl as [[Hf Hi] Hl]. simpl in *. pose proof (field_cost_pos f). pose proof (fields_cost_pos l).
    destruct (wo_field_spec db o ts i f) as (v & db1 & o1 & -> & Hw1 & Hg1 & Hk1 & Hl1 & Hb1 & Hs1); [done.. | lia |].
    cbn [obind]. destruct (IH db1 o1 (set_tree ts (i - 1) (field_tree f))) as (db2 & o2 & -> & Hw2 & Hg2 & Hk2 & Hl2 & Hb2 & Hs2);
      [done | done | by rewrite Hs1 | lia |].
    exists db2, o2. split_and!; try done; [by transitivity db1 | by apply (same_kind_trans _ db1) | lia | congruence].
Qed.

Lemma assigned_length l ts n : (length ts <= n)%nat -> Forall (fun x => (0 < fst x <= n)%nat) l -> (length (assigned l ts) <= n)%nat.
Proof.
  intros Hts Hl. revert ts Hts. induction Hl as [|[i f] l Hi _ IH]; intros ts Hts; simpl in *; [done |].
  apply IH. apply set_tree_length; lia.
Qed.

(** What a field reads as. *)
Definition reads_as (db : adb) (o : adb_obj) (i : nat) (t : tree) : Prop :=
  match t with
  | TInt n => adb_ro_int db o i = Ok n
  | TBlob b => adb_ro_blob db o i = Ok (Some b)
  | _ => adb_ro_blob db o i = Ok None /\ adb_ro_int db o i = Ok 0
  end.

Lemma denotes_reads db o i v t : adb_len db < 2 ^ 32 -> (forall ty ts, t <> TNode ty ts) ->
  adb_ro_val o i = Ok v -> denotes db v t -> reads_as db o i t.
Proof.
  intros Hlen Hn Hv Hd. destruct t as [|n|b|ty ts]; simpl; unfold adb_ro_int, adb_ro_blob; rewrite ?Hv; cbn [obind].
  - inversion Hd; subst. done.
  - by apply read_int.
  - by apply read_blob.
  - by destruct (Hn ty ts).
Qed.

Lemma assigned_scalar l ts i : (forall j ty us, default TNull (ts !! j) <> TNode ty us) ->
  forall ty us, default TNull (assigned l ts !! i) <> TNode ty us.
Proof.
  revert ts. induction l as [|[k f] l IH]; intros ts Hts ty us; simpl; [apply Hts |].
  apply IH. intros j ty' us'. rewrite set_tree_lookup. case_decide; [| apply Hts].
  destruct f as [n|b]; [done |]. simpl. by destruct b.
Qed.

(** Reading an object that was written: its fields have their trees. *)
Lemma read_node db v type ts : adb_len db < 2 ^ 32 -> denotes db v (node type ts) ->
  exists o, adb_r_obj db v = Ok o /\ forall i, exists w, adb_ro_val o (S i) = Ok w /\ denotes db w (default TNull (ts !! i)).
Proof.
  intros Hlen Hd. pose proof (trim_lookup ts) as Htl. unfold node in Hd. destruct (trim is_null ts) as [|t ts'].
  - inversion Hd; subst. exists null_obj. split; [done |]. intros i. exists ADB_NULL. rewrite <- Htl.
    split; [done | constructor].
  - destruct (read_obj db v _ _ Hlen Hd) as (o & -> & Hod). exists o. split; [done |]. intros i.
    rewrite <- Htl. by apply ro_val_denotes.
Qed.

(** C15: A database that is created, whose root object gets any list of number and blob
    fields, and that is then read back, gives for every field of the object the last value it
    was assigned, and NULL for a field that was never set.  All of it fits when the data is
    below the 2^28 bytes an offset can address. *)
Theorem adb_root_roundtrip schema nbuckets num_fields l :
  0 < nbuckets < 2 ^ 31 -> (1 <= num_fields)%nat ->
  Forall (fun x => field_ok (snd x) /\ (0 < fst x < num_fields)%nat) l ->
  8 + fields_cost l + obj_room num_fields < offset_limit ->
  exists db o, write_root schema nbuckets num_fields l = Ok db /\ adb_schema db = schema /\
    adb_r_rootobj db = Ok o /\
    forall i, reads_as db o (S i) (default TNull (assigned l [] !! i)).
Proof.
  intros Hn Hnf Hl Hroom. unfold write_root. pose proof (fields_cost_pos l).
  destruct (w_init_spec schema nbuckets Hn) as (db0 & -> & Hw0 & Hl0 & _ & Hs0). cbn [obind].
  assert (space (adb_wo_init num_fields) = num_fields) as Hsp.
  { unfold space. simpl. rewrite length_replicate. lia. }
  destruct (wo_fields_spec l db0 (adb_wo_init num_fields) []) as (db1 & o1 & Hf & Hw1 & Hg1 & Hk1 & Hl1 & Hb1 & Hs1).
  { done. }
  { by apply wo_init_building. }
  { by rewrite Hsp. }
  { unfold obj_room in *. lia. }
  rewrite Hf. cbn [obind]. set (ts := assigned l []) in *.
  assert (length ts < num_fields)%nat as Hts.
  { pose proof (building_length _ _ _ Hb1). lia. }
  destruct (w_obj_spec db1 o1 ts ADB_TYPE_OBJECT Hw1 Hb1) as (v & db2 & o2 & -> & [W1 W2 W3 W4 W5 W6] & _);
    [by right | unfold obj_room in *; lia |]. cbn [obind].
  destruct (w_root_spec db2 v W1 W5) as (db3 & -> & Hw3 & Hg3 & Hl3 & Hk3 & Hr3).
  apply (denotes_grows db2 db3) in W6; [| done].
  assert (adb_len db3 < 2 ^ 32) as H32 by (unfold obj_room, offset_limit in *; lia).
  destruct (read_node db3 v ADB_TYPE_OBJECT ts H32 W6) as (o & Ho & Hvals). exists db3, o. split; [done |]. split_and!.
  - destruct Hk1 as [K1 _], W3 as [K2 _], Hk3 as [K3 _]. congruence.
  - unfold adb_r_rootobj. by rewrite Hr3.
  - intros i. destruct (Hvals i) as (w & Hw & Hd). eapply denotes_reads; [done | | done | done].
    apply assigned_scalar. intros j ty us. by rewrite lookup_nil.
Qed.

Definition ex_fields : list (nat * field) := [(1%nat, FBlob (lit "busybox")); (3%nat, FInt 0x123456789); (1%nat, FBlob (lit "musl"))].

Lemma adb_root_roundtrip_witness :
  exists db o, write_root 0x676b6370 40 5 ex_fields = Ok db /\ adb_schema db = 0x676b6370 /\ adb_r_rootobj db = Ok o /\
    forall i, reads_as db o (S i) (default TNull ([TBlob (lit "musl"); TNull; TInt 0x123456789] !! i)).
Proof.
  apply (adb_root_roundtrip 0x676b6370 40 5 ex_fields).
  - lia.
  - lia.
  - repeat (constructor; [simpl; lia |]). constructor.
  - vm_compute. reflexivity.
Defined.

(** ** Copying *)

(** Copying a value between databases gives a word that stands for the same tree in
    the destination, whatever the depth of the value, and every word of the destination keeps
    its meaning.  The recursion needs no more levels than the value has. *)
Theorem adb_copy_keeps_value srcdb db v t fuel :
  adb_len srcdb < 2 ^ 32 -> writer db -> word_ok v -> denotes srcdb v t ->
  adb_len db + cost t < offset_limit -> (depth t <= fuel)%nat ->
  exists v' db', adb_w_copy fuel srcdb db v = Some (Ok (v', db')) /\ writer db' /\ denotes db' v' t /\
    adb_len db' <= adb_len db + cost t /\ (forall w u, denotes db w u -> denotes db' w u).
Proof.
  intros Hs Hw Hv Hd Hr Hf. destruct (copy_spec srcdb Hs t fuel Hf db v Hw Hd Hv Hr) as (v' & db' & He & [W1 W2 W3 W4 W5 W6]).
  exists v', db'. split_and!; try done. intros w u. by apply denotes_grows.
Qed.

(** A database with one object of a blob and a number. *)
Definition ex_src : adb :=
  match write_root 0x676b6370 40 5 ex_fields with Ok db => db | Fault => adb_zero end.
Definition ex_root : adb_val := match adb_r_root ex_src with Ok v => v | Fault => 0 end.
Definition ex_tree : tree := TNode ADB_TYPE_OBJECT [TBlob (lit "musl"); TNull; TInt 0x123456789].
Definition ex_dst : adb := match adb_w_init_dynamic 0x78646e69 3 with Ok db => db | Fault => adb_zero end.

Lemma ex_src_denotes : denotes ex_src ex_root ex_tree.
Proof.
  change ex_tree with (TNode (ADB_VAL_TYPE ex_root) [TBlob (lit "musl"); TNull; TInt 0x123456789]).
  apply (den_node ex_src ex_root [0x80000018; 0; 0x30000010]).
  - right. reflexivity.
  - vm_compute. discriminate.
  - repeat (constructor; [unfold word_ok; simpl; lia |]). constructor.
  - vm_compute. reflexivity.
  - constructor; [| constructor; [| constructor; [| constructor]]].
    + apply (den_blob _ _ 1); vm_compute; [reflexivity | discriminate | reflexivity | reflexivity].
    + constructor.
    + apply (den_int _ _ 8); vm_compute; [reflexivity | discriminate | reflexivity].
Qed.

Lemma ex_dst_writer : writer ex_dst.
Proof.
  destruct (w_init_spec 0x78646e69 3) as (db & Hdb & Hw & _); [lia |]. unfold ex_dst. by rewrite Hdb.
Qed.

Lemma adb_copy_keeps_value_witness :
  exists v' db', adb_w_copy 2 ex_src ex_dst ex_root = Some (Ok (v', db')) /\ writer db' /\ denotes db' v' ex_tree /\
    adb_len db' <= adb_len ex_dst + cost ex_tree /\ (forall w u, denotes ex_dst w u -> denotes db' w u).
Proof.
  apply (adb_copy_keeps_value ex_src ex_dst ex_root ex_tree 2).
  - vm_compute. reflexivity.
  - exact ex_dst_writer.
  - split; vm_compute; [discriminate | reflexivity].
  - exact ex_src_denotes.
  - vm_compute. reflexivity.
  - vm_compute. lia.
Defined.
