(* ===== verification/AdbCache.v ===== *)
(** * Equal data is stored once

    [adb_w_data] looks the data up before it writes it.  The walk over a bucket is a search for
    the first entry that is free or holds the data; a later write never disturbs what the search
    finds, unless it needs a stricter alignment. *)

From S2P Require Import Prelude Blob BlobCodec Adb AdbFacts AdbWrite AdbTree AdbBuild.

Section scan.
Context (data : bytes) (hash len a : Z) (vec : list bytes).

(** The entry holds the data of the vector. *)
Definition holds (e : adb_w_bucket_entry) : Prop :=
  e_len e <> 0 /\ e_hash e = hash /\ e_len e = len /\ iovec_memcmp vec (drop (Z.to_nat (e_offs e)) data) = false.
Definition hit (e : adb_w_bucket_entry) : Prop := e_len e = 0 \/ holds e.

#[global] Instance holds_dec e : Decision (holds e).
Proof. unfold holds. apply _. Defined.
#[global] Instance hit_dec e : Decision (hit e).
Proof. unfold hit. apply _. Defined.

(** The walk stops at the first such entry. *)
Lemma bucket_scan_find l i :
  bucket_scan data hash len a vec l i =
  match list_find hit l with
  | None => Exhausted
  | Some (j, e) =>
      if (e_len e =? 0) || negb (Z.land (e_offs e) (a - 1) =? 0) then Vacant (i + j) else Stored (e_offs e)
  end.
Proof.
  revert i. induction l as [|e l IH]; intros i; cbn [bucket_scan list_find]; [done |].
  destruct (Z.eqb_spec (e_len e) 0) as [Hz|Hz].
  - rewrite decide_True by (by left). rewrite Hz. simpl. by rewrite Nat.add_0_r.
  - assert (hit e <-> holds e) as Hh by (unfold hit; tauto).
    assert (forall r, (if negb (e_hash e =? hash) then r else
      if (e_len e =? len) && negb (iovec_memcmp vec (drop (Z.to_nat (e_offs e)) data)) then
        if negb (Z.land (e_offs e) (a - 1) =? 0) then Vacant i else Stored (e_offs e) else r) =
      if decide (hit e) then (if negb (Z.land (e_offs e) (a - 1) =? 0) then Vacant i else Stored (e_offs e)) else r) as ->.
    { intros r. destruct (decide (hit e)) as [Hy|Hn]; rewrite Hh in *.
      - destruct Hy as (_ & -> & -> & ->). by rewrite !Z.eqb_refl.
      - case_if; [done |]. case_if; [| done]. bool_prop. destruct Hn. by repeat split. }
    destruct (decide (hit e)).
    + rewrite (proj2 (Z.eqb_neq _ _) Hz). simpl. by rewrite Nat.add_0_r.
    + rewrite IH. destruct (list_find hit l) as [[j e']|]; simpl; [| done]. by rewrite Nat.add_succ_r.
Qed.
End scan.

(** The bucket of a vector and the result of its search. *)
Definition vec_bucket (db : adb) (vec : list bytes) : nat := Z.to_nat (iovec_hash vec 5381 mod num_buckets db).
Definition bucket_at (db : adb) (b : nat) : list adb_w_bucket_entry := default [] (bucket db !! b).

(** [stored_at db vec e]: a write of [vec] finds the entry [e]. *)
Definition stored_at (db : adb) (vec : list bytes) (e : adb_w_bucket_entry) : Prop :=
  no_cache db = 0 /\ exists j, bucket_at db (vec_bucket db vec) !! j = Some e /\
    holds (adb_data db) (iovec_hash vec 5381) (iovec_len vec) vec e /\
    forall i e', (i < j)%nat -> bucket_at db (vec_bucket db vec) !! i = Some e' ->
      ~ hit (adb_data db) (iovec_hash vec 5381) (iovec_len vec) vec e'.

Lemma stored_found db vec e a : stored_at db vec e -> alignment a -> (a | e_offs e) ->
  adb_w_data db vec a = Ok (e_offs e, db).
Proof.
  intros (Hc & j & Hj & Hh & Hlow) Ha Hd. unfold adb_w_data. rewrite Hc. cbn [negb Z.eqb].
  fold (vec_bucket db vec). fold (bucket_at db (vec_bucket db vec)). rewrite bucket_scan_find.
  assert (list_find (hit (adb_data db) (iovec_hash vec 5381) (iovec_len vec) vec) (bucket_at db (vec_bucket db vec)) = Some (j, e)) as ->.
  { apply list_find_Some. split; [done |]. split; [by right |]. intros i e' Hi Hlt. by apply (Hlow i). }
  rewrite (proj2 (Z.eqb_neq _ _) (proj1 Hh)), (proj2 (land_aligned _ _ Ha) Hd). done.
Qed.

(** The data of an entry does not move. *)
Lemma holds_grows db db' hash len vec e : db_grows db db' -> entry_ok db e -> len = iovec_len vec ->
  holds (adb_data db') hash len vec e <-> holds (adb_data db) hash len vec e.
Proof.
  intros Hg He Hlen. unfold holds. destruct (decide (e_len e = len)) as [Hl|Hl]; [| naive_solver].
  destruct (decide (e_len e = 0)) as [Hz|Hz]; [naive_solver |].
  destruct (He Hz) as (_ & Ho & Hin). pose proof (db_grows_len _ _ Hg) as Hle. unfold adb_len, iovec_len in *.
  rewrite !iovec_memcmp_eq by (rewrite length_drop; lia).
  assert (take (length (concat vec)) (drop (Z.to_nat (e_offs e)) (adb_data db')) =
    take (length (concat vec)) (drop (Z.to_nat (e_offs e)) (adb_data db))) as ->; [| done].
  pose proof (fetch_grows (adb_data db) (adb_data db') (e_offs e) (Z.of_nat (length (concat vec)))) as Hf.
  rewrite !fetch_Ok in Hf by lia. rewrite Nat2Z.id in Hf. specialize (Hf _ Hg Ho eq_refl). congruence.
Qed.

(** A write that adds: the entry [i] of the bucket of the vector, which was free or held the data
    with a weaker alignment, is replaced. *)
Record added (db : adb) (vec : list bytes) (a offs : Z) (db' : adb) (i : nat) : Prop := {
  ad_wrote : wrote db (a - 1 + iovec_len vec) offs (concat vec) db';
  ad_aligned : (a | offs);
  ad_entry : bucket_at db' (vec_bucket db vec) !! i = Some (mk_entry (iovec_hash vec 5381) offs (iovec_len vec));
  ad_same : forall k, k <> i -> (k < length (bucket_at db (vec_bucket db vec)))%nat ->
    bucket_at db' (vec_bucket db vec) !! k = bucket_at db (vec_bucket db vec) !! k;
  ad_index : (i <= length (bucket_at db (vec_bucket db vec)))%nat;
  ad_other : forall b, b <> vec_bucket db vec -> bucket_at db' b = bucket_at db b;
  ad_low : forall k e, (k < i)%nat -> bucket_at db (vec_bucket db vec) !! k = Some e ->
    ~ hit (adb_data db) (iovec_hash vec 5381) (iovec_len vec) vec e;
  ad_old : forall e, bucket_at db (vec_bucket db vec) !! i = Some e ->
    e_len e = 0 \/ holds (adb_data db) (iovec_hash vec 5381) (iovec_len vec) vec e /\ ~ (a | e_offs e);
}.

Lemma vec_bucket_lt db vec : writer db -> (vec_bucket db vec < length (bucket db))%nat.
Proof.
  intros Hw. destruct (w_buckets db Hw) as [H0 Hl]. unfold vec_bucket.
  pose proof (Z.mod_pos_bound (iovec_hash vec 5381) (num_buckets db) H0). lia.
Qed.

(** Storing [e] at [i] of the list [l] that extends the bucket [b]. *)
Lemma set_bucket_at db b l : (b < length (bucket db))%nat -> bucket_at (set_bucket b l db) b = l /\
  forall b', b' <> b -> bucket_at (set_bucket b l db) b' = bucket_at db b'.
Proof.
  intros Hb. unfold bucket_at. simpl. split; [by rewrite list_lookup_insert_eq |].
  intros b' Hne. by rewrite list_lookup_insert_ne.
Qed.

Lemma add_entry db vec a offs db' i l :
  writer db -> 0 < iovec_len vec < 2 ^ 32 -> wrote db (a - 1 + iovec_len vec) offs (concat vec) db' -> (a | offs) ->
  offs < 2 ^ 32 -> bucket db' = bucket db -> (i < length l)%nat ->
  (forall k, (k < length (bucket_at db (vec_bucket db vec)))%nat -> l !! k = bucket_at db (vec_bucket db vec) !! k) ->
  (i <= length (bucket_at db (vec_bucket db vec)))%nat ->
  (forall k e, (k < i)%nat -> bucket_at db (vec_bucket db vec) !! k = Some e ->
    ~ hit (adb_data db) (iovec_hash vec 5381) (iovec_len vec) vec e) ->
  (forall e, bucket_at db (vec_bucket db vec) !! i = Some e ->
    e_len e = 0 \/ holds (adb_data db) (iovec_hash vec 5381) (iovec_len vec) vec e /\ ~ (a | e_offs e)) ->
  Forall (entry_ok db) l ->
  added db vec a (u32 offs)
    (set_bucket (vec_bucket db vec) (<[i := mk_entry (iovec_hash vec 5381) (u32 offs) (u32 (iovec_len vec))]> l) db') i.
Proof.
  intros Hw Hlen Hwr Hal Ho Hbk Hi Hl Hidx Hlow Hold Hok. pose proof (vec_bucket_lt db vec Hw) as Hb.
  rewrite <- Hbk in Hb. pose proof (wr_offs _ _ _ _ _ Hwr). unfold u32. rewrite !Z.mod_small by lia.
  destruct (set_bucket_at db' (vec_bucket db vec) (<[i := mk_entry (iovec_hash vec 5381) offs (iovec_len vec)]> l) Hb) as [H1 H2].
  split; try done.
  - destruct Hwr as [W1 W2 W3 W4 W5 W6]. pose proof (fetch_inv _ _ _ _ W6) as (_ & _ & Hin & _). split; try done.
    apply set_bucket_writer; [done |]. apply Forall_insert.
    + eapply Forall_impl; [exact Hok |]. intros e. apply entry_ok_grows. by apply db_grows_len.
    + intros _. cbn [e_len e_offs]. unfold iovec_len, adb_len in *. lia.
  - rewrite H1. by apply list_lookup_insert_eq.
  - intros k Hk Hlt. rewrite H1, list_lookup_insert_ne by done. by apply Hl.
  - intros b Hne. rewrite (H2 b Hne). unfold bucket_at. by rewrite Hbk.
Qed.

Lemma w_data_cases db vec a :
  writer db -> alignment a -> no_cache db = 0 -> 0 < iovec_len vec -> adb_len db + 7 + iovec_len vec < offset_limit ->
  (exists e, stored_at db vec e /\ (a | e_offs e) /\ adb_w_data db vec a = Ok (e_offs e, db)) \/
  (exists offs db' i, adb_w_data db vec a = Ok (offs, db') /\ added db vec a offs db' i).
Proof.
  intros Hw Ha Hc Hpos Hr. destruct (w_raw_spec db vec a Hw Ha Hr) as (offs & db' & Hraw & Hwr & Hal & Hbk & Hend).
  pose proof (bucket_ok db (vec_bucket db vec) Hw) as Hb. fold (bucket_at db (vec_bucket db vec)) in Hb.
  assert (offs < 2 ^ 32 /\ iovec_len vec < 2 ^ 32) as [Ho32 Hl32].
  { pose proof (wr_len _ _ _ _ _ Hwr). pose proof (wr_offs _ _ _ _ _ Hwr). unfold offset_limit, adb_len in *.
    destruct Ha as [->|[->|[->| ->]]]; lia. }
  unfold adb_w_data. rewrite Hc, Hraw. cbn [negb Z.eqb obind]. fold (vec_bucket db vec). fold (bucket_at db (vec_bucket db vec)).
  rewrite bucket_scan_find. destruct (list_find _ _) as [[j e]|] eqn:Ef.
  - apply list_find_Some in Ef as (Hj & Hhit & Hlow). pose proof (lookup_lt_Some _ _ _ Hj) as Hjl.
    assert (forall k e', (k < j)%nat -> bucket_at db (vec_bucket db vec) !! k = Some e' ->
      ~ hit (adb_data db) (iovec_hash vec 5381) (iovec_len vec) vec e') as Hlow' by (intros k e' Hk He'; by apply (Hlow k)).
    case_if.
    + right. eexists _, _, j. split; [done |]. apply add_entry; try done; [lia |].
      intros e' He'. rewrite Hj in He'. injection He' as <-. apply orb_true_iff in Heqb as [Hz|Hn]; bool_prop; [by left |].
      destruct Hhit as [Hz|Hh]; [by left | right]. split; [done |]. by rewrite <- land_aligned.
    + left. bool_prop. exists e. destruct Hhit as [Hz|Hh]; [done |].
      split; [split; [done |]; by exists j | split; [by apply land_aligned | done]].
  - right. apply list_find_None in Ef. eexists _, _, _. split; [done |].
    set (l := bucket_at db (vec_bucket db vec)) in *. apply add_entry; try done.
    + rewrite length_app, length_replicate. unfold BUCKET_ENTRIES. fold l. lia.
    + intros k Hk. by rewrite lookup_app_l.
    + fold l. intros k e Hk He. rewrite Forall_forall in Ef. apply Ef. by eapply list_elem_of_lookup_2.
    + fold l. intros e He. apply lookup_lt_Some in He. lia.
    + apply Forall_app. split; [done |]. apply Forall_replicate, no_entry_ok.
Qed.

Lemma bucket_entry_ok db b k e : writer db -> bucket_at db b !! k = Some e -> entry_ok db e.
Proof. intros Hw He. by apply (Forall_lookup_1 _ _ _ _ (bucket_ok db b Hw) He). Qed.

Lemma hit_grows db db' vec e : db_grows db db' -> entry_ok db e ->
  hit (adb_data db') (iovec_hash vec 5381) (iovec_len vec) vec e <-> hit (adb_data db) (iovec_hash vec 5381) (iovec_len vec) vec e.
Proof. intros Hg He. unfold hit. by rewrite (holds_grows db db'). Qed.

Lemma wrote_memcmp db room offs vec db' : wrote db room offs (concat vec) db' ->
  iovec_memcmp vec (drop (Z.to_nat offs) (adb_data db')) = false.
Proof.
  intros [_ _ _ _ _ Hf]. apply fetch_inv in Hf as (F1 & _ & F3 & F4 & _). rewrite Nat2Z.id in F4.
  apply iovec_memcmp_eq; [rewrite length_drop; lia | done].
Qed.

Lemma added_kind db vec a offs db' i : added db vec a offs db' i -> forall v, vec_bucket db' v = vec_bucket db v.
Proof. intros Had v. destruct (wr_kind _ _ _ _ _ (ad_wrote _ _ _ _ _ _ Had)) as (_ & H & _). unfold vec_bucket. by rewrite H. Qed.

Lemma stored_new db vec a offs db' i : writer db -> no_cache db = 0 -> 0 < iovec_len vec ->
  added db vec a offs db' i -> stored_at db' vec (mk_entry (iovec_hash vec 5381) offs (iovec_len vec)).
Proof.
  intros Hw Hc Hpos Had. pose proof (added_kind _ _ _ _ _ _ Had vec) as Hvb. destruct Had as [Hwr Hal He Hs Hi Ho Hlow Hold].
  split; [destruct (wr_kind _ _ _ _ _ Hwr) as (_ & _ & <-); done |]. rewrite Hvb. exists i. split; [done |]. split.
  - split; [cbn; lia |]. split_and!; [done | done |]. by eapply wrote_memcmp.
  - intros k e Hk Hke. rewrite Hs in Hke by lia. rewrite (hit_grows db db'); [by apply (Hlow k) | apply Hwr |].
    by apply (bucket_entry_ok db (vec_bucket db vec) k).
Qed.

(** What another write finds is still found, if its place satisfies the alignment of this one. *)
Lemma stored_kept db vec a offs db' i vec2 e2 : writer db -> added db vec a offs db' i ->
  stored_at db vec2 e2 -> (a | e_offs e2) -> stored_at db' vec2 e2.
Proof.
  intros Hw Had (Hc & j & Hj & Hh & Hlow2) Hal2. pose proof (added_kind _ _ _ _ _ _ Had vec2) as Hvb.
  destruct Had as [Hwr Hal He Hs Hi Ho Hlow Hold]. pose proof (wr_grows _ _ _ _ _ Hwr) as Hg.
  split; [destruct (wr_kind _ _ _ _ _ Hwr) as (_ & _ & <-); done |]. rewrite Hvb.
  assert (forall k e, bucket_at db (vec_bucket db vec2) !! k = Some e -> entry_ok db e) as Hok.
  { intros k e. by apply bucket_entry_ok. }
  assert (holds (adb_data db') (iovec_hash vec2 5381) (iovec_len vec2) vec2 e2) as Hh'.
  { rewrite (holds_grows db db'); [done | done | by apply (Hok j) | done]. }
  exists j. destruct (decide (vec_bucket db vec2 = vec_bucket db vec)) as [Heq|Hne].
  2:{ rewrite (Ho _ Hne). split; [done |]. split; [done |]. intros k e Hk Hke. rewrite (hit_grows db db') by (try done; by apply (Hok k)). by apply (Hlow2 k). }
  rewrite Heq in *. pose proof (lookup_lt_Some _ _ _ Hj) as Hjl. destruct (decide (j = i)) as [->|Hji].
  { destruct (Hold e2 Hj) as [Hz|[_ Hn]]; [by destruct (proj1 Hh) | done]. }
  rewrite (Hs j Hji Hjl). split; [done |]. split; [done |]. intros k e Hk Hke. destruct (decide (k = i)) as [->|Hki].
  - rewrite He in Hke. injection Hke as <-. destruct (lookup_lt_is_Some_2 (bucket_at db (vec_bucket db vec)) i) as [e' He']; [lia |].
    pose proof (Hlow2 i e' Hk He') as Hn. intros [Hz|(_ & N1 & N2 & N3)].
    + cbn in Hz. destruct (Hold e' He') as [Hz'|[(Hnz & _ & Hlen & _) _]]; [apply Hn; by left | congruence].
    + cbn in N1, N2, N3. apply Hn. destruct (Hold e' He') as [Hz'|[(H1 & H2 & H3 & H4) _]]; [by left |]. right.
      split_and!; try congruence. destruct (Hok i e' He' H1) as (_ & Hin8 & Hin). pose proof (wr_offs _ _ _ _ _ Hwr) as Ho8.
      pose proof (wrote_memcmp _ _ _ _ _ Hwr) as H5. pose proof (fetch_inv _ _ _ _ (wr_data _ _ _ _ _ Hwr)) as (_ & _ & Hin' & _).
      unfold iovec_len, adb_len in *.
      rewrite iovec_memcmp_eq in H4, H5, N3 by (rewrite length_drop; lia). apply iovec_memcmp_eq; [rewrite length_drop; lia |].
      rewrite <- N3. rewrite <- Nat2Z.inj_iff in *. replace (length (concat vec2)) with (length (concat vec)) by lia. congruence.
  - assert (k < length (bucket_at db (vec_bucket db vec)))%nat as Hkl by lia. rewrite (Hs k Hki Hkl) in Hke.
    rewrite (hit_grows db db') by (try done; by apply (Hok k)). by apply (Hlow2 k).
Qed.

(** A sequence of writes. *)
Fixpoint w_datas (db : adb) (l : list (list bytes * Z)) : outcome adb :=
  match l with
  | [] => Ok db
  | (vec, a) :: l' => let! (_, db) := adb_w_data db vec a in w_datas db l'
  end.

Definition vecs_room (l : list (list bytes * Z)) : Z := foldr (fun x n => 7 + iovec_len (fst x) + n) 0 l.

Lemma vecs_room_pos l : 0 <= vecs_room l.
Proof. induction l as [|[v a] l IH]; simpl; [done |]. unfold iovec_len. lia. Qed.

Lemma w_datas_kept l db vec e : writer db -> stored_at db vec e ->
  Forall (fun x => alignment (snd x) /\ (snd x | e_offs e) /\ 0 < iovec_len (fst x)) l ->
  adb_len db + vecs_room l < offset_limit -> exists db', w_datas db l = Ok db' /\ writer db' /\ stored_at db' vec e.
Proof.
  revert db. induction l as [|[v a] l IH]; intros db Hw Hst Hl Hr; simpl in *; [by exists db |].
  apply Forall_cons in Hl as [(Ha & Hd & Hpos) Hl]. simpl in *. pose proof (vecs_room_pos l).
  destruct (w_data_cases db v a) as [(e' & _ & _ & ->)|(offs & db' & i & -> & Had)]; [done | done | apply Hst | done | lia | |];
    cbn [obind].
  - apply IH; [done.. | unfold iovec_len in *; lia].
  - pose proof (ad_wrote _ _ _ _ _ _ Had) as Hwr. apply IH; [apply Hwr | by eapply stored_kept | done |].
    pose proof (wr_len _ _ _ _ _ Hwr). assert (a <= 8) by (destruct Ha as [->|[->|[->| ->]]]; lia). lia.
Qed.

(** Data is stored once: after a write, and any further writes whose alignments the
    place of the data satisfies, writing the same data again returns the same offset and leaves
    the database as it is.  The values of equal objects are therefore equal words, which is what
    [adb_wa_sort_unique] compares. *)
Theorem adb_data_stored_once db vec a l offs db1 :
  writer db -> alignment a -> no_cache db = 0 -> 0 < iovec_len vec ->
  adb_len db + 7 + iovec_len vec + vecs_room l < offset_limit -> adb_w_data db vec a = Ok (offs, db1) ->
  Forall (fun x => alignment (snd x) /\ (snd x | offs) /\ 0 < iovec_len (fst x)) l ->
  exists db2, w_datas db1 l = Ok db2 /\ adb_w_data db2 vec a = Ok (offs, db2).
Proof.
  intros Hw Ha Hc Hpos Hr Heq Hl. pose proof (vecs_room_pos l).
  assert (exists e, e_offs e = offs /\ (a | offs) /\ stored_at db1 vec e /\ writer db1 /\ adb_len db1 <= adb_len db + 7 + iovec_len vec)
    as (e & He & Had & Hst & Hw1 & Hlen1).
  { destruct (w_data_cases db vec a Hw Ha Hc Hpos) as [(e & Hst & Hd & He)|(o & db' & i & He & Had)]; [lia | |]; rewrite Heq in He.
    - injection He as -> ->. exists e. split_and!; try done. lia.
    - injection He as -> ->. eexists. split; [| split; [apply Had | split; [by eapply stored_new |]]]; [done |].
      pose proof (ad_wrote _ _ _ _ _ _ Had) as Hwr. split; [apply Hwr |]. pose proof (wr_len _ _ _ _ _ Hwr).
      assert (a <= 8) by (destruct Ha as [->|[->|[->| ->]]]; lia). lia. }
  subst offs. destruct (w_datas_kept l db1 vec e Hw1 Hst Hl) as (db2 & Hd2 & _ & Hst2); [lia |].
  exists db2. split; [done |]. by apply stored_found.
Qed.

Lemma adb_data_stored_once_witness :
  exists db1, adb_w_data ex_dst [lit "abcd"] 4 = Ok (8, db1) /\
  exists db2, w_datas db1 [([lit "x"], 1); ([lit "abcd"], 2); ([lit "abcde"], 4)] = Ok db2 /\ adb_w_data db2 [lit "abcd"] 4 = Ok (8, db2).
Proof.
  eexists. split; [vm_compute; reflexivity |].
  apply (adb_data_stored_once ex_dst [lit "abcd"] 4 [([lit "x"], 1); ([lit "abcd"], 2); ([lit "abcde"], 4)] 8).
  - exact ex_dst_writer.
  - unfold alignment. lia.
  - reflexivity.
  - vm_compute. reflexivity.
  - vm_compute. reflexivity.
  - vm_compute. reflexivity.
  - repeat (constructor; [split; [unfold alignment; simpl; lia | split; [simpl; apply Z.mod_divide; [lia | reflexivity] | vm_compute; reflexivity]] |]).
    constructor.
Defined.
