(* ===== verification/AdbBlock.v ===== *)
(** * ADB files: blocks, parsing and trust (adb.c, adb.h)

    A file is a header and a sequence of blocks: one with the database, then signatures, then
    data.  Blocks are padded to 8 bytes; a block of a gigabyte or more has an extended header.
    This file models the blocks, the parser of a file in memory, the verification of signatures
    and the writing of a signed file.

    The cryptographic functions are a parameter ([Crypto]): [digest_calc] is the digest of the
    backends, [pk_sign] and [pk_verify] stand for the start, update and final calls on a message.
    Output streams accept every write. *)

From S2P Require Import Prelude Blob BlobCodec Digest Adb.

Definition APKE_CRYPTO_ERROR : Z := 1051.
Definition APKE_CRYPTO_NOT_SUPPORTED : Z := 1052.
Definition APKE_SIGNATURE_GEN_FAILURE : Z := 1054.
Definition APKE_SIGNATURE_UNTRUSTED : Z := 1055.
Definition APKE_ADB_VERSION : Z := 1065.
Definition APKE_ADB_SCHEMA : Z := 1066.
Definition APKE_ADB_BLOCK : Z := 1067.
Definition APKE_ADB_SIGNATURE : Z := 1068.
Definition APKE_ADB_INTEGRITY : Z := 1069.

(** ** Blocks *)

Definition ADB_BLOCK_ALIGNMENT : Z := 8.
Definition ADB_BLOCK_ADB : Z := 0.
Definition ADB_BLOCK_SIG : Z := 1.
Definition ADB_BLOCK_DATA : Z := 2.
Definition ADB_BLOCK_EXT : Z := 3.
Definition ADB_BLOCK_MAX : Z := 4.
Definition ADB_BLOCK_SIZE : Z := 16.

Record adb_block := mk_block { type_size : Z; x_size : Z }.

Definition adb_block_init (type length : Z) : adb_block :=
  if length <=? 0x3fffffff - 4 then mk_block (u32 (Z.shiftl type 30 + 4 + length)) 0
  else mk_block (u32 (Z.shiftl ADB_BLOCK_EXT 30 + type)) (u64 (ADB_BLOCK_SIZE + length)).

Definition adb_block_is_ext (b : adb_block) : bool := Z.shiftr (type_size b) 30 =? ADB_BLOCK_EXT.
Definition adb_block_type (b : adb_block) : Z :=
  if adb_block_is_ext b then Z.land (type_size b) 0x3fffffff else Z.shiftr (type_size b) 30.
Definition adb_block_rawsize (b : adb_block) : Z :=
  if adb_block_is_ext b then x_size b else Z.land (type_size b) 0x3fffffff.
Definition adb_block_hdrsize (b : adb_block) : Z := if adb_block_is_ext b then ADB_BLOCK_SIZE else 4.
Definition adb_block_size (b : adb_block) : Z := ROUND_UP (adb_block_rawsize b) ADB_BLOCK_ALIGNMENT.
Definition adb_block_length (b : adb_block) : Z := u64 (adb_block_rawsize b - adb_block_hdrsize b).
Definition adb_block_padding (b : adb_block) : Z := u32 (adb_block_size b - adb_block_rawsize b).

(** The first bytes of the structure, as many as the header has. *)
Definition block_bytes (b : adb_block) : bytes :=
  if adb_block_is_ext b then le_bytes 4 (type_size b) ++ [0; 0; 0; 0] ++ le_bytes 8 (x_size b)
  else le_bytes 4 (type_size b).

Inductive block_result := BlockEnd | BlockErr (e : Z) | BlockAt (b : adb_block).

(** [rest] is the part of the data from the block on. *)
Definition adb_block_validate (rest : bytes) : outcome block_result :=
  let len := Z.of_nat (length rest) in
  if len =? 0 then Ok BlockEnd
  else if len <? 4 then Ok (BlockErr (- APKE_ADB_BLOCK))
  else
    let! ts := load 4 rest 0 in
    let hdrlen := adb_block_hdrsize (mk_block ts 0) in
    if len <? hdrlen then Ok (BlockErr (- APKE_ADB_BLOCK))
    else
      let! x := if adb_block_is_ext (mk_block ts 0) then load 8 rest 8 else Ok 0 in
      let blk := mk_block ts x in
      if adb_block_rawsize blk <? hdrlen then Ok (BlockErr (- APKE_ADB_BLOCK))
      else if len <? adb_block_size blk then Ok (BlockErr (- APKE_ADB_BLOCK))
      else Ok (BlockAt blk).

Definition adb_block_first (b : bytes) : outcome block_result := adb_block_validate b.
Definition adb_block_next (cur : adb_block) (rest : bytes) : outcome block_result :=
  adb_block_validate (drop (Z.to_nat (adb_block_size cur)) rest).

(** The payload of the block at the start of [rest]; [Fault] when it is not inside the data. *)
Definition adb_block_blob (blk : adb_block) (rest : bytes) : outcome bytes :=
  fetch rest (adb_block_hdrsize blk) (adb_block_length blk).

(** ** Writing *)

(** An output stream: its error code and what was written. *)
Record ostream := mk_os { os_rc : Z; os_out : bytes }.

Definition apk_ostream_write (os : ostream) (b : bytes) : ostream := mk_os (os_rc os) (os_out os ++ b).
Definition apk_ostream_cancel (os : ostream) (rc : Z) : ostream :=
  mk_os (if os_rc os =? 0 then rc else os_rc os) (os_out os).
Definition apk_ostream_error (os : ostream) : Z := os_rc os.

Definition padding_zeroes (n : Z) : bytes := replicate (Z.to_nat n) 0.

Definition adb_c_block (os : ostream) (type : Z) (val : bytes) : ostream :=
  let blk := adb_block_init type (Z.of_nat (length val)) in
  let os := apk_ostream_write os (block_bytes blk) in
  let os := apk_ostream_write os val in
  apk_ostream_write os (padding_zeroes (adb_block_padding blk)).

Definition ADB_FORMAT_MAGIC : Z := 0x2e424441.
Definition ADB_SCHEMA_ANY : Z := 0.
Definition ADB_SCHEMA_IMPLIED : Z := 0x80000000.

Definition adb_c_header (os : ostream) (db : adb) : ostream :=
  apk_ostream_write os (le_bytes 4 ADB_FORMAT_MAGIC ++ le_bytes 4 (adb_schema db)).

(** ** Cryptography and trust *)

Class Crypto := {
  pkey : Type;
  digest_calc : Z -> bytes -> option bytes;
  pk_sign : pkey -> bytes -> option bytes;
  pk_verify : pkey -> bytes -> bytes -> bool;
}.

Record apk_pkey `{Crypto} := mk_pkey { key_id : bytes; key_priv : pkey }.
Record apk_trust `{Crypto} := mk_trust {
  trusted_key_list : list apk_pkey; private_key_list : list apk_pkey; allow_untrusted : bool }.

(** The digests of a database that were calculated already, a bit of [calc] for each. *)
Record adb_verify_ctx := mk_vfy { vfy_calc : Z; vfy_sha256 : bytes; vfy_sha512 : bytes }.
Definition vfy_zero : adb_verify_ctx := mk_vfy 0 [] [].

(** The part of [struct apk_extract_ctx] that the parser uses. *)
Record extract_identity := mk_ident {
  generate_alg : Z; verify_alg : Z; verify_digest : bytes; generate_identity : option apk_digest }.

Section trust.
Context `{Crypto}.

(** The result code with the digest and the updated context. *)
Definition adb_digest_adb (vfy : adb_verify_ctx) (hash_alg : Z) (data : blob) : (Z + bytes) * adb_verify_ctx :=
  let alg := if hash_alg =? APK_DIGEST_SHA256_160 then APK_DIGEST_SHA256 else hash_alg in
  if negb (alg =? APK_DIGEST_SHA256) && negb (alg =? APK_DIGEST_SHA512) then (inl (- APKE_CRYPTO_NOT_SUPPORTED), vfy)
  else
    let is256 := alg =? APK_DIGEST_SHA256 in
    let md (vfy : adb_verify_ctx) :=
      (inr (take (apk_digest_alg_len hash_alg) (if is256 then vfy_sha256 vfy else vfy_sha512 vfy)), vfy) in
    if testmask (vfy_calc vfy) (Z.shiftl 1 alg) then md vfy
    else
      match data with
      | None => (inl (- APKE_ADB_BLOCK), vfy)
      | Some b =>
          match digest_calc alg b with
          | None => (inl (- APKE_CRYPTO_ERROR), vfy)
          | Some d =>
              md (mk_vfy (Z.lor (vfy_calc vfy) (Z.shiftl 1 alg))
                    (if is256 then d else vfy_sha256 vfy) (if is256 then vfy_sha512 vfy else d))
          end
      end.

(** The identity of a package: 1 when it is the expected one. *)
Definition __adb_handle_identity (ectx : option extract_identity) (vfy : adb_verify_ctx) (b : bytes)
    : Z * option extract_identity * adb_verify_ctx :=
  match ectx with
  | None => (0, ectx, vfy)
  | Some e =>
      let alg := if generate_alg e =? 0 then verify_alg e else generate_alg e in
      if (alg =? APK_DIGEST_NONE) || (alg =? APK_DIGEST_SHA1) then (0, ectx, vfy)
      else
        match adb_digest_adb vfy alg (Some b) with
        | (inl r, vfy) => (r, ectx, vfy)
        | (inr calculated, vfy) =>
            match generate_identity e with
            | Some d =>
                let d := digest_store (apk_digest_set d alg) 0 calculated in
                (0, Some (mk_ident (generate_alg e) (verify_alg e) (verify_digest e) (Some d)), vfy)
            | None =>
                if negb (apk_blob_compare (verify_digest e) calculated =? 0) then
                  if verify_alg e =? APK_DIGEST_SHA256_160 then (0, ectx, vfy) else (- APKE_ADB_INTEGRITY, ectx, vfy)
                else (1, ectx, vfy)
            end
        end
  end.

Definition SIGN_HDR_SIZE : nat := 2.
Definition SIGN_V0_SIZE : nat := 18.

(** What is signed: the schema, the head of the signature, the digest of the database. *)
Definition adb_digest_v0_signature (schema : Z) (sig0 md : bytes) : bytes := le_bytes 4 schema ++ sig0 ++ md.

Fixpoint verify_keys (keys : list apk_pkey) (vfy : adb_verify_ctx) (adb : blob) (schema : Z) (sigb : bytes)
    : Z * adb_verify_ctx :=
  match keys with
  | [] => (- APKE_SIGNATURE_UNTRUSTED, vfy)
  | k :: keys' =>
      if negb (bool_decide (take 16 (drop 2 sigb) = key_id k)) then verify_keys keys' vfy adb schema sigb
      else
        match adb_digest_adb vfy (nth 1 sigb 0) adb with
        | (inl _, vfy) => verify_keys keys' vfy adb schema sigb
        | (inr md, vfy) =>
            if negb (pk_verify (key_priv k) (adb_digest_v0_signature schema (take SIGN_V0_SIZE sigb) md) (drop SIGN_V0_SIZE sigb))
            then verify_keys keys' vfy adb schema sigb
            else (0, vfy)
        end
  end.

(** [Fault] is the walk over the keys of a NULL trust. *)
Definition adb_trust_verify_signature (trust : option apk_trust) (adb : blob) (schema : Z) (vfy : adb_verify_ctx)
    (sigb : bytes) : outcome (Z * adb_verify_ctx) :=
  match adb with
  | None => Ok (- APKE_ADB_BLOCK, vfy)
  | Some _ =>
      if (length sigb <? SIGN_HDR_SIZE)%nat then Ok (- APKE_ADB_SIGNATURE, vfy)
      else if negb (nth 0 sigb 0 =? 0) then Ok (- APKE_ADB_SIGNATURE, vfy)
      else if (length sigb <? SIGN_V0_SIZE)%nat then Ok (- APKE_ADB_SIGNATURE, vfy)
      else match trust with
           | None => Fault
           | Some t => Ok (verify_keys (trusted_key_list t) vfy adb schema sigb)
           end
  end.

Definition ADB_MAX_SIGNATURE_LEN : Z := 2048.

(** The signature blocks of all private keys.  [apk_sign] fails when the buffer is too small. *)
Fixpoint sign_keys (keys : list apk_pkey) (os : ostream) (schema : Z) (md : bytes) : Z * ostream :=
  match keys with
  | [] => (0, os)
  | k :: keys' =>
      let sig0 := [0; APK_DIGEST_SHA512] ++ take 16 (key_id k) in
      match pk_sign (key_priv k) (adb_digest_v0_signature schema sig0 md) with
      | None => (- APKE_SIGNATURE_GEN_FAILURE, apk_ostream_cancel os (- APKE_SIGNATURE_GEN_FAILURE))
      | Some s =>
          if ADB_MAX_SIGNATURE_LEN <? Z.of_nat (SIGN_V0_SIZE + length s)
          then (- APKE_SIGNATURE_GEN_FAILURE, apk_ostream_cancel os (- APKE_SIGNATURE_GEN_FAILURE))
          else sign_keys keys' (adb_c_block os ADB_BLOCK_SIG (sig0 ++ s)) schema md
      end
  end.

Definition adb_trust_write_signatures (trust : apk_trust) (db : adb) (vfy : option adb_verify_ctx) (os : ostream) : Z * ostream :=
  match adb_digest_adb (default vfy_zero vfy) APK_DIGEST_SHA512 (adb_adb db) with
  | (inl r, _) => (r, os)
  | (inr md, _) => sign_keys (private_key_list trust) os (adb_schema db) md
  end.

(** The result is the error code of the stream. *)
Definition adb_c_adb (os : ostream) (db : adb) (t : apk_trust) : Z * ostream :=
  if adb_schema db =? 0 then (- APKE_ADB_HEADER, apk_ostream_cancel os (- APKE_ADB_HEADER))
  else
    let os := adb_c_header os db in
    let os := adb_c_block os ADB_BLOCK_ADB (adb_data db) in
    let os := snd (adb_trust_write_signatures t db None os) in
    (apk_ostream_error os, os).

(** ** Parsing *)

(** The callback sees the type and the payload of every block and keeps a state of its own. *)
Context {S : Type} (cb : blob -> Z -> bytes -> S -> Z * S).

Record parse_state := mk_ps {
  ps_adb : blob; ps_trusted : bool; ps_allowed : Z; ps_vfy : adb_verify_ctx;
  ps_ectx : option extract_identity; ps_cb : S }.

(** How the loop ends: the code [r], the block pointer, the state. *)
Record parse_end := mk_pe { pe_r : Z; pe_blk : block_result; pe_state : parse_state }.

Inductive block_step := Go (st : parse_state) | Stop (r : Z) (st : parse_state).

(** The switch over the type of a block: before the callback. *)
Definition parse_block (t : option apk_trust) (schema type : Z) (b : bytes) (st : parse_state) : outcome block_step :=
  if (ADB_BLOCK_MAX <=? type) || negb (testmask (BIT type) (ps_allowed st)) then Ok (Stop (- APKE_ADB_BLOCK) st)
  else if type =? ADB_BLOCK_ADB then
    let allowed := Z.lor (BIT ADB_BLOCK_SIG) (BIT ADB_BLOCK_DATA) in
    let st := mk_ps (ps_adb st) (ps_trusted st) allowed (ps_vfy st) (ps_ectx st) (ps_cb st) in
    if Z.of_nat (length b) <? ADB_HDR_SIZE then Ok (Stop (- APKE_ADB_BLOCK) st)
    else if negb (nth 0 b 0 =? 0) then Ok (Stop (- APKE_ADB_VERSION) st)
    else
      let '(r, ectx, vfy) := __adb_handle_identity (ps_ectx st) (ps_vfy st) b in
      let st := mk_ps (Some b) (ps_trusted st || (r =? 1)) allowed vfy ectx (ps_cb st) in
      if r <? 0 then Ok (Stop r st) else Ok (Go st)
  else if type =? ADB_BLOCK_SIG then
    if ps_trusted st then Ok (Go st)
    else
      let! (r, vfy) := adb_trust_verify_signature t (ps_adb st) schema (ps_vfy st) b in
      Ok (Go (mk_ps (ps_adb st) (r =? 0) (ps_allowed st) vfy (ps_ectx st) (ps_cb st)))
  else if type =? ADB_BLOCK_DATA then
    let st := mk_ps (ps_adb st) (ps_trusted st) (BIT ADB_BLOCK_DATA) (ps_vfy st) (ps_ectx st) (ps_cb st) in
    if negb (ps_trusted st) then Ok (Stop (- APKE_SIGNATURE_UNTRUSTED) st) else Ok (Go st)
  else Ok (Go st).

(** The loop over the blocks; [r] is the result of the last callback. *)
Fixpoint parse_loop (fuel : nat) (t : option apk_trust) (schema : Z) (rest : bytes) (r : Z) (st : parse_state)
    : option (outcome parse_end) :=
  match adb_block_validate rest with
  | Fault => Some Fault
  | Ok (BlockAt blk) =>
      match fuel with
      | O => None
      | Datatypes.S fuel' =>
          match adb_block_blob blk rest with
          | Fault => Some Fault
          | Ok b =>
              match parse_block t schema (adb_block_type blk) b st with
              | Fault => Some Fault
              | Ok (Stop r st) => Some (Ok (mk_pe r (BlockAt blk) st))
              | Ok (Go st) =>
                  let '(r, c) := cb (ps_adb st) (adb_block_type blk) b (ps_cb st) in
                  let st := mk_ps (ps_adb st) (ps_trusted st) (ps_allowed st) (ps_vfy st) (ps_ectx st) c in
                  if r <? 0 then Some (Ok (mk_pe r (BlockAt blk) st))
                  else parse_loop fuel' t schema (drop (Z.to_nat (adb_block_size blk)) rest) r st
              end
          end
      end
  | Ok e => Some (Ok (mk_pe r e st))
  end.

(** The result of a parse: the code, the database ([None] on errors) and the state. *)
Definition parse_finish (e : parse_end) : Z * blob * parse_state :=
  let st := pe_state e in
  let r := if 0 <? pe_r e then - APKE_ADB_BLOCK else pe_r e in
  let r :=
    if r =? 0 then
      match pe_blk e with
      | BlockErr err => err
      | _ => if negb (ps_trusted st) then - APKE_SIGNATURE_UNTRUSTED
             else if blob_is_null (ps_adb st) then - APKE_ADB_BLOCK else 0
      end
    else r in
  (r, if r =? 0 then ps_adb st else None, st).

Definition parse_init (t : option apk_trust) (ectx : option extract_identity) (c : S) : parse_state :=
  mk_ps None (match t with Some t => allow_untrusted t | None => false end) (BIT ADB_BLOCK_ADB) vfy_zero ectx c.

Definition __adb_m_parse (schema : Z) (data : bytes) (t : option apk_trust) (ectx : option extract_identity) (c : S)
    : option (outcome (Z * blob * parse_state)) :=
  r ← parse_loop (Datatypes.S (length data)) t schema data 0 (parse_init t ectx c);
  Some (let! e := r in Ok (parse_finish e)).

(** The file in memory: the code, the schema and the database. *)
Definition __adb_m_mmap (mmap : bytes) (expected_schema : Z) (t : option apk_trust) (ectx : option extract_identity) (c : S)
    : option (outcome (Z * Z * blob * option parse_state)) :=
  let implied := testmask expected_schema ADB_SCHEMA_IMPLIED in
  let parse schema data :=
    r ← __adb_m_parse schema data t ectx c;
    Some (let! (r, adb, st) := r in
          Ok (if r =? 0 then (0, schema, adb, Some st) else (r, 0, None, Some st))) in
  if implied then parse (Z.land expected_schema (Z.lnot ADB_SCHEMA_IMPLIED)) mmap
  else if Z.of_nat (length mmap) <? 8 then Some (Ok (- APKE_ADB_HEADER, 0, None, None))
  else
    match load 4 mmap 0, load 4 mmap 4 with
    | Ok magic, Ok schema =>
        if negb (magic =? ADB_FORMAT_MAGIC) then Some (Ok (- APKE_ADB_HEADER, 0, None, None))
        else if negb (expected_schema =? 0) && negb (expected_schema =? schema) then Some (Ok (- APKE_ADB_SCHEMA, 0, None, None))
        else parse schema (drop 8 mmap)
    | _, _ => Some Fault
    end.
End trust.

Definition __adb_dummy_cb (adb : blob) (type : Z) (b : bytes) (s : unit) : Z * unit := (0, s).

Definition adb_m_blob `{Crypto} (blob : bytes) (t : option apk_trust) : option (outcome (Z * Blob.blob * parse_state)) :=
  __adb_m_parse __adb_dummy_cb 0 blob t None tt.

(** A database as a blob of another one: a block with its size before it. *)
Definition adb_w_adb (db valdb : adb) : outcome (adb_val * adb) :=
  let blk := adb_block_init ADB_BLOCK_ADB (adb_len valdb) in
  let body := [block_bytes blk; adb_data valdb; padding_zeroes (adb_block_padding blk)] in
  if adb_len valdb <=? ADB_HDR_SIZE then Ok (ADB_NULL, db)
  else
    let vec := le_bytes 4 (u32 (iovec_len body)) :: body in
    adb_w_val ADB_TYPE_BLOB_32 (adb_w_raw db vec (iovec_len vec) 4).
