(* ===== verification/AdbBlockFacts.v ===== *)
(** * ADB files: what parsing and trust promise

    Blocks that were written are found again; the parser ends on every input; no data reaches the
    callback, and no database the caller, without evidence of trust; a file that was signed with a
    key is accepted by those who trust it. *)

From S2P Require Import Prelude Blob BlobCodec Digest Adb AdbFacts AdbWrite AdbTree AdbBlock.

(** ** Blocks *)

Lemma land_30 x : Z.land x 0x3fffffff = x mod 2 ^ 30.
Proof. change 0x3fffffff with (Z.ones 30). by rewrite Z.land_ones. Qed.

Lemma shiftr_30 x : Z.shiftr x 30 = x / 2 ^ 30.
Proof. by rewrite Z.shiftr_div_pow2. Qed.

(** A block that [adb_block_init] makes for a payload of [n] bytes. *)
Lemma block_init_spec type n : 0 <= type < 3 -> 0 <= n < 2 ^ 62 ->
  let b := adb_block_init type n in
  adb_block_type b = type /\ adb_block_length b = n /\ adb_block_rawsize b = adb_block_hdrsize b + n /\
  0 <= type_size b < 2 ^ 32 /\ 0 <= x_size b < 2 ^ 64 /\ Z.of_nat (length (block_bytes b)) = adb_block_hdrsize b /\
  4 <= adb_block_hdrsize b <= 16.
Proof.
  intros Ht Hn b. unfold b, adb_block_init. destruct (Z.leb_spec n (0x3fffffff - 4)) as [Hs|Hs].
  - assert (u32 (Z.shiftl type 30 + 4 + n) = type * 2 ^ 30 + (4 + n)) as ->.
    { unfold u32. rewrite Z.shiftl_mul_pow2 by lia. rewrite Z.mod_small by lia. lia. }
    assert (adb_block_is_ext (mk_block (type * 2 ^ 30 + (4 + n)) 0) = false) as He.
    { unfold adb_block_is_ext, ADB_BLOCK_EXT. cbn [type_size]. rewrite shiftr_30, Z.div_add_l, Z.div_small by lia. apply Z.eqb_neq. lia. }
    unfold adb_block_type, adb_block_length, adb_block_rawsize, adb_block_hdrsize, block_bytes. rewrite He. cbn [type_size x_size].
    rewrite shiftr_30, land_30, Z.div_add_l, Z.div_small by lia. rewrite (Z.add_comm (type * 2 ^ 30)), Z.mod_add, Z.mod_small by lia.
    unfold u64. rewrite Z.mod_small by lia. rewrite length_le_bytes. lia.
  - assert (u32 (Z.shiftl ADB_BLOCK_EXT 30 + type) = 3 * 2 ^ 30 + type) as ->.
    { unfold u32, ADB_BLOCK_EXT. rewrite Z.shiftl_mul_pow2 by lia. rewrite Z.mod_small by lia. lia. }
    unfold u64, ADB_BLOCK_SIZE. rewrite Z.mod_small by lia.
    assert (adb_block_is_ext (mk_block (3 * 2 ^ 30 + type) (16 + n)) = true) as He.
    { unfold adb_block_is_ext, ADB_BLOCK_EXT. cbn [type_size]. rewrite shiftr_30, Z.div_add_l, Z.div_small by lia. done. }
    unfold adb_block_type, adb_block_length, adb_block_rawsize, adb_block_hdrsize, block_bytes. rewrite He. cbn [type_size x_size].
    rewrite land_30. unfold ADB_BLOCK_SIZE, u64. rewrite (Z.add_comm (3 * 2 ^ 30)), Z.mod_add, !Z.mod_small by lia.
    rewrite !length_app, !length_le_bytes. simpl. lia.
Qed.

Lemma load_app_l n l k : length l = Z.to_nat n -> 0 <= n -> load n (l ++ k) 0 = Ok (le_value l).
Proof.
  intros Hl Hn. unfold load. rewrite fetch_Ok by (rewrite ?length_app; lia). simpl.
  by rewrite drop_0, <- Hl, take_app_length.
Qed.

(** The size of a block with its padding. *)
Lemma block_size_spec type n : 0 <= type < 3 -> 0 <= n < 2 ^ 62 ->
  let b := adb_block_init type n in
  adb_block_size b = adb_block_hdrsize b + n + adb_block_padding b /\ 0 <= adb_block_padding b < 8.
Proof.
  intros Ht Hn b. destruct (block_init_spec type n Ht Hn) as (_ & _ & Hr & _ & _ & _ & Hh). fold b in Hr, Hh.
  unfold adb_block_padding, adb_block_size, ADB_BLOCK_ALIGNMENT.
  destruct (round_up_spec (adb_block_rawsize b) 8) as [H1 H2]; [unfold alignment; lia | lia |].
  unfold u32. rewrite Z.mod_small by lia. lia.
Qed.

(** The bytes that [adb_c_block] adds. *)
Definition block_image (type : Z) (val : bytes) : bytes :=
  let blk := adb_block_init type (Z.of_nat (length val)) in
  block_bytes blk ++ val ++ padding_zeroes (adb_block_padding blk).

Lemma c_block_out os type val : adb_c_block os type val = mk_os (os_rc os) (os_out os ++ block_image type val).
Proof. unfold adb_c_block, apk_ostream_write, block_image. cbn [os_rc os_out]. by rewrite !app_assoc. Qed.

(** The header of a block is read as it was written. *)
Lemma validate_header b rest :
  0 <= type_size b < 2 ^ 32 -> 0 <= x_size b < 2 ^ 64 -> (adb_block_is_ext b = false -> x_size b = 0) ->
  adb_block_hdrsize b <= adb_block_rawsize b -> Z.of_nat (length (block_bytes b)) = adb_block_hdrsize b ->
  adb_block_size b <= Z.of_nat (length (block_bytes b ++ rest)) ->
  adb_block_validate (block_bytes b ++ rest) = Ok (BlockAt b).
Proof.
  intros Hts Hx Hne Hraw Hlen Hsz. destruct b as [ts x]. cbn [type_size x_size] in *.
  assert (adb_block_is_ext (mk_block ts 0) = adb_block_is_ext (mk_block ts x)) as He by done.
  assert (adb_block_hdrsize (mk_block ts 0) = adb_block_hdrsize (mk_block ts x)) as Hh by done.
  assert (4 <= adb_block_hdrsize (mk_block ts x)) as H4.
  { unfold adb_block_hdrsize, ADB_BLOCK_SIZE. case_if; lia. }
  unfold adb_block_validate. rewrite length_app in *. rewrite (proj2 (Z.eqb_neq _ _)), (proj2 (Z.ltb_ge _ 4)) by lia.
  assert (load 4 (block_bytes (mk_block ts x) ++ rest) 0 = Ok ts) as ->.
  { unfold block_bytes. cbn [type_size x_size]. case_if; rewrite <- ?app_assoc; rewrite load_app_l by (try apply length_le_bytes; lia);
      by rewrite le_value_bytes. }
  cbn [obind]. rewrite Hh, He. rewrite (proj2 (Z.ltb_ge _ _)) by lia.
  assert ((if adb_block_is_ext (mk_block ts x) then load 8 (block_bytes (mk_block ts x) ++ rest) 8 else Ok 0) = Ok x) as ->.
  { unfold block_bytes. cbn [type_size x_size]. case_if; [| by rewrite Hne].
    assert (fetch ((le_bytes 4 ts ++ [0; 0; 0; 0] ++ le_bytes 8 x) ++ rest) 8 8 = Ok (le_bytes 8 x)) as Hf.
    { by rewrite fetch_Ok by (rewrite ?length_app, ?length_le_bytes; simpl; lia). }
    rewrite (load_fetch _ _ _ _ Hf). f_equal. by apply le_value_bytes. }
  cbn [obind]. rewrite (proj2 (Z.ltb_ge _ _)), (proj2 (Z.ltb_ge _ (adb_block_size _))) by lia. done.
Qed.

(** A block that was written is found, with its payload and the rest of the data. *)
Lemma block_image_read type val rest : 0 <= type < 3 -> Z.of_nat (length val) < 2 ^ 62 ->
  let b := adb_block_init type (Z.of_nat (length val)) in
  adb_block_validate (block_image type val ++ rest) = Ok (BlockAt b) /\ adb_block_type b = type /\
  adb_block_blob b (block_image type val ++ rest) = Ok val /\
  drop (Z.to_nat (adb_block_size b)) (block_image type val ++ rest) = rest.
Proof.
  intros Ht Hn b. destruct (block_init_spec type (Z.of_nat (length val)) Ht) as (H1 & H2 & H3 & H4 & H5 & H6 & H7); [lia |].
  destruct (block_size_spec type (Z.of_nat (length val)) Ht) as [S1 S2]; [lia |]. subst b. set (b := adb_block_init type (Z.of_nat (length val))) in *.
  unfold block_image. fold b. rewrite <- !app_assoc.
  assert (length (padding_zeroes (adb_block_padding b)) = Z.to_nat (adb_block_padding b)) as Hp by apply length_replicate.
  split_and!; [| done | |].
  - apply validate_header; try done; [| lia | rewrite !length_app; lia].
    unfold b, adb_block_init. case_if; [done |]. intros He. unfold adb_block_is_ext in He. bool_prop.
    unfold u32 in He. cbn [type_size] in He. destruct He.
    rewrite shiftr_30. unfold ADB_BLOCK_EXT. rewrite Z.shiftl_mul_pow2, (Z.mod_small (3 * 2 ^ 30 + type)) by lia.
    rewrite Z.div_add_l, Z.div_small by lia. done.
  - unfold adb_block_blob. rewrite H2, <- H6.
    rewrite fetch_Ok by (rewrite ?length_app; lia). by rewrite !Nat2Z.id, drop_app_length, take_app_length.
  - rewrite S1, <- H6. rewrite (app_assoc val), app_assoc. apply drop_app_length'.
    rewrite !length_app. lia.
Qed.

(** What a valid block satisfies. *)
Lemma validate_inv rest b : Forall byte_ok rest -> adb_block_validate rest = Ok (BlockAt b) ->
  4 <= adb_block_hdrsize b <= 16 /\ adb_block_hdrsize b <= adb_block_rawsize b < 2 ^ 64 /\
  adb_block_hdrsize b <= Z.of_nat (length rest) /\ adb_block_size b <= Z.of_nat (length rest).
Proof.
  intros Hok Hv. unfold adb_block_validate in Hv.
  destruct (Z.of_nat (length rest) =? 0); [done |]. destruct (Z.ltb_spec (Z.of_nat (length rest)) 4); [done |].
  assert (forall n p x, load n rest p = Ok x -> 0 <= x < 256 ^ n) as Hload.
  { intros n p x. unfold load, obind. destruct (fetch rest p n) as [l|] eqn:Ef; [| done]. intros [= <-].
    apply fetch_inv in Ef as (_ & _ & _ & El & Hn). rewrite <- Hn. apply le_value_range. rewrite El. by apply Forall_take, Forall_drop. }
  destruct (load 4 rest 0) as [ts|] eqn:Ets; [| done]. cbn [obind] in Hv. destruct (Z.ltb_spec (Z.of_nat (length rest)) (adb_block_hdrsize (mk_block ts 0))); [done |].
  destruct (if adb_block_is_ext _ then _ else _) as [x|] eqn:Ex; [| done]. cbn [obind] in Hv.
  destruct (_ <? _) eqn:E1 in Hv; [done |]. destruct (_ <? _) eqn:E2 in Hv; [done |]. injection Hv as <-. bool_prop.
  change (adb_block_hdrsize (mk_block ts 0)) with (adb_block_hdrsize (mk_block ts x)) in *.
  assert (4 <= adb_block_hdrsize (mk_block ts x) <= 16) by (unfold adb_block_hdrsize, ADB_BLOCK_SIZE; case_if; lia).
  split; [done |]. split; [| done]. split; [done |]. unfold adb_block_rawsize. cbn [type_size x_size].
  change (adb_block_is_ext (mk_block ts 0)) with (adb_block_is_ext (mk_block ts x)) in Ex. case_if.
  - apply Hload in Ex. lia.
  - rewrite land_30. pose proof (Z.mod_pos_bound ts (2 ^ 30)). lia.
Qed.

Lemma block_size_ge b : 0 <= adb_block_rawsize b <= 2 ^ 64 - 8 -> adb_block_rawsize b <= adb_block_size b.
Proof.
  intros Hr. unfold adb_block_size, ADB_BLOCK_ALIGNMENT, ROUND_UP, u64. rewrite Z.mod_small by lia.
  change (8 - 1) with (Z.ones 3). rewrite <- Z.ldiff_land, Z.ldiff_ones_r by lia.
  rewrite Z.shiftr_div_pow2, Z.shiftl_mul_pow2 by lia. pose proof (Z.mod_pos_bound (adb_block_rawsize b + 8 - 1) 8).
  pose proof (Z.div_mod (adb_block_rawsize b + 8 - 1) 8). change (2 ^ 3) with 8. lia.
Qed.

(** A block whose size does not wrap around has its payload in the data. *)
Lemma validate_inside rest b : Forall byte_ok rest -> Z.of_nat (length rest) < 2 ^ 62 ->
  adb_block_validate rest = Ok (BlockAt b) -> adb_block_rawsize b <= 2 ^ 64 - 8 -> exists val, adb_block_blob b rest = Ok val.
Proof.
  intros Hok Hl Hv Hw. apply validate_inv in Hv as (H1 & H2 & H3 & H4); [| done].
  pose proof (block_size_ge b). unfold adb_block_blob, adb_block_length, u64. rewrite Z.mod_small by lia.
  rewrite fetch_Ok by lia. by eexists.
Qed.

(** A block whose payload is in the data has a size, and the rest is shorter. *)
Lemma block_progress rest b val : Forall byte_ok rest -> Z.of_nat (length rest) < 2 ^ 62 ->
  adb_block_validate rest = Ok (BlockAt b) -> adb_block_blob b rest = Ok val ->
  (length (drop (Z.to_nat (adb_block_size b)) rest) < length rest)%nat.
Proof.
  intros Hok Hl Hv Hb. apply validate_inv in Hv as (H1 & H2 & H3 & H4); [| done].
  apply fetch_inv in Hb as (B1 & B2 & B3 & _). unfold adb_block_length, u64 in B3.
  rewrite Z.mod_small in B3 by lia. pose proof (block_size_ge b). rewrite length_drop. lia.
Qed.

(** ** Evidence of trust *)

Section evidence.
Context `{Crypto}.

(** The digest that the algorithm of a signature or identity gives. *)
Definition adb_md (alg : Z) (a : bytes) : option bytes :=
  if alg =? APK_DIGEST_SHA256_160 then take (apk_digest_alg_len alg) <$> digest_calc APK_DIGEST_SHA256 a
  else if (alg =? APK_DIGEST_SHA256) || (alg =? APK_DIGEST_SHA512) then take (apk_digest_alg_len alg) <$> digest_calc alg a
  else None.

(** A signature block that a trusted key has made for the database [a]. *)
Definition sig_valid (t : apk_trust) (schema : Z) (a sigb : bytes) : Prop :=
  nth 0 sigb 0 = 0 /\ (SIGN_V0_SIZE <= length sigb)%nat /\
  exists k md, k ∈ trusted_key_list t /\ take 16 (drop 2 sigb) = key_id k /\ adb_md (nth 1 sigb 0) a = Some md /\
    pk_verify (key_priv k) (adb_digest_v0_signature schema (take SIGN_V0_SIZE sigb) md) (drop SIGN_V0_SIZE sigb) = true.

(** The database has the digest that the caller expects. *)
Definition ident_valid (ectx : option extract_identity) (a : bytes) : Prop :=
  exists e md, ectx = Some e /\ generate_identity e = None /\
    adb_md (if generate_alg e =? 0 then verify_alg e else generate_alg e) a = Some md /\ verify_digest e = md.

(** The blocks of a file. *)
Inductive block_in : bytes -> Z -> bytes -> Prop :=
| block_here rest blk b : adb_block_validate rest = Ok (BlockAt blk) -> adb_block_blob blk rest = Ok b ->
    block_in rest (adb_block_type blk) b
| block_later rest blk b type v : adb_block_validate rest = Ok (BlockAt blk) -> adb_block_blob blk rest = Ok b ->
    block_in (drop (Z.to_nat (adb_block_size blk)) rest) type v -> block_in rest type v.

Inductive trusted_by (data : bytes) (t : option apk_trust) (ectx : option extract_identity) (schema : Z) (a : blob) : Prop :=
| by_option t' : t = Some t' -> allow_untrusted t' = true -> trusted_by data t ectx schema a
| by_identity b : a = Some b -> ident_valid ectx b -> trusted_by data t ectx schema a
| by_signature t' b sigb : t = Some t' -> a = Some b -> block_in data ADB_BLOCK_SIG sigb -> sig_valid t' schema b sigb ->
    trusted_by data t ectx schema a.

(** The digests in the context are those of the database. *)
Definition vfy_ok (a : blob) (vfy : adb_verify_ctx) : Prop :=
  (testmask (vfy_calc vfy) (Z.shiftl 1 APK_DIGEST_SHA256) = true -> exists b, a = Some b /\ digest_calc APK_DIGEST_SHA256 b = Some (vfy_sha256 vfy)) /\
  (testmask (vfy_calc vfy) (Z.shiftl 1 APK_DIGEST_SHA512) = true -> exists b, a = Some b /\ digest_calc APK_DIGEST_SHA512 b = Some (vfy_sha512 vfy)).

Lemma vfy_zero_ok a : vfy_ok a vfy_zero.
Proof. done. Qed.

Lemma testmask_lor_8 x : testmask (Z.lor x 8) 16 = testmask x 16.
Proof.
  unfold testmask. f_equal. f_equal. apply Z.bits_inj'. intros n Hn. rewrite !Z.land_spec, Z.lor_spec.
  destruct (Z.eq_dec n 4) as [->|]; [by rewrite orb_false_r |].
  assert (Z.testbit 16 n = false) as ->; [| by rewrite !andb_false_r]. change 16 with (2 ^ 4). by rewrite Z.pow2_bits_false.
Qed.

Lemma testmask_lor_16 x : testmask (Z.lor x 16) 8 = testmask x 8.
Proof.
  unfold testmask. f_equal. f_equal. apply Z.bits_inj'. intros n Hn. rewrite !Z.land_spec, Z.lor_spec.
  destruct (Z.eq_dec n 3) as [->|]; [by rewrite orb_false_r |].
  assert (Z.testbit 8 n = false) as ->; [| by rewrite !andb_false_r]. change 8 with (2 ^ 3). by rewrite Z.pow2_bits_false.
Qed.

(** The digest of an algorithm is in the context after it was calculated. *)
Lemma vfy_ok_add vfy alg b d : vfy_ok (Some b) vfy -> alg = APK_DIGEST_SHA256 \/ alg = APK_DIGEST_SHA512 ->
  digest_calc alg b = Some d ->
  vfy_ok (Some b) (mk_vfy (Z.lor (vfy_calc vfy) (Z.shiftl 1 alg)) (if alg =? APK_DIGEST_SHA256 then d else vfy_sha256 vfy)
    (if alg =? APK_DIGEST_SHA256 then vfy_sha512 vfy else d)).
Proof.
  intros [Hv2 Hv5] [-> | ->] Hd; split; cbn [vfy_calc vfy_sha256 vfy_sha512].
  - intros _. by exists b.
  - change (Z.shiftl 1 APK_DIGEST_SHA256) with 8. change (Z.shiftl 1 APK_DIGEST_SHA512) with 16. rewrite testmask_lor_8. exact Hv5.
  - change (Z.shiftl 1 APK_DIGEST_SHA256) with 8. change (Z.shiftl 1 APK_DIGEST_SHA512) with 16. rewrite testmask_lor_16. exact Hv2.
  - intros _. by exists b.
Qed.

Lemma digest_adb_spec vfy alg b : vfy_ok (Some b) vfy ->
  match adb_digest_adb vfy alg (Some b) with
  | (inl r, vfy') => r < 0 /\ vfy' = vfy
  | (inr md, vfy') => vfy_ok (Some b) vfy' /\ adb_md alg b = Some md
  end.
Proof.
  intros Hv. unfold adb_digest_adb. set (alg' := if alg =? APK_DIGEST_SHA256_160 then APK_DIGEST_SHA256 else alg).
  assert (alg' = APK_DIGEST_SHA256 \/ alg' = APK_DIGEST_SHA512 -> adb_md alg b = take (apk_digest_alg_len alg) <$> digest_calc alg' b) as Hmd.
  { unfold adb_md, alg'. case_if; [done |]. by intros [-> | ->]. }
  destruct (negb (alg' =? APK_DIGEST_SHA256) && negb (alg' =? APK_DIGEST_SHA512)) eqn:Ealg; [done |].
  assert (alg' = APK_DIGEST_SHA256 \/ alg' = APK_DIGEST_SHA512) as Halg.
  { apply andb_false_iff in Ealg as [E|E]; bool_prop; auto. }
  rewrite (Hmd Halg). destruct (testmask (vfy_calc vfy) (Z.shiftl 1 alg')) eqn:E.
  - split; [done |]. destruct Hv as [Hv2 Hv5].
    destruct Halg as [Ha | Ha]; rewrite Ha in *; [destruct (Hv2 E) as (b' & [= <-] & ->) | destruct (Hv5 E) as (b' & [= <-] & ->)]; done.
  - destruct (digest_calc alg' b) as [d|] eqn:Ed; [| done]. split; [by apply vfy_ok_add |].
    destruct Halg as [Ha | Ha]; by rewrite Ha.
Qed.

Lemma verify_keys_spec keys vfy a schema sigb : vfy_ok (Some a) vfy ->
  let '(r, vfy') := verify_keys keys vfy (Some a) schema sigb in
  vfy_ok (Some a) vfy' /\
  (r = 0 -> exists k md, k ∈ keys /\ take 16 (drop 2 sigb) = key_id k /\ adb_md (nth 1 sigb 0) a = Some md /\
    pk_verify (key_priv k) (adb_digest_v0_signature schema (take SIGN_V0_SIZE sigb) md) (drop SIGN_V0_SIZE sigb) = true).
Proof.
  revert vfy. induction keys as [|k keys IH]; intros vfy Hv; cbn [verify_keys]; [done |].
  assert (forall vfy, vfy_ok (Some a) vfy -> let '(r, vfy') := verify_keys keys vfy (Some a) schema sigb in
    vfy_ok (Some a) vfy' /\
    (r = 0 -> exists k0 md, k0 ∈ k :: keys /\ take 16 (drop 2 sigb) = key_id k0 /\ adb_md (nth 1 sigb 0) a = Some md /\
      pk_verify (key_priv k0) (adb_digest_v0_signature schema (take SIGN_V0_SIZE sigb) md) (drop SIGN_V0_SIZE sigb) = true)) as Hrest.
  { intros vfy0 Hv0. specialize (IH vfy0 Hv0). destruct (verify_keys keys vfy0 _ _ _) as [r vfy']. destruct IH as [H1 H2].
    split; [done |]. intros Hr. destruct (H2 Hr) as (k0 & md & Hk & Hm). exists k0, md. split; [by right | done]. }
  case_if; [by apply Hrest |]. bool_prop. pose proof (digest_adb_spec vfy (nth 1 sigb 0) a Hv) as Hd.
  destruct (adb_digest_adb _ _ _) as [[r|md] vfy']; [destruct Hd as [_ ->]; by apply Hrest |]. destruct Hd as [Hv' Hmd].
  case_if; [by apply Hrest |]. bool_prop. split; [done |]. intros _. exists k, md. split; [left | done].
Qed.

Lemma verify_signature_spec t vfy a schema sigb r vfy' : vfy_ok (Some a) vfy ->
  adb_trust_verify_signature t (Some a) schema vfy sigb = Ok (r, vfy') ->
  vfy_ok (Some a) vfy' /\ (r = 0 -> exists t', t = Some t' /\ sig_valid t' schema a sigb).
Proof.
  intros Hv Heq. cbn [adb_trust_verify_signature] in Heq.
  destruct (Nat.ltb_spec (length sigb) SIGN_HDR_SIZE); [by injection Heq as <- <- |].
  destruct (Z.eqb_spec (nth 0 sigb 0) 0) as [Hver|]; cbn [negb] in Heq; [| by injection Heq as <- <-].
  destruct (Nat.ltb_spec (length sigb) SIGN_V0_SIZE) as [|Hl]; [by injection Heq as <- <- |].
  destruct t as [t|]; [| done]. injection Heq as Heq. pose proof (verify_keys_spec (trusted_key_list t) vfy a schema sigb Hv) as Hk.
  rewrite Heq in Hk. destruct Hk as [H1 H2]. split; [done |]. intros Hr. exists t. split; [done |].
  destruct (H2 Hr) as (k & md & Hm). split; [done |]. split; [done |]. by exists k, md.
Qed.

Lemma handle_identity_spec ectx vfy a : vfy_ok (Some a) vfy ->
  let '(r, ectx', vfy') := __adb_handle_identity ectx vfy a in
  vfy_ok (Some a) vfy' /\ (r = 1 -> ident_valid ectx a).
Proof.
  intros Hv. unfold __adb_handle_identity. destruct ectx as [e|]; [| done].
  set (alg := if generate_alg e =? 0 then verify_alg e else generate_alg e). case_if; [done |].
  pose proof (digest_adb_spec vfy alg a Hv) as Hd. destruct (adb_digest_adb _ _ _) as [[r|md] vfy'].
  - destruct Hd as [Hr ->]. split; [done |]. lia.
  - destruct Hd as [Hv' Hmd]. destruct (generate_identity e) as [d|] eqn:Eg; [done |].
    case_if; [by case_if |]. split; [done |]. intros _. bool_prop. exists e, md. split_and!; try done. by apply apk_blob_compare_eq0.
Qed.
End evidence.

(** ** The parser *)

Section parser.
Context `{Crypto} (f : Z -> bytes -> Z) (data : bytes) (t : option apk_trust) (ectx : option extract_identity) (schema : Z).

(** A callback that answers by [f] and logs what it was given. *)
Definition log_cb (a : blob) (type : Z) (b : bytes) (log : list (blob * Z * bytes)) : Z * list (blob * Z * bytes) :=
  (f type b, log ++ [(a, type, b)]).

Abbreviation log_state := (parse_state (S := list (blob * Z * bytes))).

(** What holds of every state in which the loop may end. *)
Record parse_inv (st : log_state) : Prop := {
  pi_trusted : ps_trusted st = true -> trusted_by data t ectx schema (ps_adb st);
  pi_adb : forall a, ps_adb st = Some a -> block_in data ADB_BLOCK_ADB a;
  pi_log : forall a b, (a, ADB_BLOCK_DATA, b) ∈ ps_cb st -> trusted_by data t ectx schema a;
}.

(** And of every state in which it goes on: the database is set once. *)
Record loop_inv (st : log_state) : Prop := {
  li_parse : parse_inv st;
  li_vfy : vfy_ok (ps_adb st) (ps_vfy st);
  li_first : ps_adb st = None -> ps_allowed st = BIT ADB_BLOCK_ADB /\ ps_ectx st = ectx /\ ps_vfy st = vfy_zero;
  li_once : ps_adb st <> None -> testmask (BIT ADB_BLOCK_ADB) (ps_allowed st) = false;
}.

Lemma verify_fault tr a sch vfy sigb : adb_trust_verify_signature tr a sch vfy sigb = Fault -> tr = None.
Proof. unfold adb_trust_verify_signature. by repeat case_match. Qed.

Lemma parse_block_inv type b st : loop_inv st -> block_in data type b ->
  match parse_block t schema type b st with
  | Fault => t = None
  | Ok (Stop _ st') => parse_inv st'
  | Ok (Go st') => loop_inv st' /\ (type = ADB_BLOCK_DATA -> ps_trusted st' = true) /\ ps_cb st' = ps_cb st
  end.
Proof.
  intros Hi Hin. pose proof Hi as [[Htr Hadb Hlog] Hvfy Hfirst Honce]. unfold parse_block.
  case_if; [apply Hi |]. apply orb_false_iff in Heqb0 as [_ Hallow]. apply negb_false_iff in Hallow.
  destruct (Z.eqb_spec type ADB_BLOCK_ADB) as [->|Hna].
  - assert (ps_adb st = None) as Hnone.
    { destruct (ps_adb st) eqn:E; [| done]. by rewrite Honce in Hallow. }
    destruct (Hfirst Hnone) as (Ha & He & Hv). cbn [ps_ectx ps_vfy ps_trusted ps_adb ps_cb]. rewrite Hnone in *.
    case_if; [by split; cbn [ps_trusted ps_adb ps_cb] |]. case_if; [by split; cbn [ps_trusted ps_adb ps_cb] |].
    rewrite He, Hv. pose proof (handle_identity_spec ectx vfy_zero b (vfy_zero_ok _)) as Hid.
    destruct (__adb_handle_identity ectx vfy_zero b) as [[r ectx'] vfy']. destruct Hid as [Hv' Hr].
    assert (parse_inv (mk_ps (Some b) (ps_trusted st || (r =? 1)) (Z.lor (BIT ADB_BLOCK_SIG) (BIT ADB_BLOCK_DATA)) vfy' ectx' (ps_cb st))) as Hp.
    { split; cbn [ps_trusted ps_adb ps_cb]; [| by intros a [= <-] | done]. intros [Ht|Ht]%orb_true_iff.
      - destruct (Htr Ht); [by eapply by_option | done | done].
      - bool_prop. subst r. eapply by_identity; [done | auto]. }
    case_if; [done |]. split; [| done]. split; [done | done | done |]. by intros _.
  - destruct (Z.eqb_spec type ADB_BLOCK_SIG) as [->|Hns].
    + case_if; [by split |]. destruct (adb_trust_verify_signature _ _ _ _ _) as [[r vfy']|] eqn:Ev; [| by eapply verify_fault]. cbn [obind].
      assert (ps_adb st <> None) as Hsome.
      { intros Hnone. destruct (Hfirst Hnone) as [Ha _]. by rewrite Ha in Hallow. }
      destruct (ps_adb st) as [a|] eqn:Ea; [| done]. destruct (verify_signature_spec _ _ _ _ _ _ _ Hvfy Ev) as [Hv' Hr].
      split; [| done]. split; [split | | |]; cbn [ps_trusted ps_adb ps_cb ps_vfy ps_allowed]; try done.
      intros Hr0. bool_prop. destruct (Hr Hr0) as (t' & Ht' & Hsig). by eapply by_signature.
    + destruct (Z.eqb_spec type ADB_BLOCK_DATA) as [->|Hnd]; [| by split].
      case_if; [by split |]. bool_prop. cbn [ps_trusted ps_adb ps_cb] in *.
      assert (ps_adb st <> None) as Hsome.
      { intros Hnone. destruct (Hfirst Hnone) as [Ha _]. by rewrite Ha in Hallow. }
      split; [| done]. split; cbn [ps_trusted ps_adb ps_cb ps_vfy ps_allowed]; done.
Qed.

(** What makes the parser leave the data: no trust at all is given, or a block size wraps around. *)
Definition parse_hazard : Prop :=
  t = None \/ exists rest blk, rest `suffix_of` data /\ adb_block_validate rest = Ok (BlockAt blk) /\ 2 ^ 64 - 8 < adb_block_rawsize blk.

Lemma validate_total rest : exists r, adb_block_validate rest = Ok r.
Proof.
  unfold adb_block_validate. case_if; [by eexists |]. case_if; [by eexists |]. bool_prop.
  unfold load. rewrite fetch_Ok by lia. cbn [obind]. case_if; [by eexists |]. bool_prop.
  destruct (adb_block_is_ext _) eqn:Ex; cbn [obind].
  - unfold adb_block_hdrsize, ADB_BLOCK_SIZE in *. rewrite Ex in *. rewrite fetch_Ok by lia. cbn [obind]. repeat case_if; by eexists.
  - repeat case_if; by eexists.
Qed.

Lemma validate_err rest e : adb_block_validate rest = Ok (BlockErr e) -> e = - APKE_ADB_BLOCK.
Proof.
  unfold adb_block_validate. repeat (case_if; [congruence |]). destruct (load 4 rest 0); cbn [obind]; [| done].
  case_if; [congruence |]. destruct (if adb_block_is_ext _ then _ else _); cbn [obind]; [| done]. repeat (case_if; [congruence |]). done.
Qed.

(** The rest of the data at a point of the loop holds blocks of the data. *)
Lemma parse_loop_inv fuel rest r st :
  Forall byte_ok rest -> Z.of_nat (length rest) < 2 ^ 62 -> (length rest < fuel)%nat -> loop_inv st ->
  (forall type b, block_in rest type b -> block_in data type b) -> rest `suffix_of` data ->
  match parse_loop log_cb fuel t schema rest r st with
  | None => False
  | Some Fault => parse_hazard
  | Some (Ok e) => parse_inv (pe_state e) /\ forall err, pe_blk e = BlockErr err -> err < 0
  end.
Proof.
  revert rest r st. induction fuel as [|fuel IH]; intros rest r st Hok Hlen Hf Hi Hin Hsuf; [lia |].
  cbn [parse_loop]. destruct (adb_block_validate rest) as [[|e|blk]|] eqn:Ev;
    [by split; [apply Hi |] | | | destruct (validate_total rest); congruence].
  { split; [apply Hi |]. intros err [= <-]. by apply validate_err in Ev as ->. }
  destruct (adb_block_blob blk rest) as [b|] eqn:Eb.
  2:{ right. exists rest, blk. split; [done |]. split; [done |]. apply Z.lt_nge. intros Hle.
      destruct (validate_inside rest blk Hok Hlen Ev Hle). congruence. }
  pose proof (parse_block_inv (adb_block_type blk) b st Hi (Hin _ _ (block_here _ _ _ Ev Eb))) as Hb.
  destruct (parse_block t schema (adb_block_type blk) b st) as [[st'|r' st']|]; [| by split | by left].
  destruct Hb as (Hi' & Hdata & Hcb). destruct Hi' as [[Htr Hadb Hlog] Hvfy Hfirst Honce].
  cbn [log_cb]. set (st2 := mk_ps _ _ _ _ _ _).
  assert (parse_inv st2) as Hp2.
  { split; cbn [st2 ps_trusted ps_adb ps_cb]; [done | done |]. intros a b' [Hl|Hl]%elem_of_app; [by eapply Hlog |].
    apply list_elem_of_singleton in Hl. injection Hl as -> Htype ->. apply Htr. by apply Hdata. }
  case_if; [by split |]. apply IH; [by apply Forall_drop | rewrite length_drop; lia | | by split | |].
  - pose proof (block_progress rest blk b Hok Hlen Ev Eb). lia.
  - intros type v Hv. apply Hin. by eapply block_later.
  - transitivity rest; [| done]. apply suffix_drop.
Qed.

Lemma parse_init_inv c : c = [] -> loop_inv (parse_init t ectx c).
Proof.
  intros ->. split; [split | | |]; cbn [parse_init ps_trusted ps_adb ps_cb ps_vfy ps_allowed ps_ectx]; try done.
  - destruct t as [t'|] eqn:Et; [| done]. intros Ha. by eapply by_option.
  - intros a b Hb. by apply not_elem_of_nil in Hb.
Qed.

(** C12: The parser of a file in memory always ends.  It returns 0 only with a database
    that is the payload of a database block of the file, and only on evidence of trust: the
    caller allows untrusted files, the database has the digest the caller expects, or a signature
    block of the file was made for exactly this schema and database by a trusted key.  On an error
    no database is returned, and no data block ever reaches the callback without such evidence.
    The parser leaves the data only where a block size wraps around, or without a trust store. *)
Theorem adb_parse_trusted :
  Forall byte_ok data -> Z.of_nat (length data) < 2 ^ 62 ->
  match __adb_m_parse log_cb schema data t ectx [] with
  | None => False
  | Some Fault => parse_hazard
  | Some (Ok (r, adb, st)) =>
      (r = 0 -> exists a, adb = Some a /\ block_in data ADB_BLOCK_ADB a /\ trusted_by data t ectx schema (Some a)) /\
      (r <> 0 -> adb = None) /\
      (forall a b, (a, ADB_BLOCK_DATA, b) ∈ ps_cb st -> trusted_by data t ectx schema a)
  end.
Proof.
  intros Hok Hlen. unfold __adb_m_parse.
  pose proof (parse_loop_inv (S (length data)) data 0 (parse_init t ectx []) Hok Hlen (Nat.lt_succ_diag_r _) (parse_init_inv [] eq_refl) (fun _ _ H => H) ltac:(reflexivity)) as Hl.
  destruct (parse_loop _ _ _ _ _ _ _) as [[e|]|]; [| done | done]. cbn [mbind option_bind obind]. destruct Hl as [[Htr Hadb Hlog] Herr].
  unfold parse_finish. set (r0 := if 0 <? pe_r e then _ else _). set (r := if r0 =? 0 then _ else _). split; [| split; [| exact Hlog]].
  - intros Hr. rewrite Hr. cbn [Z.eqb]. unfold r in Hr. destruct (r0 =? 0) eqn:E0; [| bool_prop; congruence].
    assert (ps_trusted (pe_state e) = true /\ exists a, ps_adb (pe_state e) = Some a) as [Ht [a Ha]].
    { destruct (pe_blk e) as [|err|b] eqn:Eb; [| specialize (Herr err eq_refl); lia |];
        (destruct (ps_trusted (pe_state e)); [| done]); destruct (ps_adb (pe_state e)) as [a|]; done || (split; [done | by exists a]). }
    rewrite Ha in *. exists a. split_and!; auto.
  - intros Hr. by rewrite (proj2 (Z.eqb_neq _ _) Hr).
Qed.
End parser.

(** ** A signed file is accepted *)

(** What a signing backend promises: the digest exists and has its length, and a signature of a
    key verifies with its public half. *)
Class CryptoLaws `{Crypto} (pub : pkey -> pkey) : Prop := {
  digest_total : forall b, exists d, digest_calc APK_DIGEST_SHA512 b = Some d;
  sign_verifies : forall k m s, pk_sign k m = Some s -> pk_verify (pub k) m s = true;
}.

Section signed.
Context `{Crypto} (pub : pkey -> pkey) `{!CryptoLaws pub}.

Lemma digest_sha512 vfy b : vfy_ok (Some b) vfy -> exists d vfy', digest_calc APK_DIGEST_SHA512 b = Some d /\
  adb_digest_adb vfy APK_DIGEST_SHA512 (Some b) = (inr (take 64 d), vfy') /\ vfy_ok (Some b) vfy'.
Proof.
  intros Hv. destruct (digest_total b) as [d Hd]. pose proof (digest_adb_spec vfy APK_DIGEST_SHA512 b Hv) as Hs.
  unfold adb_md in Hs. cbn [orb Z.eqb] in Hs. change (APK_DIGEST_SHA512 =? APK_DIGEST_SHA256_160) with false in Hs.
  change ((APK_DIGEST_SHA512 =? APK_DIGEST_SHA256) || (APK_DIGEST_SHA512 =? APK_DIGEST_SHA512)) with true in Hs. rewrite Hd in Hs.
  destruct (adb_digest_adb vfy APK_DIGEST_SHA512 (Some b)) as [[r|md] vfy'] eqn:E.
  - exfalso. unfold adb_digest_adb in E. change (APK_DIGEST_SHA512 =? APK_DIGEST_SHA256_160) with false in E. cbn [negb andb] in E.
    change (negb (APK_DIGEST_SHA512 =? APK_DIGEST_SHA256) && negb (APK_DIGEST_SHA512 =? APK_DIGEST_SHA512)) with false in E.
    destruct (testmask _ _); [done |]. by rewrite Hd in E.
  - destruct Hs as [Hv' [= <-]]. by exists d, vfy'.
Qed.

(** A signature made for the database by a key whose public half is trusted. *)
Definition signs (t : apk_trust) (schema : Z) (a sigb : bytes) : Prop :=
  exists k d, k ∈ trusted_key_list t /\ digest_calc APK_DIGEST_SHA512 a = Some d /\
    take 18 sigb = [0; APK_DIGEST_SHA512] ++ key_id k /\ length (key_id k) = 16%nat /\
    pk_verify (key_priv k) (adb_digest_v0_signature schema (take 18 sigb) (take 64 d)) (drop 18 sigb) = true.

Lemma verify_keys_complete k keys vfy a schema sigb d : vfy_ok (Some a) vfy -> k ∈ keys ->
  digest_calc APK_DIGEST_SHA512 a = Some d -> nth 1 sigb 0 = APK_DIGEST_SHA512 -> take 16 (drop 2 sigb) = key_id k ->
  pk_verify (key_priv k) (adb_digest_v0_signature schema (take SIGN_V0_SIZE sigb) (take 64 d)) (drop SIGN_V0_SIZE sigb) = true ->
  exists vfy', verify_keys keys vfy (Some a) schema sigb = (0, vfy') /\ vfy_ok (Some a) vfy'.
Proof.
  intros Hv Hk Hd Halg Hid Hpk. revert vfy Hv. induction keys as [|k0 keys IH]; intros vfy Hv; [by apply not_elem_of_nil in Hk |].
  cbn [verify_keys]. destruct (digest_sha512 vfy a Hv) as (d' & vfy' & Hd' & Hda & Hv'). rewrite Hd in Hd'. injection Hd' as <-.
  rewrite Halg, Hda. apply elem_of_cons in Hk as [<-|Hk].
  - rewrite bool_decide_true by done. cbn [negb]. rewrite Hpk. cbn [negb]. by exists vfy'.
  - case_if; [by apply IH |]. case_if; [by apply IH | by exists vfy'].
Qed.

Lemma signs_verified t schema a sigb vfy : signs t schema a sigb -> vfy_ok (Some a) vfy ->
  exists vfy', adb_trust_verify_signature (Some t) (Some a) schema vfy sigb = Ok (0, vfy') /\ vfy_ok (Some a) vfy'.
Proof.
  intros (k & d & Hk & Hd & Hhead & Hid & Hpk) Hv.
  assert (18 <= length sigb)%nat as Hl.
  { apply (f_equal length) in Hhead. rewrite length_take, length_app, Hid in Hhead. cbn [length Nat.add] in Hhead. lia. }
  destruct sigb as [|x [|y sigb]]; [simpl in Hl; lia.. |]. cbn [adb_trust_verify_signature].
  cbn [take app] in Hhead. injection Hhead as -> -> Hhead.
  rewrite (proj2 (Nat.ltb_ge _ SIGN_HDR_SIZE)) by (unfold SIGN_HDR_SIZE; cbn [length] in *; lia). cbn [nth negb Z.eqb].
  rewrite (proj2 (Nat.ltb_ge _ SIGN_V0_SIZE)) by (unfold SIGN_V0_SIZE; cbn [length] in *; lia).
  destruct (verify_keys_complete k (trusted_key_list t) vfy a schema (0 :: APK_DIGEST_SHA512 :: sigb) d) as (vfy' & -> & Hv'); try done.
  by exists vfy'.
Qed.

(** The blocks that signing adds. *)
Lemma sign_keys_out keys os schema md r os' : sign_keys keys os schema md = (r, os') -> os_rc os = 0 -> os_rc os' = 0 ->
  exists sigs, os_out os' = os_out os ++ concat (block_image ADB_BLOCK_SIG <$> sigs) /\
    Forall2 (fun k sig => exists s, sig = ([0; APK_DIGEST_SHA512] ++ take 16 (key_id k)) ++ s /\
      pk_sign (key_priv k) (adb_digest_v0_signature schema ([0; APK_DIGEST_SHA512] ++ take 16 (key_id k)) md) = Some s /\
      Z.of_nat (18 + length s) <= ADB_MAX_SIGNATURE_LEN) keys sigs.
Proof.
  revert os. induction keys as [|k keys IH]; intros os Heq Hrc Hrc'; cbn [sign_keys] in Heq.
  - injection Heq as <- <-. exists []. split; [by rewrite app_nil_r | constructor].
  - destruct (pk_sign _ _) as [s|] eqn:Es; [| injection Heq as <- <-; simpl in Hrc'; by rewrite Hrc in Hrc'].
    destruct (Z.ltb_spec ADB_MAX_SIGNATURE_LEN (Z.of_nat (SIGN_V0_SIZE + length s))); [injection Heq as <- <-; simpl in Hrc'; by rewrite Hrc in Hrc' |].
    rewrite c_block_out in Heq. apply IH in Heq as (sigs & Hout & Hsigs); [| done | done]. cbn [os_out] in Hout.
    eexists (_ :: sigs). split.
    + rewrite Hout, fmap_cons, concat_cons, app_assoc. done.
    + constructor; [| exact Hsigs]. exists s. split_and!; try done.
Qed.

(** The parser on blocks that were written, with a callback that accepts everything. *)
Context {S : Type} (cb : blob -> Z -> bytes -> S -> Z * S) (Hcb : forall a type b s, fst (cb a type b s) = 0).

Lemma parse_loop_image fuel t schema type val rest r st st' : 0 <= type < 3 -> Z.of_nat (length val) < 2 ^ 62 ->
  parse_block t schema type val st = Ok (Go st') ->
  exists c, parse_loop cb (Datatypes.S fuel) t schema (block_image type val ++ rest) r st =
    parse_loop cb fuel t schema rest 0 (mk_ps (ps_adb st') (ps_trusted st') (ps_allowed st') (ps_vfy st') (ps_ectx st') c).
Proof.
  intros Ht Hl Hp. destruct (block_image_read type val rest Ht Hl) as (H1 & H2 & H3 & H4). cbn [parse_loop].
  rewrite H1, H3, H2, Hp. pose proof (Hcb (ps_adb st') type val (ps_cb st')) as Hc.
  destruct (cb (ps_adb st') type val (ps_cb st')) as [r' c]. cbn [fst] in Hc. subst r'. exists c. cbn [Z.ltb Z.compare]. by rewrite H4.
Qed.

Lemma parse_sigs fuel t schema a sigs st : (length sigs <= fuel)%nat -> Forall (fun s => Z.of_nat (length s) < 2 ^ 62) sigs ->
  ps_adb st = Some a -> vfy_ok (Some a) (ps_vfy st) -> testmask (BIT ADB_BLOCK_SIG) (ps_allowed st) = true ->
  exists st', parse_loop cb fuel (Some t) schema (concat (block_image ADB_BLOCK_SIG <$> sigs)) 0 st = Some (Ok (mk_pe 0 BlockEnd st')) /\
    ps_adb st' = Some a /\ (ps_trusted st = true \/ Exists (signs t schema a) sigs -> ps_trusted st' = true).
Proof.
  intros Hf Hl. revert fuel Hf st. induction Hl as [|sig sigs Hsig Hsigs IH]; intros fuel Hf st Ha Hv Hal.
  - exists st. split; [by destruct fuel |]. split; [done |]. intros [Ht|He]; [done | inversion He].
  - destruct fuel as [|fuel]; [simpl in Hf; lia |]. rewrite fmap_cons, concat_cons.
    assert (exists st1, parse_block (Some t) schema ADB_BLOCK_SIG sig st = Ok (Go st1) /\ ps_adb st1 = Some a /\
      vfy_ok (Some a) (ps_vfy st1) /\ ps_allowed st1 = ps_allowed st /\
      (ps_trusted st = true \/ signs t schema a sig -> ps_trusted st1 = true)) as (st1 & Hp & H1 & H2 & H3 & H4).
    { unfold parse_block. rewrite Hal. cbn [ADB_BLOCK_MAX Z.leb]. cbn [orb negb]. change (ADB_BLOCK_SIG =? ADB_BLOCK_ADB) with false.
      change (ADB_BLOCK_SIG =? ADB_BLOCK_SIG) with true. change (4 <=? ADB_BLOCK_SIG) with false. cbn [orb].
      destruct (ps_trusted st) eqn:Et; [by exists st |]. rewrite Ha.
      destruct (adb_trust_verify_signature (Some t) (Some a) schema (ps_vfy st) sig) as [[r vfy']|] eqn:Ev.
      - cbn [obind]. eexists. split; [done |]. cbn [ps_adb ps_vfy ps_allowed ps_trusted].
        destruct (verify_signature_spec _ _ _ _ _ _ _ Hv Ev) as [Hv' _]. split_and!; try done. intros [?|Hs]; [done |].
        destruct (signs_verified t schema a sig (ps_vfy st) Hs Hv) as (vfy2 & Hv2 & _). rewrite Hv2 in Ev. by injection Ev as <- <-.
      - cbn [adb_trust_verify_signature] in Ev. by repeat case_match. }
    destruct (parse_loop_image fuel (Some t) schema ADB_BLOCK_SIG sig (concat (block_image ADB_BLOCK_SIG <$> sigs)) 0 st st1) as [c ->];
      [unfold ADB_BLOCK_SIG; lia | done | done |].
    destruct (IH fuel ltac:(simpl in Hf; lia) (mk_ps (ps_adb st1) (ps_trusted st1) (ps_allowed st1) (ps_vfy st1) (ps_ectx st1) c)) as (st' & -> & Ha' & Ht');
      [done | done | cbn [ps_allowed]; by rewrite H3 |].
    exists st'. split; [done |]. split; [done |]. cbn [ps_trusted] in Ht'. intros [Ht|He]; [apply Ht'; left; auto |].
    apply Exists_cons in He as [He|He]; [apply Ht'; left; auto | apply Ht'; by right].
Qed.

Lemma not_implied x : 0 <= x < 2 ^ 31 -> testmask x ADB_SCHEMA_IMPLIED = false.
Proof.
  intros Hx. unfold testmask. apply negb_false_iff, Z.eqb_eq. apply Z.bits_inj'. intros n Hn.
  rewrite Z.land_spec, Z.bits_0. change ADB_SCHEMA_IMPLIED with (2 ^ 31).
  destruct (Z.eq_dec n 31) as [->|]; [| by rewrite Z.pow2_bits_false, andb_false_r by lia].
  destruct (Z.eq_dec x 0) as [->|]; [done |]. rewrite Z.bits_above_log2; [done | lia | apply Z.log2_lt_pow2; lia].
Qed.

(** The first block of a file. *)
Lemma parse_first t schema a (c : S) : (8 <= length a)%nat -> nth 0 a 0 = 0 ->
  parse_block t schema ADB_BLOCK_ADB a (parse_init t None c) =
  Ok (Go (mk_ps (Some a) (ps_trusted (parse_init t None c)) (Z.lor (BIT ADB_BLOCK_SIG) (BIT ADB_BLOCK_DATA)) vfy_zero None c)).
Proof.
  intros Hl Hv. unfold parse_block, parse_init. cbn [ps_allowed ps_adb ps_trusted ps_vfy ps_ectx ps_cb].
  change ((ADB_BLOCK_MAX <=? ADB_BLOCK_ADB) || negb (testmask (BIT ADB_BLOCK_ADB) (BIT ADB_BLOCK_ADB))) with false.
  change (ADB_BLOCK_ADB =? ADB_BLOCK_ADB) with true. cbn iota.
  rewrite (proj2 (Z.ltb_ge _ _)) by (unfold ADB_HDR_SIZE; lia). rewrite Hv. cbn [negb Z.eqb __adb_handle_identity].
  cbn [Z.ltb Z.compare]. by rewrite orb_false_r.
Qed.

Lemma length_block_image type val : 0 <= type < 3 -> Z.of_nat (length val) < 2 ^ 62 -> (1 <= length (block_image type val))%nat.
Proof.
  intros Ht Hl. destruct (block_init_spec type (Z.of_nat (length val)) Ht) as (_ & _ & _ & _ & _ & H6 & H7); [lia |].
  unfold block_image. rewrite length_app. lia.
Qed.

Lemma length_images sigs : Forall (fun s => Z.of_nat (length s) < 2 ^ 62) sigs ->
  (length sigs <= length (concat (block_image ADB_BLOCK_SIG <$> sigs)))%nat.
Proof.
  induction 1 as [|s sigs Hs _ IH]; [done |]. rewrite fmap_cons, concat_cons, length_app. cbn [length].
  pose proof (length_block_image ADB_BLOCK_SIG s). unfold ADB_BLOCK_SIG in *. lia.
Qed.

(** The file that [adb_c_adb] writes. *)
Definition adb_file (schema : Z) (a : bytes) (sigs : list bytes) : bytes :=
  (le_bytes 4 ADB_FORMAT_MAGIC ++ le_bytes 4 schema) ++
  block_image ADB_BLOCK_ADB a ++ concat (block_image ADB_BLOCK_SIG <$> sigs).

Lemma c_adb_out db a tw tr k k' os :
  adb_schema db <> 0 -> adb_adb db = Some a -> k ∈ private_key_list tw -> k' ∈ trusted_key_list tr -> key_id k' = key_id k ->
  length (key_id k) = 16%nat -> key_priv k' = pub (key_priv k) -> adb_c_adb (mk_os 0 []) db tw = (0, os) ->
  exists sigs, os_out os = adb_file (adb_schema db) a sigs /\ Forall (fun s => Z.of_nat (length s) < 2 ^ 62) sigs /\
    Exists (signs tr (adb_schema db) a) sigs.
Proof.
  intros Hsch Ha Hk Hk' Hid Hid16 Hpub Hc. unfold adb_c_adb in Hc. rewrite (proj2 (Z.eqb_neq _ _)) in Hc by lia.
  destruct (adb_trust_write_signatures _ _ _ _) as [rs os'] eqn:Es. cbn [snd] in Hc. injection Hc as Hrc <-.
  unfold adb_trust_write_signatures in Es. cbn [default from_option id] in Es. rewrite Ha in Es.
  destruct (digest_sha512 vfy_zero a (vfy_zero_ok _)) as (d & vfy' & Hd & Hda & _). rewrite Hda in Es.
  rewrite c_block_out in Es. apply sign_keys_out in Es as (sigs & Hout & Hsigs); [| done | done].
  exists sigs. split_and!.
  - rewrite Hout. unfold adb_file. cbn [os_out adb_c_header apk_ostream_write app]. unfold adb_data. rewrite Ha.
    cbn [bdata default from_option id]. by rewrite <- !app_assoc.
  - apply Forall_forall. intros s Hs. apply list_elem_of_lookup in Hs as [i Hi].
    destruct (Forall2_lookup_r _ _ _ _ _ Hsigs Hi) as (k0 & _ & s0 & -> & _ & Hmax). unfold ADB_MAX_SIGNATURE_LEN in Hmax.
    rewrite !length_app, length_take. cbn [length]. lia.
  - apply list_elem_of_lookup in Hk as [i Hi]. destruct (Forall2_lookup_l _ _ _ _ _ Hsigs Hi) as (sig & Hsi & s & -> & Hsign & _).
    apply Exists_exists. eexists. split; [by eapply list_elem_of_lookup_2 |]. rewrite (take_ge (key_id k)) in * by lia.
    exists k', d. rewrite take_app_length' by (rewrite length_app, Hid16; done). rewrite drop_app_length' by (rewrite length_app, Hid16; done).
    split_and!; [done | done | by rewrite Hid | by rewrite Hid | rewrite Hpub; by apply sign_verifies].
Qed.

(** The header of a file. *)
Lemma mmap_header schema a sigs expected t ectx (c : S) : 0 < schema < 2 ^ 31 -> expected = ADB_SCHEMA_ANY \/ expected = schema ->
  __adb_m_mmap cb (adb_file schema a sigs) expected t ectx c =
  (r ← __adb_m_parse cb schema (block_image ADB_BLOCK_ADB a ++ concat (block_image ADB_BLOCK_SIG <$> sigs)) t ectx c;
   Some (let! (r, adb, st) := r in Ok (if r =? 0 then (0, schema, adb, Some st) else (r, 0, None, Some st)))).
Proof.
  intros Hsch Hexp. unfold __adb_m_mmap, adb_file. set (rest := block_image ADB_BLOCK_ADB a ++ _).
  rewrite not_implied by (destruct Hexp as [-> | ->]; [done | lia]).
  rewrite (proj2 (Z.ltb_ge _ _)) by (rewrite !length_app, !length_le_bytes; lia).
  assert (load 4 ((le_bytes 4 ADB_FORMAT_MAGIC ++ le_bytes 4 schema) ++ rest) 0 = Ok ADB_FORMAT_MAGIC) as ->.
  { rewrite <- app_assoc, load_app_l by (try apply length_le_bytes; lia). by rewrite le_value_bytes. }
  assert (fetch ((le_bytes 4 ADB_FORMAT_MAGIC ++ le_bytes 4 schema) ++ rest) 4 4 = Ok (le_bytes 4 schema)) as Hf.
  { by rewrite fetch_Ok by (rewrite ?length_app, ?length_le_bytes; lia). }
  rewrite (load_fetch _ _ _ _ Hf), le_value_bytes by lia.
  change (negb (ADB_FORMAT_MAGIC =? ADB_FORMAT_MAGIC)) with false. cbn iota.
  assert (negb (expected =? 0) && negb (expected =? schema) = false) as ->.
  { destruct Hexp as [-> | ->]; [done |]. by rewrite Z.eqb_refl, andb_false_r. }
  by rewrite drop_app_length' by (rewrite length_app, !length_le_bytes; done).
Qed.

(** C13: A database that is written as a file and signed with a key is read back, with
    its schema and all its bytes, by everyone who trusts the public half of that key. *)
Theorem adb_signed_roundtrip db a tw tr k k' expected os c :
  0 < adb_schema db < 2 ^ 31 -> expected = ADB_SCHEMA_ANY \/ expected = adb_schema db ->
  adb_adb db = Some a -> (8 <= length a)%nat -> Z.of_nat (length a) < 2 ^ 62 -> nth 0 a 0 = 0 ->
  k ∈ private_key_list tw -> k' ∈ trusted_key_list tr -> key_id k' = key_id k -> length (key_id k) = 16%nat ->
  key_priv k' = pub (key_priv k) -> adb_c_adb (mk_os 0 []) db tw = (0, os) ->
  exists st, __adb_m_mmap cb (os_out os) expected (Some tr) None c = Some (Ok (0, adb_schema db, Some a, Some st)).
Proof.
  intros Hsch Hexp Ha Hl8 Hl62 Hver Hk Hk' Hid Hid16 Hpub Hc.
  destruct (c_adb_out db a tw tr k k' os) as (sigs & -> & Hsl & Hex); try done; [lia |].
  rewrite mmap_header by done. unfold __adb_m_parse. set (rest := block_image ADB_BLOCK_ADB a ++ _). unfold rest at 2.
  destruct (parse_loop_image (length rest) (Some tr) (adb_schema db) ADB_BLOCK_ADB a (concat (block_image ADB_BLOCK_SIG <$> sigs)) 0
    (parse_init (Some tr) None c) _ ltac:(done) Hl62 (parse_first (Some tr) (adb_schema db) a c Hl8 Hver)) as [c' ->].
  destruct (parse_sigs (length rest) tr (adb_schema db) a sigs (mk_ps (Some a) (allow_untrusted tr) (Z.lor (BIT ADB_BLOCK_SIG) (BIT ADB_BLOCK_DATA)) vfy_zero None c'))
    as (st' & He & Ha' & Ht'); [| done | done | apply vfy_zero_ok | done |].
  - unfold rest. rewrite length_app. pose proof (length_images sigs Hsl). lia.
  - cbn [ps_adb ps_trusted ps_allowed ps_vfy ps_ectx parse_init]. rewrite He. cbn [mbind option_bind obind]. unfold parse_finish.
    cbn [pe_r pe_blk pe_state Z.ltb Z.compare Z.eqb]. rewrite Ha', Ht' by (by right). cbn [negb]. by exists st'.
Qed.
End signed.

(** ** A block size that wraps around *)

(** The check of a block rounds its size up in 64 bits: an extended block of 2^64 - 7
    bytes or more has the rounded size 0 and is accepted, although its payload is far outside
    the data.  The loop over the blocks does not get past it. *)
Theorem adb_block_size_wraps type x rest :
  0 <= type < 2 ^ 30 -> 2 ^ 64 - 7 <= x < 2 ^ 64 -> Z.of_nat (length rest) < 2 ^ 62 ->
  let blk := mk_block (3 * 2 ^ 30 + type) x in
  let data := block_bytes blk ++ rest in
  adb_block_validate data = Ok (BlockAt blk) /\ adb_block_blob blk data = Fault /\
  adb_block_next blk data = Ok (BlockAt blk).
Proof.
  intros Ht Hx Hl blk data. assert (adb_block_is_ext blk = true) as He.
  { unfold adb_block_is_ext, blk, ADB_BLOCK_EXT. cbn [type_size]. rewrite shiftr_30, Z.div_add_l, Z.div_small by lia. done. }
  assert (adb_block_rawsize blk = x) as Hr by (unfold adb_block_rawsize; by rewrite He).
  assert (adb_block_hdrsize blk = 16) as Hh by (unfold adb_block_hdrsize; by rewrite He).
  assert (adb_block_size blk = 0) as Hz.
  { unfold adb_block_size, ROUND_UP, ADB_BLOCK_ALIGNMENT, u64. rewrite Hr.
    replace (x + 8 - 1) with (x + 7 - 2 ^ 64 + 1 * 2 ^ 64) by lia. rewrite Z.mod_add, Z.mod_small by lia.
    change (8 - 1) with (Z.ones 3). rewrite <- Z.ldiff_land, Z.ldiff_ones_r, Z.shiftr_div_pow2, Z.div_small by lia. done. }
  assert (length (block_bytes blk) = 16%nat) as Hb.
  { unfold block_bytes. rewrite He, !length_app, !length_le_bytes. done. }
  assert (adb_block_validate data = Ok (BlockAt blk)) as Hv.
  { apply validate_header; [unfold blk; cbn; lia | unfold blk; cbn; lia | congruence | lia | lia | rewrite Hz; lia]. }
  split; [done |]. split.
  - unfold adb_block_blob, adb_block_length, u64. rewrite Hr, Hh, Z.mod_small by lia. unfold fetch.
    assert ((16 + (x - 16) <=? Z.of_nat (length data)) = false) as ->; [| by rewrite andb_false_r].
    apply Z.leb_gt. unfold data. rewrite length_app. lia.
  - unfold adb_block_next. by rewrite Hz.
Qed.

Lemma adb_block_size_wraps_witness :
  let blk := mk_block (3 * 2 ^ 30 + ADB_BLOCK_DATA) (2 ^ 64 - 1) in
  adb_block_validate (block_bytes blk ++ []) = Ok (BlockAt blk) /\ adb_block_blob blk (block_bytes blk ++ []) = Fault /\
  adb_block_next blk (block_bytes blk ++ []) = Ok (BlockAt blk).
Proof. apply (adb_block_size_wraps ADB_BLOCK_DATA (2 ^ 64 - 1) []); [unfold ADB_BLOCK_DATA; lia | lia | simpl; lia]. Defined.

(** ** A small backend *)

Definition sum_bytes (b : bytes) : Z := foldr (fun x n => (x + n) mod 256) 0 b.

#[local] Instance toy_crypto : Crypto := {
  pkey := Z;
  digest_calc alg b := Some (replicate (apk_digest_alg_len alg) (sum_bytes b));
  pk_sign k m := Some [k; sum_bytes m];
  pk_verify k m s := bool_decide (s = [k; sum_bytes m]);
}.

#[local] Instance toy_laws : CryptoLaws (id : pkey -> pkey).
Proof.
  split.
  - intros b. by eexists.
  - intros k m s [= <-]. simpl. by apply bool_decide_true.
Qed.

Definition ex_key : apk_pkey := mk_pkey _ (replicate 16 7) 42.
Definition ex_trust : apk_trust := mk_trust _ [ex_key] [ex_key] false.
Definition ex_db : adb := mk_adb (Some ([0; 0; 0; 0; 1; 2; 3; 4] ++ lit "payload")) 0x676b6370 1 0 0 [[]].
Definition ex_file : bytes := os_out (snd (adb_c_adb (mk_os 0 []) ex_db ex_trust)).

Lemma adb_signed_roundtrip_witness :
  exists st, __adb_m_mmap __adb_dummy_cb ex_file ADB_SCHEMA_ANY (Some ex_trust) None tt =
    Some (Ok (0, 0x676b6370, Some ([0; 0; 0; 0; 1; 2; 3; 4] ++ lit "payload"), Some st)).
Proof.
  apply (adb_signed_roundtrip id __adb_dummy_cb (fun _ _ _ _ => eq_refl) ex_db _ ex_trust ex_trust ex_key ex_key ADB_SCHEMA_ANY
    (snd (adb_c_adb (mk_os 0 []) ex_db ex_trust)) tt).
  - vm_compute. split; reflexivity.
  - by left.
  - reflexivity.
  - vm_compute. lia.
  - vm_compute. reflexivity.
  - reflexivity.
  - left.
  - left.
  - reflexivity.
  - reflexivity.
  - reflexivity.
  - vm_compute. reflexivity.
Defined.

Lemma adb_parse_trusted_witness :
  match __adb_m_parse (log_cb (fun _ _ => 0)) 0x676b6370 (drop 8 ex_file) (Some ex_trust) None [] with
  | None => False
  | Some Fault => parse_hazard (drop 8 ex_file) (Some ex_trust)
  | Some (Ok (r, adb, st)) =>
      (r = 0 -> exists a, adb = Some a /\ block_in (drop 8 ex_file) ADB_BLOCK_ADB a /\
         trusted_by (drop 8 ex_file) (Some ex_trust) None 0x676b6370 (Some a)) /\
      (r <> 0 -> adb = None) /\
      (forall a b, (a, ADB_BLOCK_DATA, b) ∈ ps_cb st -> trusted_by (drop 8 ex_file) (Some ex_trust) None 0x676b6370 a)
  end.
Proof.
  apply (adb_parse_trusted (fun _ _ => 0) (drop 8 ex_file) (Some ex_trust) None 0x676b6370).
  - let l := eval vm_compute in (drop 8 ex_file) in change (drop 8 ex_file) with l. bytes_ok.
  - vm_compute. reflexivity.
Defined.
