(* ===== verification/AdbSchema.v ===== *)
(** * ADB schemas (adb.c, the operations that follow a schema)

    A schema says what the words of an object or array are.  This file models the types of
    adb.h, the comparison of objects in its three modes, the binary search in sorted arrays,
    sorting before an array is written, and parsing from text.

    The functions of a schema take the object and its database apart; the hooks that run before
    an object is written are the two the schemas use.  A comparison is [Fault] where it reads a
    truncated blob or fails an assertion. *)

From S2P Require Import Prelude Blob BlobCodec Digest Package Catalog Adb AdbBlock.

Definition ADB_KIND_ADB : Z := 1.
Definition ADB_KIND_OBJECT : Z := 2.
Definition ADB_KIND_ARRAY : Z := 3.
Definition ADB_KIND_BLOB : Z := 4.
Definition ADB_KIND_NUMERIC : Z := 5.

Definition ADB_OBJCMP_EXACT : Z := 0.
Definition ADB_OBJCMP_TEMPLATE : Z := 1.
Definition ADB_OBJCMP_INDEX : Z := 2.

Definition APKE_ADB_NO_FROMSTRING : Z := 1070.

(** [tostring] gets the size of the buffer and returns the blob. *)
Record adb_scalar_schema := mk_scalar {
  sc_kind : Z;
  sc_multiline : bool;
  sc_tostring : option (adb -> adb_val -> nat -> outcome blob);
  sc_fromstring : adb -> blob -> outcome (adb_val * adb);
  sc_compare : adb -> adb_val -> adb -> adb_val -> outcome Z;
}.

Inductive commit_hook := NoHook | adb_wa_sort_hook | adb_wa_sort_unique_hook.

(** The functions of an object schema: code, database and object. *)
Record adb_object_ops := mk_ops {
  oo_num_fields : nat;
  oo_num_compare : nat;
  oo_tostring : option (adb -> adb_obj -> nat -> outcome blob);
  oo_fromstring : option (adb -> adb_obj -> blob -> outcome (Z * adb * adb_obj));
  oo_pre_commit : commit_hook;
}.

Inductive schema :=
| SScalar (s : adb_scalar_schema)
| SObject (ops : adb_object_ops) (fields : list (bytes * schema))
| SArray (ops : adb_object_ops) (item : schema)
| SAdb (schema_id : Z) (s : schema).

Definition schema_kind (s : schema) : Z :=
  match s with
  | SScalar sc => sc_kind sc
  | SObject _ _ => ADB_KIND_OBJECT
  | SArray _ _ => ADB_KIND_ARRAY
  | SAdb _ _ => ADB_KIND_ADB
  end.

(** The schema of entry [i]. *)
Definition adb_ro_kind (s : schema) (i : nat) : outcome schema :=
  match s with
  | SArray _ item => Ok item
  | SAdb _ item => Ok item
  | SObject ops fields =>
      if (0 <? i)%nat && (i <? oo_num_fields ops)%nat
      then match fields !! (i - 1)%nat with Some (_, k) => Ok k | None => Fault end
      else Fault
  | SScalar _ => Fault
  end.

Definition adb_ro_obj (s : schema) (db : adb) (o : adb_obj) (i : nat) : outcome adb_obj :=
  let! k := adb_ro_kind s i in
  match k with
  | SObject _ _ | SArray _ _ => adb_ro_obj_at db o i
  | _ => Fault
  end.

(** ** Comparing *)

(** One round of the loop of [adb_ro_cmpobj] at entry [i]: [cmp] compares the entry, [next] is
    the rest of the loop. *)
Definition cmp_round (mode : Z) (num_compare i : nat) (o1 : adb_obj) (cmp : outcome Z) (next : outcome Z) : outcome Z :=
  let! v := adb_ro_val o1 i in
  let is_set := negb (v =? ADB_NULL) in
  let! r := if (mode =? ADB_OBJCMP_EXACT) || is_set then cmp else Ok 0 in
  if negb (r =? 0) then Ok r
  else if (mode =? ADB_OBJCMP_INDEX) && negb is_set then Ok 0
  else if negb (mode =? ADB_OBJCMP_EXACT) && (num_compare <=? i)%nat then Ok 0
  else next.

(** The loop over the entries of objects, with the schemas of the entries from [i] on. *)
Definition cmp_fields (cmp : schema -> nat -> outcome Z) (mode : Z) (num_compare num : nat) (o1 : adb_obj)
    : list (bytes * schema) -> nat -> outcome Z :=
  fix go (fields : list (bytes * schema)) (i : nat) : outcome Z :=
    if (num <=? i)%nat then Ok 0
    else match fields with
         | [] => Fault
         | (_, k) :: fields' => cmp_round mode num_compare i o1 (cmp k i) (go fields' (S i))
         end.

(** The loop over [n] entries of arrays. *)
Fixpoint cmp_items (cmp : nat -> outcome Z) (mode : Z) (num_compare : nat) (o1 : adb_obj) (n i : nat) : outcome Z :=
  match n with
  | O => Ok 0
  | S n' => cmp_round mode num_compare i o1 (cmp i) (cmp_items cmp mode num_compare o1 n' (S i))
  end.

(** [adb_ro_cmp] at a field is the match in the body: the comparison of a scalar, or of the
    objects the entries stand for. *)
Fixpoint adb_ro_cmpobj (s : schema) (mode : Z) (db1 : adb) (o1 : adb_obj) (db2 : adb) (o2 : adb_obj) {struct s} : outcome Z :=
  let num := Nat.max (adb_ro_num o1) (adb_ro_num o2) in
  let cmp k i :=
    match k with
    | SScalar sc =>
        let! v1 := adb_ro_val o1 i in let! v2 := adb_ro_val o2 i in sc_compare sc db1 v1 db2 v2
    | SObject _ _ | SArray _ _ =>
        let! s1 := adb_ro_obj_at db1 o1 i in let! s2 := adb_ro_obj_at db2 o2 i in adb_ro_cmpobj k mode db1 s1 db2 s2
    | SAdb _ _ => Fault
    end in
  match s with
  | SObject ops fields =>
      cmp_fields cmp mode (oo_num_compare ops) num o1 fields 1
  | SArray ops item => cmp_items (cmp item) mode (oo_num_compare ops) o1 (num - 1) 1
  | _ => Fault
  end.

(** ** Searching an array of objects *)

(** The comparison of the template with item [m] of the array. *)
Definition item_cmp (item : schema) (mode : Z) (tdb : adb) (tmpl : adb_obj) (db : adb) (arr : adb_obj) (m : nat) : outcome Z :=
  let! o := adb_ro_obj_at db arr m in adb_ro_cmpobj item mode tdb tmpl db o.

(** The loop [while (l < r)]. *)
Fixpoint ra_bsearch (fuel : nat) (cmp : nat -> outcome Z) (l r : nat) : option (outcome nat) :=
  if (l <? r)%nat then
    match fuel with
    | O => None
    | S fuel' =>
        let m := ((l + r) / 2)%nat in
        match cmp m with
        | Fault => Some Fault
        | Ok c => if c <=? 0 then ra_bsearch fuel' cmp l m else ra_bsearch fuel' cmp (m + 1) r
        end
    end
  else Some (Ok r).

(** The loop over the items from [cur] on. *)
Fixpoint ra_scan (fuel : nat) (tcmp icmp : nat -> outcome Z) (num cur : nat) : option (outcome Z) :=
  if (cur <=? num)%nat then
    match fuel with
    | O => None
    | S fuel' =>
        match tcmp cur with
        | Fault => Some Fault
        | Ok t =>
            if t =? 0 then Some (Ok (Z.of_nat cur))
            else match icmp cur with
                 | Fault => Some Fault
                 | Ok c => if negb (c =? 0) then Some (Ok (-1)) else ra_scan fuel' tcmp icmp num (S cur)
                 end
        end
    end
  else Some (Ok (-1)).

Definition adb_ra_find (s : schema) (db : adb) (arr : adb_obj) (cur : nat) (tdb : adb) (tmpl : adb_obj) : option (outcome Z) :=
  match s with
  | SArray _ (SObject ops fields as item) =>
      let tcmp := item_cmp item ADB_OBJCMP_TEMPLATE tdb tmpl db arr in
      let icmp := item_cmp item ADB_OBJCMP_INDEX tdb tmpl db arr in
      let num := adb_ra_num arr in
      start ← (if (cur =? 0)%nat then ra_bsearch (num + 1) icmp 1 (num + 1) else Some (Ok (S cur)));
      match start with
      | Fault => Some Fault
      | Ok cur => ra_scan (S num) tcmp icmp num cur
      end
  | _ => Some Fault
  end.

(** ** Sorting *)

Section sorting.
Context `{Crypto}.

Definition wacmp (item : schema) (db : adb) (v1 v2 : adb_val) : outcome Z :=
  let! o1 := adb_r_obj db v1 in let! o2 := adb_r_obj db v2 in adb_ro_cmpobj item ADB_OBJCMP_EXACT db o1 db o2.

(** The database that is embedded as a blob; without a trust store. *)
Definition wadb_open (db : adb) (v : adb_val) : outcome adb :=
  let! b := adb_r_blob db v in
  match adb_m_blob (bdata b) None with
  | Some (Ok (_, a, _)) => Ok (mk_adb a 0 0 0 0 [])
  | _ => Fault
  end.

Definition wadbcmp (item : schema) (db : adb) (v1 v2 : adb_val) : outcome Z :=
  let! a1 := wadb_open db v1 in let! a2 := wadb_open db v2 in
  let! o1 := adb_r_rootobj a1 in let! o2 := adb_r_rootobj a2 in
  adb_ro_cmpobj item ADB_OBJCMP_EXACT a1 o1 a2 o2.

(** The comparison [adb_wa_sort] gives to [qsort_r]; [None] where it does not sort. *)
Definition wa_cmp (item : schema) (db : adb) : option (adb_val -> adb_val -> outcome Z) :=
  match item with
  | SScalar sc => if sc_kind sc =? ADB_KIND_BLOB then Some (fun v1 v2 => sc_compare sc db v1 db v2) else None
  | SObject _ _ => Some (wacmp item db)
  | SAdb _ s => Some (wadbcmp s db)
  | SArray _ _ => None
  end.

Definition is_ok {A} (x : outcome A) : bool := match x with Ok _ => true | Fault => false end.
Definition ok_or_zero (x : outcome Z) : Z := match x with Ok z => z | Fault => 0 end.

(** [qsort_r] with a comparison that may fault: it faults when a pair of the array does. *)
Definition qsort_r (cmp : adb_val -> adb_val -> outcome Z) (l : list adb_val) : outcome (list adb_val) :=
  if forallb (fun x => forallb (fun y => is_ok (cmp x y)) l) l
  then Ok (qsort (fun x y => ok_or_zero (cmp x y)) l) else Fault.

Definition adb_wa_sort (s : schema) (db : adb) (arr : adb_obj) : outcome adb_obj :=
  match s, o_obj arr with
  | SArray _ item, Some (max :: l) =>
      match wa_cmp item db with
      | None => Ok arr
      | Some cmp =>
          let n := adb_ra_num arr in
          let! sorted := qsort_r cmp (take n l) in
          Ok (mk_obj (Some (max :: sorted ++ drop n l)) (o_num arr) (o_dynamic arr))
      end
  | _, _ => Fault
  end.

(** The values without repetitions of the one before; the first is always kept. *)
Fixpoint dedup_from (prev : adb_val) (l : list adb_val) : list adb_val :=
  match l with
  | [] => []
  | v :: l' => if v =? prev then dedup_from v l' else v :: dedup_from v l'
  end.
Definition dedup (l : list adb_val) : list adb_val :=
  match l with
  | [] => []
  | v :: l' => v :: dedup_from v l'
  end.

(** The entries that are kept move to the front; what was behind them stays. *)
Definition adb_wa_sort_unique (s : schema) (db : adb) (arr : adb_obj) : outcome adb_obj :=
  let! arr := adb_wa_sort s db arr in
  let num := adb_ra_num arr in
  if (2 <=? num)%nat then
    match o_obj arr with
    | Some (max :: l) =>
        let kept := dedup (take num l) in
        Ok (mk_obj (Some (max :: kept ++ drop (length kept) l)) (S (length kept)) (o_dynamic arr))
    | _ => Fault
    end
  else Ok arr.

Definition schema_ops (s : schema) : option adb_object_ops :=
  match s with SObject ops _ | SArray ops _ => Some ops | _ => None end.

(** [o->schema->pre_commit(o)] *)
Definition pre_commit (s : schema) (db : adb) (o : adb_obj) : outcome adb_obj :=
  match oo_pre_commit <$> schema_ops s with
  | Some adb_wa_sort_hook => adb_wa_sort s db o
  | Some adb_wa_sort_unique_hook => adb_wa_sort_unique s db o
  | _ => Ok o
  end.

Definition adb_w_obj (s : schema) (db : adb) (o : adb_obj) : outcome (adb_val * adb * adb_obj) :=
  let! o := pre_commit s db o in __adb_w_obj db o ADB_TYPE_OBJECT.
Definition adb_w_arr (s : schema) (db : adb) (o : adb_obj) : outcome (adb_val * adb * adb_obj) :=
  let! o := pre_commit s db o in __adb_w_obj db o ADB_TYPE_ARRAY.

Definition adb_w_rootobj (s : schema) (db : adb) (o : adb_obj) : outcome (adb * adb_obj) :=
  let! (v, db, o) := adb_w_obj s db o in let! db := adb_w_root db v in Ok (db, o).

(** Fields that are objects or arrays; [so] is the schema of the field. *)
Definition adb_wo_obj (db : adb) (o : adb_obj) (i : nat) (so : schema) (no : adb_obj) : outcome (adb_val * adb * adb_obj * adb_obj) :=
  let! (v, db, no) := adb_w_obj so db no in let! (v, o) := adb_wo_val o i v in Ok (v, db, o, no).
Definition adb_wo_arr (db : adb) (o : adb_obj) (i : nat) (so : schema) (no : adb_obj) : outcome (adb_val * adb * adb_obj * adb_obj) :=
  let! (v, db, no) := adb_w_arr so db no in let! (v, o) := adb_wo_val o i v in Ok (v, db, o, no).
Definition adb_wa_append_obj (db : adb) (o : adb_obj) (so : schema) (no : adb_obj) : outcome (adb_val * adb * adb_obj * adb_obj) :=
  let! (v, db, no) := adb_w_obj so db no in let! (v, o) := adb_wa_append o v in Ok (v, db, o, no).

(** ** Values from text *)

Definition adb_w_fromstring (db : adb) (k : schema) (val : blob) : outcome (adb_val * adb) :=
  match k with
  | SScalar sc => sc_fromstring sc db val
  | SObject ops _ | SArray ops _ =>
      match oo_fromstring ops with
      | None => Ok (ADB_ERROR APKE_ADB_NO_FROMSTRING, db)
      | Some f =>
          let! (r, db, o) := f db (adb_wo_init (oo_num_fields ops)) val in
          if negb (r =? 0) then Ok (ADB_ERROR (- r), db)
          else let! (v, db, _) := adb_w_obj k db o in Ok (v, db)
      end
  | SAdb _ _ => Ok (ADB_ERROR APKE_ADB_NO_FROMSTRING, db)
  end.

Definition adb_wo_fromstring (s : schema) (db : adb) (o : adb_obj) (val : blob) : outcome (Z * adb * adb_obj) :=
  let! o := adb_wo_reset o in
  match schema_ops s with
  | Some ops => match oo_fromstring ops with Some f => f db o val | None => Fault end
  | None => Fault
  end.

(** Unlike [adb_wo_val], an error value is stored. *)
Definition adb_wo_val_fromstring (s : schema) (db : adb) (o : adb_obj) (i : nat) (val : blob) : outcome (adb_val * adb * adb_obj) :=
  let! max := obj_max o in
  if max <=? Z.of_nat i then adb_w_error E2BIG
  else
    let num := if (o_num o <=? i)%nat then S i else o_num o in
    let! k := adb_ro_kind s i in
    let! (v, db) := adb_w_fromstring db k val in
    match o_obj o with
    | Some p => if (i <? length p)%nat then Ok (v, db, mk_obj (Some (<[i := v]> p)) num (o_dynamic o)) else Fault
    | None => Fault
    end.

Definition adb_wa_append_fromstring (item : schema) (db : adb) (o : adb_obj) (b : blob) : outcome (adb_val * adb * adb_obj) :=
  let! (v, db) := adb_w_fromstring db item b in let! (v, o) := adb_wa_append o v in Ok (v, db, o).

(** The fields from [i] on, copied one by one. *)
Fixpoint copy_fields (fuel n i : nat) (srcdb db : adb) (src o : adb_obj) : option (outcome (adb * adb_obj)) :=
  match n with
  | O => Some (Ok (db, o))
  | S n' =>
      match adb_ro_val src i with
      | Fault => Some Fault
      | Ok v =>
          r ← adb_w_copy fuel srcdb db v;
          match r with
          | Fault => Some Fault
          | Ok (v', db) =>
              match adb_wo_val o i v' with
              | Fault => Some Fault
              | Ok (_, o) => copy_fields fuel n' (S i) srcdb db src o
              end
          end
      end
  end.

Definition adb_wo_copyobj (fuel : nat) (srcdb db : adb) (o src : adb_obj) : option (outcome (adb * adb_obj)) :=
  match adb_wo_reset o with
  | Fault => Some Fault
  | Ok o => copy_fields fuel (adb_ro_num src - 1) 1 srcdb db src o
  end.
End sorting.

(** ** Fields by name *)

Fixpoint field_by_name (fields : list (bytes * schema)) (name : bytes) (i : nat) : nat :=
  match fields with
  | [] => 0
  | (n, _) :: fields' => if apk_blob_compare n name =? 0 then S i else field_by_name fields' name (S i)
  end.

(** The index of a field, 0 if there is none. *)
Definition adb_s_field_by_name_blob (s : schema) (name : bytes) : nat :=
  match s with
  | SObject ops fields => field_by_name (take (oo_num_fields ops - 1) fields) name 0
  | _ => 0
  end.
Definition adb_s_field_by_name (s : schema) (name : bytes) : nat := adb_s_field_by_name_blob s (cstr_prefix name).

(** The text of a field in an output of [room] bytes. *)
Definition adb_s_field_subst (s : schema) (db : adb) (o : adb_obj) (room : nat) (var : bytes) : outcome (Z * bytes) :=
  match adb_s_field_by_name_blob s var with
  | O => Ok (- APKE_ADB_SCHEMA, [])
  | f =>
      let! v := adb_ro_val o f in
      let! k := adb_ro_kind s f in
      match k with
      | SScalar sc =>
          match sc_tostring sc with
          | None => Ok (- APKE_ADB_SCHEMA, [])
          | Some ts =>
              let! done := ts db v room in
              if (room <? length (bdata done))%nat then Ok (- APKE_BUFFER_SIZE, []) else Ok (0, bdata done)
          end
      | _ => Ok (- APKE_ADB_SCHEMA, [])
      end
  end.
