(* ===== verification/ApkAdb.v ===== *)
(** * The schemas of packages and indexes (apk_adb.c, apk_adb.h)

    The scalar types with their conversions and comparisons, the schemas of dependencies,
    packages, files, indexes and the installed database, and the mapping of index fields.  The
    functions of a schema that print get the size of their buffer. *)

From S2P Require Import Prelude Blob BlobCodec Ctype Version Digest Dep Adb AdbBlock AdbSchema.

Definition APKE_PKGNAME_FORMAT : Z := 1060.
Definition APKE_ADB_PACKAGE_FORMAT : Z := 1072.

(** [apk_blob_spn] with no outputs: a character outside the class occurs. *)
Definition spn_fails (b : bytes) (ctype : Z) : bool := fst (fst (apk_blob_spn b ctype)).

(** ** Scalars *)

Definition string_tostring (db : adb) (v : adb_val) (bufsz : nat) : outcome blob := adb_r_blob db v.
Definition string_fromstring (db : adb) (val : blob) : outcome (adb_val * adb) := adb_w_blob db (bdata val).

(** A blob without bytes to compare is not read. *)
Definition string_compare (db1 : adb) (v1 : adb_val) (db2 : adb) (v2 : adb_val) : outcome Z :=
  let! b1 := adb_r_blob_at db1 v1 in let! b2 := adb_r_blob_at db2 v2 in
  if Z.min (rb_len b1) (rb_len b2) =? 0 then Ok (rb_len b1 - rb_len b2)
  else
    let! s1 := rblob_bytes db1 b1 in let! s2 := rblob_bytes db2 b2 in
    Ok (apk_blob_sort (bdata s1) (bdata s2)).

Definition scalar_string : adb_scalar_schema :=
  mk_scalar ADB_KIND_BLOB false (Some string_tostring) string_fromstring string_compare.
Definition scalar_mstring : adb_scalar_schema :=
  mk_scalar ADB_KIND_BLOB true (Some string_tostring) string_fromstring string_compare.

(** The key and the value are separated by a NUL. *)
Definition xattr_tostring (db : adb) (v : adb_val) (bufsz : nat) : outcome blob :=
  let! b := adb_r_blob db v in
  match b with
  | None => Ok None
  | Some b =>
      match apk_blob_split b [0] with
      | None => Ok None
      | Some (k, v) =>
          let to := apk_blob_push_blob (pushbuf_new bufsz) k in
          let to := apk_blob_push_blob to (lit "=") in
          let to := apk_blob_push_hexdump to v in
          match apk_blob_pushed to with
          | Some text => Ok (Some text)
          | None =>
              Ok (apk_blob_fmt bufsz (fmt_blob k ++ lit "=(" ++ uint_text (Z.of_nat (length v)) 10 ++ lit " bytes)"))
          end
      end
  end.

Definition FROMSTRING_BUF : nat := 256.

(** Hexadecimal text as bytes, or the error. *)
Definition hex_bytes (val : bytes) : outcome (Z + bytes) :=
  if Nat.odd (length val) then Ok (inl EINVAL)
  else if (FROMSTRING_BUF <? length val / 2)%nat then Ok (inl E2BIG)
  else
    let! (val', b) := apk_blob_pull_hexdump (Some val) (replicate (length val / 2) 0) in
    Ok (if blob_is_null val' then inl EINVAL else inr b).

(** The name keeps the character after it, which is the equals sign. *)
Definition xattr_fromstring (db : adb) (val : blob) : outcome (adb_val * adb) :=
  match apk_blob_rsplit (bdata val) (chr "=") with
  | None => Ok (ADB_ERROR APKE_ADB_SCHEMA, db)
  | Some (name, hex) =>
      let! b := hex_bytes hex in
      match b with
      | inl e => Ok (ADB_ERROR e, db)
      | inr b => adb_w_blob_vec db [take (S (length name)) (bdata val); b]
      end
  end.

Definition scalar_xattr : adb_scalar_schema :=
  mk_scalar ADB_KIND_BLOB false (Some xattr_tostring) xattr_fromstring string_compare.

Definition isalnum (c : Z) : bool :=
  is_digit c || is_lower c || ((65 <=? c) && (c <=? 90)).

Definition name_fromstring (db : adb) (val : blob) : outcome (adb_val * adb) :=
  let s := bdata val in
  if (length s =? 0)%nat || negb (isalnum (nth 0 s 0)) then Ok (ADB_ERROR APKE_PKGNAME_FORMAT, db)
  else if spn_fails s APK_CTYPE_PACKAGE_NAME then Ok (ADB_ERROR APKE_PKGNAME_FORMAT, db)
  else adb_w_blob db s.

Definition scalar_name : adb_scalar_schema :=
  mk_scalar ADB_KIND_BLOB false (Some string_tostring) name_fromstring string_compare.

Definition version_fromstring (db : adb) (val : blob) : outcome (adb_val * adb) :=
  if negb (apk_version_validate val) then Ok (ADB_ERROR APKE_PKGVERSION_FORMAT, db) else adb_w_blob db (bdata val).

Definition version_compare (db1 : adb) (v1 : adb_val) (db2 : adb) (v2 : adb_val) : outcome Z :=
  let! b1 := adb_r_blob db1 v1 in let! b2 := adb_r_blob db2 v2 in
  let r := apk_version_compare b1 b2 in
  Ok (if r =? APK_VERSION_LESS then -1 else if r =? APK_VERSION_GREATER then 1 else 0).

Definition scalar_version : adb_scalar_schema :=
  mk_scalar ADB_KIND_BLOB false (Some string_tostring) version_fromstring version_compare.

Definition hexblob_tostring (db : adb) (v : adb_val) (bufsz : nat) : outcome blob :=
  let! b := adb_r_blob db v in
  match b with
  | None => Ok None
  | Some b =>
      match apk_blob_pushed (apk_blob_push_hexdump (pushbuf_new bufsz) b) with
      | Some text => Ok (Some text)
      | None => Ok (apk_blob_fmt bufsz (lit "(" ++ uint_text (Z.of_nat (length b)) 10 ++ lit " bytes)"))
      end
  end.

Definition hexblob_fromstring (db : adb) (val : blob) : outcome (adb_val * adb) :=
  let! b := hex_bytes (bdata val) in
  match b with
  | inl e => Ok (ADB_ERROR e, db)
  | inr b => adb_w_blob db b
  end.

Definition scalar_hexblob : adb_scalar_schema :=
  mk_scalar ADB_KIND_BLOB false (Some hexblob_tostring) hexblob_fromstring string_compare.

Definition int_tostring (radix : Z) (db : adb) (v : adb_val) (bufsz : nat) : outcome blob :=
  let! n := adb_r_int db v in Ok (apk_blob_fmt bufsz (uint_text n radix)).

Definition int_fromstring (radix : Z) (db : adb) (val : blob) : outcome (adb_val * adb) :=
  let '(n, val) := apk_blob_pull_uint val radix in
  if negb (length (bdata val) =? 0)%nat then Ok (ADB_ERROR EINVAL, db) else adb_w_int db n.

Definition int_compare (db1 : adb) (v1 : adb_val) (db2 : adb) (v2 : adb_val) : outcome Z :=
  let! r1 := adb_r_int db1 v1 in let! r2 := adb_r_int db2 v2 in
  Ok (if r1 <? r2 then -1 else if r2 <? r1 then 1 else 0).

Definition scalar_int : adb_scalar_schema :=
  mk_scalar ADB_KIND_NUMERIC false (Some (int_tostring 10)) (int_fromstring 10) int_compare.
Definition scalar_time : adb_scalar_schema := scalar_int.
Definition scalar_oct : adb_scalar_schema :=
  mk_scalar ADB_KIND_NUMERIC false (Some (int_tostring 8)) (int_fromstring 8) int_compare.

(** [apk_get_human_size_unit]: the unit grows in an [int]. *)
Definition size_units : list bytes := [lit "B"; lit "KiB"; lit "MiB"; lit "GiB"; lit "TiB"].
Fixpoint size_unit_loop (units : list bytes) (s : Z) (b : bytes) : Z :=
  match units with
  | [] => 1
  | u :: units' => if apk_blob_compare b u =? 0 then s else size_unit_loop units' (s32 (s * 1024)) b
  end.
Definition apk_get_human_size_unit (b : bytes) : Z := size_unit_loop size_units 1 b.

Definition hsize_fromstring (db : adb) (val : blob) : outcome (adb_val * adb) :=
  match apk_blob_split (bdata val) (lit " ") with
  | None => int_fromstring 10 db val
  | Some (l, r) =>
      let '(n, _) := apk_blob_pull_uint (Some l) 10 in
      adb_w_int db (u64 (n * apk_get_human_size_unit r))
  end.

Definition scalar_hsize : adb_scalar_schema :=
  mk_scalar ADB_KIND_NUMERIC false (Some (int_tostring 10)) hsize_fromstring int_compare.

(** ** Arrays and objects *)

Section tags.
Context `{Crypto}.

Fixpoint tags_loop (words : list bytes) (db : adb) (o : adb_obj) : outcome (Z * adb * adb_obj) :=
  match words with
  | [] => Ok (0, db, o)
  | w :: words' =>
      if spn_fails w APK_CTYPE_TAG_NAME then Ok (- APKE_ADB_PACKAGE_FORMAT, db, o)
      else let! (_, db, o) := adb_wa_append_fromstring (SScalar scalar_string) db o (Some w) in tags_loop words' db o
  end.

Definition tags_fromstring (db : adb) (o : adb_obj) (str : blob) : outcome (Z * adb * adb_obj) :=
  tags_loop (apk_blob_foreach_word str) db o.

Definition schema_tags_array : schema :=
  SArray (mk_ops 32 0 None (Some tags_fromstring) NoHook) (SScalar scalar_string).
Definition schema_string_array : schema := SArray (mk_ops 32 0 None None NoHook) (SScalar scalar_string).
Definition schema_xattr_array : schema := SArray (mk_ops 8 0 None None adb_wa_sort_hook) (SScalar scalar_xattr).

Definition ADBI_DEP_NAME : nat := 1.
Definition ADBI_DEP_VERSION : nat := 2.
Definition ADBI_DEP_MATCH : nat := 3.
Definition ADBI_DEP_MAX : nat := 4.

Definition dependency_tostring (db : adb) (o : adb_obj) (bufsz : nat) : outcome blob :=
  let! name := adb_ro_blob db o ADBI_DEP_NAME in
  let! ver := adb_ro_blob db o ADBI_DEP_VERSION in
  let! op := adb_ro_int db o ADBI_DEP_MATCH in
  let op := u32 (if op =? 0 then APK_VERSION_EQUAL else op) in
  let bang := if testmask op APK_VERSION_CONFLICT then lit "!" else [] in
  match name, ver with
  | None, _ => Ok None
  | Some name, None =>
      Ok (if testmask op APK_VERSION_CONFLICT then apk_blob_fmt bufsz (bang ++ fmt_blob name) else Some name)
  | Some name, Some ver =>
      Ok (apk_blob_fmt bufsz (bang ++ fmt_blob name ++ apk_version_op_string op ++ fmt_blob ver))
  end.

Definition dependency_fromstring (db : adb) (o : adb_obj) (bdep : blob) : outcome (Z * adb * adb_obj) :=
  match apk_dep_parse bdep with
  | None => Ok (- APKE_DEPENDENCY_FORMAT, db, o)
  | Some (bname, op, bver) =>
      if negb (Z.land op APK_DEPMASK_CHECKSUM =? APK_DEPMASK_CHECKSUM) && negb (apk_version_validate bver)
      then Ok (- APKE_DEPENDENCY_FORMAT, db, o)
      else if spn_fails bname APK_CTYPE_DEPENDENCY_NAME then Ok (- APKE_DEPENDENCY_FORMAT, db, o)
      else
        let! (_, db, o) := adb_wo_blob db o ADBI_DEP_NAME bname in
        if negb (op =? APK_DEPMASK_ANY) then
          let! (_, db, o) := adb_wo_blob db o ADBI_DEP_VERSION (bdata bver) in
          if negb (op =? APK_VERSION_EQUAL) then
            let! (_, db, o) := adb_wo_int db o ADBI_DEP_MATCH op in Ok (0, db, o)
          else Ok (0, db, o)
        else Ok (0, db, o)
  end.

Definition schema_dependency : schema :=
  SObject (mk_ops ADBI_DEP_MAX ADBI_DEP_NAME (Some dependency_tostring) (Some dependency_fromstring) NoHook)
    [(lit "name", SScalar scalar_string); (lit "version", SScalar scalar_version); (lit "match", SScalar scalar_int)].

(** [apk_dep_split]: the next dependency and the rest. *)
Definition apk_dep_split (b : bytes) : option (bytes * bytes) :=
  if (length b =? 0)%nat then None
  else
    let '(_, _, b) := apk_blob_spn b APK_CTYPE_DEPENDENCY_SEPARATOR in
    let '(_, bdep, b) := apk_blob_cspn b APK_CTYPE_DEPENDENCY_SEPARATOR in
    if (length bdep =? 0)%nat then None else Some (bdep, b).

(** [obj] is the array, [dep] the dependency that is filled again and again. *)
Fixpoint dependencies_loop (fuel : nat) (b : bytes) (db : adb) (obj dep : adb_obj) : option (outcome (Z * adb * adb_obj)) :=
  match apk_dep_split b with
  | None => Some (Ok (0, db, obj))
  | Some (bdep, b) =>
      match fuel with
      | O => None
      | S fuel' =>
          match adb_wo_fromstring schema_dependency db dep (Some bdep) with
          | Fault => Some Fault
          | Ok (r, db, dep) =>
              if negb (r =? 0) then Some (Ok (r, db, obj))
              else
                match adb_wa_append_obj db obj schema_dependency dep with
                | Fault => Some Fault
                | Ok (_, db, obj, dep) => dependencies_loop fuel' b db obj dep
                end
          end
      end
  end.

Definition dependencies_fromstring (db : adb) (o : adb_obj) (b : blob) : outcome (Z * adb * adb_obj) :=
  match dependencies_loop (S (length (bdata b))) (bdata b) db o (adb_wo_init ADBI_DEP_MAX) with
  | Some r => r
  | None => Fault   (* the fuel is enough: every round takes a character *)
  end.

Definition schema_dependency_array : schema :=
  SArray (mk_ops 32 0 None (Some dependencies_fromstring) adb_wa_sort_unique_hook) schema_dependency.

Definition ADBI_PI_NAME : nat := 0x01.
Definition ADBI_PI_VERSION : nat := 0x02.
Definition ADBI_PI_HASHES : nat := 0x03.
Definition ADBI_PI_DESCRIPTION : nat := 0x04.
Definition ADBI_PI_ARCH : nat := 0x05.
Definition ADBI_PI_LICENSE : nat := 0x06.
Definition ADBI_PI_ORIGIN : nat := 0x07.
Definition ADBI_PI_MAINTAINER : nat := 0x08.
Definition ADBI_PI_URL : nat := 0x09.
Definition ADBI_PI_REPO_COMMIT : nat := 0x0a.
Definition ADBI_PI_BUILD_TIME : nat := 0x0b.
Definition ADBI_PI_INSTALLED_SIZE : nat := 0x0c.
Definition ADBI_PI_FILE_SIZE : nat := 0x0d.
Definition ADBI_PI_PROVIDER_PRIORITY : nat := 0x0e.
Definition ADBI_PI_DEPENDS : nat := 0x0f.
Definition ADBI_PI_PROVIDES : nat := 0x10.
Definition ADBI_PI_REPLACES : nat := 0x11.
Definition ADBI_PI_INSTALL_IF : nat := 0x12.
Definition ADBI_PI_RECOMMENDS : nat := 0x13.
Definition ADBI_PI_LAYER : nat := 0x14.
Definition ADBI_PI_TAGS : nat := 0x15.
Definition ADBI_PI_MAX : nat := 0x16.

Definition schema_pkginfo : schema :=
  SObject (mk_ops ADBI_PI_MAX ADBI_PI_HASHES None None NoHook)
    [(lit "name", SScalar scalar_name); (lit "version", SScalar scalar_version); (lit "hashes", SScalar scalar_hexblob);
     (lit "description", SScalar scalar_string); (lit "arch", SScalar scalar_string); (lit "license", SScalar scalar_string);
     (lit "origin", SScalar scalar_string); (lit "maintainer", SScalar scalar_string); (lit "url", SScalar scalar_string);
     (lit "repo-commit", SScalar scalar_hexblob); (lit "build-time", SScalar scalar_time);
     (lit "installed-size", SScalar scalar_hsize); (lit "file-size", SScalar scalar_hsize);
     (lit "provider-priority", SScalar scalar_int); (lit "depends", schema_dependency_array);
     (lit "provides", schema_dependency_array); (lit "replaces", schema_dependency_array);
     (lit "install-if", schema_dependency_array); (lit "recommends", schema_dependency_array);
     (lit "layer", SScalar scalar_int); (lit "tags", schema_tags_array)].

Definition schema_pkginfo_array : schema := SArray (mk_ops 128 0 None None adb_wa_sort_hook) schema_pkginfo.

Definition schema_index : schema :=
  SObject (mk_ops 4 0 None None NoHook)
    [(lit "description", SScalar scalar_string); (lit "packages", schema_pkginfo_array); (lit "pkgname-spec", SScalar scalar_string)].

Definition schema_acl : schema :=
  SObject (mk_ops 5 0 None None NoHook)
    [(lit "mode", SScalar scalar_oct); (lit "user", SScalar scalar_string); (lit "group", SScalar scalar_string);
     (lit "xattrs", schema_xattr_array)].

Definition schema_file : schema :=
  SObject (mk_ops 7 1 None None NoHook)
    [(lit "name", SScalar scalar_string); (lit "acl", schema_acl); (lit "size", SScalar scalar_int);
     (lit "mtime", SScalar scalar_time); (lit "hash", SScalar scalar_hexblob); (lit "target", SScalar scalar_hexblob)].
Definition schema_file_array : schema := SArray (mk_ops 128 0 None None adb_wa_sort_hook) schema_file.

Definition schema_dir : schema :=
  SObject (mk_ops 4 1 None None NoHook)
    [(lit "name", SScalar scalar_string); (lit "acl", schema_acl); (lit "files", schema_file_array)].
Definition schema_dir_array : schema := SArray (mk_ops 128 0 None None adb_wa_sort_hook) schema_dir.

Definition schema_scripts : schema :=
  SObject (mk_ops 8 0 None None NoHook)
    [(lit "trigger", SScalar scalar_mstring); (lit "pre-install", SScalar scalar_mstring);
     (lit "post-install", SScalar scalar_mstring); (lit "pre-deinstall", SScalar scalar_mstring);
     (lit "post-deinstall", SScalar scalar_mstring); (lit "pre-upgrade", SScalar scalar_mstring);
     (lit "post-upgrade", SScalar scalar_mstring)].

Definition schema_package : schema :=
  SObject (mk_ops 6 1 None None NoHook)
    [(lit "info", schema_pkginfo); (lit "paths", schema_dir_array); (lit "scripts", schema_scripts);
     (lit "triggers", schema_string_array); (lit "replaces-priority", SScalar scalar_int)].

Definition ADB_SCHEMA_INDEX : Z := 0x78646e69.
Definition ADB_SCHEMA_PACKAGE : Z := 0x676b6370.
Definition ADB_SCHEMA_INSTALLED_DB : Z := 0x00626469.

Definition schema_package_adb : schema := SAdb ADB_SCHEMA_PACKAGE schema_package.
Definition schema_package_adb_array : schema := SArray (mk_ops 128 0 None None adb_wa_sort_hook) schema_package_adb.
Definition schema_idb : schema := SObject (mk_ops 2 0 None None NoHook) [(lit "packages", schema_package_adb_array)].

Definition adb_all_schemas : list (Z * schema) :=
  [(ADB_SCHEMA_INDEX, schema_index); (ADB_SCHEMA_INSTALLED_DB, schema_idb); (ADB_SCHEMA_PACKAGE, schema_package)].

(** ** Fields of an index entry *)

(** [MAP]: the letter of the text format and the field. *)
Definition pkg_field_map : list (Z * nat) := [
  (chr "C", ADBI_PI_HASHES); (chr "P", ADBI_PI_NAME); (chr "V", ADBI_PI_VERSION); (chr "T", ADBI_PI_DESCRIPTION);
  (chr "U", ADBI_PI_URL); (chr "I", ADBI_PI_INSTALLED_SIZE); (chr "S", ADBI_PI_FILE_SIZE); (chr "L", ADBI_PI_LICENSE);
  (chr "A", ADBI_PI_ARCH); (chr "D", ADBI_PI_DEPENDS); (chr "i", ADBI_PI_INSTALL_IF); (chr "p", ADBI_PI_PROVIDES);
  (chr "k", ADBI_PI_PROVIDER_PRIORITY); (chr "o", ADBI_PI_ORIGIN); (chr "m", ADBI_PI_MAINTAINER);
  (chr "t", ADBI_PI_BUILD_TIME); (chr "c", ADBI_PI_REPO_COMMIT); (chr "g", ADBI_PI_TAGS); (chr "r", ADBI_PI_REPLACES)].

Definition adb_pkg_field_index (f : Z) : nat :=
  match list_find (fun x => x.1 = f) pkg_field_map with Some (_, (_, i)) => i | None => 0 end.

Definition adb_wo_pkginfo (db : adb) (o : adb_obj) (f : nat) (val : blob) : outcome (adb_val * adb * adb_obj) :=
  let error := ADB_ERROR APKE_ADB_PACKAGE_FORMAT in
  let set v (db : adb) :=
    if negb (v =? ADB_NULL) && negb (ADB_IS_ERROR v)
    then let! (v, o) := adb_wo_val o f v in Ok (v, db, o) else Ok (v, db, o) in
  if (f =? ADBI_PI_HASHES)%nat then
    if blob_is_null val || (length (bdata val) <? 4)%nat then Ok (error, db, o)
    else
      let! (_, d) := apk_blob_pull_digest val (mk_digest 0 0 (replicate APK_DIGEST_LENGTH_MAX 0)) in
      let! (v, db) := adb_w_blob db (digest_blob d) in set v db
  else if (f =? ADBI_PI_REPO_COMMIT)%nat then
    if (length (bdata val) <? 40)%nat then Ok (error, db, o)
    else
      let! (val, buf) := apk_blob_pull_hexdump val (replicate 20 0) in
      if blob_is_null val then Ok (error, db, o)
      else let! (v, db) := adb_w_blob db buf in set v db
  else adb_wo_val_fromstring schema_pkginfo db o f val.
End tags.
