(* ===== verification/ApkAdbFacts.v ===== *)
(** * Schemas: text round trips and comparisons

    A dependency that is parsed into a database is printed from it unchanged; extended
    attributes are not, and embedded databases all compare equal. *)

From S2P Require Import Prelude Blob BlobCodec Ctype Version Digest Dep Adb AdbFacts AdbWrite AdbTree AdbBuild AdbBlock AdbBlockFacts AdbSchema ApkAdb.

(** ** Dependencies *)

(** The fields that [dependency_fromstring] sets. *)
Definition dep_fields (d : apk_dependency) : list (nat * field) :=
  (1%nat, FBlob (dep_name d)) ::
  (if dep_op d =? APK_DEPMASK_ANY then []
   else (2%nat, FBlob (dep_version d)) ::
        (if dep_op d =? APK_VERSION_EQUAL then [] else [(3%nat, FInt (dep_op d))])).

(** A dependency that an ADB package may have: its name and version are valid. *)
Record dep_storable (d : apk_dependency) : Prop := {
  ds_printable : dep_printable d;
  ds_valid : dep_broken d = false;
  ds_name : spn_fails (dep_name d) APK_CTYPE_DEPENDENCY_NAME = false;
  ds_no_nul : Forall (fun c => c <> 0) (dep_name d ++ dep_version d);
}.

Lemma dependency_fromstring_fields db o d : dep_storable d ->
  dependency_fromstring db o (Some (dep_text d)) = (let! (db, o) := wo_fields db o (dep_fields d) in Ok (0, db, o)).
Proof.
  intros [Hp Hv Hn Hz]. destruct (dep_text_parse d Hp) as (ver & Hparse & Hver & Hnone).
  unfold dependency_fromstring, ADBI_DEP_NAME, ADBI_DEP_VERSION, ADBI_DEP_MATCH. rewrite Hparse.
  assert (negb (Z.land (dep_op d) APK_DEPMASK_CHECKSUM =? APK_DEPMASK_CHECKSUM) && negb (apk_version_validate ver) = false) as ->.
  { pose proof (dp_broken d Hp) as Hb. rewrite Hv in Hb. destruct ver as [v|]; simpl in Hver; [subst v; by rewrite <- Hb |]. by rewrite Hnone. }
  rewrite Hn, Hver. unfold dep_fields. cbn [wo_fields wo_field]. destruct (adb_wo_blob db o 1 (dep_name d)) as [[[v1 db1] o1]|]; [| done].
  cbn [obind]. destruct (dep_op d =? APK_DEPMASK_ANY); [done |]. cbn [negb wo_fields wo_field].
  destruct (adb_wo_blob db1 o1 2 (dep_version d)) as [[[v2 db2] o2]|]; [| done]. cbn [obind].
  destruct (dep_op d =? APK_VERSION_EQUAL); [done |]. cbn [negb wo_fields wo_field].
  by destruct (adb_wo_int db2 o2 3 (dep_op d)) as [[[v3 db3] o3]|].
Qed.

Lemma cstr_prefix_id l : Forall (fun c => c <> 0) l -> cstr_prefix l = l.
Proof. induction 1 as [|c l Hc _ IH]; simpl; [done |]. by rewrite (proj2 (Z.eqb_neq _ _) Hc), IH. Qed.

Lemma dep_op_range d : dep_printable d -> 1 <= dep_op d < 32.
Proof.
  intros Hp. destruct (dp_op d Hp) as (op & Hop & Heq & _). rewrite Heq. unfold dependency_ops in Hop.
  repeat (apply elem_of_cons in Hop as [->|Hop]; [by destruct (apk_dep_conflict d) |]). by apply elem_of_nil in Hop.
Qed.

Lemma dep_assigned d :
  let t i := default TNull (assigned (dep_fields d) [] !! i) in
  t 0%nat = blob_tree (dep_name d) /\
  t 1%nat = (if dep_op d =? APK_DEPMASK_ANY then TNull else blob_tree (dep_version d)) /\
  t 2%nat = (if (dep_op d =? APK_DEPMASK_ANY) || (dep_op d =? APK_VERSION_EQUAL) then TNull else TInt (dep_op d)).
Proof.
  unfold dep_fields. destruct (dep_op d =? APK_DEPMASK_ANY), (dep_op d =? APK_VERSION_EQUAL); cbn [assigned Nat.sub field_tree orb];
    rewrite !set_tree_lookup; done.
Qed.

Lemma dependency_tostring_fields db ro d bufsz : dep_storable d -> (length (dep_text d) < bufsz)%nat ->
  (forall i, reads_as db ro (S i) (default TNull (assigned (dep_fields d) [] !! i))) ->
  dependency_tostring db ro bufsz = Ok (Some (dep_text d)).
Proof.
  intros [Hp Hv Hn Hz] Hbuf Hr. pose proof (dep_op_range d Hp) as Hrange. apply Forall_app in Hz as [Hzn Hzv].
  destruct (dp_op d Hp) as (op & Hop & Heq & Hany & Hver). destruct (dp_name_bang d Hp) as (c & n & Hname & _).
  destruct (op_facts_spec op Hop) as (_ & _ & Hconf & _ & _ & _ & Htany & _).
  destruct (dep_assigned d) as (T0 & T1 & T2).
  pose proof (Hr 0%nat) as R0. pose proof (Hr 1%nat) as R1. pose proof (Hr 2%nat) as R2. cbv zeta in T0, T1, T2. rewrite T0 in R0. rewrite T1 in R1. rewrite T2 in R2. clear Hr T0 T1 T2.
  assert (adb_ro_blob db ro 1 = Ok (Some (dep_name d))) as H1 by (by rewrite Hname in *).
  unfold dependency_tostring, ADBI_DEP_NAME, ADBI_DEP_VERSION, ADBI_DEP_MATCH. rewrite H1. cbn [obind].
  assert (apk_version_op_string (dep_op d) = apk_version_op_string op) as Htxt by (rewrite Heq; by destruct (apk_dep_conflict d)).
  assert (forall l, l = dep_text d -> apk_blob_fmt bufsz l = Some (dep_text d)) as Hfmt.
  { intros l ->. unfold apk_blob_fmt. by rewrite (proj2 (Nat.leb_gt _ _) Hbuf). }
  unfold fmt_blob. rewrite (cstr_prefix_id (dep_name d)) by done.
  destruct (Z.eqb_spec (dep_op d) APK_DEPMASK_ANY) as [He|He].
  - destruct R1 as [-> _], R2 as [_ ->]. cbn [obind Z.eqb]. cbn. do 2 f_equal. unfold dep_text, apk_dep_conflict. rewrite He.
    assert (op = APK_DEPMASK_ANY) as Hopany.
    { rewrite He in Heq. unfold apk_dep_conflict in Heq. rewrite He in Heq. by cbn in Heq. }
    rewrite Hany by done. cbn. by rewrite app_nil_r.
  - assert (exists m, adb_ro_int db ro 3 = Ok m /\ u32 (if m =? 0 then APK_VERSION_EQUAL else m) = dep_op d) as (m & H3 & Hm).
    { cbn [orb] in R2. destruct (Z.eqb_spec (dep_op d) APK_VERSION_EQUAL) as [He1|He1].
      - exists 0. split; [apply R2 | by rewrite He1].
      - exists (dep_op d). split; [apply R2 |]. rewrite (proj2 (Z.eqb_neq _ _)) by lia. apply Z.mod_small. lia. }
    rewrite H3. cbn [obind]. rewrite Hm. fold (apk_dep_conflict d).
    destruct (dep_version d) as [|x v] eqn:Ev; cbn [blob_tree reads_as] in R1.
    + destruct R1 as [-> _]. cbn [obind].
      assert (op = APK_DEPMASK_ANY) as Hopany.
      { destruct (decide (op = APK_DEPMASK_ANY)); [done |]. by destruct (Hver n0) as (? & ? & ? & _). }
      destruct (apk_dep_conflict d) eqn:Ec; [| by rewrite Hopany in Heq]. f_equal. apply Hfmt.
      unfold dep_text. rewrite Ec, Ev, Htxt, Htany by done. by rewrite !app_nil_r.
    + rewrite R1. cbn [obind]. f_equal. apply Hfmt. unfold dep_text. rewrite Ev, (cstr_prefix_id (x :: v)) by done.
      by destruct (apk_dep_conflict d).
Qed.

(** C16: A valid dependency that is parsed from its text into an object of a database, and
    read from there, prints as the same text: whatever its operator, whether it is a conflict,
    and wherever in the database it was written. *)
Theorem adb_dependency_roundtrip db d bufsz :
  writer db -> dep_storable d -> (length (dep_text d) < bufsz)%nat ->
  adb_len db + fields_cost (dep_fields d) + obj_room ADBI_DEP_MAX < offset_limit ->
  exists db1 o1 v db2 o2 ro,
    dependency_fromstring db (adb_wo_init ADBI_DEP_MAX) (Some (dep_text d)) = Ok (0, db1, o1) /\
    __adb_w_obj db1 o1 ADB_TYPE_OBJECT = Ok (v, db2, o2) /\ adb_r_obj db2 v = Ok ro /\
    dependency_tostring db2 ro bufsz = Ok (Some (dep_text d)).
Proof.
  intros Hw Hd Hbuf Hroom. pose proof (fields_cost_pos (dep_fields d)).
  destruct (wo_fields_spec (dep_fields d) db (adb_wo_init ADBI_DEP_MAX) []) as (db1 & o1 & Hf & Hw1 & Hg1 & Hk1 & Hl1 & Hb1 & Hs1).
  { done. }
  { apply wo_init_building. unfold ADBI_DEP_MAX. lia. }
  { pose proof (dep_op_range d (ds_printable d Hd)). change (space (adb_wo_init ADBI_DEP_MAX)) with 4%nat. unfold dep_fields.
    constructor; [simpl; lia |]. case_if; constructor; [simpl; lia |]. case_if; constructor; [simpl; lia | constructor]. }
  { unfold obj_room in *. lia. }
  rewrite dependency_fromstring_fields, Hf by done. cbn [obind].
  pose proof (building_length _ _ _ Hb1) as Hlen. rewrite Hs1 in Hlen. change (space (adb_wo_init ADBI_DEP_MAX)) with ADBI_DEP_MAX in Hlen.
  destruct (w_obj_spec db1 o1 (assigned (dep_fields d) []) ADB_TYPE_OBJECT Hw1 Hb1) as (v & db2 & o2 & Hv & [W1 W2 W3 W4 W5 W6] & _);
    [by right | unfold obj_room in *; lia |].
  assert (adb_len db2 < 2 ^ 32) as H32 by (unfold obj_room, offset_limit in *; lia).
  destruct (read_node db2 v ADB_TYPE_OBJECT _ H32 W6) as (ro & Hro & Hvals).
  exists db1, o1, v, db2, o2, ro. split_and!; try done. apply dependency_tostring_fields; [done | done |].
  intros i. destruct (Hvals i) as (w & Hw' & Hd'). eapply denotes_reads; [done | | done | done].
  apply assigned_scalar. intros j ty us. by rewrite lookup_nil.
Qed.

Lemma adb_dependency_roundtrip_witness :
  let d := mk_dep (lit "so:libcrypto.so.3") (lit "3.1.4-r5") 21 false 0 0 in
  exists db1 o1 v db2 o2 ro,
    dependency_fromstring ex_dst (adb_wo_init ADBI_DEP_MAX) (Some (lit "!so:libcrypto.so.3>=3.1.4-r5")) = Ok (0, db1, o1) /\
    __adb_w_obj db1 o1 ADB_TYPE_OBJECT = Ok (v, db2, o2) /\ adb_r_obj db2 v = Ok ro /\
    dependency_tostring db2 ro 256 = Ok (Some (lit "!so:libcrypto.so.3>=3.1.4-r5")).
Proof.
  intros d. apply (adb_dependency_roundtrip ex_dst d 256); [exact ex_dst_writer | | vm_compute; lia | vm_compute; reflexivity].
  split; [| reflexivity | reflexivity | repeat (constructor; [done |]); constructor].
  split.
  - by repeat constructor.
  - eexists _, _. split; [done |]. simpl. lia.
  - exists 5. split_and!; [unfold dependency_ops; set_solver | done | done |]. intros _. eexists _, _. done.
  - by repeat constructor.
  - by vm_compute.
  - done.
Defined.

(** ** Extended attributes *)

Lemma xd_digit z : 0 <= z < 16 -> xd z <> chr "=".
Proof. intros Hz. assert (exists n, (n < 16)%nat /\ z = Z.of_nat n) as (n & Hn & ->) by (exists (Z.to_nat z); lia). do 16 (destruct n as [|n]; [done |]). lia. Qed.

Lemma hexdump_no_equals bin : chr "=" ∉ hexdump bin.
Proof.
  induction bin as [|x bin IH]; [by intros ?%elem_of_nil |]. cbn [hexdump]. change 0xf with (Z.ones 4). rewrite !Z.land_ones by lia.
  rewrite !not_elem_of_cons. split_and!; [apply not_eq_sym, xd_digit, Z.mod_pos_bound; lia.. | done].
Qed.

Lemma hex_bytes_dump bin : Forall byte_ok bin -> (length bin <= FROMSTRING_BUF)%nat -> hex_bytes (hexdump bin) = Ok (inr bin).
Proof.
  intros Hb Hl. unfold hex_bytes. rewrite length_hexdump, Nat.odd_mul, andb_false_r, Nat.div_mul by lia.
  rewrite (proj2 (Nat.ltb_ge _ _)) by lia. rewrite <- (app_nil_r (hexdump bin)) at 1.
  by rewrite pull_push_hexdump by (rewrite ?length_replicate; done).
Qed.

(** The text of an attribute, and the blob that stands for it. *)
Definition xattr_text (name value : bytes) : bytes := name ++ lit "=" ++ hexdump value.
Definition xattr_blob (name value : bytes) : bytes := name ++ 0 :: value.

Lemma xattr_fromstring_text db name value : Forall byte_ok value -> (length value <= FROMSTRING_BUF)%nat ->
  xattr_fromstring db (Some (xattr_text name value)) = adb_w_blob_vec db [name ++ lit "="; value].
Proof.
  intros Hb Hl. unfold xattr_fromstring, xattr_text. unfold bdata. cbn [default].
  rewrite (proj2 (apk_blob_rsplit_Some _ _ name (hexdump value))) by (split; [done | apply hexdump_no_equals]).
  rewrite hex_bytes_dump by done. cbn [obind].
  assert (take (S (length name)) (name ++ lit "=" ++ hexdump value) = name ++ lit "=") as Ht.
  { rewrite app_assoc, take_app_length'; [done |]. rewrite length_app. simpl. lia. }
  unfold id. by rewrite Ht.
Qed.

Lemma xattr_tostring_blob db v name value bufsz : adb_r_blob db v = Ok (Some (xattr_blob name value)) ->
  0 ∉ name -> (length (xattr_text name value) <= bufsz)%nat ->
  xattr_tostring db v bufsz = Ok (Some (xattr_text name value)).
Proof.
  intros Hr Hn Hl. unfold xattr_tostring. rewrite Hr. cbn [obind].
  assert (apk_blob_split (xattr_blob name value) [0] = Some (name, value)) as ->.
  { pose proof (apk_blob_split_char (xattr_blob name value) 0) as Hs.
    pose proof (apk_blob_split_Some (xattr_blob name value) [0]) as Hi.
    destruct (apk_blob_split (xattr_blob name value) [0]) as [[k w]|].
    - destruct (proj1 (Hi k w) eq_refl) as [Heq _]. destruct Hs as [Hs _]. unfold xattr_blob in *. rewrite split_on_app in Hs by done.
      injection Hs as <- _. by apply app_inv_head in Heq as [= ->].
    - unfold xattr_blob in Hs. rewrite split_on_app in Hs by done. apply (f_equal (hd [])) in Hs. simpl in Hs.
      apply (f_equal length) in Hs. rewrite length_app in Hs. simpl in Hs. lia. }
  unfold xattr_text, pushbuf_new in *. rewrite !length_app, length_hexdump in Hl. simpl in Hl.
  rewrite push_blob_push_blob, push_blob_room by (rewrite length_app; simpl; lia). cbn [apk_blob_push_hexdump].
  rewrite (proj2 (Nat.ltb_ge _ _)) by (rewrite length_app; simpl; lia). cbn. by rewrite <- app_assoc.
Qed.

(** An extended attribute that is stored as its name, a NUL and its value prints as the
    name, an equals sign and the value in hexadecimal.  Parsing this text does not give the attribute back:
    what is stored then has the equals sign in place of the NUL, and prints as NULL. *)
Theorem adb_xattr_text_lost db v0 name value bufsz :
  writer db -> Forall byte_ok value -> (length value <= FROMSTRING_BUF)%nat -> 0 ∉ name ++ value ->
  (length (xattr_text name value) <= bufsz)%nat ->
  adb_len db + cost (TBlob (xattr_blob name value)) < offset_limit ->
  adb_r_blob db v0 = Ok (Some (xattr_blob name value)) ->
  xattr_tostring db v0 bufsz = Ok (Some (xattr_text name value)) /\
  exists v db', xattr_fromstring db (Some (xattr_text name value)) = Ok (v, db') /\
    adb_r_blob db' v = Ok (Some (name ++ lit "=" ++ value)) /\
    xattr_tostring db' v bufsz = Ok None.
Proof.
  intros Hw Hb Hl Hz Hbuf Hroom Hr. rewrite elem_of_app in Hz. split; [apply xattr_tostring_blob; tauto |].
  rewrite xattr_fromstring_text by done.
  assert (concat [name ++ lit "="; value] = name ++ lit "=" ++ value) as Hc by (cbn [concat]; by rewrite app_nil_r, <- app_assoc).
  assert (cost (TBlob (name ++ lit "=" ++ value)) = cost (TBlob (xattr_blob name value))) as Hcost.
  { unfold xattr_blob. cbn [cost]. rewrite !length_app. simpl. lia. }
  destruct (w_blob_vec_spec db [name ++ lit "="; value]) as (v & db' & -> & [W1 W2 W3 W4 W5 W6]);
    [done | simpl; lia | by rewrite Hc, Hcost |]. rewrite Hc in *. rewrite Hcost in *.
  assert (blob_tree (name ++ lit "=" ++ value) = TBlob (name ++ lit "=" ++ value)) as Ht by (by destruct name).
  rewrite Ht in W6. assert (adb_len db' < 2 ^ 32) by (unfold offset_limit in *; lia).
  assert (adb_r_blob db' v = Ok (Some (name ++ lit "=" ++ value))) as Hread by (by apply read_blob).
  exists v, db'. split_and!; [done | done |]. unfold xattr_tostring. rewrite Hread. cbn [obind].
  rewrite (proj2 (apk_blob_split_None _ _)); [done |]. intros l r Heq. apply Hz.
  assert (0 ∈ name ++ lit "=" ++ value) as Hin by (rewrite Heq; set_solver).
  rewrite !elem_of_app in Hin. destruct Hin as [?|[Hin|?]]; [tauto | | tauto]. by apply list_elem_of_singleton in Hin.
Qed.

Lemma adb_xattr_text_lost_witness :
  let name := lit "user.a" in let value := [1; 255] in
  exists v0 db, adb_w_blob ex_dst (xattr_blob name value) = Ok (v0, db) /\
    xattr_tostring db v0 64 = Ok (Some (lit "user.a=01ff")) /\
    exists v db', xattr_fromstring db (Some (lit "user.a=01ff")) = Ok (v, db') /\
      adb_r_blob db' v = Ok (Some (name ++ lit "=" ++ value)) /\ xattr_tostring db' v 64 = Ok None.
Proof.
  intros name value.
  destruct (w_blob_spec ex_dst (xattr_blob name value)) as (v0 & db & Hv & [W1 W2 W3 W4 W5 W6]); [exact ex_dst_writer | vm_compute; reflexivity |].
  exists v0, db. split; [done |]. assert (adb_len ex_dst + cost (TBlob (xattr_blob name value)) < 1000) by (by vm_compute).
  assert (xattr_text name value = lit "user.a=01ff") as <- by (by vm_compute).
  apply (adb_xattr_text_lost db v0 name value 64);
    [done | by repeat constructor | unfold FROMSTRING_BUF; simpl; lia | by refine (bool_decide_unpack _ _); vm_compute | vm_compute; lia | | ].
  - assert (cost (TBlob (xattr_blob name value)) < 1000) by (by vm_compute). unfold offset_limit. lia.
  - apply read_blob; [lia | done].
Defined.

(** ** Embedded databases *)

Section embedded.
Context `{Crypto}.

Abbreviation untrusted st := (ps_trusted st = false /\ ps_ectx st = None).

Lemma parse_block_untrusted (st : parse_state (S := unit)) schema type b : untrusted st ->
  match parse_block None schema type b st with
  | Fault => True
  | Ok (Stop _ st') | Ok (Go st') => untrusted st'
  end.
Proof.
  intros [Ht He]. unfold parse_block. case_if; [done |]. case_if.
  { repeat (case_if; [by cbn |]). rewrite He. cbn. by rewrite Ht. }
  case_if; [| case_if; [cbn; by rewrite Ht | done]]. rewrite Ht.
  destruct (adb_trust_verify_signature None _ _ _ _) as [[r vfy]|] eqn:E; [| done]. cbn. split; [| done].
  unfold adb_trust_verify_signature in E. by repeat case_match; simplify_eq.
Qed.

Lemma parse_loop_untrusted fuel schema rest r (st : parse_state (S := unit)) e : untrusted st ->
  parse_loop __adb_dummy_cb fuel None schema rest r st = Some (Ok e) ->
  ps_trusted (pe_state e) = false /\ forall err, pe_blk e = BlockErr err -> err < 0.
Proof.
  revert rest r st. induction fuel as [|fuel IH]; intros rest r st Hu Heq; cbn [parse_loop] in Heq;
    destruct (adb_block_validate rest) as [[|err|blk]|] eqn:Ev; try done; try (simplify_eq; cbn; by destruct Hu).
  1, 2: simplify_eq; cbn; apply validate_err in Ev; destruct Hu; split; [done | intros ? [= <-]; by rewrite Ev].
  destruct (adb_block_blob blk rest) as [b|]; [| done].
  pose proof (parse_block_untrusted st schema (adb_block_type blk) b Hu) as Hb.
  destruct (parse_block _ _ _ _ _) as [[st'|r' st']|]; [| simplify_eq; by destruct Hb | done].
  cbn in Heq. apply IH in Heq; [done | by destruct Hb].
Qed.

(** Without a trust store no database is opened. *)
Lemma m_blob_untrusted b r a st : adb_m_blob b None = Some (Ok (r, a, st)) -> a = None.
Proof.
  unfold adb_m_blob, __adb_m_parse. intros Heq. apply bind_Some in Heq as (x & Hl & Heq).
  destruct x as [e|]; [| done]. cbn [obind] in Heq. apply parse_loop_untrusted in Hl as [Ht Hb]; [| done].
  injection Heq as _ <- _. rewrite Ht. cbn [negb].
  set (r0 := if 0 <? pe_r e then - APKE_ADB_BLOCK else pe_r e). destruct (Z.eqb_spec r0 0) as [|Hr]; [| by apply Z.eqb_neq in Hr as ->].
  destruct (pe_blk e) as [|err|]; [done | | done]. by rewrite (proj2 (Z.eqb_neq err 0)) by (pose proof (Hb err eq_refl); lia).
Qed.

Lemma cmpobj_null s db1 db2 z : adb_ro_cmpobj s ADB_OBJCMP_EXACT db1 null_obj db2 null_obj = Ok z -> z = 0.
Proof. destruct s as [sc|ops fields|ops item|id s]; cbn; [done | | | done]; [destruct fields as [|[n k] fields] |]; cbn; congruence. Qed.

(** The comparison that sorts an array of embedded databases, which [schema_idb] has for
    its packages, opens them without a trust store: whatever the two databases hold, it finds them equal. *)
Theorem adb_embedded_compare_equal item db v1 v2 z : wadbcmp item db v1 v2 = Ok z -> z = 0.
Proof.
  unfold wadbcmp, wadb_open. intros Heq.
  destruct (adb_r_blob db v1) as [b1|]; [| done]. cbn [obind] in Heq.
  destruct (adb_m_blob (bdata b1) None) as [[[[r1 a1] s1]|]|] eqn:E1; [| done..]. cbn [obind] in Heq.
  destruct (adb_r_blob db v2) as [b2|]; [| done]. cbn [obind] in Heq.
  destruct (adb_m_blob (bdata b2) None) as [[[[r2 a2] s2]|]|] eqn:E2; [| done..]. cbn [obind] in Heq.
  apply m_blob_untrusted in E1 as ->. apply m_blob_untrusted in E2 as ->. cbn in Heq. by apply cmpobj_null in Heq.
Qed.
End embedded.

#[local] Existing Instance toy_crypto.

(** Two embedded databases of different contents. *)
Definition ex_embedded : outcome (adb_val * adb_val * adb) :=
  let! (n, src) := adb_w_int ex_dst 7 in
  let! (w, src) := adb_w_blob src (lit "name") in
  let! (v1, db) := adb_w_adb ex_dst src in let! (v2, db) := adb_w_adb db ex_src in Ok (v1, v2, db).

Lemma adb_embedded_compare_equal_witness :
  exists v1 v2 db, ex_embedded = Ok (v1, v2, db) /\ v1 <> v2 /\ adb_r_blob db v1 <> adb_r_blob db v2 /\
    wadbcmp schema_package db v1 v2 = Ok 0.
Proof.
  assert (exists v1 v2 db z, ex_embedded = Ok (v1, v2, db) /\ v1 <> v2 /\ adb_r_blob db v1 <> adb_r_blob db v2 /\
    wadbcmp schema_package db v1 v2 = Ok z) as (v1 & v2 & db & z & H1 & H2 & H3 & H4).
  { eexists _, _, _, _. split; [by vm_compute |]. split; [by vm_compute |]. split; [by vm_compute | by vm_compute]. }
  exists v1, v2, db. split; [done |]. split; [done |]. split; [done |].
  by rewrite <- (adb_embedded_compare_equal schema_package db v1 v2 z H4).
Defined.
