(* ===== verification/Repo.v ===== *)
(** * The repositories file (repoparser.c)

    A line of the file sets a variable or names repositories: a type, a tag, a URL and the
    components below it.  The parser keeps its variables in a hash table and calls
    [repository] for every repository; the state of this callback is a parameter.  Warnings are
    not modelled. *)

From S2P Require Import Prelude Blob BlobCodec Ctype Hash Dep Package PackageRules Path.

Definition APKE_REPO_SYNTAX : Z := 1087.
Definition APKE_REPO_KEYWORD : Z := 1088.
Definition APKE_REPO_VARIABLE : Z := 1089.

(** ** Variables *)

Record apk_variable := mk_var { var_value : bytes; var_flags : Z; var_keylen : Z; var_key : bytes }.

Definition APK_VARF_OVERWRITE : Z := 1.
Definition APK_VARF_READONLY : Z := 2.

Definition variable_hash_get_key (var : apk_variable) : bytes := take (Z.to_nat (var_keylen var)) (var_key var).

#[global] Instance variable_ops : HashOps apk_variable := {|
  get_key := variable_hash_get_key;
  hash_key := apk_blob_hash;
  hash_item := None;
  compare := Some apk_blob_compare;
  compare_item := None;
  delete_item := true;
|}.

#[global] Instance variable_ops_laws : HashOpsLaws apk_variable.
Proof.
  split.
  - intros k. apply apk_blob_hash_range.
  - done.
  - intros v k. unfold item_matches. simpl. rewrite Z.eqb_eq, apk_blob_compare_eq0. naive_solver.
Qed.

(** The variable that a lookup finds, changed where it is. *)
Fixpoint bucket_update (f : apk_variable -> apk_variable) (k : bytes) (l : list apk_variable) : list apk_variable :=
  match l with
  | [] => []
  | item :: l' => if item_matches item k then f item :: l' else item :: bucket_update f k l'
  end.

Definition variable_assign (vars : apk_hash apk_variable) (key : bytes) (hash : Z) (value : bytes) (flags : Z) : apk_hash apk_variable :=
  mk_hash (<[bucket_index vars hash :=
      bucket_update (fun var => mk_var value flags (var_keylen var) (var_key var)) key (bucket vars hash)]> (buckets vars)) (num_items vars).

Definition apk_variable_set (vars : apk_hash apk_variable) (key value : bytes) (flags : Z) : Z * apk_hash apk_variable :=
  let hash := apk_hash_from_key vars key in
  match apk_hash_get_hashed vars key hash with
  | None => (0, apk_hash_insert_hashed vars (mk_var value (u8 flags) (u8 (Z.of_nat (length key))) key) hash)
  | Some var =>
      if negb (testmask flags APK_VARF_OVERWRITE) then (0, vars)
      else if testmask (var_flags var) APK_VARF_READONLY then (0, vars)
      else (0, variable_assign vars key hash value (u8 flags))
  end.

Definition apk_variable_subst (vars : apk_hash apk_variable) (key : bytes) (to : pushbuf) : Z * pushbuf :=
  match apk_hash_get vars key with
  | None => (- APKE_REPO_VARIABLE, to)
  | Some var => (0, apk_blob_push_blob to (var_value var))
  end.

(** ** The parser *)

Inductive repo_type := APK_REPOTYPE_OMITTED | APK_REPOTYPE_NDX | APK_REPOTYPE_V2 | APK_REPOTYPE_V3.

#[global] Instance repo_type_eq_dec : EqDecision repo_type.
Proof. solve_decision. Defined.

(** Whether there is a word, the word and the rest of the line. *)
Definition get_word (line : bytes) : bool * bytes * bytes :=
  let '(_, word, line) := apk_blob_cspn line APK_CTYPE_REPOSITORY_SEPARATOR in
  let '(_, _, line) := apk_blob_spn line APK_CTYPE_REPOSITORY_SEPARATOR in
  (negb (length word =? 0)%nat, word, line).

Definition isalpha (c : Z) : bool := is_lower c || ((65 <=? c) && (c <=? 90)).

Definition is_url (word : bytes) : bool :=
  (nth 0 word 0 =? chr "/") || (0 <? apk_blob_contains word (lit "://")).

Definition is_keyword (word : bytes) : bool :=
  if nth 0 word 0 =? chr "@" then false else negb (is_url word).

Section parser.
(** [S] is what the callback works on; [base] is the address of the local buffers. *)
Context {S : Type} (repository : S -> bytes -> option bytes -> blob -> outcome (Z * S)) (base : Z).

Record apk_repoparser := mk_rp { rp_variables : apk_hash apk_variable; rp_line : Z; rp_state : S }.

Definition apk_repoparser_init (s : S) : apk_repoparser := mk_rp (apk_hash_init 10) 0 s.

Definition apk_repoparser_set_file (rp : apk_repoparser) : apk_repoparser := mk_rp (rp_variables rp) 0 (rp_state rp).

Definition apk_repoparser_subst (rp : apk_repoparser) : bytes -> pushbuf -> Z * pushbuf := apk_variable_subst (rp_variables rp).

(** The text of a word with the variables in it replaced: a negative result is an error. *)
Definition subst (rp : apk_repoparser) (fmt : bytes) : option (outcome (Z * bytes)) :=
  apk_blob_subst base (apk_repoparser_subst rp) PATH_MAX fmt.

(** The options of [set]: the flags and the rest of the line; [None] is an unknown option. *)
Fixpoint set_options (fuel : nat) (line : bytes) (flags : Z) : option (option (Z * bytes)) :=
  match line with
  | c :: _ =>
      if c =? chr "-" then
        match fuel with
        | O => None
        | Datatypes.S fuel =>
            let '(_, key, line) := get_word line in
            if apk_blob_compare key (lit "-default") =? 0
            then set_options fuel line (Z.land flags (Z.lnot APK_VARF_OVERWRITE)) else Some None
        end
      else Some (Some (flags, line))
  | [] => Some (Some (flags, line))
  end.

Definition apk_repoparser_parse_set (rp : apk_repoparser) (line : bytes) : option (outcome (Z * apk_repoparser)) :=
  opts ← set_options (Datatypes.S (length line)) line APK_VARF_OVERWRITE;
  match opts with
  | None => Some (Ok (- APKE_REPO_SYNTAX, rp))
  | Some (flags, line) =>
      match apk_blob_split line (lit "=") with
      | None => Some (Ok (- APKE_REPO_VARIABLE, rp))
      | Some (key, value) =>
          let '(bad, _, _) := apk_blob_spn key APK_CTYPE_VARIABLE_NAME in
          if apk_blob_starts_with key (lit "APK_") || negb (isalpha (nth 0 line 0)) || bad
          then Some (Ok (- APKE_REPO_VARIABLE, rp))
          else
            s ← subst rp value;
            Some (let! (r, buf) := s in
                  if r <? 0 then Ok (r, rp)
                  else let '(r', vars) := apk_variable_set (rp_variables rp) key (take (Z.to_nat r) buf) flags in
                       Ok (r', mk_rp vars (rp_line rp) (rp_state rp)))
      end
  end.

(** The loop over the components. *)
Fixpoint add_components (rp : apk_repoparser) (pb : apk_pathbuilder) (index_file : option bytes) (tag : blob)
    (components : list bytes) : outcome (Z * apk_repoparser) :=
  match components with
  | [] => Ok (0, rp)
  | component :: components =>
      let '(n, pb) := apk_pathbuilder_pushb pb component in
      let! (r, s) := repository (rp_state rp) (apk_pathbuilder_get pb) index_file tag in
      let rp := mk_rp (rp_variables rp) (rp_line rp) s in
      if negb (r =? 0) then Ok (r, rp) else add_components rp (apk_pathbuilder_pop pb n) index_file tag components
  end.

Definition index_file_of (type : repo_type) : option bytes :=
  match type with
  | APK_REPOTYPE_V2 => Some (lit "APKINDEX.tar.gz")
  | APK_REPOTYPE_V3 => Some (lit "Packages.adb")
  | _ => None
  end.

Definition default_type (type : repo_type) (word : bytes) : repo_type :=
  match type with
  | APK_REPOTYPE_OMITTED =>
      if apk_blob_ends_with word (lit ".adb") || apk_blob_ends_with word (lit ".tar.gz")
      then APK_REPOTYPE_NDX else APK_REPOTYPE_V2
  | _ => type
  end.

(** From the URL in [word] on; [components] is the rest of the line. *)
Definition parse_url (rp : apk_repoparser) (allow_keywords : bool) (type : repo_type) (tag : blob) (word components : bytes)
    : option (outcome (Z * apk_repoparser)) :=
  let index_file := index_file_of (default_type type word) in
  s ← subst rp word;
  match s with
  | Fault => Some Fault
  | Ok (r, urlbuf) =>
      if r <? 0 then Some (Ok (r, rp))
      else
        let url := apk_blob_trim_end (take (Z.to_nat r) urlbuf) (chr "/") in
        if allow_keywords && negb ((nth 0 urlbuf 0 =? chr "/") || (0 <? apk_blob_contains url (lit "://")))
        then Some (Ok (- APKE_REPO_SYNTAX, rp))
        else if (length components =? 0)%nat then
          Some (let! (r, s) := repository (rp_state rp) url index_file tag in Ok (r, mk_rp (rp_variables rp) (rp_line rp) s))
        else
          c ← subst rp components;
          Some (let! (r, compbuf) := c in
                if r <? 0 then Ok (r, rp)
                else
                  let '(_, pb) := apk_pathbuilder_setb (mk_pb 0 (replicate PATH_MAX 0)) url in
                  add_components rp pb index_file tag (apk_blob_foreach_word (Some (take (Z.to_nat r) compbuf))))
  end.

(** From the tag or the URL on. *)
Definition parse_tag (rp : apk_repoparser) (allow_keywords : bool) (type : repo_type) (word line : bytes)
    : option (outcome (Z * apk_repoparser)) :=
  if nth 0 word 0 =? chr "@" then
    let '(ok, url, line) := get_word line in
    if ok then parse_url rp allow_keywords type (Some word) url line else Some (Ok (- APKE_REPO_SYNTAX, rp))
  else parse_url rp allow_keywords type None word line.

Definition apk_repoparser_parse (rp : apk_repoparser) (line : blob) (allow_keywords : bool) : option (outcome (Z * apk_repoparser)) :=
  let rp := mk_rp (rp_variables rp) (s32 (rp_line rp + 1)) (rp_state rp) in
  match line with
  | None | Some [] => Some (Ok (0, rp))
  | Some ((c :: _) as line) =>
      if c =? chr "#" then Some (Ok (0, rp))
      else
        let '(ok, word, line) := get_word line in
        if negb ok then Some (Ok (- APKE_REPO_SYNTAX, rp))
        else if allow_keywords && is_keyword word then
          if apk_blob_compare word (lit "set") =? 0 then apk_repoparser_parse_set rp line
          else
            let type :=
              if apk_blob_compare word (lit "ndx") =? 0 then Some APK_REPOTYPE_NDX
              else if apk_blob_compare word (lit "v2") =? 0 then Some APK_REPOTYPE_V2
              else if apk_blob_compare word (lit "v3") =? 0 then Some APK_REPOTYPE_V3
              else None in
            match type with
            | None => Some (Ok (- APKE_REPO_KEYWORD, rp))
            | Some type =>
                let '(ok, word, line) := get_word line in
                if ok then parse_tag rp allow_keywords type word line else Some (Ok (- APKE_REPO_SYNTAX, rp))
            end
        else parse_tag rp allow_keywords APK_REPOTYPE_OMITTED word line
  end.
End parser.
