(* ===== verification/RepoFacts.v ===== *)
(** * The repositories file: what its lines mean

    The variables are a map with write rules; a well-formed line names exactly the repositories
    it lists; paths are built and taken back. *)

From S2P Require Import Prelude Blob BlobCodec Ctype Hash Dep Package PackageRules Path Repo.

(** ** Variables *)

Definition vars_get (vars : apk_hash apk_variable) (k : bytes) : option (bytes * Z) :=
  (fun var => (var_value var, var_flags var)) <$> apk_hash_get vars k.

Section assign.
Context (key value : bytes) (flags : Z).

Abbreviation upd := (fun var => mk_var value flags (var_keylen var) (var_key var)).

Lemma upd_key v : get_key (upd v) = get_key v.
Proof. done. Qed.

Lemma bucket_update_other k l : k <> key ->
  filter (fun v => get_key v = k) (bucket_update upd key l) = filter (fun v => get_key v = k) l.
Proof.
  intros Hk. induction l as [|v l IH]; [done |]. cbn [bucket_update]. destruct (item_matches v key) eqn:E.
  - apply item_matches_spec in E. by rewrite !filter_cons, upd_key, !decide_False by congruence.
  - rewrite !filter_cons. by rewrite IH.
Qed.

Lemma bucket_update_same l :
  filter (fun v => get_key v = key) (bucket_update upd key l) =
  match filter (fun v => get_key v = key) l with [] => [] | v :: r => upd v :: r end.
Proof.
  induction l as [|v l IH]; [done |]. cbn [bucket_update]. destruct (item_matches v key) eqn:E.
  - apply item_matches_spec in E. by rewrite !filter_cons, upd_key, !decide_True.
  - assert (get_key v <> key) by (intros ?%item_matches_spec; congruence). by rewrite !filter_cons, !decide_False.
Qed.

Lemma bucket_update_members v l : v ∈ bucket_update upd key l -> exists w, w ∈ l /\ get_key w = get_key v.
Proof.
  induction l as [|w l IH]; cbn [bucket_update]; [by intros ?%elem_of_nil |].
  destruct (item_matches w key); intros [->|Hv]%elem_of_cons.
  - exists w. split; [by left | done].
  - exists v. split; [by right | done].
  - exists w. split; [by left | done].
  - destruct (IH Hv) as (w' & ? & ?). exists w'. split; [by right | done].
Qed.

Lemma bucket_update_length l : length (bucket_update upd key l) = length l.
Proof. induction l as [|w l IH]; [done |]. cbn [bucket_update]. case_match; simpl; congruence. Qed.

Lemma variable_assign_spec vars : hash_wf vars ->
  let vars' := variable_assign vars key (hash_key key) value flags in
  hash_wf vars' /\ forall k, apk_hash_get vars' k = if decide (k = key) then upd <$> apk_hash_get vars k else apk_hash_get vars k.
Proof.
  intros Hw vars'. set (l := bucket_update upd key (bucket vars (hash_key key))).
  assert (hash_wf (with_bucket vars (hash_key key) l (num_items vars))) as Hw'.
  { apply with_bucket_wf; [done | | unfold l; rewrite bucket_update_length, Z.sub_diag, (wf_count vars Hw); by rewrite s32_add, Z.add_0_r].
    intros v Hv. apply bucket_update_members in Hv as (w & Hin & <-). by apply bucket_members. }
  split; [exact Hw' |]. intros k. rewrite !apk_hash_get_items by done.
  assert (items_of vars' k = if decide (k = key) then filter (fun v => get_key v = k) l else items_of vars k) as ->.
  { apply with_bucket_items; [done | done |]. by apply bucket_update_other. }
  case_decide as Hk; [| done]. subst k. rewrite items_of_bucket by done. unfold l. rewrite bucket_update_same.
  by destruct (filter _ (bucket vars (hash_key key))).
Qed.
End assign.

(** The variables of the repositories file are a map.  Setting a variable whose name has
    less than 256 characters changes this variable only: it gets the value when it is new, or when
    the line does not say [-default] and the variable is not read-only; otherwise it keeps the one
    it had. *)
Theorem repo_variables_map vars key value flags :
  hash_wf vars -> (length key < 256)%nat -> 0 <= flags < 256 ->
  let vars' := (apk_variable_set vars key value flags).2 in
  (apk_variable_set vars key value flags).1 = 0 /\ hash_wf vars' /\
  forall k, vars_get vars' k =
    if decide (k = key) then
      Some (match vars_get vars key with
            | Some (v, f) => if testmask flags APK_VARF_OVERWRITE && negb (testmask f APK_VARF_READONLY) then (value, flags) else (v, f)
            | None => (value, flags)
            end)
    else vars_get vars k.
Proof.
  intros Hw Hl Hf. unfold apk_variable_set, apk_hash_from_key. change (apk_hash_get_hashed vars key (hash_key key)) with (apk_hash_get vars key).
  assert (u8 flags = flags) as -> by (apply Z.mod_small; lia).
  destruct (apk_hash_get vars key) as [var|] eqn:Eg; unfold vars_get.
  - destruct (testmask flags APK_VARF_OVERWRITE) eqn:Eo; cbn [negb].
    + destruct (testmask (var_flags var) APK_VARF_READONLY) eqn:Er; cbn [fst snd].
      * split_and!; [done | done |]. intros k. case_decide as Hk; [| done]. subst k. rewrite Eg. cbn. by rewrite Er.
      * destruct (variable_assign_spec key value flags vars Hw) as [Hw' Hg]. split_and!; [done | done |].
        intros k. rewrite Hg. case_decide as Hk; [| done]. subst k. rewrite Eg. cbn. by rewrite Er.
    + split_and!; [done | done |]. intros k. cbn [snd]. case_decide as Hk; [| done]. subst k. by rewrite Eg.
  - cbn [fst snd]. set (v := mk_var value flags (u8 (Z.of_nat (length key))) key).
    assert (get_key v = key) as Hk0.
    { cbn. unfold variable_hash_get_key. cbn. unfold u8. rewrite Z.mod_small by lia. rewrite Nat2Z.id. by apply take_ge. }
    assert (apk_hash_insert_hashed vars v (hash_key key) = apk_hash_insert vars v) as -> by (unfold apk_hash_insert, apk_hash_from_item, apk_hash_from_key; by rewrite Hk0).
    split_and!; [done | by apply apk_hash_insert_wf |]. intros k. rewrite apk_hash_get_insert, Hk0 by done.
    case_decide as Hk; [| done]. subst k. by rewrite Eg.
Qed.

Lemma repo_variables_map_witness :
  let v1 := (apk_variable_set (apk_hash_init 10) (lit "mirror") (lit "a.org") APK_VARF_OVERWRITE).2 in
  let v2 := (apk_variable_set v1 (lit "mirror") (lit "b.org") 0).2 in
  vars_get v2 (lit "mirror") = Some (lit "a.org", APK_VARF_OVERWRITE) /\ vars_get v2 (lit "other") = None.
Proof.
  intros v1 v2.
  destruct (repo_variables_map (apk_hash_init 10) (lit "mirror") (lit "a.org") APK_VARF_OVERWRITE) as (_ & Hw & _);
    [by apply apk_hash_init_wf | simpl; lia | done |].
  destruct (repo_variables_map v1 (lit "mirror") (lit "b.org") 0) as (_ & _ & Hg); [exact Hw | simpl; lia | done |].
  fold v2 in Hg. split; [rewrite (Hg (lit "mirror")) | rewrite (Hg (lit "other"))]; by vm_compute.
Defined.

(** The length of a name is kept in eight bits: a variable whose name has 256 characters or
    more is stored and never found again. *)
Theorem repo_long_variable_lost vars key value flags :
  (256 <= length key)%nat -> vars_get vars key = None ->
  vars_get (apk_variable_set vars key value flags).2 key = None.
Proof.
  intros Hl Hn. unfold vars_get in *. apply fmap_None in Hn. unfold apk_variable_set, apk_hash_from_key.
  change (apk_hash_get_hashed vars key (hash_key key)) with (apk_hash_get vars key). rewrite Hn. cbn [snd].
  apply fmap_None. unfold apk_hash_get, apk_hash_get_hashed, apk_hash_from_key in *. set (v := mk_var _ _ _ _).
  assert (item_matches v key = false) as Hm.
  { apply not_true_iff_false. intros He%item_matches_spec. cbn in He. unfold variable_hash_get_key in He. cbn in He.
    apply (f_equal length) in He. rewrite length_take in He. pose proof (Z.mod_pos_bound (Z.of_nat (length key)) (2 ^ 8)). unfold u8 in He. lia. }
  unfold bucket, bucket_index in *. cbn [buckets apk_hash_insert_hashed]. rewrite length_insert.
  destruct (decide (bucket_index vars (hash_key key) < length (buckets vars))%nat) as [Hi|Hi].
  - unfold bucket_index in Hi. rewrite list_lookup_insert_eq by done. cbn. cbn in Hm. rewrite Hm. done.
  - rewrite list_insert_ge by (unfold bucket_index in *; lia). done.
Qed.

Lemma repo_long_variable_lost_witness :
  vars_get (apk_variable_set (apk_hash_init 10) (replicate 256 (chr "a")) (lit "x") APK_VARF_OVERWRITE).2 (replicate 256 (chr "a")) = None.
Proof. apply (repo_long_variable_lost (apk_hash_init 10) (replicate 256 (chr "a")) (lit "x") APK_VARF_OVERWRITE); [simpl; lia | by vm_compute]. Defined.

(** ** Words *)

Abbreviation sep := (ctype_has APK_CTYPE_REPOSITORY_SEPARATOR).

(** A word of a line: no separators, and no variables in it. *)
Definition plain_word (w : bytes) : Prop := w <> [] /\ Forall (fun c => sep c = false /\ c <> chr "$") w.

Lemma plain_no_sep w : plain_word w -> Forall (fun c => sep c = false) w.
Proof. intros [_ H]. eapply Forall_impl; [done |]. by intros c [? _]. Qed.

Definition gap_ok (gap : bytes) : Prop := gap <> [] /\ Forall (fun c => sep c = true) gap.

(** The rest of a line after a word. *)
Definition starts_word (rest : bytes) : Prop := match rest with [] => True | c :: _ => sep c = false end.

Lemma get_word_end w : plain_word w -> get_word w = (true, w, []).
Proof.
  intros Hw. pose proof (plain_no_sep w Hw) as Hs. unfold get_word, apk_blob_cspn.
  rewrite <- (app_nil_r w) at 1. rewrite spn_loop_app by done. cbn. destruct Hw as [Hw _]. by destruct w.
Qed.

Lemma get_word_gap w gap rest : plain_word w -> gap_ok gap -> starts_word rest ->
  get_word (w ++ gap ++ rest) = (true, w, rest).
Proof.
  intros Hw [Hg1 Hg2] Hr. pose proof (plain_no_sep w Hw) as Hs. unfold get_word, apk_blob_cspn, apk_blob_spn.
  destruct gap as [|c gap]; [done |]. inversion Hg2 as [|? ? Hc Hg]; subst.
  rewrite spn_loop_app by done. rewrite (spn_loop_app _ (c :: gap) rest).
  - destruct Hw as [Hw _]. by destruct w.
  - eapply Forall_impl; [exact Hg2 |]. simpl. by intros x ->.
  - destruct rest as [|x rest]; [done |]. simpl in *. by rewrite Hr.
Qed.

(** ** Lines *)

Fixpoint words_text (ws : list bytes) : bytes :=
  match ws with [] => [] | [w] => w | w :: ws => w ++ chr " " :: words_text ws end.

Lemma split_on_words ws : ws <> [] -> Forall (fun w => chr " " ∉ w) ws -> split_on (chr " ") (words_text ws) = ws.
Proof.
  intros Hne Hs. induction ws as [|w ws IH]; [done |]. inversion Hs as [|? ? Hw Hws]; subst.
  destruct ws as [|w' ws]; [by apply split_on_none |]. cbn [words_text].
  change (match ws with [] => w' | _ :: _ => w' ++ chr " " :: words_text ws end) with (words_text (w' :: ws)).
  rewrite split_on_app by done. f_equal. by apply IH.
Qed.

Lemma plain_no_space w : plain_word w -> chr " " ∉ w.
Proof. intros [_ Hw] Hin. rewrite Forall_forall in Hw. by destruct (Hw _ Hin). Qed.

Lemma repo_foreach_words ws : Forall plain_word ws -> apk_blob_foreach_word (Some (words_text ws)) = ws.
Proof.
  intros Hw. unfold apk_blob_foreach_word. rewrite apk_blob_foreach_token_fields. cbn [fields_of].
  destruct (decide (ws = [])) as [->|Hne]; [done |].
  rewrite split_on_words; [| done | eapply Forall_impl; [done |]; apply plain_no_space].
  clear Hne. induction Hw as [|w ws [Hne _] _ IH]; [done |]. by rewrite filter_cons_True, IH.
Qed.

Lemma words_text_no_dollar ws : Forall plain_word ws -> chr "$" ∉ words_text ws.
Proof.
  intros Hw. induction Hw as [|w ws [_ Hw] Hws IH]; [by intros ?%elem_of_nil |].
  assert (chr "$" ∉ w) by (intros Hin; rewrite Forall_forall in Hw; by destruct (Hw _ Hin)).
  destruct ws as [|w' ws]; [done |]. cbn [words_text]. rewrite elem_of_app, elem_of_cons. intros [?|[?|?]]; [done | done | by apply IH].
Qed.

Lemma words_text_starts ws : Forall plain_word ws -> starts_word (words_text ws).
Proof.
  intros Hw. destruct ws as [|w ws]; [done |]. inversion Hw as [|? ? [Hne Hp] _]; subst.
  destruct w as [|c w]; [done |]. inversion Hp as [|? ? [Hc _] _]; subst. by destruct ws.
Qed.

(** A word that has a needle behind its start still has it when it is longer. *)
Lemma contains_app u s t : 0 < apk_blob_contains u t -> 0 < apk_blob_contains (u ++ s) t.
Proof.
  unfold apk_blob_contains. destruct (memmem u t) as [i|] eqn:Ei; [| lia]. intros Hi.
  apply memmem_Some in Ei as ((r & Hr) & Hle & Hmin).
  destruct (memmem (u ++ s) t) as [j|] eqn:Ej.
  - destruct j as [|j]; [exfalso | lia]. apply memmem_Some in Ej as ((r' & Hr') & _ & _). cbn [take app] in Hr'.
    assert (length t <= length u)%nat as Hlen by (apply (f_equal length) in Hr; rewrite !length_app in Hr; lia).
    apply (Hmin 0%nat (drop (length t) u)); [lia |]. cbn [take app].
    assert (take (length t) u = t) as Ht.
    { assert (u ++ s = t ++ r') as Happ by exact Hr'. apply (f_equal (take (length t))) in Happ. rewrite (take_app_le u s), take_app_length in Happ by done. exact Happ. }
    rewrite <- Ht at 1. by rewrite take_drop.
  - exfalso. eapply (proj1 (memmem_None _ _) Ej (take i u) (r ++ s)). rewrite Hr at 1. by rewrite <- !app_assoc.
Qed.

Lemma trim_end_app u n c : apk_blob_trim_end u c = u -> apk_blob_trim_end (u ++ replicate n c) c = u.
Proof.
  intros Hu. rewrite <- Hu at 2. unfold apk_blob_trim_end. clear Hu. induction u as [|x u IH].
  - simpl. induction n as [|n IH]; [done |]. simpl. by rewrite IH, Z.eqb_refl.
  - simpl. by rewrite IH.
Qed.

(** The variable of a word without variables is the word. *)
Lemma subst_plain {S} base (rp : apk_repoparser (S := S)) w : chr "$" ∉ w -> (length w < PATH_MAX)%nat ->
  subst base rp w = Some (Ok (Z.of_nat (length w), w ++ [0])).
Proof.
  intros Hd Hl. unfold subst, apk_blob_subst. cbn [subst_loop].
  rewrite (proj2 (apk_blob_split_None _ _)).
  - rewrite push_blob_push_blob. unfold pushbuf_new. rewrite push_blob_room by (rewrite length_app; simpl; lia).
    cbn [app]. rewrite length_app. simpl length. do 3 f_equal. lia.
  - intros l r ->. apply Hd. set_solver.
Qed.

(** A line: its type ([APK_REPOTYPE_OMITTED] for none), its tag, its URL without the slashes at the end
    and their number, and its components. *)
Record repo_line := mk_line {
  rl_type : repo_type;
  rl_tag : blob;
  rl_url : bytes;
  rl_slashes : nat;
  rl_components : list bytes;
}.

Definition keyword_of (type : repo_type) : list bytes :=
  match type with
  | APK_REPOTYPE_OMITTED => []
  | APK_REPOTYPE_NDX => [lit "ndx"]
  | APK_REPOTYPE_V2 => [lit "v2"]
  | APK_REPOTYPE_V3 => [lit "v3"]
  end.

Definition url_word (l : repo_line) : bytes := rl_url l ++ replicate (rl_slashes l) (chr "/").

(** The text of a line: any separators between the type, the tag, the URL and the first component, one blank
    between components. *)
Definition repo_text (gap : bytes) (l : repo_line) : bytes :=
  foldr (fun w rest => w ++ gap ++ rest)
    (url_word l ++ match rl_components l with [] => [] | ws => gap ++ words_text ws end)
    (keyword_of (rl_type l) ++ option_list (rl_tag l)).

(** The repositories that it names. *)
Definition repo_calls (l : repo_line) : list (bytes * option bytes * blob) :=
  let index := index_file_of (default_type (rl_type l) (url_word l)) in
  match rl_components l with
  | [] => [(rl_url l, index, rl_tag l)]
  | ws => (fun c => (path_join (rl_url l) c, index, rl_tag l)) <$> ws
  end.

(** A line that apk-repositories(5) allows, without variables. *)
Record line_ok (l : repo_line) : Prop := {
  lo_url : plain_word (url_word l);
  lo_scheme : is_url (rl_url l) = true;
  lo_trimmed : apk_blob_trim_end (rl_url l) (chr "/") = rl_url l;
  lo_head : nth 0 (rl_url l) 0 <> chr "@" /\ nth 0 (rl_url l) 0 <> chr "#";
  lo_tag : forall t, rl_tag l = Some t -> plain_word t /\ nth 0 t 0 = chr "@";
  lo_components : Forall plain_word (rl_components l);
  lo_length : (length (url_word l) + length (words_text (rl_components l)) + 3 < PATH_MAX)%nat;
  lo_ndx : default_type (rl_type l) (url_word l) = APK_REPOTYPE_NDX -> rl_components l = [];   (* apk-repositories(5): not valid with ndx *)
}.

(** The callback that records its calls. *)
Definition record_repository (log : list (bytes * option bytes * blob)) (url : bytes) (index_file : option bytes) (tag : blob)
    : outcome (Z * list (bytes * option bytes * blob)) := Ok (0, log ++ [(url, index_file, tag)]).

Lemma add_components_spec (rp : apk_repoparser (S := list (bytes * option bytes * blob))) pb p index tag ws :
  pb_holds pb p -> (length p + length (words_text ws) + 3 < PATH_MAX)%nat ->
  add_components record_repository rp pb index tag ws =
    Ok (0, mk_rp (rp_variables rp) (rp_line rp) (rp_state rp ++ ((fun c => (path_join p c, index, tag)) <$> ws))).
Proof.
  revert rp pb. induction ws as [|w ws IH]; intros rp pb Hpb Hl; cbn [add_components].
  { rewrite app_nil_r. by destruct rp. }
  assert (length w <= length (words_text (w :: ws)))%nat as Hw by (destruct ws; simpl; rewrite ?length_app; lia).
  assert (length (words_text ws) <= length (words_text (w :: ws)))%nat as Hws by (destruct ws; simpl; rewrite ?length_app; simpl; lia).
  destruct (pushb_spec pb p w Hpb) as (pb' & -> & Hp' & _ & Hpop); [lia |].
  rewrite (pb_get _ _ Hp'). unfold record_repository at 1. cbn [obind Z.eqb negb]. rewrite IH by (try done; lia).
  cbn [rp_variables rp_line rp_state]. by rewrite <- app_assoc.
Qed.

Section line.
Context (base : Z) (gap : bytes) (l : repo_line) (Hgap : gap_ok gap) (Hl : line_ok l).
Implicit Types rp : apk_repoparser (S := list (bytes * option bytes * blob)).

Abbreviation tail_text := (url_word l ++ match rl_components l with [] => [] | ws => gap ++ words_text ws end).

Lemma url_not_empty : rl_url l <> [].
Proof. intros He. pose proof (lo_scheme l Hl) as Hs. by rewrite He in Hs. Qed.

Lemma url_head : nth 0 (url_word l) 0 = nth 0 (rl_url l) 0.
Proof. unfold url_word. pose proof url_not_empty. by destruct (rl_url l). Qed.

Lemma url_word_is_url : is_url (url_word l) = true.
Proof.
  pose proof (lo_scheme l Hl) as Hs. unfold is_url in *. rewrite url_head. apply orb_prop in Hs as [Hs|Hs]; [by rewrite Hs |].
  apply orb_true_intro. right. apply Z.ltb_lt, contains_app. by apply Z.ltb_lt.
Qed.

Lemma tail_word : get_word tail_text = (true, url_word l, words_text (rl_components l)).
Proof.
  pose proof (lo_components l Hl) as Hc. destruct (rl_components l) as [|w ws] eqn:E.
  - rewrite app_nil_r. apply get_word_end, Hl.
  - apply get_word_gap; [apply Hl | done |]. by apply words_text_starts.
Qed.

Lemma plain_starts w rest : plain_word w -> starts_word (w ++ rest).
Proof. intros [Hne Hp]. destruct w as [|c w]; [done |]. by inversion Hp as [|? ? [Hc _] _]; subst. Qed.

Lemma parse_url_spec rp :
  parse_url record_repository base rp true (rl_type l) (rl_tag l) (url_word l) (words_text (rl_components l)) =
    Some (Ok (0, mk_rp (rp_variables rp) (rp_line rp) (rp_state rp ++ repo_calls l))).
Proof.
  destruct Hl as [[_ Hu] Hs Ht _ _ Hc Hlen _]. unfold parse_url.
  assert (chr "$" ∉ url_word l) as Hd by (intros Hin; rewrite Forall_forall in Hu; by destruct (Hu _ Hin)).
  rewrite (subst_plain base rp (url_word l) Hd) by lia. cbn [mbind option_bind].
  rewrite (proj2 (Z.ltb_ge _ _)) by lia. rewrite Nat2Z.id, take_app_length. assert (apk_blob_trim_end (url_word l) (chr "/") = rl_url l) as -> by (by apply trim_end_app).
  assert ((nth 0 (url_word l ++ [0]) 0 =? chr "/") || (0 <? apk_blob_contains (rl_url l) (lit "://")) = true) as ->.
  { unfold is_url in Hs. rewrite <- Hs. f_equal. f_equal. rewrite <- url_head. pose proof url_not_empty. unfold url_word. by destruct (rl_url l). }
  cbn [negb andb]. unfold repo_calls. destruct (rl_components l) as [|w ws] eqn:Ec; [done |].
  assert ((length (words_text (w :: ws)) =? 0)%nat = false) as ->.
  { inversion Hc as [|? ? [Hw _] _]; subst. apply Nat.eqb_neq. destruct w; [done |]. destruct ws; simpl; lia. }
  rewrite (subst_plain base rp _ (words_text_no_dollar _ Hc)) by lia. cbn [mbind option_bind obind].
  rewrite (proj2 (Z.ltb_ge _ _)) by lia. rewrite Nat2Z.id, take_app_length.
  assert (length (rl_url l) <= length (url_word l))%nat as Hle by (unfold url_word; rewrite length_app; lia).
  assert (pb_holds (mk_pb 0 (replicate PATH_MAX 0)) []) as Hpb by (split; [done | vm_compute; lia | exact (length_replicate PATH_MAX 0) | done]).
  unfold apk_pathbuilder_setb. destruct (pushb_spec _ _ (rl_url l) Hpb) as (pb & Hp & Hh & _ & _); [cbn [length]; lia |].
  cbn [pb_name]. rewrite Hp. f_equal. rewrite repo_foreach_words by done. apply add_components_spec; [done |]. cbn [path_join]. lia.
Qed.

(** After the keyword. *)
Lemma parse_tag_spec rp w rest :
  get_word (foldr (fun w rest => w ++ gap ++ rest) tail_text (option_list (rl_tag l))) = (true, w, rest) ->
  parse_tag record_repository base rp true (rl_type l) w rest =
    Some (Ok (0, mk_rp (rp_variables rp) (rp_line rp) (rp_state rp ++ repo_calls l))).
Proof.
  unfold parse_tag. intros Hg. rewrite <- parse_url_spec. pose proof (lo_tag l Hl) as Htag. destruct (rl_tag l) as [t|].
  - destruct (Htag t eq_refl) as [Hp Hh]. change (get_word (t ++ gap ++ tail_text) = (true, w, rest)) in Hg.
    rewrite get_word_gap in Hg by (try done; apply plain_starts, Hl). assert (w = t /\ rest = tail_text) as [-> ->] by (split; congruence). rewrite Hh, Z.eqb_refl. by rewrite tail_word.
  - change (get_word tail_text = (true, w, rest)) in Hg. rewrite tail_word in Hg. injection Hg as <- <-.
    rewrite url_head, (proj2 (Z.eqb_neq _ _)) by apply Hl. done.
Qed.
End line.

Lemma keyword_plain type w : w ∈ keyword_of type -> plain_word w /\ is_keyword w = true /\ nth 0 w 0 <> chr "#".
Proof.
  intros Hin. destruct type; cbn [keyword_of] in Hin; [by apply elem_of_nil in Hin | ..];
    apply list_elem_of_singleton in Hin as ->; (split; [split; [done | by repeat constructor] | done]).
Qed.

(** C27: A line of the repositories file with an optional type, an optional tag, a URL and, unless its type is
    [ndx], components names exactly the repositories of its components in their order (that of the URL when
    it has none): the component is joined to the URL without its last slashes, with the
    index file of the type, or of the URL where no type is given, and with the tag.  The words have no variables
    in them; any separators are between the type, the tag, the URL and the components, and one blank between
    two components. *)
Theorem repo_line_parsed base rp gap l :
  gap_ok gap -> line_ok l ->
  apk_repoparser_parse record_repository base rp (Some (repo_text gap l)) true =
    Some (Ok (0, mk_rp (rp_variables rp) (s32 (rp_line rp + 1)) (rp_state rp ++ repo_calls l))).
Proof.
  intros Hgap Hl. set (rp1 := mk_rp (rp_variables rp) (s32 (rp_line rp + 1)) (rp_state rp)).
  pose proof (fun w rest => parse_tag_spec base gap l Hgap Hl rp1 w rest) as Hparse. unfold repo_text.
  rewrite foldr_app. set (tag_text := foldr (fun w rest => w ++ gap ++ rest) _ (option_list (rl_tag l))) in *.
  assert (exists w rest, get_word tag_text = (true, w, rest) /\ starts_word tag_text /\
    (is_keyword w = false /\ exists c t, tag_text = c :: t /\ c <> chr "#")) as (w & rest & Hw & Hst & Hk & c & t & Ht & Hc).
  { unfold tag_text. pose proof (lo_tag l Hl) as Htag. destruct (rl_tag l) as [g|].
    - destruct (Htag g eq_refl) as [Hp Hh]. eexists _, _.
      split; [apply get_word_gap; [done | done | apply plain_starts, Hl] |]. split; [by apply plain_starts |].
      split; [unfold is_keyword; by rewrite Hh |]. destruct Hp as [Hp _]. destruct g as [|x g]; [done |]. simpl in Hh. subst x. by eexists _, _.
    - eexists _, _. split; [apply (tail_word gap l Hgap Hl) |]. split; [apply plain_starts, Hl |].
      split; [unfold is_keyword; rewrite (url_word_is_url l Hl); by case_match |].
      pose proof (lo_head l Hl) as [_ Hh]. rewrite <- (url_head l Hl) in Hh. destruct (lo_url l Hl) as [Hne _].
      change (foldr _ ?x (option_list None)) with x. destruct (url_word l) as [|x u]; [done |]. by eexists _, _. }
  clearbody tag_text. subst tag_text. destruct (keyword_of (rl_type l)) as [|k ks] eqn:Ek.
  - cbn [foldr]. unfold apk_repoparser_parse. fold rp1. rewrite (proj2 (Z.eqb_neq _ _) Hc). rewrite Hw. cbn [negb andb]. rewrite Hk.
    assert (rl_type l = APK_REPOTYPE_OMITTED) as Ho by (by destruct (rl_type l)). rewrite <- Ho. by apply Hparse.
  - assert (ks = []) as -> by (destruct (rl_type l); cbn in Ek; congruence). cbn [foldr].
    destruct (keyword_plain (rl_type l) k) as (Hp & Hkk & Hkh); [rewrite Ek; by left |].
    pose proof (get_word_gap k gap (c :: t) Hp Hgap Hst) as Hgk. unfold apk_repoparser_parse. fold rp1.
    destruct (k ++ gap ++ c :: t) as [|c0 t0] eqn:Ekt; [by destruct Hp; destruct k |].
    assert (c0 <> chr "#") as Hc0 by (destruct Hp; destruct k; [done |]; by injection Ekt as <- _).
    rewrite (proj2 (Z.eqb_neq _ _) Hc0), Hgk. cbn [negb andb]. rewrite Hkk.
    destruct (rl_type l) eqn:Et; cbn in Ek; (try done); injection Ek as <-; cbn -[get_word parse_tag]; rewrite Hw; by apply Hparse.
Qed.

Definition ex_line : repo_line := mk_line APK_REPOTYPE_V3 (Some (lit "@tag")) (lit "http://example.com") 1 [lit "main"; lit "community"].

Lemma repo_line_parsed_witness :
  apk_repoparser_parse record_repository 4096 (apk_repoparser_init []) (Some (lit "v3 @tag http://example.com/ main community")) true =
    Some (Ok (0, mk_rp (apk_hash_init 10) 1
      [(lit "http://example.com/main", Some (lit "Packages.adb"), Some (lit "@tag"));
       (lit "http://example.com/community", Some (lit "Packages.adb"), Some (lit "@tag"))])).
Proof.
  apply (repo_line_parsed 4096 (apk_repoparser_init []) (lit " ") ex_line).
  - split; [done | by repeat constructor].
  - split.
    + split; [done |]. by repeat constructor.
    + by vm_compute.
    + by vm_compute.
    + done.
    + intros t [= <-]. split; [split; [done | by repeat constructor] | done].
    + repeat (constructor; [split; [done | by repeat constructor] |]). constructor.
    + vm_compute. lia.
    + by vm_compute.
Defined.

(** ** A file *)

Fixpoint parse_lines (rp : apk_repoparser (S := list (bytes * option bytes * blob))) (lines : list bytes)
    : option (outcome (list Z * apk_repoparser (S := list (bytes * option bytes * blob)))) :=
  match lines with
  | [] => Some (Ok ([], rp))
  | line :: lines =>
      r ← apk_repoparser_parse record_repository 4096 rp (Some line) true;
      match r with
      | Fault => Some Fault
      | Ok (r, rp) => rest ← parse_lines rp lines; Some (let! (rs, rp) := rest in Ok (r :: rs, rp))
      end
  end.

(** The results and the URLs of a file with variables. *)
Definition file_result (lines : list bytes) : option (list Z * list bytes) :=
  match parse_lines (apk_repoparser_init []) lines with
  | Some (Ok (rs, rp)) => Some (rs, (fun x => x.1.1) <$> rp_state rp)
  | _ => None
  end.

Example repoparser_variables :
  file_result
    [lit "set -unknown mirror=alpine.org"; lit "set -default mirror=alpine.org"; lit "http://${mirror}/main";
     lit "set mirror=example.com"; lit "http://${mirror}/main"; lit "set -default mirror=alpine.org"; lit "http://${mirror}/main";
     lit "http://${undefined}/main"; lit "set mirror=${mirror}/alpine"; lit "set comp=main community testing"; lit "set var-foo=bad-name";
     lit "set APK_FOO=reserved"; lit "http://${mirror}/ ${comp}"; lit "v2 foobar main"]
  = Some ([- APKE_REPO_SYNTAX; 0; 0; 0; 0; 0; 0; - APKE_REPO_VARIABLE; 0; 0; - APKE_REPO_VARIABLE; - APKE_REPO_VARIABLE; 0; - APKE_REPO_SYNTAX],
      [lit "http://alpine.org/main"; lit "http://example.com/main"; lit "http://example.com/main"; lit "http://example.com/alpine/main";
       lit "http://example.com/alpine/community"; lit "http://example.com/alpine/testing"]).
Proof. by vm_compute. Qed.
